(* ===== verification/_CoqProject ===== *)
-Q . S2P
Prelude.v
VoiceErrors.v
Text.v
Rtp.v
Crypto.v
Protection.v
Discovery.v
Udp.v
DaveWire.v
Json.v
Protocol.v
Gateway.v
OpusQueue.v
WebmDemux.v
Position.v
Pacer.v
Selector.v
Normalizer.v
HttpStream.v
Recovery.v
Worker.v
DeadlineSender.v
Egress.v
Task.v
SessionState.v
Commands.v
Interleaving.v
CommandSpecs.v
DaveSession.v
Endpoint.v
Handshake.v
ConnectedSession.v
SessionFrame.v
DaveMachine.v
DaveSafety.v
SessionContract.v
HandshakeSpecs.v
Observer.v
ObserverSpecs.v
Metrics.v
MetricsSpecs.v
MediaDriver.v
DriverSpecs.v
DriverRuns.v
ControlProto.v
MetricsTransport.v
ControlService.v
Twilight.v
ControlSpecs.v
Service.v
Anyhow.v
Timeline.v
AudioObserver.v
AudioSpecs.v
LiveContract.v
PlaybackValidator.v
ValidatorSpecs.v
EvidenceSpecs.v
ObserverProofs.v
ProofSpecs.v
HealthyRun.v
LiveRun.v
LiveRunSpecs.v
Evidence.v
Staging.v
Report.v
ReportSpecs.v
