(* ===== verification/Prelude.v ===== *)
(** * Verification of discord-voice-service: overview and prelude

    ** The program

    discord-voice-service plays music into Discord voice channels. Two crates
    carry the data paths, a third joins them, a fourth is the client:

    - crates/discord-voice-service-playback resolves a track to a URL
      (ytmusic_client.rs, selector.rs), reads it over HTTP with resumption
      (media/http_stream.rs), demuxes WebM (media/webm_demux.rs), normalizes
      the Opus packets to 20 ms stereo frames (media/opus_normalizer.rs),
      keeps the position (media/position.rs), recovers from failures
      (source.rs, recovery.rs) and fills bounded queues (worker.rs,
      media/opus_queue.rs); pacer.rs keeps time;
    - crates/discord-voice-service-voice speaks Discord's voice protocol:
      gateway messages (protocol.rs), address discovery (discovery.rs), mode
      negotiation (crypto.rs), RTP (rtp.rs), packet protection (protection.rs),
      the UDP transport (udp.rs, speaking.rs), the gateway client (gateway.rs,
      ws.rs), DAVE end-to-end encryption (dave/), connecting (handshake.rs),
      the connected session (session.rs) and observing a channel (receive.rs);
    - crates/discord-voice-service-runtime holds one voice session, executes
      the commands on it (session/runtime.rs, state.rs, readiness.rs,
      events.rs), and moves frames from the worker to the wire: a producer task
      fills the source buffer, the live media driver moves frames through the
      egress buffer and the prepared playout queue (session/runtime.rs), and
      the deadline sender sends one packet per interval
      (session/deadline_sender.rs); session/metrics.rs measures the playback
      and api/service.rs offers commands, state, events and metrics over gRPC;
    - crates/discord-voice-service-twilight is the client for bots written with
      Twilight, crates/discord-voice-service-proto the messages of the API;
    - crates/discord-voice-service-live-validation judges a run of the service
      against Discord: it listens to the channel (audio.rs), follows the events
      of the session (contract.rs) and checks the published playback metrics
      against the raw evidence they were computed from (controller.rs).

    ** Files

    The files are listed in dependency order.

    - Prelude.v: results, the state and error monad, machine integers, bytes,
      shared lemmas and automation. Text.v: the string functions of the
      standard library the sources use. Json.v: serde_json values.
    - VoiceErrors.v: error.rs of the voice crate.
    - Rtp.v: rtp.rs; [RtpHeader], the builder, [parse_rtp_header] and
      [RtpSequenceState] under their names.
    - Crypto.v: crypto.rs. Protection.v: protection.rs, over the class [Aead].
    - Discovery.v: discovery.rs; the socket's datagrams are arguments.
    - Udp.v: udp.rs and the stop silence of speaking.rs; [transport_step] is the
      step relation of a transport, [reachable] its closure.
    - DaveWire.v: dave/wire.rs and dave/error.rs.
    - Protocol.v: protocol.rs, one reader per opcode, over JSON values.
    - Gateway.v: gateway.rs, ws.rs and resume.rs; the socket's items and answers
      are arguments, URIs are the class [HttpUri].
    - OpusQueue.v: media/opus_queue.rs and the playback crate's error.rs.
    - WebmDemux.v: media/webm_demux.rs over the class [WebmIterable], which
      stands for the EBML tag iterator of the webm_iterable crate.
    - Position.v: media/position.rs. Pacer.v: pacer.rs, with the readings of the
      clock as arguments. Selector.v: selector.rs and ytmusic_client.rs.
    - Normalizer.v: media/opus_normalizer.rs over the class [OpusCodec].
    - HttpStream.v: media/http_stream.rs; a server is a function from the URL
      and the Range header to a response, whose body is a list of events
      (bytes, stall, error).
    - Recovery.v: source.rs and recovery.rs; the [World] holds the servers still
      to answer, the answers of the music service and the shared position
      cells, so that a position shared by worker and source is one cell.
    - Worker.v: worker.rs.
    - DeadlineSender.v: session/deadline_sender.rs; the trait [PreparedUdpSink] is
      a class whose instance is the UDP sender of Udp.v.
    - Egress.v: the producer task, the three stages and the interruption,
      refill and accounting functions of session/runtime.rs.
    - Task.v: asynchronous tasks as programs over shared state that ask an
      environment what they await, their weakest preconditions ([wp]), what
      they can do ([may], [every], [leaves]), and pools of interleaved tasks.
    - SessionState.v: the snapshot, the admission checks and the events of the
      runtime. Commands.v: every command of session/runtime.rs as a task, over
      the class [VoiceSession]. Interleaving.v: what holds in every interleaving
      of commands; CommandSpecs.v: what each command does on its own.
    - DaveSession.v: dave/session.rs and dave/external_sender.rs over the class
      [Davey], the MLS library. Endpoint.v: the URL part of handshake.rs.
      Handshake.v: the rest of handshake.rs. ConnectedSession.v: session.rs and
      rollover.rs. Observer.v: receive.rs.
    - SessionFrame.v, DaveMachine.v, DaveSafety.v: the DAVE state machine of the
      connected session. SessionContract.v: the connected session is an
      instance of [VoiceSession] and answers as the commands assume.
      HandshakeSpecs.v, ObserverSpecs.v: theorems on Handshake.v and Observer.v.
    - Metrics.v: session/metrics.rs and what each message of the pipeline
      records. MetricsSpecs.v: theorems on it.
    - MediaDriver.v: the live media driver of session/runtime.rs, its loop, its
      commands and its deadline sender, over the stages of Egress.v.
      DriverSpecs.v: its invariant, as Hoare triples of its operations.
      DriverRuns.v: what follows for whole runs.
    - ControlProto.v: the messages of control.proto. MetricsTransport.v: the
      metrics as a message and as the client's snapshot. ControlService.v: the
      requests of api/service.rs and observability.rs. Twilight.v: the client
      crate discord-voice-service-twilight, over the classes [TwilightModel],
      [ControlApi] and [MessageSender]. ControlSpecs.v: theorems on the client,
      the service and the session runtime together.
    - Service.v: config.rs and lib.rs of the binary.
    - Anyhow.v: the errors of live validation. Timeline.v: stretches of timed
      packets, their time on air, intervals and rolling windows, which the
      collector, the observer and the validator measure in different ways.
    - AudioObserver.v: audio.rs, floats as IEEE 754 numbers, over the class
      [OpusDecoderApi]. AudioSpecs.v: theorems on it.
    - LiveContract.v: the contract state of contract.rs and the probe checks of
      controller.rs, with the transition system [contract_step] it refines.
    - PlaybackValidator.v: the checks of controller.rs on playback metrics and
      observer statistics, over the class [DepthSort]. ValidatorSpecs.v: its
      recomputation against the collector of Metrics.v. EvidenceSpecs.v: what
      its checks of the raw events say. HealthyRun.v: metrics it accepts.
    - ObserverProofs.v: the observer's task of controller.rs with its proofs of
      a pause and of a resume. ProofSpecs.v: theorems on it.
    - LiveRun.v: the controller's side of a run: the playback with its pause,
      the probes with the tasks that play for them, the metrics and the
      coverage. LiveRunSpecs.v: theorems on it.
    - Evidence.v: the evidence records of contract.rs and how metrics become
      evidence. Staging.v: config.rs of the tool, with the parsers of [u64] and
      [f64]. Report.v: the end of controller.rs, evidence of success and failure
      and the class of a failure, and Module [Ci], the check that the pipeline
      makes of the evidence (scripts/ci/validate_live_staging_evidence.py).
      ReportSpecs.v: theorems on them.

    ** How the code is modelled

    Functions that can fail return [result]; a panic (an index out of range,
    [expect] on an error) is the value [Panic]. Methods on [&mut self] that can
    fail are in the monad [stm], which keeps the state as the code left it when
    it returned the error. Integers are [Z] with wrap-around and saturation
    written out. What the program asks of the outside (sockets, HTTP servers,
    clocks, the ciphers, the codec, the EBML parser, the JSON parser) is an
    argument or a class; the laws a theorem needs of it are named classes
    ([AeadLaws], [OpusCodecLaws], [WebmStream], [WebmNoPanic],
    [PreparedUdpSinkLaws]), each with a concrete instance in the development.

    Loops that are not structural take fuel, and running out of it is [Panic]:
    [skip_to_resume] and [fill_loop] (any fuel above the bound that
    [open_from_position_terminates] and [fill_terminates] show to exist),
    [emit_frames] (the length of the pending PCM), [refill_loop], [drain_prepared],
    [drain_queue] and [transfer] (the number of queued frames, shown to be
    enough where they are used), [pump], [drain_outcomes], [refill_turns] and
    [prepare_frames] (a stage has room for at most so many frames;
    [driver_plays_in_order] shows that none of them runs out). [turns] takes
    the number of turns of the driver's loop, and its theorems hold for all. The
    loops of LiveRun.v take fuel too, those of ObserverProofs.v what each turn
    receives; both are still waiting when it runs out ([Waiting], [None]), and
    their theorems hold for all amounts. Shared buffers behind a lock are explicit
    state: the producer's two critical sections are two definitions,
    [producer_plan] and [producer_store], between which the buffer may change.

    Asynchronous code is a task ([prog] of Task.v): an access to the shared
    state is one step, everything awaited (the gateway, sockets, the resolver,
    timers, the media driver) is a question that any answer allowed by [Valid]
    may follow. Loops with a deadline take the number of events that arrive
    before it as an argument and are stated for all such numbers; sleeps and
    back-off delays between polls are not modelled, nor is the cancellation of
    a task at an await.

    ** What is shown

    - Bytes on the wire: packets round trip through the builder and parser,
      through protection, and through gateway and DAVE framing; parsers are
      total; heartbeats acknowledge the last message; nonces are never reused, also when packets are rebuilt; RTP
      cursors on the wire are continuous whatever is discarded.
    - The stream: bytes delivered by the resumable HTTP stream, also across
      recovery, are a prefix of the resource; demuxing does not depend on chunk
      boundaries; a resumed track starts exactly at the resume position.
    - Frames: the normalizer's output is a gapless grid; filling keeps order;
      the bounded queues refine lists; the producer neither overfills the
      source buffer nor ends early; an interruption puts every frame back.
    - Time: the pacer and the deadline sender never send faster than real time.
    - Termination: opening, filling, refilling.
    - Commands: in every interleaving the published snapshot is well formed and
      an interrupted playback changes nothing any more; a refused command
      changes nothing; the voice session is never lost; a rollover replaces the
      session or gives up the track.
    - DAVE: the group of a session is always in one place; media is prepared in
      the clear only when no group was negotiated; a session that failed closed
      is silent; draining events is bounded; a refused commit is recovered from.
    - Connecting: a handshake hands over one group for the negotiated version,
      leaks no heartbeat task and writes only what the protocol asks for.
    - The driver: between the producer, the thread of the deadline sender and
      the commands, frames are reported as sent in order, without gap or
      repetition; its consistency checks never fail; a natural end is complete.
    - Metrics: the deficit is what was dropped and not rebuilt, playback that is
      paced is never called fast, streaks of late packets are the longest runs.
    - The API: requests that lack a field never reach the session, others become
      exactly their command; state, events and metrics arrive at the client as
      they were published; the tracker reports the voice context of the last
      gateway events exactly when it changes.
    - Observing: every frame handed out comes from an authenticated packet of
      the user asked for.
    - Judging: the observer accepts what the transport puts on the wire and its
      statistics are the measures of the packets it heard; a run it accepts was
      heard, a pause it proves was silent and a resume it proves was heard; a
      playback that completes happened in order, and the probes interrupted
      playbacks that were playing and leave none running; the evidence keeps the
      metrics it is made from, reports the longest silence that was sent, tells
      how the run ended, and passes the check of the pipeline when the run was
      accepted; the order check of the send events is exact; what the
      validator recomputes from the raw events is what the collector counted
      packet by packet (for send times in whole microseconds, see below).

    Some theorems record behaviour that the code does not intend:
    [block_timestamp_wraps] (WebmDemux.v), [enqueue_reorders] (Worker.v),
    [replace_ignores_itag] (Recovery.v), [flush_takes_error] with
    [lost_error_never_ends] (Egress.v), [leave_does_not_cancel_join] and
    [join_and_stop_deadlock] (Interleaving.v),
    [close_during_transition_sends_plaintext] (DaveSafety.v),
    [join_misses_presence] and [join_keeps_departed] (HandshakeSpecs.v),
    [silence_credits_expected_user] and [failed_rejoin_disables_dave]
    (ObserverSpecs.v), [hurried_resume_ends_playback] and
    [pause_repeats_sent_packet] (DriverRuns.v),
    [rounding_rejects_healthy_playback] (ValidatorSpecs.v),
    [early_play_end_panics] (LiveRunSpecs.v), [pause_failures_misclassified]
    (ReportSpecs.v).

    ** What is not modelled

    The set-up and clean-up of a live-validation run (connecting to Discord,
    joining, leaving), writing its evidence as JSON and the fakes of the test
    support are not modelled: they are I/O. gRPC, protocol buffer encoding, TLS, HTTP and
    WebSocket transports, the ciphers, the codec, the MLS library and the EBML
    parser are other people's code. Log output and metrics sampled from the
    clock (fill durations) are left out. *)

From stdpp Require Import prelude list strings.
From Stdlib Require Import ZArith Lia.

#[global] Open Scope Z_scope.

(** ** Results of fallible Rust code *)

(** [Ok] and [Err] are the two values of Rust's [Result]; [Panic] is an
    aborted computation (an index or a slice out of range, [expect] on an
    error), so that "this function cannot panic" is a statement about it. *)
Inductive result (E A : Type) : Type :=
| Ok (a : A)
| Err (e : E)
| Panic.
Arguments Ok {E A} a.
Arguments Err {E A} e.
Arguments Panic {E A}.

#[global] Instance result_ret {E} : MRet (result E) := fun A a => Ok a.

#[global] Instance result_bind {E} : MBind (result E) := fun A B f m =>
  match m with Ok a => f a | Err e => Err e | Panic => Panic end.

#[global] Instance result_fmap {E} : FMap (result E) := fun A B f m =>
  match m with Ok a => Ok (f a) | Err e => Err e | Panic => Panic end.

Definition no_panic {E A} (r : result E A) : Prop :=
  match r with Panic => False | _ => True end.

(** [Option::ok_or] *)
Definition ok_or {E A} (o : option A) (e : E) : result E A :=
  match o with Some a => Ok a | None => Err e end.

(** [Result::map_err] *)
Definition map_err {E F A} (f : E -> F) (r : result E A) : result F A :=
  match r with Ok a => Ok a | Err e => Err (f e) | Panic => Panic end.

(** [Result::ok] (a panic is not a value and has no [ok]). *)
Definition ok {E A} (r : result E A) : option A :=
  match r with Ok a => Some a | _ => None end.

(** [iter().map(f).collect::<Result<Vec<_>, _>>()]: the first error wins. *)
Fixpoint collect {E A B} (f : A -> result E B) (l : list A) : result E (list B) :=
  match l with
  | [] => Ok []
  | a :: l' =>
      match f a with
      | Ok b => match collect f l' with
                | Ok bs => Ok (b :: bs)
                | Err e => Err e
                | Panic => Panic
                end
      | Err e => Err e
      | Panic => Panic
      end
  end.

(** ** Methods on [&mut self] that can fail *)

(** The state after the call and its result: an error leaves the state as the
    code had changed it when it returned. *)
Definition stm (S E A : Type) : Type := S -> S * result E A.

#[global] Instance stm_ret {S E} : MRet (stm S E) := fun A a s => (s, Ok a).

#[global] Instance stm_bind {S E} : MBind (stm S E) := fun A B f m s =>
  match m s with
  | (s', Ok a) => f a s'
  | (s', Err e) => (s', Err e)
  | (s', Panic) => (s', Panic)
  end.

Definition lift {S E A} (r : result E A) : stm S E A := fun s => (s, r).
Definition gets {S E A} (f : S -> A) : stm S E A := fun s => (s, Ok (f s)).
Definition modify {S E} (f : S -> S) : stm S E unit := fun s => (f s, Ok tt).
Definition fail {S E A} (e : E) : stm S E A := fun s => (s, Err e).

(** [m] leaves the view [P] of the state as it was. *)
Definition keeps {S E A X} (P : S -> X) (m : stm S E A) : Prop := forall s, P (fst (m s)) = P s.

(** ** Machine integers *)

Definition u8_max : Z := 2 ^ 8 - 1.
Definition u16_max : Z := 2 ^ 16 - 1.
Definition u32_max : Z := 2 ^ 32 - 1.
Definition u64_max : Z := 2 ^ 64 - 1.
Definition u128_max : Z := 2 ^ 128 - 1.
Definition usize_max : Z := u64_max.
Definition i64_max : Z := 2 ^ 63 - 1.

(** [x] is a value of the unsigned type whose largest value is [m]. *)
Definition in_uint (m x : Z) : Prop := 0 <= x <= m.

(** Conversion with truncation ([as], [wrapping_add], [fetch_add]). *)
Definition wrap (w : Z) (x : Z) : Z := x mod 2 ^ w.
Definition wrapping_add (w a b : Z) : Z := wrap w (a + b).
Definition wrapping_mul (w a b : Z) : Z := wrap w (a * b).

(** Saturating arithmetic at the type whose largest value is [m]. *)
Definition sat_add (m a b : Z) : Z := Z.min m (a + b).
Definition sat_sub (a b : Z) : Z := Z.max 0 (a - b).
Definition sat_mul (m a b : Z) : Z := Z.min m (a * b).

(** [try_from]/[try_into] to the type whose largest value is [m]. *)
Definition try_uint (m x : Z) : option Z := if x <=? m then Some x else None.

(** ** Bytes, slices and big-endian integers *)

Definition zlen {A} (l : list A) : Z := Z.of_nat (length l).

Definition is_byte (b : Z) : Prop := 0 <= b < 256.
Definition bytes_ok (l : list Z) : Prop := Forall is_byte l.

(** [l[i]]: panics out of range. *)
Definition index {E A} (l : list A) (i : Z) : result E A :=
  if i <? 0 then Panic
  else match l !! Z.to_nat i with Some x => Ok x | None => Panic end.

(** [&l[..n]] and [&l[n..]]: panic out of range; [l.get(n..)] is an option. *)
Definition slice_to {E A} (l : list A) (n : Z) : result E (list A) :=
  if (0 <=? n) && (n <=? zlen l) then Ok (take (Z.to_nat n) l) else Panic.
Definition slice_from {E A} (l : list A) (n : Z) : result E (list A) :=
  if (0 <=? n) && (n <=? zlen l) then Ok (drop (Z.to_nat n) l) else Panic.
Definition get_from {A} (l : list A) (n : Z) : option (list A) :=
  if (0 <=? n) && (n <=? zlen l) then Some (drop (Z.to_nat n) l) else None.
Definition split_at {E A} (l : list A) (n : Z) : result E (list A * list A) :=
  if (0 <=? n) && (n <=? zlen l)
  then Ok (take (Z.to_nat n) l, drop (Z.to_nat n) l) else Panic.

(** [uN::to_be_bytes], [n] bytes, and [uN::from_be_bytes]. *)
Fixpoint to_be_bytes (n : nat) (x : Z) : list Z :=
  match n with
  | O => []
  | S n' => to_be_bytes n' (x / 256) ++ [x mod 256]
  end.

Definition from_be_bytes (l : list Z) : Z :=
  fold_left (fun acc b => acc * 256 + b) l 0.

(** Sum of a measure over a list. *)
Definition sum_by {A} (f : A -> Z) (l : list A) : Z :=
  fold_right (fun a acc => f a + acc) 0 l.

(** ** Lemmas: results *)

Lemma bind_Ok {E A B} (f : A -> result E B) (m : result E A) b :
  m ≫= f = Ok b <-> exists a, m = Ok a /\ f a = Ok b.
Proof.
  destruct m as [a| |]; simpl; split; try done.
  - intros H. by exists a.
  - by intros (x & [= <-] & H).
  - by intros (x & H & _).
  - by intros (x & H & _).
Qed.

Lemma no_panic_bind {E A B} (f : A -> result E B) (m : result E A) :
  no_panic m -> (forall a, m = Ok a -> no_panic (f a)) -> no_panic (m ≫= f).
Proof. destruct m; simpl; auto. Qed.

Lemma no_panic_ok_or {E A} (o : option A) (e : E) : no_panic (ok_or o e).
Proof. by destruct o. Qed.

Lemma no_panic_map_err {E F A} (f : E -> F) (r : result E A) :
  no_panic r -> no_panic (map_err f r).
Proof. by destruct r. Qed.

Lemma no_panic_collect {E A B} (f : A -> result E B) l :
  (forall a, a ∈ l -> no_panic (f a)) -> no_panic (collect f l).
Proof.
  induction l as [|a l IH]; intros H; simpl; [done|].
  assert (no_panic (f a)) by (apply H; left).
  destruct (f a); simpl in *; try done.
  assert (no_panic (collect f l)) by (apply IH; intros; apply H; by right).
  by destruct (collect f l).
Qed.

Lemma collect_Ok_Forall2 {E A B} (f : A -> result E B) l bs :
  collect f l = Ok bs <-> Forall2 (fun a b => f a = Ok b) l bs.
Proof.
  revert bs; induction l as [|a l IH]; intros bs; simpl.
  - split; [intros [= <-]; constructor | by inversion 1].
  - split.
    + destruct (f a) eqn:Ha; try done. destruct (collect f l) eqn:Hl; try done.
      intros [= <-]. constructor; [done|]. by apply IH.
    + inversion 1 as [|? b ? bs' Hb Hbs]; subst. rewrite Hb.
      apply IH in Hbs. by rewrite Hbs.
Qed.

Lemma keeps_bind {S E A B X} (P : S -> X) (m : stm S E A) (f : A -> stm S E B) :
  keeps P m -> (forall a, keeps P (f a)) -> keeps P (m ≫= f).
Proof.
  intros Hm Hf s. unfold mbind, stm_bind. specialize (Hm s).
  destruct (m s) as [s' [a| |]]; cbn in *; [|done|done]. by rewrite Hf.
Qed.

Lemma keeps_gets {S E A X} (P : S -> X) (g : S -> A) : keeps P (gets (E:=E) g).
Proof. done. Qed.
Lemma keeps_ret {S E A X} (P : S -> X) (a : A) : keeps P (mret a : stm S E A).
Proof. done. Qed.
Lemma keeps_lift {S E A X} (P : S -> X) (r : result E A) : keeps P (lift (S:=S) r).
Proof. done. Qed.

Lemma stm_bind_Ok {S E A B} (f : A -> stm S E B) (m : stm S E A) s s' b :
  (m ≫= f) s = (s', Ok b) <-> exists s1 a, m s = (s1, Ok a) /\ f a s1 = (s', Ok b).
Proof.
  unfold mbind, stm_bind. destruct (m s) as [s1 [a| |]]; split; try done.
  - intros H. by exists s1, a.
  - by intros (? & ? & [= <- <-] & H).
  - by intros (? & ? & ? & _).
  - by intros (? & ? & ? & _).
Qed.

(** ** Lemmas: lengths, slices and indices *)

Lemma zlen_nonneg {A} (l : list A) : 0 <= zlen l.
Proof. unfold zlen. lia. Qed.

Lemma zlen_nil {A} : zlen (@nil A) = 0.
Proof. done. Qed.

Lemma zlen_cons {A} (a : A) l : zlen (a :: l) = 1 + zlen l.
Proof. unfold zlen. simpl. lia. Qed.

Lemma zlen_app {A} (l k : list A) : zlen (l ++ k) = zlen l + zlen k.
Proof. unfold zlen. rewrite length_app. lia. Qed.

Lemma zlen_drop {A} (l : list A) n :
  0 <= n <= zlen l -> zlen (drop (Z.to_nat n) l) = zlen l - n.
Proof. unfold zlen. rewrite length_drop. lia. Qed.

Lemma zlen_take {A} (l : list A) n :
  0 <= n <= zlen l -> zlen (take (Z.to_nat n) l) = n.
Proof. unfold zlen. rewrite length_take. lia. Qed.

Lemma index_ok {E A} (l : list A) i :
  0 <= i < zlen l -> exists x, @index E A l i = Ok x /\ x ∈ l.
Proof.
  intros [Hi Hl]. unfold index. destruct (Z.ltb_spec i 0); [lia|].
  destruct (lookup_lt_is_Some_2 l (Z.to_nat i)) as [x Hx]; [unfold zlen in Hl; lia|].
  rewrite Hx. exists x. split; [done|]. by apply list_elem_of_lookup_2 in Hx.
Qed.

Lemma no_panic_index {E A} (l : list A) i :
  0 <= i < zlen l -> no_panic (@index E A l i).
Proof. intros H. by destruct (@index_ok E A l i H) as (x & -> & _). Qed.

Lemma slice_to_ok {E A} (l : list A) n :
  0 <= n <= zlen l -> @slice_to E A l n = Ok (take (Z.to_nat n) l).
Proof.
  intros H. unfold slice_to.
  by rewrite (proj2 (Z.leb_le 0 n)), (proj2 (Z.leb_le n (zlen l))) by lia.
Qed.

Lemma slice_from_ok {E A} (l : list A) n :
  0 <= n <= zlen l -> @slice_from E A l n = Ok (drop (Z.to_nat n) l).
Proof.
  intros H. unfold slice_from.
  by rewrite (proj2 (Z.leb_le 0 n)), (proj2 (Z.leb_le n (zlen l))) by lia.
Qed.

Lemma get_from_ok {A} (l : list A) n :
  0 <= n <= zlen l -> get_from l n = Some (drop (Z.to_nat n) l).
Proof.
  intros H. unfold get_from.
  by rewrite (proj2 (Z.leb_le 0 n)), (proj2 (Z.leb_le n (zlen l))) by lia.
Qed.

Lemma split_at_ok {E A} (l : list A) n :
  0 <= n <= zlen l ->
  @split_at E A l n = Ok (take (Z.to_nat n) l, drop (Z.to_nat n) l).
Proof.
  intros H. unfold split_at.
  by rewrite (proj2 (Z.leb_le 0 n)), (proj2 (Z.leb_le n (zlen l))) by lia.
Qed.

Lemma split_at_app {E A} (l k : list A) :
  @split_at E A (l ++ k) (zlen l) = Ok (l, k).
Proof.
  rewrite split_at_ok by (rewrite zlen_app; pose proof (zlen_nonneg k);
                          pose proof (zlen_nonneg l); lia).
  unfold zlen. by rewrite Nat2Z.id, take_app_length, drop_app_length.
Qed.

(** ** Lemmas: big-endian integers *)

Lemma to_be_bytes_length n x : length (to_be_bytes n x) = n.
Proof.
  revert x; induction n as [|n IH]; intros x; simpl; [done|].
  rewrite length_app, IH. simpl. lia.
Qed.

Lemma zlen_to_be_bytes n x : zlen (to_be_bytes n x) = Z.of_nat n.
Proof. unfold zlen. by rewrite to_be_bytes_length. Qed.

Lemma to_be_bytes_ok n x : bytes_ok (to_be_bytes n x).
Proof.
  revert x; induction n as [|n IH]; intros x; simpl; [constructor|].
  apply Forall_app_2; [apply IH|]. constructor; [|constructor].
  apply Z.mod_pos_bound. lia.
Qed.

Lemma from_be_bytes_snoc l b :
  from_be_bytes (l ++ [b]) = from_be_bytes l * 256 + b.
Proof. unfold from_be_bytes. by rewrite fold_left_app. Qed.

(** Decoding the big-endian bytes of [x] gives [x] back, truncated to the
    width that was encoded. *)
Lemma from_to_be_bytes_wrap n x :
  from_be_bytes (to_be_bytes n x) = x mod 256 ^ Z.of_nat n.
Proof.
  revert x; induction n as [|n IH]; intros x.
  - simpl. by rewrite Z.mod_1_r.
  - cbn [to_be_bytes]. rewrite from_be_bytes_snoc, IH.
    rewrite Nat2Z.inj_succ, Z.pow_succ_r by lia.
    rewrite Z.rem_mul_r by lia. lia.
Qed.

Lemma from_to_be_bytes n x :
  0 <= x < 256 ^ Z.of_nat n -> from_be_bytes (to_be_bytes n x) = x.
Proof. intros H. rewrite from_to_be_bytes_wrap. by apply Z.mod_small. Qed.

Lemma from_be_bytes_bound l :
  bytes_ok l -> 0 <= from_be_bytes l < 256 ^ zlen l.
Proof.
  induction l as [|b l IH] using rev_ind; intros Hl; [done|].
  apply Forall_app in Hl as [Hl Hb]. apply Forall_cons_1 in Hb as [Hb _].
  rewrite from_be_bytes_snoc, zlen_app. specialize (IH Hl).
  change (zlen [b]) with 1. rewrite Z.pow_add_r by (pose proof (zlen_nonneg l); lia).
  unfold is_byte in Hb. rewrite Z.pow_1_r.
  generalize dependent (256 ^ zlen l). intros p Hp. nia.
Qed.

Lemma to_from_be_bytes l :
  bytes_ok l -> to_be_bytes (length l) (from_be_bytes l) = l.
Proof.
  induction l as [|b l IH] using rev_ind; intros Hl; [done|].
  apply Forall_app in Hl as [Hl Hb]. apply Forall_cons_1 in Hb as [Hb _].
  rewrite length_app, Nat.add_comm, from_be_bytes_snoc. cbn [length Nat.add to_be_bytes].
  unfold is_byte in Hb.
  rewrite Z.div_add_l, (Z.div_small b 256), Z.add_0_r by lia. rewrite (IH Hl).
  by rewrite Z.add_comm, Z.mod_add, Z.mod_small by lia.
Qed.

(** ** Lemmas: sums *)

Lemma sum_by_nil {A} (f : A -> Z) : sum_by f [] = 0.
Proof. done. Qed.

Lemma sum_by_cons {A} (f : A -> Z) a l : sum_by f (a :: l) = f a + sum_by f l.
Proof. done. Qed.

#[global] Arguments sum_by : simpl never.
#[global] Arguments zlen : simpl never.
#[global] Arguments try_uint : simpl never.

Lemma sum_by_app {A} (f : A -> Z) l k :
  sum_by f (l ++ k) = sum_by f l + sum_by f k.
Proof. induction l as [|a l IH]; [done|]. cbn [app]. rewrite !sum_by_cons. lia. Qed.

Lemma sum_by_nonneg {A} (f : A -> Z) l :
  (forall a, a ∈ l -> 0 <= f a) -> 0 <= sum_by f l.
Proof.
  induction l as [|a l IH]; intros H; [done|]. rewrite sum_by_cons.
  assert (0 <= f a) by (apply H; left).
  assert (0 <= sum_by f l) by (apply IH; intros; apply H; by right). lia.
Qed.

Lemma sum_by_ext {A B} (f : A -> Z) (g : B -> Z) (h : A -> B) l :
  (forall a, g (h a) = f a) -> sum_by g (map h l) = sum_by f l.
Proof.
  intros H. induction l as [|a l IH]; [done|]. cbn [map]. by rewrite !sum_by_cons, IH, H.
Qed.

(** ** Lemmas: machine integers *)

Lemma wrap_small w x : 0 <= x < 2 ^ w -> wrap w x = x.
Proof. apply Z.mod_small. Qed.

Lemma wrap_bound w x : 0 <= w -> 0 <= wrap w x < 2 ^ w.
Proof. intros H. apply Z.mod_pos_bound. by apply Z.pow_pos_nonneg. Qed.

Lemma wrapping_add_assoc w a b c :
  0 <= w -> wrapping_add w (wrapping_add w a b) c = wrap w (a + b + c).
Proof.
  intros H. unfold wrapping_add, wrap.
  rewrite Z.add_mod_idemp_l; [done|]. pose proof (Z.pow_pos_nonneg 2 w). lia.
Qed.

Lemma wrapping_add_in_uint w a b : 0 <= w -> in_uint (2 ^ w - 1) (wrapping_add w a b).
Proof. intros H. pose proof (wrap_bound w (a + b) H). unfold in_uint, wrapping_add. lia. Qed.

Lemma sat_add_exact m a b : a + b <= m -> sat_add m a b = a + b.
Proof. unfold sat_add. lia. Qed.

Lemma sat_add_assoc m a b c :
  0 <= b -> 0 <= c -> sat_add m (sat_add m a b) c = sat_add m a (b + c).
Proof. unfold sat_add. lia. Qed.

Lemma sat_add_0 m a : a <= m -> sat_add m a 0 = a.
Proof. unfold sat_add. lia. Qed.

Lemma sat_sub_exact a b : b <= a -> sat_sub a b = a - b.
Proof. unfold sat_sub. lia. Qed.

Lemma sat_mul_exact m a b : a * b <= m -> sat_mul m a b = a * b.
Proof. unfold sat_mul. lia. Qed.

(** ** Automation *)

(** Case analysis on the tests of translated Rust code: [if] on a boolean
    comparison becomes the fact it decides. *)
Ltac zcase :=
  match goal with
  | |- context [if ?a <? ?b then _ else _] => destruct (Z.ltb_spec a b)
  | |- context [if ?a <=? ?b then _ else _] => destruct (Z.leb_spec a b)
  | |- context [if ?a =? ?b then _ else _] => destruct (Z.eqb_spec a b)
  | H : context [if ?a <? ?b then _ else _] |- _ => destruct (Z.ltb_spec a b)
  | H : context [if ?a <=? ?b then _ else _] |- _ => destruct (Z.leb_spec a b)
  | H : context [if ?a =? ?b then _ else _] |- _ => destruct (Z.eqb_spec a b)
  end.

(** Splits a hypothesis that a chain of [?]-binds returned [Ok]. *)
Ltac inv_ok :=
  repeat match goal with
  | H : Ok _ = Ok _ |- _ => injection H as H; subst
  | H : Err _ = Ok _ |- _ => discriminate H
  | H : Panic = Ok _ |- _ => discriminate H
  | H : mbind _ _ = Ok _ |- _ => apply bind_Ok in H as (? & ? & H); cbv beta zeta in H
  end.

(** The same for a chain of binds of [stm]. *)
Ltac inv_stm :=
  repeat match goal with
  | H : (_, Ok _) = (_, Ok _) |- _ => injection H as H; subst
  | H : (_, Err _) = (_, Ok _) |- _ => discriminate H
  | H : (_, Panic) = (_, Ok _) |- _ => discriminate H
  | H : mbind _ _ _ = (_, Ok _) |- _ =>
      apply stm_bind_Ok in H as (? & ? & ? & H); cbv beta zeta in H
  | H : lift Panic _ = (_, Ok _) |- _ => discriminate H
  | H : lift ?r _ = (_, Ok _) |- _ => destruct r eqn:?; unfold lift in H
  | H : mret _ _ = (_, Ok _) |- _ => unfold mret, stm_ret in H
  | H : gets _ _ = (_, Ok _) |- _ => unfold gets in H
  | H : modify _ _ = (_, Ok _) |- _ => unfold modify in H
  | H : fail _ _ = (_, Ok _) |- _ => discriminate H
  end.

(** Exact rewriting of saturating operations whose result fits. *)
Ltac unsat :=
  repeat first
    [ rewrite sat_add_exact by lia
    | rewrite sat_sub_exact by lia
    | rewrite sat_mul_exact by lia ].

Create HintDb rust discriminated.
#[export] Hint Resolve zlen_nonneg no_panic_ok_or no_panic_index to_be_bytes_ok : rust.
#[export] Hint Extern 5 (_ <= _) => lia : rust.
#[export] Hint Extern 5 (_ < _) => lia : rust.
Create Rewrite HintDb rust_len.
#[export] Hint Rewrite @zlen_app @zlen_cons @zlen_nil zlen_to_be_bytes
  @sum_by_nil @sum_by_cons @sum_by_app : rust_len.
