(* ===== verification/VoiceErrors.v ===== *)
(** * Voice errors

    The error type of the voice crate
    (crates/discord-voice-service-voice/src/error.rs) and its two
    classifiers. Errors of the operating system, of the URI parser and of the
    websocket library are carried as their message. *)

From S2P Require Import Prelude.
From stdpp Require Import prelude strings.
Open Scope Z_scope.

Inductive VoiceError : Type :=
| UnsupportedEncryptionMode
| UnsupportedGatewayOp (op : Z)
| UnsupportedBinaryGatewayOp (op : Z)
| InvalidState (reason : string)
| Io (message : string)
| InvalidUri (message : string)
| WebSocket (message : string).

#[global] Instance VoiceError_eq_dec : EqDecision VoiceError.
Proof. solve_decision. Defined.

Definition is_gateway_closed_during_receive (e : VoiceError) : bool :=
  match e with
  | InvalidState r => bool_decide (r = "voice gateway closed during receive"%string)
  | _ => false
  end.

Definition is_packet_unprotect_failure (e : VoiceError) : bool :=
  match e with
  | InvalidState r =>
      bool_decide (r = "voice protected packet truncated"%string) ||
      bool_decide (r = "voice protected packet body too short"%string) ||
      bool_decide (r = "voice packet unprotect failed"%string) ||
      bool_decide (r = "voice rtp padding invalid"%string)
  | _ => false
  end.

(** Results of the voice crate, and its most common failure. *)
Abbreviation vresult := (result VoiceError).
Definition invalid_state {A} (reason : string) : vresult A := Err (InvalidState reason).
