(* ===== verification/Text.v ===== *)
(** * Text primitives

    The operations of Rust's [str] and integer parsing the sources use
    ([strip_prefix], [split_once], [starts_with], [contains], [join],
    [parse::<u64>], [to_string]), on Rocq strings. *)

From S2P Require Import Prelude.
From stdpp Require Import prelude strings.
From Stdlib Require Import Ascii String.
Open Scope Z_scope.

(** [s.starts_with(p)] and [s.strip_prefix(p)]. *)
Fixpoint strip_prefix (p s : string) : option string :=
  match p, s with
  | EmptyString, _ => Some s
  | String a p', String b s' => if bool_decide (a = b) then strip_prefix p' s' else None
  | String _ _, EmptyString => None
  end.

Definition starts_with (s p : string) : bool :=
  match strip_prefix p s with Some _ => true | None => false end.

(** [s.contains(p)] *)
Fixpoint contains (s p : string) : bool :=
  starts_with s p ||
  match s with EmptyString => false | String _ s' => contains s' p end.

(** [s.split_once(c)]: cuts at the first occurrence of [c]. *)
Fixpoint split_once (s : string) (c : ascii) : option (string * string) :=
  match s with
  | EmptyString => None
  | String a s' =>
      if bool_decide (a = c) then Some (EmptyString, s')
      else match split_once s' c with
           | Some (l, r) => Some (String a l, r)
           | None => None
           end
  end.

(** [s.split(c)]: all pieces between separators. *)
Fixpoint split_all (s : string) (c : ascii) : list string :=
  match s with
  | EmptyString => [EmptyString]
  | String a s' =>
      if bool_decide (a = c) then EmptyString :: split_all s' c
      else match split_all s' c with
           | piece :: rest => String a piece :: rest
           | [] => [String a EmptyString]
           end
  end.

(** [pieces.join(sep)] *)
Fixpoint join (sep : string) (pieces : list string) : string :=
  match pieces with
  | [] => EmptyString
  | [p] => p
  | p :: rest => p +:+ sep +:+ join sep rest
  end.

(** ** Decimal numbers *)

Definition digit_value (c : ascii) : option Z :=
  let n := Z.of_N (N_of_ascii c) in
  if (48 <=? n) && (n <=? 57) then Some (n - 48) else None.

(** The digits of [s], accumulated from the left with the overflow check of
    the type whose largest value is [m]. *)
Fixpoint parse_digits (m acc : Z) (s : string) : option Z :=
  match s with
  | EmptyString => Some acc
  | String c s' =>
      match digit_value c with
      | Some d => if acc * 10 + d <=? m then parse_digits m (acc * 10 + d) s' else None
      | None => None
      end
  end.

(** [str::parse] for an unsigned type: an optional plus sign, then at least
    one digit. *)
Definition parse_uint (m : Z) (s : string) : option Z :=
  match s with
  | EmptyString => None
  | String c s' =>
      if bool_decide (c = "+"%char)
      then match s' with EmptyString => None | _ => parse_digits m 0 s' end
      else parse_digits m 0 s
  end.

Definition parse_u64 (s : string) : option Z := parse_uint u64_max s.

Definition digit_char (d : Z) : ascii := ascii_of_N (Z.to_N (48 + d)).

(** [to_string] of an integer below [10 ^ fuel]. *)
Fixpoint dec_digits (fuel : nat) (n : Z) (acc : string) : string :=
  match fuel with
  | O => acc
  | S f =>
      let acc' := String (digit_char (n mod 10)) acc in
      if n <? 10 then acc' else dec_digits f (n / 10) acc'
  end.

(** 20 digits are enough for every [u64]. *)
Definition u64_to_string (n : Z) : string := dec_digits 20 n EmptyString.

(** ** Lemmas *)

Lemma strip_prefix_app p s : strip_prefix p (p +:+ s) = Some s.
Proof.
  induction p as [|a p IH]; simpl; [by destruct s|].
  by rewrite bool_decide_eq_true_2.
Qed.

Lemma strip_prefix_Some p s r : strip_prefix p s = Some r <-> s = p +:+ r.
Proof.
  split; [|intros ->; apply strip_prefix_app].
  revert s; induction p as [|a p IH]; intros s; simpl; [by intros [= ->]|].
  destruct s as [|b s]; [done|]. case_bool_decide; [|done]. subst.
  intros H. by rewrite (IH _ H).
Qed.

Lemma split_once_Some s c l r : split_once s c = Some (l, r) -> s = l +:+ String c r.
Proof.
  revert l; induction s as [|a s IH]; intros l; simpl; [done|].
  case_bool_decide as E; [by intros [= <- <-]; rewrite E|].
  destruct (split_once s c) as [[l' r']|]; [|done]. intros [= <- <-]. simpl. by rewrite (IH l').
Qed.

(** No character of [s] is [c]. *)
Fixpoint free_of (c : ascii) (s : string) : Prop :=
  match s with EmptyString => True | String a s' => a <> c /\ free_of c s' end.

Lemma split_once_app l c r : free_of c l -> split_once (l +:+ String c r) c = Some (l, r).
Proof.
  induction l as [|a l IH]; simpl; intros H.
  - by rewrite bool_decide_eq_true_2.
  - destruct H as [Ha Hl]. rewrite bool_decide_eq_false_2 by done. by rewrite IH.
Qed.

Lemma string_app_assoc (a b c : string) : (a +:+ b) +:+ c = a +:+ (b +:+ c).
Proof. induction a as [|x a IH]; [done|]. exact (f_equal (String x) IH). Qed.

Lemma free_of_app c a b : free_of c a -> free_of c b -> free_of c (a +:+ b).
Proof. induction a as [|x a IH]; simpl; [done|]. intros [H1 H2] H3. split; auto. Qed.

Lemma digit_cases d : 0 <= d < 10 -> d ∈ [0; 1; 2; 3; 4; 5; 6; 7; 8; 9].
Proof. intros H. rewrite !elem_of_cons. lia. Qed.

Lemma digit_value_char d : 0 <= d < 10 -> digit_value (digit_char d) = Some d.
Proof.
  intros H. apply digit_cases in H.
  repeat (apply elem_of_cons in H as [->|H]; [reflexivity|]). by apply not_elem_of_nil in H.
Qed.

Lemma digit_char_not d c :
  0 <= d < 10 -> digit_value c = None -> digit_char d <> c.
Proof. intros H Hc <-. by rewrite digit_value_char in Hc. Qed.

(** Every character a number prints as is a digit. *)
Lemma dec_digits_free c fuel n acc :
  0 <= n -> digit_value c = None -> free_of c acc -> free_of c (dec_digits fuel n acc).
Proof.
  intros Hn Hc. revert n acc Hn; induction fuel as [|f IH]; intros n acc Hn Ha; simpl; [done|].
  assert (Hd : free_of c (String (digit_char (n mod 10)) acc)).
  { split; [|done]. apply digit_char_not; [|done]. apply Z.mod_pos_bound. lia. }
  zcase; [done|]. apply IH; [|done]. apply Z.div_pos; lia.
Qed.

(** Parsing a printed number consumes its digits and reaches its value. *)
Lemma u64_to_string_free c n : 0 <= n -> digit_value c = None -> free_of c (u64_to_string n).
Proof. intros. by apply dec_digits_free. Qed.

Lemma parse_dec_digits m fuel n acc :
  0 <= n -> n <= m -> n < 10 ^ Z.of_nat fuel -> (0 < fuel)%nat ->
  parse_digits m 0 (dec_digits fuel n acc) = parse_digits m n acc.
Proof.
  revert n acc; induction fuel as [|f IH]; intros n acc H0 Hm Hb Hf; [lia|].
  cbn [dec_digits].
  assert (Hlast : forall k, k * 10 + n mod 10 = n -> 0 <= k ->
            parse_digits m k (String (digit_char (n mod 10)) acc) = parse_digits m n acc).
  { intros k Hk Hk0. cbn [parse_digits]. rewrite digit_value_char by (apply Z.mod_pos_bound; lia).
    rewrite Hk. by rewrite (proj2 (Z.leb_le n m)) by lia. }
  destruct (Z.ltb_spec n 10) as [Hlt|Hge].
  - apply Hlast; [|done]. rewrite Z.mod_small by lia. lia.
  - rewrite Nat2Z.inj_succ, Z.pow_succ_r in Hb by lia.
    destruct f as [|f]; [simpl in Hb; lia|].
    rewrite IH; [apply Hlast|..].
    + pose proof (Z.div_mod n 10). lia.
    + apply Z.div_pos; lia.
    + apply Z.div_pos; lia.
    + apply Z.div_le_upper_bound; lia.
    + apply Z.div_lt_upper_bound; lia.
    + lia.
Qed.

Lemma dec_digits_nonempty fuel n acc :
  (0 < fuel)%nat -> exists c s, dec_digits fuel n acc = String c s.
Proof.
  revert n acc; induction fuel as [|f IH]; intros n acc Hf; [lia|]. cbn [dec_digits].
  zcase; [by eexists _, _|]. destruct f; [by eexists _, _|]. apply IH. lia.
Qed.

Lemma parse_u64_to_string n : in_uint u64_max n -> parse_u64 (u64_to_string n) = Some n.
Proof.
  intros [H0 Hm]. unfold parse_u64, parse_uint.
  destruct (dec_digits_nonempty 20 n EmptyString) as (c & s & E); [lia|].
  fold (u64_to_string n) in E. rewrite E.
  pose proof (dec_digits_free "+" 20 n EmptyString H0 eq_refl I) as Hfree.
  fold (u64_to_string n) in Hfree. rewrite E in Hfree. destruct Hfree as [Hc _].
  rewrite bool_decide_eq_false_2 by done. rewrite <- E. unfold u64_to_string.
  rewrite parse_dec_digits; [done|done|done| |lia].
  unfold u64_max in Hm. cbn. lia.
Qed.

Lemma parse_digits_bound m acc s n : 0 <= acc <= m -> parse_digits m acc s = Some n -> 0 <= n <= m.
Proof.
  revert acc; induction s as [|c s IH]; intros acc Ha; simpl; [by intros [= <-]|].
  unfold digit_value. destruct (_ && _) eqn:E; [|done]. zcase; [|done].
  apply IH. apply andb_true_iff in E as [E1 E2]. apply Z.leb_le in E1. lia.
Qed.

Lemma parse_u64_bound s n : parse_u64 s = Some n -> in_uint u64_max n.
Proof.
  unfold parse_u64, parse_uint. destruct s as [|c s]; [done|].
  case_bool_decide; [destruct s; [done|]|]; apply parse_digits_bound; by unfold u64_max.
Qed.

Lemma split_all_app_sep p c s :
  free_of c p -> split_all (p +:+ String c s) c = p :: split_all s c.
Proof.
  induction p as [|a p IH]; simpl; intros H; [by rewrite bool_decide_eq_true_2|].
  destruct H as [Ha Hp]. rewrite bool_decide_eq_false_2 by done. by rewrite IH.
Qed.

Lemma split_all_free p c : free_of c p -> split_all p c = [p].
Proof.
  induction p as [|a p IH]; simpl; intros H; [done|].
  destruct H as [Ha Hp]. rewrite bool_decide_eq_false_2 by done. by rewrite IH.
Qed.

(** Splitting undoes joining, for pieces without the separator. *)
Lemma split_all_join c pieces :
  pieces <> [] -> Forall (free_of c) pieces ->
  split_all (join (String c EmptyString) pieces) c = pieces.
Proof.
  intros Hne H. induction H as [|p pieces Hp Hps IH]; [done|].
  destruct pieces as [|q pieces]; [by apply split_all_free|].
  change (join (String c EmptyString) (p :: q :: pieces))
    with (p +:+ String c (join (String c EmptyString) (q :: pieces))).
  rewrite split_all_app_sep by done. by rewrite IH.
Qed.

Lemma split_all_pieces s c : Forall (free_of c) (split_all s c).
Proof.
  induction s as [|a s IH]; simpl; [by repeat constructor|].
  case_bool_decide as Ha; [by constructor|].
  destruct (split_all s c) as [|p rest]; [by repeat constructor|].
  apply Forall_cons in IH as [Hp Hr]. by constructor.
Qed.
