(* ===== verification/Rtp.v ===== *)
(** * RTP packets

    crates/discord-voice-service-voice/src/rtp.rs: the header writer, the
    header parser (CSRC list and extension included) and the send cursor
    [RtpSequenceState] with its 16- and 32-bit wrap-around. *)

From S2P Require Import Prelude VoiceErrors.
From stdpp Require Import prelude strings.
Open Scope Z_scope.

Record RtpHeader : Type := mkRtpHeader {
  rh_version : Z;
  rh_padding : bool;
  rh_extension : bool;
  rh_csrc_count : Z;
  rh_marker : bool;
  rh_payload_type : Z;
  rh_sequence : Z;
  rh_timestamp : Z;
  rh_ssrc : Z;
  rh_header_len : Z;
}.

Record RtpPacketBuilder : Type := mkRtpPacketBuilder { rb_ssrc : Z }.

Definition RtpPacketBuilder_new (ssrc : Z) : RtpPacketBuilder := mkRtpPacketBuilder ssrc.

Definition build_header (b : RtpPacketBuilder) (sequence timestamp : Z) : list Z :=
  [0x80; 0x78] ++ to_be_bytes 2 sequence ++ to_be_bytes 4 timestamp
    ++ to_be_bytes 4 (rb_ssrc b).

Definition build (b : RtpPacketBuilder) (sequence timestamp : Z) (payload : list Z) : list Z :=
  build_header b sequence timestamp ++ payload.

(** [u16::from_be_bytes([p[i], p[i+1]])] and the [u32] version. *)
Definition be16_at (p : list Z) (i : Z) : vresult Z :=
  a ← index p i; b ← index p (i + 1); Ok (from_be_bytes [a; b]).

Definition be32_at (p : list Z) (i : Z) : vresult Z :=
  a ← index p i; b ← index p (i + 1); c ← index p (i + 2); d ← index p (i + 3);
  Ok (from_be_bytes [a; b; c; d]).

(** The extension step of the parser: the header length with the extension
    block, when the extension bit is set. *)
Definition extension_header_len (packet : list Z) (extension : bool) (header_len : Z)
    : vresult Z :=
  if extension then
    if zlen packet <? header_len + 4
    then invalid_state "voice rtp extension header truncated"
    else
      extension_len_words ← be16_at packet (header_len + 2);
      let header_len := header_len + (4 + extension_len_words * 4) in
      if zlen packet <? header_len
      then invalid_state "voice rtp extension truncated"
      else Ok header_len
  else Ok header_len.

Definition parse_rtp_header (packet : list Z) : vresult RtpHeader :=
  if zlen packet <? 12 then invalid_state "voice rtp packet too short"
  else
    first ← index packet 0;
    let version := Z.shiftr first 6 in
    if negb (version =? 2) then invalid_state "voice rtp version unsupported"
    else
      let padding := negb (Z.land first 0x20 =? 0) in
      let extension := negb (Z.land first 0x10 =? 0) in
      let csrc_count := Z.land first 0x0F in
      second ← index packet 1;
      let marker := negb (Z.land second 0x80 =? 0) in
      let payload_type := Z.land second 0x7F in
      let header_len := 12 + csrc_count * 4 in
      if zlen packet <? header_len then invalid_state "voice rtp csrc list truncated"
      else
        header_len ← extension_header_len packet extension header_len;
        sequence ← be16_at packet 2;
        timestamp ← be32_at packet 4;
        ssrc ← be32_at packet 8;
        Ok (mkRtpHeader version padding extension csrc_count marker payload_type
              sequence timestamp ssrc header_len).

Record RtpSequenceState : Type := mkRtpSequenceState {
  rs_sequence : Z;
  rs_timestamp : Z;
}.

#[global] Instance RtpSequenceState_eq_dec : EqDecision RtpSequenceState.
Proof. solve_decision. Defined.

Definition RtpSequenceState_new : RtpSequenceState := mkRtpSequenceState 0 0.
Definition from_parts (sequence timestamp : Z) : RtpSequenceState :=
  mkRtpSequenceState sequence timestamp.
Definition current (s : RtpSequenceState) : Z * Z := (rs_sequence s, rs_timestamp s).

(** Returns the state after and the pair that was current before. *)
Definition advance_by_samples (s : RtpSequenceState) (timestamp_delta : Z)
    : RtpSequenceState * (Z * Z) :=
  (mkRtpSequenceState (wrapping_add 16 (rs_sequence s) 1)
                      (wrapping_add 32 (rs_timestamp s) timestamp_delta),
   current s).

(** The cursor after a run of frames of the given durations. *)
Fixpoint advance_run (s : RtpSequenceState) (durations : list Z) : RtpSequenceState :=
  match durations with
  | [] => s
  | d :: ds => advance_run (fst (advance_by_samples s d)) ds
  end.

(** The cursors a run of frames is sent with, in order. *)
Fixpoint advance_cursors (s : RtpSequenceState) (durations : list Z) : list (Z * Z) :=
  match durations with
  | [] => []
  | d :: ds => let '(s', c) := advance_by_samples s d in c :: advance_cursors s' ds
  end.

(** ** Lemmas *)

(** Evaluates reads at constant offsets of an explicit packet prefix. *)
Ltac eval_index :=
  repeat match goal with
  | |- context [@index ?E ?A ?l ?i] =>
      let r := eval cbv -[Z.div Z.modulo] in (@index E A l i) in
      change (@index E A l i) with r; cbn [mbind result_bind]
  end.

Lemma no_panic_be16_at p i : 0 <= i -> i + 1 < zlen p -> no_panic (be16_at p i).
Proof.
  intros Hi Hl. unfold be16_at.
  apply no_panic_bind; [auto with rust|intros a _].
  by apply no_panic_bind; [auto with rust|].
Qed.

Lemma no_panic_be32_at p i : 0 <= i -> i + 3 < zlen p -> no_panic (be32_at p i).
Proof.
  intros Hi Hl. unfold be32_at.
  do 3 (apply no_panic_bind; [auto with rust|intros ? _]).
  by apply no_panic_bind; [auto with rust|].
Qed.

Lemma index_byte (p : list Z) i b : bytes_ok p -> @index VoiceError _ p i = Ok b -> is_byte b.
Proof.
  unfold index. intros Hp. destruct (i <? 0); [done|].
  destruct (p !! Z.to_nat i) eqn:E; intros [= <-].
  by eapply Forall_lookup_1 in E.
Qed.

Lemma be16_at_bound p i x : bytes_ok p -> be16_at p i = Ok x -> in_uint u16_max x.
Proof.
  unfold be16_at. intros Hp H. inv_ok.
  assert (bytes_ok [x0; x1]) by (repeat constructor; eapply index_byte; eassumption).
  pose proof (from_be_bytes_bound [x0; x1] ltac:(done)) as Hb.
  unfold in_uint, u16_max. change (256 ^ zlen [x0; x1]) with 65536 in Hb. lia.
Qed.

Lemma be32_at_bound p i x : bytes_ok p -> be32_at p i = Ok x -> in_uint u32_max x.
Proof.
  unfold be32_at. intros Hp H. inv_ok.
  assert (bytes_ok [x0; x1; x2; x3]) by (repeat constructor; eapply index_byte; eassumption).
  pose proof (from_be_bytes_bound [x0; x1; x2; x3] ltac:(done)) as Hb.
  unfold in_uint, u32_max. change (256 ^ zlen [x0; x1; x2; x3]) with (2 ^ 32) in Hb. lia.
Qed.

Lemma land_low_bound x m k : 0 <= k -> m = Z.ones k -> 0 <= Z.land x m < 2 ^ k.
Proof.
  intros Hk ->. rewrite Z.land_ones by done.
  apply Z.mod_pos_bound. by apply Z.pow_pos_nonneg.
Qed.

Lemma extension_header_len_bound p e n m :
  bytes_ok p -> n <= zlen p -> extension_header_len p e n = Ok m -> n <= m <= zlen p.
Proof.
  unfold extension_header_len, invalid_state. intros Hp Hn. destruct e; [|by intros [= <-]].
  zcase; [done|]. intros H1. inv_ok.
  apply be16_at_bound in H0; [|done]. unfold in_uint in H0.
  zcase; [done|]. inv_ok. lia.
Qed.

Lemma no_panic_extension_header_len p e n :
  0 <= n -> no_panic (extension_header_len p e n).
Proof.
  intros Hn. unfold extension_header_len, invalid_state. destruct e; [|done].
  zcase; [done|]. apply no_panic_bind; [apply no_panic_be16_at; lia|].
  intros w _. cbn. by zcase.
Qed.

Lemma build_header_length b s t : zlen (build_header b s t) = 12.
Proof. unfold build_header. by autorewrite with rust_len. Qed.

Lemma build_header_bytes b s t : bytes_ok (build_header b s t).
Proof.
  unfold build_header, bytes_ok. rewrite !Forall_app.
  split_and!; try apply to_be_bytes_ok. repeat constructor; unfold is_byte; lia.
Qed.

Lemma to_be_bytes_2 x : to_be_bytes 2 x = [(x / 256) mod 256; x mod 256].
Proof. done. Qed.

Lemma to_be_bytes_4 x :
  to_be_bytes 4 x =
  [(x / 256 / 256 / 256) mod 256; (x / 256 / 256) mod 256; (x / 256) mod 256; x mod 256].
Proof. done. Qed.

Lemma parse_build ssrc sequence timestamp payload :
  in_uint u32_max ssrc -> in_uint u16_max sequence -> in_uint u32_max timestamp ->
  parse_rtp_header (build (RtpPacketBuilder_new ssrc) sequence timestamp payload)
  = Ok (mkRtpHeader 2 false false 0 false 0x78 sequence timestamp ssrc 12).
Proof.
  unfold in_uint, u32_max, u16_max. intros Hs Hq Ht.
  unfold parse_rtp_header, build.
  rewrite zlen_app, build_header_length. pose proof (zlen_nonneg payload).
  zcase; [lia|]. unfold build_header.
  pose proof (from_to_be_bytes 2 sequence) as Eq. pose proof (from_to_be_bytes 4 timestamp) as Et.
  pose proof (from_to_be_bytes 4 ssrc) as Es.
  rewrite to_be_bytes_2 in *. rewrite to_be_bytes_4 in *. cbn [app].
  unfold be32_at, be16_at. eval_index. change (Z.land 128 15) with 0.
  replace (12 + zlen payload <? 12 + 0 * 4) with false by (symmetry; apply Z.ltb_ge; lia).
  cbn -[from_be_bytes Z.pow].
  by rewrite Eq, Et, Es by lia.
Qed.

Lemma no_panic_parse_rtp_header packet : no_panic (parse_rtp_header packet).
Proof.
  unfold parse_rtp_header, invalid_state. zcase; [done|].
  apply no_panic_bind; [auto with rust|intros first _].
  destruct (negb _); [done|].
  apply no_panic_bind; [auto with rust|intros second _].
  assert (0 <= Z.land first 15 < 2 ^ 4) by (by apply land_low_bound).
  zcase; [done|].
  apply no_panic_bind; [apply no_panic_extension_header_len; lia|intros n _].
  apply no_panic_bind; [apply no_panic_be16_at; lia|intros ? _].
  apply no_panic_bind; [apply no_panic_be32_at; lia|intros ? _].
  by apply no_panic_bind; [apply no_panic_be32_at; lia|].
Qed.

Lemma parse_rtp_header_ok packet h :
  bytes_ok packet -> parse_rtp_header packet = Ok h ->
  rh_version h = 2 /\
  12 + 4 * rh_csrc_count h <= rh_header_len h <= zlen packet /\
  0 <= rh_csrc_count h < 16 /\ 0 <= rh_payload_type h < 128 /\
  in_uint u16_max (rh_sequence h) /\ in_uint u32_max (rh_timestamp h) /\
  in_uint u32_max (rh_ssrc h).
Proof.
  unfold parse_rtp_header, invalid_state. intros Hp. zcase; [done|].
  intros H0. inv_ok. destruct (Z.eqb_spec (Z.shiftr x 6) 2); [|done]. cbn [negb] in H0.
  inv_ok. zcase; [done|]. inv_ok. cbn.
  match goal with H : extension_header_len _ _ _ = Ok _ |- _ =>
    apply extension_header_len_bound in H; [|done|lia] end.
  pose proof (land_low_bound x 15 4 ltac:(done) eq_refl).
  pose proof (land_low_bound x0 127 7 ltac:(done) eq_refl).
  split_and!; try lia; first [by eapply be16_at_bound | by eapply be32_at_bound].
Qed.

#[export] Hint Resolve no_panic_parse_rtp_header build_header_bytes : rust.

(** ** Theorems *)

(** What the sender writes, the receiver's parser reads back: for a
    16-bit sequence, a 32-bit timestamp and SSRC and any payload, parsing a
    built packet gives exactly these fields, version 2, payload type 0x78,
    no padding, extension, CSRC or marker, and a 12-byte header. *)
Theorem parse_build_roundtrip ssrc sequence timestamp payload :
  in_uint u32_max ssrc -> in_uint u16_max sequence -> in_uint u32_max timestamp ->
  parse_rtp_header (build (RtpPacketBuilder_new ssrc) sequence timestamp payload)
  = Ok (mkRtpHeader 2 false false 0 false 0x78 sequence timestamp ssrc 12).
Proof. apply parse_build. Qed.

Lemma parse_build_roundtrip_witness :
  in_uint u32_max 7 /\ in_uint u16_max 65535 /\ in_uint u32_max 960 /\
  parse_rtp_header (build (RtpPacketBuilder_new 7) 65535 960 [1; 2; 3])
  = Ok (mkRtpHeader 2 false false 0 false 0x78 65535 960 7 12).
Proof.
  split_and!; [by split|by split|by split|].
  apply (parse_build_roundtrip 7 65535 960 [1; 2; 3]); by split.
Defined.

(** The parser is total on hostile input: whatever bytes arrive from the
    network, [parse_rtp_header] returns a header or an error and never
    indexes out of the packet, CSRC list and extension block included. *)
Theorem parse_rtp_header_no_panic packet : no_panic (parse_rtp_header packet).
Proof. apply no_panic_parse_rtp_header. Qed.

(** A header the parser accepts describes the packet it came from: its
    length covers the fixed part and the CSRC list and stays inside the
    packet (so slicing the body off is safe), the version is 2 and every
    field is in the range of its Rust type. *)
Theorem parse_rtp_header_bounds packet h :
  bytes_ok packet -> parse_rtp_header packet = Ok h ->
  rh_version h = 2 /\
  12 + 4 * rh_csrc_count h <= rh_header_len h <= zlen packet /\
  0 <= rh_csrc_count h < 16 /\ 0 <= rh_payload_type h < 128 /\
  in_uint u16_max (rh_sequence h) /\ in_uint u32_max (rh_timestamp h) /\
  in_uint u32_max (rh_ssrc h).
Proof. apply parse_rtp_header_ok. Qed.

Lemma parse_rtp_header_bounds_witness :
  bytes_ok (build (RtpPacketBuilder_new 7) 1 960 [5]) /\
  rh_header_len (mkRtpHeader 2 false false 0 false 0x78 1 960 7 12) <= 13.
Proof.
  assert (Hb : bytes_ok (build (RtpPacketBuilder_new 7) 1 960 [5]))
    by (repeat constructor; unfold is_byte; vm_compute; intuition discriminate).
  split; [done|].
  apply (parse_rtp_header_bounds (build (RtpPacketBuilder_new 7) 1 960 [5])
           (mkRtpHeader 2 false false 0 false 0x78 1 960 7 12) Hb eq_refl).
Defined.

(** *** The send cursor *)

Lemma advance_run_app s ds ds' :
  advance_run s (ds ++ ds') = advance_run (advance_run s ds) ds'.
Proof. revert s; induction ds as [|d ds IH]; intros s; simpl; [done|]. apply IH. Qed.

Lemma advance_run_spec s ds :
  in_uint u16_max (rs_sequence s) -> in_uint u32_max (rs_timestamp s) ->
  advance_run s ds
  = mkRtpSequenceState (wrap 16 (rs_sequence s + zlen ds))
                       (wrap 32 (rs_timestamp s + sum_by id ds)).
Proof.
  revert s; induction ds as [|d ds IH]; intros [q t] Hq Ht; cbn in *.
  - rewrite zlen_nil, !Z.add_0_r. unfold in_uint, u16_max, u32_max in *.
    by rewrite !wrap_small by lia.
  - rewrite IH by (by apply wrapping_add_in_uint). cbn.
    rewrite zlen_cons, sum_by_cons. unfold wrapping_add, wrap.
    rewrite !Z.add_mod_idemp_l by done. f_equal; f_equal; unfold id; lia.
Qed.

Lemma advance_cursors_lookup s ds i :
  (i < length ds)%nat ->
  advance_cursors s ds !! i = Some (current (advance_run s (take i ds))).
Proof.
  revert s i; induction ds as [|d ds IH]; intros s i Hi; simpl in *; [lia|].
  destruct i as [|i]; simpl; [done|]. apply IH. lia.
Qed.

Lemma advance_cursors_length s ds : length (advance_cursors s ds) = length ds.
Proof. revert s; induction ds as [|d ds IH]; intros s; simpl; [done|]. by rewrite IH. Qed.

(** The RTP clock: starting from a fresh session, packet [i] of a run is
    sent with sequence number [i] modulo 2^16 and with the total duration of
    the packets before it, modulo 2^32, as its timestamp. *)
Theorem cursor_of_packet ds i :
  (i < length ds)%nat ->
  advance_cursors RtpSequenceState_new ds !! i
  = Some (wrap 16 (Z.of_nat i), wrap 32 (sum_by id (take i ds))).
Proof.
  intros Hi. rewrite advance_cursors_lookup by done.
  rewrite advance_run_spec by done.
  unfold current, RtpSequenceState_new. cbn [rs_sequence rs_timestamp].
  replace (zlen (take i ds)) with (Z.of_nat i) by (unfold zlen; rewrite length_take; lia).
  by rewrite !Z.add_0_l.
Qed.

Lemma cursor_of_packet_witness :
  advance_cursors RtpSequenceState_new [960; 960; 480] !! 2%nat
  = Some (wrap 16 2, wrap 32 1920).
Proof. apply (cursor_of_packet [960; 960; 480] 2). simpl. lia. Defined.

(** No two packets of a window of 65536 consecutive packets share a
    sequence number, so a receiver can order and deduplicate them. *)
Theorem cursors_sequence_distinct s ds :
  in_uint u16_max (rs_sequence s) -> in_uint u32_max (rs_timestamp s) ->
  zlen ds <= 65536 -> NoDup (map fst (advance_cursors s ds)).
Proof.
  intros Hq Ht Hl. apply NoDup_alt. intros i j x Hi Hj.
  rewrite list_lookup_fmap in Hi, Hj.
  destruct (advance_cursors s ds !! i) as [ci|] eqn:Ei; [|done].
  destruct (advance_cursors s ds !! j) as [cj|] eqn:Ej; [|done].
  assert (i < length ds)%nat by (erewrite <- advance_cursors_length; by eapply lookup_lt_Some).
  assert (j < length ds)%nat by (erewrite <- advance_cursors_length; by eapply lookup_lt_Some).
  rewrite advance_cursors_lookup in Ei, Ej by done.
  rewrite advance_run_spec in Ei, Ej by done.
  simplify_eq/=. unfold zlen, wrap in *. rewrite !length_take in *.
  rewrite !Nat.min_l in * by lia. unfold in_uint, u16_max in Hq.
  change (2 ^ 16) with 65536 in *.
  Z.div_mod_to_equations. lia.
Qed.

Lemma cursors_sequence_distinct_witness :
  NoDup (map fst (advance_cursors (from_parts 65535 0) [960; 960; 960])).
Proof. apply cursors_sequence_distinct; vm_compute; intuition discriminate. Defined.
