(* ===== verification/Crypto.v ===== *)
(** * Transport encryption modes

    crates/discord-voice-service-voice/src/crypto.rs: the two modes the
    service implements, their names on the wire, and the choice among the
    modes the voice server offers. *)

From S2P Require Import Prelude VoiceErrors.
From stdpp Require Import prelude strings.
Open Scope Z_scope.

Definition REQUIRED_MODE : string := "aead_xchacha20_poly1305_rtpsize".
Definition PREFERRED_MODE : string := "aead_aes256_gcm_rtpsize".

Inductive EncryptionMode : Type :=
| AeadAes256GcmRtpsize
| AeadXChaCha20Poly1305Rtpsize.

#[global] Instance EncryptionMode_eq_dec : EqDecision EncryptionMode.
Proof. solve_decision. Defined.

Definition as_str (m : EncryptionMode) : string :=
  match m with
  | AeadAes256GcmRtpsize => PREFERRED_MODE
  | AeadXChaCha20Poly1305Rtpsize => REQUIRED_MODE
  end.

Definition mode_from_str (value : string) : vresult EncryptionMode :=
  if bool_decide (value = PREFERRED_MODE) then Ok AeadAes256GcmRtpsize
  else if bool_decide (value = REQUIRED_MODE) then Ok AeadXChaCha20Poly1305Rtpsize
  else Err UnsupportedEncryptionMode.

Definition choose_mode (modes : list string) : vresult EncryptionMode :=
  if existsb (fun m => bool_decide (m = PREFERRED_MODE)) modes
  then Ok AeadAes256GcmRtpsize
  else if existsb (fun m => bool_decide (m = REQUIRED_MODE)) modes
  then Ok AeadXChaCha20Poly1305Rtpsize
  else Err UnsupportedEncryptionMode.

Definition pick_mode (modes : list string) : option string :=
  as_str <$> ok (choose_mode modes).

(** ** Theorems *)

Lemma mode_from_as_str m : mode_from_str (as_str m) = Ok m.
Proof. by destruct m. Qed.

Lemma existsb_mode (name : string) modes :
  existsb (fun m => bool_decide (m = name)) modes = true <-> name ∈ modes.
Proof.
  rewrite existsb_exists. split.
  - intros (m & Hin & He). apply bool_decide_eq_true in He as ->. by apply list_elem_of_In.
  - intros H. exists name. split; [by apply list_elem_of_In|]. by apply bool_decide_eq_true.
Qed.

(** Mode negotiation: the chosen mode is one the server offers, AES-256-GCM
    whenever it is offered, XChaCha20 only when AES is not; negotiation fails
    exactly when neither is offered; and the name it sends parses back to the
    mode that was chosen. *)
Theorem choose_mode_spec modes :
  match choose_mode modes with
  | Ok m => (as_str m ∈ modes) /\ mode_from_str (as_str m) = Ok m /\
            (m = AeadXChaCha20Poly1305Rtpsize -> (PREFERRED_MODE ∉ modes))
  | Err e => e = UnsupportedEncryptionMode /\
             (PREFERRED_MODE ∉ modes) /\ (REQUIRED_MODE ∉ modes)
  | Panic => False
  end.
Proof.
  unfold choose_mode.
  destruct (existsb _ modes) eqn:E1.
  - apply existsb_mode in E1. split_and!; [done|apply mode_from_as_str|done].
  - assert (PREFERRED_MODE ∉ modes) by (rewrite <- existsb_mode, E1; done).
    destruct (existsb _ modes) eqn:E2 in |- *.
    + apply existsb_mode in E2. split_and!; [done|apply mode_from_as_str|done].
    + split_and!; [done|done|]. by rewrite <- existsb_mode, E2.
Qed.
