(* ===== verification/Protection.v ===== *)
(** * Packet protection

    crates/discord-voice-service-voice/src/protection.rs: the AEAD layer of
    the voice transport in its "rtpsize" layout
    [header | ciphertext | tag (16) | nonce suffix (4)].

    The two ciphers come from the aes-gcm and chacha20poly1305 crates. They
    are a class: [Aead] has the operations the code calls and [AeadLaws] the
    documented behaviour it relies on. Everything the repository does around
    them (nonce counter, packet layout, slicing, padding removal) is written
    out. *)

From S2P Require Import Prelude VoiceErrors Crypto Rtp.
From stdpp Require Import prelude strings.
Open Scope Z_scope.

Definition PROTECTION_TAG_LEN : Z := 16.
Definition PROTECTION_NONCE_SUFFIX_LEN : Z := 4.

(** [new_from_slice], [encrypt_in_place_detached] and
    [decrypt_in_place_detached] of the cipher of a mode. *)
Class Aead : Type := {
  aead_new_from_slice : EncryptionMode -> list Z -> bool;
  aead_seal : EncryptionMode -> list Z -> list Z -> list Z -> list Z -> option (list Z * list Z);
  aead_open : EncryptionMode -> list Z -> list Z -> list Z -> list Z -> list Z -> option (list Z);
}.

(** Documented behaviour of both ciphers: 32-byte keys are accepted, in-place
    encryption keeps the length of the message and yields a 16-byte tag, and
    decryption inverts encryption under the same key, nonce and header. *)
Class AeadLaws (A : Aead) : Prop := {
  aead_key_32 : forall m k, zlen k = 32 -> aead_new_from_slice m k = true;
  aead_seal_len : forall m k n a p c t,
    aead_seal m k n a p = Some (c, t) -> zlen c = zlen p /\ zlen t = PROTECTION_TAG_LEN;
  aead_seal_open : forall m k n a p c t,
    aead_seal m k n a p = Some (c, t) -> aead_open m k n a c t = Some p;
}.

Record ProtectionContext : Type := mkProtectionContext {
  pc_mode : EncryptionMode;
  pc_secret_key : list Z;
  pc_next_nonce : Z;
}.

Definition ProtectionContext_new (mode : EncryptionMode) (secret_key : list Z)
    : vresult ProtectionContext :=
  if negb (zlen secret_key =? 32)
  then invalid_state "voice packet protection key invalid"
  else Ok (mkProtectionContext mode secret_key 0).

(** The cipher's nonce: 12 bytes for AES-GCM, 24 for XChaCha20, all zero but
    for the suffix in front. *)
Definition cipher_nonce (m : EncryptionMode) (suffix : list Z) : list Z :=
  suffix ++ replicate (match m with
                       | AeadAes256GcmRtpsize => 12
                       | AeadXChaCha20Poly1305Rtpsize => 24
                       end - length suffix) 0.

Section WithAead.
Context {A : Aead}.

(** The counter moves on every call ([fetch_add]), also when sealing fails. *)
Definition protect_packet (ctx : ProtectionContext) (rtp_header payload : list Z)
    : ProtectionContext * vresult (list Z) :=
  let nonce_suffix := to_be_bytes 4 (pc_next_nonce ctx) in
  let ctx' := mkProtectionContext (pc_mode ctx) (pc_secret_key ctx)
                (wrapping_add 32 (pc_next_nonce ctx) 1) in
  (ctx',
   if negb (aead_new_from_slice (pc_mode ctx) (pc_secret_key ctx))
   then invalid_state "voice packet protection key invalid"
   else
     match aead_seal (pc_mode ctx) (pc_secret_key ctx)
             (cipher_nonce (pc_mode ctx) nonce_suffix) rtp_header payload with
     | None => invalid_state "voice packet protection failed"
     | Some (ciphertext, tag) => Ok (rtp_header ++ ciphertext ++ tag ++ nonce_suffix)
     end).

(** Removal of the RTP padding from a decrypted body. *)
Definition strip_padding (padding : bool) (plaintext : list Z) : vresult (list Z) :=
  if padding then
    padding_len ← ok_or (last plaintext) (InvalidState "voice rtp padding invalid");
    if (padding_len =? 0) || (zlen plaintext <? padding_len)
    then invalid_state "voice rtp padding invalid"
    else Ok (take (Z.to_nat (zlen plaintext - padding_len)) plaintext)
  else Ok plaintext.

Definition unprotect_packet (ctx : ProtectionContext) (packet : list Z)
    : vresult (RtpHeader * list Z) :=
  header ← parse_rtp_header packet;
  protected_body ← ok_or (get_from packet (rh_header_len header))
                         (InvalidState "voice protected packet truncated");
  if zlen protected_body <? PROTECTION_TAG_LEN + PROTECTION_NONCE_SUFFIX_LEN
  then invalid_state "voice protected packet body too short"
  else
    '(ciphertext_and_tag, nonce_suffix) ←
       split_at protected_body (zlen protected_body - PROTECTION_NONCE_SUFFIX_LEN);
    '(ciphertext, tag) ←
       split_at ciphertext_and_tag (zlen ciphertext_and_tag - PROTECTION_TAG_LEN);
    header_bytes ← slice_to packet (rh_header_len header);
    if negb (aead_new_from_slice (pc_mode ctx) (pc_secret_key ctx))
    then invalid_state "voice packet protection key invalid"
    else
      plaintext ← ok_or (aead_open (pc_mode ctx) (pc_secret_key ctx)
                           (cipher_nonce (pc_mode ctx) nonce_suffix)
                           header_bytes ciphertext tag)
                        (InvalidState "voice packet unprotect failed");
      plaintext ← strip_padding (rh_padding header) plaintext;
      Ok (header, plaintext).

(** A run of packets protected one after the other under one context. *)
Fixpoint protect_run (ctx : ProtectionContext) (packets : list (list Z * list Z))
    : list (vresult (list Z)) :=
  match packets with
  | [] => []
  | (h, p) :: rest =>
      snd (protect_packet ctx h p) :: protect_run (fst (protect_packet ctx h p)) rest
  end.

(** The four bytes a receiver takes the nonce from. *)
Definition nonce_suffix_of (packet : list Z) : list Z :=
  drop (length packet - 4) packet.

(** ** Lemmas *)

Lemma split_tail (l : list Z) k :
  0 <= k <= zlen l ->
  exists body tail, @split_at VoiceError _ l (zlen l - k) = Ok (body, tail) /\
    l = body ++ tail /\ zlen tail = k /\ zlen body = zlen l - k.
Proof.
  intros Hk. exists (take (Z.to_nat (zlen l - k)) l), (drop (Z.to_nat (zlen l - k)) l).
  split_and!; [apply split_at_ok; lia|by rewrite take_drop|..].
  - rewrite zlen_drop; lia.
  - rewrite zlen_take; lia.
Qed.

Lemma split_tail_app (l k : list Z) n :
  zlen k = n -> @split_at VoiceError _ (l ++ k) (zlen (l ++ k) - n) = Ok (l, k).
Proof.
  intros <-. rewrite zlen_app. replace (zlen l + zlen k - zlen k) with (zlen l) by lia.
  apply split_at_app.
Qed.

Lemma cipher_nonce_inj m s1 s2 :
  length s1 = length s2 -> cipher_nonce m s1 = cipher_nonce m s2 -> s1 = s2.
Proof. unfold cipher_nonce. intros Hl H. by apply app_inj_1 in H as [? _]. Qed.

Lemma no_panic_strip_padding b l : no_panic (strip_padding b l).
Proof.
  unfold strip_padding, invalid_state. destruct b; [|done].
  apply no_panic_bind; [auto with rust|intros n _]. by destruct (_ || _).
Qed.

(** The body of a parsed packet, cut as the receiver cuts it. *)
Lemma unprotect_layout packet header :
  bytes_ok packet -> parse_rtp_header packet = Ok header ->
  PROTECTION_TAG_LEN + PROTECTION_NONCE_SUFFIX_LEN <= zlen packet - rh_header_len header ->
  exists h c t s,
    packet = h ++ c ++ t ++ s /\ zlen h = rh_header_len header /\
    zlen t = PROTECTION_TAG_LEN /\ zlen s = PROTECTION_NONCE_SUFFIX_LEN.
Proof.
  intros Hp Hh Hl. apply parse_rtp_header_ok in Hh as (_ & Hlen & Hc & _); [|done].
  unfold PROTECTION_TAG_LEN, PROTECTION_NONCE_SUFFIX_LEN in *.
  set (n := Z.to_nat (rh_header_len header)).
  assert (Hd : zlen (drop n packet) = zlen packet - rh_header_len header)
    by (unfold n; apply zlen_drop; lia).
  destruct (split_tail (drop n packet) 4) as (b & s & _ & Eb & Hs & Hb); [lia|].
  destruct (split_tail b 16) as (c & t & _ & Ec & Ht & _); [lia|].
  exists (take n packet), c, t, s. split_and!; [|unfold n; rewrite zlen_take; lia|done|done].
  rewrite <- (take_drop n packet) at 1. by rewrite Eb, Ec, <- app_assoc.
Qed.

(** Evaluation of the receiver on a packet given as its parts. *)
Lemma unprotect_packet_parts ctx header h c t s :
  parse_rtp_header (h ++ c ++ t ++ s) = Ok header ->
  zlen h = rh_header_len header ->
  zlen t = PROTECTION_TAG_LEN -> zlen s = PROTECTION_NONCE_SUFFIX_LEN ->
  aead_new_from_slice (pc_mode ctx) (pc_secret_key ctx) = true ->
  unprotect_packet ctx (h ++ c ++ t ++ s)
  = plaintext ← ok_or (aead_open (pc_mode ctx) (pc_secret_key ctx)
                         (cipher_nonce (pc_mode ctx) s) h c t)
                      (InvalidState "voice packet unprotect failed");
    plaintext ← strip_padding (rh_padding header) plaintext;
    Ok (header, plaintext).
Proof.
  unfold PROTECTION_TAG_LEN, PROTECTION_NONCE_SUFFIX_LEN. intros Hp Hh Ht Hs Hk.
  pose proof (zlen_nonneg c). pose proof (zlen_nonneg h).
  unfold unprotect_packet, PROTECTION_TAG_LEN, PROTECTION_NONCE_SUFFIX_LEN. rewrite Hp. cbn [mbind result_bind].
  rewrite get_from_ok by (autorewrite with rust_len; lia).
  rewrite slice_to_ok by (autorewrite with rust_len; lia).
  assert (Hn : Z.to_nat (rh_header_len header) = length h) by (unfold zlen in Hh; lia).
  rewrite Hn, take_app_length, drop_app_length.
  cbn [mbind result_bind ok_or].
  destruct (Z.ltb_spec (zlen (c ++ t ++ s)) (16 + 4)) as [Hlt|_];
    [autorewrite with rust_len in Hlt; lia|].
  rewrite app_assoc, split_tail_app by done. cbn [mbind result_bind].
  rewrite split_tail_app by done. cbn [mbind result_bind].
  by rewrite Hk.
Qed.

Lemma protect_packet_ok ctx h p ctx' packet :
  protect_packet ctx h p = (ctx', Ok packet) ->
  ctx' = mkProtectionContext (pc_mode ctx) (pc_secret_key ctx)
           (wrapping_add 32 (pc_next_nonce ctx) 1) /\
  aead_new_from_slice (pc_mode ctx) (pc_secret_key ctx) = true /\
  exists c t,
    aead_seal (pc_mode ctx) (pc_secret_key ctx)
      (cipher_nonce (pc_mode ctx) (to_be_bytes 4 (pc_next_nonce ctx))) h p = Some (c, t) /\
    packet = h ++ c ++ t ++ to_be_bytes 4 (pc_next_nonce ctx).
Proof.
  unfold protect_packet, invalid_state. intros [= <- H].
  destruct (aead_new_from_slice _ _); [|done]. cbn in H.
  destruct (aead_seal _ _ _ _ _) as [[c t]|] eqn:E; [|done].
  inv_ok. split_and!; [done|done|]. by exists c, t.
Qed.

Context {L : AeadLaws A}.

Lemma unprotect_protect ctx rctx ssrc sequence timestamp payload ctx' packet :
  in_uint u32_max ssrc -> in_uint u16_max sequence -> in_uint u32_max timestamp ->
  pc_mode rctx = pc_mode ctx -> pc_secret_key rctx = pc_secret_key ctx ->
  protect_packet ctx (build_header (RtpPacketBuilder_new ssrc) sequence timestamp) payload
    = (ctx', Ok packet) ->
  unprotect_packet rctx packet
  = Ok (mkRtpHeader 2 false false 0 false 0x78 sequence timestamp ssrc 12, payload).
Proof.
  intros Hs Hq Ht Hm Hk H.
  apply protect_packet_ok in H as (_ & Hnew & c & t & Hseal & ->).
  destruct (aead_seal_len _ _ _ _ _ _ _ Hseal) as [_ Htag].
  rewrite (unprotect_packet_parts rctx
    (mkRtpHeader 2 false false 0 false 0x78 sequence timestamp ssrc 12)).
  - rewrite Hm, Hk, (aead_seal_open _ _ _ _ _ _ _ Hseal). done.
  - by apply parse_build.
  - apply build_header_length.
  - done.
  - apply zlen_to_be_bytes.
  - by rewrite Hm, Hk.
Qed.

(** ** Theorems *)

(** C1. Encrypted transport round trip: a packet protected under a session's
    mode and key is opened by any context of the same mode and key, whatever
    its own nonce counter is, and yields the sender's RTP fields and the
    exact payload bytes. *)
Theorem protect_unprotect_roundtrip ctx rctx ssrc sequence timestamp payload ctx' packet :
  in_uint u32_max ssrc -> in_uint u16_max sequence -> in_uint u32_max timestamp ->
  pc_mode rctx = pc_mode ctx -> pc_secret_key rctx = pc_secret_key ctx ->
  protect_packet ctx (build_header (RtpPacketBuilder_new ssrc) sequence timestamp) payload
    = (ctx', Ok packet) ->
  unprotect_packet rctx packet
  = Ok (mkRtpHeader 2 false false 0 false 0x78 sequence timestamp ssrc 12, payload).
Proof. apply unprotect_protect. Qed.

(** The receiver is total: [unprotect_packet] never panics, whatever
    packet arrives and whatever the ciphers answer; all its slicing is within
    the packet. *)
Theorem unprotect_packet_no_panic ctx packet :
  bytes_ok packet -> no_panic (unprotect_packet ctx packet).
Proof.
  intros Hp. unfold unprotect_packet, invalid_state.
  apply no_panic_bind; [auto with rust|intros header Hh].
  pose proof (parse_rtp_header_ok _ _ Hp Hh) as (_ & Hlen & Hc & _).
  rewrite get_from_ok by lia. cbn [mbind result_bind ok_or].
  zcase; [done|]. unfold PROTECTION_TAG_LEN, PROTECTION_NONCE_SUFFIX_LEN in *.
  destruct (split_tail (drop (Z.to_nat (rh_header_len header)) packet) 4)
    as (b & s & -> & _ & _ & Hb); [lia|]. cbn [mbind result_bind].
  destruct (split_tail b 16) as (c & t & -> & _); [lia|]. cbn [mbind result_bind].
  rewrite slice_to_ok by lia. cbn [mbind result_bind].
  destruct (negb _); [done|].
  apply no_panic_bind; [auto with rust|intros pt _].
  by apply no_panic_bind; [apply no_panic_strip_padding|].
Qed.

(** Failures of a packet that has a valid RTP header are the ones callers
    may skip: under a 32-byte key every error of [unprotect_packet] after the
    header was parsed is classified by [is_packet_unprotect_failure]. *)
Theorem unprotect_error_classified ctx packet header e :
  bytes_ok packet -> zlen (pc_secret_key ctx) = 32 ->
  parse_rtp_header packet = Ok header ->
  unprotect_packet ctx packet = Err e -> is_packet_unprotect_failure e = true.
Proof.
  intros Hp Hk Hh. unfold unprotect_packet, invalid_state. rewrite Hh. cbn [mbind result_bind].
  pose proof (parse_rtp_header_ok _ _ Hp Hh) as (_ & Hlen & Hc & _).
  rewrite get_from_ok by lia. cbn [mbind result_bind ok_or].
  zcase; [by intros [= <-]|]. unfold PROTECTION_TAG_LEN, PROTECTION_NONCE_SUFFIX_LEN in *.
  destruct (split_tail (drop (Z.to_nat (rh_header_len header)) packet) 4)
    as (b & s & -> & _ & _ & Hb); [lia|]. cbn [mbind result_bind].
  destruct (split_tail b 16) as (c & t & -> & _); [lia|]. cbn [mbind result_bind].
  rewrite slice_to_ok by lia. cbn [mbind result_bind].
  rewrite (aead_key_32 _ _ Hk). cbn [negb].
  destruct (aead_open _ _ _ _ _ _) as [pt|]; cbn; [|by intros [= <-]].
  unfold strip_padding, invalid_state. destruct (rh_padding header); [|done].
  destruct (last pt); cbn; [|by intros [= <-]]. by destruct (_ || _); intros [= <-].
Qed.

(** *** Nonces *)

Lemma nonce_suffix_of_app h c t s :
  zlen s = 4 -> nonce_suffix_of (h ++ c ++ t ++ s) = s.
Proof.
  unfold zlen. intros Hs. unfold nonce_suffix_of. rewrite !app_assoc.
  rewrite length_app. replace (length ((h ++ c) ++ t) + length s - 4)%nat
    with (length ((h ++ c) ++ t)) by lia.
  apply drop_app_length.
Qed.

Lemma protect_run_length ctx packets : length (protect_run ctx packets) = length packets.
Proof. revert ctx; induction packets as [|[h p] rest IH]; intros ctx; simpl; auto. Qed.

Lemma protect_run_nonce ctx packets i packet :
  in_uint u32_max (pc_next_nonce ctx) ->
  protect_run ctx packets !! i = Some (Ok packet) ->
  nonce_suffix_of packet = to_be_bytes 4 (wrap 32 (pc_next_nonce ctx + Z.of_nat i)).
Proof.
  revert ctx i; induction packets as [|[h p] rest IH]; intros ctx i Hn; cbn [protect_run]; [done|].
  destruct i as [|i]; cbn [lookup list_lookup].
  - intros H. apply (inj Some) in H. pose proof (surjective_pairing (protect_packet ctx h p)) as E.
    rewrite H in E. apply protect_packet_ok in E as (_ & _ & c & t & _ & ->).
    rewrite nonce_suffix_of_app by apply zlen_to_be_bytes.
    rewrite Z.add_0_r. unfold in_uint, u32_max in Hn. by rewrite wrap_small by lia.
  - intros Hi. apply IH in Hi; [|by apply wrapping_add_in_uint]. rewrite Hi.
    cbn [protect_packet fst pc_next_nonce]. unfold wrapping_add, wrap.
    rewrite Z.add_mod_idemp_l by done. do 2 f_equal. lia.
Qed.

(** No nonce is used twice under one key: in any run of at most 2^32
    packets, whichever of them fail to seal, two different packets carry
    different nonce suffixes, hence are sealed with different cipher nonces. *)
Theorem protect_nonces_distinct ctx packets i j pi pj :
  in_uint u32_max (pc_next_nonce ctx) -> zlen packets <= 2 ^ 32 -> i <> j ->
  protect_run ctx packets !! i = Some (Ok pi) ->
  protect_run ctx packets !! j = Some (Ok pj) ->
  cipher_nonce (pc_mode ctx) (nonce_suffix_of pi)
  <> cipher_nonce (pc_mode ctx) (nonce_suffix_of pj).
Proof.
  intros Hn Hl Hij Hi Hj Heq.
  pose proof (lookup_lt_Some _ _ _ Hi) as Hil. pose proof (lookup_lt_Some _ _ _ Hj) as Hjl.
  rewrite protect_run_length in Hil, Hjl.
  apply protect_run_nonce in Hi; [|done]. apply protect_run_nonce in Hj; [|done].
  rewrite Hi, Hj in Heq. apply cipher_nonce_inj in Heq; [|by rewrite !to_be_bytes_length].
  apply (f_equal from_be_bytes) in Heq.
  pose proof (wrap_bound 32 (pc_next_nonce ctx + Z.of_nat i)).
  pose proof (wrap_bound 32 (pc_next_nonce ctx + Z.of_nat j)).
  rewrite !from_to_be_bytes in Heq by (change (256 ^ Z.of_nat 4) with (2 ^ 32); lia).
  unfold wrap, in_uint, u32_max, zlen in *. change (2 ^ 32) with 4294967296 in *.
  Z.div_mod_to_equations. lia.
Qed.

End WithAead.

(** ** A concrete cipher for the witnesses

    It leaves the message readable and tags it with a checksum of message and
    header: enough to satisfy the laws, and able to reject a packet. *)
Definition checksum_tag (a p : list Z) : list Z :=
  replicate 16 ((sum_by id a + sum_by id p) mod 256).

Definition checksum_aead : Aead := {|
  aead_new_from_slice m k := zlen k =? 32;
  aead_seal m k n a p := Some (p, checksum_tag a p);
  aead_open m k n a c t := if bool_decide (t = checksum_tag a c) then Some c else None;
|}.

Lemma checksum_aead_laws : AeadLaws checksum_aead.
Proof.
  split.
  - intros m k Hk. by apply Z.eqb_eq.
  - intros m k n a p c t [= <- <-]. split; [done|]. unfold zlen, checksum_tag.
    by rewrite length_replicate.
  - intros m k n a p c t [= <- <-]. cbn. by rewrite bool_decide_eq_true_2.
Qed.

Definition sample_context : ProtectionContext :=
  mkProtectionContext AeadAes256GcmRtpsize (replicate 32 7) 4294967295.

Definition sample_packet : list Z :=
  build_header (RtpPacketBuilder_new 7) 3 960 ++ [1; 2]
    ++ checksum_tag (build_header (RtpPacketBuilder_new 7) 3 960) [1; 2]
    ++ [255; 255; 255; 255].

Lemma protect_unprotect_roundtrip_witness :
  @unprotect_packet checksum_aead sample_context sample_packet
  = Ok (mkRtpHeader 2 false false 0 false 0x78 3 960 7 12, [1; 2]).
Proof.
  apply (@protect_unprotect_roundtrip checksum_aead checksum_aead_laws
           sample_context sample_context 7 3 960 [1; 2]
           (fst (@protect_packet checksum_aead sample_context
                   (build_header (RtpPacketBuilder_new 7) 3 960) [1; 2])));
    try reflexivity; vm_compute; intuition discriminate.
Defined.

Lemma sample_packet_bytes : bytes_ok sample_packet.
Proof. repeat constructor; vm_compute; intuition discriminate. Qed.

Lemma unprotect_packet_no_panic_witness :
  no_panic (@unprotect_packet checksum_aead sample_context (take 30 sample_packet)).
Proof.
  apply (@unprotect_packet_no_panic checksum_aead sample_context).
  apply Forall_take, sample_packet_bytes.
Defined.

Lemma unprotect_error_classified_witness :
  is_packet_unprotect_failure (InvalidState "voice protected packet body too short") = true.
Proof.
  apply (@unprotect_error_classified checksum_aead checksum_aead_laws sample_context
           (take 30 sample_packet)
           (mkRtpHeader 2 false false 0 false 0x78 3 960 7 12)
           (InvalidState "voice protected packet body too short")); try reflexivity.
  apply Forall_take, sample_packet_bytes.
Defined.

Lemma protect_nonces_distinct_witness :
  exists p0 p1,
  @protect_run checksum_aead sample_context [([1], [2]); ([3], [4])] = [Ok p0; Ok p1] /\
  cipher_nonce AeadAes256GcmRtpsize (nonce_suffix_of p0)
  <> cipher_nonce AeadAes256GcmRtpsize (nonce_suffix_of p1).
Proof.
  eexists _, _. split; [vm_compute; reflexivity|].
  apply (@protect_nonces_distinct checksum_aead sample_context
           [([1], [2]); ([3], [4])] 0 1); try reflexivity;
    vm_compute; intuition discriminate.
Defined.
