(* ===== verification/Discovery.v ===== *)
(** * UDP address discovery

    crates/discord-voice-service-voice/src/discovery.rs: the 74-byte IP
    discovery exchange. Text is kept as its UTF-8 bytes; [from_utf8] is the
    validation of the Rust standard library. The socket is represented by the
    outcome of its two calls. *)

From S2P Require Import Prelude VoiceErrors Rtp.
From stdpp Require Import prelude strings.
Open Scope Z_scope.

(** ** [std::str::from_utf8] *)

Definition utf8_cont (b : Z) : bool := (0x80 <=? b) && (b <=? 0xBF).

(** Leading pairs of three-byte sequences (no overlong forms, no surrogates). *)
Definition utf8_lead3 (a b : Z) : bool :=
  ((a =? 0xE0) && (0xA0 <=? b) && (b <=? 0xBF)) ||
  ((0xE1 <=? a) && (a <=? 0xEC) && utf8_cont b) ||
  ((a =? 0xED) && (0x80 <=? b) && (b <=? 0x9F)) ||
  ((0xEE <=? a) && (a <=? 0xEF) && utf8_cont b).

(** Leading pairs of four-byte sequences (up to U+10FFFF). *)
Definition utf8_lead4 (a b : Z) : bool :=
  ((a =? 0xF0) && (0x90 <=? b) && (b <=? 0xBF)) ||
  ((0xF1 <=? a) && (a <=? 0xF3) && utf8_cont b) ||
  ((a =? 0xF4) && (0x80 <=? b) && (b <=? 0x8F)).

Fixpoint from_utf8 (l : list Z) : bool :=
  match l with
  | [] => true
  | a :: l1 =>
      if a <? 0x80 then from_utf8 l1
      else match l1 with
      | [] => false
      | b :: l2 =>
          if (0xC2 <=? a) && (a <=? 0xDF) then utf8_cont b && from_utf8 l2
          else match l2 with
          | [] => false
          | c :: l3 =>
              if utf8_lead3 a b then utf8_cont c && from_utf8 l3
              else match l3 with
              | [] => false
              | d :: l4 => utf8_lead4 a b && utf8_cont c && utf8_cont d && from_utf8 l4
              end
          end
      end
  end.

(** ** The exchange *)

Definition DISCOVERY_PACKET_LEN : Z := 74.
Definition DISCOVERY_REQUEST_TYPE : Z := 0x1.
Definition DISCOVERY_RESPONSE_TYPE : Z := 0x2.
Definition DISCOVERY_BODY_LEN : Z := 70.
Definition ADDRESS_START : Z := 8.
Definition ADDRESS_END : Z := 72.
Definition PORT_START : Z := 72.
Definition PORT_END : Z := 74.

Record DiscoveredUdpAddress : Type := mkDiscoveredUdpAddress {
  da_ip : list Z;
  da_port : Z;
}.

Definition build_ip_discovery_packet (ssrc : Z) : list Z :=
  to_be_bytes 2 DISCOVERY_REQUEST_TYPE ++ to_be_bytes 2 DISCOVERY_BODY_LEN
    ++ to_be_bytes 4 ssrc ++ replicate 66 0.

(** [iter().position(|b| *b == 0).unwrap_or(len)], then [..address_end]. *)
Fixpoint until_nul (l : list Z) : list Z :=
  match l with
  | [] => []
  | b :: l' => if b =? 0 then [] else b :: until_nul l'
  end.

Definition parse_ip_discovery_response (buf : list Z) : vresult DiscoveredUdpAddress :=
  if zlen buf <? DISCOVERY_PACKET_LEN
  then invalid_state "ip discovery response shorter than expected"
  else
    response_type ← be16_at buf 0;
    if negb (response_type =? DISCOVERY_RESPONSE_TYPE)
    then invalid_state "ip discovery response type invalid"
    else
      body_len ← be16_at buf 2;
      if negb (body_len =? DISCOVERY_BODY_LEN)
      then invalid_state "ip discovery response length invalid"
      else
        address_bytes ← slice_to buf ADDRESS_END;
        address_bytes ← slice_from address_bytes ADDRESS_START;
        let ip := until_nul address_bytes in
        if negb (from_utf8 ip)
        then invalid_state "ip discovery response ip invalid utf-8"
        else if bool_decide (ip = [])
        then invalid_state "ip discovery response ip missing"
        else
          hi ← index buf PORT_START;
          lo ← index buf (PORT_END - 1);
          Ok (mkDiscoveredUdpAddress ip (from_be_bytes [hi; lo])).

Section Discover.
(** Socket addresses, compared as the code compares them. *)
Context {Addr : Type} `{EqDecision Addr}.

(** [send_result] is the outcome of [send_to]; [recv_result] the datagram and
    source [recv_from] yields (a longer datagram is cut to the buffer). *)
Definition discover_ip (server : Addr) (ssrc : Z) (send_result : vresult unit)
    (recv_result : vresult (list Z * Addr)) : vresult DiscoveredUdpAddress :=
  _ ← send_result;
  '(datagram, from) ← recv_result;
  let received := take (Z.to_nat DISCOVERY_PACKET_LEN) datagram in
  let len := zlen received in
  let buf := received ++ replicate (Z.to_nat (DISCOVERY_PACKET_LEN - len)) 0 in
  if negb (bool_decide (from = server))
  then invalid_state "ip discovery response source did not match server"
  else if len <? 8
  then invalid_state "ip discovery response shorter than expected"
  else
    echoed_ssrc ← be32_at buf 4;
    if negb (echoed_ssrc =? ssrc)
    then invalid_state "ip discovery response ssrc did not match request"
    else
      reply ← slice_to buf len;
      parse_ip_discovery_response reply.
End Discover.

(** What a voice server answers: the address text, NUL-padded to 64 bytes. *)
Definition discovery_reply (ssrc : Z) (ip : list Z) (port : Z) : list Z :=
  to_be_bytes 2 DISCOVERY_RESPONSE_TYPE ++ to_be_bytes 2 DISCOVERY_BODY_LEN
    ++ to_be_bytes 4 ssrc ++ (ip ++ replicate (64 - length ip) 0) ++ to_be_bytes 2 port.

(** ** Lemmas *)

Lemma until_nul_app ip n :
  Forall (fun b => b <> 0) ip -> until_nul (ip ++ replicate n 0) = ip.
Proof.
  induction ip as [|b ip IH]; intros H; simpl.
  - by destruct n.
  - apply Forall_cons_1 in H as [Hb Hip]. destruct (Z.eqb_spec b 0); [done|].
    by rewrite IH.
Qed.

Lemma from_utf8_ascii l : Forall (fun b => 0 <= b < 128) l -> from_utf8 l = true.
Proof.
  induction l as [|b l IH]; intros H; simpl; [done|].
  apply Forall_cons_1 in H as [Hb Hl]. zcase; [by apply IH|lia].
Qed.

Lemma index_app_l {E B} (l k : list B) i :
  0 <= i < zlen l -> @index E B (l ++ k) i = index l i.
Proof.
  intros H. unfold index. zcase; [lia|].
  unfold zlen in H. by rewrite lookup_app_l by lia.
Qed.

Lemma index_app_r {E B} (l k : list B) i :
  zlen l <= i -> @index E B (l ++ k) i = index k (i - zlen l).
Proof.
  intros H. unfold index. pose proof (zlen_nonneg l). repeat (zcase; [lia|]).
  unfold zlen in *. rewrite lookup_app_r by lia.
  by replace (Z.to_nat i - length l)%nat with (Z.to_nat (i - Z.of_nat (length l))) by lia.
Qed.

Lemma index_to_be_bytes_2 {E} x :
  @index E Z (to_be_bytes 2 x) 0 = Ok ((x / 256) mod 256) /\
  @index E Z (to_be_bytes 2 x) 1 = Ok (x mod 256).
Proof. done. Qed.

Lemma discovery_reply_parts ssrc ip port :
  discovery_reply ssrc ip port =
  ([0; 2; 0; 70] ++ to_be_bytes 4 ssrc) ++ (ip ++ replicate (64 - length ip) 0)
    ++ to_be_bytes 2 port.
Proof. unfold discovery_reply. by rewrite <- !app_assoc. Qed.

Lemma zlen_padded ip : zlen ip <= 64 -> zlen (ip ++ replicate (64 - length ip) 0) = 64.
Proof.
  unfold zlen. intros H. rewrite length_app, length_replicate. lia.
Qed.

Lemma zlen_discovery_reply ssrc ip port :
  zlen ip <= 64 -> zlen (discovery_reply ssrc ip port) = 74.
Proof.
  intros H. unfold discovery_reply. rewrite !zlen_app, !zlen_to_be_bytes.
  rewrite <- zlen_app, zlen_padded by done. done.
Qed.

Lemma parse_discovery_reply ssrc ip port :
  zlen ip <= 64 -> ip <> [] -> Forall (fun b => b <> 0) ip -> from_utf8 ip = true ->
  in_uint u16_max port ->
  parse_ip_discovery_response (discovery_reply ssrc ip port)
  = Ok (mkDiscoveredUdpAddress ip port).
Proof.
  intros Hl Hne Hnz Hu Hp. unfold parse_ip_discovery_response.
  rewrite zlen_discovery_reply by done. cbn [Z.ltb].
  unfold DISCOVERY_PACKET_LEN, ADDRESS_END, ADDRESS_START, PORT_START, PORT_END.
  zcase; [lia|].
  assert (Hhead : zlen ([0; 2; 0; 70] ++ to_be_bytes 4 ssrc) = 8) by done.
  rewrite discovery_reply_parts.
  set (head := [0; 2; 0; 70] ++ to_be_bytes 4 ssrc) in *.
  set (addr := ip ++ replicate (64 - length ip) 0).
  assert (Haddr : zlen addr = 64) by (by apply zlen_padded).
  assert (Ht : be16_at (head ++ addr ++ to_be_bytes 2 port) 0 = Ok 2)
    by (unfold be16_at; rewrite !index_app_l by (rewrite Hhead; lia); done).
  assert (Hb : be16_at (head ++ addr ++ to_be_bytes 2 port) 2 = Ok 70)
    by (unfold be16_at; rewrite !index_app_l by (rewrite Hhead; lia); done).
  rewrite Ht, Hb. cbn [mbind result_bind].
  change (2 =? DISCOVERY_RESPONSE_TYPE) with true. change (70 =? DISCOVERY_BODY_LEN) with true.
  cbn [negb].
  assert (Hcut : take (Z.to_nat 72) (head ++ addr ++ to_be_bytes 2 port) = head ++ addr).
  { rewrite app_assoc. apply take_app_length'. rewrite length_app. unfold zlen in *. lia. }
  rewrite slice_to_ok by (rewrite !zlen_app, Hhead, Haddr, zlen_to_be_bytes; lia).
  rewrite Hcut. cbn [mbind result_bind].
  rewrite slice_from_ok by (rewrite zlen_app, Hhead, Haddr; lia). cbn [mbind result_bind].
  replace (Z.to_nat 8) with (length head) by (unfold zlen in Hhead; lia).
  rewrite drop_app_length.
  replace (until_nul addr) with ip by (symmetry; by apply until_nul_app). rewrite Hu.
  cbn [negb]. rewrite bool_decide_eq_false_2 by done.
  rewrite app_assoc, !index_app_r by (rewrite zlen_app, Hhead, Haddr; lia).
  rewrite zlen_app, Hhead, Haddr.
  destruct (@index_to_be_bytes_2 VoiceError port) as [E0 E1].
  change (72 - (8 + 64)) with 0. change (74 - 1 - (8 + 64)) with 1.
  rewrite E0, E1. cbn [mbind result_bind]. rewrite <- to_be_bytes_2, from_to_be_bytes; [done|].
  unfold in_uint, u16_max in Hp. change (256 ^ Z.of_nat 2) with (2 ^ 16). lia.
Qed.

Lemma no_panic_parse_ip_discovery_response buf :
  no_panic (parse_ip_discovery_response buf).
Proof.
  unfold parse_ip_discovery_response, invalid_state, DISCOVERY_PACKET_LEN, ADDRESS_START,
    ADDRESS_END, PORT_START, PORT_END. zcase; [done|].
  apply no_panic_bind; [apply no_panic_be16_at; lia|intros ty _]. destruct (negb _); [done|].
  apply no_panic_bind; [apply no_panic_be16_at; lia|intros bl _]. destruct (negb _); [done|].
  rewrite slice_to_ok by lia. cbn [mbind result_bind].
  rewrite slice_from_ok by (rewrite zlen_take; lia). cbn [mbind result_bind].
  destruct (negb _); [done|]. case_bool_decide; [done|].
  apply no_panic_bind; [auto with rust|intros hi _].
  by apply no_panic_bind; [auto with rust|].
Qed.

(** ** Theorems *)

Section DiscoverTheorems.
Context {Addr : Type} `{EqDecision Addr}.

(** Address discovery learns what the server reports: for the server's
    own reply to this request (its address text in UTF-8, non-empty, at most
    64 bytes, without NUL) discovery returns that address and port. *)
Theorem discover_ip_reply (server : Addr) ssrc ip port :
  in_uint u32_max ssrc -> in_uint u16_max port ->
  zlen ip <= 64 -> ip <> [] -> Forall (fun b => b <> 0) ip -> from_utf8 ip = true ->
  discover_ip server ssrc (Ok tt) (Ok (discovery_reply ssrc ip port, server))
  = Ok (mkDiscoveredUdpAddress ip port).
Proof.
  intros Hs Hp Hl Hne Hnz Hu. unfold discover_ip, DISCOVERY_PACKET_LEN. cbn [mbind result_bind].
  pose proof (zlen_discovery_reply ssrc ip port Hl) as H74.
  rewrite take_ge by (unfold zlen in H74; lia). rewrite H74. cbn [Z.sub Z.to_nat].
  rewrite bool_decide_eq_true_2 by done. cbn [negb]. zcase; [lia|].
  change (replicate (Z.to_nat (74 - 74)) 0) with (@nil Z). rewrite app_nil_r.
  assert (Hecho : be32_at (discovery_reply ssrc ip port) 4 = Ok ssrc).
  { rewrite discovery_reply_parts. unfold be32_at. rewrite !index_app_l by done.
    rewrite to_be_bytes_4. eval_index. rewrite <- to_be_bytes_4, from_to_be_bytes; [done|].
    unfold in_uint, u32_max in Hs. change (256 ^ Z.of_nat 4) with (2 ^ 32). lia. }
  rewrite Hecho. cbn [mbind result_bind]. rewrite Z.eqb_refl. cbn [negb].
  rewrite slice_to_ok by lia. rewrite take_ge by (unfold zlen in H74; lia).
  by apply parse_discovery_reply.
Qed.

(** Discovery is safe against anyone else on the socket: it never panics
    on any datagram, and an address is only accepted from a datagram of the
    voice server's own address, at least 74 bytes long, that echoes the SSRC
    of the request. *)
Theorem discover_ip_authentic (server : Addr) ssrc datagram from :
  no_panic (discover_ip server ssrc (Ok tt) (Ok (datagram, from))) /\
  (forall addr, discover_ip server ssrc (Ok tt) (Ok (datagram, from)) = Ok addr ->
    from = server /\ 74 <= zlen datagram /\ be32_at datagram 4 = Ok ssrc /\ da_ip addr <> []).
Proof.
  unfold discover_ip, invalid_state, DISCOVERY_PACKET_LEN. cbn [mbind result_bind].
  case_bool_decide as Hfrom; cbn [negb]; [|by split].
  set (received := take (Z.to_nat 74) datagram). zcase; [by split|].
  assert (Hr : zlen received <= 74) by (unfold received, zlen; rewrite length_take; lia).
  set (buf := received ++ replicate (Z.to_nat (74 - zlen received)) 0).
  assert (Hb : zlen buf = 74) by (unfold buf; rewrite zlen_app; unfold zlen at 2;
                                  rewrite length_replicate; lia).
  rewrite slice_to_ok by lia.
  replace (take (Z.to_nat (zlen received)) buf) with received
    by (unfold buf, zlen; by rewrite Nat2Z.id, take_app_length).
  cbn [mbind result_bind]. split.
  - apply no_panic_bind; [apply no_panic_be32_at; lia|intros e _].
    destruct (negb _); [done|]. apply no_panic_parse_ip_discovery_response.
  - intros addr Hok. inv_ok. destruct (Z.eqb_spec x ssrc) as [->|]; [|done].
    cbn [negb] in Hok. unfold parse_ip_discovery_response, invalid_state in Hok.
    unfold DISCOVERY_PACKET_LEN in Hok. destruct (Z.ltb_spec (zlen received) 74); [done|].
    assert (Hd : 74 <= zlen datagram) by (unfold received, zlen in *; rewrite length_take in *; lia).
    split_and!; [done|done|..].
    + match goal with H : be32_at buf 4 = Ok _ |- _ => rewrite <- H end. unfold buf. replace (Z.to_nat (74 - zlen received)) with 0%nat by lia.
      rewrite app_nil_r. rewrite <- (take_drop (Z.to_nat 74) datagram). fold received.
      unfold be32_at. by rewrite !index_app_l by lia.
    + inv_ok. destruct (negb _); [done|]. inv_ok. destruct (negb _); [done|].
      inv_ok. destruct (negb _); [done|]. case_bool_decide; [done|]. by inv_ok.
Qed.
End DiscoverTheorems.

Lemma discover_ip_reply_witness :
  discover_ip 1%nat 7 (Ok tt) (Ok (discovery_reply 7 [49; 46; 50] 50000, 1%nat))
  = Ok (mkDiscoveredUdpAddress [49; 46; 50] 50000).
Proof.
  apply (discover_ip_reply 1%nat 7 [49; 46; 50] 50000); try done;
    repeat constructor; vm_compute; intuition discriminate.
Defined.
