(* ===== verification/Udp.v ===== *)
(** * The UDP voice transport

    crates/discord-voice-service-voice/src/udp.rs (and the stop-silence loop of
    speaking.rs): packets are prepared ahead of time with a reserved RTP
    cursor, and sent only when their cursor is the next one of the shared send
    cursor, a 64-bit atomic that packs sequence and timestamp.

    The socket is represented by the outcome of each [send_to]; the datagrams
    it accepted are appended to [tr_wire] in order. *)

From S2P Require Import Prelude VoiceErrors Crypto Rtp Protection.
From stdpp Require Import prelude strings.
Open Scope Z_scope.

Record PreparedVoicePacket : Type := mkPreparedVoicePacket {
  pv_bytes : list Z;
  pv_duration_ms : Z;
  pv_duration_samples : Z;
  pv_is_track : bool;
  pv_rtp_sequence : Z;
  pv_rtp_timestamp : Z;
  pv_protection_nonce : option Z;
}.

Record VoicePacketPreparer : Type := mkVoicePacketPreparer {
  pp_packet_builder : RtpPacketBuilder;
  pp_reserved_sequence : RtpSequenceState;
  pp_protection : option ProtectionContext;
}.

Definition VoicePacketPreparer_new (ssrc : Z) : VoicePacketPreparer :=
  mkVoicePacketPreparer (RtpPacketBuilder_new ssrc) RtpSequenceState_new None.

Definition preparer_with_protection (p : VoicePacketPreparer) (c : ProtectionContext)
    : VoicePacketPreparer :=
  mkVoicePacketPreparer (pp_packet_builder p) (pp_reserved_sequence p) (Some c).

(** [packet.get(len.saturating_sub(4)..)?] and the four indexed bytes. *)
Definition protection_nonce_from_packet (packet : list Z) (protected : bool)
    : vresult (option Z) :=
  if negb protected then Ok None
  else match get_from packet (sat_sub (zlen packet) 4) with
       | None => Ok None
       | Some suffix =>
           a ← index suffix 0; b ← index suffix 1; c ← index suffix 2; d ← index suffix 3;
           Ok (Some (from_be_bytes [a; b; c; d]))
       end.

(** ** The shared send cursor *)

Definition pack_rtp_cursor_parts (sequence timestamp : Z) : Z :=
  Z.lor (Z.shiftl timestamp 16) sequence.

Definition pack_rtp_cursor (state : RtpSequenceState) : Z :=
  pack_rtp_cursor_parts (rs_sequence state) (rs_timestamp state).

Definition unpack_rtp_cursor (cursor : Z) : RtpSequenceState :=
  from_parts (wrap 16 cursor) (wrap 32 (Z.shiftr cursor 16)).

Definition duration_ms_from_samples (duration_samples : Z) : Z :=
  sat_mul u64_max duration_samples 1000 / 48000.

(** [VoicePreparedPacketSender] with its socket: the packed cursor and the
    datagrams the socket accepted. *)
Record VoicePreparedPacketSender : Type := mkVoicePreparedPacketSender {
  ps_send_sequence : Z;
  ps_wire : list PreparedVoicePacket;
}.

Definition VoicePreparedPacketSender_new : VoicePreparedPacketSender :=
  mkVoicePreparedPacketSender (pack_rtp_cursor RtpSequenceState_new) [].

Definition send_cursor (s : VoicePreparedPacketSender) : RtpSequenceState :=
  unpack_rtp_cursor (ps_send_sequence s).

(** The compare-and-exchange that ends a send, against the value the shared
    cursor has at that moment. *)
Definition commit_cursor (s : VoicePreparedPacketSender) (expected next : Z)
    : VoicePreparedPacketSender * vresult unit :=
  if ps_send_sequence s =? expected
  then (mkVoicePreparedPacketSender next (ps_wire s), Ok tt)
  else (s, invalid_state "voice prepared packet send cursor advanced concurrently").

(** [sock] is the outcome of [send_to]. *)
Definition send_prepared_packet (s : VoicePreparedPacketSender)
    (packet : PreparedVoicePacket) (sock : vresult unit)
    : VoicePreparedPacketSender * vresult unit :=
  let expected_cursor :=
    pack_rtp_cursor_parts (pv_rtp_sequence packet) (pv_rtp_timestamp packet) in
  let '(sequence, timestamp) := current (unpack_rtp_cursor (ps_send_sequence s)) in
  if negb (pv_rtp_sequence packet =? sequence) || negb (pv_rtp_timestamp packet =? timestamp)
  then (s, invalid_state "voice prepared packet rtp cursor is not next send")
  else match sock with
       | Err e => (s, Err e)
       | Panic => (s, Panic)
       | Ok _ =>
           let next_cursor :=
             pack_rtp_cursor_parts (wrapping_add 16 (pv_rtp_sequence packet) 1)
               (wrapping_add 32 (pv_rtp_timestamp packet) (pv_duration_samples packet)) in
           commit_cursor (mkVoicePreparedPacketSender (ps_send_sequence s)
                            (ps_wire s ++ [packet])) expected_cursor next_cursor
       end.

Section Receive.
Context {Addr : Type} `{EqDecision Addr}.

(** [receive_packet]: datagrams of other sources are skipped. [None] while no
    datagram of the server has arrived. *)
Fixpoint receive_loop (server : Addr) (max_packet_len : Z)
    (arrivals : list (vresult (list Z * Addr))) : option (vresult (list Z)) :=
  match arrivals with
  | [] => None
  | Ok (datagram, from) :: rest =>
      if bool_decide (from = server)
      then Some (Ok (take (Z.to_nat max_packet_len) datagram))
      else receive_loop server max_packet_len rest
  | Err e :: _ => Some (Err e)
  | Panic :: _ => Some Panic
  end.

Definition receive_packet (server : Addr) (max_packet_len : Z)
    (arrivals : list (vresult (list Z * Addr))) : option (vresult (list Z)) :=
  if max_packet_len =? 0
  then Some (invalid_state "voice udp receive size invalid")
  else receive_loop server max_packet_len arrivals.
End Receive.

Record VoiceUdpTransport : Type := mkVoiceUdpTransport {
  tr_preparer : VoicePacketPreparer;
  tr_sender : VoicePreparedPacketSender;
}.

(** The transport [connect] builds once the socket is bound and discovered. *)
Definition VoiceUdpTransport_new (ssrc : Z) : VoiceUdpTransport :=
  mkVoiceUdpTransport (VoicePacketPreparer_new ssrc) VoicePreparedPacketSender_new.

Definition with_protection (t : VoiceUdpTransport) (c : ProtectionContext) : VoiceUdpTransport :=
  mkVoiceUdpTransport (preparer_with_protection (tr_preparer t) c) (tr_sender t).

Section WithAead.
Context {A : Aead}.

(** [VoicePacketPreparer::prepare_audio_packet_with_duration_samples]. The
    cursor is reserved and the nonce drawn before sealing can fail. *)
Definition prepare_audio_packet (p : VoicePacketPreparer) (frame : list Z)
    (duration_ms duration_samples : Z)
    : VoicePacketPreparer * vresult PreparedVoicePacket :=
  if duration_samples =? 0
  then (p, invalid_state "voice audio frame duration invalid")
  else
    let '(reserved, (sequence, timestamp)) :=
      advance_by_samples (pp_reserved_sequence p) duration_samples in
    let rtp_header := build_header (pp_packet_builder p) sequence timestamp in
    let '(protection, packet) :=
      match pp_protection p with
      | Some c => let '(c', r) := protect_packet c rtp_header frame in (Some c', r)
      | None => (None, Ok (rtp_header ++ frame))
      end in
    (mkVoicePacketPreparer (pp_packet_builder p) reserved protection,
     packet ← packet;
     protection_nonce ← protection_nonce_from_packet packet
                          (bool_decide (is_Some (pp_protection p)));
     Ok (mkPreparedVoicePacket packet duration_ms duration_samples true
           sequence timestamp protection_nonce)).

Definition prepare_audio_packet_with_duration_samples (t : VoiceUdpTransport)
    (frame : list Z) (duration_ms duration_samples : Z) (is_track : bool)
    : VoiceUdpTransport * vresult PreparedVoicePacket :=
  let '(p, r) := prepare_audio_packet (tr_preparer t) frame duration_ms duration_samples in
  (mkVoiceUdpTransport p (tr_sender t),
   packet ← r;
   Ok (mkPreparedVoicePacket (pv_bytes packet) (pv_duration_ms packet)
         (pv_duration_samples packet) is_track (pv_rtp_sequence packet)
         (pv_rtp_timestamp packet) (pv_protection_nonce packet))).

Definition discard_unsent_prepared_packets (t : VoiceUdpTransport) : VoiceUdpTransport :=
  mkVoiceUdpTransport
    (mkVoicePacketPreparer (pp_packet_builder (tr_preparer t))
       (send_cursor (tr_sender t)) (pp_protection (tr_preparer t)))
    (tr_sender t).

Definition transport_send_prepared_packet (t : VoiceUdpTransport)
    (packet : PreparedVoicePacket) (sock : vresult unit) : VoiceUdpTransport * vresult unit :=
  let '(s, r) := send_prepared_packet (tr_sender t) packet sock in
  (mkVoiceUdpTransport (tr_preparer t) s, r).

Definition send_audio_frame_with_duration_samples (t : VoiceUdpTransport) (frame : list Z)
    (duration_samples : Z) (sock : vresult unit) : VoiceUdpTransport * vresult unit :=
  let '(t', r) := prepare_audio_packet_with_duration_samples t frame
                    (duration_ms_from_samples duration_samples) duration_samples true in
  match r with
  | Ok packet => transport_send_prepared_packet t' packet sock
  | Err e => (t', Err e)
  | Panic => (t', Panic)
  end.

Definition send_audio_frame (t : VoiceUdpTransport) (frame : list Z) (sock : vresult unit)
    : VoiceUdpTransport * vresult unit :=
  send_audio_frame_with_duration_samples t frame 960 sock.

Definition OPUS_SILENCE_FRAME : list Z := [0xF8; 0xFF; 0xFE].

(** [send_stop_silence], the body of [stop_audio]: five silence frames, with
    the outcome of each [send_to]; the first failure ends the loop. *)
Fixpoint send_stop_silence_loop (n : nat) (t : VoiceUdpTransport) (socks : nat -> vresult unit)
    : VoiceUdpTransport * vresult unit :=
  match n with
  | O => (t, Ok tt)
  | S n' =>
      let '(t', r) := send_audio_frame t OPUS_SILENCE_FRAME (socks n) in
      match r with
      | Ok _ => send_stop_silence_loop n' t' socks
      | Err e => (t', Err e)
      | Panic => (t', Panic)
      end
  end.

Definition send_stop_silence (t : VoiceUdpTransport) (socks : nat -> vresult unit)
    : VoiceUdpTransport * vresult unit :=
  send_stop_silence_loop 5 t socks.

(** ** The transport as a transition system

    Any interleaving of the operations a session performs: preparing frames
    ahead, sending any packet (a stale or foreign one too) with any socket
    outcome, and rewinding the reservation to the send cursor. *)
Definition packet_typed (p : PreparedVoicePacket) : Prop :=
  in_uint u16_max (pv_rtp_sequence p) /\ in_uint u32_max (pv_rtp_timestamp p) /\
  in_uint u32_max (pv_duration_samples p).

Inductive transport_step : VoiceUdpTransport -> VoiceUdpTransport -> Prop :=
| step_prepare t frame ms samples is_track :
    in_uint u32_max samples ->
    transport_step t (fst (prepare_audio_packet_with_duration_samples t frame ms samples is_track))
| step_send t packet sock :
    packet_typed packet ->
    transport_step t (fst (transport_send_prepared_packet t packet sock))
| step_discard t :
    transport_step t (discard_unsent_prepared_packets t).

Definition reachable (t0 t : VoiceUdpTransport) : Prop := rtc transport_step t0 t.
End WithAead.

(** ** Lemmas *)

Lemma lor_shiftl_low t s k : 0 <= k -> 0 <= s < 2 ^ k -> Z.lor (Z.shiftl t k) s = t * 2 ^ k + s.
Proof.
  intros Hk Hs. rewrite <- Z.shiftl_mul_pow2 by done. rewrite <- Z.add_lor_land.
  replace (Z.land (Z.shiftl t k) s) with 0; [lia|]. symmetry.
  rewrite <- (Z.mod_small s (2 ^ k)), <- Z.land_ones by lia.
  apply Z.bits_inj'. intros n Hn. rewrite Z.bits_0, !Z.land_spec, Z.testbit_ones_nonneg by done.
  destruct (Z.ltb_spec n k); [rewrite Z.shiftl_spec_low by done; done|by rewrite !andb_false_r].
Qed.

Lemma pack_rtp_cursor_value q t :
  in_uint u16_max q -> pack_rtp_cursor_parts q t = t * 2 ^ 16 + q.
Proof.
  unfold in_uint, u16_max. intros Hq. unfold pack_rtp_cursor_parts.
  apply lor_shiftl_low; lia.
Qed.

Lemma unpack_pack q t :
  in_uint u16_max q -> in_uint u32_max t ->
  unpack_rtp_cursor (pack_rtp_cursor_parts q t) = from_parts q t.
Proof.
  intros Hq Ht. unfold unpack_rtp_cursor. rewrite pack_rtp_cursor_value by done.
  unfold in_uint, u16_max, u32_max in *. unfold wrap. rewrite Z.shiftr_div_pow2 by done.
  rewrite Z.div_add_l, (Z.div_small q), Z.add_0_r by lia.
  rewrite (Z.mod_small t) by lia. f_equal.
  rewrite Z.add_comm, Z.mod_add by done. apply Z.mod_small. lia.
Qed.

Lemma pack_bound q t :
  in_uint u16_max q -> in_uint u32_max t -> in_uint u64_max (pack_rtp_cursor_parts q t).
Proof.
  intros Hq Ht. rewrite pack_rtp_cursor_value by done.
  unfold in_uint, u16_max, u32_max, u64_max in *. lia.
Qed.

Definition state_typed (s : RtpSequenceState) : Prop :=
  in_uint u16_max (rs_sequence s) /\ in_uint u32_max (rs_timestamp s).

Lemma advance_typed s d : state_typed (fst (advance_by_samples s d)).
Proof. split; by apply wrapping_add_in_uint. Qed.

Lemma advance_run_typed s ds : state_typed s -> state_typed (advance_run s ds).
Proof.
  revert s; induction ds as [|d ds IH]; intros s Hs; simpl; [done|].
  apply IH, advance_typed.
Qed.

(** The cursors and durations of packets. *)
Definition packet_cursor (p : PreparedVoicePacket) : Z * Z :=
  (pv_rtp_sequence p, pv_rtp_timestamp p).
Definition durations (l : list PreparedVoicePacket) : list Z := map pv_duration_samples l.

(** The sender invariant: the send cursor is the one after everything that
    went out, and the packets that went out carry consecutive cursors. *)
Definition sender_ok (s : VoicePreparedPacketSender) : Prop :=
  ps_send_sequence s
    = pack_rtp_cursor (advance_run RtpSequenceState_new (durations (ps_wire s))) /\
  map packet_cursor (ps_wire s)
    = advance_cursors RtpSequenceState_new (durations (ps_wire s)).

Lemma sender_ok_new : sender_ok VoicePreparedPacketSender_new.
Proof. done. Qed.

Lemma advance_cursors_app s ds ds' :
  advance_cursors s (ds ++ ds')
  = advance_cursors s ds ++ advance_cursors (advance_run s ds) ds'.
Proof.
  revert s; induction ds as [|d ds IH]; intros s; simpl; [done|]. by rewrite IH.
Qed.

Lemma send_cursor_ok s :
  sender_ok s ->
  send_cursor s = advance_run RtpSequenceState_new (durations (ps_wire s)).
Proof.
  intros [Hc _]. unfold send_cursor. rewrite Hc. unfold pack_rtp_cursor.
  destruct (advance_run_typed RtpSequenceState_new (durations (ps_wire s))) as [Hq Ht];
    [by repeat split|].
  rewrite unpack_pack by done. by destruct (advance_run _ _).
Qed.

(** A packet whose cursor is the send cursor goes out and moves the cursor. *)
Lemma send_prepared_packet_next s packet :
  sender_ok s -> packet_typed packet ->
  packet_cursor packet = current (send_cursor s) ->
  exists s', send_prepared_packet s packet (Ok tt) = (s', Ok tt) /\
    ps_wire s' = ps_wire s ++ [packet] /\ sender_ok s' /\
    send_cursor s' = fst (advance_by_samples (send_cursor s) (pv_duration_samples packet)).
Proof.
  intros Hs (Hq & Ht & Hd) Hcur. pose proof (send_cursor_ok s Hs) as Hsc.
  assert (Hc : pv_rtp_sequence packet = rs_sequence (send_cursor s) /\
               pv_rtp_timestamp packet = rs_timestamp (send_cursor s)) by (by injection Hcur).
  destruct Hc as [Hc1 Hc2].
  unfold send_prepared_packet. fold (send_cursor s). rewrite <- Hcur.
  cbn [packet_cursor]. unfold packet_cursor. rewrite !Z.eqb_refl. cbn [negb orb].
  destruct Hs as [Hcv Hmap].
  assert (Hexp : ps_send_sequence s
                 = pack_rtp_cursor_parts (pv_rtp_sequence packet) (pv_rtp_timestamp packet)).
  { rewrite Hcv, <- Hsc. unfold pack_rtp_cursor. by rewrite Hc1, Hc2. }
  unfold commit_cursor. cbn [ps_send_sequence ps_wire].
  rewrite Hexp, Z.eqb_refl. eexists. split; [reflexivity|].
  cbn [ps_wire ps_send_sequence]. split; [done|].
  assert (Hadv : advance_run RtpSequenceState_new (durations (ps_wire s ++ [packet]))
                 = from_parts (wrapping_add 16 (pv_rtp_sequence packet) 1)
                     (wrapping_add 32 (pv_rtp_timestamp packet) (pv_duration_samples packet))).
  { unfold durations. rewrite map_app. cbn [map]. rewrite advance_run_app. cbn [advance_run].
    fold (durations (ps_wire s)). rewrite <- Hsc.
    unfold advance_by_samples, from_parts. cbn [fst]. by rewrite Hc1, Hc2. }
  split.
  - split; cbn [ps_send_sequence ps_wire].
    + by rewrite Hadv.
    + unfold durations. rewrite !map_app, advance_cursors_app. fold (durations (ps_wire s)).
      rewrite Hmap. f_equal. cbn [map advance_cursors]. by rewrite Hcur, Hsc.
  - unfold send_cursor at 1. cbn [ps_send_sequence].
    rewrite unpack_pack by (by apply wrapping_add_in_uint).
    unfold advance_by_samples, from_parts. cbn [fst]. by rewrite Hc1, Hc2.
Qed.

(** Any other packet, or a socket failure, leaves the sender as it was. *)
Lemma send_prepared_packet_rejected s packet sock :
  packet_cursor packet <> current (send_cursor s) \/ sock <> Ok tt ->
  fst (send_prepared_packet s packet sock) = s /\
  snd (send_prepared_packet s packet sock) <> Ok tt.
Proof.
  intros Hor. unfold send_prepared_packet, invalid_state. fold (send_cursor s).
  destruct (current (send_cursor s)) as [q t] eqn:E.
  destruct (Z.eqb_spec (pv_rtp_sequence packet) q) as [Eq|]; [|done].
  destruct (Z.eqb_spec (pv_rtp_timestamp packet) t) as [Et|]; [|done].
  cbn [negb orb]. destruct sock as [[]| |]; [|done|done].
  destruct Hor as [Hne|Hne]; [|done]. destruct Hne. unfold packet_cursor. by rewrite Eq, Et.
Qed.

Lemma send_prepared_packet_preserves s packet sock :
  sender_ok s -> packet_typed packet -> sender_ok (fst (send_prepared_packet s packet sock)).
Proof.
  intros Hs Hp.
  destruct (decide (packet_cursor packet = current (send_cursor s))) as [Hc|Hc];
    [|by rewrite (proj1 (send_prepared_packet_rejected s packet sock (or_introl Hc)))].
  destruct sock as [[]|e|].
  - by destruct (send_prepared_packet_next s packet Hs Hp Hc) as (s' & -> & _ & Hok & _).
  - destruct (send_prepared_packet_rejected s packet (Err e)) as [-> _]; [by right|done].
  - destruct (send_prepared_packet_rejected s packet Panic) as [-> _]; [by right|done].
Qed.

(** *** Preparing *)

Section Preparing.
Context {A : Aead}.

Lemma protection_nonce_from_packet_ok h c t n :
  in_uint u32_max n ->
  protection_nonce_from_packet (h ++ c ++ t ++ to_be_bytes 4 n) true = Ok (Some n).
Proof.
  intros Hn. unfold protection_nonce_from_packet. cbn [negb].
  rewrite !app_assoc. set (l := (h ++ c) ++ t). pose proof (zlen_nonneg l).
  rewrite zlen_app, zlen_to_be_bytes, sat_sub_exact by lia.
  rewrite get_from_ok by (rewrite zlen_app, zlen_to_be_bytes; lia).
  replace (Z.to_nat (zlen l + Z.of_nat 4 - 4)) with (length l) by (unfold zlen; lia).
  rewrite drop_app_length, to_be_bytes_4. eval_index. rewrite <- to_be_bytes_4.
  rewrite from_to_be_bytes; [done|]. unfold in_uint, u32_max in Hn.
  change (256 ^ Z.of_nat 4) with (2 ^ 32). lia.
Qed.

(** The nonce counters of the preparer's context, or none. *)
Definition next_nonce (t : VoiceUdpTransport) : option Z :=
  pc_next_nonce <$> pp_protection (tr_preparer t).

(** One preparation: the reserved cursor and the nonce counter move on, and
    the packet carries what they were before. *)
Lemma prepare_ok t frame ms samples is_track t' packet :
  (forall n, next_nonce t = Some n -> in_uint u32_max n) ->
  prepare_audio_packet_with_duration_samples t frame ms samples is_track = (t', Ok packet) ->
  samples <> 0 /\
  packet_cursor packet = current (pp_reserved_sequence (tr_preparer t)) /\
  pp_reserved_sequence (tr_preparer t')
    = fst (advance_by_samples (pp_reserved_sequence (tr_preparer t)) samples) /\
  pv_duration_samples packet = samples /\ pv_is_track packet = is_track /\
  pv_protection_nonce packet = next_nonce t /\
  next_nonce t' = (fun n => wrapping_add 32 n 1) <$> next_nonce t /\
  tr_sender t' = tr_sender t.
Proof.
  unfold prepare_audio_packet_with_duration_samples, prepare_audio_packet, next_nonce.
  intros Hn. destruct (Z.eqb_spec samples 0) as [|Hs0]; [done|].
  destruct (pp_protection (tr_preparer t)) as [c|] eqn:Ec.
  - cbn [advance_by_samples current].
    destruct (protect_packet c (build_header (pp_packet_builder (tr_preparer t))
       (rs_sequence (pp_reserved_sequence (tr_preparer t)))
       (rs_timestamp (pp_reserved_sequence (tr_preparer t)))) frame) as [c' r] eqn:Ep.
    rewrite bool_decide_eq_true_2 by done. destruct r as [bytes| |]; [|by intros [=]|by intros [=]].
    apply protect_packet_ok in Ep as (-> & _ & ct & tg & _ & ->).
    cbn [mbind result_bind]. rewrite protection_nonce_from_packet_ok by (by apply Hn).
    cbn. intros [= <- <-]. by split_and!.
  - cbn. intros [= <- <-]. by split_and!.
Qed.

Lemma prepare_sender t frame ms samples is_track :
  tr_sender (fst (prepare_audio_packet_with_duration_samples t frame ms samples is_track))
  = tr_sender t.
Proof.
  unfold prepare_audio_packet_with_duration_samples. by destruct (prepare_audio_packet _ _ _ _).
Qed.

Lemma transport_step_sender_ok t t' :
  transport_step t t' -> sender_ok (tr_sender t) -> sender_ok (tr_sender t').
Proof.
  destruct 1 as [t frame ms samples k Hs|t packet sock Hp|t]; intros Hok.
  - by rewrite prepare_sender.
  - unfold transport_send_prepared_packet.
    pose proof (send_prepared_packet_preserves (tr_sender t) packet sock Hok Hp) as H.
    by destruct (send_prepared_packet _ _ _).
  - done.
Qed.

Lemma reachable_sender_ok t t' :
  reachable t t' -> sender_ok (tr_sender t) -> sender_ok (tr_sender t').
Proof. induction 1; eauto using transport_step_sender_ok. Qed.

(** Prepares frames of the given payloads and durations, in order. *)
Fixpoint prepare_batch (t : VoiceUdpTransport) (frames : list (list Z * Z))
    : VoiceUdpTransport * list (vresult PreparedVoicePacket) :=
  match frames with
  | [] => (t, [])
  | (frame, samples) :: rest =>
      let r := prepare_audio_packet_with_duration_samples t frame
                 (duration_ms_from_samples samples) samples true in
      let rs := prepare_batch (fst r) rest in
      (fst rs, snd r :: snd rs)
  end.

(** Sends packets in order over a working socket. *)
Fixpoint send_batch (t : VoiceUdpTransport) (packets : list PreparedVoicePacket)
    : VoiceUdpTransport * list (vresult unit) :=
  match packets with
  | [] => (t, [])
  | p :: rest =>
      let r := transport_send_prepared_packet t p (Ok tt) in
      let rs := send_batch (fst r) rest in
      (fst rs, snd r :: snd rs)
  end.

(** ** Theorems *)

(** C16. RTP continuity on the wire: whatever is prepared, sent, rejected,
    failed by the socket or discarded in between, the packets that a fresh
    transport has put on the wire carry exactly the consecutive cursors of
    their own durations, with no gap, repeat or reordering. *)
Theorem wire_is_continuous ssrc t :
  reachable (VoiceUdpTransport_new ssrc) t ->
  map packet_cursor (ps_wire (tr_sender t))
  = advance_cursors RtpSequenceState_new (durations (ps_wire (tr_sender t))).
Proof. intros H. by apply (reachable_sender_ok _ _ H sender_ok_new). Qed.

End Preparing.

(** *** Batches *)

Section Batches.
Context {A : Aead}.

Lemma send_batch_cursors t packets :
  sender_ok (tr_sender t) -> Forall packet_typed packets ->
  map packet_cursor packets = advance_cursors (send_cursor (tr_sender t)) (durations packets) ->
  snd (send_batch t packets) = map (fun _ => Ok tt) packets /\
  ps_wire (tr_sender (fst (send_batch t packets))) = ps_wire (tr_sender t) ++ packets.
Proof.
  revert t; induction packets as [|p packets IH]; intros t Hok Hty Hcur; cbn [send_batch fst snd map].
  - by rewrite app_nil_r.
  - apply Forall_cons_1 in Hty as [Hp Hty]. 
    change (packet_cursor p :: map packet_cursor packets
            = current (send_cursor (tr_sender t)) :: advance_cursors
                (fst (advance_by_samples (send_cursor (tr_sender t)) (pv_duration_samples p)))
                (durations packets)) in Hcur.
    apply (f_equal head) in Hcur as H1. apply (inj Some) in H1.
    apply (f_equal tail) in Hcur as H2. cbn [tail] in H2.
    destruct (send_prepared_packet_next (tr_sender t) p Hok Hp H1)
      as (s' & Hsend & Hwire & Hok' & Hsc).
    unfold transport_send_prepared_packet. rewrite Hsend. cbn [fst snd].
    destruct (IH (mkVoiceUdpTransport (tr_preparer t) s')) as [Hr Hw]; cbn [tr_sender].
    + done.
    + done.
    + by rewrite Hsc.
    + rewrite Hr, Hw. cbn [tr_sender]. split; [done|]. by rewrite Hwire, <- app_assoc.
Qed.

Definition nonce_typed (t : VoiceUdpTransport) : Prop :=
  forall n, next_nonce t = Some n -> in_uint u32_max n.

Lemma nonce_typed_succ t t' :
  next_nonce t' = (fun n => wrapping_add 32 n 1) <$> next_nonce t -> nonce_typed t'.
Proof.
  unfold nonce_typed. intros ->. destruct (next_nonce t); [|done].
  intros n [= <-]. by apply wrapping_add_in_uint.
Qed.

Lemma prepare_batch_cursors t frames packets :
  nonce_typed t -> state_typed (pp_reserved_sequence (tr_preparer t)) ->
  Forall (fun f => in_uint u32_max (snd f)) frames ->
  snd (prepare_batch t frames) = map Ok packets ->
  Forall packet_typed packets /\ durations packets = map snd frames /\
  map packet_cursor packets
    = advance_cursors (pp_reserved_sequence (tr_preparer t)) (durations packets) /\
  tr_sender (fst (prepare_batch t frames)) = tr_sender t.
Proof.
  revert t packets; induction frames as [|[frame samples] rest IH];
    intros t packets Hn Hst Hty; cbn [prepare_batch fst snd].
  - intros H. by destruct packets.
  - destruct packets as [|packet packets]; [done|]. cbn [map]. intros Heq.
    apply (f_equal tail) in Heq as Hrest. cbn [tail] in Hrest.
    apply (f_equal head) in Heq as Hr. cbn [head] in Hr. apply (inj Some) in Hr.
    set (step := prepare_audio_packet_with_duration_samples t frame
                   (duration_ms_from_samples samples) samples true) in *.
    assert (E : step = (fst step, Ok packet)) by (by rewrite <- Hr, <- surjective_pairing).
    destruct (prepare_ok _ _ _ _ _ _ _ Hn E) as (Hs0 & Hcur & Hres & Hdur & _ & _ & Hnn & Hsnd).
    apply Forall_cons_1 in Hty as [Hs Hty].
    destruct (IH (fst step) packets) as (Hpt & Hds & Hcs & Hss); try done.
    { by eapply nonce_typed_succ. }
    { rewrite Hres. apply advance_typed. }
    split_and!.
    + constructor; [|done]. unfold packet_cursor, current in Hcur. injection Hcur as Hc1 Hc2.
      unfold packet_typed. rewrite Hc1, Hc2, Hdur. destruct Hst. by split_and!.
    + unfold durations in *. cbn [map]. by rewrite Hdur, Hds.
    + unfold durations in *. cbn [map advance_cursors]. rewrite Hdur. rewrite Hcur, Hcs, Hres. done.
    + by rewrite Hss, Hsnd.
Qed.

(** Playing ahead works: when a transport rewinds its reservation to the
    send cursor and then prepares a batch of frames, sending the batch in
    order succeeds for every packet and puts exactly these packets, in that
    order, on the wire. *)
Theorem batch_goes_out ssrc t frames packets :
  reachable (VoiceUdpTransport_new ssrc) t -> nonce_typed t ->
  Forall (fun f => in_uint u32_max (snd f)) frames ->
  snd (prepare_batch (discard_unsent_prepared_packets t) frames) = map Ok packets ->
  let t' := fst (prepare_batch (discard_unsent_prepared_packets t) frames) in
  snd (send_batch t' packets) = map (fun _ => Ok tt) packets /\
  ps_wire (tr_sender (fst (send_batch t' packets))) = ps_wire (tr_sender t) ++ packets.
Proof.
  intros Hreach Hn Hty Hprep t'.
  assert (Hok : sender_ok (tr_sender t)) by (by eapply reachable_sender_ok).
  pose proof (send_cursor_ok _ Hok) as Hsc.
  destruct (prepare_batch_cursors (discard_unsent_prepared_packets t) frames packets)
    as (Hpt & Hds & Hcs & Hss); try done.
  { cbn. rewrite Hsc. apply advance_run_typed. by repeat split. }
  unfold t'. destruct (send_batch_cursors t' packets) as [H1 H2]; unfold t' in *.
  - by rewrite Hss.
  - done.
  - by rewrite Hss, Hcs.
  - by rewrite H2, Hss.
Qed.

(** *** Nonces across rebuilds *)

Inductive prepare_op : Type :=
| OpPrepare (frame : list Z) (samples : Z)
| OpDiscard.

Definition run_prepare_op (t : VoiceUdpTransport) (o : prepare_op)
    : VoiceUdpTransport * option (vresult PreparedVoicePacket) :=
  match o with
  | OpPrepare frame samples =>
      let r := prepare_audio_packet_with_duration_samples t frame
                 (duration_ms_from_samples samples) samples true in
      (fst r, Some (snd r))
  | OpDiscard => (discard_unsent_prepared_packets t, None)
  end.

Fixpoint run_prepare_ops (t : VoiceUdpTransport) (ops : list prepare_op)
    : list (option (vresult PreparedVoicePacket)) :=
  match ops with
  | [] => []
  | o :: rest => snd (run_prepare_op t o) :: run_prepare_ops (fst (run_prepare_op t o)) rest
  end.

(** How many nonces a run of operations draws: one per preparation that gets
    past the duration check, whether or not it then seals. *)
Definition draws (o : prepare_op) : Z :=
  match o with OpPrepare _ samples => if samples =? 0 then 0 else 1 | OpDiscard => 0 end.

Lemma run_prepare_op_nonce t o n :
  nonce_typed t -> next_nonce t = Some n ->
  next_nonce (fst (run_prepare_op t o)) = Some (wrap 32 (n + draws o)) /\
  (forall p, snd (run_prepare_op t o) = Some (Ok p) ->
             pv_protection_nonce p = Some n /\ draws o = 1).
Proof.
  intros Hty Hn. specialize (Hty n Hn) as Hb. unfold in_uint, u32_max in Hb.
  destruct o as [frame samples|]; cbn [run_prepare_op fst snd draws].
  - split.
    + unfold prepare_audio_packet_with_duration_samples, prepare_audio_packet, next_nonce in *.
      destruct (pp_protection (tr_preparer t)) as [c|] eqn:Ec; [|done].
      cbn in Hn. injection Hn as Hn.
      destruct (samples =? 0); cbn [fst tr_preparer]; [rewrite Ec; cbn|cbn].
      * rewrite Z.add_0_r, wrap_small by lia. by rewrite Hn.
      * unfold wrapping_add. by rewrite Hn.
    + intros p [= Hp].
      destruct (prepare_ok t frame (duration_ms_from_samples samples) samples true
        (fst (prepare_audio_packet_with_duration_samples t frame
                (duration_ms_from_samples samples) samples true)) p Hty)
        as (Hs & _ & _ & _ & _ & Hpn & _); [by rewrite <- Hp, <- surjective_pairing|].
      rewrite Hpn. split; [done|]. by destruct (Z.eqb_spec samples 0).
  - split; [|done]. cbn. rewrite Z.add_0_r, wrap_small by lia. done.
Qed.

Lemma run_prepare_ops_nonce t ops i n p :
  nonce_typed t -> next_nonce t = Some n ->
  run_prepare_ops t ops !! i = Some (Some (Ok p)) ->
  pv_protection_nonce p = Some (wrap 32 (n + sum_by draws (take i ops))) /\
  exists o, ops !! i = Some o /\ draws o = 1.
Proof.
  revert t i n; induction ops as [|o ops IH]; intros t i n Hty Hn; [done|].
  destruct (run_prepare_op_nonce t o n Hty Hn) as [Hnext Hpk].
  specialize (Hty n Hn) as Hb. unfold in_uint, u32_max in Hb.
  destruct i as [|i]; cbn [run_prepare_ops lookup list_lookup take].
  - intros H. apply (inj Some) in H. apply Hpk in H as [-> Hd].
    rewrite sum_by_nil, Z.add_0_r, wrap_small by lia. split; [done|]. by exists o.
  - intros H. apply IH with (n := wrap 32 (n + draws o)) in H; [|intros m Hm|done].
    + rewrite sum_by_cons. destruct H as [-> Ho]. split; [|done].
      unfold wrap. rewrite Z.add_mod_idemp_l by done. do 2 f_equal. lia.
    + rewrite Hnext in Hm. injection Hm as <-. pose proof (wrap_bound 32 (n + draws o)).
      unfold in_uint, u32_max. lia.
Qed.

Lemma draws_take_lt ops i j o :
  (i < j)%nat -> ops !! i = Some o -> draws o = 1 ->
  sum_by draws (take i ops) + 1 <= sum_by draws (take j ops).
Proof.
  intros Hij Ho Hd. rewrite <- (take_drop i (take j ops)), take_take, Nat.min_l by lia.
  rewrite sum_by_app. enough (1 <= sum_by draws (drop i (take j ops))) by lia.
  assert (Hl : take j ops !! i = Some o) by (by rewrite lookup_take_lt).
  rewrite (drop_S _ _ _ Hl), sum_by_cons, Hd.
  enough (0 <= sum_by draws (drop (S i) (take j ops))) by lia.
  apply sum_by_nonneg. intros [? s|] _; cbn; [|lia]. zcase; lia.
Qed.

Lemma draws_take_le ops j : sum_by draws (take j ops) <= zlen ops.
Proof.
  assert (H : forall l, sum_by draws l <= zlen l).
  { induction l as [|[f s|] l IH]; [done|..]; rewrite sum_by_cons, zlen_cons; cbn; [zcase|]; lia. }
  specialize (H (take j ops)). unfold zlen in *. rewrite length_take in H. lia.
Qed.

(** Rebuilding packets never reuses a nonce: discarding prepared packets
    rewinds the RTP cursor (the same sequence numbers are prepared again) but
    not the nonce counter, so in any mix of at most 2^32 - 1 preparations and
    discards two different prepared packets carry different nonces. *)
Theorem rebuilt_packets_fresh_nonces t ops i j n pi pj :
  nonce_typed t -> next_nonce t = Some n -> zlen ops < 2 ^ 32 -> (i < j)%nat ->
  run_prepare_ops t ops !! i = Some (Some (Ok pi)) ->
  run_prepare_ops t ops !! j = Some (Some (Ok pj)) ->
  pv_protection_nonce pi <> pv_protection_nonce pj.
Proof.
  intros Hty Hn Hl Hij Hi Hj Heq. specialize (Hty n Hn) as Hb. unfold in_uint, u32_max in Hb.
  destruct (run_prepare_ops_nonce t ops i n pi Hty Hn Hi) as [E1 (o & Ho & Hd)].
  destruct (run_prepare_ops_nonce t ops j n pj Hty Hn Hj) as [E2 _].
  rewrite E1, E2 in Heq. injection Heq as Heq.
  pose proof (draws_take_lt ops i j o Hij Ho Hd). pose proof (draws_take_le ops j).
  assert (0 <= sum_by draws (take i ops)).
  { apply sum_by_nonneg. intros [? s|] _; cbn; [|lia]. zcase; lia. }
  unfold wrap in Heq. change (2 ^ 32) with 4294967296 in *.
  Z.div_mod_to_equations. lia.
Qed.

End Batches.

(** Concrete transports for the witnesses. *)
Definition sample_first_packet : PreparedVoicePacket :=
  mkPreparedVoicePacket [9] 20 960 true 0 0 None.

Definition sample_sent : VoiceUdpTransport :=
  fst (transport_send_prepared_packet (VoiceUdpTransport_new 7) sample_first_packet (Ok tt)).

Lemma wire_is_continuous_witness :
  map packet_cursor (ps_wire (tr_sender sample_sent))
  = advance_cursors RtpSequenceState_new [960].
Proof.
  apply (@wire_is_continuous checksum_aead 7 sample_sent).
  apply rtc_once, step_send. by repeat split.
Defined.

Lemma batch_goes_out_witness :
  exists p0 p1,
  let t' := fst (@prepare_batch checksum_aead (discard_unsent_prepared_packets sample_sent)
                   [([1; 2], 960); ([3], 480)]) in
  packet_cursor p1 = (2, 1920) /\
  ps_wire (tr_sender (fst (send_batch t' [p0; p1])))
  = ps_wire (tr_sender sample_sent) ++ [p0; p1].
Proof.
  eexists _, _. cbv zeta. split; cycle 1.
  - apply (@batch_goes_out checksum_aead 7 sample_sent [([1; 2], 960); ([3], 480)]).
    + apply rtc_once, step_send. by repeat split.
    + done.
    + repeat constructor; vm_compute; intuition discriminate.
    + vm_compute. reflexivity.
  - reflexivity.
Defined.

Lemma rebuilt_packets_fresh_nonces_witness :
  exists p0 p2, p0.(pv_rtp_sequence) = p2.(pv_rtp_sequence) /\
  pv_protection_nonce p0 <> pv_protection_nonce p2.
Proof.
  eexists _, _. split; cycle 1.
  - apply (@rebuilt_packets_fresh_nonces checksum_aead
             (with_protection (VoiceUdpTransport_new 7) sample_context)
             [OpPrepare [1] 960; OpDiscard; OpPrepare [1] 960] 0 2 4294967295).
    + intros n [= <-]. by split.
    + reflexivity.
    + reflexivity.
    + lia.
    + vm_compute. reflexivity.
    + vm_compute. reflexivity.
  - reflexivity.
Defined.
