(* ===== verification/DaveWire.v ===== *)
(** * DAVE commit/welcome framing

    crates/discord-voice-service-voice/src/dave/wire.rs: the length-prefixed
    framing that carries an MLS commit and its optional welcome between the
    DAVE session and the gateway, and the error type of
    crates/discord-voice-service-voice/src/dave/error.rs. *)

From S2P Require Import Prelude Text.
From stdpp Require Import prelude strings.
Open Scope Z_scope.

Inductive DaveError : Type :=
| NotInitialized
| InvalidUserId (message : string)
| EmptyOutput (what : string)
| MlsFailure (context mls_source reason : string)
| MalformedCommitWelcome
| Operation (context reason : string).

Abbreviation dresult := (result DaveError).

Definition is_epoch_mismatch (e : DaveError) : bool :=
  match e with
  | MlsFailure _ _ reason | Operation _ reason => contains reason "epoch differs"
  | _ => false
  end.

Definition LEN_BYTES : Z := 4.

Definition pack_commit_welcome (commit : list Z) (welcome : option (list Z)) : list Z :=
  let welcome := default [] welcome in
  to_be_bytes 4 (wrap 32 (zlen commit)) ++ commit
    ++ to_be_bytes 4 (wrap 32 (zlen welcome)) ++ welcome.

Definition take_exact (input : list Z) (len : Z) : dresult (list Z * list Z) :=
  if zlen input <? len then Err MalformedCommitWelcome else split_at input len.

Definition read_len_prefixed (input : list Z) : dresult (Z * list Z) :=
  '(len, rest) ← take_exact input LEN_BYTES;
  (* [len.try_into().expect(..)] to a four-byte array *)
  if negb (zlen len =? 4) then Panic else Ok (from_be_bytes len, rest).

Definition unpack_commit_welcome (commit_welcome : list Z) : dresult (list Z * list Z) :=
  '(commit_len, rest) ← read_len_prefixed commit_welcome;
  '(commit, rest) ← take_exact rest commit_len;
  '(welcome_len, rest) ← read_len_prefixed rest;
  '(welcome, rest) ← take_exact rest welcome_len;
  if negb (bool_decide (rest = [])) then Err MalformedCommitWelcome
  else Ok (commit, welcome).

(** ** Lemmas *)

Lemma take_exact_app l k : take_exact (l ++ k) (zlen l) = Ok (l, k).
Proof.
  unfold take_exact. rewrite zlen_app. pose proof (zlen_nonneg k).
  zcase; [lia|]. apply split_at_app.
Qed.

Lemma take_exact_Ok input len l k :
  0 <= len -> take_exact input len = Ok (l, k) -> input = l ++ k /\ zlen l = len.
Proof.
  unfold take_exact. intros Hl. zcase; [done|].
  rewrite split_at_ok by lia. intros [= <- <-]. split; [by rewrite take_drop|].
  by rewrite zlen_take by lia.
Qed.

Lemma no_panic_take_exact input len : 0 <= len -> no_panic (take_exact input len).
Proof.
  intros Hl. unfold take_exact. zcase; [done|]. by rewrite split_at_ok by lia.
Qed.

Lemma read_len_prefixed_app x l :
  0 <= x < 2 ^ 32 -> read_len_prefixed (to_be_bytes 4 x ++ l) = Ok (x, l).
Proof.
  intros Hx. unfold read_len_prefixed.
  change LEN_BYTES with (Z.of_nat 4). rewrite <- (zlen_to_be_bytes 4 x), take_exact_app.
  cbn [mbind result_bind]. rewrite zlen_to_be_bytes. cbn [Z.of_nat].
  by rewrite from_to_be_bytes by (change (256 ^ Z.of_nat 4) with (2 ^ 32); lia).
Qed.

Lemma read_len_prefixed_Ok input n rest :
  bytes_ok input -> read_len_prefixed input = Ok (n, rest) ->
  input = to_be_bytes 4 n ++ rest /\ 0 <= n < 2 ^ 32.
Proof.
  unfold read_len_prefixed. intros Hb H. inv_ok. destruct x as [len rest'].
  match goal with H : take_exact _ _ = _ |- _ => apply take_exact_Ok in H as [-> Hlen]; [|done] end.
  unfold LEN_BYTES in Hlen. rewrite Hlen in H. cbn in H. injection H as <- <-.
  apply Forall_app in Hb as [Hb _].
  pose proof (from_be_bytes_bound len Hb) as Hbound. rewrite Hlen in Hbound.
  rewrite <- (to_from_be_bytes len Hb) at 1.
  replace (length len) with 4%nat by (unfold zlen in Hlen; lia). done.
Qed.

Lemma no_panic_read_len_prefixed input : no_panic (read_len_prefixed input).
Proof.
  unfold read_len_prefixed. apply no_panic_bind; [by apply no_panic_take_exact|].
  intros [len rest] H. apply take_exact_Ok in H as [_ ->]; done.
Qed.

(** Frames of 32-bit length unpack to what was packed. *)
Lemma unpack_pack_commit_welcome commit welcome :
  zlen commit < 2 ^ 32 -> zlen (default [] welcome) < 2 ^ 32 ->
  unpack_commit_welcome (pack_commit_welcome commit welcome) = Ok (commit, default [] welcome).
Proof.
  intros Hc Hw. unfold unpack_commit_welcome, pack_commit_welcome.
  pose proof (zlen_nonneg commit). pose proof (zlen_nonneg (default [] welcome)).
  rewrite !wrap_small by lia. rewrite read_len_prefixed_app by lia. cbn [mbind result_bind].
  rewrite take_exact_app. cbn [mbind result_bind].
  rewrite read_len_prefixed_app by lia. cbn [mbind result_bind].
  rewrite <- (app_nil_r (default [] welcome)) at 1.
  rewrite take_exact_app. done.
Qed.

(** ** Theorems *)

(** Commit/welcome framing is lossless and canonical: packing then
    unpacking returns the commit and the welcome (an absent welcome as the
    empty one) for payloads below 4 GiB; and unpacking accepts nothing but
    packed payloads, so a frame with missing or trailing bytes is refused. *)
Theorem commit_welcome_framing commit welcome frame :
  zlen commit < 2 ^ 32 -> zlen (default [] welcome) < 2 ^ 32 -> bytes_ok frame ->
  unpack_commit_welcome (pack_commit_welcome commit welcome) = Ok (commit, default [] welcome) /\
  (forall c w, unpack_commit_welcome frame = Ok (c, w) -> frame = pack_commit_welcome c (Some w)).
Proof.
  intros Hc Hw Hb. split; [by apply unpack_pack_commit_welcome|].
  intros c w H. unfold unpack_commit_welcome in H.
  apply bind_Ok in H as ([cl rest] & H1 & H). apply bind_Ok in H as ([c' rest1] & H2 & H).
  apply bind_Ok in H as ([wl rest2] & H3 & H). apply bind_Ok in H as ([w' rest3] & H4 & H).
  cbv beta in H. case_bool_decide; [|done]. subst. cbn in H. injection H as -> ->.
  apply read_len_prefixed_Ok in H1 as [-> Hcl]; [|done]. apply Forall_app in Hb as [_ Hb].
  apply take_exact_Ok in H2 as [-> Hlc]; [|lia]. apply Forall_app in Hb as [_ Hb].
  apply read_len_prefixed_Ok in H3 as [-> Hwl]; [|done].
  apply take_exact_Ok in H4 as [-> Hlw]; [|lia].
  unfold pack_commit_welcome. cbn [default id from_option].
  by rewrite !wrap_small, Hlc, Hlw, app_nil_r by lia.
Qed.

Lemma commit_welcome_framing_witness :
  unpack_commit_welcome (pack_commit_welcome [1; 2; 3] None) = Ok ([1; 2; 3], []).
Proof.
  apply (commit_welcome_framing [1; 2; 3] None [0; 0; 0; 0]); try reflexivity.
  repeat constructor; vm_compute; intuition discriminate.
Defined.

(** Unpacking bytes from the MLS layer never panics (the four-byte
    conversion cannot fail after the length check). *)
Theorem unpack_commit_welcome_no_panic frame :
  bytes_ok frame -> no_panic (unpack_commit_welcome frame).
Proof.
  intros Hb. unfold unpack_commit_welcome.
  apply no_panic_bind; [apply no_panic_read_len_prefixed|intros [cl rest] H1].
  apply read_len_prefixed_Ok in H1 as [-> Hcl]; [|done]. apply Forall_app in Hb as [_ Hb].
  apply no_panic_bind; [apply no_panic_take_exact; lia|intros [c rest1] H2].
  apply take_exact_Ok in H2 as [-> _]; [|lia]. apply Forall_app in Hb as [_ Hb].
  apply no_panic_bind; [apply no_panic_read_len_prefixed|intros [wl rest2] H3].
  apply read_len_prefixed_Ok in H3 as [-> Hwl]; [|done].
  apply no_panic_bind; [apply no_panic_take_exact; lia|intros [w rest3] _].
  by destruct (negb _).
Qed.

Lemma unpack_commit_welcome_no_panic_witness : no_panic (unpack_commit_welcome [0; 0; 0; 9; 1]).
Proof.
  apply (unpack_commit_welcome_no_panic [0; 0; 0; 9; 1]).
  repeat constructor; vm_compute; intuition discriminate.
Defined.
