(* ===== verification/Json.v ===== *)
(** * JSON values

    The part of [serde_json::Value] the gateway protocol uses. A number keeps
    serde_json's three forms; an object is its list of members, each key once.
    Parsing and printing of JSON text belong to serde_json and are parameters
    where they are used. *)

From S2P Require Import Prelude.
From stdpp Require Import prelude strings.
Open Scope Z_scope.

Inductive number : Type :=
| PosInt (n : Z)
| NegInt (n : Z)
| Float (text : string).

#[warnings="-register-all"]
Inductive Value : Type :=
| Null
| Bool (b : bool)
| Number (n : number)
| Str (s : string)
| Array (l : list Value)
| Object (members : list (string * Value)).

(** [BTreeMap::get] on the members. *)
Fixpoint member (key : string) (l : list (string * Value)) : option Value :=
  match l with
  | [] => None
  | (k, v) :: rest => if String.eqb k key then Some v else member key rest
  end.

Definition get (key : string) (v : Value) : option Value :=
  match v with Object l => member key l | _ => None end.

Definition number_as_u64 (n : number) : option Z :=
  match n with PosInt n => Some n | _ => None end.
Definition as_u64 (v : Value) : option Z :=
  match v with Number n => number_as_u64 n | _ => None end.
Definition as_string (v : Value) : option string :=
  match v with Str s => Some s | _ => None end.
Definition as_array (v : Value) : option (list Value) :=
  match v with Array l => Some l | _ => None end.
Definition as_object (v : Value) : option (list (string * Value)) :=
  match v with Object l => Some l | _ => None end.
Definition is_null (v : Value) : bool := match v with Null => true | _ => false end.

(** [json!] of an unsigned and of a signed integer. *)
Definition juint (n : Z) : Value := Number (PosInt n).
Definition jint (n : Z) : Value := Number (if n <? 0 then NegInt n else PosInt n).

(** Well-typed values: the integer forms hold a [u64]. *)
Fixpoint json_typed (v : Value) : Prop :=
  match v with
  | Number (PosInt n) => in_uint u64_max n
  | Array l =>
      (fix all (l : list Value) : Prop :=
         match l with [] => True | x :: l' => json_typed x /\ all l' end) l
  | Object l =>
      (fix all (l : list (string * Value)) : Prop :=
         match l with [] => True | (_, x) :: l' => json_typed x /\ all l' end) l
  | _ => True
  end.

Lemma as_u64_typed v n : json_typed v -> as_u64 v = Some n -> in_uint u64_max n.
Proof. destruct v as [| |[]| | |]; try done. simpl. by intros ? [= <-]. Qed.

Lemma get_typed key v w : json_typed v -> get key v = Some w -> json_typed w.
Proof.
  destruct v as [| | | | |l]; try done. simpl. induction l as [|[k x] l IH]; simpl; [done|].
  intros [Hx Hl]. destruct (String.eqb k key); [|by apply IH]. by intros [= <-].
Qed.

Lemma as_array_typed v l : json_typed v -> as_array v = Some l -> Forall json_typed l.
Proof.
  destruct v as [| | | |l'|]; try done. simpl. intros H [= <-].
  induction l' as [|x l' IH]; [constructor|]. destruct H. constructor; [done|]. by apply IH.
Qed.
