(* ===== verification/Protocol.v ===== *)
(** * The voice gateway protocol

    crates/discord-voice-service-voice/src/protocol.rs: the events of the
    gateway, the parser of text (JSON) and binary messages and the payloads
    the service sends, with the [VoiceContext] of session.rs and
    [ProtectionContext::from_session] of protection.rs. *)

From S2P Require Import Prelude VoiceErrors Text Json Crypto Rtp Protection DaveWire.
From stdpp Require Import prelude strings.
Open Scope Z_scope.

Definition SPEAKING_FLAG_MICROPHONE : Z := 1.

Record VoiceContext : Type := mkVoiceContext {
  vc_guild_id : string;
  vc_channel_id : string;
  vc_user_id : string;
  vc_session_id : string;
  vc_endpoint : string;
  vc_token : string;
}.

#[global] Instance VoiceContext_eq_dec : EqDecision VoiceContext.
Proof. solve_decision. Defined.

Record SessionDescription : Type := mkSessionDescription {
  sd_mode : string;
  sd_secret_key : list Z;
  sd_dave_protocol_version : option Z;
}.

Inductive DaveMlsProposalsOperation : Type := Append | Revoke.

Inductive VoiceGatewayEvent : Type :=
| Hello (heartbeat_interval_ms : Z)
| Ready (ssrc : Z) (ip : string) (port : Z) (modes : list string)
| SessionDescriptionEvent (d : SessionDescription)
| Speaking (speaking delay ssrc : Z) (user_id : option string)
| HeartbeatAck (nonce : option Z)
| ClientsConnect (user_ids : list string)
| Video (user_id : option string) (audio_ssrc video_ssrc : option Z)
| ClientDisconnect (user_id : string)
| MediaSinkWants
| ClientFlags (user_id : string) (flags : option Z)
| ClientPlatform (user_id : string) (platform : option Z)
| DavePrepareTransition (transition_id protocol_version : Z)
| DaveExecuteTransition (transition_id : Z)
| DavePrepareEpoch (transition_id : option Z) (epoch : string) (protocol_version : Z)
| DaveMlsExternalSenderPackage (external_sender : list Z)
| DaveMlsProposals (operation : DaveMlsProposalsOperation) (proposals : list Z)
| DaveMlsPrepareCommitTransition (transition_id : Z) (commit : list Z)
| DaveMlsWelcome (transition_id : Z) (welcome : list Z)
| Resumed.

Record VoiceGatewayPayload : Type := mkVoiceGatewayPayload {
  gp_event : VoiceGatewayEvent;
  gp_seq : option Z;
}.

(** ** Field readers *)

(** [data.get(key).and_then(Value::as_u64).ok_or(..)] and the string form. *)
Definition require_u64 (data : Value) (key missing : string) : vresult Z :=
  ok_or (get key data ≫= as_u64) (InvalidState missing).
Definition require_str (data : Value) (key missing : string) : vresult string :=
  ok_or (get key data ≫= as_string) (InvalidState missing).

(** [.try_into().map_err(..)] to the type whose largest value is [m]. *)
Definition narrow (m n : Z) (invalid : string) : vresult Z :=
  ok_or (try_uint m n) (InvalidState invalid).

(** [.and_then(Value::as_u64).and_then(|v| u16::try_from(v).ok()).ok_or(..)] *)
Definition require_u16 (data : Value) (key invalid : string) : vresult Z :=
  ok_or ((get key data ≫= as_u64) ≫= try_uint u16_max) (InvalidState invalid).

Definition optional_str (data : Value) (key : string) : option string :=
  get key data ≫= as_string.

Definition require_object (value : Value) (invalid : string) : vresult unit :=
  _ ← ok_or (as_object value) (InvalidState invalid); Ok tt.

(** [value.filter(|v| !v.is_null())] *)
Definition non_null (value : option Value) : option Value :=
  v ← value; if is_null v then None else Some v.

Definition parse_optional_uint (m : Z) (value : option Value) (invalid : string)
    : vresult (option Z) :=
  match non_null value with
  | None => Ok None
  | Some v => n ← ok_or (as_u64 v ≫= try_uint m) (InvalidState invalid); Ok (Some n)
  end.

Definition parse_optional_u16 := parse_optional_uint u16_max.
Definition parse_optional_u32 := parse_optional_uint u32_max.

Definition parse_optional_u64 (value : option Value) (invalid : string) : vresult (option Z) :=
  match non_null value with
  | None => Ok None
  | Some v => n ← ok_or (as_u64 v) (InvalidState invalid); Ok (Some n)
  end.

Definition parse_byte_array (value : option Value) (missing invalid : string)
    : vresult (list Z) :=
  octets ← ok_or (value ≫= as_array) (InvalidState missing);
  collect (fun octet => ok_or (as_u64 octet ≫= try_uint u8_max) (InvalidState invalid)) octets.

Definition parse_str_array (data : Value) (key missing invalid : string)
    : vresult (list string) :=
  items ← ok_or (get key data ≫= as_array) (InvalidState missing);
  collect (fun item => ok_or (as_string item) (InvalidState invalid)) items.

Definition parse_heartbeat_ack_nonce (value : Value) : vresult (option Z) :=
  match value with
  | Number number =>
      n ← ok_or (number_as_u64 number) (InvalidState "voice heartbeat ack invalid"); Ok (Some n)
  | Object _ =>
      n ← ok_or (get "t" value ≫= as_u64) (InvalidState "voice heartbeat ack missing");
      Ok (Some n)
  | _ => invalid_state "voice heartbeat ack invalid"
  end.

(** ** Text messages, one reader per opcode *)

Definition parse_hello (data : Value) : vresult VoiceGatewayEvent :=
  interval ← require_u64 data "heartbeat_interval" "voice hello heartbeat interval missing";
  Ok (Hello interval).

Definition parse_ready (data : Value) : vresult VoiceGatewayEvent :=
  ssrc ← require_u64 data "ssrc" "voice ready ssrc missing";
  ssrc ← narrow u32_max ssrc "voice ready ssrc invalid";
  ip ← require_str data "ip" "voice ready ip missing";
  port ← require_u64 data "port" "voice ready port missing";
  port ← narrow u16_max port "voice ready port invalid";
  modes ← parse_str_array data "modes" "voice ready modes missing" "voice ready mode invalid";
  Ok (Ready ssrc ip port modes).

Definition parse_session_description (data : Value) : vresult VoiceGatewayEvent :=
  mode ← require_str data "mode" "voice session description mode missing";
  secret_key ← parse_byte_array (get "secret_key" data)
                 "voice session description secret key missing"
                 "voice session description secret key invalid";
  dave_protocol_version ← parse_optional_u16 (get "dave_protocol_version" data)
                 "voice session description dave protocol version invalid";
  Ok (SessionDescriptionEvent (mkSessionDescription mode secret_key dave_protocol_version)).

Definition parse_speaking (data : Value) : vresult VoiceGatewayEvent :=
  speaking ← require_u64 data "speaking" "voice speaking flags missing";
  let delay := default 0 (get "delay" data ≫= as_u64) in
  ssrc ← require_u64 data "ssrc" "voice speaking ssrc missing";
  ssrc ← narrow u32_max ssrc "voice speaking ssrc invalid";
  Ok (Speaking speaking delay ssrc (optional_str data "user_id")).

Definition parse_video (data : Value) : vresult VoiceGatewayEvent :=
  _ ← require_object data "voice video payload invalid";
  audio_ssrc ← parse_optional_u32 (get "audio_ssrc" data) "voice video audio ssrc invalid";
  video_ssrc ← parse_optional_u32 (get "video_ssrc" data) "voice video ssrc invalid";
  Ok (Video (optional_str data "user_id") audio_ssrc video_ssrc).

Definition parse_client_flags (data : Value) : vresult VoiceGatewayEvent :=
  user_id ← require_str data "user_id" "voice client flags user id missing";
  flags ← parse_optional_u64 (get "flags" data) "voice client flags invalid";
  Ok (ClientFlags user_id flags).

Definition parse_client_platform (data : Value) : vresult VoiceGatewayEvent :=
  user_id ← require_str data "user_id" "voice client platform user id missing";
  platform ← parse_optional_u64 (get "platform" data) "voice client platform invalid";
  Ok (ClientPlatform user_id platform).

Definition parse_prepare_transition (data : Value) : vresult VoiceGatewayEvent :=
  transition_id ← require_u16 data "transition_id" "voice dave prepare transition id invalid";
  protocol_version ← require_u16 data "protocol_version"
                       "voice dave prepare transition protocol version invalid";
  Ok (DavePrepareTransition transition_id protocol_version).

(** The epoch is a string, or a number that is printed in decimal. *)
Definition epoch_text (v : Value) : option string :=
  match v with
  | Str epoch => Some epoch
  | Number epoch => u64_to_string <$> number_as_u64 epoch
  | _ => None
  end.

Definition parse_prepare_epoch (data : Value) : vresult VoiceGatewayEvent :=
  transition_id ← parse_optional_u16 (get "transition_id" data)
                    "voice dave prepare epoch transition id invalid";
  epoch ← ok_or (get "epoch" data ≫= epoch_text)
            (InvalidState "voice dave prepare epoch missing");
  protocol_version ← require_u16 data "protocol_version"
                       "voice dave prepare epoch protocol version invalid";
  Ok (DavePrepareEpoch transition_id epoch protocol_version).

Definition parse_gateway_event (op : Z) (data : Value) : vresult VoiceGatewayEvent :=
  if op =? 8 then parse_hello data
  else if op =? 2 then parse_ready data
  else if op =? 4 then parse_session_description data
  else if op =? 5 then parse_speaking data
  else if op =? 6 then nonce ← parse_heartbeat_ack_nonce data; Ok (HeartbeatAck nonce)
  else if op =? 11 then
    user_ids ← parse_str_array data "user_ids" "voice clients connect user ids missing"
                 "voice clients connect user id invalid";
    Ok (ClientsConnect user_ids)
  else if op =? 12 then parse_video data
  else if op =? 13 then
    user_id ← require_str data "user_id" "voice client disconnect user id missing";
    Ok (ClientDisconnect user_id)
  else if op =? 15 then
    _ ← require_object data "voice media sink wants payload invalid"; Ok MediaSinkWants
  else if op =? 18 then parse_client_flags data
  else if op =? 20 then parse_client_platform data
  else if op =? 21 then parse_prepare_transition data
  else if op =? 24 then parse_prepare_epoch data
  else if op =? 22 then
    transition_id ← require_u16 data "transition_id" "voice dave execute transition id invalid";
    Ok (DaveExecuteTransition transition_id)
  else if op =? 9 then Ok Resumed
  else Err (UnsupportedGatewayOp op).

(** [payload.get("seq").or_else(|| payload.get("s")).and_then(Value::as_u64)] *)
Definition payload_seq (payload : Value) : option Z :=
  match get "seq" payload with
  | Some v => as_u64 v
  | None => get "s" payload ≫= as_u64
  end.

Definition parse_gateway_value (payload : Value) : vresult VoiceGatewayPayload :=
  op ← require_u64 payload "op" "voice gateway op missing";
  let data := default Null (get "d" payload) in
  event ← parse_gateway_event op data;
  Ok (mkVoiceGatewayPayload event (payload_seq payload)).

(** [json_from_str] is [serde_json::from_str]. *)
Definition parse_gateway_message (json_from_str : string -> option Value) (text : string)
    : vresult VoiceGatewayPayload :=
  payload ← ok_or (json_from_str text) (InvalidState "voice gateway payload invalid json");
  parse_gateway_value payload.

(** ** Binary messages *)

Definition parse_dave_proposals_operation (value : Z) : vresult DaveMlsProposalsOperation :=
  if value =? 0 then Ok Append
  else if value =? 1 then Ok Revoke
  else invalid_state "voice dave proposals operation invalid".

Definition parse_gateway_binary_message (bytes : list Z) : vresult VoiceGatewayPayload :=
  if zlen bytes <? 3 then invalid_state "voice gateway binary payload too short"
  else
    seq ← be16_at bytes 0;
    op ← index bytes 2;
    event ←
      (if op =? 25 then
         external_sender ← slice_from bytes 3;
         Ok (DaveMlsExternalSenderPackage external_sender)
       else if op =? 27 then
         if zlen bytes <? 4 then invalid_state "voice dave proposals payload too short"
         else
           operation ← index bytes 3;
           operation ← parse_dave_proposals_operation operation;
           proposals ← slice_from bytes 4;
           Ok (DaveMlsProposals operation proposals)
       else if op =? 29 then
         if zlen bytes <? 5
         then invalid_state "voice dave prepare commit transition payload too short"
         else
           transition_id ← be16_at bytes 3;
           commit ← slice_from bytes 5;
           Ok (DaveMlsPrepareCommitTransition transition_id commit)
       else if op =? 30 then
         if zlen bytes <? 5 then invalid_state "voice dave welcome payload too short"
         else
           transition_id ← be16_at bytes 3;
           welcome ← slice_from bytes 5;
           Ok (DaveMlsWelcome transition_id welcome)
       else Err (UnsupportedBinaryGatewayOp op));
    Ok (mkVoiceGatewayPayload event (Some seq)).

(** ** Payloads the service sends *)

Definition op_payload (op : Z) (d : list (string * Value)) : Value :=
  Object [("op", juint op); ("d", Object d)].

Definition identify_payload (voice : VoiceContext) (max_dave_protocol_version : option Z) : Value :=
  op_payload 0
    ([("server_id", Str (vc_guild_id voice)); ("user_id", Str (vc_user_id voice));
      ("session_id", Str (vc_session_id voice)); ("token", Str (vc_token voice))]
     ++ match max_dave_protocol_version with
        | Some v => [("max_dave_protocol_version", juint v)]
        | None => []
        end).

Definition dave_transition_ready_payload (transition_id : Z) : Value :=
  op_payload 23 [("transition_id", juint transition_id)].

Definition dave_mls_invalid_commit_welcome_payload (transition_id : Z) : Value :=
  op_payload 31 [("transition_id", juint transition_id)].

(** [unpack_commit_welcome(..).expect(..)]: panics on a malformed frame. *)
Definition dave_mls_commit_welcome_payload (commit_welcome : list Z) : vresult (list Z) :=
  match unpack_commit_welcome commit_welcome with
  | Ok (commit, welcome) => Ok (28 :: commit ++ welcome)
  | _ => Panic
  end.

Definition dave_mls_key_package_payload (key_package : list Z) : list Z := 26 :: key_package.

Definition select_protocol_payload (ip : string) (port : Z) (mode : string) : Value :=
  op_payload 1
    [("protocol", Str "udp");
     ("data", Object [("address", Str ip); ("port", juint port); ("mode", Str mode)])].

Definition seq_ack_i64 (seq_ack : option Z) : Z :=
  default (-1) (seq_ack ≫= try_uint i64_max).

Definition heartbeat_payload (timestamp_millis : Z) (seq_ack : option Z) : Value :=
  op_payload 3 [("t", juint timestamp_millis); ("seq_ack", jint (seq_ack_i64 seq_ack))].

Definition resume_payload (server_id session_id token : string) (seq_ack : option Z) : Value :=
  op_payload 7 [("server_id", Str server_id); ("session_id", Str session_id);
                ("token", Str token); ("seq_ack", jint (seq_ack_i64 seq_ack))].

(** speaking.rs: [send_speaking_flags]. *)
Definition speaking_payload (ssrc speaking : Z) : Value :=
  op_payload 5 [("speaking", juint speaking); ("delay", juint 0); ("ssrc", juint ssrc)].

Definition choose_encryption_mode (modes : list string) : vresult string :=
  ok_or (pick_mode modes) UnsupportedEncryptionMode.

(** [ProtectionContext::from_session] *)
Definition from_session (session : SessionDescription) : vresult ProtectionContext :=
  mode ← mode_from_str (sd_mode session);
  ProtectionContext_new mode (sd_secret_key session).

(** ** Specification: what the server sends *)

(** Every integer of an event is in the range of its Rust type, and byte
    strings hold bytes. *)
Definition opt_in (m : Z) (o : option Z) : Prop :=
  match o with Some n => in_uint m n | None => True end.

Definition event_typed (e : VoiceGatewayEvent) : Prop :=
  match e with
  | Hello i => in_uint u64_max i
  | Ready ssrc _ port _ => in_uint u32_max ssrc /\ in_uint u16_max port
  | SessionDescriptionEvent d =>
      bytes_ok (sd_secret_key d) /\ opt_in u16_max (sd_dave_protocol_version d)
  | Speaking s d ssrc _ => in_uint u64_max s /\ in_uint u64_max d /\ in_uint u32_max ssrc
  | HeartbeatAck n => opt_in u64_max n
  | Video _ a v => opt_in u32_max a /\ opt_in u32_max v
  | ClientFlags _ n | ClientPlatform _ n => opt_in u64_max n
  | DavePrepareTransition t v => in_uint u16_max t /\ in_uint u16_max v
  | DaveExecuteTransition t => in_uint u16_max t
  | DavePrepareEpoch t _ v => opt_in u16_max t /\ in_uint u16_max v
  | DaveMlsExternalSenderPackage b | DaveMlsProposals _ b => bytes_ok b
  | DaveMlsPrepareCommitTransition t b | DaveMlsWelcome t b => in_uint u16_max t /\ bytes_ok b
  | ClientsConnect _ | ClientDisconnect _ | MediaSinkWants | Resumed => True
  end.

Definition jopt {A} (f : A -> Value) (o : option A) : Value :=
  match o with Some a => f a | None => Null end.

(** The opcode and data of an event sent as text; [None] for the events of
    the binary channel and for an acknowledgement without a nonce. *)
Definition encode_text (e : VoiceGatewayEvent) : option (Z * Value) :=
  match e with
  | Hello i => Some (8, Object [("heartbeat_interval", juint i)])
  | Ready ssrc ip port modes =>
      Some (2, Object [("ssrc", juint ssrc); ("ip", Str ip); ("port", juint port);
                       ("modes", Array (map Str modes))])
  | SessionDescriptionEvent d =>
      Some (4, Object [("mode", Str (sd_mode d));
                       ("secret_key", Array (map juint (sd_secret_key d)));
                       ("dave_protocol_version", jopt juint (sd_dave_protocol_version d))])
  | Speaking s d ssrc u =>
      Some (5, Object [("speaking", juint s); ("delay", juint d); ("ssrc", juint ssrc);
                       ("user_id", jopt Str u)])
  | HeartbeatAck n => n ← n; Some (6, juint n)
  | ClientsConnect ids => Some (11, Object [("user_ids", Array (map Str ids))])
  | Video u a v => Some (12, Object [("user_id", jopt Str u); ("audio_ssrc", jopt juint a);
                                     ("video_ssrc", jopt juint v)])
  | ClientDisconnect u => Some (13, Object [("user_id", Str u)])
  | MediaSinkWants => Some (15, Object [])
  | ClientFlags u n => Some (18, Object [("user_id", Str u); ("flags", jopt juint n)])
  | ClientPlatform u n => Some (20, Object [("user_id", Str u); ("platform", jopt juint n)])
  | DavePrepareTransition t v =>
      Some (21, Object [("transition_id", juint t); ("protocol_version", juint v)])
  | DaveExecuteTransition t => Some (22, Object [("transition_id", juint t)])
  | DavePrepareEpoch t e v =>
      Some (24, Object [("transition_id", jopt juint t); ("epoch", Str e);
                        ("protocol_version", juint v)])
  | Resumed => Some (9, Null)
  | _ => None
  end.

Definition text_message (op seq : Z) (d : Value) : Value :=
  Object [("op", juint op); ("seq", juint seq); ("d", d)].

(** The bytes of an event of the binary channel. *)
Definition encode_binary (seq : Z) (e : VoiceGatewayEvent) : option (list Z) :=
  match e with
  | DaveMlsExternalSenderPackage b => Some (to_be_bytes 2 seq ++ 25 :: b)
  | DaveMlsProposals Append b => Some (to_be_bytes 2 seq ++ 27 :: 0 :: b)
  | DaveMlsProposals Revoke b => Some (to_be_bytes 2 seq ++ 27 :: 1 :: b)
  | DaveMlsPrepareCommitTransition t b => Some (to_be_bytes 2 seq ++ 29 :: to_be_bytes 2 t ++ b)
  | DaveMlsWelcome t b => Some (to_be_bytes 2 seq ++ 30 :: to_be_bytes 2 t ++ b)
  | _ => None
  end.

(** ** Lemmas *)

Lemma try_uint_ok m n : in_uint m n -> try_uint m n = Some n.
Proof. intros [_ H]. unfold try_uint. by rewrite (proj2 (Z.leb_le n m)). Qed.

Lemma try_uint_Some m n k : 0 <= n -> try_uint m n = Some k -> in_uint m k.
Proof. unfold try_uint. intros Hn. zcase; [|done]. by intros [= <-]. Qed.

Lemma collect_str e l : collect (fun i => ok_or (as_string i) e) (map Str l) = @Ok VoiceError _ l.
Proof. apply collect_Ok_Forall2. induction l; constructor; done. Qed.

Lemma collect_bytes e l :
  bytes_ok l ->
  collect (fun o => ok_or (as_u64 o ≫= try_uint u8_max) e) (map juint l) = @Ok VoiceError _ l.
Proof.
  intros Hl. apply collect_Ok_Forall2. induction Hl as [|b l Hb Hl IH]; constructor; [|done].
  cbn. rewrite try_uint_ok; [done|]. unfold is_byte, in_uint, u8_max in *. lia.
Qed.

Lemma parse_optional_uint_jopt m o invalid :
  opt_in m o -> parse_optional_uint m (Some (jopt juint o)) invalid = Ok o.
Proof. destruct o as [n|]; [|done]. intros H. cbn. by rewrite try_uint_ok. Qed.

Lemma parse_optional_u64_jopt o invalid :
  parse_optional_u64 (Some (jopt juint o)) invalid = Ok o.
Proof. by destruct o. Qed.

Lemma as_string_jopt o : as_string (jopt Str o) = o.
Proof. by destruct o. Qed.

Lemma ok_or_Ok {A} (o : option A) (e : VoiceError) a : ok_or o e = Ok a -> o = Some a.
Proof. destruct o; [|done]. by intros [= ->]. Qed.

Lemma require_u64_typed data key missing n :
  json_typed data -> require_u64 data key missing = Ok n -> in_uint u64_max n.
Proof.
  unfold require_u64. intros Hd H. apply ok_or_Ok, bind_Some in H as (v & Hv & Hn).
  eapply as_u64_typed; [|done]. by eapply get_typed.
Qed.

Lemma narrow_typed m n invalid k : 0 <= n -> narrow m n invalid = Ok k -> in_uint m k.
Proof. intros Hn H. apply ok_or_Ok in H. by eapply try_uint_Some. Qed.

Lemma as_u64_try_typed m v n : json_typed v -> as_u64 v ≫= try_uint m = Some n -> in_uint m n.
Proof.
  intros Hv H. apply bind_Some in H as (k & Hk & Hn). apply as_u64_typed in Hk as [Hk _]; [|done].
  by eapply try_uint_Some.
Qed.

Lemma require_u16_typed data key invalid n :
  json_typed data -> require_u16 data key invalid = Ok n -> in_uint u16_max n.
Proof.
  unfold require_u16. intros Hd H. apply ok_or_Ok, bind_Some in H as (k & H & Hn).
  apply bind_Some in H as (v & Hv & Hk). eapply (as_u64_try_typed _ v); [by eapply get_typed|].
  by rewrite Hk.
Qed.

Lemma non_null_Some o v : non_null o = Some v -> o = Some v.
Proof. destruct o as [w|]; [|done]. cbn. by destruct (is_null w). Qed.

Lemma parse_optional_uint_typed m key data invalid o :
  json_typed data -> parse_optional_uint m (get key data) invalid = Ok o -> opt_in m o.
Proof.
  unfold parse_optional_uint. intros Hd. destruct (non_null _) as [v|] eqn:E; [|by intros [= <-]].
  intros H. inv_ok. apply ok_or_Ok in H0. apply non_null_Some in E.
  eapply as_u64_try_typed; [|done]. by eapply get_typed.
Qed.

Lemma parse_optional_u64_typed key data invalid o :
  json_typed data -> parse_optional_u64 (get key data) invalid = Ok o -> opt_in u64_max o.
Proof.
  unfold parse_optional_u64. intros Hd. destruct (non_null _) as [v|] eqn:E; [|by intros [= <-]].
  intros H. inv_ok. apply ok_or_Ok in H0. apply non_null_Some in E.
  eapply as_u64_typed; [|done]. by eapply get_typed.
Qed.

Lemma parse_byte_array_typed key data m i l :
  json_typed data -> parse_byte_array (get key data) m i = Ok l -> bytes_ok l.
Proof.
  unfold parse_byte_array. intros Hd H. inv_ok. apply ok_or_Ok, bind_Some in H0 as (v & Hv & Ha).
  apply collect_Ok_Forall2 in H. eapply get_typed in Hv; [|done].
  apply as_array_typed in Ha; [|done]. clear -H Ha.
  induction H as [|o b os bs Hb Hbs IH]; [constructor|].
  apply Forall_cons_1 in Ha as [Ho Hos]. constructor; [|by apply IH].
  apply ok_or_Ok in Hb. apply as_u64_try_typed in Hb; [|done].
  unfold is_byte, in_uint, u8_max in *. lia.
Qed.

Lemma narrow_require_typed m data key missing invalid n k :
  json_typed data -> require_u64 data key missing = Ok n -> narrow m n invalid = Ok k ->
  in_uint m k.
Proof.
  intros Hd Hn Hk. apply require_u64_typed in Hn as [Hn _]; [|done]. by eapply narrow_typed.
Qed.

Lemma delay_typed data : json_typed data -> in_uint u64_max (default 0 (get "delay" data ≫= as_u64)).
Proof.
  intros Hd. destruct (get "delay" data ≫= as_u64) as [n|] eqn:E; [|by split].
  apply bind_Some in E as (v & Hv & Hn). cbn. eapply as_u64_typed; [|done]. by eapply get_typed.
Qed.

Lemma heartbeat_nonce_typed data o :
  json_typed data -> parse_heartbeat_ack_nonce data = Ok o -> opt_in u64_max o.
Proof.
  destruct data as [| |n| | |l]; try done; intros Hd H; cbn -[get] in H; inv_ok.
  - apply ok_or_Ok in H0. by apply (as_u64_typed (Number n)) in H0.
  - apply ok_or_Ok, bind_Some in H0 as (v & Hv & Hn).
    eapply as_u64_typed; [|done]. by eapply get_typed.
Qed.

Create HintDb protocol_typed discriminated.
#[export] Hint Resolve require_u16_typed parse_optional_uint_typed parse_optional_u64_typed
  parse_byte_array_typed require_u64_typed narrow_require_typed delay_typed
  heartbeat_nonce_typed : protocol_typed.

Lemma parse_gateway_event_typed op data e :
  json_typed data -> parse_gateway_event op data = Ok e -> event_typed e.
Proof.
  intros Hd. unfold parse_gateway_event.
  repeat (zcase; [intros H; unfold parse_hello, parse_ready, parse_session_description,
    parse_speaking, parse_video, parse_client_flags, parse_client_platform,
    parse_prepare_transition, parse_prepare_epoch in H; inv_ok; cbn -[default get];
    split_and?; try done; eauto with protocol_typed|]); done.
Qed.

Lemma parse_gateway_event_encoded e op d :
  event_typed e -> encode_text e = Some (op, d) -> parse_gateway_event op d = Ok e.
Proof.
  intros He Henc. destruct e; cbn in He, Henc; try done;
    try (injection Henc as <- <-); destruct_and?.
  - done.
  - unfold parse_gateway_event, parse_ready, narrow, parse_str_array. cbn -[collect].
    by rewrite !try_uint_ok, collect_str by done.
  - destruct d0 as [m k v]; cbn in *.
    unfold parse_gateway_event, parse_session_description, parse_byte_array. cbn -[collect].
    rewrite collect_bytes by done. cbn -[parse_optional_u16].
    unfold parse_optional_u16. by rewrite parse_optional_uint_jopt.
  - unfold parse_gateway_event, parse_speaking, narrow, optional_str. cbn.
    by rewrite try_uint_ok, as_string_jopt by done.
  - destruct nonce as [n|]; [|done]. cbn in Henc. by injection Henc as <- <-.
  - unfold parse_gateway_event, parse_str_array. cbn -[collect]. by rewrite collect_str.
  - unfold parse_gateway_event, parse_video, optional_str. cbn -[parse_optional_u32].
    unfold parse_optional_u32. rewrite !parse_optional_uint_jopt by done. cbn.
    by rewrite as_string_jopt.
  - done.
  - done.
  - unfold parse_gateway_event, parse_client_flags. cbn -[parse_optional_u64].
    by rewrite parse_optional_u64_jopt.
  - unfold parse_gateway_event, parse_client_platform. cbn -[parse_optional_u64].
    by rewrite parse_optional_u64_jopt.
  - unfold parse_gateway_event, parse_prepare_transition, require_u16. cbn.
    by rewrite !try_uint_ok by done.
  - unfold parse_gateway_event, require_u16. cbn. by rewrite try_uint_ok by done.
  - unfold parse_gateway_event, parse_prepare_epoch, require_u16. cbn -[parse_optional_u16].
    unfold parse_optional_u16. rewrite parse_optional_uint_jopt by done. cbn.
    by rewrite try_uint_ok by done.
  - done.
Qed.

(** ** Theorems *)





Lemma no_panic_parse_gateway_binary_message bytes :
  no_panic (parse_gateway_binary_message bytes).
Proof.
  unfold parse_gateway_binary_message, invalid_state. zcase; [done|].
  apply no_panic_bind; [apply no_panic_be16_at; lia|intros seq _].
  apply no_panic_bind; [auto with rust|intros op _].
  apply no_panic_bind; [|done].
  destruct (op =? 25); [rewrite slice_from_ok by lia; exact I|].
  destruct (op =? 27); [zcase; [done|]|destruct (op =? 29); [zcase; [done|]|
    destruct (op =? 30); [zcase; [done|]|done]]].
  - apply no_panic_bind; [auto with rust|intros o _].
    apply no_panic_bind; [unfold parse_dave_proposals_operation; by repeat zcase|intros ? _].
    rewrite slice_from_ok by lia; exact I.
  - apply no_panic_bind; [apply no_panic_be16_at; lia|intros ? _].
    rewrite slice_from_ok by lia; exact I.
  - apply no_panic_bind; [apply no_panic_be16_at; lia|intros ? _].
    rewrite slice_from_ok by lia; exact I.
Qed.

(** Reading the bytes of an encoded binary message. *)
Lemma slice_from_cons {E A} (a : A) l n :
  0 <= n -> @slice_from E A (a :: l) (n + 1) = slice_from l n.
Proof.
  intros Hn. unfold slice_from. rewrite zlen_cons.
  replace (0 <=? n + 1) with true by (symmetry; apply Z.leb_le; lia).
  replace (0 <=? n) with true by (symmetry; apply Z.leb_le; lia).
  replace (n + 1 <=? 1 + zlen l) with (n <=? zlen l)
    by (destruct (Z.leb_spec n (zlen l)), (Z.leb_spec (n + 1) (1 + zlen l)); lia).
  by replace (Z.to_nat (n + 1)) with (S (Z.to_nat n)) by lia.
Qed.

Lemma slice_from_0 {E A} (l : list A) : @slice_from E A l 0 = Ok l.
Proof. by rewrite slice_from_ok by (pose proof (zlen_nonneg l); lia). Qed.

Lemma index_cons {E A} (a : A) l n : 0 <= n -> @index E A (a :: l) (n + 1) = index l n.
Proof.
  intros Hn. unfold index. repeat (zcase; [lia|]).
  by replace (Z.to_nat (n + 1)) with (S (Z.to_nat n)) by lia.
Qed.

Lemma be16_at_to_be_bytes t rest :
  in_uint u16_max t -> be16_at (to_be_bytes 2 t ++ rest) 0 = Ok t.
Proof.
  intros Ht. unfold be16_at. rewrite to_be_bytes_2. cbn [app]. eval_index.
  rewrite <- to_be_bytes_2, from_to_be_bytes; [done|]. unfold in_uint, u16_max in Ht.
  change (256 ^ Z.of_nat 2) with (2 ^ 16). lia.
Qed.

(** The reads of the binary parser on a message given as its parts. *)
Lemma binary_reads seq op rest :
  in_uint u16_max seq ->
  let bytes := to_be_bytes 2 seq ++ op :: rest in
  zlen bytes = 3 + zlen rest /\ be16_at bytes 0 = Ok seq /\
  @index VoiceError _ bytes 2 = Ok op /\ @slice_from VoiceError _ bytes 3 = Ok rest /\
  @index VoiceError _ bytes 3 = index rest 0 /\
  @slice_from VoiceError _ bytes 4 = slice_from rest 1 /\
  be16_at bytes 3 = be16_at rest 0 /\
  @slice_from VoiceError _ bytes 5 = slice_from rest 2.
Proof.
  intros Hs bytes.
  assert (Hi : forall n, 0 <= n -> @index VoiceError _ bytes (n + 3) = index rest n).
  { intros n Hn. unfold bytes. rewrite to_be_bytes_2. cbn [app].
    replace (n + 3) with (n + 1 + 1 + 1) by lia. by rewrite !index_cons by lia. }
  assert (Hl : forall n, 0 <= n -> @slice_from VoiceError _ bytes (n + 3) = slice_from rest n).
  { intros n Hn. unfold bytes. rewrite to_be_bytes_2. cbn [app].
    replace (n + 3) with (n + 1 + 1 + 1) by lia. by rewrite !slice_from_cons by lia. }
  split_and!.
  - unfold bytes. rewrite zlen_app, zlen_to_be_bytes, zlen_cons. lia.
  - by apply be16_at_to_be_bytes.
  - done.
  - transitivity (@slice_from VoiceError _ rest 0); [by apply (Hl 0)|apply slice_from_0].
  - by apply (Hi 0).
  - by apply (Hl 1).
  - unfold be16_at.
    assert (E0 : @index VoiceError _ bytes 3 = index rest 0) by (by apply (Hi 0)).
    assert (E1 : @index VoiceError _ bytes (3 + 1) = index rest (0 + 1)) by (by apply (Hi 1)).
    by rewrite E0, E1.
  - by apply (Hl 2).
Qed.

Lemma parse_transition_body t b :
  in_uint u16_max t ->
  be16_at (to_be_bytes 2 t ++ b) 0 = Ok t /\
  @slice_from VoiceError _ (to_be_bytes 2 t ++ b) 2 = Ok b.
Proof.
  intros Ht. split; [by apply be16_at_to_be_bytes|].
  rewrite to_be_bytes_2. cbn [app]. change 2 with (0 + 1 + 1).
  by rewrite !slice_from_cons, slice_from_0.
Qed.

(** The binary channel: its parser never panics on any message, and for
    every event of that channel the server's encoding (16-bit sequence number
    first) is parsed back to exactly that event. *)
Theorem binary_event_roundtrip bytes seq e encoded :
  in_uint u16_max seq -> event_typed e -> encode_binary seq e = Some encoded ->
  no_panic (parse_gateway_binary_message bytes) /\
  parse_gateway_binary_message encoded = Ok (mkVoiceGatewayPayload e (Some seq)).
Proof.
  intros Hs He Henc. split; [apply no_panic_parse_gateway_binary_message|].
  destruct e as [| | | | | | | | | | | | | |b|o b|t b|t b|]; cbn [encode_binary] in Henc; try done.
  - apply (inj Some) in Henc as <-. destruct (binary_reads seq 25 b Hs) as (Hz & H0 & H2 & H3 & _).
    pose proof (zlen_nonneg b). unfold parse_gateway_binary_message. rewrite Hz, H0, H2, H3.
    cbn [mbind result_bind]. by zcase; [lia|].
  - assert (exists v, encoded = to_be_bytes 2 seq ++ 27 :: v :: b /\
              parse_dave_proposals_operation v = Ok o) as (v & -> & Hv).
    { destruct o; apply (inj Some) in Henc as <-; by eexists. }
    destruct (binary_reads seq 27 (v :: b) Hs) as (Hz & H0 & H2 & _ & H3 & H4 & _).
    pose proof (zlen_nonneg b). rewrite zlen_cons in Hz.
    unfold parse_gateway_binary_message. rewrite Hz, H0, H2, H3, H4. cbn [mbind result_bind].
    do 2 (zcase; [lia|]). change (27 =? 25) with false. change (27 =? 27) with true.
    change (@index VoiceError Z (v :: b) 0) with (@Ok VoiceError Z v). cbn [mbind result_bind].
    rewrite Hv. cbn [mbind result_bind]. change 1 with (0 + 1).
    by rewrite slice_from_cons, slice_from_0.
  - apply (inj Some) in Henc as <-. destruct He as [Ht _].
    destruct (binary_reads seq 29 (to_be_bytes 2 t ++ b) Hs) as (Hz & H0 & H2 & _ & _ & _ & H3 & H5).
    destruct (parse_transition_body t b Ht) as [E1 E2].
    pose proof (zlen_nonneg b). rewrite (zlen_app (to_be_bytes 2 t) b), (zlen_to_be_bytes 2 t) in Hz.
    unfold parse_gateway_binary_message. rewrite Hz, H0, H2, H3, H5, E1, E2. cbn [mbind result_bind].
    do 3 (zcase; [lia|]). done.
  - apply (inj Some) in Henc as <-. destruct He as [Ht _].
    destruct (binary_reads seq 30 (to_be_bytes 2 t ++ b) Hs) as (Hz & H0 & H2 & _ & _ & _ & H3 & H5).
    destruct (parse_transition_body t b Ht) as [E1 E2].
    pose proof (zlen_nonneg b). rewrite (zlen_app (to_be_bytes 2 t) b), (zlen_to_be_bytes 2 t) in Hz.
    unfold parse_gateway_binary_message. rewrite Hz, H0, H2, H3, H5, E1, E2. cbn [mbind result_bind].
    do 3 (zcase; [lia|]). done.
Qed.

Lemma binary_event_roundtrip_witness :
  parse_gateway_binary_message [1; 2; 30; 0; 7; 9; 9]
  = Ok (mkVoiceGatewayPayload (DaveMlsWelcome 7 [9; 9]) (Some 258)).
Proof.
  apply (binary_event_roundtrip [] 258 (DaveMlsWelcome 7 [9; 9]));
    [by split| |reflexivity].
  split; [by split|]. repeat constructor; vm_compute; intuition discriminate.
Defined.

(** The commit/welcome the DAVE session produces is always sendable: the
    payload builder, which panics on a malformed frame, returns opcode 28
    followed by commit and welcome on every frame the session packs. *)
Theorem commit_welcome_payload_ok commit welcome :
  zlen commit < 2 ^ 32 -> zlen (default [] welcome) < 2 ^ 32 ->
  dave_mls_commit_welcome_payload (pack_commit_welcome commit welcome)
  = Ok (28 :: commit ++ default [] welcome).
Proof.
  intros Hc Hw. unfold dave_mls_commit_welcome_payload.
  by rewrite unpack_pack_commit_welcome.
Qed.

Lemma commit_welcome_payload_ok_witness :
  dave_mls_commit_welcome_payload (pack_commit_welcome [1] (Some [2; 3])) = Ok [28; 1; 2; 3].
Proof. by apply (commit_welcome_payload_ok [1] (Some [2; 3])). Defined.

(** The acknowledged sequence number survives the wire: the [seq_ack] of
    a heartbeat or resume payload is the last sequence number received when it
    fits a signed 64-bit integer and -1 when none was received. *)
Theorem seq_ack_on_the_wire ts server session token seq :
  opt_in i64_max seq ->
  let sent := Some (jint (default (-1) seq)) in
  (get "d" (heartbeat_payload ts seq) ≫= get "seq_ack") = sent /\
  (get "d" (resume_payload server session token seq) ≫= get "seq_ack") = sent.
Proof.
  intros H. cbn. destruct seq as [n|]; [|done]. cbn in *.
  unfold seq_ack_i64. cbn. by rewrite try_uint_ok.
Qed.

Lemma seq_ack_on_the_wire_witness :
  (get "d" (heartbeat_payload 5 (Some 77)) ≫= get "seq_ack") = Some (juint 77).
Proof. apply (seq_ack_on_the_wire 5 "" "" "" (Some 77)). by split. Defined.
