(* ===== verification/Gateway.v ===== *)
(** * The voice gateway client

    crates/discord-voice-service-voice/src/gateway.rs, ws.rs and resume.rs: the
    client that reads and writes the voice web socket, remembers the sequence
    number of the last message and acknowledges it in heartbeats and resumes,
    and the normalization of the gateway URL.

    The reader is the list of items the socket still yields (its end is the end
    of the stream), the writer is the list of messages put on the socket, and
    the answer of the socket to a write is an argument. URIs are parsed and
    printed by the http crate, the class [HttpUri]. *)

From S2P Require Import Prelude VoiceErrors Text Json Protocol.
From stdpp Require Import prelude strings.
From Stdlib Require Import Ascii.
Open Scope Z_scope.

(** ** Messages of the web socket *)

Inductive WebSocketErrorKind : Type :=
| ConnectionClosed
| AlreadyClosed
| ResetWithoutClosingHandshake
| OtherWebSocketError.

(** An error of the socket, with the text it displays. *)
Record WebSocketError : Type := mkWebSocketError {
  we_kind : WebSocketErrorKind;
  we_message : string;
}.

(** [MOther] is a ping, a pong or a raw frame. *)
Inductive Message : Type :=
| MText (text : string)
| MBinary (bytes : list Z)
| MClose
| MOther.

Inductive Outgoing : Type :=
| OutJson (payload : Value)
| OutBinary (payload : list Z)
| OutClose.

Record VoiceGatewayClient : Type := mkVoiceGatewayClient {
  gw_read : list (result WebSocketError Message);
  gw_written : list Outgoing;
  gw_seq_ack : option Z;
}.

Abbreviation gstm := (stm VoiceGatewayClient VoiceError).

Definition websocket_closed_during_receive (err : WebSocketError) : bool :=
  match we_kind err with
  | ConnectionClosed | AlreadyClosed | ResetWithoutClosingHandshake => true
  | OtherWebSocketError => false
  end.

Definition closed_during_receive : VoiceError := InvalidState "voice gateway closed during receive".

(** ** The client *)

(** After [ws::connect]. *)
Definition gateway_connected (read : list (result WebSocketError Message)) : VoiceGatewayClient :=
  mkVoiceGatewayClient read [] None.

Definition record_seq_ack (seq : Z) (g : VoiceGatewayClient) : VoiceGatewayClient :=
  mkVoiceGatewayClient (gw_read g) (gw_written g) (Some seq).

(** [if let Some(seq) = payload.seq() { .. }], also [apply_gateway_event]. *)
Definition apply_gateway_event (seq : option Z) (g : VoiceGatewayClient) : VoiceGatewayClient :=
  match seq with Some s => record_seq_ack s g | None => g end.

(** What the client makes of a parsed message. *)
Definition accept_payload (parsed : vresult VoiceGatewayPayload) : gstm VoiceGatewayPayload :=
  payload ← lift parsed;
  _ ← modify (apply_gateway_event (gp_seq payload));
  mret payload.

(** [receive_event]: the loop over the items of the socket. *)
Fixpoint receive_items (json_from_str : string -> option Value)
    (read : list (result WebSocketError Message)) : gstm VoiceGatewayPayload := fun g =>
  match read with
  | [] => (mkVoiceGatewayClient [] (gw_written g) (gw_seq_ack g), Err closed_during_receive)
  | item :: rest =>
      let g := mkVoiceGatewayClient rest (gw_written g) (gw_seq_ack g) in
      match item with
      | Err err =>
          (g, Err (if websocket_closed_during_receive err then closed_during_receive
                   else WebSocket (we_message err)))
      | Panic => (g, Panic)
      | Ok (MText text) => accept_payload (parse_gateway_message json_from_str text) g
      | Ok (MBinary bytes) => accept_payload (parse_gateway_binary_message bytes) g
      | Ok MClose => (g, Err closed_during_receive)
      | Ok MOther => receive_items json_from_str rest g
      end
  end.

Definition receive_event (json_from_str : string -> option Value) : gstm VoiceGatewayPayload :=
  fun g => receive_items json_from_str (gw_read g) g.

(** A write; [sock] is what the socket answers. *)
Definition write (message : Outgoing) (sock : vresult unit) : gstm unit := fun g =>
  match sock with
  | Ok _ => (mkVoiceGatewayClient (gw_read g) (gw_written g ++ [message]) (gw_seq_ack g), Ok tt)
  | Err e => (g, Err e)
  | Panic => (g, Panic)
  end.

Definition send_json (payload : Value) (sock : vresult unit) : gstm unit :=
  write (OutJson payload) sock.
Definition send_binary (payload : list Z) (sock : vresult unit) : gstm unit :=
  write (OutBinary payload) sock.
Definition gateway_close (sock : vresult unit) : gstm unit := write OutClose sock.

(** [now] is the time since the Unix epoch in milliseconds, or none before it. *)
Definition heartbeat_timestamp_millis (now : option Z) : vresult Z :=
  ms ← ok_or now (InvalidState "system clock before unix epoch");
  ok_or (try_uint u64_max ms) (InvalidState "heartbeat timestamp overflow").

Definition send_heartbeat (now : option Z) (sock : vresult unit) : gstm unit :=
  seq_ack ← gets gw_seq_ack;
  timestamp ← lift (heartbeat_timestamp_millis now);
  send_json (heartbeat_payload timestamp seq_ack) sock.

Definition send_resume (server_id session_id token : string) (sock : vresult unit) : gstm unit :=
  seq_ack ← gets gw_seq_ack;
  send_json (resume_payload server_id session_id token seq_ack) sock.

(** [dave_version] is davey::DAVE_PROTOCOL_VERSION. *)
Definition send_identify (dave_version : Z) (voice : VoiceContext) (sock : vresult unit)
    : gstm unit :=
  send_json (identify_payload voice (if 0 <? dave_version then Some dave_version else None)) sock.

Definition send_select_protocol (ip : string) (port : Z) (mode : string) (sock : vresult unit)
    : gstm unit :=
  send_json (select_protocol_payload ip port mode) sock.

Definition send_dave_transition_ready (transition_id : Z) (sock : vresult unit) : gstm unit :=
  send_json (dave_transition_ready_payload transition_id) sock.
Definition send_dave_mls_invalid_commit_welcome (transition_id : Z) (sock : vresult unit)
    : gstm unit :=
  send_json (dave_mls_invalid_commit_welcome_payload transition_id) sock.
Definition send_dave_mls_key_package (key_package : list Z) (sock : vresult unit) : gstm unit :=
  send_binary (dave_mls_key_package_payload key_package) sock.

(** ** The gateway URL *)

Record UriParts : Type := mkUriParts {
  up_scheme : option string;
  up_authority : option string;
  up_path_and_query : option (string * option string);
}.

Class HttpUri : Type := {
  uri_parse : string -> vresult UriParts;
  path_and_query_parse : string -> vresult (string * option string);
  uri_from_parts : UriParts -> option string;
}.

Definition query_key (pair : string) : string :=
  match split_once pair "="%char with Some (key, _) => key | None => pair end.

Definition keeps_param (pair : string) : bool :=
  negb (bool_decide (pair = EmptyString)) &&
  negb (bool_decide (query_key pair = "v"%string)) &&
  negb (bool_decide (query_key pair = "encoding"%string)).

Definition normalize_query (query : option string) : string :=
  let params := match query with
                | Some q => List.filter keeps_param (split_all q "&"%char)
                | None => []
                end in
  Text.join "&" (params ++ ["v=8"; "encoding=json"]%string).

Definition normalize_gateway_url `{HttpUri} (url : string) : vresult string :=
  parts ← uri_parse url;
  if bool_decide (up_scheme parts = None) || bool_decide (up_authority parts = None)
  then invalid_state "voice gateway url must be absolute"
  else
    let path := match up_path_and_query parts with Some (p, _) => p | None => "/"%string end in
    let query := normalize_query (up_path_and_query parts ≫= snd) in
    path_and_query ← path_and_query_parse (path +:+ "?" +:+ query);
    ok_or (uri_from_parts (mkUriParts (up_scheme parts) (up_authority parts) (Some path_and_query)))
      (InvalidState "voice gateway url could not be normalized").

(** ** Specification *)

(** What a caller does with a client. *)
Inductive gateway_op : Type :=
| GReceive
| GHeartbeat (now : option Z) (sock : vresult unit)
| GResume (server_id session_id token : string) (sock : vresult unit)
| GSend (message : Outgoing) (sock : vresult unit).

Inductive gateway_out : Type :=
| GReceived (r : vresult VoiceGatewayPayload)
| GSent (r : vresult unit).

Section Run.
Context (json_from_str : string -> option Value).

Definition gateway_step (g : VoiceGatewayClient) (o : gateway_op)
    : VoiceGatewayClient * gateway_out :=
  match o with
  | GReceive => let '(g', r) := receive_event json_from_str g in (g', GReceived r)
  | GHeartbeat now sock => let '(g', r) := send_heartbeat now sock g in (g', GSent r)
  | GResume server session token sock =>
      let '(g', r) := send_resume server session token sock g in (g', GSent r)
  | GSend message sock => let '(g', r) := write message sock g in (g', GSent r)
  end.

Fixpoint gateway_run (g : VoiceGatewayClient) (ops : list gateway_op)
    : VoiceGatewayClient * list gateway_out :=
  match ops with
  | [] => (g, [])
  | o :: rest =>
      let '(g1, out) := gateway_step g o in
      let '(g2, outs) := gateway_run g1 rest in (g2, out :: outs)
  end.

(** The sequence number of the last message received that has one. *)
Definition note_seq (acc : option Z) (out : gateway_out) : option Z :=
  match out with
  | GReceived (Ok p) => match gp_seq p with Some s => Some s | None => acc end
  | _ => acc
  end.
Definition last_seq (outs : list gateway_out) : option Z := fold_left note_seq outs None.

(** The messages a step puts on the socket when [seq] was received last. *)
Definition acknowledged (seq : option Z) (o : gateway_op) : list Outgoing :=
  match o with
  | GHeartbeat now (Ok _) =>
      match heartbeat_timestamp_millis now with
      | Ok t => [OutJson (heartbeat_payload t seq)]
      | _ => []
      end
  | GResume server session token (Ok _) => [OutJson (resume_payload server session token seq)]
  | GSend message (Ok _) => [message]
  | _ => []
  end.

(** ** Lemmas *)

Lemma accept_payload_seq parsed g :
  let '(g', r) := accept_payload parsed g in
  gw_seq_ack g' = note_seq (gw_seq_ack g) (GReceived r) /\ gw_written g' = gw_written g.
Proof.
  unfold accept_payload, lift, modify, mbind, stm_bind, mret, stm_ret.
  destruct parsed as [p| |]; [|done|done]. cbn. unfold apply_gateway_event.
  by destruct (gp_seq p).
Qed.

Lemma receive_items_seq read g :
  let '(g', r) := receive_items json_from_str read g in
  gw_seq_ack g' = note_seq (gw_seq_ack g) (GReceived r) /\ gw_written g' = gw_written g.
Proof.
  revert g; induction read as [|item rest IH]; intros g; cbn [receive_items]; [done|].
  set (g1 := mkVoiceGatewayClient rest (gw_written g) (gw_seq_ack g)).
  destruct item as [[text|bytes| |]|err|]; try done.
  - apply (accept_payload_seq _ g1).
  - apply (accept_payload_seq _ g1).
  - apply (IH g1).
Qed.

Lemma gateway_step_seq g o :
  let '(g', out) := gateway_step g o in
  gw_seq_ack g' = note_seq (gw_seq_ack g) out /\
  gw_written g' = gw_written g ++ acknowledged (gw_seq_ack g) o.
Proof.
  destruct o as [|now sock|server session token sock|message sock]; cbn [gateway_step].
  - pose proof (receive_items_seq (gw_read g) g) as H. unfold receive_event.
    destruct (receive_items _ _ g) as [g' r]. by rewrite app_nil_r.
  - unfold send_heartbeat, gets, lift, mbind, stm_bind, acknowledged.
    destruct (heartbeat_timestamp_millis now), sock; cbn; by rewrite ?app_nil_r.
  - unfold send_resume, gets, mbind, stm_bind, acknowledged.
    destruct sock; cbn; by rewrite ?app_nil_r.
  - destruct sock; cbn; by rewrite ?app_nil_r.
Qed.

(** The messages a run puts on the socket, each with the sequence number that
    was last received before it. *)
Fixpoint acknowledging (seq : option Z) (ops : list gateway_op) (outs : list gateway_out)
    : list Outgoing :=
  match ops, outs with
  | o :: ops, out :: outs => acknowledged seq o ++ acknowledging (note_seq seq out) ops outs
  | _, _ => []
  end.

Lemma gateway_run_seq g ops :
  let '(g', outs) := gateway_run g ops in
  gw_seq_ack g' = fold_left note_seq outs (gw_seq_ack g) /\
  gw_written g' = gw_written g ++ acknowledging (gw_seq_ack g) ops outs.
Proof.
  revert g; induction ops as [|o ops IH]; intros g; cbn [gateway_run]; [by rewrite app_nil_r|].
  pose proof (gateway_step_seq g o) as Hs. destruct (gateway_step g o) as [g1 out].
  destruct Hs as [H1 H2]. specialize (IH g1). destruct (gateway_run g1 ops) as [g2 outs].
  destruct IH as [I1 I2]. cbn. by rewrite I1, I2, H1, H2, <- app_assoc.
Qed.

End Run.

(** ** Theorems *)

(** Heartbeats and resumes acknowledge the last message: after any
    history of messages received as text or binary (parse errors, pings and
    closed sockets included), heartbeats, resumes and other writes, the
    [seq_ack] a heartbeat or a resume puts on the wire is the sequence number
    of the last message received that had one, and -1 when there was none. *)
Theorem gateway_acks_last_received json_from_str read history t server session token :
  let '(g, outs) := gateway_run json_from_str (gateway_connected read) history in
  in_uint u64_max t -> opt_in i64_max (last_seq outs) ->
  let ack := Some (jint (default (-1) (last_seq outs))) in
  (exists payload,
    gw_written (fst (send_heartbeat (Some t) (Ok tt) g)) = gw_written g ++ [OutJson payload] /\
    (get "d" payload ≫= get "seq_ack") = ack) /\
  (exists payload,
    gw_written (fst (send_resume server session token (Ok tt) g))
      = gw_written g ++ [OutJson payload] /\
    (get "d" payload ≫= get "seq_ack") = ack).
Proof.
  pose proof (gateway_run_seq json_from_str (gateway_connected read) history) as H.
  destruct (gateway_run json_from_str (gateway_connected read) history) as [g outs].
  destruct H as [H _]. intros [_ Ht] Hseq ack.
  assert (Hack : gw_seq_ack g = last_seq outs) by exact H.
  destruct (seq_ack_on_the_wire t server session token (last_seq outs) Hseq) as [W1 W2].
  unfold send_heartbeat, send_resume, heartbeat_timestamp_millis, try_uint.
  unfold gets, lift, mbind, stm_bind. cbn [result_bind ok_or].
  rewrite (proj2 (Z.leb_le _ _) Ht), Hack. split; eexists; split; try reflexivity; done.
Qed.

(** The gateway URL asks for version 8 and JSON, once: the parameters of
    the normalized query are the given ones other than [v] and [encoding], in
    their order, followed by [v=8] and [encoding=json]; normalizing again
    changes nothing. *)
Theorem normalize_query_spec query :
  split_all (normalize_query query) "&"%char =
    List.filter keeps_param (split_all (default EmptyString query) "&"%char)
      ++ ["v=8"; "encoding=json"]%string /\
  normalize_query (Some (normalize_query query)) = normalize_query query.
Proof.
  set (params := List.filter keeps_param (split_all (default EmptyString query) "&"%char)).
  assert (Hq : normalize_query query = Text.join "&" (params ++ ["v=8"; "encoding=json"]%string))
    by (by destruct query).
  assert (Hfree : Forall (free_of "&"%char) (params ++ ["v=8"; "encoding=json"]%string)).
  { apply Forall_app. split; [|by repeat constructor].
    apply Forall_forall. intros p Hp. unfold params in Hp.
    rewrite list_elem_of_In, filter_In, <- list_elem_of_In in Hp. destruct Hp as [Hp _].
    by eapply Forall_forall in Hp; [|apply split_all_pieces]. }
  assert (Hsplit : split_all (normalize_query query) "&"%char
    = params ++ ["v=8"; "encoding=json"]%string).
  { rewrite Hq. apply split_all_join; [by destruct params|done]. }
  assert (Hsome : forall q, normalize_query (Some q) = Text.join "&"
    (List.filter keeps_param (split_all q "&"%char) ++ ["v=8"; "encoding=json"]%string)) by done.
  split; [done|]. rewrite Hsome, Hsplit, Hq. f_equal.
  rewrite List.filter_app. cbn. rewrite app_nil_r. f_equal. unfold params.
  generalize (split_all (default EmptyString query) "&"%char). intros l.
  induction l as [|p l IH]; [done|]. cbn. destruct (keeps_param p) eqn:E; [|done].
  cbn. by rewrite E, IH.
Qed.

Definition no_json : string -> option Value := fun _ => None.
Definition sample_reads : list (result WebSocketError Message) :=
  [Ok MOther; Ok (MBinary [1; 44; 30; 0; 7; 9]); Ok MClose].

Lemma gateway_acks_last_received_witness :
  let g := fst (gateway_run no_json (gateway_connected sample_reads) [GReceive]) in
  last_seq (snd (gateway_run no_json (gateway_connected sample_reads) [GReceive])) = Some 300 /\
  (exists payload,
    gw_written (fst (send_heartbeat (Some 5) (Ok tt) g)) = gw_written g ++ [OutJson payload] /\
    (get "d" payload ≫= get "seq_ack") = Some (jint 300)).
Proof.
  split; [vm_compute; reflexivity|].
  assert (Ht : in_uint u64_max 5) by (vm_compute; split; discriminate).
  assert (Hs : opt_in i64_max
    (last_seq (snd (gateway_run no_json (gateway_connected sample_reads) [GReceive]))))
    by (vm_compute; split; discriminate).
  exact (proj1 (gateway_acks_last_received no_json sample_reads [GReceive] 5 "" "" "" Ht Hs)).
Defined.
