(* ===== verification/OpusQueue.v ===== *)
(** * Opus frames and the bounded frame queue

    crates/discord-voice-service-playback/src/media/opus_queue.rs: time
    conversions at 48 kHz, the duration of an Opus packet from its TOC byte,
    and [OpusFrameQueue], a FIFO bounded in packets, bytes and duration.
    Errors of the playback crate
    (crates/discord-voice-service-playback/src/error.rs) are here too. *)

From S2P Require Import Prelude.
From stdpp Require Import prelude strings.
Open Scope Z_scope.

(** ** Playback errors *)

(** [Http] keeps the status of the response, when it has one. *)
Inductive PlaybackError : Type :=
| MediaParse (reason : string)
| MediaParseDetail (reason : string)
| UnsupportedFormat
| BufferFull
| PInvalidState (reason : string)
| PIo (message : string)
| PInvalidUri (message : string)
| Http (status : option Z)
| Transport (message : string)
| GrpcStatus (message : string).

Abbreviation presult := (result PlaybackError).

(** ** Durations *)

Definition OPUS_SAMPLE_RATE_HZ : Z := 48000.

Record OpusPacketDuration : Type := mkOpusPacketDuration {
  od_ms : Z;
  od_samples : Z;
}.

Definition samples_from_duration_ms_u64 (duration_ms : Z) : Z :=
  sat_mul u64_max duration_ms (OPUS_SAMPLE_RATE_HZ / 1000).

Definition samples_from_duration_ms (duration_ms : Z) : Z :=
  default u32_max (try_uint u32_max (samples_from_duration_ms_u64 duration_ms)).

Definition duration_ms_from_samples (duration_samples : Z) : Z :=
  sat_mul u64_max duration_samples 1000 / OPUS_SAMPLE_RATE_HZ.

(** In nanoseconds. *)
Definition duration_from_samples (duration_samples : Z) : Z :=
  sat_mul u64_max duration_samples 1000000000 / OPUS_SAMPLE_RATE_HZ.

Definition samples_per_frame (toc : Z) : Z :=
  if negb (Z.land toc 0x80 =? 0) then
    let shift := Z.land (Z.shiftr toc 3) 0x03 in
    Z.shiftl 48000 shift / 400
  else if Z.land toc 0x60 =? 0x60 then
    if negb (Z.land toc 0x08 =? 0) then 48000 / 50 else 48000 / 100
  else
    let i := Z.land (Z.shiftr toc 3) 0x03 in
    if i =? 3 then 48000 * 60 / 1000 else Z.shiftl 48000 i / 100.

Definition frames_in_packet (toc : Z) (packet : list Z) : option Z :=
  let code := Z.land toc 0x03 in
  if code =? 0 then Some 1
  else if (code =? 1) || (code =? 2) then Some 2
  else if code =? 3 then b ← packet !! 1%nat; Some (Z.land b 0x3F)
  else None.

Definition opus_packet_duration (packet : list Z) : option OpusPacketDuration :=
  toc ← packet !! 0%nat;
  frames ← frames_in_packet toc packet;
  product ← try_uint usize_max (samples_per_frame toc * frames);
  samples ← try_uint u32_max product;
  Some (mkOpusPacketDuration (duration_ms_from_samples samples) samples).

(** ** Frames *)

Record OpusFrame : Type := mkOpusFrame {
  of_data : list Z;
  of_duration_ms : Z;
  of_duration_samples : Z;
  of_source_position_ms : Z;
  of_source_position_samples : Z;
  of_source_byte_position : option Z;
  of_epoch : Z;
}.

#[global] Instance OpusFrame_eq_dec : EqDecision OpusFrame.
Proof. solve_decision. Defined.

Definition OpusFrame_new (data : list Z) (duration_ms : Z) : OpusFrame :=
  mkOpusFrame data duration_ms (samples_from_duration_ms duration_ms) 0 0 None 0.

Definition with_duration_samples (data : list Z) (duration_ms duration_samples : Z) : OpusFrame :=
  mkOpusFrame data duration_ms duration_samples 0 0 None 0.

Definition with_metadata (f : OpusFrame) (source_position_ms : Z)
    (source_byte_position : option Z) (epoch : Z) : OpusFrame :=
  mkOpusFrame (of_data f) (of_duration_ms f) (of_duration_samples f) source_position_ms
    (samples_from_duration_ms_u64 source_position_ms) source_byte_position epoch.

Definition with_exact_metadata (f : OpusFrame) (source_position_ms source_position_samples : Z)
    (source_byte_position : option Z) (epoch : Z) : OpusFrame :=
  mkOpusFrame (of_data f) (of_duration_ms f) (of_duration_samples f) source_position_ms
    source_position_samples source_byte_position epoch.

Definition with_epoch (f : OpusFrame) (epoch : Z) : OpusFrame :=
  mkOpusFrame (of_data f) (of_duration_ms f) (of_duration_samples f) (of_source_position_ms f)
    (of_source_position_samples f) (of_source_byte_position f) epoch.

Definition byte_len (f : OpusFrame) : Z := zlen (of_data f).

(** ** The queue *)

Record OpusFrameQueue : Type := mkOpusFrameQueue {
  q_capacity : Z;
  q_max_bytes : Z;
  q_max_duration_samples : Z;
  q_duration_samples : Z;
  q_bytes : Z;
  q_inner : list OpusFrame;
}.

Definition with_resource_limits (capacity max_bytes max_duration_ms : Z) : OpusFrameQueue :=
  mkOpusFrameQueue capacity max_bytes (samples_from_duration_ms_u64 max_duration_ms) 0 0 [].
Definition with_limits (capacity max_bytes : Z) : OpusFrameQueue :=
  with_resource_limits capacity max_bytes u64_max.
Definition OpusFrameQueue_new (capacity : Z) : OpusFrameQueue :=
  with_limits capacity usize_max.

Definition can_fit_resource (q : OpusFrameQueue) (len duration_samples : Z) : bool :=
  (zlen (q_inner q) <? q_capacity q) &&
  (sat_add usize_max (q_bytes q) len <=? q_max_bytes q) &&
  (sat_add u64_max (q_duration_samples q) duration_samples <=? q_max_duration_samples q).

Definition can_fit_frame (q : OpusFrameQueue) (f : OpusFrame) : bool :=
  can_fit_resource q (byte_len f) (of_duration_samples f).

(** The queue with [inner] as contents and the counters moved up by [f]. *)
Definition account (q : OpusFrameQueue) (f : OpusFrame) (inner : list OpusFrame) : OpusFrameQueue :=
  mkOpusFrameQueue (q_capacity q) (q_max_bytes q) (q_max_duration_samples q)
    (sat_add u64_max (q_duration_samples q) (of_duration_samples f))
    (sat_add usize_max (q_bytes q) (byte_len f)) inner.

(** A refused frame is handed back. *)
Definition push (q : OpusFrameQueue) (f : OpusFrame) : OpusFrameQueue * result OpusFrame unit :=
  if negb (can_fit_frame q f) then (q, Err f)
  else (account q f (q_inner q ++ [f]), Ok tt).

Definition push_front (q : OpusFrameQueue) (f : OpusFrame)
    : OpusFrameQueue * result OpusFrame unit :=
  if negb (can_fit_frame q f) then (q, Err f)
  else (account q f (f :: q_inner q), Ok tt).

Definition pop (q : OpusFrameQueue) : OpusFrameQueue * option OpusFrame :=
  match q_inner q with
  | [] => (q, None)
  | f :: rest =>
      (mkOpusFrameQueue (q_capacity q) (q_max_bytes q) (q_max_duration_samples q)
         (sat_sub (q_duration_samples q) (of_duration_samples f))
         (sat_sub (q_bytes q) (byte_len f)) rest,
       Some f)
  end.

Definition q_len (q : OpusFrameQueue) : Z := zlen (q_inner q).
Definition q_is_empty (q : OpusFrameQueue) : bool := bool_decide (q_inner q = []).
Definition is_full (q : OpusFrameQueue) : bool :=
  (q_capacity q <=? zlen (q_inner q)) || (q_max_bytes q <=? q_bytes q) ||
  (q_max_duration_samples q <=? q_duration_samples q).

Definition buffered_duration_ms (q : OpusFrameQueue) : Z :=
  duration_ms_from_samples (q_duration_samples q).
Definition buffered_samples (q : OpusFrameQueue) : Z := q_duration_samples q.
Definition buffered_bytes (q : OpusFrameQueue) : Z := q_bytes q.

Record OpusBufferDepth : Type := mkOpusBufferDepth {
  bd_packets : Z;
  bd_bytes : Z;
  bd_duration_ms : Z;
  bd_duration_samples : Z;
}.

Definition depth (q : OpusFrameQueue) : OpusBufferDepth :=
  mkOpusBufferDepth (q_len q) (buffered_bytes q) (buffered_duration_ms q) (buffered_samples q).

(** [recalculate_depth]: both counters summed again from zero. *)
Definition recalculate_depth (q : OpusFrameQueue) : OpusFrameQueue :=
  fold_left (fun acc f => account acc f (q_inner acc)) (q_inner q)
    (mkOpusFrameQueue (q_capacity q) (q_max_bytes q) (q_max_duration_samples q) 0 0 (q_inner q)).

Definition drop_stale_epoch (q : OpusFrameQueue) (epoch : Z) : OpusFrameQueue :=
  recalculate_depth
    (mkOpusFrameQueue (q_capacity q) (q_max_bytes q) (q_max_duration_samples q)
       (q_duration_samples q) (q_bytes q)
       (List.filter (fun f => of_epoch f =? epoch) (q_inner q))).

Definition retag_epoch (q : OpusFrameQueue) (epoch : Z) : OpusFrameQueue :=
  mkOpusFrameQueue (q_capacity q) (q_max_bytes q) (q_max_duration_samples q)
    (q_duration_samples q) (q_bytes q) (map (fun f => with_epoch f epoch) (q_inner q)).

(** ** Specification *)

(** RFC 6716, table 2: samples at 48 kHz of one frame, by the configuration
    number in the top five bits of the TOC byte. *)
Definition rfc6716_frame_samples (config : Z) : Z :=
  default 0 ([ 480; 960; 1920; 2880;  480; 960; 1920; 2880;  480; 960; 1920; 2880;
               480; 960;  480; 960;
               120; 240; 480; 960;  120; 240; 480; 960;
               120; 240; 480; 960;  120; 240; 480; 960 ] !! Z.to_nat config).

(** RFC 6716, section 3.2: frames of a packet by its code. *)
Definition rfc6716_frame_count (packet : list Z) (toc : Z) : option Z :=
  match Z.to_nat (toc mod 4) with
  | 0%nat => Some 1
  | 3%nat => b ← packet !! 1%nat; Some (b mod 64)
  | _ => Some 2
  end.

(** The accounting invariant: the counters are the totals of the contents,
    and no limit is exceeded. *)
Record queue_ok (q : OpusFrameQueue) : Prop := mkQueueOk {
  qo_bytes : q_bytes q = sum_by byte_len (q_inner q);
  qo_duration : q_duration_samples q = sum_by of_duration_samples (q_inner q);
  qo_len : zlen (q_inner q) <= q_capacity q;
  qo_max_bytes : q_bytes q <= q_max_bytes q;
  qo_max_duration : q_duration_samples q <= q_max_duration_samples q;
  qo_limits : q_max_bytes q < usize_max /\ q_max_duration_samples q < u64_max;
  qo_frames : Forall (fun f => 0 <= of_duration_samples f) (q_inner q);
}.

(** ** Lemmas: durations *)

(** A property of bytes holds of all when it computes to true on each. *)
Lemma byte_forall (P : Z -> bool) :
  forallb P (map Z.of_nat (seq 0 256)) = true -> forall b, is_byte b -> P b = true.
Proof.
  intros H b [Hb1 Hb2]. eapply forallb_forall in H; [done|].
  apply in_map_iff. exists (Z.to_nat b). split; [lia|]. apply in_seq. lia.
Qed.

Lemma samples_per_frame_rfc toc :
  is_byte toc -> samples_per_frame toc = rfc6716_frame_samples (toc / 8) /\
                 0 < samples_per_frame toc <= 2880.
Proof.
  intros H. assert (Hb : (samples_per_frame toc =? rfc6716_frame_samples (toc / 8)) &&
    (0 <? samples_per_frame toc) && (samples_per_frame toc <=? 2880) = true).
  { revert toc H. apply (byte_forall (fun toc => (samples_per_frame toc =?
      rfc6716_frame_samples (toc / 8)) && (0 <? samples_per_frame toc) &&
      (samples_per_frame toc <=? 2880))). vm_compute. reflexivity. }
  apply andb_true_iff in Hb as [Hb Hle]. apply andb_true_iff in Hb as [Heq Hlt].
  apply Z.eqb_eq in Heq. apply Z.ltb_lt in Hlt. apply Z.leb_le in Hle. done.
Qed.

Lemma frames_in_packet_rfc toc packet :
  is_byte toc -> frames_in_packet toc packet = rfc6716_frame_count packet toc.
Proof.
  intros H. unfold frames_in_packet, rfc6716_frame_count.
  change 3 with (Z.ones 2) at 1 2 3 4. rewrite Z.land_ones by done. change (2 ^ 2) with 4.
  pose proof (Z.mod_pos_bound toc 4 ltac:(lia)) as Hm.
  assert (toc mod 4 = 0 \/ toc mod 4 = 1 \/ toc mod 4 = 2 \/ toc mod 4 = 3) as Hc by lia.
  destruct Hc as [E|[E|[E|E]]]; rewrite E; cbn; try done.
  destruct (packet !! 1%nat) as [b|]; [|done]. cbn.
  change 63 with (Z.ones 6). by rewrite Z.land_ones.
Qed.

Lemma frames_in_packet_bound toc packet n :
  frames_in_packet toc packet = Some n -> 0 <= n <= 63.
Proof.
  unfold frames_in_packet. destruct (_ =? 0); [intros [= <-]; lia|].
  destruct (_ || _); [intros [= <-]; lia|]. destruct (_ =? 3); [|done].
  destruct (packet !! 1%nat) as [b|]; cbn; [|done]. intros [= <-].
  replace (Z.land b 63) with (b mod 2 ^ 6) by (by rewrite <- Z.land_ones).
  pose proof (Z.mod_pos_bound b (2 ^ 6)). lia.
Qed.

Lemma duration_ms_exact s : 0 <= s -> s * 1000 <= u64_max -> duration_ms_from_samples s = s / 48.
Proof.
  intros H0 H. unfold duration_ms_from_samples, OPUS_SAMPLE_RATE_HZ.
  rewrite sat_mul_exact by done. change 48000 with (48 * 1000).
  by rewrite Z.div_mul_cancel_r by lia.
Qed.

Lemma samples_exact ms : ms * 48 <= u64_max -> samples_from_duration_ms_u64 ms = ms * 48.
Proof. intros H. unfold samples_from_duration_ms_u64. by rewrite sat_mul_exact. Qed.

(** ** Lemmas: the queue *)

Lemma byte_len_nonneg f : 0 <= byte_len f.
Proof. apply zlen_nonneg. Qed.
#[export] Hint Resolve byte_len_nonneg : rust.

Definition frame_ok (f : OpusFrame) : Prop := in_uint u32_max (of_duration_samples f).

Lemma with_resource_limits_ok capacity max_bytes max_ms :
  0 <= capacity -> 0 <= max_bytes < usize_max -> 0 <= max_ms -> max_ms * 48 < u64_max ->
  queue_ok (with_resource_limits capacity max_bytes max_ms).
Proof.
  intros Hc Hb Hm Hs. split; cbn; autorewrite with rust_len; try done;
    rewrite ?samples_exact by lia; lia.
Qed.

(** Whether a frame fits, in terms of the contents alone: with finite limits
    the saturating additions never round a total down to a limit. *)
Lemma can_fit_frame_exact q f :
  queue_ok q -> frame_ok f ->
  can_fit_frame q f = true <->
  zlen (q_inner q) < q_capacity q /\
  sum_by byte_len (q_inner q) + byte_len f <= q_max_bytes q /\
  sum_by of_duration_samples (q_inner q) + of_duration_samples f <= q_max_duration_samples q.
Proof.
  intros [Hb Hd Hl Hmb Hmd [Lb Ld] _] [Hf _]. unfold can_fit_frame, can_fit_resource, sat_add.
  rewrite Hb, Hd. pose proof (byte_len_nonneg f).
  rewrite !andb_true_iff, Z.ltb_lt, !Z.leb_le. lia.
Qed.

Lemma account_ok q f inner :
  queue_ok q -> frame_ok f -> can_fit_frame q f = true ->
  inner ≡ₚ f :: q_inner q -> queue_ok (account q f inner).
Proof.
  intros Hq Hf Hfit Hperm. apply can_fit_frame_exact in Hfit as (H1 & H2 & H3); [|done|done].
  destruct Hq as [Hb Hd Hl Hmb Hmd Hlim Hfr]. destruct Hf as [Hf _].
  assert (Hsum : forall g, sum_by g inner = g f + sum_by g (q_inner q)).
  { intros g. rewrite <- sum_by_cons. clear -Hperm.
    induction Hperm; rewrite ?sum_by_cons in *; lia. }
  assert (Hlen : zlen inner = 1 + zlen (q_inner q))
    by (unfold zlen; rewrite Hperm; cbn [length]; lia).
  split; cbn; rewrite ?Hsum, ?Hlen, ?Hb, ?Hd; unfold sat_add; try lia.
  rewrite Hperm. constructor; done.
Qed.

Lemma push_preserves q f : queue_ok q -> frame_ok f -> queue_ok (fst (push q f)).
Proof.
  intros Hq Hf. unfold push. destruct (can_fit_frame q f) eqn:E; cbn [negb fst]; [|done].
  apply account_ok; try done. by rewrite Permutation_app_comm.
Qed.

Lemma push_front_preserves q f : queue_ok q -> frame_ok f -> queue_ok (fst (push_front q f)).
Proof.
  intros Hq Hf. unfold push_front. destruct (can_fit_frame q f) eqn:E; cbn [negb fst]; [|done].
  by apply account_ok.
Qed.

Lemma pop_preserves q : queue_ok q -> queue_ok (fst (pop q)).
Proof.
  intros Hq. unfold pop. destruct (q_inner q) as [|f rest] eqn:E; [done|].
  destruct Hq as [Hb Hd Hl Hmb Hmd Hlim Hfr]. rewrite E in *.
  rewrite !sum_by_cons, zlen_cons in *. apply Forall_cons_1 in Hfr as [Hf Hfr].
  assert (0 <= sum_by byte_len rest) by (apply sum_by_nonneg; auto with rust).
  assert (0 <= sum_by of_duration_samples rest).
  { apply sum_by_nonneg. intros a Ha. by eapply Forall_forall in Hfr. }
  pose proof (byte_len_nonneg f).
  split; cbn; unfold sat_sub; rewrite ?Hb, ?Hd; try done; lia.
Qed.

Lemma recalculate_fold fs q0 :
  Forall (fun f => 0 <= of_duration_samples f) fs ->
  0 <= q_bytes q0 -> 0 <= q_duration_samples q0 ->
  q_bytes q0 + sum_by byte_len fs <= usize_max ->
  q_duration_samples q0 + sum_by of_duration_samples fs <= u64_max ->
  fold_left (fun acc f => account acc f (q_inner acc)) fs q0
  = mkOpusFrameQueue (q_capacity q0) (q_max_bytes q0) (q_max_duration_samples q0)
      (q_duration_samples q0 + sum_by of_duration_samples fs)
      (q_bytes q0 + sum_by byte_len fs) (q_inner q0).
Proof.
  revert q0; induction fs as [|f fs IH]; intros q0 Hfs Hb0 Hd0 Hb Hd; cbn [fold_left].
  - rewrite !sum_by_nil, !Z.add_0_r. by destruct q0.
  - apply Forall_cons_1 in Hfs as [Hf Hfs]. rewrite !sum_by_cons in *.
    assert (0 <= sum_by byte_len fs) by (apply sum_by_nonneg; auto with rust).
    assert (0 <= sum_by of_duration_samples fs).
    { apply sum_by_nonneg. intros a Ha. by eapply Forall_forall in Hfs. }
    pose proof (byte_len_nonneg f).
    unfold account. unsat. rewrite IH; cbn; try done; try lia. f_equal; lia.
Qed.

Lemma sum_by_filter_le {A} (g : A -> Z) p l :
  Forall (fun a => 0 <= g a) l -> 0 <= sum_by g (List.filter p l) <= sum_by g l.
Proof.
  induction 1 as [|a l Ha Hl IH]; [done|]. cbn. destruct (p a); rewrite ?sum_by_cons; lia.
Qed.

Lemma length_filter_le {A} (p : A -> bool) l : zlen (List.filter p l) <= zlen l.
Proof. induction l as [|a l IH]; [done|]. cbn. destruct (p a); rewrite !zlen_cons; lia. Qed.

Lemma drop_stale_epoch_inner q epoch :
  queue_ok q ->
  drop_stale_epoch q epoch
  = mkOpusFrameQueue (q_capacity q) (q_max_bytes q) (q_max_duration_samples q)
      (sum_by of_duration_samples (List.filter (fun f => of_epoch f =? epoch) (q_inner q)))
      (sum_by byte_len (List.filter (fun f => of_epoch f =? epoch) (q_inner q)))
      (List.filter (fun f => of_epoch f =? epoch) (q_inner q)).
Proof.
  intros [Hb Hd Hl Hmb Hmd [Lb Ld] Hfr]. unfold drop_stale_epoch, recalculate_depth. cbn.
  set (kept := List.filter _ _).
  assert (Hk1 : 0 <= sum_by byte_len kept <= sum_by byte_len (q_inner q)).
  { apply sum_by_filter_le, Forall_forall. auto with rust. }
  assert (Hk2 : 0 <= sum_by of_duration_samples kept <= sum_by of_duration_samples (q_inner q)).
  { by apply sum_by_filter_le. }
  rewrite recalculate_fold; cbn; try done; try lia.
  rewrite Forall_forall in *. intros f Hf. apply Hfr. unfold kept in Hf.
  rewrite list_elem_of_In, filter_In, <- list_elem_of_In in Hf. tauto.
Qed.

Lemma drop_stale_epoch_preserves q epoch : queue_ok q -> queue_ok (drop_stale_epoch q epoch).
Proof.
  intros Hq. rewrite drop_stale_epoch_inner by done.
  destruct Hq as [Hb Hd Hl Hmb Hmd Hlim Hfr].
  pose proof (length_filter_le (fun f => of_epoch f =? epoch) (q_inner q)).
  pose proof (sum_by_filter_le of_duration_samples (fun f => of_epoch f =? epoch) _ Hfr).
  assert (Hb' : Forall (fun f => 0 <= byte_len f) (q_inner q)) by (apply Forall_forall; auto with rust).
  pose proof (sum_by_filter_le byte_len (fun f => of_epoch f =? epoch) _ Hb').
  split; cbn; try done; try lia.
  rewrite Forall_forall in *. intros f Hf. apply Hfr.
  rewrite list_elem_of_In, filter_In, <- list_elem_of_In in Hf. tauto.
Qed.

Lemma retag_epoch_preserves q epoch : queue_ok q -> queue_ok (retag_epoch q epoch).
Proof.
  intros [Hb Hd Hl Hmb Hmd Hlim Hfr]. split; cbn; try done.
  - by rewrite (sum_by_ext byte_len).
  - by rewrite (sum_by_ext of_duration_samples).
  - unfold zlen. by rewrite length_map.
  - by apply Forall_map.
Qed.

(** ** The queue against a list with exact totals *)

Inductive queue_op : Type :=
| QPush (f : OpusFrame)
| QPushFront (f : OpusFrame)
| QPop
| QDropStaleEpoch (epoch : Z)
| QRetagEpoch (epoch : Z).

Inductive queue_out : Type :=
| OutPush (r : result OpusFrame unit)
| OutPop (r : option OpusFrame)
| OutNone.

Definition op_ok (o : queue_op) : Prop :=
  match o with QPush f | QPushFront f => frame_ok f | _ => True end.

Definition queue_step (q : OpusFrameQueue) (o : queue_op) : OpusFrameQueue * queue_out :=
  match o with
  | QPush f => (fst (push q f), OutPush (snd (push q f)))
  | QPushFront f => (fst (push_front q f), OutPush (snd (push_front q f)))
  | QPop => (fst (pop q), OutPop (snd (pop q)))
  | QDropStaleEpoch e => (drop_stale_epoch q e, OutNone)
  | QRetagEpoch e => (retag_epoch q e, OutNone)
  end.

(** The specification keeps no counters: it is a list of frames, and a frame
    is accepted when the exact totals with it stay within the limits. *)
Record limits : Type := mkLimits { lim_packets : Z; lim_bytes : Z; lim_samples : Z }.

Definition limits_of (q : OpusFrameQueue) : limits :=
  mkLimits (q_capacity q) (q_max_bytes q) (q_max_duration_samples q).

Definition spec_fits (lim : limits) (l : list OpusFrame) (f : OpusFrame) : bool :=
  (zlen (f :: l) <=? lim_packets lim) &&
  (sum_by byte_len (f :: l) <=? lim_bytes lim) &&
  (sum_by of_duration_samples (f :: l) <=? lim_samples lim).

Definition spec_step (lim : limits) (l : list OpusFrame) (o : queue_op)
    : list OpusFrame * queue_out :=
  match o with
  | QPush f => if spec_fits lim l f then (l ++ [f], OutPush (Ok tt)) else (l, OutPush (Err f))
  | QPushFront f => if spec_fits lim l f then (f :: l, OutPush (Ok tt)) else (l, OutPush (Err f))
  | QPop => (tail l, OutPop (head l))
  | QDropStaleEpoch e => (List.filter (fun f => of_epoch f =? e) l, OutNone)
  | QRetagEpoch e => (map (fun f => with_epoch f e) l, OutNone)
  end.

Fixpoint queue_run (q : OpusFrameQueue) (ops : list queue_op) : OpusFrameQueue * list queue_out :=
  match ops with
  | [] => (q, [])
  | o :: rest =>
      let r := queue_run (fst (queue_step q o)) rest in (fst r, snd (queue_step q o) :: snd r)
  end.

Fixpoint spec_run (lim : limits) (l : list OpusFrame) (ops : list queue_op)
    : list OpusFrame * list queue_out :=
  match ops with
  | [] => (l, [])
  | o :: rest =>
      let r := spec_run lim (fst (spec_step lim l o)) rest in
      (fst r, snd (spec_step lim l o) :: snd r)
  end.

Lemma can_fit_spec q f :
  queue_ok q -> frame_ok f -> can_fit_frame q f = spec_fits (limits_of q) (q_inner q) f.
Proof.
  intros Hq Hf. apply eq_bool_prop_intro. rewrite !Is_true_true, can_fit_frame_exact by done.
  unfold spec_fits, limits_of. rewrite !andb_true_iff, !Z.leb_le, zlen_cons, !sum_by_cons. cbn. lia.
Qed.

Lemma queue_step_simulates q o :
  queue_ok q -> op_ok o ->
  queue_ok (fst (queue_step q o)) /\ limits_of (fst (queue_step q o)) = limits_of q /\
  q_inner (fst (queue_step q o)) = fst (spec_step (limits_of q) (q_inner q) o) /\
  snd (queue_step q o) = snd (spec_step (limits_of q) (q_inner q) o).
Proof.
  intros Hq Ho. destruct o as [f|f| |e|e]; cbn in Ho; cbn [queue_step spec_step fst snd].
  - split; [by apply push_preserves|]. unfold push. rewrite can_fit_spec by done.
    by destruct (spec_fits _ _ _).
  - split; [by apply push_front_preserves|]. unfold push_front. rewrite can_fit_spec by done.
    by destruct (spec_fits _ _ _).
  - split; [by apply pop_preserves|]. unfold pop. by destruct (q_inner q) eqn:E; cbn; rewrite ?E.
  - split; [by apply drop_stale_epoch_preserves|]. by rewrite drop_stale_epoch_inner.
  - split; [by apply retag_epoch_preserves|]. done.
Qed.

Lemma queue_run_simulates q ops :
  queue_ok q -> Forall op_ok ops ->
  queue_ok (fst (queue_run q ops)) /\
  q_inner (fst (queue_run q ops)) = fst (spec_run (limits_of q) (q_inner q) ops) /\
  snd (queue_run q ops) = snd (spec_run (limits_of q) (q_inner q) ops).
Proof.
  intros Hq Hops. revert q Hq; induction Hops as [|o ops Ho Hops IH]; intros q Hq; [done|].
  destruct (queue_step_simulates q o Hq Ho) as (Hq' & Hlim & Hin & Hout).
  destruct (IH _ Hq') as (H1 & H2 & H3). cbn [queue_run spec_run fst snd].
  rewrite H2, H3, Hin, Hlim, Hout. done.
Qed.

Lemma opus_packet_duration_bound packet d :
  bytes_ok packet -> opus_packet_duration packet = Some d ->
  0 <= od_samples d <= 2880 * 63 /\ od_ms d = od_samples d / 48.
Proof.
  intros Hp. unfold opus_packet_duration. destruct (packet !! 0%nat) as [toc|] eqn:E; [|done].
  assert (Ht : is_byte toc) by (by eapply Forall_lookup_1 in E). cbn [mbind option_bind].
  destruct (samples_per_frame_rfc toc Ht) as [_ Hb].
  destruct (frames_in_packet toc packet) as [n|] eqn:En; [|done]. cbn [mbind option_bind].
  apply frames_in_packet_bound in En.
  assert (H : 0 <= samples_per_frame toc * n <= 2880 * 63) by nia.
  unfold try_uint. rewrite (proj2 (Z.leb_le _ usize_max)) by (unfold usize_max, u64_max; lia).
  cbn [mbind option_bind]. rewrite (proj2 (Z.leb_le _ u32_max)) by (unfold u32_max; lia).
  cbn [mbind option_bind]. intros [= <-]. cbn. split; [done|].
  by rewrite duration_ms_exact by (unfold u64_max; lia).
Qed.

(** ** Theorems *)

(** The bounded queue refines a plain FIFO: from an empty queue with
    finite limits, any sequence of pushes, front pushes, pops, epoch drops and
    retags gives the same accepted and refused frames, the same popped frames
    and the same contents as a list whose limits are checked against exact
    totals. The cached, saturating counters are never observable. *)
Theorem queue_refines_fifo capacity max_bytes max_ms ops :
  0 <= capacity -> 0 <= max_bytes < usize_max -> 0 <= max_ms -> max_ms * 48 < u64_max ->
  Forall op_ok ops ->
  let q0 := with_resource_limits capacity max_bytes max_ms in
  q_inner (fst (queue_run q0 ops)) = fst (spec_run (limits_of q0) [] ops) /\
  snd (queue_run q0 ops) = snd (spec_run (limits_of q0) [] ops).
Proof.
  intros Hc Hb Hm Hs Hops q0.
  by destruct (queue_run_simulates q0 ops) as (_ & H1 & H2);
    [apply with_resource_limits_ok|done|].
Qed.

Definition sample_ops : list queue_op :=
  [QPush (OpusFrame_new [1] 20); QPush (OpusFrame_new [2] 20); QPop].

Lemma sample_ops_ok : Forall op_ok sample_ops.
Proof. repeat constructor; vm_compute; intuition discriminate. Qed.

Lemma queue_refines_fifo_witness :
  let q0 := with_resource_limits 1024 4194304 500 in
  snd (queue_run q0 sample_ops) = snd (spec_run (limits_of q0) [] sample_ops) /\
  snd (queue_run q0 sample_ops) = [OutPush (Ok tt); OutPush (Ok tt);
                                   OutPop (Some (OpusFrame_new [1] 20))].
Proof.
  split; [|vm_compute; reflexivity].
  assert (H : 0 <= 1024 /\ 0 <= 4194304 < usize_max /\ 0 <= 500 /\ 500 * 48 < u64_max)
    by (vm_compute; intuition discriminate).
  destruct H as (H1 & H2 & H3 & H4).
  exact (proj2 (queue_refines_fifo 1024 4194304 500 sample_ops H1 H2 H3 H4 sample_ops_ok)).
Defined.

(** Resource bounds: whatever operations are performed, the queue never
    holds more packets, bytes or samples than its limits, and the depth it
    reports is the exact total of the frames it holds. *)
Theorem queue_depth_exact capacity max_bytes max_ms ops :
  0 <= capacity -> 0 <= max_bytes < usize_max -> 0 <= max_ms -> max_ms * 48 < u64_max ->
  Forall op_ok ops ->
  let q := fst (queue_run (with_resource_limits capacity max_bytes max_ms) ops) in
  bd_packets (depth q) = zlen (q_inner q) /\ zlen (q_inner q) <= q_capacity q /\
  bd_bytes (depth q) = sum_by byte_len (q_inner q) /\ bd_bytes (depth q) <= q_max_bytes q /\
  bd_duration_samples (depth q) = sum_by of_duration_samples (q_inner q) /\
  bd_duration_samples (depth q) <= q_max_duration_samples q.
Proof.
  intros Hc Hb Hm Hs Hops q.
  destruct (queue_run_simulates (with_resource_limits capacity max_bytes max_ms) ops)
    as (Hq & _); [by apply with_resource_limits_ok|done|].
  destruct Hq. by split_and!.
Qed.

Lemma queue_depth_exact_witness :
  let q := fst (queue_run (with_resource_limits 2 100 40) sample_ops) in
  bd_packets (depth q) = zlen (q_inner q) /\ bd_packets (depth q) = 1.
Proof.
  split; [|vm_compute; reflexivity].
  assert (H : 0 <= 2 /\ 0 <= 100 < usize_max /\ 0 <= 40 /\ 40 * 48 < u64_max)
    by (vm_compute; intuition discriminate).
  destruct H as (H1 & H2 & H3 & H4).
  exact (proj1 (queue_depth_exact 2 100 40 sample_ops H1 H2 H3 H4 sample_ops_ok)).
Defined.

(** Packet durations are RFC 6716's: for every packet of bytes the bit
    tests on the TOC byte give the frame size of the RFC's table times the
    frame count of the packet's code, at most 63 frames of 60 ms, with no
    overflow; no duration is given only for an empty packet or a code-3 packet
    without its count byte. *)
Theorem opus_packet_duration_rfc6716 packet :
  bytes_ok packet ->
  opus_packet_duration packet =
  (toc ← packet !! 0%nat;
   n ← rfc6716_frame_count packet toc;
   let samples := rfc6716_frame_samples (toc / 8) * n in
   Some (mkOpusPacketDuration (samples / 48) samples)) /\
  (forall d, opus_packet_duration packet = Some d -> 0 <= od_samples d <= 2880 * 63).
Proof.
  intros Hp. split; [|intros d Hd; by apply opus_packet_duration_bound in Hd as [? _]].
  unfold opus_packet_duration. destruct (packet !! 0%nat) as [toc|] eqn:E; [|done].
  assert (Ht : is_byte toc) by (by eapply Forall_lookup_1 in E). cbn [mbind option_bind].
  destruct (samples_per_frame_rfc toc Ht) as [Hs Hb]. rewrite <- Hs.
  rewrite <- frames_in_packet_rfc by done.
  destruct (frames_in_packet toc packet) as [n|] eqn:En; [|done]. cbn [mbind option_bind].
  apply frames_in_packet_bound in En.
  assert (H : 0 <= samples_per_frame toc * n <= 2880 * 63) by nia.
  unfold try_uint. rewrite (proj2 (Z.leb_le _ usize_max)) by (unfold usize_max, u64_max; lia).
  cbn [mbind option_bind]. rewrite (proj2 (Z.leb_le _ u32_max)) by (unfold u32_max; lia).
  cbn [mbind option_bind]. by rewrite duration_ms_exact by (unfold u64_max; lia).
Qed.

Lemma opus_packet_duration_rfc6716_witness :
  bytes_ok [0xFC; 1] /\
  (forall d, opus_packet_duration [0xFC; 1] = Some d -> 0 <= od_samples d <= 2880 * 63).
Proof.
  assert (H : bytes_ok [0xFC; 1]) by (repeat constructor; vm_compute; intuition discriminate).
  split; [done|]. apply (opus_packet_duration_rfc6716 [0xFC; 1] H).
Defined.
