(* ===== verification/WebmDemux.v ===== *)
(** * The WebM demuxer

    crates/discord-voice-service-playback/src/media/webm_demux.rs: block and
    cluster timestamps to 48 kHz samples, laced frames to packets, and the
    incremental parse of a byte stream that arrives in chunks. The tag iterator
    and the block decoder of the webm_iterable crate are the class
    [WebmIterable]; what the demuxer relies on is [WebmStream]. *)

From S2P Require Import Prelude OpusQueue.
From stdpp Require Import prelude strings.
Open Scope Z_scope.

Record DemuxedPacket : Type := mkDemuxedPacket {
  dp_data : list Z;
  dp_timestamp_ms : Z;
  dp_timestamp_samples : Z;
  dp_duration_ms : Z;
  dp_duration_samples : Z;
}.

(** ** The tags the demuxer looks at *)

(** [Master::Full] carries the children; the other forms of a master tag, and
    every tag the demuxer does not match, are [OtherTag]. *)
#[warnings="-register-all"]
Inductive MatroskaSpec : Type :=
| TimestampScale (scale : Z)
| Timestamp (timestamp : Z)
| TrackEntryFull (children : list MatroskaSpec)
| SimpleBlockTag (data : list Z)
| BlockTag (data : list Z)
| BlockGroupFull (children : list MatroskaSpec)
| TrackNumber (value : Z)
| CodecID (value : string)
| TrackType (value : Z)
| OtherTag (id : Z).

Inductive TagIteratorError : Type :=
| UnexpectedEOF (tag_start : Z)
| CorruptedFileData
| CorruptedTagData
| ReadError.

(** A decoded block: its track, its relative timestamp (an i16) and what
    [read_frame_data] gives. *)
Record WebmBlock : Type := mkWebmBlock {
  wb_track : Z;
  wb_timestamp : Z;
  wb_frames : result string (list (list Z));
}.

(** The parts of webm_iterable the demuxer calls. *)
Class WebmIterable : Type := {
  webm_tags : list Z -> list (result TagIteratorError MatroskaSpec);
  SimpleBlock_try_from : list Z -> result string WebmBlock;
  Block_try_from : list Z -> result string WebmBlock;
}.

(** ** State *)

Record WebmDemuxState : Type := mkWebmDemuxState {
  timestamp_scale_ns : Z;
  cluster_timestamp : Z;
  opus_track : option Z;
}.

Definition WebmDemuxState_default : WebmDemuxState := mkWebmDemuxState 1000000 0 None.

Record WebmOpusDemux : Type := mkWebmOpusDemux {
  wd_pending : list Z;
  wd_state : WebmDemuxState;
}.

Definition WebmOpusDemux_default : WebmOpusDemux := mkWebmOpusDemux [] WebmDemuxState_default.

Inductive ParseOutcome : Type :=
| Complete (state : WebmDemuxState) (packets : list DemuxedPacket)
| Incomplete (state : WebmDemuxState) (packets : list DemuxedPacket) (tail_start : Z)
| Stalled.

(** ** Timestamps *)

Definition timestamp_overflow : PlaybackError := MediaParse "timestamp overflow".

Definition scale_timestamp_to_samples (st : WebmDemuxState) (ticks : Z) : presult Z :=
  scaled ← ok_or (try_uint u128_max (ticks * timestamp_scale_ns st)) timestamp_overflow;
  at_rate ← ok_or (try_uint u128_max (scaled * OPUS_SAMPLE_RATE_HZ)) timestamp_overflow;
  rounded ← ok_or (try_uint u128_max (at_rate + 500000000)) timestamp_overflow;
  ok_or (try_uint u64_max (rounded / 1000000000)) timestamp_overflow.

(** [total_ticks as u64] keeps the low 64 bits. *)
Definition block_timestamp_samples (st : WebmDemuxState) (relative_timestamp : Z) : presult Z :=
  let total_ticks := cluster_timestamp st + relative_timestamp in
  if total_ticks <? 0 then Err (MediaParse "negative block timestamp")
  else scale_timestamp_to_samples st (wrap 64 total_ticks).

(** ** Blocks to packets *)

Fixpoint opus_frame_durations (frames : list (list Z)) : option (list OpusPacketDuration) :=
  match frames with
  | [] => Some []
  | frame :: rest =>
      d ← opus_packet_duration frame;
      ds ← opus_frame_durations rest;
      Some (d :: ds)
  end.

(** The [for] loop over the frames zipped with their durations. *)
Fixpoint packets_from (timestamp_samples : Z) (l : list (list Z * OpusPacketDuration))
    : list DemuxedPacket :=
  match l with
  | [] => []
  | (frame, duration) :: rest =>
      mkDemuxedPacket frame (duration_ms_from_samples timestamp_samples) timestamp_samples
        (od_ms duration) (od_samples duration)
      :: packets_from (sat_add u64_max timestamp_samples (od_samples duration)) rest
  end.

Definition frames_to_packets (st : WebmDemuxState) (relative_timestamp : Z)
    (frames : list (list Z)) : presult (list DemuxedPacket) :=
  match frames with
  | [] => Ok []
  | _ :: _ =>
      durations ← ok_or (opus_frame_durations frames)
                    (MediaParse "unsupported opus packet duration");
      timestamp_samples ← block_timestamp_samples st relative_timestamp;
      Ok (packets_from timestamp_samples (zip frames durations))
  end.

Definition is_target_track (st : WebmDemuxState) (track_number : Z) : bool :=
  match opus_track st with Some number => number =? track_number | None => true end.

Definition map_webm_coercion_error (error : string) : PlaybackError := MediaParseDetail error.

(** [extract_simple_block] and [extract_block] have the same body. *)
Definition extract_block (st : WebmDemuxState) (block : WebmBlock)
    : presult (list DemuxedPacket) :=
  if negb (is_target_track st (wb_track block)) then Ok []
  else
    frames ← map_err map_webm_coercion_error (wb_frames block);
    frames_to_packets st (wb_timestamp block) frames.

(** [update_track]: the last value of each kind of child counts. *)
Definition last_child {A} (pick : MatroskaSpec -> option A) (children : list MatroskaSpec)
    : option A :=
  fold_left (fun acc child => match pick child with Some v => Some v | None => acc end)
    children None.

Definition update_track (st : WebmDemuxState) (children : list MatroskaSpec) : WebmDemuxState :=
  let number := last_child (fun c => match c with TrackNumber v => Some v | _ => None end) children in
  let codec_id := last_child (fun c => match c with CodecID v => Some v | _ => None end) children in
  let track_type := last_child (fun c => match c with TrackType v => Some v | _ => None end) children in
  if bool_decide (track_type = Some 2) && bool_decide (codec_id = Some "A_OPUS"%string)
  then mkWebmDemuxState (timestamp_scale_ns st) (cluster_timestamp st) number
  else st.

Section Demuxer.
Context `{W : WebmIterable}.

Definition extract_block_group (st : WebmDemuxState) (children : list MatroskaSpec)
    : presult (list DemuxedPacket) :=
  match last_child (fun c => match c with BlockTag d => Some d | _ => None end) children with
  | None => Ok []
  | Some block_data =>
      block ← map_err map_webm_coercion_error (Block_try_from block_data);
      extract_block st block
  end.

(** The state after the tag and the packets it adds. *)
Definition process_tag (st : WebmDemuxState) (tag : MatroskaSpec)
    : presult (WebmDemuxState * list DemuxedPacket) :=
  match tag with
  | TimestampScale scale => Ok (mkWebmDemuxState scale (cluster_timestamp st) (opus_track st), [])
  | Timestamp timestamp => Ok (mkWebmDemuxState (timestamp_scale_ns st) timestamp (opus_track st), [])
  | TrackEntryFull children => Ok (update_track st children, [])
  | SimpleBlockTag data =>
      block ← map_err map_webm_coercion_error (SimpleBlock_try_from data);
      packets ← extract_block st block; Ok (st, packets)
  | BlockTag data =>
      block ← map_err map_webm_coercion_error (Block_try_from data);
      packets ← extract_block st block; Ok (st, packets)
  | BlockGroupFull children =>
      packets ← extract_block_group st children; Ok (st, packets)
  | _ => Ok (st, [])
  end.

(** The loop of [parse_available] over the iterator. *)
Fixpoint parse_tags (st : WebmDemuxState) (packets : list DemuxedPacket)
    (items : list (result TagIteratorError MatroskaSpec)) : presult ParseOutcome :=
  match items with
  | [] => Ok (Complete st packets)
  | Err (UnexpectedEOF tag_start) :: _ => Ok (Incomplete st packets tag_start)
  | Err _ :: _ => Ok Stalled
  | Panic :: _ => Panic
  | Ok tag :: rest =>
      r ← process_tag st tag;
      parse_tags (fst r) (packets ++ snd r) rest
  end.

Definition parse_available (st : WebmDemuxState) (input : list Z) : presult ParseOutcome :=
  parse_tags st [] (webm_tags input).

Definition push_bytes (d : WebmOpusDemux) (chunk : list Z) : WebmOpusDemux :=
  mkWebmOpusDemux (wd_pending d ++ chunk) (wd_state d).

(** On an error the demuxer keeps its state and its pending bytes. *)
Definition drain_packets (d : WebmOpusDemux) : WebmOpusDemux * presult (list DemuxedPacket) :=
  if bool_decide (wd_pending d = []) then (d, Ok [])
  else
    match parse_available (wd_state d) (wd_pending d) with
    | Err e => (d, Err e)
    | Panic => (d, Panic)
    | Ok (Complete state packets) => (mkWebmOpusDemux [] state, Ok packets)
    | Ok (Incomplete state packets tail_start) =>
        if (0 <? tail_start) && negb (bool_decide (packets = [])) then
          let tail_start := Z.min tail_start (zlen (wd_pending d)) in
          (mkWebmOpusDemux (drop (Z.to_nat tail_start) (wd_pending d)) state, Ok packets)
        else (d, Ok [])
    | Ok Stalled => (d, Ok [])
    end.

(** The demuxer fed one chunk after the other, drained after each. *)
Fixpoint demux_chunks (d : WebmOpusDemux) (chunks : list (list Z))
    : WebmOpusDemux * presult (list DemuxedPacket) :=
  match chunks with
  | [] => (d, Ok [])
  | chunk :: rest =>
      match drain_packets (push_bytes d chunk) with
      | (d', Ok packets) =>
          let r := demux_chunks d' rest in (fst r, app packets <$> snd r)
      | (d', e) => (d', e)
      end
  end.

(** Reference: the tags of the whole file, one after the other. *)
Fixpoint process_tags (st : WebmDemuxState) (tags : list MatroskaSpec)
    : presult (WebmDemuxState * list DemuxedPacket) :=
  match tags with
  | [] => Ok (st, [])
  | tag :: rest =>
      r ← process_tag st tag;
      r' ← process_tags (fst r) rest;
      Ok (fst r', snd r ++ snd r')
  end.

Definition encode_all (encode : MatroskaSpec -> list Z) (tags : list MatroskaSpec) : list Z :=
  concat (map encode tags).

(** What the demuxer relies on for a file whose tags have the encodings
    [encode]: whole tags are read back in order; a tag cut short ends the
    iteration with an end-of-input error at that tag's offset, or with a
    corruption error. *)
Class WebmStream (encode : MatroskaSpec -> list Z) (valid : MatroskaSpec -> Prop) : Prop := {
  encode_nonempty tag : valid tag -> encode tag <> [];
  webm_tags_whole tags :
    Forall valid tags -> webm_tags (encode_all encode tags) = map Ok tags;
  webm_tags_cut tags tag partial rest :
    Forall valid tags -> valid tag ->
    encode tag = partial ++ rest -> partial <> [] -> rest <> [] ->
    exists e, webm_tags (encode_all encode tags ++ partial) = map Ok tags ++ [Err e] /\
      (e = UnexpectedEOF (zlen (encode_all encode tags)) \/
       e = CorruptedFileData \/ e = CorruptedTagData \/ e = ReadError);
}.

(** ** Lemmas: the incremental parse *)

Lemma parse_tags_app st packets tags items :
  parse_tags st packets (map Ok tags ++ items) =
  (r ← process_tags st tags; parse_tags (fst r) (packets ++ snd r) items).
Proof.
  revert st packets; induction tags as [|t tags IH]; intros st packets; cbn.
  - by rewrite app_nil_r.
  - destruct (process_tag st t) as [[st' p]| |]; cbn; [|done|done]. rewrite IH.
    destruct (process_tags st' tags) as [[st'' p']| |]; cbn; [|done|done].
    by rewrite app_assoc.
Qed.

Lemma process_tags_app st tags tags' :
  process_tags st (tags ++ tags') =
  (r ← process_tags st tags; r' ← process_tags (fst r) tags'; Ok (fst r', snd r ++ snd r')).
Proof.
  revert st; induction tags as [|t tags IH]; intros st; cbn.
  - by destruct (process_tags st tags') as [[? ?]| |].
  - destruct (process_tag st t) as [[st' p]| |]; cbn; [|done|done]. rewrite IH.
    destruct (process_tags st' tags) as [[st'' p']| |]; cbn; [|done|done].
    destruct (process_tags st'' tags') as [[? ?]| |]; cbn; [|done|done].
    by rewrite app_assoc.
Qed.

(** The parser reports malformed input as an error. *)
Definition block_no_panic (r : result string WebmBlock) : Prop :=
  no_panic r /\ forall b, r = Ok b -> no_panic (wb_frames b).

Class WebmNoPanic : Prop := {
  webm_tags_no_panic input : Forall no_panic (webm_tags input);
  SimpleBlock_no_panic data : block_no_panic (SimpleBlock_try_from data);
  Block_no_panic data : block_no_panic (Block_try_from data);
}.

Lemma frames_to_packets_no_panic st rel frames : no_panic (frames_to_packets st rel frames).
Proof.
  unfold frames_to_packets. destruct frames as [|f frames]; [done|].
  apply no_panic_bind; [apply no_panic_ok_or|]. intros ds _.
  apply no_panic_bind; [|done]. unfold block_timestamp_samples, scale_timestamp_to_samples.
  zcase; [done|]. repeat (apply no_panic_bind; [apply no_panic_ok_or|intros ? _]).
  apply no_panic_ok_or.
Qed.

Lemma block_packets_no_panic st r :
  block_no_panic r ->
  no_panic (block ← map_err map_webm_coercion_error r; extract_block st block).
Proof.
  intros [H1 H2]. destruct r as [b| |]; cbn; [|done|done]. unfold extract_block.
  destruct (negb _); [done|]. specialize (H2 b eq_refl).
  destruct (wb_frames b); cbn; [apply frames_to_packets_no_panic|done|done].
Qed.

Lemma process_tag_no_panic `{NP : !WebmNoPanic} st tag : no_panic (process_tag st tag).
Proof.
  destruct tag; cbn [process_tag]; try done.
  - pose proof (block_packets_no_panic st _ (SimpleBlock_no_panic data)) as H.
    destruct (SimpleBlock_try_from data); cbn in *; [|done|done].
    by destruct (extract_block st a).
  - pose proof (block_packets_no_panic st _ (Block_no_panic data)) as H.
    destruct (Block_try_from data); cbn in *; [|done|done].
    by destruct (extract_block st a).
  - unfold extract_block_group. destruct (last_child _ children) as [data|]; [|done].
    pose proof (block_packets_no_panic st _ (Block_no_panic data)) as H.
    by destruct (block ← map_err map_webm_coercion_error (Block_try_from data); extract_block st block).
Qed.

Lemma drain_packets_no_panic `{NP : !WebmNoPanic} d : no_panic (snd (drain_packets d)).
Proof.
  assert (H : forall items st packets, Forall no_panic items ->
    no_panic (parse_tags st packets items)).
  { intros items st packets Hi. revert st packets.
    induction Hi as [|i items Hi Hs IH]; intros st packets; [done|]. cbn.
    destruct i as [tag|[]|]; try done.
    apply no_panic_bind; [apply process_tag_no_panic|]. intros r _. apply IH. }
  unfold drain_packets. case_bool_decide; [done|].
  specialize (H _ (wd_state d) [] (webm_tags_no_panic (wd_pending d))).
  unfold parse_available. destruct (parse_tags _ _ _) as [[]| |]; try done. by destruct (_ && _).
Qed.

Lemma demux_chunks_snoc d chunks chunk d1 packets :
  demux_chunks d chunks = (d1, Ok packets) ->
  demux_chunks d (chunks ++ [chunk]) =
  (let r := drain_packets (push_bytes d1 chunk) in (fst r, app packets <$> snd r)).
Proof.
  revert d packets; induction chunks as [|c chunks IH]; intros d packets; cbn [app demux_chunks].
  - intros [= <- <-]. destruct (drain_packets _) as [d2 [p| |]]; cbn; by rewrite ?app_nil_r.
  - destruct (drain_packets (push_bytes d c)) as [d2 [p| |]]; [|done|done].
    destruct (demux_chunks d2 chunks) as [d3 [p'| |]] eqn:E; cbn; try done.
    intros [= <- <-]. rewrite (IH d2 p' E). cbn.
    destruct (snd _) as [p2| |]; cbn; by rewrite ?app_assoc.
Qed.

Section Stream.
Context (encode : MatroskaSpec -> list Z) (valid : MatroskaSpec -> Prop).
Context `{S : !WebmStream encode valid}.

Lemma encode_all_cons tag tags :
  encode_all encode (tag :: tags) = encode tag ++ encode_all encode tags.
Proof. done. Qed.

Lemma encode_all_nil tags : Forall valid tags -> [] = encode_all encode tags -> tags = [].
Proof.
  destruct 1 as [|t tags Ht _]; [done|]. intros H. apply eq_sym, app_eq_nil in H as [H _].
  by apply encode_nonempty in H.
Qed.

(** A prefix of an encoded file is some whole tags and a cut of the next. *)
Lemma cut_of_encoded tags input rest :
  Forall valid tags -> input ++ rest = encode_all encode tags ->
  (exists tags1 tags2, tags = tags1 ++ tags2 /\ input = encode_all encode tags1 /\ rest = encode_all encode tags2) \/
  (exists tags1 tag tags2 p q, tags = tags1 ++ tag :: tags2 /\ encode tag = p ++ q /\
     p <> [] /\ q <> [] /\ input = encode_all encode tags1 ++ p /\ rest = q ++ encode_all encode tags2).
Proof.
  intros Hv; revert input; induction Hv as [|t tags Ht Hv IH]; intros input H.
  - apply app_eq_nil in H as [-> ->]. left. by exists [], [].
  - rewrite encode_all_cons in H. apply app_eq_app in H as (k & [[Hi Hr]|[Hi Hr]]).
    + destruct (IH k (eq_sym Hr))
        as [(t1 & t2 & -> & -> & ->)|(t1 & t' & t2 & p & q & -> & He & Hp & Hq & -> & ->)].
      * left. exists (t :: t1), t2. by rewrite encode_all_cons, Hi.
      * right. exists (t :: t1), t', t2, p, q. by rewrite encode_all_cons, Hi, app_assoc.
    + destruct input as [|b input].
      { left. exists [], (t :: tags). rewrite encode_all_cons, Hi. done. }
      destruct k as [|b' k].
      * left. exists [t], tags. rewrite app_nil_r in Hi. cbn. by rewrite app_nil_r, Hi.
      * right. by exists [], t, tags, (b :: input), (b' :: k).
Qed.

(** [d] has consumed [done], emitted [out], and its pending bytes followed by
    [rest] are the encoding of the remaining tags. *)
Definition demux_inv (d : WebmOpusDemux) (done todo : list MatroskaSpec)
    (out : list DemuxedPacket) (rest : list Z) : Prop :=
  process_tags WebmDemuxState_default done = Ok (wd_state d, out) /\
  wd_pending d ++ rest = encode_all encode todo.

Lemma demux_inv_advance d done tags1 tags2 out st pk rest pending :
  demux_inv d done (tags1 ++ tags2) out rest ->
  process_tags (wd_state d) tags1 = Ok (st, pk) ->
  pending ++ rest = encode_all encode tags2 ->
  demux_inv (mkWebmOpusDemux pending st) (done ++ tags1) tags2 (out ++ pk) rest.
Proof.
  intros [H1 _] H2 H3. split; [|done]. rewrite process_tags_app, H1. cbn. by rewrite H2.
Qed.

(** What one push and drain establishes. *)
Definition drained (d : WebmOpusDemux) (done todo : list MatroskaSpec)
    (out : list DemuxedPacket) (rest : list Z) : Prop :=
  exists d' packets done' todo', drain_packets d = (d', Ok packets) /\
    demux_inv d' done' todo' (out ++ packets) rest /\ done' ++ todo' = done ++ todo /\
    Forall valid todo' /\ (rest = [] -> todo' = []).

Lemma drained_unchanged d done todo out rest :
  demux_inv d done todo out rest -> Forall valid todo -> (rest = [] -> todo = []) ->
  drain_packets d = (d, Ok []) -> drained d done todo out rest.
Proof. intros. exists d, [], done, todo. by rewrite app_nil_r. Qed.

(** The pending bytes end on a tag boundary. *)
Lemma drain_whole d done tags1 tags2 out rest r :
  Forall valid (tags1 ++ tags2) -> demux_inv d done (tags1 ++ tags2) out rest ->
  wd_pending d = encode_all encode tags1 -> rest = encode_all encode tags2 ->
  process_tags (wd_state d) tags1 = Ok r ->
  drained d done (tags1 ++ tags2) out rest.
Proof.
  intros [Hv1 Hv2]%Forall_app Hinv Hp Hr E1. destruct r as [st pk].
  destruct tags1 as [|tag tags1].
  - apply drained_unchanged; [done..| |].
    + intros ->. by apply encode_all_nil in Hr.
    + unfold drain_packets. by rewrite bool_decide_eq_true_2.
  - assert (wd_pending d <> [])
      by (rewrite Hp; intros E; by apply eq_sym, encode_all_nil in E).
    exists (mkWebmOpusDemux [] st), pk, (done ++ tag :: tags1), tags2. split_and!.
    + unfold drain_packets, parse_available. rewrite bool_decide_eq_false_2 by done.
      rewrite Hp, webm_tags_whole by done.
      by rewrite <- (app_nil_r (map Ok _)), parse_tags_app, E1.
    + by eapply demux_inv_advance.
    + by rewrite <- app_assoc.
    + done.
    + intros ->. by apply encode_all_nil in Hr.
Qed.

(** The pending bytes end inside a tag: nothing happens, or what precedes the
    tag is committed. *)
Lemma drain_cut_cases d tags1 p st pk e :
  wd_pending d = encode_all encode tags1 ++ p -> p <> [] ->
  webm_tags (wd_pending d) = map Ok tags1 ++ [Err e] ->
  process_tags (wd_state d) tags1 = Ok (st, pk) ->
  (e = UnexpectedEOF (zlen (encode_all encode tags1)) \/
   e = CorruptedFileData \/ e = CorruptedTagData \/ e = ReadError) ->
  drain_packets d = (d, Ok []) \/ drain_packets d = (mkWebmOpusDemux p st, Ok pk).
Proof.
  intros Hp Hpn Hw E1 Hcase. unfold drain_packets, parse_available.
  rewrite bool_decide_eq_false_2 by (rewrite Hp; intros E; by apply app_eq_nil in E as [_ ?]).
  rewrite Hw, parse_tags_app, E1. cbn.
  destruct Hcase as [He|[He|[He|He]]]; subst e; cbn; [|by left..].
  destruct ((0 <? _) && _); [right|by left].
  rewrite Hp, zlen_app, Z.min_l by (pose proof (zlen_nonneg p); lia).
  unfold zlen. by rewrite Nat2Z.id, drop_app_length.
Qed.

Lemma drain_cut d done tags1 tag tags2 p q out rest r :
  Forall valid (tags1 ++ tag :: tags2) -> demux_inv d done (tags1 ++ tag :: tags2) out rest ->
  encode tag = p ++ q -> p <> [] -> q <> [] ->
  wd_pending d = encode_all encode tags1 ++ p -> rest = q ++ encode_all encode tags2 ->
  process_tags (wd_state d) tags1 = Ok r ->
  drained d done (tags1 ++ tag :: tags2) out rest.
Proof.
  intros Hv Hinv He Hpn Hqn Hp Hr E1. destruct r as [st pk].
  assert (Hrest : rest <> []) by (rewrite Hr; intros E; by apply app_eq_nil in E as [? _]).
  pose proof (proj1 (Forall_app _ _ _) Hv) as [Hv1 [Ht Hv2]%Forall_cons].
  destruct (webm_tags_cut tags1 tag p q Hv1 Ht He Hpn Hqn) as (e & Hw & Hcase).
  rewrite <- Hp in Hw.
  destruct (drain_cut_cases d tags1 p st pk e Hp Hpn Hw E1 Hcase) as [Hd|Hd].
  - by apply drained_unchanged.
  - exists (mkWebmOpusDemux p st), pk, (done ++ tags1), (tag :: tags2).
    split_and!; [done| |by rewrite <- app_assoc|by constructor|done].
    eapply demux_inv_advance; [done..|]. by rewrite Hr, app_assoc, <- He.
Qed.

Lemma drain_step d done todo out chunk rest final :
  Forall valid todo -> demux_inv d done todo out (chunk ++ rest) ->
  process_tags WebmDemuxState_default (done ++ todo) = Ok final ->
  drained (push_bytes d chunk) done todo out rest.
Proof.
  intros Hv [Hdone Henc] Hfin. rewrite process_tags_app, Hdone in Hfin. cbn in Hfin.
  assert (Hinv : demux_inv (push_bytes d chunk) done todo out rest)
    by (split; [done|]; cbn; by rewrite <- app_assoc).
  assert (Hpre : forall tags1 tags2, todo = tags1 ++ tags2 ->
                 exists r, process_tags (wd_state d) tags1 = Ok r).
  { intros tags1 tags2 ->. rewrite process_tags_app in Hfin.
    destruct (process_tags (wd_state d) tags1) as [r| |]; [by exists r|done|done]. }
  destruct (cut_of_encoded todo _ rest Hv (proj2 Hinv))
    as [(t1 & t2 & E & Hp & Hr)|(t1 & t & t2 & p & q & E & He & Hpn & Hqn & Hp & Hr)];
    destruct (Hpre _ _ E) as [r Hr1]; subst todo.
  - by eapply drain_whole.
  - by eapply drain_cut.
Qed.

Lemma demux_chunks_complete chunks d done todo out st pk :
  Forall valid todo -> demux_inv d done todo out (concat chunks) ->
  (chunks = [] -> todo = []) ->
  process_tags WebmDemuxState_default (done ++ todo) = Ok (st, pk) ->
  exists pk', demux_chunks d chunks = (mkWebmOpusDemux [] st, Ok pk') /\ out ++ pk' = pk.
Proof.
  revert d done todo out. induction chunks as [|chunk chunks IH];
    intros d done todo out Hv Hinv Hlast Hfin.
  - rewrite (Hlast eq_refl), app_nil_r in *. destruct Hinv as [H1 H2].
    rewrite H1 in Hfin. injection Hfin as <- <-. cbn in H2. rewrite app_nil_r in H2.
    exists []. rewrite app_nil_r. destruct d as [pending st]; cbn in *. by subst pending.
  - destruct (drain_step d done todo out chunk (concat chunks) (st, pk) Hv Hinv Hfin)
      as (d' & pk1 & done' & todo' & Hd & Hinv' & Hsame & Hv' & Hlast').
    destruct (IH d' done' todo' (out ++ pk1)) as (pk2 & Hc & Hout); [done|done| | |].
    + intros ->. by apply Hlast'.
    + by rewrite Hsame.
    + exists (pk1 ++ pk2). cbn. rewrite Hd, Hc. cbn. by rewrite app_assoc.
Qed.


End Stream.
End Demuxer.

(** ** Lemmas: timestamps *)

Lemma opus_frame_durations_spec frames ds :
  opus_frame_durations frames = Some ds ->
  Forall2 (fun f d => opus_packet_duration f = Some d) frames ds.
Proof.
  revert ds; induction frames as [|f frames IH]; intros ds; cbn.
  - intros [= <-]. constructor.
  - destruct (opus_packet_duration f) as [d|] eqn:Ed; [|done].
    destruct (opus_frame_durations frames) as [ds'|]; [|done]. cbn.
    intros [= <-]. constructor; [done|]. by apply IH.
Qed.

(** The packet at index [i] of a run that starts at [t0]. *)
Definition packet_at (t0 : Z) (packets : list DemuxedPacket) (i : nat) (p : DemuxedPacket) : Prop :=
  opus_packet_duration (dp_data p)
  = Some (mkOpusPacketDuration (dp_duration_ms p) (dp_duration_samples p)) /\
  dp_timestamp_samples p = sat_add u64_max t0 (sum_by dp_duration_samples (take i packets)) /\
  dp_timestamp_ms p = duration_ms_from_samples (dp_timestamp_samples p).

Lemma sum_durations_nonneg packets i :
  Forall (fun p => 0 <= dp_duration_samples p) packets ->
  0 <= sum_by dp_duration_samples (take i packets).
Proof.
  intros H. apply sum_by_nonneg. intros p (k & Hk & _)%elem_of_take.
  apply (Forall_lookup_1 _ _ _ _ H Hk).
Qed.

Lemma packets_from_spec frames ds t0 :
  Forall bytes_ok frames ->
  Forall2 (fun f d => opus_packet_duration f = Some d) frames ds -> t0 <= u64_max ->
  let packets := packets_from t0 (zip frames ds) in
  map dp_data packets = frames /\ Forall (fun p => 0 <= dp_duration_samples p) packets /\
  (forall i p, packets !! i = Some p -> packet_at t0 packets i p).
Proof.
  intros Hb H. revert t0 Hb; induction H as [|f d frames ds Hd H IH]; intros t0 Hb Ht; cbn.
  { done. }
  apply Forall_cons in Hb as [Hf Hb].
  destruct (opus_packet_duration_bound f d Hf Hd) as [Hnn _].
  destruct (IH (sat_add u64_max t0 (od_samples d)) Hb) as (H1 & H2 & H3);
    [unfold sat_add; lia|].
  split_and!; [by f_equal|by constructor; [cbn; lia|]|].
  intros [|i] p Hp; cbn in Hp.
  - injection Hp as <-. split_and!; cbn; [by destruct d| |done].
    by rewrite sat_add_0.
  - apply H3 in Hp as (Ha & Hs & Hm). split_and!; [done| |done].
    rewrite Hs. cbn [take]. rewrite sum_by_cons. cbn [dp_duration_samples].
    apply sat_add_assoc; [lia|]. by apply sum_durations_nonneg.
Qed.

Lemma scale_timestamp_exact st ticks :
  in_uint u64_max ticks -> in_uint u64_max (timestamp_scale_ns st) ->
  scale_timestamp_to_samples st ticks =
  (let samples := (ticks * timestamp_scale_ns st * 48000 + 500000000) / 1000000000 in
   if samples <=? u64_max then Ok samples else Err timestamp_overflow).
Proof.
  intros [Ht1 Ht2] [Hs1 Hs2]. unfold scale_timestamp_to_samples, try_uint, OPUS_SAMPLE_RATE_HZ.
  set (n := timestamp_scale_ns st) in *. set (x := ticks * n).
  assert (Hx : 0 <= x <= u64_max * u64_max) by (unfold x; nia).
  assert (Hm : u64_max * u64_max <= u128_max) by (vm_compute; discriminate).
  rewrite (proj2 (Z.leb_le x u128_max)) by lia. cbn [ok_or mbind result_bind].
  assert (Hbig : u64_max < u128_max / 1000000000) by (vm_compute; reflexivity).
  assert (Hover : u128_max < x * 48000 + 500000000 ->
                  u64_max < (x * 48000 + 500000000) / 1000000000).
  { intros H. eapply Z.lt_le_trans; [exact Hbig|]. apply Z.div_le_mono; lia. }
  zcase; cbn [ok_or mbind result_bind].
  - zcase; cbn [ok_or mbind result_bind]; [by zcase|].
    rewrite (proj2 (Z.leb_gt _ _)) by (apply Hover; lia). done.
  - rewrite (proj2 (Z.leb_gt _ _)) by (apply Hover; lia). done.
Qed.

Lemma scale_timestamp_bound st ticks t :
  scale_timestamp_to_samples st ticks = Ok t -> t <= u64_max.
Proof.
  unfold scale_timestamp_to_samples, try_uint.
  repeat (zcase; cbn [ok_or mbind result_bind]; try done). by intros [= <-].
Qed.

Lemma block_timestamp_bound st rel t :
  block_timestamp_samples st rel = Ok t -> t <= u64_max.
Proof. unfold block_timestamp_samples. zcase; [done|]. apply scale_timestamp_bound. Qed.

(** ** Theorems *)

(** Packets of a laced block: every frame of the block becomes one packet,
    in order and with its bytes unchanged; its duration is the one its TOC
    byte gives, and its timestamp is the block's plus the durations of the
    frames before it, clamped to u64, so that consecutive packets neither
    overlap nor leave a gap. *)
Theorem frames_to_packets_contiguous st relative_timestamp frames packets :
  Forall bytes_ok frames -> frames <> [] ->
  frames_to_packets st relative_timestamp frames = Ok packets ->
  map dp_data packets = frames /\
  exists t0, block_timestamp_samples st relative_timestamp = Ok t0 /\
    forall i p, packets !! i = Some p -> packet_at t0 packets i p.
Proof.
  intros Hb Hne. destruct frames as [|f frames]; [done|]. unfold frames_to_packets.
  destruct (opus_frame_durations (f :: frames)) as [ds|] eqn:Ed; [|done].
  apply opus_frame_durations_spec in Ed. cbn [ok_or mbind result_bind].
  destruct (block_timestamp_samples st relative_timestamp) as [t0| |] eqn:Et; [|done|done].
  cbn [mbind result_bind]. intros [= <-]. apply block_timestamp_bound in Et.
  destruct (packets_from_spec (f :: frames) ds t0 Hb Ed Et) as (H1 & _ & H3).
  split; [exact H1|]. by exists t0.
Qed.

Definition laced_frames : list (list Z) := [[0x80]; [0xF8; 0xFF; 0xFE]; [0x80]].
Definition laced_packets : list DemuxedPacket :=
  [mkDemuxedPacket [0x80] 0 0 2 120; mkDemuxedPacket [0xF8; 0xFF; 0xFE] 2 120 20 960;
   mkDemuxedPacket [0x80] 22 1080 2 120].

Lemma frames_to_packets_contiguous_witness :
  frames_to_packets WebmDemuxState_default 0 laced_frames = Ok laced_packets /\
  map dp_data laced_packets = laced_frames.
Proof.
  split; [vm_compute; reflexivity|].
  apply (frames_to_packets_contiguous WebmDemuxState_default 0 laced_frames laced_packets).
  - repeat constructor; vm_compute; intuition discriminate.
  - discriminate.
  - vm_compute; reflexivity.
Defined.

(** Block timestamps: while the cluster and the block's offset add up to a
    64-bit tick count, the block's position is its time in 48 kHz samples
    rounded to the nearest, the intermediate 128-bit products never lose a
    value, and a time that does not fit u64 is an error; a negative time is an
    error too. *)
Theorem block_timestamp_exact st relative_timestamp :
  in_uint u64_max (timestamp_scale_ns st) ->
  cluster_timestamp st + relative_timestamp <= u64_max ->
  block_timestamp_samples st relative_timestamp =
  (let ticks := cluster_timestamp st + relative_timestamp in
   let samples := (ticks * timestamp_scale_ns st * 48000 + 500000000) / 1000000000 in
   if ticks <? 0 then Err (MediaParse "negative block timestamp")
   else if samples <=? u64_max then Ok samples else Err timestamp_overflow).
Proof.
  intros Hs Ht. unfold block_timestamp_samples. cbn zeta. zcase; [done|].
  rewrite wrap_small by (unfold u64_max in Ht; lia).
  by rewrite scale_timestamp_exact by (done || split; lia).
Qed.

Lemma block_timestamp_exact_witness :
  block_timestamp_samples (mkWebmDemuxState 31250 1 None) 0 = Ok 2.
Proof.
  rewrite (block_timestamp_exact (mkWebmDemuxState 31250 1 None) 0);
    [vm_compute; reflexivity| |]; vm_compute; intuition discriminate.
Defined.

(** Beyond 64 bits the tick count is cut to its low 64 bits instead of being
    reported as an overflow: a block 1 tick after a cluster at 2^64 - 1 is
    placed at the start of the track. *)
Lemma block_timestamp_wraps :
  block_timestamp_samples (mkWebmDemuxState 1000000 u64_max None) 1 = Ok 0.
Proof. vm_compute. reflexivity. Qed.

(** ** A stream format that meets [WebmStream]

    Two bytes per tag: a cluster timestamp, or a block of one one-byte frame. *)

Definition pair_encode (tag : MatroskaSpec) : list Z :=
  match tag with
  | Timestamp t => [0; t]
  | SimpleBlockTag (b :: _) => [1; b]
  | _ => []
  end.

Definition pair_valid (tag : MatroskaSpec) : Prop :=
  match tag with
  | Timestamp _ => True
  | SimpleBlockTag [_] => True
  | _ => False
  end.

Fixpoint pair_tags (offset : Z) (input : list Z) : list (result TagIteratorError MatroskaSpec) :=
  match input with
  | [] => []
  | [_] => [Err (UnexpectedEOF offset)]
  | kind :: v :: rest =>
      Ok (if kind =? 0 then Timestamp v else SimpleBlockTag [v]) :: pair_tags (offset + 2) rest
  end.

#[global] Instance pair_iterable : WebmIterable := {|
  webm_tags := pair_tags 0;
  SimpleBlock_try_from data := Ok (mkWebmBlock 1 0 (Ok [data]));
  Block_try_from data := Err "no blocks"%string;
|}.

Lemma pair_tags_app offset tags tail :
  Forall pair_valid tags ->
  pair_tags offset (encode_all pair_encode tags ++ tail) =
  map Ok tags ++ pair_tags (offset + zlen (encode_all pair_encode tags)) tail.
Proof.
  intros H. revert offset; induction H as [|t tags Ht H IH]; intros offset; cbn [app map].
  - by rewrite Z.add_0_r.
  - rewrite encode_all_cons. destruct t as [| | |[|b [|]]| | | | | |]; try done;
      cbn [pair_encode app pair_tags Z.eqb]; rewrite IH, !zlen_cons; do 3 f_equal; lia.
Qed.

#[global] Instance pair_stream : WebmStream pair_encode pair_valid.
Proof.
  split.
  - intros [| | |[|b [|]]| | | | | |]; done.
  - intros tags H. rewrite <- (app_nil_r (encode_all _ _)). cbn [webm_tags pair_iterable].
    by rewrite pair_tags_app, app_nil_r by done.
  - intros tags tag p q Hts Ht He Hp Hq. exists (UnexpectedEOF (zlen (encode_all pair_encode tags))).
    split; [|by left]. cbn [webm_tags pair_iterable]. rewrite pair_tags_app by done. f_equal.
    destruct p as [|x p]; [done|]. destruct q as [|y q]; [done|].
    destruct tag as [| | |[|b [|]]| | | | | |]; try done; cbn in He;
      destruct p as [|? [|]]; simplify_eq/=; done.
Qed.

