(* ===== verification/Position.v ===== *)
(** * The playback position

    crates/discord-voice-service-playback/src/media/position.rs: how far the
    track has been downloaded (bytes), buffered (milliseconds and samples) and
    sent (samples). *)

From S2P Require Import Prelude OpusQueue WebmDemux.
From stdpp Require Import prelude strings.
Open Scope Z_scope.

Record PlaybackPosition : Type := mkPlaybackPosition {
  pp_byte_offset : Z;
  pp_timestamp_ms : Z;
  pp_timestamp_samples : Z;
  pp_sent_duration_samples : Z;
}.

Definition PlaybackPosition_default : PlaybackPosition := mkPlaybackPosition 0 0 0 0.

Definition sent_duration_ms (p : PlaybackPosition) : Z :=
  duration_ms_from_samples (pp_sent_duration_samples p).

Definition set_byte_offset (p : PlaybackPosition) (byte_offset : Z) : PlaybackPosition :=
  mkPlaybackPosition byte_offset (pp_timestamp_ms p) (pp_timestamp_samples p)
    (pp_sent_duration_samples p).

Definition advance_bytes (p : PlaybackPosition) (bytes : Z) : PlaybackPosition :=
  mkPlaybackPosition (sat_add u64_max (pp_byte_offset p) bytes) (pp_timestamp_ms p)
    (pp_timestamp_samples p) (pp_sent_duration_samples p).

Definition set_timestamp_ms (p : PlaybackPosition) (timestamp_ms : Z) : PlaybackPosition :=
  mkPlaybackPosition (pp_byte_offset p) timestamp_ms
    (Z.max (pp_timestamp_samples p) (sat_mul u64_max timestamp_ms 48))
    (pp_sent_duration_samples p).

Definition advance_timestamp_ms (p : PlaybackPosition) (duration_ms : Z) : PlaybackPosition :=
  let timestamp_ms := sat_add u64_max (pp_timestamp_ms p) duration_ms in
  mkPlaybackPosition (pp_byte_offset p) timestamp_ms
    (Z.max (pp_timestamp_samples p) (sat_mul u64_max timestamp_ms 48))
    (pp_sent_duration_samples p).

Definition packet_end (packet : DemuxedPacket) : Z :=
  sat_add u64_max (dp_timestamp_samples packet) (dp_duration_samples packet).

Definition record_buffered (p : PlaybackPosition) (packet : DemuxedPacket) : PlaybackPosition :=
  let buffered_until_samples := packet_end packet in
  let timestamp_samples := Z.max (pp_timestamp_samples p) buffered_until_samples in
  mkPlaybackPosition (pp_byte_offset p)
    (Z.max (pp_timestamp_ms p) (duration_ms_from_samples timestamp_samples))
    timestamp_samples (pp_sent_duration_samples p).

Definition record_sent_duration_samples (p : PlaybackPosition) (duration_samples : Z)
    : PlaybackPosition :=
  mkPlaybackPosition (pp_byte_offset p) (pp_timestamp_ms p) (pp_timestamp_samples p)
    (sat_add u64_max (pp_sent_duration_samples p) duration_samples).

Definition record_sent_packet_samples (p : PlaybackPosition) (duration_samples : Z)
    : PlaybackPosition :=
  record_sent_duration_samples p duration_samples.

Definition set_sent_duration_samples (p : PlaybackPosition) (sent : Z) : PlaybackPosition :=
  mkPlaybackPosition (pp_byte_offset p) (pp_timestamp_ms p) (pp_timestamp_samples p) sent.

(** ** Invariant *)

(** Every field is a u64, and the sample clock has reached the millisecond
    clock (as far as u64 samples can tell). *)
Record position_ok (p : PlaybackPosition) : Prop := {
  po_bytes : in_uint u64_max (pp_byte_offset p);
  po_ms : in_uint u64_max (pp_timestamp_ms p);
  po_samples : in_uint u64_max (pp_timestamp_samples p);
  po_sent : in_uint u64_max (pp_sent_duration_samples p);
  po_clock : sat_mul u64_max (pp_timestamp_ms p) 48 <= pp_timestamp_samples p;
}.

Inductive position_op : Type :=
| SetByteOffset (n : Z)
| AdvanceBytes (n : Z)
| SetTimestampMs (n : Z)
| AdvanceTimestampMs (n : Z)
| RecordBuffered (packet : DemuxedPacket)
| RecordSent (n : Z)
| SetSent (n : Z).

Definition position_step (p : PlaybackPosition) (o : position_op) : PlaybackPosition :=
  match o with
  | SetByteOffset n => set_byte_offset p n
  | AdvanceBytes n => advance_bytes p n
  | SetTimestampMs n => set_timestamp_ms p n
  | AdvanceTimestampMs n => advance_timestamp_ms p n
  | RecordBuffered packet => record_buffered p packet
  | RecordSent n => record_sent_duration_samples p n
  | SetSent n => set_sent_duration_samples p n
  end.

(** Arguments are values of their Rust types. *)
Definition position_op_ok (o : position_op) : Prop :=
  match o with
  | SetByteOffset n | AdvanceBytes n | SetTimestampMs n | AdvanceTimestampMs n
  | RecordSent n | SetSent n => in_uint u64_max n
  | RecordBuffered packet =>
      in_uint u64_max (dp_timestamp_samples packet) /\
      in_uint u32_max (dp_duration_samples packet)
  end.

(** ** Lemmas *)

Lemma duration_ms_bounds n :
  in_uint u64_max n ->
  in_uint u64_max (duration_ms_from_samples n) /\ duration_ms_from_samples n * 48 <= n.
Proof.
  intros [H1 H2]. unfold duration_ms_from_samples, OPUS_SAMPLE_RATE_HZ, in_uint.
  assert (Hs : 0 <= sat_mul u64_max n 1000 <= n * 1000) by (unfold sat_mul; lia).
  assert (0 <= sat_mul u64_max n 1000 / 48000) by (apply Z.div_pos; lia).
  assert (sat_mul u64_max n 1000 / 48000 * 48000 <= sat_mul u64_max n 1000)
    by (rewrite Z.mul_comm; apply Z.mul_div_le; lia).
  lia.
Qed.

Lemma packet_end_in_uint packet :
  in_uint u64_max (dp_timestamp_samples packet) ->
  in_uint u32_max (dp_duration_samples packet) -> in_uint u64_max (packet_end packet).
Proof. unfold packet_end, sat_add, in_uint. lia. Qed.

Lemma position_step_ok p o : position_ok p -> position_op_ok o -> position_ok (position_step p o).
Proof.
  intros [Hb Hm Hs Ht Hc] Ho. destruct o; cbn in Ho.
  all: unfold in_uint, sat_mul in *.
  5: { destruct Ho as [Hp Hd]. pose proof (packet_end_in_uint packet Hp Hd) as He.
       unfold in_uint in He.
       destruct (duration_ms_bounds (Z.max (pp_timestamp_samples p) (packet_end packet)))
         as [Hn Hle]; [unfold in_uint; lia|].
       unfold in_uint in Hn. split; unfold in_uint, sat_mul; cbn; lia. }
  all: split; unfold in_uint, sat_mul; cbn; unfold sat_add, sat_mul; lia.
Qed.

Lemma position_run_ok p ops :
  position_ok p -> Forall position_op_ok ops -> position_ok (fold_left position_step ops p).
Proof.
  intros Hp Hops. revert p Hp; induction Hops as [|o ops Ho Hops IH]; intros p Hp; [done|].
  by apply IH, position_step_ok.
Qed.

Lemma record_buffered_run packets p :
  pp_timestamp_samples (fold_left record_buffered packets p)
  = fold_left Z.max (map packet_end packets) (pp_timestamp_samples p) /\
  pp_byte_offset (fold_left record_buffered packets p) = pp_byte_offset p /\
  pp_sent_duration_samples (fold_left record_buffered packets p) = pp_sent_duration_samples p.
Proof. revert p; induction packets as [|q packets IH]; intros p; [done|]. apply IH. Qed.

Lemma fold_max_spec l a :
  a <= fold_left Z.max l a /\ (forall x, x ∈ l -> x <= fold_left Z.max l a) /\
  (fold_left Z.max l a = a \/ fold_left Z.max l a ∈ l).
Proof.
  revert a; induction l as [|y l IH]; intros a; cbn.
  - split_and!; [lia|intros x Hx; by apply not_elem_of_nil in Hx|by left].
  - destruct (IH (Z.max a y)) as (H1 & H2 & H3). split_and!; [lia| |].
    + intros x [->|Hx]%elem_of_cons; [lia|by apply H2].
    + destruct H3 as [H3|H3]; [|right; by right].
      rewrite H3. destruct (Z.max_spec a y) as [[_ Hm]|[_ Hm]]; rewrite Hm;
        [right; by left|by left].
Qed.

(** ** Theorems *)

(** The position stays coherent under every operation: all fields remain
    64-bit values, and the sample clock never falls behind the millisecond
    clock (48 samples per millisecond, as far as u64 can hold them), so that a
    resume computed in samples never starts before one computed in
    milliseconds. *)
Theorem position_coherent ops :
  Forall position_op_ok ops ->
  position_ok (fold_left position_step ops PlaybackPosition_default).
Proof.
  intros H. apply position_run_ok; [|done].
  split; vm_compute; intuition discriminate.
Qed.

Lemma position_coherent_witness :
  position_ok (fold_left position_step
    [SetTimestampMs 1000; RecordBuffered (mkDemuxedPacket [1] 1000 48000 20 960); AdvanceBytes 3]
    PlaybackPosition_default).
Proof.
  apply (position_coherent
    [SetTimestampMs 1000; RecordBuffered (mkDemuxedPacket [1] 1000 48000 20 960); AdvanceBytes 3]).
  repeat constructor; vm_compute; intuition discriminate.
Defined.

(** The buffered position is a high-water mark: after any packets, in any
    order, with overlaps after a resume, it is the old position or the end of
    one of the packets, whichever is furthest; the download and sent positions
    do not move. *)
Theorem buffered_high_water_mark packets p :
  let p' := fold_left record_buffered packets p in
  pp_timestamp_samples p <= pp_timestamp_samples p' /\
  (forall q, q ∈ packets -> packet_end q <= pp_timestamp_samples p') /\
  (pp_timestamp_samples p' = pp_timestamp_samples p \/
   exists q, q ∈ packets /\ pp_timestamp_samples p' = packet_end q) /\
  pp_byte_offset p' = pp_byte_offset p /\
  pp_sent_duration_samples p' = pp_sent_duration_samples p.
Proof.
  cbn zeta. destruct (record_buffered_run packets p) as (H1 & H2 & H3). rewrite H1, H2, H3.
  destruct (fold_max_spec (map packet_end packets) (pp_timestamp_samples p)) as (Ha & Hb & Hc).
  split_and!; [done| | |done|done].
  - intros q Hq. apply Hb. apply list_elem_of_fmap. by exists q.
  - destruct Hc as [Hc|Hc]; [by left|right].
    apply list_elem_of_fmap in Hc as (q & Hq & Hin). by exists q.
Qed.
