(* ===== verification/Pacer.v ===== *)
(** * The audio pacer

    crates/discord-voice-service-playback/src/pacer.rs. Instants and durations
    are nanoseconds; the clock readings the code takes with [Instant::now] are
    arguments of the operations. *)

From S2P Require Import Prelude.
From stdpp Require Import prelude.
Open Scope Z_scope.

Definition FRAME_DURATION : Z := 20000000.
Definition SILENCE_FRAME : list Z := [0xF8; 0xFF; 0xFE].
Definition TIMER_WAKEUP_GUARD : Z := 3000000.

Inductive PacedPacketKind : Type := Track | NonTrack.

#[global] Instance PacedPacketKind_eq_dec : EqDecision PacedPacketKind.
Proof. solve_decision. Defined.

Record PacerMark : Type := mkPacerMark {
  pm_media_clock_reset : bool;
  pm_tempo_rebased : bool;
}.

Record AudioPacer : Type := mkAudioPacer {
  ap_ideal_deadline : Z;
  ap_minimum_deadline : Z;
  ap_emitted_frames : Z;
  ap_clock_reset_count : Z;
  ap_tempo_rebase_count : Z;
}.

Definition AudioPacer_new (now : Z) : AudioPacer := mkAudioPacer now now 0 0 0.
Definition starting_after (now delay : Z) : AudioPacer :=
  mkAudioPacer (now + delay) (now + delay) 0 0 0.

Definition next_deadline (p : AudioPacer) : Z :=
  Z.max (ap_ideal_deadline p) (ap_minimum_deadline p).

Definition reset_after_interruption_at (p : AudioPacer) (now next_spacing : Z) : AudioPacer :=
  let deadline := now + next_spacing in
  mkAudioPacer deadline deadline (ap_emitted_frames p) (ap_clock_reset_count p + 1)
    (ap_tempo_rebase_count p).

Definition reset_deadline (p : AudioPacer) (now : Z) : AudioPacer :=
  reset_after_interruption_at p now 0.

(** [checked_duration_since(..).unwrap_or(ZERO)] is the difference clamped at
    zero. *)
Definition mark_sent (p : AudioPacer) (packet_kind : PacedPacketKind)
    (scheduled_deadline duration send_started_at : Z) : AudioPacer * PacerMark :=
  let lateness := Z.max 0 (send_started_at - scheduled_deadline) in
  let media_clock_reset := (0 <? duration) && (duration <=? lateness) in
  let p1 :=
    if media_clock_reset then reset_after_interruption_at p send_started_at duration
    else mkAudioPacer (send_started_at + duration) (send_started_at + duration)
           (ap_emitted_frames p) (ap_clock_reset_count p) (ap_tempo_rebase_count p) in
  let tempo_rebased := media_clock_reset && bool_decide (packet_kind = Track) in
  (mkAudioPacer (ap_ideal_deadline p1) (ap_minimum_deadline p1) (ap_emitted_frames p1 + 1)
     (ap_clock_reset_count p1)
     (if tempo_rebased then ap_tempo_rebase_count p1 + 1 else ap_tempo_rebase_count p1),
   mkPacerMark media_clock_reset tempo_rebased).

Definition mark_emitted (p : AudioPacer) (duration now : Z) : AudioPacer :=
  fst (mark_sent p Track (next_deadline p) duration now).

(** ** Waiting *)

(** The clock as the sleeping task sees it: what it reads on entry, how late
    the guarded timer wakes it, one reading of both clocks per turn of the
    spin loop, and how late the last timer wakes it. *)
Record SleepEnv : Type := mkSleepEnv {
  se_now : Z;
  se_guard_late : Z;
  se_spins : list (Z * Z);
  se_final_late : Z;
}.

Fixpoint spin (deadline spin_budget final_late : Z) (turns : list (Z * Z)) : option Z :=
  match turns with
  | [] => None
  | (now, elapsed) :: rest =>
      if deadline <=? now then Some now
      else if spin_budget <=? elapsed then Some (Z.max now deadline + final_late)
      else spin deadline spin_budget final_late rest
  end.

(** Time after the guarded timer. *)
Definition after_guard (deadline : Z) (env : SleepEnv) : Z :=
  let guarded_deadline := deadline - TIMER_WAKEUP_GUARD in
  if se_now env <? guarded_deadline then guarded_deadline + se_guard_late env else se_now env.

Definition spin_budget_of (deadline : Z) (env : SleepEnv) : Z :=
  Z.max 0 (deadline - after_guard deadline env) + TIMER_WAKEUP_GUARD.

(** The instant at which [sleep_until_precise] returns; [None] while the spin
    loop is still running at the end of the readings. *)
Definition sleep_until_precise (deadline : Z) (env : SleepEnv) : option Z :=
  spin deadline (spin_budget_of deadline env) (se_final_late env) (se_spins env).

(** [wait_until_ready] sleeps to the ideal deadline and, when that is not
    enough, to the effective one. *)
Definition wait_until_ready (p : AudioPacer) (env1 env2 : SleepEnv) : option Z :=
  now ← sleep_until_precise (ap_ideal_deadline p) env1;
  if now <? next_deadline p then sleep_until_precise (next_deadline p) env2 else Some now.

(** [wait_for]: wait, then mark the frame with the clock's next reading. *)
Definition wait_for (p : AudioPacer) (duration delay : Z) (env1 env2 : SleepEnv)
    : option (AudioPacer * Z) :=
  ready ← wait_until_ready p env1 env2;
  Some (mark_emitted p duration (ready + delay), ready + delay).

(** ** A run of sends *)

Record Send : Type := mkSend {
  s_kind : PacedPacketKind;
  s_duration : Z;
  s_started_at : Z;
}.

(** Each packet is scheduled for the deadline the pacer gives and sent at some
    later instant. *)
Fixpoint paced (p : AudioPacer) (sends : list Send) : Prop :=
  match sends with
  | [] => True
  | s :: rest =>
      0 <= s_duration s /\ next_deadline p <= s_started_at s /\
      paced (fst (mark_sent p (s_kind s) (next_deadline p) (s_duration s) (s_started_at s))) rest
  end.

Definition run_sends (p : AudioPacer) (sends : list Send) : AudioPacer :=
  fold_left (fun p s => fst (mark_sent p (s_kind s) (next_deadline p) (s_duration s)
                               (s_started_at s))) sends p.

(** ** Lemmas *)

Lemma mark_sent_deadline p kind sched dur start :
  next_deadline (fst (mark_sent p kind sched dur start)) = start + dur.
Proof. unfold mark_sent, next_deadline. destruct (_ && _); cbn; lia. Qed.

Lemma mark_sent_counts p kind sched dur start :
  let '(p', m) := mark_sent p kind sched dur start in
  ap_emitted_frames p' = ap_emitted_frames p + 1 /\
  ap_clock_reset_count p' = ap_clock_reset_count p + Z.b2z (pm_media_clock_reset m) /\
  ap_tempo_rebase_count p' = ap_tempo_rebase_count p + Z.b2z (pm_tempo_rebased m).
Proof.
  unfold mark_sent. destruct ((0 <? dur) && _); cbn; [destruct (bool_decide _)|]; cbn; lia.
Qed.

Lemma mark_sent_reset_iff p kind sched dur start :
  pm_media_clock_reset (snd (mark_sent p kind sched dur start)) = true <->
  0 < dur /\ sched + dur <= start.
Proof. cbn. rewrite andb_true_iff, Z.ltb_lt, Z.leb_le. lia. Qed.

Lemma paced_app p a b : paced p (a ++ b) <-> paced p a /\ paced (run_sends p a) b.
Proof.
  revert p; induction a as [|s a IH]; intros p; [cbn; tauto|]. cbn [app paced].
  rewrite IH. unfold run_sends. cbn [fold_left]. tauto.
Qed.

Lemma run_sends_snoc p a s :
  next_deadline (run_sends p (a ++ [s])) = s_started_at s + s_duration s.
Proof. unfold run_sends. rewrite fold_left_app. apply mark_sent_deadline. Qed.

Lemma paced_last_after p sends :
  paced p sends -> next_deadline p + sum_by s_duration sends <= next_deadline (run_sends p sends).
Proof.
  revert p; induction sends as [|s sends IH]; intros p; [rewrite sum_by_nil; cbn; lia|].
  intros (Hd & Hs & Hp). apply IH in Hp. rewrite mark_sent_deadline in Hp.
  rewrite sum_by_cons. unfold run_sends in *. cbn [fold_left]. lia.
Qed.

Lemma spin_reaches deadline budget late turns now elapsed :
  0 <= late -> (now, elapsed) ∈ turns -> deadline <= now \/ budget <= elapsed ->
  exists t, spin deadline budget late turns = Some t /\ deadline <= t.
Proof.
  intros Hl. induction turns as [|[n e] turns IH]; intros Hin Hor;
    [by apply not_elem_of_nil in Hin|]. cbn.
  destruct (Z.leb_spec deadline n); [by exists n|].
  destruct (Z.leb_spec budget e); [eexists; split; [done|]; lia|].
  apply elem_of_cons in Hin as [[= -> ->]|Hin]; [lia|by apply IH].
Qed.

(** ** Theorems *)

(** No catch-up bursts: when every packet waits for the pacer's deadline,
    each packet starts at least the duration of the one before after it, also
    across a clock reset; over a whole run the last packet starts no earlier
    than the initial deadline plus the durations of the packets before it. *)
Theorem pacer_never_bursts p before s1 s2 after :
  paced p (before ++ s1 :: s2 :: after) ->
  s_started_at s1 + s_duration s1 <= s_started_at s2 /\
  next_deadline p + sum_by s_duration (before ++ [s1]) <= s_started_at s2.
Proof.
  intros H. change (s1 :: s2 :: after) with ([s1] ++ s2 :: after) in H.
  rewrite app_assoc in H. apply paced_app in H as [H1 (_ & H2 & _)].
  pose proof (paced_last_after _ _ H1) as H3. rewrite run_sends_snoc in H2, H3. lia.
Qed.

Lemma pacer_never_bursts_witness :
  paced (AudioPacer_new 0) [mkSend Track 20 5; mkSend Track 20 100; mkSend NonTrack 20 120] /\
  5 + 20 <= 100.
Proof.
  assert (H : paced (AudioPacer_new 0)
                ([] ++ [mkSend Track 20 5; mkSend Track 20 100; mkSend NonTrack 20 120]))
    by (vm_compute; intuition discriminate).
  split; [exact H|]. exact (proj1 (pacer_never_bursts _ [] _ _ _ H)).
Defined.

(** Lateness accounting: the next deadline is the actual send start plus
    the duration, whatever the lateness; the mark reports a clock reset
    exactly when a packet of positive duration starts a whole duration late,
    and a tempo rebase exactly when that packet is audio of the track; the
    three counters move by what the mark reports. *)
Theorem mark_sent_accounting p kind scheduled duration started :
  let '(p', m) := mark_sent p kind scheduled duration started in
  next_deadline p' = started + duration /\
  (pm_media_clock_reset m = true <-> 0 < duration /\ scheduled + duration <= started) /\
  (pm_tempo_rebased m = true <-> pm_media_clock_reset m = true /\ kind = Track) /\
  ap_emitted_frames p' = ap_emitted_frames p + 1 /\
  ap_clock_reset_count p' = ap_clock_reset_count p + Z.b2z (pm_media_clock_reset m) /\
  ap_tempo_rebase_count p' = ap_tempo_rebase_count p + Z.b2z (pm_tempo_rebased m).
Proof.
  pose proof (mark_sent_deadline p kind scheduled duration started) as H1.
  pose proof (mark_sent_reset_iff p kind scheduled duration started) as H2.
  pose proof (mark_sent_counts p kind scheduled duration started) as H3.
  assert (H4 : pm_tempo_rebased (snd (mark_sent p kind scheduled duration started)) = true <->
    pm_media_clock_reset (snd (mark_sent p kind scheduled duration started)) = true /\ kind = Track)
    by (cbn; by rewrite andb_true_iff, bool_decide_eq_true).
  destruct (mark_sent p kind scheduled duration started) as [p' m]. cbn in *. tauto.
Qed.

(** The wait ends and never ends early: if the spin loop of each sleep
    eventually reads either a clock past its deadline or its spin budget used
    up, then [wait_until_ready] returns, at an instant that is not before the
    pacer's deadline. *)
Theorem wait_until_ready_after_deadline p env1 env2 n1 e1 n2 e2 :
  0 <= se_final_late env1 -> 0 <= se_final_late env2 ->
  (n1, e1) ∈ se_spins env1 -> (n2, e2) ∈ se_spins env2 ->
  ap_ideal_deadline p <= n1 \/ spin_budget_of (ap_ideal_deadline p) env1 <= e1 ->
  next_deadline p <= n2 \/ spin_budget_of (next_deadline p) env2 <= e2 ->
  exists t, wait_until_ready p env1 env2 = Some t /\ next_deadline p <= t.
Proof.
  intros Hl1 Hl2 Hin1 Hin2 H1 H2. unfold wait_until_ready, sleep_until_precise.
  destruct (spin_reaches _ _ _ _ _ _ Hl1 Hin1 H1) as (t1 & -> & Ht1). cbn.
  destruct (Z.ltb_spec t1 (next_deadline p)); [|by exists t1].
  by destruct (spin_reaches _ _ _ _ _ _ Hl2 Hin2 H2) as (t2 & -> & Ht2); exists t2.
Qed.

(** Ideal 10 ms, minimum 12 ms: the first sleep spins past 10 ms, the second
    runs out of its budget and falls back to the timer. *)
Lemma wait_until_ready_after_deadline_witness :
  exists t, wait_until_ready (mkAudioPacer 10000000 12000000 0 0 0)
    (mkSleepEnv 0 0 [(9000000, 0); (10000001, 1000000)] 0)
    (mkSleepEnv 10000001 0 [(10000001, 0); (10000001, 5000000)] 7) = Some t /\ 12000000 <= t.
Proof.
  apply (wait_until_ready_after_deadline (mkAudioPacer 10000000 12000000 0 0 0)
    (mkSleepEnv 0 0 [(9000000, 0); (10000001, 1000000)] 0)
    (mkSleepEnv 10000001 0 [(10000001, 0); (10000001, 5000000)] 7)
    10000001 1000000 10000001 5000000).
  - vm_compute; discriminate.
  - vm_compute; discriminate.
  - right; left.
  - right; left.
  - left; vm_compute; discriminate.
  - right; vm_compute; discriminate.
Defined.
