(* ===== verification/Selector.v ===== *)
(** * Choice of the audio stream

    crates/discord-voice-service-playback/src/selector.rs and the part of
    ytmusic_client.rs that turns a song into a playable URL. [SongStreamFormat]
    has the fields the service reads; the music and cipher services are
    answers the environment gives. *)

From S2P Require Import Prelude OpusQueue.
From stdpp Require Import prelude strings.
From Stdlib Require Import Ascii.
Open Scope Z_scope.

Record SongStreamFormat : Type := mkSongStreamFormat {
  sf_itag : Z;
  sf_mime_type : string;
  sf_bitrate : Z;
  sf_audio_sample_rate : option Z;
  sf_audio_channels : option Z;
  sf_signature_cipher : string;
  sf_approx_duration_ms : option Z;
}.

(** [audio/webm; codecs="opus"], with its double quotes (ASCII 34). *)
Definition opus_webm_mime_type : string :=
  ("audio/webm; codecs=" +:+ String "034" "opus" +:+ String "034" "")%string.

Definition is_allowed (f : SongStreamFormat) : bool :=
  String.eqb (sf_mime_type f) opus_webm_mime_type &&
  bool_decide (sf_audio_sample_rate f = Some 48000) &&
  bool_decide (sf_audio_channels f = Some 2) &&
  ((sf_itag f =? 250) || (sf_itag f =? 249) || (sf_bitrate f <? 50000)).

Definition priority_for_itag (itag : Z) : Z :=
  if itag =? 250 then 0 else if itag =? 249 then 1 else 2.

(** The key [(priority_for_itag(itag), Reverse(bitrate))], compared
    lexicographically. *)
Definition key_le (f g : SongStreamFormat) : bool :=
  let pf := priority_for_itag (sf_itag f) in
  let pg := priority_for_itag (sf_itag g) in
  (pf <? pg) || ((pf =? pg) && (sf_bitrate g <=? sf_bitrate f)).

(** [sort_by_key] is a stable sort; the result of a stable sort is unique, and
    this is the one by insertion. *)
Fixpoint insert_by_key (f : SongStreamFormat) (l : list SongStreamFormat)
    : list SongStreamFormat :=
  match l with
  | [] => [f]
  | g :: rest => if key_le f g then f :: l else g :: insert_by_key f rest
  end.
Definition sort_by_key (l : list SongStreamFormat) : list SongStreamFormat :=
  foldr insert_by_key [] l.

Definition select_song_stream_format (formats : list SongStreamFormat)
    : presult SongStreamFormat :=
  let allowed := List.filter is_allowed formats in
  ok_or (head (sort_by_key allowed)) UnsupportedFormat.

(** ** Resolving a song *)

Record ResolvedPlaybackSource : Type := mkResolvedPlaybackSource {
  rps_selected_itag : Z;
  rps_playable_url : string;
  rps_approx_duration_ms : option Z;
}.

(** The answer to [GetSong]: the adaptive formats, when there is streaming
    data, and the length in seconds, when there are video details. *)
Record SongResponse : Type := mkSongResponse {
  song_adaptive_formats : option (list SongStreamFormat);
  song_length_seconds : option Z;
}.

(** What the two services answer to one resolution. *)
Record YtMusicAnswer : Type := mkYtMusicAnswer {
  yt_get_song : string -> presult SongResponse;
  yt_decipher : string -> presult string;
}.

Definition resolve_playback_source (yt : YtMusicAnswer) (video_id : string)
    : presult ResolvedPlaybackSource :=
  song ← yt_get_song yt video_id;
  formats ← ok_or (song_adaptive_formats song) UnsupportedFormat;
  selected ← select_song_stream_format formats;
  let approx_duration_ms :=
    match sf_approx_duration_ms selected with
    | Some ms => Some ms
    | None =>
        length_seconds ← song_length_seconds song;
        if 0 <? length_seconds then Some (length_seconds * 1000) else None
    end in
  playable_url ← yt_decipher yt (sf_signature_cipher selected);
  Ok (mkResolvedPlaybackSource (sf_itag selected) playable_url approx_duration_ms).

(** ** Lemmas *)

Lemma key_le_total f g : key_le f g = false -> key_le g f = true.
Proof.
  unfold key_le. rewrite orb_false_iff, andb_false_iff, orb_true_iff, andb_true_iff.
  rewrite !Z.ltb_ge, !Z.ltb_lt, Z.eqb_neq, Z.eqb_eq, Z.leb_gt, Z.leb_le. lia.
Qed.

Lemma key_le_trans f g h : key_le f g = true -> key_le g h = true -> key_le f h = true.
Proof.
  unfold key_le. rewrite !orb_true_iff, !andb_true_iff, !Z.ltb_lt, !Z.eqb_eq, !Z.leb_le. lia.
Qed.

Lemma key_le_refl f : key_le f f = true.
Proof. unfold key_le. rewrite orb_true_iff, andb_true_iff, Z.eqb_eq, Z.leb_le. lia. Qed.

Lemma sort_by_key_head_cons f l :
  head (sort_by_key (f :: l)) =
  match head (sort_by_key l) with
  | None => Some f
  | Some g => if key_le f g then Some f else Some g
  end.
Proof.
  change (sort_by_key (f :: l)) with (insert_by_key f (sort_by_key l)).
  destruct (sort_by_key l) as [|g r]; [done|]. cbn. by destruct (key_le f g).
Qed.

(** [f] is the first of the formats with the best key. *)
Definition first_best (f : SongStreamFormat) (l : list SongStreamFormat) : Prop :=
  exists pre post, l = pre ++ f :: post /\
    Forall (fun g => key_le g f = false) pre /\ Forall (fun g => key_le f g = true) post.

Lemma sort_by_key_head l f : head (sort_by_key l) = Some f -> first_best f l.
Proof.
  revert f; induction l as [|x l IH]; intros f; [done|]. rewrite sort_by_key_head_cons.
  destruct (head (sort_by_key l)) as [g|] eqn:E.
  - destruct (IH g eq_refl) as (pre & post & Hl & Hpre & Hpost).
    destruct (key_le x g) eqn:Hx; intros [= <-].
    + exists [], l. split_and!; [done|constructor|]. rewrite Hl.
      apply Forall_app. split; [|constructor; [done|]].
      * eapply Forall_impl; [exact Hpre|]. intros h Hh. by eapply key_le_trans, key_le_total.
      * eapply Forall_impl; [exact Hpost|]. intros h Hh. by eapply key_le_trans.
    + exists (x :: pre), post. split_and!; [by rewrite Hl|by constructor|done].
  - intros [= <-]. exists [], l. split_and!; [done|constructor|].
    destruct l as [|y l]; [constructor|]. rewrite sort_by_key_head_cons in E.
    destruct (head (sort_by_key l)) as [g|]; [destruct (key_le y g)|]; done.
Qed.

Lemma sort_by_key_empty l : head (sort_by_key l) = None <-> l = [].
Proof.
  destruct l as [|x l]; [done|]. rewrite sort_by_key_head_cons.
  destruct (head (sort_by_key l)) as [g|]; [destruct (key_le x g)|]; done.
Qed.

(** ** Theorems *)

(** Stream choice: the selected format is one of the offered ones, is
    48 kHz stereo Opus in WebM within the bitrate rule, and is the first among
    the allowed ones with the best key (itag 250, then 249, then the highest
    bitrate); selection fails only when no offered format is allowed. *)
Theorem select_song_stream_format_spec formats :
  match select_song_stream_format formats with
  | Ok f => f ∈ formats /\ is_allowed f = true /\ first_best f (List.filter is_allowed formats)
  | Err e => e = UnsupportedFormat /\ Forall (fun f => is_allowed f = false) formats
  | Panic => False
  end.
Proof.
  unfold select_song_stream_format.
  destruct (head (sort_by_key (List.filter is_allowed formats))) as [f|] eqn:E; cbn.
  - apply sort_by_key_head in E. destruct (E) as (pre & post & Hl & _).
    assert (Hin : In f (List.filter is_allowed formats))
      by (rewrite Hl; apply in_or_app; right; by left).
    apply List.filter_In in Hin as [Hin Ha]. split_and!; [by apply list_elem_of_In|done|done].
  - split; [done|]. apply sort_by_key_empty in E. apply Forall_forall. intros f Hf.
    destruct (is_allowed f) eqn:Ha; [|done].
    assert (Hin : In f (List.filter is_allowed formats))
      by (apply List.filter_In; by split; [apply list_elem_of_In|]).
    by rewrite E in Hin.
Qed.
