(* ===== verification/Normalizer.v ===== *)
(** * The Opus frame normalizer

    crates/discord-voice-service-playback/src/media/opus_normalizer.rs: packets
    of any duration and channel count become 20 ms stereo frames. 20 ms stereo
    packets pass through unchanged while no PCM is pending; anything else is
    decoded, buffered and encoded again in blocks of 960 samples. The codec of
    the opus_rs crate is the class [OpusCodec]. *)

From S2P Require Import Prelude Text OpusQueue WebmDemux.
From stdpp Require Import prelude strings.
Open Scope Z_scope.

Definition DISCORD_FRAME_SAMPLES : Z := 960.
Definition DISCORD_FRAME_MS : Z := 20.
Definition DISCORD_CHANNELS : Z := 2.
Definition MAX_ENCODED_PACKET_BYTES : Z := 1500.

(** 960 samples of 2 channels: [frame_values] in the code. *)
Definition frame_values : Z := sat_mul usize_max DISCORD_FRAME_SAMPLES DISCORD_CHANNELS.

(** The decoder and encoder of opus_rs. [decode] fills the PCM slice it is
    given and returns the samples per channel; [encode] writes into the byte
    slice it is given and returns the length. *)
Class OpusCodec : Type := {
  Sample : Type;
  silence : Sample;
  Decoder : Type;
  Encoder : Type;
  decoder_new : Z -> result string Decoder;
  decode : Decoder -> list Z -> Z -> list Sample -> Decoder * list Sample * result string Z;
  encoder_new : result string Encoder;
  encode : Encoder -> list Sample -> Z -> list Z -> Encoder * list Z * result string Z;
}.

(** A [&mut] slice keeps its length; an encoded packet fits the buffer. *)
Class OpusCodecLaws `{OpusCodec} : Prop := {
  decode_len dec data n pcm : length (snd (fst (decode dec data n pcm))) = length pcm;
  encode_buf_len enc pcm n buf : length (snd (fst (encode enc pcm n buf))) = length buf;
  encode_fits enc pcm n buf k : snd (encode enc pcm n buf) = Ok k -> 0 <= k <= zlen buf;
}.

Definition opus_packet_channels (packet : list Z) : option Z :=
  toc ← packet !! 0%nat;
  Some (if negb (Z.land toc 0x04 =? 0) then 2 else 1).

Definition is_discord_passthrough_packet (packet : DemuxedPacket) : bool :=
  (dp_duration_samples packet =? DISCORD_FRAME_SAMPLES) &&
  bool_decide (opus_packet_channels (dp_data packet) = Some DISCORD_CHANNELS).

(** A 20 ms frame at a source position. *)
Definition discord_frame (data : list Z) (source_position_samples : Z) : OpusFrame :=
  with_exact_metadata (with_duration_samples data DISCORD_FRAME_MS DISCORD_FRAME_SAMPLES)
    (duration_ms_from_samples source_position_samples) source_position_samples None 0.

Section Normalizer.
Context `{C : OpusCodec}.

Record DiscordOpusFrameNormalizer : Type := mkNormalizer {
  n_mono_decoder : option Decoder;
  n_stereo_decoder : option Decoder;
  n_encoder : option Encoder;
  n_pending_pcm : list Sample;
  n_next_output_position_samples : option Z;
  n_encode_buffer : list Z;
}.

Definition DiscordOpusFrameNormalizer_new : DiscordOpusFrameNormalizer :=
  mkNormalizer None None None [] None (repeat 0 (Z.to_nat MAX_ENCODED_PACKET_BYTES)).

Abbreviation nstm := (stm DiscordOpusFrameNormalizer PlaybackError).

Definition set_pending (l : list Sample) (n : DiscordOpusFrameNormalizer) :=
  mkNormalizer (n_mono_decoder n) (n_stereo_decoder n) (n_encoder n) l
    (n_next_output_position_samples n) (n_encode_buffer n).
Definition set_next (p : option Z) (n : DiscordOpusFrameNormalizer) :=
  mkNormalizer (n_mono_decoder n) (n_stereo_decoder n) (n_encoder n) (n_pending_pcm n)
    p (n_encode_buffer n).
Definition set_encoder (e : Encoder) (n : DiscordOpusFrameNormalizer) :=
  mkNormalizer (n_mono_decoder n) (n_stereo_decoder n) (Some e) (n_pending_pcm n)
    (n_next_output_position_samples n) (n_encode_buffer n).
Definition set_encode_buffer (b : list Z) (n : DiscordOpusFrameNormalizer) :=
  mkNormalizer (n_mono_decoder n) (n_stereo_decoder n) (n_encoder n) (n_pending_pcm n)
    (n_next_output_position_samples n) b.
Definition set_decoder (channels : Z) (d : Decoder) (n : DiscordOpusFrameNormalizer) :=
  if channels =? 1
  then mkNormalizer (Some d) (n_stereo_decoder n) (n_encoder n) (n_pending_pcm n)
         (n_next_output_position_samples n) (n_encode_buffer n)
  else mkNormalizer (n_mono_decoder n) (Some d) (n_encoder n) (n_pending_pcm n)
         (n_next_output_position_samples n) (n_encode_buffer n).

Definition unsupported_layout : PlaybackError := MediaParse "unsupported opus channel layout".

Definition decoder_for_channels (channels : Z) : nstm Decoder :=
  if negb ((channels =? 1) || (channels =? 2)) then fail unsupported_layout
  else
    decoder ← gets (if channels =? 1 then n_mono_decoder else n_stereo_decoder);
    match decoder with
    | Some d => mret d
    | None =>
        d ← lift (map_err (fun e => MediaParseDetail ("create opus decoder: " +:+ e))
                    (decoder_new channels));
        _ ← modify (set_decoder channels d);
        mret d
    end.

(** [next_output_position_samples] is set by the first packet. *)
Definition start_position (packet : DemuxedPacket) (n : DiscordOpusFrameNormalizer) :=
  match n_next_output_position_samples n with
  | None => set_next (Some (dp_timestamp_samples packet)) n
  | Some _ => n
  end.

(** Mono samples are played on both channels. *)
Definition to_stereo (channels : Z) (pcm : list Sample) : list Sample :=
  if channels =? 1 then concat (map (fun s => [s; s]) pcm) else pcm.

Definition decode_packet (packet : DemuxedPacket) : nstm unit :=
  channels ← lift (ok_or (opus_packet_channels (dp_data packet)) unsupported_layout);
  let frame_samples := dp_duration_samples packet in
  if frame_samples =? 0 then fail (MediaParse "opus packet duration is zero")
  else
    _ ← modify (start_position packet);
    let pcm := repeat silence (Z.to_nat (sat_mul usize_max frame_samples channels)) in
    dec ← decoder_for_channels channels;
    let '(dec', pcm', r) := decode dec (dp_data packet) frame_samples pcm in
    _ ← modify (set_decoder channels dec');
    decoded_samples ← lift (map_err (fun e => MediaParseDetail ("decode opus packet: " +:+ e)) r);
    if negb (decoded_samples =? frame_samples)
    then fail (MediaParseDetail ("decoded opus packet returned " +:+ u64_to_string decoded_samples
            +:+ " samples; expected " +:+ u64_to_string frame_samples))
    else modify (fun n => set_pending (n_pending_pcm n ++ to_stereo channels pcm') n).

Definition ensure_encoder : nstm unit :=
  encoder ← gets n_encoder;
  match encoder with
  | Some _ => mret tt
  | None =>
      e ← lift (map_err (fun e => MediaParseDetail ("create opus encoder: " +:+ e)) encoder_new);
      modify (set_encoder e)
  end.

(** One turn of the [while] loop: encode the first block, give the frame its
    position, drop the block. *)
Definition emit_frame : nstm OpusFrame :=
  n ← gets id;
  pcm ← lift (slice_to (n_pending_pcm n) frame_values);
  encoder ← lift (ok_or (n_encoder n) (PInvalidState "opus normalizer encoder missing"));
  let '(encoder', buffer, r) := encode encoder pcm DISCORD_FRAME_SAMPLES (n_encode_buffer n) in
  _ ← modify (fun n => set_encode_buffer buffer (set_encoder encoder' n));
  encoded_len ← lift (map_err (fun e => MediaParseDetail ("encode discord opus frame: " +:+ e)) r);
  packet ← lift (slice_to buffer encoded_len);
  let source_position_samples := default 0 (n_next_output_position_samples n) in
  _ ← modify (fun n =>
        set_pending (drop (Z.to_nat frame_values) (n_pending_pcm n))
          (set_next (Some (sat_add u64_max source_position_samples DISCORD_FRAME_SAMPLES)) n));
  mret (discord_frame packet source_position_samples).

(** The loop; a turn drops a whole block, so the length of the pending PCM is
    fuel enough. On an error the frames already encoded are lost. *)
Fixpoint emit_frames (fuel : nat) : nstm (list OpusFrame) :=
  pending ← gets n_pending_pcm;
  if zlen pending <? frame_values then mret []
  else match fuel with
       | O => lift Panic
       | S fuel' => frame ← emit_frame; frames ← emit_frames fuel'; mret (frame :: frames)
       end.

Definition emit_ready_frames : nstm (list OpusFrame) :=
  _ ← ensure_encoder;
  pending ← gets n_pending_pcm;
  emit_frames (length pending).

Definition push_packet (packet : DemuxedPacket) : nstm (list OpusFrame) :=
  _ ← modify (start_position packet);
  n ← gets id;
  if bool_decide (n_pending_pcm n = []) && is_discord_passthrough_packet packet then
    let source_position_samples :=
      default (dp_timestamp_samples packet) (n_next_output_position_samples n) in
    _ ← modify (set_next (Some (sat_add u64_max source_position_samples
                                  (dp_duration_samples packet))));
    mret [discord_frame (dp_data packet) source_position_samples]
  else
    _ ← decode_packet packet;
    emit_ready_frames.

(** [Vec::resize]: truncates or pads. *)
Definition resize (l : list Sample) (n : Z) : list Sample :=
  take (Z.to_nat n) l ++ repeat silence (Z.to_nat n - length l)%nat.

Definition flush : nstm (list OpusFrame) :=
  n ← gets id;
  if bool_decide (n_pending_pcm n = []) then mret []
  else
    _ ← modify (set_pending (resize (n_pending_pcm n) frame_values));
    emit_ready_frames.

(** A whole track: every packet, then the flush at the end of the stream. *)
Fixpoint normalize (packets : list DemuxedPacket) : nstm (list OpusFrame) :=
  match packets with
  | [] => flush
  | packet :: rest =>
      frames ← push_packet packet;
      more ← normalize rest;
      mret (frames ++ more)
  end.

(** ** Lemmas *)

(** Frames of 960 samples one after the other from [pos]. *)
Fixpoint on_grid (pos : Z) (frames : list OpusFrame) : Prop :=
  match frames with
  | [] => True
  | f :: rest =>
      f = discord_frame (of_data f) pos /\
      on_grid (sat_add u64_max pos DISCORD_FRAME_SAMPLES) rest
  end.

Definition grid_end (pos : Z) (frames : list OpusFrame) : Z :=
  sat_add u64_max pos (DISCORD_FRAME_SAMPLES * zlen frames).

Lemma frame_values_eq : frame_values = 1920.
Proof. reflexivity. Qed.

Lemma grid_end_nil pos : pos <= u64_max -> grid_end pos [] = pos.
Proof. apply sat_add_0. Qed.

Lemma grid_end_cons pos f frames :
  grid_end (sat_add u64_max pos DISCORD_FRAME_SAMPLES) frames = grid_end pos (f :: frames).
Proof.
  unfold grid_end. rewrite zlen_cons. pose proof (zlen_nonneg frames).
  unfold sat_add, DISCORD_FRAME_SAMPLES. lia.
Qed.

Lemma on_grid_app pos a b : pos <= u64_max ->
  on_grid pos (a ++ b) <-> on_grid pos a /\ on_grid (grid_end pos a) b.
Proof.
  revert pos; induction a as [|f a IH]; intros pos Hp; cbn [app on_grid].
  - rewrite grid_end_nil by done. tauto.
  - rewrite IH, (grid_end_cons pos f) by (unfold sat_add; lia). tauto.
Qed.

Lemma grid_end_app pos a b : grid_end (grid_end pos a) b = grid_end pos (a ++ b).
Proof.
  unfold grid_end. rewrite zlen_app. pose proof (zlen_nonneg a). pose proof (zlen_nonneg b).
  unfold sat_add, DISCORD_FRAME_SAMPLES. lia.
Qed.

Lemma emit_frame_ok n n' f :
  emit_frame n = (n', Ok f) ->
  let pos := default 0 (n_next_output_position_samples n) in
  1920 <= zlen (n_pending_pcm n) /\
  n_pending_pcm n' = drop 1920 (n_pending_pcm n) /\
  n_next_output_position_samples n' = Some (sat_add u64_max pos DISCORD_FRAME_SAMPLES) /\
  f = discord_frame (of_data f) pos.
Proof.
  unfold emit_frame. intros H. inv_stm.
  match goal with H : slice_to _ frame_values = Ok _ |- _ => rename H into Hs end.
  unfold slice_to in Hs. destruct (_ && _) eqn:Hb in Hs; [|done].
  apply andb_true_iff in Hb as [_ Hb]. apply Z.leb_le in Hb. rewrite frame_values_eq in Hb.
  destruct (encode _ _ _ _) as [[e' buf] r] in H. inv_stm. by cbn.
Qed.

Lemma emit_frames_ok fuel n n' fs :
  emit_frames fuel n = (n', Ok fs) ->
  default 0 (n_next_output_position_samples n) <= u64_max ->
  let pos := default 0 (n_next_output_position_samples n) in
  on_grid pos fs /\ zlen (n_pending_pcm n') < 1920 /\
  zlen (n_pending_pcm n') + 1920 * zlen fs = zlen (n_pending_pcm n) /\
  (is_Some (n_next_output_position_samples n) ->
   n_next_output_position_samples n' = Some (grid_end pos fs)).
Proof.
  revert n fs; induction fuel as [|fuel IH]; intros n fs H Hp; cbn [emit_frames] in H;
    inv_stm; rewrite frame_values_eq in *; zcase; inv_stm; cbn zeta.
  1,2: split; [done|]; split; [done|]; split; [rewrite (@zlen_nil OpusFrame); lia|];
       intros [p Hs]; rewrite Hs in Hp |- *; cbn in Hp |- *; by rewrite grid_end_nil.
  match goal with H : emit_frame _ = _ |- _ =>
    apply emit_frame_ok in H as (Hlen & Hpend & Hnext & Hf) end.
  match goal with H : emit_frames _ _ = _ |- _ => apply IH in H as (G1 & G2 & G3 & G4) end;
    rewrite Hnext in *; [|cbn; unfold sat_add; lia].
  split; [by split|]. split; [done|]. split.
  - rewrite Hpend, (zlen_drop _ 1920) in G3 by lia. rewrite zlen_cons. lia.
  - intros _. rewrite G4 by done. apply f_equal, grid_end_cons.
Qed.

Lemma ensure_encoder_ok n n' :
  ensure_encoder n = (n', Ok tt) ->
  n_pending_pcm n' = n_pending_pcm n /\
  n_next_output_position_samples n' = n_next_output_position_samples n.
Proof.
  unfold ensure_encoder. intros H. inv_stm.
  match goal with H : context [n_encoder ?x] |- _ => destruct (n_encoder x) end; by inv_stm.
Qed.

(** What a successful call guarantees: frames on the grid from [pos], the
    grid's end as next position, less than a block left, and [samples] more
    samples accounted for. *)
Definition emitted (n n' : DiscordOpusFrameNormalizer) (pos samples : Z) (fs : list OpusFrame)
    : Prop :=
  on_grid pos fs /\ zlen (n_pending_pcm n') < 1920 /\
  zlen (n_pending_pcm n') + 1920 * zlen fs = zlen (n_pending_pcm n) + 2 * samples /\
  n_next_output_position_samples n' = Some (grid_end pos fs).

Lemma emit_ready_frames_ok n n' fs pos :
  emit_ready_frames n = (n', Ok fs) -> n_next_output_position_samples n = Some pos ->
  pos <= u64_max -> emitted n n' pos 0 fs.
Proof.
  unfold emit_ready_frames. intros H Hn Hp. inv_stm.
  match goal with H : ensure_encoder _ = (_, Ok ?u) |- _ =>
    destruct u; apply ensure_encoder_ok in H as [He1 He2] end.
  rewrite <- He2 in Hn.
  match goal with H : emit_frames _ _ = _ |- _ => apply emit_frames_ok in H as (G1 & G2 & G3 & G4) end;
    rewrite Hn in *; cbn [default] in *; [|done].
  split; [done|]. split; [done|]. split; [rewrite <- He1; lia|by apply G4].
Qed.

Context `{L : !OpusCodecLaws}.

Lemma decoder_for_channels_ok channels n n' d :
  decoder_for_channels channels n = (n', Ok d) ->
  n_pending_pcm n' = n_pending_pcm n /\
  n_next_output_position_samples n' = n_next_output_position_samples n /\
  (channels = 1 \/ channels = 2).
Proof.
  unfold decoder_for_channels. destruct (Z.eqb_spec channels 1); cbn [orb negb];
    [|destruct (Z.eqb_spec channels 2); cbn [negb]]; intros H; inv_stm.
  all: match type of H with context [match ?o with _ => _ end] => destruct o end; inv_stm.
  all: split_and!; try tauto; unfold set_decoder; by destruct (channels =? 1).
Qed.

Lemma to_stereo_len channels (pcm : list Sample) samples :
  (channels = 1 \/ channels = 2) -> zlen pcm = samples * channels ->
  zlen (to_stereo channels pcm) = 2 * samples.
Proof.
  unfold to_stereo. intros [->| ->] H; cbn [Z.eqb Pos.eqb]; [|lia].
  replace samples with (zlen pcm) by lia. clear H.
  induction pcm as [|s pcm IH]; [done|]. cbn [map concat app]. rewrite !zlen_cons, IH. lia.
Qed.

Lemma start_position_spec packet n :
  n_pending_pcm (start_position packet n) = n_pending_pcm n /\
  n_next_output_position_samples (start_position packet n)
  = Some (default (dp_timestamp_samples packet) (n_next_output_position_samples n)).
Proof.
  unfold start_position. destruct (n_next_output_position_samples n) eqn:E; cbn; by rewrite ?E.
Qed.

Lemma decode_packet_ok packet n n' :
  in_uint u32_max (dp_duration_samples packet) ->
  decode_packet packet n = (n', Ok tt) ->
  n_next_output_position_samples n'
  = Some (default (dp_timestamp_samples packet) (n_next_output_position_samples n)) /\
  zlen (n_pending_pcm n') = zlen (n_pending_pcm n) + 2 * dp_duration_samples packet.
Proof.
  intros Hd H. unfold decode_packet in H. inv_stm. zcase; [done|]. inv_stm.
  match goal with H : decoder_for_channels ?c _ = (_, Ok ?d) |- _ =>
    apply decoder_for_channels_ok in H as (E1 & E2 & Hc); rename d into dec, c into ch end.
  pose proof (decode_len dec (dp_data packet) (dp_duration_samples packet)
    (repeat silence (Z.to_nat (sat_mul usize_max (dp_duration_samples packet) ch)))) as Hlen.
  destruct (decode _ _ _ _) as [[dec' pcm'] r] in H, Hlen. cbn in Hlen.
  inv_stm. destruct (negb _) in H; [done|]. inv_stm.
  set (m := set_decoder _ _ _) in *.
  match type of E1 with _ = n_pending_pcm (start_position _ ?s) => rename s into st end.
  assert (Hm1 : n_pending_pcm m = n_pending_pcm st /\
    n_next_output_position_samples m
    = Some (default (dp_timestamp_samples packet) (n_next_output_position_samples st))).
  { destruct (start_position_spec packet st) as [Hs1 Hs2]. rewrite <- E1 in Hs1.
    rewrite <- E2 in Hs2. subst m. unfold set_decoder. by destruct (ch =? 1). }
  destruct Hm1 as [Hm1 Hm2]. cbn. split; [done|]. rewrite zlen_app, Hm1.
  rewrite (to_stereo_len ch pcm' (dp_duration_samples packet)); [done|done|].
  unfold zlen. rewrite Hlen, repeat_length. destruct Hd.
  rewrite sat_mul_exact by (unfold usize_max, u64_max; unfold u32_max in *; lia). lia.
Qed.

Lemma push_packet_ok packet n n' fs :
  in_uint u32_max (dp_duration_samples packet) ->
  default (dp_timestamp_samples packet) (n_next_output_position_samples n) <= u64_max ->
  push_packet packet n = (n', Ok fs) ->
  emitted n n' (default (dp_timestamp_samples packet) (n_next_output_position_samples n))
    (dp_duration_samples packet) fs.
Proof.
  intros Hd Hp H. unfold push_packet in H. inv_stm.
  match type of H with context [start_position _ ?s] => rename s into st end.
  destruct (start_position_spec packet st) as [Hs1 Hs2].
  destruct (bool_decide _ && _) eqn:Hb in H; inv_stm; rewrite ?Hs1, ?Hs2 in *; cbn [id] in *.
  - apply andb_true_iff in Hb as [Hb1%bool_decide_eq_true Hb2].
    unfold is_discord_passthrough_packet in Hb2. apply andb_true_iff in Hb2 as [Hb2%Z.eqb_eq _].
    unfold id in *. rewrite ?Hs1, ?Hs2 in *. cbn [default] in *. rewrite Hb2.
    split; [by split|]. cbn. rewrite Hs1, Hb1. split; [done|]. split; [done|].
    by unfold grid_end.
  - match goal with H : decode_packet _ _ = (_, Ok ?u) |- _ =>
      destruct u; apply decode_packet_ok in H as [G1 G2]; [|done] end.
    rewrite Hs2 in G1. rewrite Hs1 in G2. cbn [default] in G1.
    match goal with H : emit_ready_frames _ = _ |- _ =>
      apply (emit_ready_frames_ok _ _ _ _ H) in G1 as (K1 & K2 & K3 & K4); [|done] end.
    split; [done|]. split; [done|]. split; [lia|done].
Qed.

Lemma resize_len l : zlen (resize l frame_values) = 1920.
Proof.
  unfold resize. rewrite frame_values_eq. unfold zlen.
  rewrite length_app, length_take, repeat_length. lia.
Qed.

(** Flushing pads the last block. *)
Lemma flush_ok n n' fs pos :
  zlen (n_pending_pcm n) < 1920 -> n_next_output_position_samples n = Some pos ->
  pos <= u64_max -> flush n = (n', Ok fs) ->
  on_grid pos fs /\ n_pending_pcm n' = [] /\
  zlen fs = (if bool_decide (n_pending_pcm n = []) then 0 else 1).
Proof.
  intros Hlen Hn Hp H. unfold flush in H. inv_stm. unfold id in *.
  case_bool_decide as He; inv_stm; [done|].
  match goal with H : emit_ready_frames _ = _ |- _ =>
    apply (emit_ready_frames_ok _ _ _ pos) in H as (K1 & K2 & K3 & _); [|done|done] end.
  cbn [n_pending_pcm set_pending] in K3.
  rewrite resize_len in K3. pose proof (zlen_nonneg (n_pending_pcm n')).
  split; [done|]. assert (zlen fs = 1) by lia.
  split; [|done]. apply length_zero_iff_nil. unfold zlen in *. lia.
Qed.

Lemma grid_end_le pos fs : grid_end pos fs <= u64_max.
Proof. unfold grid_end, sat_add. lia. Qed.

Lemma normalize_ok packets n n' fs pos :
  Forall (fun p => in_uint u32_max (dp_duration_samples p)) packets ->
  zlen (n_pending_pcm n) < 1920 -> n_next_output_position_samples n = Some pos ->
  pos <= u64_max -> normalize packets n = (n', Ok fs) ->
  on_grid pos fs /\ n_pending_pcm n' = [] /\
  (let total := zlen (n_pending_pcm n) + 2 * sum_by dp_duration_samples packets in
   1920 * (zlen fs - 1) < total <= 1920 * zlen fs).
Proof.
  intros Hd. revert n fs pos; induction Hd as [|p packets Hp Hd IH]; intros n fs pos Hlen Hn Hpos H.
  - destruct (flush_ok n n' fs pos Hlen Hn Hpos H) as (G1 & G2 & G3).
    split; [done|]. split; [done|]. cbn zeta. rewrite sum_by_nil, G3.
    case_bool_decide as Hb; [rewrite Hb; unfold zlen; cbn [length]; lia|].
    assert (0 < zlen (n_pending_pcm n)); [|lia].
    destruct (n_pending_pcm n) as [|s l]; [done|]. rewrite zlen_cons. pose proof (zlen_nonneg l). lia.
  - cbn [normalize] in H. inv_stm.
    match goal with H : push_packet _ ?s = _ |- _ => rename s into st;
      apply push_packet_ok in H; rewrite ?Hn in *; cbn [default] in *;
      [destruct H as (G1 & G2 & G3 & G4)|done|done] end.
    match goal with H : normalize _ _ = _ |- _ =>
      apply (IH _ _ _ G2 G4 (grid_end_le _ _)) in H as (K1 & K2 & K3) end.
    cbn zeta in *. rewrite sum_by_cons, zlen_app.
    split; [apply on_grid_app; [done|by split]|]. split; [done|]. lia.
Qed.

(** ** Lemmas: the size of the frames *)

(** 960 samples in at most [B] bytes. *)
Definition small_frame (B : Z) (f : OpusFrame) : Prop :=
  of_duration_samples f = DISCORD_FRAME_SAMPLES /\ byte_len f <= B.

Definition buffer_len (n : DiscordOpusFrameNormalizer) : Z := zlen (n_encode_buffer n).

Lemma small_frame_weaken B B' f : B <= B' -> small_frame B f -> small_frame B' f.
Proof. intros H [H1 H2]. split; [done|lia]. Qed.

Lemma emit_frame_small n n' f :
  emit_frame n = (n', Ok f) -> small_frame (buffer_len n) f /\ buffer_len n' = buffer_len n.
Proof.
  unfold emit_frame. intros H. inv_stm. unfold id in *.
  match type of H with context [encode ?a ?b ?c ?d] =>
    pose proof (encode_buf_len a b c d) as Hbuf; destruct (encode a b c d) as [[e' buf] r] end.
  cbn in Hbuf. inv_stm.
  match goal with E : slice_to buf ?k = Ok ?p |- _ =>
    unfold slice_to in E; destruct (_ && _) eqn:Hb in E; [|done]; injection E as <- end.
  unfold small_frame, buffer_len, byte_len, zlen in *. cbn.
  rewrite length_take, Hbuf. split; [|done]. split; [done|lia].
Qed.

Lemma emit_frames_small fuel n n' fs :
  emit_frames fuel n = (n', Ok fs) ->
  Forall (small_frame (buffer_len n)) fs /\ buffer_len n' = buffer_len n.
Proof.
  revert n fs; induction fuel as [|fuel IH]; intros n fs H; cbn [emit_frames] in H; inv_stm;
    zcase; inv_stm; try done.
  match goal with H : emit_frame _ = _ |- _ => apply emit_frame_small in H as [G1 G2] end.
  match goal with H : emit_frames _ _ = _ |- _ => apply IH in H as [G3 G4] end.
  rewrite G2 in *. split; [by constructor|done].
Qed.

Lemma emit_ready_frames_small n n' fs :
  emit_ready_frames n = (n', Ok fs) ->
  Forall (small_frame (buffer_len n)) fs /\ buffer_len n' = buffer_len n.
Proof.
  unfold emit_ready_frames. intros H. inv_stm.
  match goal with H : ensure_encoder _ = _ |- _ => rename H into He end.
  apply emit_frames_small in H as [G1 G2].
  unfold ensure_encoder in He. inv_stm.
  match type of He with context [match ?o with _ => _ end] => destruct o end; by inv_stm.
Qed.

Lemma decode_packet_buffer packet n n' :
  decode_packet packet n = (n', Ok tt) -> buffer_len n' = buffer_len n.
Proof.
  unfold decode_packet. intros H. inv_stm. zcase; [done|]. inv_stm.
  match goal with H : decoder_for_channels ?c _ = (?s, Ok _) |- _ =>
    rename H into Hd; rename s into st1, c into ch end.
  destruct (decode _ _ _ _) as [[d' pcm] r] in H. inv_stm. destruct (negb _) in H; [done|]. inv_stm.
  assert (Hset : forall d st, buffer_len (set_decoder ch d st) = buffer_len st)
    by (intros d st; unfold set_decoder; by destruct (ch =? 1)).
  unfold buffer_len in *. cbn. rewrite Hset.
  assert (Hstart : forall st, n_encode_buffer (start_position packet st) = n_encode_buffer st)
    by (intros st; unfold start_position; by destruct (n_next_output_position_samples st)).
  unfold decoder_for_channels in Hd. destruct (negb _) in Hd; [done|]. inv_stm.
  match type of Hd with context [match ?o with _ => _ end] => destruct o end; inv_stm;
    by rewrite ?Hset, Hstart.
Qed.

Lemma push_packet_small B packet n n' fs :
  buffer_len n <= B -> zlen (dp_data packet) <= B -> push_packet packet n = (n', Ok fs) ->
  Forall (small_frame B) fs /\ buffer_len n' = buffer_len n.
Proof.
  intros Hn Hp H. unfold push_packet in H. inv_stm. unfold id in *.
  match type of H with context [start_position _ ?s] => rename s into st end.
  assert (Hs : buffer_len (start_position packet st) = buffer_len st)
    by (unfold start_position; by destruct (n_next_output_position_samples st)).
  destruct (bool_decide _ && _) in H; inv_stm; [split; [by repeat constructor|done]|].
  match goal with H : decode_packet _ _ = (_, Ok ?u) |- _ =>
    destruct u; apply decode_packet_buffer in H as Hd end.
  apply emit_ready_frames_small in H as [G1 G2]. rewrite G2, Hd, Hs in *. split; [|done].
  eapply Forall_impl; [exact G1|]. intros f. by apply small_frame_weaken.
Qed.

Lemma flush_small B n n' fs :
  buffer_len n <= B -> flush n = (n', Ok fs) ->
  Forall (small_frame B) fs /\ buffer_len n' = buffer_len n.
Proof.
  intros Hn H. unfold flush in H. inv_stm. unfold id in *. case_bool_decide; inv_stm; [done|].
  apply emit_ready_frames_small in H as [G1 G2]. split; [|done].
  eapply Forall_impl; [exact G1|]. intros f. by apply small_frame_weaken.
Qed.

(** ** The codec never fails: neither does the normalizer *)

Definition codec_works : Prop :=
  (forall channels, exists d, decoder_new channels = Ok d) /\
  (forall dec data n pcm, snd (decode dec data n pcm) = Ok n) /\
  (exists e, encoder_new = Ok e) /\
  (forall enc pcm n buf, exists k, snd (encode enc pcm n buf) = Ok k).

Definition decodable (p : DemuxedPacket) : Prop :=
  dp_data p <> [] /\ in_uint u32_max (dp_duration_samples p) /\ dp_duration_samples p <> 0.

Section Total.
Hypothesis Hworks : codec_works.

Lemma emit_frame_total n :
  1920 <= zlen (n_pending_pcm n) -> is_Some (n_encoder n) ->
  exists n' f, emit_frame n = (n', Ok f) /\ is_Some (n_encoder n').
Proof.
  intros Hl [e He]. destruct Hworks as (_ & _ & _ & Henc).
  unfold emit_frame, mbind, stm_bind, gets, lift, id, modify.
  rewrite slice_to_ok by (rewrite frame_values_eq; lia). rewrite He. cbn [ok_or].
  destruct (Henc e (take (Z.to_nat frame_values) (n_pending_pcm n)) DISCORD_FRAME_SAMPLES
              (n_encode_buffer n)) as [k Hk].
  pose proof (encode_fits _ _ _ _ _ Hk) as Hfit.
  pose proof (encode_buf_len e (take (Z.to_nat frame_values) (n_pending_pcm n))
    DISCORD_FRAME_SAMPLES (n_encode_buffer n)) as Hbuf.
  destruct (encode _ _ _ _) as [[e' buf] r]. cbn in Hk, Hbuf. subst r. cbn [map_err].
  rewrite slice_to_ok by (unfold zlen in *; lia). eexists _, _. split; [done|]. cbn. by eexists.
Qed.

Lemma emit_frames_total fuel n :
  is_Some (n_encoder n) -> zlen (n_pending_pcm n) <= Z.of_nat fuel ->
  exists n' fs, emit_frames fuel n = (n', Ok fs).
Proof.
  revert n; induction fuel as [|fuel IH]; intros n He Hf; cbn [emit_frames];
    unfold mbind, stm_bind, gets; rewrite frame_values_eq; zcase; try (by eexists _, _); [lia|].
  destruct (emit_frame_total n) as (n1 & f & E1 & He1); [lia|done|]. rewrite E1.
  destruct (emit_frame_ok _ _ _ E1) as (_ & Hd & _).
  destruct (IH n1 He1) as (n2 & fs & E2); [|rewrite E2; by eexists _, _].
  rewrite Hd, (zlen_drop _ 1920); lia.
Qed.

Lemma emit_ready_frames_total n : exists n' fs, emit_ready_frames n = (n', Ok fs).
Proof.
  destruct Hworks as (_ & _ & [e Hn] & _).
  assert (exists n1, ensure_encoder n = (n1, Ok tt) /\ is_Some (n_encoder n1)) as (n1 & E & H1).
  { unfold ensure_encoder, mbind, stm_bind, gets, lift, modify.
    destruct (n_encoder n) eqn:En; [exists n; by rewrite En|]. rewrite Hn. cbn. by eexists. }
  unfold emit_ready_frames, mbind, stm_bind, gets. rewrite E.
  apply emit_frames_total; [done|unfold zlen; lia].
Qed.

Lemma decoder_for_channels_total channels n :
  channels = 1 \/ channels = 2 -> exists n' d, decoder_for_channels channels n = (n', Ok d).
Proof.
  intros Hc. destruct Hworks as ((d & Hd)%(fun H => H channels) & _).
  unfold decoder_for_channels.
  replace ((channels =? 1) || (channels =? 2)) with true
    by (symmetry; rewrite orb_true_iff, !Z.eqb_eq; lia). cbn [negb].
  unfold mbind, stm_bind, gets, lift, modify. rewrite Hd.
  destruct ((if channels =? 1 then n_mono_decoder else n_stereo_decoder) n); cbn; by eexists _, _.
Qed.

Lemma decode_packet_total p n : decodable p -> exists n', decode_packet p n = (n', Ok tt).
Proof.
  intros (Hne & _ & Hz). unfold decode_packet. destruct (dp_data p) as [|toc data] eqn:Ep; [done|].
  unfold opus_packet_channels. cbn [lookup list_lookup mbind option_bind ok_or].
  set (ch := if negb (Z.land toc 4 =? 0) then 2 else 1).
  unfold mbind, stm_bind, lift. destruct (Z.eqb_spec (dp_duration_samples p) 0); [done|].
  unfold modify. destruct (decoder_for_channels_total ch (start_position p n)) as (n1 & d & E);
    [unfold ch; destruct (negb _); lia|]. rewrite E. clear E.
  pose proof (proj1 (proj2 Hworks) d (toc :: data) (dp_duration_samples p)
    (repeat silence (Z.to_nat (sat_mul usize_max (dp_duration_samples p) ch)))) as Hd.
  destruct (decode _ _ _ _) as [[d' pcm] r]. cbn in Hd. subst r. cbn [map_err].
  rewrite Z.eqb_refl. by eexists.
Qed.

Lemma normalize_total packets n :
  Forall decodable packets -> exists n' fs, normalize packets n = (n', Ok fs).
Proof.
  intros H. revert n; induction H as [|p packets Hp H IH]; intros n; cbn [normalize].
  - unfold flush, mbind, stm_bind, gets, id. case_bool_decide; [by eexists _, _|].
    apply emit_ready_frames_total.
  - assert (exists n1 fs, push_packet p n = (n1, Ok fs)) as (n1 & fs & E).
    { unfold push_packet, mbind, stm_bind, modify, gets, id.
      destruct (bool_decide _ && _); [by eexists _, _|].
      destruct (decode_packet_total p (start_position p n) Hp) as (n1 & ->).
      apply emit_ready_frames_total. }
    unfold mbind, stm_bind. rewrite E. destruct (IH n1) as (n2 & fs' & E2). rewrite E2.
    by eexists _, _.
Qed.

End Total.

(** ** Theorems *)

(** C15. The output is a gapless grid of 20 ms frames: over a whole track with
    any mix of packet durations and channel counts, passed through or
    re-encoded, the frames are of 960 samples each at consecutive positions
    from the first packet's timestamp, every input sample is accounted for,
    and only the last frame is padded, by less than one frame; nothing stays
    pending after the flush. *)
Theorem normalizer_output_grid p packets n' frames :
  Forall (fun p => in_uint u32_max (dp_duration_samples p)) (p :: packets) ->
  dp_timestamp_samples p <= u64_max ->
  normalize (p :: packets) DiscordOpusFrameNormalizer_new = (n', Ok frames) ->
  on_grid (dp_timestamp_samples p) frames /\ n_pending_pcm n' = [] /\
  (let total := sum_by dp_duration_samples (p :: packets) in
   DISCORD_FRAME_SAMPLES * (zlen frames - 1) < total <= DISCORD_FRAME_SAMPLES * zlen frames).
Proof.
  intros [Hp Hd]%Forall_cons Ht H. cbn [normalize] in H. inv_stm.
  match goal with H : push_packet _ _ = _ |- _ =>
    apply push_packet_ok in H as (G1 & G2 & G3 & G4); [|done|done] end.
  cbn [default n_next_output_position_samples DiscordOpusFrameNormalizer_new] in *.
  match goal with H : normalize _ _ = _ |- _ =>
    apply (normalize_ok _ _ _ _ _ Hd G2 G4 (grid_end_le _ _)) in H as (K1 & K2 & K3) end.
  cbn zeta in *. rewrite sum_by_cons, zlen_app. unfold DISCORD_FRAME_SAMPLES.
  change (zlen (n_pending_pcm DiscordOpusFrameNormalizer_new)) with 0 in G3.
  split; [apply on_grid_app; [done|by split]|]. split; [done|]. lia.
Qed.


End Normalizer.

(** ** A codec that meets the laws: samples are bytes, packets are silent *)

#[global] Instance mute_codec : OpusCodec := {|
  Sample := Z;
  silence := 0;
  Decoder := unit;
  Encoder := unit;
  decoder_new _ := Ok tt;
  decode d data n pcm := (d, pcm, Ok n);
  encoder_new := Ok tt;
  encode e pcm n buf := (e, buf, Ok (Z.min 3 (zlen buf)));
|}.

#[global] Instance mute_codec_laws : OpusCodecLaws.
Proof.
  split; [done|done|]. cbn. intros _ _ _ buf k [= <-]. pose proof (zlen_nonneg buf). lia.
Qed.

(** A 60 ms mono packet and a 20 ms stereo one, at 1 s. *)
Definition sample_packets : list DemuxedPacket :=
  [mkDemuxedPacket [0x18; 1] 1000 48000 60 2880; mkDemuxedPacket [0xFC; 1] 1060 50880 20 960;
   mkDemuxedPacket [0xE0] 1080 51840 2 120].

Definition sample_output : list OpusFrame :=
  map (discord_frame [0; 0; 0]) [48000; 48960; 49920] ++ [discord_frame [0xFC; 1] 50880]
  ++ [discord_frame [0; 0; 0] 51840].

Lemma normalizer_output_grid_witness :
  snd (normalize sample_packets DiscordOpusFrameNormalizer_new) = Ok sample_output /\
  on_grid 48000 sample_output.
Proof.
  assert (E : normalize sample_packets DiscordOpusFrameNormalizer_new =
    (fst (normalize sample_packets DiscordOpusFrameNormalizer_new), Ok sample_output))
    by (vm_compute; reflexivity).
  split; [by rewrite E|]. unfold sample_packets in E.
  refine (proj1 (normalizer_output_grid _ _ _ _ _ _ E)).
  - repeat constructor; vm_compute; intuition discriminate.
  - vm_compute. discriminate.
Defined.

