(* ===== verification/HttpStream.v ===== *)
(** * The resumable HTTP stream

    crates/discord-voice-service-playback/src/media/http_stream.rs. The reqwest
    client and the remote server are the environment: a list of servers, one
    per request, each a function of the URL and the Range header; a response
    has its status, the two headers the code reads and the events of its body.
    A [Stall] (or a request without an answer) is a point at which the caller's
    timeout drops the future: the stream keeps the state it had there. *)

From S2P Require Import Prelude Text OpusQueue WebmDemux Position.
From stdpp Require Import prelude strings.
From Stdlib Require Import Ascii.
Open Scope Z_scope.

Definition MAX_READ_CHUNK_BYTES : Z := 64 * 1024.

(** ** The environment *)

Inductive BodyEvent : Type :=
| Chunk (bytes : list Z)
| BodyError
| Stall.

(** A header value is [None] when [to_str] fails on it. *)
Record HttpResponse : Type := mkHttpResponse {
  r_status : Z;
  r_content_length : option Z;
  r_content_range : option (option string);
  r_body : list BodyEvent;
}.

Inductive HttpReply : Type :=
| Reply (r : HttpResponse)
| SendError
| NoAnswer.

Definition Server : Type := string -> option string -> HttpReply.

(** ** State *)

Record HttpOpusStreamMetrics : Type := mkHttpOpusStreamMetrics {
  hm_response_open_count : Z;
  hm_range_reopen_count : Z;
  hm_bounded_chunk_count : Z;
  hm_read_error_reopen_count : Z;
}.

Record HttpReadStressProfile : Type := mkHttpReadStressProfile {
  base_delay_ms : Z;
  jitter_ms : Z;
}.

(** [hs_response] is the rest of the body of the open response. *)
Record HttpOpusStream : Type := mkHttpOpusStream {
  hs_url : string;
  hs_response : option (list BodyEvent);
  hs_response_start : Z;
  hs_response_end : option Z;
  hs_resource_end : option Z;
  hs_pending : list Z;
  hs_position : PlaybackPosition;
  hs_metrics : HttpOpusStreamMetrics;
  hs_read_stress : HttpReadStressProfile;
}.

(** [HttpReadStressProfile::from_env] is an argument. *)
Definition HttpOpusStream_new (stress : HttpReadStressProfile) (url : string) : HttpOpusStream :=
  mkHttpOpusStream url None 0 None None [] PlaybackPosition_default
    (mkHttpOpusStreamMetrics 0 0 0 0) stress.

Definition offset (st : HttpOpusStream) : Z := pp_byte_offset (hs_position st).

Definition set_resume_offset (st : HttpOpusStream) (byte_offset : Z) : HttpOpusStream :=
  mkHttpOpusStream (hs_url st) None byte_offset None None []
    (set_byte_offset (hs_position st) byte_offset) (hs_metrics st) (hs_read_stress st).

(** The response gone, with the extents given. *)
Definition drop_response (response_end resource_end : option Z) (st : HttpOpusStream)
    : HttpOpusStream :=
  mkHttpOpusStream (hs_url st) None (hs_response_start st) response_end resource_end
    (hs_pending st) (hs_position st) (hs_metrics st) (hs_read_stress st).

Definition set_body (body : list BodyEvent) (pending : list Z) (st : HttpOpusStream)
    : HttpOpusStream :=
  mkHttpOpusStream (hs_url st) (Some body) (hs_response_start st) (hs_response_end st)
    (hs_resource_end st) pending (hs_position st) (hs_metrics st) (hs_read_stress st).

Definition set_metrics (m : HttpOpusStreamMetrics) (st : HttpOpusStream) : HttpOpusStream :=
  mkHttpOpusStream (hs_url st) (hs_response st) (hs_response_start st) (hs_response_end st)
    (hs_resource_end st) (hs_pending st) (hs_position st) m (hs_read_stress st).

(** ** Read stress *)

Definition pseudo_jitter_ms (chunk_index max_jitter_ms : Z) : Z :=
  let value := wrapping_mul 64 chunk_index 0x9E3779B97F4A7C15 in
  let value := Z.lxor value (Z.shiftr value 33) in
  let value := wrapping_mul 64 value 0xC2B2AE3D27D4EB4F in
  let value := Z.lxor value (Z.shiftr value 29) in
  value mod (sat_add u64_max max_jitter_ms 1).

Definition delay_for_chunk (p : HttpReadStressProfile) (chunk_index : Z) : Z :=
  let jitter := if jitter_ms p =? 0 then 0 else pseudo_jitter_ms chunk_index (jitter_ms p) in
  sat_add u64_max (base_delay_ms p) jitter.

(** ** Content-Range *)

Record ParsedContentRange : Type := mkParsedContentRange {
  cr_start : Z;
  cr_end : Z;
  cr_complete_length : option Z;
}.

Definition parse_content_range (value : string) : option ParsedContentRange :=
  value ← Text.strip_prefix "bytes " value;
  '(range, complete_length) ← split_once value "/"%char;
  '(start, end_) ← split_once range "-"%char;
  start ← parse_u64 start;
  end_ ← parse_u64 end_;
  complete_length ←
    (if String.eqb complete_length "*" then Some None
     else n ← parse_u64 complete_length; Some (Some n));
  Some (mkParsedContentRange start end_ complete_length).

Record ResponseExtent : Type := mkResponseExtent {
  re_response_end : option Z;
  re_resource_end : option Z;
}.

Definition response_extent (r : HttpResponse) (response_start : Z) : presult ResponseExtent :=
  let content_length_end := sat_add u64_max response_start <$> r_content_length r in
  match r_content_range r with
  | None => Ok (mkResponseExtent content_length_end None)
  | Some None => Err (MediaParseDetail "range response had invalid Content-Range header")
  | Some (Some content_range) =>
      match parse_content_range content_range with
      | None =>
          Err (MediaParseDetail
            ("range response had unsupported Content-Range header: " +:+ content_range))
      | Some parsed =>
          if negb (cr_start parsed =? response_start) then
            Err (MediaParseDetail
              ("range response started at byte " +:+ u64_to_string (cr_start parsed)
               +:+ ", expected " +:+ u64_to_string response_start))
          else Ok (mkResponseExtent (Some (sat_add u64_max (cr_end parsed) 1))
                     (cr_complete_length parsed))
      end
  end.

(** The reason phrase of the status is left out of the message. *)
Definition validate_resume_response (r : HttpResponse) (expected_start : Z) : presult unit :=
  if expected_start =? 0 then Ok tt
  else if negb (r_status r =? 206) then
    Err (MediaParseDetail
      ("range request was not honored: expected 206 for resume at byte "
       +:+ u64_to_string expected_start +:+ ", got " +:+ u64_to_string (r_status r)))
  else
    match r_content_range r with
    | None =>
        Err (MediaParseDetail
          ("range request was not honored: missing Content-Range for resume at byte "
           +:+ u64_to_string expected_start))
    | Some None =>
        Err (MediaParseDetail "range request was not honored: invalid Content-Range header")
    | Some (Some content_range) =>
        if negb (starts_with content_range ("bytes " +:+ u64_to_string expected_start +:+ "-")) then
          Err (MediaParseDetail
            ("range request was not honored: expected Content-Range to start at byte "
             +:+ u64_to_string expected_start +:+ ", got " +:+ content_range))
        else Ok tt
    end.

(** ** Opening a response *)

Definition range_header (expected_start : Z) : option string :=
  if 0 <? expected_start then Some ("bytes=" +:+ u64_to_string expected_start +:+ "-") else None.

(** The counters a request moves, before it is sent. *)
Definition count_request (st : HttpOpusStream) : HttpOpusStream :=
  let m := hs_metrics st in
  set_metrics
    (mkHttpOpusStreamMetrics (sat_add u64_max (hm_response_open_count m) 1)
       (if 0 <? offset st then sat_add u64_max (hm_range_reopen_count m) 1
        else hm_range_reopen_count m)
       (hm_bounded_chunk_count m) (hm_read_error_reopen_count m)) st.

(** What [open_response] makes of an answer; [error_for_status] fails on 4xx
    and 5xx. *)
Definition accept_response (expected_start : Z) (r : HttpResponse)
    : presult (option HttpResponse) :=
  if (0 <? expected_start) && (r_status r =? 416) then Ok None
  else if (400 <=? r_status r) && (r_status r <? 600) then Err (Http (Some (r_status r)))
  else
    _ ← validate_resume_response r expected_start;
    Ok (Some r).

Definition install_response (st : HttpOpusStream) (r : HttpResponse) (extent : ResponseExtent)
    : HttpOpusStream :=
  mkHttpOpusStream (hs_url st) (Some (r_body r)) (offset st) (re_response_end extent)
    (re_resource_end extent) (hs_pending st) (hs_position st) (hs_metrics st) (hs_read_stress st).

(** ** Reading *)

Inductive read_outcome : Type :=
| ReadDone (r : presult (option (list Z)))
| ReadTimedOut.

Definition take_pending_chunk (st : HttpOpusStream) : HttpOpusStream * option (list Z) :=
  match hs_pending st with
  | [] => (st, None)
  | _ :: _ =>
      let chunk_len := Z.min (zlen (hs_pending st)) MAX_READ_CHUNK_BYTES in
      let bytes := take (Z.to_nat chunk_len) (hs_pending st) in
      let m := hs_metrics st in
      (mkHttpOpusStream (hs_url st) (hs_response st) (hs_response_start st) (hs_response_end st)
         (hs_resource_end st) (drop (Z.to_nat chunk_len) (hs_pending st))
         (advance_bytes (hs_position st) (zlen bytes))
         (mkHttpOpusStreamMetrics (hm_response_open_count m) (hm_range_reopen_count m)
            (sat_add u64_max (hm_bounded_chunk_count m) 1) (hm_read_error_reopen_count m))
         (hs_read_stress st),
       Some bytes)
  end.

Definition deliver (st : HttpOpusStream) : HttpOpusStream * read_outcome :=
  let r := take_pending_chunk st in (fst r, ReadDone (Ok (snd r))).

Definition should_reopen_after_response_eof (st : HttpOpusStream) : presult bool :=
  let position := offset st in
  let before o := match o with Some e => position <? e | None => false end in
  if negb (before (hs_response_end st)) && negb (before (hs_resource_end st)) then Ok false
  else if position <=? hs_response_start st then
    Err (MediaParseDetail "playback source response ended before advancing")
  else Ok true.

Definition count_read_error (st : HttpOpusStream) : HttpOpusStream :=
  let m := hs_metrics st in
  set_metrics (mkHttpOpusStreamMetrics (hm_response_open_count m) (hm_range_reopen_count m)
    (hm_bounded_chunk_count m) (sat_add u64_max (hm_read_error_reopen_count m) 1)) st.

(** Turns of the loop on an open response: up to an outcome, or [None] when the
    response is gone and the loop goes round to open another. *)
Fixpoint read_body (body : list BodyEvent) (st : HttpOpusStream)
    : HttpOpusStream * option read_outcome :=
  match body with
  | Chunk chunk :: rest =>
      let st1 := set_body rest (hs_pending st ++ chunk) st in
      if negb (bool_decide (hs_pending st1 = [])) then
        let r := deliver st1 in (fst r, Some (snd r))
      else read_body rest st1
  | [] =>
      match should_reopen_after_response_eof st with
      | Err e => (drop_response (hs_response_end st) (hs_resource_end st) st, Some (ReadDone (Err e)))
      | Panic => (st, Some (ReadDone Panic))
      | Ok true => (drop_response None (hs_resource_end st) st, None)
      | Ok false => (drop_response None None st, Some (ReadDone (Ok None)))
      end
  | BodyError :: _ =>
      let st1 := drop_response None (hs_resource_end st) st in
      if negb (bool_decide (hs_pending st = [])) then
        let r := deliver st1 in (fst r, Some (snd r))
      else if hs_response_start st <? offset st then (count_read_error st1, None)
      else (st1, Some (ReadDone (Err (Http None))))
  | Stall :: rest => (set_body rest (hs_pending st) st, Some ReadTimedOut)
  end.

(** Turns of the loop without an open response. *)
Fixpoint read_open (env : list Server) (st : HttpOpusStream)
    : HttpOpusStream * list Server * read_outcome :=
  let st1 := count_request st in
  match env with
  | [] => (st1, [], ReadTimedOut)
  | server :: env' =>
      match server (hs_url st) (range_header (offset st)) with
      | NoAnswer => (st1, env', ReadTimedOut)
      | SendError => (st1, env', ReadDone (Err (Http None)))
      | Reply r =>
          match accept_response (offset st) r with
          | Err e => (st1, env', ReadDone (Err e))
          | Panic => (st1, env', ReadDone Panic)
          | Ok None => (st1, env', ReadDone (Ok None))
          | Ok (Some r) =>
              match response_extent r (offset st) with
              | Err e => (st1, env', ReadDone (Err e))
              | Panic => (st1, env', ReadDone Panic)
              | Ok extent =>
                  match read_body (r_body r) (install_response st1 r extent) with
                  | (st2, Some o) => (st2, env', o)
                  | (st2, None) => read_open env' st2
                  end
              end
          end
      end
  end.

(** The sleep of [apply_read_stress_before_next_chunk] does not touch the
    stream. *)
Definition read_chunk (env : list Server) (st : HttpOpusStream)
    : HttpOpusStream * list Server * read_outcome :=
  if negb (bool_decide (hs_pending st = [])) then
    let r := deliver st in (fst r, env, snd r)
  else
    match hs_response st with
    | None => read_open env st
    | Some body =>
        match read_body body st with
        | (st1, Some o) => (st1, env, o)
        | (st1, None) => read_open env st1
        end
    end.

(** ** Operations on a stream *)

(** A read; a reset to the current offset after a timeout; a fresh stream at
    the current offset after the URL was resolved again. *)
Inductive stream_op : Type :=
| OpRead
| OpReset
| OpReplace (stress : HttpReadStressProfile) (url : string).

Definition replace_stream (stress : HttpReadStressProfile) (url : string) (st : HttpOpusStream)
    : HttpOpusStream :=
  set_resume_offset (HttpOpusStream_new stress url) (offset st).

Definition delivered_of (o : read_outcome) : list Z :=
  match o with ReadDone (Ok (Some c)) => c | _ => [] end.

(** The stream and the environment after a run, and the bytes it delivered. *)
Fixpoint stream_run (ops : list stream_op) (env : list Server) (st : HttpOpusStream)
    : HttpOpusStream * list Server * list Z :=
  match ops with
  | [] => (st, env, [])
  | OpReset :: ops' => stream_run ops' env (set_resume_offset st (offset st))
  | OpReplace stress url :: ops' => stream_run ops' env (replace_stream stress url st)
  | OpRead :: ops' =>
      let '(st1, env1, o) := read_chunk env st in
      let '(st2, env2, bytes) := stream_run ops' env1 st1 in
      (st2, env2, delivered_of o ++ bytes)
  end.

Lemma stream_run_app ops1 ops2 env st :
  stream_run (ops1 ++ ops2) env st =
  (let '(st1, env1, b1) := stream_run ops1 env st in
   let '(st2, env2, b2) := stream_run ops2 env1 st1 in (st2, env2, b1 ++ b2)).
Proof.
  revert env st; induction ops1 as [|op ops1 IH]; intros env st; cbn [app stream_run].
  - by destruct (stream_run ops2 env st) as [[? ?] ?].
  - destruct op as [| |stress url]; [|apply IH..].
    destruct (read_chunk env st) as [[st1 env1] o]. rewrite IH.
    destruct (stream_run ops1 env1 st1) as [[st2 env2] b].
    destruct (stream_run ops2 env2 st2) as [[st3 env3] b']. by rewrite app_assoc.
Qed.

(** ** Progress *)

(** What is left to read without another request. *)
Definition event_weight (e : BodyEvent) : nat :=
  match e with Chunk c => S (length c) | _ => 1 end.
Definition body_weight (body : list BodyEvent) : nat := list_sum (map event_weight body).
Definition stream_weight (st : HttpOpusStream) : nat :=
  length (hs_pending st) + body_weight (default [] (hs_response st)).

Lemma deliver_progress st st' c :
  deliver st = (st', ReadDone (Ok (Some c))) -> (stream_weight st' < stream_weight st)%nat.
Proof.
  unfold deliver, take_pending_chunk, stream_weight.
  destruct (hs_pending st) as [|b l]; [done|]. intros [= <- <-]. cbn [hs_pending hs_response fst].
  rewrite length_drop.
  assert (1 <= Z.to_nat (Z.min (zlen (b :: l)) MAX_READ_CHUNK_BYTES))%nat.
  { rewrite zlen_cons. pose proof (zlen_nonneg l). unfold MAX_READ_CHUNK_BYTES. lia. }
  cbn [length]. lia.
Qed.

Lemma read_body_progress body st st' c :
  hs_response st = Some body -> hs_pending st = [] ->
  read_body body st = (st', Some (ReadDone (Ok (Some c)))) ->
  (stream_weight st' < stream_weight st)%nat.
Proof.
  revert st; induction body as [|ev body IH]; intros st Hr Hp; cbn [read_body].
  - by destruct (should_reopen_after_response_eof st) as [[]| |].
  - destruct ev as [chunk| |]; [|rewrite Hp; cbn; by zcase|done].
    assert (Hw : (stream_weight (set_body body (hs_pending st ++ chunk) st) < stream_weight st)%nat).
    { unfold stream_weight. rewrite Hr, Hp. cbn. lia. }
    case_bool_decide as Hc; cbn [negb].
    + intros H. apply IH in H; [lia|done|done].
    + destruct (deliver _) as [st1 o1] eqn:E. intros [= <- ->]. apply deliver_progress in E. lia.
Qed.

(** ** Honest servers *)

(** The bytes of a body. *)
Definition body_bytes (body : list BodyEvent) : list Z :=
  concat (map (fun e => match e with Chunk c => c | _ => [] end) body).

Definition content_range_text (s e : Z) (total : option Z) : string :=
  "bytes " +:+ u64_to_string s +:+ "-" +:+ u64_to_string e +:+ "/" +:+
  match total with Some n => u64_to_string n | None => "*" end.

(** A server of the resource [R]: a 206 says which range it carries and carries
    it; another success carries the resource from its start; 416 is sent only
    for a range past the end. A body may be cut anywhere. *)
Definition honest_response (R : list Z) (start : Z) (r : HttpResponse) : Prop :=
  (r_status r = 206 -> exists s e total,
     in_uint u64_max s /\ in_uint u64_max e /\ (forall n, total = Some n -> in_uint u64_max n) /\
     r_content_range r = Some (Some (content_range_text s e total)) /\
     body_bytes (r_body r) `prefix_of` drop (Z.to_nat s) R) /\
  (r_status r <> 206 -> body_bytes (r_body r) `prefix_of` R) /\
  (r_status r = 416 -> zlen R <= start).

Definition honest_server (R : list Z) (server : Server) : Prop :=
  forall url start r, 0 <= start -> server url (range_header start) = Reply r ->
  honest_response R start r.

(** It also says how long the resource is. *)
Definition sized_response (R : list Z) (r : HttpResponse) : Prop :=
  (r_status r = 206 -> exists s e,
     in_uint u64_max s /\ in_uint u64_max e /\
     r_content_range r = Some (Some (content_range_text s e (Some (zlen R))))) /\
  (r_status r <> 206 -> r_content_range r = None /\ r_content_length r = Some (zlen R)).

Definition sized_server (R : list Z) (server : Server) : Prop :=
  forall url start r, 0 <= start -> server url (range_header start) = Reply r ->
  sized_response R r.

(** ** Lemmas: Content-Range *)

Lemma star_not_number n : 0 <= n -> String.eqb (u64_to_string n) "*" = false.
Proof.
  intros Hn. destruct (String.eqb_spec (u64_to_string n) "*") as [E|]; [|done].
  assert (H : free_of "*"%char (u64_to_string n)) by (by apply u64_to_string_free).
  rewrite E in H. by destruct H.
Qed.

Lemma parse_content_range_text s e total :
  in_uint u64_max s -> in_uint u64_max e -> (forall n, total = Some n -> in_uint u64_max n) ->
  parse_content_range (content_range_text s e total) = Some (mkParsedContentRange s e total).
Proof.
  intros Hs He Ht. unfold parse_content_range, content_range_text.
  rewrite strip_prefix_app. cbn [mbind option_bind].
  set (tail := match total with Some n => _ | None => _ end).
  replace (u64_to_string s +:+ "-" +:+ u64_to_string e +:+ "/" +:+ tail)
    with ((u64_to_string s +:+ String "-" (u64_to_string e)) +:+ String "/" tail)
    by (rewrite string_app_assoc; reflexivity).
  destruct Hs, He. rewrite split_once_app
    by (apply free_of_app; [by apply u64_to_string_free|];
        split; [discriminate|by apply u64_to_string_free]).
  cbn [mbind option_bind]. rewrite split_once_app by (by apply u64_to_string_free).
  cbn [mbind option_bind]. rewrite !parse_u64_to_string by (split; lia).
  cbn [mbind option_bind]. subst tail. destruct total as [n|]; [|done].
  specialize (Ht n eq_refl). rewrite star_not_number by (by destruct Ht).
  by rewrite parse_u64_to_string.
Qed.

(** A response that is kept starts where the stream stands. *)
Lemma response_extent_start r start extent s e total :
  r_content_range r = Some (Some (content_range_text s e total)) ->
  in_uint u64_max s -> in_uint u64_max e -> (forall n, total = Some n -> in_uint u64_max n) ->
  response_extent r start = Ok extent -> s = start /\ re_resource_end extent = total.
Proof.
  intros Hr Hs He Ht. unfold response_extent. rewrite Hr, parse_content_range_text by done.
  cbn. destruct (Z.eqb_spec s start); [|done]. by intros [= <-].
Qed.

Lemma accept_response_206 start r r' :
  0 < start -> accept_response start r = Ok (Some r') -> r' = r /\ r_status r = 206.
Proof.
  intros Hs. unfold accept_response, validate_resume_response.
  destruct (_ && _); [done|]. destruct (_ && _); [done|].
  destruct (Z.eqb_spec start 0); [lia|]. destruct (Z.eqb_spec (r_status r) 206); [|done].
  cbn [negb]. destruct (r_content_range r) as [[?|]|]; [|done|done].
  destruct (negb _); [done|]. cbn. by intros [= <-].
Qed.

Lemma accept_response_same start r r' : accept_response start r = Ok (Some r') -> r' = r.
Proof.
  unfold accept_response. destruct (_ && _); [done|]. destruct (_ && _); [done|].
  destruct (validate_resume_response r start); [|done|done]. cbn. by intros [= <-].
Qed.

Lemma accept_416 start r : accept_response start r = Ok None -> r_status r = 416.
Proof.
  unfold accept_response. destruct (_ && (r_status r =? 416)) eqn:E; intros H.
  - by apply andb_true_iff in E as [_ ?%Z.eqb_eq].
  - destruct (_ && _) in H; [done|]. by destruct (validate_resume_response r start).
Qed.

(** ** Lemmas: the stream invariant *)

(** The loop goes round only with nothing pending. *)
Lemma read_body_pending body st st' :
  hs_pending st = [] -> read_body body st = (st', None) ->
  hs_pending st' = [] /\ hs_response st' = None.
Proof.
  revert st; induction body as [|ev body IH]; intros st Hp; cbn [read_body].
  - destruct (should_reopen_after_response_eof st) as [[]| |]; by intros [= <-].
  - destruct ev as [chunk| |]; [|rewrite Hp; cbn; zcase; by intros [= <-]|done].
    cbn. rewrite Hp. cbn [app]. case_bool_decide as Hc; cbn; [|done]. intros H.
    by eapply IH; [|exact H].
Qed.

Section Integrity.
Context (R : list Z).
Hypothesis HR : zlen R <= u64_max.

(** [D] has been delivered. *)
Record stream_inv (D : list Z) (st : HttpOpusStream) : Prop := {
  si_offset : offset st = zlen D;
  si_bytes : (D ++ hs_pending st ++ body_bytes (default [] (hs_response st))) `prefix_of` R;
}.

Lemma prefix_cut (a b c : list Z) : (a ++ b) `prefix_of` c -> a `prefix_of` c.
Proof. intros [k ->]. exists (b ++ k). by rewrite app_assoc. Qed.

Lemma prefix_zlen (a b : list Z) : a `prefix_of` b -> zlen a <= zlen b.
Proof. intros H. apply prefix_length in H. unfold zlen. lia. Qed.

Lemma inv_drop D st e1 e2 : stream_inv D st -> stream_inv D (drop_response e1 e2 st).
Proof.
  intros [H1 H2]. split; [done|]. cbn. rewrite app_nil_r. rewrite app_assoc in H2.
  by apply prefix_cut in H2.
Qed.

Lemma inv_metrics D st m : stream_inv D st -> stream_inv D (set_metrics m st).
Proof. intros [H1 H2]. by split. Qed.

Lemma inv_reset D st : stream_inv D st -> stream_inv D (set_resume_offset st (offset st)).
Proof.
  intros [H1 H2]. split; [done|]. cbn. rewrite app_nil_r. by apply prefix_cut in H2.
Qed.

Lemma inv_replace D st stress url : stream_inv D st -> stream_inv D (replace_stream stress url st).
Proof.
  intros [H1 H2]. split; [done|]. cbn. rewrite app_nil_r. by apply prefix_cut in H2.
Qed.

Lemma inv_deliver D st st' o :
  stream_inv D st -> deliver st = (st', o) -> stream_inv (D ++ delivered_of o) st'.
Proof.
  intros [H1 H2]. unfold deliver, take_pending_chunk.
  destruct (hs_pending st) as [|b l] eqn:Ep; cbn [fst snd]; intros [= <- <-]; cbn [delivered_of].
  { rewrite app_nil_r. split; [done|by rewrite Ep]. }
  set (n := Z.to_nat _).
  assert (Hsplit : D ++ (b :: l) = (D ++ take n (b :: l)) ++ drop n (b :: l))
    by (by rewrite <- app_assoc, take_drop).
  split; cbn.
  - unfold offset in *. cbn. rewrite H1, zlen_app.
    assert (Hp : (D ++ take n (b :: l)) `prefix_of` R)
      by (apply (prefix_cut _ (drop n (b :: l))); rewrite <- Hsplit; rewrite app_assoc in H2;
          by apply prefix_cut in H2).
    apply prefix_zlen in Hp. rewrite zlen_app in Hp. apply sat_add_exact. lia.
  - rewrite app_assoc, <- Hsplit, <- app_assoc. done.
Qed.

Lemma inv_read_body D body st st' o :
  stream_inv D st -> hs_response st = Some body -> read_body body st = (st', o) ->
  stream_inv (D ++ match o with Some o => delivered_of o | None => [] end) st'.
Proof.
  revert st; induction body as [|ev body IH]; intros st Hinv Hr; cbn [read_body].
  - destruct (should_reopen_after_response_eof st) as [[]| |]; intros [= <- <-];
      cbn; rewrite app_nil_r; try (by apply inv_drop); done.
  - destruct ev as [chunk| |].
    + assert (H1 : stream_inv D (set_body body (hs_pending st ++ chunk) st)).
      { destruct Hinv as [H1 H2]. split; [done|]. cbn. rewrite Hr in H2. cbn in H2.
        by rewrite <- app_assoc. }
      destruct (negb _).
      * destruct (deliver _) as [st1 o1] eqn:E. intros [= <- <-]. by eapply inv_deliver.
      * intros H. by apply (IH _ H1).
    + pose proof (inv_drop D st None (hs_resource_end st) Hinv) as H1. destruct (negb _).
      * destruct (deliver _) as [st1 o1] eqn:E. intros [= <- <-]. by eapply inv_deliver.
      * zcase; intros [= <- <-]; cbn; rewrite app_nil_r; [by apply inv_metrics|done].
    + intros [= <- <-]. cbn. rewrite app_nil_r. destruct Hinv as [H1 H2]. split; [done|].
      cbn. rewrite Hr in H2. done.
Qed.

(** An accepted response carries the resource from the stream's offset. *)
Lemma accepted_body D r extent :
  D `prefix_of` R -> honest_response R (zlen D) r ->
  accept_response (zlen D) r = Ok (Some r) -> response_extent r (zlen D) = Ok extent ->
  (D ++ body_bytes (r_body r)) `prefix_of` R.
Proof.
  intros HD (H206 & Hother & _) Ha He.
  destruct (decide (r_status r = 206)) as [E|E].
  - destruct (H206 E) as (s & e & total & Hs & He' & Ht & Hcr & Hb).
    destruct (response_extent_start r _ _ s e total Hcr Hs He' Ht He) as [-> _].
    destruct HD as [k ->]. unfold zlen in Hb. rewrite Nat2Z.id, drop_app_length in Hb.
    destruct Hb as [k' ->]. exists k'. by rewrite app_assoc.
  - destruct D as [|d D]; [by apply Hother|].
    assert (H0 : 0 < zlen (d :: D)) by (rewrite zlen_cons; pose proof (zlen_nonneg D); lia).
    by destruct (accept_response_206 _ _ _ H0 Ha).
Qed.

Lemma inv_read_open D env st st' env' o :
  Forall (honest_server R) env -> stream_inv D st -> hs_pending st = [] ->
  read_open env st = (st', env', o) ->
  stream_inv (D ++ delivered_of o) st' /\ Forall (honest_server R) env'.
Proof.
  intros Henv. revert st; induction Henv as [|server env Hs Henv IH]; intros st Hinv Hp;
    cbn [read_open].
  - intros [= <- <- <-]. cbn. rewrite app_nil_r. split; [by apply inv_metrics|done].
  - assert (Hsame : forall o, delivered_of o = [] ->
      stream_inv (D ++ delivered_of o) (count_request st) /\ Forall (honest_server R) env).
    { intros o' ->. rewrite app_nil_r. split; [by apply inv_metrics|done]. }
    destruct (server (hs_url st) (range_header (offset st))) as [r| |] eqn:Er;
      [|by intros [= <- <- <-]; apply Hsame..].
    destruct (accept_response (offset st) r) as [[r'|]| |] eqn:Ea;
      [|by intros [= <- <- <-]; apply Hsame..].
    pose proof (accept_response_same _ _ _ Ea) as E'. subst r'.
    destruct (response_extent r (offset st)) as [extent| |] eqn:Ex;
      [|by intros [= <- <- <-]; apply Hsame..].
    assert (Hinv1 : stream_inv D (install_response (count_request st) r extent)).
    { destruct Hinv as [H1 H2]. split; [done|]. cbn. rewrite Hp. cbn [app].
      apply prefix_cut in H2. rewrite H1 in *.
      apply (accepted_body D r extent); try done.
      apply (Hs (hs_url st) (zlen D)); [apply zlen_nonneg|done]. }
    destruct (read_body _ _) as [st2 [o2|]] eqn:Eb.
    + intros [= <- <- <-]. split; [by apply (inv_read_body _ _ _ _ _ Hinv1 eq_refl Eb)|done].
    + intros H. pose proof (inv_read_body _ _ _ _ _ Hinv1 eq_refl Eb) as H2.
      cbn in H2. rewrite app_nil_r in H2. apply (IH _ H2); [|done].
      apply (read_body_pending _ (install_response (count_request st) r extent) _ Hp Eb).
Qed.

Lemma inv_read_chunk D env st st' env' o :
  Forall (honest_server R) env -> stream_inv D st ->
  read_chunk env st = (st', env', o) ->
  stream_inv (D ++ delivered_of o) st' /\ Forall (honest_server R) env'.
Proof.
  intros Henv Hinv. unfold read_chunk. case_bool_decide as Hp; cbn [negb].
  - destruct (hs_response st) as [body|] eqn:Hr; [|by apply inv_read_open].
    destruct (read_body body st) as [st1 [o1|]] eqn:Eb.
    + intros [= <- <- <-]. split; [by apply (inv_read_body _ _ _ _ _ Hinv Hr Eb)|done].
    + pose proof (inv_read_body _ _ _ _ _ Hinv Hr Eb) as H1. cbn in H1. rewrite app_nil_r in H1.
      apply inv_read_open; [done|done|]. by apply (read_body_pending _ _ _ Hp Eb).
  - destruct (deliver st) as [st1 o1] eqn:E. intros [= <- <- <-].
    split; [by eapply inv_deliver|done].
Qed.

Lemma stream_run_inv ops env st D st' env' bytes :
  Forall (honest_server R) env -> stream_inv D st ->
  stream_run ops env st = (st', env', bytes) ->
  stream_inv (D ++ bytes) st' /\ Forall (honest_server R) env'.
Proof.
  revert env st D bytes; induction ops as [|op ops IH]; intros env st D bytes Henv Hinv;
    cbn [stream_run].
  - intros [= <- <- <-]. by rewrite app_nil_r.
  - destruct op as [| |stress url]; [|by apply IH, inv_reset|by apply IH, inv_replace].
    destruct (read_chunk env st) as [[st1 env1] o] eqn:E.
    destruct (inv_read_chunk D env st st1 env1 o Henv Hinv E) as [H1 H2].
    destruct (stream_run ops env1 st1) as [[st2 env2] b] eqn:E2.
    intros [= <- <- <-]. rewrite app_assoc. by apply (IH env1 st1).
Qed.

Lemma new_stream_inv stress url : stream_inv [] (HttpOpusStream_new stress url).
Proof. split; [done|]. cbn. apply prefix_nil. Qed.

(** ** Lemmas: the end of the stream *)

(** While a response is open, one of the ends the stream knows is the
    resource's. *)
Definition sized_inv (st : HttpOpusStream) : Prop :=
  is_Some (hs_response st) ->
  hs_resource_end st = Some (zlen R) \/ hs_response_end st = Some (zlen R).

Lemma prefix_full (D : list Z) : D `prefix_of` R -> zlen R <= zlen D -> D = R.
Proof.
  intros [k E] H. assert (Hk : zlen k = 0) by (rewrite E, zlen_app in H; pose proof (zlen_nonneg k); lia).
  destruct k; [by rewrite E, app_nil_r|]. rewrite zlen_cons in Hk. pose proof (zlen_nonneg k). lia.
Qed.

Lemma eof_is_end D st :
  stream_inv D st -> is_Some (hs_response st) -> sized_inv st ->
  should_reopen_after_response_eof st = Ok false -> D = R.
Proof.
  intros [H1 H2] Hr Hs. unfold should_reopen_after_response_eof.
  destruct (negb _ && negb _) eqn:E; [|by zcase]. intros _.
  apply andb_true_iff in E as [Ea Eb]. rewrite negb_true_iff in Ea, Eb.
  apply prefix_full; [by apply prefix_cut in H2|].
  destruct (Hs Hr) as [Hend|Hend]; rewrite Hend in *.
  - apply Z.ltb_ge in Eb. lia.
  - apply Z.ltb_ge in Ea. lia.
Qed.

Lemma deliver_some st st' o :
  hs_pending st <> [] -> deliver st = (st', o) ->
  o <> ReadDone (Ok None) /\ hs_response st' = hs_response st /\
  hs_resource_end st' = hs_resource_end st /\ hs_response_end st' = hs_response_end st.
Proof.
  unfold deliver, take_pending_chunk. destruct (hs_pending st); [done|]. intros _ [= <- <-]. done.
Qed.

Lemma deliver_sized st st' o : sized_inv st -> deliver st = (st', o) -> sized_inv st'.
Proof.
  unfold deliver, take_pending_chunk. destruct (hs_pending st); by intros H [= <- <-].
Qed.

Lemma sized_read_body D body st st' o :
  stream_inv D st -> hs_response st = Some body -> sized_inv st ->
  read_body body st = (st', o) ->
  sized_inv st' /\ (o = Some (ReadDone (Ok None)) -> D = R).
Proof.
  revert st; induction body as [|ev body IH]; intros st Hinv Hr Hs; cbn [read_body].
  - destruct (should_reopen_after_response_eof st) as [[]| |] eqn:E; intros [= <- <-];
      (split; [done || by intros [? ?]|]); try done.
    intros _. eapply eof_is_end; eauto.
  - destruct ev as [chunk| |].
    + assert (H1 : stream_inv D (set_body body (hs_pending st ++ chunk) st)).
      { destruct Hinv as [H1 H2]. split; [done|]. cbn. rewrite Hr in H2. cbn in H2.
        by rewrite <- app_assoc. }
      assert (H2 : sized_inv (set_body body (hs_pending st ++ chunk) st))
        by (intros _; apply Hs; by eexists).
      case_bool_decide as Hc; cbn [negb]; [by apply IH|].
      destruct (deliver _) as [st1 o1] eqn:E. intros [= <- <-].
      split; [by eapply deliver_sized|]. intros [= E1]. by apply deliver_some in E as [? _].
    + case_bool_decide as Hc; cbn [negb].
      * zcase; intros [= <- <-]; (split; [by intros [? ?]|done]).
      * destruct (deliver _) as [st1 o1] eqn:E. intros [= <- <-]. split.
        -- eapply deliver_sized; [|exact E]. by intros [? ?].
        -- intros [= E1]. by apply deliver_some in E as [? _].
    + intros [= <- <-]. split; [|done]. intros _. apply Hs. by eexists.
Qed.

Lemma sized_install (D : list Z) st r extent :
  offset st = zlen D -> sized_response R r ->
  accept_response (zlen D) r = Ok (Some r) -> response_extent r (zlen D) = Ok extent ->
  sized_inv (install_response st r extent).
Proof.
  intros Ho (Hs206 & Hs200) Ha He _. cbn.
  destruct (decide (r_status r = 206)) as [E|E].
  - destruct (Hs206 E) as (s & e & Hs & He' & Hcr). left.
    apply (response_extent_start r (zlen D) extent s e (Some (zlen R))); try done.
    intros n [= <-]. split; [apply zlen_nonneg|done].
  - destruct (Hs200 E) as [Hn Hl]. right. unfold response_extent in He. rewrite Hn, Hl in He.
    injection He as <-. cbn.
    destruct D as [|d D]; [apply f_equal, sat_add_exact; rewrite zlen_nil; lia|].
    assert (H0 : 0 < zlen (d :: D)) by (rewrite zlen_cons; pose proof (zlen_nonneg D); lia).
    by destruct (accept_response_206 _ _ _ H0 Ha).
Qed.

(** Both kinds of honesty. *)
Definition sized_env (env : list Server) : Prop :=
  Forall (honest_server R) env /\ Forall (sized_server R) env.

Lemma not_sized st : hs_response st = None -> sized_inv st.
Proof. intros H [? E]. by rewrite H in E. Qed.

Lemma sized_read_open D env st st' env' o :
  sized_env env -> stream_inv D st -> hs_pending st = [] -> hs_response st = None ->
  read_open env st = (st', env', o) ->
  sized_inv st' /\ Forall (sized_server R) env' /\ (o = ReadDone (Ok None) -> D = R).
Proof.
  intros [Henv Hsz]. revert st Hsz; induction Henv as [|server env Hs Henv IH];
    intros st Hsz Hinv Hp Hr; cbn [read_open].
  - intros [= <- <- <-]. split; [by apply not_sized|done].
  - apply Forall_cons in Hsz as [Hz Hsz].
    assert (Hsame : forall o', o' <> ReadDone (Ok None) -> sized_inv (count_request st) /\
      Forall (sized_server R) env /\ (o' = ReadDone (Ok None) -> D = R))
      by (intros o' Ho; split; [by apply not_sized|done]).
    destruct (server (hs_url st) (range_header (offset st))) as [r| |] eqn:Er;
      [|by intros [= <- <- <-]; apply Hsame..].
    destruct (Hinv) as [Hoff Hpre]. rewrite Hoff in *.
    pose proof (Hs _ _ _ (zlen_nonneg D) Er) as Hh. pose proof (Hz _ _ _ (zlen_nonneg D) Er) as Hsr.
    destruct (accept_response (zlen D) r) as [[r'|]| |] eqn:Ea;
      [|intros [= <- <- <-]; split; [by apply not_sized|]; split; [done|]; intros _;
        apply prefix_full; [by apply prefix_cut in Hpre|]; by apply Hh, (accept_416 _ _ Ea)
       |by intros [= <- <- <-]; apply Hsame..].
    pose proof (accept_response_same _ _ _ Ea) as E'. subst r'.
    destruct (response_extent r (zlen D)) as [extent| |] eqn:Ex;
      [|by intros [= <- <- <-]; apply Hsame..].
    assert (Hinv1 : stream_inv D (install_response (count_request st) r extent))
      by (split; [done|]; cbn; rewrite Hp; apply prefix_cut in Hpre;
          by apply (accepted_body D r extent)).
    assert (Hs1 : sized_inv (install_response (count_request st) r extent))
      by (by apply (sized_install D)).
    destruct (read_body _ _) as [st2 [o2|]] eqn:Eb;
      destruct (sized_read_body _ _ _ _ _ Hinv1 eq_refl Hs1 Eb) as [K1 K2].
    + intros [= <- <- <-]. split; [done|]. split; [done|]. intros ->. by apply K2.
    + pose proof (inv_read_body _ _ _ _ _ Hinv1 eq_refl Eb) as H2. cbn in H2.
      rewrite app_nil_r in H2.
      apply (read_body_pending _ (install_response (count_request st) r extent) _ Hp) in Eb as [? ?].
      by apply IH.
Qed.

Lemma sized_read_chunk D env st st' env' o :
  sized_env env -> stream_inv D st -> sized_inv st ->
  read_chunk env st = (st', env', o) ->
  sized_inv st' /\ sized_env env' /\ (o = ReadDone (Ok None) -> D = R).
Proof.
  intros Henv Hinv Hs Hread. destruct (inv_read_chunk D env st st' env' o (proj1 Henv) Hinv Hread)
    as [_ Hh]. revert Hread. unfold read_chunk. case_bool_decide as Hp; cbn [negb].
  - destruct (hs_response st) as [body|] eqn:Hr.
    + destruct (read_body body st) as [st1 [o1|]] eqn:Eb;
        destruct (sized_read_body _ _ _ _ _ Hinv Hr Hs Eb) as [K1 K2].
      * intros [= <- <- <-]. split; [done|]. split; [done|]. intros ->. by apply K2.
      * pose proof (inv_read_body _ _ _ _ _ Hinv Hr Eb) as H1. cbn in H1. rewrite app_nil_r in H1.
        apply (read_body_pending _ _ _ Hp) in Eb as [? ?]. intros E.
        by destruct (sized_read_open D env st1 st' env' o Henv H1) as (? & ? & ?).
    + intros E. by destruct (sized_read_open D env st st' env' o Henv Hinv Hp Hr E) as (? & ? & ?).
  - destruct (deliver st) as [st1 o1] eqn:E. intros [= <- <- <-].
    split; [by eapply deliver_sized|]. split; [done|]. intros ->.
    by apply deliver_some in E as [? _].
Qed.

Lemma sized_run ops env st D st' env' bytes :
  sized_env env -> stream_inv D st -> sized_inv st ->
  stream_run ops env st = (st', env', bytes) ->
  stream_inv (D ++ bytes) st' /\ sized_env env' /\ sized_inv st'.
Proof.
  revert env st D bytes; induction ops as [|op ops IH]; intros env st D bytes Henv Hinv Hs;
    cbn [stream_run].
  - intros [= <- <- <-]. by rewrite app_nil_r.
  - destruct op as [| |stress url];
      [|by apply IH; [done|by apply inv_reset|by apply not_sized]
       |by apply IH; [done|by apply inv_replace|by apply not_sized]].
    destruct (read_chunk env st) as [[st1 env1] o] eqn:E.
    destruct (inv_read_chunk D env st st1 env1 o (proj1 Henv) Hinv E) as [H1 _].
    destruct (sized_read_chunk D env st st1 env1 o Henv Hinv Hs E) as (H2 & H3 & _).
    destruct (stream_run ops env1 st1) as [[st2 env2] b] eqn:E2.
    intros [= <- <- <-]. rewrite app_assoc. by apply (IH env1 st1).
Qed.

End Integrity.

(** A response that has not advanced is not followed by another request. *)
Lemma read_body_no_retry body st st' :
  offset st <= hs_response_start st -> hs_pending st = [] -> read_body body st <> (st', None).
Proof.
  revert st; induction body as [|ev body IH]; intros st Ho Hp; cbn [read_body].
  - unfold should_reopen_after_response_eof. destruct (negb _ && negb _); [done|].
    by rewrite (proj2 (Z.leb_le _ _)).
  - destruct ev as [chunk| |]; [| |done].
    + cbn. rewrite Hp. cbn [app]. case_bool_decide as Hc; cbn; [|done]. by apply IH.
    + rewrite Hp. cbn. by rewrite (proj2 (Z.ltb_ge _ _)).
Qed.

Lemma read_open_one_request env st st' env' o :
  hs_pending st = [] -> read_open env st = (st', env', o) ->
  env = env' \/ exists server, env = server :: env'.
Proof.
  intros Hp. destruct env as [|server env]; cbn [read_open]; [intros [= <- <- <-]; by left|].
  destruct (server _ _) as [r| |]; [|by intros [= <- <- <-]; right; exists server..].
  destruct (accept_response _ r) as [[r'|]| |];
    [|by intros [= <- <- <-]; right; exists server..].
  destruct (response_extent r' _) as [extent| |];
    [|by intros [= <- <- <-]; right; exists server..].
  destruct (read_body _ _) as [st2 [o2|]] eqn:Eb.
  - intros [= <- <- <-]. right. by exists server.
  - apply read_body_no_retry in Eb; [done|cbn; unfold offset; cbn; lia|done].
Qed.

Lemma read_open_consumes server env st st' env' o :
  read_open (server :: env) st = (st', env', o) -> (length env' <= length env)%nat.
Proof.
  revert server st; induction env as [|server' env IH]; intros server st; cbn [read_open].
  all: destruct (server _ _) as [r| |]; [|by intros [= <- <- <-]..].
  all: destruct (accept_response _ r) as [[r'|]| |]; [|by intros [= <- <- <-]..].
  all: destruct (response_extent r' _) as [extent| |]; [|by intros [= <- <- <-]..].
  all: destruct (read_body _ _) as [st2 [o2|]]; [by intros [= <- <- <-]|].
  - by intros [= <- <- <-].
  - intros H. apply IH in H. cbn. lia.
Qed.

Lemma read_chunk_requests env st st' env' o :
  read_chunk env st = (st', env', o) -> env = env' \/ exists server, env = server :: env'.
Proof.
  unfold read_chunk. case_bool_decide as Hp; cbn [negb].
  - destruct (hs_response st) as [body|]; [|by apply read_open_one_request].
    destruct (read_body body st) as [st1 [o1|]] eqn:Eb; [intros [= <- <- <-]; by left|].
    apply read_open_one_request. by apply (read_body_pending _ _ _ Hp Eb).
  - intros [= <- <- <-]. by left.
Qed.

(** A read that delivers consumed a request or some of the open response. *)
Lemma read_chunk_progress env st st' env' c :
  read_chunk env st = (st', env', ReadDone (Ok (Some c))) ->
  (length env' < length env)%nat \/ (env' = env /\ (stream_weight st' < stream_weight st)%nat).
Proof.
  unfold read_chunk. case_bool_decide as Hp; cbn [negb].
  - assert (Hopen : forall st0, hs_pending st0 = [] ->
      read_open env st0 = (st', env', ReadDone (Ok (Some c))) -> (length env' < length env)%nat).
    { intros st0 Hp0 E. destruct env as [|server env]; [done|].
      destruct (read_open_one_request _ _ _ _ _ Hp0 E) as [H|[? [= _ ->]]]; [|cbn; lia].
      subst env'. apply read_open_consumes in E. cbn in E. lia. }
    destruct (hs_response st) as [body|] eqn:Hr; [|intros E; left; by apply (Hopen st)].
    destruct (read_body body st) as [st1 [o1|]] eqn:Eb.
    + intros [= <- <- ->]. right. split; [done|]. by apply (read_body_progress body st st1 c).
    + intros E. left. apply (Hopen st1); [|done]. by apply (read_body_pending _ _ _ Hp Eb).
  - destruct (deliver st) as [st1 o1] eqn:E. intros [= <- <- ->]. right. split; [done|].
    by eapply deliver_progress.
Qed.

(** ** Theorems *)

(** C13. Resumption loses and repeats nothing: against servers that send what
    they declare, but may cut any body, fail, stall or answer any request with
    any status, the bytes delivered by any run of reads, resets and URL
    replacements are a prefix of the resource, and the stream's offset is
    their number. *)
Theorem stream_integrity R stress url ops env st env' bytes :
  zlen R <= u64_max -> Forall (honest_server R) env ->
  stream_run ops env (HttpOpusStream_new stress url) = (st, env', bytes) ->
  bytes `prefix_of` R /\ offset st = zlen bytes.
Proof.
  intros HR Henv E.
  destruct (stream_run_inv R HR ops env _ [] _ _ _ Henv (new_stream_inv R stress url) E)
    as [[H1 H2] _].
  split; [by apply prefix_cut in H2|done].
Qed.

(** The end of the stream is the end of the resource: if the servers also
    declare the resource's length, a read that reports the end of the stream,
    after any history, does so only when everything was delivered. *)
Theorem stream_end_is_resource_end R stress url ops env st env' bytes st' env'' :
  zlen R <= u64_max -> Forall (honest_server R) env -> Forall (sized_server R) env ->
  stream_run ops env (HttpOpusStream_new stress url) = (st, env', bytes) ->
  read_chunk env' st = (st', env'', ReadDone (Ok None)) ->
  bytes = R.
Proof.
  intros HR Henv Hsz E Hread.
  destruct (sized_run R HR ops env _ [] _ _ _ (conj Henv Hsz) (new_stream_inv R stress url)
              (not_sized R (HttpOpusStream_new stress url) eq_refl) E) as (H1 & H2 & H3).
  by apply (sized_read_chunk R HR bytes env' st st' env'' _ H2 H1 H3 Hread).
Qed.

(** No reconnect storm: one read sends at most one request, whatever the
    server does; a response that fails before its first byte is reported, not
    retried. *)
Theorem read_chunk_one_request env st st' env' o :
  read_chunk env st = (st', env', o) -> env = env' \/ exists server, env = server :: env'.
Proof. apply read_chunk_requests. Qed.

(** ** Two servers of a five-byte resource *)

(** The first breaks off after two bytes, the second serves the rest with a
    stall. *)
Definition sample_resource : list Z := [1; 2; 3; 4; 5].

Definition breaking_server : Server := fun _ _ =>
  Reply (mkHttpResponse 200 (Some 5) None [Chunk [1; 2]; BodyError]).

Definition resuming_server : Server := fun _ range =>
  if bool_decide (range = range_header 2)
  then Reply (mkHttpResponse 206 (Some 3) (Some (Some (content_range_text 2 4 (Some 5))))
                [Chunk [3]; Stall; Chunk [4; 5]])
  else SendError.

Definition sample_env : list Server := [breaking_server; resuming_server].
Definition no_stress : HttpReadStressProfile := mkHttpReadStressProfile 0 0.

Lemma sample_env_honest : Forall (honest_server sample_resource) sample_env.
Proof.
  constructor; [|constructor; [|constructor]]; intros url start r Hs; cbn.
  - intros [= <-]. split; [done|]. split; [|done]. intros _. by exists [3; 4; 5].
  - unfold resuming_server. case_bool_decide; [|done]. intros [= <-]. split; [|done]. intros _.
    exists 2, 4, (Some 5). split_and!; try done. by intros n [= <-].
Qed.

Lemma sample_env_sized : Forall (sized_server sample_resource) sample_env.
Proof.
  constructor; [|constructor; [|constructor]]; intros url start r Hs; cbn.
  - by intros [= <-].
  - unfold resuming_server. case_bool_decide; [|done]. intros [= <-]. split; [|done]. intros _.
    by exists 2, 4.
Qed.

Definition sample_run : HttpOpusStream * list Server * list Z :=
  stream_run [OpRead; OpRead; OpRead; OpRead] sample_env (HttpOpusStream_new no_stress "u").

Lemma sample_run_eq :
  stream_run [OpRead; OpRead; OpRead; OpRead] sample_env (HttpOpusStream_new no_stress "u")
  = (fst (fst sample_run), snd (fst sample_run), snd sample_run).
Proof. vm_compute. reflexivity. Qed.

Lemma stream_integrity_witness :
  snd sample_run `prefix_of` sample_resource /\ snd sample_run = sample_resource.
Proof.
  split; [|vm_compute; reflexivity].
  assert (HR : zlen sample_resource <= u64_max) by (vm_compute; discriminate).
  exact (proj1 (stream_integrity sample_resource no_stress "u" _ _ _ _ _ HR
    sample_env_honest sample_run_eq)).
Defined.

Lemma stream_end_is_resource_end_witness :
  snd (read_chunk (snd (fst sample_run)) (fst (fst sample_run))) = ReadDone (Ok None) /\
  snd sample_run = sample_resource.
Proof.
  assert (HR : zlen sample_resource <= u64_max) by (vm_compute; discriminate).
  set (r := read_chunk (snd (fst sample_run)) (fst (fst sample_run))).
  assert (E : r = (fst (fst r), snd (fst r), ReadDone (Ok None))) by (vm_compute; reflexivity).
  split; [by rewrite E|].
  exact (stream_end_is_resource_end sample_resource no_stress "u" _ _ _ _ _ _ _ HR
    sample_env_honest sample_env_sized sample_run_eq E).
Defined.

Lemma read_chunk_one_request_witness :
  [breaking_server] = [] \/ exists server, [breaking_server] = [server].
Proof.
  eapply (read_chunk_one_request [breaking_server] (HttpOpusStream_new no_stress "u")).
  vm_compute. reflexivity.
Defined.
