(* ===== verification/Recovery.v ===== *)
(** * Playback sources and their recovery

    crates/discord-voice-service-playback/src/source.rs and recovery.rs: a
    source is a resolved URL with its HTTP stream, its demuxer and the packets
    not yet taken; recovery opens one at a resume position, and keeps a source
    going across timeouts and stale URLs. The playback position is shared
    ([Arc<Mutex<PlaybackPosition>>]) between a source and its worker, so it is a
    cell of a store and the source holds its address. *)

From S2P Require Import Prelude Text OpusQueue WebmDemux Position Selector HttpStream.
From stdpp Require Import prelude strings gmap.
Open Scope Z_scope.

(** ** The world a source lives in *)

(** HTTP servers and music-service answers still to come, and the store of
    shared positions. *)
Record World : Type := mkWorld {
  w_servers : list Server;
  w_yt : list YtMusicAnswer;
  w_cells : gmap nat PlaybackPosition;
  w_next_cell : nat;
  w_stress : HttpReadStressProfile;
}.

Definition set_servers (servers : list Server) (w : World) : World :=
  mkWorld servers (w_yt w) (w_cells w) (w_next_cell w) (w_stress w).
Definition set_yt (yt : list YtMusicAnswer) (w : World) : World :=
  mkWorld (w_servers w) yt (w_cells w) (w_next_cell w) (w_stress w).
Definition update_cell (c : nat) (f : PlaybackPosition -> PlaybackPosition) (w : World) : World :=
  mkWorld (w_servers w) (w_yt w) (alter f c (w_cells w)) (w_next_cell w) (w_stress w).
Definition read_cell (c : nat) (w : World) : PlaybackPosition :=
  default PlaybackPosition_default (w_cells w !! c).

(** [shared_playback_position]: a new cell. *)
Definition shared_playback_position (p : PlaybackPosition) (w : World) : World * nat :=
  let c := w_next_cell w in
  (mkWorld (w_servers w) (w_yt w) (<[c := p]> (w_cells w)) (S c) (w_stress w), c).

(** ** Sources *)

Record PlaybackSource : Type := mkPlaybackSource {
  ps_resolved : ResolvedPlaybackSource;
  ps_stream : HttpOpusStream;
  ps_demux : WebmOpusDemux;
  ps_pending_packets : list DemuxedPacket;
  ps_position : nat;
}.

Definition with_stream (s : PlaybackSource) (stream : HttpOpusStream) : PlaybackSource :=
  mkPlaybackSource (ps_resolved s) stream (ps_demux s) (ps_pending_packets s) (ps_position s).

Definition playable_url (s : PlaybackSource) : string := rps_playable_url (ps_resolved s).

Definition reset_stream_to_current_byte_offset (s : PlaybackSource) : PlaybackSource :=
  with_stream s (set_resume_offset (ps_stream s) (offset (ps_stream s))).

Definition replace_resolved_stream_at_current_byte_offset (stress : HttpReadStressProfile)
    (s : PlaybackSource) (resolved : ResolvedPlaybackSource) : PlaybackSource :=
  let byte_offset := offset (ps_stream s) in
  let stream := set_resume_offset
                  (HttpOpusStream_new stress (rps_playable_url resolved)) byte_offset in
  mkPlaybackSource resolved stream (ps_demux s) (ps_pending_packets s) (ps_position s).

(** [position], the cell with the stream's byte offset. *)
Definition live_position (s : PlaybackSource) (w : World) : PlaybackPosition :=
  set_byte_offset (read_cell (ps_position s) w) (offset (ps_stream s)).

Definition sync_position (s : PlaybackSource) (w : World) : World :=
  update_cell (ps_position s) (fun p => set_byte_offset p (offset (ps_stream s))) w.

Definition source_record_sent (s : PlaybackSource) (duration_samples : Z) (w : World) : World :=
  update_cell (ps_position s) (fun p => record_sent_packet_samples p duration_samples)
    (sync_position s w).

(** ** Recovery *)

Definition OPEN_CHUNK_ATTEMPTS : nat := 2.

Record PlaybackRecoveryMetrics : Type := mkPlaybackRecoveryMetrics {
  rm_http_retry_count : Z;
  rm_url_reresolve_count : Z;
}.

(** [PlaybackResumePosition] is its sample count. *)
Definition resume_from_millis (duration_ms : Z) : Z := samples_from_duration_ms_u64 duration_ms.
Definition resume_millis (samples : Z) : Z := duration_ms_from_samples samples.

Record PlaybackRecovery : Type := mkPlaybackRecovery {
  pr_last_video_id : option string;
  pr_last_resolved : option ResolvedPlaybackSource;
  pr_metrics : PlaybackRecoveryMetrics;
}.

Definition PlaybackRecovery_new : PlaybackRecovery :=
  mkPlaybackRecovery None None (mkPlaybackRecoveryMetrics 0 0).

Definition recovery_reset (r : PlaybackRecovery) : PlaybackRecovery :=
  mkPlaybackRecovery None None (pr_metrics r).

Definition remember_source (video_id : string) (resolved : ResolvedPlaybackSource)
    (r : PlaybackRecovery) : PlaybackRecovery :=
  mkPlaybackRecovery (Some video_id) (Some resolved) (pr_metrics r).

Definition count_http_retries (n : Z) (r : PlaybackRecovery) : PlaybackRecovery :=
  let m := pr_metrics r in
  mkPlaybackRecovery (pr_last_video_id r) (pr_last_resolved r)
    (mkPlaybackRecoveryMetrics (sat_add u64_max (rm_http_retry_count m) n)
       (rm_url_reresolve_count m)).

Definition count_url_reresolve (r : PlaybackRecovery) : PlaybackRecovery :=
  let m := pr_metrics r in
  mkPlaybackRecovery (pr_last_video_id r) (pr_last_resolved r)
    (mkPlaybackRecoveryMetrics (rm_http_retry_count m)
       (sat_add u64_max (rm_url_reresolve_count m) 1)).

(** ** Classification of failures *)

Definition is_stale_source_status (status : Z) : bool :=
  (status =? 401) || (status =? 403) || (status =? 404) || (status =? 410).

Definition is_stale_source_error (err : PlaybackError) : bool :=
  match err with Http (Some status) => is_stale_source_status status | _ => false end.

Definition is_steady_state_read_timeout (err : PlaybackError) : bool :=
  match err with
  | MediaParseDetail message => contains message "timed out reading playback source"
  | _ => false
  end.

Definition should_reresolve_after_open_failure (err : PlaybackError) : bool :=
  is_stale_source_error err ||
  match err with
  | MediaParseDetail message => contains message "timed out opening playback source"
  | _ => false
  end.

Definition should_reresolve_after_steady_read_failure (err : PlaybackError) : bool :=
  is_stale_source_error err || is_steady_state_read_timeout err.

(** ** Reads with a timeout *)

Definition read_chunk_with_timeout (servers : list Server) (url : string) (st : HttpOpusStream)
    : HttpOpusStream * list Server * presult (option (list Z)) :=
  match read_chunk servers st with
  | (st', servers', ReadDone r) => (st', servers', r)
  | (st', servers', ReadTimedOut) =>
      (st', servers', Err (MediaParseDetail ("timed out reading playback source for " +:+ url)))
  end.

(** The retries left after [retry_count] timeouts. *)
Fixpoint opening_attempts (attempts : nat) (retry_count : Z) (servers : list Server)
    (url : string) (st : HttpOpusStream)
    : HttpOpusStream * list Server * presult (option (list Z) * Z) :=
  match attempts with
  | O => (st, servers, Panic)
  | S remaining =>
      match read_chunk servers st with
      | (st', servers', ReadDone r) => (st', servers', (fun chunk => (chunk, retry_count)) <$> r)
      | (st', servers', ReadTimedOut) =>
          match remaining with
          | O => (st', servers',
                  Err (MediaParseDetail ("timed out opening playback source for " +:+ url)))
          | S _ => opening_attempts remaining (retry_count + 1) servers' url st'
          end
      end
  end.

Definition read_opening_chunk (servers : list Server) (url : string) (st : HttpOpusStream) :=
  opening_attempts OPEN_CHUNK_ATTEMPTS 0 servers url st.

(** ** Opening at a position *)

Definition packet_overlaps_resume (packet : DemuxedPacket) (resume : Z) : bool :=
  resume <? packet_end packet.

(** The local variables of [open_from_position]. *)
Record Opening : Type := mkOpening {
  o_stream : HttpOpusStream;
  o_demux : WebmOpusDemux;
  o_pending : list DemuxedPacket;
  o_position : PlaybackPosition;
}.

(** Every packet is recorded; those that end after the resume position are
    kept. *)
Definition keep_packets (resume : Z) (packets : list DemuxedPacket) (o : Opening) : Opening :=
  fold_left (fun o packet =>
    mkOpening (o_stream o) (o_demux o)
      (if packet_overlaps_resume packet resume then o_pending o ++ [packet] else o_pending o)
      (record_buffered (o_position o) packet)) packets o.

Section Opening.
Context `{W : WebmIterable}.

(** Feed one chunk to the demuxer and keep its packets. *)
Definition feed_chunk (resume : Z) (chunk : list Z) (o : Opening) : presult Opening :=
  let '(demux, r) := drain_packets (push_bytes (o_demux o) chunk) in
  packets ← r;
  Ok (keep_packets resume packets (mkOpening (o_stream o) demux (o_pending o) (o_position o))).

Definition before_resume (resume : Z) (o : Opening) : bool :=
  bool_decide (o_pending o = []) || (pp_timestamp_samples (o_position o) <? resume).

(** The [while] loop; [Panic] stands for running out of fuel. *)
Fixpoint skip_to_resume (fuel : nat) (url : string) (resume : Z) (servers : list Server)
    (o : Opening) : list Server * presult Opening :=
  if negb (before_resume resume o) then (servers, Ok o)
  else
    match fuel with
    | O => (servers, Panic)
    | S fuel' =>
        match read_chunk_with_timeout servers url (o_stream o) with
        | (_, servers', Err e) => (servers', Err e)
        | (_, servers', Panic) => (servers', Panic)
        | (st', servers', Ok None) =>
            (servers', Ok (mkOpening st' (o_demux o) (o_pending o) (o_position o)))
        | (st', servers', Ok (Some chunk)) =>
            match feed_chunk resume chunk
                    (mkOpening st' (o_demux o) (o_pending o) (o_position o)) with
            | Err e => (servers', Err e)
            | Panic => (servers', Panic)
            | Ok o' => skip_to_resume fuel' url resume servers' o'
            end
        end
    end.

Abbreviation rstm := (stm (PlaybackRecovery * World) PlaybackError).

Definition modify_rec (f : PlaybackRecovery -> PlaybackRecovery) : rstm unit :=
  modify (fun s => (f (fst s), snd s)).
Definition modify_world (f : World -> World) : rstm unit :=
  modify (fun s => (fst s, f (snd s))).

Definition ended_before_resume (resume : Z) (p : PlaybackPosition) : PlaybackError :=
  MediaParseDetail
    ("playback source ended before requested resume position "
     +:+ u64_to_string (resume_millis resume) +:+ "ms/" +:+ u64_to_string resume
     +:+ " samples; reached " +:+ u64_to_string (pp_timestamp_ms p) +:+ "ms/"
     +:+ u64_to_string (pp_timestamp_samples p) +:+ " samples").

Definition open_from_position (fuel : nat) (resolved : ResolvedPlaybackSource) (resume : Z)
    : rstm PlaybackSource :=
  w ← gets snd;
  let url := rps_playable_url resolved in
  let stream := HttpOpusStream_new (w_stress w) url in
  let '(stream, servers, r) := read_opening_chunk (w_servers w) url stream in
  _ ← modify_world (set_servers servers);
  '(chunk, retry_count) ← lift r;
  _ ← modify_rec (count_http_retries retry_count);
  chunk ← lift (ok_or chunk (MediaParse "unexpected end of stream"));
  o ← lift (feed_chunk resume chunk
              (mkOpening stream WebmOpusDemux_default [] PlaybackPosition_default));
  w ← gets snd;
  let '(servers, r) := skip_to_resume fuel url resume (w_servers w) o in
  _ ← modify_world (set_servers servers);
  o ← lift r;
  if pp_timestamp_samples (o_position o) <? resume
  then fail (ended_before_resume resume (o_position o))
  else
    let position :=
      if negb (resume =? 0) then set_sent_duration_samples (o_position o) resume
      else o_position o in
    w ← gets snd;
    let '(w', c) := shared_playback_position position w in
    _ ← modify_world (fun _ => w');
    mret (mkPlaybackSource resolved (o_stream o) (o_demux o) (o_pending o) c).

(** A call of [resolve_playback_source] takes the next answer; without one the
    call does not return an answer in time and fails. *)
Definition resolve (video_id : string) : rstm ResolvedPlaybackSource :=
  w ← gets snd;
  match w_yt w with
  | [] => fail (GrpcStatus "no answer")
  | yt :: rest =>
      _ ← modify_world (set_yt rest);
      lift (resolve_playback_source yt video_id)
  end.

Definition try_reopen_existing (fuel : nat) (resume : Z) : rstm PlaybackSource :=
  r ← gets fst;
  resolved ← lift (ok_or (pr_last_resolved r)
                     (PInvalidState "no playback source available to reopen"));
  open_from_position fuel resolved resume.

(** A result as a value: [match ... .await { Ok(..) => .., Err(..) => .. }]. *)
Definition catch {A} (m : rstm A) : rstm (presult A) :=
  fun s => match m s with
           | (s', Panic) => (s', Panic)
           | (s', r) => (s', Ok r)
           end.

Definition resolve_and_open (fuel : nat) (video_id : string) (resume : Z) : rstm PlaybackSource :=
  resolved ← resolve video_id;
  r ← catch (open_from_position fuel resolved resume);
  match r with
  | Ok source =>
      _ ← modify_rec (remember_source video_id (ps_resolved source));
      mret source
  | Err err =>
      if should_reresolve_after_open_failure err then
        _ ← modify_rec count_url_reresolve;
        resolved ← resolve video_id;
        source ← open_from_position fuel resolved resume;
        _ ← modify_rec (remember_source video_id (ps_resolved source));
        mret source
      else fail err
  | Panic => lift Panic
  end.

Definition recover (fuel : nat) (video_id : string) (resume : Z) : rstm PlaybackSource :=
  r ← gets fst;
  if bool_decide (pr_last_video_id r = Some video_id) then
    reopened ← catch (try_reopen_existing fuel resume);
    match reopened with
    | Ok source => mret source
    | _ => resolve_and_open fuel video_id resume
    end
  else resolve_and_open fuel video_id resume.

(** ** Steady reads *)

(** [read_source_chunk_with_timeout]: the source with its stream after the
    read, and the result. *)
Definition read_source_chunk (s : PlaybackSource)
    : rstm (PlaybackSource * presult (option (list Z))) :=
  w ← gets snd;
  let '(stream, servers, r) := read_chunk_with_timeout (w_servers w) (playable_url s) (ps_stream s) in
  _ ← modify_world (set_servers servers);
  mret (with_stream s stream, r).

(** The source is changed in place: it is returned on errors too. *)
Definition reresolve_steady_source (video_id : option string) (s : PlaybackSource)
    (original_err : PlaybackError) : rstm (PlaybackSource * presult unit) :=
  match video_id with
  | None => mret (s, Err original_err)
  | Some video_id =>
      _ ← modify_rec count_url_reresolve;
      r ← catch (resolve video_id);
      match r with
      | Ok resolved =>
          w ← gets snd;
          let s' := replace_resolved_stream_at_current_byte_offset (w_stress w) s resolved in
          _ ← modify_rec (remember_source video_id (ps_resolved s'));
          mret (s', Ok tt)
      | Err e => mret (s, Err e)
      | Panic => mret (s, Panic)
      end
  end.

(** Resolve again, then read once more. *)
Definition reresolve_and_read (video_id : option string) (s : PlaybackSource) (err : PlaybackError)
    : rstm (PlaybackSource * presult (option (list Z))) :=
  '(s', r) ← reresolve_steady_source video_id s err;
  match r with
  | Ok _ => read_source_chunk s'
  | Err e => mret (s', Err e)
  | Panic => mret (s', Panic)
  end.

Definition read_stream_chunk (video_id : option string) (s : PlaybackSource)
    : rstm (PlaybackSource * presult (option (list Z))) :=
  '(s1, r1) ← read_source_chunk s;
  match r1 with
  | Ok chunk => mret (s1, Ok chunk)
  | Panic => mret (s1, Panic)
  | Err err =>
      if is_steady_state_read_timeout err then
        _ ← modify_rec (count_http_retries 1);
        '(s2, r2) ← read_source_chunk (reset_stream_to_current_byte_offset s1);
        match r2 with
        | Ok chunk => mret (s2, Ok chunk)
        | Panic => mret (s2, Panic)
        | Err err2 =>
            if should_reresolve_after_steady_read_failure err2
            then reresolve_and_read video_id s2 err2
            else mret (s2, Err err2)
        end
      else if should_reresolve_after_steady_read_failure err
      then reresolve_and_read video_id s1 err
      else mret (s1, Err err)
  end.

(** [n] steady reads one after the other; the bytes they deliver. A failed
    read delivers nothing and the source stays usable. *)
Fixpoint steady_reads (n : nat) (video_id : option string) (s : PlaybackSource)
    : rstm (PlaybackSource * list Z) :=
  match n with
  | O => mret (s, [])
  | S n' =>
      '(s1, r) ← read_stream_chunk video_id s;
      '(s2, bytes) ← steady_reads n' video_id s1;
      mret (s2, match r with Ok (Some c) => c | _ => [] end ++ bytes)
  end.

(** ** Lemmas: steady reads are runs of the stream *)

Definition result_bytes (r : presult (option (list Z))) : list Z :=
  match r with Ok (Some c) => c | _ => [] end.

(** From [(s, w)] the run [ops] leads to [(s', w')] and delivers [bytes]. *)
Definition source_run (ops : list stream_op) (s : PlaybackSource) (w : World)
    (s' : PlaybackSource) (w' : World) (bytes : list Z) : Prop :=
  stream_run ops (w_servers w) (ps_stream s) = (ps_stream s', w_servers w', bytes).

Lemma source_run_app ops1 ops2 s w s1 w1 b1 s2 w2 b2 :
  source_run ops1 s w s1 w1 b1 -> source_run ops2 s1 w1 s2 w2 b2 ->
  source_run (ops1 ++ ops2) s w s2 w2 (b1 ++ b2).
Proof. unfold source_run. intros H1 H2. by rewrite stream_run_app, H1, H2. Qed.

Definition is_read (o : stream_op) : bool := match o with OpRead => true | _ => false end.
Definition reads (ops : list stream_op) : nat := length (List.filter is_read ops).

Lemma reads_app a b : reads (a ++ b) = (reads a + reads b)%nat.
Proof. unfold reads. by rewrite List.filter_app, length_app. Qed.

(** The binds of a state-passing computation applied to a state. *)
Ltac run_stm :=
  unfold modify_rec, modify_world in *;
  unfold mbind, stm_bind, gets, modify, mret, stm_ret, lift, fail in *; cbn [fst snd] in *.

Lemma read_source_chunk_run s rec w :
  exists s' w' r, read_source_chunk s (rec, w) = ((rec, w'), Ok (s', r)) /\
    source_run [OpRead] s w s' w' (result_bytes r).
Proof.
  unfold read_source_chunk, source_run, read_chunk_with_timeout. run_stm. cbn [stream_run].
  destruct (read_chunk (w_servers w) (ps_stream s)) as [[st1 env1] [r1|]];
    eexists _, _, _; (split; [reflexivity|]); cbn; by rewrite ?app_nil_r.
Qed.

(** A step of recovery that runs the stream by at most [n] reads. *)
Definition runs_within (n : nat) (s : PlaybackSource) (w : World)
    (out : PlaybackRecovery * World * presult (PlaybackSource * presult (option (list Z)))) : Prop :=
  exists rec' w' s' r ops, out = ((rec', w'), Ok (s', r)) /\
    source_run ops s w s' w' (result_bytes r) /\ (reads ops <= n)%nat.

Lemma runs_within_done n s w rec s' w' r ops :
  source_run ops s w s' w' (result_bytes r) -> (reads ops <= n)%nat ->
  runs_within n s w ((rec, w'), Ok (s', r)).
Proof. intros. by exists rec, w', s', r, ops. Qed.

Lemma resolve_spec video_id rec w :
  exists w' r, resolve video_id (rec, w) = ((rec, w'), r) /\ w_servers w' = w_servers w.
Proof.
  unfold resolve. run_stm. destruct (w_yt w) as [|yt rest]; by eexists _, _.
Qed.

Lemma resolve_no_panic video_id s :
  (forall yt, yt ∈ w_yt (snd s) -> no_panic (resolve_playback_source yt video_id)) ->
  no_panic (snd (resolve video_id s)).
Proof.
  intros H. unfold resolve. run_stm. destruct (w_yt (snd s)) as [|yt rest]; [done|].
  cbn. apply H. left.
Qed.

Lemma reresolve_and_read_runs video_id s err rec w out :
  reresolve_and_read video_id s err (rec, w) = out -> snd out <> Panic ->
  runs_within 1 s w out.
Proof.
  unfold reresolve_and_read, reresolve_steady_source, catch. intros <- Hp. run_stm.
  destruct video_id as [video_id|];
    [|by apply (runs_within_done _ _ _ _ _ _ (Err err) []); [|cbn; lia]].
  destruct (resolve_spec video_id (count_url_reresolve rec) w) as (w1 & r & E & Hw).
  cbn [fst snd] in *. rewrite E in *. destruct r as [resolved|e|]; cbn [fst snd] in *; [| |done].
  - set (s1 := replace_resolved_stream_at_current_byte_offset (w_stress w1) s resolved) in *.
    destruct (read_source_chunk_run s1 (remember_source video_id (ps_resolved s1)
      (count_url_reresolve rec)) w1) as (s2 & w2 & r2 & E2 & Hr). rewrite E2.
    apply (runs_within_done _ _ _ _ _ _ _
             [OpReplace (w_stress w1) (rps_playable_url resolved); OpRead]); [|cbn; lia].
    unfold source_run in *. rewrite Hw in Hr. exact Hr.
  - apply (runs_within_done _ _ _ _ _ _ (Err e) []); [|cbn; lia].
    unfold source_run. cbn. by rewrite Hw.
Qed.

Lemma runs_within_after n m s w s1 w1 ops b out :
  source_run ops s w s1 w1 b -> b = [] -> (reads ops <= n)%nat -> runs_within m s1 w1 out ->
  runs_within (n + m) s w out.
Proof.
  intros H1 -> Hn (rec' & w' & s' & r & ops2 & -> & H2 & Hm).
  apply (runs_within_done _ _ _ _ _ _ _ (ops ++ ops2)).
  - by apply (source_run_app ops ops2 s w s1 w1 [] s' w' (result_bytes r)).
  - rewrite reads_app. lia.
Qed.

Lemma read_stream_chunk_runs video_id s rec w out :
  read_stream_chunk video_id s (rec, w) = out -> snd out <> Panic -> runs_within 3 s w out.
Proof.
  unfold read_stream_chunk. intros <- Hp. run_stm.
  destruct (read_source_chunk_run s rec w) as (s1 & w1 & r1 & E1 & H1). rewrite E1 in *.
  destruct r1 as [chunk|err|];
    [by apply (runs_within_done _ _ _ _ _ _ _ [OpRead]); [|cbn; lia]| |
     by apply (runs_within_done _ _ _ _ _ _ Panic [OpRead]); [|cbn; lia]].
  destruct (is_steady_state_read_timeout err).
  - destruct (read_source_chunk_run (reset_stream_to_current_byte_offset s1)
      (count_http_retries 1 rec) w1) as (s2 & w2 & r2 & E2 & H2).
    cbn [fst snd] in *. rewrite E2 in *.
    assert (H12 : source_run [OpRead; OpReset; OpRead] s w s2 w2 (result_bytes r2)).
    { apply (source_run_app [OpRead] [OpReset; OpRead] s w s1 w1 []); [done|]. exact H2. }
    destruct r2 as [chunk|err2|];
      [by apply (runs_within_done _ _ _ _ _ _ _ [OpRead; OpReset; OpRead]); [|cbn; lia]| |
       by apply (runs_within_done _ _ _ _ _ _ Panic [OpRead; OpReset; OpRead]); [|cbn; lia]].
    destruct (should_reresolve_after_steady_read_failure err2);
      [|by apply (runs_within_done _ _ _ _ _ _ _ [OpRead; OpReset; OpRead]); [|cbn; lia]].
    apply (runs_within_after 2 1 s w s2 w2 [OpRead; OpReset; OpRead] []); [done..|].
    eapply reresolve_and_read_runs; [reflexivity|exact Hp].
  - destruct (should_reresolve_after_steady_read_failure err);
      [|by apply (runs_within_done _ _ _ _ _ _ _ [OpRead]); [|cbn; lia]].
    apply (runs_within_after 2 1 s w s1 w1 [OpRead] []); [done|done|cbn; lia|].
    eapply reresolve_and_read_runs; [reflexivity|exact Hp].
Qed.

(** ** Lemmas: opening at a position *)

Definition overlapping (resume : Z) (packets : list DemuxedPacket) : list DemuxedPacket :=
  List.filter (fun p => packet_overlaps_resume p resume) packets.

Lemma keep_packets_spec resume packets o :
  keep_packets resume packets o =
  mkOpening (o_stream o) (o_demux o) (o_pending o ++ overlapping resume packets)
    (fold_left record_buffered packets (o_position o)).
Proof.
  unfold keep_packets, overlapping. revert o; induction packets as [|p packets IH]; intros o; cbn.
  - rewrite app_nil_r. by destruct o.
  - rewrite IH. cbn. destruct (packet_overlaps_resume p resume); by rewrite <- ?app_assoc.
Qed.

(** What the opening has done: only reads of the stream, their bytes all given
    to the demuxer, and every packet sorted by the resume position. *)
Record opened (resume : Z) (servers0 : list Server) (stream0 : HttpOpusStream)
    (chunks : list (list Z)) (packets : list DemuxedPacket) (servers : list Server)
    (o : Opening) : Prop := {
  op_stream : exists ops, Forall (fun op => op = OpRead) ops /\
    stream_run ops servers0 stream0 = (o_stream o, servers, concat chunks);
  op_demux : demux_chunks WebmOpusDemux_default chunks = (o_demux o, Ok packets);
  op_pending : o_pending o = overlapping resume packets;
  op_position : o_position o = fold_left record_buffered packets PlaybackPosition_default;
}.

Lemma stream_run_snoc ops env st st1 env1 b st2 env2 o :
  stream_run ops env st = (st1, env1, b) -> read_chunk env1 st1 = (st2, env2, o) ->
  stream_run (ops ++ [OpRead]) env st = (st2, env2, b ++ delivered_of o).
Proof.
  intros H1 H2. rewrite stream_run_app, H1. cbn. rewrite H2. by rewrite app_nil_r.
Qed.

Lemma opened_feed resume servers0 stream0 chunks packets servers o st servers' chunk o' :
  opened resume servers0 stream0 chunks packets servers o ->
  read_chunk servers (o_stream o) = (st, servers', ReadDone (Ok (Some chunk))) ->
  feed_chunk resume chunk (mkOpening st (o_demux o) (o_pending o) (o_position o)) = Ok o' ->
  exists packets', opened resume servers0 stream0 (chunks ++ [chunk]) (packets ++ packets')
    servers' o'.
Proof.
  intros [(ops & Hops & H1) H2 H3 H4] Hread. unfold feed_chunk. cbn [o_demux o_stream o_pending o_position].
  destruct (drain_packets _) as [demux r] eqn:Ed.
  destruct r as [pk| |]; cbn [mbind result_bind]; [|done|done]. intros [= <-].
  exists pk. rewrite keep_packets_spec. cbn. split; cbn.
  - exists (ops ++ [OpRead]). split; [apply Forall_app; by repeat constructor|].
    rewrite concat_app. cbn. rewrite app_nil_r. by apply (stream_run_snoc _ _ _ _ _ _ _ _ _ H1 Hread).
  - rewrite (demux_chunks_snoc _ _ _ _ _ H2), Ed. done.
  - unfold overlapping. by rewrite List.filter_app, H3.
  - by rewrite fold_left_app, H4.
Qed.

Lemma opened_read_end resume servers0 stream0 chunks packets servers o st servers' oc :
  opened resume servers0 stream0 chunks packets servers o ->
  read_chunk servers (o_stream o) = (st, servers', oc) -> delivered_of oc = [] ->
  opened resume servers0 stream0 chunks packets servers'
    (mkOpening st (o_demux o) (o_pending o) (o_position o)).
Proof.
  intros [(ops & Hops & H1) H2 H3 H4] Hread Hd. split; try done.
  exists (ops ++ [OpRead]). split; [apply Forall_app; by repeat constructor|].
  rewrite (stream_run_snoc _ _ _ _ _ _ _ _ _ H1 Hread), Hd. by rewrite app_nil_r.
Qed.

Lemma skip_to_resume_opened fuel url resume servers0 stream0 chunks packets servers o servers' o' :
  opened resume servers0 stream0 chunks packets servers o ->
  skip_to_resume fuel url resume servers o = (servers', Ok o') ->
  exists chunks' packets', opened resume servers0 stream0 chunks' packets' servers' o'.
Proof.
  revert chunks packets servers o; induction fuel as [|fuel IH];
    intros chunks packets servers o Ho; cbn [skip_to_resume];
    destruct (negb _); try (intros [= <- <-]; by exists chunks, packets).
  unfold read_chunk_with_timeout.
  destruct (read_chunk servers (o_stream o)) as [[st1 servers1] [[[chunk|]| |]|]] eqn:Er;
    try (by intros [=]).
  - destruct (feed_chunk _ _ _) as [o1| |] eqn:Ef; try (by intros [=]).
    destruct (opened_feed _ _ _ _ _ _ _ _ _ _ _ Ho Er Ef) as (pk & Ho1). by apply (IH _ _ _ _ Ho1).
  - intros [= <- <-]. exists chunks, packets. by eapply opened_read_end.
Qed.

(** The opening chunk, possibly after a timeout. *)
Lemma opening_attempts_opened n resume servers0 stream0 retry servers st url st' servers' chunk rc :
  opened resume servers0 stream0 [] [] servers
    (mkOpening st WebmOpusDemux_default [] PlaybackPosition_default) ->
  opening_attempts n retry servers url st = (st', servers', Ok (Some chunk, rc)) ->
  exists servers1 st1, opened resume servers0 stream0 [] [] servers1
      (mkOpening st1 WebmOpusDemux_default [] PlaybackPosition_default) /\
    read_chunk servers1 st1 = (st', servers', ReadDone (Ok (Some chunk))).
Proof.
  revert retry servers st; induction n as [|n IH]; intros retry servers st Ho;
    cbn [opening_attempts]; [done|].
  destruct (read_chunk servers st) as [[st1 servers1] [r|]] eqn:Er.
  - intros [= <- <- E]. destruct r as [c| |]; cbn in E; [|done|done].
    injection E as -> _. by exists servers, st.
  - destruct n; [done|]. intros E. eapply IH; [|exact E].
    by apply (opened_read_end _ _ _ _ _ _ _ _ _ _ Ho Er).
Qed.

Lemma opened_start resume servers stream :
  opened resume servers stream [] [] servers
    (mkOpening stream WebmOpusDemux_default [] PlaybackPosition_default).
Proof. split; [by exists []|done|done|done]. Qed.

(** ** Lemmas: termination *)

Lemma read_body_no_panic body st st' o :
  read_body body st = (st', Some o) -> o <> ReadDone Panic.
Proof.
  revert st; induction body as [|ev body IH]; intros st; cbn [read_body].
  - unfold should_reopen_after_response_eof. destruct (negb _ && negb _); [by intros [= <- <-]|].
    zcase; by intros [= <- <-].
  - destruct ev as [chunk| |].
    + destruct (negb _); [by intros [= <- <-]|apply IH].
    + destruct (negb _); [by intros [= <- <-]|]. zcase; by intros [= <- <-].
    + by intros [= <- <-].
Qed.

Lemma accept_response_no_panic start r : no_panic (accept_response start r).
Proof.
  unfold accept_response. destruct (_ && _); [done|]. destruct (_ && _); [done|].
  apply no_panic_bind; [|done]. unfold validate_resume_response.
  zcase; [done|]. destruct (negb _); [done|]. destruct (r_content_range r) as [[?|]|]; [|done|done].
  by destruct (negb _).
Qed.

Lemma response_extent_no_panic r start : no_panic (response_extent r start).
Proof.
  unfold response_extent. destruct (r_content_range r) as [[s|]|]; [|done|done].
  destruct (parse_content_range s); [|done]. by destruct (negb _).
Qed.

Lemma read_open_no_panic env st st' env' o :
  read_open env st = (st', env', o) -> o <> ReadDone Panic.
Proof.
  revert st; induction env as [|server env IH]; intros st; cbn [read_open];
    [by intros [= <- <- <-]|].
  destruct (server _ _) as [r| |]; [|by intros [= <- <- <-]..].
  pose proof (accept_response_no_panic (offset st) r) as Ha.
  destruct (accept_response _ r) as [[r'|]| |]; [|by intros [= <- <- <-]..|done].
  pose proof (response_extent_no_panic r' (offset st)) as He.
  destruct (response_extent r' _) as [extent| |]; [|by intros [= <- <- <-]|done].
  destruct (read_body _ _) as [st2 [o2|]] eqn:Eb; [|apply IH].
  intros [= <- <- <-]. by eapply read_body_no_panic.
Qed.

Lemma read_chunk_no_panic env st st' env' o :
  read_chunk env st = (st', env', o) -> o <> ReadDone Panic.
Proof.
  unfold read_chunk. destruct (negb _); [by intros [= <- <- <-]|].
  destruct (hs_response st); [|apply read_open_no_panic].
  destruct (read_body _ _) as [st1 [o1|]] eqn:Eb; [|apply read_open_no_panic].
  intros [= <- <- <-]. by eapply read_body_no_panic.
Qed.

Lemma feed_chunk_no_panic `{NP : !WebmNoPanic} resume chunk o : no_panic (feed_chunk resume chunk o).
Proof.
  unfold feed_chunk. pose proof (drain_packets_no_panic (push_bytes (o_demux o) chunk)) as H.
  destruct (drain_packets _) as [demux r]. cbn in H. by destruct r.
Qed.

Lemma feed_chunk_stream resume chunk o o' :
  feed_chunk resume chunk o = Ok o' -> o_stream o' = o_stream o.
Proof.
  unfold feed_chunk. destruct (drain_packets _) as [demux [pk| |]]; cbn; [|done|done].
  intros [= <-]. by rewrite keep_packets_spec.
Qed.

Lemma skip_to_resume_terminates `{NP : !WebmNoPanic} url resume servers o :
  exists fuel0, forall fuel, (fuel0 <= fuel)%nat ->
  no_panic (snd (skip_to_resume fuel url resume servers o)).
Proof.
  remember (length servers) as n eqn:En. revert servers o En.
  induction (lt_wf n) as [n _ IHn]. intros servers o En.
  remember (stream_weight (o_stream o)) as k eqn:Ek. revert o Ek.
  induction (lt_wf k) as [k _ IHk]. intros o Ek.
  destruct (read_chunk servers (o_stream o)) as [[st1 servers1] oc] eqn:Er.
  pose proof (read_chunk_no_panic _ _ _ _ _ Er) as Hnp.
  destruct (feed_chunk resume (delivered_of oc)
    (mkOpening st1 (o_demux o) (o_pending o) (o_position o))) as [o1| |] eqn:Ef.
  - assert (exists fuel1, oc = ReadDone (Ok (Some (delivered_of oc))) ->
      forall fuel, (fuel1 <= fuel)%nat ->
      no_panic (snd (skip_to_resume fuel url resume servers1 o1))) as [fuel1 H1].
    { destruct oc as [[[c|]| |]|]; try (by exists O). cbn in Ef.
      pose proof (feed_chunk_stream _ _ _ _ Ef) as Hs. cbn in Hs.
      destruct (read_chunk_progress _ _ _ _ _ Er) as [Hlt|[-> Hlt]].
      - destruct (IHn (length servers1)) with (servers := servers1) (o := o1) as [f Hf];
          [lia|done|]. by exists f.
      - destruct (IHk (stream_weight (o_stream o1))) with (o := o1) as [f Hf];
          [rewrite Hs; lia|done|]. by exists f. }
    exists (S fuel1). intros [|fuel] Hf; [lia|]. cbn [skip_to_resume].
    destruct (negb _); [done|]. unfold read_chunk_with_timeout. rewrite Er.
    destruct oc as [[[c|]| |]|]; try done. cbn in Ef. rewrite Ef. apply H1; [done|lia].
  - exists 1%nat. intros [|fuel] Hf; [lia|]. cbn [skip_to_resume].
    destruct (negb _); [done|]. unfold read_chunk_with_timeout. rewrite Er.
    destruct oc as [[[c|]| |]|]; try done. cbn in Ef. by rewrite Ef.
  - pose proof (feed_chunk_no_panic resume (delivered_of oc)
      (mkOpening st1 (o_demux o) (o_pending o) (o_position o))) as H. by rewrite Ef in H.
Qed.

(** ** Lemmas: progress of the steady reads *)

(** [n] servers and [k] weight are left: fewer than before. *)
Definition less_left (servers' servers : list Server) (k' k : nat) : Prop :=
  (length servers' < length servers)%nat \/ (servers' = servers /\ (k' < k)%nat).

Lemma read_source_chunk_progress s rec w rec' w' s' r :
  read_source_chunk s (rec, w) = ((rec', w'), Ok (s', r)) ->
  (length (w_servers w') <= length (w_servers w))%nat /\
  (forall c, r = Ok (Some c) ->
     less_left (w_servers w') (w_servers w) (stream_weight (ps_stream s')) (stream_weight (ps_stream s))).
Proof.
  unfold read_source_chunk, read_chunk_with_timeout. run_stm.
  destruct (read_chunk (w_servers w) (ps_stream s)) as [[st1 env1] o] eqn:E.
  assert (Hle : (length env1 <= length (w_servers w))%nat).
  { destruct (read_chunk_requests _ _ _ _ _ E) as [->|[? ->]]; cbn; lia. }
  destruct o as [r1|]; intros [= <- <- <- <-]; cbn; (split; [done|]); [|done].
  intros c ->. by apply (read_chunk_progress _ _ _ _ c).
Qed.

(** A stream without a response delivers only after a request. *)
Lemma less_left_fresh servers' servers k : less_left servers' servers k 0 ->
  (length servers' < length servers)%nat.
Proof. intros [H|[_ H]]; [done|lia]. Qed.

Lemma reresolve_and_read_progress v s e rec w rec' w' s' c :
  reresolve_and_read v s e (rec, w) = ((rec', w'), Ok (s', Ok (Some c))) ->
  (length (w_servers w') < length (w_servers w))%nat.
Proof.
  unfold reresolve_and_read, reresolve_steady_source, catch. run_stm.
  destruct v as [v|]; [|done]. cbn [fst snd].
  destruct (resolve_spec v (count_url_reresolve rec) w) as (w1 & r & E & Hw). rewrite E.
  destruct r as [resolved|err|]; [|done|done]. cbn [fst snd]. intros H.
  apply read_source_chunk_progress in H as [_ H]. specialize (H c eq_refl).
  rewrite Hw in H. by apply less_left_fresh in H.
Qed.

Lemma read_stream_chunk_progress v s rec w rec' w' s' c :
  read_stream_chunk v s (rec, w) = ((rec', w'), Ok (s', Ok (Some c))) ->
  less_left (w_servers w') (w_servers w) (stream_weight (ps_stream s')) (stream_weight (ps_stream s)).
Proof.
  unfold read_stream_chunk. run_stm.
  destruct (read_source_chunk s (rec, w)) as [[rec1 w1] [[s1 r1]| |]] eqn:E1; [|done|done].
  apply read_source_chunk_progress in E1 as [Hle1 Hp1].
  destruct r1 as [ch|err|]; [intros [= <- <- <- ->]; by apply (Hp1 c)| |done].
  destruct (is_steady_state_read_timeout err).
  - cbn [fst snd].
    destruct (read_source_chunk _ (count_http_retries 1 rec1, w1))
      as [[rec2 w2] [[s2 r2]| |]] eqn:E2; [|done|done].
    apply read_source_chunk_progress in E2 as [Hle2 Hp2].
    destruct r2 as [ch|err2|]; [intros [= <- <- <- ->]| |done].
    + left. specialize (Hp2 c eq_refl). apply less_left_fresh in Hp2. lia.
    + destruct (should_reresolve_after_steady_read_failure err2); [|done].
      intros H. apply reresolve_and_read_progress in H. left. lia.
  - destruct (should_reresolve_after_steady_read_failure err); [|done].
    intros H. apply reresolve_and_read_progress in H. left. lia.
Qed.

(** ** Lemmas: the opened source *)

Lemma record_buffered_sent packets p :
  pp_sent_duration_samples (fold_left record_buffered packets p) = pp_sent_duration_samples p.
Proof. apply record_buffered_run. Qed.

Lemma set_sent_same p : set_sent_duration_samples p (pp_sent_duration_samples p) = p.
Proof. by destruct p. Qed.

(** What [open_from_position] gives: [opened], with the position in a new
    cell. *)
Definition opened_source (resolved : ResolvedPlaybackSource) (resume : Z) (w w' : World)
    (s : PlaybackSource) (chunks : list (list Z)) (packets : list DemuxedPacket) : Prop :=
  opened resume (w_servers w)
    (HttpOpusStream_new (w_stress w) (rps_playable_url resolved)) chunks packets (w_servers w')
    (mkOpening (ps_stream s) (ps_demux s) (ps_pending_packets s)
       (fold_left record_buffered packets PlaybackPosition_default)) /\
  ps_position s = w_next_cell w /\
  read_cell (ps_position s) w'
  = set_sent_duration_samples (fold_left record_buffered packets PlaybackPosition_default) resume /\
  resume <= pp_timestamp_samples (read_cell (ps_position s) w').

Lemma open_from_position_opened fuel resolved resume rec w rec' w' s :
  open_from_position fuel resolved resume (rec, w) = ((rec', w'), Ok s) ->
  exists chunks packets, opened_source resolved resume w w' s chunks packets.
Proof.
  unfold open_from_position. run_stm.
  destruct (read_opening_chunk _ _ _) as [[st1 servers1] r1] eqn:E1.
  destruct r1 as [[c rc]| |]; cbn [fst snd ok_or]; [|done|done].
  destruct c as [chunk|]; cbn [fst snd ok_or]; [|done].
  destruct (opening_attempts_opened _ resume _ _ _ _ _ _ _ _ _ _ (opened_start _ _ _) E1)
    as (servers0 & st0 & Ho & Hr).
  destruct (feed_chunk _ _ _) as [o| |] eqn:Ef; cbn [fst snd]; [|done|done].
  destruct (opened_feed _ _ _ _ _ _ _ _ _ _ _ Ho Hr Ef) as (pk & Ho1).
  destruct (skip_to_resume _ _ _ _ _) as [servers2 r2] eqn:Es.
  destruct r2 as [o2| |]; cbn [fst snd]; [|done|done].
  destruct (skip_to_resume_opened _ _ _ _ _ _ _ _ _ _ _ Ho1 Es) as (chunks & packets & Ho2).
  cbn in Ho2. zcase; [done|]. cbn. intros [= <- <- <-]. exists chunks, packets.
  destruct (Ho2) as [H1 H2 H3 H4].
  assert (Hcell : (if negb (resume =? 0) then set_sent_duration_samples (o_position o2) resume
                   else o_position o2)
    = set_sent_duration_samples (fold_left record_buffered packets PlaybackPosition_default) resume).
  { rewrite H4. destruct (Z.eqb_spec resume 0) as [->|]; [|done]. cbn [negb].
    rewrite <- (set_sent_same (fold_left _ _ _)) at 1. by rewrite record_buffered_sent. }
  unfold opened_source. cbn. rewrite Hcell. unfold read_cell. cbn. rewrite lookup_insert_eq. cbn.
  split; [|split; [done|]].
  - split; cbn; done.
  - split; [done|]. rewrite <- H4. lia.
Qed.

Lemma steady_reads_runs n video_id s rec w rec' w' s' bytes :
  steady_reads n video_id s (rec, w) = ((rec', w'), Ok (s', bytes)) ->
  exists ops, source_run ops s w s' w' bytes.
Proof.
  revert s rec w bytes; induction n as [|n IH]; intros s rec w bytes; cbn [steady_reads].
  - intros [= <- <- <- <-]. by exists [].
  - run_stm. destruct (read_stream_chunk video_id s (rec, w)) as [[rec1 w1] r1] eqn:E1.
    destruct r1 as [[s1 r]| |]; [|done|done].
    destruct (read_stream_chunk_runs _ _ _ _ _ E1) as (? & ? & ? & ? & ops & [= <- <- <- <-] & H1 & _);
      [done|].
    destruct (steady_reads n video_id s1 (rec1, w1)) as [[rec2 w2] [[s2 b]| |]] eqn:E2; [|done|done].
    intros [= <- <- <- <-]. destruct (IH _ _ _ _ E2) as [ops2 H2].
    exists (ops ++ ops2). by eapply source_run_app.
Qed.

(** ** Theorems *)


(** Opening terminates: with a parser that reports errors instead of
    panicking, the loop that reads up to the resume position ends after
    finitely many turns, whatever the servers do. *)
Theorem open_from_position_terminates `{NP : !WebmNoPanic} resolved resume rec w :
  exists fuel0, forall fuel, (fuel0 <= fuel)%nat ->
  no_panic (snd (open_from_position fuel resolved resume (rec, w))).
Proof.
  unfold open_from_position. run_stm.
  destruct (read_opening_chunk _ _ _) as [[st1 servers1] r1] eqn:E1.
  assert (Hnp : no_panic r1).
  { revert E1. unfold read_opening_chunk, OPEN_CHUNK_ATTEMPTS. cbn [opening_attempts].
    destruct (read_chunk _ _) as [[st2 servers2] [r2|]] eqn:Er.
    - intros [= <- <- <-]. apply read_chunk_no_panic in Er. by destruct r2.
    - destruct (read_chunk servers2 st2) as [[st3 servers3] [r3|]] eqn:Er3; intros [= <- <- <-];
        [|done]. apply read_chunk_no_panic in Er3. by destruct r3. }
  destruct r1 as [[[chunk|] rc]| |]; cbn [fst snd ok_or]; try (by exists O).
  pose proof (feed_chunk_no_panic resume chunk
    (mkOpening st1 WebmOpusDemux_default [] PlaybackPosition_default)) as Hf.
  destruct (feed_chunk _ _ _) as [o| |]; cbn [fst snd]; [|by exists O|done].
  destruct (skip_to_resume_terminates (rps_playable_url resolved) resume servers1 o) as [fuel0 H0].
  exists fuel0. intros fuel Hfuel. specialize (H0 fuel Hfuel). cbn.
  destruct (skip_to_resume _ _ _ _ _) as [servers2 r2]. cbn in H0.
  destruct r2 as [o2| |]; cbn; [|done|done]. by zcase.
Qed.

(** Recovery keeps the byte stream whole: from the opening on, across
    timeouts, stream resets and URLs resolved again, the bytes the steady reads
    deliver continue the bytes the opening consumed, without a gap or a
    repetition, as a prefix of the resource all URLs serve. *)
Theorem recovery_keeps_stream_whole R fuel resolved resume rec w rec1 w1 s n video_id rec2 w2 s2 bytes :
  zlen R <= u64_max -> Forall (honest_server R) (w_servers w) ->
  open_from_position fuel resolved resume (rec, w) = ((rec1, w1), Ok s) ->
  steady_reads n video_id s (rec1, w1) = ((rec2, w2), Ok (s2, bytes)) ->
  exists chunks packets,
    demux_chunks WebmOpusDemux_default chunks = (ps_demux s, Ok packets) /\
    (concat chunks ++ bytes) `prefix_of` R /\
    offset (ps_stream s2) = zlen (concat chunks ++ bytes).
Proof.
  intros HR Henv Hopen Hreads.
  destruct (open_from_position_opened _ _ _ _ _ _ _ _ Hopen)
    as (chunks & packets & [(ops1 & _ & H1) Hd _ _] & _).
  cbn in H1, Hd. destruct (steady_reads_runs _ _ _ _ _ _ _ _ _ Hreads) as [ops2 H2].
  exists chunks, packets. split; [done|]. unfold source_run in H2.
  assert (E : stream_run (ops1 ++ ops2) (w_servers w)
    (HttpOpusStream_new (w_stress w) (rps_playable_url resolved))
    = (ps_stream s2, w_servers w2, concat chunks ++ bytes))
    by (by rewrite stream_run_app, H1, H2).
  destruct (stream_run_inv R HR _ _ _ [] _ _ _ Henv (new_stream_inv R _ _) E) as [[Ho Hb] _].
  split; [by apply prefix_cut in Hb|done].
Qed.

End Opening.

(** The source that replaces a stale one keeps the byte offset and the demuxer
    state whatever format the new URL has: nothing compares the two itags. *)
Lemma replace_ignores_itag stress s resolved :
  let s' := replace_resolved_stream_at_current_byte_offset stress s resolved in
  rps_selected_itag (ps_resolved s') = rps_selected_itag resolved /\
  offset (ps_stream s') = offset (ps_stream s) /\ ps_demux s' = ps_demux s.
Proof. done. Qed.

(** ** A track of two blocks

    The first server breaks off inside the second block, the second refuses,
    the third, behind a URL resolved again, serves the rest. *)

#[global] Instance pair_no_panic : WebmNoPanic.
Proof.
  split; [|intros data; split; [done|by intros b [= <-]]..]. intros input. cbn [webm_tags pair_iterable]. generalize 0.
  assert (H : forall n (l : list Z) z, (length l <= n)%nat -> Forall no_panic (pair_tags z l)).
  { induction n as [|n IH]; intros [|a [|b l]] z Hn; cbn in *; try lia; try by repeat constructor.
    constructor; [done|]. apply IH. lia. }
  intros z. by apply (H (length input)).
Qed.

Definition track : list Z := [0; 100; 1; 0xF8; 0; 120; 1; 0xF8].

Definition opening_server : Server := fun _ _ =>
  Reply (mkHttpResponse 200 (Some 8) None [Chunk [0; 100; 1; 0xF8; 0]; BodyError]).
Definition gone_server : Server := fun _ _ => Reply (mkHttpResponse 410 None None []).
Definition rest_server : Server := fun _ range =>
  if bool_decide (range = range_header 5)
  then Reply (mkHttpResponse 206 (Some 3) (Some (Some (content_range_text 5 7 (Some 8))))
                [Chunk [120; 1; 0xF8]])
  else SendError.

Definition track_format : SongStreamFormat :=
  mkSongStreamFormat 250 opus_webm_mime_type 64000 (Some 48000) (Some 2) "cipher" None.
Definition track_answer : YtMusicAnswer :=
  mkYtMusicAnswer (fun _ => Ok (mkSongResponse (Some [track_format]) (Some 3)))
    (fun _ => Ok "https://second"%string).

Definition track_world : World :=
  mkWorld [opening_server; gone_server; rest_server] [track_answer] ∅ 0 no_stress.
Definition track_source : ResolvedPlaybackSource :=
  mkResolvedPlaybackSource 250 "https://first" None.

Lemma track_world_honest : Forall (honest_server track) (w_servers track_world).
Proof.
  constructor; [|constructor; [|constructor; [|constructor]]]; intros url start r Hs; cbn.
  - intros [= <-]. split; [done|]. split; [|done]. intros _. by exists [120; 1; 0xF8].
  - intros [= <-]. split; [done|]. split; [|done]. intros _. by exists track.
  - unfold rest_server. case_bool_decide; [|done]. intros [= <-]. split; [|done]. intros _.
    exists 5, 7, (Some 8). split_and!; try done. by intros n [= <-].
Qed.

Definition track_opened := open_from_position 10 track_source 4800 (PlaybackRecovery_new, track_world).
Definition track_opened_source : PlaybackSource :=
  match snd track_opened with
  | Ok s => s
  | _ => mkPlaybackSource track_source (HttpOpusStream_new no_stress "") WebmOpusDemux_default [] 0
  end.

Lemma track_opened_eq :
  track_opened = (fst (fst track_opened), snd (fst track_opened), Ok track_opened_source).
Proof. vm_compute. reflexivity. Qed.


Lemma open_from_position_terminates_witness :
  exists fuel0, forall fuel, (fuel0 <= fuel)%nat ->
  no_panic (snd (open_from_position fuel track_source 4800 (PlaybackRecovery_new, track_world))).
Proof. exact (open_from_position_terminates track_source 4800 PlaybackRecovery_new track_world). Defined.

Definition track_reads :=
  steady_reads 2 (Some "song"%string) track_opened_source (fst track_opened).
Definition track_read_source : PlaybackSource * list Z :=
  match snd track_reads with Ok r => r | _ => (track_opened_source, []) end.

Lemma track_reads_eq :
  steady_reads 2 (Some "song"%string) track_opened_source
    (fst (fst track_opened), snd (fst track_opened))
  = (fst (fst track_reads), snd (fst track_reads),
     Ok (fst track_read_source, snd track_read_source)).
Proof. vm_compute. reflexivity. Qed.

Lemma recovery_keeps_stream_whole_witness :
  snd track_read_source = [120; 1; 0xF8] /\
  offset (ps_stream (fst track_read_source)) = 8 /\
  exists opening, (opening ++ snd track_read_source) `prefix_of` track.
Proof.
  split; [vm_compute; reflexivity|]. split; [vm_compute; reflexivity|].
  assert (HR : zlen track <= u64_max) by (vm_compute; discriminate).
  destruct (recovery_keeps_stream_whole track 10 track_source 4800 PlaybackRecovery_new track_world
    _ _ _ 2 (Some "song"%string) _ _ _ _ HR track_world_honest track_opened_eq track_reads_eq)
    as (chunks & packets & _ & H & _).
  by exists (concat chunks).
Defined.
