(* ===== verification/Worker.v ===== *)
(** * The playback worker

    crates/discord-voice-service-playback/src/worker.rs: fills the bounded frame
    queue from a source. Packets go through the normalizer; frames that do not
    fit wait in [pending_frames], packets that are not needed yet in the
    source. *)

From S2P Require Import Prelude OpusQueue WebmDemux Position Normalizer Selector HttpStream Recovery.
From stdpp Require Import prelude strings gmap.
Open Scope Z_scope.

Definition DEFAULT_PREBUFFER_TARGET_MS : Z := 80.

Section Worker.
Context `{W : WebmIterable} `{C : OpusCodec}.

Record PlaybackWorker : Type := mkPlaybackWorker {
  pw_current_video_id : option string;
  pw_recovery : PlaybackRecovery;
  pw_position : nat;
  pw_prebuffer_target_ms : Z;
  pw_normalizer : DiscordOpusFrameNormalizer;
  pw_pending_frames : list OpusFrame;
}.

(** What a fill works on: the worker, the queue, the source and the world. *)
Record FillState : Type := mkFillState {
  fs_worker : PlaybackWorker;
  fs_queue : OpusFrameQueue;
  fs_source : PlaybackSource;
  fs_world : World;
}.

Abbreviation fstm := (stm FillState PlaybackError).

Definition set_worker_recovery (r : PlaybackRecovery) (w : PlaybackWorker) : PlaybackWorker :=
  mkPlaybackWorker (pw_current_video_id w) r (pw_position w) (pw_prebuffer_target_ms w)
    (pw_normalizer w) (pw_pending_frames w).
Definition set_normalizer (n : DiscordOpusFrameNormalizer) (w : PlaybackWorker) : PlaybackWorker :=
  mkPlaybackWorker (pw_current_video_id w) (pw_recovery w) (pw_position w)
    (pw_prebuffer_target_ms w) n (pw_pending_frames w).
Definition set_pending_frames (l : list OpusFrame) (w : PlaybackWorker) : PlaybackWorker :=
  mkPlaybackWorker (pw_current_video_id w) (pw_recovery w) (pw_position w)
    (pw_prebuffer_target_ms w) (pw_normalizer w) l.

Definition with_pending_packets (l : list DemuxedPacket) (s : PlaybackSource) : PlaybackSource :=
  mkPlaybackSource (ps_resolved s) (ps_stream s) (ps_demux s) l (ps_position s).
Definition with_demux (d : WebmOpusDemux) (s : PlaybackSource) : PlaybackSource :=
  mkPlaybackSource (ps_resolved s) (ps_stream s) d (ps_pending_packets s) (ps_position s).

Definition PlaybackWorker_new (w : World) : PlaybackWorker * World :=
  let '(w', c) := shared_playback_position PlaybackPosition_default w in
  (mkPlaybackWorker None PlaybackRecovery_new c DEFAULT_PREBUFFER_TARGET_MS
     DiscordOpusFrameNormalizer_new [], w').

Definition set_prebuffer_target_ms (target_ms : Z) (w : PlaybackWorker) : PlaybackWorker :=
  mkPlaybackWorker (pw_current_video_id w) (pw_recovery w) (pw_position w)
    (Z.max target_ms DEFAULT_PREBUFFER_TARGET_MS) (pw_normalizer w) (pw_pending_frames w).

(** [reset]: the position is a new cell; an old source keeps the old one. *)
Definition worker_reset (wk : PlaybackWorker) (w : World) : PlaybackWorker * World :=
  let '(w', c) := shared_playback_position PlaybackPosition_default w in
  (mkPlaybackWorker None (recovery_reset (pw_recovery wk)) c (pw_prebuffer_target_ms wk)
     DiscordOpusFrameNormalizer_new [], w').

(** ** Frames into the queue *)

(** [queue.push(frame).map_err(|_| BufferFull)]. *)
Definition push_frame (q : OpusFrameQueue) (f : OpusFrame) : OpusFrameQueue * presult unit :=
  let '(q', r) := push q f in (q', map_err (fun _ => BufferFull) r).

Fixpoint drain_frames (frames : list OpusFrame) (q : OpusFrameQueue)
    : list OpusFrame * OpusFrameQueue * presult bool :=
  match frames with
  | [] => ([], q, Ok true)
  | frame :: rest =>
      if can_fit_frame q frame then
        match push_frame q frame with
        | (q', Ok _) => drain_frames rest q'
        | (q', Err e) => (rest, q', Err e)
        | (q', Panic) => (rest, q', Panic)
        end
      else (frame :: rest, q, Ok false)
  end.

(** Frames that do not fit are appended to [pending]. *)
Fixpoint enqueue (frames pending : list OpusFrame) (q : OpusFrameQueue)
    : list OpusFrame * OpusFrameQueue * presult unit :=
  match frames with
  | [] => (pending, q, Ok tt)
  | frame :: rest =>
      if can_fit_frame q frame then
        match push_frame q frame with
        | (q', Ok _) => enqueue rest pending q'
        | (q', Err e) => (pending, q', Err e)
        | (q', Panic) => (pending, q', Panic)
        end
      else enqueue rest (pending ++ [frame]) q
  end.

Definition drain_pending_frames : fstm bool := fun s =>
  let '(pending, q, r) := drain_frames (pw_pending_frames (fs_worker s)) (fs_queue s) in
  (mkFillState (set_pending_frames pending (fs_worker s)) q (fs_source s) (fs_world s), r).

Definition enqueue_frames (frames : list OpusFrame) : fstm unit := fun s =>
  let '(pending, q, r) := enqueue frames (pw_pending_frames (fs_worker s)) (fs_queue s) in
  (mkFillState (set_pending_frames pending (fs_worker s)) q (fs_source s) (fs_world s), r).

(** The normalizer's methods on the worker. *)
Definition with_normalizer {A} (m : stm DiscordOpusFrameNormalizer PlaybackError A) : fstm A :=
  fun s =>
    let '(n, r) := m (pw_normalizer (fs_worker s)) in
    (mkFillState (set_normalizer n (fs_worker s)) (fs_queue s) (fs_source s) (fs_world s), r).

Definition buffer_packet (packet : DemuxedPacket) : fstm unit :=
  frames ← with_normalizer (push_packet packet);
  _ ← modify (fun s => mkFillState (fs_worker s) (fs_queue s) (fs_source s)
        (update_cell (pw_position (fs_worker s)) (fun p => record_buffered p packet) (fs_world s)));
  enqueue_frames frames.

(** ** Filling to a target *)

Definition target_reached (target_samples : Z) (q : OpusFrameQueue) : bool :=
  target_samples <=? buffered_samples q.

(** The loop over the packets of one chunk: it stops as soon as nothing more is
    wanted and leaves the rest to the source. *)
Fixpoint buffer_packets (target_samples : Z) (packets : list DemuxedPacket) : fstm unit :=
  match packets with
  | [] => mret tt
  | packet :: rest =>
      s ← gets id;
      if target_reached target_samples (fs_queue s) || is_full (fs_queue s)
         || negb (bool_decide (pw_pending_frames (fs_worker s) = []))
      then modify (fun s => mkFillState (fs_worker s) (fs_queue s)
             (with_pending_packets (ps_pending_packets (fs_source s) ++ packet :: rest)
                (fs_source s)) (fs_world s))
      else
        _ ← buffer_packet packet;
        buffer_packets target_samples rest
  end.

(** [self.read_stream_chunk] and the demuxing of its chunk. *)
Definition fill_read (video_id : option string) : fstm (option (list Z)) := fun s =>
  let wk := fs_worker s in
  match read_stream_chunk video_id (fs_source s) (pw_recovery wk, fs_world s) with
  | ((rec, w), Ok (src, r)) =>
      (mkFillState (set_worker_recovery rec wk) (fs_queue s) src w, r)
  | ((rec, w), _) => (mkFillState (set_worker_recovery rec wk) (fs_queue s) (fs_source s) w, Panic)
  end.

Definition fill_demux (chunk : list Z) : fstm (list DemuxedPacket) := fun s =>
  let '(demux, r) := drain_packets (push_bytes (ps_demux (fs_source s)) chunk) in
  (mkFillState (fs_worker s) (fs_queue s) (with_demux demux (fs_source s)) (fs_world s), r).

Definition pop_packet : fstm (option DemuxedPacket) := fun s =>
  match ps_pending_packets (fs_source s) with
  | [] => (s, Ok None)
  | p :: rest =>
      (mkFillState (fs_worker s) (fs_queue s) (with_pending_packets rest (fs_source s))
         (fs_world s), Ok (Some p))
  end.

(** One turn of the [while] loop; [true] goes round again. *)
Definition fill_turn (video_id : option string) (target_samples : Z) : fstm bool :=
  drained ← drain_pending_frames;
  s ← gets id;
  if negb drained then mret false
  else if target_reached target_samples (fs_queue s) || is_full (fs_queue s) then mret false
  else
    packet ← pop_packet;
    match packet with
    | Some packet => _ ← buffer_packet packet; mret true
    | None =>
        chunk ← fill_read video_id;
        match chunk with
        | None =>
            frames ← with_normalizer flush;
            _ ← enqueue_frames frames;
            mret false
        | Some chunk =>
            packets ← fill_demux chunk;
            _ ← buffer_packets target_samples packets;
            mret true
        end
    end.

(** The loop; [Panic] stands for running out of fuel. *)
Fixpoint fill_loop (fuel : nat) (video_id : option string) (target_samples : Z) : fstm unit :=
  s ← gets id;
  if target_reached target_samples (fs_queue s) || is_full (fs_queue s) then mret tt
  else
    match fuel with
    | O => lift Panic
    | S fuel' =>
        continue ← fill_turn video_id target_samples;
        if continue : bool then fill_loop fuel' video_id target_samples else mret tt
    end.

Definition fill_queue_to_duration_ms_for_video (fuel : nat) (video_id : option string)
    (target_ms : Z) : fstm unit :=
  fill_loop fuel video_id (samples_from_duration_ms_u64 (Z.max target_ms 1)).

Definition fill_queue_to_duration_ms (fuel : nat) (target_ms : Z) : fstm unit :=
  s ← gets id;
  fill_queue_to_duration_ms_for_video fuel (pw_current_video_id (fs_worker s)) target_ms.

Definition fill_queue (fuel : nat) : fstm unit :=
  s ← gets id;
  fill_queue_to_duration_ms fuel (pw_prebuffer_target_ms (fs_worker s)).

(** ** Preparing a track *)

(** The worker, queue and world after the call, and the source. *)
Definition prepare (fuel : nat) (video_id : string) (wk : PlaybackWorker) (q : OpusFrameQueue)
    (w : World) : PlaybackWorker * OpusFrameQueue * World * presult PlaybackSource :=
  if is_full q then (wk, q, w, Err BufferFull)
  else
    let same := bool_decide (pw_current_video_id wk = Some video_id) in
    let '(w1, cell) :=
      if same then (w, pw_position wk) else shared_playback_position PlaybackPosition_default w in
    let resume :=
      if same then pp_sent_duration_samples (read_cell (pw_position wk) w) else 0 in
    let wk1 := mkPlaybackWorker (pw_current_video_id wk) (pw_recovery wk) cell
                 (pw_prebuffer_target_ms wk) DiscordOpusFrameNormalizer_new [] in
    match recover fuel video_id resume (pw_recovery wk1, w1) with
    | ((rec, w2), Err e) => (set_worker_recovery rec wk1, q, w2, Err e)
    | ((rec, w2), Panic) => (set_worker_recovery rec wk1, q, w2, Panic)
    | ((rec, w2), Ok source) =>
        let wk2 := mkPlaybackWorker (pw_current_video_id wk1) rec (ps_position source)
                     (pw_prebuffer_target_ms wk1) (pw_normalizer wk1) (pw_pending_frames wk1) in
        let '(s, r) := fill_queue_to_duration_ms_for_video fuel (Some video_id)
                         (pw_prebuffer_target_ms wk2) (mkFillState wk2 q source w2) in
        match r with
        | Err e => (fs_worker s, fs_queue s, fs_world s, Err e)
        | Panic => (fs_worker s, fs_queue s, fs_world s, Panic)
        | Ok _ =>
            if q_is_empty (fs_queue s)
            then (fs_worker s, fs_queue s, fs_world s, Err (MediaParse "unexpected end of stream"))
            else
              let wk3 := fs_worker s in
              (mkPlaybackWorker (Some video_id) (pw_recovery wk3) (pw_position wk3)
                 (pw_prebuffer_target_ms wk3) (pw_normalizer wk3) (pw_pending_frames wk3),
               fs_queue s, fs_world s, Ok (fs_source s))
        end
    end.

(** ** Lemmas: frames stay in order *)

Context `{L : !OpusCodecLaws}.

Section Uniform.
(** A bound on the bytes of a frame for which the byte limit of the queue never
    binds before its packet limit. *)
Context (B : Z).
Hypothesis HB : 0 <= B.

Definition roomy (q : OpusFrameQueue) : Prop :=
  queue_ok q /\ q_capacity q * B <= q_max_bytes q /\
  Forall (fun f => byte_len f <= B) (q_inner q).

Lemma small_frame_ok f : small_frame B f -> frame_ok f.
Proof. intros [H _]. unfold frame_ok. rewrite H. by split. Qed.

Lemma sum_by_le_len {A} (g : A -> Z) (l : list A) :
  Forall (fun a => g a <= B) l -> sum_by g l <= zlen l * B.
Proof. induction 1; rewrite ?sum_by_nil, ?sum_by_cons, ?zlen_cons; [unfold zlen; cbn; lia|lia]. Qed.

(** Whether a small frame fits does not depend on the frame. *)
Lemma fits_uniform q f g :
  roomy q -> small_frame B f -> small_frame B g -> can_fit_frame q f = can_fit_frame q g.
Proof.
  intros (Hq & Hr & Hin) Hf Hg. apply eq_bool_prop_intro. rewrite !Is_true_true.
  rewrite !can_fit_frame_exact by (done || by apply small_frame_ok).
  destruct Hf as [-> Hf], Hg as [-> Hg]. apply sum_by_le_len in Hin.
  split; intros (H1 & H2 & H3); (split; [done|]; split; [nia|done]).
Qed.

Lemma push_fits q f :
  roomy q -> small_frame B f -> can_fit_frame q f = true ->
  exists q', push_frame q f = (q', Ok tt) /\ q_inner q' = q_inner q ++ [f] /\ roomy q'.
Proof.
  intros (Hq & Hr & Hin) Hf Hfit. unfold push_frame, push. rewrite Hfit. cbn [negb].
  eexists. split; [reflexivity|]. split; [done|]. split; [|split; [done|]].
  - pose proof (push_preserves q f Hq (small_frame_ok f Hf)) as H. unfold push in H.
    by rewrite Hfit in H.
  - cbn. apply Forall_app. split; [done|]. constructor; [by destruct Hf|constructor].
Qed.

(** The first waiting frame does not fit. *)
Definition waiting (q : OpusFrameQueue) (pending : list OpusFrame) : Prop :=
  exists f rest, pending = f :: rest /\ can_fit_frame q f = false.

Lemma drain_frames_spec frames q :
  roomy q -> Forall (small_frame B) frames ->
  exists pending q' b, drain_frames frames q = (pending, q', Ok b) /\ roomy q' /\
    q_inner q' ++ pending = q_inner q ++ frames /\ (b = true <-> pending = []) /\
    Forall (small_frame B) pending /\ (pending <> [] -> waiting q' pending).
Proof.
  intros Hq Hfs. revert q Hq; induction Hfs as [|f frames Hf Hfs IH]; intros q Hq; cbn.
  - by exists [], q, true.
  - destruct (can_fit_frame q f) eqn:Hfit.
    + destruct (push_fits q f Hq Hf Hfit) as (q1 & E & Hin & Hq1). rewrite E.
      destruct (IH q1 Hq1) as (pending & q' & b & E' & H1 & H2 & H3).
      exists pending, q', b. rewrite E', H2, Hin, <- app_assoc. done.
    + exists (f :: frames), q, false. split_and!; try done; [by constructor|].
      intros _. by exists f, frames.
Qed.

Lemma enqueue_stuck frames pending q f :
  roomy q -> small_frame B f -> can_fit_frame q f = false -> Forall (small_frame B) frames ->
  enqueue frames pending q = (pending ++ frames, q, Ok tt).
Proof.
  intros Hq Hf Hno Hfs. revert pending; induction Hfs as [|g frames Hg Hfs IH]; intros pending; cbn.
  - by rewrite app_nil_r.
  - rewrite (fits_uniform q g f Hq Hg Hf), Hno, IH. by rewrite <- app_assoc.
Qed.

Lemma enqueue_spec frames q :
  roomy q -> Forall (small_frame B) frames ->
  exists pending q', enqueue frames [] q = (pending, q', Ok tt) /\ roomy q' /\
    q_inner q' ++ pending = q_inner q ++ frames /\ Forall (small_frame B) pending /\
    (pending <> [] -> waiting q' pending).
Proof.
  intros Hq Hfs. revert q Hq; induction Hfs as [|f frames Hf Hfs IH]; intros q Hq; cbn.
  - exists [], q. by rewrite app_nil_r.
  - destruct (can_fit_frame q f) eqn:Hfit.
    + destruct (push_fits q f Hq Hf Hfit) as (q1 & E & Hin & Hq1). rewrite E.
      destruct (IH q1 Hq1) as (pending & q' & E' & H1 & H2 & H3).
      exists pending, q'. rewrite E', H2, Hin, <- app_assoc. done.
    + rewrite (enqueue_stuck frames [f] q f) by done. exists (f :: frames), q.
      split_and!; try done; [by constructor|]. intros _. by exists f, frames.
Qed.

(** ** Lemmas: what a fill has done *)

(** The packets pushed through the normalizer, one after the other. *)
Fixpoint push_all (packets : list DemuxedPacket)
    : stm DiscordOpusFrameNormalizer PlaybackError (list OpusFrame) :=
  match packets with
  | [] => mret []
  | p :: rest => fs ← push_packet p; more ← push_all rest; mret (fs ++ more)
  end.

(** The packets pushed, then the flush when the stream has ended. *)
Definition normalize_run (ended : bool) (packets : list DemuxedPacket)
    : stm DiscordOpusFrameNormalizer PlaybackError (list OpusFrame) :=
  fs ← push_all packets;
  last ← (if ended then flush else mret []);
  mret (fs ++ last).

Lemma push_all_app a b n :
  push_all (a ++ b) n = (fs ← push_all a; more ← push_all b; mret (fs ++ more)) n.
Proof.
  revert n; induction a as [|p a IH]; intros n.
  - cbn. unfold mbind, stm_bind. cbn. by destruct (push_all b n) as [n' [fs| |]].
  - cbn [app push_all]. unfold mbind, stm_bind in *. unfold mret, stm_ret in *.
    destruct (push_packet p n) as [n1 [fs| |]]; [|done|done]. rewrite IH.
    destruct (push_all a n1) as [n2 [fs2| |]]; [|done|done].
    destruct (push_all b n2) as [n3 [fs3| |]]; [|done|done]. by rewrite app_assoc.
Qed.

(** A packet whose data fits [B] bytes. *)
Definition small_packet (p : DemuxedPacket) : Prop := zlen (dp_data p) <= B.

(** The state in which fills preserve order. *)
Record fill_ok (s : FillState) : Prop := {
  fo_queue : roomy (fs_queue s);
  fo_pending : Forall (small_frame B) (pw_pending_frames (fs_worker s));
  fo_packets : Forall small_packet (ps_pending_packets (fs_source s));
  fo_buffer : buffer_len (pw_normalizer (fs_worker s)) <= B;
}.

(** All frames there are, in playback order. *)
Definition frames_of (s : FillState) : list OpusFrame :=
  q_inner (fs_queue s) ++ pw_pending_frames (fs_worker s).

(** From [s] to [s'] the worker took the packets [consumed] in the order the
    source had them, of which [fresh] were demuxed on the way, and appended
    what the normalizer made of them to its frames. *)
Record filled (s s' : FillState) (ended : bool) (consumed fresh : list DemuxedPacket) : Prop := {
  fd_ok : fill_ok s';
  fd_packets : ps_pending_packets (fs_source s) ++ fresh
               = consumed ++ ps_pending_packets (fs_source s');
  fd_frames : exists new,
    normalize_run ended consumed (pw_normalizer (fs_worker s))
    = (pw_normalizer (fs_worker s'), Ok new) /\
    frames_of s' = frames_of s ++ new /\ Forall (small_frame B) new;
}.

Lemma filled_refl s s' :
  fill_ok s' -> frames_of s' = frames_of s ->
  pw_normalizer (fs_worker s') = pw_normalizer (fs_worker s) ->
  ps_pending_packets (fs_source s') = ps_pending_packets (fs_source s) ->
  filled s s' false [] [].
Proof.
  intros H1 H2 H3 H4. split; [done|by rewrite app_nil_r, H4|]. exists []. rewrite app_nil_r, H3. done.
Qed.

Lemma filled_trans s s1 s2 ended c1 f1 c2 f2 :
  filled s s1 false c1 f1 -> filled s1 s2 ended c2 f2 -> filled s s2 ended (c1 ++ c2) (f1 ++ f2).
Proof.
  intros [Ha1 Ha2 (n1 & Ha3 & Ha4 & Ha5)] [Hb1 Hb2 (n2 & Hb3 & Hb4 & Hb5)]. split; [done| |].
  - by rewrite app_assoc, Ha2, <- app_assoc, Hb2, app_assoc.
  - exists (n1 ++ n2). rewrite Hb4, Ha4, <- app_assoc.
    split; [|split; [done|by apply Forall_app]].
    unfold normalize_run in *. unfold mbind, stm_bind, mret, stm_ret in *.
    rewrite push_all_app. unfold mbind, stm_bind, mret, stm_ret.
    destruct (push_all c1 _) as [m1 [x1| |]]; [|done|done]. injection Ha3 as -> <-.
    rewrite app_nil_r in *.
    destruct (push_all c2 _) as [m2 [x2| |]]; [|done|done].
    destruct ended.
    + destruct (flush m2) as [m3 [x3| |]]; [|done|done]. injection Hb3 as -> <-.
      by rewrite app_assoc.
    + injection Hb3 as -> <-. by rewrite !app_nil_r.
Qed.

Lemma drain_pending_filled s :
  fill_ok s -> exists s' b, drain_pending_frames s = (s', Ok b) /\ filled s s' false [] [] /\
    (b = true <-> pw_pending_frames (fs_worker s') = []) /\
    (pw_pending_frames (fs_worker s') <> [] ->
     waiting (fs_queue s') (pw_pending_frames (fs_worker s'))) /\
    fs_source s' = fs_source s /\ fs_world s' = fs_world s.
Proof.
  intros [Hq Hp Hk Hn]. unfold drain_pending_frames.
  destruct (drain_frames_spec _ _ Hq Hp) as (pending & q' & b & E & H1 & H2 & H3 & H4 & H5).
  rewrite E. eexists _, b. split; [reflexivity|]. split; [|done].
  by apply filled_refl.
Qed.

Lemma enqueue_frames_spec s frames :
  fill_ok s -> pw_pending_frames (fs_worker s) = [] -> Forall (small_frame B) frames ->
  exists s', enqueue_frames frames s = (s', Ok tt) /\ fill_ok s' /\
    frames_of s' = frames_of s ++ frames /\ fs_source s' = fs_source s /\
    pw_normalizer (fs_worker s') = pw_normalizer (fs_worker s) /\ fs_world s' = fs_world s /\
    (pw_pending_frames (fs_worker s') <> [] ->
     waiting (fs_queue s') (pw_pending_frames (fs_worker s'))).
Proof.
  intros [Hq Hp Hk Hn] Hnil Hfs. unfold enqueue_frames. rewrite Hnil.
  destruct (enqueue_spec frames _ Hq Hfs) as (pending & q' & E & H1 & H2 & H3 & H4). rewrite E.
  eexists. split; [reflexivity|]. split; [by split|]. split; [|done].
  unfold frames_of. cbn. rewrite H2, Hnil. by rewrite app_nil_r.
Qed.

(** One packet through the normalizer into the frames. *)
Lemma buffer_packet_spec s p s' :
  fill_ok s -> pw_pending_frames (fs_worker s) = [] -> small_packet p ->
  buffer_packet p s = (s', Ok tt) ->
  fill_ok s' /\ fs_source s' = fs_source s /\
  exists new, push_packet p (pw_normalizer (fs_worker s))
    = (pw_normalizer (fs_worker s'), Ok new) /\ frames_of s' = frames_of s ++ new /\
    Forall (small_frame B) new.
Proof.
  intros [Hq Hp Hk Hn] Hnil Hsm. unfold buffer_packet, with_normalizer.
  unfold mbind, stm_bind, modify.
  destruct (push_packet p (pw_normalizer (fs_worker s))) as [n [new| |]] eqn:E; [|done|done].
  destruct (push_packet_small B p _ _ _ Hn Hsm E) as [Hnew Hb].
  set (s1 := mkFillState _ _ _ (update_cell _ _ _)).
  destruct (enqueue_frames_spec s1 new) as (s2 & E2 & H1 & H2 & H3 & H4 & _);
    [split; cbn; try done; lia|done|done|].
  rewrite E2. intros [= <-]. split; [done|]. split; [done|]. exists new. by rewrite H4.
Qed.

Lemma normalize_run_one p n n' new :
  push_packet p n = (n', Ok new) -> normalize_run false [p] n = (n', Ok new).
Proof.
  intros E. unfold normalize_run. cbn [push_all]. unfold mbind, stm_bind, mret, stm_ret.
  rewrite E. by rewrite !app_nil_r.
Qed.

Lemma buffer_packets_filled target packets s s' :
  fill_ok s -> Forall small_packet packets -> ps_pending_packets (fs_source s) = [] ->
  buffer_packets target packets s = (s', Ok tt) ->
  exists consumed, filled s s' false consumed packets.
Proof.
  intros Hs Hps. revert s Hs; induction Hps as [|p packets Hp Hps IH]; intros s Hs Hnil;
    cbn [buffer_packets].
  - intros [= <-]. exists []. by apply filled_refl.
  - unfold mbind, stm_bind, gets, id, modify.
    destruct (_ || negb (bool_decide (pw_pending_frames _ = []))) eqn:Hstop.
    + intros [= <-]. exists []. split; cbn.
      * destruct Hs as [H1 H2 H3 H4]. split; cbn; try done. apply Forall_app.
        split; [done|by constructor].
      * done.
      * exists []. split; [done|]. unfold frames_of. cbn. by rewrite app_nil_r.
    + apply orb_false_iff in Hstop as [_ Hpend].
      apply negb_false_iff, bool_decide_eq_true in Hpend.
      destruct (buffer_packet p s) as [s1 [[]| |]] eqn:E; [|done|done]. intros E2.
      destruct (buffer_packet_spec s p s1 Hs Hpend Hp E) as (H1 & H2 & new & H3 & H4 & H5).
      assert (Hf : filled s s1 false [p] [p]).
      { split; [done|by rewrite H2, Hnil|]. exists new.
        split; [by apply normalize_run_one|done]. }
      destruct (IH s1 H1) as [consumed Hc]; [by rewrite H2|done|].
      exists (p :: consumed). by apply (filled_trans _ _ _ _ [p] [p] consumed packets Hf Hc).
Qed.

(** Reads change the stream and the URL of a source, not its packets. *)
Definition same_packets (s s' : PlaybackSource) : Prop :=
  ps_pending_packets s' = ps_pending_packets s /\ ps_demux s' = ps_demux s /\
  ps_position s' = ps_position s.

Lemma read_source_chunk_same s st st' s' r :
  read_source_chunk s st = (st', Ok (s', r)) -> same_packets s s'.
Proof.
  unfold read_source_chunk. unfold modify_world, mbind, stm_bind, gets, modify, mret, stm_ret.
  destruct (read_chunk_with_timeout _ _ _) as [[a b] c]. by intros [= <- <- <-].
Qed.

Lemma reresolve_and_read_same v s e st st' s' r :
  reresolve_and_read v s e st = (st', Ok (s', r)) -> same_packets s s'.
Proof.
  unfold reresolve_and_read, reresolve_steady_source, catch.
  unfold modify_rec, modify_world, mbind, stm_bind, gets, modify, mret, stm_ret.
  destruct v as [v|]; [|by intros [= <- <- <-]].
  destruct (resolve v _) as [st1 [resolved|err|]]; [|by intros [= <- <- <-]|done].
  intros H. by apply read_source_chunk_same in H.
Qed.

Lemma read_stream_chunk_same v s st st' s' r :
  read_stream_chunk v s st = (st', Ok (s', r)) -> same_packets s s'.
Proof.
  unfold read_stream_chunk. unfold mbind, stm_bind.
  destruct (read_source_chunk s st) as [st1 [[s1 r1]| |]] eqn:E1; [|done|done].
  apply read_source_chunk_same in E1 as (A1 & A2 & A3).
  destruct r1 as [c|err|]; [by intros [= <- <- <-]| |by intros [= <- <- <-]].
  destruct (is_steady_state_read_timeout err).
  - unfold modify_rec, modify.
    destruct (read_source_chunk _ _) as [st2 [[s2 r2]| |]] eqn:E2; [|done|done].
    apply read_source_chunk_same in E2 as (B1 & B2 & B3). cbn in B1, B2, B3.
    assert (Hs : same_packets s s2) by (split_and!; congruence).
    destruct r2 as [c|err2|]; [by intros [= <- <- <-]| |by intros [= <- <- <-]].
    destruct (should_reresolve_after_steady_read_failure err2); [|by intros [= <- <- <-]].
    intros H. apply reresolve_and_read_same in H as (C1 & C2 & C3).
    destruct Hs as (D1 & D2 & D3). split_and!; congruence.
  - destruct (should_reresolve_after_steady_read_failure err); [|by intros [= <- <- <-]].
    intros H. apply reresolve_and_read_same in H as (C1 & C2 & C3). split_and!; congruence.
Qed.

Lemma fill_read_filled v s s' r :
  fill_ok s -> fill_read v s = (s', Ok r) ->
  filled s s' false [] [] /\ ps_pending_packets (fs_source s') = ps_pending_packets (fs_source s) /\
  pw_pending_frames (fs_worker s') = pw_pending_frames (fs_worker s) /\
  fs_queue s' = fs_queue s.
Proof.
  intros Hs. unfold fill_read.
  destruct (read_stream_chunk v _ _) as [[rec w] [[src r1]| |]] eqn:E; [|done|done].
  apply read_stream_chunk_same in E as (H1 & H2 & H3). intros [= <- ->].
  split; [|done]. apply filled_refl; try done.
  destruct Hs as [Ha Hb Hc Hd]. split; cbn; try done. by rewrite H1.
Qed.

(** The demuxer's packets fit [B] bytes. *)
Definition demuxes_small : Prop :=
  forall d chunk d' packets,
  drain_packets (push_bytes d chunk) = (d', Ok packets) -> Forall small_packet packets.

(** The flush at the end of the stream. *)
Lemma flush_filled s s1 frames s' :
  fill_ok s -> pw_pending_frames (fs_worker s) = [] ->
  with_normalizer flush s = (s1, Ok frames) -> enqueue_frames frames s1 = (s', Ok tt) ->
  filled s s' true [] [] /\
  (pw_pending_frames (fs_worker s') <> [] ->
   waiting (fs_queue s') (pw_pending_frames (fs_worker s'))).
Proof.
  intros Hs Hnil. unfold with_normalizer.
  destruct (flush (pw_normalizer (fs_worker s))) as [n r] eqn:E. intros [= <- ->] E2.
  destruct (Hs) as [Hq Hp Hk Hn]. destruct (flush_small B _ _ _ Hn E) as [Hfs Hb].
  destruct (enqueue_frames_spec (mkFillState (set_normalizer n (fs_worker s)) (fs_queue s)
    (fs_source s) (fs_world s)) frames) as (s2 & E3 & H1 & H2 & H3 & H4 & _ & H5);
    [split; cbn; try done; lia|done|done|].
  rewrite E3 in E2. injection E2 as <-. cbn in H4. split; [|done].
  split; [done|by rewrite H3, app_nil_r|].
  exists frames. rewrite H2, H4. split; [|done]. unfold normalize_run.
  unfold mbind, stm_bind, mret, stm_ret. cbn. by rewrite E.
Qed.

(** Why a fill may stop. *)
Definition fill_done (target : Z) (ended : bool) (s : FillState) : Prop :=
  target_reached target (fs_queue s) || is_full (fs_queue s) = true \/
  waiting (fs_queue s) (pw_pending_frames (fs_worker s)) \/
  ended = true /\ pw_pending_frames (fs_worker s) = [].

(** A chunk demuxed and its packets buffered. *)
Lemma chunk_filled target chunk s s1 packets s' :
  demuxes_small -> fill_ok s -> ps_pending_packets (fs_source s) = [] ->
  fill_demux chunk s = (s1, Ok packets) -> buffer_packets target packets s1 = (s', Ok tt) ->
  exists consumed, filled s s' false consumed packets.
Proof.
  intros Hd Hs Hnil. unfold fill_demux.
  destruct (drain_packets _) as [demux r] eqn:Ed. intros [= <- ->] Eb.
  set (s3 := mkFillState _ _ _ _) in Eb.
  assert (Hs3 : fill_ok s3) by (by destruct Hs; split).
  destruct (buffer_packets_filled target packets s3 s' Hs3) as [consumed Hc];
    [by eapply Hd|done|done|].
  exists consumed. apply (filled_trans s s3 s' false [] [] consumed packets); [|done].
  by apply filled_refl.
Qed.

Lemma fill_turn_filled v target s s' c :
  demuxes_small -> fill_ok s -> fill_turn v target s = (s', Ok c) ->
  exists ended consumed fresh, filled s s' ended consumed fresh /\ (c = true -> ended = false) /\
    (c = false -> fill_done target ended s').
Proof.
  intros Hd Hs. unfold fill_turn. unfold mbind at 1, stm_bind at 1.
  destruct (drain_pending_filled s Hs) as (s1 & b & E1 & Hf1 & Hnil & Hwait & _). rewrite E1.
  unfold mbind at 1, stm_bind at 1, gets at 1, id.
  destruct b; cbn [negb];
    [apply proj1 in Hnil; specialize (Hnil eq_refl)
    |intros [= <- <-]; exists false, [], []; split_and!; try done; intros _; right; left;
     apply Hwait; intros E0; by apply Hnil in E0].
  destruct (target_reached _ _ || is_full _) eqn:Hstop;
    [intros [= <- <-]; exists false, [], []; split_and!; try done; intros _; by left|].
  unfold mbind at 1, stm_bind at 1, pop_packet.
  pose proof (fd_ok _ _ _ _ _ Hf1) as Hs1.
  destruct (ps_pending_packets (fs_source s1)) as [|p rest] eqn:Ep.
  - unfold mbind at 1, stm_bind at 1.
    destruct (fill_read v s1) as [s2 [[chunk|]| |]] eqn:E2; [| |done|done];
      destruct (fill_read_filled v s1 s2 _ Hs1 E2) as (Hf2 & Hp2 & Hn2 & _);
      pose proof (filled_trans _ _ _ _ _ _ _ _ Hf1 Hf2) as Hf; cbn in Hf;
      pose proof (fd_ok _ _ _ _ _ Hf2) as Hs2.
    + unfold mbind, stm_bind, mret, stm_ret.
      destruct (fill_demux chunk s2) as [s3 [packets| |]] eqn:Ed; [|done|done].
      destruct (buffer_packets target packets s3) as [s4 [[]| |]] eqn:Eb; [|done|done].
      intros [= <- <-]. rewrite Ep in Hp2.
      destruct (chunk_filled target chunk s2 s3 packets s4 Hd Hs2 Hp2 Ed Eb) as [consumed Hc].
      exists false, consumed, packets. split; [|by split].
      by apply (filled_trans s s2 s4 false [] [] consumed packets).
    + unfold mbind, stm_bind, mret, stm_ret.
      destruct (with_normalizer flush s2) as [s3 [frames| |]] eqn:E3; [|done|done].
      destruct (enqueue_frames frames s3) as [s4 [[]| |]] eqn:E4; [|done|done].
      intros [= <- <-]. destruct (flush_filled s2 s3 frames s4 Hs2) as [Hfl Hw];
        [by rewrite Hn2|done|done|].
      exists true, [], []. split; [by apply (filled_trans s s2 s4 true [] [] [] [])|].
      split; [done|]. intros _.
      destruct (pw_pending_frames (fs_worker s4)) as [|f l] eqn:Epd; [by right; right|].
      right; left. rewrite Epd. by apply Hw.
  - unfold mbind, stm_bind, mret, stm_ret. set (s2 := mkFillState _ _ _ _).
    destruct (buffer_packet p s2) as [s3 [[]| |]] eqn:Eb; [|done|done]. intros [= <- <-].
    destruct (Hs1) as [Ha Hb Hc He]. rewrite Ep in Hc. apply Forall_cons in Hc as [Hp Hrest].
    destruct (buffer_packet_spec s2 p s3) as (H1 & H2 & new & H3 & H4 & H5);
      [by split|done|done|done|].
    exists false, [p], []. split; [|by split].
    apply (filled_trans s s1 s3 false [] [] [p] []); [done|].
    split; [done|rewrite H2, Ep; cbn; by rewrite app_nil_r|]. exists new. split; [by apply normalize_run_one|done].
Qed.

Lemma fill_loop_filled fuel v target s s' :
  demuxes_small -> fill_ok s -> fill_loop fuel v target s = (s', Ok tt) ->
  exists ended consumed fresh, filled s s' ended consumed fresh /\ fill_done target ended s'.
Proof.
  intros Hd. revert s; induction fuel as [|fuel IH]; intros s Hs; cbn [fill_loop];
    unfold mbind, stm_bind, gets, id, mret, stm_ret, lift;
    (destruct (_ || _) eqn:Hstop;
     [intros [= <-]; exists false, [], []; split; [by apply filled_refl|by left]|]); [done|].
  destruct (fill_turn v target s) as [s1 [c| |]] eqn:E; [|done|done].
  destruct (fill_turn_filled v target s s1 c Hd Hs E) as (ended & c1 & f1 & Hf & Hc & Hdone).
  destruct c; [|intros [= <-]; exists ended, c1, f1; split; [done|by apply Hdone]].
  rewrite (Hc eq_refl) in Hf. intros E2.
  destruct (IH s1 (fd_ok _ _ _ _ _ Hf) E2) as (ended2 & c2 & f2 & Hf2 & Hdone2).
  exists ended2, (c1 ++ c2), (f1 ++ f2). split; [by eapply filled_trans|done].
Qed.

End Uniform.

(** ** Lemmas: the limits of the queue *)

Definition queue_limits (s : FillState) : limits := limits_of (fs_queue s).

Lemma push_frame_limits q f : limits_of (fst (push_frame q f)) = limits_of q.
Proof. unfold push_frame, push. by destruct (can_fit_frame q f). Qed.

Lemma drain_frames_limits frames q : limits_of (snd (fst (drain_frames frames q))) = limits_of q.
Proof.
  revert q; induction frames as [|f frames IH]; intros q; cbn; [done|].
  destruct (can_fit_frame q f); [|done]. pose proof (push_frame_limits q f) as H.
  destruct (push_frame q f) as [q' [[]| |]]; cbn in *; [by rewrite IH|done|done].
Qed.

Lemma enqueue_limits frames pending q :
  limits_of (snd (fst (enqueue frames pending q))) = limits_of q.
Proof.
  revert pending q; induction frames as [|f frames IH]; intros pending q; cbn; [done|].
  destruct (can_fit_frame q f); [|by rewrite IH]. pose proof (push_frame_limits q f) as H.
  destruct (push_frame q f) as [q' [[]| |]]; cbn in *; [by rewrite IH|done|done].
Qed.

Lemma drain_pending_limits : keeps queue_limits drain_pending_frames.
Proof.
  intros s. unfold drain_pending_frames, queue_limits.
  pose proof (drain_frames_limits (pw_pending_frames (fs_worker s)) (fs_queue s)) as H.
  by destruct (drain_frames _ _) as [[pending q] r].
Qed.

Lemma enqueue_frames_limits frames : keeps queue_limits (enqueue_frames frames).
Proof.
  intros s. unfold enqueue_frames, queue_limits.
  pose proof (enqueue_limits frames (pw_pending_frames (fs_worker s)) (fs_queue s)) as H.
  by destruct (enqueue _ _ _) as [[pending q] r].
Qed.

Lemma with_normalizer_limits {A} (m : stm DiscordOpusFrameNormalizer PlaybackError A) :
  keeps queue_limits (with_normalizer m).
Proof. intros s. unfold with_normalizer. by destruct (m _). Qed.

Lemma fill_read_limits v : keeps queue_limits (fill_read v).
Proof.
  intros s. unfold fill_read. by destruct (read_stream_chunk _ _ _) as [[rec w] [[src r]| |]].
Qed.

Lemma fill_demux_limits chunk : keeps queue_limits (fill_demux chunk).
Proof. intros s. unfold fill_demux. by destruct (drain_packets _). Qed.

Lemma pop_packet_limits : keeps queue_limits pop_packet.
Proof. intros s. unfold pop_packet. by destruct (ps_pending_packets _). Qed.

Hint Resolve drain_pending_limits enqueue_frames_limits with_normalizer_limits fill_read_limits
  fill_demux_limits pop_packet_limits keeps_gets keeps_ret keeps_lift : rust.

Lemma buffer_packet_limits p : keeps queue_limits (buffer_packet p).
Proof. repeat (apply keeps_bind; [auto with rust|intros ?]); [done|auto with rust]. Qed.
Hint Resolve buffer_packet_limits : rust.

Lemma buffer_packets_limits target packets : keeps queue_limits (buffer_packets target packets).
Proof.
  induction packets as [|p packets IH]; cbn [buffer_packets]; [auto with rust|].
  apply keeps_bind; [auto with rust|intros s]. destruct (_ || _); [done|].
  apply keeps_bind; auto with rust.
Qed.
Hint Resolve buffer_packets_limits : rust.

Lemma fill_turn_limits v target : keeps queue_limits (fill_turn v target).
Proof.
  repeat (apply keeps_bind; [auto with rust|intros ?]).
  destruct (negb _); [auto with rust|]. destruct (_ || _); [auto with rust|].
  apply keeps_bind; [auto with rust|]. intros [p|]; [apply keeps_bind; auto with rust|].
  apply keeps_bind; [auto with rust|].
  intros [c|]; repeat (apply keeps_bind; [auto with rust|intros ?]); auto with rust.
Qed.

Lemma fill_loop_limits fuel v target : keeps queue_limits (fill_loop fuel v target).
Proof.
  induction fuel as [|fuel IH]; cbn [fill_loop]; (apply keeps_bind; [auto with rust|intros s]);
    (destruct (_ || _); [auto with rust|]); [auto with rust|].
  apply keeps_bind; [apply fill_turn_limits|]. intros []; auto with rust.
Qed.

(** ** Lemmas: termination *)

(** What buffering leaves alone: the stream and the servers. *)
Definition same_network (s s' : FillState) : Prop :=
  ps_stream (fs_source s') = ps_stream (fs_source s) /\
  w_servers (fs_world s') = w_servers (fs_world s).

Lemma drain_pending_network s s' b :
  drain_pending_frames s = (s', Ok b) -> fs_source s' = fs_source s /\ fs_world s' = fs_world s.
Proof.
  unfold drain_pending_frames. destruct (drain_frames _ _) as [[pending q] r]. by intros [= <- _].
Qed.

Lemma buffer_packet_network p s s' :
  buffer_packet p s = (s', Ok tt) ->
  same_network s s' /\ fs_source s' = fs_source s.
Proof.
  unfold buffer_packet, with_normalizer, enqueue_frames, modify. unfold mbind, stm_bind.
  destruct (push_packet p _) as [n [frames| |]]; [|done|done]. cbn.
  destruct (enqueue _ _ _) as [[pending q] r]. by intros [= <- _].
Qed.

Lemma buffer_packets_network target packets s s' :
  buffer_packets target packets s = (s', Ok tt) -> same_network s s'.
Proof.
  revert s; induction packets as [|p packets IH]; intros s; cbn [buffer_packets].
  - by intros [= <-].
  - unfold mbind, stm_bind, gets, id, modify. destruct (_ || _); [by intros [= <-]|].
    destruct (buffer_packet p s) as [s1 [[]| |]] eqn:E; [|done|done].
    apply buffer_packet_network in E as [[E1 E2] _]. intros H. apply IH in H as [H1 H2].
    split; congruence.
Qed.

(** What is left to do. *)
Definition todo (s : FillState) : nat * nat * nat :=
  (length (w_servers (fs_world s)), stream_weight (ps_stream (fs_source s)),
   length (ps_pending_packets (fs_source s))).

Definition todo_lt (a b : nat * nat * nat) : Prop :=
  let '(a1, a2, a3) := a in
  let '(b1, b2, b3) := b in
  (a1 < b1 \/ (a1 = b1 /\ (a2 < b2 \/ (a2 = b2 /\ a3 < b3))))%nat.

Lemma todo_lt_wf : well_founded todo_lt.
Proof.
  intros [[a b] c]. revert b c. induction (lt_wf a) as [a _ IHa]. intros b.
  induction (lt_wf b) as [b _ IHb]. intros c. induction (lt_wf c) as [c _ IHc].
  constructor. intros [[a' b'] c'] [H|[-> [H|[-> H]]]]; [by apply IHa|by apply IHb|by apply IHc].
Qed.

Lemma fill_turn_less v target s s' :
  fill_turn v target s = (s', Ok true) -> todo_lt (todo s') (todo s).
Proof.
  unfold fill_turn. unfold mbind at 1, stm_bind at 1.
  destruct (drain_pending_frames s) as [s1 [b| |]] eqn:E1; [|done|done].
  apply drain_pending_network in E1 as [Hsrc Hw].
  unfold mbind at 1, stm_bind at 1, gets at 1, id.
  destruct (negb b); [done|]. destruct (_ || _); [done|].
  unfold mbind at 1, stm_bind at 1, pop_packet, todo. rewrite <- Hsrc, <- Hw.
  destruct (ps_pending_packets (fs_source s1)) as [|p rest] eqn:Ep.
  - unfold mbind at 1, stm_bind at 1, fill_read.
    destruct (read_stream_chunk _ _ _) as [[rec w] [[src r]| |]] eqn:E2; [|done|done].
    destruct r as [[chunk|]| |]; [|unfold mbind, stm_bind, mret, stm_ret|done|done].
    + apply read_stream_chunk_progress in E2.
      unfold mbind, stm_bind, fill_demux, mret, stm_ret. cbn [fs_source].
      destruct (drain_packets _) as [demux [packets| |]]; [|done|done].
      destruct (buffer_packets _ _ _) as [s4 [[]| |]] eqn:Eb; [|done|done]. intros [= <-].
      apply buffer_packets_network in Eb as [H1 H2]. cbn in H1, H2. rewrite H1, H2. cbn.
      destruct E2 as [H|[-> H]]; [by left|right; split; [done|by left]].
    + destruct (with_normalizer flush _) as [s3 [frames| |]]; [|done|done].
      by destruct (enqueue_frames frames s3) as [s4 [[]| |]].
  - unfold mbind, stm_bind, mret, stm_ret.
    destruct (buffer_packet p _) as [s3 [[]| |]] eqn:Eb; [|done|done]. intros [= <-].
    apply buffer_packet_network in Eb as [[_ H2] H1]. cbn in H2. rewrite H1, H2. cbn.
    right. split; [done|]. right. split; [done|lia].
Qed.

(** ** Theorems *)


(** Filling terminates: there is no infinite run of turns of the fill
    loop, whatever the servers, the parser and the codec do; every turn that
    goes round again uses up a request, a part of the open response or a
    waiting packet. *)
Theorem fill_terminates video_id target :
  well_founded (fun s' s => fill_turn video_id target s = (s', Ok true)).
Proof.
  intros s. remember (todo s) as m eqn:Em. revert s Em.
  induction (todo_lt_wf m) as [m _ IH]. intros s ->. constructor. intros s' H.
  by eapply IH; [apply (fill_turn_less video_id target)|].
Qed.

End Worker.

(** ** Where the byte limit binds, order is lost *)

(** A frame of three bytes does not fit behind one byte when four is the
    limit, but the next, smaller one does, and overtakes it. *)
Definition long_frame : OpusFrame := with_duration_samples [1; 2; 3; 4] 20 960.
Definition short_frame : OpusFrame := with_duration_samples [5] 20 960.

Lemma enqueue_reorders :
  let '(pending, q, r) := enqueue [long_frame; short_frame] [] (with_resource_limits 8 3 1000) in
  r = Ok tt /\ q_inner q = [short_frame] /\ pending = [long_frame].
Proof. vm_compute. done. Qed.

(** ** The track of two blocks, with the limits of the service *)

Lemma pair_demuxes_small : demuxes_small 4096.
Proof.
  assert (Hone : forall st v st' packets, process_tag st (SimpleBlockTag [v]) = Ok (st', packets) ->
    Forall (small_packet 4096) packets).
  { intros st v st' packets. unfold process_tag.
    cbn [SimpleBlock_try_from pair_iterable map_err mbind result_bind].
    unfold extract_block, frames_to_packets. cbn [wb_track wb_timestamp wb_frames].
    destruct (negb _); cbn [mbind result_bind]; [by intros [= <- <-]|].
    cbn [map_err mbind result_bind].
    destruct (opus_frame_durations [[v]]) as [ds|]; cbn [ok_or mbind result_bind]; [|done].
    destruct (block_timestamp_samples st 0); cbn [mbind result_bind]; [|done|done].
    intros [= <- <-]. destruct ds as [|d ds]; cbn; [constructor|].
    constructor; [|destruct ds; constructor]. unfold small_packet, zlen. cbn. lia. }
  assert (Hall : forall n input z st packets, (length input <= n)%nat ->
    Forall (small_packet 4096) packets ->
    match parse_tags st packets (pair_tags z input) with
    | Ok (Complete _ out) | Ok (Incomplete _ out _) => Forall (small_packet 4096) out
    | _ => True
    end).
  { induction n as [|n IH]; intros [|k [|v input]] z st packets Hn Hp; cbn in Hn |- *;
      try lia; try done.
    destruct (k =? 0); [cbn; rewrite app_nil_r; apply IH; [lia|done]|].
    destruct (process_tag st (SimpleBlockTag [v])) as [[st' out]| |] eqn:E; [|done|done].
    cbn [mbind result_bind fst snd]. apply IH; [lia|]. apply Forall_app. split; [done|].
    by eapply Hone. }
  intros d chunk d' packets. unfold drain_packets. case_bool_decide; [by intros [= <- <-]|].
  unfold parse_available. cbn [webm_tags pair_iterable].
  specialize (Hall _ (wd_pending (push_bytes d chunk)) 0 (wd_state (push_bytes d chunk)) []
    (le_n _) (Forall_nil_2 _)).
  destruct (parse_tags _ _ _) as [[st out|st out tail|]| |]; [by intros [= <- <-]| |..]; try done.
  - destruct (_ && _); [by intros [= <- <-]|]. intros [= <- <-]. constructor.
  - intros [= <- <-]. constructor.
Qed.

Definition sample_fill : FillState :=
  mkFillState
    (mkPlaybackWorker (Some "song"%string) (fst (fst track_opened))
       (ps_position track_opened_source) 80 DiscordOpusFrameNormalizer_new [])
    (with_resource_limits 1024 4194304 500) track_opened_source (snd (fst track_opened)).

Lemma sample_fill_ok : fill_ok 4096 sample_fill.
Proof.
  split.
  - split; [|split; [vm_compute; discriminate|constructor]].
    apply with_resource_limits_ok; vm_compute; intuition discriminate.
  - constructor.
  - vm_compute. repeat constructor. discriminate.
  - vm_compute. discriminate.
Qed.

Definition sample_filled := fill_queue_to_duration_ms_for_video 20 (Some "song"%string) 500 sample_fill.

