(* ===== verification/DeadlineSender.v ===== *)
(** * The deadline sender

    crates/discord-voice-service-runtime/src/session/deadline_sender.rs: the
    task that owns the outgoing media socket. Each tick waits for the deadline,
    takes at most one prepared packet from its command channel, drops it when
    its generation was invalidated, and otherwise sends it and sets the next
    deadline from the actual send times. The sink is the class
    [PreparedUdpSink] (the source's trait); the UDP sender of Udp.v is its
    instance. *)

From S2P Require Import Prelude VoiceErrors OpusQueue Rtp Udp Pacer.
From stdpp Require Import prelude strings.
Open Scope Z_scope.

(** ** Errors of the runtime (error.rs) *)

Inductive RuntimeError : Type :=
| RInvalidState (reason : string)
| Playback (e : PlaybackError)
| Voice (e : VoiceError).

Abbreviation rresult := (result RuntimeError).

(** ** Commands and records *)

Definition DEADLINE_TICK : Z := 20000000.

Inductive PreparedPacketKind : Type := KTrack | ScheduledSilence | BoundarySilence.

#[global] Instance PreparedPacketKind_eq_dec : EqDecision PreparedPacketKind.
Proof. solve_decision. Defined.

Record PreparedMediaFrame : Type := mkPreparedMediaFrame {
  mf_duration_ms : Z;
  mf_duration_samples : Z;
  mf_media_position_ms : Z;
  mf_media_position_samples : Z;
  mf_media_byte_position : option Z;
  mf_epoch : Z;
}.

#[global] Instance PreparedMediaFrame_eq_dec : EqDecision PreparedMediaFrame.
Proof. solve_decision. Defined.

Record PreparedPlayoutCommand : Type := mkPreparedPlayoutCommand {
  pc_packet : PreparedVoicePacket;
  pc_kind : PreparedPacketKind;
  pc_media_frame : option PreparedMediaFrame;
  pc_generation : Z;
}.

Record DeadlineSendRecord : Type := mkDeadlineSendRecord {
  sr_expected_deadline : Z;
  sr_send_started_at : Z;
  sr_sent_at : Z;
  sr_kind : PreparedPacketKind;
  sr_duration_ms : Z;
  sr_duration_samples : Z;
  sr_rtp_sequence : Z;
  sr_rtp_timestamp : Z;
  sr_protection_nonce : option Z;
  sr_media_frame : option PreparedMediaFrame;
}.

Record DeadlineDropRecord : Type := mkDeadlineDropRecord {
  dr_kind : PreparedPacketKind;
  dr_duration_ms : Z;
  dr_duration_samples : Z;
  dr_rtp_sequence : Z;
  dr_rtp_timestamp : Z;
  dr_protection_nonce : option Z;
  dr_media_frame : option PreparedMediaFrame;
  dr_generation : Z;
}.

(** [DeadlineDropRecord::from_command]. *)
Definition drop_record (c : PreparedPlayoutCommand) : DeadlineDropRecord :=
  let p := pc_packet c in
  mkDeadlineDropRecord (pc_kind c) (pv_duration_ms p) (pv_duration_samples p)
    (pv_rtp_sequence p) (pv_rtp_timestamp p) (pv_protection_nonce p) (pc_media_frame c)
    (pc_generation c).

Definition send_record (expected_deadline send_started_at sent_at : Z)
    (c : PreparedPlayoutCommand) : DeadlineSendRecord :=
  let p := pc_packet c in
  mkDeadlineSendRecord expected_deadline send_started_at sent_at (pc_kind c) (pv_duration_ms p)
    (pv_duration_samples p) (pv_rtp_sequence p) (pv_rtp_timestamp p) (pv_protection_nonce p)
    (pc_media_frame c).

(** ** Sinks *)

(** [sock] is what the socket answers. *)
Class PreparedUdpSink (S : Type) : Type := {
  sink_send : S -> PreparedVoicePacket -> vresult unit -> S * rresult unit;
  sink_wire : S -> list PreparedVoicePacket;
}.

(** A sink that reports success has put the packet, and nothing else, on the
    wire. *)
Class PreparedUdpSinkLaws (S : Type) `{PreparedUdpSink S} : Prop := {
  sink_send_ok s p sock s' :
    sink_send s p sock = (s', Ok tt) -> sink_wire s' = sink_wire s ++ [p];
}.

#[global] Instance voice_sink : PreparedUdpSink VoicePreparedPacketSender := {|
  sink_send s p sock :=
    let '(s', r) := send_prepared_packet s p sock in (s', map_err Voice r);
  sink_wire := ps_wire;
|}.

#[global] Instance voice_sink_laws : PreparedUdpSinkLaws VoicePreparedPacketSender.
Proof.
  split. intros s p sock s'. cbn [sink_send sink_wire voice_sink]. unfold send_prepared_packet, commit_cursor.
  destruct (current _) as [q t]. destruct (_ || _); [by intros [=]|].
  destruct sock as [[]| |]; [|by intros [=]..].
  cbn [ps_send_sequence]. destruct (_ =? _); [|by intros [=]]. by intros [= <-].
Qed.

(** ** The sender *)

Section Sender.
Context {S : Type} `{K : PreparedUdpSink S}.

Record DeadlineSender : Type := mkDeadlineSender {
  ds_sink : S;
  ds_commands : list PreparedPlayoutCommand;
  ds_disconnected : bool;
  ds_checks_generation : bool;
  ds_shutdown : bool;
  ds_sent : list DeadlineSendRecord;
  ds_dropped : list DeadlineDropRecord;
  ds_empty_tick_count : Z;
  ds_tick : Z;
  ds_next_deadline : option Z;
}.

(** What one tick reads from its surroundings: the clock on entry, the sleep,
    commands that arrive while it sleeps, the active generation, the clock
    after the sleep ([te_started]) and after the send, the socket, and whether the record channels have room. *)
Record TickEnv : Type := mkTickEnv {
  te_now : Z;
  te_sleep : SleepEnv;
  te_arrived : list PreparedPlayoutCommand;
  te_generation : Z;
  te_started : Z;
  te_sock : vresult unit;
  te_sent : Z;
  te_room : bool;
}.

Definition packet_send_interval (p : PreparedVoicePacket) : Z :=
  Z.max (duration_from_samples (pv_duration_samples p)) 1000000.

(** The deadline after a send. *)
Definition deadline_after (send_started_at sent_at interval : Z) : Z :=
  let ideal_next_deadline := send_started_at + interval in
  if ideal_next_deadline <=? sent_at then sent_at + interval else ideal_next_deadline.

(** The sender with the given channel, deadline and records. *)
Definition update (s : DeadlineSender) (sink : S) (commands : list PreparedPlayoutCommand)
    (sent : list DeadlineSendRecord) (dropped : list DeadlineDropRecord) (empty : Z)
    (next_deadline : option Z) : DeadlineSender :=
  mkDeadlineSender sink commands (ds_disconnected s) (ds_checks_generation s) (ds_shutdown s)
    sent dropped empty (ds_tick s) next_deadline.

Definition shut_down (s : DeadlineSender) : DeadlineSender :=
  mkDeadlineSender (ds_sink s) (ds_commands s) (ds_disconnected s) (ds_checks_generation s) true
    (ds_sent s) (ds_dropped s) (ds_empty_tick_count s) (ds_tick s) None.

(** [tick_once]; [None] while the sleep has not ended. *)
Definition tick_once (s : DeadlineSender) (e : TickEnv) : option (DeadlineSender * rresult unit) :=
  let expected_deadline := default (te_now e + ds_tick s) (ds_next_deadline s) in
  woken ← (if te_now e <? expected_deadline
           then sleep_until_precise expected_deadline (te_sleep e) else Some (te_now e));
  let commands := ds_commands s ++ te_arrived e in
  Some
    match commands with
    | [] =>
        if ds_disconnected s then (shut_down s, Ok tt)
        else (update s (ds_sink s) [] (ds_sent s) (ds_dropped s)
                (sat_add u64_max (ds_empty_tick_count s) 1) (Some (te_started e + ds_tick s)), Ok tt)
    | command :: rest =>
        if ds_checks_generation s && negb (pc_generation command =? te_generation e) then
          if negb (te_room e)
          then (update s (ds_sink s) rest (ds_sent s) (ds_dropped s) (ds_empty_tick_count s) None,
                Err (RInvalidState "deadline drop record channel unavailable"))
          else (update s (ds_sink s) rest (ds_sent s) (ds_dropped s ++ [drop_record command])
                  (ds_empty_tick_count s) (Some (te_started e + ds_tick s)), Ok tt)
        else
          match sink_send (ds_sink s) (pc_packet command) (te_sock e) with
          | (sink, Err err) =>
              (update s sink rest (ds_sent s) (ds_dropped s) (ds_empty_tick_count s) None, Err err)
          | (sink, Panic) =>
              (update s sink rest (ds_sent s) (ds_dropped s) (ds_empty_tick_count s) None, Panic)
          | (sink, Ok _) =>
              let interval := packet_send_interval (pc_packet command) in
              let record := send_record expected_deadline (te_started e) (te_sent e) command in
              let s' := update s sink rest (ds_sent s ++ [record]) (ds_dropped s)
                          (ds_empty_tick_count s)
                          (Some (deadline_after (te_started e) (te_sent e) interval)) in
              (s', if te_room e then Ok tt
                   else Err (RInvalidState "deadline send record channel unavailable"))
          end
    end.

(** [run]: ticks until the shutdown flag is up, an error, or the end of the
    observations. *)
Fixpoint run (s : DeadlineSender) (envs : list TickEnv) : DeadlineSender * rresult unit :=
  match envs with
  | [] => (s, Ok tt)
  | e :: rest =>
      if ds_shutdown s then (s, Ok tt)
      else match tick_once s e with
           | None => (s, Ok tt)
           | Some (s', Ok _) => run s' rest
           | Some (s', r) => (s', r)
           end
  end.

(** ** Clock readings in order *)

(** The clock does not go back: within a tick, and from one tick to the next.
    [woken] is when the sleep ended. *)
Definition tick_ordered (s : DeadlineSender) (e : TickEnv) : Prop :=
  0 <= se_final_late (te_sleep e) /\
  (forall woken, sleep_until_precise (default (te_now e + ds_tick s) (ds_next_deadline s)) (te_sleep e)
     = Some woken -> woken <= te_started e) /\
  te_now e <= te_started e /\ te_started e <= te_sent e.

Fixpoint run_ordered (s : DeadlineSender) (clock : Z) (envs : list TickEnv) : Prop :=
  match envs with
  | [] => True
  | e :: rest =>
      tick_ordered s e /\ clock <= te_now e /\
      match tick_once s e with
      | Some (s', Ok _) => run_ordered s' (te_sent e) rest
      | _ => True
      end
  end.

(** Consecutive sends are at least the earlier packet's interval apart. *)
Definition record_interval (r : DeadlineSendRecord) : Z :=
  Z.max (duration_from_samples (sr_duration_samples r)) 1000000.

Fixpoint spaced (l : list DeadlineSendRecord) : Prop :=
  match l with
  | r1 :: (r2 :: _) as rest =>
      sr_send_started_at r1 + record_interval r1 <= sr_send_started_at r2 /\ spaced rest
  | _ => True
  end.

(** ** Lemmas: spacing *)

Lemma spaced_snoc l r :
  spaced l ->
  (forall r', last l = Some r' -> sr_send_started_at r' + record_interval r' <= sr_send_started_at r) ->
  spaced (l ++ [r]).
Proof.
  induction l as [|r1 l IH]; intros Hl Hr; [done|]. destruct l as [|r2 l].
  - cbn. split; [by apply Hr|done].
  - destruct Hl as [H1 H2]. split; [done|]. apply IH; [done|]. intros r' Hr'. by apply Hr.
Qed.

Lemma sleep_never_early deadline env t :
  0 <= se_final_late env -> sleep_until_precise deadline env = Some t -> deadline <= t.
Proof.
  intros Hl. unfold sleep_until_precise. induction (se_spins env) as [|[n e] l IH]; [done|]. cbn.
  zcase; [by intros [= <-]|]. zcase; [intros [= <-]; lia|done].
Qed.

(** The deadline that is set keeps the distance from the last send. *)
Definition keeps_distance (s : DeadlineSender) : Prop :=
  forall r, last (ds_sent s) = Some r -> ds_shutdown s = false ->
  exists d, ds_next_deadline s = Some d /\ sr_send_started_at r + record_interval r <= d.

Lemma deadline_after_ge started sent interval :
  0 <= interval -> started <= sent -> started + interval <= deadline_after started sent interval.
Proof. intros Hi Hs. unfold deadline_after. zcase; lia. Qed.

Lemma tick_spaced s e s' :
  tick_ordered s e -> ds_shutdown s = false -> 0 <= ds_tick s ->
  spaced (ds_sent s) -> keeps_distance s -> tick_once s e = Some (s', Ok tt) ->
  spaced (ds_sent s') /\ keeps_distance s' /\ ds_tick s' = ds_tick s.
Proof.
  intros (Hl & Hw & Hn & Ho) Hsd Htick Hsp Hk. unfold tick_once.
  set (expected := default (te_now e + ds_tick s) (ds_next_deadline s)).
  destruct (if _ <? _ then _ else _) as [woken|] eqn:Ew; [|done]. cbn [mbind option_bind].
  assert (Hstart : expected <= te_started e).
  { zcase; [|injection Ew as <-; lia]. pose proof (sleep_never_early _ _ _ Hl Ew).
    specialize (Hw _ Ew). lia. }
  assert (Hlast : forall r, last (ds_sent s) = Some r ->
    sr_send_started_at r + record_interval r <= te_started e).
  { intros r Hr. destruct (Hk r Hr Hsd) as (d & Hd & Hle). unfold expected in Hstart.
    rewrite Hd in Hstart. cbn in Hstart. lia. }
  destruct (ds_commands s ++ te_arrived e) as [|command rest].
  - destruct (ds_disconnected s); intros [= <-]; cbn; (split; [done|]; split; [|done]).
    + intros r _ H. done.
    + intros r Hr _. eexists. split; [done|]. specialize (Hlast r Hr). cbn. lia.
  - destruct (_ && _).
    + destruct (te_room e); [|by intros [=]]. intros [= <-]. cbn. split; [done|]. split; [|done].
      intros r Hr _. eexists. split; [done|]. specialize (Hlast r Hr). cbn. lia.
    + destruct (sink_send _ _ _) as [sink [[]| |]]; [|by intros [=]..].
      destruct (te_room e); [|by intros [=]]. intros [= <-]. cbn. split; [|split; [|done]].
      * apply spaced_snoc; [done|]. intros r Hr. cbn. by apply Hlast.
      * unfold keeps_distance. cbn [ds_sent update]. intros r. rewrite last_snoc. intros [= <-] _. eexists. split; [done|]. cbn.
        apply deadline_after_ge; [unfold packet_send_interval; lia|done].
Qed.

Lemma run_spaced s clock envs s' :
  run_ordered s clock envs -> 0 <= ds_tick s -> spaced (ds_sent s) -> keeps_distance s ->
  run s envs = (s', Ok tt) -> spaced (ds_sent s').
Proof.
  revert s clock; induction envs as [|e envs IH]; intros s clock Ho Ht Hsp Hk; cbn [run].
  - by intros [= <-].
  - destruct (ds_shutdown s) eqn:Hsd; [by intros [= <-]|]. destruct Ho as (Hto & _ & Hrest).
    destruct (tick_once s e) as [[s1 [[]| |]]|] eqn:E; [|by intros [=]..|by intros [= <-]].
    destruct (tick_spaced s e s1 Hto Hsd Ht Hsp Hk E) as (H1 & H2 & H3).
    apply (IH s1 (te_sent e)); [done|lia|done|done].
Qed.

(** ** Lemmas: every command once *)

(** The commands the sender has not seen yet, the arriving ones included. *)
Definition arriving (s : DeadlineSender) (envs : list TickEnv) : list PreparedPlayoutCommand :=
  ds_commands s ++ concat (map te_arrived envs).

Definition active (g : Z) (c : PreparedPlayoutCommand) : bool := pc_generation c =? g.

(** From [s] to [s'] the commands [consumed] were taken, those of generation
    [g] sent, in order, the others dropped. *)
Record handled (g : Z) (s s' : DeadlineSender) (consumed : list PreparedPlayoutCommand) : Prop := {
  hd_wire : sink_wire (ds_sink s')
            = sink_wire (ds_sink s) ++ map pc_packet (List.filter (active g) consumed);
  hd_dropped : ds_dropped s'
               = ds_dropped s ++ map drop_record (List.filter (fun c => negb (active g c)) consumed);
  hd_checks : ds_checks_generation s' = ds_checks_generation s;
}.

Lemma handled_nil g s s' :
  ds_sink s' = ds_sink s -> ds_dropped s' = ds_dropped s ->
  ds_checks_generation s' = ds_checks_generation s -> handled g s s' [].
Proof. intros H1 H2 H3. split; cbn; by rewrite ?app_nil_r, ?H1, ?H2. Qed.

Lemma handled_trans g s s1 s2 a b :
  handled g s s1 a -> handled g s1 s2 b -> handled g s s2 (a ++ b).
Proof.
  intros [A1 A2 A3] [B1 B2 B3]. split; [| |congruence].
  - by rewrite B1, A1, List.filter_app, map_app, app_assoc.
  - by rewrite B2, A2, List.filter_app, map_app, app_assoc.
Qed.

Context `{L : !PreparedUdpSinkLaws S}.

Lemma tick_handled g s e s' :
  ds_checks_generation s = true -> te_generation e = g -> tick_once s e = Some (s', Ok tt) ->
  exists consumed, handled g s s' consumed /\
    consumed ++ ds_commands s' = ds_commands s ++ te_arrived e.
Proof.
  intros Hc Hg. unfold tick_once. destruct (if _ <? _ then _ else _); [|done].
  cbn [mbind option_bind]. rewrite Hc, Hg. cbn [andb].
  destruct (ds_commands s ++ te_arrived e) as [|command rest] eqn:Ecs.
  - apply app_eq_nil in Ecs as [Ecs _].
    destruct (ds_disconnected s); intros [= <-]; exists []; (split; [by apply handled_nil|done]).
  - fold (active g command). destruct (active g command) eqn:Ea; cbn [negb].
    + destruct (sink_send _ _ _) as [sink [[]| |]] eqn:Es; [|by intros [=]..].
      destruct (te_room e); [|by intros [=]]. intros [= <-]. exists [command].
      split; [|done]. apply sink_send_ok in Es.
      split; cbn; rewrite ?Ea; cbn; [done|by rewrite app_nil_r|done].
    + destruct (te_room e); [|by intros [=]]. intros [= <-]. exists [command].
      split; [|done]. split; cbn; rewrite ?Ea; cbn; [by rewrite app_nil_r|done|done].
Qed.

Lemma run_handled g s envs s' :
  ds_checks_generation s = true -> Forall (fun e => te_generation e = g) envs ->
  run s envs = (s', Ok tt) ->
  exists consumed, handled g s s' consumed /\
    (consumed ++ ds_commands s') `prefix_of` arriving s envs.
Proof.
  intros Hc He. revert s Hc. induction He as [|e envs He Hes IH]; intros s Hc; cbn [run].
  - intros [= <-]. exists []. split; [by apply handled_nil|]. by exists [].
  - assert (Hstop : exists consumed, handled g s s consumed /\
      (consumed ++ ds_commands s) `prefix_of` arriving s (e :: envs)).
    { exists []. split; [by apply handled_nil|]. by eexists. }
    destruct (ds_shutdown s); [by intros [= <-]|].
    destruct (tick_once s e) as [[s1 [[]| |]]|] eqn:E; [|by intros [=]..|by intros [= <-]].
    destruct (tick_handled g s e s1 Hc He E) as (c1 & H1 & Ecs). intros Hrun.
    destruct (IH s1) as (c2 & H2 & [k Hk]); [by rewrite (hd_checks _ _ _ _ H1)|done|].
    exists (c1 ++ c2). split; [by eapply handled_trans|]. exists k.
    unfold arriving in *. cbn [map concat]. rewrite app_assoc, <- Ecs, <- !app_assoc.
    f_equal. rewrite Hk, <- app_assoc. done.
Qed.

(** ** Theorems *)

(** C31. Packets leave the service no faster than real time: in any run of the
    sender with a clock that does not go back, with late wake-ups, slow sends,
    empty ticks and dropped packets, two consecutive sends start at least the
    first packet's duration (at least 1 ms) apart. *)
Theorem deadline_sender_never_bursts s clock envs s' :
  run_ordered s clock envs -> 0 <= ds_tick s -> ds_sent s = [] ->
  run s envs = (s', Ok tt) -> spaced (ds_sent s').
Proof.
  intros Ho Ht Hn. apply (run_spaced s clock); [done|done|by rewrite Hn|].
  intros r. by rewrite Hn.
Qed.

(** A generation is cut off cleanly: the commands a run takes from its
    channel are taken in order, each once; those of the active generation are
    put on the wire in that order, every other one is recorded as dropped and
    never reaches the socket. *)
Theorem deadline_sender_handles_each_once g s envs s' :
  ds_checks_generation s = true -> Forall (fun e => te_generation e = g) envs ->
  run s envs = (s', Ok tt) ->
  exists consumed, handled g s s' consumed /\
    (consumed ++ ds_commands s') `prefix_of` arriving s envs.
Proof. apply run_handled. Qed.

End Sender.

(** ** Two packets and a stale one *)

Definition first_packet : PreparedVoicePacket :=
  mkPreparedVoicePacket [1] 20 960 true (rs_sequence RtpSequenceState_new)
    (rs_timestamp RtpSequenceState_new) None.
Definition stale_packet : PreparedVoicePacket := mkPreparedVoicePacket [9] 20 960 true 7 7 None.
Definition second_packet : PreparedVoicePacket :=
  mkPreparedVoicePacket [2] 20 960 true
    (wrapping_add 16 (rs_sequence RtpSequenceState_new) 1)
    (wrapping_add 32 (rs_timestamp RtpSequenceState_new) 960) None.

Definition sample_sender : DeadlineSender :=
  mkDeadlineSender VoicePreparedPacketSender_new
    [mkPreparedPlayoutCommand first_packet KTrack None 3;
     mkPreparedPlayoutCommand stale_packet KTrack None 2] false true false [] [] 0
    DEADLINE_TICK (Some 20000000).

(** A wake-up 5 ms late, a stale packet, then the second packet. *)
Definition sample_ticks : list TickEnv :=
  [mkTickEnv 0 (mkSleepEnv 0 0 [(25000000, 0)] 0) [] 3 25000000 (Ok tt) 25100000 true;
   mkTickEnv 26000000 (mkSleepEnv 26000000 0 [(45000000, 0)] 0)
     [mkPreparedPlayoutCommand second_packet KTrack None 3] 3 45000000 (Ok tt) 45000000 true;
   mkTickEnv 46000000 (mkSleepEnv 46000000 0 [(65000000, 0)] 0) [] 3 65000000 (Ok tt) 65200000 true].

Definition sample_ticked : DeadlineSender := fst (run sample_sender sample_ticks).

Lemma sample_run_ok : run sample_sender sample_ticks = (sample_ticked, Ok tt).
Proof. vm_compute. reflexivity. Qed.

Lemma run_ordered_cons {S} `{PreparedUdpSink S} s clock e rest s' :
  tick_once s e = Some (s', Ok tt) -> tick_ordered s e -> clock <= te_now e ->
  run_ordered s' (te_sent e) rest -> run_ordered s clock (e :: rest).
Proof. intros E Ht Hc Hr. cbn [run_ordered]. by rewrite E. Qed.

Lemma sample_ticks_ordered : run_ordered sample_sender 0 sample_ticks.
Proof.
  do 3 (eapply run_ordered_cons; [vm_compute; reflexivity| |vm_compute; discriminate|];
    [split; [vm_compute; discriminate|]; split;
     [intros woken Hw; vm_compute in Hw; injection Hw as <-; vm_compute; discriminate|];
     split; vm_compute; discriminate|]).
  exact I.
Qed.

Lemma deadline_sender_never_bursts_witness :
  map sr_send_started_at (ds_sent sample_ticked) = [25000000; 65000000] /\
  spaced (ds_sent sample_ticked).
Proof.
  split; [vm_compute; reflexivity|].
  apply (deadline_sender_never_bursts sample_sender 0 sample_ticks sample_ticked
           sample_ticks_ordered); [vm_compute; discriminate|reflexivity|exact sample_run_ok].
Defined.

Lemma deadline_sender_handles_each_once_witness :
  sink_wire (ds_sink sample_ticked) = [first_packet; second_packet] /\
  ds_dropped sample_ticked = [drop_record (mkPreparedPlayoutCommand stale_packet KTrack None 2)] /\
  exists consumed, handled 3 sample_sender sample_ticked consumed.
Proof.
  split; [vm_compute; reflexivity|]. split; [vm_compute; reflexivity|].
  destruct (deadline_sender_handles_each_once 3 sample_sender sample_ticks sample_ticked)
    as (consumed & H & _); [reflexivity|repeat constructor|exact sample_run_ok|].
  by exists consumed.
Defined.
