(* ===== verification/Egress.v ===== *)
(** * Source buffer, egress buffer and prepared playout

    crates/discord-voice-service-runtime/src/session/runtime.rs: the three
    bounded stages between the producer task and the deadline sender, the
    producer's refill decision, and what the live media driver does with the
    frames of the stages when playback is interrupted. The events and reasons
    are those of session/metrics.rs.

    Metrics are offered to a bounded channel and the answer is ignored, so the
    model records every offer in [d_metrics]; nothing reads them back. *)

From S2P Require Import Prelude OpusQueue Udp Normalizer WebmDemux Recovery Worker DeadlineSender.
From S2P Require HttpStream.
From stdpp Require Import prelude strings.
Open Scope Z_scope.

(** ** Limits *)

Definition PLAYBACK_QUEUE_CAPACITY : Z := 1024.
Definition PLAYBACK_BUFFER_MEMORY_CAP_BYTES : Z := 4 * 1024 * 1024.
Definition PLAYBACK_SOURCE_BUFFER_TARGET_MS : Z := 5000.
Definition PLAYBACK_SOURCE_BUFFER_HIGH_WATERMARK_MS : Z := 5000.
Definition PLAYBACK_SOURCE_BUFFER_LOW_WATERMARK_MS : Z := 4000.
Definition PLAYBACK_SOURCE_BUFFER_REFILL_BATCH_MS : Z := 1000.
Definition DISCORD_EGRESS_BUFFER_TARGET_MS : Z := 400.
Definition DISCORD_EGRESS_BUFFER_HIGH_WATERMARK_MS : Z := 500.

(** ** Data *)

Record SourceBufferState : Type := mkSourceBufferState {
  sb_queue : OpusFrameQueue;
  sb_end_of_stream : bool;
  sb_error : option PlaybackError;
}.

(** [DiscordEgressBuffer] is a frame queue with these limits. *)
Definition DiscordEgressBuffer_new : OpusFrameQueue :=
  with_resource_limits PLAYBACK_QUEUE_CAPACITY PLAYBACK_BUFFER_MEMORY_CAP_BYTES
    DISCORD_EGRESS_BUFFER_HIGH_WATERMARK_MS.

Record PreparedTrackPlayout : Type := mkPreparedTrackPlayout {
  pt_command : PreparedPlayoutCommand;
  pt_frame : OpusFrame;
}.

Record PreparedPlayoutQueue : Type := mkPreparedPlayoutQueue {
  pq_queue : list PreparedTrackPlayout;
  pq_packets : Z;
  pq_bytes : Z;
  pq_duration_samples : Z;
}.

Inductive PreparedPlayoutQueueEventReason : Type :=
| Unspecified | SteadyPlayback | Pause | Stop | DaveTransitionRecovery | Reconnect
| SourceUnderrun | NaturalEnd | Interruption.

Inductive PreparedPlayoutQueueEventKind : Type :=
| Unknown | Enqueued | DequeuedToDeadlineSender | DroppedBeforeSend | Rebuilt.

Inductive PlaybackSendCommandKind : Type :=
| CTrack | CScheduledSilence | CBoundarySilence | COtherBoundary.

Definition playback_send_command_kind (kind : PreparedPacketKind) : PlaybackSendCommandKind :=
  match kind with
  | KTrack => CTrack
  | ScheduledSilence => CScheduledSilence
  | BoundarySilence => CBoundarySilence
  end.

Record PreparedFrameIdentity : Type := mkPreparedFrameIdentity {
  fi_epoch : Z;
  fi_source_position_ms : Z;
  fi_source_position_samples : Z;
  fi_source_byte_position : option Z;
}.

#[global] Instance PreparedFrameIdentity_eq_dec : EqDecision PreparedFrameIdentity.
Proof. solve_decision. Defined.

Record PreparedFrameRebuildCredit : Type := mkPreparedFrameRebuildCredit {
  rc_identity : PreparedFrameIdentity;
  rc_reason : PreparedPlayoutQueueEventReason;
}.

Record PendingDeadlineCommand : Type := mkPendingDeadlineCommand {
  pd_frame : option OpusFrame;
  pd_kind : PreparedPacketKind;
  pd_duration_ms : Z;
  pd_duration_samples : Z;
  pd_rtp_sequence : Z;
  pd_rtp_timestamp : Z;
  pd_protection_nonce : option Z;
  pd_media_frame : option PreparedMediaFrame;
  pd_generation : Z;
}.

(** The fields the event takes from the command, the pending entry or the
    drop record; [u32::from(rtp_sequence)] and the conversion of the depth to
    its snapshot are the identity on values. *)
Record PreparedPlayoutQueueEventSnapshot : Type := mkPlayoutEvent {
  ev_event_index : Z;
  ev_event_kind : PreparedPlayoutQueueEventKind;
  ev_reason : PreparedPlayoutQueueEventReason;
  ev_command_kind : PlaybackSendCommandKind;
  ev_media_duration_ms : Z;
  ev_media_duration_samples : Z;
  ev_rtp_sequence : Z;
  ev_rtp_timestamp : Z;
  ev_protection_nonce : option Z;
  ev_source_frame_epoch : option Z;
  ev_source_media_position_ms : option Z;
  ev_source_media_position_samples : option Z;
  ev_source_media_byte_position : option Z;
  ev_queue_depth_after : OpusBufferDepth;
}.

Inductive MediaClockResetReason : Type := PauseResume | SchedulerLate | SourceUnderrunReset.

Record ProducerMetricsSample : Type := mkProducerSample {
  ps_fill_duration : Z;
  ps_produced_frames : Z;
  ps_source_buffer_depth : OpusBufferDepth;
  ps_stream_metrics : HttpStream.HttpOpusStreamMetrics;
  ps_recovery_metrics : PlaybackRecoveryMetrics;
}.

(** What a drain of the gateway reports: how long it took, the events and the
    transitions among them. *)
Record DrainReport : Type := mkDrain {
  gd_duration : Z;
  gd_event_count : Z;
  gd_dave_transition_count : Z;
}.

Record SenderSentMetric : Type := mkSenderSent {
  sm_packet_index : Z;
  sm_kind : PreparedPacketKind;
  sm_duration_ms : Z;
  sm_duration_samples : Z;
  sm_is_track : bool;
  sm_expected_deadline : Z;
  sm_send_started_at : Z;
  sm_sent_at : Z;
  sm_send_duration : Z;
  sm_rtp_sequence : Z;
  sm_rtp_timestamp : Z;
  sm_protection_nonce : option Z;
  sm_media_frame : option PreparedMediaFrame;
  sm_non_send_work_duration : Z;
  sm_gateway_drain : DrainReport;
  sm_media_clock_reset : bool;
  sm_tempo_rebased : bool;
  sm_remaining_depth : OpusBufferDepth;
  sm_egress_depth : OpusBufferDepth;
}.

Inductive PlaybackPipelineMetric : Type :=
| SourceProducer (sample : ProducerMetricsSample)
| SourceDepth (d : OpusBufferDepth)
| SenderStarted (source_depth : OpusBufferDepth)
| EgressDepth (d : OpusBufferDepth)
| PreparedTrackQueueDepth (d : OpusBufferDepth)
| NonTrackPlayoutQueueDepth (command_kind : PlaybackSendCommandKind) (d : OpusBufferDepth)
| PreparedPlayoutQueueEvent (e : PreparedPlayoutQueueEventSnapshot)
| ExplicitMediaBoundary (reason : PreparedPlayoutQueueEventReason)
| SourceUnderrunReachedBuilder
| SourceUnderrunReachedDeadlineSender
| RestoredSourceFrames (frame_count duration_samples : Z)
| DiscardedSourceFrames (reason : PreparedPlayoutQueueEventReason)
    (frame_count duration_samples : Z)
| PlayoutBuilderPrepared (duration : Z)
| GatewayDrain (report : DrainReport)
| SenderSent (sent : SenderSentMetric)
| SenderEgressUnderrun (d : OpusBufferDepth)
| SenderSkippedSourceFrames (frame_count duration_samples : Z) (remaining_depth : OpusBufferDepth)
| EgressDroppedMusicFrames (frame_count duration_samples : Z)
| SenderSourceUnderrun (d : OpusBufferDepth)
| SenderResumedAfterSourceUnderrun (d : OpusBufferDepth)
| SenderResumedFromPause
| SenderMediaClockReset (reason : MediaClockResetReason).

(** The fields of [LiveMediaDriver] the stages are made of, with the shared
    source buffer. *)
Record Driver : Type := mkDriver {
  d_source : SourceBufferState;
  d_egress : OpusFrameQueue;
  d_prepared : PreparedPlayoutQueue;
  d_credits : list PreparedFrameRebuildCredit;
  d_playback_epoch : Z;
  d_account_popped_frame_as_skipped_on_stop : bool;
  d_metrics : list PlaybackPipelineMetric;
}.

Abbreviation dstm := (stm Driver RuntimeError).

Definition set_source (s : SourceBufferState) (d : Driver) : Driver :=
  mkDriver s (d_egress d) (d_prepared d) (d_credits d) (d_playback_epoch d)
    (d_account_popped_frame_as_skipped_on_stop d) (d_metrics d).
Definition set_egress (q : OpusFrameQueue) (d : Driver) : Driver :=
  mkDriver (d_source d) q (d_prepared d) (d_credits d) (d_playback_epoch d)
    (d_account_popped_frame_as_skipped_on_stop d) (d_metrics d).
Definition set_prepared (p : PreparedPlayoutQueue) (d : Driver) : Driver :=
  mkDriver (d_source d) (d_egress d) p (d_credits d) (d_playback_epoch d)
    (d_account_popped_frame_as_skipped_on_stop d) (d_metrics d).
Definition set_credits (c : list PreparedFrameRebuildCredit) (d : Driver) : Driver :=
  mkDriver (d_source d) (d_egress d) (d_prepared d) c (d_playback_epoch d)
    (d_account_popped_frame_as_skipped_on_stop d) (d_metrics d).

(** [metrics_tx.try_send]. *)
Definition offer (m : PlaybackPipelineMetric) (d : Driver) : Driver :=
  mkDriver (d_source d) (d_egress d) (d_prepared d) (d_credits d) (d_playback_epoch d)
    (d_account_popped_frame_as_skipped_on_stop d) (d_metrics d ++ [m]).

(** ** The prepared playout queue *)

Definition PreparedPlayoutQueue_new : PreparedPlayoutQueue := mkPreparedPlayoutQueue [] 0 0 0.

Definition prepared_push (q : PreparedPlayoutQueue) (prepared : PreparedTrackPlayout)
    : PreparedPlayoutQueue * result PreparedTrackPlayout unit :=
  let frame := pt_frame prepared in
  if samples_from_duration_ms_u64 DISCORD_EGRESS_BUFFER_HIGH_WATERMARK_MS
     <? sat_add u64_max (pq_duration_samples q) (of_duration_samples frame)
  then (q, Err prepared)
  else if PLAYBACK_QUEUE_CAPACITY <=? pq_packets q then (q, Err prepared)
  else if PLAYBACK_BUFFER_MEMORY_CAP_BYTES <? sat_add usize_max (pq_bytes q) (byte_len frame)
  then (q, Err prepared)
  else (mkPreparedPlayoutQueue (pq_queue q ++ [prepared])
          (sat_add usize_max (pq_packets q) 1)
          (sat_add usize_max (pq_bytes q) (byte_len frame))
          (sat_add u64_max (pq_duration_samples q) (of_duration_samples frame)), Ok tt).

Definition prepared_pop (q : PreparedPlayoutQueue)
    : PreparedPlayoutQueue * option PreparedTrackPlayout :=
  match pq_queue q with
  | [] => (q, None)
  | prepared :: rest =>
      (mkPreparedPlayoutQueue rest (sat_sub (pq_packets q) 1)
         (sat_sub (pq_bytes q) (byte_len (pt_frame prepared)))
         (sat_sub (pq_duration_samples q) (of_duration_samples (pt_frame prepared))),
       Some prepared)
  end.

Definition prepared_depth (q : PreparedPlayoutQueue) : OpusBufferDepth :=
  mkOpusBufferDepth (pq_packets q) (pq_bytes q)
    (OpusQueue.duration_ms_from_samples (pq_duration_samples q)) (pq_duration_samples q).

Definition prepared_is_full (q : PreparedPlayoutQueue) : bool :=
  (samples_from_duration_ms_u64 DISCORD_EGRESS_BUFFER_HIGH_WATERMARK_MS
   <=? pq_duration_samples q) ||
  (PLAYBACK_QUEUE_CAPACITY <=? pq_packets q) ||
  (PLAYBACK_BUFFER_MEMORY_CAP_BYTES <=? pq_bytes q).

(** ** Pending commands and rebuild credits *)

Definition prepared_frame_identity (f : OpusFrame) : PreparedFrameIdentity :=
  mkPreparedFrameIdentity (of_epoch f) (of_source_position_ms f) (of_source_position_samples f)
    (of_source_byte_position f).

Definition prepared_media_frame (f : OpusFrame) : PreparedMediaFrame :=
  mkPreparedMediaFrame (of_duration_ms f) (of_duration_samples f) (of_source_position_ms f)
    (of_source_position_samples f) (of_source_byte_position f) (of_epoch f).

Definition PendingDeadlineCommand_new (c : PreparedPlayoutCommand) (frame : option OpusFrame)
    : PendingDeadlineCommand :=
  let p := pc_packet c in
  mkPendingDeadlineCommand frame (pc_kind c) (pv_duration_ms p) (pv_duration_samples p)
    (pv_rtp_sequence p) (pv_rtp_timestamp p) (pv_protection_nonce p) (pc_media_frame c)
    (pc_generation c).

Definition OpusBufferDepth_default : OpusBufferDepth := mkOpusBufferDepth 0 0 0 0.

Definition track_depth (p : PendingDeadlineCommand) : OpusBufferDepth :=
  match pd_frame p with
  | None => OpusBufferDepth_default
  | Some f => mkOpusBufferDepth 1 (byte_len f) (of_duration_ms f) (of_duration_samples f)
  end.

Definition matches_sent_record (p : PendingDeadlineCommand) (r : DeadlineSendRecord) : bool :=
  bool_decide (pd_kind p = sr_kind r) && (pd_duration_ms p =? sr_duration_ms r) &&
  (pd_duration_samples p =? sr_duration_samples r) &&
  (pd_rtp_sequence p =? sr_rtp_sequence r) && (pd_rtp_timestamp p =? sr_rtp_timestamp r) &&
  bool_decide (pd_protection_nonce p = sr_protection_nonce r) &&
  bool_decide (pd_media_frame p = sr_media_frame r).

Definition matches_drop_record (p : PendingDeadlineCommand) (r : DeadlineDropRecord) : bool :=
  bool_decide (pd_kind p = dr_kind r) && (pd_duration_ms p =? dr_duration_ms r) &&
  (pd_duration_samples p =? dr_duration_samples r) &&
  (pd_rtp_sequence p =? dr_rtp_sequence r) && (pd_rtp_timestamp p =? dr_rtp_timestamp r) &&
  bool_decide (pd_protection_nonce p = dr_protection_nonce r) &&
  bool_decide (pd_media_frame p = dr_media_frame r) && (pd_generation p =? dr_generation r).

(** Both depth functions add up packets, bytes and samples, and derive the
    milliseconds from the samples. *)
Definition add_depth (depth pending : OpusBufferDepth) : OpusBufferDepth :=
  let samples := sat_add u64_max (bd_duration_samples depth) (bd_duration_samples pending) in
  mkOpusBufferDepth (sat_add usize_max (bd_packets depth) (bd_packets pending))
    (sat_add usize_max (bd_bytes depth) (bd_bytes pending))
    (OpusQueue.duration_ms_from_samples samples) samples.

Definition pending_deadline_track_depth (pending : list PendingDeadlineCommand)
    : OpusBufferDepth :=
  fold_left (fun depth p => add_depth depth (track_depth p)) pending OpusBufferDepth_default.

Definition prepared_playout_depth_with_pending (d : Driver)
    (pending : list PendingDeadlineCommand) : OpusBufferDepth :=
  add_depth (prepared_depth (d_prepared d)) (pending_deadline_track_depth pending).

Definition remember_rebuild_credit (frame : OpusFrame) (reason : PreparedPlayoutQueueEventReason)
    (d : Driver) : Driver :=
  set_credits
    (d_credits d ++ [mkPreparedFrameRebuildCredit (prepared_frame_identity frame) reason]) d.

(** [position] and [remove]: the first credit with the identity leaves. *)
Fixpoint remove_credit (identity : PreparedFrameIdentity) (l : list PreparedFrameRebuildCredit)
    : option (PreparedPlayoutQueueEventReason * list PreparedFrameRebuildCredit) :=
  match l with
  | [] => None
  | c :: rest =>
      if bool_decide (rc_identity c = identity) then Some (rc_reason c, rest)
      else match remove_credit identity rest with
           | Some (r, rest') => Some (r, c :: rest')
           | None => None
           end
  end.

Definition take_rebuild_credit (frame : OpusFrame) (d : Driver)
    : Driver * option PreparedPlayoutQueueEventReason :=
  match remove_credit (prepared_frame_identity frame) (d_credits d) with
  | Some (reason, rest) => (set_credits rest d, Some reason)
  | None => (d, None)
  end.

(** ** Events *)

Definition prepared_playout_queue_event (kind : PreparedPlayoutQueueEventKind)
    (reason : PreparedPlayoutQueueEventReason) (c : PreparedPlayoutCommand)
    (depth_after : OpusBufferDepth) : PreparedPlayoutQueueEventSnapshot :=
  let p := pc_packet c in
  let mf := pc_media_frame c in
  mkPlayoutEvent 0 kind reason (playback_send_command_kind (pc_kind c)) (pv_duration_ms p)
    (pv_duration_samples p)
    (pv_rtp_sequence p) (pv_rtp_timestamp p) (pv_protection_nonce p)
    (mf_epoch <$> mf) (mf_media_position_ms <$> mf) (mf_media_position_samples <$> mf)
    (mf ≫= mf_media_byte_position) depth_after.

Definition pending_prepared_playout_queue_event (kind : PreparedPlayoutQueueEventKind)
    (reason : PreparedPlayoutQueueEventReason) (p : PendingDeadlineCommand)
    (depth_after : OpusBufferDepth) : PreparedPlayoutQueueEventSnapshot :=
  let mf := pd_media_frame p in
  mkPlayoutEvent 0 kind reason (playback_send_command_kind (pd_kind p)) (pd_duration_ms p)
    (pd_duration_samples p)
    (pd_rtp_sequence p) (pd_rtp_timestamp p) (pd_protection_nonce p)
    (mf_epoch <$> mf) (mf_media_position_ms <$> mf) (mf_media_position_samples <$> mf)
    (mf ≫= mf_media_byte_position) depth_after.

Definition dropped_prepared_playout_queue_event (reason : PreparedPlayoutQueueEventReason)
    (r : DeadlineDropRecord) (depth_after : OpusBufferDepth)
    : PreparedPlayoutQueueEventSnapshot :=
  let mf := dr_media_frame r in
  mkPlayoutEvent 0 DroppedBeforeSend reason (playback_send_command_kind (dr_kind r))
    (dr_duration_ms r) (dr_duration_samples r)
    (dr_rtp_sequence r) (dr_rtp_timestamp r) (dr_protection_nonce r)
    (mf_epoch <$> mf) (mf_media_position_ms <$> mf) (mf_media_position_samples <$> mf)
    (mf ≫= mf_media_byte_position) depth_after.

Definition record_prepared_playout_event (kind : PreparedPlayoutQueueEventKind)
    (reason : PreparedPlayoutQueueEventReason) (c : PreparedPlayoutCommand)
    (depth_after : OpusBufferDepth) (d : Driver) : Driver :=
  offer (PreparedPlayoutQueueEvent (prepared_playout_queue_event kind reason c depth_after)) d.

(** ** The source buffer *)

Record LiveSourcePoll : Type := mkLiveSourcePoll {
  lp_frame : option (OpusFrame * OpusBufferDepth);
  lp_depth : OpusBufferDepth;
  lp_ended : bool;
}.

(** [error.take()] leaves no error behind. *)
Definition take_error (s : SourceBufferState) : SourceBufferState :=
  mkSourceBufferState (sb_queue s) (sb_end_of_stream s) None.

Definition pop_live_source_frame : dstm LiveSourcePoll := fun d =>
  let s := d_source d in
  match sb_error s with
  | Some e => (set_source (take_error s) d, Err (Playback e))
  | None =>
      let '(q, popped) := pop (sb_queue s) in
      let frame := (fun f => with_epoch f (d_playback_epoch d)) <$> popped in
      let dep := depth q in
      let ended := bool_decide (frame = None) && sb_end_of_stream s && (bd_packets dep =? 0) in
      (offer (SourceDepth dep) (set_source (mkSourceBufferState q (sb_end_of_stream s) None) d),
       Ok (mkLiveSourcePoll ((fun f => (f, dep)) <$> frame) dep ended))
  end.

Definition restore_live_source_frame (frame : OpusFrame) (d : Driver)
    : Driver * result OpusFrame OpusBufferDepth :=
  let s := d_source d in
  match push_front (sb_queue s) frame with
  | (q, Ok _) =>
      (offer (SourceDepth (depth q))
         (set_source (mkSourceBufferState q (sb_end_of_stream s) (sb_error s)) d), Ok (depth q))
  | (_, Err f) => (d, Err f)
  | (_, Panic) => (d, Panic)
  end.

Definition current_source_depth : dstm OpusBufferDepth := fun d =>
  let s := d_source d in
  match sb_error s with
  | Some e => (set_source (take_error s) d, Err (Playback e))
  | None => (d, Ok (depth (sb_queue s)))
  end.

(** ** Interruption *)

(** What restoring to the egress buffer leaves: the buffer, the credits, the
    count and samples restored, and the frames it had no room for. *)
Record Restored : Type := mkRestored {
  rs_egress : OpusFrameQueue;
  rs_credits : list PreparedFrameRebuildCredit;
  rs_count : Z;
  rs_duration_samples : Z;
  rs_source_frames : list OpusFrame;
}.

Definition restore_one (reason : PreparedPlayoutQueueEventReason) (acc : Restored)
    (frame : OpusFrame) : Restored :=
  match push (rs_egress acc) frame with
  | (q, Ok _) =>
      mkRestored q
        (rs_credits acc ++ [mkPreparedFrameRebuildCredit (prepared_frame_identity frame) reason])
        (sat_add u64_max (rs_count acc) 1)
        (sat_add u64_max (rs_duration_samples acc) (of_duration_samples frame))
        (rs_source_frames acc)
  | (q, Err f) =>
      mkRestored q (rs_credits acc) (rs_count acc) (rs_duration_samples acc)
        (rs_source_frames acc ++ [f])
  | (_, Panic) => acc
  end.

Definition restore_interrupted_frames_to_egress_buffer (egress : OpusFrameQueue)
    (credits : list PreparedFrameRebuildCredit) (reason : PreparedPlayoutQueueEventReason)
    (frames : list OpusFrame) : Restored :=
  fold_left (restore_one reason) frames (mkRestored egress credits 0 0 []).

(** [drain_egress_frames]: its two loops, then the frames of both stages. The
    fuel is the number of queued frames, and each pop takes one. *)
Fixpoint drain_prepared (fuel : nat) (reason : PreparedPlayoutQueueEventReason) (d : Driver)
    : Driver * list OpusFrame :=
  match fuel with
  | O => (d, [])
  | S fuel =>
      match prepared_pop (d_prepared d) with
      | (_, None) => (d, [])
      | (q, Some prepared) =>
          let d1 := record_prepared_playout_event DroppedBeforeSend reason (pt_command prepared)
                      (prepared_depth q) (set_prepared q d) in
          let '(d2, frames) := drain_prepared fuel reason d1 in (d2, pt_frame prepared :: frames)
      end
  end.

Fixpoint drain_queue (fuel : nat) (q : OpusFrameQueue) : OpusFrameQueue * list OpusFrame :=
  match fuel with
  | O => (q, [])
  | S fuel =>
      match pop q with
      | (_, None) => (q, [])
      | (q1, Some f) => let '(q2, frames) := drain_queue fuel q1 in (q2, f :: frames)
      end
  end.

Definition drain_egress_frames (reason : PreparedPlayoutQueueEventReason) (d : Driver)
    : Driver * list OpusFrame :=
  let '(d1, prepared) := drain_prepared (length (pq_queue (d_prepared d))) reason d in
  let '(q, egress) := drain_queue (length (q_inner (d_egress d1))) (d_egress d1) in
  (set_egress q d1, prepared ++ egress).

(** The counters of the source-restore loop. *)
Record Tally : Type := mkTally {
  tl_restored_count : Z;
  tl_restored_samples : Z;
  tl_discarded_count : Z;
  tl_discarded_samples : Z;
  tl_skipped_count : Z;
  tl_skipped_samples : Z;
  tl_remaining_depth : OpusBufferDepth;
}.

Definition tally_restored (f : OpusFrame) (dep : OpusBufferDepth) (t : Tally) : Tally :=
  mkTally (sat_add u64_max (tl_restored_count t) 1)
    (sat_add u64_max (tl_restored_samples t) (of_duration_samples f))
    (tl_discarded_count t) (tl_discarded_samples t) (tl_skipped_count t) (tl_skipped_samples t) dep.

Definition tally_discarded (skip : bool) (f : OpusFrame) (t : Tally) : Tally :=
  mkTally (tl_restored_count t) (tl_restored_samples t)
    (sat_add u64_max (tl_discarded_count t) 1)
    (sat_add u64_max (tl_discarded_samples t) (of_duration_samples f))
    (if skip then sat_add u64_max (tl_skipped_count t) 1 else tl_skipped_count t)
    (if skip then sat_add u64_max (tl_skipped_samples t) (of_duration_samples f)
     else tl_skipped_samples t)
    (tl_remaining_depth t).

(** The loop over the frames the egress buffer had no room for, last first. *)
Fixpoint restore_to_source (reason : PreparedPlayoutQueueEventReason) (frames : list OpusFrame)
    (d : Driver) (t : Tally) : Driver * Tally :=
  match frames with
  | [] => (d, t)
  | frame :: rest =>
      match restore_live_source_frame frame d with
      | (d1, Ok dep) =>
          restore_to_source reason rest (remember_rebuild_credit frame reason d1)
            (tally_restored frame dep t)
      | (d1, Err f) =>
          restore_to_source reason rest d1
            (tally_discarded (negb (d_account_popped_frame_as_skipped_on_stop d1)) f t)
      | (d1, Panic) => (d1, t)
      end
  end.

(** The metrics at the end of the flush. *)
Definition report_interruption (reason : PreparedPlayoutQueueEventReason) (t : Tally) (d : Driver)
    : Driver :=
  let d1 := if 0 <? tl_skipped_count t
            then offer (SenderSkippedSourceFrames (tl_skipped_count t) (tl_skipped_samples t)
                          (tl_remaining_depth t)) d else d in
  let d2 := if 0 <? tl_restored_count t
            then offer (RestoredSourceFrames (tl_restored_count t) (tl_restored_samples t)) d1
            else d1 in
  let d3 := if 0 <? tl_discarded_count t
            then offer (EgressDroppedMusicFrames (tl_discarded_count t) (tl_discarded_samples t))
                   (offer (DiscardedSourceFrames reason (tl_discarded_count t)
                             (tl_discarded_samples t)) d2)
            else d2 in
  offer (EgressDepth (prepared_depth (d_prepared d3))) d3.

Definition flush_egress_buffer_for_interruption (reason : PreparedPlayoutQueueEventReason)
    (frames : list OpusFrame) (d : Driver) : Driver :=
  let '(d1, drained) := drain_egress_frames reason d in
  let frames := frames ++ drained in
  if bool_decide (frames = []) then offer (EgressDepth (prepared_depth (d_prepared d1))) d1
  else
    let r := restore_interrupted_frames_to_egress_buffer (d_egress d1) (d_credits d1) reason
               frames in
    let d2 := set_credits (rs_credits r) (set_egress (rs_egress r) d1) in
    let '(d3, asked) := current_source_depth d2 in
    let t0 := mkTally (rs_count r) (rs_duration_samples r) 0 0 0 0
                (match asked with Ok dep => dep | _ => OpusBufferDepth_default end) in
    let '(d4, t) := restore_to_source reason (rev (rs_source_frames r)) d3 t0 in
    report_interruption reason t d4.

(** The loop of [replace_deadline_sender_after_invalidation_at] that takes the
    frames of the commands the replaced sender will not send. *)
Fixpoint take_pending_frames (reason : PreparedPlayoutQueueEventReason)
    (pending : list PendingDeadlineCommand) (d : Driver) : Driver * list OpusFrame :=
  match pending with
  | [] => (d, [])
  | p :: rest =>
      let d1 := offer (PreparedPlayoutQueueEvent (pending_prepared_playout_queue_event
                  DroppedBeforeSend reason p (prepared_depth (d_prepared d)))) d in
      let '(d2, frames) := take_pending_frames reason rest d1 in
      (d2, match pd_frame p with Some f => f :: frames | None => frames end)
  end.

(** Pending commands first, then the stages, as at every interruption. *)
Definition interrupt (reason : PreparedPlayoutQueueEventReason)
    (pending : list PendingDeadlineCommand) (d : Driver) : Driver :=
  let '(d1, frames) := take_pending_frames reason pending d in
  flush_egress_buffer_for_interruption reason frames d1.

(** A frame the deadline sender dropped goes back to the front. *)
Definition account_unsent_egress_frame (frame : OpusFrame) (remaining : OpusBufferDepth)
    (reason : PreparedPlayoutQueueEventReason) (d : Driver) : Driver :=
  let restored d :=
    offer (RestoredSourceFrames 1 (of_duration_samples frame))
      (remember_rebuild_credit frame reason d) in
  let d' :=
    match push_front (d_egress d) frame with
    | (q, Ok _) => restored (set_egress q d)
    | (_, Err f) =>
        match restore_live_source_frame f d with
        | (d1, Ok _) => restored d1
        | (d1, Err g) =>
            let d2 := if negb (d_account_popped_frame_as_skipped_on_stop d1)
                      then offer (SenderSkippedSourceFrames 1 (of_duration_samples g) remaining) d1
                      else d1 in
            offer (DiscardedSourceFrames reason 1 (of_duration_samples g))
              (offer (EgressDroppedMusicFrames 1 (of_duration_samples g)) d2)
        | (d1, Panic) => d1
        end
    | (_, Panic) => d
    end in
  offer (EgressDepth (prepared_depth (d_prepared d'))) d'.

(** ** Outcomes of the deadline sender *)

Inductive LiveDeadlineOutcome : Type :=
| Sent (r : DeadlineSendRecord)
| Dropped (r : DeadlineDropRecord).

(** The pending commands are part of the state: the outcome is matched against
    the oldest one. *)
Definition account_deadline_outcome (outcome : LiveDeadlineOutcome) (remaining : OpusBufferDepth)
    : stm (list PendingDeadlineCommand * Driver) RuntimeError (option DeadlineSendRecord) :=
  fun '(pending, d) =>
  match pending with
  | [] => (([], d), Err (RInvalidState "deadline sender emitted a record without a pending command"))
  | p :: rest =>
      match outcome with
      | Sent record =>
          if negb (matches_sent_record p record)
          then ((rest, d), Err (RInvalidState
                 "deadline sender committed a different prepared command than queued"))
          else ((rest, d), Ok (Some record))
      | Dropped record =>
          if negb (matches_drop_record p record)
          then ((rest, d), Err (RInvalidState
                 "deadline sender dropped a different prepared command than queued"))
          else
            let d1 := offer (PreparedPlayoutQueueEvent (dropped_prepared_playout_queue_event
                        Interruption record (prepared_depth (d_prepared d)))) d in
            let d2 := match pd_frame p with
                      | Some f => account_unsent_egress_frame f remaining Interruption d1
                      | None => d1
                      end in
            ((rest, d2), Ok None)
      end
  end.

(** ** Refilling the egress buffer *)

Record RefillState : Type := mkRefillState {
  rf_driver : Driver;
  rf_source_ended : bool;
  rf_underrun_active : bool;
  rf_latest_depth : OpusBufferDepth;
}.

Definition refill_wants (target : Z) (s : RefillState) : bool :=
  negb (rf_source_ended s) && (buffered_samples (d_egress (rf_driver s)) <? target) &&
  negb (is_full (d_egress (rf_driver s))).

(** One turn of the loop; whether it goes round again. *)
Definition refill_turn : stm RefillState RuntimeError bool := fun s =>
  match pop_live_source_frame (rf_driver s) with
  | (d, Err e) =>
      (mkRefillState d (rf_source_ended s) (rf_underrun_active s) (rf_latest_depth s), Err e)
  | (d, Panic) =>
      (mkRefillState d (rf_source_ended s) (rf_underrun_active s) (rf_latest_depth s), Panic)
  | (d, Ok poll) =>
      match lp_frame poll with
      | None =>
          (mkRefillState d (rf_source_ended s || lp_ended poll) (rf_underrun_active s)
             (lp_depth poll), Ok false)
      | Some (frame, remaining) =>
          let d1 := if rf_underrun_active s
                    then offer (SenderResumedAfterSourceUnderrun remaining) d else d in
          match push (d_egress d1) frame with
          | (q, Ok _) =>
              (mkRefillState (set_egress q d1) (rf_source_ended s) false remaining, Ok true)
          | (_, Err f) =>
              match restore_live_source_frame f d1 with
              | (d2, Ok dep) => (mkRefillState d2 (rf_source_ended s) false dep, Ok false)
              | (d2, Err g) =>
                  (mkRefillState
                     (offer (EgressDroppedMusicFrames 1 (of_duration_samples g))
                        (offer (SenderSkippedSourceFrames 1 (of_duration_samples g) remaining) d2))
                     (rf_source_ended s) false (lp_depth poll), Ok false)
              | (d2, Panic) =>
                  (mkRefillState d2 (rf_source_ended s) false (lp_depth poll), Panic)
              end
          | (_, Panic) => (mkRefillState d1 (rf_source_ended s) false (lp_depth poll), Panic)
          end
      end
  end.

(** Every turn that goes round again takes a frame off the source queue. *)
Fixpoint refill_loop (fuel : nat) (target : Z) : stm RefillState RuntimeError unit := fun s =>
  if refill_wants target s then
    match fuel with
    | O => (s, Panic)
    | S fuel => (again ← refill_turn; if again : bool then refill_loop fuel target else mret tt) s
    end
  else (s, Ok tt).

(** The call on [source_ended], [source_underrun_active] and the driver; the
    latest source depth is the result. *)
Definition refill_egress_buffer (pending_samples : Z) (d : Driver) (source_ended underrun : bool)
    : RefillState * rresult OpusBufferDepth :=
  match current_source_depth d with
  | (d1, Err e) => (mkRefillState d1 source_ended underrun OpusBufferDepth_default, Err e)
  | (d1, Panic) => (mkRefillState d1 source_ended underrun OpusBufferDepth_default, Panic)
  | (d1, Ok dep) =>
      let target := sat_sub (sat_sub (samples_from_duration_ms_u64 DISCORD_EGRESS_BUFFER_TARGET_MS)
                               pending_samples) (pq_duration_samples (d_prepared d1)) in
      match refill_loop (S (length (q_inner (sb_queue (d_source d1))))) target
              (mkRefillState d1 source_ended underrun dep) with
      | (s, Err e) => (s, Err e)
      | (s, Panic) => (s, Panic)
      | (s, Ok _) =>
          (mkRefillState (offer (EgressDepth (prepared_depth (d_prepared (rf_driver s))))
                            (rf_driver s))
             (rf_source_ended s) (rf_underrun_active s) (rf_latest_depth s),
           Ok (rf_latest_depth s))
      end
  end.

(** ** The producer task *)

Definition producer_refill_reached_end_of_stream (produced_frames produced_samples refill_target_ms : Z)
    (pending_packets_empty : bool) : bool :=
  pending_packets_empty &&
  ((produced_frames =? 0) || (produced_samples <? samples_from_duration_ms_u64 refill_target_ms)).

(** What the top of the loop decides under the lock. *)
Inductive ProducerPlan : Type := Return | WaitForRoom | Refill (refill_target_ms : Z).

Definition producer_plan (buffer_target : Z) (s : SourceBufferState) : ProducerPlan :=
  if sb_end_of_stream s || bool_decide (is_Some (sb_error s)) then Return
  else
    let target_ms := Z.max 1 (Z.min buffer_target PLAYBACK_SOURCE_BUFFER_HIGH_WATERMARK_MS) in
    let buffered_ms := buffered_duration_ms (sb_queue s) in
    if PLAYBACK_SOURCE_BUFFER_LOW_WATERMARK_MS <=? buffered_ms then WaitForRoom
    else Refill (Z.max (sat_sub target_ms buffered_ms) PLAYBACK_SOURCE_BUFFER_REFILL_BATCH_MS).

(** The refilled frames moved to the source queue; [false] when one does not
    fit. The fuel is the length of the refill queue. *)
Fixpoint transfer (fuel : nat) (refill source : OpusFrameQueue) : OpusFrameQueue * bool :=
  match fuel with
  | O => (source, true)
  | S fuel =>
      match pop refill with
      | (_, None) => (source, true)
      | (refill', Some f) =>
          match push source f with
          | (source', Ok _) => transfer fuel refill' source'
          | (source', _) => (source', false)
          end
      end
  end.

Section Producer.
Context `{W : WebmIterable} `{C : OpusCodec}.

(** The fill of a fresh queue, outside the lock. *)
Definition producer_refill (fuel : nat) (refill_target_ms : Z) (wk : PlaybackWorker)
    (source : PlaybackSource) (w : World) : FillState * presult unit :=
  fill_queue_to_duration_ms fuel refill_target_ms
    (mkFillState wk
       (with_resource_limits PLAYBACK_QUEUE_CAPACITY PLAYBACK_BUFFER_MEMORY_CAP_BYTES
          refill_target_ms) source w).

(** What the producer does with it, under the lock again: [s] is the source
    buffer by then. The second component says whether it goes on. *)
Definition producer_store (refill_target_ms : Z) (fill : FillState * presult unit)
    (s : SourceBufferState) : SourceBufferState * bool :=
  match fill with
  | (_, Err e) => (mkSourceBufferState (sb_queue s) (sb_end_of_stream s) (Some e), false)
  | (_, Panic) => (s, false)
  | (fs, Ok _) =>
      let ended := producer_refill_reached_end_of_stream (q_len (fs_queue fs))
                     (buffered_samples (fs_queue fs)) refill_target_ms
                     (bool_decide (ps_pending_packets (fs_source fs) = [])) in
      match transfer (length (q_inner (fs_queue fs))) (fs_queue fs) (sb_queue s) with
      | (q, false) => (mkSourceBufferState q (sb_end_of_stream s) (Some BufferFull), false)
      | (q, true) =>
          (mkSourceBufferState q (sb_end_of_stream s || ended) (sb_error s), negb ended)
      end
  end.

End Producer.

(** ** Lemmas: the prepared queue is a frame queue *)

Definition prepared_as_queue (p : PreparedPlayoutQueue) : OpusFrameQueue :=
  mkOpusFrameQueue PLAYBACK_QUEUE_CAPACITY PLAYBACK_BUFFER_MEMORY_CAP_BYTES
    (samples_from_duration_ms_u64 DISCORD_EGRESS_BUFFER_HIGH_WATERMARK_MS)
    (pq_duration_samples p) (pq_bytes p) (map pt_frame (pq_queue p)).

Record prepared_ok (p : PreparedPlayoutQueue) : Prop := {
  po_queue : queue_ok (prepared_as_queue p);
  po_packets : pq_packets p = zlen (pq_queue p);
}.

Lemma zlen_map {A B} (f : A -> B) l : zlen (map f l) = zlen l.
Proof. unfold zlen. by rewrite length_map. Qed.

Lemma PreparedPlayoutQueue_new_ok : prepared_ok PreparedPlayoutQueue_new.
Proof. split; [|done]. by apply (with_resource_limits_ok 1024 4194304 500). Qed.

(** Operations and answers, and their counterparts on the frame queue. *)
Inductive prepared_op : Type := PPush (x : PreparedTrackPlayout) | PPop.
Inductive prepared_out : Type :=
| POPush (r : result PreparedTrackPlayout unit)
| POPop (o : option PreparedTrackPlayout).

Definition prepared_step (p : PreparedPlayoutQueue) (o : prepared_op)
    : PreparedPlayoutQueue * prepared_out :=
  match o with
  | PPush x => let '(p', r) := prepared_push p x in (p', POPush r)
  | PPop => let '(p', r) := prepared_pop p in (p', POPop r)
  end.

Fixpoint prepared_run (p : PreparedPlayoutQueue) (ops : list prepared_op)
    : PreparedPlayoutQueue * list prepared_out :=
  match ops with
  | [] => (p, [])
  | o :: rest =>
      let '(p1, out) := prepared_step p o in
      let '(p2, outs) := prepared_run p1 rest in (p2, out :: outs)
  end.

Definition frame_op (o : prepared_op) : queue_op :=
  match o with PPush x => QPush (pt_frame x) | PPop => QPop end.
Definition frame_out (o : prepared_out) : queue_out :=
  match o with
  | POPush (Ok _) => OutPush (Ok tt)
  | POPush (Err x) => OutPush (Err (pt_frame x))
  | POPush Panic => OutPush Panic
  | POPop x => OutPop (pt_frame <$> x)
  end.

(** Entries accepted by a step, and entries it handed out. *)
Definition accepted (o : prepared_op) (out : prepared_out) : list PreparedTrackPlayout :=
  match o, out with PPush x, POPush (Ok _) => [x] | _, _ => [] end.
Definition handed_out (out : prepared_out) : list PreparedTrackPlayout :=
  match out with POPop (Some x) => [x] | _ => [] end.

Lemma prepared_can_fit p f :
  pq_packets p = zlen (pq_queue p) ->
  can_fit_frame (prepared_as_queue p) f =
    negb (samples_from_duration_ms_u64 DISCORD_EGRESS_BUFFER_HIGH_WATERMARK_MS
          <? sat_add u64_max (pq_duration_samples p) (of_duration_samples f)) &&
    negb (PLAYBACK_QUEUE_CAPACITY <=? pq_packets p) &&
    negb (PLAYBACK_BUFFER_MEMORY_CAP_BYTES <? sat_add usize_max (pq_bytes p) (byte_len f)).
Proof.
  intros Hp. unfold can_fit_frame, can_fit_resource. cbn.
  rewrite zlen_map, <- Hp, <- Z.ltb_antisym, <- !Z.leb_antisym.
  by destruct (_ <? _), (_ <=? _), (_ <=? _).
Qed.

Lemma prepared_push_cases p x :
  pq_packets p = zlen (pq_queue p) ->
  prepared_push p x =
  if can_fit_frame (prepared_as_queue p) (pt_frame x)
  then (mkPreparedPlayoutQueue (pq_queue p ++ [x]) (pq_packets p + 1)
          (sat_add usize_max (pq_bytes p) (byte_len (pt_frame x)))
          (sat_add u64_max (pq_duration_samples p) (of_duration_samples (pt_frame x))), Ok tt)
  else (p, Err x).
Proof.
  intros Hp. rewrite prepared_can_fit by done. unfold prepared_push.
  destruct (_ <? sat_add u64_max _ _); [done|].
  destruct (Z.leb_spec PLAYBACK_QUEUE_CAPACITY (pq_packets p)) as [|Hlt]; [done|].
  destruct (_ <? sat_add usize_max _ _); [done|]. cbn.
  unfold sat_add at 1. rewrite Z.min_r; [done|].
  unfold usize_max, u64_max, PLAYBACK_QUEUE_CAPACITY in *. lia.
Qed.

Lemma prepared_step_simulates p o :
  pq_packets p = zlen (pq_queue p) ->
  let '(p', out) := prepared_step p o in
  pq_packets p' = zlen (pq_queue p') /\
  queue_step (prepared_as_queue p) (frame_op o) = (prepared_as_queue p', frame_out out) /\
  pq_queue p ++ accepted o out = handed_out out ++ pq_queue p'.
Proof.
  intros Hp. destruct o as [x|]; cbn [prepared_step frame_op queue_step].
  - rewrite prepared_push_cases by done. unfold push.
    destruct (can_fit_frame _ _) eqn:E; cbn [negb fst snd].
    + split_and!; cbn; [unfold zlen in *; rewrite length_app; cbn; lia| |done].
      unfold account, prepared_as_queue. cbn. by rewrite map_app.
    + split_and!; [done|done|by rewrite app_nil_r].
  - unfold prepared_pop, pop. cbn. destruct (pq_queue p) as [|x rest] eqn:E; cbn.
    + split_and!; [by rewrite E| |done]. unfold prepared_as_queue. by rewrite E.
    + rewrite zlen_cons in Hp. split_and!; [unfold sat_sub; pose proof (zlen_nonneg rest); lia| |by rewrite app_nil_r].
      done.
Qed.

Lemma prepared_run_simulates p ops :
  pq_packets p = zlen (pq_queue p) ->
  let '(p', outs) := prepared_run p ops in
  pq_packets p' = zlen (pq_queue p') /\
  queue_run (prepared_as_queue p) (map frame_op ops) = (prepared_as_queue p', map frame_out outs) /\
  pq_queue p ++ concat (zip_with accepted ops outs) = concat (map handed_out outs) ++ pq_queue p'.
Proof.
  revert p; induction ops as [|o ops IH]; intros p Hp; cbn [prepared_run map].
  - split_and!; [done|done|]. cbn. by rewrite app_nil_r.
  - pose proof (prepared_step_simulates p o Hp) as Hs.
    destruct (prepared_step p o) as [p1 out]. destruct Hs as (H1 & H2 & H3).
    specialize (IH p1 H1). destruct (prepared_run p1 ops) as [p2 outs].
    destruct IH as (I1 & I2 & I3). split_and!; [done| |].
    + cbn [queue_run map]. rewrite H2. cbn [fst snd]. by rewrite I2.
    + cbn. by rewrite app_assoc, H3, <- !app_assoc, I3.
Qed.

(** ** Lemmas: stages of 20 ms frames *)

Section Stages.
Context (B : Z).
Hypothesis HB : 0 <= B <= 4096.

(** A queue with the service's packet and byte limits and room for [K] frames
    of 20 ms: only the duration limit binds. *)
Record stage_ok (K : Z) (q : OpusFrameQueue) : Prop := {
  so_queue : queue_ok q;
  so_limits : limits_of q = mkLimits PLAYBACK_QUEUE_CAPACITY PLAYBACK_BUFFER_MEMORY_CAP_BYTES (960 * K);
  so_frames : Forall (small_frame B) (q_inner q);
  so_room : K <= 250;
}.

Lemma small_sums l :
  Forall (small_frame B) l ->
  sum_by of_duration_samples l = 960 * zlen l /\ 0 <= sum_by byte_len l <= 4096 * zlen l.
Proof.
  induction 1 as [|f l [Hd Hb] _ IH]; [done|]. rewrite !sum_by_cons, zlen_cons.
  pose proof (byte_len_nonneg f). unfold DISCORD_FRAME_SAMPLES in Hd. lia.
Qed.

Lemma stage_len K q : stage_ok K q -> q_duration_samples q = 960 * zlen (q_inner q) /\
  0 <= zlen (q_inner q) <= K.
Proof.
  intros [Hq Hl Hf Hk]. destruct (small_sums _ Hf) as [Hs _]. destruct Hq as [_ Hd _ _ Hm _ _].
  injection Hl as _ _ Hlim. pose proof (zlen_nonneg (q_inner q)). lia.
Qed.

Lemma stage_fits K q f :
  stage_ok K q -> small_frame B f -> can_fit_frame q f = (zlen (q_inner q) <? K).
Proof.
  intros Hs Hf. pose proof (stage_len K q Hs) as Hlen. destruct Hs as [Hq Hl Hfr Hk].
  apply eq_bool_prop_intro. rewrite !Is_true_true, Z.ltb_lt.
  rewrite can_fit_frame_exact by (done || by eapply small_frame_ok).
  destruct (small_sums _ Hfr) as [-> Hb]. destruct Hf as [-> Hfb].
  injection Hl as -> -> ->. unfold PLAYBACK_QUEUE_CAPACITY, PLAYBACK_BUFFER_MEMORY_CAP_BYTES,
    DISCORD_FRAME_SAMPLES. lia.
Qed.

Lemma stage_account K q f inner :
  stage_ok K q -> small_frame B f -> zlen (q_inner q) < K -> inner ≡ₚ f :: q_inner q ->
  stage_ok K (account q f inner).
Proof.
  intros Hs Hf Hlt Hp. pose proof (stage_fits K q f Hs Hf) as Hfit.
  rewrite (proj2 (Z.ltb_lt _ _) Hlt) in Hfit. destruct Hs as [Hq Hl Hfr Hk]. split.
  - apply account_ok; try done. by eapply small_frame_ok.
  - done.
  - cbn. rewrite Hp. by constructor.
  - done.
Qed.

Lemma stage_push K q f :
  stage_ok K q -> small_frame B f ->
  push q f = if zlen (q_inner q) <? K then (account q f (q_inner q ++ [f]), Ok tt) else (q, Err f).
Proof.
  intros Hs Hf. unfold push. rewrite (stage_fits K) by done. by destruct (_ <? _).
Qed.

Lemma stage_push_front K q f :
  stage_ok K q -> small_frame B f ->
  push_front q f = if zlen (q_inner q) <? K then (account q f (f :: q_inner q), Ok tt) else (q, Err f).
Proof.
  intros Hs Hf. unfold push_front. rewrite (stage_fits K) by done. by destruct (_ <? _).
Qed.

Lemma stage_pop K q : stage_ok K q -> stage_ok K (fst (pop q)) /\
  snd (pop q) = head (q_inner q) /\ q_inner (fst (pop q)) = tail (q_inner q).
Proof.
  intros [Hq Hl Hfr Hk]. split.
  - split; try done; [by apply pop_preserves|..]; unfold pop; destruct (q_inner q) eqn:E; cbn;
      rewrite ?E; try done. by apply Forall_cons_1 in Hfr as [_ ?].
  - unfold pop. by destruct (q_inner q) eqn:E; cbn; rewrite ?E.
Qed.

Lemma stage_is_full K q : stage_ok K q -> is_full q = (K <=? zlen (q_inner q)).
Proof.
  intros Hs. pose proof (stage_len K q Hs) as [Hd Hl]. destruct Hs as [Hq Hlim Hfr Hk].
  destruct (small_sums _ Hfr) as [_ Hb]. rewrite <- (qo_bytes _ Hq) in Hb.
  unfold is_full. injection Hlim as -> -> ->. rewrite Hd.
  unfold PLAYBACK_QUEUE_CAPACITY, PLAYBACK_BUFFER_MEMORY_CAP_BYTES.
  rewrite (proj2 (Z.leb_gt 1024 _)), (proj2 (Z.leb_gt (4 * 1024 * 1024) _)) by lia. cbn [orb].
  destruct (Z.leb_spec (960 * K) (960 * zlen (q_inner q))), (Z.leb_spec K (zlen (q_inner q))); lia.
Qed.

(** *** Emptying the stages *)

Lemma drain_queue_all K n q :
  stage_ok K q -> n = length (q_inner q) ->
  exists q', drain_queue n q = (q', q_inner q) /\ stage_ok K q' /\ q_inner q' = [].
Proof.
  revert q; induction n as [|n IH]; intros q Hq Hn; cbn [drain_queue].
  - exists q. destruct (q_inner q) eqn:E; [done|discriminate].
  - destruct (stage_pop K q Hq) as (H1 & H2 & H3). destruct (pop q) as [q1 o]. cbn in *.
    destruct (q_inner q) as [|f l]; [discriminate|]. cbn in *. subst o.
    destruct (IH q1 H1) as (q' & E & H4 & H5); [rewrite H3; cbn in Hn; lia|].
    rewrite E, H3. by exists q'.
Qed.

Lemma drain_prepared_all n reason d :
  n = length (pq_queue (d_prepared d)) -> pq_packets (d_prepared d) = zlen (pq_queue (d_prepared d)) ->
  exists p ms,
    drain_prepared n reason d =
    (mkDriver (d_source d) (d_egress d) p (d_credits d) (d_playback_epoch d)
       (d_account_popped_frame_as_skipped_on_stop d) ms, map pt_frame (pq_queue (d_prepared d))) /\
    pq_queue p = [] /\ pq_packets p = 0.
Proof.
  revert d; induction n as [|n IH]; intros d Hn Hp; cbn [drain_prepared].
  - exists (d_prepared d), (d_metrics d). destruct (pq_queue (d_prepared d)); [|discriminate].
    split; [by destruct d|done].
  - unfold prepared_pop. destruct (pq_queue (d_prepared d)) as [|x rest] eqn:E; [discriminate|].
    set (d1 := record_prepared_playout_event _ _ _ _ _).
    destruct (IH d1) as (p & ms & E1 & H1).
    { cbn. cbn in Hn. lia. }
    { cbn. rewrite zlen_cons in Hp. unfold sat_sub. pose proof (zlen_nonneg rest). lia. }
    rewrite E1. by exists p, ms.
Qed.

Lemma take_pending_frames_spec reason pending d :
  exists ms,
    take_pending_frames reason pending d =
    (mkDriver (d_source d) (d_egress d) (d_prepared d) (d_credits d) (d_playback_epoch d)
       (d_account_popped_frame_as_skipped_on_stop d) ms, omap pd_frame pending).
Proof.
  revert d; induction pending as [|p rest IH]; intros d; cbn [take_pending_frames].
  - exists (d_metrics d). by destruct d.
  - set (d1 := offer _ _). destruct (IH d1) as [ms E]. rewrite E. exists ms.
    cbn. by destruct (pd_frame p).
Qed.

(** *** Putting frames back *)

Definition credit_of (reason : PreparedPlayoutQueueEventReason) (f : OpusFrame)
    : PreparedFrameRebuildCredit :=
  mkPreparedFrameRebuildCredit (prepared_frame_identity f) reason.

(** Frames [q] still has room for. *)
Definition room (K : Z) (q : OpusFrameQueue) : nat := Z.to_nat (K - zlen (q_inner q)).

Lemma room_cases K q :
  (if zlen (q_inner q) <? K then exists n, room K q = S n else room K q = O).
Proof.
  unfold room. destruct (Z.ltb_spec (zlen (q_inner q)) K) as [H|H]; [|lia].
  exists (Z.to_nat (K - zlen (q_inner q) - 1)). lia.
Qed.

Lemma room_account K q f inner n :
  room K q = S n -> inner ≡ₚ f :: q_inner q -> room K (account q f inner) = n.
Proof.
  unfold room, zlen. intros H Hp. cbn. rewrite Hp. cbn [length]. lia.
Qed.

Lemma restore_fold K reason frames acc :
  stage_ok K (rs_egress acc) -> Forall (small_frame B) frames ->
  let r := fold_left (restore_one reason) frames acc in
  let n := room K (rs_egress acc) in
  stage_ok K (rs_egress r) /\
  q_inner (rs_egress r) = q_inner (rs_egress acc) ++ take n frames /\
  rs_source_frames r = rs_source_frames acc ++ drop n frames /\
  rs_credits r = rs_credits acc ++ map (credit_of reason) (take n frames).
Proof.
  intros Hs Hfs. revert acc Hs; induction Hfs as [|f frames Hf Hfs IH]; intros acc Hs r n.
  - subst r n. rewrite take_nil, drop_nil. cbn. by rewrite !app_nil_r.
  - subst r n. cbn [fold_left].
    assert (Hone : restore_one reason acc f = if zlen (q_inner (rs_egress acc)) <? K
      then mkRestored (account (rs_egress acc) f (q_inner (rs_egress acc) ++ [f]))
             (rs_credits acc ++ [credit_of reason f]) (sat_add u64_max (rs_count acc) 1)
             (sat_add u64_max (rs_duration_samples acc) (of_duration_samples f))
             (rs_source_frames acc)
      else mkRestored (rs_egress acc) (rs_credits acc) (rs_count acc) (rs_duration_samples acc)
             (rs_source_frames acc ++ [f])).
    { unfold restore_one. rewrite (stage_push K) by done. by destruct (_ <? _). }
    rewrite Hone. pose proof (room_cases K (rs_egress acc)) as Hr.
    destruct (_ <? K) eqn:E.
    + destruct Hr as [n Hn]. rewrite Hn. cbn [take drop map].
      assert (Hp : q_inner (rs_egress acc) ++ [f] ≡ₚ f :: q_inner (rs_egress acc))
        by (by rewrite Permutation_app_comm).
      match goal with |- context [fold_left _ _ ?a] => specialize (IH a) end.
      cbn [rs_egress rs_credits rs_source_frames] in IH.
      rewrite (room_account K _ _ _ n Hn Hp) in IH.
      destruct IH as (H1 & H2 & H3 & H4); [apply stage_account; try done; by apply Z.ltb_lt in E|].
      rewrite H2, H3, H4. cbn. by rewrite <- !app_assoc.
    + rewrite Hr. cbn [take drop map].
      match goal with |- context [fold_left _ _ ?a] => specialize (IH a Hs) end.
      cbn [rs_egress rs_credits rs_source_frames] in IH. rewrite Hr in IH.
      destruct IH as (H1 & H2 & H3 & H4). rewrite H2, H3, H4. by rewrite take_0, drop_0, <- app_assoc.
Qed.

Definition with_source_queue (q : OpusFrameQueue) (s : SourceBufferState) : SourceBufferState :=
  mkSourceBufferState q (sb_end_of_stream s) (sb_error s).

Lemma restore_to_source_spec K reason frames d t :
  stage_ok K (sb_queue (d_source d)) -> Forall (small_frame B) frames ->
  let n := room K (sb_queue (d_source d)) in
  exists q ms t',
    restore_to_source reason frames d t =
    (mkDriver (with_source_queue q (d_source d)) (d_egress d) (d_prepared d)
       (d_credits d ++ map (credit_of reason) (take n frames)) (d_playback_epoch d)
       (d_account_popped_frame_as_skipped_on_stop d) ms, t') /\
    stage_ok K q /\ q_inner q = rev (take n frames) ++ q_inner (sb_queue (d_source d)).
Proof.
  intros Hs Hfs. revert d t Hs; induction Hfs as [|f frames Hf Hfs IH]; intros d t Hs n.
  - subst n. rewrite take_nil. exists (sb_queue (d_source d)), (d_metrics d), t. cbn.
    rewrite app_nil_r. destruct d as [[] ? ? ? ? ? ?]. done.
  - subst n. cbn [restore_to_source]. unfold restore_live_source_frame.
    rewrite (stage_push_front K) by done.
    pose proof (room_cases K (sb_queue (d_source d))) as Hr. destruct (_ <? K) eqn:E.
    + destruct Hr as [n Hn]. rewrite Hn. cbn [take map].
      match goal with |- context [restore_to_source _ _ ?a ?b] =>
        destruct (IH a b) as (q & ms & t' & E1 & H1 & H2) end;
        [apply stage_account; try done; by apply Z.ltb_lt in E|].
      cbn in E1, H2. rewrite (room_account K _ _ _ n Hn) in E1, H2 by done.
      rewrite E1. exists q, ms, t'. rewrite <- !app_assoc. cbn in H2 |- *. rewrite H2. by rewrite <- app_assoc.
    + rewrite Hr. cbn [take map].
      match goal with |- context [restore_to_source _ _ ?a ?b] =>
        destruct (IH a b Hs) as (q & ms & t' & E1 & H1 & H2) end.
      rewrite Hr in E1, H2. rewrite E1. by exists q, ms, t'.
Qed.

(** ** Lemmas: the driver *)

(** Room for 25 frames of 20 ms in the egress buffer (500 ms) and for 250 in
    the source buffer (5 s); all frames are 20 ms of at most [B] bytes. *)
Record driver_ok (d : Driver) : Prop := {
  do_source : stage_ok 250 (sb_queue (d_source d));
  do_egress : stage_ok 25 (d_egress d);
  do_prepared : Forall (small_frame B) (map pt_frame (pq_queue (d_prepared d)));
  do_packets : pq_packets (d_prepared d) = zlen (pq_queue (d_prepared d));
}.

(** The frames of the driver's own stages, next to play first. *)
Definition staged (d : Driver) : list OpusFrame :=
  map pt_frame (pq_queue (d_prepared d)) ++ q_inner (d_egress d).

(** What of [rest], which the egress buffer has no room for, the source buffer
    takes back: as much of its end as fits. *)
Definition kept_at_source (d : Driver) (rest : list OpusFrame) : list OpusFrame :=
  drop (length rest - room 250 (sb_queue (d_source d))) rest.

Lemma drain_egress_frames_spec reason d :
  driver_ok d ->
  exists p q ms,
    drain_egress_frames reason d =
    (mkDriver (d_source d) q p (d_credits d) (d_playback_epoch d)
       (d_account_popped_frame_as_skipped_on_stop d) ms, staged d) /\
    stage_ok 25 q /\ q_inner q = [] /\ pq_queue p = [] /\ pq_packets p = 0.
Proof.
  intros [Hs He Hp Hpk]. unfold drain_egress_frames.
  destruct (drain_prepared_all _ reason d eq_refl Hpk) as (p & ms & E & H1 & H2). rewrite E.
  cbn [d_egress]. destruct (drain_queue_all 25 _ _ He eq_refl) as (q & E2 & H3 & H4). rewrite E2.
  by exists p, q, ms.
Qed.

(** The metrics change nothing else. *)
Lemma report_interruption_spec reason t d :
  exists ms, report_interruption reason t d =
    mkDriver (d_source d) (d_egress d) (d_prepared d) (d_credits d) (d_playback_epoch d)
      (d_account_popped_frame_as_skipped_on_stop d) ms.
Proof.
  exists (d_metrics (report_interruption reason t d)). unfold report_interruption.
  by destruct (0 <? tl_skipped_count t), (0 <? tl_restored_count t), (0 <? tl_discarded_count t).
Qed.

(** Asking for the depth takes the producer's error along. *)
Lemma current_source_depth_spec d :
  exists r, current_source_depth d = (set_source (take_error (d_source d)) d, r).
Proof.
  unfold current_source_depth, take_error, set_source.
  destruct d as [[q e [err|]] ? ? ? ? ? ?]; by eexists.
Qed.

Lemma flush_spec reason frames d :
  driver_ok d -> Forall (small_frame B) frames ->
  let all := frames ++ staged d in
  let kept := kept_at_source d (drop 25 all) in
  let d' := flush_egress_buffer_for_interruption reason frames d in
  driver_ok d' /\
  q_inner (d_egress d') = take 25 all /\
  q_inner (sb_queue (d_source d')) = kept ++ q_inner (sb_queue (d_source d)) /\
  pq_queue (d_prepared d') = [] /\
  d_credits d' = d_credits d ++ map (credit_of reason) (take 25 all ++ rev kept) /\
  sb_end_of_stream (d_source d') = sb_end_of_stream (d_source d) /\
  sb_error (d_source d') = (if bool_decide (all = []) then sb_error (d_source d) else None).
Proof.
  intros Hd Hfs all kept d'. subst d'. unfold flush_egress_buffer_for_interruption.
  destruct (drain_egress_frames_spec reason d Hd) as (p & q & ms & E & Hq & Hqn & Hp & Hpk).
  rewrite E. fold all. destruct Hd as [Hs He Hpr Hpk0]. case_bool_decide as Hall.
  { subst kept. rewrite Hall. cbn. rewrite Hp, Hqn, app_nil_r. split_and!; try done.
    split; cbn; rewrite ?Hp; try done. }
  assert (Hsm : Forall (small_frame B) all).
  { unfold all, staged. rewrite !Forall_app. by destruct He. }
  cbn [d_egress d_credits].
  destruct (restore_fold 25 reason all (mkRestored q (d_credits d) 0 0 []) Hq Hsm)
    as (R1 & R2 & R3 & R4). fold (restore_interrupted_frames_to_egress_buffer q (d_credits d) reason all) in *.
  set (r := restore_interrupted_frames_to_egress_buffer q (d_credits d) reason all) in *.
  assert (Hroom : room 25 (rs_egress (mkRestored q (d_credits d) 0 0 [])) = 25%nat)
    by (unfold room; cbn; by rewrite Hqn).
  rewrite Hroom in R2, R3, R4. cbn in R2, R3, R4. rewrite Hqn in R2. cbn in R2.
  set (d2 := set_credits _ _).
  destruct (current_source_depth_spec d2) as [asked E3]. rewrite E3. set (t0 := mkTally _ _ _ _ _ _ _).
  destruct (restore_to_source_spec 250 reason (rev (rs_source_frames r))
    (set_source (take_error (d_source d2)) d2) t0) as (q1 & ms1 & t & E4 & S1 & S2);
    [done|rewrite R3; apply Forall_rev; by apply Forall_drop|].
  rewrite E4. match goal with |- context [report_interruption reason t ?x] =>
    destruct (report_interruption_spec reason t x) as [ms2 E5] end. rewrite E5.
  rewrite R3, firstn_rev in S2 |- *. rewrite rev_involutive in S2.
  split_and!; cbn; rewrite ?R2, ?R4, ?map_app, <- ?app_assoc; try done.
  split; cbn; rewrite ?Hp; done.
Qed.


(** *** Refilling the egress buffer *)

Lemma with_epoch_small f e : small_frame B f -> small_frame B (with_epoch f e).
Proof. done. Qed.

(** From [s] to [s'] the frames [moved] went from the source buffer to the
    egress buffer, tagged with the epoch, and nothing else happened to either. *)
Record refilled (s s' : RefillState) (moved : list OpusFrame) : Prop := {
  rd_ok : driver_ok (rf_driver s');
  rd_source : q_inner (sb_queue (d_source (rf_driver s)))
              = moved ++ q_inner (sb_queue (d_source (rf_driver s')));
  rd_egress : q_inner (d_egress (rf_driver s')) = q_inner (d_egress (rf_driver s))
              ++ map (fun f => with_epoch f (d_playback_epoch (rf_driver s))) moved;
  rd_prepared : d_prepared (rf_driver s') = d_prepared (rf_driver s);
  rd_epoch : d_playback_epoch (rf_driver s') = d_playback_epoch (rf_driver s);
  rd_eos : sb_end_of_stream (d_source (rf_driver s')) = sb_end_of_stream (d_source (rf_driver s));
  rd_error : sb_error (d_source (rf_driver s')) = None;
}.

Lemma refilled_trans s s1 s2 a b :
  refilled s s1 a -> refilled s1 s2 b -> refilled s s2 (a ++ b).
Proof.
  intros [A1 A2 A3 A4 A5 A6 A7] [B1 B2 B3 B4 B5 B6 B7]. split; try done; try congruence.
  - by rewrite A2, B2, app_assoc.
  - by rewrite B3, A3, A5, map_app, app_assoc.
Qed.

(** A turn that found a frame moved it; one that found none knows whether the
    stream is over. *)
Lemma refill_turn_spec s :
  driver_ok (rf_driver s) -> sb_error (d_source (rf_driver s)) = None ->
  zlen (q_inner (d_egress (rf_driver s))) < 25 ->
  match q_inner (sb_queue (d_source (rf_driver s))) with
  | [] => exists s', refill_turn s = (s', Ok false) /\ refilled s s' [] /\
            rf_source_ended s' = rf_source_ended s || sb_end_of_stream (d_source (rf_driver s))
  | f :: _ => exists s', refill_turn s = (s', Ok true) /\ refilled s s' [f] /\
            rf_source_ended s' = rf_source_ended s
  end.
Proof.
  intros Hd Herr Hlen. unfold refill_turn, pop_live_source_frame. rewrite Herr.
  destruct Hd as [Hs He Hp Hpk]. destruct (stage_pop 250 _ Hs) as (H1 & H2 & H3).
  destruct (pop (sb_queue (d_source (rf_driver s)))) as [q o]. cbn in H1, H2, H3. subst o.
  destruct (q_inner (sb_queue (d_source (rf_driver s)))) as [|f l] eqn:Eq; cbn in H3 |- *.
  - eexists. split; [reflexivity|]. split.
    + split; cbn; rewrite ?Eq, ?H3, ?app_nil_r; try done.
    + cbn. unfold q_len. rewrite H3. cbn. by rewrite andb_true_r.
  - assert (Hf : small_frame B (with_epoch f (d_playback_epoch (rf_driver s)))).
    { destruct Hs as [_ _ Hfr _]. rewrite Eq in Hfr. by apply Forall_cons_1 in Hfr as [? _]. }
    assert (Hegress : forall (b : bool) m d, d_egress (if b then offer m d else d) = d_egress d)
      by (by intros []).
    rewrite Hegress. cbn [d_egress offer set_source].
    rewrite (stage_push 25) by done. rewrite (proj2 (Z.ltb_lt _ 25) Hlen).
    eexists. split; [reflexivity|]. split; [|done].
    assert (Hst : stage_ok 25 (account (d_egress (rf_driver s))
      (with_epoch f (d_playback_epoch (rf_driver s)))
      (q_inner (d_egress (rf_driver s)) ++ [with_epoch f (d_playback_epoch (rf_driver s))]))).
    { apply stage_account; try done. by rewrite Permutation_app_comm. }
    destruct (rf_underrun_active s); split; cbn; try done; try (by split); by rewrite Eq, H3.
Qed.

(** The loop's guard without the counters. *)
Lemma refill_wants_spec target s :
  driver_ok (rf_driver s) -> target <= 24000 ->
  if refill_wants target s
  then rf_source_ended s = false /\ zlen (q_inner (d_egress (rf_driver s))) < 25
  else rf_source_ended s = true \/ target <= buffered_samples (d_egress (rf_driver s)).
Proof.
  intros [_ He _ _] Ht. pose proof (stage_len 25 _ He) as [Hd Hl].
  unfold refill_wants, buffered_samples. rewrite (stage_is_full 25) by done.
  destruct (rf_source_ended s); [by left|]. cbn [negb andb].
  destruct (Z.ltb_spec (q_duration_samples (d_egress (rf_driver s))) target) as [H|H]; cbn [andb];
    [|by right].
  destruct (Z.leb_spec 25 (zlen (q_inner (d_egress (rf_driver s))))); cbn; [right|split; [done|]]; lia.
Qed.

Lemma refill_loop_spec target fuel s :
  driver_ok (rf_driver s) -> sb_error (d_source (rf_driver s)) = None -> target <= 24000 ->
  (length (q_inner (sb_queue (d_source (rf_driver s)))) < fuel)%nat ->
  exists s' moved, refill_loop fuel target s = (s', Ok tt) /\ refilled s s' moved /\
    (rf_source_ended s = true \/ target <= buffered_samples (d_egress (rf_driver s')) \/
     q_inner (sb_queue (d_source (rf_driver s'))) = []) /\
    (rf_source_ended s' = true ->
     rf_source_ended s = true \/
     q_inner (sb_queue (d_source (rf_driver s'))) = [] /\
     sb_end_of_stream (d_source (rf_driver s)) = true).
Proof.
  intros Hd Herr Ht. revert s Hd Herr; induction fuel as [|fuel IH]; intros s Hd Herr Hfuel; [lia|].
  cbn [refill_loop]. pose proof (refill_wants_spec target s Hd Ht) as Hw.
  destruct (refill_wants target s).
  - destruct Hw as [Hend Hlen]. pose proof (refill_turn_spec s Hd Herr Hlen) as Hturn.
    unfold mbind, stm_bind.
    destruct (q_inner (sb_queue (d_source (rf_driver s)))) as [|f l] eqn:Eq.
    + destruct Hturn as (s' & E & Hr & He). rewrite E. exists s', []. cbn.
      assert (Hnil : q_inner (sb_queue (d_source (rf_driver s'))) = []).
      { destruct Hr as [_ H _ _ _ _ _]. by rewrite Eq in H. }
      rewrite He, Hend. split_and!; try done; [by right; right|]. intros Hx. by right.
    + destruct Hturn as (s1 & E & Hr & He). rewrite E.
      pose proof (rd_source _ _ _ Hr) as Hsrc. rewrite Eq in Hsrc. injection Hsrc as Hsrc.
      destruct (IH s1) as (s' & moved & E2 & H1 & H2 & H3);
        [apply Hr|apply Hr|rewrite <- Hsrc; cbn in Hfuel; lia|].
      exists s', (f :: moved). rewrite E2, <- He. split; [done|].
      split; [by apply (refilled_trans s s1 s' [f] moved)|]. split; [done|].
      by rewrite <- (rd_eos _ _ _ Hr).
  - exists s, []. split; [done|]. split; [|split; [tauto|by left]].
    split; try done. by rewrite app_nil_r.
Qed.

(** *** The producer *)

Lemma transfer_spec K n refill source :
  stage_ok K source -> Forall (small_frame B) (q_inner refill) -> n = length (q_inner refill) ->
  zlen (q_inner source) + zlen (q_inner refill) <= K ->
  exists source', transfer n refill source = (source', true) /\ stage_ok K source' /\
    q_inner source' = q_inner source ++ q_inner refill.
Proof.
  revert refill source; induction n as [|n IH]; intros refill source Hs Hfr Hn Hroom;
    cbn [transfer].
  - destruct (q_inner refill); [|discriminate]. exists source. by rewrite app_nil_r.
  - unfold pop. destruct (q_inner refill) as [|f l]; [discriminate|].
    apply Forall_cons_1 in Hfr as [Hf Hfr]. rewrite zlen_cons in Hroom.
    rewrite (stage_push K) by done. pose proof (zlen_nonneg l).
    rewrite (proj2 (Z.ltb_lt _ _)) by lia.
    set (refill' := mkOpusFrameQueue _ _ _ _ _ l).
    match goal with |- context [transfer n refill' ?q] =>
      destruct (IH refill' q) as (source' & E & H1 & H2) end.
    + apply stage_account; try done; [lia|]. by rewrite Permutation_app_comm.
    + done.
    + cbn. cbn in Hn. lia.
    + cbn. unfold zlen in *. rewrite length_app. cbn. lia.
    + rewrite E. exists source'. split; [done|]. split; [done|]. rewrite H2. cbn. by rewrite <- app_assoc.
Qed.

(** The producer asks for exactly what is missing. *)
Lemma producer_plan_refill s ms :
  stage_ok 250 (sb_queue s) -> producer_plan PLAYBACK_SOURCE_BUFFER_TARGET_MS s = Refill ms ->
  ms = 20 * (250 - zlen (q_inner (sb_queue s))) /\ zlen (q_inner (sb_queue s)) < 200 /\
  sb_end_of_stream s = false /\ sb_error s = None.
Proof.
  intros Hs. pose proof (stage_len 250 _ Hs) as [Hd Hl]. unfold producer_plan.
  destruct (sb_end_of_stream s); [done|]. cbn [orb]. case_bool_decide as He; [done|].
  unfold buffered_duration_ms. rewrite Hd, duration_ms_exact by (unfold u64_max; lia).
  replace (960 * zlen (q_inner (sb_queue s)) / 48) with (20 * zlen (q_inner (sb_queue s)))
    by (apply Z.div_unique_exact; lia).
  unfold PLAYBACK_SOURCE_BUFFER_LOW_WATERMARK_MS, PLAYBACK_SOURCE_BUFFER_TARGET_MS,
    PLAYBACK_SOURCE_BUFFER_HIGH_WATERMARK_MS, PLAYBACK_SOURCE_BUFFER_REFILL_BATCH_MS, sat_sub.
  destruct (Z.leb_spec 4000 (20 * zlen (q_inner (sb_queue s)))); [done|]. intros [= <-].
  split; [lia|]. split; [lia|]. split; [done|]. apply eq_None_not_Some in He. done.
Qed.

Lemma refill_queue_ok K :
  0 <= K <= 250 -> stage_ok K (with_resource_limits PLAYBACK_QUEUE_CAPACITY
    PLAYBACK_BUFFER_MEMORY_CAP_BYTES (20 * K)).
Proof.
  intros HK. split; [| |constructor|lia].
  - apply with_resource_limits_ok; unfold PLAYBACK_QUEUE_CAPACITY,
      PLAYBACK_BUFFER_MEMORY_CAP_BYTES, usize_max, u64_max; lia.
  - unfold limits_of. cbn. rewrite samples_exact by (unfold u64_max; lia). f_equal. lia.
Qed.

Context `{W : WebmIterable} `{C : OpusCodec} `{L : !OpusCodecLaws}.

(** What the producer's worker and source satisfy between rounds. *)
Record producer_ok (wk : PlaybackWorker) (source : PlaybackSource) : Prop := {
  pr_pending : Forall (small_frame B) (pw_pending_frames wk);
  pr_packets : Forall (small_packet B) (ps_pending_packets source);
  pr_buffer : buffer_len (pw_normalizer wk) <= B;
}.

(** A refill of [20 * K] ms that returns has filled its queue, unless the
    stream is over and all of it is in the queue. *)
Lemma producer_refill_filled fuel K wk source w fs :
  demuxes_small B -> producer_ok wk source -> 0 < K <= 250 ->
  producer_refill fuel (20 * K) wk source w = (fs, Ok tt) ->
  stage_ok K (fs_queue fs) /\
  exists ended consumed fresh new,
    normalize_run ended consumed (pw_normalizer wk) = (pw_normalizer (fs_worker fs), Ok new) /\
    ps_pending_packets source ++ fresh = consumed ++ ps_pending_packets (fs_source fs) /\
    q_inner (fs_queue fs) ++ pw_pending_frames (fs_worker fs) = pw_pending_frames wk ++ new /\
    producer_ok (fs_worker fs) (fs_source fs) /\
    (zlen (q_inner (fs_queue fs)) < K -> ended = true /\ pw_pending_frames (fs_worker fs) = []).
Proof.
  intros Hdm [Hp Hk Hn] HK E. pose proof (refill_queue_ok K ltac:(lia)) as Hst.
  unfold producer_refill, fill_queue_to_duration_ms, fill_queue_to_duration_ms_for_video in E.
  unfold mbind, stm_bind, gets, id in E. set (s0 := mkFillState _ _ _ _) in E.
  pose proof (fill_loop_limits fuel (pw_current_video_id (fs_worker s0))
    (samples_from_duration_ms_u64 (Z.max (20 * K) 1)) s0) as Hlim. rewrite E in Hlim. cbn in Hlim.
  rewrite Z.max_l, samples_exact in E by (unfold u64_max; lia).
  assert (Hs0 : fill_ok B s0).
  { destruct Hst as [Hq Hl _ _]. split; cbn; try done. split; [done|]. cbn. split; [|constructor].
    unfold PLAYBACK_QUEUE_CAPACITY, PLAYBACK_BUFFER_MEMORY_CAP_BYTES. lia. }
  destruct (fill_loop_filled B ltac:(lia) _ _ _ _ _ Hdm Hs0 E)
    as (ended & consumed & fresh & [Hok Hpk (new & Hnew & Hfr & Hsm)] & Hdone).
  unfold frames_of in Hfr. cbn in Hfr, Hpk, Hnew.
  assert (Hall : Forall (small_frame B) (q_inner (fs_queue fs) ++ pw_pending_frames (fs_worker fs)))
    by (rewrite Hfr; by apply Forall_app).
  apply Forall_app in Hall as [Hin Hpend]. destruct Hok as [(Hq & _ & _) Hp' Hk' Hn'].
  assert (Hst' : stage_ok K (fs_queue fs)).
  { split; [done| |done|lia]. etransitivity; [exact Hlim|]. apply Hst. }
  split; [done|]. exists ended, consumed, fresh, new. split_and!; try done.
  intros Hlt. destruct (stage_len K _ Hst') as [Hd _]. destruct Hdone as [Hdone|[Hdone|Hdone]].
  - apply orb_true_iff in Hdone as [Hdone|Hdone].
    + unfold target_reached, buffered_samples in Hdone. rewrite Hd in Hdone.
      apply Z.leb_le in Hdone. lia.
    + rewrite (stage_is_full K), Z.leb_le in Hdone by done. lia.
  - destruct Hdone as (f & rest & Ef & Hno). rewrite Ef in Hpend.
    apply Forall_cons_1 in Hpend as [Hf _]. rewrite (stage_fits K), Z.ltb_ge in Hno by done. lia.
  - done.
Qed.

End Stages.

(** ** Theorems *)

(** The prepared playout queue is the frame queue with the egress limits:
    for any sequence of pushes and pops it accepts, refuses and hands out the
    same frames as an [OpusFrameQueue] of 1024 packets, 4 MiB and 500 ms and
    reports the same depth, and every frame comes out with the command it went
    in with, in order. *)
Theorem prepared_queue_refines ops :
  let '(p, outs) := prepared_run PreparedPlayoutQueue_new ops in
  queue_run DiscordEgressBuffer_new (map frame_op ops) = (prepared_as_queue p, map frame_out outs) /\
  prepared_depth p = depth (prepared_as_queue p) /\
  prepared_is_full p = is_full (prepared_as_queue p) /\
  concat (zip_with accepted ops outs) = concat (map handed_out outs) ++ pq_queue p.
Proof.
  pose proof (prepared_run_simulates PreparedPlayoutQueue_new ops eq_refl) as H.
  destruct (prepared_run PreparedPlayoutQueue_new ops) as [p outs].
  destruct H as (H1 & H2 & H3). split_and!; [done| | |done].
  - unfold prepared_depth, depth, q_len. cbn. by rewrite zlen_map, <- H1.
  - unfold prepared_is_full, is_full. cbn. rewrite zlen_map, <- H1.
    by destruct (_ <=? pq_duration_samples p), (_ <=? pq_packets p), (_ <=? pq_bytes p).
Qed.

(** C10. An interruption loses no audio and reorders none: the frames of the
    commands not yet sent, of the prepared packets and of the egress buffer go
    back, the first 25 (500 ms) to the egress buffer and the rest to the front
    of the source buffer, so that as long as all frames fit the two buffers
    (275 frames of 20 ms) the egress buffer followed by the source buffer is
    exactly what would have been played; each frame put back earns one rebuild
    credit. Without room, only the middle is lost: the end of the returned
    frames still meets the front of the source buffer. *)
Theorem interrupt_restores_audio B reason pending d :
  0 <= B <= 4096 -> driver_ok B d -> Forall (small_frame B) (omap pd_frame pending) ->
  let all := omap pd_frame pending ++ staged d in
  let kept := kept_at_source d (drop 25 all) in
  let d' := interrupt reason pending d in
  driver_ok B d' /\ pq_queue (d_prepared d') = [] /\
  q_inner (d_egress d') = take 25 all /\
  q_inner (sb_queue (d_source d')) = kept ++ q_inner (sb_queue (d_source d)) /\
  d_credits d' ≡ₚ d_credits d ++ map (credit_of reason) (take 25 all ++ kept) /\
  (zlen all + zlen (q_inner (sb_queue (d_source d))) <= 275 ->
   q_inner (d_egress d') ++ q_inner (sb_queue (d_source d')) =
   all ++ q_inner (sb_queue (d_source d))).
Proof.
  intros HB Hd Hp all kept d'. subst d'. unfold interrupt.
  destruct (take_pending_frames_spec reason pending d) as [ms E]. rewrite E.
  set (d1 := mkDriver _ _ _ _ _ _ ms).
  destruct (flush_spec B HB reason (omap pd_frame pending) d1) as (H1 & H2 & H3 & H4 & H5 & _);
    [by destruct Hd|done|].
  change (staged d1) with (staged d) in *. fold all in H2, H3, H5. split_and!; try done.
  - rewrite H5. apply Permutation_app; [done|]. apply Permutation_map, Permutation_app; [done|].
    symmetry. apply Permutation_rev.
  - intros Hlen. destruct (stage_len B HB 250 _ (do_source _ _ Hd)) as [_ Hsrc]. rewrite H2, H3, app_assoc. f_equal. unfold kept_at_source.
    replace (_ - _)%nat with 0%nat; [by rewrite drop_0, take_drop|].
    rewrite length_drop. unfold room, zlen in *. cbn. lia.
Qed.

(** C37. Refilling the egress buffer terminates and moves audio in order: the
    call returns (every turn takes a frame off the source buffer), the frames
    it took off the front of the source buffer are exactly those it appended
    to the egress buffer, retagged with the playback epoch, and it stops only
    with the 400 ms target (less what is already prepared or pending) buffered
    or the source buffer empty. It reports the end of the source only when the
    producer announced it and no frame is left. *)
Theorem refill_in_order B pending_samples d underrun :
  0 <= B <= 4096 -> driver_ok B d -> sb_error (d_source d) = None ->
  0 <= pending_samples -> 0 <= pq_duration_samples (d_prepared d) ->
  exists s dep moved,
    refill_egress_buffer pending_samples d false underrun = (s, Ok dep) /\
    driver_ok B (rf_driver s) /\
    q_inner (sb_queue (d_source d)) = moved ++ q_inner (sb_queue (d_source (rf_driver s))) /\
    q_inner (d_egress (rf_driver s)) =
      q_inner (d_egress d) ++ map (fun f => with_epoch f (d_playback_epoch d)) moved /\
    (19200 - pending_samples - pq_duration_samples (d_prepared d)
       <= buffered_samples (d_egress (rf_driver s)) \/
     q_inner (sb_queue (d_source (rf_driver s))) = []) /\
    (rf_source_ended s = true ->
     q_inner (sb_queue (d_source (rf_driver s))) = [] /\ sb_end_of_stream (d_source d) = true).
Proof.
  intros HB Hd Herr Hps Hpd. unfold refill_egress_buffer, current_source_depth. rewrite Herr.
  set (target := sat_sub _ _). set (s0 := mkRefillState d false underrun _).
  assert (Ht : 19200 - pending_samples - pq_duration_samples (d_prepared d) <= target <= 24000).
  { unfold target, DISCORD_EGRESS_BUFFER_TARGET_MS, sat_sub. rewrite samples_exact by done. lia. }
  destruct (refill_loop_spec B HB target (S (length (q_inner (sb_queue (d_source d))))) s0)
    as (s & moved & E & [H1 H2 H3 H4 H5 H6 H7] & H8 & H9); [done|done|lia|cbn; lia|].
  rewrite E. eexists _, _, moved. split; [reflexivity|]. cbn [rf_driver rf_source_ended].
  split; [by destruct H1|]. split; [done|]. split; [done|]. split.
  - destruct H8 as [H8|[H8|H8]]; [done|left; cbn; lia|by right].
  - intros He. destruct (H9 He) as [?|?]; done.
Qed.

(** C11. The producer neither overfills the source buffer nor ends a stream
    early: if, while the worker filled, the driver only took frames off the
    front of the source buffer, then everything produced is appended to it, in
    order and with no error, whatever the fill produced; and the end of the
    stream is announced exactly when the producer stops, only when the worker
    has flushed the normalizer at the end of the stream and every frame of the
    track is in the buffer. *)
Theorem producer_round `{W : WebmIterable} `{C : OpusCodec} `{L : !OpusCodecLaws} B fuel wk source w fs s ms taken s' :
  0 <= B <= 4096 -> demuxes_small B -> producer_ok B wk source ->
  stage_ok B 250 (sb_queue s) ->
  producer_plan PLAYBACK_SOURCE_BUFFER_TARGET_MS s = Refill ms ->
  producer_refill fuel ms wk source w = (fs, Ok tt) ->
  stage_ok B 250 (sb_queue s') -> sb_end_of_stream s' = sb_end_of_stream s ->
  q_inner (sb_queue s) = taken ++ q_inner (sb_queue s') ->
  exists s2 again ended consumed fresh new,
    producer_store ms (fs, Ok tt) s' = (s2, again) /\
    stage_ok B 250 (sb_queue s2) /\ sb_error s2 = sb_error s' /\
    sb_end_of_stream s2 = negb again /\
    producer_ok B (fs_worker fs) (fs_source fs) /\
    normalize_run ended consumed (pw_normalizer wk) = (pw_normalizer (fs_worker fs), Ok new) /\
    ps_pending_packets source ++ fresh = consumed ++ ps_pending_packets (fs_source fs) /\
    q_inner (sb_queue s2) ++ pw_pending_frames (fs_worker fs) =
      q_inner (sb_queue s') ++ pw_pending_frames wk ++ new /\
    (again = false -> ended = true /\ pw_pending_frames (fs_worker fs) = [] /\
                      ps_pending_packets (fs_source fs) = []).
Proof.
  intros HB Hdm Hp Hs Hplan Hfill Hs' Heos Htaken.
  destruct (producer_plan_refill B HB s ms Hs Hplan) as (-> & Hlen & Heos0 & Herr).
  set (K := 250 - zlen (q_inner (sb_queue s))) in *.
  assert (HK : 0 < K <= 250) by (pose proof (zlen_nonneg (q_inner (sb_queue s))); lia).
  destruct (producer_refill_filled B HB fuel K wk source w fs Hdm Hp HK Hfill)
    as (Hst & ended & consumed & fresh & new & N1 & N2 & N3 & N4 & N5).
  destruct (stage_len B HB K _ Hst) as [Hdur Hin].
  assert (Hshort : zlen (q_inner (sb_queue s')) <= zlen (q_inner (sb_queue s))).
  { unfold zlen. rewrite Htaken, length_app. lia. }
  destruct (transfer_spec B HB 250 (length (q_inner (fs_queue fs))) (fs_queue fs) (sb_queue s'))
    as (q2 & E & H1 & H2); [done|by destruct Hst|done|lia|].
  cbn [producer_store]. rewrite E, Heos, Heos0. cbn [orb].
  set (over := producer_refill_reached_end_of_stream _ _ _ _).
  eexists _, _, ended, consumed, fresh, new. split; [reflexivity|].
  split_and!; try done; cbn [sb_queue sb_end_of_stream].
  - by destruct over.
  - by rewrite H2, <- app_assoc, N3.
  - intros Hover. apply negb_false_iff in Hover. unfold over in Hover.
    unfold producer_refill_reached_end_of_stream, q_len, buffered_samples in Hover.
    apply andb_true_iff in Hover as [Hpk Hover]. apply bool_decide_eq_true in Hpk.
    rewrite samples_exact, Hdur in Hover by (unfold u64_max; lia).
    apply orb_true_iff in Hover. rewrite Z.eqb_eq, Z.ltb_lt in Hover.
    destruct N5 as [? ?]; [lia|]. done.
Qed.

(** ** An error of the producer is lost at an interruption *)

(** [current_source_depth] takes the error and the flush ignores the answer:
    whenever there is a frame to put back, the error is gone afterwards. *)
Lemma flush_takes_error B reason frames d :
  0 <= B <= 4096 -> driver_ok B d -> Forall (small_frame B) frames -> frames <> [] ->
  sb_error (d_source (flush_egress_buffer_for_interruption reason frames d)) = None.
Proof.
  intros HB Hd Hf Hne. destruct (flush_spec B HB reason frames d Hd Hf) as (_ & _ & _ & _ & _ & _ & H).
  rewrite H. case_bool_decide as Hnil; [|done]. by apply app_eq_nil in Hnil as [? _].
Qed.

(** With the producer gone and its error taken, an empty source buffer is
    polled for ever: neither a frame, nor an error, nor the end. *)
Lemma lost_error_never_ends d :
  sb_error (d_source d) = None -> sb_end_of_stream (d_source d) = false ->
  q_inner (sb_queue (d_source d)) = [] ->
  exists d' poll, pop_live_source_frame d = (d', Ok poll) /\
    lp_frame poll = None /\ lp_ended poll = false /\ d_source d' = d_source d.
Proof.
  intros He Hs Hq. unfold pop_live_source_frame, pop. rewrite He, Hq, Hs.
  eexists _, _. split; [reflexivity|]. split_and!; try done. cbn.
  destruct (d_source d); cbn in *. by subst.
Qed.

(** ** A driver with a frame in every stage *)

Definition frame_at (position : Z) : OpusFrame :=
  mkOpusFrame [252; 255; 254] 20 960 (20 * position) (960 * position) None 1.

Definition sample_command (position : Z) : PreparedPlayoutCommand :=
  mkPreparedPlayoutCommand
    (mkPreparedVoicePacket [0x80; 0x78] 20 960 true position (960 * position) (Some position))
    KTrack (Some (prepared_media_frame (frame_at position))) 0.

Definition sample_pending : list PendingDeadlineCommand :=
  [PendingDeadlineCommand_new (sample_command 0) (Some (frame_at 0))].

Definition source_queue_new : OpusFrameQueue :=
  with_resource_limits PLAYBACK_QUEUE_CAPACITY PLAYBACK_BUFFER_MEMORY_CAP_BYTES
    PLAYBACK_SOURCE_BUFFER_HIGH_WATERMARK_MS.

Definition sample_driver : Driver :=
  mkDriver (mkSourceBufferState (fst (push source_queue_new (frame_at 3))) false None)
    (fst (push DiscordEgressBuffer_new (frame_at 2)))
    (fst (prepared_push PreparedPlayoutQueue_new
            (mkPreparedTrackPlayout (sample_command 1) (frame_at 1))))
    [] 1 false [].

Lemma frame_at_small n : small_frame 4096 (frame_at n).
Proof. split; vm_compute; congruence. Qed.

Lemma one_frame_stage K n :
  0 < K <= 250 ->
  stage_ok 4096 K (fst (push (with_resource_limits PLAYBACK_QUEUE_CAPACITY
    PLAYBACK_BUFFER_MEMORY_CAP_BYTES (20 * K)) (frame_at n))).
Proof.
  intros HK. assert (HB : 0 <= 4096 <= 4096) by lia.
  pose proof (refill_queue_ok 4096 K ltac:(lia)) as Hq.
  rewrite (stage_push 4096 HB K) by (done || apply frame_at_small).
  rewrite (proj2 (Z.ltb_lt _ _)) by (unfold zlen; cbn; lia). cbn [fst].
  apply (stage_account 4096 HB); [done|apply frame_at_small|unfold zlen; cbn; lia|done].
Qed.

Lemma sample_driver_ok : driver_ok 4096 sample_driver.
Proof.
  split; [apply (one_frame_stage 250); lia|apply (one_frame_stage 25); lia| |reflexivity].
  constructor; [apply frame_at_small|constructor].
Qed.

Lemma interrupt_restores_audio_witness :
  let d' := interrupt Pause sample_pending sample_driver in
  q_inner (d_egress d') = take 25 (omap pd_frame sample_pending ++ staged sample_driver) /\
  q_inner (d_egress d') ++ q_inner (sb_queue (d_source d')) = map frame_at [0; 1; 2; 3].
Proof.
  assert (HB : 0 <= 4096 <= 4096) by lia.
  assert (Hp : Forall (small_frame 4096) (omap pd_frame sample_pending))
    by (constructor; [apply frame_at_small|constructor]).
  split; [|vm_compute; reflexivity].
  exact (proj1 (proj2 (proj2
    (interrupt_restores_audio 4096 Pause sample_pending sample_driver HB sample_driver_ok Hp)))).
Defined.

Lemma refill_in_order_witness :
  exists s dep moved,
    refill_egress_buffer 0 sample_driver false false = (s, Ok dep) /\
    driver_ok 4096 (rf_driver s) /\
    q_inner (sb_queue (d_source sample_driver)) =
      moved ++ q_inner (sb_queue (d_source (rf_driver s))) /\
    q_inner (d_egress (rf_driver s)) = q_inner (d_egress sample_driver)
      ++ map (fun f => with_epoch f (d_playback_epoch sample_driver)) moved /\
    (19200 - 0 - pq_duration_samples (d_prepared sample_driver)
       <= buffered_samples (d_egress (rf_driver s)) \/
     q_inner (sb_queue (d_source (rf_driver s))) = []) /\
    (rf_source_ended s = true ->
     q_inner (sb_queue (d_source (rf_driver s))) = [] /\
     sb_end_of_stream (d_source sample_driver) = true).
Proof.
  assert (HB : 0 <= 4096 <= 4096) by lia.
  assert (H0 : 0 <= 0) by lia.
  assert (Hd : 0 <= pq_duration_samples (d_prepared sample_driver)) by (vm_compute; discriminate).
  exact (refill_in_order 4096 0 sample_driver false HB sample_driver_ok eq_refl H0 Hd).
Defined.

Definition empty_source : SourceBufferState := mkSourceBufferState source_queue_new false None.
Definition sample_refill : FillState * presult unit :=
  producer_refill 20 5000 (fs_worker sample_fill) (fs_source sample_fill) (fs_world sample_fill).

Lemma producer_round_witness :
  let s2 := fst (producer_store 5000 sample_refill empty_source) in
  sb_end_of_stream s2 = true /\ zlen (q_inner (sb_queue s2)) = 2 /\
  exists s2 again ended consumed fresh new,
    producer_store 5000 (fst sample_refill, Ok tt) empty_source = (s2, again) /\
    stage_ok 4096 250 (sb_queue s2) /\ sb_error s2 = sb_error empty_source /\
    sb_end_of_stream s2 = negb again /\
    producer_ok 4096 (fs_worker (fst sample_refill)) (fs_source (fst sample_refill)) /\
    normalize_run ended consumed (pw_normalizer (fs_worker sample_fill))
      = (pw_normalizer (fs_worker (fst sample_refill)), Ok new) /\
    ps_pending_packets (fs_source sample_fill) ++ fresh
      = consumed ++ ps_pending_packets (fs_source (fst sample_refill)) /\
    q_inner (sb_queue s2) ++ pw_pending_frames (fs_worker (fst sample_refill)) =
      q_inner (sb_queue empty_source) ++ pw_pending_frames (fs_worker sample_fill) ++ new /\
    (again = false -> ended = true /\ pw_pending_frames (fs_worker (fst sample_refill)) = [] /\
                      ps_pending_packets (fs_source (fst sample_refill)) = []).
Proof.
  split; [vm_compute; reflexivity|]. split; [vm_compute; reflexivity|].
  assert (HB : 0 <= 4096 <= 4096) by lia.
  assert (Hp : producer_ok 4096 (fs_worker sample_fill) (fs_source sample_fill))
    by (destruct sample_fill_ok as [_ H1 H2 H3]; by constructor).
  assert (Hs : stage_ok 4096 250 (sb_queue empty_source))
    by (apply (refill_queue_ok 4096 250); lia).
  assert (Hplan : producer_plan PLAYBACK_SOURCE_BUFFER_TARGET_MS empty_source = Refill 5000)
    by (vm_compute; reflexivity).
  assert (Hfill : producer_refill 20 5000 (fs_worker sample_fill) (fs_source sample_fill)
    (fs_world sample_fill) = (fst sample_refill, Ok tt)) by (vm_compute; reflexivity).
  exact (producer_round 4096 20 _ _ _ _ empty_source 5000 [] empty_source
           HB pair_demuxes_small Hp Hs Hplan Hfill Hs eq_refl eq_refl).
Defined.
