(* ===== verification/Task.v ===== *)
(** * Asynchronous tasks

    The language in which the handlers of the session runtime are written
    down: a task is a tree of atomic accesses to the shared state, of
    questions put to the outside world (an await on the network, a timer, a
    channel) and of spawns. A lock that is taken and released around code
    without an await is one access; a lock that is held across another await
    is an access that takes it and a later one that releases it, and an
    access that needs a lock held by somebody else is blocked.

    Two semantics are given. [step] interleaves the tasks of a pool, one
    access at a time, with tasks arriving at any moment: it is the one the
    invariants and the races are about. [wp] runs one task with nobody else
    in between, for every answer of the outside world: it is total, so it
    also says that the task neither blocks nor loops. *)

From S2P Require Import Prelude.
From stdpp Require Import prelude.

Section task.
(** The shared state, the questions and their answers, what can be spawned. *)
Context {St : Type} {Q : Type} {answer : Q -> Type} {Sp : Type}.

Inductive prog (A : Type) : Type :=
| Ret (a : A)
| Act (B : Type) (op : St -> option (St * B)) (k : B -> prog A)
| Query (q : Q) (k : answer q -> prog A)
| Spawn (s : Sp) (k : prog A).
#[local] Arguments Ret {A} a.
#[local] Arguments Act {A B} op k.
#[local] Arguments Query {A} q k.
#[local] Arguments Spawn {A} s k.

Fixpoint prog_then {A B} (m : prog A) (f : A -> prog B) : prog B :=
  match m with
  | Ret a => f a
  | Act op k => Act op (fun b => prog_then (k b) f)
  | Query q k => Query q (fun a => prog_then (k a) f)
  | Spawn s k => Spawn s (prog_then k f)
  end.

#[global] Instance prog_ret : MRet prog := fun A a => Ret a.
#[global] Instance prog_bind : MBind prog := fun A B f m => prog_then m f.

(** The smallest tasks: an access, a read, a write, a question. *)
Definition act {B} (op : St -> option (St * B)) : prog B := Act op Ret.
Definition reads {B} (f : St -> B) : prog B := act (fun st => Some (st, f st)).
Definition writes (f : St -> St) : prog unit := act (fun st => Some (f st, tt)).
Definition ask (q : Q) : prog (answer q) := Query q Ret.
Definition spawn (s : Sp) : prog unit := Spawn s (Ret tt).

(** [m?]: go on with the value, or return the error. *)
Definition try_ {E A B} (m : prog (result E A)) (f : A -> prog (result E B)) : prog (result E B) :=
  m ≫= fun r => match r with Ok a => f a | Err e => mret (Err e) | Panic => mret Panic end.

(** ** Running alone *)

Section alone.
Variable valid : forall q, answer q -> Prop.

(** [wp m post st]: from [st], whatever the world answers, [m] is never
    blocked, returns, and its value and final state satisfy [post]. *)
Fixpoint wp {A} (m : prog A) (post : A -> St -> Prop) (st : St) : Prop :=
  match m with
  | Ret a => post a st
  | Act op k => match op st with Some (st', b) => wp (k b) post st' | None => False end
  | Query q k => forall a, valid q a -> wp (k a) post st
  | Spawn _ k => wp k post st
  end.

Lemma wp_mono {A} (m : prog A) (post post' : A -> St -> Prop) st :
  (forall a st', post a st' -> post' a st') -> wp m post st -> wp m post' st.
Proof.
  intros Himp. revert st. induction m as [a|B op k IH|q k IH|s k IH]; intros st Hw; cbn in *.
  - exact (Himp _ _ Hw).
  - destruct (op st) as [[st' b]|]; [exact (IH _ _ Hw)|done].
  - intros a Ha. exact (IH _ _ (Hw a Ha)).
  - exact (IH _ Hw).
Qed.

Lemma wp_bind {A B} (m : prog A) (f : A -> prog B) post st :
  wp (m ≫= f) post st <-> wp m (fun a st' => wp (f a) post st') st.
Proof.
  unfold mbind, prog_bind. revert st. induction m as [a|C op k IH|q k IH|s k IH]; intros st; cbn.
  - done.
  - destruct (op st) as [[st' b]|]; [exact (IH b st')|done].
  - split; intros Hw a Ha; apply IH, Hw, Ha.
  - apply IH.
Qed.

(** ** Properties of every access *)

(** Every access of the tree, on every path the world allows, satisfies [P]. *)
Fixpoint every {A} (P : forall B, (St -> option (St * B)) -> Prop) (m : prog A) : Prop :=
  match m with
  | Ret _ => True
  | Act op k => P _ op /\ forall b, every P (k b)
  | Query q k => forall a, valid q a -> every P (k a)
  | Spawn _ k => every P k
  end.

Lemma every_bind {A B} P (m : prog A) (f : A -> prog B) :
  every P m -> (forall a, every P (f a)) -> every P (m ≫= f).
Proof.
  intros Hm Hf. unfold mbind, prog_bind. induction m as [a|C op k IH|q k IH|s k IH]; cbn in *.
  - apply Hf.
  - destruct Hm as [Hop Hk]. split; [done|]. intros b. apply IH, Hk.
  - intros a Ha. apply IH, Hm, Ha.
  - apply IH, Hm.
Qed.

Lemma every_try {E A B} P (m : prog (result E A)) (f : A -> prog (result E B)) :
  every P m -> (forall a, every P (f a)) -> every P (try_ m f).
Proof. intros Hm Hf. apply every_bind; [done|]. intros [a|e|]; cbn; [apply Hf|done|done]. Qed.

Lemma every_mono {A} (P P' : forall B, (St -> option (St * B)) -> Prop) (m : prog A) :
  (forall B op, P B op -> P' B op) -> every P m -> every P' m.
Proof. intros HP. induction m; cbn; [done| |auto|auto]. intros [Hop Hk]. auto. Qed.

Lemma every_act {B} (P : forall B, (St -> option (St * B)) -> Prop) op :
  P B op -> every P (act op).
Proof. intros H. cbn. done. Qed.

(** A task all of whose accesses go through and keep [I] returns in [I]. *)
Definition runs_in (I : St -> Prop) (B : Type) (op : St -> option (St * B)) : Prop :=
  forall st, I st -> exists st' b, op st = Some (st', b) /\ I st'.

Lemma every_wp {A} (I : St -> Prop) (m : prog A) st :
  every (runs_in I) m -> I st -> wp m (fun _ st' => I st') st.
Proof.
  revert st. induction m as [a|B op k IH|q k IH|s k IH]; intros st Hm HI; cbn in *.
  - done.
  - destruct Hm as [Hop Hk]. destruct (Hop st HI) as (st' & b & -> & HI'). exact (IH b st' (Hk b) HI').
  - intros a Ha. exact (IH a st (Hm a Ha) HI).
  - exact (IH st Hm HI).
Qed.

(** The same for a relation between the states before and after. *)
Definition moves_by (R : relation St) (B : Type) (op : St -> option (St * B)) : Prop :=
  forall st, exists st' b, op st = Some (st', b) /\ R st st'.

Lemma every_rel {A} (R : relation St) `{!PreOrder R} (m : prog A) st :
  every (moves_by R) m -> wp m (fun _ st' => R st st') st.
Proof.
  revert st. induction m as [a|B op k IH|q k IH|s k IH]; intros st Hm; cbn in *.
  - reflexivity.
  - destruct Hm as [Hop Hk]. destruct (Hop st) as (st1 & b & -> & HR).
    eapply wp_mono; [|exact (IH b st1 (Hk b))]. intros ? st2 H2. by transitivity st1.
  - intros a Ha. exact (IH a st (Hm a Ha)).
  - exact (IH st Hm).
Qed.

Lemma wp_and {A} (m : prog A) post1 post2 st :
  wp m post1 st -> wp m post2 st -> wp m (fun a st' => post1 a st' /\ post2 a st') st.
Proof.
  revert st. induction m as [a|B op k IH|q k IH|s k IH]; intros st H1 H2; cbn in *; [done| |auto|auto].
  destruct (op st) as [[st' b]|]; [by apply IH|done].
Qed.

(** ** Properties of every returned value *)

Fixpoint leaves {A} (P : A -> Prop) (m : prog A) : Prop :=
  match m with
  | Ret a => P a
  | Act op k => forall b, leaves P (k b)
  | Query q k => forall a, valid q a -> leaves P (k a)
  | Spawn _ k => leaves P k
  end.

Lemma leaves_bind {A B} (P : A -> Prop) (P' : B -> Prop) (m : prog A) (f : A -> prog B) :
  leaves P m -> (forall a, P a -> leaves P' (f a)) -> leaves P' (m ≫= f).
Proof.
  intros Hm Hf. unfold mbind, prog_bind. induction m as [a|C op k IH|q k IH|s k IH]; cbn in *; auto.
Qed.

Lemma leaves_mono {A} (P P' : A -> Prop) (m : prog A) :
  (forall a, P a -> P' a) -> leaves P m -> leaves P' m.
Proof. intros HP. induction m; cbn; auto. Qed.

Lemma leaves_any {A} (m : prog A) : leaves (fun _ => True) m.
Proof. induction m; cbn; auto. Qed.

Lemma leaves_try {E A B} (m : prog (result E A)) (f : A -> prog (result E B)) :
  leaves no_panic m -> (forall a, leaves no_panic (f a)) -> leaves no_panic (try_ m f).
Proof. intros Hm Hf. eapply leaves_bind; [exact Hm|]. by intros [a|e|] Ha; cbn; [apply Hf| |]. Qed.

Lemma leaves_wp {A} (P : A -> Prop) (m : prog A) post st :
  leaves P m -> wp m post st -> wp m (fun a st' => P a /\ post a st') st.
Proof.
  revert st. induction m as [a|B op k IH|q k IH|s k IH]; intros st Hl Hw; cbn in *; [done| |auto|auto].
  destruct (op st) as [[st' b]|]; [by apply IH|done].
Qed.

(** ** When it returns *)

(** [wlp m post st]: whatever the world answers, if [m] is not blocked for
    ever, its value and final state satisfy [post]. *)
Fixpoint wlp {A} (m : prog A) (post : A -> St -> Prop) (st : St) : Prop :=
  match m with
  | Ret a => post a st
  | Act op k => match op st with Some (st', b) => wlp (k b) post st' | None => True end
  | Query q k => forall a, valid q a -> wlp (k a) post st
  | Spawn _ k => wlp k post st
  end.

Lemma wlp_mono {A} (m : prog A) (post post' : A -> St -> Prop) st :
  (forall a st', post a st' -> post' a st') -> wlp m post st -> wlp m post' st.
Proof.
  intros Himp. revert st. induction m as [a|B op k IH|q k IH|s k IH]; intros st Hw; cbn in *; auto.
  destruct (op st) as [[st' b]|]; auto.
Qed.

Lemma wlp_bind {A B} (m : prog A) (f : A -> prog B) post st :
  wlp m (fun a st' => wlp (f a) post st') st -> wlp (m ≫= f) post st.
Proof.
  unfold mbind, prog_bind. revert st. induction m as [a|C op k IH|q k IH|s k IH]; intros st Hw; cbn in *; auto.
  destruct (op st) as [[st' b]|]; auto.
Qed.

Lemma wlp_and {A} (m : prog A) post1 post2 st :
  wlp m post1 st -> wlp m post2 st -> wlp m (fun a st' => post1 a st' /\ post2 a st') st.
Proof.
  revert st. induction m as [a|B op k IH|q k IH|s k IH]; intros st H1 H2; cbn in *; [done| |auto|auto].
  destruct (op st) as [[st' b]|]; [by apply IH|done].
Qed.

(** What no access changes is the same at the end. *)
Definition leaves_alone {X} (f : St -> X) (B : Type) (op : St -> option (St * B)) : Prop :=
  forall st st' b, op st = Some (st', b) -> f st' = f st.

Lemma every_wlp {A X} (f : St -> X) (m : prog A) st :
  every (leaves_alone f) m -> wlp m (fun _ st' => f st' = f st) st.
Proof.
  revert st. induction m as [a|B op k IH|q k IH|s k IH]; intros st Hm; cbn in *; auto.
  destruct Hm as [Hop Hk]. destruct (op st) as [[st' b]|] eqn:E; [|done].
  rewrite <- (Hop _ _ _ E). by apply IH.
Qed.

(** The run in which the world answers with [oracle], given the number of
    questions asked before and the state. *)
Fixpoint follow {A} (oracle : nat -> St -> forall q, answer q) (i : nat) (m : prog A) (st : St) : option (A * St) :=
  match m with
  | Ret a => Some (a, st)
  | Act op k => match op st with Some (st', b) => follow oracle i (k b) st' | None => None end
  | Query q k => follow oracle (S i) (k (oracle i st q)) st
  | Spawn _ k => follow oracle i k st
  end.

Lemma wlp_follow {A} oracle (m : prog A) post i st a st' :
  (forall i st q, valid q (oracle i st q)) -> wlp m post st -> follow oracle i m st = Some (a, st') -> post a st'.
Proof.
  intros Hv. revert i st. induction m as [x|B op k IH|q k IH|s k IH]; intros i st Hw Hf; cbn in *.
  - by injection Hf as -> ->.
  - destruct (op st) as [[st1 b]|]; [by eapply IH|done].
  - eapply IH; [|exact Hf]. by apply Hw.
  - by eapply IH.
Qed.

(** ** Some run *)

(** [may m post st]: some answers of the world lead [m] to [post]. *)
Fixpoint may {A} (m : prog A) (post : A -> St -> Prop) (st : St) : Prop :=
  match m with
  | Ret a => post a st
  | Act op k => match op st with Some (st', b) => may (k b) post st' | None => False end
  | Query q k => exists a, valid q a /\ may (k a) post st
  | Spawn _ k => may k post st
  end.

Lemma wp_may {A} (m : prog A) post1 post2 st :
  wp m post1 st -> may m post2 st -> may m (fun a st' => post1 a st' /\ post2 a st') st.
Proof.
  revert st. induction m as [a|B op k IH|q k IH|s k IH]; intros st Hw Hm; cbn in *.
  - done.
  - destruct (op st) as [[st' b]|]; [by apply IH|done].
  - destruct Hm as (a & Ha & Hm). exists a. split; [done|]. by apply IH; [apply Hw|].
  - by apply IH.
Qed.

Lemma may_mono {A} (m : prog A) (post post' : A -> St -> Prop) st :
  (forall a st', post a st' -> post' a st') -> may m post st -> may m post' st.
Proof.
  intros Himp. revert st. induction m as [a|B op k IH|q k IH|s k IH]; intros st Hm; cbn in *.
  - by apply Himp.
  - destruct (op st) as [[st' b]|]; [by apply IH|done].
  - destruct Hm as (a & Ha & Hm). exists a. split; [done|]. by apply IH.
  - by apply IH.
Qed.

Lemma may_bind {A B} (m : prog A) (f : A -> prog B) post st :
  may m (fun a st' => may (f a) post st') st -> may (m ≫= f) post st.
Proof.
  unfold mbind, prog_bind. revert st. induction m as [a|C op k IH|q k IH|s k IH]; intros st Hm; cbn in *.
  - done.
  - destruct (op st) as [[st' b]|]; [by apply IH|done].
  - destruct Hm as (a & Ha & Hm). exists a. split; [done|]. by apply IH.
  - by apply IH.
Qed.

(** ** Pools of tasks *)

Section pool.
Context {R : Type} (body : Sp -> prog R).

Definition config : Type := St * list (prog R).

(** One turn of task [i], which must exist, not be finished, and not be
    blocked. *)
Inductive step (i : nat) : config -> config -> Prop :=
| step_act st st' ts B (op : St -> option (St * B)) k b :
    ts !! i = Some (Act op k) -> op st = Some (st', b) ->
    step i (st, ts) (st', <[i := k b]> ts)
| step_query st ts q k a :
    ts !! i = Some (Query q k) -> valid q a ->
    step i (st, ts) (st, <[i := k a]> ts)
| step_spawn st ts s k :
    ts !! i = Some (Spawn s k) ->
    step i (st, ts) (st, <[i := k]> ts ++ [body s]).

(** A turn of some task, or the arrival of a task that [arrives] allows. *)
Inductive turn (arrives : prog R -> Prop) : config -> config -> Prop :=
| turn_step i c c' : step i c c' -> turn arrives c c'
| turn_arrive st ts m : arrives m -> turn arrives (st, ts) (st, ts ++ [m]).

Definition reachable (arrives : prog R -> Prop) : config -> config -> Prop :=
  rtc (turn arrives).

(** The same turn as a function of the answers, where the world gives one:
    the schedule of a concrete execution. *)
Definition advance (oracle : forall q, option (answer q)) (i : nat) (c : config) : option config :=
  match c.2 !! i with
  | Some (Act op k) => '(st', b) ← op c.1; Some (st', <[i := k b]> c.2)
  | Some (Query q k) => a ← oracle q; Some (c.1, <[i := k a]> c.2)
  | Some (Spawn s k) => Some (c.1, <[i := k]> c.2 ++ [body s])
  | _ => None
  end.

Lemma advance_step oracle i c c' :
  (forall q a, oracle q = Some a -> valid q a) -> advance oracle i c = Some c' -> step i c c'.
Proof.
  intros Hv. destruct c as [st ts]. unfold advance; cbn.
  destruct (ts !! i) as [[a|B op k|q k|s k]|] eqn:Hi; try done.
  - destruct (op st) as [[st' b]|] eqn:Hop; [|done].
    cbn. intros [= <-]. by eapply step_act.
  - destruct (oracle q) as [a|] eqn:Ho; [|done]. cbn. intros [= <-]. apply step_query; auto.
  - intros [= <-]. by apply step_spawn.
Qed.

(** A schedule: which task moves, and what the world answers it. *)
Fixpoint schedule (s : list (nat * (forall q, option (answer q)))) (c : config) : option config :=
  match s with
  | [] => Some c
  | (i, oracle) :: s => advance oracle i c ≫= schedule s
  end.


(** An invariant of the shared state that every access of every task keeps
    holds in every reachable configuration. *)
Definition preserved (I : St -> Prop) (B : Type) (op : St -> option (St * B)) : Prop :=
  forall st st' b, I st -> op st = Some (st', b) -> I st'.

Definition tasks_ok (P : forall B, (St -> option (St * B)) -> Prop) (c : config) : Prop :=
  Forall (every P) c.2.

Lemma tasks_ok_insert P st st' ts i (m : prog R) :
  tasks_ok P (st, ts) -> every P m -> tasks_ok P (st', <[i := m]> ts).
Proof. intros Hts Hm. apply Forall_insert; done. Qed.

Lemma tasks_ok_turn P arrives c c' :
  (forall m, arrives m -> every P m) -> (forall s, every P (body s)) ->
  tasks_ok P c -> turn arrives c c' -> tasks_ok P c'.
Proof.
  intros Ha Hb Hc Ht. destruct Ht as [i c0 c1 Hs|st ts m Hm].
  2: { apply Forall_app. split; [exact Hc|]. apply Forall_singleton, Ha, Hm. }
  destruct Hs as [st st' ts B op k b Hi Hop|st ts q k a Hi Hq|st ts s k Hi].
  - pose proof (Forall_lookup_1 _ _ _ _ Hc Hi) as [_ Hk]. exact (tasks_ok_insert _ st _ _ _ _ Hc (Hk b)).
  - pose proof (Forall_lookup_1 _ _ _ _ Hc Hi) as Hk. exact (tasks_ok_insert _ st _ _ _ _ Hc (Hk a Hq)).
  - pose proof (Forall_lookup_1 _ _ _ _ Hc Hi) as Hk.
    apply Forall_app. split; [exact (tasks_ok_insert _ st st _ _ k Hc Hk)|].
    apply Forall_singleton, Hb.
Qed.

Lemma turn_preserves I arrives c c' :
  tasks_ok (preserved I) c -> I c.1 -> turn arrives c c' -> I c'.1.
Proof.
  intros Hc HI Ht. destruct Ht as [i c0 c1 Hs|st ts m Hm]; [|exact HI].
  destruct Hs as [st st' ts B op k b Hi Hop|st ts q k a Hi Hq|st ts s k Hi]; [|exact HI|exact HI].
  pose proof (Forall_lookup_1 _ _ _ _ Hc Hi) as [Hp _]. exact (Hp _ _ _ HI Hop).
Qed.

Lemma reachable_invariant (I : St -> Prop) arrives c c' :
  (forall m, arrives m -> every (preserved I) m) -> (forall s, every (preserved I) (body s)) ->
  tasks_ok (preserved I) c -> I c.1 -> reachable arrives c c' -> I c'.1.
Proof.
  intros Ha Hb Hc HI Hr. induction Hr as [c|c c1 c2 Ht Hr IH]; [exact HI|].
  apply IH; [exact (tasks_ok_turn _ _ _ _ Ha Hb Hc Ht)|exact (turn_preserves _ _ _ _ Hc HI Ht)].
Qed.

(** The same for the task at one place of the pool: what holds of all its
    accesses goes on holding of those it still has to make. *)
Lemma task_ok_turn P arrives i c c' (m : prog R) :
  c.2 !! i = Some m -> every P m -> turn arrives c c' ->
  exists m', c'.2 !! i = Some m' /\ every P m'.
Proof.
  intros Hi Hm Ht. destruct Ht as [j c0 c1 Hs|st ts m0 Hm0].
  2: { exists m. split; [|done]. cbn. by apply lookup_app_l_Some. }
  assert (forall (ts : list (prog R)) (k : prog R), ts !! i = Some m -> (j = i -> every P k) ->
    exists m', <[j := k]> ts !! i = Some m' /\ every P m') as Hins.
  { intros ts k Hl Hk. destruct (decide (j = i)) as [->|Hne].
    - exists k. split; [|by apply Hk]. by apply list_lookup_insert_eq, (lookup_lt_Some _ _ _ Hl).
    - exists m. split; [|done]. by rewrite list_lookup_insert_ne. }
  destruct Hs as [st st' ts B op k b Hj Hop|st ts q k a Hj Hq|st ts s k Hj]; cbn in *.
  - apply Hins; [done|]. intros ->. rewrite Hi in Hj. injection Hj as ->. apply Hm.
  - apply Hins; [done|]. intros ->. rewrite Hi in Hj. injection Hj as ->. by apply Hm.
  - destruct (Hins ts k Hi) as (m' & Hl & Hm'); [intros ->; rewrite Hi in Hj; by injection Hj as ->|].
    exists m'. split; [|done]. by apply lookup_app_l_Some.
Qed.

Lemma task_ok_turns P arrives i n c c' (m : prog R) :
  c.2 !! i = Some m -> every P m -> nsteps (turn arrives) n c c' ->
  exists m', c'.2 !! i = Some m' /\ every P m'.
Proof.
  intros Hi Hm Hn. revert m Hi Hm. induction Hn as [c|n c c1 c2 Ht Hn IH]; intros m Hi Hm; [eauto|].
  destruct (task_ok_turn _ _ _ _ _ _ Hi Hm Ht) as (m1 & Hi1 & Hm1). exact (IH _ Hi1 Hm1).
Qed.

(** Two tasks that wait for each other: no turn of either is possible. *)
Definition stuck (i : nat) (c : config) : Prop :=
  (exists B (op : St -> option (St * B)) k, c.2 !! i = Some (Act op k) /\ op c.1 = None).

(** Executable versions: the task at [i] is blocked, or finished with [a]. *)
Definition blocked (i : nat) (c : config) : bool :=
  match c.2 !! i with
  | Some (Act op _) => match op c.1 with None => true | Some _ => false end
  | _ => false
  end.
Definition finished (i : nat) (c : config) : option R :=
  match c.2 !! i with Some (Ret a) => Some a | _ => None end.

Lemma blocked_stuck i c : blocked i c = true -> stuck i c.
Proof.
  unfold blocked, stuck. destruct (c.2 !! i) as [[a|B op k|q k|s k]|]; try done.
  destruct (op c.1) eqn:Hop; [done|]. intros _. by exists B, op, k.
Qed.

Lemma finished_no_step i c c' a : finished i c = Some a -> ~ step i c c'.
Proof.
  unfold finished. intros Hf Hs. destruct Hs as [st st' ts B op k b Hi Hop|st ts q k x Hi Hq|st ts s k Hi];
    cbn in Hf; by rewrite Hi in Hf.
Qed.

Lemma absent_no_step i c c' : c.2 !! i = None -> ~ step i c c'.
Proof.
  intros Hf Hs. destruct Hs as [st st' ts B op k b Hi Hop|st ts q k x Hi Hq|st ts s k Hi];
    cbn in Hf; by rewrite Hi in Hf.
Qed.

Lemma schedule_nsteps arrives s c c' :
  Forall (fun e => forall q a, e.2 q = Some a -> valid q a) s -> schedule s c = Some c' ->
  nsteps (turn arrives) (length s) c c'.
Proof.
  intros Hv. revert c. induction Hv as [|[i o] s Ho Hs IH]; intros c; cbn.
  - intros [= <-]. apply nsteps_O.
  - destruct (advance o i c) as [c1|] eqn:Ha; [|done]. cbn. intros H.
    eapply nsteps_l; [|exact (IH _ H)]. eapply turn_step, advance_step; done.
Qed.

Lemma schedule_reachable arrives s c c' :
  Forall (fun e => forall q a, e.2 q = Some a -> valid q a) s -> schedule s c = Some c' -> reachable arrives c c'.
Proof. intros Hv Hs. apply rtc_nsteps. eexists. eapply schedule_nsteps; done. Qed.

Lemma schedule_app s1 s2 c : schedule (s1 ++ s2) c = schedule s1 c ≫= schedule s2.
Proof.
  revert c. induction s1 as [|[i o] s1 IH]; intros c; [done|]. cbn.
  destruct (advance o i c); cbn; [apply IH|done].
Qed.

(** A schedule that reaches a configuration with the given observation. *)
Lemma schedule_observe {O} (f : config -> O) s c o :
  option_map f (schedule s c) = Some o -> exists c', schedule s c = Some c' /\ f c' = o.
Proof. destruct (schedule s c) as [c'|]; cbn; [|done]. intros [= <-]. eauto. Qed.

Lemma stuck_no_step i c c' : stuck i c -> ~ step i c c'.
Proof.
  intros (B & op & k & Hi & Hop) Hs. destruct Hs as [st st' ts C op' k' b Hi' Hop'|st ts q k' a Hi' _|st ts s k' Hi'];
    cbn in *; rewrite Hi in Hi'; try done.
  assert (forall (x y : option (prog R)), x = y ->
    match x, y with
    | Some (Act o1 _), Some (Act o2 _) => (o1 st = None <-> o2 st = None)
    | _, _ => True end) as Hsame.
  { intros x y ->. destruct y as [[]|]; done. }
  specialize (Hsame _ _ Hi'). cbn in Hsame. apply Hsame in Hop. congruence.
Qed.
End pool.
End alone.
End task.

Arguments prog : clear implicits.
Arguments Ret {St Q answer Sp A} a.
Arguments Act {St Q answer Sp A B} op k.
Arguments Query {St Q answer Sp A} q k.
Arguments Spawn {St Q answer Sp A} s k.
Arguments every {St Q answer Sp} valid {A} P m.
Arguments wp {St Q answer Sp} valid {A} m post st.

(** [x ←? m; k]: Rust's [let x = m?; k] in a task. *)
Declare Scope task_scope.
Delimit Scope task_scope with task.
Notation "x ←? m ; k" := (try_ m (fun x => k))
  (at level 20, m at level 100, k at level 200, right associativity) : task_scope.
Notation "' x ←? m ; k" := (try_ m (fun x => k))
  (at level 20, x pattern, m at level 100, k at level 200, right associativity, only parsing) : task_scope.
Arguments wlp {St Q answer Sp} valid {A} m post st.
Arguments follow {St Q answer Sp A} oracle i m st.
Arguments may {St Q answer Sp} valid {A} m post st.
Arguments leaves {St Q answer Sp} valid {A} P m.
