(* ===== verification/SessionState.v ===== *)
(** * Session state, readiness and events

    The snapshot that the session runtime publishes
    (crates/discord-voice-service-runtime/src/session/state.rs), the checks
    that admit or refuse a command (readiness.rs), the readiness flags of the
    service, the event records (events.rs) and the commands (supervisor.rs). *)

From S2P Require Import Prelude VoiceErrors Protocol OpusQueue DeadlineSender.
From stdpp Require Import prelude strings.
Open Scope Z_scope.

(** ** state.rs *)

Inductive SessionState : Type :=
| Idle
| ConnectingVoice
| VoiceReady
| ResolvingTrack
| Buffering
| Playing
| Paused
| Stopping
| SError.

#[global] Instance SessionState_eq_dec : EqDecision SessionState.
Proof. solve_decision. Defined.

Record Snapshot : Type := mkSnapshot {
  s_state : SessionState;
  guild_id : option string;
  channel_id : option string;
  current_video_id : option string;
  selected_itag : option Z;
  queue_depth : Z;
  position_ms : Z;
  s_recovering : bool;
  s_voice_reconnecting : bool;
  last_reason : option string;
}.

#[global] Instance Snapshot_eq_dec : EqDecision Snapshot.
Proof. solve_decision. Defined.

Definition Snapshot_default : Snapshot :=
  mkSnapshot Idle None None None None 0 0 false false None.

(** Field assignments of a snapshot. *)
Definition set_state (v : SessionState) (s : Snapshot) : Snapshot :=
  mkSnapshot v (guild_id s) (channel_id s) (current_video_id s) (selected_itag s)
    (queue_depth s) (position_ms s) (s_recovering s) (s_voice_reconnecting s) (last_reason s).
Definition set_place (g c : option string) (s : Snapshot) : Snapshot :=
  mkSnapshot (s_state s) g c (current_video_id s) (selected_itag s)
    (queue_depth s) (position_ms s) (s_recovering s) (s_voice_reconnecting s) (last_reason s).
Definition set_track (video : option string) (itag : option Z) (depth position : Z)
    (s : Snapshot) : Snapshot :=
  mkSnapshot (s_state s) (guild_id s) (channel_id s) video itag
    depth position (s_recovering s) (s_voice_reconnecting s) (last_reason s).
Definition set_rollover (recovering reconnecting : bool) (s : Snapshot) : Snapshot :=
  mkSnapshot (s_state s) (guild_id s) (channel_id s) (current_video_id s) (selected_itag s)
    (queue_depth s) (position_ms s) recovering reconnecting (last_reason s).
Definition set_reason (r : option string) (s : Snapshot) : Snapshot :=
  mkSnapshot (s_state s) (guild_id s) (channel_id s) (current_video_id s) (selected_itag s)
    (queue_depth s) (position_ms s) (s_recovering s) (s_voice_reconnecting s) r.

(** The lines every handler that ends a track has in common. *)
Definition clear_track (s : Snapshot) : Snapshot := set_track None None 0 0 s.

(** ** readiness.rs *)

Record ReadinessSnapshot : Type := mkReadiness {
  runtime_booted : bool;
  ytmusic_healthy : bool;
}.

Definition is_ready (r : ReadinessSnapshot) : bool := runtime_booted r && ytmusic_healthy r.

Definition Readiness_default : ReadinessSnapshot := mkReadiness false false.
Definition mark_runtime_booted (r : ReadinessSnapshot) : ReadinessSnapshot :=
  mkReadiness true (ytmusic_healthy r).
Definition mark_ytmusic_healthy (r : ReadinessSnapshot) : ReadinessSnapshot :=
  mkReadiness (runtime_booted r) true.
Definition mark_ytmusic_unhealthy (r : ReadinessSnapshot) : ReadinessSnapshot :=
  mkReadiness (runtime_booted r) false.

Definition ensure_joinable_session (s : Snapshot) : rresult unit :=
  if bool_decide (s_state s = Idle) && bool_decide (guild_id s = None) &&
     bool_decide (channel_id s = None) && bool_decide (current_video_id s = None)
  then Ok tt
  else Err (RInvalidState "join_voice requires an idle session").

Definition active_voice_refusal (action : string) : string :=
  if bool_decide (action = "play"%string) then "play requires active voice session"
  else if bool_decide (action = "pause"%string) then "pause requires active voice session"
  else if bool_decide (action = "resume"%string) then "resume requires active voice session"
  else if bool_decide (action = "stop"%string) then "stop requires active voice session"
  else if bool_decide (action = "update_voice_context"%string)
  then "update_voice_context requires active voice session"
  else "command requires active voice session".

Definition ensure_active_voice_session (s : Snapshot) (action : string) : rresult unit :=
  if bool_decide (is_Some (guild_id s)) && bool_decide (is_Some (channel_id s))
  then Ok tt
  else Err (RInvalidState (active_voice_refusal action)).

Definition track_refusal (action : string) : string :=
  if bool_decide (action = "pause"%string) then "pause requires an active track"
  else if bool_decide (action = "resume"%string) then "resume requires an active track"
  else "command requires an active track".

Definition ensure_track_loaded (s : Snapshot) (action : string) : rresult unit :=
  _ ← ensure_active_voice_session s action;
  if bool_decide (is_Some (current_video_id s)) then Ok tt
  else Err (RInvalidState (track_refusal action)).

Definition ensure_pauseable_track (s : Snapshot) : rresult unit :=
  _ ← ensure_track_loaded s "pause";
  if bool_decide (s_state s = Playing) then Ok tt
  else Err (RInvalidState "pause requires a playing track").

Definition ensure_resumable_track (s : Snapshot) : rresult unit :=
  _ ← ensure_track_loaded s "resume";
  if bool_decide (s_state s = Paused) || bool_decide (s_state s = Playing) then Ok tt
  else Err (RInvalidState "resume requires a paused or playing track").

(** ** events.rs *)

Inductive SessionEventKind : Type :=
| EVoiceConnecting
| EVoiceReady
| ETrackResolving
| EBuffering
| EPlaying
| EPaused
| EStopped
| ETrackEnded
| EPlaybackInterrupted
| ERecoverableWarning
| EFatalError
| EVoiceReconnecting.

#[global] Instance SessionEventKind_eq_dec : EqDecision SessionEventKind.
Proof. solve_decision. Defined.

Record SessionEventRecord : Type := mkEvent {
  ev_kind : SessionEventKind;
  ev_guild_id : option string;
  ev_channel_id : option string;
  ev_current_video_id : option string;
  ev_selected_itag : option Z;
  ev_message : option string;
}.

Definition from_snapshot (kind : SessionEventKind) (s : Snapshot) : SessionEventRecord :=
  mkEvent kind (guild_id s) (channel_id s) (current_video_id s) (selected_itag s) (last_reason s).

(** ** supervisor.rs *)

Inductive Command : Type :=
| JoinVoice (voice : VoiceContext)
| UpdateVoiceContext (voice : VoiceContext)
| Play (video_id : string)
| Pause
| Resume
| Stop
| LeaveVoice.

(** ** Lemmas on the checks *)

Lemma ensure_joinable_iff s :
  ensure_joinable_session s = Ok tt <->
  s_state s = Idle /\ guild_id s = None /\ channel_id s = None /\ current_video_id s = None.
Proof.
  unfold ensure_joinable_session.
  repeat case_bool_decide; cbn; split; intros; destruct_and?; done.
Qed.

Lemma ensure_active_iff s action :
  ensure_active_voice_session s action = Ok tt <-> is_Some (guild_id s) /\ is_Some (channel_id s).
Proof.
  unfold ensure_active_voice_session.
  destruct (guild_id s), (channel_id s); cbn; split; intros H; try done;
    destruct H as [[]%is_Some_alt []%is_Some_alt] || (split; eauto).
Qed.

Lemma ensure_track_loaded_video s action :
  ensure_track_loaded s action = Ok tt -> is_Some (current_video_id s).
Proof.
  unfold ensure_track_loaded. destruct (ensure_active_voice_session s action); [|done|done]. cbn.
  destruct (current_video_id s); [eauto|done].
Qed.

Lemma ensure_pauseable_playing s :
  ensure_pauseable_track s = Ok tt -> s_state s = Playing /\ is_Some (current_video_id s).
Proof.
  unfold ensure_pauseable_track. destruct (ensure_track_loaded s "pause") as [[]| |] eqn:Ht; [|done|done].
  cbn. case_bool_decide; [|done]. eauto using ensure_track_loaded_video.
Qed.

Lemma ensure_resumable_state s :
  ensure_resumable_track s = Ok tt ->
  (s_state s = Paused \/ s_state s = Playing) /\ is_Some (current_video_id s).
Proof.
  unfold ensure_resumable_track. destruct (ensure_track_loaded s "resume") as [[]| |] eqn:Ht; [|done|done].
  cbn. intros H. split; [|eauto using ensure_track_loaded_video].
  destruct (decide (s_state s = Paused)) as [?|Hp]; [by left|].
  rewrite (bool_decide_eq_false_2 _ Hp) in H. cbn in H. case_bool_decide; [by right|done].
Qed.
