(* ===== verification/Commands.v ===== *)
(** * The session runtime: its commands as interleaved tasks

    [VoiceSessionRuntime] of
    crates/discord-voice-service-runtime/src/session/runtime.rs: the shared
    fields, the seven command handlers, the playback task from track
    resolution to its cleanup, the reconnect rollover and the task it spawns.

    Every handler is a task of Task.v over the shared state [Runtime]. An
    access of [self.state], [self.voice], [self.media_commands], an atomic or
    the event bus is one access of the tree, in the order of the code; the
    guards that are kept across an await ([join_voice] holds the state while
    it takes the voice session, [stop], [quiesce_current_transport] and
    [refresh_paused_voice_context] hold the voice session) are fields of the
    state, so that the tasks block each other as the locks do. An atomic that
    is read inside a critical section is read by the access of that section:
    nobody can see the section's writes before it is over.

    What the handlers await is a question: the voice crate's connection and
    its DAVE and speaking traffic, the playback worker, the media driver with
    its metrics, timers. [Valid] says what is relied on: an operation on a
    voice session, including the driver that borrows it, gives back a session
    for the same voice context. A loop with a deadline asks how many times it
    will poll; the pipeline loop, which has none, asks it too and then waits
    for ever, so that its executions are the finite prefixes of the code's. *)

From S2P Require Import Prelude Text VoiceErrors Protocol OpusQueue DeadlineSender Task SessionState.
From stdpp Require Import prelude strings pretty.
Open Scope Z_scope.
Open Scope task_scope.

(** ** The voice session, as the runtime sees it *)

Class VoiceSession : Type := {
  vsession : Type;
  voice_context : vsession -> VoiceContext;
  replace_voice_context : VoiceContext -> vsession -> vsession;
  is_connected : vsession -> bool;
  media_started : vsession -> bool;
  recovering : vsession -> bool;
  voice_reconnecting : vsession -> bool;
  disconnected : VoiceContext -> vsession;
  voice_context_replace v s : voice_context (replace_voice_context v s) = v;
  voice_context_disconnected v : voice_context (disconnected v) = v;
  disconnected_not_connected v : is_connected (disconnected v) = false;
}.

(** What the runtime prints of an error. The text of an HTTP failure is
    reqwest's. *)
Class ErrorText : Type := {
  http_error_text : option Z -> string;
}.

Definition voice_error_text (e : VoiceError) : string :=
  match e with
  | UnsupportedEncryptionMode => "unsupported encryption mode"
  | UnsupportedGatewayOp op => "voice gateway op unsupported: " +:+ pretty op
  | UnsupportedBinaryGatewayOp op => "voice gateway binary opcode unsupported: " +:+ pretty op
  | InvalidState r => "invalid state: " +:+ r
  | Io m | InvalidUri m | WebSocket m => m
  end.

Definition playback_error_text `{ErrorText} (e : PlaybackError) : string :=
  match e with
  | MediaParse r | MediaParseDetail r => "media parse error: " +:+ r
  | UnsupportedFormat => "unsupported format"
  | BufferFull => "buffer is full"
  | PInvalidState r => "invalid state: " +:+ r
  | PIo m | PInvalidUri m | Transport m | GrpcStatus m => m
  | Http status => http_error_text status
  end.

Definition runtime_error_text `{ErrorText} (e : RuntimeError) : string :=
  match e with
  | RInvalidState r => "invalid state: " +:+ r
  | Playback e => playback_error_text e
  | Voice e => voice_error_text e
  end.

Inductive MediaCommand : Type :=
| MPause
| MResume
| MStop (account_popped_frame_as_skipped : bool).

#[global] Instance MediaCommand_eq_dec : EqDecision MediaCommand.
Proof. solve_decision. Defined.

(** What [play_with_epoch] learns from the playback worker. *)
Record PreparedSource : Type := mkPreparedSource {
  ps_selected_itag : Z;
  ps_queue_len : Z;
  ps_resume_position_ms : Z;
}.

(** The runtime's part of a published stability snapshot. *)
Record PublishedMetrics : Type := mkPublishedMetrics {
  pm_playback_epoch : Z;
  pm_video_id : string;
  pm_gateway_interruptions : Z;
  pm_dave_interruptions : Z;
  pm_reconnect_interruptions : Z;
  pm_ended : bool;
}.

Section runtime.
Context `{V : VoiceSession} `{T : ErrorText}.

(** The exit of the live media driver. *)
Record DriverExit : Type := mkDriverExit {
  exit_session : vsession;
  exit_ended_naturally : bool;
  exit_error : option RuntimeError;
}.

(** What a turn of the pipeline loop can receive: the metrics that touch the
    session state, any other metric, the closed metric channel, the driver's
    result ([None]: its thread is gone), the 20 ms timer. *)
Inductive PipelineInput : Type :=
| MetricSourceUnderrun (packets : Z)
| MetricSent (remaining_packets : Z) (track_position : option Z)
| MetricSkipped (remaining_packets : Z)
| MetricResumedAfterUnderrun (packets : Z)
| MetricOther
| MetricsClosed
| DriverResult (exit : option DriverExit)
| PipelineTick.

(** ** Questions to the outside world *)

Inductive question : Type :=
| AskConnect (voice : VoiceContext)
| AskSettleForJoin (s : vsession)
| AskPrepareSpeaking (s : vsession)
| AskStopBoundary (s : vsession)
| AskStopSpeaking (s : vsession)
| AskSuspend (s : vsession)
| AskPrepare (video_id : string) (reset : bool)
| AskFill
| AskSourceDepth
| AskPolls
| AskTrySend
| AskPipeline (s : vsession)
| AskDriverExit (s : vsession)
| AskNever.

Definition answer (q : question) : Type :=
  match q with
  | AskConnect _ => vresult vsession
  | AskSettleForJoin _ | AskPrepareSpeaking _ | AskStopSpeaking _ | AskSuspend _ =>
      vresult unit * vsession
  | AskStopBoundary _ => rresult unit * vsession
  | AskPrepare _ _ => presult PreparedSource
  | AskFill => presult unit
  | AskSourceDepth => Z
  | AskPolls => nat
  | AskTrySend => bool
  | AskPipeline _ => PipelineInput
  | AskDriverExit _ => option DriverExit
  | AskNever => Empty_set
  end.

Definition keeps_context (s s' : vsession) : Prop := voice_context s' = voice_context s.

Definition Valid (q : question) : answer q -> Prop :=
  match q with
  | AskConnect v => fun r => match r with Ok s => voice_context s = v | Err _ => True | Panic => False end
  | AskSettleForJoin s | AskPrepareSpeaking s | AskStopSpeaking s | AskSuspend s =>
      fun r => r.1 <> Panic /\ keeps_context s r.2
  | AskStopBoundary s => fun r => r.1 <> Panic /\ keeps_context s r.2
  | AskPrepare _ _ => fun r => r <> Panic
  | AskFill => fun r => r <> Panic
  | AskPipeline s => fun i =>
      match i with DriverResult (Some e) => keeps_context s (exit_session e) | _ => True end
  | AskDriverExit s => fun r =>
      match r with Some e => keeps_context s (exit_session e) | None => True end
  | _ => fun _ => True
  end.

(** ** The shared state *)

Record Runtime : Type := mkRuntime {
  rt_state : Snapshot;
  rt_events : list SessionEventRecord;
  rt_voice : option vsession;
  rt_media_commands : option Z;
  rt_media_log : list (Z * MediaCommand);
  rt_next_channel : Z;
  rt_return_count : Z;
  rt_playback : bool;
  rt_playback_metrics : option PublishedMetrics;
  rt_playback_epoch : Z;
  rt_rollover_epoch : Z;
  rt_transport_generation : Z;
  rt_gateway_interruptions : Z;
  rt_dave_interruptions : Z;
  rt_reconnect_interruptions : Z;
  rt_reset_pending : bool;
  rt_state_locked : bool;
  rt_voice_locked : bool;
}.

Definition new_runtime (playback : bool) : Runtime :=
  mkRuntime Snapshot_default [] None None [] 0 0 playback None 0 0 0 0 0 0 false false false.

Definition with_state (s : Snapshot) (r : Runtime) : Runtime :=
  mkRuntime s (rt_events r) (rt_voice r) (rt_media_commands r) (rt_media_log r) (rt_next_channel r)
    (rt_return_count r) (rt_playback r) (rt_playback_metrics r) (rt_playback_epoch r)
    (rt_rollover_epoch r) (rt_transport_generation r) (rt_gateway_interruptions r)
    (rt_dave_interruptions r) (rt_reconnect_interruptions r) (rt_reset_pending r)
    (rt_state_locked r) (rt_voice_locked r).
Definition with_events (l : list SessionEventRecord) (r : Runtime) : Runtime :=
  mkRuntime (rt_state r) l (rt_voice r) (rt_media_commands r) (rt_media_log r) (rt_next_channel r)
    (rt_return_count r) (rt_playback r) (rt_playback_metrics r) (rt_playback_epoch r)
    (rt_rollover_epoch r) (rt_transport_generation r) (rt_gateway_interruptions r)
    (rt_dave_interruptions r) (rt_reconnect_interruptions r) (rt_reset_pending r)
    (rt_state_locked r) (rt_voice_locked r).
Definition with_voice (v : option vsession) (r : Runtime) : Runtime :=
  mkRuntime (rt_state r) (rt_events r) v (rt_media_commands r) (rt_media_log r) (rt_next_channel r)
    (rt_return_count r) (rt_playback r) (rt_playback_metrics r) (rt_playback_epoch r)
    (rt_rollover_epoch r) (rt_transport_generation r) (rt_gateway_interruptions r)
    (rt_dave_interruptions r) (rt_reconnect_interruptions r) (rt_reset_pending r)
    (rt_state_locked r) (rt_voice_locked r).
Definition with_media (c : option Z) (log : list (Z * MediaCommand)) (next : Z) (r : Runtime) : Runtime :=
  mkRuntime (rt_state r) (rt_events r) (rt_voice r) c log next
    (rt_return_count r) (rt_playback r) (rt_playback_metrics r) (rt_playback_epoch r)
    (rt_rollover_epoch r) (rt_transport_generation r) (rt_gateway_interruptions r)
    (rt_dave_interruptions r) (rt_reconnect_interruptions r) (rt_reset_pending r)
    (rt_state_locked r) (rt_voice_locked r).
Definition with_returns (n : Z) (r : Runtime) : Runtime :=
  mkRuntime (rt_state r) (rt_events r) (rt_voice r) (rt_media_commands r) (rt_media_log r) (rt_next_channel r)
    n (rt_playback r) (rt_playback_metrics r) (rt_playback_epoch r)
    (rt_rollover_epoch r) (rt_transport_generation r) (rt_gateway_interruptions r)
    (rt_dave_interruptions r) (rt_reconnect_interruptions r) (rt_reset_pending r)
    (rt_state_locked r) (rt_voice_locked r).
Definition with_metrics (m : option PublishedMetrics) (r : Runtime) : Runtime :=
  mkRuntime (rt_state r) (rt_events r) (rt_voice r) (rt_media_commands r) (rt_media_log r) (rt_next_channel r)
    (rt_return_count r) (rt_playback r) m (rt_playback_epoch r)
    (rt_rollover_epoch r) (rt_transport_generation r) (rt_gateway_interruptions r)
    (rt_dave_interruptions r) (rt_reconnect_interruptions r) (rt_reset_pending r)
    (rt_state_locked r) (rt_voice_locked r).
Definition with_epochs (playback rollover generation : Z) (r : Runtime) : Runtime :=
  mkRuntime (rt_state r) (rt_events r) (rt_voice r) (rt_media_commands r) (rt_media_log r) (rt_next_channel r)
    (rt_return_count r) (rt_playback r) (rt_playback_metrics r) playback
    rollover generation (rt_gateway_interruptions r)
    (rt_dave_interruptions r) (rt_reconnect_interruptions r) (rt_reset_pending r)
    (rt_state_locked r) (rt_voice_locked r).
Definition with_interruptions (gateway dave reconnect : Z) (r : Runtime) : Runtime :=
  mkRuntime (rt_state r) (rt_events r) (rt_voice r) (rt_media_commands r) (rt_media_log r) (rt_next_channel r)
    (rt_return_count r) (rt_playback r) (rt_playback_metrics r) (rt_playback_epoch r)
    (rt_rollover_epoch r) (rt_transport_generation r) gateway dave reconnect (rt_reset_pending r)
    (rt_state_locked r) (rt_voice_locked r).
Definition with_reset (b : bool) (r : Runtime) : Runtime :=
  mkRuntime (rt_state r) (rt_events r) (rt_voice r) (rt_media_commands r) (rt_media_log r) (rt_next_channel r)
    (rt_return_count r) (rt_playback r) (rt_playback_metrics r) (rt_playback_epoch r)
    (rt_rollover_epoch r) (rt_transport_generation r) (rt_gateway_interruptions r)
    (rt_dave_interruptions r) (rt_reconnect_interruptions r) b
    (rt_state_locked r) (rt_voice_locked r).
Definition with_locks (state voice : bool) (r : Runtime) : Runtime :=
  mkRuntime (rt_state r) (rt_events r) (rt_voice r) (rt_media_commands r) (rt_media_log r) (rt_next_channel r)
    (rt_return_count r) (rt_playback r) (rt_playback_metrics r) (rt_playback_epoch r)
    (rt_rollover_epoch r) (rt_transport_generation r) (rt_gateway_interruptions r)
    (rt_dave_interruptions r) (rt_reconnect_interruptions r) (rt_reset_pending r)
    state voice.

(** The task that a rollover spawns. *)
Record ResumeTask : Type := mkResumeTask {
  rsm_video_id : string;
  rsm_attempt_epoch : Z;
  rsm_rollover_epoch : Z;
}.

Abbreviation task := (prog Runtime question answer ResumeTask).
Abbreviation rtask A := (task (rresult A)).

(** ** Accesses *)

(** [self.state.read().await], [self.state.write().await] and
    [self.voice.lock().await] around code without an await. *)
Definition read_state {B} (f : Snapshot -> B) : task B :=
  act (fun r => if rt_state_locked r then None else Some (r, f (rt_state r))).
Definition write_state {B} (f : Runtime -> Snapshot -> Snapshot * B) : task B :=
  act (fun r => if rt_state_locked r then None
                else let '(s, b) := f r (rt_state r) in Some (with_state s r, b)).
Definition on_voice {B} (f : Runtime -> option vsession -> option vsession * B) : task B :=
  act (fun r => if rt_voice_locked r then None
                else let '(v, b) := f r (rt_voice r) in Some (with_voice v r, b)).

(** A voice guard that outlives the next await: taken with the session's
    value, written back when it is dropped. *)
Definition lock_voice : task (option vsession) :=
  act (fun r => if rt_voice_locked r then None
                else Some (with_locks (rt_state_locked r) true r, rt_voice r)).
Definition unlock_voice (v : option vsession) : task unit :=
  writes (fun r => with_locks (rt_state_locked r) false (with_voice v r)).

Definition emit (e : SessionEventRecord) : task unit :=
  writes (fun r => with_events (rt_events r ++ [e]) r).

Definition bump (x : Z) : Z := wrapping_add 64 x 1.

Definition begin_playback : task Z :=
  act (fun r => let e := bump (rt_playback_epoch r) in
    Some (with_epochs e (rt_rollover_epoch r) (rt_transport_generation r) r, e)).
Definition invalidate_playback : task unit :=
  writes (fun r => with_epochs (bump (rt_playback_epoch r)) (rt_rollover_epoch r) (rt_transport_generation r) r).
Definition begin_rollover : task Z :=
  act (fun r => let e := bump (rt_rollover_epoch r) in
    Some (with_epochs (rt_playback_epoch r) e (rt_transport_generation r) r, e)).
Definition invalidate_rollover : task unit :=
  writes (fun r => with_epochs (rt_playback_epoch r) (bump (rt_rollover_epoch r)) (rt_transport_generation r) r).
Definition next_transport_generation : task unit :=
  writes (fun r => with_epochs (rt_playback_epoch r) (rt_rollover_epoch r) (bump (rt_transport_generation r)) r).
Definition defer_playback_reset : task unit := writes (with_reset true).
Definition consume_playback_reset : task bool :=
  act (fun r => Some (with_reset false r, rt_reset_pending r)).

Definition interrupted_at (playback_epoch : Z) (r : Runtime) : bool :=
  negb (rt_playback_epoch r =? playback_epoch).
Definition playback_interrupted (playback_epoch : Z) : task bool := reads (interrupted_at playback_epoch).
Definition playback_state_is_current (playback_epoch : Z) : task bool :=
  reads (fun r => rt_playback_epoch r =? playback_epoch).
Definition rollover_is_current (rollover_epoch : Z) : task bool :=
  reads (fun r => rt_rollover_epoch r =? rollover_epoch).

(** [rollover_resume_is_still_intended], [resume_attempt_is_still_current]:
    the same three reads, short-circuited. *)
Definition resume_attempt_is_still_current (video_id : string) (playback_epoch rollover_epoch : Z)
    : task bool :=
  rollover ← rollover_is_current rollover_epoch;
  if (rollover : bool) then
    playback ← playback_state_is_current playback_epoch;
    if (playback : bool) then read_state (fun s => bool_decide (current_video_id s = Some video_id))
    else mret false
  else mret false.
Definition rollover_resume_is_still_intended : string -> Z -> Z -> task bool :=
  resume_attempt_is_still_current.

(** ** Media commands *)

Definition send_media_command (command : MediaCommand) : task unit :=
  sender ← reads rt_media_commands;
  match sender with
  | Some c => writes (fun r =>
      with_media (rt_media_commands r) (rt_media_log r ++ [(c, command)]) (rt_next_channel r) r)
  | None => mret tt
  end.

(** [mpsc::channel] and [install_media_commands] *)
Definition install_media_commands : task Z :=
  act (fun r => let c := rt_next_channel r in
    Some (with_media (Some c) (rt_media_log r) (c + 1) r, c)).
Definition clear_media_commands_if_current (sender : Z) : task unit :=
  writes (fun r => if bool_decide (rt_media_commands r = Some sender)
                   then with_media None (rt_media_log r) (rt_next_channel r) r else r).
Definition clear_media_commands : task unit :=
  writes (fun r => with_media None (rt_media_log r) (rt_next_channel r) r).
Definition media_owner_is_active : task bool :=
  reads (fun r => bool_decide (is_Some (rt_media_commands r))).
Definition media_owner_return_count : task Z := reads rt_return_count.
Definition mark_media_owner_returned : task unit :=
  writes (fun r => with_returns (bump (rt_return_count r)) r).

Fixpoint media_owner_session_polls (polls : nat) (generation : Z) : rtask unit :=
  changed ← reads (fun r => negb (rt_transport_generation r =? generation));
  if (changed : bool) then mret (Ok tt) else
  present ← on_voice (fun _ v => (v, bool_decide (is_Some v)));
  if (present : bool) then mret (Ok tt) else
  match polls with
  | O => mret (Err (RInvalidState "live media driver did not return voice session"))
  | S polls => media_owner_session_polls polls generation
  end.
Definition wait_for_media_owner_session (generation : Z) : rtask unit :=
  polls ← ask AskPolls; media_owner_session_polls polls generation.

Fixpoint media_owner_stopped_polls (polls : nat) (previous : Z) : rtask unit :=
  count ← media_owner_return_count;
  if previous <? count then mret (Ok tt) else
  match polls with
  | O => mret (Err (RInvalidState "live media driver did not stop"))
  | S polls => media_owner_stopped_polls polls previous
  end.
Definition wait_for_media_owner_stopped_after (previous : Z) : rtask unit :=
  polls ← ask AskPolls; media_owner_stopped_polls polls previous.

Fixpoint connected_voice_polls (polls : nat) (playback_epoch : Z) : task bool :=
  interrupted ← playback_interrupted playback_epoch;
  if (interrupted : bool) then mret false else
  connected ← on_voice (fun _ v => (v, option_map is_connected v));
  match connected, polls with
  | Some true, _ => mret true
  | Some false, S polls => connected_voice_polls polls playback_epoch
  | _, _ => mret false
  end.
Definition wait_for_connected_voice (playback_epoch : Z) : task bool :=
  polls ← ask AskPolls; connected_voice_polls polls playback_epoch.

(** ** [apply_voice_context], [apply_rollover_state] *)

Definition apply_voice_context (voice : VoiceContext) (s : Snapshot) : Snapshot :=
  set_place (Some (vc_guild_id voice)) (Some (vc_channel_id voice)) s.
Definition apply_rollover_state (session : vsession) (s : Snapshot) : Snapshot :=
  set_rollover (recovering session) (voice_reconnecting session) s.

Definition is_err {E A} (r : result E A) : bool := match r with Err _ => true | _ => false end.

(** [?] on an error of the voice crate or of the playback crate. *)
Definition from_voice {A} (r : vresult A) : rresult A :=
  match r with Ok a => Ok a | Err e => Err (Voice e) | Panic => Panic end.
Definition from_playback {A} (r : presult A) : rresult A :=
  match r with Ok a => Ok a | Err e => Err (Playback e) | Panic => Panic end.

(** A check that opens a critical section: refuse, or go on and write. *)
Definition checked {B} (check : rresult unit) (s : Snapshot) (go : Snapshot * rresult B)
    : Snapshot * rresult B :=
  match check with Ok _ => go | Err e => (s, Err e) | Panic => (s, Panic) end.

(** ** [join_voice] *)

Definition joining (voice : VoiceContext) (s : Snapshot) : Snapshot :=
  set_state ConnectingVoice (set_reason None (clear_track (apply_voice_context voice s))).

Definition joined (session : vsession) (s : Snapshot) : Snapshot :=
  set_state (if is_connected session then VoiceReady else ConnectingVoice)
    (set_reason None (clear_track
      (apply_rollover_state session (apply_voice_context (voice_context session) s)))).

Definition begin_join (voice : VoiceContext) : rtask unit :=
  connecting_event ←? write_state (fun _ s =>
    checked (ensure_joinable_session s) s
      (let s' := joining voice s in (s', Ok (from_snapshot EVoiceConnecting s'))));
  _ ← emit connecting_event;
  mret (Ok tt).

(** The state guard is held while the voice session is stored. *)
Definition finish_join (session : vsession) : rtask unit :=
  ready_event ← act (fun r =>
    if rt_state_locked r then None
    else let s' := joined session (rt_state r) in
         Some (with_locks true (rt_voice_locked r) (with_state s' r),
               if bool_decide (s_state s' = VoiceReady)
               then Some (from_snapshot EVoiceReady s') else None));
  _ ← act (fun r =>
    if rt_voice_locked r then None
    else Some (with_locks false (rt_voice_locked r) (with_voice (Some session) r), tt));
  _ ← match ready_event with Some e => emit e | None => mret tt end;
  mret (Ok tt).

Definition join_voice (voice : VoiceContext) : rtask unit :=
  _ ←? begin_join voice;
  connected ← ask (AskConnect voice);
  session ←? mret (from_voice connected);
  settled ← ask (AskSettleForJoin session);
  _ ←? mret (from_voice settled.1);
  finish_join settled.2.

(** ** The playback task *)

Definition playback_state_of (kind : SessionEventKind) : option SessionState :=
  match kind with EBuffering => Some Buffering | EPlaying => Some Playing | _ => None end.

Definition emit_playback_state (kind : SessionEventKind) (video_id : string)
    (playback_epoch itag depth position : Z) : rtask unit :=
  event ←? write_state (fun r s =>
    if interrupted_at playback_epoch r then (s, Ok None)
    else if bool_decide (s_state s = Paused) then (s, Ok None)
    else
      let s' := set_track (Some video_id) (Some itag) depth position s in
      match playback_state_of kind with
      | Some st => let s'' := set_state st s' in (s'', Ok (Some (from_snapshot kind s'')))
      | None => (s', Err (RInvalidState "unsupported playback state event"))
      end);
  _ ← match event with Some e => emit e | None => mret tt end;
  mret (Ok tt).

(** The update of depth and position after a sent or a skipped frame. *)
Definition report_progress (playback_epoch depth position : Z) : task unit :=
  write_state (fun r s =>
    if interrupted_at playback_epoch r then (s, tt)
    else (set_track (current_video_id s) (selected_itag s) depth position s, tt)).

(** The track of a playback task: what its messages carry. *)
Record PlayingTrack : Type := mkPlayingTrack {
  pt_video_id : string;
  pt_epoch : Z;
  pt_itag : Z;
  pt_generation : Z;
}.

(** The locals of the pipeline loop, and what it leaves. *)
Record Pipeline : Type := mkPipeline {
  pl_position_ms : Z;
  pl_depth : Z;
  pl_buffering : bool;
  pl_driver_done : bool;
  pl_ended_naturally : bool;
  pl_result : rresult unit;
  pl_returned : option vsession;
}.

Definition with_progress (depth position : Z) (buffering : bool) (p : Pipeline) : Pipeline :=
  mkPipeline position depth buffering (pl_driver_done p) (pl_ended_naturally p) (pl_result p)
    (pl_returned p).

Definition emit_track_state (kind : SessionEventKind) (t : PlayingTrack) (p : Pipeline) : rtask unit :=
  emit_playback_state kind (pt_video_id t) (pt_epoch t) (pt_itag t) (pl_depth p) (pl_position_ms p).

Definition send_to (channel : Z) (command : MediaCommand) : task unit :=
  writes (fun r =>
    with_media (rt_media_commands r) (rt_media_log r ++ [(channel, command)]) (rt_next_channel r) r).

Definition count_interruptions (err : RuntimeError) : task unit :=
  match err with
  | Voice e =>
      _ ← (if is_gateway_closed_during_receive e
           then writes (fun r => with_interruptions (bump (rt_gateway_interruptions r))
                                   (rt_dave_interruptions r) (rt_reconnect_interruptions r) r)
           else mret tt);
      if Text.contains (voice_error_text e) "dave"
      then writes (fun r => with_interruptions (rt_gateway_interruptions r)
                              (bump (rt_dave_interruptions r)) (rt_reconnect_interruptions r) r)
      else mret tt
  | _ => mret tt
  end.

Definition driver_gone {A} : rresult A := Err (RInvalidState "live media driver stopped without result").

Definition driver_finished (exit : option DriverExit) (p : Pipeline) : task Pipeline :=
  match exit with
  | Some e =>
      _ ← match exit_error e with Some err => count_interruptions err | None => mret tt end;
      mret (mkPipeline (pl_position_ms p) (pl_depth p) (pl_buffering p) true (exit_ended_naturally e)
        (match exit_error e with Some err => Err err | None => pl_result p end)
        (Some (exit_session e)))
  | None =>
      mret (mkPipeline (pl_position_ms p) (pl_depth p) (pl_buffering p) true (pl_ended_naturally p)
        driver_gone (pl_returned p))
  end.

(** One received message: the new locals, and whether the channel of the
    metrics is closed. *)
Definition pipeline_turn (t : PlayingTrack) (input : PipelineInput) (p : Pipeline)
    : rtask (Pipeline * bool) :=
  match input with
  | MetricSourceUnderrun depth =>
      let p' := with_progress depth (pl_position_ms p) true p in
      if pl_buffering p then mret (Ok (p', false))
      else _ ←? emit_track_state EBuffering t p'; mret (Ok (p', false))
  | MetricSent depth track_position =>
      let p' := with_progress depth (default (pl_position_ms p) track_position) (pl_buffering p) p in
      _ ← report_progress (pt_epoch t) (pl_depth p') (pl_position_ms p');
      mret (Ok (p', false))
  | MetricSkipped depth =>
      let p' := with_progress depth (pl_position_ms p) (pl_buffering p) p in
      _ ← report_progress (pt_epoch t) (pl_depth p') (pl_position_ms p');
      mret (Ok (p', false))
  | MetricResumedAfterUnderrun depth =>
      let p' := with_progress depth (pl_position_ms p) false p in
      if pl_buffering p then _ ←? emit_track_state EPlaying t p'; mret (Ok (p', false))
      else mret (Ok (p', false))
  | MetricOther | PipelineTick => mret (Ok (p, false))
  | MetricsClosed => mret (Ok (p, true))
  | DriverResult exit => p' ← driver_finished exit p; mret (Ok (p', false))
  end.

Fixpoint pipeline_loop (turns : nat) (t : PlayingTrack) (channel : Z) (session : vsession)
    (p : Pipeline) : rtask Pipeline :=
  match turns with
  | O => never ← ask AskNever; match (never : Empty_set) with end
  | S turns =>
      interrupted ← playback_interrupted (pt_epoch t);
      _ ← (if (interrupted : bool)
           then sent ← ask AskTrySend; if (sent : bool) then send_to channel (MStop true) else mret tt
           else mret tt);
      input ← ask (AskPipeline session);
      turn ←? pipeline_turn t input p;
      if turn.2 || pl_driver_done turn.1 || is_err (pl_result turn.1)
      then mret (Ok turn.1)
      else pipeline_loop turns t channel session turn.1
  end.

(** After the loop: the channel is withdrawn, and a driver that is still
    running is stopped and awaited. *)
Definition collect_driver (channel : Z) (session : vsession) (p : Pipeline) : task Pipeline :=
  _ ← clear_media_commands_if_current channel;
  if pl_driver_done p then mret p else
  _ ← send_to channel (MStop true);
  exit ← ask (AskDriverExit session);
  mret (match exit with
        | Some e =>
            mkPipeline (pl_position_ms p) (pl_depth p) (pl_buffering p) (pl_driver_done p)
              (pl_ended_naturally p || exit_ended_naturally e)
              (match exit_error e, pl_result p with Some err, Ok _ => Err err | _, res => res end)
              (Some (exit_session e))
        | None =>
            mkPipeline (pl_position_ms p) (pl_depth p) (pl_buffering p) (pl_driver_done p)
              (pl_ended_naturally p)
              (match pl_result p with Ok _ => driver_gone | res => res end)
              (pl_returned p)
        end).

(** The stop boundary or the speaking flag, and the session's way back. *)
Definition end_media (session : vsession) (ended interrupted : bool) : task (rresult unit * vsession) :=
  if ended || (interrupted && media_started session) then ask (AskStopBoundary session)
  else if interrupted then
    stopped ← ask (AskStopSpeaking session);
    mret (from_voice stopped.1, stopped.2)
  else mret (Ok tt, session).

Definition return_session (t : PlayingTrack) (returned : option vsession) (ended interrupted : bool)
    : rtask unit :=
  match returned with
  | Some session =>
      same ← reads (fun r => rt_transport_generation r =? pt_generation t);
      restore ← (if (same : bool) then on_voice (fun _ v => (v, bool_decide (v = None))) else mret false);
      stopped ← end_media session ended interrupted;
      _ ← (if (restore : bool) then on_voice (fun _ _ => (Some stopped.2, tt)) else mret tt);
      _ ← mark_media_owner_returned;
      mret stopped.1
  | None => _ ← mark_media_owner_returned; mret (Ok tt)
  end.

Definition track_ended (playback_epoch position : Z) : task unit :=
  _ ← defer_playback_reset;
  event ← write_state (fun r s =>
    if interrupted_at playback_epoch r then (s, None)
    else let s1 := set_track (current_video_id s) (selected_itag s) (queue_depth s) position s in
         (set_state VoiceReady (clear_track s1), Some (from_snapshot ETrackEnded s1)));
  match event with Some e => emit e | None => mret tt end.

Definition is_ok {E A} (r : result E A) : bool := match r with Ok _ => true | _ => false end.

Definition interruption_counts : task (Z * Z * Z) :=
  gateway ← reads rt_gateway_interruptions;
  dave ← reads rt_dave_interruptions;
  reconnect ← reads rt_reconnect_interruptions;
  mret (gateway, dave, reconnect).

Definition publish_playback_metrics (t : PlayingTrack) (before after : Z * Z * Z) (ended : bool) : task unit :=
  writes (with_metrics (Some (mkPublishedMetrics (pt_epoch t) (pt_video_id t)
    (sat_sub after.1.1 before.1.1) (sat_sub after.1.2 before.1.2) (sat_sub after.2 before.2) ended))).

Definition send_playback_frames (t : PlayingTrack) (session : vsession) (position : Z) : rtask unit :=
  before ← interruption_counts;
  channel ← install_media_commands;
  depth ← ask AskSourceDepth;
  let p := mkPipeline position depth false false false (Ok tt) None in
  _ ←? (if 0 <? depth then emit_track_state EPlaying t p else mret (Ok tt));
  turns ← ask AskPolls;
  p ←? pipeline_loop turns t channel session p;
  p ← collect_driver channel session p;
  interrupted ← playback_interrupted (pt_epoch t);
  cleanup ← return_session t (pl_returned p) (pl_ended_naturally p) interrupted;
  let ended := pl_ended_naturally p && negb interrupted && is_ok (pl_result p) in
  _ ← (if ended then track_ended (pt_epoch t) (pl_position_ms p) else mret tt);
  after ← interruption_counts;
  _ ← publish_playback_metrics t before after ended;
  mret (match pl_result p with Ok _ => cleanup | res => res end).

Definition resolving (video_id : string) (position : Z) (s : Snapshot) : Snapshot :=
  set_state ResolvingTrack (set_reason None (set_track (Some video_id) None 0 position s)).

Definition begin_resolving (video_id : string) (playback_epoch : Z) : rtask bool :=
  hint ← read_state (fun s =>
    if bool_decide (current_video_id s = Some video_id) then position_ms s else 0);
  event ←? write_state (fun r s =>
    if interrupted_at playback_epoch r then (s, Ok None)
    else checked (ensure_active_voice_session s "play") s
      (let s' := resolving video_id hint s in (s', Ok (Some (from_snapshot ETrackResolving s')))));
  match event with
  | Some e => _ ← emit e; mret (Ok true)
  | None => mret (Ok false)
  end.

(** Taking the voice session for the media driver. [None]: interrupted. *)
Definition take_voice (playback_epoch : Z) : rtask (option vsession) :=
  on_voice (fun r v =>
    if interrupted_at playback_epoch r then (v, Ok None)
    else match v with
         | Some session => (None, Ok (Some session))
         | None => (v, Err (RInvalidState "play requires active voice session"))
         end).

Definition give_back (session : vsession) : task unit :=
  on_voice (fun _ v => (match v with None => Some session | Some _ => v end, tt)).

(** From the taken session to the media. *)
Definition start_media (video_id : string) (playback_epoch : Z) (src : PreparedSource)
    (session : vsession) : rtask unit :=
  prepared ← ask (AskPrepareSpeaking session);
  let session := prepared.2 in
  match prepared.1 with
  | Err err => _ ← give_back session; mret (Err (Voice err))
  | Panic => mret Panic
  | Ok _ =>
      interrupted ← playback_interrupted playback_epoch;
      if (interrupted : bool) then _ ← give_back session; mret (Ok tt) else
      generation ← reads rt_transport_generation;
      send_playback_frames
        (mkPlayingTrack video_id playback_epoch (ps_selected_itag src) generation)
        session (ps_resume_position_ms src)
  end.

Definition play_with_epoch (video_id : string) (playback_epoch : Z) : rtask unit :=
  going ←? begin_resolving video_id playback_epoch;
  if negb going then mret (Ok tt) else
  playback ← reads rt_playback;
  if negb playback then mret (Ok tt) else
  connected ← wait_for_connected_voice playback_epoch;
  if negb connected then mret (Ok tt) else
  reset ← consume_playback_reset;
  prepared ← ask (AskPrepare video_id reset);
  src ←? mret (from_playback prepared);
  interrupted ← playback_interrupted playback_epoch;
  if (interrupted : bool) then mret (Ok tt) else
  _ ←? emit_playback_state EBuffering video_id playback_epoch (ps_selected_itag src)
         (ps_queue_len src) (ps_resume_position_ms src);
  filled ← ask AskFill;
  _ ←? mret (from_playback filled);
  interrupted ← playback_interrupted playback_epoch;
  if (interrupted : bool) then mret (Ok tt) else
  taken ←? take_voice playback_epoch;
  match taken with
  | None => mret (Ok tt)
  | Some session => start_media video_id playback_epoch src session
  end.

Definition play (video_id : string) : rtask unit :=
  playback_epoch ← begin_playback;
  play_with_epoch video_id playback_epoch.

(** ** [pause], [resume] *)

(** The test both critical sections of [pause] make: [Ok false] is the
    redundant command. *)
Definition pause_check (s : Snapshot) : rresult bool :=
  _ ← ensure_track_loaded s "pause";
  if bool_decide (s_state s = Paused) then Ok false
  else _ ← ensure_pauseable_track s; Ok true.

Definition resume_check (s : Snapshot) : rresult bool :=
  _ ← ensure_track_loaded s "resume";
  if bool_decide (s_state s = Playing) then Ok false
  else _ ← ensure_resumable_track s; Ok true.

Definition switch_state (check : Snapshot -> rresult bool) (to : SessionState) (kind : SessionEventKind)
    : rtask (option SessionEventRecord) :=
  write_state (fun _ s =>
    match check s with
    | Ok true => let s' := set_state to s in (s', Ok (Some (from_snapshot kind s')))
    | Ok false => (s, Ok None)
    | Err e => (s, Err e)
    | Panic => (s, Panic)
    end).

Definition pause : rtask unit :=
  go ←? read_state pause_check;
  if negb go then mret (Ok tt) else
  _ ← send_media_command MPause;
  event ←? switch_state pause_check Paused EPaused;
  match event with
  | Some e => _ ← emit e; mret (Ok tt)
  | None => mret (Ok tt)
  end.

Definition resume : rtask unit :=
  go ←? read_state resume_check;
  if negb go then mret (Ok tt) else
  event ←? switch_state resume_check Playing EPlaying;
  match event with
  | Some e => _ ← send_media_command MResume; _ ← emit e; mret (Ok tt)
  | None => mret (Ok tt)
  end.

(** ** [stop], [leave_voice] *)

Definition stopped (s : Snapshot) : Snapshot := set_state VoiceReady (set_reason None (clear_track s)).

(** The tail of [stop]: the voice guard is held to the end. *)
Definition stop_media (media_owner_was_active : bool) : rtask unit :=
  voice ← lock_voice;
  ended ← match voice with
          | Some session =>
              if is_connected session && (media_owner_was_active || media_started session)
              then sent ← ask (AskStopBoundary session); mret (sent.1, Some sent.2)
              else mret (Ok tt, voice)
          | None => mret (Ok tt, voice)
          end;
  match ended.1 with
  | Ok _ =>
      event ← write_state (fun _ s => let s' := stopped s in (s', from_snapshot EStopped s'));
      _ ← emit event;
      _ ← unlock_voice ended.2;
      mret (Ok tt)
  | err => _ ← unlock_voice ended.2; mret err
  end.

Definition stop : rtask unit :=
  _ ←? read_state (fun s => ensure_active_voice_session s "stop");
  media_owner_was_active ← media_owner_is_active;
  generation ← reads rt_transport_generation;
  _ ←? (if (media_owner_was_active : bool)
        then _ ← send_media_command (MStop false); wait_for_media_owner_session generation
        else mret (Ok tt));
  _ ← invalidate_playback;
  _ ← defer_playback_reset;
  _ ←? (if negb media_owner_was_active
        then _ ← send_media_command (MStop true); wait_for_media_owner_session generation
        else mret (Ok tt));
  stop_media media_owner_was_active.

Definition leave_voice : rtask unit :=
  _ ← invalidate_rollover;
  _ ← invalidate_playback;
  _ ← defer_playback_reset;
  media_owner_was_active ← media_owner_is_active;
  return_count ← media_owner_return_count;
  _ ← next_transport_generation;
  _ ← send_media_command (MStop true);
  _ ←? (if (media_owner_was_active : bool) then wait_for_media_owner_stopped_after return_count
        else mret (Ok tt));
  _ ← clear_media_commands;
  _ ← write_state (fun _ _ => (Snapshot_default, tt));
  _ ← on_voice (fun _ _ => (None, tt));
  mret (Ok tt).

(** ** Rollover *)

Definition settle_place (s : Snapshot) : SessionState :=
  if bool_decide (is_Some (guild_id s)) && bool_decide (is_Some (channel_id s))
  then VoiceReady else Idle.

Definition recovered_without_playback (reason : string) (s : Snapshot) : Snapshot :=
  set_state (settle_place s) (set_reason (Some reason) (set_rollover (s_recovering s) false s)).

Definition recover_rollover_without_playback (reason : string) : task unit :=
  event ← write_state (fun _ s =>
    let s' := recovered_without_playback reason s in (s', from_snapshot ERecoverableWarning s'));
  emit event.

Definition interrupted_playback (reason : string) (s : Snapshot) : Snapshot :=
  set_state (settle_place s)
    (set_reason (Some reason) (set_rollover (s_recovering s) false (clear_track s))).

Definition interrupt_playback (reason : string) : task unit :=
  event ← write_state (fun _ s =>
    let s' := interrupted_playback reason s in (s', from_snapshot EPlaybackInterrupted s'));
  emit event.

Definition quiesce_current_transport : task unit :=
  _ ← send_media_command (MStop true);
  voice ← lock_voice;
  match voice with
  | Some session =>
      if is_connected session && media_started session
      then sent ← ask (AskStopBoundary session); unlock_voice (Some sent.2)
      else unlock_voice voice
  | None => unlock_voice voice
  end.

(** The replacement cannot be had: give up the track, or keep the old state. *)
Definition rollover_failed (err : VoiceError) (resume_video_id : option string)
    (resume_epoch rollover_epoch : Z) : rtask unit :=
  current ← rollover_is_current rollover_epoch;
  if negb current then mret (Ok tt) else
  let reason := "voice reconnect failed: " +:+ voice_error_text err in
  intended ← match resume_video_id with
             | Some video_id => rollover_resume_is_still_intended video_id resume_epoch rollover_epoch
             | None => mret false
             end;
  _ ← (if (intended : bool)
       then _ ← quiesce_current_transport; interrupt_playback reason
       else recover_rollover_without_playback reason);
  mret (Err (Voice err)).

Definition reconnecting (s : Snapshot) : Snapshot := set_rollover (s_recovering s) true s.

Definition announce_reconnecting : task unit :=
  event ← write_state (fun _ s => let s' := reconnecting s in (s', from_snapshot EVoiceReconnecting s'));
  emit event.

Definition reconnected (session : vsession) (s : Snapshot) : Snapshot :=
  let s' := set_reason None (apply_rollover_state session (apply_voice_context (voice_context session) s)) in
  if bool_decide (current_video_id s' = None) then set_state VoiceReady s' else s'.

Definition announce_reconnected (session : vsession) : task unit :=
  event ← write_state (fun _ s => let s' := reconnected session s in (s', from_snapshot EVoiceReady s'));
  emit event.

(** The end of both rollovers: spawn the resumption, if it is still wanted. *)
Definition spawn_resume (resume_video_id : option string) (resume_epoch rollover_epoch : Z) : rtask unit :=
  playback ← reads rt_playback;
  match resume_video_id with
  | Some video_id =>
      if negb playback then mret (Ok tt) else
      intended ← rollover_resume_is_still_intended video_id resume_epoch rollover_epoch;
      if negb intended then mret (Ok tt) else
      attempt ← begin_playback;
      _ ← spawn (mkResumeTask video_id attempt rollover_epoch);
      mret (Ok tt)
  | None => mret (Ok tt)
  end.

Definition current_voice_context_matches (new_voice : VoiceContext) : task bool :=
  on_voice (fun _ v =>
    (v, match v with Some s => bool_decide (voice_context s = new_voice) | None => false end)).

Definition rollover_matching_voice_context (new_voice : VoiceContext) (resume_video_id : option string)
    (rollover_epoch : Z) : rtask unit :=
  _ ← invalidate_playback;
  resume_epoch ← reads rt_playback_epoch;
  _ ← send_media_command (MStop false);
  _ ← announce_reconnecting;
  session ←? on_voice (fun _ v =>
    match v with
    | Some s => let s' := replace_voice_context new_voice s in (Some s', Ok s')
    | None => (v, Err (RInvalidState "voice reconnect refresh missing active voice session"))
    end);
  _ ← announce_reconnected session;
  spawn_resume resume_video_id resume_epoch rollover_epoch.

Definition replace_transport (new_voice : VoiceContext) (resume_video_id : option string)
    (rollover_epoch : Z) : rtask unit :=
  _ ← next_transport_generation;
  _ ← invalidate_playback;
  _ ← send_media_command (MStop false);
  _ ← clear_media_commands;
  resume_epoch ← reads rt_playback_epoch;
  _ ← announce_reconnecting;
  connected ← ask (AskConnect new_voice);
  match connected with
  | Err err => rollover_failed err resume_video_id resume_epoch rollover_epoch
  | Panic => mret Panic
  | Ok replacement =>
      settled ← ask (AskSettleForJoin replacement);
      match settled.1 with
      | Err err => rollover_failed err resume_video_id resume_epoch rollover_epoch
      | Panic => mret Panic
      | Ok _ =>
          current ← rollover_is_current rollover_epoch;
          if negb current then mret (Ok tt) else
          _ ← on_voice (fun _ _ => (Some settled.2, tt));
          _ ← announce_reconnected settled.2;
          spawn_resume resume_video_id resume_epoch rollover_epoch
      end
  end.

(** A running driver is asked to stop and to give the session back. *)
Definition stop_media_owner : rtask unit :=
  active ← media_owner_is_active;
  if negb active then mret (Ok tt) else
  generation ← reads rt_transport_generation;
  _ ← send_media_command (MStop false);
  _ ←? wait_for_media_owner_session generation;
  _ ← invalidate_playback;
  mret (Ok tt).

(** [update_voice_context]'s checks: the track to resume, whether it is paused. *)
Definition rollover_check (s : Snapshot) : rresult (option string) :=
  _ ← ensure_active_voice_session s "update_voice_context"; Ok (current_video_id s).
Definition update_check (s : Snapshot) : rresult bool :=
  _ ← ensure_active_voice_session s "update_voice_context"; Ok (bool_decide (s_state s = Paused)).

Definition count_reconnect (resume_video_id : option string) : task unit :=
  match resume_video_id with
  | Some _ => writes (fun r => with_interruptions (rt_gateway_interruptions r)
                       (rt_dave_interruptions r) (bump (rt_reconnect_interruptions r)) r)
  | None => mret tt
  end.

Definition rollover_voice_context (new_voice : VoiceContext) : rtask unit :=
  resume_video_id ←? read_state rollover_check;
  rollover_epoch ← begin_rollover;
  _ ← count_reconnect resume_video_id;
  _ ←? stop_media_owner;
  same ← current_voice_context_matches new_voice;
  if (same : bool) then rollover_matching_voice_context new_voice resume_video_id rollover_epoch
  else replace_transport new_voice resume_video_id rollover_epoch.

Definition refreshed (new_voice : VoiceContext) (s : Snapshot) : Snapshot :=
  set_reason None (set_rollover false false (apply_voice_context new_voice s)).

Definition refresh_paused_state (new_voice : VoiceContext) : task unit :=
  write_state (fun _ s =>
    if bool_decide (s_state s = Paused) then (refreshed new_voice s, tt) else (s, tt)).

Definition refresh_paused_voice_context (new_voice : VoiceContext) : rtask unit :=
  owned ← media_owner_is_active;
  if (owned : bool) then _ ← refresh_paused_state new_voice; mret (Ok tt) else
  voice ← lock_voice;
  suspended ← match voice with
              | Some session =>
                  if is_connected session
                  then done ← ask (AskSuspend session); mret (from_voice done.1, Some done.2)
                  else mret (Ok tt, voice)
              | None => mret (Ok tt, voice)
              end;
  match suspended.1 with
  | Ok _ =>
      _ ← unlock_voice (Some (disconnected new_voice));
      _ ← refresh_paused_state new_voice;
      mret (Ok tt)
  | err => _ ← unlock_voice suspended.2; mret err
  end.

Definition update_voice_context (voice : VoiceContext) : rtask unit :=
  paused ←? read_state update_check;
  if (paused : bool) then refresh_paused_voice_context voice else rollover_voice_context voice.

Definition resume_after_rollover (t : ResumeTask) : rtask unit :=
  let still := resume_attempt_is_still_current (rsm_video_id t) (rsm_attempt_epoch t) (rsm_rollover_epoch t) in
  current ← still;
  if negb current then mret (Ok tt) else
  played ← play_with_epoch (rsm_video_id t) (rsm_attempt_epoch t);
  match played with
  | Err err =>
      current ← still;
      if (current : bool) then
        _ ← quiesce_current_transport;
        _ ← interrupt_playback
              ("failed to resume playback after voice reconnect: " +:+ runtime_error_text err);
        mret (Ok tt)
      else mret (Ok tt)
  | _ => mret (Ok tt)
  end.

Definition handle_command (c : Command) : rtask unit :=
  match c with
  | JoinVoice voice => join_voice voice
  | UpdateVoiceContext voice => update_voice_context voice
  | Play video_id => play video_id
  | Pause => pause
  | Resume => resume
  | Stop => stop
  | LeaveVoice => leave_voice
  end.

End runtime.
