(* ===== verification/Interleaving.v ===== *)
(** * Interleaved commands

    What holds of the session runtime whatever the interleaving of its tasks
    (Commands.v): the snapshot invariant, the silence of a playback task
    whose epoch is over, the stickiness of a pause; and two schedules in
    which concurrent commands defeat each other. *)

From S2P Require Import Prelude Text VoiceErrors Protocol OpusQueue DeadlineSender Task SessionState Commands.
From stdpp Require Import prelude strings.
Open Scope Z_scope.
Open Scope task_scope.

Create HintDb tasks.

(** Walks a task down to its accesses; a sub-task is closed by a lemma of
    the database [tasks] or unfolded. *)
Ltac task_head m := lazymatch m with ?f _ => task_head f | _ => m end.
Ltac every_step :=
  lazymatch goal with
  | |- forall _, _ => intros ?
  | |- every _ _ (mbind _ _) => apply every_bind
  | |- every _ _ (try_ _ _) => apply every_try
  | |- every _ _ (mret _) => exact I
  | |- every _ _ (ask _) => intros ? ?; exact I
  | |- every _ _ (spawn _) => exact I
  | |- every _ _ (write_state _) => fail
  | |- every _ _ (act _) => apply every_act
  | |- every _ _ (reads _) => unfold reads; apply every_act
  | |- every _ _ (writes _) => unfold writes; apply every_act
  | |- every _ _ (match ?x with _ => _ end) => destruct x
  | |- every _ _ ?m => let h := task_head m in unfold h; cbv beta zeta
  end.
Ltac every_tac leaf := repeat (first [solve [eauto 2 with tasks nocore] | every_step]); leaf.

Section interleaving.
Context `{V : VoiceSession} `{T : ErrorText}.

Abbreviation task := (prog Runtime question answer ResumeTask).

(** ** The snapshot invariant *)

(** The states that belong to a track, and those past its resolution. *)
Definition has_track (st : SessionState) : bool :=
  match st with ResolvingTrack | Buffering | Playing | Paused => true | _ => false end.
Definition has_format (st : SessionState) : bool :=
  match st with Buffering | Playing | Paused => true | _ => false end.

Record snapshot_wf (s : Snapshot) : Prop := {
  wf_place : is_Some (guild_id s) <-> is_Some (channel_id s);
  wf_track : has_track (s_state s) = true -> is_Some (current_video_id s);
  wf_format : has_format (s_state s) = true -> is_Some (selected_itag s);
  wf_states : s_state s <> Stopping /\ s_state s <> SError;
}.

Definition runtime_wf (r : Runtime) : Prop := snapshot_wf (rt_state r).

(** An access that leaves the snapshot alone, or transforms it by [f]. *)
Lemma snapshot_same (B : Type) (op : Runtime -> option (Runtime * B)) :
  (forall r r' b, op r = Some (r', b) -> rt_state r' = rt_state r) -> preserved runtime_wf B op.
Proof. intros H r r' b Hwf Hop. unfold runtime_wf. by rewrite (H _ _ _ Hop). Qed.

Lemma every_write_state {B} (f : Runtime -> Snapshot -> Snapshot * B) :
  (forall r s, snapshot_wf s -> snapshot_wf (f r s).1) ->
  every Valid (preserved runtime_wf) (write_state f).
Proof.
  intros H. apply every_act. intros r r' b Hwf. destruct (rt_state_locked r); [done|].
  specialize (H r (rt_state r) Hwf). destruct (f r (rt_state r)) as [s c]. intros [= <- <-]. exact H.
Qed.

Ltac wf_tac := intros; repeat match goal with H : snapshot_wf _ |- _ => destruct H end; constructor; cbn in *; intuition (done || eauto).

Lemma wf_default : snapshot_wf Snapshot_default.
Proof. constructor; cbn; naive_solver. Qed.

Lemma wf_set_track s video itag depth position :
  snapshot_wf s -> is_Some video -> (has_format (s_state s) = true -> is_Some itag) ->
  snapshot_wf (set_track video itag depth position s).
Proof. wf_tac. Qed.

Lemma wf_set_reason r s : snapshot_wf s -> snapshot_wf (set_reason r s).
Proof. wf_tac. Qed.
Lemma wf_set_rollover a b s : snapshot_wf s -> snapshot_wf (set_rollover a b s).
Proof. wf_tac. Qed.
Lemma wf_apply_voice_context v s : snapshot_wf s -> snapshot_wf (apply_voice_context v s).
Proof. wf_tac. Qed.

(** Entering a state without a track, from any place. *)
Lemma wf_trackless st s :
  (is_Some (guild_id s) <-> is_Some (channel_id s)) -> has_track st = false ->
  st <> Stopping -> st <> SError -> snapshot_wf (set_state st s).
Proof. intros Hp Ht Hs He. constructor; cbn; [done|congruence|by destruct st|done]. Qed.

Lemma wf_clear_track_state st s :
  snapshot_wf s -> has_track st = false -> st <> Stopping -> st <> SError ->
  snapshot_wf (set_state st (clear_track s)).
Proof. intros Hs. apply wf_trackless, Hs. Qed.

(** Entering a state of a track that is loaded. *)
Lemma wf_set_state st s :
  snapshot_wf s -> is_Some (current_video_id s) -> (has_format st = true -> is_Some (selected_itag s)) ->
  st <> Stopping -> st <> SError -> snapshot_wf (set_state st s).
Proof. wf_tac. Qed.

Hint Resolve wf_default wf_set_reason wf_set_rollover wf_apply_voice_context : tasks.

Lemma settle_place_trackless s : has_track (settle_place s) = false /\
  settle_place s <> Stopping /\ settle_place s <> SError.
Proof. unfold settle_place. destruct (_ && _); done. Qed.

Lemma wf_joining v s : snapshot_wf s -> snapshot_wf (joining v s).
Proof. intros H. by apply wf_trackless. Qed.
Lemma wf_joined v s : snapshot_wf s -> snapshot_wf (joined v s).
Proof. intros H. unfold joined. destruct (is_connected v); by apply wf_trackless. Qed.
Lemma wf_stopped s : snapshot_wf s -> snapshot_wf (stopped s).
Proof. intros H. apply wf_trackless; [apply H|done..]. Qed.
Lemma wf_resolving v n s : snapshot_wf s -> snapshot_wf (resolving v n s).
Proof. intros H. unfold resolving. wf_tac. Qed.
Lemma wf_recovered r s : snapshot_wf s -> snapshot_wf (recovered_without_playback r s).
Proof. intros H. destruct (settle_place_trackless s) as (?&?&?). apply wf_trackless; [apply H|done..]. Qed.
Lemma wf_interrupted r s : snapshot_wf s -> snapshot_wf (interrupted_playback r s).
Proof. intros H. destruct (settle_place_trackless s) as (?&?&?). apply wf_trackless; [apply H|done..]. Qed.
Lemma wf_reconnected v s : snapshot_wf s -> snapshot_wf (reconnected v s).
Proof.
  intros H. unfold reconnected, apply_rollover_state. case_bool_decide.
  - by apply wf_trackless.
  - auto with tasks.
Qed.
Lemma wf_refreshed v s : snapshot_wf s -> snapshot_wf (refreshed v s).
Proof. unfold refreshed. auto with tasks. Qed.
Lemma wf_reconnecting s : snapshot_wf s -> snapshot_wf (reconnecting s).
Proof. apply wf_set_rollover. Qed.
Hint Resolve wf_reconnecting wf_joining wf_joined wf_stopped wf_resolving wf_recovered wf_interrupted
  wf_reconnected wf_refreshed : tasks.

(** *** Every access of every task keeps it *)

Ltac wf_same := apply snapshot_same; intros r r' b; cbn; repeat case_match; intros; simplify_eq; done.
Ltac wf_write := apply every_write_state; intros r s Hs; unfold checked; repeat case_match; cbn; auto with tasks.

Ltac wf_every := every_tac ltac:(first [wf_write|wf_same]).

Lemma wf_media_owner_session_polls n g : every Valid (preserved runtime_wf) (media_owner_session_polls n g).
Proof. induction n; wf_every. Qed.
Lemma wf_media_owner_stopped_polls n g : every Valid (preserved runtime_wf) (media_owner_stopped_polls n g).
Proof. induction n; wf_every. Qed.
Lemma wf_connected_voice_polls n e : every Valid (preserved runtime_wf) (connected_voice_polls n e).
Proof. induction n; wf_every. Qed.
Hint Resolve wf_media_owner_session_polls wf_media_owner_stopped_polls wf_connected_voice_polls : tasks.

Lemma wf_emit_playback_state k v e i d p :
  every Valid (preserved runtime_wf) (emit_playback_state k v e i d p).
Proof.
  every_tac ltac:(first [apply every_write_state; intros r s Hs|wf_same]).
  destruct (interrupted_at e r); [done|]. case_bool_decide; [done|].
  destruct (playback_state_of k) as [st|] eqn:Hk; cbn; [|by apply wf_set_track].
  apply wf_set_state; cbn; eauto; [by apply wf_set_track|destruct k; cbn in Hk; by simplify_eq..].
Qed.

Lemma wf_report_progress e d p : every Valid (preserved runtime_wf) (report_progress e d p).
Proof.
  apply every_write_state; intros r s Hs. destruct (interrupted_at e r); [done|]. wf_tac.
Qed.

Lemma wf_track_ended e p : every Valid (preserved runtime_wf) (track_ended e p).
Proof.
  every_tac ltac:(first [apply every_write_state; intros r s Hs|wf_same]).
  destruct (interrupted_at e r); [done|]. by apply wf_trackless; [apply Hs|..].
Qed.

Lemma pause_check_playing s : pause_check s = Ok true -> s_state s = Playing.
Proof.
  unfold pause_check. destruct (ensure_track_loaded s "pause"); [|done..]. cbn.
  case_bool_decide; [done|].
  destruct (ensure_pauseable_track s) as [[]| |] eqn:Hp; [|done..]. intros _.
  by apply ensure_pauseable_playing in Hp as [? _].
Qed.

Lemma resume_check_paused s : resume_check s = Ok true -> s_state s = Paused.
Proof.
  unfold resume_check. destruct (ensure_track_loaded s "resume"); [|done..]. cbn.
  case_bool_decide; [done|].
  destruct (ensure_resumable_track s) as [[]| |] eqn:Hp; [|done..]. intros _.
  by apply ensure_resumable_state in Hp as [[?|?] _].
Qed.

Lemma wf_switch_state check st k :
  (forall s, check s = Ok true -> has_format (s_state s) = true) ->
  st <> Stopping -> st <> SError ->
  every Valid (preserved runtime_wf) (switch_state check st k).
Proof.
  intros Hc Hs1 Hs2. apply every_write_state. intros r s Hs.
  destruct (check s) as [[]| |] eqn:Hk; cbn; try done.
  pose proof (Hc _ Hk) as Hf. pose proof (wf_format _ Hs Hf).
  apply wf_set_state; auto. apply (wf_track _ Hs). by destruct (s_state s).
Qed.

Lemma wf_switch_pause : every Valid (preserved runtime_wf) (switch_state pause_check Paused EPaused).
Proof. apply wf_switch_state; [|done..]. by intros s ->%pause_check_playing. Qed.
Lemma wf_switch_resume : every Valid (preserved runtime_wf) (switch_state resume_check Playing EPlaying).
Proof. apply wf_switch_state; [|done..]. by intros s ->%resume_check_paused. Qed.
Hint Resolve wf_emit_playback_state wf_report_progress wf_track_ended wf_switch_pause wf_switch_resume : tasks.

Lemma wf_pipeline_turn t i p : every Valid (preserved runtime_wf) (pipeline_turn t i p).
Proof. destruct i; wf_every. Qed.
Hint Resolve wf_pipeline_turn : tasks.
Lemma wf_pipeline_loop n t c v p : every Valid (preserved runtime_wf) (pipeline_loop n t c v p).
Proof. revert p. induction n; intros p; [intros []|]. cbn [pipeline_loop]. wf_every. Qed.
Hint Resolve wf_pipeline_loop : tasks.

Lemma wf_play_with_epoch v e : every Valid (preserved runtime_wf) (play_with_epoch v e).
Proof. wf_every. Qed.
Hint Resolve wf_play_with_epoch : tasks.

Lemma wf_finish_join v : every Valid (preserved runtime_wf) (finish_join v).
Proof.
  every_tac ltac:(try wf_same). intros r r' b Hwf. case_match; intros; simplify_eq.
  cbn. by apply wf_joined.
Qed.
Hint Resolve wf_finish_join : tasks.

Lemma wf_handle_command c : every Valid (preserved runtime_wf) (handle_command c).
Proof. destruct c; cbn [handle_command]; wf_every. Qed.

Lemma wf_resume_after_rollover t : every Valid (preserved runtime_wf) (resume_after_rollover t).
Proof. wf_every. Qed.

(** Commands may arrive at any moment. *)
Definition is_command (m : task (rresult unit)) : Prop := exists c, m = handle_command c.

(** C9. In every interleaving of any commands, from the new runtime on, the published
    snapshot is well formed: guild and channel are known together, a session
    that resolves, buffers, plays or is paused has a track, one past the
    resolution has a format, and the states [Stopping] and [Error] never occur. *)
Theorem session_invariant playback c :
  reachable Valid resume_after_rollover is_command (new_runtime playback, []) c ->
  snapshot_wf (rt_state c.1).
Proof.
  apply (reachable_invariant Valid resume_after_rollover runtime_wf).
  - intros m [cmd ->]. apply wf_handle_command.
  - apply wf_resume_after_rollover.
  - by constructor.
  - apply wf_default.
Qed.

(** ** A playback task whose epoch is over *)

(** The access does not touch the snapshot once the epoch is not [e]. *)
Definition silent (e : Z) (B : Type) (op : Runtime -> option (Runtime * B)) : Prop :=
  forall r r' b, op r = Some (r', b) -> rt_playback_epoch r <> e -> rt_state r' = rt_state r.

(** The access moves the playback epoch by at most one. *)
Definition epoch_moves (B : Type) (op : Runtime -> option (Runtime * B)) : Prop :=
  forall r r' b, op r = Some (r', b) ->
    rt_playback_epoch r' = rt_playback_epoch r \/ rt_playback_epoch r' = bump (rt_playback_epoch r).

Lemma silent_write_state {B} e (f : Runtime -> Snapshot -> Snapshot * B) :
  (forall r s, rt_playback_epoch r <> e -> (f r s).1 = s) -> every Valid (silent e) (write_state f).
Proof.
  intros H. apply every_act. intros r r' b. destruct (rt_state_locked r); [done|].
  specialize (H r (rt_state r)). destruct (f r (rt_state r)) as [s c]. intros [= <- <-] He. by apply H.
Qed.

Lemma interrupted_stale e r : rt_playback_epoch r <> e -> interrupted_at e r = true.
Proof. intros H. unfold interrupted_at. by rewrite (proj2 (Z.eqb_neq _ _) H). Qed.

Ltac silent_leaf :=
  first [ apply silent_write_state; intros ?r ?s ?He; by rewrite interrupted_stale
        | intros ?r ?r' ?b; cbn; repeat case_match; intros; simplify_eq; done ].
Ltac silent_every := every_tac ltac:(silent_leaf).

Lemma silent_connected_voice_polls e n : every Valid (silent e) (connected_voice_polls n e).
Proof. induction n; silent_every. Qed.
Hint Resolve silent_connected_voice_polls : tasks.
Lemma silent_pipeline_turn t i p : every Valid (silent (pt_epoch t)) (pipeline_turn t i p).
Proof. destruct i; silent_every. Qed.
Hint Resolve silent_pipeline_turn : tasks.
Lemma silent_pipeline_loop n t c v p : every Valid (silent (pt_epoch t)) (pipeline_loop n t c v p).
Proof. revert p. induction n; intros p; [intros []|]. cbn [pipeline_loop]. silent_every. Qed.

Lemma silent_send_playback_frames t v n : every Valid (silent (pt_epoch t)) (send_playback_frames t v n).
Proof. pose proof silent_pipeline_loop. silent_every. Qed.

Lemma silent_play_with_epoch v e : every Valid (silent e) (play_with_epoch v e).
Proof.
  assert (forall src g s p, every Valid (silent e)
    (send_playback_frames (mkPlayingTrack v e (ps_selected_itag src) g) s p)) as Hsend.
  { intros src g s p. exact (silent_send_playback_frames (mkPlayingTrack v e _ g) s p). }
  silent_every.
Qed.

Ltac moves_every := every_tac ltac:(intros ?r ?r' ?b; cbn; repeat case_match; intros; simplify_eq; cbn; auto).

Lemma moves_write_state {B} (f : Runtime -> Snapshot -> Snapshot * B) : every Valid epoch_moves (write_state f).
Proof.
  apply every_act. intros r r' b. destruct (rt_state_locked r); [done|].
  destruct (f r (rt_state r)) as [s c]. intros [= <- <-]. by left.
Qed.
Lemma moves_media_owner_session_polls n g : every Valid epoch_moves (media_owner_session_polls n g).
Proof. pose proof @moves_write_state. induction n; moves_every. Qed.
Lemma moves_media_owner_stopped_polls n g : every Valid epoch_moves (media_owner_stopped_polls n g).
Proof. induction n; moves_every. Qed.
Lemma moves_connected_voice_polls n e : every Valid epoch_moves (connected_voice_polls n e).
Proof. induction n; moves_every. Qed.
Hint Resolve moves_write_state moves_media_owner_session_polls moves_media_owner_stopped_polls
  moves_connected_voice_polls : tasks.
Lemma moves_pipeline_turn t i p : every Valid epoch_moves (pipeline_turn t i p).
Proof. destruct i; moves_every. Qed.
Hint Resolve moves_pipeline_turn : tasks.
Lemma moves_pipeline_loop n t c v p : every Valid epoch_moves (pipeline_loop n t c v p).
Proof. revert p. induction n; intros p; [intros []|]. cbn [pipeline_loop]. moves_every. Qed.
Hint Resolve moves_pipeline_loop : tasks.
Lemma moves_play_with_epoch v e : every Valid epoch_moves (play_with_epoch v e).
Proof. moves_every. Qed.
Hint Resolve moves_play_with_epoch : tasks.
Lemma moves_handle_command c : every Valid epoch_moves (handle_command c).
Proof. destruct c; cbn [handle_command]; moves_every. Qed.
Lemma moves_resume_after_rollover t : every Valid epoch_moves (resume_after_rollover t).
Proof. moves_every. Qed.

(** How far the playback epoch has moved past [e], at 64 bits. *)
Definition epochs_past (e : Z) (r : Runtime) : Z := (rt_playback_epoch r - e) mod 2 ^ 64.

Abbreviation session_turn := (turn Valid resume_after_rollover is_command).

Lemma epochs_past_turn e c c' :
  tasks_ok Valid epoch_moves c -> session_turn c c' ->
  epochs_past e c.1 + 1 < 2 ^ 64 ->
  epochs_past e c.1 <= epochs_past e c'.1 <= epochs_past e c.1 + 1.
Proof.
  intros Hc Ht Hb.
  assert (rt_playback_epoch c'.1 = rt_playback_epoch c.1 \/
          rt_playback_epoch c'.1 = bump (rt_playback_epoch c.1)) as [Hm|Hm].
  { destruct Ht as [i c0 c1 Hs|st ts m Hm]; [|by left].
    destruct Hs as [st st' ts B op k b Hi Hop|st ts q k a Hi Hq|st ts s k Hi]; [|by left..].
    pose proof (Forall_lookup_1 _ _ _ _ Hc Hi) as [Hp _]. exact (Hp _ _ _ Hop). }
  - unfold epochs_past. rewrite Hm. lia.
  - unfold epochs_past in *. rewrite Hm. unfold bump, wrapping_add, wrap.
    assert (((rt_playback_epoch c.1 + 1) mod 2 ^ 64 - e) mod 2 ^ 64 =
            ((rt_playback_epoch c.1 - e) mod 2 ^ 64 + 1) mod 2 ^ 64) as ->.
    { rewrite Zminus_mod_idemp_l, Zplus_mod_idemp_l. f_equal. lia. }
    pose proof (Z.mod_pos_bound (rt_playback_epoch c.1 - e) (2 ^ 64)).
    rewrite (Z.mod_small (_ + 1)); lia.
Qed.

Lemma commands_move m : is_command m -> every Valid epoch_moves m.
Proof. intros [c ->]. apply moves_handle_command. Qed.

Lemma epochs_past_turns e n c c' :
  tasks_ok Valid epoch_moves c -> nsteps session_turn n c c' ->
  epochs_past e c.1 + Z.of_nat n < 2 ^ 64 -> epochs_past e c.1 <= epochs_past e c'.1.
Proof.
  intros Hc Hn. induction Hn as [c|n c c1 c2 Ht Hn IH]; intros Hb; [lia|].
  pose proof (epochs_past_turn e c c1 Hc Ht). 
  enough (epochs_past e c1.1 <= epochs_past e c2.1) by lia.
  apply IH; [|lia].
  exact (tasks_ok_turn _ _ _ _ _ _ commands_move moves_resume_after_rollover Hc Ht).
Qed.

Lemma silent_step e i c c' m :
  c.2 !! i = Some m -> every Valid (silent e) m -> rt_playback_epoch c.1 <> e ->
  step Valid resume_after_rollover i c c' -> rt_state c'.1 = rt_state c.1.
Proof.
  intros Hi Hm He Hs.
  destruct Hs as [st st' ts B op k b Hj Hop|st ts q k a Hj Hq|st ts s k Hj]; [|done..].
  cbn in *. rewrite Hi in Hj. injection Hj as ->. destruct Hm as [Hp _]. exact (Hp _ _ _ Hop He).
Qed.

Lemma tasks_ok_turns P n c c' :
  (forall cmd, every Valid P (handle_command cmd)) -> (forall t, every Valid P (resume_after_rollover t)) ->
  tasks_ok Valid P c -> nsteps session_turn n c c' -> tasks_ok Valid P c'.
Proof.
  intros Ha Hb Hc Hn. induction Hn as [c|n c c1 c2 Ht Hn IH]; [done|].
  apply IH. eapply tasks_ok_turn; [|exact Hb|exact Hc|exact Ht]. intros m [cmd ->]. apply Ha.
Qed.


(** ** A pause outlives the messages of the media pipeline *)

Definition keeps_pause (B : Type) (op : Runtime -> option (Runtime * B)) : Prop :=
  forall r r' b, op r = Some (r', b) -> s_state (rt_state r) = Paused ->
    s_state (rt_state r') = Paused \/
    (s_state (rt_state r') = VoiceReady /\ current_video_id (rt_state r') = None).

Lemma keeps_pause_write_state {B} (f : Runtime -> Snapshot -> Snapshot * B) :
  (forall r s, s_state s = Paused ->
     s_state (f r s).1 = Paused \/ (s_state (f r s).1 = VoiceReady /\ current_video_id (f r s).1 = None)) ->
  every Valid keeps_pause (write_state f).
Proof.
  intros H. apply every_act. intros r r' b. destruct (rt_state_locked r); [done|].
  specialize (H r (rt_state r)). destruct (f r (rt_state r)) as [s c]. intros [= <- <-] He. by apply H.
Qed.

Ltac pause_every := every_tac ltac:(
  first [ apply keeps_pause_write_state; intros ?r ?s ?Hp; rewrite ?Hp;
          repeat case_match; cbn; simplify_eq; auto; fail
        | intros ?r ?r' ?b; cbn; repeat case_match; intros; simplify_eq; cbn; auto; fail ]).

Lemma pause_emit_playback_state k v e i d p : every Valid keeps_pause (emit_playback_state k v e i d p).
Proof.
  apply every_try; [|pause_every]. apply keeps_pause_write_state. intros r s Hp.
  destruct (interrupted_at e r); [by left|]. rewrite bool_decide_eq_true_2 by done. by left.
Qed.
Hint Resolve pause_emit_playback_state : tasks.
Lemma pause_pipeline_turn t i p : every Valid keeps_pause (pipeline_turn t i p).
Proof. destruct i; pause_every. Qed.
Hint Resolve pause_pipeline_turn : tasks.
Lemma pause_pipeline_loop n t c v p : every Valid keeps_pause (pipeline_loop n t c v p).
Proof. revert p. induction n; intros p; [intros []|]. cbn [pipeline_loop]. pause_every. Qed.
Hint Resolve pause_pipeline_loop : tasks.
Lemma pause_send_playback_frames t v n : every Valid keeps_pause (send_playback_frames t v n).
Proof. pause_every. Qed.

(** While the session is paused, no message of the media pipeline makes it
    buffer or play: an access of the sending task leaves it paused, or ends the
    track. *)
Theorem paused_is_sticky t s p i c0 c1 c2 n :
  c0.2 !! i = Some (send_playback_frames t s p) ->
  nsteps session_turn n c0 c1 -> s_state (rt_state c1.1) = Paused ->
  step Valid resume_after_rollover i c1 c2 ->
  s_state (rt_state c2.1) = Paused \/
  (s_state (rt_state c2.1) = VoiceReady /\ current_video_id (rt_state c2.1) = None).
Proof.
  intros Hi Hn Hp Hs.
  destruct (task_ok_turns _ _ _ _ _ _ _ _ _ Hi (pause_send_playback_frames t s p) Hn) as (m & Him & Hm).
  destruct Hs as [st st' ts B op k b Hj Hop|st ts q k a Hj Hq|st ts u k Hj]; [|by left..].
  cbn in *. rewrite Him in Hj. injection Hj as ->. destruct Hm as [Hk _]. exact (Hk _ _ _ Hop Hp).
Qed.
End interleaving.

(** ** Two races *)

(** A voice session reduced to what the runtime reads of it, for concrete
    executions. *)
Module Concrete.
Record PlainSession : Type := mkPlainSession {
  pl_voice : VoiceContext;
  pl_connected : bool;
  pl_speaking : bool;
}.

#[global, program] Instance plain_session : VoiceSession := {
  vsession := PlainSession;
  voice_context := pl_voice;
  replace_voice_context v s := mkPlainSession v (pl_connected s) (pl_speaking s);
  is_connected := pl_connected;
  media_started := pl_speaking;
  recovering _ := false;
  voice_reconnecting _ := false;
  disconnected v := mkPlainSession v false false;
}.
Next Obligation. done. Qed.
Next Obligation. done. Qed.
Next Obligation. done. Qed.

#[global] Instance plain_text : ErrorText := { http_error_text _ := "http" }.

Definition guild : VoiceContext := mkVoiceContext "g" "c" "u" "s" "e" "t".

(** The world in which every operation succeeds and every loop polls once. *)
Definition fair (q : question) : option (answer q) :=
  match q with
  | AskConnect v => Some (Ok (mkPlainSession v true false))
  | AskSettleForJoin s | AskStopSpeaking s | AskSuspend s => Some (Ok tt, s)
  | AskPrepareSpeaking s => Some (Ok tt, mkPlainSession (pl_voice s) (pl_connected s) true)
  | AskStopBoundary s => Some (Ok tt, mkPlainSession (pl_voice s) (pl_connected s) false)
  | AskPrepare _ _ => Some (Ok (mkPreparedSource 251 5 0))
  | AskFill => Some (Ok tt)
  | AskSourceDepth => Some 5
  | AskPolls => Some 1%nat
  | AskTrySend => Some true
  | AskPipeline s => Some (DriverResult (Some (mkDriverExit s true None)))
  | AskDriverExit s => Some (Some (mkDriverExit s true None))
  | AskNever => None
  end.

Lemma fair_valid q a : fair q = Some a -> Valid q a.
Proof. destruct q; cbn; intros H; simplify_eq; done. Qed.

(** The schedule that moves the given tasks, one access each. *)
Definition moves (l : list nat) : list (nat * (forall q, option (answer q))) := (fun i => (i, fair)) <$> l.

Lemma moves_valid l : Forall (fun e => forall q a, e.2 q = Some a -> Valid q a) (moves l).
Proof. apply Forall_fmap, Forall_true. intros i q a. apply fair_valid. Qed.

Abbreviation play_schedule := (schedule resume_after_rollover).
Definition start (cmds : list Command) : config := (new_runtime true, handle_command <$> cmds).

(** [JoinVoice] is connecting when [LeaveVoice] runs from its first access to
    its last. *)
Definition leave_during_join : list nat := repeat 0%nat 2 ++ repeat 1%nat 10.

Lemma moves_reach l c c' : play_schedule (moves l) c = Some c' ->
  reachable Valid resume_after_rollover is_command c c'.
Proof. apply schedule_reachable, moves_valid. Qed.

Lemma moves_nsteps l c c' : play_schedule (moves l) c = Some c' ->
  nsteps (turn Valid resume_after_rollover is_command) (length (moves l)) c c'.
Proof. apply schedule_nsteps, moves_valid. Qed.

Lemma start_reachable cmds :
  reachable Valid resume_after_rollover is_command (new_runtime true, []) (start cmds).
Proof.
  unfold start. induction cmds as [|c cmds IH] using rev_ind; [apply rtc_refl|].
  rewrite fmap_app. eapply rtc_r; [exact IH|]. apply turn_arrive. by exists c.
Qed.

Lemma moves_reach_split l1 l2 c c2 : play_schedule (moves (l1 ++ l2)) c = Some c2 ->
  exists c1, play_schedule (moves l1) c = Some c1 /\ play_schedule (moves l2) c1 = Some c2.
Proof.
  unfold moves. rewrite fmap_app, schedule_app.
  destruct (play_schedule (_ <$> l1) c) as [c1|]; [|done]. cbn. eauto.
Qed.

(** A [LeaveVoice] that runs while a [JoinVoice] is connecting returns success
    with an idle session, and the join then completes and puts the session back
    into the voice channel that was left. *)
Theorem leave_does_not_cancel_join :
  exists c1 c2,
    reachable Valid resume_after_rollover is_command (start [JoinVoice guild; LeaveVoice]) c1 /\
    (finished 1 c1, rt_state c1.1, rt_voice c1.1) = (Some (Ok tt), Snapshot_default, None) /\
    reachable Valid resume_after_rollover is_command c1 c2 /\
    (finished 0 c2, s_state (rt_state c2.1), guild_id (rt_state c2.1), rt_voice c2.1) =
      (Some (Ok tt), VoiceReady, Some "g"%string, Some (mkPlainSession guild true false)).
Proof.
  destruct (schedule_observe resume_after_rollover
    (fun c => (finished 0 c, s_state (rt_state c.1), guild_id (rt_state c.1), rt_voice c.1))
    (moves (leave_during_join ++ repeat 0%nat 5)) (start [JoinVoice guild; LeaveVoice])
    (Some (Ok tt), VoiceReady, Some "g"%string, Some (mkPlainSession guild true false)))
    as (c2 & Hs2 & Hf2); [vm_compute; reflexivity|].
  destruct (moves_reach_split _ _ _ _ Hs2) as (c1 & Hl1 & Hl2). exists c1, c2.
  split_and!; [exact (moves_reach _ _ _ Hl1)| |exact (moves_reach _ _ _ Hl2)|exact Hf2].
  destruct (schedule_observe resume_after_rollover (fun c => (finished 1 c, rt_state c.1, rt_voice c.1))
    (moves leave_during_join) (start [JoinVoice guild; LeaveVoice])
    (Some (Ok tt), Snapshot_default, None)) as (c1' & Hs1 & Hf1); [vm_compute; reflexivity|].
  rewrite Hl1 in Hs1. injection Hs1 as <-. exact Hf1.
Qed.

(** [Stop] waits for the session of a join that is still connecting; a
    [LeaveVoice] lets it go on to take the voice session, while the join takes
    the state. *)
Definition join_stop_leave : list nat :=
  repeat 0%nat 4 ++ repeat 1%nat 7 ++ repeat 2%nat 10 ++ repeat 1%nat 2 ++ [0%nat].

(** [join_voice] holds the state while it waits for the voice session, [stop]
    holds the voice session while it waits for the state: there is an execution
    of one join, one stop and one leave after which neither of the first two can
    ever move. *)
Theorem join_and_stop_deadlock :
  exists c, reachable Valid resume_after_rollover is_command (start [JoinVoice guild; Stop; LeaveVoice]) c /\
    stuck 0 c /\ stuck 1 c /\ finished 2 c = Some (Ok tt) /\
    forall i c', ~ step Valid resume_after_rollover i c c'.
Proof.
  destruct (schedule_observe resume_after_rollover
    (fun c => (blocked 0 c, blocked 1 c, finished 2 c, length c.2))
    (moves join_stop_leave) (start [JoinVoice guild; Stop; LeaveVoice])
    (true, true, Some (Ok tt), 3%nat)) as (c & Hs & Hf); [vm_compute; reflexivity|].
  injection Hf as Hb0 Hb1 Hf2 Hlen. exists c.
  split_and!; [exact (moves_reach _ _ _ Hs)|by apply blocked_stuck..|exact Hf2|].
  intros [|[|[|i]]] c'; [by apply stuck_no_step, blocked_stuck..|by eapply finished_no_step|].
  apply absent_no_step, lookup_ge_None_2. lia.
Qed.

(** ** The theorems above at concrete executions *)

Lemma session_invariant_witness :
  exists c, reachable Valid resume_after_rollover is_command (new_runtime true, []) c /\
    s_state (rt_state c.1) = Playing /\ snapshot_wf (rt_state c.1).
Proof.
  destruct (schedule_observe resume_after_rollover (fun c => s_state (rt_state c.1))
    (moves (repeat 0%nat 7 ++ repeat 1%nat 25)) (start [JoinVoice guild; Play "v"]) Playing)
    as (c & Hs & Hp); [vm_compute; reflexivity|].
  assert (reachable Valid resume_after_rollover is_command (new_runtime true, []) c) as Hr.
  { etrans; [apply start_reachable|exact (moves_reach _ _ _ Hs)]. }
  exists c. split_and!; [exact Hr|exact Hp|]. exact (session_invariant true c Hr).
Defined.


(** A media pipeline learns that the source ran dry while the session is
    paused. *)
Definition paused_runtime : Runtime :=
  with_state (mkSnapshot Paused (Some "g") (Some "c") (Some "v") (Some 251) 3 40 false false None)
    (new_runtime true).
Definition dry (q : question) : option (answer q) :=
  match q with
  | AskPipeline _ => Some (MetricSourceUnderrun 0)
  | q => fair q
  end.

Lemma paused_is_sticky_witness :
  exists c1 c2, step Valid resume_after_rollover 0 c1 c2 /\
    (s_state (rt_state c2.1) = Paused \/
     (s_state (rt_state c2.1) = VoiceReady /\ current_video_id (rt_state c2.1) = None)).
Proof.
  set (c0 := (paused_runtime, [send_playback_frames (V := plain_session) (mkPlayingTrack "v" 0 251 0)
    (mkPlainSession guild true true) 0])).
  destruct (schedule_observe resume_after_rollover (fun c => s_state (rt_state c.1))
    ((fun i => (i, dry)) <$> repeat 0%nat 9) c0 Paused) as (c1 & Hs & Hp); [vm_compute; reflexivity|].
  assert (Forall (fun e => forall q a, e.2 q = Some a -> Valid q a) ((fun i => (i, dry)) <$> repeat 0%nat 9)) as Hv.
  { apply Forall_fmap, Forall_true. intros i q a. destruct q; cbn; intros H; simplify_eq; done. }
  destruct (schedule_observe resume_after_rollover (fun c => s_state (rt_state c.1))
    (((fun i => (i, dry)) <$> repeat 0%nat 9) ++ moves [0%nat]) c0 Paused) as (c2 & Hs2 & _);
    [vm_compute; reflexivity|].
  rewrite schedule_app, Hs in Hs2. cbn in Hs2.
  destruct (advance resume_after_rollover fair 0 c1) as [c|] eqn:Ha; [|done].
  pose proof (advance_step Valid resume_after_rollover fair 0 c1 c fair_valid Ha) as Hstep.
  exists c1, c. split; [exact Hstep|].
  exact (paused_is_sticky (V := plain_session) (mkPlayingTrack "v" 0 251 0) (mkPlainSession guild true true) 0 0 c0 c1 c _
    eq_refl (schedule_nsteps _ _ _ _ _ _ Hv Hs) Hp Hstep).
Defined.
End Concrete.
