(* ===== verification/CommandSpecs.v ===== *)
(** * What each command does

    The commands of the session runtime (Commands.v) run without
    interference, for every answer of the outside world ([wp] of Task.v:
    the command is never blocked, returns, and ends as stated). *)

From S2P Require Import Prelude VoiceErrors Protocol OpusQueue DeadlineSender Task SessionState Commands Interleaving.
From stdpp Require Import prelude strings.
Open Scope Z_scope.
Open Scope task_scope.

Section specs.
Context `{V : VoiceSession} `{T : ErrorText}.

(** Nobody holds a guard. *)
Definition quiet (r : Runtime) : Prop := rt_state_locked r = false /\ rt_voice_locked r = false.

Definition in_voice (s : Snapshot) : bool :=
  bool_decide (is_Some (guild_id s)) && bool_decide (is_Some (channel_id s)).

(** Which commands the session refuses, and with which words. *)
Definition refusal (c : Command) (s : Snapshot) : option string :=
  match c with
  | JoinVoice _ =>
      if bool_decide (s_state s = Idle /\ guild_id s = None /\ channel_id s = None /\ current_video_id s = None)
      then None else Some "join_voice requires an idle session"
  | UpdateVoiceContext _ =>
      if in_voice s then None else Some "update_voice_context requires active voice session"
  | Play _ => if in_voice s then None else Some "play requires active voice session"
  | Stop => if in_voice s then None else Some "stop requires active voice session"
  | LeaveVoice => None
  | Pause =>
      if negb (in_voice s) then Some "pause requires active voice session"
      else match current_video_id s, s_state s with
           | None, _ => Some "pause requires an active track"
           | Some _, (Playing | Paused) => None
           | Some _, _ => Some "pause requires a playing track"
           end
  | Resume =>
      if negb (in_voice s) then Some "resume requires active voice session"
      else match current_video_id s, s_state s with
           | None, _ => Some "resume requires an active track"
           | Some _, (Playing | Paused) => None
           | Some _, _ => Some "resume requires a paused or playing track"
           end
  end%string.

(** Everything of the runtime but the playback epoch, which [play] counts up
    before it looks at the session. *)
Definition same_but_epoch (r r' : Runtime) : Prop :=
  r' = with_epochs (rt_playback_epoch r') (rt_rollover_epoch r) (rt_transport_generation r) r.

(** Runs a task on a runtime whose locks are known. *)
Ltac wp_step :=
  match goal with
  | |- wp _ (mbind _ _) _ _ => apply wp_bind
  | |- wp _ (try_ _ _) _ _ => unfold try_
  | |- wp _ (match ?x with _ => _ end) _ _ => destruct x eqn:?
  | |- wp _ _ _ _ => progress cbn
  end.

Lemma refused_check (c : Command) (s : Snapshot) msg :
  refusal c s = Some msg ->
  match c with
  | JoinVoice _ => ensure_joinable_session s = Err (RInvalidState msg)
  | UpdateVoiceContext _ => update_check s = Err (RInvalidState msg)
  | Play _ => ensure_active_voice_session s "play" = Err (RInvalidState msg)
  | Stop => ensure_active_voice_session s "stop" = Err (RInvalidState msg)
  | LeaveVoice => False
  | Pause => pause_check s = Err (RInvalidState msg)
  | Resume => resume_check s = Err (RInvalidState msg)
  end.
Proof.
  destruct s as [st g ch v i q p rc rr lr]. destruct c; cbn;
    unfold in_voice, ensure_joinable_session, update_check, pause_check, resume_check, ensure_track_loaded,
      ensure_pauseable_track, ensure_resumable_track, ensure_active_voice_session;
    cbn; destruct g, ch; cbn; try (intros; simplify_eq; done).
  1-4: case_bool_decide as Hi; intros; simplify_eq; destruct st, v; cbn; try done; by destruct Hi.
  1-2: destruct v, st; cbn; intros; simplify_eq; done.
Qed.

Lemma wp_refused c msg r :
  quiet r -> refusal c (rt_state r) = Some msg ->
  wp Valid (handle_command c)
    (fun res r' => res = Err (RInvalidState msg) /\ same_but_epoch r r') r.
Proof.
  intros [Hs Hv] Hc%refused_check. destruct r; cbn in Hs, Hv, Hc; subst.
  destruct c; cbn; unfold interrupted_at; cbn; rewrite ?Z.eqb_refl, ?Hc; cbn; try done.
Qed.

(** C35. A command that the state of the session does not admit returns the error
    that says why, and changes nothing but the playback epoch, which [play]
    counts up before it looks. *)
Theorem refused_commands_change_nothing c msg r :
  quiet r -> refusal c (rt_state r) = Some msg ->
  wp Valid (handle_command c)
    (fun res r' => res = Err (RInvalidState msg) /\ same_but_epoch r r') r.
Proof. apply wp_refused. Qed.

(** ** Pause and resume *)

Lemma playing_checks s :
  in_voice s = true -> is_Some (current_video_id s) ->
  (s_state s = Playing -> pause_check s = Ok true) /\ (s_state s = Paused -> resume_check s = Ok true).
Proof.
  destruct s as [st g ch v i q p rc rr lr]. unfold in_voice. cbn. intros Hv [x ->].
  destruct g, ch; try done. split; intros ->; done.
Qed.

(** The commands a driver's channel receives. *)
Definition sent_to (channel : option Z) (l : list MediaCommand) : list (Z * MediaCommand) :=
  match channel with Some c => (fun m => (c, m)) <$> l | None => [] end.

(** Pausing and resuming a playing track restores the snapshot exactly,
    announces both, tells the media driver both in order and leaves the voice
    session and the epoch alone. *)
Theorem pause_resume_roundtrip r :
  quiet r -> in_voice (rt_state r) = true -> is_Some (current_video_id (rt_state r)) ->
  s_state (rt_state r) = Playing ->
  wp Valid (p ← handle_command Pause; q ← handle_command Resume; mret (p, q))
    (fun res r' => res = (Ok tt, Ok tt) /\
       rt_state r' = rt_state r /\
       rt_events r' = rt_events r ++
         [from_snapshot EPaused (rt_state r); from_snapshot EPlaying (rt_state r)] /\
       rt_media_log r' = rt_media_log r ++ sent_to (rt_media_commands r) [MPause; MResume] /\
       rt_voice r' = rt_voice r /\ rt_playback_epoch r' = rt_playback_epoch r) r.
Proof.
  intros [Hs Hl] Hv Ht Hp.
  pose proof (proj1 (playing_checks _ Hv Ht) Hp) as Hc.
  pose proof (proj2 (playing_checks (set_state Paused (rt_state r)) Hv Ht) eq_refl) as Hc'.
  destruct r as [[st g c v i q p rc rr lr] ev vo mc]. cbn in *; subst. rewrite Hc. cbn.
  destruct mc as [ch|]; cbn; rewrite Hc; cbn; repeat (rewrite Hc'; cbn);
    rewrite <- ?(assoc_L (++)), ?app_nil_r; split_and!; done.
Qed.

(** ** Join and leave *)

Lemma wp_leave_idle_media r :
  quiet r -> rt_media_commands r = None ->
  wp Valid leave_voice (fun res r' => res = Ok tt /\ quiet r' /\ rt_state r' = Snapshot_default /\
    rt_voice r' = None /\ rt_media_commands r' = None /\ rt_reset_pending r' = true /\
    rt_events r' = rt_events r /\ rt_media_log r' = rt_media_log r) r.
Proof. intros [Hs Hl] Hm. destruct r; cbn in *; subst. by cbn. Qed.

(** What a join without interference leaves behind. *)
Lemma wp_join voice r :
  quiet r -> ensure_joinable_session (rt_state r) = Ok tt ->
  wp Valid (join_voice voice) (fun res r' =>
    quiet r' /\ rt_media_commands r' = rt_media_commands r /\
    guild_id (rt_state r') = Some (vc_guild_id voice) /\
    channel_id (rt_state r') = Some (vc_channel_id voice) /\
    match res with
    | Ok _ => exists session, rt_voice r' = Some session /\ voice_context session = voice /\
        s_state (rt_state r') = (if is_connected session then VoiceReady else ConnectingVoice) /\
        rt_events r' = rt_events r ++ [from_snapshot EVoiceConnecting (joining voice (rt_state r))] ++
          (if is_connected session then [from_snapshot EVoiceReady (rt_state r')] else [])
    | Err e => s_state (rt_state r') = ConnectingVoice /\ rt_voice r' = rt_voice r /\
        rt_events r' = rt_events r ++ [from_snapshot EVoiceConnecting (joining voice (rt_state r))]
    | Panic => False
    end) r.
Proof.
  intros [Hs Hl] Hj. destruct r as [s]. cbn in *; subst. rewrite Hj. cbn.
  intros [session|e|] Hc; cbn; [|done..].
  intros [[[]|e|] session'] [Hp Hk]; cbn in *; [|done..]. unfold keeps_context in Hk.
  unfold joined. destruct (is_connected session') eqn:Hi; cbn; rewrite Hk, Hc; unfold quiet; cbn;
    split_and!; try done; exists session'; rewrite Hi; split_and!; try done; try congruence.
  cbn. by rewrite <- (assoc_L (++)).
Qed.

(** From an idle session, a join, successful or not, makes a second join
    refused, and a leave then always succeeds and restores the initial state. *)
Theorem join_leave_roundtrip voice r :
  quiet r -> ensure_joinable_session (rt_state r) = Ok tt -> rt_media_commands r = None ->
  wp Valid (j ← handle_command (JoinVoice voice);
            again ← handle_command (JoinVoice voice);
            l ← handle_command LeaveVoice; mret (j, again, l))
    (fun res r' =>
       res.1.1 <> Panic /\
       res.1.2 = Err (RInvalidState "join_voice requires an idle session") /\
       res.2 = Ok tt /\
       rt_state r' = Snapshot_default /\ rt_voice r' = None /\ quiet r') r.
Proof.
  intros Hq Hj Hm. apply wp_bind. eapply wp_mono; [|exact (wp_join voice r Hq Hj)].
  intros j r1 (Hq1 & Hm1 & Hg & Hc & Hr). apply wp_bind.
  eapply wp_mono; [|apply (wp_refused (JoinVoice voice) "join_voice requires an idle session" r1 Hq1)].
  2: { cbn. rewrite bool_decide_eq_false_2; [done|]. rewrite Hg. by intros (_ & ? & _). }
  intros again r2 [-> Hsame]. apply wp_bind.
  assert (quiet r2 /\ rt_media_commands r2 = None) as [Hq2 Hm2].
  { unfold same_but_epoch in Hsame. rewrite Hsame. split; [done|]. cbn. congruence. }
  eapply wp_mono; [|exact (wp_leave_idle_media r2 Hq2 Hm2)].
  intros l r3 (-> & Hq3 & Hs3 & Hv3 & _). cbn. split_and!; try done. by destruct j.
Qed.

(** ** The voice session comes back from the media *)

(** The runtime while a driver holds the session. *)
Record lent (generation channel : Z) (r : Runtime) : Prop := {
  lent_quiet : quiet r;
  lent_voice : rt_voice r = None;
  lent_generation : rt_transport_generation r = generation;
  lent_channel : rt_media_commands r = Some channel;
}.

(** The driver's result so far: nothing, or the session it was given. *)
Definition returned_ok (session : vsession) (p : Pipeline) : Prop :=
  match pl_returned p with
  | Some s => keeps_context session s
  | None => pl_result p = if pl_driver_done p then driver_gone else Ok tt
  end.

Lemma wp_emit_playback_state k v e i d n g ch r :
  lent g ch r -> is_Some (playback_state_of k) ->
  wp Valid (emit_playback_state k v e i d n) (fun res r' => res = Ok tt /\ lent g ch r') r.
Proof.
  intros [[Hs Hl] Hv Hg Hc] [st Hk]. destruct r; cbn in *; subst.
  rewrite Hk. destruct (interrupted_at _ _); cbn; [done|]. by case_bool_decide.
Qed.

Lemma wp_report_progress e d n g ch r :
  lent g ch r -> wp Valid (report_progress e d n) (fun _ r' => lent g ch r') r.
Proof.
  intros [[Hs Hl] Hv Hg Hc]. destruct r; cbn in *; subst. by destruct (interrupted_at _ _).
Qed.

Lemma wp_count_interruptions err g ch r :
  lent g ch r -> wp Valid (count_interruptions err) (fun _ r' => lent g ch r') r.
Proof.
  intros Hr. destruct err as [|e|e]; cbn; [done..|].
  destruct (is_gateway_closed_during_receive e); cbn; destruct (Text.contains _ _); by destruct Hr.
Qed.

Lemma wp_driver_finished session exit p g ch r :
  lent g ch r -> returned_ok session p ->
  match exit with Some e => keeps_context session (exit_session e) | None => True end ->
  wp Valid (driver_finished exit p) (fun p' r' => returned_ok session p' /\ lent g ch r') r.
Proof.
  intros Hr Hp He. destruct exit as [e|]; cbn.
  - apply wp_bind. destruct (exit_error e) as [err|]; [|done].
    eapply wp_mono; [|exact (wp_count_interruptions err g ch r Hr)]. by intros [] r' Hr'.
  - split; [|done]. unfold returned_ok in *. cbn. by destruct (pl_returned p).
Qed.

Lemma returned_with_progress session d n b p :
  returned_ok session p -> returned_ok session (with_progress d n b p).
Proof. done. Qed.

Lemma wp_pipeline_turn session t i p g ch r :
  lent g ch r -> returned_ok session p -> Valid (AskPipeline session) i ->
  wp Valid (pipeline_turn t i p) (fun res r' =>
    exists p' c, res = Ok (p', c) /\ returned_ok session p' /\ lent g ch r') r.
Proof.
  intros Hr Hp Hi.
  assert (forall k p', is_Some (playback_state_of k) -> returned_ok session p' ->
    wp Valid (_ ←? emit_track_state k t p'; mret (Ok (p', false))) (fun res r' =>
      exists p' c, res = Ok (p', c) /\ returned_ok session p' /\ lent g ch r') r) as Hemit.
  { intros k p' Hk Hp'. apply wp_bind.
    eapply wp_mono; [|exact (wp_emit_playback_state k _ _ _ _ _ g ch r Hr Hk)].
    intros res r' [-> Hr']. cbn. eauto 10. }
  destruct i; cbn [pipeline_turn].
  - destruct (pl_buffering p); [cbn; eauto 10|]. apply Hemit; [done|exact Hp].
  - apply wp_bind. eapply wp_mono; [|eapply wp_report_progress; exact Hr]. cbn. eauto 10.
  - apply wp_bind. eapply wp_mono; [|eapply wp_report_progress; exact Hr]. cbn. eauto 10.
  - destruct (pl_buffering p); [|cbn; eauto 10]. apply Hemit; [done|exact Hp].
  - cbn. eauto 10.
  - cbn. eauto 10.
  - apply wp_bind. eapply wp_mono; [|exact (wp_driver_finished session exit p g ch r Hr Hp Hi)].
    intros p' r' [Hp' Hr']. cbn. eauto 10.
  - cbn. eauto 10.
Qed.

Lemma wp_pipeline_loop turns session t p g ch r :
  lent g ch r -> returned_ok session p ->
  wp Valid (pipeline_loop turns t ch session p) (fun res r' =>
    exists p', res = Ok p' /\ returned_ok session p' /\ lent g ch r') r.
Proof.
  revert p r. induction turns as [|turns IH]; intros p r Hr Hp; [intros []|].
  cbn [pipeline_loop]. apply wp_bind. cbn. apply wp_bind.
  assert (forall r1, lent g ch r1 -> wp Valid (input ← ask (AskPipeline session);
      turn ←? pipeline_turn t input p;
      if turn.2 || pl_driver_done turn.1 || is_err (pl_result turn.1)
      then mret (Ok turn.1)
      else pipeline_loop turns t ch session turn.1) (fun res r' =>
    exists p', res = Ok p' /\ returned_ok session p' /\ lent g ch r') r1) as Hgo.
  { intros r1 Hr1. apply wp_bind. intros i Hi. apply wp_bind.
    eapply wp_mono; [|exact (wp_pipeline_turn session t i p g ch r1 Hr1 Hp Hi)].
    intros res r2 (p' & c & -> & Hp' & Hr2). cbn.
    destruct (_ || _); [cbn; eauto|]. by apply IH. }
  destruct (interrupted_at _ _); [|by apply Hgo].
  apply wp_bind. intros [] _; cbn; [|by apply Hgo]. apply Hgo. by destruct Hr.
Qed.

(** The driver's channel withdrawn, the session not yet back. *)
Definition collected (generation : Z) (r : Runtime) : Prop :=
  quiet r /\ rt_voice r = None /\ rt_transport_generation r = generation /\ rt_media_commands r = None.

Lemma wp_collect_driver session p g ch r :
  lent g ch r -> returned_ok session p ->
  wp Valid (collect_driver ch session p) (fun p' r' => collected g r' /\
    match pl_returned p' with
    | Some s => keeps_context session s
    | None => pl_result p' = driver_gone
    end) r.
Proof.
  intros [[Hs Hl] Hv Hg Hc] Hp. destruct r; cbn in *; subst. unfold returned_ok in Hp.
  rewrite bool_decide_eq_true_2 by done.
  destruct (pl_driver_done p) eqn:Hd; cbn; [unfold collected, quiet; cbn; by destruct (pl_returned p)|].
  intros [e|] He; cbn; (split; [done|]); [exact He|].
  destruct (pl_returned p); [done|]. by rewrite Hp.
Qed.

Lemma wp_end_media session ended interrupted post r :
  (forall res s, keeps_context session s -> res <> Panic -> post (res, s) r) ->
  wp Valid (end_media session ended interrupted) post r.
Proof.
  intros H. unfold end_media. destruct (_ || _).
  - intros [res s] [Hn Hk]. by apply H.
  - destruct interrupted; cbn; [|by apply H].
    intros [res s] [Hn Hk]. cbn in *. apply H; [done|]. by destruct res.
Qed.

(** The session is back, for the same place, and nothing is left running. *)
Definition given_back (session : vsession) (r : Runtime) : Prop :=
  quiet r /\ rt_media_commands r = None /\
  exists s, rt_voice r = Some s /\ keeps_context session s.

Lemma wp_return_session session t returned ended interrupted r :
  collected (pt_generation t) r ->
  match returned with Some s => keeps_context session s | None => True end ->
  wp Valid (return_session t returned ended interrupted) (fun res r' =>
    match returned with
    | Some _ => given_back session r'
    | None => quiet r' /\ rt_media_commands r' = None
    end) r.
Proof.
  intros ([Hs Hl] & Hv & Hg & Hm) Hk. destruct r; cbn in *; subst.
  destruct returned as [s|]; [|done]. cbn. rewrite Z.eqb_refl. cbn.
  apply wp_bind, wp_end_media. intros res s' Hk' _. cbn.
  split_and!; [done..|]. exists s'. split; [done|]. unfold keeps_context in *. congruence.
Qed.

Lemma wp_track_ended e n session r :
  given_back session r -> wp Valid (track_ended e n) (fun _ r' => given_back session r') r.
Proof.
  intros ([Hs Hl] & Hm & Hv). destruct r; cbn in *; subst. by destruct (interrupted_at _ _).
Qed.

Lemma wp_send_playback_frames t session n r :
  quiet r -> rt_voice r = None -> rt_transport_generation r = pt_generation t ->
  wp Valid (send_playback_frames t session n) (fun res r' =>
    given_back session r' \/ (res = driver_gone /\ quiet r' /\ rt_media_commands r' = None)) r.
Proof.
  intros [Hs Hl] Hv Hg. unfold send_playback_frames. cbn. intros depth _.
  set (p0 := mkPipeline n depth false false false (Ok tt) None). set (r0 := with_media _ _ _ _).
  assert (lent (pt_generation t) (rt_next_channel r) r0) as Hr0 by by destruct r.
  assert (wp Valid (if 0 <? depth then emit_track_state EPlaying t p0 else mret (Ok tt))
    (fun res r' => res = Ok tt /\ lent (pt_generation t) (rt_next_channel r) r') r0) as Hp0.
  { destruct (0 <? depth); [|done]. by apply wp_emit_playback_state. }
  apply wp_bind. eapply wp_mono; [|exact Hp0]. intros res r1 [-> Hr1]. cbn. intros turns _.
  apply wp_bind. eapply wp_mono; [|exact (wp_pipeline_loop turns session t p0 _ _ r1 Hr1 eq_refl)].
  intros res r2 (p & -> & Hp & Hr2). cbn.
  apply wp_bind. eapply wp_mono; [|exact (wp_collect_driver session p _ _ r2 Hr2 Hp)].
  clear. intros p r3 [Hr3 Hret]. cbn. apply wp_bind.
  eapply wp_mono; [|apply (wp_return_session session _ (pl_returned p) _ _ r3 Hr3);
                    by destruct (pl_returned p)].
  intros cleanup r4 Hr4. apply wp_bind. destruct (pl_returned p) as [s|].
  - eapply wp_mono; [|instantiate (1 := fun _ r' => given_back session r');
      destruct (_ && is_ok _); [by apply wp_track_ended|exact Hr4]].
    intros [] r5 Hr5. cbn. by left.
  - rewrite Hret. rewrite andb_false_r. cbn. right. by destruct Hr4.
Qed.

(** The runtime before the session is taken. *)
Definition holds (session : vsession) (r : Runtime) : Prop := quiet r /\ rt_voice r = Some session.

Lemma wp_begin_resolving v e session r :
  holds session r -> wp Valid (begin_resolving v e) (fun res r' => res <> Panic /\ holds session r') r.
Proof.
  intros [[Hs Hl] Hv]. destruct r as [s]; cbn in *; subst. destruct (interrupted_at _ _); cbn; [done|].
  unfold checked, ensure_active_voice_session. by destruct (_ && _).
Qed.

Lemma wp_wait_for_connected_voice e session r :
  holds session r -> wp Valid (wait_for_connected_voice e) (fun _ r' => holds session r') r.
Proof.
  intros Hr. unfold wait_for_connected_voice. intros polls _.
  induction polls as [|polls IH]; cbn; (destruct (interrupted_at _ _); [done|]); cbn;
    destruct Hr as [[Hs Hl] Hv]; destruct r; cbn in *; subst; cbn; by destruct (is_connected session).
Qed.

Lemma wp_emit_before_media k v e i d n session r :
  holds session r -> is_Some (playback_state_of k) ->
  wp Valid (emit_playback_state k v e i d n) (fun res r' => res = Ok tt /\ holds session r') r.
Proof.
  intros [[Hs Hl] Hv] [st Hk]. destruct r; cbn in *; subst.
  rewrite Hk. destruct (interrupted_at _ _); cbn; [done|]. by case_bool_decide.
Qed.

#[local] Arguments wait_for_connected_voice : simpl never.
#[local] Arguments emit_playback_state : simpl never.
#[local] Arguments begin_resolving : simpl never.
#[local] Arguments send_playback_frames : simpl never.
#[local] Arguments start_media : simpl never.

(** The ways a playback task can leave the voice session. *)
Definition session_kept (session : vsession) (res : rresult unit) (r : Runtime) : Prop :=
  quiet r /\
  ((exists s, rt_voice r = Some s /\ keeps_context session s) \/
   (res = driver_gone /\ rt_media_commands r = None)).

Lemma holds_kept session res r : holds session r -> session_kept session res r.
Proof. intros [Hq Hv]. split; [done|]. left. by exists session. Qed.

Lemma wp_start_media v e src session taken r :
  quiet r -> rt_voice r = None -> keeps_context session taken ->
  wp Valid (start_media v e src taken) (session_kept session) r.
Proof.
  intros Hq Hv Hk. unfold start_media. apply wp_bind. intros [res s] [Hn Hks]. cbn in Hn, Hks.
  assert (keeps_context session s) as Hs by (unfold keeps_context in *; congruence).
  assert (forall res', session_kept session res' (with_voice (Some s) r)) as Hback.
  { intros res'. split; [by destruct r|]. left. by exists s. }
  destruct r; destruct Hq as [Hq1 Hq2]; cbn in Hq1, Hq2, Hv; subst.
  destruct res as [[]|err|]; cbn; [|apply Hback|done].
  destruct (interrupted_at _ _); cbn; [apply Hback|].
  eapply wp_mono; [|apply wp_send_playback_frames; done].
  intros res r' [(Hq & Hm & s' & Hv' & Hk')|(-> & Hq & Hm)]; (split; [done|]); [left|by right].
  exists s'. split; [done|]. unfold keeps_context in *. congruence.
Qed.

Lemma wp_play_with_epoch v e session r :
  holds session r -> wp Valid (play_with_epoch v e) (session_kept session) r.
Proof.
  intros Hr. unfold play_with_epoch. apply wp_bind.
  eapply wp_mono; [|exact (wp_begin_resolving v e session r Hr)].
  intros [[]|err|] r1 [Hn Hr1]; cbn; [|by apply holds_kept..]. destruct (rt_playback r1); cbn; [|by apply holds_kept].
  apply wp_bind. eapply wp_mono; [|exact (wp_wait_for_connected_voice e session r1 Hr1)].
  intros [] r2 Hr2; cbn; [|by apply holds_kept].
  intros [src|err|] _; cbn; [|by apply holds_kept..].
  assert (holds session (with_reset false r2)) as Hr3 by done. revert Hr3. generalize (with_reset false r2).
  clear. intros r Hr. destruct (interrupted_at e r); cbn; [by apply holds_kept|].
  apply wp_bind. eapply wp_mono; [|by apply wp_emit_before_media].
  intros res r1 [-> Hr1]. cbn. intros [[]|err|] _; cbn; [|by apply holds_kept..].
  destruct (interrupted_at e r1) eqn:Hi; cbn; [by apply holds_kept|].
  pose proof Hr1 as [[Hs Hl] Hv]. rewrite Hl, Hi, Hv. cbn.
  apply wp_start_media; [by destruct r1|done|done].
Qed.


(** ** Rollover *)

(** The old session, or the same one after a stop boundary. *)
Definition same_place (v v' : option vsession) : Prop :=
  match v, v' with
  | Some s, Some s' => keeps_context s s'
  | None, None => True
  | _, _ => False
  end.

Definition reconnect_reason (e : VoiceError) : string := "voice reconnect failed: " +:+ voice_error_text e.

(** What a failed reconnect makes of the snapshot: the loaded track is given
    up, and a session without one only gets the reason. *)
Definition reconnect_failed (e : VoiceError) (s : Snapshot) : Snapshot :=
  match current_video_id s with
  | Some _ => interrupted_playback (reconnect_reason e) s
  | None => recovered_without_playback (reconnect_reason e) s
  end.

Lemma wp_quiesce r :
  quiet r -> rt_media_commands r = None ->
  wp Valid quiesce_current_transport
    (fun _ r' => quiet r' /\ rt_state r' = rt_state r /\ same_place (rt_voice r) (rt_voice r')) r.
Proof.
  intros [Hs Hl] Hm. destruct r as [s ev v]; cbn in *; subst. cbn. destruct v as [session|]; cbn; [|done].
  destruct (is_connected session && media_started session); cbn; [|done].
  intros [res s'] [Hn Hk]. by cbn.
Qed.

#[local] Arguments quiesce_current_transport : simpl never.

Lemma wp_rollover_failed e rollover r :
  quiet r -> rt_media_commands r = None -> rt_rollover_epoch r = rollover ->
  wp Valid (rollover_failed e (current_video_id (rt_state r)) (rt_playback_epoch r) rollover)
    (fun res r' => res = Err (Voice e) /\ quiet r' /\ same_place (rt_voice r) (rt_voice r') /\
       rt_state r' = reconnect_failed e (rt_state r)) r.
Proof.
  intros [Hs Hl] Hm <-. unfold rollover_failed, reconnect_failed. cbn. rewrite Z.eqb_refl. cbn.
  destruct (current_video_id (rt_state r)) as [video|] eqn:Hv; cbn.
  - repeat (rewrite Z.eqb_refl; cbn). rewrite Hs, Hv. rewrite bool_decide_eq_true_2 by done. cbn.
    apply wp_bind. apply wp_bind. eapply wp_mono; [|apply wp_quiesce; done].
    intros [] r1 (Hq1 & Hst & Hsp). destruct r1; destruct Hq1; cbn in *; subst. cbn. done.
  - rewrite Hs. cbn. split_and!; try done. by destruct (rt_voice r).
Qed.

Lemma wp_spawn_resume video resume rollover r post :
  rt_state_locked r = false ->
  (forall e, post (Ok tt) (with_epochs e (rt_rollover_epoch r) (rt_transport_generation r) r)) ->
  wp Valid (spawn_resume video resume rollover) post r.
Proof.
  intros Hs Hpost. pose proof (Hpost (rt_playback_epoch r)) as H0.
  assert (with_epochs (rt_playback_epoch r) (rt_rollover_epoch r) (rt_transport_generation r) r = r) as Hr
    by by destruct r. rewrite Hr in H0. unfold spawn_resume. cbn.
  destruct video as [v|]; [|done]. destruct (rt_playback r); cbn; [|done].
  destruct (rt_rollover_epoch r =? rollover); cbn; [|done].
  destruct (rt_playback_epoch r =? resume); cbn; [|done].
  rewrite Hs. case_bool_decide; cbn; [apply Hpost|done].
Qed.

#[local] Arguments rollover_failed : simpl never.
#[local] Arguments spawn_resume : simpl never.

Definition rollover_outcome (new_voice : VoiceContext) (r : Runtime) (res : rresult unit) (r' : Runtime) : Prop :=
  quiet r' /\
  match res with
  | Ok _ => exists s, rt_voice r' = Some s /\ voice_context s = new_voice /\
      rt_state r' = reconnected s (reconnecting (rt_state r))
  | Err e => exists ve, e = Voice ve /\ same_place (rt_voice r) (rt_voice r') /\
      rt_state r' = reconnect_failed ve (reconnecting (rt_state r))
  | Panic => False
  end.

Lemma wp_replace_transport new_voice rollover r :
  quiet r -> rt_media_commands r = None -> rt_rollover_epoch r = rollover ->
  wp Valid (replace_transport new_voice (current_video_id (rt_state r)) rollover)
    (rollover_outcome new_voice r) r.
Proof.
  intros [Hs Hl] Hm <-. unfold replace_transport. cbn. rewrite Hm. cbn. rewrite Hs. cbn.
  set (r1 := with_events _ _).
  assert (forall err, wp Valid (rollover_failed err (current_video_id (rt_state r))
    (rt_playback_epoch r1) (rt_rollover_epoch r)) (rollover_outcome new_voice r) r1) as Hfail.
  { intros err. assert (current_video_id (rt_state r) = current_video_id (rt_state r1)) as -> by done.
    eapply wp_mono; [|apply (wp_rollover_failed err (rt_rollover_epoch r) r1); done].
    intros res r' (-> & Hq & Hv & Hst). split; [done|]. by exists err. }
  intros [s|err|] Hc; cbn; [|exact (Hfail err)|done].
  intros [[[]|err|] s'] [Hn Hk]; cbn in *; [|exact (Hfail err)|done].
  rewrite Z.eqb_refl. cbn. rewrite Hl. cbn. rewrite Hs. cbn.
  apply wp_spawn_resume; [done|]. intros e. split; [done|]. exists s'.
  split_and!; [done| |done]. unfold keeps_context in Hk. congruence.
Qed.

(** An update to another voice context either installs a session for the new
    context and publishes it, keeping the track, or keeps the old session,
    reports why and gives up the track. *)
Theorem rollover_replaces_or_gives_up new_voice r :
  quiet r -> in_voice (rt_state r) = true -> s_state (rt_state r) <> Paused ->
  rt_media_commands r = None -> (voice_context <$> rt_voice r) <> Some new_voice ->
  wp Valid (handle_command (UpdateVoiceContext new_voice)) (rollover_outcome new_voice r) r.
Proof.
  intros [Hs Hl] Hv Hp Hm Hne. cbn. rewrite Hs.
  unfold update_check, rollover_check, ensure_active_voice_session. fold (in_voice (rt_state r)). rewrite Hv. cbn.
  rewrite bool_decide_eq_false_2 by done. unfold rollover_voice_context. cbn. rewrite Hs.
  unfold rollover_check, ensure_active_voice_session. fold (in_voice (rt_state r)). rewrite Hv. cbn.
  set (r1 := with_epochs _ _ _ _).
  assert (forall r2, quiet r2 -> rt_media_commands r2 = None -> rt_rollover_epoch r2 = bump (rt_rollover_epoch r) ->
    rt_state r2 = rt_state r -> rt_voice r2 = rt_voice r ->
    wp Valid (_ ←? stop_media_owner;
      same ← current_voice_context_matches new_voice;
      if (same : bool) then rollover_matching_voice_context new_voice (current_video_id (rt_state r)) (bump (rt_rollover_epoch r))
      else replace_transport new_voice (current_video_id (rt_state r)) (bump (rt_rollover_epoch r)))
      (rollover_outcome new_voice r) r2) as Hgo.
  { intros r2 [Hs2 Hl2] Hm2 He2 Hst2 Hv2. cbn. rewrite Hm2. cbn. rewrite Hl2.
    assert (match rt_voice r2 with Some s => bool_decide (voice_context s = new_voice) | None => false end = false) as ->.
    { rewrite Hv2. destruct (rt_voice r) as [s|]; [|done]. apply bool_decide_eq_false_2. intros <-. by apply Hne. }
    rewrite <- Hst2, <- He2.
    assert (with_voice (rt_voice r2) r2 = r2) as -> by by destruct r2.
    eapply wp_mono; [|apply wp_replace_transport; done].
    unfold rollover_outcome. intros res r' H. by rewrite <- Hst2, <- Hv2. }
  apply wp_bind. destruct (current_video_id (rt_state r)) as [video|].
  - exact (Hgo (with_interruptions (rt_gateway_interruptions r1) (rt_dave_interruptions r1)
      (bump (rt_reconnect_interruptions r1)) r1) (conj Hs Hl) Hm eq_refl eq_refl eq_refl).
  - exact (Hgo r1 (conj Hs Hl) Hm eq_refl eq_refl eq_refl).
Qed.
End specs.

(** ** The theorems at concrete sessions *)

Module ConcreteSpecs.
Import Concrete.

Definition ready_snapshot : Snapshot :=
  mkSnapshot VoiceReady (Some "g") (Some "c") None None 0 0 false false None.
Definition playing_snapshot : Snapshot :=
  mkSnapshot Playing (Some "g") (Some "c") (Some "v") (Some 251) 5 40 false false None.
Definition connected_session : vsession := mkPlainSession guild true true.
Definition ready_runtime : Runtime := with_voice (Some connected_session) (with_state ready_snapshot (new_runtime true)).
Definition playing_runtime : Runtime := with_media (Some 0) [] 1 (with_state playing_snapshot (new_runtime true)).
Definition elsewhere : VoiceContext := mkVoiceContext "g" "other" "u" "s" "e" "t".

Lemma refused_commands_change_nothing_witness :
  wp Valid (handle_command Resume)
    (fun res r' => res = Err (RInvalidState "resume requires an active track") /\
       same_but_epoch ready_runtime r') ready_runtime.
Proof. exact (refused_commands_change_nothing Resume "resume requires an active track" ready_runtime (conj eq_refl eq_refl) eq_refl). Defined.

Lemma pause_resume_roundtrip_witness :
  wp Valid (p ← handle_command Pause; q ← handle_command Resume; mret (p, q))
    (fun res r' => res = (Ok tt, Ok tt) /\
       rt_state r' = playing_snapshot /\
       rt_events r' = [from_snapshot EPaused playing_snapshot; from_snapshot EPlaying playing_snapshot] /\
       rt_media_log r' = [(0, MPause); (0, MResume)] /\
       rt_voice r' = None /\ rt_playback_epoch r' = 0) playing_runtime.
Proof. exact (pause_resume_roundtrip playing_runtime (conj eq_refl eq_refl) eq_refl (ex_intro _ _ eq_refl) eq_refl). Defined.

Lemma join_leave_roundtrip_witness :
  wp Valid (j ← handle_command (JoinVoice guild);
            again ← handle_command (JoinVoice guild);
            l ← handle_command LeaveVoice; mret (j, again, l))
    (fun res r' =>
       res.1.1 <> Panic /\
       res.1.2 = Err (RInvalidState "join_voice requires an idle session") /\
       res.2 = Ok tt /\
       rt_state r' = Snapshot_default /\ rt_voice r' = None /\ quiet r') (new_runtime true).
Proof. exact (join_leave_roundtrip guild (new_runtime true) (conj eq_refl eq_refl) eq_refl eq_refl). Defined.


Lemma rollover_replaces_or_gives_up_witness :
  wp Valid (handle_command (UpdateVoiceContext elsewhere)) (rollover_outcome elsewhere ready_runtime) ready_runtime.
Proof.
  apply (rollover_replaces_or_gives_up elsewhere ready_runtime); [split; reflexivity|reflexivity|done|reflexivity|done].
Defined.
End ConcreteSpecs.
