(* ===== verification/DaveSession.v ===== *)
(** * DAVE sessions

    crates/discord-voice-service-voice/src/dave/session.rs and
    dave/external_sender.rs: the group session that is built during the
    handshake and the runtime context that encrypts and decrypts media.

    The MLS library (davey, over openmls) is the class [Davey]: an abstract
    group state with one operation per call the code makes. Its errors are
    their messages; a call may panic where the code catches a panic. *)

From S2P Require Import Prelude Text DaveWire Protocol.
From stdpp Require Import prelude strings.
Open Scope Z_scope.

Inductive DaveMediaType : Type := Audio | VideoMedia.
Inductive Codec : Type := CodecOpus | CodecUnknown.

(** The library's commit and welcome of a local commit. *)
Record CommitWelcome : Type := mkCommitWelcome {
  cw_commit : list Z;
  cw_welcome : option (list Z);
}.

Class Davey : Type := {
  mls : Type;
  DAVE_PROTOCOL_VERSION : Z;
  mls_new (protocol_version user_id group_id : Z) : result string mls;
  mls_set_external_sender (sender : list Z) (s : mls) : mls * result string unit;
  mls_protocol_version (s : mls) : Z;
  mls_epoch (s : mls) : option Z;
  mls_create_key_package (s : mls) : mls * result string (list Z);
  mls_process_proposals (operation : DaveMlsProposalsOperation) (proposals : list Z)
    (expected_user_ids : option (list Z)) (s : mls) : mls * result string (option CommitWelcome);
  mls_process_commit (commit : list Z) (s : mls) : mls * result string unit;
  mls_process_welcome (welcome : list Z) (s : mls) : mls * result string unit;
  mls_user_ids (s : mls) : option (list Z);
  mls_epoch_authenticator (s : mls) : option (list Z);
  mls_pairwise_fingerprint (version user_id : Z) (s : mls) : result string (list Z);
  mls_encrypt_opus (frame : list Z) (s : mls) : mls * result string (list Z);
  mls_encrypt (media : DaveMediaType) (codec : Codec) (frame : list Z) (s : mls)
    : mls * result string (list Z);
  mls_decrypt (user_id : Z) (media : DaveMediaType) (frame : list Z) (s : mls)
    : mls * result string (list Z);
  tls_deserialize_external_sender (bytes : list Z) : result string unit;
  ext_sender : Type;
  ext_sender_new (group_id : Z) : result string ext_sender;
  ext_sender_serialize (s : ext_sender) : result string (list Z);
}.

(** ** User ids *)

(** The message of the standard library's [ParseIntError], found where the
    digits are read. *)
Fixpoint parse_digits_error (m acc : Z) (s : string) : string :=
  match s with
  | EmptyString => "number too large to fit in target type"
  | String c s' =>
      match digit_value c with
      | None => "invalid digit found in string"
      | Some d =>
          if acc * 10 + d <=? m then parse_digits_error m (acc * 10 + d) s'
          else "number too large to fit in target type"
      end
  end.

Definition parse_int_error (s : string) : string :=
  match s with
  | EmptyString => "cannot parse integer from empty string"
  | String c s' =>
      if bool_decide (c = Ascii.Ascii true true false true false true false false)
      then match s' with
           | EmptyString => "invalid digit found in string"
           | _ => parse_digits_error u64_max 0 s'
           end
      else parse_digits_error u64_max 0 s
  end.

Definition parse_user_id (user_id : string) : dresult Z :=
  match parse_u64 user_id with
  | Some n => Ok n
  | None => Err (InvalidUserId (parse_int_error user_id))
  end.

Definition parse_user_ids (user_ids : list string) : dresult (list Z) := collect parse_user_id user_ids.

Definition operation {A} (context : string) (r : result string A) : dresult A :=
  map_err (Operation context) r.
Definition mls_failure {A} (context mls_source : string) (r : result string A) : dresult A :=
  map_err (MlsFailure context mls_source) r.

Section dave.
Context {D : Davey}.

Record DaveSession : Type := mkDaveSession {
  ds_inner : option mls;
  ds_pending_external_sender : option (list Z);
}.

Record DaveRuntimeContext : Type := mkDaveRuntimeContext {
  rc_protocol_version : Z;
  rc_session : mls;
}.

(** [DaveCommitResult], [DaveWelcomeResult] *)
Record DaveCommitResult : Type := mkDaveCommitResult {
  cr_failed : bool;
  cr_ignored : bool;
  cr_roster_member_ids : list Z;
}.

Abbreviation dstate := (stm DaveSession DaveError).
Abbreviation rstate := (stm DaveRuntimeContext DaveError).

Definition DaveSession_new : DaveSession := mkDaveSession None None.

(** A call on the group of a session ([inner_mut]) or of a runtime context. *)
Definition inner_mut {A} (context : string) (f : mls -> mls * result string A) : dstate A := fun s =>
  match ds_inner s with
  | None => (s, Err NotInitialized)
  | Some inner =>
      let '(inner', r) := f inner in
      (mkDaveSession (Some inner') (ds_pending_external_sender s), operation context r)
  end.
Definition on_session {A} (context : string) (f : mls -> mls * result string A) : rstate A := fun s =>
  let '(session, r) := f (rc_session s) in
  (mkDaveRuntimeContext (rc_protocol_version s) session, operation context r).

(** A caught panic is an error. *)
Definition catch_unwind {A} (r : result string A) (context mls_source : string) : dresult A :=
  match r with
  | Panic => Err (MlsFailure context mls_source "external sender deserialization panicked")
  | r => mls_failure context mls_source r
  end.

Definition validate_external_sender (external_sender : list Z) : dresult unit :=
  catch_unwind (tls_deserialize_external_sender external_sender) "set external sender" "SetExternalSender".

Definition set_external_sender (external_sender : list Z) : dstate unit := fun s =>
  match validate_external_sender external_sender with
  | Ok _ =>
      match ds_inner s with
      | None => (mkDaveSession None (Some external_sender), Ok tt)
      | Some inner =>
          let '(inner', r) := mls_set_external_sender external_sender inner in
          (mkDaveSession (Some inner') (Some external_sender),
           catch_unwind r "set external sender" "SetExternalSender")
      end
  | Err e => (s, Err e)
  | Panic => (s, Panic)
  end.

Definition init (protocol_version group_id : Z) (self_user_id : string) : dstate unit := fun s =>
  if protocol_version =? 0
  then (s, Err (Operation "init" "protocol version must be non-zero"))
  else
    let r := user_id ← parse_user_id self_user_id;
             inner ← operation "init" (mls_new protocol_version user_id group_id);
             match ds_pending_external_sender s with
             | None => Ok inner
             | Some sender =>
                 let '(inner', r) := mls_set_external_sender sender inner in
                 _ ← mls_failure "set external sender" "SetExternalSender" r; Ok inner'
             end in
    match r with
    | Ok inner => (mkDaveSession (Some inner) (ds_pending_external_sender s), Ok tt)
    | Err e => (s, Err e)
    | Panic => (s, Panic)
    end.

Definition protocol_version (s : DaveSession) : Z :=
  match ds_inner s with Some inner => mls_protocol_version inner | None => 0 end.
Definition session_epoch (s : DaveSession) : option Z := ds_inner s ≫= mls_epoch.
Definition max_supported_protocol_version : Z := DAVE_PROTOCOL_VERSION.

Definition key_package : dstate (list Z) := inner_mut "key package" mls_create_key_package.

Definition expected_user_ids (recognized : list string) : dresult (option (list Z)) :=
  if (length recognized <=? 1)%nat then Ok None
  else ids ← parse_user_ids recognized; Ok (Some ids).

(** What both [process_proposals_with_operation] make of the library's
    answer. *)
Definition packed_commit (op : DaveMlsProposalsOperation) (cw : option CommitWelcome)
    : dresult (option (list Z)) :=
  match op, cw with
  | Revoke, None => Ok None
  | _, Some cw => Ok (Some (pack_commit_welcome (cw_commit cw) (cw_welcome cw)))
  | Append, None => Err (Operation "process proposals" "append proposals returned no commit/welcome")
  end.

Definition session_process_proposals (op : DaveMlsProposalsOperation) (proposals : list Z)
    (recognized : list string) : dstate (option (list Z)) :=
  ids ← lift (expected_user_ids recognized);
  cw ← inner_mut "process proposals" (mls_process_proposals op proposals ids);
  lift (packed_commit op cw).

Definition process_proposals (proposals : list Z) (recognized : list string) : dstate (list Z) :=
  commit_welcome ← session_process_proposals Append proposals recognized;
  lift (ok_or commit_welcome (EmptyOutput "commit welcome")).

Definition roster_member_ids (inner : option mls) : list Z := default [] (inner ≫= mls_user_ids).

Definition session_process_commit (commit : list Z) : dstate DaveCommitResult :=
  _ ← inner_mut "process commit" (mls_process_commit commit);
  gets (fun s => mkDaveCommitResult false false (roster_member_ids (ds_inner s))).
Definition session_process_welcome (welcome : list Z) : dstate (list Z) :=
  _ ← inner_mut "process welcome" (mls_process_welcome welcome);
  gets (fun s => roster_member_ids (ds_inner s)).

Definition last_epoch_authenticator (s : DaveSession) : dresult (list Z) :=
  inner ← ok_or (ds_inner s) NotInitialized;
  ok_or (mls_epoch_authenticator inner) (EmptyOutput "last epoch authenticator").
Definition pairwise_fingerprint (user_id : string) (s : DaveSession) : dresult (list Z) :=
  inner ← ok_or (ds_inner s) NotInitialized;
  user_id ← parse_user_id user_id;
  operation "pairwise fingerprint" (mls_pairwise_fingerprint 0 user_id inner).
Definition session_encrypt_audio_frame (frame : list Z) : dstate (list Z) :=
  inner_mut "encrypt audio frame" (mls_encrypt_opus frame).
Definition session_decrypt_audio_frame_from (user_id : string) (media : DaveMediaType) (frame : list Z)
    : dstate (list Z) := fun s =>
  match ds_inner s with
  | None => (s, Err NotInitialized)
  | Some _ =>
      (user_id ← lift (parse_user_id user_id);
       inner_mut "decrypt audio frame" (mls_decrypt user_id media frame)) s
  end.

(** ** The runtime context *)

Definition from_session (session : DaveSession) : dresult DaveRuntimeContext :=
  inner ← ok_or (ds_inner session) NotInitialized;
  Ok (mkDaveRuntimeContext (protocol_version session) inner).

Definition encrypt (media : DaveMediaType) (frame : list Z) : rstate (list Z) :=
  let codec := match media with Audio => CodecOpus | VideoMedia => CodecUnknown end in
  on_session "encrypt frame" (mls_encrypt media codec frame).
Definition encrypt_audio_frame (frame : list Z) : rstate (list Z) := encrypt Audio frame.

Definition decrypt_audio_frame_from (user_id : string) (media : DaveMediaType) (frame : list Z)
    : rstate (list Z) :=
  user_id ← lift (parse_user_id user_id);
  on_session "decrypt audio frame" (mls_decrypt user_id media frame).

Definition process_commit (commit : list Z) : rstate DaveCommitResult :=
  _ ← on_session "process commit" (mls_process_commit commit);
  gets (fun s => mkDaveCommitResult false false (roster_member_ids (Some (rc_session s)))).
Definition process_welcome (welcome : list Z) : rstate (list Z) :=
  _ ← on_session "process welcome" (mls_process_welcome welcome);
  gets (fun s => roster_member_ids (Some (rc_session s))).
Definition process_proposals_with_operation (op : DaveMlsProposalsOperation) (proposals : list Z)
    (recognized : list string) : rstate (option (list Z)) :=
  ids ← lift (expected_user_ids recognized);
  cw ← on_session "process proposals" (mls_process_proposals op proposals ids);
  lift (packed_commit op cw).

(** ** External senders

    The key pair and credential are openmls's; [propose_add] is used by tests
    only. *)
Definition DaveExternalSender_new (group_id : Z) : dresult ext_sender :=
  operation "external sender key pair" (ext_sender_new group_id).
Definition marshalled_external_sender (s : ext_sender) : dresult (list Z) :=
  operation "external sender" (ext_sender_serialize s).

Definition split_commit_welcome (commit_welcome : list Z) : dresult (list Z * list Z) :=
  unpack_commit_welcome commit_welcome.
End dave.
