(* ===== verification/Endpoint.v ===== *)
(** * The voice endpoint

    crates/discord-voice-service-voice/src/handshake.rs, from [gateway_url] to
    [is_local_ip]: which web socket URL an endpoint stands for. The standard
    library's text trimming and IP address parser are written out; URIs are
    parsed and printed by the http crate ([HttpUri], and [HttpAuthority] for
    the host of an authority). *)

From S2P Require Import Prelude VoiceErrors Text Gateway.
From stdpp Require Import prelude strings.
From Stdlib Require Import Ascii.
Open Scope Z_scope.

(** ** [str::trim] *)

Definition byte_string (l : list N) : string := foldr (fun b s => String (ascii_of_N b) s) EmptyString l.

(** The characters with the property White_Space, in UTF-8. *)
Definition whitespace : list string :=
  byte_string <$>
    ([[9]; [10]; [11]; [12]; [13]; [32]; [0xC2; 0x85]; [0xC2; 0xA0]; [0xE1; 0x9A; 0x80];
      [0xE2; 0x80; 0xA8]; [0xE2; 0x80; 0xA9]; [0xE2; 0x80; 0xAF]; [0xE2; 0x81; 0x9F]; [0xE3; 0x80; 0x80];
      [0xE2; 0x80; 0x80]; [0xE2; 0x80; 0x81]; [0xE2; 0x80; 0x82]; [0xE2; 0x80; 0x83]; [0xE2; 0x80; 0x84];
      [0xE2; 0x80; 0x85]; [0xE2; 0x80; 0x86]; [0xE2; 0x80; 0x87]; [0xE2; 0x80; 0x88]; [0xE2; 0x80; 0x89];
      [0xE2; 0x80; 0x8A]])%N.

Definition strip_any (ws : list string) (s : string) : option string :=
  head (omap (fun w => Text.strip_prefix w s) ws).

(** A string has at most as many leading characters as bytes. *)
Fixpoint trim_start_with (ws : list string) (fuel : nat) (s : string) : string :=
  match fuel with
  | O => s
  | S fuel => match strip_any ws s with Some s' => trim_start_with ws fuel s' | None => s end
  end.

Fixpoint string_rev (s acc : string) : string :=
  match s with EmptyString => acc | String c s => string_rev s (String c acc) end.

Definition trim (s : string) : string :=
  let s := trim_start_with whitespace (String.length s) s in
  let r := string_rev s EmptyString in
  string_rev (trim_start_with ((fun w => string_rev w EmptyString) <$> whitespace) (String.length r) r) EmptyString.

(** ** [IpAddr::from_str] *)

Inductive IpAddr : Type :=
| V4 (octets : list Z)
| V6 (segments : list Z).

Definition parser (X : Type) : Type := string -> option (X * string).

Definition to_digit (radix : Z) (c : ascii) : option Z :=
  let n := Z.of_N (N_of_ascii c) in
  let d := if (48 <=? n) && (n <=? 57) then n - 48
           else if (97 <=? n) && (n <=? 122) then n - 87
           else if (65 <=? n) && (n <=? 90) then n - 55
           else radix in
  if d <? radix then Some d else None.

(** The digits are counted before the number is judged. *)
Fixpoint read_digits (radix max max_digits count acc : Z) (s : string) : option (Z * Z * string) :=
  match s with
  | EmptyString => Some (count, acc, s)
  | String c s' =>
      match to_digit radix c with
      | None => Some (count, acc, s)
      | Some d =>
          if (max <? acc * radix + d) || (max_digits <? count + 1) then None
          else read_digits radix max max_digits (count + 1) (acc * radix + d) s'
      end
  end.

Definition read_number (radix max max_digits : Z) (allow_zero_prefix : bool) : parser Z := fun s =>
  let has_leading_zero := match s with String c _ => bool_decide (c = "0"%char) | _ => false end in
  '(count, value, rest) ← read_digits radix max max_digits 0 0 s;
  if (count =? 0) || (negb allow_zero_prefix && has_leading_zero && (1 <? count)) then None
  else Some (value, rest).

Definition read_given_char (c : ascii) : parser unit := fun s =>
  match s with
  | String a s' => if bool_decide (a = c) then Some (tt, s') else None
  | EmptyString => None
  end.

(** The separator is read before all but the first. *)
Definition read_separator {X} (sep : ascii) (index : nat) (inner : parser X) : parser X := fun s =>
  match index with
  | O => inner s
  | _ => '(_, s) ← read_given_char sep s; inner s
  end.

Fixpoint read_octets (n index : nat) : parser (list Z) := fun s =>
  match n with
  | O => Some ([], s)
  | S n =>
      '(octet, s) ← read_separator "."%char index (read_number 10 255 3 false) s;
      '(octets, s) ← read_octets n (S index) s;
      Some (octet :: octets, s)
  end.
Definition read_ipv4_addr : parser (list Z) := read_octets 4 0.

Definition words (octets : list Z) : list Z :=
  match octets with
  | [a; b; c; d] => [a * 256 + b; c * 256 + d]
  | _ => []
  end.

(** At most [limit] groups, the last two possibly an IPv4 address; the flag
    says that they were. *)
Fixpoint read_groups (left index : nat) (s : string) : list Z * bool * string :=
  match left with
  | O => ([], false, s)
  | S left' =>
      let v4 := if bool_decide (left' = O) then None else read_separator ":"%char index read_ipv4_addr s in
      match v4 with
      | Some (octets, s) => (words octets, true, s)
      | None =>
          match read_separator ":"%char index (read_number 16 65535 4 true) s with
          | Some (group, s) =>
              let '(groups, v4, s) := read_groups left' (S index) s in (group :: groups, v4, s)
          | None => ([], false, s)
          end
      end
  end.

Definition read_ipv6_addr : parser (list Z) := fun s =>
  let '(head_groups, head_ipv4, s) := read_groups 8 0 s in
  if (length head_groups =? 8)%nat then Some (head_groups, s)
  else if (head_ipv4 : bool) then None
  else
    '(_, s) ← read_given_char ":"%char s;
    '(_, s) ← read_given_char ":"%char s;
    let '(tail_groups, _, s) := read_groups (8 - (length head_groups + 1)) 0 s in
    Some (head_groups ++ replicate (8 - length head_groups - length tail_groups) 0 ++ tail_groups, s).

Definition ip_from_str (s : string) : option IpAddr :=
  let parsed :=
    match read_ipv4_addr s with
    | Some (octets, rest) => Some (V4 octets, rest)
    | None => '(segments, rest) ← read_ipv6_addr s; Some (V6 segments, rest)
    end in
  match parsed with
  | Some (ip, EmptyString) => Some ip
  | _ => None
  end.

Definition is_local_ip (ip : IpAddr) : bool :=
  match ip with
  | V4 octets =>
      match octets with
      | a :: b :: _ =>
          (a =? 127) || ((a =? 10) || ((a =? 172) && (16 <=? b) && (b <=? 31)) || ((a =? 192) && (b =? 168)))
      | _ => false
      end
  | V6 segments =>
      bool_decide (segments = [0; 0; 0; 0; 0; 0; 0; 1]) ||
      match segments with s :: _ => Z.land s 0xfe00 =? 0xfc00 | [] => false end
  end.

(** ** The gateway URL *)

Class HttpAuthority : Type := { authority_host : string -> string }.

Definition VOICE_GATEWAY_VERSION : string := "8".

Section endpoint.
Context {U : HttpUri} {H : HttpAuthority}.

Definition endpoint_host (endpoint : string) : vresult (option string) :=
  uri ← map_err (fun _ => InvalidState "voice endpoint invalid") (uri_parse ("https://" +:+ endpoint));
  Ok (option_map authority_host (up_authority uri)).

Definition looks_like_local_endpoint (endpoint : string) : vresult bool :=
  host ← endpoint_host endpoint;
  Ok (match host with
      | None => false
      | Some host =>
          bool_decide (host = "localhost"%string) ||
          match ip_from_str host with Some ip => is_local_ip ip | None => false end
      end).

Definition looks_like_forwarded_endpoint (endpoint : string) : vresult bool :=
  host ← endpoint_host endpoint;
  Ok (match host with
      | None => false
      | Some host =>
          Text.contains host "." && negb (bool_decide (host = "localhost"%string)) &&
          bool_decide (ip_from_str host = None)
      end).

(** [PathAndQuery::as_str] *)
Definition path_and_query_str (pq : string * option string) : string :=
  let s := match pq.2 with Some q => pq.1 +:+ "?" +:+ q | None => pq.1 end in
  if bool_decide (s = EmptyString) then "/"%string else s.

Definition is_version_part (part : string) : bool :=
  match split_once part "="%char with
  | Some (key, _) => bool_decide (key = "v"%string)
  | None => bool_decide (part = "v"%string)
  end.

Definition versioned (path_and_query : string) : string :=
  let '(path, query) := default (path_and_query, EmptyString) (split_once path_and_query "?"%char) in
  let path := if bool_decide (path = EmptyString) then "/"%string else path in
  if existsb is_version_part (split_all query "&"%char) then path +:+ "?" +:+ query
  else if bool_decide (query = EmptyString) then path +:+ "?v=" +:+ VOICE_GATEWAY_VERSION
  else path +:+ "?" +:+ query +:+ "&v=" +:+ VOICE_GATEWAY_VERSION.

Definition versioned_path_and_query (uri : UriParts) : vresult (string * option string) :=
  let path_and_query := match up_path_and_query uri with Some pq => path_and_query_str pq | None => "/"%string end in
  map_err (fun _ => InvalidState "voice endpoint query invalid") (path_and_query_parse (versioned path_and_query)).

Definition gateway_scheme (scheme : string) : vresult string :=
  if bool_decide (scheme = "ws"%string) then Ok "ws"%string
  else if bool_decide (scheme = "wss"%string) then Ok "wss"%string
  else if bool_decide (scheme = "http"%string) then Ok "ws"%string
  else if bool_decide (scheme = "https"%string) then Ok "wss"%string
  else Err (InvalidState "voice endpoint scheme unsupported").

Definition normalize_absolute_gateway_url (uri : UriParts) : vresult string :=
  scheme ← ok_or (up_scheme uri) (InvalidState "voice endpoint scheme missing");
  scheme ← gateway_scheme scheme;
  path_and_query ← versioned_path_and_query uri;
  ok_or (uri_from_parts (mkUriParts (Some scheme) (up_authority uri) (Some path_and_query)))
    (InvalidState "voice endpoint could not be normalized").

Definition gateway_url (endpoint : string) : vresult (option string) :=
  let trimmed := trim endpoint in
  if bool_decide (trimmed = EmptyString) then Ok None else
  match uri_parse trimmed with
  | Ok (mkUriParts (Some scheme) (Some authority) pq) =>
      url ← normalize_absolute_gateway_url (mkUriParts (Some scheme) (Some authority) pq);
      Ok (Some url)
  | Panic => Panic
  | _ =>
      is_local ← looks_like_local_endpoint trimmed;
      if (is_local : bool) then Ok (Some ("ws://" +:+ trimmed +:+ "/?v=" +:+ VOICE_GATEWAY_VERSION)) else
      forwarded ← looks_like_forwarded_endpoint trimmed;
      if (forwarded : bool) then Ok (Some ("wss://" +:+ trimmed +:+ "/?v=" +:+ VOICE_GATEWAY_VERSION))
      else Ok None
  end.
End endpoint.

Example trim_example : trim (byte_string [32; 0xC2; 0xA0; 97; 32; 98; 0xE3; 0x80; 0x80; 10]%N)
  = byte_string [97; 32; 98]%N.
Proof. reflexivity. Qed.
Example ip_examples :
  ip_from_str "192.168.0.1" = Some (V4 [192; 168; 0; 1]) /\ ip_from_str "1.2.3.04" = None /\
  ip_from_str "1.2.3.256" = None /\ ip_from_str "::1" = Some (V6 [0; 0; 0; 0; 0; 0; 0; 1]) /\
  ip_from_str "fd00::ffff:10.0.0.1" = Some (V6 [0xfd00; 0; 0; 0; 0; 0xffff; 0xa00; 1]) /\
  ip_from_str "1:2:3:4:5:6:7:8" = Some (V6 [1; 2; 3; 4; 5; 6; 7; 8]) /\
  ip_from_str "1::2::3" = None /\ ip_from_str "1:2:3:4:5:6:7::" = Some (V6 [1; 2; 3; 4; 5; 6; 7; 0]).
Proof. by vm_compute. Qed.
Example versioned_examples :
  versioned "/?encoding=json" = "/?encoding=json&v=8"%string /\
  versioned "/?v=8&encoding=json" = "/?v=8&encoding=json"%string /\ versioned "/" = "/?v=8"%string.
Proof. by vm_compute. Qed.
