(* ===== verification/Handshake.v ===== *)
(** * The voice handshake

    crates/discord-voice-service-voice/src/handshake.rs: connecting to the
    gateway and the UDP server, joining the DAVE group as an active
    participant or as an observer, resuming a gateway. (The URL of an endpoint
    is in Endpoint.v.)

    The functions are tasks of Task.v. The local variables of a loop are a
    record that is passed on. A loop that waits for gateway events until a
    deadline is given the number of events that arrive before the deadline:
    when they are used up, the deadline has passed. *)

From S2P Require Import Prelude VoiceErrors Text Crypto Protection Discovery Udp DaveWire Json Protocol Gateway DaveSession Task Endpoint.
From stdpp Require Import prelude strings gmap sorting.
Open Scope Z_scope.
Open Scope task_scope.

Definition HANDSHAKE_TIMEOUT : Z := 10000.
Definition POST_HELLO_TIMEOUT_FLOOR : Z := 30000.
Definition DAVE_PROTOCOL_INIT_TRANSITION_ID : Z := 0.
Definition SELF_ONLY_INITIAL_GROUP_GRACE : Z := 5000.

Inductive PendingHandshakeTransitionSource : Type := HCommitBacked | HWelcomeBacked.

#[global] Instance PendingHandshakeTransitionSource_eq_dec : EqDecision PendingHandshakeTransitionSource.
Proof. solve_decision. Defined.

Inductive PendingObserverGatewayUpdate : Type :=
| UpdateSpeaking (user_id : string) (ssrc : Z)
| UpdateClientDisconnect (user_id : string).

Record ObserverDaveMaterial : Type := mkObserverDaveMaterial {
  om_group_id : Z;
  om_protocol_version : Z;
  om_external_sender_bytes : list Z;
}.

(** The users of a set in the order of the set. *)
Definition string_le (a b : string) : Prop := String.leb a b = true.
#[global] Instance string_le_dec : RelDecision string_le := fun a b => decide (String.leb a b = true).
Definition in_order (users : gset string) : list string := merge_sort string_le (elements users).

Section handshake.
Context {A : Aead} {D : Davey} {U : HttpUri} {H : HttpAuthority}.

Record PendingHandshakeTransition : Type := mkHandshakeTransition {
  ht_transition_id : Z;
  ht_runtime : DaveRuntimeContext;
  ht_source : PendingHandshakeTransitionSource;
}.

Record InitialDaveState : Type := mkInitialDaveState {
  id_runtime : option DaveRuntimeContext;
  id_pending_initial_session : option DaveSession;
  id_group_id : Z;
  id_protocol_version : Z;
  id_external_sender : ext_sender;
  id_external_sender_bytes : list Z;
  id_recognized_user_ids : gset string;
  id_completed_welcome_backed : gset Z;
  id_completed_local_init_commit : gset Z;
}.

Record VoiceHandshakeResult : Type := mkHandshakeResult {
  hr_gateway : Z;
  hr_transport : VoiceUdpTransport;
  hr_ssrc : Z;
  hr_session_description : SessionDescription;
  hr_dave : option InitialDaveState;
}.

Record PendingObserverDaveState : Type := mkPendingObserver {
  po_session : option DaveSession;
  po_user_id : string;
  po_group_id : Z;
  po_protocol_version : Z;
  po_external_sender_bytes : option (list Z);
  po_recognized_user_ids : gset string;
  po_prepared : gmap Z Z;
  po_invalidated : gset Z;
  po_key_package : bool;
  po_gateway_winner : bool;
  po_replay_start : nat;
  po_proposals : list (DaveMlsProposalsOperation * list Z);
  po_seeded_events : list VoiceGatewayEvent;
  po_gateway_updates : list PendingObserverGatewayUpdate;
  po_saw_existing_speaker : bool;
}.

Record PendingObserverHandshakeResult : Type := mkObserverHandshake {
  oh_gateway : Z;
  oh_transport : VoiceUdpTransport;
  oh_ssrc : Z;
  oh_session_description : SessionDescription;
  oh_dave_timeout : Z;
  oh_dave : option PendingObserverDaveState;
}.

Record PendingObserverReadyResult : Type := mkObserverReady {
  or_runtime : DaveRuntimeContext;
  or_gateway_updates : list PendingObserverGatewayUpdate;
  or_recognized_user_ids : gset string;
  or_material : ObserverDaveMaterial;
  or_completed_transition_id : option Z;
}.

Record VoiceBootstrap : Type := mkBootstrap {
  vb_gateway : Z;
  vb_transport : VoiceUdpTransport;
  vb_ssrc : Z;
  vb_session_description : SessionDescription;
  vb_recognized_user_ids : gset string;
  vb_saw_existing_speaker : bool;
  vb_dave_timeout : Z;
}.

(** ** The outside world *)

(** How long a receive waits: some milliseconds, the deadline of the
    handshake, or that deadline or the end of the grace period, whichever is
    earlier. *)
Inductive Until : Type :=
| For (ms : Z)
| UntilDeadline
| UntilGraceEnds.

(** What an observer waits for (receive.rs): an event of the gateway, with
    whether the deadline passed meanwhile, a datagram with the time it
    arrived, or the end of the time. *)
Inductive Arrival : Type :=
| GatewayArrival (r : vresult VoiceGatewayEvent) (late : bool)
| PacketArrival (r : vresult (list Z)) (received_at : Z)
| NothingArrives.

(** [AskEventCount]: how many gateway events arrive before a deadline.
    [AskKeyOrder]: the order in which a hash map yields its keys. *)
Inductive question : Type :=
| AskConnect (url : string)
| AskReceive (gateway : Z) (until : Until)
| AskSend (gateway : Z) (message : Outgoing)
| AskSendResume (gateway : Z) (seq_ack : option Z) (server_id session_id token : string)
| AskLookup (host : string) (port : Z)
| AskUdp (target : IpAddr * Z) (ssrc : Z)
| AskObserve (gateway : option Z)
| AskEventCount
| AskKeyOrder (keys : list Z).

(** An address of the resolver; the transport and its address as discovery
    found it. *)
Definition answer (q : question) : Type :=
  match q with
  | AskConnect _ => option (vresult Z)
  | AskReceive _ _ => option (vresult VoiceGatewayEvent)
  | AskSend _ _ | AskSendResume _ _ _ _ _ => vresult unit
  | AskLookup _ _ => vresult (option (IpAddr * Z))
  | AskUdp _ _ => vresult (VoiceUdpTransport * (string * Z))
  | AskObserve _ => Arrival
  | AskEventCount => nat
  | AskKeyOrder _ => list Z
  end.

(** None of the awaited operations panics, only a gateway that is read has
    events, and a hash map yields its keys. *)
Definition Valid (q : question) : answer q -> Prop :=
  match q with
  | AskConnect _ => fun r => r <> Some Panic
  | AskReceive _ _ => fun r => r <> Some Panic
  | AskSend _ _ => fun r => r <> Panic
  | AskSendResume _ _ _ _ _ => fun r => r <> Panic
  | AskLookup _ _ => fun r => r <> Panic
  | AskUdp _ _ => fun r => r <> Panic
  | AskObserve gateway => fun a =>
      match a with
      | GatewayArrival r _ => r <> Panic /\ is_Some gateway
      | PacketArrival r _ => r <> Panic
      | NothingArrives => True
      end
  | AskEventCount => fun _ => True
  | AskKeyOrder keys => fun order => order ≡ₚ keys
  end.

(** What was written to the gateway, and the running heartbeat tasks with
    their intervals. *)
Record World : Type := mkWorld {
  hw_sent : list Outgoing;
  hw_heartbeats : list (Z * Z);
}.

Abbreviation task := (prog World question answer Empty_set).
Abbreviation vtask X := (task (vresult X)).

Definition invalid {X} (reason : string) : vtask X := mret (Err (InvalidState reason)).
Definition send (gateway : Z) (message : Outgoing) : vtask unit :=
  sent ← ask (AskSend gateway message);
  match sent with
  | Ok _ => _ ← writes (fun w => mkWorld (hw_sent w ++ [message]) (hw_heartbeats w)); mret (Ok tt)
  | r => mret r
  end.
Definition spawn_heartbeat_task (gateway heartbeat_interval_ms : Z) : task unit :=
  writes (fun w => mkWorld (hw_sent w) ((gateway, heartbeat_interval_ms `max` 1) :: hw_heartbeats w)).
(** Sending on or dropping the shutdown channel ends the task. *)
Definition stop_heartbeat (gateway : Z) : task unit :=
  writes (fun w => mkWorld (hw_sent w) (List.filter (fun h => negb (h.1 =? gateway)) (hw_heartbeats w))).

Definition next_event (gateway : Z) (until : Until) : vtask VoiceGatewayEvent :=
  received ← ask (AskReceive gateway until);
  match received with
  | None => invalid "voice handshake timed out"
  | Some r => mret r
  end.

Definition post_hello_timeout (heartbeat_interval_ms : Z) : Z :=
  POST_HELLO_TIMEOUT_FLOOR `max` ((heartbeat_interval_ms `max` 1) * 2).

(** ** The DAVE session of a join *)

Definition moved : VoiceError := InvalidState "voice dave session already moved to runtime".
Definition dave_session_mut (s : option DaveSession) : vresult DaveSession := ok_or s moved.
Definition take_dave_session (s : option DaveSession) : vresult DaveSession := ok_or s moved.

(** A call on the session of the join, its errors replaced by [reason]. *)
Definition with_session {X} (s : option DaveSession) (f : DaveSession -> DaveSession * dresult X)
    (reason : string) : vresult (DaveSession * X) :=
  s ← dave_session_mut s;
  let '(s, r) := f s in
  x ← map_err (fun _ => InvalidState reason) r;
  Ok (s, x).

Definition runtime_from (s : option DaveSession) : vresult DaveRuntimeContext :=
  s ← take_dave_session s;
  map_err (fun _ => InvalidState "voice dave runtime create failed") (DaveSession.from_session s).

Definition current_external_sender_bytes (gateway_external_sender : option (list Z))
    (local_external_sender : ext_sender) : vresult (list Z) :=
  match gateway_external_sender with
  | Some sender => Ok sender
  | None => map_err (fun _ => InvalidState "voice dave external sender unavailable")
              (marshalled_external_sender local_external_sender)
  end.

Definition send_pending_join_key_package (gateway : Z) (s : option DaveSession) (pending_key_package : bool)
    : vtask (DaveSession * bool) :=
  s ←? mret (dave_session_mut s);
  if pending_key_package then mret (Ok (s, true)) else
  let '(s, package) := key_package s in
  package ←? mret (map_err (fun _ => InvalidState "voice dave key package failed") package);
  _ ←? send gateway (OutBinary (dave_mls_key_package_payload package));
  mret (Ok (s, true)).

Definition send_local_initial_creator_commit_welcome (gateway : Z) (commit_welcome : list Z) : vtask unit :=
  payload ←? mret (dave_mls_commit_welcome_payload commit_welcome);
  send gateway (OutBinary payload).

Definition joined_group (r : DaveCommitResult) : bool :=
  negb (cr_failed r) && negb (cr_ignored r) && negb (bool_decide (cr_roster_member_ids r = [])).

Definition complete_local_initial_creator_transition (gateway : Z) (s : DaveSession)
    (commit_welcome commit : list Z) (send_transition_ready : bool) : vtask DaveRuntimeContext :=
  _ ←? send_local_initial_creator_commit_welcome gateway commit_welcome;
  let '(s, result) := session_process_commit commit s in
  result ←? mret (map_err (fun _ => InvalidState "voice dave local init commit invalid") result);
  if negb (joined_group result) then invalid "voice dave local init commit did not join group" else
  runtime ←? mret (map_err (fun _ => InvalidState "voice dave runtime create failed") (DaveSession.from_session s));
  _ ←? (if send_transition_ready
        then send gateway (OutJson (dave_transition_ready_payload DAVE_PROTOCOL_INIT_TRANSITION_ID))
        else mret (Ok tt));
  mret (Ok runtime).

Definition process_initial_proposals (s : option DaveSession) (op : DaveMlsProposalsOperation)
    (proposals : list Z) (recognized : gset string) : vresult (DaveSession * option (list Z)) :=
  '(s, commit_welcome) ← with_session s (session_process_proposals op proposals (in_order recognized))
                           "voice dave proposals invalid";
  match commit_welcome, op with
  | Some cw, _ => Ok (s, Some cw)
  | None, Revoke => Ok (s, None)
  | None, Append => Err (InvalidState "voice dave append proposals produced no commit")
  end.

(** The session, and the runtime with our commit when there was one. *)
Definition complete_initial_proposals_transition (gateway : Z) (s : option DaveSession)
    (op : DaveMlsProposalsOperation) (proposals : list Z) (recognized : gset string)
    : vtask (DaveSession + DaveRuntimeContext * list Z) :=
  '(s, commit_welcome) ←? mret (process_initial_proposals s op proposals recognized);
  match commit_welcome with
  | None => mret (Ok (inl s))
  | Some commit_welcome =>
      '(commit, _) ←? mret (map_err (fun _ => InvalidState "voice dave commit welcome invalid")
                             (split_commit_welcome commit_welcome));
      runtime ←? complete_local_initial_creator_transition gateway s commit_welcome commit false;
      mret (Ok (inr (runtime, commit)))
  end.

(** ** Joining as an active participant *)

(** The variables of the loop in [complete_active_dave_transition]. *)
Record ActiveJoin : Type := mkActiveJoin {
  aj_session : option DaveSession;
  aj_recognized : gset string;
  aj_prepared : gmap Z Z;
  aj_pending : option PendingHandshakeTransition;
  aj_key_package : bool;
  aj_completed_welcome : gset Z;
  aj_self_only : bool;
  aj_local_init : option (DaveRuntimeContext * list Z);
  aj_sender : option (list Z);
}.

Definition with_aj_session (s : option DaveSession) (j : ActiveJoin) : ActiveJoin :=
  mkActiveJoin s (aj_recognized j) (aj_prepared j) (aj_pending j) (aj_key_package j)
    (aj_completed_welcome j) (aj_self_only j) (aj_local_init j) (aj_sender j).
Definition with_aj_recognized (u : gset string) (j : ActiveJoin) : ActiveJoin :=
  mkActiveJoin (aj_session j) u (aj_prepared j) (aj_pending j) (aj_key_package j)
    (aj_completed_welcome j) (aj_self_only j) (aj_local_init j) (aj_sender j).
Definition with_aj_prepared (m : gmap Z Z) (j : ActiveJoin) : ActiveJoin :=
  mkActiveJoin (aj_session j) (aj_recognized j) m (aj_pending j) (aj_key_package j)
    (aj_completed_welcome j) (aj_self_only j) (aj_local_init j) (aj_sender j).
Definition with_aj_key_package (b : bool) (j : ActiveJoin) : ActiveJoin :=
  mkActiveJoin (aj_session j) (aj_recognized j) (aj_prepared j) (aj_pending j) b
    (aj_completed_welcome j) (aj_self_only j) (aj_local_init j) (aj_sender j).
Definition with_aj_self_only (b : bool) (j : ActiveJoin) : ActiveJoin :=
  mkActiveJoin (aj_session j) (aj_recognized j) (aj_prepared j) (aj_pending j) (aj_key_package j)
    (aj_completed_welcome j) b (aj_local_init j) (aj_sender j).
Definition with_aj_sender (b : option (list Z)) (j : ActiveJoin) : ActiveJoin :=
  mkActiveJoin (aj_session j) (aj_recognized j) (aj_prepared j) (aj_pending j) (aj_key_package j)
    (aj_completed_welcome j) (aj_self_only j) (aj_local_init j) b.
Definition with_aj_local_init (l : option (DaveRuntimeContext * list Z)) (j : ActiveJoin) : ActiveJoin :=
  mkActiveJoin (aj_session j) (aj_recognized j) (aj_prepared j) (aj_pending j) (aj_key_package j)
    (aj_completed_welcome j) (aj_self_only j) l (aj_sender j).

(** A transition was readied: it waits for its execution, and the session has
    become its runtime. *)
Definition awaiting_execute (t : PendingHandshakeTransition) (j : ActiveJoin) : ActiveJoin :=
  mkActiveJoin None (aj_recognized j) ∅ (Some t) false
    (aj_completed_welcome j) false (aj_local_init j) (aj_sender j).

(** What does not change during the join. *)
Record JoinTerms : Type := mkJoinTerms {
  jt_gateway : Z;
  jt_group_id : Z;
  jt_protocol_version : Z;
  jt_local_external_sender : ext_sender;
}.

Definition initial_dave_state (t : JoinTerms) (j : ActiveJoin) (runtime : DaveRuntimeContext)
    (welcome_backed local_init_commit : gset Z) : vresult InitialDaveState :=
  bytes ← current_external_sender_bytes (aj_sender j) (jt_local_external_sender t);
  Ok (mkInitialDaveState (Some runtime) None (jt_group_id t) (jt_protocol_version t)
        (jt_local_external_sender t) bytes (aj_recognized j) welcome_backed local_init_commit).
Definition pending_initial_dave_state (t : JoinTerms) (j : ActiveJoin) : vresult InitialDaveState :=
  s ← take_dave_session (aj_session j);
  bytes ← current_external_sender_bytes (aj_sender j) (jt_local_external_sender t);
  Ok (mkInitialDaveState None (Some s) (jt_group_id t) (jt_protocol_version t)
        (jt_local_external_sender t) bytes (aj_recognized j) (aj_completed_welcome j) ∅).

(** The loop goes on, or the join is complete. *)
Abbreviation turned := (ActiveJoin + InitialDaveState)%type.
Definition go_on (j : ActiveJoin) : vtask turned := mret (Ok (inl j)).
Definition complete (r : vresult InitialDaveState) : vtask turned :=
  mret (state ← r; Ok (inr state)).

(** The version a transition was prepared with; the first transition needs no
    preparation. The map without the transition is returned too. *)
Definition prepared_version (transition_id protocol_version : Z) (key_package : bool)
    (prepared : gmap Z Z) (reason : string) : vresult (Z * gmap Z Z) :=
  match prepared !! transition_id with
  | Some version => Ok (version, delete transition_id prepared)
  | None =>
      if key_package && bool_decide (prepared = ∅) then Ok (protocol_version, prepared)
      else Err (InvalidState reason)
  end.

Definition on_execute (t : JoinTerms) (j : ActiveJoin) (transition_id : Z) : vtask turned :=
  match aj_pending j with
  | Some p =>
      if transition_id =? ht_transition_id p
      then
        let welcome_backed := if bool_decide (ht_source p = HWelcomeBacked)
          then {[transition_id]} ∪ aj_completed_welcome j else aj_completed_welcome j in
        let local_init : gset Z := if (transition_id =? DAVE_PROTOCOL_INIT_TRANSITION_ID) &&
                             bool_decide (ht_source p = HCommitBacked)
          then {[transition_id]} else ∅ in
        complete (initial_dave_state t j (ht_runtime p) welcome_backed local_init)
      else go_on j
  | None => go_on j
  end.

Definition on_external_sender (j : ActiveJoin) (sender : list Z) : vtask turned :=
  '(s, _) ←? mret (with_session (aj_session j) (set_external_sender sender) "voice dave external sender invalid");
  go_on (with_aj_self_only true (with_aj_sender (Some sender) (with_aj_session (Some s) j))).

Definition note_epoch (transition_id : option Z) (version : Z) (j : ActiveJoin) : ActiveJoin :=
  match transition_id with
  | Some i => with_aj_prepared (<[i := version]> (aj_prepared j)) j
  | None => j
  end.

Definition on_prepare_epoch (t : JoinTerms) (j : ActiveJoin) (transition_id : option Z) (epoch : string)
    (version : Z) : vtask turned :=
  if negb (version =? jt_protocol_version t) then invalid "voice dave prepare epoch protocol version mismatch"
  else if bool_decide (epoch = EmptyString) then invalid "voice dave prepare epoch missing"
  else if bool_decide (is_Some (aj_local_init j)) then go_on (note_epoch transition_id version j)
  else
    '(s, sent) ←? send_pending_join_key_package (jt_gateway t) (aj_session j) (aj_key_package j);
    go_on (note_epoch transition_id version
             (with_aj_self_only false (with_aj_key_package sent (with_aj_session (Some s) j)))).

Definition on_proposals (t : JoinTerms) (j : ActiveJoin) (op : DaveMlsProposalsOperation)
    (proposals : list Z) : vtask turned :=
  if negb (aj_key_package j) then invalid "voice dave proposals missing pending group creation"
  else if bool_decide (is_Some (aj_local_init j)) then go_on j
  else
    completed ←? complete_initial_proposals_transition (jt_gateway t) (aj_session j) op proposals (aj_recognized j);
    match completed with
    | inl s => go_on (with_aj_session (Some s) j)
    | inr (runtime, _) =>
        complete (initial_dave_state t j runtime (aj_completed_welcome j) {[DAVE_PROTOCOL_INIT_TRANSITION_ID]})
    end.

(** A group was joined: its runtime is ready, or waits for the execution. *)
Definition join_transition (t : JoinTerms) (j : ActiveJoin) (transition_id : Z) (s : DaveSession)
    (source : PendingHandshakeTransitionSource) : vtask turned :=
  runtime ←? mret (runtime_from (Some s));
  if transition_id =? DAVE_PROTOCOL_INIT_TRANSITION_ID
  then complete (initial_dave_state t j runtime (aj_completed_welcome j) ∅)
  else
    _ ←? send (jt_gateway t) (OutJson (dave_transition_ready_payload transition_id));
    go_on (awaiting_execute (mkHandshakeTransition transition_id runtime source) j).

(** The gateway's answer to our own commit. *)
Definition confirm_local_init (t : JoinTerms) (j : ActiveJoin) (transition_id : Z) (commit : list Z)
    (runtime : DaveRuntimeContext) (local_commit : list Z) : vtask turned :=
  if negb (bool_decide (commit = local_commit)) then invalid "voice dave local init gateway commit mismatch"
  else complete (initial_dave_state t j runtime (aj_completed_welcome j) {[transition_id]}).

Definition on_remote_commit (t : JoinTerms) (j : ActiveJoin) (transition_id : Z) (commit : list Z)
    : vtask turned :=
  '(_, prepared) ←? mret (prepared_version transition_id (jt_protocol_version t) (aj_key_package j)
      (aj_prepared j) "voice dave commit transition missing pending group creation");
  '(s, result) ←? mret (with_session (aj_session j) (session_process_commit commit) "voice dave commit invalid");
  let j := with_aj_self_only false (with_aj_prepared prepared (with_aj_session (Some s) j)) in
  if cr_ignored result then go_on j
  else if cr_failed result || bool_decide (cr_roster_member_ids result = [])
  then invalid "voice dave commit transition did not join group"
  else join_transition t j transition_id s HCommitBacked.

Definition on_commit (t : JoinTerms) (j : ActiveJoin) (transition_id : Z) (commit : list Z) : vtask turned :=
  match aj_local_init j with
  | Some (runtime, local_commit) =>
      if transition_id =? DAVE_PROTOCOL_INIT_TRANSITION_ID
      then confirm_local_init t (with_aj_local_init None j) transition_id commit runtime local_commit
      else on_remote_commit t j transition_id commit
  | None => on_remote_commit t j transition_id commit
  end.

Definition on_welcome (t : JoinTerms) (j : ActiveJoin) (transition_id : Z) (welcome : list Z) : vtask turned :=
  '(_, prepared) ←? mret (prepared_version transition_id (jt_protocol_version t) (aj_key_package j)
      (aj_prepared j) "voice dave welcome transition missing pending join");
  '(s, _) ←? mret (with_session (aj_session j) (session_process_welcome welcome) "voice dave welcome invalid");
  join_transition t (with_aj_self_only false (with_aj_prepared prepared (with_aj_session (Some s) j)))
    transition_id s HWelcomeBacked.

Definition active_event (t : JoinTerms) (j : ActiveJoin) (event : VoiceGatewayEvent) : vtask turned :=
  match event with
  | DaveExecuteTransition transition_id => on_execute t j transition_id
  | _ =>
      if bool_decide (is_Some (aj_pending j)) then go_on j else
      match event with
      | ClientsConnect user_ids =>
          go_on (with_aj_recognized (aj_recognized j ∪ list_to_set user_ids) j)
      | DaveMlsExternalSenderPackage sender => on_external_sender j sender
      | DavePrepareEpoch transition_id epoch version => on_prepare_epoch t j transition_id epoch version
      | DaveMlsProposals op proposals => on_proposals t j op proposals
      | DaveMlsPrepareCommitTransition transition_id commit => on_commit t j transition_id commit
      | DaveMlsWelcome transition_id welcome => on_welcome t j transition_id welcome
      | _ => go_on j
      end
  end.

(** [events] gateway events arrive before the deadline of the handshake. *)
Fixpoint active_loop (t : JoinTerms) (events : nat) (j : ActiveJoin) : vtask InitialDaveState :=
  match events with
  | O => invalid "voice handshake timed out"
  | S events =>
      received ← ask (AskReceive (jt_gateway t) (if aj_self_only j then UntilGraceEnds else UntilDeadline));
      match received with
      | None =>
          if aj_self_only j then mret (pending_initial_dave_state t j)
          else invalid "voice handshake timed out"
      | Some (Err err) => mret (Err err)
      | Some Panic => mret Panic
      | Some (Ok event) =>
          turned ←? active_event t j event;
          match turned with
          | inl j => active_loop t events j
          | inr state => mret (Ok state)
          end
      end
  end.

Definition join_start (user_id : string) (recognized : gset string) (s : DaveSession) (sent : bool) : ActiveJoin :=
  mkActiveJoin (Some s) ({[user_id]} ∪ recognized) ∅ None sent ∅ false None None.

Definition complete_active_dave_transition (gateway : Z) (voice : VoiceContext) (protocol_version : Z)
    (events : nat) (recognized : gset string) : vtask InitialDaveState :=
  group_id ←? mret (ok_or (parse_u64 (vc_channel_id voice)) (InvalidState "voice dave group id invalid"));
  sender ←? mret (map_err (fun _ => InvalidState "voice dave external sender create failed")
                    (DaveExternalSender_new group_id));
  '(s, _) ←? mret (with_session (Some DaveSession_new) (init protocol_version group_id (vc_user_id voice))
                     "voice dave session init failed");
  '(s, sent) ←? send_pending_join_key_package gateway (Some s) false;
  active_loop (mkJoinTerms gateway group_id protocol_version sender) events
    (join_start (vc_user_id voice) recognized s sent).

(** ** Joining as an observer *)

Definition with_po_session (s : option DaveSession) (p : PendingObserverDaveState) : PendingObserverDaveState :=
  mkPendingObserver s (po_user_id p) (po_group_id p) (po_protocol_version p) (po_external_sender_bytes p)
    (po_recognized_user_ids p) (po_prepared p) (po_invalidated p) (po_key_package p) (po_gateway_winner p)
    (po_replay_start p) (po_proposals p) (po_seeded_events p) (po_gateway_updates p) (po_saw_existing_speaker p).
Definition with_po_sender (s : option DaveSession) (b : list Z) (p : PendingObserverDaveState) : PendingObserverDaveState :=
  mkPendingObserver s (po_user_id p) (po_group_id p) (po_protocol_version p) (Some b)
    (po_recognized_user_ids p) (po_prepared p) (po_invalidated p) (po_key_package p) (po_gateway_winner p)
    (po_replay_start p) (po_proposals p) (po_seeded_events p) (po_gateway_updates p) (po_saw_existing_speaker p).
Definition with_po_recognized (u : gset string) (p : PendingObserverDaveState) : PendingObserverDaveState :=
  mkPendingObserver (po_session p) (po_user_id p) (po_group_id p) (po_protocol_version p) (po_external_sender_bytes p)
    u (po_prepared p) (po_invalidated p) (po_key_package p) (po_gateway_winner p)
    (po_replay_start p) (po_proposals p) (po_seeded_events p) (po_gateway_updates p) (po_saw_existing_speaker p).
Definition with_po_prepared (m : gmap Z Z) (p : PendingObserverDaveState) : PendingObserverDaveState :=
  mkPendingObserver (po_session p) (po_user_id p) (po_group_id p) (po_protocol_version p) (po_external_sender_bytes p)
    (po_recognized_user_ids p) m (po_invalidated p) (po_key_package p) (po_gateway_winner p)
    (po_replay_start p) (po_proposals p) (po_seeded_events p) (po_gateway_updates p) (po_saw_existing_speaker p).
Definition with_po_key_package (s : DaveSession) (b : bool) (p : PendingObserverDaveState) : PendingObserverDaveState :=
  mkPendingObserver (Some s) (po_user_id p) (po_group_id p) (po_protocol_version p) (po_external_sender_bytes p)
    (po_recognized_user_ids p) (po_prepared p) (po_invalidated p) b (po_gateway_winner p)
    (po_replay_start p) (po_proposals p) (po_seeded_events p) (po_gateway_updates p) (po_saw_existing_speaker p).
Definition with_po_proposals (winner : bool) (start : nat) (l : list (DaveMlsProposalsOperation * list Z))
    (p : PendingObserverDaveState) : PendingObserverDaveState :=
  mkPendingObserver (po_session p) (po_user_id p) (po_group_id p) (po_protocol_version p) (po_external_sender_bytes p)
    (po_recognized_user_ids p) (po_prepared p) (po_invalidated p) (po_key_package p) winner
    start l (po_seeded_events p) (po_gateway_updates p) (po_saw_existing_speaker p).
Definition with_po_seeded (l : list VoiceGatewayEvent) (p : PendingObserverDaveState) : PendingObserverDaveState :=
  mkPendingObserver (po_session p) (po_user_id p) (po_group_id p) (po_protocol_version p) (po_external_sender_bytes p)
    (po_recognized_user_ids p) (po_prepared p) (po_invalidated p) (po_key_package p) (po_gateway_winner p)
    (po_replay_start p) (po_proposals p) l (po_gateway_updates p) (po_saw_existing_speaker p).
Definition with_po_updates (l : list PendingObserverGatewayUpdate) (saw : bool) (p : PendingObserverDaveState)
    : PendingObserverDaveState :=
  mkPendingObserver (po_session p) (po_user_id p) (po_group_id p) (po_protocol_version p) (po_external_sender_bytes p)
    (po_recognized_user_ids p) (po_prepared p) (po_invalidated p) (po_key_package p) (po_gateway_winner p)
    (po_replay_start p) (po_proposals p) (po_seeded_events p) l saw.

Definition observer_dave_protocol_version (p : PendingObserverDaveState) : vresult Z :=
  match option_map protocol_version (po_session p) with
  | Some v => if v =? 0 then Err moved else Ok v
  | None => Err moved
  end.

Definition observer_dave_material (p : PendingObserverDaveState) : vresult ObserverDaveMaterial :=
  bytes ← ok_or (po_external_sender_bytes p) (InvalidState "voice dave external sender unavailable");
  Ok (mkObserverDaveMaterial (po_group_id p) (po_protocol_version p) bytes).

(** The events that only tell who is there, handled alike while seeding and
    while joining. *)
Definition observer_presence (event : VoiceGatewayEvent) (p : PendingObserverDaveState) : PendingObserverDaveState :=
  match event with
  | Speaking _ _ ssrc (Some user_id) =>
      with_po_updates (po_gateway_updates p ++ [UpdateSpeaking user_id ssrc]) true p
  | ClientDisconnect user_id =>
      with_po_updates (po_gateway_updates p ++ [UpdateClientDisconnect user_id]) (po_saw_existing_speaker p) p
  | ClientsConnect user_ids => with_po_recognized (po_recognized_user_ids p ∪ list_to_set user_ids) p
  | _ => p
  end.

Definition observer_sender (sender : list Z) (p : PendingObserverDaveState) : vresult PendingObserverDaveState :=
  '(s, _) ← with_session (po_session p) (set_external_sender sender) "voice dave external sender invalid";
  Ok (with_po_sender (Some s) sender p).

Definition note_observer_epoch (transition_id : option Z) (version : Z) (p : PendingObserverDaveState)
    : PendingObserverDaveState :=
  match transition_id with
  | Some i => with_po_prepared (<[i := version]> (po_prepared p)) p
  | None => p
  end.
Definition epoch_refusal (epoch : string) (version expected : Z) : vresult unit :=
  if negb (version =? expected) then Err (InvalidState "voice dave prepare epoch protocol version mismatch")
  else if bool_decide (epoch = EmptyString) then Err (InvalidState "voice dave prepare epoch missing")
  else Ok tt.

(** [events] gateway events are ready; then the poll finds none. *)
Fixpoint seed_pending_observer_dave_state (gateway expected : Z) (events : nat) (p : PendingObserverDaveState)
    : vtask PendingObserverDaveState :=
  match events with
  | O => mret (Ok p)
  | S events =>
      received ← ask (AskReceive gateway (For 0));
      match received with
      | None => mret (Ok p)
      | Some (Err err) => mret (Err err)
      | Some Panic => mret Panic
      | Some (Ok event) =>
          match event with
          | DaveMlsExternalSenderPackage sender =>
              p ←? mret (observer_sender sender p);
              seed_pending_observer_dave_state gateway expected events p
          | DavePrepareEpoch transition_id epoch version =>
              _ ←? mret (epoch_refusal epoch version expected);
              seed_pending_observer_dave_state gateway expected events (note_observer_epoch transition_id version p)
          | DaveMlsProposals _ _ | DaveMlsPrepareCommitTransition _ _ | DaveMlsWelcome _ _ =>
              mret (Ok (with_po_seeded (po_seeded_events p ++ [event]) p))
          | _ => seed_pending_observer_dave_state gateway expected events (observer_presence event p)
          end
      end
  end.

Definition start_pending_observer_dave_join (gateway : Z) (voice : VoiceContext) (protocol_version : Z)
    (events : nat) (recognized : gset string) (saw_existing_speaker : bool) : vtask PendingObserverDaveState :=
  group_id ←? mret (ok_or (parse_u64 (vc_channel_id voice)) (InvalidState "voice dave group id invalid"));
  '(s, _) ←? mret (with_session (Some DaveSession_new) (init protocol_version group_id (vc_user_id voice))
                     "voice dave session init failed");
  '(s, sent) ←? send_pending_join_key_package gateway (Some s) false;
  let p := mkPendingObserver (Some s) (vc_user_id voice) group_id protocol_version None
             ({[vc_user_id voice]} ∪ recognized) ∅ ∅ sent false 0 [] [] [] saw_existing_speaker in
  expected ←? mret (observer_dave_protocol_version p);
  seed_pending_observer_dave_state gateway expected events p.

Definition fresh_observer_session (group_id protocol_version : Z) (user_id : string) (sender : list Z)
    : vresult DaveSession :=
  '(s, _) ← with_session (Some DaveSession_new) (set_external_sender sender) "voice dave external sender invalid";
  '(s, _) ← with_session (Some s) (init protocol_version group_id user_id) "voice dave session init failed";
  Ok s.

Definition restarted (s : DaveSession) (invalid_transition_id : Z) (sent : bool) (p : PendingObserverDaveState)
    : PendingObserverDaveState :=
  mkPendingObserver (Some s) (po_user_id p) (po_group_id p) (po_protocol_version p) (po_external_sender_bytes p)
    (po_recognized_user_ids p) ∅ ({[invalid_transition_id]} ∪ po_invalidated p) sent false 0 []
    (po_seeded_events p) (po_gateway_updates p) true.

Definition restart_pending_observer_dave_join_after_invalid_transition (gateway : Z)
    (p : PendingObserverDaveState) (invalid_transition_id : Z) : vtask PendingObserverDaveState :=
  sender ←? mret (ok_or (po_external_sender_bytes p) (InvalidState "voice dave external sender unavailable"));
  s ←? mret (fresh_observer_session (po_group_id p) (po_protocol_version p) (po_user_id p) sender);
  _ ←? send gateway (OutJson (dave_mls_invalid_commit_welcome_payload invalid_transition_id));
  '(s, sent) ←? send_pending_join_key_package gateway (Some s) false;
  mret (Ok (restarted s invalid_transition_id sent p)).

(** The proposals buffered since the replay start. *)
Fixpoint stage_proposals (recognized : list string) (l : list (DaveMlsProposalsOperation * list Z))
    (runtime : DaveRuntimeContext) : vresult DaveRuntimeContext :=
  match l with
  | [] => Ok runtime
  | (op, proposals) :: l =>
      let '(runtime, r) := process_proposals_with_operation op proposals recognized runtime in
      _ ← map_err (fun _ => InvalidState "voice observer dave proposals invalid") r;
      stage_proposals recognized l runtime
  end.
Definition stage_pending_observer_proposals (runtime : DaveRuntimeContext) (p : PendingObserverDaveState)
    : vresult DaveRuntimeContext :=
  stage_proposals (in_order (po_recognized_user_ids p)) (drop (po_replay_start p) (po_proposals p)) runtime.

Definition observer_ready (p : PendingObserverDaveState) (runtime : DaveRuntimeContext) (transition_id : Z)
    : vresult PendingObserverReadyResult :=
  material ← observer_dave_material p;
  Ok (mkObserverReady runtime (po_gateway_updates p) (po_recognized_user_ids p) material (Some transition_id)).

Abbreviation observed := (PendingObserverDaveState + PendingObserverReadyResult)%type.
Definition keep_waiting (p : PendingObserverDaveState) : vtask observed := mret (Ok (inl p)).
Definition observer_complete (r : vresult PendingObserverReadyResult) : vtask observed :=
  mret (ready ← r; Ok (inr ready)).

Definition observer_prepare_epoch (gateway : Z) (p : PendingObserverDaveState) (transition_id : option Z)
    (epoch : string) (version : Z) : vtask observed :=
  if match transition_id with Some i => bool_decide (i ∈ po_invalidated p) | None => false end
  then keep_waiting p
  else
    expected ←? mret (observer_dave_protocol_version p);
    _ ←? mret (epoch_refusal epoch version expected);
    '(s, sent) ←? send_pending_join_key_package gateway (po_session p) (po_key_package p);
    keep_waiting (with_po_key_package s sent (note_observer_epoch transition_id version p)).

(** Buffer the proposals; without a speaker before us, and when authoring is
    allowed, answer the first ones with a commit of our own. *)
Definition buffer_proposals (author : bool) (op : DaveMlsProposalsOperation) (proposals : list Z)
    (p : PendingObserverDaveState) : PendingObserverDaveState :=
  let l := po_proposals p ++ [(op, proposals)] in
  if po_gateway_winner p then with_po_proposals true (po_replay_start p) l p
  else if negb author || po_saw_existing_speaker p then with_po_proposals true (length l) l p
  else with_po_proposals false (po_replay_start p) l p.

Definition observer_author (gateway : Z) (p : PendingObserverDaveState) (op : DaveMlsProposalsOperation)
    (proposals : list Z) : vtask observed :=
  '(s, commit_welcome) ←? mret (process_initial_proposals (po_session p) op proposals (po_recognized_user_ids p));
  match commit_welcome with
  | None => keep_waiting (with_po_session (Some s) p)
  | Some commit_welcome =>
      '(commit, _) ←? mret (map_err (fun _ => InvalidState "voice dave commit welcome invalid")
                             (unpack_commit_welcome commit_welcome));
      runtime ←? complete_local_initial_creator_transition gateway s commit_welcome commit false;
      observer_complete (observer_ready p runtime DAVE_PROTOCOL_INIT_TRANSITION_ID)
  end.

Definition observer_proposals (gateway : Z) (author : bool) (p : PendingObserverDaveState)
    (op : DaveMlsProposalsOperation) (proposals : list Z) : vtask observed :=
  if negb (po_key_package p) then invalid "voice dave proposals missing pending group creation" else
  let p := buffer_proposals author op proposals p in
  if po_gateway_winner p then keep_waiting p else observer_author gateway p op proposals.

(** A session that joined the group: replay the buffered proposals, announce. *)
Definition observer_join (gateway : Z) (p : PendingObserverDaveState) (transition_id : Z) (s : DaveSession)
    : vtask observed :=
  runtime ←? mret (runtime_from (Some s));
  runtime ←? mret (stage_pending_observer_proposals runtime p);
  _ ←? (if transition_id =? DAVE_PROTOCOL_INIT_TRANSITION_ID then mret (Ok tt)
        else send gateway (OutJson (dave_transition_ready_payload transition_id)));
  observer_complete (observer_ready p runtime transition_id).

Definition observer_restart (gateway : Z) (p : PendingObserverDaveState) (transition_id : Z) : vtask observed :=
  p ←? restart_pending_observer_dave_join_after_invalid_transition gateway p transition_id;
  keep_waiting p.

Definition observer_commit (gateway : Z) (p : PendingObserverDaveState) (transition_id : Z) (commit : list Z)
    : vtask observed :=
  if bool_decide (transition_id ∈ po_invalidated p)
  then keep_waiting (with_po_prepared (delete transition_id (po_prepared p)) p)
  else
    expected ←? mret (observer_dave_protocol_version p);
    '(_, prepared) ←? mret (prepared_version transition_id expected (po_key_package p) (po_prepared p)
                              "voice observer dave commit transition missing pending join");
    s ←? mret (dave_session_mut (po_session p));
    let '(s, result) := session_process_commit commit s in
    let p := with_po_prepared prepared (with_po_session (Some s) p) in
    match result with
    | Panic => mret Panic
    | Err _ => observer_restart gateway p transition_id
    | Ok result =>
        if negb (joined_group result) then observer_restart gateway p transition_id
        else observer_join gateway p transition_id s
    end.

Definition observer_welcome (gateway : Z) (p : PendingObserverDaveState) (transition_id : Z) (welcome : list Z)
    : vtask observed :=
  if bool_decide (transition_id ∈ po_invalidated p)
  then keep_waiting (with_po_prepared (delete transition_id (po_prepared p)) p)
  else
    expected ←? mret (observer_dave_protocol_version p);
    '(_, prepared) ←? mret (prepared_version transition_id expected (po_key_package p) (po_prepared p)
                              "voice observer dave welcome transition missing pending join");
    s ←? mret (dave_session_mut (po_session p));
    let '(s, result) := session_process_welcome welcome s in
    let p := with_po_prepared prepared (with_po_session (Some s) p) in
    match result with
    | Panic => mret Panic
    | Err _ => observer_restart gateway p transition_id
    | Ok _ => observer_join gateway p transition_id s
    end.

Definition observer_event (gateway : Z) (author : bool) (p : PendingObserverDaveState)
    (event : VoiceGatewayEvent) : vtask observed :=
  match event with
  | DaveMlsExternalSenderPackage sender =>
      p ←? mret (observer_sender sender p); keep_waiting p
  | DavePrepareEpoch transition_id epoch version => observer_prepare_epoch gateway p transition_id epoch version
  | DaveMlsProposals op proposals => observer_proposals gateway author p op proposals
  | DaveMlsPrepareCommitTransition transition_id commit => observer_commit gateway p transition_id commit
  | DaveMlsWelcome transition_id welcome => observer_welcome gateway p transition_id welcome
  | _ => keep_waiting (observer_presence event p)
  end.

(** [events] gateway events arrive before the deadline of the join. *)
Fixpoint observer_loop (gateway : Z) (author : bool) (events : nat) (p : PendingObserverDaveState)
    : vtask PendingObserverReadyResult :=
  match events with
  | O => invalid "voice observer dave join timed out"
  | S events =>
      received ← ask (AskReceive gateway UntilDeadline);
      match received with
      | None => invalid "voice observer dave join timed out"
      | Some (Err err) => mret (Err err)
      | Some Panic => mret Panic
      | Some (Ok event) =>
          turned ←? observer_event gateway author p event;
          match turned with
          | inl p => observer_loop gateway author events p
          | inr ready => mret (Ok ready)
          end
      end
  end.

(** Seeded events come first; none is added meanwhile. *)
Fixpoint observer_seeded (gateway : Z) (author : bool) (events : nat) (seeded : list VoiceGatewayEvent)
    (p : PendingObserverDaveState) : vtask PendingObserverReadyResult :=
  match seeded with
  | [] => observer_loop gateway author events p
  | event :: seeded =>
      turned ←? observer_event gateway author (with_po_seeded seeded p) event;
      match turned with
      | inl p => observer_seeded gateway author events seeded p
      | inr ready => mret (Ok ready)
      end
  end.

Definition complete_pending_observer_dave_join (gateway : Z) (p : PendingObserverDaveState) (events : nat)
    (author : bool) : vtask PendingObserverReadyResult :=
  observer_seeded gateway author events (po_seeded_events p) p.

(** An observer that starts over with the material it has. *)
Definition reinitialize_pending_observer_dave_join (gateway : Z) (voice : VoiceContext)
    (material : ObserverDaveMaterial) (recognized : gset string) (invalidated : gset Z) (invalid_transition_id : Z)
    : vtask PendingObserverDaveState :=
  s ←? mret (fresh_observer_session (om_group_id material) (om_protocol_version material) (vc_user_id voice)
               (om_external_sender_bytes material));
  _ ←? send gateway (OutJson (dave_mls_invalid_commit_welcome_payload invalid_transition_id));
  '(s, sent) ←? send_pending_join_key_package gateway (Some s) false;
  mret (Ok (mkPendingObserver (Some s) (vc_user_id voice) (om_group_id material) (om_protocol_version material)
              (Some (om_external_sender_bytes material)) ({[vc_user_id voice]} ∪ recognized) ∅ invalidated
              sent false 0 [] [] [] true)).
Definition reinitialize_pending_observer_dave_join_after_invalid_transition (gateway : Z) (voice : VoiceContext)
    (material : ObserverDaveMaterial) (recognized : gset string) (transition_id : Z)
    : vtask PendingObserverDaveState :=
  reinitialize_pending_observer_dave_join gateway voice material recognized {[transition_id]} transition_id.
Definition reinitialize_pending_observer_dave_join_after_invalid_proposals (gateway : Z) (voice : VoiceContext)
    (material : ObserverDaveMaterial) (recognized : gset string) : vtask PendingObserverDaveState :=
  reinitialize_pending_observer_dave_join gateway voice material recognized ∅ DAVE_PROTOCOL_INIT_TRANSITION_ID.

(** ** Connecting *)

Definition connect_gateway (url : string) : vtask Z :=
  connected ← ask (AskConnect url);
  match connected with
  | None => invalid "voice gateway connect timed out"
  | Some r => mret r
  end.

Definition expect_hello (gateway : Z) : vtask Z :=
  event ←? next_event gateway (For HANDSHAKE_TIMEOUT);
  match event with
  | Hello heartbeat_interval_ms => mret (Ok heartbeat_interval_ms)
  | _ => invalid "voice handshake hello missing"
  end.

Record ReadyData : Type := mkReadyData {
  rd_ssrc : Z;
  rd_ip : string;
  rd_port : Z;
  rd_modes : list string;
}.
Definition expect_ready (gateway timeout_duration : Z) : vtask ReadyData :=
  event ←? next_event gateway (For timeout_duration);
  match event with
  | Ready ssrc ip port modes => mret (Ok (mkReadyData ssrc ip port modes))
  | _ => invalid "voice handshake ready missing"
  end.

Definition is_benign_pre_session_description_event (event : VoiceGatewayEvent) (self_user_id : string) : bool :=
  match event with
  | ClientsConnect _ | Speaking _ _ _ _ | HeartbeatAck _ | Video _ _ _ | MediaSinkWants
  | ClientFlags _ _ | ClientPlatform _ _ => true
  | ClientDisconnect user_id => negb (bool_decide (user_id = self_user_id))
  | _ => false
  end.

(** What is known of the channel before the session description. *)
Definition pre_session_event (self_user_id : string) (known : gset string * bool) (event : VoiceGatewayEvent)
    : vresult (gset string * bool) :=
  match event with
  | ClientsConnect user_ids => Ok (known.1 ∪ list_to_set user_ids, known.2)
  | ClientDisconnect user_id =>
      if bool_decide (user_id = self_user_id) then Err (InvalidState "voice handshake session description missing")
      else Ok (known.1 ∖ {[user_id]}, known.2)
  | Speaking _ _ _ (Some user_id) =>
      if bool_decide (user_id = self_user_id) then Ok known else Ok (known.1, true)
  | _ =>
      if is_benign_pre_session_description_event event self_user_id then Ok known
      else Err (InvalidState "voice handshake session description missing")
  end.

(** [events] gateway events arrive before the deadline. *)
Fixpoint expect_session_description (gateway : Z) (self_user_id : string) (events : nat)
    (known : gset string * bool) : vtask (SessionDescription * (gset string * bool)) :=
  match events with
  | O => invalid "voice handshake timed out"
  | S events =>
      event ←? next_event gateway UntilDeadline;
      match event with
      | SessionDescriptionEvent description => mret (Ok (description, known))
      | _ =>
          known ←? mret (pre_session_event self_user_id known event);
          expect_session_description gateway self_user_id events known
      end
  end.

Definition resolve_udp_target (ready : ReadyData) : vtask (IpAddr * Z) :=
  match ip_from_str (rd_ip ready) with
  | Some ip => mret (Ok (ip, rd_port ready))
  | None =>
      found ← ask (AskLookup (rd_ip ready) (rd_port ready));
      found ←? mret found;
      mret (ok_or found (InvalidState "voice ready udp target unresolved"))
  end.

(** From the identification to the session description. *)
Definition bootstrap_session (gateway : Z) (voice : VoiceContext) (dave_timeout : Z) (events : nat)
    : vtask (VoiceUdpTransport * Z * (SessionDescription * (gset string * bool))) :=
  _ ←? send gateway (OutJson (identify_payload voice
          (if 0 <? DAVE_PROTOCOL_VERSION then Some DAVE_PROTOCOL_VERSION else None)));
  ready ←? expect_ready gateway dave_timeout;
  mode ←? mret (choose_encryption_mode (rd_modes ready));
  target ←? resolve_udp_target ready;
  connected ← ask (AskUdp target (rd_ssrc ready));
  '(transport, (ip, port)) ←? mret connected;
  _ ←? send gateway (OutJson (select_protocol_payload ip port mode));
  description ←? expect_session_description gateway (vc_user_id voice) events ({[vc_user_id voice]}, false);
  mret (Ok (transport, rd_ssrc ready, description)).

Definition bootstrap_voice_connection (voice : VoiceContext) (events : nat) : vtask (option VoiceBootstrap) :=
  url ←? mret (gateway_url (vc_endpoint voice));
  match url with
  | None => mret (Ok None)
  | Some url =>
      gateway ←? connect_gateway url;
      heartbeat_interval_ms ←? expect_hello gateway;
      _ ← spawn_heartbeat_task gateway heartbeat_interval_ms;
      let dave_timeout := post_hello_timeout heartbeat_interval_ms in
      result ← bootstrap_session gateway voice dave_timeout events;
      match result with
      | Ok (transport, ssrc, (description, (recognized, saw))) =>
          mret (Ok (Some (mkBootstrap gateway transport ssrc description recognized saw dave_timeout)))
      | Err err => _ ← stop_heartbeat gateway; mret (Err err)
      | Panic => mret Panic
      end
  end.

(** The heartbeat ends with its channel when the DAVE part fails. *)
Definition or_stop_heartbeat {X} (gateway : Z) (m : vtask X) : vtask X :=
  r ← m;
  match r with
  | Err err => _ ← stop_heartbeat gateway; mret (Err err)
  | r => mret r
  end.

(** [events] and [dave_events] gateway events arrive before the deadlines of
    the bootstrap and of the DAVE join. *)
Definition connect_active_participant (voice : VoiceContext) (events dave_events : nat)
    : vtask (option VoiceHandshakeResult) :=
  bootstrap ←? bootstrap_voice_connection voice events;
  match bootstrap with
  | None => mret (Ok None)
  | Some b =>
      dave ←? or_stop_heartbeat (vb_gateway b)
        match sd_dave_protocol_version (vb_session_description b) with
        | Some version =>
            state ←? complete_active_dave_transition (vb_gateway b) voice version dave_events
                       (vb_recognized_user_ids b);
            mret (Ok (Some state))
        | None => mret (Ok None)
        end;
      mret (Ok (Some (mkHandshakeResult (vb_gateway b) (vb_transport b) (vb_ssrc b)
                        (vb_session_description b) dave)))
  end.

Definition connect_observer_participant (voice : VoiceContext) (events dave_events : nat)
    : vtask (option PendingObserverHandshakeResult) :=
  bootstrap ←? bootstrap_voice_connection voice events;
  match bootstrap with
  | None => mret (Ok None)
  | Some b =>
      dave ←? or_stop_heartbeat (vb_gateway b)
        match sd_dave_protocol_version (vb_session_description b) with
        | Some version =>
            state ←? start_pending_observer_dave_join (vb_gateway b) voice version dave_events
                       (vb_recognized_user_ids b) (vb_saw_existing_speaker b);
            mret (Ok (Some state))
        | None => mret (Ok None)
        end;
      mret (Ok (Some (mkObserverHandshake (vb_gateway b) (vb_transport b) (vb_ssrc b)
                        (vb_session_description b) (vb_dave_timeout b) dave)))
  end.

(** Resuming sends the recorded sequence number and must be answered by
    [Resumed]. *)
Definition resume_session (gateway : Z) (voice : VoiceContext) (seq_ack : option Z) (timeout_duration : Z)
    : vtask unit :=
  sent ← ask (AskSendResume gateway seq_ack (vc_guild_id voice) (vc_session_id voice) (vc_token voice));
  _ ←? mret sent;
  event ←? next_event gateway (For timeout_duration);
  match event with
  | Resumed => mret (Ok tt)
  | _ => invalid "voice handshake resume rejected"
  end.

Definition resume_gateway (voice : VoiceContext) (seq_ack : option Z) : vtask Z :=
  url ←? mret (gateway_url (vc_endpoint voice));
  match url with
  | None => invalid "voice endpoint invalid for resume"
  | Some url =>
      gateway ←? connect_gateway url;
      heartbeat_interval_ms ←? expect_hello gateway;
      _ ← spawn_heartbeat_task gateway heartbeat_interval_ms;
      result ← resume_session gateway voice seq_ack (post_hello_timeout heartbeat_interval_ms);
      match result with
      | Ok _ => mret (Ok gateway)
      | Err err => _ ← stop_heartbeat gateway; mret (Err err)
      | Panic => mret Panic
      end
  end.
Definition resume (voice : VoiceContext) (seq_ack : option Z) : vtask unit :=
  _ ←? resume_gateway voice seq_ack; mret (Ok tt).
End handshake.
