(* ===== verification/ConnectedSession.v ===== *)
(** * The connected voice session

    crates/discord-voice-service-voice/src/session.rs and rollover.rs: the
    state of a connection and the machine that keeps its DAVE group in step
    with the gateway: proposals, commits, welcomes, prepared epochs, executed
    transitions, the recovery from an invalid commit and the failure that
    closes the session; the speaking protocol, the preparation of media
    packets, suspension and gateway resumption.

    The operations are tasks of Task.v: what they await (a gateway event, a
    write, a timer, the UDP socket, the handshake) is a question with an
    arbitrary answer. The fifteen fields that concern DAVE are grouped in
    [DaveState]; the gateway client is the number of its connection; maps and
    sets are finite maps and sets, read in key order where the code iterates. *)

From S2P Require Import Prelude VoiceErrors Text Protection Udp DaveWire Json Protocol Gateway DaveSession Task.
From S2P Require Handshake.
From stdpp Require Import prelude strings gmap sorting.
Open Scope Z_scope.
Open Scope task_scope.

Definition DAVE_GATEWAY_EVENT_DRAIN_LIMIT : nat := 256.
Definition DAVE_GATEWAY_IDLE_POLL : Z := 1.
Definition DAVE_GATEWAY_TRANSITION_POLL : Z := 50.
Definition DAVE_GATEWAY_EXECUTE_POLL : Z := 15000.
Definition DAVE_PROTOCOL_INIT_TRANSITION_ID : Z := 0.
Definition START_SPEAKING_GATEWAY_REPEAT_COUNT : nat := 3.
Definition STOP_AUDIO_SILENCE_FRAME_COUNT : nat := 5.
Definition STOP_SPEAKING_GATEWAY_REPEAT_COUNT : nat := 3.

Inductive PendingDaveTransitionSource : Type := CommitBacked | WelcomeBacked.

#[global] Instance PendingDaveTransitionSource_eq_dec : EqDecision PendingDaveTransitionSource.
Proof. solve_decision. Defined.

Record VoiceSessionRollover : Type := mkRollover {
  ro_recovering : bool;
  ro_voice_reconnecting : bool;
}.
Definition VoiceSessionRollover_default : VoiceSessionRollover := mkRollover false false.

Record VoiceGatewayDrainReport : Type := mkDrainReport {
  dr_event_count : Z;
  dr_dave_transition_count : Z;
}.
Definition VoiceGatewayDrainReport_default : VoiceGatewayDrainReport := mkDrainReport 0 0.

Section session.
Context {A : Aead} {D : Davey}.

Record PendingDaveTransition : Type := mkPendingDaveTransition {
  pt_transition_id : Z;
  pt_runtime : DaveRuntimeContext;
  pt_source : PendingDaveTransitionSource;
}.

Record PendingLocalDaveCommitTransition : Type := mkPendingLocalCommit {
  pl_runtime : DaveRuntimeContext;
  pl_commit : list Z;
}.

Record PendingInitialDaveSession : Type := mkPendingInitial {
  pi_session : DaveSession;
  pi_protocol_version : Z;
}.

Record DaveState : Type := mkDaveState {
  dave : option DaveRuntimeContext;
  pending_initial_dave : option PendingInitialDaveSession;
  dave_group_id : option Z;
  dave_external_sender : option ext_sender;
  dave_external_sender_bytes : option (list Z);
  recognized_user_ids : gset string;
  completed_welcome_backed : gset Z;
  completed_local_init_commit : gset Z;
  invalidated_transitions : gset Z;
  prepared_transitions : gmap Z Z;
  local_init_commit_echoes : gmap Z (list Z);
  local_commit_transition : option PendingLocalDaveCommitTransition;
  pending_transition : option PendingDaveTransition;
  initial_recovery : bool;
  failed_closed : bool;
}.

Record ConnectedVoiceSession : Type := mkSession {
  cs_voice : VoiceContext;
  cs_rollover : VoiceSessionRollover;
  cs_gateway : option Z;
  cs_transport : option VoiceUdpTransport;
  cs_ssrc : option Z;
  cs_session_description : option SessionDescription;
  cs_dave : DaveState;
  cs_receive_closed : bool;
  cs_suspended_seq_ack : option Z;
  cs_heartbeat : bool;
  cs_speaking_started : bool;
}.

Definition set_dave (v : option DaveRuntimeContext) (s : DaveState) : DaveState :=
  mkDaveState v (pending_initial_dave s) (dave_group_id s) (dave_external_sender s) (dave_external_sender_bytes s) (recognized_user_ids s) (completed_welcome_backed s) (completed_local_init_commit s) (invalidated_transitions s) (prepared_transitions s) (local_init_commit_echoes s) (local_commit_transition s) (pending_transition s) (initial_recovery s) (failed_closed s).
Definition set_pending_initial_dave (v : option PendingInitialDaveSession) (s : DaveState) : DaveState :=
  mkDaveState (dave s) v (dave_group_id s) (dave_external_sender s) (dave_external_sender_bytes s) (recognized_user_ids s) (completed_welcome_backed s) (completed_local_init_commit s) (invalidated_transitions s) (prepared_transitions s) (local_init_commit_echoes s) (local_commit_transition s) (pending_transition s) (initial_recovery s) (failed_closed s).
Definition set_recognized_user_ids (v : gset string) (s : DaveState) : DaveState :=
  mkDaveState (dave s) (pending_initial_dave s) (dave_group_id s) (dave_external_sender s) (dave_external_sender_bytes s) v (completed_welcome_backed s) (completed_local_init_commit s) (invalidated_transitions s) (prepared_transitions s) (local_init_commit_echoes s) (local_commit_transition s) (pending_transition s) (initial_recovery s) (failed_closed s).
Definition set_completed_welcome_backed (v : gset Z) (s : DaveState) : DaveState :=
  mkDaveState (dave s) (pending_initial_dave s) (dave_group_id s) (dave_external_sender s) (dave_external_sender_bytes s) (recognized_user_ids s) v (completed_local_init_commit s) (invalidated_transitions s) (prepared_transitions s) (local_init_commit_echoes s) (local_commit_transition s) (pending_transition s) (initial_recovery s) (failed_closed s).
Definition set_completed_local_init_commit (v : gset Z) (s : DaveState) : DaveState :=
  mkDaveState (dave s) (pending_initial_dave s) (dave_group_id s) (dave_external_sender s) (dave_external_sender_bytes s) (recognized_user_ids s) (completed_welcome_backed s) v (invalidated_transitions s) (prepared_transitions s) (local_init_commit_echoes s) (local_commit_transition s) (pending_transition s) (initial_recovery s) (failed_closed s).
Definition set_invalidated_transitions (v : gset Z) (s : DaveState) : DaveState :=
  mkDaveState (dave s) (pending_initial_dave s) (dave_group_id s) (dave_external_sender s) (dave_external_sender_bytes s) (recognized_user_ids s) (completed_welcome_backed s) (completed_local_init_commit s) v (prepared_transitions s) (local_init_commit_echoes s) (local_commit_transition s) (pending_transition s) (initial_recovery s) (failed_closed s).
Definition set_prepared_transitions (v : gmap Z Z) (s : DaveState) : DaveState :=
  mkDaveState (dave s) (pending_initial_dave s) (dave_group_id s) (dave_external_sender s) (dave_external_sender_bytes s) (recognized_user_ids s) (completed_welcome_backed s) (completed_local_init_commit s) (invalidated_transitions s) v (local_init_commit_echoes s) (local_commit_transition s) (pending_transition s) (initial_recovery s) (failed_closed s).
Definition set_local_init_commit_echoes (v : gmap Z (list Z)) (s : DaveState) : DaveState :=
  mkDaveState (dave s) (pending_initial_dave s) (dave_group_id s) (dave_external_sender s) (dave_external_sender_bytes s) (recognized_user_ids s) (completed_welcome_backed s) (completed_local_init_commit s) (invalidated_transitions s) (prepared_transitions s) v (local_commit_transition s) (pending_transition s) (initial_recovery s) (failed_closed s).
Definition set_local_commit_transition (v : option PendingLocalDaveCommitTransition) (s : DaveState) : DaveState :=
  mkDaveState (dave s) (pending_initial_dave s) (dave_group_id s) (dave_external_sender s) (dave_external_sender_bytes s) (recognized_user_ids s) (completed_welcome_backed s) (completed_local_init_commit s) (invalidated_transitions s) (prepared_transitions s) (local_init_commit_echoes s) v (pending_transition s) (initial_recovery s) (failed_closed s).
Definition set_pending_transition (v : option PendingDaveTransition) (s : DaveState) : DaveState :=
  mkDaveState (dave s) (pending_initial_dave s) (dave_group_id s) (dave_external_sender s) (dave_external_sender_bytes s) (recognized_user_ids s) (completed_welcome_backed s) (completed_local_init_commit s) (invalidated_transitions s) (prepared_transitions s) (local_init_commit_echoes s) (local_commit_transition s) v (initial_recovery s) (failed_closed s).
Definition set_initial_recovery (v : bool) (s : DaveState) : DaveState :=
  mkDaveState (dave s) (pending_initial_dave s) (dave_group_id s) (dave_external_sender s) (dave_external_sender_bytes s) (recognized_user_ids s) (completed_welcome_backed s) (completed_local_init_commit s) (invalidated_transitions s) (prepared_transitions s) (local_init_commit_echoes s) (local_commit_transition s) (pending_transition s) v (failed_closed s).
Definition set_failed_closed (v : bool) (s : DaveState) : DaveState :=
  mkDaveState (dave s) (pending_initial_dave s) (dave_group_id s) (dave_external_sender s) (dave_external_sender_bytes s) (recognized_user_ids s) (completed_welcome_backed s) (completed_local_init_commit s) (invalidated_transitions s) (prepared_transitions s) (local_init_commit_echoes s) (local_commit_transition s) (pending_transition s) (initial_recovery s) v.

Definition set_cs_voice (v : VoiceContext) (s : ConnectedVoiceSession) : ConnectedVoiceSession :=
  mkSession v (cs_rollover s) (cs_gateway s) (cs_transport s) (cs_ssrc s) (cs_session_description s) (cs_dave s) (cs_receive_closed s) (cs_suspended_seq_ack s) (cs_heartbeat s) (cs_speaking_started s).
Definition set_cs_gateway (v : option Z) (s : ConnectedVoiceSession) : ConnectedVoiceSession :=
  mkSession (cs_voice s) (cs_rollover s) v (cs_transport s) (cs_ssrc s) (cs_session_description s) (cs_dave s) (cs_receive_closed s) (cs_suspended_seq_ack s) (cs_heartbeat s) (cs_speaking_started s).
Definition set_cs_transport (v : option VoiceUdpTransport) (s : ConnectedVoiceSession) : ConnectedVoiceSession :=
  mkSession (cs_voice s) (cs_rollover s) (cs_gateway s) v (cs_ssrc s) (cs_session_description s) (cs_dave s) (cs_receive_closed s) (cs_suspended_seq_ack s) (cs_heartbeat s) (cs_speaking_started s).
Definition set_cs_dave (v : DaveState) (s : ConnectedVoiceSession) : ConnectedVoiceSession :=
  mkSession (cs_voice s) (cs_rollover s) (cs_gateway s) (cs_transport s) (cs_ssrc s) (cs_session_description s) v (cs_receive_closed s) (cs_suspended_seq_ack s) (cs_heartbeat s) (cs_speaking_started s).
Definition set_cs_receive_closed (v : bool) (s : ConnectedVoiceSession) : ConnectedVoiceSession :=
  mkSession (cs_voice s) (cs_rollover s) (cs_gateway s) (cs_transport s) (cs_ssrc s) (cs_session_description s) (cs_dave s) v (cs_suspended_seq_ack s) (cs_heartbeat s) (cs_speaking_started s).
Definition set_cs_suspended_seq_ack (v : option Z) (s : ConnectedVoiceSession) : ConnectedVoiceSession :=
  mkSession (cs_voice s) (cs_rollover s) (cs_gateway s) (cs_transport s) (cs_ssrc s) (cs_session_description s) (cs_dave s) (cs_receive_closed s) v (cs_heartbeat s) (cs_speaking_started s).
Definition set_cs_heartbeat (v : bool) (s : ConnectedVoiceSession) : ConnectedVoiceSession :=
  mkSession (cs_voice s) (cs_rollover s) (cs_gateway s) (cs_transport s) (cs_ssrc s) (cs_session_description s) (cs_dave s) (cs_receive_closed s) (cs_suspended_seq_ack s) v (cs_speaking_started s).
Definition set_cs_speaking_started (v : bool) (s : ConnectedVoiceSession) : ConnectedVoiceSession :=
  mkSession (cs_voice s) (cs_rollover s) (cs_gateway s) (cs_transport s) (cs_ssrc s) (cs_session_description s) (cs_dave s) (cs_receive_closed s) (cs_suspended_seq_ack s) (cs_heartbeat s) v.

(** The fields of a session that was never connected. *)
Definition DaveState_new (user_id : string) : DaveState :=
  mkDaveState None None None None None {[user_id]} ∅ ∅ ∅ ∅ ∅ None None false false.
Definition ConnectedVoiceSession_new (voice : VoiceContext) : ConnectedVoiceSession :=
  mkSession voice VoiceSessionRollover_default None None None None (DaveState_new (vc_user_id voice))
    false None false false.
Definition disconnected (voice : VoiceContext) : ConnectedVoiceSession := ConnectedVoiceSession_new voice.

(** ** Accessors *)

Definition voice_context (s : ConnectedVoiceSession) : VoiceContext := cs_voice s.
Definition replace_voice_context (voice : VoiceContext) (s : ConnectedVoiceSession) : ConnectedVoiceSession :=
  set_cs_voice voice s.
Definition is_connected (s : ConnectedVoiceSession) : bool :=
  bool_decide (is_Some (cs_gateway s)) && bool_decide (is_Some (cs_transport s)) &&
  bool_decide (is_Some (cs_ssrc s)) && bool_decide (is_Some (cs_session_description s)).
Definition can_resume_gateway_after_close (s : ConnectedVoiceSession) : bool :=
  bool_decide (is_Some (cs_transport s)) && bool_decide (is_Some (cs_ssrc s)) &&
  bool_decide (is_Some (cs_session_description s)).

Definition no_dave_pending (d : DaveState) : bool :=
  bool_decide (dave d = None) && bool_decide (pending_initial_dave d = None) &&
  bool_decide (pending_transition d = None) && bool_decide (local_commit_transition d = None) &&
  bool_decide (prepared_transitions d = ∅) && bool_decide (local_init_commit_echoes d = ∅).
Definition dave_enabled (s : ConnectedVoiceSession) : bool :=
  negb (no_dave_pending (cs_dave s)) || failed_closed (cs_dave s).
Definition media_started (s : ConnectedVoiceSession) : bool := cs_speaking_started s.
Definition recovering (s : ConnectedVoiceSession) : bool := ro_recovering (cs_rollover s).
Definition voice_reconnecting (s : ConnectedVoiceSession) : bool := ro_voice_reconnecting (cs_rollover s).

(** ** The world of a session *)

Inductive question : Type :=
| AskReceive (gateway wait : Z)
| AskDeadline
| AskSend (gateway : Z) (message : Outgoing)
| AskSeqAck (gateway : Z)
| AskClose (gateway : Z)
| AskHandshake (voice : VoiceContext)
| AskResume (voice : VoiceContext) (seq_ack : option Z)
| AskUdp (packet : PreparedVoicePacket).

Definition answer (q : question) : Type :=
  match q with
  | AskReceive _ _ => option (vresult VoiceGatewayEvent)
  | AskDeadline => Z
  | AskSend _ _ | AskClose _ | AskUdp _ => vresult unit
  | AskSeqAck _ => option Z
  | AskHandshake _ => vresult (option Handshake.VoiceHandshakeResult)
  | AskResume _ _ => vresult Z
  end.

(** None of the awaited operations panics. *)
Definition Valid (q : question) : answer q -> Prop :=
  match q with
  | AskReceive _ _ => fun r => r <> Some Panic
  | AskDeadline => fun _ => True
  | AskSend _ _ | AskClose _ | AskUdp _ => fun r => r <> Panic
  | AskSeqAck _ => fun _ => True
  | AskHandshake _ => fun r => r <> Panic
  | AskResume _ _ => fun r => r <> Panic
  end.

(** The session, and what it wrote to the gateway and to the socket. *)
Record World : Type := mkWorld {
  w_session : ConnectedVoiceSession;
  w_sent : list Outgoing;
  w_packets : list PreparedVoicePacket;
}.

Abbreviation task := (prog World question answer Empty_set).
Abbreviation vtask X := (task (vresult X)).

Definition session {B} (f : ConnectedVoiceSession -> B) : task B := reads (fun w => f (w_session w)).
Definition set_session (f : ConnectedVoiceSession -> ConnectedVoiceSession) : task unit :=
  writes (fun w => mkWorld (f (w_session w)) (w_sent w) (w_packets w)).
Definition dave_field {B} (f : DaveState -> B) : task B := session (fun s => f (cs_dave s)).
Definition set_dave_state (f : DaveState -> DaveState) : task unit :=
  set_session (fun s => set_cs_dave (f (cs_dave s)) s).
Definition invalid {X} (reason : string) : vtask X := mret (Err (InvalidState reason)).

(** A write to the gateway. *)
Definition send (gateway : Z) (message : Outgoing) : vtask unit :=
  sent ← ask (AskSend gateway message);
  match sent with
  | Ok _ =>
      _ ← writes (fun w => mkWorld (w_session w) (w_sent w ++ [message]) (w_packets w));
      mret (Ok tt)
  | r => mret r
  end.

(** [opt.ok_or(InvalidState(reason))?] *)
Definition required {X} (f : ConnectedVoiceSession -> option X) (reason : string) : vtask X :=
  o ← session f; mret (ok_or o (InvalidState reason)).

(** [field.take()] *)
Definition take_dave : task (option DaveRuntimeContext) :=
  d ← dave_field dave; _ ← set_dave_state (set_dave None); mret d.
Definition take_pending_initial : task (option PendingInitialDaveSession) :=
  d ← dave_field pending_initial_dave; _ ← set_dave_state (set_pending_initial_dave None); mret d.
Definition take_local_commit : task (option PendingLocalDaveCommitTransition) :=
  d ← dave_field local_commit_transition; _ ← set_dave_state (set_local_commit_transition None); mret d.
Definition take_pending_transition : task (option PendingDaveTransition) :=
  d ← dave_field pending_transition; _ ← set_dave_state (set_pending_transition None); mret d.
Definition active_runtime : vtask DaveRuntimeContext :=
  d ← take_dave; mret (ok_or d (InvalidState "voice dave runtime unavailable")).

(** The recognized users in the order of the set. *)
Definition recognized_list (d : DaveState) : list string := Handshake.in_order (recognized_user_ids d).

(** ** Failing closed *)

Definition failed_closed_state (d : DaveState) : DaveState :=
  set_failed_closed true (set_initial_recovery false (set_local_init_commit_echoes ∅
    (set_prepared_transitions ∅ (set_local_commit_transition None (set_pending_initial_dave None
      (set_pending_transition None (set_dave None d))))))).

Definition fail_dave_closed {X} (err : VoiceError) : vtask X :=
  _ ← set_dave_state failed_closed_state; mret (Err err).

Definition mark_gateway_receive_closed : task unit :=
  set_session (fun s => set_cs_receive_closed true (set_cs_heartbeat false s)).

(** ** Small queries *)

Definition consume_prepared_transition (transition_id : Z) : vtask Z :=
  version ← dave_field (fun d => prepared_transitions d !! transition_id);
  _ ← set_dave_state (fun d => set_prepared_transitions (delete transition_id (prepared_transitions d)) d);
  mret (ok_or version (InvalidState "voice dave transition missing prepared epoch")).
Definition forget_prepared (transition_id : Z) : task unit :=
  set_dave_state (fun d => set_prepared_transitions (delete transition_id (prepared_transitions d)) d).
Definition note_prepared (transition_id version : Z) : task unit :=
  set_dave_state (fun d => set_prepared_transitions (<[transition_id := version]> (prepared_transitions d)) d).

(** The smallest key ([keys().next()]). *)
Definition first_key (l : list Z) : option Z :=
  match l with [] => None | k :: l => Some (foldr Z.min k l) end.
Definition next_prepared_transition_id (d : DaveState) : option Z :=
  first_key (map_to_list (prepared_transitions d)).*1.

Definition current_dave_protocol_version (d : DaveState) : vresult Z :=
  match dave d, pending_transition d, local_commit_transition d, pending_initial_dave d with
  | Some r, _, _, _ => Ok (rc_protocol_version r)
  | None, Some p, _, _ => Ok (rc_protocol_version (pt_runtime p))
  | None, None, Some l, _ => Ok (rc_protocol_version (pl_runtime l))
  | None, None, None, Some i => Ok (pi_protocol_version i)
  | None, None, None, None => Err (InvalidState "voice dave runtime unavailable")
  end.

Definition should_retry_initial_epoch_proposals (op : DaveMlsProposalsOperation) (d : DaveState) : bool :=
  match op with Append => true | Revoke => false end &&
  bool_decide (DAVE_PROTOCOL_INIT_TRANSITION_ID ∈ completed_local_init_commit d) &&
  bool_decide (completed_welcome_backed d = ∅).

Definition dave_session_event_transition_id (e : VoiceGatewayEvent) : option Z :=
  match e with
  | DavePrepareTransition i _ | DaveExecuteTransition i | DaveMlsPrepareCommitTransition i _
  | DaveMlsWelcome i _ => Some i
  | DavePrepareEpoch i _ _ => i
  | _ => None
  end.
Definition dave_session_event_expects_follow_up (e : VoiceGatewayEvent) : bool :=
  match e with HeartbeatAck _ => false | _ => true end.

(** ** Transitions *)

Definition ready_pending_transition (gateway transition_id : Z) (runtime : DaveRuntimeContext)
    (source : PendingDaveTransitionSource) : vtask unit :=
  _ ← set_dave_state (set_pending_transition (Some (mkPendingDaveTransition transition_id runtime source)));
  if transition_id =? DAVE_PROTOCOL_INIT_TRANSITION_ID then mret (Ok tt) else
  sent ← send gateway (OutJson (dave_transition_ready_payload transition_id));
  match sent with Err err => fail_dave_closed err | r => mret r end.

(** [session] built anew for the group, as after the handshake. *)
Definition fresh_session (protocol_version group_id : Z) (sender : list Z) (user_id : string)
    : vresult DaveSession :=
  let s := DaveSession_new in
  let '(s, r) := set_external_sender sender s in
  match r with
  | Err _ => Err (InvalidState "voice dave external sender invalid")
  | Panic => Panic
  | Ok _ =>
      let '(s, r) := init protocol_version group_id user_id s in
      match r with
      | Err _ => Err (InvalidState "voice dave session init failed")
      | Panic => Panic
      | Ok _ => Ok s
      end
  end.

Definition reinitialized (transition_id : Z) (pending : PendingInitialDaveSession) (d : DaveState) : DaveState :=
  set_pending_initial_dave (Some pending) (set_initial_recovery true
    (set_completed_local_init_commit ∅ (set_completed_welcome_backed ∅
      (set_invalidated_transitions ({[transition_id]} ∪ invalidated_transitions d)
        (set_local_init_commit_echoes ∅ (set_prepared_transitions ∅
          (set_local_commit_transition None (set_pending_transition None (set_dave None d))))))))).

Definition reinitialize_dave_session_after_invalid_commit (gateway transition_id protocol_version : Z)
    : vtask unit :=
  group_id ←? required (fun s => dave_group_id (cs_dave s)) "voice dave group id unavailable";
  sender ←? required (fun s => dave_external_sender_bytes (cs_dave s)) "voice dave external sender unavailable";
  user_id ← session (fun s => vc_user_id (cs_voice s));
  s ←? mret (fresh_session protocol_version group_id sender user_id);
  let '(s, package) := key_package s in
  package ←? mret (map_err (fun _ => InvalidState "voice dave key package failed") package);
  _ ←? send gateway (OutJson (dave_mls_invalid_commit_welcome_payload transition_id));
  _ ←? send gateway (OutBinary (dave_mls_key_package_payload package));
  _ ← set_dave_state (reinitialized transition_id (mkPendingInitial s protocol_version));
  mret (Ok tt).

Definition kept_group (r : DaveCommitResult) : bool :=
  negb (cr_failed r) && negb (cr_ignored r) && negb (bool_decide (cr_roster_member_ids r = [])).

(** The commit that answers our own commit. *)
Definition announce_local_commit (gateway transition_id : Z) (commit : list Z)
    (pending : PendingLocalDaveCommitTransition) : vtask unit :=
  _ ← forget_prepared transition_id;
  let '(runtime, result) := process_commit commit (pl_runtime pending) in
  match result with
  | Err _ => reinitialize_dave_session_after_invalid_commit gateway transition_id (rc_protocol_version runtime)
  | Panic => mret Panic
  | Ok result =>
      if kept_group result then ready_pending_transition gateway transition_id runtime CommitBacked
      else invalid "voice dave local commit transition did not keep group"
  end.

(** The commit of another member, for a transition that was prepared. *)
Definition apply_remote_commit (gateway transition_id : Z) (commit : list Z) : vtask unit :=
  _ ←? consume_prepared_transition transition_id;
  runtime ←? active_runtime;
  let '(runtime, result) := process_commit commit runtime in
  match result with
  | Err _ => invalid "voice dave commit invalid"
  | Panic => mret Panic
  | Ok result =>
      if cr_ignored result then _ ← set_dave_state (set_dave (Some runtime)); mret (Ok tt)
      else if cr_failed result || bool_decide (cr_roster_member_ids result = [])
      then invalid "voice dave commit transition did not keep group"
      else ready_pending_transition gateway transition_id runtime CommitBacked
  end.

(** The echo of the commit that created the group. *)
Definition confirm_local_init_commit (transition_id : Z) (commit : list Z) : vtask unit :=
  expected ← dave_field (fun d => local_init_commit_echoes d !! transition_id);
  _ ← set_dave_state (fun d =>
        set_local_init_commit_echoes (delete transition_id (local_init_commit_echoes d)) d);
  match expected with
  | Some expected_commit =>
      if bool_decide (expected_commit = commit)
      then _ ← forget_prepared transition_id; mret (Ok tt)
      else invalid "voice dave local init commit echo mismatch"
  | None => _ ← forget_prepared transition_id; mret (Ok tt)
  end.

Definition prepare_remote_commit_transition (gateway transition_id : Z) (commit : list Z) : vtask unit :=
  d ← dave_field id;
  let prepared := bool_decide (is_Some (prepared_transitions d !! transition_id)) in
  if bool_decide (transition_id ∈ invalidated_transitions d)
  then _ ← forget_prepared transition_id; mret (Ok tt)
  else if bool_decide (transition_id ∈ completed_welcome_backed d) && negb prepared then mret (Ok tt)
  else if bool_decide (transition_id ∈ completed_local_init_commit d)
  then confirm_local_init_commit transition_id commit
  else if match pending_transition d with
          | Some p => (pt_transition_id p =? transition_id) && bool_decide (pt_source p = CommitBacked)
          | None => false
          end
  then mret (Ok tt)
  else if bool_decide (is_Some (pending_transition d)) && negb prepared then mret (Ok tt)
  else
    local ← take_local_commit;
    match local with
    | Some pending => announce_local_commit gateway transition_id commit pending
    | None =>
        if negb prepared then mret (Ok tt) else apply_remote_commit gateway transition_id commit
    end.

Definition prepare_pending_initial_welcome_transition (gateway transition_id : Z) (welcome : list Z)
    (pending : PendingInitialDaveSession) : vtask unit :=
  let '(s, roster) := session_process_welcome welcome (pi_session pending) in
  roster ←? mret (map_err (fun _ => InvalidState "voice dave welcome invalid") roster);
  if bool_decide (roster = []) then invalid "voice dave welcome transition did not keep group" else
  runtime ←? mret (map_err (fun _ => InvalidState "voice dave runtime create failed")
                     (DaveSession.from_session s));
  _ ← set_dave_state (set_initial_recovery false);
  ready_pending_transition gateway transition_id runtime WelcomeBacked.

Definition apply_welcome (gateway transition_id : Z) (welcome : list Z) : vtask unit :=
  _ ←? consume_prepared_transition transition_id;
  runtime ←? active_runtime;
  let '(runtime, roster) := process_welcome welcome runtime in
  roster ←? mret (map_err (fun _ => InvalidState "voice dave welcome invalid") roster);
  if bool_decide (roster = []) then invalid "voice dave welcome transition did not keep group" else
  ready_pending_transition gateway transition_id runtime WelcomeBacked.

Definition prepare_welcome_transition (gateway transition_id : Z) (welcome : list Z) : vtask unit :=
  d ← dave_field id;
  let prepared := bool_decide (is_Some (prepared_transitions d !! transition_id)) in
  if bool_decide (transition_id ∈ invalidated_transitions d)
  then _ ← forget_prepared transition_id; mret (Ok tt)
  else if bool_decide (transition_id ∈ completed_welcome_backed d) && negb prepared then mret (Ok tt)
  else if bool_decide (transition_id ∈ completed_local_init_commit d)
  then _ ← forget_prepared transition_id; mret (Ok tt)
  else
    initial ← take_pending_initial;
    match initial with
    | Some pending =>
        _ ← forget_prepared transition_id;
        prepare_pending_initial_welcome_transition gateway transition_id welcome pending
    | None => apply_welcome gateway transition_id welcome
    end.

(** Our commit and welcome, framed for the gateway. *)
Definition send_commit_welcome (gateway : Z) (commit_welcome : list Z) : vtask unit :=
  payload ←? mret (dave_mls_commit_welcome_payload commit_welcome);
  send gateway (OutBinary payload).
Definition split_commit (commit_welcome : list Z) : vresult (list Z) :=
  '(commit, _) ← map_err (fun _ => InvalidState "voice dave commit welcome invalid")
                   (split_commit_welcome commit_welcome);
  Ok commit.
Definition required_sender : vtask ext_sender :=
  required (fun s => dave_external_sender (cs_dave s)) "voice dave external sender unavailable".

(** A local commit that is applied at once, on a session of the initial
    epoch: send it, apply it, and make the session the runtime. *)
Definition commit_initial (gateway : Z) (commit_welcome : list Z) (s : DaveSession) : vtask (list Z) :=
  commit ←? mret (split_commit commit_welcome);
  _ ←? send_commit_welcome gateway commit_welcome;
  let '(s, result) := session_process_commit commit s in
  result ←? mret (map_err (fun _ => InvalidState "voice dave local commit invalid") result);
  if negb (kept_group result) then invalid "voice dave local commit transition did not keep group" else
  runtime ←? mret (map_err (fun _ => InvalidState "voice dave runtime create failed")
                     (DaveSession.from_session s));
  _ ← set_dave_state (set_dave (Some runtime));
  mret (Ok commit).

Definition expect_local_init_echo (transition_id : Z) (commit : list Z) : task unit :=
  set_dave_state (fun d =>
    set_local_init_commit_echoes (<[transition_id := commit]> (local_init_commit_echoes d))
      (set_completed_local_init_commit ({[transition_id]} ∪ completed_local_init_commit d) d)).

Definition prepare_initial_epoch_local_commit_transition (gateway : Z) (op : DaveMlsProposalsOperation)
    (proposals : list Z) (protocol_version : Z) (recognized : list string) : vtask unit :=
  _ ←? required_sender;
  group_id ←? required (fun s => dave_group_id (cs_dave s)) "voice dave group id unavailable";
  sender ←? required (fun s => dave_external_sender_bytes (cs_dave s)) "voice dave external sender unavailable";
  user_id ← session (fun s => vc_user_id (cs_voice s));
  s ←? mret (fresh_session protocol_version group_id sender user_id);
  let '(s, commit_welcome) := session_process_proposals op proposals recognized s in
  commit_welcome ←? mret (map_err (fun _ => InvalidState "voice dave proposals invalid") commit_welcome);
  match commit_welcome with
  | None => invalid "voice dave append proposals produced no commit"
  | Some commit_welcome =>
      commit ←? commit_initial gateway commit_welcome s;
      _ ← expect_local_init_echo DAVE_PROTOCOL_INIT_TRANSITION_ID commit;
      mret (Ok tt)
  end.

Definition prepare_pending_initial_local_commit_transition (gateway : Z) (op : DaveMlsProposalsOperation)
    (proposals : list Z) (pending : PendingInitialDaveSession) (transition_id : option Z) : vtask unit :=
  _ ←? required_sender;
  recognized ← dave_field recognized_list;
  let '(s, commit_welcome) := session_process_proposals op proposals recognized (pi_session pending) in
  commit_welcome ←? mret (map_err (fun _ => InvalidState "voice dave proposals invalid") commit_welcome);
  match commit_welcome with
  | None =>
      _ ← set_dave_state (set_pending_initial_dave (Some (mkPendingInitial s (pi_protocol_version pending))));
      mret (Ok tt)
  | Some commit_welcome =>
      commit ←? commit_initial gateway commit_welcome s;
      _ ← set_dave_state (set_initial_recovery false);
      match transition_id with
      | Some transition_id =>
          _ ←? consume_prepared_transition transition_id;
          if transition_id =? DAVE_PROTOCOL_INIT_TRANSITION_ID
          then _ ← expect_local_init_echo transition_id commit; mret (Ok tt)
          else
            runtime ←? active_runtime;
            ready_pending_transition gateway transition_id runtime CommitBacked
      | None => _ ← expect_local_init_echo DAVE_PROTOCOL_INIT_TRANSITION_ID commit; mret (Ok tt)
      end
  end.

(** Our commit on the group we are in: it waits for its announcement. *)
Definition commit_proposals (gateway : Z) (op : DaveMlsProposalsOperation) (proposals : list Z) : vtask unit :=
  runtime ←? active_runtime;
  recognized ← dave_field recognized_list;
  let '(runtime, commit_welcome) := process_proposals_with_operation op proposals recognized runtime in
  match commit_welcome with
  | Ok (Some commit_welcome) =>
      _ ←? required_sender;
      commit ←? mret (split_commit commit_welcome);
      _ ←? send_commit_welcome gateway commit_welcome;
      _ ← set_dave_state (set_local_commit_transition (Some (mkPendingLocalCommit runtime commit)));
      mret (Ok tt)
  | Ok None => _ ← set_dave_state (set_dave (Some runtime)); mret (Ok tt)
  | Panic => mret Panic
  | Err _ =>
      retry ← dave_field (should_retry_initial_epoch_proposals op);
      if (retry : bool)
      then prepare_initial_epoch_local_commit_transition gateway op proposals
             (rc_protocol_version runtime) recognized
      else _ ← set_dave_state (set_dave (Some runtime)); mret (Ok tt)
  end.

Definition prepare_local_commit_transition (gateway : Z) (op : DaveMlsProposalsOperation)
    (proposals : list Z) : vtask unit :=
  initial ← take_pending_initial;
  match initial with
  | Some pending =>
      transition_id ← dave_field next_prepared_transition_id;
      prepare_pending_initial_local_commit_transition gateway op proposals pending transition_id
  | None =>
      in_flight ← dave_field (fun d => bool_decide (is_Some (local_commit_transition d)) ||
                                       bool_decide (is_Some (pending_transition d)));
      if (in_flight : bool) then mret (Ok tt) else commit_proposals gateway op proposals
  end.

Definition prepare_epoch (transition_id : option Z) (epoch : string) (protocol_version : Z) : vtask unit :=
  if bool_decide (epoch = EmptyString) then invalid "voice dave prepare epoch missing" else
  match transition_id with
  | None => invalid "voice dave prepare epoch transition id missing"
  | Some transition_id =>
      d ← dave_field id;
      if bool_decide (transition_id ∈ invalidated_transitions d) then mret (Ok tt) else
      current ←? mret (current_dave_protocol_version d);
      if negb (protocol_version =? current)
      then invalid "voice dave prepare epoch protocol version mismatch"
      else if bool_decide (transition_id ∈ completed_local_init_commit d) then mret (Ok tt)
      else if match pending_transition d with
              | Some p => pt_transition_id p =? transition_id
              | None => false
              end
      then mret (Ok tt)
      else _ ← note_prepared transition_id protocol_version; mret (Ok tt)
  end.

Definition prepare_transition (transition_id protocol_version : Z) : vtask unit :=
  d ← dave_field id;
  if bool_decide (transition_id ∈ invalidated_transitions d) then mret (Ok tt)
  else if transition_id =? DAVE_PROTOCOL_INIT_TRANSITION_ID
  then _ ← note_prepared transition_id protocol_version; mret (Ok tt)
  else if protocol_version =? 0 then invalid "voice dave protocol downgrade transition unsupported"
  else _ ← note_prepared transition_id protocol_version; mret (Ok tt).

Definition mark_completed_transition (transition_id : Z) (source : PendingDaveTransitionSource)
    (d : DaveState) : DaveState :=
  match source with
  | WelcomeBacked => set_completed_welcome_backed ({[transition_id]} ∪ completed_welcome_backed d) d
  | CommitBacked => d
  end.

Definition execute_transition (transition_id : Z) : vtask unit :=
  pending ← take_pending_transition;
  match pending with
  | Some p =>
      if pt_transition_id p =? transition_id
      then _ ← set_dave_state (fun d => set_dave (Some (pt_runtime p))
                                 (mark_completed_transition transition_id (pt_source p) d));
           mret (Ok tt)
      else _ ← set_dave_state (set_pending_transition (Some p));
           invalid "voice dave execute transition id mismatch"
  | None => mret (Ok tt)
  end.

Definition process_gateway_event_for_dave (gateway : Z) (event : VoiceGatewayEvent) : vtask unit :=
  match event with
  | ClientsConnect user_ids =>
      _ ← set_dave_state (fun d => set_recognized_user_ids (recognized_user_ids d ∪ list_to_set user_ids) d);
      mret (Ok tt)
  | ClientDisconnect user_id =>
      _ ← set_dave_state (fun d => set_recognized_user_ids (recognized_user_ids d ∖ {[user_id]}) d);
      mret (Ok tt)
  | DavePrepareEpoch transition_id epoch protocol_version => prepare_epoch transition_id epoch protocol_version
  | DaveMlsPrepareCommitTransition transition_id commit =>
      prepare_remote_commit_transition gateway transition_id commit
  | DaveMlsWelcome transition_id welcome => prepare_welcome_transition gateway transition_id welcome
  | DaveMlsProposals op proposals => prepare_local_commit_transition gateway op proposals
  | DaveExecuteTransition transition_id => execute_transition transition_id
  | DavePrepareTransition transition_id protocol_version => prepare_transition transition_id protocol_version
  | _ => mret (Ok tt)
  end.

(** ** Draining the gateway *)

Definition desired_wait (initial_wait : Z) (wait_for_follow_up : bool) (d : DaveState) : Z :=
  if bool_decide (is_Some (pending_transition d)) || bool_decide (is_Some (local_commit_transition d)) ||
     (bool_decide (is_Some (pending_initial_dave d)) && initial_recovery d)
  then DAVE_GATEWAY_EXECUTE_POLL
  else if negb (bool_decide (prepared_transitions d = ∅)) ||
          negb (bool_decide (local_init_commit_echoes d = ∅)) || wait_for_follow_up
  then DAVE_GATEWAY_TRANSITION_POLL
  else initial_wait.

Definition count_event (e : VoiceGatewayEvent) (r : VoiceGatewayDrainReport) : VoiceGatewayDrainReport :=
  mkDrainReport (sat_add u64_max (dr_event_count r) 1)
    (if bool_decide (is_Some (dave_session_event_transition_id e))
     then sat_add u64_max (dr_dave_transition_count r) 1 else dr_dave_transition_count r).

(** The time left until the deadline, where there is one. *)
Definition deadline_passed (left : option Z) : bool :=
  match left with Some r => r <=? 0 | None => false end.
Definition cut_wait (wait : Z) (left : option Z) : Z :=
  match left with Some r => wait `min` r | None => wait end.

(** The answer is the report, with [true] when the drain limit was reached. *)
Fixpoint drain_loop (turns : nat) (gateway initial_wait : Z) (wait_for_idle_follow_up has_deadline : bool)
    (wait_for_follow_up : bool) (report : VoiceGatewayDrainReport)
    : vtask (VoiceGatewayDrainReport * bool) :=
  match turns with
  | O => mret (Ok (report, true))
  | S turns =>
      wait ← dave_field (desired_wait initial_wait wait_for_follow_up);
      left ← (if has_deadline then remaining ← ask AskDeadline; mret (Some remaining) else mret None);
      if deadline_passed left then mret (Ok (report, false)) else
      received ← ask (AskReceive gateway (cut_wait wait left));
      match received with
      | None => mret (Ok (report, false))
      | Some (Err err) => mret (Err err)
      | Some Panic => mret Panic
      | Some (Ok event) =>
          let report := count_event event report in
          let follow_up := wait_for_idle_follow_up || dave_session_event_expects_follow_up event in
          processed ← process_gateway_event_for_dave gateway event;
          match processed with
          | Ok _ => drain_loop turns gateway initial_wait wait_for_idle_follow_up has_deadline follow_up report
          | Err err => fail_dave_closed err
          | Panic => mret Panic
          end
      end
  end.

Definition drain_check (allow_pending_initial_dave : bool) (d : DaveState) : vresult unit :=
  if bool_decide (is_Some (pending_transition d)) then Err (InvalidState "voice dave transition pending")
  else if bool_decide (is_Some (local_commit_transition d))
  then Err (InvalidState "voice dave local commit transition pending")
  else if bool_decide (is_Some (pending_initial_dave d)) && negb allow_pending_initial_dave
  then Err (InvalidState "voice dave initial session pending")
  else if negb (bool_decide (prepared_transitions d = ∅))
  then Err (InvalidState "voice dave prepared transition pending")
  else Ok tt.

Definition process_pending_gateway_events_with_initial_poll_policy (initial_wait : Z)
    (allow_pending_initial_dave wait_for_idle_follow_up has_deadline : bool)
    : vtask VoiceGatewayDrainReport :=
  d ← dave_field id;
  closed ← session cs_receive_closed;
  if failed_closed d then invalid "voice dave session failed closed" else
  if (closed : bool) then mret (Ok VoiceGatewayDrainReport_default) else
  if no_dave_pending d then mret (Ok VoiceGatewayDrainReport_default) else
  gateway ←? required cs_gateway "voice gateway unavailable";
  drained ←? drain_loop DAVE_GATEWAY_EVENT_DRAIN_LIMIT gateway initial_wait wait_for_idle_follow_up
               has_deadline false VoiceGatewayDrainReport_default;
  if drained.2 then invalid "voice dave gateway event backlog pending" else
  d ← dave_field id;
  _ ←? mret (drain_check allow_pending_initial_dave d);
  mret (Ok drained.1).

Definition process_pending_gateway_events : vtask VoiceGatewayDrainReport :=
  process_pending_gateway_events_with_initial_poll_policy DAVE_GATEWAY_IDLE_POLL false false false.
Definition process_pending_gateway_events_with_initial_poll (initial_wait : Z) : vtask VoiceGatewayDrainReport :=
  process_pending_gateway_events_with_initial_poll_policy initial_wait false true false.
Definition process_pending_gateway_events_before_deadline : vtask VoiceGatewayDrainReport :=
  process_pending_gateway_events_with_initial_poll_policy DAVE_GATEWAY_IDLE_POLL false false true.
Definition prepare_media_state_before_slot : vtask VoiceGatewayDrainReport :=
  process_pending_gateway_events_before_deadline.
Definition settle_pending_dave_transition_for_playback : vtask VoiceGatewayDrainReport :=
  process_pending_gateway_events_with_initial_poll DAVE_GATEWAY_TRANSITION_POLL.
Definition wait_for_initial_dave_settle : vtask unit :=
  _ ←? settle_pending_dave_transition_for_playback; mret (Ok tt).
Definition settle_initial_dave_for_join : vtask unit :=
  _ ←? process_pending_gateway_events_with_initial_poll_policy DAVE_GATEWAY_TRANSITION_POLL true true false;
  mret (Ok tt).

(** ** Speaking and media *)

Fixpoint send_repeated (n : nat) (gateway : Z) (message : Outgoing) : vtask unit :=
  match n with
  | O => mret (Ok tt)
  | S n => _ ←? send gateway message; send_repeated n gateway message
  end.
Definition send_speaking_repeated (gateway ssrc : Z) : vtask unit :=
  send_repeated START_SPEAKING_GATEWAY_REPEAT_COUNT gateway
    (OutJson (speaking_payload ssrc SPEAKING_FLAG_MICROPHONE)).
Definition send_not_speaking_repeated (gateway ssrc : Z) : vtask unit :=
  send_repeated STOP_SPEAKING_GATEWAY_REPEAT_COUNT gateway (OutJson (speaking_payload ssrc 0)).

Definition prepare_speaking_before_media : vtask unit :=
  started ← session cs_speaking_started;
  if (started : bool) then mret (Ok tt) else
  ssrc ←? required cs_ssrc "voice ssrc unavailable";
  gateway ←? required cs_gateway "voice gateway unavailable";
  _ ←? send_speaking_repeated gateway ssrc;
  _ ← set_session (set_cs_speaking_started true);
  mret (Ok tt).

Definition stop_speaking : vtask unit :=
  started ← session cs_speaking_started;
  if negb started then mret (Ok tt) else
  ssrc ←? required cs_ssrc "voice ssrc unavailable";
  gateway ←? required cs_gateway "voice gateway unavailable";
  _ ←? send_not_speaking_repeated gateway ssrc;
  _ ← set_session (set_cs_speaking_started false);
  mret (Ok tt).

Definition audio_duration_ms_from_samples (duration_samples : Z) : Z :=
  sat_mul u64_max duration_samples 1000 / 48000.

(** The frame as it goes into the packet: silence is never encrypted, other
    frames are when there is a DAVE runtime. *)
Definition outgoing_frame (frame : list Z) (d : DaveState) : DaveState * vresult (list Z) :=
  if bool_decide (frame = OPUS_SILENCE_FRAME) then (d, Ok frame)
  else match dave d with
       | Some runtime =>
           let '(runtime, encrypted) := encrypt_audio_frame frame runtime in
           (set_dave (Some runtime) d,
            map_err (fun _ => InvalidState "voice dave frame encryption failed") encrypted)
       | None => (d, Ok frame)
       end.

Definition prepare_current_slot_audio_packet (frame : list Z) (duration_samples : Z)
    : vtask PreparedVoicePacket :=
  frame ←? act (fun w =>
    let '(d, r) := outgoing_frame frame (cs_dave (w_session w)) in
    Some (mkWorld (set_cs_dave d (w_session w)) (w_sent w) (w_packets w), r));
  act (fun w =>
    match cs_transport (w_session w) with
    | None => Some (w, Err (InvalidState "voice transport unavailable"))
    | Some t =>
        let '(t, r) := prepare_audio_packet_with_duration_samples t frame
                         (audio_duration_ms_from_samples duration_samples) duration_samples true in
        Some (mkWorld (set_cs_transport (Some t) (w_session w)) (w_sent w) (w_packets w), r)
    end).

Definition send_current_slot_packet (packet : PreparedVoicePacket) : vtask unit :=
  _ ←? required cs_transport "voice transport unavailable";
  sock ← ask (AskUdp packet);
  _ ←? act (fun w =>
    match cs_transport (w_session w) with
    | None => Some (w, Err (InvalidState "voice transport unavailable"))
    | Some t =>
        let '(t, r) := transport_send_prepared_packet t packet sock in
        Some (mkWorld (set_cs_transport (Some t) (w_session w)) (w_sent w)
                (match r with Ok _ => w_packets w ++ [packet] | _ => w_packets w end), r)
    end);
  _ ← set_session (set_cs_speaking_started true);
  mret (Ok tt).

Definition discard_unsent_prepared_packets : task unit :=
  set_session (fun s =>
    match cs_transport s with
    | Some t => set_cs_transport (Some (Udp.discard_unsent_prepared_packets t)) s
    | None => s
    end).

Definition send_audio_frame_with_duration_samples (frame : list Z) (duration_samples : Z) : vtask unit :=
  drained ← process_pending_gateway_events;
  started ← session cs_speaking_started;
  _ ←? match drained with
       | Ok _ => mret (Ok tt)
       | Err err =>
           if is_gateway_closed_during_receive err && started
           then _ ← mark_gateway_receive_closed; mret (Ok tt)
           else mret (Err err)
       | Panic => mret Panic
       end;
  _ ←? prepare_speaking_before_media;
  packet ←? prepare_current_slot_audio_packet frame duration_samples;
  send_current_slot_packet packet.
Definition send_audio_frame (frame : list Z) : vtask unit := send_audio_frame_with_duration_samples frame 960.

Fixpoint send_silence (n : nat) : vtask unit :=
  match n with
  | O => mret (Ok tt)
  | S n => _ ←? send_audio_frame OPUS_SILENCE_FRAME; send_silence n
  end.
Definition stop_audio : vtask unit :=
  _ ←? send_silence STOP_AUDIO_SILENCE_FRAME_COUNT; stop_speaking.

(** ** Connecting, suspending, resuming *)

Definition dave_state_of (voice : VoiceContext) (h : option Handshake.InitialDaveState) : DaveState :=
  match h with
  | Some h =>
      mkDaveState (Handshake.id_runtime h)
        (option_map (fun s => mkPendingInitial s (Handshake.id_protocol_version h))
           (Handshake.id_pending_initial_session h))
        (Some (Handshake.id_group_id h)) (Some (Handshake.id_external_sender h))
        (Some (Handshake.id_external_sender_bytes h)) (Handshake.id_recognized_user_ids h)
        (Handshake.id_completed_welcome_backed h) (Handshake.id_completed_local_init_commit h)
        ∅ ∅ ∅ None None false false
  | None => DaveState_new (vc_user_id voice)
  end.

Definition connected_session (voice : VoiceContext) (h : Handshake.VoiceHandshakeResult)
    : vresult ConnectedVoiceSession :=
  protection ← Protocol.from_session (Handshake.hr_session_description h);
  Ok (mkSession voice VoiceSessionRollover_default (Some (Handshake.hr_gateway h))
        (Some (with_protection (Handshake.hr_transport h) protection)) (Some (Handshake.hr_ssrc h))
        (Some (Handshake.hr_session_description h)) (dave_state_of voice (Handshake.hr_dave h)) false None true false).

Definition prepared_packet_sender : vtask VoicePreparedPacketSender :=
  transport ←? required cs_transport "voice transport unavailable"; mret (Ok (tr_sender transport)).
Definition cloned_prepared_packet_sender : vtask VoicePreparedPacketSender :=
  transport ←? required cs_transport "voice transport unavailable"; mret (Ok (tr_sender transport)).

Definition connect (voice : VoiceContext) : vtask ConnectedVoiceSession :=
  handshake ← ask (AskHandshake voice);
  result ←? mret handshake;
  match result with
  | None => mret (Ok (ConnectedVoiceSession_new voice))
  | Some h => mret (connected_session voice h)
  end.

Definition current_seq_ack : task (option Z) :=
  gateway ← session cs_gateway;
  match gateway with
  | Some g => ask (AskSeqAck g)
  | None => session cs_suspended_seq_ack
  end.
Definition stop_heartbeat : task unit := set_session (set_cs_heartbeat false).

Definition resume_gateway_after_close : vtask unit :=
  s ← session id;
  if bool_decide (cs_gateway s = None) &&
     (bool_decide (cs_transport s = None) || bool_decide (cs_ssrc s = None) ||
      bool_decide (cs_session_description s = None))
  then invalid "voice media unavailable for gateway resume" else
  seq_ack ← current_seq_ack;
  _ ← stop_heartbeat;
  voice ← session cs_voice;
  resumed ← ask (AskResume voice seq_ack);
  gateway ←? mret resumed;
  _ ← set_session (fun s =>
        set_cs_speaking_started false (set_cs_suspended_seq_ack None (set_cs_receive_closed false
          (set_cs_heartbeat true (set_cs_gateway (Some gateway) s)))));
  mret (Ok tt).

Definition suspend_media : vtask unit :=
  started ← session cs_speaking_started;
  _ ←? (if (started : bool) then stop_speaking else mret (Ok tt));
  seq_ack ← current_seq_ack;
  _ ← stop_heartbeat;
  gateway ← session cs_gateway;
  _ ← set_session (fun s => set_cs_suspended_seq_ack seq_ack (set_cs_gateway None s));
  _ ←? match gateway with
       | Some g => closed ← ask (AskClose g); mret closed
       | None => mret (Ok tt)
       end;
  _ ← set_session (fun s => set_cs_speaking_started false (set_cs_receive_closed true s));
  mret (Ok tt).
End session.
