(* ===== verification/SessionFrame.v ===== *)
(** * What the operations of a session leave alone

    The DAVE machine (ConnectedSession.v) changes the DAVE state and writes to
    the gateway, and nothing else; no operation changes the voice context of
    the session; and, when the group library does not panic, no operation
    does. *)

From S2P Require Import Prelude VoiceErrors Text Protection Udp DaveWire Json Protocol Gateway DaveSession Task ConnectedSession.
From stdpp Require Import prelude strings gmap.
Open Scope Z_scope.
Open Scope task_scope.

Section frame.
Context {A : Aead} {D : Davey}.

(** ** The DAVE machine *)

(** Only the DAVE state differs, and messages were added to the gateway. *)
Definition dave_only (w w' : World) : Prop :=
  w_packets w' = w_packets w /\ w_sent w `prefix_of` w_sent w' /\
  exists d, w_session w' = set_cs_dave d (w_session w).

#[global] Instance dave_only_preorder : PreOrder dave_only.
Proof.
  split.
  - intros w. split_and!; [done|done|]. exists (cs_dave (w_session w)). by destruct w as [[] ? ?].
  - intros w1 w2 w3 (Hp1 & Hs1 & d1 & Hw1) (Hp2 & Hs2 & d2 & Hw2).
    split_and!; [congruence|by etrans|]. exists d2. by rewrite Hw2, Hw1.
Qed.

Abbreviation quiet m := (every (Sp := Empty_set) Valid (moves_by dave_only) m).

Create HintDb dave_frame.

Ltac quiet_step := first
  [ solve [auto with dave_frame nocore] | exact I
  | match goal with |- every _ _ (ask _) => by intros ? ? end
  | apply every_try; [|intros ?] | apply every_bind; [|intros ?] | case_match ].
Ltac quiet := repeat quiet_step.

Lemma quiet_read {B} (f : ConnectedVoiceSession -> B) : quiet (session f).
Proof. split; [|done]. intros w. exists w, (f (w_session w)). split; [done|reflexivity]. Qed.
Lemma quiet_read_dave {B} (f : DaveState -> B) : quiet (dave_field f).
Proof. apply quiet_read. Qed.
Lemma quiet_set f : quiet (set_dave_state f).
Proof. split; [|done]. intros w. eexists _, tt. split; [done|]. split_and!; [done|done|]. by eexists. Qed.
Lemma quiet_ask q : quiet (ask q).
Proof. done. Qed.
#[local] Hint Resolve quiet_read quiet_read_dave quiet_set quiet_ask : dave_frame.

Lemma quiet_send g m : quiet (send g m).
Proof.
  apply every_bind; [done|]. intros [[]|e|]; [|done..]. apply every_bind; [|done]. split; [|done].
  intros w. eexists _, tt. split; [done|]. split_and!; [done|by apply prefix_app_r|].
  exists (cs_dave (w_session w)). by destruct w as [[] ? ?].
Qed.
Lemma quiet_required {X} (f : ConnectedVoiceSession -> option X) r : quiet (required f r).
Proof. unfold required. quiet. Qed.
#[local] Hint Resolve quiet_send quiet_required : dave_frame.
Lemma quiet_take_dave : quiet take_dave.
Proof. unfold take_dave. quiet. Qed.
Lemma quiet_take_initial : quiet take_pending_initial.
Proof. unfold take_pending_initial. quiet. Qed.
Lemma quiet_take_local : quiet take_local_commit.
Proof. unfold take_local_commit. quiet. Qed.
Lemma quiet_take_pending : quiet take_pending_transition.
Proof. unfold take_pending_transition. quiet. Qed.
#[local] Hint Resolve quiet_take_dave quiet_take_initial quiet_take_local quiet_take_pending : dave_frame.
Lemma quiet_active : quiet active_runtime.
Proof. unfold active_runtime. quiet. Qed.
Lemma quiet_fail {X} e : quiet (fail_dave_closed (X := X) e).
Proof. unfold fail_dave_closed. quiet. Qed.
Lemma quiet_consume i : quiet (consume_prepared_transition i).
Proof. unfold consume_prepared_transition. quiet. Qed.
Lemma quiet_forget i : quiet (forget_prepared i).
Proof. apply quiet_set. Qed.
Lemma quiet_note i v : quiet (note_prepared i v).
Proof. apply quiet_set. Qed.
Lemma quiet_echo i c : quiet (expect_local_init_echo i c).
Proof. apply quiet_set. Qed.
#[local] Hint Resolve quiet_active quiet_fail quiet_consume quiet_forget quiet_note quiet_echo : dave_frame.
Lemma quiet_ready g i rt src : quiet (ready_pending_transition g i rt src).
Proof. unfold ready_pending_transition. quiet. Qed.
Lemma quiet_reinitialize g i v : quiet (reinitialize_dave_session_after_invalid_commit g i v).
Proof. unfold reinitialize_dave_session_after_invalid_commit. quiet. Qed.
#[local] Hint Resolve quiet_ready quiet_reinitialize : dave_frame.
Lemma quiet_remote_commit g i c : quiet (prepare_remote_commit_transition g i c).
Proof.
  unfold prepare_remote_commit_transition, confirm_local_init_commit, announce_local_commit, apply_remote_commit.
  quiet.
Qed.
Lemma quiet_welcome g i m : quiet (prepare_welcome_transition g i m).
Proof.
  unfold prepare_welcome_transition, prepare_pending_initial_welcome_transition, apply_welcome. quiet.
Qed.
Lemma quiet_commit_initial g cw s : quiet (commit_initial g cw s).
Proof. unfold commit_initial, send_commit_welcome. quiet. Qed.
#[local] Hint Resolve quiet_commit_initial : dave_frame.
Lemma quiet_local_commit g op ps : quiet (prepare_local_commit_transition g op ps).
Proof.
  unfold prepare_local_commit_transition, prepare_pending_initial_local_commit_transition, commit_proposals,
    prepare_initial_epoch_local_commit_transition, send_commit_welcome, required_sender. quiet.
Qed.
#[local] Hint Resolve quiet_remote_commit quiet_welcome quiet_local_commit : dave_frame.
Lemma quiet_event g e : quiet (process_gateway_event_for_dave g e).
Proof.
  unfold process_gateway_event_for_dave, prepare_epoch, prepare_transition, execute_transition. quiet.
Qed.
#[local] Hint Resolve quiet_event : dave_frame.
Lemma quiet_drain_loop n g t follow deadline fu rep : quiet (drain_loop n g t follow deadline fu rep).
Proof. revert fu rep. induction n as [|n IH]; intros fu rep; cbn [drain_loop]; [done|]. quiet. Qed.
#[local] Hint Resolve quiet_drain_loop : dave_frame.

(** Draining the gateway touches only the DAVE state. *)
Lemma quiet_drain t allow follow deadline :
  quiet (process_pending_gateway_events_with_initial_poll_policy t allow follow deadline).
Proof. unfold process_pending_gateway_events_with_initial_poll_policy. quiet. Qed.
End frame.
