(* ===== verification/DaveMachine.v ===== *)
(** * What the DAVE machine of a session guarantees

    The group state of a session is in exactly one place: the runtime that
    encrypts, a transition that waits to be executed, a commit of ours that
    waits to be announced, or the session of an initial epoch. Every gateway
    event keeps this, a drain that succeeds leaves the runtime in place, and
    everything else fails closed (ConnectedSession.v). *)

From S2P Require Import Prelude VoiceErrors Text Protection Udp DaveWire Json Protocol Gateway DaveSession Task ConnectedSession SessionFrame.
From stdpp Require Import prelude strings gmap.
Open Scope Z_scope.
Open Scope task_scope.

Section machine.
Context {A : Aead} {D : Davey}.

Abbreviation task := (prog World question answer Empty_set).

(** The number of places that hold a group. *)
Definition holders (d : DaveState) : nat :=
  length (filter (fun b => b = true)
    [bool_decide (is_Some (dave d)); bool_decide (is_Some (pending_initial_dave d));
     bool_decide (is_Some (pending_transition d)); bool_decide (is_Some (local_commit_transition d))]).

(** DAVE is on and the group is in one place. *)
Definition custody (d : DaveState) : Prop := failed_closed d = false /\ holders d = 1%nat.

(** Nothing is left to encrypt with, and nothing is waited for. *)
Definition closed (d : DaveState) : Prop :=
  failed_closed d = true /\ holders d = 0%nat /\ prepared_transitions d = ∅ /\ local_init_commit_echoes d = ∅.

Abbreviation dstate w := (cs_dave (w_session w)).

(** An event that is handled keeps the group in one place. *)
Definition handled {X} (r : vresult X) (w : World) : Prop :=
  match r with Ok _ => custody (dstate w) | _ => True end.

(** The group is with the caller. *)
Definition taken (d : DaveState) : Prop := failed_closed d = false /\ holders d = 0%nat.

Ltac split_state w :=
  let s := fresh "s" in let d := fresh "d" in
  destruct w as [[?vo ?ro ?gw ?tr ?ss ?sd d ?rc ?sq ?hb ?sp] ?sent ?packets];
  destruct d as [?da ?pi ?gi ?es ?eb ?ru ?cw ?cl ?iv ?pr ?ec ?lc ?pt ?ir ?fc].

Lemma wp_send g m post w :
  (forall w', w_session w' = w_session w -> post (Ok tt) w') ->
  (forall e, post (Err e) w) ->
  wp Valid (send g m) post w.
Proof.
  intros Hok Herr. cbn. intros [[]|e|] Hv; cbn; [by apply Hok|by apply Herr|done].
Qed.

#[local] Arguments send : simpl never.

Lemma wp_ready g i rt src w :
  taken (dstate w) -> wp Valid (ready_pending_transition g i rt src) handled w.
Proof.
  intros [Hf Hh]. unfold ready_pending_transition. cbn.
  assert (custody (set_pending_transition (Some (mkPendingDaveTransition i rt src)) (dstate w))) as Hc.
  { split_state w. cbn in *. subst. unfold custody, holders in *. cbn in *.
    destruct da, pi, pt, lc; done. }
  destruct (i =? DAVE_PROTOCOL_INIT_TRANSITION_ID); [exact Hc|].
  apply wp_bind, wp_send; [|done]. intros w' Hw. cbn. by rewrite Hw.
Qed.
#[local] Arguments ready_pending_transition : simpl never.

Lemma wp_reinitialize g i v w :
  taken (dstate w) -> wp Valid (reinitialize_dave_session_after_invalid_commit g i v) handled w.
Proof.
  intros [Hf _]. unfold reinitialize_dave_session_after_invalid_commit. cbn.
  destruct (dave_group_id _); cbn; [|done]. destruct (dave_external_sender_bytes _); cbn; [|done].
  destruct (fresh_session _ _ _ _) as [s|e|]; cbn; [|done..].
  destruct (key_package s) as [s' [package|e|]]; cbn; [|done..].
  apply wp_bind, wp_send; [|done]. intros w1 H1. cbn.
  apply wp_bind, wp_send; [|done]. intros w2 H2. cbn.
  rewrite H2, H1. by destruct (dstate w).
Qed.
#[local] Arguments reinitialize_dave_session_after_invalid_commit : simpl never.

Lemma wp_announce_local_commit g i c p w :
  taken (dstate w) -> wp Valid (announce_local_commit g i c p) handled w.
Proof.
  intros Ht. unfold announce_local_commit. cbn. destruct (process_commit c (pl_runtime p)) as [rt [r|e|]]; cbn; [|by apply wp_reinitialize|done].
  destruct (kept_group r); [by apply wp_ready|done].
Qed.
#[local] Arguments announce_local_commit : simpl never.

(** The group is only with the runtime. *)
Lemma custody_runtime d rt :
  custody d -> dave d = Some rt -> taken (set_dave None d) /\
    pending_initial_dave d = None /\ pending_transition d = None /\ local_commit_transition d = None.
Proof.
  destruct d as [da pi gi es eb ru cw cl iv pr ec lc pt ir fc]. unfold custody, taken, holders. cbn.
  intros [-> Hh] ->. destruct pi, pt, lc; done.
Qed.

Lemma custody_initial d p :
  custody d -> pending_initial_dave d = Some p -> taken (set_pending_initial_dave None d) /\ dave d = None.
Proof.
  destruct d as [da pi gi es eb ru cw cl iv pr ec lc pt ir fc]. unfold custody, taken, holders. cbn.
  intros [-> Hh] ->. destruct da, pt, lc; done.
Qed.

Lemma custody_local d p :
  custody d -> local_commit_transition d = Some p -> taken (set_local_commit_transition None d).
Proof.
  destruct d as [da pi gi es eb ru cw cl iv pr ec lc pt ir fc]. unfold custody, taken, holders. cbn.
  intros [-> Hh] ->. destruct da, pt, pi; done.
Qed.

Lemma custody_pending d p :
  custody d -> pending_transition d = Some p -> taken (set_pending_transition None d).
Proof.
  destruct d as [da pi gi es eb ru cw cl iv pr ec lc pt ir fc]. unfold custody, taken, holders. cbn.
  intros [-> Hh] ->. destruct da, pi, lc; done.
Qed.

Lemma taken_set_dave d rt : taken d -> custody (set_dave (Some rt) d).
Proof.
  destruct d as [da pi gi es eb ru cw cl iv pr ec lc pt ir fc]. unfold custody, taken, holders. cbn.
  intros [-> Hh]. destruct da, pi, lc, pt; done.
Qed.

Lemma taken_local d p : taken d -> custody (set_local_commit_transition (Some p) d).
Proof.
  destruct d as [da pi gi es eb ru cw cl iv pr ec lc pt ir fc]. unfold custody, taken, holders. cbn.
  intros [-> Hh]. destruct da, pi, lc, pt; done.
Qed.

(** [take] of a field that is empty changes nothing. *)
Lemma set_none_initial d : pending_initial_dave d = None -> set_pending_initial_dave None d = d.
Proof. destruct d. cbn. by intros ->. Qed.
Lemma set_none_local d : local_commit_transition d = None -> set_local_commit_transition None d = d.
Proof. destruct d. cbn. by intros ->. Qed.
Lemma set_none_pending d : pending_transition d = None -> set_pending_transition None d = d.
Proof. destruct d. cbn. by intros ->. Qed.

Lemma wp_apply_remote_commit g i c w :
  custody (dstate w) -> wp Valid (apply_remote_commit g i c) handled w.
Proof.
  intros Hc. unfold apply_remote_commit. cbn. destruct (prepared_transitions _ !! i); cbn; [|done].
  destruct (dave (dstate w)) as [rt|] eqn:Hd; cbn; [|done].
  destruct (custody_runtime _ _ Hc Hd) as [Ht _].
  destruct (process_commit c rt) as [rt' [r|e|]]; cbn; [|done..].
  destruct (cr_ignored r); [exact (taken_set_dave _ rt' Ht)|].
  destruct (_ || _); [done|]. by apply wp_ready.
Qed.
#[local] Arguments apply_remote_commit : simpl never.

Lemma wp_prepare_remote_commit g i c w :
  custody (dstate w) -> wp Valid (prepare_remote_commit_transition g i c) handled w.
Proof.
  intros Hc. unfold prepare_remote_commit_transition. cbn.
  destruct (bool_decide (i ∈ invalidated_transitions _)); [exact Hc|].
  destruct (_ && _); [exact Hc|].
  destruct (bool_decide (i ∈ completed_local_init_commit _)).
  { unfold confirm_local_init_commit. cbn. repeat case_match; done. }
  destruct (match pending_transition _ with Some _ => _ | None => _ end); [exact Hc|].
  destruct (_ && _); [exact Hc|]. cbn.
  destruct (local_commit_transition (dstate w)) as [p|] eqn:Hl; cbn.
  - apply wp_announce_local_commit. exact (custody_local _ _ Hc Hl).
  - rewrite (set_none_local _ Hl). case_match; [exact Hc|].
    by apply wp_apply_remote_commit.
Qed.
#[local] Arguments prepare_remote_commit_transition : simpl never.

Lemma wp_pending_initial_welcome g i m p w :
  taken (dstate w) -> wp Valid (prepare_pending_initial_welcome_transition g i m p) handled w.
Proof.
  intros Ht. unfold prepare_pending_initial_welcome_transition.
  destruct (session_process_welcome m (pi_session p)) as [s [roster|e|]]; cbn; [|done..].
  case_bool_decide; [done|]. destruct (DaveSession.from_session s) as [rt|e|]; cbn; [|done..].
  by apply wp_ready.
Qed.
#[local] Arguments prepare_pending_initial_welcome_transition : simpl never.

Lemma wp_apply_welcome g i m w :
  custody (dstate w) -> wp Valid (apply_welcome g i m) handled w.
Proof.
  intros Hc. unfold apply_welcome. cbn. destruct (prepared_transitions _ !! i); cbn; [|done].
  destruct (dave (dstate w)) as [rt|] eqn:Hd; cbn; [|done].
  destruct (custody_runtime _ _ Hc Hd) as [Ht _].
  destruct (process_welcome m rt) as [rt' [roster|e|]]; cbn; [|done..].
  case_bool_decide; [done|]. by apply wp_ready.
Qed.
#[local] Arguments apply_welcome : simpl never.

Lemma wp_prepare_welcome g i m w :
  custody (dstate w) -> wp Valid (prepare_welcome_transition g i m) handled w.
Proof.
  intros Hc. unfold prepare_welcome_transition. cbn.
  destruct (bool_decide (i ∈ invalidated_transitions _)); [exact Hc|].
  destruct (_ && _); [exact Hc|].
  destruct (bool_decide (i ∈ completed_local_init_commit _)); [exact Hc|]. cbn.
  destruct (pending_initial_dave (dstate w)) as [p|] eqn:Hl; cbn.
  - apply wp_pending_initial_welcome. exact (proj1 (custody_initial _ _ Hc Hl)).
  - rewrite (set_none_initial _ Hl). by apply wp_apply_welcome.
Qed.
#[local] Arguments prepare_welcome_transition : simpl never.

(** Committing on a session of the initial epoch puts it into the runtime. *)
Lemma wp_commit_initial g cw s w :
  taken (dstate w) -> wp Valid (commit_initial g cw s) (fun r w' =>
    match r with Ok _ => custody (dstate w') /\ is_Some (dave (dstate w')) | _ => True end) w.
Proof.
  intros Ht. unfold commit_initial. destruct (split_commit cw); cbn; [|done..].
  destruct (dave_mls_commit_welcome_payload cw); cbn; [|done..].
  apply wp_bind, wp_send; [|done]. intros w1 H1. cbn.
  destruct (session_process_commit a s) as [s' [r|e|]]; cbn; [|done..].
  destruct (kept_group r); [|done]. destruct (DaveSession.from_session s') as [rt|e|]; cbn; [|done..].
  rewrite H1. split; [by apply taken_set_dave|]. cbn. by destruct (dstate w).
Qed.
#[local] Arguments commit_initial : simpl never.

Lemma wp_initial_epoch_commit g op ps v rs w :
  taken (dstate w) -> wp Valid (prepare_initial_epoch_local_commit_transition g op ps v rs) handled w.
Proof.
  intros Ht. unfold prepare_initial_epoch_local_commit_transition. cbn.
  destruct (dave_external_sender _) as [sender|]; cbn; [|done].
  destruct (dave_group_id _); cbn; [|done]. destruct (dave_external_sender_bytes _); cbn; [|done].
  destruct (fresh_session _ _ _ _) as [s|e|]; cbn; [|done..].
  destruct (session_process_proposals op ps rs s) as [s' [[cw|]|e|]]; cbn; [|done..].
  apply wp_bind. eapply wp_mono; [|exact (wp_commit_initial g cw s' w Ht)].
  intros [commit|e|] w1 H1; cbn; [|done..]. destruct H1 as [[Hf Hh] _]. by destruct (dstate w1).
Qed.
#[local] Arguments prepare_initial_epoch_local_commit_transition : simpl never.

Lemma wp_pending_initial_commit g op ps p i w :
  taken (dstate w) -> wp Valid (prepare_pending_initial_local_commit_transition g op ps p i) handled w.
Proof.
  intros Ht. unfold prepare_pending_initial_local_commit_transition. cbn.
  destruct (dave_external_sender _) as [sender|]; cbn; [|done].
  destruct (session_process_proposals _ _ _ _) as [s' [[cw|]|e|]]; cbn; [| |done..].
  2: { destruct Ht as [Hf Hh]. destruct (dstate w) as [da pi gi es eb ru cw cl iv pr ec lc pt ir fc].
       unfold custody, holders in *. cbn in *. subst. by destruct da, pi, lc, pt. }
  apply wp_bind. eapply wp_mono; [|exact (wp_commit_initial g cw s' w Ht)].
  intros [commit|e|] w1 H1; cbn; [|done..]. destruct H1 as [Hc [rt Hrt]].
  destruct i as [i|]; cbn; [|by destruct Hc, (dstate w1)].
  destruct (prepared_transitions _ !! i); cbn; [|done].
  destruct (i =? _); cbn; [by destruct Hc, (dstate w1)|].
  rewrite Hrt. cbn. apply wp_ready.
  exact (proj1 (custody_runtime _ _ Hc Hrt)).
Qed.
#[local] Arguments prepare_pending_initial_local_commit_transition : simpl never.

Lemma wp_commit_proposals g op ps w :
  custody (dstate w) -> local_commit_transition (dstate w) = None -> pending_transition (dstate w) = None ->
  wp Valid (commit_proposals g op ps) handled w.
Proof.
  intros Hc Hl Hp. unfold commit_proposals. cbn.
  destruct (dave (dstate w)) as [rt|] eqn:Hd; cbn; [|done].
  destruct (custody_runtime _ _ Hc Hd) as [Ht _].
  destruct (process_proposals_with_operation _ _ _ _) as [rt' [[cw|]|e|]]; cbn; [| | |done].
  - destruct (dave_external_sender _) as [sender|]; cbn; [|done]. destruct (split_commit cw); cbn; [|done..].
    destruct (dave_mls_commit_welcome_payload cw); cbn; [|done..].
    apply wp_bind, wp_send; [|done]. intros w1 H1. cbn. rewrite H1. cbn. by apply taken_local.
  - exact (taken_set_dave _ rt' Ht).
  - destruct (should_retry_initial_epoch_proposals _ _); [by apply wp_initial_epoch_commit|].
    exact (taken_set_dave _ rt' Ht).
Qed.
#[local] Arguments commit_proposals : simpl never.

Lemma wp_prepare_local_commit g op ps w :
  custody (dstate w) -> wp Valid (prepare_local_commit_transition g op ps) handled w.
Proof.
  intros Hc. unfold prepare_local_commit_transition. cbn.
  destruct (pending_initial_dave (dstate w)) as [p|] eqn:Hi; cbn.
  - apply wp_pending_initial_commit. exact (proj1 (custody_initial _ _ Hc Hi)).
  - rewrite (set_none_initial _ Hi).
    destruct (local_commit_transition (dstate w)) eqn:Hl; [exact Hc|].
    destruct (pending_transition (dstate w)) eqn:Hp; [exact Hc|].
    by apply wp_commit_proposals.
Qed.
#[local] Arguments prepare_local_commit_transition : simpl never.

Lemma wp_prepare_epoch i e v w :
  custody (dstate w) -> wp Valid (prepare_epoch i e v) handled w.
Proof.
  intros Hc. unfold prepare_epoch. case_bool_decide; [done|]. destruct i as [i|]; [|done]. cbn.
  case_bool_decide; [done|]. destruct (current_dave_protocol_version _); cbn; [|done..].
  destruct (negb _); [done|]. case_bool_decide; [done|].
  destruct (match pending_transition _ with Some _ => _ | None => _ end); exact Hc.
Qed.

Lemma wp_prepare_transition i v w :
  custody (dstate w) -> wp Valid (prepare_transition i v) handled w.
Proof.
  intros Hc. unfold prepare_transition. cbn. case_bool_decide; [done|].
  destruct (i =? _); [exact Hc|]. destruct (v =? 0); [done|exact Hc].
Qed.

Lemma wp_execute i w :
  custody (dstate w) -> wp Valid (execute_transition i) handled w.
Proof.
  intros Hc. unfold execute_transition. cbn.
  destruct (pending_transition (dstate w)) as [p|] eqn:Hp; cbn.
  - pose proof (custody_pending _ _ Hc Hp) as Ht. destruct (_ =? i); [|done].
    apply (taken_set_dave _ (pt_runtime p)). by destruct (pt_source p).
  - by rewrite (set_none_pending _ Hp).
Qed.
#[local] Arguments prepare_epoch : simpl never.
#[local] Arguments prepare_transition : simpl never.
#[local] Arguments execute_transition : simpl never.

Create HintDb dave_events.
#[local] Hint Resolve wp_prepare_remote_commit wp_prepare_welcome wp_prepare_local_commit
  wp_prepare_epoch wp_prepare_transition wp_execute : dave_events.

(** Every event that is handled leaves the group in one place. *)
Lemma wp_event g e w :
  custody (dstate w) -> wp Valid (process_gateway_event_for_dave g e) handled w.
Proof. intros Hc. destruct e; cbn; solve [auto with dave_events | exact Hc]. Qed.
#[local] Arguments process_gateway_event_for_dave : simpl never.

(** What a drain leaves: the group in one place, or a closed session and an
    error, or the error of the gateway and the group in one place. *)
Definition drained {X} (r : vresult X) (w : World) : Prop :=
  match r with
  | Ok _ => custody (dstate w)
  | Err _ => custody (dstate w) \/ closed (dstate w)
  | Panic => True
  end.

Lemma closed_failed_closed_state d : closed (failed_closed_state d).
Proof. by destruct d. Qed.

Lemma wp_drain_loop n g t follow deadline fu rep w :
  custody (dstate w) ->
  wp Valid (drain_loop n g t follow deadline fu rep) drained w.
Proof.
  revert fu rep w. induction n as [|n IH]; intros fu rep w Hc; [exact Hc|]. cbn [drain_loop].
  cbn. apply wp_bind.
  assert (forall (left : option Z), wp Valid
    (if deadline_passed left then mret (Ok (rep, false)) else
      received ← ask (AskReceive g (cut_wait (desired_wait t fu (dstate w)) left));
      match received with
      | None => mret (Ok (rep, false))
      | Some (Err err) => mret (Err err)
      | Some Panic => mret Panic
      | Some (Ok event) =>
          let report := count_event event rep in
          let follow_up := follow || dave_session_event_expects_follow_up event in
          processed ← process_gateway_event_for_dave g event;
          match processed with
          | Ok _ => drain_loop n g t follow deadline follow_up report
          | Err err => fail_dave_closed err
          | Panic => mret Panic
          end
      end) drained w) as Hk.
  { intros left. destruct (deadline_passed left); [exact Hc|]. cbn. intros [[e|e|]|] Hv; cbn; [|by left|done|exact Hc].
    apply wp_bind. eapply wp_mono; [|exact (wp_event g e w Hc)].
    intros [[]|err|] w' Hw; cbn; [by apply IH| |done]. right. apply closed_failed_closed_state. }
  destruct deadline; cbn; [|exact (Hk None)]. intros left _. exact (Hk (Some left)).
Qed.

(** ** Drains *)

#[local] Arguments drain_loop : simpl never.

Lemma custody_not_idle d : custody d -> no_dave_pending d = false.
Proof.
  destruct d as [da pi gi es eb ru cw cl iv pr ec lc pt ir fc]. unfold custody, holders, no_dave_pending. cbn.
  intros [_ Hh]. destruct da, pi, pt, lc; done.
Qed.

(** The checks at the end of a drain leave the group with the runtime, or
    with the initial session where that is allowed. *)
Definition settled (allow : bool) (d : DaveState) : Prop :=
  custody d /\ prepared_transitions d = ∅ /\
  (is_Some (dave d) \/ (allow = true /\ is_Some (pending_initial_dave d))).

Lemma drain_check_settled allow d : custody d -> drain_check allow d = Ok tt -> settled allow d.
Proof.
  intros Hc. unfold drain_check. case_bool_decide as Hp; [done|]. case_bool_decide as Hl; [done|].
  destruct (_ && _) eqn:Hi; [done|]. destruct (bool_decide (prepared_transitions d = ∅)) eqn:Hq; [|done].
  intros _. split_and!; [done|by apply bool_decide_eq_true in Hq|].
  destruct d as [da pi gi es eb ru cw cl iv pr ec lc pt ir fc]. destruct Hc as [_ Hh]. unfold holders in Hh. cbn in *.
  destruct da; [by left; eexists|]. destruct pt; [by destruct Hp|]. destruct lc; [by destruct Hl|].
  destruct pi; [|done]. right. split; [by destruct allow|by eexists].
Qed.

(** What a drain of a live session leaves. *)
Definition drain_post {X} (allow : bool) (r : vresult X) (w : World) : Prop :=
  match r with
  | Ok _ => settled allow (dstate w)
  | Err _ => custody (dstate w) \/ closed (dstate w)
  | Panic => True
  end.

Lemma wp_drain t allow follow deadline w :
  custody (dstate w) -> cs_receive_closed (w_session w) = false ->
  wp Valid (process_pending_gateway_events_with_initial_poll_policy t allow follow deadline)
    (drain_post allow) w.
Proof.
  intros Hc Hr. unfold process_pending_gateway_events_with_initial_poll_policy. cbn.
  rewrite (proj1 Hc), Hr, (custody_not_idle _ Hc). cbn.
  destruct (cs_gateway (w_session w)) as [g|]; cbn; [|by left].
  apply wp_bind. eapply wp_mono; [|exact (wp_drain_loop _ g t follow deadline false _ w Hc)].
  intros [[rep late]|e|] w1 H1; cbn; [|exact H1|done].
  destruct late; cbn; [by left|].
  destruct (drain_check allow (dstate w1)) as [[]|e|] eqn:Hd; cbn; [|by left|done].
  by apply drain_check_settled.
Qed.
#[local] Arguments process_pending_gateway_events_with_initial_poll_policy : simpl never.

(** After it failed closed, a session drains nothing any more. *)
Lemma wp_drain_closed t allow follow deadline w :
  failed_closed (dstate w) = true ->
  wp Valid (process_pending_gateway_events_with_initial_poll_policy t allow follow deadline)
    (fun r w' => r = Err (InvalidState "voice dave session failed closed") /\ w' = w) w.
Proof.
  intros Hf. unfold process_pending_gateway_events_with_initial_poll_policy. cbn. by rewrite Hf.
Qed.
End machine.
