(* ===== verification/DaveSafety.v ===== *)
(** * What a session with DAVE puts on the wire

    The guarantees of the DAVE machine for the media path: a slot that is
    prepared after a drain carries ciphertext of the group, a session that
    failed closed sends nothing, a transition that was given up cannot come
    back, a drain is bounded. And the one path on which a frame leaves
    without DAVE although the session has a group (session.rs,
    [send_audio_frame_with_duration_samples]). *)

From S2P Require Import Prelude VoiceErrors Text Protection Udp DaveWire Json Protocol Gateway DaveSession Task ConnectedSession SessionFrame DaveMachine.
From stdpp Require Import prelude strings gmap.
Open Scope Z_scope.
Open Scope task_scope.

Section safety.
Context {A : Aead} {D : Davey}.

Abbreviation dstate w := (cs_dave (w_session w)).

#[local] Arguments process_pending_gateway_events_with_initial_poll_policy : simpl never.

(** [p] is the packet that transport [t] makes of [payload]. *)
Definition packet_of (t : option VoiceUdpTransport) (payload : list Z) (samples : Z) (p : PreparedVoicePacket) : Prop :=
  exists t0 t', t = Some t0 /\
    prepare_audio_packet_with_duration_samples t0 payload (audio_duration_ms_from_samples samples) samples true
      = (t', Ok p).

(** With a runtime in place a frame that is not silence goes into the packet
    as that runtime's ciphertext. *)
Lemma wp_prepare_packet frame samples rt w :
  dave (dstate w) = Some rt -> frame <> OPUS_SILENCE_FRAME ->
  wp Valid (prepare_current_slot_audio_packet frame samples) (fun r _ =>
    match r with
    | Ok p => exists m ciphertext, mls_encrypt Audio CodecOpus frame (rc_session rt) = (m, Ok ciphertext) /\
                packet_of (cs_transport (w_session w)) ciphertext samples p
    | _ => True
    end) w.
Proof.
  intros Hd Hf. unfold prepare_current_slot_audio_packet, outgoing_frame. cbn.
  rewrite bool_decide_eq_false_2 by done. rewrite Hd. unfold encrypt_audio_frame, encrypt, on_session.
  destruct (mls_encrypt _ _ _ _) as [m [c|e|]] eqn:He; cbn; [|done..].
  destruct (cs_transport (w_session w)) as [t|]; cbn; [|done].
  destruct (prepare_audio_packet_with_duration_samples _ _ _ _ _) as [t' [p|e|]] eqn:Hp; cbn; [|done..].
  exists m, c. split; [done|]. by exists t, t'.
Qed.
#[local] Arguments prepare_current_slot_audio_packet : simpl never.


(** C4. A drain of a session with a DAVE group ends with the group in exactly
    one place: with the runtime and no transition prepared when it succeeds
    (for a join also with the session of the initial epoch); after an error
    it is still in one place or the session failed closed. It changes nothing
    of the session but the DAVE state. *)
Theorem drain_keeps_one_group t allow follow deadline w :
  custody (dstate w) -> cs_receive_closed (w_session w) = false ->
  wp Valid (process_pending_gateway_events_with_initial_poll_policy t allow follow deadline)
    (fun r w' => drain_post allow r w' /\ dave_only w w') w.
Proof.
  intros Hc Hr. apply wp_and; [by apply wp_drain|]. exact (every_rel Valid dave_only _ w (quiet_drain _ _ _ _)).
Qed.

(** C32. A session that failed closed stays closed and silent: preparing a
    slot, settling, sending a frame and the stop boundary all fail with the
    same error and change nothing, so no packet and no gateway message leaves. *)
Theorem failed_closed_is_silent frame samples w :
  failed_closed (dstate w) = true ->
  let refused := fun X (m : prog World question answer Empty_set (vresult X)) =>
    wp Valid m (fun r w' => r = Err (InvalidState "voice dave session failed closed") /\ w' = w) w in
  refused _ prepare_media_state_before_slot /\ refused _ settle_pending_dave_transition_for_playback /\
  refused _ settle_initial_dave_for_join /\ refused _ (send_audio_frame_with_duration_samples frame samples) /\
  refused _ stop_audio.
Proof.
  intros Hf. cbn zeta.
  assert (forall f n, wp Valid (send_audio_frame_with_duration_samples f n)
    (fun r w' => r = Err (InvalidState "voice dave session failed closed") /\ w' = w) w) as Hsend.
  { intros f n. apply wp_bind. eapply wp_mono; [|by apply wp_drain_closed]. intros r w' [-> ->]. done. }
  split_and!; [by apply wp_drain_closed|by apply wp_drain_closed| |apply Hsend|].
  - apply wp_bind. eapply wp_mono; [|by apply wp_drain_closed]. intros r w' [-> ->]. done.
  - apply wp_bind. cbn [send_silence STOP_AUDIO_SILENCE_FRAME_COUNT]. apply wp_bind.
    eapply wp_mono; [|apply Hsend]. intros r w' [-> ->]. done.
Qed.

(** ** Recovery from an invalid commit *)

(** The events that announce or back a transition. *)
Definition announces (i : Z) (e : VoiceGatewayEvent) : Prop :=
  match e with
  | DavePrepareTransition j _ | DaveMlsPrepareCommitTransition j _ | DaveMlsWelcome j _ => j = i
  | DavePrepareEpoch j epoch _ => j = Some i /\ epoch <> EmptyString
  | _ => False
  end.

(** The DAVE state up to prepared transitions that are forgotten. *)
Definition forgets (d d' : DaveState) : Prop :=
  prepared_transitions d' ⊆ prepared_transitions d /\
  d' = set_prepared_transitions (prepared_transitions d') d.

Lemma forgets_refl d : forgets d d.
Proof. split; [done|by destruct d]. Qed.
Lemma forgets_delete i d : forgets d (set_prepared_transitions (delete i (prepared_transitions d)) d).
Proof. destruct d. split; [apply delete_subseteq|done]. Qed.

Lemma wp_given_up g i e w :
  i ∈ invalidated_transitions (dstate w) -> announces i e ->
  wp Valid (process_gateway_event_for_dave g e) (fun r w' => r = Ok tt /\
    w_sent w' = w_sent w /\ forgets (dstate w) (dstate w')) w.
Proof.
  intros Hi He. pose proof (forgets_refl (dstate w)). pose proof (forgets_delete i (dstate w)).
  destruct e; try done; cbn in He; [|destruct He as [-> Hep]|..]; subst;
    unfold process_gateway_event_for_dave, prepare_transition, prepare_epoch,
      prepare_remote_commit_transition, prepare_welcome_transition; cbn.
  all: try rewrite (bool_decide_eq_false_2 _ Hep); cbn; by rewrite bool_decide_eq_true_2.
Qed.

Lemma wp_send_log g m post w :
  post (Ok tt) (mkWorld (w_session w) (w_sent w ++ [m]) (w_packets w)) -> (forall e, post (Err e) w) ->
  wp Valid (send g m) post w.
Proof. intros Hok Herr. cbn. intros [[]|e|] Hv; cbn; [exact Hok|apply Herr|done]. Qed.
#[local] Arguments send : simpl never.

Lemma wp_reinitialize_log g i v w :
  wp Valid (reinitialize_dave_session_after_invalid_commit g i v) (fun r w' =>
    match r with
    | Ok _ => exists package s,
        w_sent w' = w_sent w ++ [OutJson (dave_mls_invalid_commit_welcome_payload i);
                                 OutBinary (dave_mls_key_package_payload package)] /\
        dstate w' = reinitialized i (mkPendingInitial s v) (dstate w)
    | Err _ => dstate w' = dstate w
    | Panic => True
    end) w.
Proof.
  unfold reinitialize_dave_session_after_invalid_commit. cbn.
  destruct (dave_group_id _); cbn; [|done]. destruct (dave_external_sender_bytes _); cbn; [|done].
  destruct (fresh_session _ _ _ _) as [s|e|]; cbn; [|done..].
  destruct (key_package s) as [s' [package|e|]]; cbn; [|done..].
  apply wp_bind, wp_send_log; [|done]. apply wp_bind, wp_send_log; [|done]. cbn.
  exists package, s'. by rewrite <- app_assoc.
Qed.
#[local] Arguments reinitialize_dave_session_after_invalid_commit : simpl never.

(** When the commit that answers ours cannot be applied, the session
    tells the gateway so, offers a new key package and waits with a fresh
    session for the group; whatever is announced for the transition it gave
    up is from then on accepted and ignored. *)
Theorem invalid_commit_recovers g i v e w :
  announces i e ->
  wp Valid (_ ←? reinitialize_dave_session_after_invalid_commit g i v; process_gateway_event_for_dave g e)
    (fun r w' =>
      match r with
      | Ok _ => exists package s,
          w_sent w' = w_sent w ++ [OutJson (dave_mls_invalid_commit_welcome_payload i);
                                   OutBinary (dave_mls_key_package_payload package)] /\
          pending_initial_dave (dstate w') = Some (mkPendingInitial s v) /\ dave (dstate w') = None /\
          pending_transition (dstate w') = None /\ local_commit_transition (dstate w') = None /\
          prepared_transitions (dstate w') = ∅ /\ initial_recovery (dstate w') = true
      | Err _ => dstate w' = dstate w
      | Panic => True
      end) w.
Proof.
  intros He. apply wp_bind. eapply wp_mono; [|apply wp_reinitialize_log].
  intros [[]|err|] w1 H1; [|exact H1|done]. destruct H1 as (package & s & Hsent & Hd).
  eapply wp_mono; [|apply (wp_given_up g i e); [|exact He]].
  2: { rewrite Hd. cbn. set_solver. }
  intros r w2 (-> & Hs & Hsub & Hf). exists package, s. rewrite Hs, Hsent.
  rewrite Hd in Hsub, Hf. rewrite Hf. cbn. split_and!; try done.
  apply (anti_symm (⊆)); [exact Hsub|apply map_empty_subseteq].
Qed.

(** ** Bounds *)

(** The report of at most [n] more events after [rep]. *)
Definition counted (n : Z) (rep rep' : VoiceGatewayDrainReport) : Prop :=
  dr_event_count rep <= dr_event_count rep' <= dr_event_count rep + n /\
  0 <= dr_dave_transition_count rep' <= dr_event_count rep'.

(** A loop of [n] turns sees at most [n] events, and fewer when it does not
    report that it was cut off. *)
Lemma drain_loop_counts n g t follow deadline fu rep :
  0 <= dr_dave_transition_count rep <= dr_event_count rep -> dr_event_count rep + Z.of_nat n <= u64_max ->
  leaves Valid (fun r =>
    match r with
    | Ok (rep', cut) => counted (Z.of_nat n - (if (cut : bool) then 0 else 1)) rep rep'
    | _ => True
    end) (drain_loop n g t follow deadline fu rep).
Proof.
  revert fu rep. induction n as [|n IH]; intros fu rep Hrep Hmax; cbn [drain_loop].
  { cbn. unfold counted. lia. }
  assert (counted (Z.of_nat (S n) - 1) rep rep) as Hself by (unfold counted; lia).
  eapply leaves_bind; [apply leaves_any|]. intros wait _.
  eapply leaves_bind; [apply leaves_any|]. intros left _.
  destruct (deadline_passed left); [exact Hself|].
  eapply leaves_bind; [apply leaves_any|]. intros [[e|e|]|] _; [|done|done|exact Hself].
  eapply leaves_bind; [apply leaves_any|]. intros [u|err|] _; [|done|done].
  assert (dr_event_count (count_event e rep) = dr_event_count rep + 1 /\
    0 <= dr_dave_transition_count (count_event e rep) <= dr_event_count rep + 1) as [He Hd].
  { unfold count_event, sat_add, u64_max in *. cbn. case_bool_decide; lia. }
  eapply leaves_mono; [|apply IH; lia]. intros [[rep' cut]|err|]; [|done|done].
  unfold counted. rewrite He. destruct cut; lia.
Qed.


(** ** A frame without DAVE *)

Definition gateway_closed : VoiceError := InvalidState "voice gateway closed during receive".

Lemma gateway_closed_classified : is_gateway_closed_during_receive gateway_closed = true.
Proof. done. Qed.
#[local] Arguments is_gateway_closed_during_receive : simpl never.

(** A frame sent with [send_audio_frame_with_duration_samples] while a
    transition holds the group goes out without DAVE encryption when the
    gateway closes during the drain and media already started: the error is
    taken for the end of the gateway, and the frame is prepared although the
    group is not with the runtime. *)
Theorem close_during_transition_sends_plaintext frame samples t t1 t2 p g w :
  custody (dstate w) -> dave (dstate w) = None -> cs_receive_closed (w_session w) = false ->
  cs_gateway (w_session w) = Some g -> cs_speaking_started (w_session w) = true ->
  cs_transport (w_session w) = Some t ->
  prepare_audio_packet_with_duration_samples t frame (audio_duration_ms_from_samples samples) samples true
    = (t1, Ok p) ->
  transport_send_prepared_packet t1 p (Ok tt) = (t2, Ok tt) ->
  may Valid (send_audio_frame_with_duration_samples frame samples) (fun r w' =>
    r = Ok tt /\ w_packets w' = w_packets w ++ [p] /\ packet_of (Some t) frame samples p) w.
Proof.
  intros Hc Hd Hr Hg Hs Ht Hp Hsend.
  destruct w as [[vo ro gw tr ss sd d rc sq hb sp] sent packets]. cbn in *. subst.
  unfold send_audio_frame_with_duration_samples, process_pending_gateway_events,
    process_pending_gateway_events_with_initial_poll_policy. cbn.
  rewrite (proj1 Hc), (custody_not_idle _ Hc). cbn.
  exists (Some (Err gateway_closed)). split; [done|]. cbn. rewrite gateway_closed_classified. cbn.
  unfold prepare_current_slot_audio_packet, outgoing_frame. cbn. rewrite Hd.
  assert ((if bool_decide (frame = OPUS_SILENCE_FRAME) then (d, Ok frame) else (d, Ok frame))
    = (d, Ok frame : vresult (list Z))) as -> by (by case_bool_decide).
  cbn. rewrite Hp. cbn. exists (Ok tt). split; [done|]. rewrite Hsend. cbn.
  split_and!; [done|done|]. by exists t, t1.
Qed.
End safety.

(** ** A group for the witnesses

    The group is its epoch; media are shifted and marked. *)
Module ConcreteDave.
#[local] Open Scope Z_scope.

Definition toy_cipher (frame : list Z) : list Z := ((fun b => (b + 1) mod 256) <$> frame) ++ [0xFA; 0xFA].

#[global] Instance toy_davey : Davey := {
  mls := Z;
  DAVE_PROTOCOL_VERSION := 1;
  mls_new _ _ _ := Ok 0;
  mls_set_external_sender _ s := (s, Ok tt);
  mls_protocol_version _ := 1;
  mls_epoch s := Some s;
  mls_create_key_package s := (s, Ok [7; 7]);
  mls_process_proposals _ _ _ s := (s, Ok (Some (mkCommitWelcome [1] None)));
  mls_process_commit c s := (s + 1, Ok tt);
  mls_process_welcome _ s := (s + 1, Ok tt);
  mls_user_ids _ := Some [1; 2];
  mls_epoch_authenticator _ := None;
  mls_pairwise_fingerprint _ _ _ := Ok [];
  mls_encrypt_opus f s := (s, Ok (toy_cipher f));
  mls_encrypt _ _ f s := (s, Ok (toy_cipher f));
  mls_decrypt _ _ f s := (s, Ok f);
  tls_deserialize_external_sender _ := Ok tt;
  ext_sender := unit;
  ext_sender_new _ := Ok tt;
  ext_sender_serialize _ := Ok [9];
}.

#[global] Instance checksum : Aead := checksum_aead.

Definition guild : VoiceContext := mkVoiceContext "g" "c" "1" "s" "e" "t".
Definition runtime : DaveRuntimeContext := mkDaveRuntimeContext 1 5.

(** A connected session whose group is where [f] puts it. *)
Definition in_group (f : DaveState -> DaveState) : World :=
  mkWorld (mkSession guild VoiceSessionRollover_default (Some 0) (Some (VoiceUdpTransport_new 7)) (Some 7)
    (Some (mkSessionDescription "m" [] None))
    (f (mkDaveState None None (Some 9) (Some tt) (Some [3]) {["1"; "2"]} ∅ ∅ ∅ ∅ ∅ None None false false))
    false None true true) [] [].

Definition active : World := in_group (set_dave (Some runtime)).
Definition in_transition : World :=
  in_group (set_pending_transition (Some (mkPendingDaveTransition 4 runtime CommitBacked))).


Lemma drain_keeps_one_group_witness :
  wp Valid (process_pending_gateway_events_with_initial_poll_policy 1 false true false)
    (fun r w' => drain_post false r w' /\ dave_only in_transition w') in_transition.
Proof. apply (drain_keeps_one_group 1 false true false in_transition); [by vm_compute|reflexivity]. Defined.

Definition closed_world : World := in_group failed_closed_state.

Lemma failed_closed_is_silent_witness :
  wp Valid stop_audio (fun r w' => r = Err (InvalidState "voice dave session failed closed") /\ w' = closed_world)
    closed_world.
Proof. apply (failed_closed_is_silent [1; 2] 960 closed_world). reflexivity. Defined.

Lemma invalid_commit_recovers_witness :
  wp Valid (_ ←? reinitialize_dave_session_after_invalid_commit 0 4 1;
            process_gateway_event_for_dave 0 (DaveMlsWelcome 4 [1])) (fun r w' =>
    match r with
    | Ok _ => exists package s,
        w_sent w' = [OutJson (dave_mls_invalid_commit_welcome_payload 4);
                     OutBinary (dave_mls_key_package_payload package)] /\
        pending_initial_dave (cs_dave (w_session w')) = Some (mkPendingInitial s 1) /\
        dave (cs_dave (w_session w')) = None /\
        pending_transition (cs_dave (w_session w')) = None /\ local_commit_transition (cs_dave (w_session w')) = None /\
        prepared_transitions (cs_dave (w_session w')) = ∅ /\ initial_recovery (cs_dave (w_session w')) = true
    | Err _ => cs_dave (w_session w') = cs_dave (w_session active)
    | Panic => True
    end) active.
Proof. exact (invalid_commit_recovers 0 4 1 (DaveMlsWelcome 4 [1]) active eq_refl). Defined.

Lemma close_during_transition_sends_plaintext_witness :
  exists p, may Valid (send_audio_frame_with_duration_samples [1; 2] 960) (fun r w' =>
    r = Ok tt /\ w_packets w' = [p] /\ packet_of (Some (VoiceUdpTransport_new 7)) [1; 2] 960 p) in_transition /\
    suffix [1; 2] (pv_bytes p).
Proof.
  eexists. split.
  - eapply (close_during_transition_sends_plaintext [1; 2] 960 (VoiceUdpTransport_new 7) _ _ _ 0 in_transition);
      try reflexivity; by vm_compute.
  - eexists [_; _; _; _; _; _; _; _; _; _; _; _]. reflexivity.
Defined.
End ConcreteDave.
