(* ===== verification/SessionContract.v ===== *)
(** * The session the runtime relies on

    The commands of the runtime (Commands.v) are verified against an abstract
    voice session. Here the connected session (ConnectedSession.v) is made an
    instance of it, and the operations the commands await are shown to answer
    as [Commands.Valid] demands: they return, do not panic and keep the voice
    context. The group library must not panic itself ([DaveyTotal]). *)

From S2P Require Import Prelude VoiceErrors Text Crypto Protection Udp DaveWire Json Protocol Gateway DaveSession Task ConnectedSession SessionFrame DaveSafety.
From S2P Require Commands.
From stdpp Require Import prelude strings gmap.
Open Scope Z_scope.
Open Scope task_scope.

(** No call of the group library panics (the code catches panics of
    [set_external_sender] only), and its messages are shorter than 4 GiB. *)
Class DaveyTotal (D : Davey) : Prop := {
  total_new v u g : no_panic (mls_new v u g);
  total_sender b s : no_panic (mls_set_external_sender b s).2;
  total_package s : no_panic (mls_create_key_package s).2;
  total_proposals op b ids s :
    match (mls_process_proposals op b ids s).2 with
    | Ok (Some cw) => zlen (cw_commit cw) < 2 ^ 32 /\ zlen (default [] (cw_welcome cw)) < 2 ^ 32
    | Ok None | Err _ => True
    | Panic => False
    end;
  total_commit b s : no_panic (mls_process_commit b s).2;
  total_welcome b s : no_panic (mls_process_welcome b s).2;
}.

Section contract.
Context {A : Aead} {D : Davey} {DT : DaveyTotal D}.

Lemma connected_session_replace v s : cs_voice (replace_voice_context v s) = v.
Proof. done. Qed.

#[global, program] Instance connected_voice_session : Commands.VoiceSession := {|
  Commands.vsession := ConnectedVoiceSession;
  Commands.voice_context := voice_context;
  Commands.replace_voice_context := replace_voice_context;
  Commands.is_connected := is_connected;
  Commands.media_started := media_started;
  Commands.recovering := recovering;
  Commands.voice_reconnecting := voice_reconnecting;
  Commands.disconnected := disconnected;
|}.
Next Obligation. done. Qed.
Next Obligation. done. Qed.
Next Obligation. done. Qed.

(** ** The voice context is kept *)

Definition same_voice (w w' : World) : Prop := cs_voice (w_session w') = cs_voice (w_session w).

#[global] Instance same_voice_preorder : PreOrder same_voice.
Proof. split; [done|]. unfold same_voice. intros w1 w2 w3 H1 H2. congruence. Qed.

Abbreviation keeps_voice m := (every (Sp := Empty_set) Valid (moves_by same_voice) m).

Create HintDb session_voice.
Ltac voice_step := first
  [ solve [auto with session_voice nocore] | exact I
  | match goal with |- every _ _ (ask _) => by intros ? ? end
  | apply every_try; [|intros ?] | apply every_bind; [|intros ?] | case_match ].
Ltac voice := repeat voice_step.

Lemma dave_only_same_voice w w' : dave_only w w' -> same_voice w w'.
Proof. intros (_ & _ & d & Hw). unfold same_voice. by rewrite Hw. Qed.

Lemma voice_drain t allow follow deadline :
  keeps_voice (process_pending_gateway_events_with_initial_poll_policy t allow follow deadline).
Proof.
  eapply every_mono; [|exact (quiet_drain t allow follow deadline)].
  intros B op Hop w. destruct (Hop w) as (w' & b & He & Hw). exists w', b. split; [done|].
  by apply dave_only_same_voice.
Qed.
Lemma voice_read {B} (f : ConnectedVoiceSession -> B) : keeps_voice (session f).
Proof. split; [|done]. intros w. by exists w, (f (w_session w)). Qed.
Lemma voice_write f : (forall s, cs_voice (f s) = cs_voice s) -> keeps_voice (set_session f).
Proof. intros Hf. split; [|done]. intros w. eexists _, tt. split; [done|]. apply Hf. Qed.
Lemma voice_send g m : keeps_voice (send g m).
Proof.
  apply every_bind; [done|]. intros [[]|e|]; [|done..]. apply every_bind; [|done]. split; [|done].
  intros w. by eexists _, tt.
Qed.
Lemma voice_required {X} (f : ConnectedVoiceSession -> option X) r : keeps_voice (required f r).
Proof. unfold required. apply every_bind; [apply voice_read|done]. Qed.
#[local] Hint Resolve voice_drain voice_read voice_send voice_required : session_voice.
#[local] Hint Extern 1 (every _ _ (set_session _)) => apply voice_write; intros []; done : session_voice.

Lemma voice_repeated n g m : keeps_voice (send_repeated n g m).
Proof. induction n as [|n IH]; cbn [send_repeated]; voice. Qed.
#[local] Hint Resolve voice_repeated : session_voice.

Lemma voice_settle : keeps_voice settle_initial_dave_for_join.
Proof. unfold settle_initial_dave_for_join. voice. Qed.
Lemma voice_prepare_speaking : keeps_voice prepare_speaking_before_media.
Proof. unfold prepare_speaking_before_media, send_speaking_repeated. voice. Qed.
Lemma voice_stop_speaking : keeps_voice stop_speaking.
Proof. unfold stop_speaking, send_not_speaking_repeated. voice. Qed.
#[local] Hint Resolve voice_stop_speaking : session_voice.
Lemma voice_suspend : keeps_voice suspend_media.
Proof. unfold suspend_media, current_seq_ack, stop_heartbeat. voice. Qed.

(** ** No panic *)

Ltac splits_result := repeat (case_match; try done).

Lemma total_operation {X} c (r : result string X) : no_panic r -> no_panic (operation c r).
Proof. by destruct r. Qed.
Lemma total_inner {X} c (f : mls -> mls * result string X) s :
  (forall m, no_panic (f m).2) -> no_panic (inner_mut c f s).2.
Proof.
  intros Hf. unfold inner_mut. destruct (ds_inner s) as [m|]; [|done].
  specialize (Hf m). destruct (f m) as [m' r]. by apply total_operation.
Qed.
Lemma total_on_session {X} c (f : mls -> mls * result string X) s :
  (forall m, no_panic (f m).2) -> no_panic (on_session c f s).2.
Proof.
  intros Hf. unfold on_session. specialize (Hf (rc_session s)). destruct (f (rc_session s)) as [m' r].
  by apply total_operation.
Qed.
Lemma total_stm_bind {S E X Y} (m : stm S E X) (f : X -> stm S E Y) s :
  no_panic (m s).2 -> (forall a s', no_panic (f a s').2) -> no_panic ((m ≫= f) s).2.
Proof.
  intros Hm Hf. unfold mbind, stm_bind. destruct (m s) as [s' [a|e|]]; [apply Hf|done|done].
Qed.
Lemma total_ids l : no_panic (expected_user_ids l).
Proof.
  unfold expected_user_ids. case_match; [done|]. apply no_panic_bind; [|done].
  apply no_panic_collect. intros u _. unfold parse_user_id. by case_match.
Qed.
(** What proposals become is a frame that unpacks. *)
Definition unpacks (commit_welcome : list Z) : Prop :=
  exists c w, unpack_commit_welcome commit_welcome = Ok (c, w).
Definition framed (r : dresult (option (list Z))) : Prop :=
  match r with Ok (Some cw) => unpacks cw | Panic => False | _ => True end.

Lemma total_packed {S} op ps ids (s : S) s' c (r : result string (option CommitWelcome)) m :
  (mls_process_proposals op ps ids m).2 = r ->
  framed ((match operation c r with
           | Ok cw => lift (packed_commit op cw) s
           | Err e => (s', Err e)
           | Panic => (s', Panic)
           end).2).
Proof.
  intros Hr. pose proof (total_proposals op ps ids m) as Ht. rewrite Hr in Ht.
  destruct r as [[cw|]|e|]; [|by destruct op|done|done].
  destruct Ht as [Hc Hw]. cbn. destruct op; eexists _, _; by apply unpack_pack_commit_welcome.
Qed.

Lemma total_session_proposals op ps l s : framed (session_process_proposals op ps l s).2.
Proof.
  unfold session_process_proposals, mbind, stm_bind. cbn. pose proof (total_ids l) as Hi.
  destruct (expected_user_ids l) as [ids|e|]; [|done..]. unfold inner_mut.
  destruct (ds_inner s) as [m|]; [|done].
  destruct (mls_process_proposals op ps ids m) as [m' r] eqn:Hr. cbn.
  pose proof (total_packed op ps ids (mkDaveSession (Some m') (ds_pending_external_sender s))
    (mkDaveSession (Some m') (ds_pending_external_sender s)) "process proposals" r m) as Hp.
  rewrite Hr in Hp. specialize (Hp eq_refl). by destruct r.
Qed.
Lemma total_runtime_proposals op ps l s : framed (process_proposals_with_operation op ps l s).2.
Proof.
  unfold process_proposals_with_operation, mbind, stm_bind. cbn. pose proof (total_ids l) as Hi.
  destruct (expected_user_ids l) as [ids|e|]; [|done..]. unfold on_session.
  destruct (mls_process_proposals op ps ids (rc_session s)) as [m' r] eqn:Hr. cbn.
  pose proof (total_packed op ps ids (mkDaveRuntimeContext (rc_protocol_version s) m')
    (mkDaveRuntimeContext (rc_protocol_version s) m') "process proposals" r (rc_session s)) as Hp.
  rewrite Hr in Hp. specialize (Hp eq_refl). by destruct r.
Qed.
Lemma total_session_commit c s : no_panic (session_process_commit c s).2.
Proof. apply total_stm_bind; [|done]. apply total_inner. intros m. apply total_commit. Qed.
Lemma total_session_welcome c s : no_panic (session_process_welcome c s).2.
Proof. apply total_stm_bind; [|done]. apply total_inner. intros m. apply total_welcome. Qed.
Lemma total_runtime_commit c s : no_panic (process_commit c s).2.
Proof. apply total_stm_bind; [|done]. apply total_on_session. intros m. apply total_commit. Qed.
Lemma total_runtime_welcome c s : no_panic (process_welcome c s).2.
Proof. apply total_stm_bind; [|done]. apply total_on_session. intros m. apply total_welcome. Qed.
Lemma total_key_package s : no_panic (key_package s).2.
Proof. apply total_inner. intros m. apply total_package. Qed.

Lemma total_set_sender b s : no_panic (set_external_sender b s).2.
Proof.
  unfold set_external_sender. assert (no_panic (validate_external_sender b)) as Hv.
  { unfold validate_external_sender, catch_unwind. by destruct (tls_deserialize_external_sender b). }
  destruct (validate_external_sender b) as [u|e|]; [|done..].
  destruct (ds_inner s) as [m|]; [|done].
  destruct (mls_set_external_sender b m) as [m' r]. cbn. unfold catch_unwind. by destruct r.
Qed.
Lemma total_init v g u s : no_panic (init v g u s).2.
Proof.
  unfold init. destruct (v =? 0); [done|].
  assert (forall r : dresult mls, no_panic r ->
    no_panic (match r with
              | Ok inner => (mkDaveSession (Some inner) (ds_pending_external_sender s), Ok tt)
              | Err e => (s, Err e)
              | Panic => (s, Panic (A := unit))
              end).2) as Hm by (by intros []).
  apply Hm. apply no_panic_bind; [unfold parse_user_id; by case_match|]. intros id _.
  apply no_panic_bind; [apply total_operation, total_new|]. intros m _.
  destruct (ds_pending_external_sender s) as [b|]; [|done].
  pose proof (total_sender b m) as Hs. destruct (mls_set_external_sender b m) as [m' r]. cbn in *.
  by destruct r.
Qed.
Lemma total_fresh v g b u : no_panic (fresh_session v g b u).
Proof.
  unfold fresh_session. pose proof (total_set_sender b DaveSession_new) as H1.
  destruct (set_external_sender b DaveSession_new) as [s1 [x|e|]]; [|done..].
  pose proof (total_init v g u s1) as H2. by destruct (init v g u s1) as [s2 [y|e|]].
Qed.
Lemma total_split cw : unpacks cw -> no_panic (split_commit cw).
Proof. intros (c & w & H). unfold split_commit, split_commit_welcome. by rewrite H. Qed.
Lemma total_payload cw : unpacks cw -> no_panic (dave_mls_commit_welcome_payload cw).
Proof. intros (c & w & H). unfold dave_mls_commit_welcome_payload. by rewrite H. Qed.
Lemma total_from_session s : no_panic (DaveSession.from_session s).
Proof. unfold DaveSession.from_session. by destruct (ds_inner s). Qed.

(** ** Tasks that do not panic *)

Abbreviation calm m := (leaves (St := World) (Q := question) (answer := answer) (Sp := Empty_set) Valid no_panic m).

Lemma calm_ret {X} (r : vresult X) : no_panic r -> calm (mret r).
Proof. done. Qed.
Lemma calm_then {X Y} (m : prog World question answer Empty_set X) (f : X -> prog World question answer Empty_set (vresult Y)) :
  (forall a, calm (f a)) -> calm (m ≫= f).
Proof. intros Hf. eapply leaves_bind; [apply leaves_any|]. auto. Qed.
Lemma calm_ask q {Y} (f : answer q -> prog World question answer Empty_set (vresult Y)) :
  (forall a, Valid q a -> calm (f a)) -> calm (ask q ≫= f).
Proof. intros Hf a Ha. cbn. auto. Qed.

Lemma calm_try_ret {X Y} (r : vresult X) (f : X -> prog World question answer Empty_set (vresult Y)) :
  no_panic r -> (forall a, r = Ok a -> calm (f a)) -> calm (try_ (mret r) f).
Proof. intros Hr Hf. destruct r as [a|e|]; [by apply Hf|done|done]. Qed.

Create HintDb session_calm.
#[local] Hint Resolve no_panic_ok_or no_panic_map_err total_session_commit total_session_welcome
  total_runtime_commit total_runtime_welcome total_key_package total_fresh total_from_session : session_calm.

Lemma calm_send g m : calm (send g m).
Proof. intros [[]|e|] Hv; done. Qed.
Lemma calm_required {X} (f : ConnectedVoiceSession -> option X) r : calm (required f r).
Proof. apply calm_then. intros o. apply calm_ret, no_panic_ok_or. Qed.
Lemma calm_active : calm active_runtime.
Proof. apply calm_then. intros o. apply calm_ret, no_panic_ok_or. Qed.
Lemma calm_consume i : calm (consume_prepared_transition i).
Proof. apply calm_then. intros o. apply calm_then. intros _. apply calm_ret, no_panic_ok_or. Qed.
#[local] Hint Resolve calm_send calm_required calm_active calm_consume : session_calm.

(** Name the answer of a library call, with what is known of it. *)
Ltac library := match goal with
  | |- context [key_package ?s] =>
      let H := fresh in pose proof (total_key_package s) as H; destruct (key_package s); cbn [snd] in H
  | |- context [process_commit ?c ?s] =>
      let H := fresh in pose proof (total_runtime_commit c s) as H; destruct (process_commit c s); cbn [snd] in H
  | |- context [session_process_commit ?c ?s] =>
      let H := fresh in pose proof (total_session_commit c s) as H; destruct (session_process_commit c s); cbn [snd] in H
  | |- context [process_welcome ?c ?s] =>
      let H := fresh in pose proof (total_runtime_welcome c s) as H; destruct (process_welcome c s); cbn [snd] in H
  | |- context [session_process_welcome ?c ?s] =>
      let H := fresh in pose proof (total_session_welcome c s) as H; destruct (session_process_welcome c s); cbn [snd] in H
  | |- context [process_proposals_with_operation ?o ?c ?l ?s] =>
      let H := fresh in pose proof (total_runtime_proposals o c l s) as H;
      destruct (process_proposals_with_operation o c l s) as [? [[?|]|?|]]; cbn [snd framed] in H; [| | |done]
  | |- context [session_process_proposals ?o ?c ?l ?s] =>
      let H := fresh in pose proof (total_session_proposals o c l s) as H;
      destruct (session_process_proposals o c l s) as [? [[?|]|?|]]; cbn [snd framed] in H; [| | |done]
  end.

Ltac calm_step := first
  [ exact I | solve [auto with session_calm nocore] | done
  | apply calm_ret; solve [auto with session_calm nocore]
  | apply calm_try_ret; [solve [exact I | auto with session_calm nocore]|let Heq := fresh in intros ? Heq; first [injection Heq as <- | clear Heq]]
  | apply leaves_try; [|intros ?] | apply calm_then; intros ? | library | case_match ].
Ltac calm := repeat calm_step.

Lemma calm_ready g i rt src : calm (ready_pending_transition g i rt src).
Proof.
  unfold ready_pending_transition. apply calm_then. intros _. case_match; [done|].
  eapply leaves_bind; [apply calm_send|]. intros [[]|e|] He; done.
Qed.
#[local] Hint Resolve calm_ready : session_calm.

Lemma calm_reinitialize g i v : calm (reinitialize_dave_session_after_invalid_commit g i v).
Proof. unfold reinitialize_dave_session_after_invalid_commit. calm. Qed.
#[local] Hint Resolve calm_reinitialize : session_calm.
Lemma calm_remote_commit g i c : calm (prepare_remote_commit_transition g i c).
Proof.
  unfold prepare_remote_commit_transition, confirm_local_init_commit, announce_local_commit, apply_remote_commit.
  calm.
Qed.
Lemma calm_welcome g i m : calm (prepare_welcome_transition g i m).
Proof.
  unfold prepare_welcome_transition, prepare_pending_initial_welcome_transition, apply_welcome. calm.
Qed.
#[local] Hint Resolve total_split total_payload : session_calm.
Lemma calm_commit_initial g cw s : unpacks cw -> calm (commit_initial g cw s).
Proof. intros Hcw. unfold commit_initial, send_commit_welcome. calm. Qed.
#[local] Hint Resolve calm_commit_initial : session_calm.
Lemma calm_local_commit g op ps : calm (prepare_local_commit_transition g op ps).
Proof.
  unfold prepare_local_commit_transition, prepare_pending_initial_local_commit_transition, commit_proposals,
    prepare_initial_epoch_local_commit_transition, send_commit_welcome, required_sender. calm.
Qed.
#[local] Hint Resolve calm_remote_commit calm_welcome calm_local_commit : session_calm.
Lemma calm_event g e : calm (process_gateway_event_for_dave g e).
Proof.
  unfold process_gateway_event_for_dave, prepare_epoch, prepare_transition, execute_transition,
    current_dave_protocol_version. calm.
Qed.
Lemma calm_drain_loop n g t follow deadline fu rep : calm (drain_loop n g t follow deadline fu rep).
Proof.
  revert fu rep. induction n as [|n IH]; intros fu rep; cbn [drain_loop]; [done|].
  do 2 (apply calm_then; intros ?). case_match; [done|]. apply calm_ask.
  intros [[e|e|]|] Hv; [|done..]. eapply leaves_bind; [apply calm_event|].
  intros [[]|err|] Hr; [apply IH|done|done].
Qed.
#[local] Hint Resolve calm_drain_loop : session_calm.
Lemma calm_drain t allow follow deadline :
  calm (process_pending_gateway_events_with_initial_poll_policy t allow follow deadline).
Proof. unfold process_pending_gateway_events_with_initial_poll_policy, drain_check. calm. Qed.
#[local] Hint Resolve calm_drain : session_calm.
Lemma calm_repeated n g m : calm (send_repeated n g m).
Proof. induction n as [|n IH]; cbn [send_repeated]; calm. Qed.
#[local] Hint Resolve calm_repeated : session_calm.
Lemma calm_settle : calm settle_initial_dave_for_join.
Proof. unfold settle_initial_dave_for_join. calm. Qed.
Lemma calm_prepare_speaking : calm prepare_speaking_before_media.
Proof. unfold prepare_speaking_before_media, send_speaking_repeated. calm. Qed.
Lemma calm_stop_speaking : calm stop_speaking.
Proof. unfold stop_speaking, send_not_speaking_repeated. calm. Qed.
#[local] Hint Resolve calm_stop_speaking : session_calm.
Lemma calm_suspend : calm suspend_media.
Proof.
  unfold suspend_media. apply calm_then. intros started. apply leaves_try; [calm|]. intros _.
  do 4 (apply calm_then; intros ?). apply leaves_try; [|by intros _; calm].
  case_match; [|done]. by intros [[]|e|] Hv.
Qed.

(** ** The contract *)

Lemma honours (m : prog World question answer Empty_set (vresult unit)) w :
  keeps_voice m -> calm m ->
  wp Valid m (fun r w' => r <> Panic /\ Commands.keeps_context (w_session w) (w_session w')) w.
Proof.
  intros Hk Hc. eapply wp_mono; [|exact (leaves_wp Valid no_panic m _ w Hc (every_rel Valid same_voice m w Hk))].
  intros r w' [Hr Hw]. split; [by intros ->|exact Hw].
Qed.

End contract.

Module ConcreteContract.
Import ConcreteDave.

#[global] Instance toy_total : DaveyTotal toy_davey.
Proof. split; intros; cbn; done. Qed.

End ConcreteContract.
