(* ===== verification/HandshakeSpecs.v ===== *)
(** * What the handshake guarantees

    A join that completes hands over one DAVE group, in the terms that were
    negotiated; it writes one key package and at most one message more; a
    connection that fails leaves no heartbeat behind (Handshake.v). *)

From S2P Require Import Prelude VoiceErrors Text Crypto Protection Udp DaveWire Json Protocol Gateway DaveSession Task Endpoint Handshake.
From S2P Require ConnectedSession DaveMachine DaveSafety.
From stdpp Require Import prelude strings gmap.
Open Scope Z_scope.
Open Scope task_scope.

Section specs.
Context {A : Aead} {D : Davey} {U : HttpUri} {HA : HttpAuthority}.

(** At most [n] messages were written, and the heartbeats are as before. *)
Definition wrote (n : nat) (w w' : World) : Prop :=
  hw_heartbeats w' = hw_heartbeats w /\
  exists rest, hw_sent w' = hw_sent w ++ rest /\ (length rest <= n)%nat.

Lemma wrote_refl n w : wrote n w w.
Proof. split; [done|]. exists []. rewrite app_nil_r. split; [done|cbn; lia]. Qed.
Lemma wrote_trans n m w1 w2 w3 : wrote n w1 w2 -> wrote m w2 w3 -> wrote (n + m) w1 w3.
Proof.
  intros [H1 (r1 & Hr1 & L1)] [H2 (r2 & Hr2 & L2)]. split; [congruence|].
  exists (r1 ++ r2). rewrite Hr2, Hr1, app_assoc, length_app. split; [done|lia].
Qed.
Lemma wrote_mono n m w w' : (n <= m)%nat -> wrote n w w' -> wrote m w w'.
Proof. intros Hnm [H1 (r & Hr & L)]. split; [done|]. exists r. split; [done|lia]. Qed.
#[local] Hint Resolve wrote_refl : core.
Ltac same := solve [done | cbn; auto].

Lemma wp_handshake_send_log g m post w :
  post (Ok tt) (mkWorld (hw_sent w ++ [m]) (hw_heartbeats w)) -> (forall e, post (Err e) w) ->
  wp Valid (send g m) post w.
Proof. intros Hok Herr. cbn. intros [[]|e|] Hv; cbn; [exact Hok|apply Herr|done]. Qed.
Lemma wp_handshake_send g m post w :
  (forall w', wrote 1 w w' -> post (Ok tt) w') -> (forall e, post (Err e) w) -> wp Valid (send g m) post w.
Proof. intros Hok Herr. apply wp_handshake_send_log; [|done]. apply Hok. split; [done|]. by exists [m]. Qed.
#[local] Arguments send : simpl never.
#[local] Arguments runtime_from : simpl never.
#[local] Arguments with_session : simpl never.
#[local] Arguments prepared_version : simpl never.
#[local] Arguments process_initial_proposals : simpl never.
#[local] Arguments split_commit_welcome : simpl never.
#[local] Arguments current_external_sender_bytes : simpl never.

(** ** The active join *)

(** The variables of the loop: we are recognized, there is no local commit in
    flight, and the group is with the session until a transition holds it. *)
Definition join_ok (user : string) (j : ActiveJoin) : Prop :=
  user ∈ aj_recognized j /\ aj_local_init j = None /\
  match aj_pending j with
  | Some _ => aj_session j = None
  | None => is_Some (aj_session j) /\ aj_key_package j = true
  end.

(** The messages a join may still write. *)
Definition messages_left (j : ActiveJoin) : nat := match aj_pending j with Some _ => 0 | None => 1 end.

Definition hands_over (t : JoinTerms) (user : string) (s : InitialDaveState) : Prop :=
  id_group_id s = jt_group_id t /\ id_protocol_version s = jt_protocol_version t /\
  user ∈ id_recognized_user_ids s /\
  match id_runtime s, id_pending_initial_session s with
  | Some _, None | None, Some _ => True
  | _, _ => False
  end.

Definition turn_post (t : JoinTerms) (user : string) (j : ActiveJoin) (w : World)
    (r : vresult (ActiveJoin + InitialDaveState)) (w' : World) : Prop :=
  match r with
  | Ok (inl j') => join_ok user j' /\ exists n, wrote n w w' /\ (n + messages_left j' <= messages_left j)%nat
  | Ok (inr s) => hands_over t user s /\ wrote (messages_left j) w w'
  | _ => wrote (messages_left j) w w'
  end.

Lemma wp_go_on t user j j' w :
  join_ok user j' -> (messages_left j' <= messages_left j)%nat -> wp Valid (go_on j') (turn_post t user j w) w.
Proof. intros Hj Hm. split; [done|]. exists 0%nat. split; [done|lia]. Qed.

Lemma wp_complete t user j j0 rt wb li w w0 :
  user ∈ aj_recognized j0 -> wrote (messages_left j) w w0 ->
  wp Valid (complete (initial_dave_state t j0 rt wb li)) (turn_post t user j w) w0.
Proof.
  intros Hu Hw. unfold complete, initial_dave_state. cbn.
  destruct (current_external_sender_bytes _ _); cbn; done.
Qed.
#[local] Arguments complete : simpl never.
#[local] Arguments go_on : simpl never.

Lemma wp_join_transition t user j j0 i s src w :
  user ∈ aj_recognized j0 -> aj_local_init j0 = None -> messages_left j = 1%nat ->
  wp Valid (join_transition t j0 i s src) (turn_post t user j w) w.
Proof.
  intros Hu Hl Hm. unfold join_transition. cbn. destruct (runtime_from (Some s)) as [rt|e|]; cbn; [|same..].
  destruct (i =? _); [apply wp_complete; same|].
  apply wp_bind, wp_handshake_send; [|same]. intros w' Hw. split; [done|]. exists 1%nat. split; [done|]. cbn. lia.
Qed.
#[local] Arguments join_transition : simpl never.

Lemma wp_key_package g s b post w :
  post (Ok (s, true)) w -> (forall e w', wrote 0 w w' -> post (Err e) w') ->
  b = true -> wp Valid (send_pending_join_key_package g (Some s) b) post w.
Proof. intros Hok Herr ->. exact Hok. Qed.

Lemma wp_creator g s cw c b post w :
  (forall rt w', wrote 1 w w' -> post (Ok rt) w') -> (forall e w', wrote 1 w w' -> post (Err e) w') ->
  (forall w', wrote 1 w w' -> post Panic w') -> b = false ->
  wp Valid (complete_local_initial_creator_transition g s cw c b) post w.
Proof.
  intros Hok Herr Hp ->. unfold complete_local_initial_creator_transition. apply wp_bind.
  unfold send_local_initial_creator_commit_welcome. cbn. destruct (dave_mls_commit_welcome_payload cw); cbn; [|by apply Herr|by apply Hp].
  apply wp_handshake_send; cbn; [|by intros; apply Herr]. intros w' Hw.
  destruct (session_process_commit c s) as [s' [r|e|]]; cbn; [|by apply Herr|by apply Hp].
  destruct (joined_group r); cbn; [|by apply Herr].
  destruct (DaveSession.from_session s') as [rt|e|]; cbn; [by apply Hok|by apply Herr|by apply Hp].
Qed.
#[local] Arguments complete_local_initial_creator_transition : simpl never.

Lemma wp_on_proposals t user j op ps w :
  join_ok user j -> aj_pending j = None -> wp Valid (on_proposals t j op ps) (turn_post t user j w) w.
Proof.
  intros (Hu & Hl & Hp) Hn. unfold on_proposals. rewrite Hn in Hp. destruct Hp as [[s Hs] Hk]. rewrite Hk, Hl, Hs. cbn.
  assert (messages_left j = 1%nat) as Hm by (unfold messages_left; by rewrite Hn).
  apply wp_bind. unfold complete_initial_proposals_transition. cbn.
  destruct (process_initial_proposals _ _ _ _) as [[s1 [cw|]]|e|]; cbn; [| |same..].
  - destruct (split_commit_welcome cw) as [[c wl]|e|]; cbn; [|same..].
    apply wp_bind, wp_creator; [| | |done]; cbn.
    + intros rt w' Hw. apply wp_complete; [done|]. by rewrite Hm.
    + intros e w' Hw. by rewrite Hm.
    + intros w' Hw. by rewrite Hm.
  - apply wp_go_on; [|exact (le_n _)]. split_and!; [done|done|]. cbn. by rewrite Hn.
Qed.

Lemma wp_on_prepare_epoch t user j i ep v w :
  join_ok user j -> aj_pending j = None -> wp Valid (on_prepare_epoch t j i ep v) (turn_post t user j w) w.
Proof.
  intros (Hu & Hl & Hp) Hn. unfold on_prepare_epoch. rewrite Hn in Hp. destruct Hp as [[s Hs] Hk].
  destruct (negb _); [same|]. case_bool_decide; [same|]. rewrite Hl. cbn. rewrite Hs, Hk. cbn.
  apply wp_go_on; [|destruct i; exact (le_n _)].
  destruct i; split_and!; try done; cbn; by rewrite Hn.
Qed.

Lemma wp_on_remote_commit t user j i c w :
  join_ok user j -> aj_pending j = None -> wp Valid (on_remote_commit t j i c) (turn_post t user j w) w.
Proof.
  intros (Hu & Hl & Hp) Hn. unfold on_remote_commit. cbn.
  destruct (prepared_version _ _ _ _ _) as [[v m]|e|]; cbn; [|same..].
  destruct (with_session _ _ _) as [[s r]|e|]; cbn; [|same..].
  assert (messages_left j = 1%nat) as Hm by (unfold messages_left; by rewrite Hn). rewrite Hn in Hp.
  destruct (cr_ignored r).
  { apply wp_go_on; [|exact (le_n _)]. split_and!; [done|done|]. cbn. rewrite Hn. by destruct Hp. }
  destruct (_ || _); [same|]. by apply wp_join_transition.
Qed.

Lemma wp_active_event t user j e w :
  join_ok user j -> wp Valid (active_event t j e) (turn_post t user j w) w.
Proof.
  intros Hj. assert (wp Valid (go_on j) (turn_post t user j w) w) as Hgo by (by apply wp_go_on).
  unfold active_event. destruct (aj_pending j) as [p|] eqn:Hn.
  { destruct e; try exact Hgo. cbn. unfold on_execute. rewrite Hn.
    destruct (_ =? _); [|exact Hgo]. apply wp_complete; [apply Hj|same]. }
  destruct Hj as (Hu & Hl & Hp). rewrite Hn in Hp. destruct Hp as [[s Hs] Hk].
  assert (join_ok user j) as Hj by (split_and!; [done|done|]; rewrite Hn; by split; [exists s|]).
  destruct e; cbn [bool_decide]; try exact Hgo.
  - apply wp_go_on; [|exact (le_n _)]. split_and!; [by cbn; apply elem_of_union_l|done|]. cbn. rewrite Hn. by split; [exists s|].
  - unfold on_execute. by rewrite Hn.
  - by apply wp_on_prepare_epoch.
  - unfold on_external_sender. cbn. destruct (with_session _ _ _) as [[s1 []]|e|]; cbn; [|same..].
    apply wp_go_on; [|exact (le_n _)]. split_and!; [done|done|]. cbn. by rewrite Hn.
  - by apply wp_on_proposals.
  - unfold on_commit. rewrite Hl. by apply wp_on_remote_commit.
  - unfold on_welcome. cbn. destruct (prepared_version _ _ _ _ _) as [[v m]|e|]; cbn; [|same..].
    destruct (with_session _ _ _) as [[s1 r]|e|]; cbn; [|same..].
    apply wp_join_transition; [done|done|]. unfold messages_left. by rewrite Hn.
Qed.
#[local] Arguments active_event : simpl never.

Definition join_post (t : JoinTerms) (user : string) (n : nat) (w : World)
    (r : vresult InitialDaveState) (w' : World) : Prop :=
  wrote n w w' /\ match r with Ok s => hands_over t user s | _ => True end.

Lemma wp_active_loop t user n j w :
  join_ok user j -> wp Valid (active_loop t n j) (join_post t user (messages_left j) w) w.
Proof.
  revert j w. induction n as [|n IH]; intros j w Hj; [by split|]. cbn. intros [[e|e|]|] Hv; cbn.
  - apply wp_bind. eapply wp_mono; [|exact (wp_active_event t user j e w Hj)].
    intros [[j'|s]|err|] w' Hr; cbn; [|by destruct Hr|by split|by split].
    destruct Hr as [Hj' (k & Hw & Hk)]. eapply wp_mono; [|exact (IH j' w' Hj')].
    intros r w2 [Hw2 Hr]. split; [|done]. eapply wrote_mono; [exact Hk|]. by eapply wrote_trans.
  - by split.
  - done.
  - destruct (aj_self_only j); [|by split]. cbn. split; [done|].
    unfold pending_initial_dave_state, take_dave_session. destruct (aj_session j); cbn; [|done].
    destruct (current_external_sender_bytes _ _); cbn; [|done..]. by destruct Hj.
Qed.
#[local] Arguments active_loop : simpl never.

(** The key package comes first, then at most one message. *)
Lemma wp_active_join g voice v n us w :
  wp Valid (complete_active_dave_transition g voice v n us) (fun r w' =>
    hw_heartbeats w' = hw_heartbeats w /\
    (w' = w \/ exists package rest, (length rest <= 1)%nat /\
       hw_sent w' = hw_sent w ++ OutBinary (dave_mls_key_package_payload package) :: rest) /\
    match r with
    | Ok s => w' <> w /\ exists t, jt_gateway t = g /\ jt_protocol_version t = v /\
        parse_u64 (vc_channel_id voice) = Some (jt_group_id t) /\ hands_over t (vc_user_id voice) s
    | _ => True
    end) w.
Proof.
  unfold complete_active_dave_transition. cbn.
  destruct (parse_u64 _) as [group|] eqn:Hg; cbn; [|by split; [|split; [left|]]].
  destruct (DaveExternalSender_new group) as [sender|e|]; cbn; [|by split; [|split; [left|]]..].
  destruct (with_session _ _ _) as [[s []]|e|]; cbn; [|by split; [|split; [left|]]..].
  destruct (key_package s) as [s' [package|e|]]; cbn; [|by split; [|split; [left|]]..].
  apply wp_bind, wp_bind, wp_handshake_send_log; [|intros e; cbn; by split; [|split; [left|]]].
  cbn. eapply wp_mono; [|apply (wp_active_loop _ (vc_user_id voice))].
  - intros r w2 [[Hb (rest & Hs & Hl)] Hr]. cbn in *. rewrite <- app_assoc in Hs. split_and!; [done|right; by exists package, rest|].
    destruct r as [st|e|]; [|done..]. split.
    + intros ->. apply (f_equal length) in Hs. rewrite length_app in Hs. cbn in Hs. lia.
    + eexists. by split_and!; [..|exact Hr].
  - split_and!; [cbn; set_solver|done|]. by split; [eexists|].
Qed.
#[local] Arguments complete_active_dave_transition : simpl never.

(** ** Connecting *)

(** Only messages were added. *)
Definition only_wrote (w w' : World) : Prop :=
  hw_heartbeats w' = hw_heartbeats w /\ hw_sent w `prefix_of` hw_sent w'.

#[global] Instance only_wrote_preorder : PreOrder only_wrote.
Proof.
  split; [done|]. intros w1 w2 w3 [H1 P1] [H2 P2]. split; [congruence|by etrans].
Qed.

Abbreviation quiet m := (every (Sp := Empty_set) Valid (moves_by only_wrote) m).
Create HintDb handshake_frame.
Ltac quiet_step := first
  [ solve [auto with handshake_frame nocore] | exact I
  | match goal with |- every _ _ (ask _) => by intros ? ? end
  | apply every_try; [|intros ?] | apply every_bind; [|intros ?] | case_match ].
Ltac quiet := repeat quiet_step.

Lemma only_wrote_send g m : quiet (send g m).
Proof.
  apply every_bind; [done|]. intros [[]|e|]; [|done..]. apply every_bind; [|done]. split; [|done].
  intros w. eexists _, tt. split; [done|]. split; [done|by apply prefix_app_r].
Qed.
#[local] Hint Resolve only_wrote_send : handshake_frame.
Lemma quiet_next g u : quiet (next_event g u).
Proof. unfold next_event. quiet. Qed.
#[local] Hint Resolve quiet_next : handshake_frame.
Lemma quiet_description g u n k : quiet (expect_session_description g u n k).
Proof. revert k. induction n as [|n IH]; intros k; cbn [expect_session_description]; quiet. Qed.
#[local] Hint Resolve quiet_description : handshake_frame.
Lemma quiet_bootstrap_session g v t n : quiet (bootstrap_session g v t n).
Proof. unfold bootstrap_session, expect_ready, resolve_udp_target. quiet. Qed.
Lemma quiet_key_package g s b : quiet (send_pending_join_key_package g s b).
Proof. unfold send_pending_join_key_package. quiet. Qed.
#[local] Hint Resolve quiet_key_package : handshake_frame.
Lemma quiet_seed g v n p : quiet (seed_pending_observer_dave_state g v n p).
Proof. revert p. induction n as [|n IH]; intros p; cbn [seed_pending_observer_dave_state]; quiet. Qed.
#[local] Hint Resolve quiet_seed : handshake_frame.
Lemma quiet_observer_start g v pv n us saw : quiet (start_pending_observer_dave_join g v pv n us saw).
Proof. unfold start_pending_observer_dave_join. quiet. Qed.
Lemma quiet_creator g s cw c b : quiet (complete_local_initial_creator_transition g s cw c b).
Proof. unfold complete_local_initial_creator_transition, send_local_initial_creator_commit_welcome. quiet. Qed.
#[local] Hint Resolve quiet_creator : handshake_frame.
Lemma quiet_restart g p i : quiet (restart_pending_observer_dave_join_after_invalid_transition g p i).
Proof. unfold restart_pending_observer_dave_join_after_invalid_transition. quiet. Qed.
#[local] Hint Resolve quiet_restart : handshake_frame.
Lemma quiet_observer_event g author p e : quiet (observer_event g author p e).
Proof.
  unfold observer_event, observer_prepare_epoch, observer_proposals, observer_author, observer_commit,
    observer_welcome, observer_restart, observer_join, observer_complete, keep_waiting. quiet.
Qed.
#[local] Hint Resolve quiet_observer_event : handshake_frame.
Lemma quiet_observer_loop g author n p : quiet (observer_loop g author n p).
Proof. revert p. induction n as [|n IH]; intros p; cbn [observer_loop]; quiet. Qed.
#[local] Hint Resolve quiet_observer_loop : handshake_frame.
Lemma quiet_observer_join g p n author : quiet (complete_pending_observer_dave_join g p n author).
Proof.
  unfold complete_pending_observer_dave_join. generalize (po_seeded_events p) as seeded. intros seeded. revert p.
  induction seeded as [|e seeded IH]; intros p; cbn [observer_seeded]; quiet.
Qed.
Lemma only_wrote_reinitialize g v m us inv i : quiet (reinitialize_pending_observer_dave_join g v m us inv i).
Proof. unfold reinitialize_pending_observer_dave_join. quiet. Qed.
Lemma quiet_resume_session g v s t : quiet (resume_session g v s t).
Proof. unfold resume_session. quiet. Qed.

(** The heartbeat of [gateway] runs on top of the others. *)
Definition heart_beats (gateway : Z) (w w' : World) : Prop :=
  exists interval, 1 <= interval /\ hw_heartbeats w' = (gateway, interval) :: hw_heartbeats w.
(** No heartbeat that did not run before. *)
Definition no_new_heartbeat (w w' : World) : Prop := hw_heartbeats w' ⊆ hw_heartbeats w.

Lemma no_new_heartbeat_refl w : no_new_heartbeat w w.
Proof. unfold no_new_heartbeat. reflexivity. Qed.
#[local] Hint Resolve no_new_heartbeat_refl : core.

Lemma stopped_heartbeat g w w' :
  heart_beats g w w' ->
  no_new_heartbeat w (mkWorld (hw_sent w') (List.filter (fun h => negb (h.1 =? g)) (hw_heartbeats w'))).
Proof.
  intros (i & _ & Hb). unfold no_new_heartbeat. cbn. rewrite Hb. cbn. rewrite Z.eqb_refl. cbn.
  intros h Hh. apply list_elem_of_In, filter_In in Hh as [Hh _]. by apply list_elem_of_In.
Qed.

Lemma heart_beats_frame g w w1 w2 : heart_beats g w w1 -> only_wrote w1 w2 -> heart_beats g w w2.
Proof. intros (i & Hi & Hb) [H _]. exists i. split; [done|]. congruence. Qed.

(** A task under a heartbeat that stops it when it fails. *)
Lemma wp_or_stop {X} g (m : prog World question answer Empty_set (vresult X)) (P : X -> Prop) w w0 :
  heart_beats g w w0 -> quiet m -> wp Valid m (fun r _ => match r with Ok x => P x | _ => True end) w0 ->
  wp Valid (or_stop_heartbeat g m) (fun r w' =>
    match r with Ok x => P x /\ heart_beats g w w' | Err _ => no_new_heartbeat w w' | Panic => True end) w0.
Proof.
  intros Hb Hq Hm. apply wp_bind.
  eapply wp_mono; [|exact (wp_and Valid m _ _ w0 Hm (every_rel Valid only_wrote m w0 Hq))].
  intros [x|e|] w' [HP Hw]; cbn; [|by apply stopped_heartbeat; eapply heart_beats_frame|done].
  split; [done|]. by eapply heart_beats_frame.
Qed.

Lemma wp_connect_gateway url post w :
  (forall g, post (Ok g) w) -> (forall e, post (Err e) w) -> wp Valid (connect_gateway url) post w.
Proof. intros Hok Herr. cbn. intros [[g|e|]|] Hv; cbn; auto. done. Qed.
Lemma wp_hello g post w :
  (forall i, post (Ok i) w) -> (forall e, post (Err e) w) -> wp Valid (expect_hello g) post w.
Proof. intros Hok Herr. cbn. intros [[e|e|]|] Hv; cbn; auto; [|done]. destruct e; cbn; auto. Qed.
#[local] Arguments connect_gateway : simpl never.
#[local] Arguments expect_hello : simpl never.
#[local] Arguments bootstrap_session : simpl never.
#[local] Arguments resume_session : simpl never.
#[local] Arguments gateway_url : simpl never.

Definition connection_post {X} (gateway : X -> Z) (P : X -> Prop) (w : World) (r : vresult (option X)) (w' : World)
    : Prop :=
  match r with
  | Ok (Some x) => P x /\ heart_beats (gateway x) w w'
  | Ok None => w' = w
  | Err _ => no_new_heartbeat w w'
  | Panic => True
  end.

Lemma wp_bootstrap voice n w :
  wp Valid (bootstrap_voice_connection voice n) (connection_post vb_gateway (fun _ => True) w) w.
Proof.
  unfold bootstrap_voice_connection. cbn. destruct (gateway_url _) as [[url|]|e|]; cbn; [|same..].
  apply wp_bind, wp_connect_gateway; [|same]. intros g. apply wp_bind, wp_hello; [|same]. intros i. cbn.
  apply wp_bind.
  eapply wp_mono; [|apply (every_rel Valid only_wrote), quiet_bootstrap_session].
  intros r w1 Hw. assert (heart_beats g w w1) as Hb.
  { eapply heart_beats_frame; [|exact Hw]. exists (i `max` 1). split; [lia|done]. }
  destruct r as [[[tr ssrc] [d [us saw]]]|e|]; cbn; [done| |done]. by apply stopped_heartbeat.
Qed.
#[local] Arguments bootstrap_voice_connection : simpl never.
#[local] Arguments or_stop_heartbeat : simpl never.

(** What an active connection hands over: DAVE exactly when it was negotiated,
    one group of the channel in the negotiated version, and ourselves among
    the recognized users. *)
Definition handed_over (voice : VoiceContext) (h : VoiceHandshakeResult) : Prop :=
  match sd_dave_protocol_version (hr_session_description h), hr_dave h with
  | Some v, Some s => exists t, jt_protocol_version t = v /\
      parse_u64 (vc_channel_id voice) = Some (jt_group_id t) /\ hands_over t (vc_user_id voice) s
  | None, None => True
  | _, _ => False
  end.

Lemma quiet_active_event t j e : quiet (active_event t j e).
Proof.
  unfold active_event, on_execute, on_external_sender, on_prepare_epoch, on_proposals, on_commit, confirm_local_init,
    on_remote_commit, on_welcome, join_transition, complete_initial_proposals_transition,
    complete_local_initial_creator_transition, send_local_initial_creator_commit_welcome, complete, go_on. quiet.
Qed.
#[local] Hint Resolve quiet_active_event : handshake_frame.
Lemma quiet_active_loop t n j : quiet (active_loop t n j).
Proof. revert j. induction n as [|n IH]; intros j; cbn [active_loop]; quiet. Qed.
#[local] Hint Resolve quiet_active_loop : handshake_frame.
Lemma quiet_active_join g voice v n us : quiet (complete_active_dave_transition g voice v n us).
Proof. unfold complete_active_dave_transition. quiet. Qed.

Lemma wp_connect_active voice n m w :
  wp Valid (connect_active_participant voice n m) (connection_post hr_gateway (handed_over voice) w) w.
Proof.
  unfold connect_active_participant. apply wp_bind. eapply wp_mono; [|apply wp_bootstrap].
  intros [[b|]|e|] w1 H1; cbn; [|done..]. destruct H1 as [_ Hb]. apply wp_bind.
  set (negotiated := sd_dave_protocol_version (vb_session_description b)).
  eapply wp_mono; [|apply (wp_or_stop (vb_gateway b) _ (fun dave =>
    handed_over voice (mkHandshakeResult (vb_gateway b) (vb_transport b) (vb_ssrc b) (vb_session_description b) dave)) w w1 Hb)].
  - intros [dave|e|] w2 H2; done.
  - destruct negotiated; [|done]. apply every_try; [apply quiet_active_join|done].
  - unfold handed_over. cbn. fold negotiated. destruct negotiated as [v|]; [|done].
    apply wp_bind. eapply wp_mono; [|apply wp_active_join].
    intros [s|e|] w2 (_ & _ & Hs); cbn; [|done..]. destruct Hs as (_ & t & _ & Hv & Hg & Hh). by exists t.
Qed.

Lemma wp_connect_observer voice n m w :
  wp Valid (connect_observer_participant voice n m) (connection_post oh_gateway (fun _ => True) w) w.
Proof.
  unfold connect_observer_participant. apply wp_bind. eapply wp_mono; [|apply wp_bootstrap].
  intros [[b|]|e|] w1 H1; cbn; [|done..]. destruct H1 as [_ Hb]. apply wp_bind.
  eapply wp_mono; [|apply (wp_or_stop (vb_gateway b) _ (fun _ => True) w w1 Hb)].
  - intros [dave|e|] w2 H2; done.
  - destruct (sd_dave_protocol_version _); [|done]. apply every_try; [apply quiet_observer_start|done].
  - eapply wp_mono; [|apply (every_rel Valid only_wrote)]; [by intros [| |]|].
    destruct (sd_dave_protocol_version _); [|done]. apply every_try; [apply quiet_observer_start|done].
Qed.

Lemma wp_resume voice seq w :
  wp Valid (resume_gateway voice seq) (fun r w' =>
    match r with Ok g => heart_beats g w w' | Err _ => no_new_heartbeat w w' | Panic => True end) w.
Proof.
  unfold resume_gateway. cbn. destruct (gateway_url _) as [[url|]|e|]; cbn; [|same..].
  apply wp_bind, wp_connect_gateway; [|same]. intros g. apply wp_bind, wp_hello; [|same]. intros i. cbn.
  apply wp_bind. eapply wp_mono; [|apply (every_rel Valid only_wrote), quiet_resume_session].
  intros r w1 Hw. assert (heart_beats g w w1) as Hb.
  { eapply heart_beats_frame; [|exact Hw]. exists (i `max` 1). split; [lia|done]. }
  destruct r as [[]|e|]; cbn; [done| |done]. by apply stopped_heartbeat.
Qed.

(** ** Theorems *)

(** C5. A connection as an active participant hands over DAVE exactly when
    the session description negotiated it: one group (a runtime, or the
    session of an initial epoch, never both and never none) for the channel's
    id and in the negotiated version, with our own user recognized; and the
    voice session built from it starts with that group in one place. *)
Theorem handshake_hands_over_one_group voice events dave_events w :
  wp Valid (connect_active_participant voice events dave_events) (fun r _ =>
    match r with
    | Ok (Some h) =>
        handed_over voice h /\
        forall s, ConnectedSession.connected_session voice h = Ok s -> is_Some (hr_dave h) ->
          DaveMachine.custody (ConnectedSession.cs_dave s)
    | _ => True
    end) w.
Proof.
  eapply wp_mono; [|apply wp_connect_active]. intros [[h|]|e|] w' Hr; [|done..].
  destruct Hr as [Hh _]. split; [exact Hh|]. intros s Hs [d Hd]. unfold ConnectedSession.connected_session in Hs.
  apply bind_Ok in Hs as (c & _ & [= <-]). cbn. rewrite Hd. unfold handed_over in Hh. rewrite Hd in Hh.
  destruct (sd_dave_protocol_version _) as [v|]; [|done].
  destruct Hh as (t & _ & _ & _ & _ & _ & Hone). destruct d as [rt pi gi pv es eb ru cw cl]. cbn in *.
  destruct rt, pi; done.
Qed.

(** However connecting as a participant or as an observer or resuming a
    gateway ends, heartbeats are not leaked: a success leaves exactly one new
    heartbeat task, for the gateway it returns and with an interval of at
    least a millisecond; a failure leaves none. *)
Theorem failed_connection_stops_heartbeat voice seq events dave_events w :
  wp Valid (connect_active_participant voice events dave_events) (connection_post hr_gateway (fun _ => True) w) w /\
  wp Valid (connect_observer_participant voice events dave_events) (connection_post oh_gateway (fun _ => True) w) w /\
  wp Valid (resume_gateway voice seq) (fun r w' =>
    match r with Ok g => heart_beats g w w' | Err _ => no_new_heartbeat w w' | Panic => True end) w.
Proof.
  split_and!; [|apply wp_connect_observer|apply wp_resume].
  eapply wp_mono; [|apply wp_connect_active]. by intros [[h|]|e|] w' Hr; [destruct Hr|..].
Qed.

(** An active join writes either nothing or one key package followed by
    at most one answer to the gateway (a commit and welcome of ours, or that a
    transition is ready); a join that succeeds did offer its key package. *)
Theorem active_join_writes gateway voice version events recognized w :
  wp Valid (complete_active_dave_transition gateway voice version events recognized) (fun r w' =>
    hw_heartbeats w' = hw_heartbeats w /\
    (w' = w \/ exists package rest, (length rest <= 1)%nat /\
       hw_sent w' = hw_sent w ++ OutBinary (dave_mls_key_package_payload package) :: rest) /\
    match r with Ok _ => w' <> w | _ => True end) w.
Proof.
  eapply wp_mono; [|apply wp_active_join]. intros r w' (Hb & Hs & Hr). split_and!; [done|done|].
  by destruct r; [destruct Hr|..].
Qed.

(** ** Who is there *)

(** While the join waits for the execution of a transition it does not note
    who connects, and at no time that somebody left: the recognized users it
    hands over are those of an earlier moment. *)
Lemma join_misses_presence t j p users user :
  aj_pending j = Some p ->
  active_event t j (ClientsConnect users) = go_on j /\ active_event t j (ClientDisconnect user) = go_on j.
Proof. intros Hp. unfold active_event. by rewrite Hp. Qed.
Lemma join_keeps_departed t j user : aj_pending j = None -> active_event t j (ClientDisconnect user) = go_on j.
Proof. intros Hp. unfold active_event. by rewrite Hp. Qed.
End specs.
