(* ===== verification/Observer.v ===== *)
(** * Observing a voice channel

    crates/discord-voice-service-voice/src/receive.rs: a session that
    receives. It learns which user speaks with which SSRC, keeps one packet
    per SSRC it cannot attribute or decrypt yet, follows the DAVE group of the
    channel, and yields audio frames, speaking states and disconnects.

    The session is passed on explicitly; what is awaited is a question of
    Handshake.v, whose joins are called when the group is lost. A loop is
    given the number of arrivals before its deadline. The receive that is in
    flight across calls is the flag [ob_gateway_receive]; dropping a session
    sends on the heartbeat's channel, which is the environment's. *)

From S2P Require Import Prelude VoiceErrors Text Rtp Crypto Protection Udp DaveWire Json Protocol Gateway DaveSession Task Endpoint Handshake.
From stdpp Require Import prelude strings gmap.
Open Scope Z_scope.
Open Scope task_scope.

Definition MAX_UDP_PACKET_LEN : Z := 2048.

Record ObservedAudioFrame : Type := mkObservedAudioFrame {
  of_user_id : string;
  of_ssrc : Z;
  of_sequence : Z;
  of_timestamp : Z;
  of_received_at : Z;
  of_payload : list Z;
}.
Record ObservedSpeakingState : Type := mkObservedSpeakingState {
  os_user_id : string;
  os_ssrc : Z;
  os_speaking : Z;
}.
Record ObservedRtpPacket : Type := mkObservedRtpPacket {
  op_user_id : string;
  op_ssrc : Z;
  op_sequence : Z;
  op_timestamp : Z;
  op_received_at : Z;
}.
Inductive ObservedVoiceActivity : Type :=
| ActivityAudio (frame : ObservedAudioFrame)
| ActivityRtpPacket (packet : ObservedRtpPacket)
| ActivitySpeaking (state : ObservedSpeakingState)
| ActivityDisconnect (user_id : string).

Record PendingPacket : Type := mkPendingPacket {
  pp_header : RtpHeader;
  pp_packet : list Z;
  pp_received_at : Z;
}.
Inductive DecodeAudioPacketError : Type :=
| NotReady
| Fatal (err : VoiceError).

Definition is_rtcp_packet (packet : list Z) : bool :=
  match packet !! 1%nat with Some packet_type => (192 <=? packet_type) && (packet_type <=? 223) | None => false end.

(** The first element that [p] accepts, and the others in order. *)
Fixpoint take_first {X} (p : X -> bool) (l : list X) : option (X * list X) :=
  match l with
  | [] => None
  | x :: l =>
      if p x then Some (x, l)
      else match take_first p l with Some (y, l') => Some (y, x :: l') | None => None end
  end.

Section observer.
Context {A : Aead} {D : Davey} {U : HttpUri} {H : HttpAuthority}.

(** Who is there and what they sent. *)
Record Speakers : Type := mkSpeakers {
  sp_ssrcs : gmap Z string;
  sp_speaking_states : list ObservedSpeakingState;
  sp_disconnects : list string;
  sp_candidates : gset string;
  sp_packets : gmap Z PendingPacket;
}.
Definition Speakers_new : Speakers := mkSpeakers ∅ [] [] ∅ ∅.

(** The material, the recognized users and the completed transitions of a
    pending session are empty until [await_dave_ready] fills them. *)
Record PendingObservedVoiceSession : Type := mkPendingObserved {
  pb_voice : VoiceContext;
  pb_gateway : option Z;
  pb_transport : bool;
  pb_protection : option ProtectionContext;
  pb_dave : option PendingObserverDaveState;
  pb_dave_timeout : option Z;
  pb_heartbeat : bool;
  pb_author_dave_proposals : bool;
  pb_speakers : Speakers;
}.

Record ObservedVoiceSession : Type := mkObserved {
  ob_voice : VoiceContext;
  ob_gateway : option Z;
  ob_transport : bool;
  ob_protection : option ProtectionContext;
  ob_dave : option DaveRuntimeContext;
  ob_author_dave_proposals : bool;
  ob_dave_material : option ObserverDaveMaterial;
  ob_recognized_user_ids : gset string;
  ob_completed : gset Z;
  ob_heartbeat : bool;
  ob_gateway_receive_closed : bool;
  ob_gateway_receive : bool;
  ob_proposals : list (DaveMlsProposalsOperation * list Z);
  ob_speakers : Speakers;
}.

Definition with_ob_dave (d : option DaveRuntimeContext) (s : ObservedVoiceSession) : ObservedVoiceSession :=
  mkObserved (ob_voice s) (ob_gateway s) (ob_transport s) (ob_protection s) d (ob_author_dave_proposals s)
    (ob_dave_material s) (ob_recognized_user_ids s) (ob_completed s) (ob_heartbeat s)
    (ob_gateway_receive_closed s) (ob_gateway_receive s) (ob_proposals s) (ob_speakers s).
Definition with_ob_group (material : option ObserverDaveMaterial) (users : gset string) (completed : gset Z)
    (s : ObservedVoiceSession) : ObservedVoiceSession :=
  mkObserved (ob_voice s) (ob_gateway s) (ob_transport s) (ob_protection s) (ob_dave s) (ob_author_dave_proposals s)
    material users completed (ob_heartbeat s)
    (ob_gateway_receive_closed s) (ob_gateway_receive s) (ob_proposals s) (ob_speakers s).
Definition with_ob_receive (heartbeat closed receive : bool) (s : ObservedVoiceSession) : ObservedVoiceSession :=
  mkObserved (ob_voice s) (ob_gateway s) (ob_transport s) (ob_protection s) (ob_dave s) (ob_author_dave_proposals s)
    (ob_dave_material s) (ob_recognized_user_ids s) (ob_completed s) heartbeat closed receive
    (ob_proposals s) (ob_speakers s).
Definition with_ob_proposals (l : list (DaveMlsProposalsOperation * list Z)) (s : ObservedVoiceSession)
    : ObservedVoiceSession :=
  mkObserved (ob_voice s) (ob_gateway s) (ob_transport s) (ob_protection s) (ob_dave s) (ob_author_dave_proposals s)
    (ob_dave_material s) (ob_recognized_user_ids s) (ob_completed s) (ob_heartbeat s)
    (ob_gateway_receive_closed s) (ob_gateway_receive s) l (ob_speakers s).
Definition with_ob_speakers (sp : Speakers) (s : ObservedVoiceSession) : ObservedVoiceSession :=
  mkObserved (ob_voice s) (ob_gateway s) (ob_transport s) (ob_protection s) (ob_dave s) (ob_author_dave_proposals s)
    (ob_dave_material s) (ob_recognized_user_ids s) (ob_completed s) (ob_heartbeat s)
    (ob_gateway_receive_closed s) (ob_gateway_receive s) (ob_proposals s) sp.

Definition with_ssrcs (m : gmap Z string) (sp : Speakers) : Speakers :=
  mkSpeakers m (sp_speaking_states sp) (sp_disconnects sp) (sp_candidates sp) (sp_packets sp).
Definition with_speaking_states (l : list ObservedSpeakingState) (sp : Speakers) : Speakers :=
  mkSpeakers (sp_ssrcs sp) l (sp_disconnects sp) (sp_candidates sp) (sp_packets sp).
Definition with_disconnects (l : list string) (sp : Speakers) : Speakers :=
  mkSpeakers (sp_ssrcs sp) (sp_speaking_states sp) l (sp_candidates sp) (sp_packets sp).
Definition with_candidates (u : gset string) (sp : Speakers) : Speakers :=
  mkSpeakers (sp_ssrcs sp) (sp_speaking_states sp) (sp_disconnects sp) u (sp_packets sp).
Definition with_packets (m : gmap Z PendingPacket) (sp : Speakers) : Speakers :=
  mkSpeakers (sp_ssrcs sp) (sp_speaking_states sp) (sp_disconnects sp) (sp_candidates sp) m.

(** ** Who speaks *)

Definition record_speaker_ssrc (user_id : string) (ssrc : Z) (sp : Speakers) : Speakers :=
  with_ssrcs (<[ssrc := user_id]> (sp_ssrcs sp)) sp.
Definition forget_speaker (user_id : string) (sp : Speakers) : Speakers :=
  with_ssrcs (filter (fun e => e.2 <> user_id) (sp_ssrcs sp))
    (with_candidates (sp_candidates sp ∖ {[user_id]}) sp).

Definition apply_speaking (speaking ssrc : Z) (user_id : option string) (sp : Speakers) : Speakers :=
  match (match user_id with Some u => Some u | None => sp_ssrcs sp !! ssrc end) with
  | None => sp
  | Some u =>
      let sp := if speaking =? 0 then sp else record_speaker_ssrc u ssrc sp in
      with_speaking_states (sp_speaking_states sp ++ [mkObservedSpeakingState u ssrc speaking]) sp
  end.

Definition apply_clients_connect (user_ids : list string) (s : ObservedVoiceSession) : ObservedVoiceSession :=
  let others := list_to_set (filter (fun u => u <> vc_user_id (ob_voice s)) user_ids) in
  with_ob_speakers (with_candidates (sp_candidates (ob_speakers s) ∪ others) (ob_speakers s))
    (with_ob_group (ob_dave_material s) (ob_recognized_user_ids s ∪ list_to_set user_ids) (ob_completed s) s).

Definition apply_client_disconnect (user_id : string) (s : ObservedVoiceSession) : ObservedVoiceSession :=
  let sp := forget_speaker user_id (ob_speakers s) in
  with_ob_speakers (with_disconnects (sp_disconnects sp ++ [user_id]) sp)
    (with_ob_group (ob_dave_material s) (ob_recognized_user_ids s ∖ {[user_id]}) (ob_completed s) s).

(** The only candidate, unless it is not the expected user or has an SSRC. *)
Definition infer_single_remote_speaker (expected_user_id : option string) (sp : Speakers) : option string :=
  match elements (sp_candidates sp) with
  | [candidate] =>
      if match expected_user_id with Some u => negb (bool_decide (candidate = u)) | None => false end then None
      else if existsb (fun e => bool_decide (e.2 = candidate)) (map_to_list (sp_ssrcs sp)) then None
      else Some candidate
  | _ => None
  end.

Definition pop_pending_speaking_state_from (expected_user_id : string) (sp : Speakers)
    : Speakers * option ObservedSpeakingState :=
  match take_first (fun st => bool_decide (os_user_id st = expected_user_id)) (sp_speaking_states sp) with
  | Some (st, l) => (with_speaking_states l sp, Some st)
  | None => (sp, None)
  end.
Definition pop_pending_disconnect_from (expected_user_id : string) (sp : Speakers) : Speakers * option string :=
  match take_first (fun u => bool_decide (u = expected_user_id)) (sp_disconnects sp) with
  | Some (u, l) => (with_disconnects l sp, Some u)
  | None => (sp, None)
  end.

(** ** Decoding packets *)

Abbreviation decoding := (stm ObservedVoiceSession DecodeAudioPacketError).
Abbreviation observing := (stm ObservedVoiceSession VoiceError).

(** Without a runtime the payload is the frame; silence is never encrypted. *)
Definition decrypt_audio_payload (user_id : string) (payload : list Z) : decoding (list Z) := fun s =>
  match ob_dave s with
  | None => (s, Ok payload)
  | Some dave =>
      if bool_decide (payload = OPUS_SILENCE_FRAME) then (s, Ok payload)
      else
        let '(dave, r) := decrypt_audio_frame_from user_id Audio payload dave in
        (with_ob_dave (Some dave) s, map_err (fun _ => NotReady) r)
  end.

Definition decode_audio_packet (packet : list Z) (header : RtpHeader) (received_at : Z) (user_id : string)
    : decoding ObservedAudioFrame := fun s =>
  match ob_protection s with
  | None => (s, Err (Fatal (InvalidState "voice protection unavailable")))
  | Some protection =>
      match unprotect_packet protection packet with
      | Err e => (s, Err (Fatal e))
      | Panic => (s, Panic)
      | Ok (_, payload) =>
          let '(s, r) := decrypt_audio_payload user_id payload s in
          (s, payload ← r;
              Ok (mkObservedAudioFrame user_id (rh_ssrc header) (rh_sequence header) (rh_timestamp header)
                    received_at payload))
      end
  end.

Definition keep_packet (header : RtpHeader) (packet : list Z) (received_at : Z) (s : ObservedVoiceSession)
    : ObservedVoiceSession :=
  with_ob_speakers (with_packets (<[rh_ssrc header := mkPendingPacket header packet received_at]>
    (sp_packets (ob_speakers s))) (ob_speakers s)) s.
Definition drop_packet (ssrc : Z) (s : ObservedVoiceSession) : ObservedVoiceSession :=
  with_ob_speakers (with_packets (delete ssrc (sp_packets (ob_speakers s))) (ob_speakers s)) s.
Definition learn_speaker (user_id : string) (ssrc : Z) (s : ObservedVoiceSession) : ObservedVoiceSession :=
  with_ob_speakers (record_speaker_ssrc user_id ssrc (ob_speakers s)) s.

(** What is known of the sender of a packet: it was decoded as the expected
    user's, it is put aside or ignored, or it is from this user. *)
Inductive Attribution : Type :=
| Decoded (frame : ObservedAudioFrame)
| PutAside
| FromUser (user_id : string).

(** An SSRC nobody has: the single candidate, or the packet has to wait. *)
Definition infer_sender (packet : list Z) (header : RtpHeader) (received_at : Z) (expected : option string)
    (s : ObservedVoiceSession) : ObservedVoiceSession * Attribution :=
  match infer_single_remote_speaker expected (ob_speakers s) with
  | Some user_id => (learn_speaker user_id (rh_ssrc header) s, FromUser user_id)
  | None => (keep_packet header packet received_at s, PutAside)
  end.

(** The sender of a packet: by its SSRC, by decrypting it as the expected
    user, or as the single candidate. *)
Definition attribute_packet (packet : list Z) (header : RtpHeader) (received_at : Z) (expected : option string)
    : observing Attribution := fun s =>
  match sp_ssrcs (ob_speakers s) !! rh_ssrc header with
  | Some user_id => (s, Ok (FromUser user_id))
  | None =>
      match expected, ob_dave s with
      | Some expected_user_id, Some _ =>
          let '(s, r) := decode_audio_packet packet header received_at expected_user_id s in
          match r with
          | Ok frame => (learn_speaker expected_user_id (rh_ssrc header) s, Ok (Decoded frame))
          | Err NotReady => let '(s, a) := infer_sender packet header received_at expected s in (s, Ok a)
          | Err (Fatal err) => if is_packet_unprotect_failure err then (s, Ok PutAside) else (s, Err err)
          | Panic => (s, Panic)
          end
      | _, _ => let '(s, a) := infer_sender packet header received_at expected s in (s, Ok a)
      end
  end.

Definition unexpected (expected : option string) (user_id : string) : bool :=
  match expected with Some u => negb (bool_decide (user_id = u)) | None => false end.

(** A packet of a known sender: decoded, or kept until the group can decrypt
    it ([inr] its header then). *)
Definition decode_known (packet : list Z) (header : RtpHeader) (received_at : Z) (user_id : string)
    : observing (ObservedAudioFrame + ObservedRtpPacket) := fun s =>
  let '(s, r) := decode_audio_packet packet header received_at user_id s in
  match r with
  | Ok frame => (s, Ok (inl frame))
  | Err NotReady =>
      (keep_packet header packet received_at s,
       Ok (inr (mkObservedRtpPacket user_id (rh_ssrc header) (rh_sequence header) (rh_timestamp header) received_at)))
  | Err (Fatal err) => (s, Err err)
  | Panic => (s, Panic)
  end.

(** The common part of both packet handlers. *)
Definition process_packet (packet : list Z) (received_at : Z) (expected : option string)
    : observing (option (ObservedAudioFrame + ObservedRtpPacket)) :=
  if is_rtcp_packet packet then mret None else
  header ← lift (parse_rtp_header packet);
  attribution ← attribute_packet packet header received_at expected;
  match attribution with
  | Decoded frame => mret (Some (inl frame))
  | PutAside => mret None
  | FromUser user_id =>
      _ ← modify (drop_packet (rh_ssrc header));
      if unexpected expected user_id then mret None
      else out ← decode_known packet header received_at user_id; mret (Some out)
  end.

Definition process_activity_packet (packet : list Z) (received_at : Z) (expected_user_id : string)
    : observing (option ObservedVoiceActivity) :=
  out ← process_packet packet received_at (Some expected_user_id);
  mret (match out with
        | Some (inl frame) => Some (ActivityAudio frame)
        | Some (inr observed) => Some (ActivityRtpPacket observed)
        | None => None
        end).

Definition process_audio_packet (packet : list Z) (received_at : Z) (expected_user_id : option string)
    : observing (option ObservedAudioFrame) :=
  out ← process_packet packet received_at expected_user_id;
  mret (match out with Some (inl frame) => Some frame | _ => None end).

(** The packets put aside, in the order [ssrcs] of the map's keys. *)
Fixpoint try_decode_pending (ssrcs : list Z) (expected : option string)
    : observing (option ObservedAudioFrame) := fun s =>
  match ssrcs with
  | [] => (s, Ok None)
  | ssrc :: ssrcs =>
      match sp_ssrcs (ob_speakers s) !! ssrc with
      | None => try_decode_pending ssrcs expected s
      | Some user_id =>
          match sp_packets (ob_speakers s) !! ssrc with
          | None => (s, Err (InvalidState "voice pending packet missing"))
          | Some pending =>
              let s := drop_packet ssrc s in
              if unexpected expected user_id then try_decode_pending ssrcs expected s
              else
                let '(s, r) := decode_audio_packet (pp_packet pending) (pp_header pending)
                                 (pp_received_at pending) user_id s in
                match r with
                | Ok frame => (s, Ok (Some frame))
                | Err NotReady =>
                    try_decode_pending ssrcs expected
                      (with_ob_speakers (with_packets (<[ssrc := pending]> (sp_packets (ob_speakers s)))
                         (ob_speakers s)) s)
                | Err (Fatal err) => (s, Err err)
                | Panic => (s, Panic)
                end
          end
      end
  end.

(** ** Tasks of a session *)

Definition otask (X : Type) : Type :=
  ObservedVoiceSession -> prog World question answer Empty_set (ObservedVoiceSession * vresult X).

#[global] Instance otask_ret : MRet otask := fun X x s => mret (s, Ok x).
#[global] Instance otask_bind : MBind otask := fun X Y f m s =>
  out ← m s;
  match out.2 with
  | Ok x => f x out.1
  | Err e => mret (out.1, Err e)
  | Panic => mret (out.1, Panic)
  end.

Definition awaiting {X} (m : prog World question answer Empty_set (vresult X)) : otask X := fun s => r ← m; mret (s, r).
Definition asking (q : question) : otask (answer q) := fun s => a ← ask q; mret (s, Ok a).
Definition at_once {X} (m : observing X) : otask X := fun s => mret (m s).
Definition looking {X} (f : ObservedVoiceSession -> X) : otask X := fun s => mret (s, Ok (f s)).
Definition changing (f : ObservedVoiceSession -> ObservedVoiceSession) : otask unit := fun s => mret (f s, Ok tt).
Definition refusing {X} (reason : string) : otask X := fun s => mret (s, Err (InvalidState reason)).
Definition needing {X} (f : ObservedVoiceSession -> option X) (reason : string) : otask X :=
  fun s => mret (s, ok_or (f s) (InvalidState reason)).

(** ** The gateway receive *)

Definition mark_gateway_receive_closed (s : ObservedVoiceSession) : ObservedVoiceSession :=
  with_ob_receive false true false s.

(** [false]: the gateway is closed. *)
Definition ensure_gateway_receive : observing bool := fun s =>
  if ob_gateway_receive_closed s then (s, Ok false)
  else if ob_gateway_receive s then (s, Ok true)
  else match ob_gateway s with
       | None => (s, Err (InvalidState "voice gateway unavailable"))
       | Some _ => (with_ob_receive (ob_heartbeat s) false true s, Ok true)
       end.

Definition finish_gateway_receive (r : vresult VoiceGatewayEvent) : observing (option VoiceGatewayEvent) := fun s =>
  let s := with_ob_receive (ob_heartbeat s) (ob_gateway_receive_closed s) false s in
  match r with
  | Ok event => (s, Ok (Some event))
  | Err err => if is_gateway_closed_during_receive err then (mark_gateway_receive_closed s, Ok None) else (s, Err err)
  | Panic => (s, Panic)
  end.

(** ** The group *)

Definition apply_gateway_update (update : PendingObserverGatewayUpdate) (s : ObservedVoiceSession)
    : ObservedVoiceSession :=
  match update with
  | UpdateSpeaking user_id ssrc => learn_speaker user_id ssrc s
  | UpdateClientDisconnect user_id =>
      with_ob_speakers (forget_speaker user_id (ob_speakers s))
        (with_ob_group (ob_dave_material s) (ob_recognized_user_ids s ∖ {[user_id]}) (ob_completed s) s)
  end.
Definition apply_pending_gateway_updates (updates : list PendingObserverGatewayUpdate) (s : ObservedVoiceSession)
    : ObservedVoiceSession :=
  foldl (fun s u => apply_gateway_update u s) s updates.

Definition note_completed (transition_id : option Z) (completed : gset Z) : gset Z :=
  match transition_id with Some i => {[i]} ∪ completed | None => completed end.

Definition apply_observer_dave_ready (ready : PendingObserverReadyResult) (s : ObservedVoiceSession)
    : ObservedVoiceSession :=
  let s := with_ob_group (Some (or_material ready)) (or_recognized_user_ids ready)
             (note_completed (or_completed_transition_id ready) (ob_completed s)) s in
  let s := with_ob_speakers (with_candidates (or_recognized_user_ids ready ∖ {[vc_user_id (ob_voice s)]})
             (ob_speakers s)) s in
  with_ob_dave (Some (or_runtime ready)) (with_ob_proposals [] (apply_pending_gateway_updates (or_gateway_updates ready) s)).

(** Joining the group anew: the runtime is given up before the join is
    awaited. *)
Definition rejoin (p : PendingObserverDaveState) (gateway : Z) : otask unit :=
  _ ← changing (with_ob_dave None);
  author ← looking ob_author_dave_proposals;
  events ← asking AskEventCount;
  ready ← awaiting (complete_pending_observer_dave_join gateway p events author);
  changing (apply_observer_dave_ready ready).

Definition reinitialize_dave_after_invalid_transition (transition_id : Z) : otask unit :=
  material ← needing ob_dave_material "voice dave reinitialize material unavailable";
  gateway ← needing ob_gateway "voice gateway unavailable";
  voice ← looking ob_voice;
  users ← looking ob_recognized_user_ids;
  p ← awaiting (reinitialize_pending_observer_dave_join_after_invalid_transition gateway voice material users transition_id);
  rejoin p gateway.

Definition reinitialize_dave_after_invalid_proposals : otask unit :=
  material ← needing ob_dave_material "voice dave reinitialize material unavailable";
  gateway ← needing ob_gateway "voice gateway unavailable";
  voice ← looking ob_voice;
  users ← looking ob_recognized_user_ids;
  p ← awaiting (reinitialize_pending_observer_dave_join_after_invalid_proposals gateway voice material users);
  rejoin p gateway.

Definition sending (gateway : Z) (message : Outgoing) : otask unit := awaiting (send gateway message).

Definition apply_dave_proposals (op : DaveMlsProposalsOperation) (proposals : list Z) : otask unit :=
  author ← looking ob_author_dave_proposals;
  if negb author then changing (fun s => with_ob_proposals (ob_proposals s ++ [(op, proposals)]) s) else
  dave ← looking ob_dave;
  match dave with
  | None => mret tt
  | Some dave =>
      users ← looking ob_recognized_user_ids;
      let '(dave, r) := process_proposals_with_operation op proposals (in_order users) dave in
      _ ← changing (with_ob_dave (Some dave));
      match r with
      | Err err => if is_epoch_mismatch err then reinitialize_dave_after_invalid_proposals else mret tt
      | Panic => fun s => mret (s, Panic)
      | Ok None => mret tt
      | Ok (Some commit_welcome) =>
          gateway ← needing ob_gateway "voice gateway unavailable";
          payload ← awaiting (mret (dave_mls_commit_welcome_payload commit_welcome));
          sending gateway (OutBinary payload)
      end
  end.

(** The transition is accepted: nothing is buffered any more, the gateway is
    told, and the transition is complete. *)
Definition transition_applied (transition_id : Z) : otask unit :=
  _ ← changing (with_ob_proposals []);
  _ ← (if transition_id =? 0 then mret tt
       else gateway ← needing ob_gateway "voice gateway unavailable";
            sending gateway (OutJson (dave_transition_ready_payload transition_id)));
  changing (fun s => with_ob_group (ob_dave_material s) (ob_recognized_user_ids s)
                       ({[transition_id]} ∪ ob_completed s) s).

Definition apply_dave_welcome (transition_id : Z) (welcome : list Z) : otask unit :=
  completed ← looking (fun s => bool_decide (transition_id ∈ ob_completed s));
  if (completed : bool) then mret tt else
  dave ← looking ob_dave;
  match dave with
  | None => mret tt
  | Some dave =>
      let '(dave, r) := process_welcome welcome dave in
      _ ← changing (with_ob_dave (Some dave));
      match r with
      | Err _ => reinitialize_dave_after_invalid_transition transition_id
      | Panic => fun s => mret (s, Panic)
      | Ok _ => transition_applied transition_id
      end
  end.

(** The buffered proposals are given to the runtime; the runtime is kept also
    when one is refused. *)
Fixpoint stage_pending (recognized : list string) (l : list (DaveMlsProposalsOperation * list Z))
    (runtime : DaveRuntimeContext) : DaveRuntimeContext * vresult unit :=
  match l with
  | [] => (runtime, Ok tt)
  | (op, proposals) :: l =>
      let '(runtime, r) := process_proposals_with_operation op proposals recognized runtime in
      match r with
      | Ok _ => stage_pending recognized l runtime
      | Err _ => (runtime, Err (InvalidState "voice observer dave proposals invalid"))
      | Panic => (runtime, Panic)
      end
  end.
Definition stage_pending_dave_proposals (dave : DaveRuntimeContext) (s : ObservedVoiceSession)
    : ObservedVoiceSession * (DaveRuntimeContext * vresult unit) :=
  (with_ob_proposals [] s, stage_pending (in_order (ob_recognized_user_ids s)) (ob_proposals s) dave).

Definition apply_dave_commit_transition (transition_id : Z) (commit : list Z) : otask unit :=
  completed ← looking (fun s => bool_decide (transition_id ∈ ob_completed s));
  if (completed : bool) then mret tt else
  dave ← looking ob_dave;
  match dave with
  | None => mret tt
  | Some dave =>
      staged ← (fun s => let '(s, out) := stage_pending_dave_proposals dave s in mret (s, Ok out));
      match staged with
      | (dave, Err _) =>
          _ ← changing (with_ob_dave (Some dave)); reinitialize_dave_after_invalid_transition transition_id
      | (_, Panic) => fun s => mret (s, Panic)
      | (dave, Ok _) =>
          let '(dave, r) := process_commit commit dave in
          _ ← changing (with_ob_dave (Some dave));
          match r with
          | Err _ => reinitialize_dave_after_invalid_transition transition_id
          | Panic => fun s => mret (s, Panic)
          | Ok _ => transition_applied transition_id
          end
      end
  end.

Definition apply_gateway_payload (event : VoiceGatewayEvent) : otask unit :=
  match event with
  | Speaking speaking _ ssrc user_id =>
      changing (fun s => with_ob_speakers (apply_speaking speaking ssrc user_id (ob_speakers s)) s)
  | ClientsConnect user_ids => changing (apply_clients_connect user_ids)
  | ClientDisconnect user_id => changing (apply_client_disconnect user_id)
  | DaveMlsProposals op proposals => apply_dave_proposals op proposals
  | DaveMlsWelcome transition_id welcome => apply_dave_welcome transition_id welcome
  | DaveMlsPrepareCommitTransition transition_id commit => apply_dave_commit_transition transition_id commit
  | _ => mret tt
  end.

Definition try_decode_pending_audio_frame (expected : option string) : otask (option ObservedAudioFrame) :=
  keys ← looking (fun s => (map_to_list (sp_packets (ob_speakers s))).*1);
  ssrcs ← asking (AskKeyOrder keys);
  at_once (try_decode_pending ssrcs expected).

(** ** Receiving *)

(** One turn of waiting: an event of the gateway ([true]: it was applied,
    [false]: the gateway is closed), or a datagram. *)
Definition wait_for_arrival : otask (bool + (list Z * Z)) :=
  has_gateway ← at_once ensure_gateway_receive;
  transport ← looking ob_transport;
  if negb transport then refusing "voice transport unavailable" else
  gateway ← looking ob_gateway;
  arrival ← asking (AskObserve (if (has_gateway : bool) then gateway else None));
  match arrival with
  | NothingArrives => refusing "voice receive timed out"
  | PacketArrival r received_at => packet ← awaiting (mret r); mret (inr (packet, received_at))
  | GatewayArrival r late =>
      if negb has_gateway then refusing "voice receive timed out" else
      event ← at_once (finish_gateway_receive r);
      match event with
      | None => mret (inl false)
      | Some event =>
          if late then refusing "voice receive timed out"
          else _ ← apply_gateway_payload event; mret (inl true)
      end
  end.

Fixpoint receive_audio_frame_internal (arrivals : nat) (expected : option string) : otask ObservedAudioFrame :=
  match arrivals with
  | O => refusing "voice receive timed out"
  | S arrivals =>
      arrived ← wait_for_arrival;
      frame ← match arrived with
              | inl true => try_decode_pending_audio_frame expected
              | inl false => mret None
              | inr (packet, received_at) => at_once (process_audio_packet packet received_at expected)
              end;
      match frame with
      | Some frame => mret frame
      | None => receive_audio_frame_internal arrivals expected
      end
  end.
Definition receive_audio_frame (arrivals : nat) : otask ObservedAudioFrame :=
  receive_audio_frame_internal arrivals None.
Definition receive_audio_frame_from (expected_user_id : string) (arrivals : nat) : otask ObservedAudioFrame :=
  receive_audio_frame_internal arrivals (Some expected_user_id).

(** What is there already for the expected user. *)
Definition pending_activity (expected_user_id : string) : otask (option ObservedVoiceActivity) :=
  gone ← (fun s => let '(sp, r) := pop_pending_disconnect_from expected_user_id (ob_speakers s) in
                   mret (with_ob_speakers sp s, Ok r));
  match gone with
  | Some user_id => mret (Some (ActivityDisconnect user_id))
  | None =>
      speaking ← (fun s => let '(sp, r) := pop_pending_speaking_state_from expected_user_id (ob_speakers s) in
                           mret (with_ob_speakers sp s, Ok r));
      match speaking with
      | Some state => mret (Some (ActivitySpeaking state))
      | None =>
          frame ← try_decode_pending_audio_frame (Some expected_user_id);
          mret (option_map ActivityAudio frame)
      end
  end.

Fixpoint receive_activity_from (expected_user_id : string) (arrivals : nat) : otask ObservedVoiceActivity :=
  pending ← pending_activity expected_user_id;
  match pending with
  | Some activity => mret activity
  | None =>
      match arrivals with
      | O => refusing "voice receive timed out"
      | S arrivals =>
          arrived ← wait_for_arrival;
          activity ← match arrived with
                     | inl _ => mret None
                     | inr (packet, received_at) =>
                         at_once (process_activity_packet packet received_at expected_user_id)
                     end;
          match activity with
          | Some activity => mret activity
          | None => receive_activity_from expected_user_id arrivals
          end
      end
  end.

(** Speaking states of the user that do not match are used up. *)
Fixpoint matching_state (matches : ObservedSpeakingState -> bool) (expected_user_id : string)
    (l : list ObservedSpeakingState) : list ObservedSpeakingState * option ObservedSpeakingState :=
  match l with
  | [] => ([], None)
  | st :: l =>
      if bool_decide (os_user_id st = expected_user_id)
      then if matches st then (l, Some st) else matching_state matches expected_user_id l
      else let '(l, r) := matching_state matches expected_user_id l in (st :: l, r)
  end.

Fixpoint receive_speaking_state_matching_from (matches : ObservedSpeakingState -> bool)
    (expected_user_id : string) (arrivals : nat) : otask ObservedSpeakingState :=
  found ← (fun s =>
    let '(l, r) := matching_state matches expected_user_id (sp_speaking_states (ob_speakers s)) in
    mret (with_ob_speakers (with_speaking_states l (ob_speakers s)) s, Ok r));
  match found with
  | Some state => mret state
  | None =>
      match arrivals with
      | O => refusing "voice speaking state timed out"
      | S arrivals =>
          has_gateway ← at_once ensure_gateway_receive;
          if negb has_gateway then refusing "voice gateway unavailable" else
          gateway ← looking ob_gateway;
          arrival ← asking (AskObserve gateway);
          match arrival with
          | GatewayArrival r late =>
              event ← at_once (finish_gateway_receive r);
              match event with
              | None => receive_speaking_state_matching_from matches expected_user_id arrivals
              | Some event =>
                  if late then refusing "voice speaking state timed out"
                  else _ ← apply_gateway_payload event;
                       receive_speaking_state_matching_from matches expected_user_id arrivals
              end
          | _ => refusing "voice speaking state timed out"
          end
      end
  end.
Definition receive_speaking_state_from (expected_user_id : string) (expected_speaking : Z) (arrivals : nat)
    : otask ObservedSpeakingState :=
  receive_speaking_state_matching_from (fun st => os_speaking st =? expected_speaking) expected_user_id arrivals.
Definition receive_non_microphone_speaking_state_from (expected_user_id : string) (arrivals : nat)
    : otask ObservedSpeakingState :=
  receive_speaking_state_matching_from
    (fun st => Z.land (os_speaking st) SPEAKING_FLAG_MICROPHONE =? 0) expected_user_id arrivals.

Definition set_dave_proposal_authoring (enabled : bool) (s : ObservedVoiceSession) : ObservedVoiceSession :=
  mkObserved (ob_voice s) (ob_gateway s) (ob_transport s) (ob_protection s) (ob_dave s) enabled
    (ob_dave_material s) (ob_recognized_user_ids s) (ob_completed s) (ob_heartbeat s)
    (ob_gateway_receive_closed s) (ob_gateway_receive s) (ob_proposals s) (ob_speakers s).

(** ** Connecting *)

Abbreviation task X := (prog World question answer Empty_set (vresult X)).

Definition PendingObservedVoiceSession_new (voice : VoiceContext) : PendingObservedVoiceSession :=
  mkPendingObserved voice None false None None None false true Speakers_new.

Definition pending_connect (voice : VoiceContext) (events dave_events : nat) : task PendingObservedVoiceSession :=
  result ←? connect_observer_participant voice events dave_events;
  match result with
  | None => mret (Ok (PendingObservedVoiceSession_new voice))
  | Some h =>
      protection ←? mret (Protocol.from_session (oh_session_description h));
      mret (Ok (mkPendingObserved voice (Some (oh_gateway h)) true (Some protection) (oh_dave h)
                  (Some (oh_dave_timeout h)) true true Speakers_new))
  end.

(** The session before the group is joined. *)
Definition observed_of (p : PendingObservedVoiceSession) (dave : option DaveRuntimeContext)
    (material : option ObserverDaveMaterial) (users : gset string) (completed : gset Z) (sp : Speakers)
    : ObservedVoiceSession :=
  mkObserved (pb_voice p) (pb_gateway p) (pb_transport p) (pb_protection p) dave (pb_author_dave_proposals p)
    material users completed (pb_heartbeat p) false false [] sp.

(** In the pending session a disconnect is forgotten by the speakers only. *)
Definition apply_pending_update (update : PendingObserverGatewayUpdate) (sp : Speakers) : Speakers :=
  match update with
  | UpdateSpeaking user_id ssrc => record_speaker_ssrc user_id ssrc sp
  | UpdateClientDisconnect user_id => forget_speaker user_id sp
  end.

Definition await_dave_ready (p : PendingObservedVoiceSession) (events : nat) : task ObservedVoiceSession :=
  match pb_dave p with
  | None => mret (Ok (observed_of p None None ∅ ∅ (pb_speakers p)))
  | Some pending =>
      gateway ←? mret (ok_or (pb_gateway p) (InvalidState "voice gateway unavailable"));
      ready ←? complete_pending_observer_dave_join gateway pending events (pb_author_dave_proposals p);
      let users := or_recognized_user_ids ready in
      let sp := with_candidates (users ∖ {[vc_user_id (pb_voice p)]}) (pb_speakers p) in
      let sp := foldl (fun sp u => apply_pending_update u sp) sp (or_gateway_updates ready) in
      mret (Ok (observed_of p (Some (or_runtime ready)) (Some (or_material ready)) users
                  (note_completed (or_completed_transition_id ready) ∅) sp))
  end.

Definition observed_connect (voice : VoiceContext) (events dave_events join_events : nat) : task ObservedVoiceSession :=
  pending ←? pending_connect voice events dave_events;
  await_dave_ready pending join_events.
End observer.
