(* ===== verification/ObserverSpecs.v ===== *)
(** * What an observer reports

    Every frame an observer yields was opened by the packet protection, has
    the fields of its packet, belongs to the user that was asked for and, in
    a session with DAVE, was decrypted for that user or is a silence frame
    (Observer.v). Silence frames are not authenticated by DAVE, and that is
    enough to credit a stranger's SSRC to the expected user. *)

From S2P Require Import Prelude VoiceErrors Text Rtp Crypto Protection Udp DaveWire Json Protocol Gateway DaveSession Task Endpoint Handshake HandshakeSpecs Observer.
From S2P Require DaveSafety.
From stdpp Require Import prelude strings gmap.
Open Scope Z_scope.
Open Scope task_scope.

Section specs.
Context {A : Aead} {D : Davey} {U : HttpUri} {HA : HttpAuthority}.

(** The packets put aside are RTP packets, filed under their SSRC. *)
Definition filed (s : ObservedVoiceSession) : Prop :=
  map_Forall (fun ssrc p => parse_rtp_header (pp_packet p) = Ok (pp_header p) /\ rh_ssrc (pp_header p) = ssrc)
    (sp_packets (ob_speakers s)).

(** Same keys, and DAVE is on or off as before. *)
Definition same_keys (s s' : ObservedVoiceSession) : Prop :=
  ob_protection s' = ob_protection s /\ (is_Some (ob_dave s') <-> is_Some (ob_dave s)).
Definition kept (s s' : ObservedVoiceSession) : Prop := same_keys s s' /\ filed s'.

Lemma same_keys_refl s : same_keys s s.
Proof. done. Qed.
Lemma kept_trans s1 s2 s3 : same_keys s1 s2 -> kept s2 s3 -> kept s1 s3.
Proof. intros [H1 D1] [[H2 D2] F]. split; [|done]. split; [congruence|]. by rewrite D2. Qed.

(** ** Frames *)

(** What makes [frame] a frame of the session [s] for the expected user. *)
Definition authentic (s : ObservedVoiceSession) (expected : option string) (frame : ObservedAudioFrame) : Prop :=
  (forall u, expected = Some u -> of_user_id frame = u) /\
  exists protection packet header rtp payload,
    ob_protection s = Some protection /\ parse_rtp_header packet = Ok header /\
    of_ssrc frame = rh_ssrc header /\ of_sequence frame = rh_sequence header /\
    of_timestamp frame = rh_timestamp header /\ unprotect_packet protection packet = Ok (rtp, payload) /\
    (if bool_decide (is_Some (ob_dave s))
     then (payload = OPUS_SILENCE_FRAME /\ of_payload frame = payload) \/
          exists dave dave', decrypt_audio_frame_from (of_user_id frame) Audio payload dave = (dave', Ok (of_payload frame))
     else of_payload frame = payload).

Lemma authentic_same_keys s s' expected f : same_keys s s' -> authentic s' expected f -> authentic s expected f.
Proof.
  intros [Hp Hd] [Hu (pr & pk & h & rtp & pl & H1 & Hrest)]. split; [done|]. exists pr, pk, h, rtp, pl.
  rewrite Hp in H1. by rewrite (bool_decide_ext _ _ Hd) in Hrest.
Qed.

Lemma decode_audio_packet_spec packet header at_ user s s' r :
  parse_rtp_header packet = Ok header ->
  decode_audio_packet packet header at_ user s = (s', r) ->
  same_keys s s' /\ ob_speakers s' = ob_speakers s /\
  forall f, r = Ok f -> of_user_id f = user /\ authentic s None f.
Proof.
  intros Hh. unfold decode_audio_packet. destruct (ob_protection s) as [pr|] eqn:Hp; [|by intros [= <- <-]].
  destruct (unprotect_packet pr packet) as [[rtp payload]|e|] eqn:Hu; [|by intros [= <- <-]..].
  unfold decrypt_audio_payload. destruct (ob_dave s) as [dave|] eqn:Hd.
  - case_bool_decide as Hs.
    { intros [= <- <-]. split_and!; [done|done|]. intros f [= <-]. split; [done|]. split; [done|].
      exists pr, packet, header, rtp, payload. rewrite Hd. split_and!; try done. by left. }
    destruct (decrypt_audio_frame_from user Audio payload dave) as [dave' [out|e|]] eqn:Hdec; cbn;
      intros [= <- <-]; (split_and!; [by split; cbn; [|rewrite Hd]|done|]); [|done..].
    intros f [= <-]. split; [done|]. split; [done|]. exists pr, packet, header, rtp, payload. rewrite Hd.
    split_and!; try done. right. by exists dave, dave'.
  - intros [= <- <-]. split_and!; [done|done|]. intros f [= <-]. split; [done|]. split; [done|].
    exists pr, packet, header, rtp, payload. by rewrite Hd.
Qed.

Lemma filed_speakers s s' : ob_speakers s' = ob_speakers s -> filed s -> filed s'.
Proof. intros Hs. unfold filed. by rewrite Hs. Qed.
Lemma filed_keep h packet at_ s : parse_rtp_header packet = Ok h -> filed s -> filed (keep_packet h packet at_ s).
Proof. intros Hh Hf. apply map_Forall_insert_2; [done|exact Hf]. Qed.
Lemma filed_drop ssrc s : filed s -> filed (drop_packet ssrc s).
Proof. intros Hf. by apply map_Forall_delete. Qed.

(** A step of a session that yields frames. *)
Definition yields {X} (s : ObservedVoiceSession) (expected : option string) (frame : X -> option ObservedAudioFrame)
    (out : ObservedVoiceSession * vresult X) : Prop :=
  match out.2 with
  | Ok x => kept s out.1 /\ forall f, frame x = Some f -> authentic s expected f
  | _ => True
  end.

Definition attributed (a : Attribution) : option ObservedAudioFrame :=
  match a with Decoded f => Some f | _ => None end.

Lemma infer_sender_kept packet header at_ expected s s' a :
  parse_rtp_header packet = Ok header -> filed s -> infer_sender packet header at_ expected s = (s', a) ->
  kept s s' /\ attributed a = None.
Proof.
  intros Hh Hf. unfold infer_sender. destruct (infer_single_remote_speaker _ _); intros [= <- <-].
  - split; [|done]. split; [done|exact Hf].
  - split; [|done]. split; [done|]. by apply filed_keep.
Qed.

Lemma attribute_packet_spec packet header at_ expected s :
  parse_rtp_header packet = Ok header -> filed s ->
  yields s expected attributed (attribute_packet packet header at_ expected s).
Proof.
  intros Hh Hf. unfold attribute_packet. destruct (sp_ssrcs (ob_speakers s) !! rh_ssrc header); [done|].
  assert (yields s expected attributed
    (let '(s0, a) := infer_sender packet header at_ expected s in (s0, Ok a))) as Hinfer.
  { destruct (infer_sender packet header at_ expected s) as [s0 a] eqn:Hi.
    destruct (infer_sender_kept _ _ _ _ _ _ _ Hh Hf Hi) as [Hk Ha]. split; [exact Hk|]. cbn. by rewrite Ha. }
  destruct expected as [u|]; [|exact Hinfer]. destruct (ob_dave s) eqn:Hd; [|exact Hinfer].
  destruct (decode_audio_packet packet header at_ u s) as [s1 r] eqn:Hdec.
  destruct (decode_audio_packet_spec _ _ _ _ _ _ _ Hh Hdec) as (Hk & Hsp & Hfr).
  pose proof (filed_speakers _ _ Hsp Hf) as Hf1.
  destruct r as [f|[|e]|]; [|..|done].
  - split; [by split; [exact Hk|exact Hf1]|]. cbn. intros f' [= <-]. destruct (Hfr f eq_refl) as [Hu [_ Ha]].
    split; [|exact Ha]. by intros u' [= <-].
  - destruct (infer_sender packet header at_ (Some u) s1) as [s2 a] eqn:Hi.
    destruct (infer_sender_kept _ _ _ _ _ _ _ Hh Hf1 Hi) as [Hk2 Ha].
    split; [exact (kept_trans _ _ _ Hk Hk2)|]. cbn. by rewrite Ha.
  - destruct (is_packet_unprotect_failure e); [|done]. by split; [split; [exact Hk|exact Hf1]|].
Qed.

Definition decoded (x : option (ObservedAudioFrame + ObservedRtpPacket)) : option ObservedAudioFrame :=
  match x with Some (inl f) => Some f | _ => None end.

Lemma process_packet_spec packet at_ expected s :
  filed s -> yields s expected decoded (process_packet packet at_ expected s).
Proof.
  intros Hf. unfold process_packet. destruct (is_rtcp_packet packet); [done|].
  unfold mbind, stm_bind, lift. destruct (parse_rtp_header packet) as [h|e|] eqn:Hh; [|done..].
  pose proof (attribute_packet_spec packet h at_ expected s Hh Hf) as Ha.
  destruct (attribute_packet packet h at_ expected s) as [s1 [a|e|]]; [|done..].
  destruct Ha as [[Hk1 Hf1] Ha]. destruct a as [f| |user]; cbn in *; [by split|by split|].
  pose proof (filed_drop (rh_ssrc h) s1 Hf1) as Hf2. set (s2 := drop_packet (rh_ssrc h) s1) in *.
  assert (same_keys s s2) as Hk2 by exact Hk1.
  destruct (unexpected expected user) eqn:He; [by split|].
  unfold decode_known. destruct (decode_audio_packet packet h at_ user s2) as [s3 r] eqn:Hdec.
  destruct (decode_audio_packet_spec _ _ _ _ _ _ _ Hh Hdec) as (Hk3 & Hsp & Hfr).
  pose proof (filed_speakers _ _ Hsp Hf2) as Hf3.
  destruct r as [f|[|e]|]; [| |done|done].
  - split; [exact (kept_trans _ _ _ Hk2 (conj Hk3 Hf3))|]. cbn. intros f' [= <-].
    destruct (Hfr f eq_refl) as [Hu [_ Ha']]. apply (authentic_same_keys _ _ _ _ Hk2). split; [|exact Ha'].
    intros u ->. cbn in He. apply negb_false_iff, bool_decide_eq_true in He. congruence.
  - split; [|done]. apply (kept_trans _ _ _ Hk2). split; [exact Hk3|]. by apply filed_keep.
Qed.

Lemma yields_trans {X} s s1 expected frame (out : ObservedVoiceSession * vresult X) :
  same_keys s s1 -> yields s1 expected frame out -> yields s expected frame out.
Proof.
  intros Hk. unfold yields. destruct out.2; [|done..]. intros [Hk1 Hf]. split; [by eapply kept_trans|].
  intros f Hx. eapply authentic_same_keys; [exact Hk|]. by apply Hf.
Qed.

Lemma try_decode_pending_spec ssrcs expected s :
  filed s -> yields s expected id (try_decode_pending ssrcs expected s).
Proof.
  revert s. induction ssrcs as [|ssrc ssrcs IH]; intros s Hf; [done|]. cbn [try_decode_pending].
  destruct (sp_ssrcs (ob_speakers s) !! ssrc) as [user|]; [|by apply IH].
  destruct (sp_packets (ob_speakers s) !! ssrc) as [p|] eqn:Hp; [|done].
  destruct (map_Forall_lookup_1 _ _ _ _ Hf Hp) as [Hh Hss].
  pose proof (filed_drop ssrc s Hf) as Hf1. set (s1 := drop_packet ssrc s) in *.
  assert (same_keys s s1) as Hk1 by done.
  destruct (unexpected expected user) eqn:He; [by apply (yields_trans _ s1), IH|].
  destruct (decode_audio_packet (pp_packet p) (pp_header p) (pp_received_at p) user s1) as [s2 r] eqn:Hdec.
  destruct (decode_audio_packet_spec _ _ _ _ _ _ _ Hh Hdec) as (Hk2 & Hsp & Hfr).
  pose proof (filed_speakers _ _ Hsp Hf1) as Hf2. apply (yields_trans _ s1); [done|].
  destruct r as [f|[|e]|]; [| |done|done].
  - split; [by split|]. intros f' [= <-]. destruct (Hfr f eq_refl) as [Hu [_ Ha]]. split; [|exact Ha].
    intros u ->. cbn in He. apply negb_false_iff, bool_decide_eq_true in He. congruence.
  - apply (yields_trans _ s2); [done|]. set (s3 := with_ob_speakers _ s2).
    apply (yields_trans _ s3); [done|]. apply IH. apply map_Forall_insert_2; [done|exact Hf2].
Qed.

(** ** Tasks *)

(** Whatever the world answers, [m] returns, and when it succeeds its value
    and the session satisfy [post]. *)
Definition owp {X} (m : otask X) (post : X -> ObservedVoiceSession -> Prop) (s : ObservedVoiceSession) : Prop :=
  forall w, wp Valid (m s) (fun out _ => match out.2 with Ok x => post x out.1 | _ => True end) w.

Lemma owp_bind {X Y} (m : otask X) (f : X -> otask Y) post s :
  owp m (fun x s' => owp (f x) post s') s -> owp (m ≫= f) post s.
Proof.
  intros Hm w. apply wp_bind. eapply wp_mono; [|exact (Hm w)].
  intros [s' [x|e|]] w' Hx; cbn in *; [exact (Hx w')|done|done].
Qed.
Lemma owp_mono {X} (m : otask X) (post post' : X -> ObservedVoiceSession -> Prop) s :
  (forall x s', post x s' -> post' x s') -> owp m post s -> owp m post' s.
Proof.
  intros Hp Hm w. eapply wp_mono; [|exact (Hm w)]. intros [s' [x|e|]] w' Hx; cbn in *; [by apply Hp|done|done].
Qed.
Lemma owp_ret {X} (x : X) (post : X -> ObservedVoiceSession -> Prop) s : post x s -> owp (mret x) post s.
Proof. intros H w. exact H. Qed.
Lemma owp_changing f (post : unit -> ObservedVoiceSession -> Prop) s : post tt (f s) -> owp (changing f) post s.
Proof. intros H w. exact H. Qed.
Lemma owp_looking {X} (f : ObservedVoiceSession -> X) post s : post (f s) s -> owp (looking f) post s.
Proof. intros H w. exact H. Qed.
Lemma owp_asking q post s : (forall a, Valid q a -> post a s) -> owp (asking q) post s.
Proof. intros H w a Ha. exact (H a Ha). Qed.
Lemma owp_at_once {X} (m : stm ObservedVoiceSession VoiceError X) (post : X -> ObservedVoiceSession -> Prop) s :
  (forall x s', m s = (s', Ok x) -> post x s') -> owp (at_once m) post s.
Proof. intros H w. cbn. destruct (m s) as [s' [x|e|]] eqn:Hm; cbn; [by apply H|done|done]. Qed.
Lemma owp_refusing {X} reason (post : X -> ObservedVoiceSession -> Prop) s : owp (refusing reason) post s.
Proof. intros w. done. Qed.
Lemma owp_needing {X} (f : ObservedVoiceSession -> option X) reason post s :
  (forall x, f s = Some x -> post x s) -> owp (needing f reason) post s.
Proof. intros H w. cbn. destruct (f s); cbn; [by apply H|done]. Qed.
(** A task that only writes to the gateway. *)
Lemma owp_awaiting {X} m (post : X -> ObservedVoiceSession -> Prop) s :
  every Valid (moves_by only_wrote) m -> (forall x, post x s) -> owp (awaiting m) post s.
Proof.
  intros Hm Hp w. apply wp_bind. eapply wp_mono; [|exact (every_rel Valid only_wrote m w Hm)].
  intros [x|e|] w' _; cbn; [apply Hp|done|done].
Qed.
Lemma owp_panic {X} (post : X -> ObservedVoiceSession -> Prop) s : owp (fun s => mret (s, Panic)) post s.
Proof. intros w. done. Qed.

(** ** The gateway *)

(** The parts that a gateway event can leave alone. *)
Definition view (s : ObservedVoiceSession) : option ProtectionContext * gmap Z PendingPacket :=
  (ob_protection s, sp_packets (ob_speakers s)).

Lemma kept_view s s' : filed s -> view s' = view s -> (is_Some (ob_dave s') <-> is_Some (ob_dave s)) -> kept s s'.
Proof. intros Hf [= H1 H2] Hd. split; [done|]. unfold filed. by rewrite H2. Qed.

Lemma updates_view us s :
  view (apply_pending_gateway_updates us s) = view s /\ ob_dave (apply_pending_gateway_updates us s) = ob_dave s.
Proof.
  unfold apply_pending_gateway_updates. revert s. induction us as [|u us IH]; intros s; [done|]. cbn [foldl].
  destruct (IH (apply_gateway_update u s)) as [Hv Hd]. rewrite Hv, Hd. by destruct u.
Qed.

Lemma ready_view ready s :
  view (apply_observer_dave_ready ready s) = view s /\ is_Some (ob_dave (apply_observer_dave_ready ready s)).
Proof.
  unfold apply_observer_dave_ready. set (s1 := with_ob_speakers _ _). split; [|by eexists].
  exact (proj1 (updates_view (or_gateway_updates ready) s1)).
Qed.

(** A rejoin that succeeds has a runtime. *)
Lemma owp_rejoin p g s0 s :
  filed s0 -> view s = view s0 -> is_Some (ob_dave s0) -> owp (rejoin p g) (fun _ s' => kept s0 s') s.
Proof.
  intros Hf Hv Hd. unfold rejoin. apply owp_bind, owp_changing, owp_bind, owp_looking, owp_bind, owp_asking.
  intros n _. apply owp_bind, owp_awaiting; [apply quiet_observer_join|]. intros ready. apply owp_changing.
  destruct (ready_view ready (with_ob_dave None s)) as [Hv' Hd']. apply kept_view; [done| |done].
  rewrite Hv'. exact Hv.
Qed.

Lemma owp_invalid_transition i s0 s :
  filed s0 -> view s = view s0 -> is_Some (ob_dave s0) ->
  owp (reinitialize_dave_after_invalid_transition i) (fun _ s' => kept s0 s') s.
Proof.
  intros Hf Hv Hd. unfold reinitialize_dave_after_invalid_transition.
  apply owp_bind, owp_needing. intros m _. apply owp_bind, owp_needing. intros g _.
  apply owp_bind, owp_looking, owp_bind, owp_looking, owp_bind, owp_awaiting; [apply only_wrote_reinitialize|].
  intros p. by apply owp_rejoin.
Qed.

Lemma owp_invalid_proposals s0 s :
  filed s0 -> view s = view s0 -> is_Some (ob_dave s0) ->
  owp reinitialize_dave_after_invalid_proposals (fun _ s' => kept s0 s') s.
Proof.
  intros Hf Hv Hd. unfold reinitialize_dave_after_invalid_proposals.
  apply owp_bind, owp_needing. intros m _. apply owp_bind, owp_needing. intros g _.
  apply owp_bind, owp_looking, owp_bind, owp_looking, owp_bind, owp_awaiting; [apply only_wrote_reinitialize|].
  intros p. by apply owp_rejoin.
Qed.

Lemma owp_applied i s0 s :
  filed s0 -> view s = view s0 -> is_Some (ob_dave s0) -> is_Some (ob_dave s) ->
  owp (transition_applied i) (fun _ s' => kept s0 s') s.
Proof.
  intros Hf Hv Hd Hs. unfold transition_applied. apply owp_bind, owp_changing, owp_bind.
  destruct (i =? 0).
  - apply owp_ret, owp_changing. by apply kept_view.
  - apply owp_bind, owp_needing. intros g _. apply owp_awaiting; [apply only_wrote_send|]. intros _. apply owp_changing.
    by apply kept_view.
Qed.

Lemma owp_payload e s : filed s -> owp (apply_gateway_payload e) (fun _ s' => kept s s') s.
Proof.
  intros Hf. assert (kept s s) as Hs by (by split).
  destruct e; cbn [apply_gateway_payload]; try (by apply owp_ret); try (by apply owp_changing, kept_view).
  - apply owp_changing. apply kept_view; [done| |done]. unfold apply_speaking.
    destruct (match user_id with Some _ => _ | None => _ end); [|done]. by destruct (_ =? 0).
  - unfold apply_dave_proposals. apply owp_bind, owp_looking.
    destruct (ob_author_dave_proposals s); cbn [negb]; [|by apply owp_changing, kept_view].
    apply owp_bind, owp_looking. destruct (ob_dave s) as [dave|] eqn:Hd; [|by apply owp_ret].
    apply owp_bind, owp_looking. destruct (process_proposals_with_operation _ _ _ _) as [dave' r].
    assert (is_Some (ob_dave s)) as Hsome by (rewrite Hd; by eexists).
    apply owp_bind, owp_changing. destruct r as [[cw|]|err|]; [| | |apply owp_panic].
    + apply owp_bind, owp_needing. intros g _. apply owp_bind, owp_awaiting; [done|]. intros payload.
      apply owp_awaiting; [apply only_wrote_send|]. intros _. apply kept_view; [done|done|]. rewrite Hd. by split; eexists.
    + apply owp_ret, kept_view; [done|done|]. rewrite Hd. by split; eexists.
    + destruct (is_epoch_mismatch err); [by apply owp_invalid_proposals|].
      apply owp_ret, kept_view; [done|done|]. rewrite Hd. by split; eexists.
  - unfold apply_dave_commit_transition. apply owp_bind, owp_looking. case_bool_decide; [by apply owp_ret|].
    apply owp_bind, owp_looking. destruct (ob_dave s) as [dave|] eqn:Hd; [|by apply owp_ret].
    assert (is_Some (ob_dave s)) as Hsome by (rewrite Hd; by eexists).
    apply owp_bind. intros w. cbn.
    destruct (stage_pending _ _ _) as [dave' r]. destruct r as [[]|err|]; [| |apply owp_panic].
    + destruct (process_commit commit dave') as [dave2 r2].
      apply owp_bind, owp_changing. destruct r2; [|by apply owp_invalid_transition|apply owp_panic].
      apply owp_applied; [done|done|done|by eexists].
    + apply owp_bind, owp_changing. by apply owp_invalid_transition.
  - unfold apply_dave_welcome. apply owp_bind, owp_looking. case_bool_decide; [by apply owp_ret|].
    apply owp_bind, owp_looking. destruct (ob_dave s) as [dave|] eqn:Hd; [|by apply owp_ret].
    assert (is_Some (ob_dave s)) as Hsome by (rewrite Hd; by eexists).
    destruct (process_welcome welcome dave) as [dave2 r2].
    apply owp_bind, owp_changing. destruct r2; [|by apply owp_invalid_transition|apply owp_panic].
    apply owp_applied; [done|done|done|by eexists].
Qed.

(** ** Receiving *)

Lemma kept_receive h c r s : filed s -> kept s (with_ob_receive h c r s).
Proof. intros Hf. by apply kept_view. Qed.

Lemma owp_arrival s : filed s -> owp wait_for_arrival (fun _ s' => kept s s') s.
Proof.
  intros Hf. unfold wait_for_arrival. apply owp_bind, owp_at_once. intros has s1 H1.
  assert (kept s s1) as Hk1.
  { unfold ensure_gateway_receive in H1. destruct (ob_gateway_receive_closed s); [by injection H1 as <- <-|].
    destruct (ob_gateway_receive s); [by injection H1 as <- <-|].
    destruct (ob_gateway s); [|done]. injection H1 as <- <-. by apply kept_receive. }
  apply owp_bind, owp_looking. destruct (ob_transport s1); cbn [negb]; [|apply owp_refusing].
  apply owp_bind, owp_looking, owp_bind, owp_asking. intros [r late|r at_|] Hv; [| |apply owp_refusing].
  - destruct has; cbn [negb]; [|apply owp_refusing]. apply owp_bind, owp_at_once. intros e s2 H2.
    assert (kept s s2) as Hk2.
    { apply (kept_trans _ s1); [apply Hk1|]. unfold finish_gateway_receive in H2.
      pose proof (proj2 Hk1). destruct r as [ev|err|]; [|destruct (is_gateway_closed_during_receive err)|];
        [..|done|done]; injection H2 as <- <-; [by apply kept_receive|by apply kept_view]. }
    destruct e as [e|]; [|by apply owp_ret]. destruct late; [apply owp_refusing|].
    apply owp_bind. eapply owp_mono; [|apply (owp_payload e s2), Hk2].
    intros ? s3 H3. apply owp_ret. by eapply kept_trans; [apply Hk2|].
  - apply owp_bind, owp_awaiting; [done|]. intros packet. by apply owp_ret.
Qed.

Lemma owp_yields {X} (m : stm ObservedVoiceSession VoiceError X) expected frame s0 s :
  same_keys s0 s -> yields s expected frame (m s) ->
  owp (at_once m) (fun x s' => kept s0 s' /\ forall f, frame x = Some f -> authentic s0 expected f) s.
Proof.
  intros Hk Hy. apply owp_at_once. intros x s' Hm.
  pose proof (yields_trans s0 s expected frame (m s) Hk Hy) as Hy0. by rewrite Hm in Hy0.
Qed.

Lemma process_audio_packet_spec packet at_ expected s :
  filed s -> yields s expected id (process_audio_packet packet at_ expected s).
Proof.
  intros Hf. pose proof (process_packet_spec packet at_ expected s Hf) as Hp.
  unfold process_audio_packet, mbind, stm_bind.
  destruct (process_packet packet at_ expected s) as [s1 [x|e|]]; [|done..].
  destruct Hp as [Hk Hp]. split; [exact Hk|]. intros f Hx. apply Hp. by destruct x as [[f'|]|].
Qed.


(** ** Silence *)

(** A silence packet from an SSRC that nobody has yet is reported as a
    frame of whichever user the caller asked for, and the SSRC is recorded as
    that user's: silence is not encrypted for DAVE, so that it decodes proves
    nothing about who sent it. *)
Theorem silence_credits_expected_user packet received_at user s protection dave header rtp :
  ob_protection s = Some protection -> ob_dave s = Some dave -> is_rtcp_packet packet = false ->
  parse_rtp_header packet = Ok header -> sp_ssrcs (ob_speakers s) !! rh_ssrc header = None ->
  unprotect_packet protection packet = Ok (rtp, OPUS_SILENCE_FRAME) ->
  exists s' frame, process_audio_packet packet received_at (Some user) s = (s', Ok (Some frame)) /\
    of_user_id frame = user /\ of_ssrc frame = rh_ssrc header /\
    sp_ssrcs (ob_speakers s') !! rh_ssrc header = Some user.
Proof.
  intros Hp Hd Hr Hh Hs Hu.
  eexists _, _. split.
  - unfold process_audio_packet, process_packet, mbind, stm_bind. rewrite Hr. unfold lift. rewrite Hh.
    unfold attribute_packet. rewrite Hs, Hd. unfold decode_audio_packet. rewrite Hp, Hu.
    unfold decrypt_audio_payload. rewrite Hd. cbn. reflexivity.
  - cbn. split_and!; [done|done|]. apply lookup_insert_eq.
Qed.

(** ** A rejoin that fails *)

#[local] Arguments mbind : simpl never.
#[local] Arguments try_ : simpl never.
#[local] Arguments awaiting : simpl never.
#[local] Arguments rejoin : simpl never.

#[local] Lemma may_otask_bind {X Y} (m : otask X) (f : X -> otask Y) (post : _ -> _ -> Prop) s w :
  may Valid (m s) (fun out w' => match out.2 with Ok x => may Valid (f x out.1) post w' | _ => False end) w ->
  may Valid ((m ≫= f) s) post w.
Proof.
  intros Hm. apply may_bind. eapply may_mono; [|exact Hm]. intros [s' [x|e|]] w'; cbn; done.
Qed.

#[local] Lemma may_try {X Y} (m : prog World question answer Empty_set (vresult X)) (f : X -> prog World question answer Empty_set (vresult Y)) (post : _ -> _ -> Prop) w :
  may Valid m (fun r w' => match r with Ok x => may Valid (f x) post w' | _ => False end) w ->
  may Valid (try_ m f) post w.
Proof. intros Hm. apply may_bind. eapply may_mono; [|exact Hm]. by intros [x|e|] w'. Qed.

(** When an observer rejoins the group after an invalid transition and
    the join does not complete in time, the session is left without a
    runtime, and from then on yields what packets carry, DAVE ciphertext, as
    if it were audio. *)
Theorem failed_rejoin_disables_dave i s material gateway session session' package w :
  ob_dave_material s = Some material -> ob_gateway s = Some gateway ->
  fresh_observer_session (om_group_id material) (om_protocol_version material) (vc_user_id (ob_voice s))
    (om_external_sender_bytes material) = Ok session ->
  key_package session = (session', Ok package) ->
  may Valid (reinitialize_dave_after_invalid_transition i s) (fun out _ =>
    out.2 = Err (InvalidState "voice observer dave join timed out") /\ ob_dave out.1 = None /\
    forall user payload, decrypt_audio_payload user payload out.1 = (out.1, Ok payload)) w.
Proof.
  intros Hm Hg Hs Hk.
  apply may_otask_bind. cbn. rewrite Hm. cbn. apply may_otask_bind. cbn. rewrite Hg. cbn.
  do 2 (apply may_otask_bind; cbn). apply may_otask_bind, may_bind.
  apply may_try. cbn. rewrite Hs. apply may_try. exists (Ok tt). split; [done|]. cbn. apply may_try, may_try.
  cbn. rewrite Hk. apply may_try. cbn. apply may_try. exists (Ok tt). split; [done|]. cbn.
  do 2 (apply may_otask_bind; cbn). apply may_otask_bind. exists 0%nat. split; [done|]. done.
Qed.
End specs.

Module ConcreteObserver.
Import DaveSafety.ConcreteDave.

#[local] Open Scope Z_scope.

#[global] Instance no_uri : HttpUri :=
  { uri_parse _ := Err (InvalidState "no"); path_and_query_parse _ := Err (InvalidState "no"); uri_from_parts _ := None }.
#[global] Instance no_authority : HttpAuthority := { authority_host a := a }.

(** A packet of SSRC 7 that carries [payload]. *)
Definition packet_with (payload : list Z) : list Z :=
  build_header (RtpPacketBuilder_new 7) 3 960 ++ payload
    ++ checksum_tag (build_header (RtpPacketBuilder_new 7) 3 960) payload ++ [0; 0; 0; 1].
Definition header : RtpHeader := mkRtpHeader 2 false false 0 false 0x78 3 960 7 12.

(** Two users, nobody has an SSRC yet. *)
Definition watching : ObservedVoiceSession :=
  mkObserved guild (Some 0) true (Some sample_context) (Some runtime) true
    (Some (mkObserverDaveMaterial 9 1 [3])) {["1"; "2"; "3"]} ∅ true false false []
    (with_candidates {["2"; "3"]} Speakers_new).


Lemma silence_credits_expected_user_witness :
  exists s' frame, process_audio_packet (packet_with OPUS_SILENCE_FRAME) 5 (Some "2"%string) watching
      = (s', Ok (Some frame)) /\
    of_user_id frame = "2"%string /\ of_ssrc frame = 7 /\ sp_ssrcs (ob_speakers s') !! 7 = Some "2"%string.
Proof.
  apply (silence_credits_expected_user (packet_with OPUS_SILENCE_FRAME) 5 "2" watching sample_context runtime
    header header); by vm_compute.
Defined.

Lemma failed_rejoin_disables_dave_witness :
  may Valid (reinitialize_dave_after_invalid_transition 4 watching) (fun out _ =>
    out.2 = Err (InvalidState "voice observer dave join timed out") /\ ob_dave out.1 = None /\
    forall user payload, decrypt_audio_payload user payload out.1 = (out.1, Ok payload)) (mkWorld [] []).
Proof.
  eapply (failed_rejoin_disables_dave 4 watching (mkObserverDaveMaterial 9 1 [3]) 0); reflexivity.
Defined.
End ConcreteObserver.
