(* ===== verification/Metrics.v ===== *)
(** * Playback stability metrics

    crates/discord-voice-service-runtime/src/session/metrics.rs, and the part of
    [send_playback_frames] (session/runtime.rs) that feeds it: what the collector
    records of every message of the media pipeline, and the snapshot it
    publishes.

    Times and durations are nanoseconds; [Instant::now] is an argument. A
    [Duration] holds 2^64 seconds, and sums of durations are not cut at that
    size. The fields of the collector are grouped into records by what they
    measure; the depth snapshots of metrics.rs are the depths of OpusQueue.v,
    field by field. *)

From S2P Require Import Prelude OpusQueue HttpStream Recovery DeadlineSender Egress.
From stdpp Require Import prelude strings sorting.
Open Scope Z_scope.

Definition FIRST_INTERVAL_SAMPLE_LIMIT : nat := 10.
Definition LATE_PACKET_THRESHOLD : Z := 5 * 1000000.
Definition TRACK_TEMPO_WINDOW_PACKETS : nat := 50.
Definition TRACK_POST_SOURCE_BUFFER_MEDIA_MS : Z := 5000.
Definition MIN_MEDIA_TO_WALL_CLOCK_RATIO_PPM : Z := 980000.
Definition MAX_MEDIA_TO_WALL_CLOCK_RATIO_PPM : Z := 1020000.

(** ** Durations and depths *)

Definition duration_millis (duration : Z) : Z := Z.min u64_max (duration / 1000000).
Definition duration_micros (duration : Z) : Z := Z.min u64_max (duration / 1000).
Definition map_or_0 (f : Z -> Z) (o : option Z) : Z := match o with Some d => f d | None => 0 end.
Definition instant_offset_micros (base instant : Z) : Z := duration_micros (sat_sub instant base).

Definition min_depth (current observed : OpusBufferDepth) : OpusBufferDepth :=
  if bd_duration_samples observed <? bd_duration_samples current then observed else current.
Definition max_depth (current observed : OpusBufferDepth) : OpusBufferDepth :=
  if bd_duration_samples current <? bd_duration_samples observed then observed else current.

(** The index of a percentile in a sorted list of [len] samples. *)
Definition percentile_index (len percentile : nat) : nat := ((len - 1) * percentile + 99) / 100.
Definition percentile_duration (sorted : list Z) (percentile : nat) : Z :=
  default 0 (sorted !! percentile_index (length sorted) percentile).
Definition percentile_depth (sorted : list OpusBufferDepth) (percentile : nat) : OpusBufferDepth :=
  default OpusBufferDepth_default (sorted !! percentile_index (length sorted) percentile).

Definition media_to_wall_clock_ratio_ppm_duration (media_duration wall_clock_elapsed : Z) : Z :=
  let media_duration_us := media_duration / 1000 in
  let wall_clock_elapsed_us := wall_clock_elapsed / 1000 in
  if (media_duration_us =? 0) || (wall_clock_elapsed_us =? 0) then 0
  else Z.min u64_max (media_duration_us * 1000000 / wall_clock_elapsed_us).

Record DurationStatsSnapshot : Type := mkDurationStats {
  st_samples : Z;
  st_p50_ms : Z;
  st_p95_ms : Z;
  st_p99_ms : Z;
  st_min_ms : Z;
  st_max_ms : Z;
}.
Definition duration_stats_empty : DurationStatsSnapshot := mkDurationStats 0 0 0 0 0 0.

Definition sort_durations : list Z -> list Z := merge_sort Z.le.
Definition duration_stats (samples : list Z) : DurationStatsSnapshot :=
  if bool_decide (samples = []) then duration_stats_empty else
  let sorted := sort_durations samples in
  mkDurationStats (Z.of_nat (length sorted))
    (duration_millis (percentile_duration sorted 50)) (duration_millis (percentile_duration sorted 95))
    (duration_millis (percentile_duration sorted 99)) (duration_millis (default 0 (sorted !! 0%nat)))
    (duration_millis (default 0 (sorted !! (length sorted - 1)%nat))).

(** [sort_unstable_by_key] may order depths of the same duration in any way. *)
Class UnstableSort : Type := {
  sort_by_samples : list OpusBufferDepth -> list OpusBufferDepth;
  sort_by_samples_perm l : sort_by_samples l ≡ₚ l;
  sort_by_samples_sorted l :
    StronglySorted (fun a b => bd_duration_samples a <= bd_duration_samples b) (sort_by_samples l);
}.

Record PlaybackQueueDepthStatsSnapshot : Type := mkQueueDepthStats {
  qs_sample_count : Z;
  qs_empty_count : Z;
  qs_current_depth : OpusBufferDepth;
  qs_min_depth : OpusBufferDepth;
  qs_p5_depth : OpusBufferDepth;
  qs_p50_depth : OpusBufferDepth;
  qs_p95_depth : OpusBufferDepth;
  qs_max_depth : OpusBufferDepth;
}.
Definition queue_depth_stats_default : PlaybackQueueDepthStatsSnapshot :=
  mkQueueDepthStats 0 0 OpusBufferDepth_default OpusBufferDepth_default OpusBufferDepth_default
    OpusBufferDepth_default OpusBufferDepth_default OpusBufferDepth_default.

Definition queue_depth_stats `{UnstableSort} (samples : list OpusBufferDepth) (empty_count : Z)
    : PlaybackQueueDepthStatsSnapshot :=
  if bool_decide (samples = []) then queue_depth_stats_default else
  let sorted := sort_by_samples samples in
  mkQueueDepthStats (Z.of_nat (length samples)) empty_count
    (default OpusBufferDepth_default (samples !! (length samples - 1)%nat))
    (default OpusBufferDepth_default (sorted !! 0%nat))
    (percentile_depth sorted 5) (percentile_depth sorted 50) (percentile_depth sorted 95)
    (default OpusBufferDepth_default (sorted !! (length sorted - 1)%nat)).

(** ** Records *)

Inductive PreparedTrackQueueSamplePhase : Type := ActivePrePause | ActivePostResume.

Record PlaybackSendEventSnapshot : Type := mkSendEventSnapshot {
  se_packet_index : Z;
  se_command_kind : PlaybackSendCommandKind;
  se_expected_deadline_offset_us : Z;
  se_send_started_offset_us : Z;
  se_sent_offset_us : Z;
  se_media_duration_ms : Z;
  se_media_duration_samples : Z;
  se_rtp_sequence : Z;
  se_rtp_timestamp : Z;
  se_protection_nonce : option Z;
  se_source_frame_epoch : option Z;
  se_source_media_position_ms : option Z;
  se_source_media_position_samples : option Z;
  se_source_media_byte_position : option Z;
  se_committed_heard_media : bool;
}.

Record PlaybackSendEventRecord : Type := mkSendEventRecord {
  er_packet_index : Z;
  er_command_kind : PlaybackSendCommandKind;
  er_expected_deadline : Z;
  er_send_started_at : Z;
  er_sent_at : Z;
  er_media_duration_ms : Z;
  er_media_duration_samples : Z;
  er_rtp_sequence : Z;
  er_rtp_timestamp : Z;
  er_protection_nonce : option Z;
  er_source_frame_epoch : option Z;
  er_source_media_position_ms : option Z;
  er_source_media_position_samples : option Z;
  er_source_media_byte_position : option Z;
  er_committed_heard_media : bool;
}.

Record PreparedTrackQueueDepthSampleSnapshot : Type := mkQueueDepthSample {
  qd_sample_index : Z;
  qd_phase : PreparedTrackQueueSamplePhase;
  qd_depth : OpusBufferDepth;
}.

Record PreparedPlayoutTrackDropIdentity : Type := mkTrackDropIdentity {
  di_reason : PreparedPlayoutQueueEventReason;
  di_media_duration_samples : Z;
  di_source_frame_epoch : Z;
  di_source_media_position_samples : Z;
  di_source_media_byte_position : option Z;
}.

#[global] Instance PreparedPlayoutQueueEventReason_eq_dec : EqDecision PreparedPlayoutQueueEventReason.
Proof. solve_decision. Defined.
#[global] Instance PreparedPlayoutTrackDropIdentity_eq_dec : EqDecision PreparedPlayoutTrackDropIdentity.
Proof. solve_decision. Defined.

Record TrackPacketTiming : Type := mkTiming {
  tt_send_started_at : Z;
  tt_duration : Z;
  tt_media_start : Z;
}.

Record QueueCollector : Type := mkQueueCollector {
  qc_warmed : bool;
  qc_samples : list OpusBufferDepth;
  qc_empty_count : Z;
}.
Definition QueueCollector_default : QueueCollector := mkQueueCollector false [] 0.

(** [PreparedTrackQueueDepthCollector::record], with whether it recorded. *)
Definition collect_depth (depth : OpusBufferDepth) (target_ms : Z) (q : QueueCollector) : QueueCollector * bool :=
  if negb (qc_warmed q) && (bd_duration_samples depth <? samples_from_duration_ms_u64 target_ms) then (q, false)
  else (mkQueueCollector true (qc_samples q ++ [depth])
          (if bd_duration_samples depth =? 0 then sat_add u64_max (qc_empty_count q) 1 else qc_empty_count q), true).
Definition collector_snapshot `{UnstableSort} (q : QueueCollector) : PlaybackQueueDepthStatsSnapshot :=
  queue_depth_stats (qc_samples q) (qc_empty_count q).

(** The intervals after a pause, a stall or a rebuffering, and how many are
    still wanted. *)
Record FirstIntervals : Type := mkFirstIntervals {
  fw_intervals_ms : list Z;
  fw_remaining : nat;
}.
Definition first_intervals (interval : Z) (w : FirstIntervals) : FirstIntervals :=
  match fw_remaining w with
  | O => w
  | S n => mkFirstIntervals (fw_intervals_ms w ++ [duration_millis interval]) n
  end.
Definition restart_first_intervals (w : FirstIntervals) : FirstIntervals :=
  mkFirstIntervals [] FIRST_INTERVAL_SAMPLE_LIMIT.

Record DepthRange : Type := mkDepthRange {
  rg_current : OpusBufferDepth;
  rg_min : OpusBufferDepth;
  rg_max : OpusBufferDepth;
}.
Definition observe_depth (depth : OpusBufferDepth) (r : DepthRange) : DepthRange :=
  mkDepthRange depth (min_depth (rg_min r) depth) (max_depth (rg_max r) depth).

Record FrameTally : Type := mkFrameTally {
  ft_frames : Z;
  ft_samples : Z;
}.
Definition tally (frame_count duration_samples : Z) (t : FrameTally) : FrameTally :=
  mkFrameTally (sat_add u64_max (ft_frames t) frame_count) (sat_add u64_max (ft_samples t) duration_samples).

(** Windows that were too fast or too slow: how many, and the worst. *)
Record Extreme : Type := mkExtreme {
  ex_count : Z;
  ex_ratio_ppm : Z;
  ex_media_ms : Z;
  ex_wall_clock : option Z;
}.

(** ** The collector *)

(** What was sent, in packets. *)
Record Packets : Type := mkPackets {
  pk_track_packet_count : Z;
  pk_continuity_silence_packet_count : Z;
  pk_inserted_silence_duration_ms : Z;
  pk_scheduled_silence_packet_count : Z;
}.

(** The clock of the track: the last send, the elapsed time of the active stretches, the packets of the current stretch. *)
Record TrackClock : Type := mkTrackClock {
  tc_last_track_send_started_at : option Z;
  tc_last_track_duration : option Z;
  tc_active_track_wall_clock_elapsed : Z;
  tc_track_packet_timings : list TrackPacketTiming;
  tc_last_any_send_at : option Z;
  tc_track_media_duration_sent : Z;
}.

(** Intervals between sends. *)
Record Intervals : Type := mkIntervals {
  iv_track_intervals : list Z;
  iv_all_packet_intervals : list Z;
  iv_track_fast_interval_count : Z;
  iv_track_fast_interval_min : option Z;
  iv_pause_resume_first : FirstIntervals;
  iv_post_stall_first : FirstIntervals;
  iv_post_rebuffer_first : FirstIntervals;
}.

(** How late sends started. *)
Record Lateness : Type := mkLateness {
  lt_sender_lateness : list Z;
  lt_playout_sender_lateness : list Z;
  lt_late_frame_count : Z;
  lt_max_consecutive_late_packets : Z;
  lt_current_consecutive_late_packets : Z;
  lt_max_consecutive_playout_late_packets : Z;
  lt_current_consecutive_playout_late_packets : Z;
}.

(** Media time against wall clock over windows of packets. *)
Record Tempo : Type := mkTempo {
  tp_track_tempo_window_count : Z;
  tp_track_tempo_window_post_source_buffer_count : Z;
  tp_track_tempo_window_min_ratio_ppm : Z;
  tp_track_tempo_window_max_ratio_ppm : Z;
  tp_fast : Extreme;
  tp_slow : Extreme;
  tp_tempo_rebase_count : Z;
}.

(** Depths of the buffers. *)
Record Depths : Type := mkDepths {
  dp_buffer : DepthRange;
  dp_source : DepthRange;
  dp_source_buffer_depth_samples : list OpusBufferDepth;
  dp_source_buffer_empty_count : Z;
  dp_playout : DepthRange;
  dp_current_scheduled_silence : OpusBufferDepth;
  dp_max_scheduled_silence : OpusBufferDepth;
  dp_current_boundary : OpusBufferDepth;
  dp_max_boundary : OpusBufferDepth;
}.

(** Depth samples of the prepared track queue, before the first pause and after. *)
Record PreparedQueue : Type := mkPreparedQueue {
  tq_target_ms : Z;
  tq_low_watermark_ms : Z;
  tq_high_watermark_ms : Z;
  tq_phase : PreparedTrackQueueSamplePhase;
  tq_pre_pause : QueueCollector;
  tq_post_resume : QueueCollector;
  tq_raw_samples : list PreparedTrackQueueDepthSampleSnapshot;
}.

(** What happened to prepared packets. *)
Record PlayoutEvents : Type := mkPlayoutEvents {
  pe_raw_send_events : list PlaybackSendEventRecord;
  pe_raw_queue_events : list PreparedPlayoutQueueEventSnapshot;
  pe_unmatched_prepared_track_drops : list PreparedPlayoutTrackDropIdentity;
  pe_prepared_track_packet_drop_count : Z;
  pe_prepared_silence_packet_drop_count : Z;
  pe_prepared_packet_rebuild_count : Z;
}.

(** Boundaries of the media. *)
Record Boundaries : Type := mkBoundaries {
  bn_pause_media_boundary_count : Z;
  bn_stop_media_boundary_count : Z;
  bn_recovery_media_boundary_count : Z;
  bn_natural_end_media_boundary_count : Z;
  bn_dave_transition_recovery_reached_builder_count : Z;
  bn_dave_transition_recovery_reached_deadline_sender_count : Z;
  bn_source_underrun_reached_builder_count : Z;
  bn_source_underrun_reached_deadline_sender_count : Z;
}.

(** Source frames that were not played where they were taken. *)
Record FrameAccounts : Type := mkFrameAccounts {
  fa_discarded : FrameTally;
  fa_stop_discarded : FrameTally;
  fa_interruption_discarded : FrameTally;
  fa_restored : FrameTally;
  fa_skipped : FrameTally;
  fa_egress_dropped : FrameTally;
}.

(** Targets of the source buffer. *)
Record Targets : Type := mkTargets {
  tg_source_buffer_target_ms : Z;
  tg_adaptive_buffer_target_ms : Z;
  tg_max_adaptive_buffer_target_ms : Z;
}.

(** How often buffers ran low or empty. *)
Record Starved : Type := mkStarved {
  sv_buffer_low_watermark_count : Z;
  sv_source_buffer_low_watermark_count : Z;
  sv_playout_buffer_low_watermark_count : Z;
  sv_buffer_underrun_count : Z;
  sv_playout_underrun_count : Z;
  sv_source_underrun_count : Z;
  sv_rebuffer_count : Z;
}.

(** The producer and its stream. *)
Record Producer : Type := mkProducer {
  pr_refill_durations : list Z;
  pr_producer_stall_durations : list Z;
  pr_last_producer_sample_at : option Z;
  pr_max_producer_lag : Z;
  pr_http_retry_count : Z;
  pr_response_open_count : Z;
  pr_range_reopen_count : Z;
  pr_read_error_reopen_count : Z;
  pr_url_reresolve_count : Z;
}.

(** What the sender side did besides sending. *)
Record Work : Type := mkWork {
  wk_speaking_prepare_durations : list Z;
  wk_playout_builder_prepare_durations : list Z;
  wk_sender_send_durations : list Z;
  wk_sender_loop_non_send_work_durations : list Z;
  wk_sender_forbidden_work_count : Z;
  wk_gateway_event_drain_durations : list Z;
  wk_gateway_event_drain_count : Z;
  wk_dave_transition_count : Z;
  wk_dave_transition_count_during_playback : Z;
  wk_stale_dave_send_prevented_count : Z;
}.

(** Resets of the media clock. *)
Record Resets : Type := mkResets {
  rst_media_clock_reset_count : Z;
  rst_scheduler_late_reset_count : Z;
  rst_source_underrun_reset_count : Z;
  rst_pause_resume_reset_count : Z;
  rst_dave_transition_recovery_reset_count : Z;
  rst_controlled_media_interruption_count : Z;
}.

(** [PlaybackStabilityCollector], its fields grouped. *)
Record Collector : Type := mkCollector {
  mc_playback_epoch : Z;
  mc_video_id : string;
  mc_selected_itag : Z;
  mc_recovery_baseline : PlaybackRecoveryMetrics;
  mc_packets : Packets;
  mc_clock : TrackClock;
  mc_intervals : Intervals;
  mc_lateness : Lateness;
  mc_tempo : Tempo;
  mc_depths : Depths;
  mc_queue : PreparedQueue;
  mc_events : PlayoutEvents;
  mc_boundaries : Boundaries;
  mc_frames : FrameAccounts;
  mc_targets : Targets;
  mc_starved : Starved;
  mc_producer : Producer;
  mc_work : Work;
  mc_resets : Resets;
}.

Definition upd_packets (f : Packets -> Packets) (c : Collector) : Collector :=
  mkCollector (mc_playback_epoch c) (mc_video_id c) (mc_selected_itag c) (mc_recovery_baseline c)
    (f (mc_packets c)) (mc_clock c) (mc_intervals c) (mc_lateness c) (mc_tempo c) (mc_depths c) (mc_queue c)
    (mc_events c) (mc_boundaries c) (mc_frames c) (mc_targets c) (mc_starved c) (mc_producer c) (mc_work c)
    (mc_resets c).
Definition upd_clock (f : TrackClock -> TrackClock) (c : Collector) : Collector :=
  mkCollector (mc_playback_epoch c) (mc_video_id c) (mc_selected_itag c) (mc_recovery_baseline c)
    (mc_packets c) (f (mc_clock c)) (mc_intervals c) (mc_lateness c) (mc_tempo c) (mc_depths c) (mc_queue c)
    (mc_events c) (mc_boundaries c) (mc_frames c) (mc_targets c) (mc_starved c) (mc_producer c) (mc_work c)
    (mc_resets c).
Definition upd_intervals (f : Intervals -> Intervals) (c : Collector) : Collector :=
  mkCollector (mc_playback_epoch c) (mc_video_id c) (mc_selected_itag c) (mc_recovery_baseline c)
    (mc_packets c) (mc_clock c) (f (mc_intervals c)) (mc_lateness c) (mc_tempo c) (mc_depths c) (mc_queue c)
    (mc_events c) (mc_boundaries c) (mc_frames c) (mc_targets c) (mc_starved c) (mc_producer c) (mc_work c)
    (mc_resets c).
Definition upd_lateness (f : Lateness -> Lateness) (c : Collector) : Collector :=
  mkCollector (mc_playback_epoch c) (mc_video_id c) (mc_selected_itag c) (mc_recovery_baseline c)
    (mc_packets c) (mc_clock c) (mc_intervals c) (f (mc_lateness c)) (mc_tempo c) (mc_depths c) (mc_queue c)
    (mc_events c) (mc_boundaries c) (mc_frames c) (mc_targets c) (mc_starved c) (mc_producer c) (mc_work c)
    (mc_resets c).
Definition upd_tempo (f : Tempo -> Tempo) (c : Collector) : Collector :=
  mkCollector (mc_playback_epoch c) (mc_video_id c) (mc_selected_itag c) (mc_recovery_baseline c)
    (mc_packets c) (mc_clock c) (mc_intervals c) (mc_lateness c) (f (mc_tempo c)) (mc_depths c) (mc_queue c)
    (mc_events c) (mc_boundaries c) (mc_frames c) (mc_targets c) (mc_starved c) (mc_producer c) (mc_work c)
    (mc_resets c).
Definition upd_depths (f : Depths -> Depths) (c : Collector) : Collector :=
  mkCollector (mc_playback_epoch c) (mc_video_id c) (mc_selected_itag c) (mc_recovery_baseline c)
    (mc_packets c) (mc_clock c) (mc_intervals c) (mc_lateness c) (mc_tempo c) (f (mc_depths c)) (mc_queue c)
    (mc_events c) (mc_boundaries c) (mc_frames c) (mc_targets c) (mc_starved c) (mc_producer c) (mc_work c)
    (mc_resets c).
Definition upd_queue (f : PreparedQueue -> PreparedQueue) (c : Collector) : Collector :=
  mkCollector (mc_playback_epoch c) (mc_video_id c) (mc_selected_itag c) (mc_recovery_baseline c)
    (mc_packets c) (mc_clock c) (mc_intervals c) (mc_lateness c) (mc_tempo c) (mc_depths c) (f (mc_queue c))
    (mc_events c) (mc_boundaries c) (mc_frames c) (mc_targets c) (mc_starved c) (mc_producer c) (mc_work c)
    (mc_resets c).
Definition upd_events (f : PlayoutEvents -> PlayoutEvents) (c : Collector) : Collector :=
  mkCollector (mc_playback_epoch c) (mc_video_id c) (mc_selected_itag c) (mc_recovery_baseline c)
    (mc_packets c) (mc_clock c) (mc_intervals c) (mc_lateness c) (mc_tempo c) (mc_depths c) (mc_queue c)
    (f (mc_events c)) (mc_boundaries c) (mc_frames c) (mc_targets c) (mc_starved c) (mc_producer c)
    (mc_work c) (mc_resets c).
Definition upd_boundaries (f : Boundaries -> Boundaries) (c : Collector) : Collector :=
  mkCollector (mc_playback_epoch c) (mc_video_id c) (mc_selected_itag c) (mc_recovery_baseline c)
    (mc_packets c) (mc_clock c) (mc_intervals c) (mc_lateness c) (mc_tempo c) (mc_depths c) (mc_queue c)
    (mc_events c) (f (mc_boundaries c)) (mc_frames c) (mc_targets c) (mc_starved c) (mc_producer c)
    (mc_work c) (mc_resets c).
Definition upd_frames (f : FrameAccounts -> FrameAccounts) (c : Collector) : Collector :=
  mkCollector (mc_playback_epoch c) (mc_video_id c) (mc_selected_itag c) (mc_recovery_baseline c)
    (mc_packets c) (mc_clock c) (mc_intervals c) (mc_lateness c) (mc_tempo c) (mc_depths c) (mc_queue c)
    (mc_events c) (mc_boundaries c) (f (mc_frames c)) (mc_targets c) (mc_starved c) (mc_producer c)
    (mc_work c) (mc_resets c).
Definition upd_targets (f : Targets -> Targets) (c : Collector) : Collector :=
  mkCollector (mc_playback_epoch c) (mc_video_id c) (mc_selected_itag c) (mc_recovery_baseline c)
    (mc_packets c) (mc_clock c) (mc_intervals c) (mc_lateness c) (mc_tempo c) (mc_depths c) (mc_queue c)
    (mc_events c) (mc_boundaries c) (mc_frames c) (f (mc_targets c)) (mc_starved c) (mc_producer c)
    (mc_work c) (mc_resets c).
Definition upd_starved (f : Starved -> Starved) (c : Collector) : Collector :=
  mkCollector (mc_playback_epoch c) (mc_video_id c) (mc_selected_itag c) (mc_recovery_baseline c)
    (mc_packets c) (mc_clock c) (mc_intervals c) (mc_lateness c) (mc_tempo c) (mc_depths c) (mc_queue c)
    (mc_events c) (mc_boundaries c) (mc_frames c) (mc_targets c) (f (mc_starved c)) (mc_producer c)
    (mc_work c) (mc_resets c).
Definition upd_producer (f : Producer -> Producer) (c : Collector) : Collector :=
  mkCollector (mc_playback_epoch c) (mc_video_id c) (mc_selected_itag c) (mc_recovery_baseline c)
    (mc_packets c) (mc_clock c) (mc_intervals c) (mc_lateness c) (mc_tempo c) (mc_depths c) (mc_queue c)
    (mc_events c) (mc_boundaries c) (mc_frames c) (mc_targets c) (mc_starved c) (f (mc_producer c))
    (mc_work c) (mc_resets c).
Definition upd_work (f : Work -> Work) (c : Collector) : Collector :=
  mkCollector (mc_playback_epoch c) (mc_video_id c) (mc_selected_itag c) (mc_recovery_baseline c)
    (mc_packets c) (mc_clock c) (mc_intervals c) (mc_lateness c) (mc_tempo c) (mc_depths c) (mc_queue c)
    (mc_events c) (mc_boundaries c) (mc_frames c) (mc_targets c) (mc_starved c) (mc_producer c)
    (f (mc_work c)) (mc_resets c).
Definition upd_resets (f : Resets -> Resets) (c : Collector) : Collector :=
  mkCollector (mc_playback_epoch c) (mc_video_id c) (mc_selected_itag c) (mc_recovery_baseline c)
    (mc_packets c) (mc_clock c) (mc_intervals c) (mc_lateness c) (mc_tempo c) (mc_depths c) (mc_queue c)
    (mc_events c) (mc_boundaries c) (mc_frames c) (mc_targets c) (mc_starved c) (mc_producer c) (mc_work c)
    (f (mc_resets c)).

Definition initial_range (depth : OpusBufferDepth) : DepthRange := mkDepthRange depth depth depth.
Definition no_frames : FrameTally := mkFrameTally 0 0.
Definition no_extreme : Extreme := mkExtreme 0 0 0 None.
Definition no_intervals : FirstIntervals := mkFirstIntervals [] 0.

Definition Collector_new (playback_epoch : Z) (video_id : string) (selected_itag : Z)
    (initial_depth initial_source_depth : OpusBufferDepth) (source_buffer_target_ms target_ms
    low_watermark_ms high_watermark_ms : Z) (recovery_baseline : PlaybackRecoveryMetrics) : Collector :=
  mkCollector playback_epoch video_id selected_itag recovery_baseline
    (mkPackets 0 0 0 0)
    (mkTrackClock None None 0 [] None 0)
    (mkIntervals [] [] 0 None no_intervals no_intervals no_intervals)
    (mkLateness [] [] 0 0 0 0 0)
    (mkTempo 0 0 0 0 no_extreme no_extreme 0)
    (mkDepths (initial_range initial_depth) (initial_range initial_source_depth) [initial_source_depth]
       (if bd_duration_samples initial_source_depth =? 0 then 1 else 0)
       (initial_range OpusBufferDepth_default) OpusBufferDepth_default OpusBufferDepth_default
       OpusBufferDepth_default OpusBufferDepth_default)
    (mkPreparedQueue target_ms low_watermark_ms high_watermark_ms ActivePrePause
       QueueCollector_default QueueCollector_default [])
    (mkPlayoutEvents [] [] [] 0 0 0)
    (mkBoundaries 0 0 0 0 0 0 0 0)
    (mkFrameAccounts no_frames no_frames no_frames no_frames no_frames no_frames)
    (mkTargets source_buffer_target_ms 0 0)
    (mkStarved 0 0 0 0 0 0 0)
    (mkProducer [] [] None 0 0 0 0 0 0)
    (mkWork [] [] [] [] 0 [] 0 0 0 0)
    (mkResets 0 0 0 0 0 0).

(** *** Depths *)

(** Without a watermark [low_watermark_ms] is [u64::MAX]. *)
Definition is_low (depth : OpusBufferDepth) (low_watermark_ms : Z) : bool :=
  negb (low_watermark_ms =? u64_max) &&
  (bd_duration_samples depth <=? samples_from_duration_ms_u64 low_watermark_ms).

Definition record_source_buffer_depth (depth : OpusBufferDepth) (low_watermark_ms : Z) (c : Collector) : Collector :=
  let c := upd_depths (fun d => mkDepths (dp_buffer d) (observe_depth depth (dp_source d))
      (dp_source_buffer_depth_samples d ++ [depth])
      (if bd_duration_samples depth =? 0 then sat_add u64_max (dp_source_buffer_empty_count d) 1
       else dp_source_buffer_empty_count d)
      (dp_playout d) (dp_current_scheduled_silence d) (dp_max_scheduled_silence d)
      (dp_current_boundary d) (dp_max_boundary d)) c in
  upd_starved (fun s => if is_low depth low_watermark_ms then mkStarved (sv_buffer_low_watermark_count s)
      (sat_add u64_max (sv_source_buffer_low_watermark_count s) 1) (sv_playout_buffer_low_watermark_count s)
      (sv_buffer_underrun_count s) (sv_playout_underrun_count s) (sv_source_underrun_count s) (sv_rebuffer_count s)
    else s) c.

Definition record_playout_buffer_depth (depth : OpusBufferDepth) (low_watermark_ms : Z) (c : Collector) : Collector :=
  let c := upd_depths (fun d => mkDepths (dp_buffer d) (dp_source d) (dp_source_buffer_depth_samples d)
      (dp_source_buffer_empty_count d) (observe_depth depth (dp_playout d)) (dp_current_scheduled_silence d)
      (dp_max_scheduled_silence d) (dp_current_boundary d) (dp_max_boundary d)) c in
  upd_starved (fun s => if is_low depth low_watermark_ms then mkStarved (sv_buffer_low_watermark_count s)
      (sv_source_buffer_low_watermark_count s) (sat_add u64_max (sv_playout_buffer_low_watermark_count s) 1)
      (sv_buffer_underrun_count s) (sv_playout_underrun_count s) (sv_source_underrun_count s) (sv_rebuffer_count s)
    else s) c.

Definition record_prepared_track_queue_depth (depth : OpusBufferDepth) : Collector -> Collector :=
  upd_queue (fun q =>
    let sample := mkQueueDepthSample (Z.of_nat (length (tq_raw_samples q))) (tq_phase q) depth in
    let raw (recorded : bool) := if recorded then tq_raw_samples q ++ [sample] else tq_raw_samples q in
    match tq_phase q with
    | ActivePrePause =>
        let '(pre, recorded) := collect_depth depth (tq_target_ms q) (tq_pre_pause q) in
        mkPreparedQueue (tq_target_ms q) (tq_low_watermark_ms q) (tq_high_watermark_ms q) (tq_phase q)
          pre (tq_post_resume q) (raw recorded)
    | ActivePostResume =>
        let '(post, recorded) := collect_depth depth (tq_target_ms q) (tq_post_resume q) in
        mkPreparedQueue (tq_target_ms q) (tq_low_watermark_ms q) (tq_high_watermark_ms q) (tq_phase q)
          (tq_pre_pause q) post (raw recorded)
    end).

Definition record_non_track_playout_queue_depth (kind : PlaybackSendCommandKind) (depth : OpusBufferDepth)
    : Collector -> Collector :=
  upd_depths (fun d =>
    match kind with
    | CScheduledSilence =>
        mkDepths (dp_buffer d) (dp_source d) (dp_source_buffer_depth_samples d) (dp_source_buffer_empty_count d)
          (dp_playout d) depth (max_depth (dp_max_scheduled_silence d) depth) (dp_current_boundary d) (dp_max_boundary d)
    | CBoundarySilence | COtherBoundary =>
        mkDepths (dp_buffer d) (dp_source d) (dp_source_buffer_depth_samples d) (dp_source_buffer_empty_count d)
          (dp_playout d) (dp_current_scheduled_silence d) (dp_max_scheduled_silence d) depth
          (max_depth (dp_max_boundary d) depth)
    | CTrack => d
    end).

(** *** Prepared packets *)

Definition prepared_track_drop_counts_as_unrecovered (e : PreparedPlayoutQueueEventSnapshot) : bool :=
  match ev_reason e with Stop | Reconnect => false | _ => true end.

Definition prepared_playout_track_drop_identity (e : PreparedPlayoutQueueEventSnapshot)
    : option PreparedPlayoutTrackDropIdentity :=
  match ev_command_kind e with
  | CTrack =>
      epoch ← ev_source_frame_epoch e;
      position ← ev_source_media_position_samples e;
      Some (mkTrackDropIdentity (ev_reason e) (ev_media_duration_samples e) epoch position
              (ev_source_media_byte_position e))
  | _ => None
  end.

(** [position] and [remove]. *)
Fixpoint remove_first (x : PreparedPlayoutTrackDropIdentity) (l : list PreparedPlayoutTrackDropIdentity)
    : option (list PreparedPlayoutTrackDropIdentity) :=
  match l with
  | [] => None
  | y :: l => if bool_decide (y = x) then Some l else option_map (cons y) (remove_first x l)
  end.

Definition with_event_index (i : Z) (e : PreparedPlayoutQueueEventSnapshot) : PreparedPlayoutQueueEventSnapshot :=
  mkPlayoutEvent i (ev_event_kind e) (ev_reason e) (ev_command_kind e) (ev_media_duration_ms e)
    (ev_media_duration_samples e) (ev_rtp_sequence e) (ev_rtp_timestamp e) (ev_protection_nonce e)
    (ev_source_frame_epoch e) (ev_source_media_position_ms e) (ev_source_media_position_samples e)
    (ev_source_media_byte_position e) (ev_queue_depth_after e).

Definition note_drop (e : PreparedPlayoutQueueEventSnapshot) (p : PlayoutEvents) : PlayoutEvents :=
  match ev_command_kind e with
  | CTrack =>
      if prepared_track_drop_counts_as_unrecovered e then
        mkPlayoutEvents (pe_raw_send_events p) (pe_raw_queue_events p)
          (pe_unmatched_prepared_track_drops p ++
             match prepared_playout_track_drop_identity e with Some i => [i] | None => [] end)
          (sat_add u64_max (pe_prepared_track_packet_drop_count p) 1)
          (pe_prepared_silence_packet_drop_count p) (pe_prepared_packet_rebuild_count p)
      else p
  | _ => mkPlayoutEvents (pe_raw_send_events p) (pe_raw_queue_events p) (pe_unmatched_prepared_track_drops p)
           (pe_prepared_track_packet_drop_count p) (sat_add u64_max (pe_prepared_silence_packet_drop_count p) 1)
           (pe_prepared_packet_rebuild_count p)
  end.

Definition note_rebuild (e : PreparedPlayoutQueueEventSnapshot) (p : PlayoutEvents) : PlayoutEvents :=
  let '(unmatched, drops) :=
    match (i ← prepared_playout_track_drop_identity e; remove_first i (pe_unmatched_prepared_track_drops p)) with
    | Some rest => (rest, sat_sub (pe_prepared_track_packet_drop_count p) 1)
    | None => (pe_unmatched_prepared_track_drops p, pe_prepared_track_packet_drop_count p)
    end in
  mkPlayoutEvents (pe_raw_send_events p) (pe_raw_queue_events p) unmatched drops
    (pe_prepared_silence_packet_drop_count p) (sat_add u64_max (pe_prepared_packet_rebuild_count p) 1).

Definition record_prepared_playout_queue_event (e : PreparedPlayoutQueueEventSnapshot) : Collector -> Collector :=
  upd_events (fun p =>
    let e := with_event_index (Z.of_nat (length (pe_raw_queue_events p))) e in
    let p := match ev_event_kind e with
             | DroppedBeforeSend => note_drop e p
             | Rebuilt => note_rebuild e p
             | _ => p
             end in
    mkPlayoutEvents (pe_raw_send_events p) (pe_raw_queue_events p ++ [e]) (pe_unmatched_prepared_track_drops p)
      (pe_prepared_track_packet_drop_count p) (pe_prepared_silence_packet_drop_count p)
      (pe_prepared_packet_rebuild_count p)).

Definition record_send_event (e : PlaybackSendEventRecord) (c : Collector) : Collector :=
  let c := upd_packets (fun k =>
    match er_command_kind e with
    | CScheduledSilence => mkPackets (pk_track_packet_count k) (pk_continuity_silence_packet_count k)
        (pk_inserted_silence_duration_ms k) (sat_add u64_max (pk_scheduled_silence_packet_count k) 1)
    | _ => k
    end) c in
  upd_events (fun p => mkPlayoutEvents (pe_raw_send_events p ++ [e]) (pe_raw_queue_events p)
    (pe_unmatched_prepared_track_drops p) (pe_prepared_track_packet_drop_count p)
    (pe_prepared_silence_packet_drop_count p) (pe_prepared_packet_rebuild_count p)) c.

(** *** Boundaries and frames *)

Definition record_explicit_media_boundary (reason : PreparedPlayoutQueueEventReason) : Collector -> Collector :=
  upd_boundaries (fun b =>
    let with_counts p s r n := mkBoundaries p s r n (bn_dave_transition_recovery_reached_builder_count b)
      (bn_dave_transition_recovery_reached_deadline_sender_count b) (bn_source_underrun_reached_builder_count b)
      (bn_source_underrun_reached_deadline_sender_count b) in
    let p := bn_pause_media_boundary_count b in let s := bn_stop_media_boundary_count b in
    let r := bn_recovery_media_boundary_count b in let n := bn_natural_end_media_boundary_count b in
    match reason with
    | Pause => with_counts (sat_add u64_max p 1) s r n
    | Stop | Interruption => with_counts p (sat_add u64_max s 1) r n
    | DaveTransitionRecovery | Reconnect | SourceUnderrun => with_counts p s (sat_add u64_max r 1) n
    | NaturalEnd => with_counts p s r (sat_add u64_max n 1)
    | Unspecified | SteadyPlayback => b
    end).

Definition record_source_underrun_reached_builder : Collector -> Collector :=
  upd_boundaries (fun b => mkBoundaries (bn_pause_media_boundary_count b) (bn_stop_media_boundary_count b)
    (bn_recovery_media_boundary_count b) (bn_natural_end_media_boundary_count b)
    (bn_dave_transition_recovery_reached_builder_count b)
    (bn_dave_transition_recovery_reached_deadline_sender_count b)
    (sat_add u64_max (bn_source_underrun_reached_builder_count b) 1)
    (bn_source_underrun_reached_deadline_sender_count b)).
Definition record_source_underrun_reached_deadline_sender : Collector -> Collector :=
  upd_boundaries (fun b => mkBoundaries (bn_pause_media_boundary_count b) (bn_stop_media_boundary_count b)
    (bn_recovery_media_boundary_count b) (bn_natural_end_media_boundary_count b)
    (bn_dave_transition_recovery_reached_builder_count b)
    (bn_dave_transition_recovery_reached_deadline_sender_count b)
    (bn_source_underrun_reached_builder_count b)
    (sat_add u64_max (bn_source_underrun_reached_deadline_sender_count b) 1)).

Definition record_restored_source_frames (n samples : Z) : Collector -> Collector :=
  upd_frames (fun a => mkFrameAccounts (fa_discarded a) (fa_stop_discarded a) (fa_interruption_discarded a)
    (tally n samples (fa_restored a)) (fa_skipped a) (fa_egress_dropped a)).
Definition record_discarded_source_frames (reason : PreparedPlayoutQueueEventReason) (n samples : Z)
    : Collector -> Collector :=
  upd_frames (fun a =>
    mkFrameAccounts (tally n samples (fa_discarded a))
      (match reason with Stop | NaturalEnd => tally n samples (fa_stop_discarded a) | _ => fa_stop_discarded a end)
      (match reason with
       | Interruption | Reconnect | DaveTransitionRecovery | SourceUnderrun =>
           tally n samples (fa_interruption_discarded a)
       | _ => fa_interruption_discarded a
       end)
      (fa_restored a) (fa_skipped a) (fa_egress_dropped a)).
Definition record_skipped_source_frames (n samples : Z) : Collector -> Collector :=
  upd_frames (fun a => mkFrameAccounts (fa_discarded a) (fa_stop_discarded a) (fa_interruption_discarded a)
    (fa_restored a) (tally n samples (fa_skipped a)) (fa_egress_dropped a)).
Definition record_egress_dropped_music_frames (n samples : Z) : Collector -> Collector :=
  upd_frames (fun a => mkFrameAccounts (fa_discarded a) (fa_stop_discarded a) (fa_interruption_discarded a)
    (fa_restored a) (fa_skipped a) (tally n samples (fa_egress_dropped a))).

Definition record_adaptive_buffer_target (target_ms max_target_ms : Z) : Collector -> Collector :=
  upd_targets (fun t => mkTargets (tg_source_buffer_target_ms t) target_ms
    (Z.max (tg_max_adaptive_buffer_target_ms t) max_target_ms)).

(** *** Underruns *)

Definition count_starved (source rebuffer playout : Z) : Collector -> Collector :=
  upd_starved (fun s => mkStarved (sv_buffer_low_watermark_count s) (sv_source_buffer_low_watermark_count s)
    (sv_playout_buffer_low_watermark_count s) (sv_buffer_underrun_count s)
    (sat_add u64_max (sv_playout_underrun_count s) playout) (sat_add u64_max (sv_source_underrun_count s) source)
    (sat_add u64_max (sv_rebuffer_count s) rebuffer)).

Definition record_source_underrun (depth : OpusBufferDepth) (c : Collector) : Collector :=
  let c := count_starved 1 0 0 c in
  let c := upd_intervals (fun i => mkIntervals (iv_track_intervals i) (iv_all_packet_intervals i)
      (iv_track_fast_interval_count i) (iv_track_fast_interval_min i) (iv_pause_resume_first i)
      (restart_first_intervals (iv_post_stall_first i)) (iv_post_rebuffer_first i)) c in
  record_source_buffer_depth depth u64_max c.

Definition record_rebuffer (depth : OpusBufferDepth) (low_watermark_ms : Z) (c : Collector) : Collector :=
  let c := count_starved 0 1 0 c in
  let c := upd_intervals (fun i => mkIntervals (iv_track_intervals i) (iv_all_packet_intervals i)
      (iv_track_fast_interval_count i) (iv_track_fast_interval_min i) (iv_pause_resume_first i)
      (iv_post_stall_first i) (restart_first_intervals (iv_post_rebuffer_first i))) c in
  record_source_buffer_depth depth low_watermark_ms c.

Definition record_playout_underrun (depth : OpusBufferDepth) (c : Collector) : Collector :=
  record_playout_buffer_depth depth u64_max (count_starved 0 0 1 c).

(** *** The producer and the sender's work *)

Definition record_producer_sample (sample : ProducerMetricsSample) (now : Z) (c : Collector) : Collector :=
  let h := ps_stream_metrics sample in let r := ps_recovery_metrics sample in
  let base := mc_recovery_baseline c in
  let c := upd_producer (fun p => mkProducer (pr_refill_durations p ++ [ps_fill_duration sample])
      (pr_producer_stall_durations p ++ [ps_fill_duration sample]) (Some now)
      (match pr_last_producer_sample_at p with
       | Some previous => Z.max (pr_max_producer_lag p) (sat_sub now previous)
       | None => pr_max_producer_lag p
       end)
      (sat_sub (rm_http_retry_count r) (rm_http_retry_count base))
      (hm_response_open_count h) (hm_range_reopen_count h) (hm_read_error_reopen_count h)
      (sat_sub (rm_url_reresolve_count r) (rm_url_reresolve_count base))) c in
  if (0 <? ps_produced_frames sample) || (bd_packets (ps_source_buffer_depth sample) =? 0)
  then record_source_buffer_depth (ps_source_buffer_depth sample) u64_max c else c.

Definition record_speaking_prepare_duration (duration : Z) : Collector -> Collector :=
  upd_work (fun w => mkWork (wk_speaking_prepare_durations w ++ [duration]) (wk_playout_builder_prepare_durations w)
    (wk_sender_send_durations w) (wk_sender_loop_non_send_work_durations w) (wk_sender_forbidden_work_count w)
    (wk_gateway_event_drain_durations w) (wk_gateway_event_drain_count w) (wk_dave_transition_count w)
    (wk_dave_transition_count_during_playback w) (wk_stale_dave_send_prevented_count w)).
Definition record_playout_builder_prepare_duration (duration : Z) : Collector -> Collector :=
  upd_work (fun w => mkWork (wk_speaking_prepare_durations w) (wk_playout_builder_prepare_durations w ++ [duration])
    (wk_sender_send_durations w) (wk_sender_loop_non_send_work_durations w) (wk_sender_forbidden_work_count w)
    (wk_gateway_event_drain_durations w) (wk_gateway_event_drain_count w) (wk_dave_transition_count w)
    (wk_dave_transition_count_during_playback w) (wk_stale_dave_send_prevented_count w)).
Definition record_sender_send_duration (duration : Z) : Collector -> Collector :=
  upd_work (fun w => mkWork (wk_speaking_prepare_durations w) (wk_playout_builder_prepare_durations w)
    (wk_sender_send_durations w ++ [duration]) (wk_sender_loop_non_send_work_durations w)
    (wk_sender_forbidden_work_count w) (wk_gateway_event_drain_durations w) (wk_gateway_event_drain_count w)
    (wk_dave_transition_count w) (wk_dave_transition_count_during_playback w) (wk_stale_dave_send_prevented_count w)).
Definition record_sender_loop_non_send_work_duration (duration : Z) : Collector -> Collector :=
  upd_work (fun w => mkWork (wk_speaking_prepare_durations w) (wk_playout_builder_prepare_durations w)
    (wk_sender_send_durations w) (wk_sender_loop_non_send_work_durations w ++ [duration])
    (wk_sender_forbidden_work_count w) (wk_gateway_event_drain_durations w) (wk_gateway_event_drain_count w)
    (wk_dave_transition_count w) (wk_dave_transition_count_during_playback w) (wk_stale_dave_send_prevented_count w)).
Definition record_gateway_drain (report : DrainReport) : Collector -> Collector :=
  upd_work (fun w => mkWork (wk_speaking_prepare_durations w) (wk_playout_builder_prepare_durations w)
    (wk_sender_send_durations w) (wk_sender_loop_non_send_work_durations w) (wk_sender_forbidden_work_count w)
    (wk_gateway_event_drain_durations w ++ [gd_duration report])
    (sat_add u64_max (wk_gateway_event_drain_count w) (gd_event_count report))
    (sat_add u64_max (wk_dave_transition_count w) (gd_dave_transition_count report))
    (sat_add u64_max (wk_dave_transition_count_during_playback w) (gd_dave_transition_count report))
    (wk_stale_dave_send_prevented_count w)).

(** *** The media clock *)

Definition reset_active_track_tempo_window : Collector -> Collector :=
  upd_clock (fun k => mkTrackClock None None (tc_active_track_wall_clock_elapsed k) [] None
    (tc_track_media_duration_sent k)).

Definition record_media_clock_reset (reason : MediaClockResetReason) (c : Collector) : Collector :=
  let count late underrun pause controlled := upd_resets (fun r =>
    mkResets (sat_add u64_max (rst_media_clock_reset_count r) 1)
      (sat_add u64_max (rst_scheduler_late_reset_count r) late)
      (sat_add u64_max (rst_source_underrun_reset_count r) underrun)
      (sat_add u64_max (rst_pause_resume_reset_count r) pause)
      (rst_dave_transition_recovery_reset_count r)
      (sat_add u64_max (rst_controlled_media_interruption_count r) controlled)) c in
  match reason with
  | PauseResume => count 0 0 1 0
  | SchedulerLate => count 1 0 0 1
  | SourceUnderrunReset => reset_active_track_tempo_window (count 0 1 0 1)
  end.

Definition record_resumed_from_pause (c : Collector) : Collector :=
  let c := reset_active_track_tempo_window c in
  let c := upd_intervals (fun i => mkIntervals (iv_track_intervals i) (iv_all_packet_intervals i)
      (iv_track_fast_interval_count i) (iv_track_fast_interval_min i)
      (restart_first_intervals (iv_pause_resume_first i)) (iv_post_stall_first i) (iv_post_rebuffer_first i)) c in
  upd_queue (fun q => mkPreparedQueue (tq_target_ms q) (tq_low_watermark_ms q) (tq_high_watermark_ms q)
    ActivePostResume (tq_pre_pause q) (tq_post_resume q) (tq_raw_samples q)) c.

(** *** Track packets *)

Definition record_any_packet (sent_at : Z) (c : Collector) : Collector :=
  let c := upd_intervals (fun i =>
    match tc_last_any_send_at (mc_clock c) with
    | Some previous => mkIntervals (iv_track_intervals i) (iv_all_packet_intervals i ++ [sat_sub sent_at previous])
        (iv_track_fast_interval_count i) (iv_track_fast_interval_min i) (iv_pause_resume_first i)
        (iv_post_stall_first i) (iv_post_rebuffer_first i)
    | None => i
    end) c in
  upd_clock (fun k => mkTrackClock (tc_last_track_send_started_at k) (tc_last_track_duration k)
    (tc_active_track_wall_clock_elapsed k) (tc_track_packet_timings k) (Some sent_at)
    (tc_track_media_duration_sent k)) c.

Definition note_lateness (lateness : Z) (l : Lateness) : Lateness :=
  if LATE_PACKET_THRESHOLD <? lateness then
    let n := sat_add usize_max (lt_current_consecutive_late_packets l) 1 in
    let m := sat_add usize_max (lt_current_consecutive_playout_late_packets l) 1 in
    mkLateness (lt_sender_lateness l ++ [lateness]) (lt_playout_sender_lateness l ++ [lateness])
      (sat_add u64_max (lt_late_frame_count l) 1) (Z.max (lt_max_consecutive_late_packets l) n) n
      (Z.max (lt_max_consecutive_playout_late_packets l) m) m
  else
    mkLateness (lt_sender_lateness l ++ [lateness]) (lt_playout_sender_lateness l ++ [lateness])
      (lt_late_frame_count l) (lt_max_consecutive_late_packets l) 0
      (lt_max_consecutive_playout_late_packets l) 0.

(** An interval shorter than the packet before it is fast. *)
Definition note_interval (interval : Z) (last_track_duration : option Z) (i : Intervals) : Intervals :=
  let is_fast := match last_track_duration with Some d => interval <? d | None => false end in
  mkIntervals (iv_track_intervals i ++ [interval]) (iv_all_packet_intervals i)
    (if is_fast then sat_add u64_max (iv_track_fast_interval_count i) 1 else iv_track_fast_interval_count i)
    (if is_fast then Some match iv_track_fast_interval_min i with
                          | Some current => Z.min current interval
                          | None => interval
                          end
     else iv_track_fast_interval_min i)
    (first_intervals interval (iv_pause_resume_first i)) (first_intervals interval (iv_post_stall_first i))
    (first_intervals interval (iv_post_rebuffer_first i)).

(** The elapsed time counts a packet's duration until the next send replaces
    it with the interval. *)
Definition advance_elapsed (k : TrackClock) (send_started_at frame_duration : Z) : Z :=
  let elapsed := tc_active_track_wall_clock_elapsed k in
  match tc_last_track_send_started_at k with
  | None => elapsed + frame_duration
  | Some previous =>
      match tc_last_track_duration k with
      | Some previous_duration =>
          sat_sub elapsed previous_duration + sat_sub send_started_at previous + frame_duration
      | None => elapsed
      end
  end.

Definition advance_clock (send_started_at frame_duration : Z) (k : TrackClock) : TrackClock :=
  mkTrackClock (Some send_started_at) (Some frame_duration) (advance_elapsed k send_started_at frame_duration)
    (tc_track_packet_timings k ++ [mkTiming send_started_at frame_duration (tc_track_media_duration_sent k)])
    (tc_last_any_send_at k) (tc_track_media_duration_sent k + frame_duration).

Definition note_fast (ratio media wall : Z) (e : Extreme) : Extreme :=
  if MAX_MEDIA_TO_WALL_CLOCK_RATIO_PPM <? ratio then
    let count := sat_add u64_max (ex_count e) 1 in
    if ex_ratio_ppm e <? ratio then mkExtreme count ratio (duration_millis media) (Some wall)
    else mkExtreme count (ex_ratio_ppm e) (ex_media_ms e) (ex_wall_clock e)
  else e.
Definition note_slow (ratio media wall : Z) (e : Extreme) : Extreme :=
  if ratio <? MIN_MEDIA_TO_WALL_CLOCK_RATIO_PPM then
    let count := sat_add u64_max (ex_count e) 1 in
    if (ex_ratio_ppm e =? 0) || (ratio <? ex_ratio_ppm e)
    then mkExtreme count ratio (duration_millis media) (Some wall)
    else mkExtreme count (ex_ratio_ppm e) (ex_media_ms e) (ex_wall_clock e)
  else e.

(** The window of the last packets of the stretch, when there are enough. *)
Definition latest_window (timings : list TrackPacketTiming) : option (list TrackPacketTiming) :=
  if (length timings <? TRACK_TEMPO_WINDOW_PACKETS)%nat then None
  else Some (drop (length timings - TRACK_TEMPO_WINDOW_PACKETS) timings).
Definition window_media (window : list TrackPacketTiming) : Z := sum_by tt_duration window.
Definition window_wall_clock (first last : TrackPacketTiming) : Z :=
  sat_sub (tt_send_started_at last) (tt_send_started_at first) + tt_duration last.

Definition note_window (window : list TrackPacketTiming) (t : Tempo) : Tempo :=
  match head window, last window with
  | Some first, Some last =>
      let media := window_media window in
      let wall := window_wall_clock first last in
      let ratio := media_to_wall_clock_ratio_ppm_duration media wall in
      mkTempo (sat_add u64_max (tp_track_tempo_window_count t) 1)
        (if TRACK_POST_SOURCE_BUFFER_MEDIA_MS * 1000000 <=? tt_media_start first
         then sat_add u64_max (tp_track_tempo_window_post_source_buffer_count t) 1
         else tp_track_tempo_window_post_source_buffer_count t)
        (if tp_track_tempo_window_min_ratio_ppm t =? 0 then ratio
         else Z.min (tp_track_tempo_window_min_ratio_ppm t) ratio)
        (Z.max (tp_track_tempo_window_max_ratio_ppm t) ratio)
        (note_fast ratio media wall (tp_fast t)) (note_slow ratio media wall (tp_slow t))
        (tp_tempo_rebase_count t)
  | _, _ => t
  end.
Definition record_latest_track_tempo_window (c : Collector) : Collector :=
  upd_tempo (fun t =>
    match latest_window (tc_track_packet_timings (mc_clock c)) with
    | Some window => note_window window t
    | None => t
    end) c.

Definition record_track_packet (expected_deadline send_started_at : Z) (duration_samples : Z) (tempo_rebased : bool)
    (c : Collector) : Collector :=
  let frame_duration := duration_from_samples duration_samples in
  let c := upd_tempo (fun t =>
    if tempo_rebased
    then mkTempo (tp_track_tempo_window_count t) (tp_track_tempo_window_post_source_buffer_count t)
           (tp_track_tempo_window_min_ratio_ppm t) (tp_track_tempo_window_max_ratio_ppm t) (tp_fast t) (tp_slow t)
           (sat_add u64_max (tp_tempo_rebase_count t) 1)
    else t) c in
  let c := upd_lateness (note_lateness (sat_sub send_started_at expected_deadline)) c in
  let c := upd_intervals (fun i =>
    match tc_last_track_send_started_at (mc_clock c) with
    | Some previous => note_interval (sat_sub send_started_at previous) (tc_last_track_duration (mc_clock c)) i
    | None => i
    end) c in
  let c := upd_clock (advance_clock send_started_at frame_duration) c in
  let c := record_latest_track_tempo_window c in
  let c := record_any_packet send_started_at c in
  upd_packets (fun k => mkPackets (sat_add usize_max (pk_track_packet_count k) 1)
    (pk_continuity_silence_packet_count k) (pk_inserted_silence_duration_ms k)
    (pk_scheduled_silence_packet_count k)) c.

Definition record_continuity_silence_packet (sent_at duration_ms : Z) (c : Collector) : Collector :=
  record_any_packet sent_at
    (upd_packets (fun k => mkPackets (pk_track_packet_count k)
       (sat_add usize_max (pk_continuity_silence_packet_count k) 1)
       (sat_add u64_max (pk_inserted_silence_duration_ms k) duration_ms)
       (pk_scheduled_silence_packet_count k)) c).

(** ** The messages of the pipeline *)

(** [PlaybackBufferPolicy]: the target is constant, and neither refills nor
    lateness change it. *)
Definition policy_target_ms : Z := PLAYBACK_SOURCE_BUFFER_TARGET_MS.
Definition record_producer_sample_for_playback (sample : ProducerMetricsSample) (now : Z) (c : Collector)
    : Collector :=
  record_adaptive_buffer_target policy_target_ms policy_target_ms (record_producer_sample sample now c).
Definition update_adaptive_buffer_target_from_lateness : Collector -> Collector :=
  record_adaptive_buffer_target policy_target_ms policy_target_ms.

Definition DISCORD_EGRESS_BUFFER_LOW_WATERMARK_MS : Z := 300.

Definition send_event_of (s : SenderSentMetric) : PlaybackSendEventRecord :=
  let mf := sm_media_frame s in
  mkSendEventRecord (sm_packet_index s) (playback_send_command_kind (sm_kind s)) (sm_expected_deadline s)
    (sm_send_started_at s) (sm_sent_at s) (sm_duration_ms s) (sm_duration_samples s) (sm_rtp_sequence s)
    (sm_rtp_timestamp s) (sm_protection_nonce s) (mf_epoch <$> mf) (mf_media_position_ms <$> mf)
    (mf_media_position_samples <$> mf) (mf ≫= mf_media_byte_position) (bool_decide (is_Some mf)).

Definition record_sent (s : SenderSentMetric) (c : Collector) : Collector :=
  let c := record_sender_send_duration (sm_send_duration s) c in
  let c := record_sender_loop_non_send_work_duration (sm_non_send_work_duration s) c in
  let c := record_gateway_drain (sm_gateway_drain s) c in
  let c := record_send_event (send_event_of s) c in
  let c := if sm_media_clock_reset s then record_media_clock_reset SchedulerLate c else c in
  let c := record_source_buffer_depth (sm_remaining_depth s) PLAYBACK_SOURCE_BUFFER_LOW_WATERMARK_MS c in
  let c := record_playout_buffer_depth (sm_egress_depth s) DISCORD_EGRESS_BUFFER_LOW_WATERMARK_MS c in
  if sm_is_track s then
    update_adaptive_buffer_target_from_lateness
      (record_track_packet (sm_expected_deadline s) (sm_send_started_at s) (sm_duration_samples s)
         (sm_tempo_rebased s) c)
  else match sm_kind s with
       | ScheduledSilence => record_continuity_silence_packet (sm_sent_at s) (sm_duration_ms s) c
       | _ => c
       end.

(** What the playback task does to the collector with a message received at
    [now]. *)
Definition record_metric (m : PlaybackPipelineMetric) (now : Z) (c : Collector) : Collector :=
  match m with
  | SourceProducer sample => record_producer_sample_for_playback sample now c
  | SourceDepth depth | SenderStarted depth =>
      record_source_buffer_depth depth PLAYBACK_SOURCE_BUFFER_LOW_WATERMARK_MS c
  | SenderSourceUnderrun depth => record_source_underrun depth c
  | EgressDepth depth => record_playout_buffer_depth depth DISCORD_EGRESS_BUFFER_LOW_WATERMARK_MS c
  | PreparedTrackQueueDepth depth => record_prepared_track_queue_depth depth c
  | NonTrackPlayoutQueueDepth kind depth => record_non_track_playout_queue_depth kind depth c
  | PreparedPlayoutQueueEvent e => record_prepared_playout_queue_event e c
  | ExplicitMediaBoundary reason => record_explicit_media_boundary reason c
  | SourceUnderrunReachedBuilder => record_source_underrun_reached_builder c
  | SourceUnderrunReachedDeadlineSender => record_source_underrun_reached_deadline_sender c
  | RestoredSourceFrames n samples => record_restored_source_frames n samples c
  | DiscardedSourceFrames reason n samples => record_discarded_source_frames reason n samples c
  | PlayoutBuilderPrepared duration => record_playout_builder_prepare_duration duration c
  | GatewayDrain report => record_gateway_drain report c
  | SenderEgressUnderrun depth => record_playout_underrun depth c
  | SenderSent sent => record_sent sent c
  | SenderSkippedSourceFrames n samples depth =>
      record_source_buffer_depth depth PLAYBACK_SOURCE_BUFFER_LOW_WATERMARK_MS
        (record_skipped_source_frames n samples c)
  | EgressDroppedMusicFrames n samples => record_egress_dropped_music_frames n samples c
  | SenderResumedAfterSourceUnderrun depth => record_rebuffer depth PLAYBACK_SOURCE_BUFFER_LOW_WATERMARK_MS c
  | SenderResumedFromPause => record_resumed_from_pause c
  | SenderMediaClockReset reason => record_media_clock_reset reason c
  end.

(** ** The snapshot *)

Definition send_event_snapshot (base_deadline : Z) (e : PlaybackSendEventRecord) : PlaybackSendEventSnapshot :=
  mkSendEventSnapshot (er_packet_index e) (er_command_kind e)
    (instant_offset_micros base_deadline (er_expected_deadline e))
    (instant_offset_micros base_deadline (er_send_started_at e))
    (instant_offset_micros base_deadline (er_sent_at e)) (er_media_duration_ms e) (er_media_duration_samples e)
    (er_rtp_sequence e) (er_rtp_timestamp e) (er_protection_nonce e) (er_source_frame_epoch e)
    (er_source_media_position_ms e) (er_source_media_position_samples e) (er_source_media_byte_position e)
    (er_committed_heard_media e).
Definition playback_send_event_snapshots (events : list PlaybackSendEventRecord) : list PlaybackSendEventSnapshot :=
  match events with
  | [] => []
  | first :: _ => map (send_event_snapshot (er_expected_deadline first)) events
  end.

Record PlaybackStabilitySnapshot : Type := mkStabilitySnapshot {
  sn_playback_epoch : Z;
  sn_video_id : option string;
  sn_selected_itag : option Z;
  sn_track_packet_count : Z;
  sn_continuity_silence_packet_count : Z;
  sn_inserted_silence_duration_ms : Z;
  sn_track_interval : DurationStatsSnapshot;
  sn_track_media_duration_sent_ms : Z;
  sn_track_wall_clock_elapsed_ms : Z;
  sn_track_media_to_wall_clock_ratio_ppm : Z;
  sn_track_fast_interval_count : Z;
  sn_track_fast_interval_min_ms : Z;
  sn_track_fast_interval_min_us : Z;
  sn_track_tempo_window_count : Z;
  sn_track_tempo_window_post_source_buffer_count : Z;
  sn_track_tempo_window_min_ratio_ppm : Z;
  sn_track_tempo_window_max_ratio_ppm : Z;
  sn_track_tempo_window_fast_count : Z;
  sn_track_tempo_window_fastest_ratio_ppm : Z;
  sn_track_tempo_window_fastest_media_ms : Z;
  sn_track_tempo_window_fastest_wall_clock_us : Z;
  sn_track_tempo_window_slow_count : Z;
  sn_track_tempo_window_slowest_ratio_ppm : Z;
  sn_track_tempo_window_slowest_media_ms : Z;
  sn_track_tempo_window_slowest_wall_clock_us : Z;
  sn_skipped_source_frame_count : Z;
  sn_skipped_source_duration_ms : Z;
  sn_skipped_source_duration_samples : Z;
  sn_tempo_rebase_count : Z;
  sn_expected_track_frame_count : Z;
  sn_sent_track_frame_count : Z;
  sn_silence_frame_count : Z;
  sn_frame_deficit_count : Z;
  sn_dropped_frame_count : Z;
  sn_late_frame_count : Z;
  sn_all_packet_interval : DurationStatsSnapshot;
  sn_sender_lateness : DurationStatsSnapshot;
  sn_max_consecutive_late_packets : Z;
  sn_current_consecutive_late_packets : Z;
  sn_current_buffer_depth : OpusBufferDepth;
  sn_min_buffer_depth : OpusBufferDepth;
  sn_max_buffer_depth : OpusBufferDepth;
  sn_current_source_buffer_depth : OpusBufferDepth;
  sn_min_source_buffer_depth : OpusBufferDepth;
  sn_max_source_buffer_depth : OpusBufferDepth;
  sn_source_buffer_depth : PlaybackQueueDepthStatsSnapshot;
  sn_current_playout_buffer_depth : OpusBufferDepth;
  sn_min_playout_buffer_depth : OpusBufferDepth;
  sn_max_playout_buffer_depth : OpusBufferDepth;
  sn_egress_buffer_target_ms : Z;
  sn_current_egress_buffer_depth : OpusBufferDepth;
  sn_min_egress_buffer_depth : OpusBufferDepth;
  sn_max_egress_buffer_depth : OpusBufferDepth;
  sn_prepared_rtp_queue_depth_ms : Z;
  sn_prepared_track_queue_target_ms : Z;
  sn_prepared_track_queue_low_watermark_ms : Z;
  sn_prepared_track_queue_high_watermark_ms : Z;
  sn_active_pre_pause_prepared_track_queue_depth : PlaybackQueueDepthStatsSnapshot;
  sn_active_post_resume_prepared_track_queue_depth : PlaybackQueueDepthStatsSnapshot;
  sn_prepared_track_queue_depth_sample_count : Z;
  sn_prepared_track_queue_empty_count : Z;
  sn_raw_send_events : list PlaybackSendEventSnapshot;
  sn_raw_prepared_track_queue_samples : list PreparedTrackQueueDepthSampleSnapshot;
  sn_raw_prepared_playout_queue_events : list PreparedPlayoutQueueEventSnapshot;
  sn_current_scheduled_silence_queue_depth : OpusBufferDepth;
  sn_max_scheduled_silence_queue_depth : OpusBufferDepth;
  sn_current_boundary_queue_depth : OpusBufferDepth;
  sn_max_boundary_queue_depth : OpusBufferDepth;
  sn_prepared_track_packet_drop_count : Z;
  sn_prepared_silence_packet_drop_count : Z;
  sn_prepared_packet_rebuild_count : Z;
  sn_scheduled_silence_packet_count : Z;
  sn_pause_media_boundary_count : Z;
  sn_stop_media_boundary_count : Z;
  sn_recovery_media_boundary_count : Z;
  sn_natural_end_media_boundary_count : Z;
  sn_dave_transition_recovery_reached_builder_count : Z;
  sn_dave_transition_recovery_reached_deadline_sender_count : Z;
  sn_source_underrun_reached_builder_count : Z;
  sn_source_underrun_reached_deadline_sender_count : Z;
  sn_discarded_source_frame_count : Z;
  sn_discarded_source_duration_ms : Z;
  sn_discarded_source_duration_samples : Z;
  sn_stop_discarded_source_frame_count : Z;
  sn_stop_discarded_source_duration_ms : Z;
  sn_stop_discarded_source_duration_samples : Z;
  sn_interruption_discarded_source_frame_count : Z;
  sn_interruption_discarded_source_duration_ms : Z;
  sn_interruption_discarded_source_duration_samples : Z;
  sn_restored_source_frame_count : Z;
  sn_restored_source_duration_ms : Z;
  sn_restored_source_duration_samples : Z;
  sn_source_buffer_target_ms : Z;
  sn_adaptive_buffer_target_ms : Z;
  sn_max_adaptive_buffer_target_ms : Z;
  sn_buffer_low_watermark_count : Z;
  sn_source_buffer_low_watermark_count : Z;
  sn_playout_buffer_low_watermark_count : Z;
  sn_buffer_underrun_count : Z;
  sn_playout_underrun_count : Z;
  sn_egress_underrun_count : Z;
  sn_egress_inserted_silence_duration_ms : Z;
  sn_egress_dropped_music_frame_count : Z;
  sn_egress_dropped_music_duration_ms : Z;
  sn_egress_dropped_music_duration_samples : Z;
  sn_source_underrun_count : Z;
  sn_rebuffer_count : Z;
  sn_refill_duration : DurationStatsSnapshot;
  sn_source_producer_fill_duration : DurationStatsSnapshot;
  sn_producer_stall_duration : DurationStatsSnapshot;
  sn_max_producer_lag_ms : Z;
  sn_http_retry_count : Z;
  sn_response_open_count : Z;
  sn_range_reopen_count : Z;
  sn_read_error_reopen_count : Z;
  sn_url_reresolve_count : Z;
  sn_pause_resume_first_intervals_ms : list Z;
  sn_post_stall_first_intervals_ms : list Z;
  sn_post_rebuffer_first_intervals_ms : list Z;
  sn_playout_sender_lateness : DurationStatsSnapshot;
  sn_playout_builder_prepare_duration : DurationStatsSnapshot;
  sn_sender_send_duration : DurationStatsSnapshot;
  sn_sender_loop_non_send_work_duration : DurationStatsSnapshot;
  sn_max_consecutive_playout_late_packets : Z;
  sn_max_consecutive_late_egress_ticks : Z;
  sn_speaking_prepare_duration : DurationStatsSnapshot;
  sn_sender_forbidden_work_count : Z;
  sn_gateway_event_drain_duration : DurationStatsSnapshot;
  sn_gateway_event_drain_count : Z;
  sn_dave_transition_count : Z;
  sn_dave_transition_count_during_playback : Z;
  sn_stale_dave_send_prevented_count : Z;
  sn_controlled_media_interruption_count : Z;
  sn_media_clock_reset_count : Z;
  sn_egress_clock_reset_count : Z;
  sn_scheduler_late_reset_count : Z;
  sn_source_underrun_reset_count : Z;
  sn_pause_resume_reset_count : Z;
  sn_dave_transition_recovery_reset_count : Z;
  sn_gateway_interruptions : Z;
  sn_dave_interruptions : Z;
  sn_reconnect_interruptions : Z;
  sn_ended : bool;
}.

Definition track_wall_clock_elapsed_ms (c : Collector) : Z :=
  duration_millis (tc_active_track_wall_clock_elapsed (mc_clock c)).

(** Track frames dropped, before or after they were prepared. *)
Definition dropped_track_frames (c : Collector) : Z :=
  sat_add u64_max (pe_prepared_track_packet_drop_count (mc_events c)) (ft_frames (fa_egress_dropped (mc_frames c))).

Definition snapshot `{UnstableSort} (gateway_interruptions dave_interruptions reconnect_interruptions : Z)
    (ended : bool) (c : Collector) : PlaybackStabilitySnapshot :=
  let sent := pk_track_packet_count (mc_packets c) in
  let silence := Z.max (pk_continuity_silence_packet_count (mc_packets c))
                   (pk_scheduled_silence_packet_count (mc_packets c)) in
  let dropped := sat_add u64_max (sat_add u64_max (pe_prepared_track_packet_drop_count (mc_events c))
                   (pe_prepared_silence_packet_drop_count (mc_events c)))
                   (ft_frames (fa_egress_dropped (mc_frames c))) in
  let expected := sat_add u64_max (sat_add u64_max sent silence) (dropped_track_frames c) in
  let pre := collector_snapshot (tq_pre_pause (mc_queue c)) in
  let post := collector_snapshot (tq_post_resume (mc_queue c)) in
  {|
    sn_playback_epoch := mc_playback_epoch c;
    sn_video_id := Some (mc_video_id c);
    sn_selected_itag := Some (mc_selected_itag c);
    sn_track_packet_count := pk_track_packet_count (mc_packets c);
    sn_continuity_silence_packet_count := pk_continuity_silence_packet_count (mc_packets c);
    sn_inserted_silence_duration_ms := pk_inserted_silence_duration_ms (mc_packets c);
    sn_track_interval := duration_stats (iv_track_intervals (mc_intervals c));
    sn_track_media_duration_sent_ms := duration_millis (tc_track_media_duration_sent (mc_clock c));
    sn_track_wall_clock_elapsed_ms := track_wall_clock_elapsed_ms c;
    sn_track_media_to_wall_clock_ratio_ppm := media_to_wall_clock_ratio_ppm_duration (tc_track_media_duration_sent (mc_clock c))
      (tc_active_track_wall_clock_elapsed (mc_clock c));
    sn_track_fast_interval_count := iv_track_fast_interval_count (mc_intervals c);
    sn_track_fast_interval_min_ms := map_or_0 duration_millis (iv_track_fast_interval_min (mc_intervals c));
    sn_track_fast_interval_min_us := map_or_0 duration_micros (iv_track_fast_interval_min (mc_intervals c));
    sn_track_tempo_window_count := tp_track_tempo_window_count (mc_tempo c);
    sn_track_tempo_window_post_source_buffer_count := tp_track_tempo_window_post_source_buffer_count (mc_tempo c);
    sn_track_tempo_window_min_ratio_ppm := tp_track_tempo_window_min_ratio_ppm (mc_tempo c);
    sn_track_tempo_window_max_ratio_ppm := tp_track_tempo_window_max_ratio_ppm (mc_tempo c);
    sn_track_tempo_window_fast_count := ex_count (tp_fast (mc_tempo c));
    sn_track_tempo_window_fastest_ratio_ppm := ex_ratio_ppm (tp_fast (mc_tempo c));
    sn_track_tempo_window_fastest_media_ms := ex_media_ms (tp_fast (mc_tempo c));
    sn_track_tempo_window_fastest_wall_clock_us := map_or_0 duration_micros (ex_wall_clock (tp_fast (mc_tempo c)));
    sn_track_tempo_window_slow_count := ex_count (tp_slow (mc_tempo c));
    sn_track_tempo_window_slowest_ratio_ppm := ex_ratio_ppm (tp_slow (mc_tempo c));
    sn_track_tempo_window_slowest_media_ms := ex_media_ms (tp_slow (mc_tempo c));
    sn_track_tempo_window_slowest_wall_clock_us := map_or_0 duration_micros (ex_wall_clock (tp_slow (mc_tempo c)));
    sn_skipped_source_frame_count := ft_frames (fa_skipped (mc_frames c));
    sn_skipped_source_duration_ms := duration_ms_from_samples (ft_samples (fa_skipped (mc_frames c)));
    sn_skipped_source_duration_samples := ft_samples (fa_skipped (mc_frames c));
    sn_tempo_rebase_count := tp_tempo_rebase_count (mc_tempo c);
    sn_expected_track_frame_count := expected;
    sn_sent_track_frame_count := sent;
    sn_silence_frame_count := silence;
    sn_frame_deficit_count := sat_sub expected (wrapping_add 64 sent silence);
    sn_dropped_frame_count := dropped;
    sn_late_frame_count := lt_late_frame_count (mc_lateness c);
    sn_all_packet_interval := duration_stats (iv_all_packet_intervals (mc_intervals c));
    sn_sender_lateness := duration_stats (lt_sender_lateness (mc_lateness c));
    sn_max_consecutive_late_packets := lt_max_consecutive_late_packets (mc_lateness c);
    sn_current_consecutive_late_packets := lt_current_consecutive_late_packets (mc_lateness c);
    sn_current_buffer_depth := rg_current (dp_buffer (mc_depths c));
    sn_min_buffer_depth := rg_min (dp_buffer (mc_depths c));
    sn_max_buffer_depth := rg_max (dp_buffer (mc_depths c));
    sn_current_source_buffer_depth := rg_current (dp_source (mc_depths c));
    sn_min_source_buffer_depth := rg_min (dp_source (mc_depths c));
    sn_max_source_buffer_depth := rg_max (dp_source (mc_depths c));
    sn_source_buffer_depth := queue_depth_stats (dp_source_buffer_depth_samples (mc_depths c))
      (dp_source_buffer_empty_count (mc_depths c));
    sn_current_playout_buffer_depth := rg_current (dp_playout (mc_depths c));
    sn_min_playout_buffer_depth := rg_min (dp_playout (mc_depths c));
    sn_max_playout_buffer_depth := rg_max (dp_playout (mc_depths c));
    sn_egress_buffer_target_ms := 400;
    sn_current_egress_buffer_depth := rg_current (dp_playout (mc_depths c));
    sn_min_egress_buffer_depth := rg_min (dp_playout (mc_depths c));
    sn_max_egress_buffer_depth := rg_max (dp_playout (mc_depths c));
    sn_prepared_rtp_queue_depth_ms := bd_duration_ms (rg_current (dp_playout (mc_depths c)));
    sn_prepared_track_queue_target_ms := tq_target_ms (mc_queue c);
    sn_prepared_track_queue_low_watermark_ms := tq_low_watermark_ms (mc_queue c);
    sn_prepared_track_queue_high_watermark_ms := tq_high_watermark_ms (mc_queue c);
    sn_active_pre_pause_prepared_track_queue_depth := pre;
    sn_active_post_resume_prepared_track_queue_depth := post;
    sn_prepared_track_queue_depth_sample_count := sat_add usize_max (qs_sample_count pre) (qs_sample_count post);
    sn_prepared_track_queue_empty_count := sat_add u64_max (qs_empty_count pre) (qs_empty_count post);
    sn_raw_send_events := playback_send_event_snapshots (pe_raw_send_events (mc_events c));
    sn_raw_prepared_track_queue_samples := tq_raw_samples (mc_queue c);
    sn_raw_prepared_playout_queue_events := pe_raw_queue_events (mc_events c);
    sn_current_scheduled_silence_queue_depth := dp_current_scheduled_silence (mc_depths c);
    sn_max_scheduled_silence_queue_depth := dp_max_scheduled_silence (mc_depths c);
    sn_current_boundary_queue_depth := dp_current_boundary (mc_depths c);
    sn_max_boundary_queue_depth := dp_max_boundary (mc_depths c);
    sn_prepared_track_packet_drop_count := pe_prepared_track_packet_drop_count (mc_events c);
    sn_prepared_silence_packet_drop_count := pe_prepared_silence_packet_drop_count (mc_events c);
    sn_prepared_packet_rebuild_count := pe_prepared_packet_rebuild_count (mc_events c);
    sn_scheduled_silence_packet_count := pk_scheduled_silence_packet_count (mc_packets c);
    sn_pause_media_boundary_count := bn_pause_media_boundary_count (mc_boundaries c);
    sn_stop_media_boundary_count := bn_stop_media_boundary_count (mc_boundaries c);
    sn_recovery_media_boundary_count := bn_recovery_media_boundary_count (mc_boundaries c);
    sn_natural_end_media_boundary_count := bn_natural_end_media_boundary_count (mc_boundaries c);
    sn_dave_transition_recovery_reached_builder_count := bn_dave_transition_recovery_reached_builder_count (mc_boundaries c);
    sn_dave_transition_recovery_reached_deadline_sender_count := bn_dave_transition_recovery_reached_deadline_sender_count (mc_boundaries c);
    sn_source_underrun_reached_builder_count := bn_source_underrun_reached_builder_count (mc_boundaries c);
    sn_source_underrun_reached_deadline_sender_count := bn_source_underrun_reached_deadline_sender_count (mc_boundaries c);
    sn_discarded_source_frame_count := ft_frames (fa_discarded (mc_frames c));
    sn_discarded_source_duration_ms := duration_ms_from_samples (ft_samples (fa_discarded (mc_frames c)));
    sn_discarded_source_duration_samples := ft_samples (fa_discarded (mc_frames c));
    sn_stop_discarded_source_frame_count := ft_frames (fa_stop_discarded (mc_frames c));
    sn_stop_discarded_source_duration_ms := duration_ms_from_samples (ft_samples (fa_stop_discarded (mc_frames c)));
    sn_stop_discarded_source_duration_samples := ft_samples (fa_stop_discarded (mc_frames c));
    sn_interruption_discarded_source_frame_count := ft_frames (fa_interruption_discarded (mc_frames c));
    sn_interruption_discarded_source_duration_ms := duration_ms_from_samples (ft_samples (fa_interruption_discarded (mc_frames c)));
    sn_interruption_discarded_source_duration_samples := ft_samples (fa_interruption_discarded (mc_frames c));
    sn_restored_source_frame_count := ft_frames (fa_restored (mc_frames c));
    sn_restored_source_duration_ms := duration_ms_from_samples (ft_samples (fa_restored (mc_frames c)));
    sn_restored_source_duration_samples := ft_samples (fa_restored (mc_frames c));
    sn_source_buffer_target_ms := tg_source_buffer_target_ms (mc_targets c);
    sn_adaptive_buffer_target_ms := tg_adaptive_buffer_target_ms (mc_targets c);
    sn_max_adaptive_buffer_target_ms := tg_max_adaptive_buffer_target_ms (mc_targets c);
    sn_buffer_low_watermark_count := sv_buffer_low_watermark_count (mc_starved c);
    sn_source_buffer_low_watermark_count := sv_source_buffer_low_watermark_count (mc_starved c);
    sn_playout_buffer_low_watermark_count := sv_playout_buffer_low_watermark_count (mc_starved c);
    sn_buffer_underrun_count := sv_buffer_underrun_count (mc_starved c);
    sn_playout_underrun_count := sv_playout_underrun_count (mc_starved c);
    sn_egress_underrun_count := sv_playout_underrun_count (mc_starved c);
    sn_egress_inserted_silence_duration_ms := pk_inserted_silence_duration_ms (mc_packets c);
    sn_egress_dropped_music_frame_count := ft_frames (fa_egress_dropped (mc_frames c));
    sn_egress_dropped_music_duration_ms := duration_ms_from_samples (ft_samples (fa_egress_dropped (mc_frames c)));
    sn_egress_dropped_music_duration_samples := ft_samples (fa_egress_dropped (mc_frames c));
    sn_source_underrun_count := sv_source_underrun_count (mc_starved c);
    sn_rebuffer_count := sv_rebuffer_count (mc_starved c);
    sn_refill_duration := duration_stats (pr_refill_durations (mc_producer c));
    sn_source_producer_fill_duration := duration_stats (pr_refill_durations (mc_producer c));
    sn_producer_stall_duration := duration_stats (pr_producer_stall_durations (mc_producer c));
    sn_max_producer_lag_ms := duration_millis (pr_max_producer_lag (mc_producer c));
    sn_http_retry_count := pr_http_retry_count (mc_producer c);
    sn_response_open_count := pr_response_open_count (mc_producer c);
    sn_range_reopen_count := pr_range_reopen_count (mc_producer c);
    sn_read_error_reopen_count := pr_read_error_reopen_count (mc_producer c);
    sn_url_reresolve_count := pr_url_reresolve_count (mc_producer c);
    sn_pause_resume_first_intervals_ms := fw_intervals_ms (iv_pause_resume_first (mc_intervals c));
    sn_post_stall_first_intervals_ms := fw_intervals_ms (iv_post_stall_first (mc_intervals c));
    sn_post_rebuffer_first_intervals_ms := fw_intervals_ms (iv_post_rebuffer_first (mc_intervals c));
    sn_playout_sender_lateness := duration_stats (lt_playout_sender_lateness (mc_lateness c));
    sn_playout_builder_prepare_duration := duration_stats (wk_playout_builder_prepare_durations (mc_work c));
    sn_sender_send_duration := duration_stats (wk_sender_send_durations (mc_work c));
    sn_sender_loop_non_send_work_duration := duration_stats (wk_sender_loop_non_send_work_durations (mc_work c));
    sn_max_consecutive_playout_late_packets := lt_max_consecutive_playout_late_packets (mc_lateness c);
    sn_max_consecutive_late_egress_ticks := lt_max_consecutive_playout_late_packets (mc_lateness c);
    sn_speaking_prepare_duration := duration_stats (wk_speaking_prepare_durations (mc_work c));
    sn_sender_forbidden_work_count := wk_sender_forbidden_work_count (mc_work c);
    sn_gateway_event_drain_duration := duration_stats (wk_gateway_event_drain_durations (mc_work c));
    sn_gateway_event_drain_count := wk_gateway_event_drain_count (mc_work c);
    sn_dave_transition_count := wk_dave_transition_count (mc_work c);
    sn_dave_transition_count_during_playback := wk_dave_transition_count_during_playback (mc_work c);
    sn_stale_dave_send_prevented_count := wk_stale_dave_send_prevented_count (mc_work c);
    sn_controlled_media_interruption_count := rst_controlled_media_interruption_count (mc_resets c);
    sn_media_clock_reset_count := rst_media_clock_reset_count (mc_resets c);
    sn_egress_clock_reset_count := rst_media_clock_reset_count (mc_resets c);
    sn_scheduler_late_reset_count := rst_scheduler_late_reset_count (mc_resets c);
    sn_source_underrun_reset_count := rst_source_underrun_reset_count (mc_resets c);
    sn_pause_resume_reset_count := rst_pause_resume_reset_count (mc_resets c);
    sn_dave_transition_recovery_reset_count := rst_dave_transition_recovery_reset_count (mc_resets c);
    sn_gateway_interruptions := gateway_interruptions;
    sn_dave_interruptions := dave_interruptions;
    sn_reconnect_interruptions := reconnect_interruptions;
    sn_ended := ended;
  |}.
