(* ===== verification/MetricsSpecs.v ===== *)
(** * What the stability metrics say

    Theorems on Metrics.v: the drop counter counts the drops that no rebuild
    made good, a playback that the deadline sender paces is never reported as
    fast, statistics are order statistics of what was recorded, streaks of late
    packets are the longest runs. *)

From S2P Require Import Prelude OpusQueue HttpStream Recovery DeadlineSender Egress Metrics.
From stdpp Require Import prelude strings sorting.
Open Scope Z_scope.

(** A message and when it was received. *)
Abbreviation message := (PlaybackPipelineMetric * Z)%type.
Definition record_all (l : list message) (c : Collector) : Collector :=
  foldl (fun c m => record_metric m.1 m.2 c) c l.

Lemma record_all_app l l' c : record_all (l ++ l') c = record_all l' (record_all l c).
Proof. apply foldl_app. Qed.

(** An invariant of every message holds after all of them. *)
Lemma record_all_ind (P : list message -> Collector -> Prop) c l :
  P [] c -> (forall l m c', P l c' -> P (l ++ [m]) (record_metric m.1 m.2 c')) -> P l (record_all l c).
Proof.
  intros H0 Hs. induction l as [|m l IH] using rev_ind; [done|].
  rewrite record_all_app. by apply Hs.
Qed.

(** The groups of the collector that a message changes. *)
Ltac untouched :=
  intros; unfold record_metric, record_sent, record_producer_sample_for_playback, record_producer_sample,
    record_media_clock_reset;
  repeat case_match; cbn; repeat case_match; done.

(** ** Drops and rebuilds *)

Definition drops (c : Collector) : list PreparedPlayoutTrackDropIdentity * Z :=
  (pe_unmatched_prepared_track_drops (mc_events c), pe_prepared_track_packet_drop_count (mc_events c)).

(** The reference: a drop of a track packet is outstanding, with its identity
    when it has one, until a rebuild of the same identity. Drops at a stop or
    a reconnect do not count. *)
Abbreviation outstanding := (list (option PreparedPlayoutTrackDropIdentity)).
Fixpoint make_good (i : PreparedPlayoutTrackDropIdentity) (l : outstanding) : outstanding :=
  match l with
  | [] => []
  | x :: l => if bool_decide (x = Some i) then l else x :: make_good i l
  end.
Definition outstanding_step (l : outstanding) (m : message) : outstanding :=
  match m.1 with
  | PreparedPlayoutQueueEvent e =>
      match ev_event_kind e, ev_command_kind e with
      | DroppedBeforeSend, CTrack =>
          if prepared_track_drop_counts_as_unrecovered e then l ++ [prepared_playout_track_drop_identity e] else l
      | Rebuilt, CTrack =>
          match prepared_playout_track_drop_identity e with Some i => make_good i l | None => l end
      | _, _ => l
      end
  | _ => l
  end.
Definition outstanding_drops (l : list message) : outstanding := foldl outstanding_step [] l.

Lemma drops_untouched m now c :
  match m with PreparedPlayoutQueueEvent _ => False | _ => True end -> drops (record_metric m now c) = drops c.
Proof. unfold drops. destruct m; untouched. Qed.

Lemma make_good_remove i (l : outstanding) :
  match remove_first i (omap id l) with
  | Some rest => omap id (make_good i l) = rest /\ length l = S (length (make_good i l))
  | None => make_good i l = l
  end.
Proof.
  induction l as [|x l IH]; [done|]. cbn [make_good]. destruct x as [y|]; cbn.
  - destruct (bool_decide (y = i)) eqn:E.
    + apply bool_decide_eq_true in E as ->. by rewrite bool_decide_eq_true_2.
    + apply bool_decide_eq_false in E. rewrite bool_decide_eq_false_2 by congruence.
      destruct (remove_first i (omap id l)) as [rest|]; cbn; [|by rewrite IH].
      destruct IH as [IH1 IH2]. cbn. by rewrite IH1, IH2.
  - destruct (remove_first i (omap id l)) as [rest|]; cbn; [|by rewrite IH].
    destruct IH as [IH1 IH2]. by rewrite IH2.
Qed.

Lemma make_good_length i (l : outstanding) : (length (make_good i l) <= length l)%nat.
Proof. induction l as [|x l IH]; cbn; [done|]. case_bool_decide; cbn; lia. Qed.

Lemma outstanding_length l : (length (outstanding_drops l) <= length l)%nat.
Proof.
  unfold outstanding_drops. induction l as [|m l IH] using rev_ind; [done|].
  rewrite foldl_app, length_app. cbn. unfold outstanding_step at 1. pose proof make_good_length.
  repeat case_match; rewrite ?length_app; cbn; try lia; eapply Nat.le_trans; try apply H; lia.
Qed.

Lemma outstanding_snoc l m : outstanding_drops (l ++ [m]) = outstanding_step (outstanding_drops l) m.
Proof. unfold outstanding_drops. by rewrite foldl_app. Qed.

(** The event of the collector, without the index it gives it. *)
Lemma drops_event e now c o :
  drops c = (omap id o, Z.of_nat (length o)) -> Z.of_nat (length o) < u64_max ->
  let o' := outstanding_step o (PreparedPlayoutQueueEvent e, now) in
  drops (record_prepared_playout_queue_event e c) = (omap id o', Z.of_nat (length o')).
Proof.
  intros [= Hu Hc] Hb. unfold drops, outstanding_step. cbn. unfold note_drop, note_rebuild. cbn.
  destruct (ev_event_kind e); cbn; try congruence.
  - destruct (ev_command_kind e) eqn:Ek; cbn; try congruence.
    change (prepared_track_drop_counts_as_unrecovered (with_event_index _ e))
      with (prepared_track_drop_counts_as_unrecovered e).
    destruct (prepared_track_drop_counts_as_unrecovered e); cbn; [|congruence].
    rewrite Hu, Hc, omap_app, length_app. f_equal; rewrite sat_add_exact; cbn; lia.
  - unfold prepared_playout_track_drop_identity. cbn. destruct (ev_command_kind e); cbn; try congruence.
    destruct (ev_source_frame_epoch e) as [ep|]; cbn; [|congruence].
    destruct (ev_source_media_position_samples e) as [pos|]; cbn; [|congruence].
    set (i := mkTrackDropIdentity _ _ _ _ _). pose proof (make_good_remove i o) as Hm. rewrite Hu.
    destruct (remove_first i (omap id o)) as [rest|]; cbn; [|by rewrite Hm, Hc].
    destruct Hm as [<- Hl]. rewrite Hc, Hl. f_equal. unfold sat_sub. lia.
Qed.

Lemma drops_outstanding l c :
  drops c = ([], 0) -> Z.of_nat (length l) <= u64_max ->
  drops (record_all l c) = (omap id (outstanding_drops l), Z.of_nat (length (outstanding_drops l))).
Proof.
  intros H0. induction l as [|m l IH] using rev_ind; intros Hb; [done|].
  rewrite record_all_app, outstanding_snoc. cbn. rewrite length_app in Hb. cbn in Hb.
  specialize (IH ltac:(lia)). pose proof (outstanding_length l).
  destruct m as [m now]. destruct m; cbn [fst snd];
    try (rewrite drops_untouched by done; exact IH).
  apply drops_event; [done|lia].
Qed.

(** ** Tempo *)

Fixpoint timings_paced (l : list TrackPacketTiming) : Prop :=
  match l with
  | a :: (b :: _) as rest =>
      0 <= tt_duration a /\ tt_send_started_at a + tt_duration a <= tt_send_started_at b /\ timings_paced rest
  | [a] => 0 <= tt_duration a
  | [] => True
  end.

Lemma timings_paced_snoc l t :
  timings_paced l -> 0 <= tt_duration t ->
  (forall t', last l = Some t' -> tt_send_started_at t' + tt_duration t' <= tt_send_started_at t) ->
  timings_paced (l ++ [t]).
Proof.
  intros Hl Ht. induction l as [|a l IH]; intros Hlast; [done|].
  destruct l as [|b l].
  - cbn in *. split; [done|]. split; [by apply Hlast|done].
  - cbn in Hl |- *. destruct Hl as (H1 & H2 & H3). split; [done|]. split; [done|]. by apply IH.
Qed.

Lemma timings_paced_drop n l : timings_paced l -> timings_paced (drop n l).
Proof.
  revert n. induction l as [|a l IH]; intros [|n] H; [done..|]. cbn. apply IH.
  destruct l; [done|]. by destruct H as (_ & _ & H).
Qed.

(** Paced packets carry no more media than the wall clock between them. *)
Lemma paced_window_media window first last_ :
  timings_paced window -> head window = Some first -> last window = Some last_ ->
  0 <= window_media window <= window_wall_clock first last_ /\ tt_send_started_at first <= tt_send_started_at last_.
Proof.
  unfold window_wall_clock, window_media. revert first.
  induction window as [|a window IH]; intros first Hp; [done|]. intros [= ->].
  destruct window as [|b window].
  - intros [= ->]. cbn in *. rewrite sum_by_cons, sum_by_nil. unfold sat_sub. lia.
  - intros Hl. destruct Hp as (H1 & H2 & H3). destruct (IH b H3 eq_refl Hl) as [IH1 IH2].
    rewrite sum_by_cons. unfold sat_sub in *. lia.
Qed.

Lemma ratio_at_most_one media wall :
  0 <= media <= wall -> 0 <= media_to_wall_clock_ratio_ppm_duration media wall <= 1000000.
Proof.
  intros H. unfold media_to_wall_clock_ratio_ppm_duration.
  assert (0 <= media / 1000 <= wall / 1000).
  { split; [apply Z.div_pos; lia|apply Z.div_le_mono; lia]. }
  destruct ((media / 1000 =? 0) || (wall / 1000 =? 0)) eqn:E; [lia|].
  apply orb_false_iff in E as [_ E]. apply Z.eqb_neq in E.
  assert (0 <= media / 1000 * 1000000 / (wall / 1000) <= 1000000).
  { split; [apply Z.div_pos; lia|]. apply Z.div_le_upper_bound; lia. }
  unfold u64_max. lia.
Qed.

(** No packet of the track was early, and the next may start at [horizon]. *)
Record paced_so_far (horizon : Z) (c : Collector) : Prop := {
  pf_timings : timings_paced (tc_track_packet_timings (mc_clock c));
  pf_last : match last (tc_track_packet_timings (mc_clock c)) with
            | Some t => tc_last_track_send_started_at (mc_clock c) = Some (tt_send_started_at t) /\
                        tc_last_track_duration (mc_clock c) = Some (tt_duration t) /\
                        tt_send_started_at t + tt_duration t <= horizon /\
                        tt_duration t <= tc_active_track_wall_clock_elapsed (mc_clock c)
            | None => tc_last_track_send_started_at (mc_clock c) = None
            end;
  pf_media : 0 <= tc_track_media_duration_sent (mc_clock c) <= tc_active_track_wall_clock_elapsed (mc_clock c);
  pf_intervals : iv_track_fast_interval_count (mc_intervals c) = 0 /\ iv_track_fast_interval_min (mc_intervals c) = None;
  pf_fast : tp_fast (mc_tempo c) = no_extreme;
  pf_ratio : 0 <= tp_track_tempo_window_max_ratio_ppm (mc_tempo c) <= 1000000;
}.

Lemma paced_so_far_later h h' c : h <= h' -> paced_so_far h c -> paced_so_far h' c.
Proof.
  intros Hh [H1 H2 H3 H4 H5 H6]. split; try done. destruct (last _); [|done]. destruct H2 as (?&?&?&?).
  split_and!; [done|done|lia|done].
Qed.

(** What the invariant looks at. *)
Definition tempo_view (c : Collector) :=
  (tc_last_track_send_started_at (mc_clock c), tc_last_track_duration (mc_clock c),
   tc_active_track_wall_clock_elapsed (mc_clock c), tc_track_packet_timings (mc_clock c),
   tc_track_media_duration_sent (mc_clock c), iv_track_fast_interval_count (mc_intervals c),
   iv_track_fast_interval_min (mc_intervals c), mc_tempo c).

Lemma paced_so_far_view h c c' : tempo_view c' = tempo_view c -> paced_so_far h c -> paced_so_far h c'.
Proof.
  intros [= E1 E2 E3 E4 E5 E6 E7 E8] [H1 H2 H3 H4 H5 H6].
  split; rewrite ?E1, ?E2, ?E3, ?E4, ?E5, ?E6, ?E7, ?E8; done.
Qed.

Lemma paced_note_window h window t :
  timings_paced window -> tp_fast t = no_extreme -> 0 <= tp_track_tempo_window_max_ratio_ppm t <= h -> 1000000 <= h ->
  tp_fast (note_window window t) = no_extreme /\ 0 <= tp_track_tempo_window_max_ratio_ppm (note_window window t) <= h.
Proof.
  intros Hp Hf Hr Hh. unfold note_window. destruct (head window) as [first|] eqn:E1; [|done].
  destruct (last window) as [l|] eqn:E2; [|done].
  destruct (paced_window_media window first l Hp E1 E2) as [Hm _]. apply ratio_at_most_one in Hm. cbn.
  unfold note_fast, MAX_MEDIA_TO_WALL_CLOCK_RATIO_PPM. rewrite (proj2 (Z.ltb_ge 1020000 _)) by lia. split; [done|lia].
Qed.

Lemma duration_from_samples_nonneg samples : 0 <= samples -> 0 <= duration_from_samples samples.
Proof.
  intros H. unfold duration_from_samples, sat_mul, OPUS_SAMPLE_RATE_HZ, u64_max. apply Z.div_pos; lia.
Qed.

(** What a track packet does to what the invariant looks at: the interval,
    the clock, the window. *)
Definition track_step (started duration : Z) (c : Collector) : Collector :=
  let c := upd_intervals (fun i =>
    match tc_last_track_send_started_at (mc_clock c) with
    | Some previous => note_interval (sat_sub started previous) (tc_last_track_duration (mc_clock c)) i
    | None => i
    end) c in
  record_latest_track_tempo_window (upd_clock (advance_clock started duration) c).

Lemma paced_track_step started duration h c :
  paced_so_far h c -> h <= started -> 0 <= duration ->
  paced_so_far (started + duration) (track_step started duration c).
Proof.
  intros [H1 H2 H3 H4 H5 H6] Hh Hd.
  assert (Hclock : forall c', mc_clock c' = mc_clock c ->
    timings_paced (tc_track_packet_timings (mc_clock c') ++ [mkTiming started duration (tc_track_media_duration_sent (mc_clock c'))])).
  { intros c' ->. apply timings_paced_snoc; [done|done|]. intros t' Ht. rewrite Ht in H2.
    destruct H2 as (_ & _ & H2 & _). cbn. lia. }
  assert (He : duration <= advance_elapsed (mc_clock c) started duration /\
    tc_track_media_duration_sent (mc_clock c) + duration <= advance_elapsed (mc_clock c) started duration).
  { unfold advance_elapsed. destruct (last (tc_track_packet_timings (mc_clock c))) as [t|].
    - destruct H2 as (-> & -> & Hb & Ht). unfold sat_sub. lia.
    - rewrite H2. lia. }
  unfold track_step. set (c1 := upd_intervals _ c).
  assert (E1 : mc_clock c1 = mc_clock c) by done. assert (E2 : mc_tempo c1 = mc_tempo c) by done.
  assert (E3 : iv_track_fast_interval_count (mc_intervals c1) = 0 /\ iv_track_fast_interval_min (mc_intervals c1) = None).
  { unfold c1. cbn. destruct (last (tc_track_packet_timings (mc_clock c))) as [t|].
    - destruct H2 as (-> & -> & Hb & _). cbn. rewrite (proj2 (Z.ltb_ge _ _)); [done|]. unfold sat_sub. lia.
    - by rewrite H2. }
  clearbody c1. specialize (Hclock c1 E1).
  unfold record_latest_track_tempo_window, latest_window.
  cbn [mc_clock upd_clock advance_clock tc_track_packet_timings].
  set (timings := tc_track_packet_timings (mc_clock c1) ++ _) in *.
  assert (Hlast : last timings = Some (mkTiming started duration (tc_track_media_duration_sent (mc_clock c1))))
    by apply last_snoc.
  destruct (length timings <? TRACK_TEMPO_WINDOW_PACKETS)%nat.
  - split; cbn; fold timings; [done|rewrite Hlast, E1|rewrite E1; lia|done|by rewrite E2|by rewrite E2].
    cbn. split_and!; done || lia.
  - destruct (paced_note_window 1000000 (drop (length timings - TRACK_TEMPO_WINDOW_PACKETS) timings) (mc_tempo c1))
      as [W1 W2]; [by apply timings_paced_drop|by rewrite E2|by rewrite E2|done|].
    split; cbn -[note_window]; fold timings; [done|rewrite Hlast, E1|rewrite E1; lia|done|done|done].
    cbn. split_and!; done || lia.
Qed.

(** Messages of a paced playback: a send starts no earlier than [horizon], and
    moves it by the packet's duration, at least a millisecond. *)
Fixpoint sends_paced (horizon : Z) (l : list message) : Prop :=
  match l with
  | [] => True
  | (SenderSent s, _) :: l =>
      horizon <= sm_send_started_at s /\ 0 <= sm_duration_samples s /\
      sends_paced (sm_send_started_at s + Z.max (duration_from_samples (sm_duration_samples s)) 1000000) l
  | _ :: l => sends_paced horizon l
  end.

Lemma view_sent_other s c : sm_is_track s = false -> tempo_view (record_sent s c) = tempo_view c.
Proof. intros H. unfold tempo_view, record_sent. rewrite H. untouched. Qed.

Lemma view_other m now c :
  match m with SenderSent _ | SenderResumedFromPause | SenderMediaClockReset _ => False | _ => True end ->
  tempo_view (record_metric m now c) = tempo_view c.
Proof. unfold tempo_view. destruct m; untouched. Qed.

Lemma view_sent_before s c :
  sm_is_track s = true ->
  exists c', tempo_view c' = tempo_view c /\
    record_sent s c = update_adaptive_buffer_target_from_lateness
      (record_track_packet (sm_expected_deadline s) (sm_send_started_at s) (sm_duration_samples s)
         (sm_tempo_rebased s) c').
Proof. intros H. eexists. split; [|unfold record_sent; rewrite H; reflexivity]. unfold tempo_view. untouched. Qed.

Lemma view_adaptive c : tempo_view (update_adaptive_buffer_target_from_lateness c) = tempo_view c.
Proof. reflexivity. Qed.

(** A track packet on a paced playback. *)
Lemma paced_track_packet deadline started samples rebased h c :
  paced_so_far h c -> h <= started -> 0 <= samples ->
  paced_so_far (started + duration_from_samples samples) (record_track_packet deadline started samples rebased c).
Proof.
  intros H Hh Hs. unfold record_track_packet.
  set (c0 := upd_lateness _ (upd_tempo _ c)).
  assert (H0 : paced_so_far h c0) by (destruct H, rebased; by split).
  apply (paced_track_step started (duration_from_samples samples)) in H0; [|done|by apply duration_from_samples_nonneg].
  eapply paced_so_far_view; [|exact H0]. clear. unfold tempo_view. cbn. repeat case_match; done.
Qed.

Lemma paced_reset h c : paced_so_far h c -> paced_so_far h (reset_active_track_tempo_window c).
Proof. intros []. by split. Qed.

Lemma paced_message m now h c :
  paced_so_far h c -> sends_paced h [(m, now)] ->
  paced_so_far (match m with
                | SenderSent s => sm_send_started_at s + Z.max (duration_from_samples (sm_duration_samples s)) 1000000
                | _ => h
                end) (record_metric m now c).
Proof.
  intros H Hm. destruct m as [ | | | | | | | | | | | | | |s| | | | | | |reason];
    try (eapply paced_so_far_view; [by apply view_other|done]).
  - destruct Hm as (Hh & Hs & _). pose proof (duration_from_samples_nonneg _ Hs). cbn [record_metric].
    destruct (sm_is_track s) eqn:E.
    + destruct (view_sent_before s c E) as (c' & Hv & ->).
      apply (paced_so_far_view h c c' Hv) in H.
      apply (paced_track_packet (sm_expected_deadline s) (sm_send_started_at s) (sm_duration_samples s)
               (sm_tempo_rebased s)) in H; [|done|done].
      eapply paced_so_far_view; [apply view_adaptive|]. eapply paced_so_far_later; [|exact H]. lia.
    + eapply paced_so_far_view; [by apply view_sent_other|]. eapply paced_so_far_later; [|exact H]. lia.
  - cbn. apply (paced_so_far_view _ (reset_active_track_tempo_window c)); [done|]. by apply paced_reset.
  - destruct reason; cbn.
    1,2: by apply (paced_so_far_view _ c).
    apply (paced_so_far_view _ (reset_active_track_tempo_window c)); [done|]. by apply paced_reset.
Qed.

Lemma paced_all l h c : paced_so_far h c -> sends_paced h l -> exists h', paced_so_far h' (record_all l c).
Proof.
  revert h c. induction l as [|[m now] l IH]; intros h c Hc Hl; [by exists h|].
  change (record_all ((m, now) :: l) c) with (record_all l (record_metric m now c)). destruct m; cbn in Hl;
    try (match goal with
         | |- context [record_metric ?m _ _] => apply (IH h); [exact (paced_message m now h c Hc I)|exact Hl]
         end).
  destruct Hl as (H1 & H2 & H3). eapply IH; [|exact H3]. by apply (paced_message (SenderSent sent) now h c Hc).
Qed.

(** ** Counters *)

(** [u64] arguments are not negative. *)
Definition message_ok (m : message) : Prop :=
  match m.1 with EgressDroppedMusicFrames n _ => 0 <= n | _ => True end.

Definition counts_ok (c : Collector) : Prop :=
  0 <= pk_track_packet_count (mc_packets c) /\ 0 <= pk_continuity_silence_packet_count (mc_packets c) /\
  0 <= pk_scheduled_silence_packet_count (mc_packets c) /\ 0 <= ft_frames (fa_egress_dropped (mc_frames c)).

Lemma counts_ok_message m c : message_ok m -> counts_ok c -> counts_ok (record_metric m.1 m.2 c).
Proof.
  destruct m as [m now]. unfold message_ok, counts_ok. cbn [fst snd]. intros Hm Hc.
  assert (forall a b, 0 <= a -> 0 <= b -> 0 <= sat_add u64_max a b) by (unfold sat_add, u64_max; lia).
  destruct m as [ | | | | | | | | | | | | | |s| | | | | | |[]]; cbn [record_metric]; try exact Hc.
  - unfold record_producer_sample_for_playback, record_producer_sample. case_match; exact Hc.
  - unfold record_sent. repeat case_match; cbn; repeat case_match; cbn; split_and!; try apply Hc; apply H; lia.
  - cbn. split_and!; try apply Hc. apply H; [apply Hc|done].
Qed.

Lemma counts_ok_all l c : Forall message_ok l -> counts_ok c -> counts_ok (record_all l c).
Proof.
  intros Hl. revert c. induction Hl as [|m l Hm Hl IH]; intros c Hc; [done|].
  apply IH. by apply counts_ok_message.
Qed.

(** ** Theorems *)

(** Where a collector starts. *)
Record fresh (c : Collector) : Prop := {
  fr_events : mc_events c = mkPlayoutEvents [] [] [] 0 0 0;
  fr_clock : mc_clock c = mkTrackClock None None 0 [] None 0;
  fr_intervals : mc_intervals c = mkIntervals [] [] 0 None no_intervals no_intervals no_intervals;
  fr_tempo : mc_tempo c = mkTempo 0 0 0 0 no_extreme no_extreme 0;
}.

Lemma fresh_new epoch video itag depth source t1 t2 t3 t4 base :
  fresh (Collector_new epoch video itag depth source t1 t2 t3 t4 base).
Proof. by split. Qed.

Lemma fresh_paced c h : fresh c -> paced_so_far h c.
Proof. intros [H1 H2 H3 H4]. split; rewrite ?H2, ?H3, ?H4; cbn; done || lia. Qed.

Lemma deficit_exact sent silence drops egress :
  0 <= sent -> 0 <= silence -> 0 <= drops -> 0 <= egress ->
  sat_add u64_max (sat_add u64_max sent silence) (sat_add u64_max drops egress) < u64_max ->
  sat_sub (sat_add u64_max (sat_add u64_max sent silence) (sat_add u64_max drops egress))
    (wrapping_add 64 sent silence) = drops + egress.
Proof.
  intros H1 H2 H3 H4 Hb. assert (0 < u64_max) by done. unfold wrapping_add. unfold sat_add, sat_sub in *.
  rewrite wrap_small; [lia|]. change (2 ^ 64) with (u64_max + 1). lia.
Qed.


(** *** Pace *)

Definition sent_of (m : message) : option SenderSentMetric :=
  match m.1 with SenderSent s => Some s | _ => None end.

(** The messages report the sends of these records, in order. *)
Definition reports (records : list DeadlineSendRecord) (l : list message) : Prop :=
  map (fun s => (sm_send_started_at s, sm_duration_samples s)) (omap sent_of l) =
  map (fun r => (sr_send_started_at r, sr_duration_samples r)) records.

Lemma spaced_reports records l h :
  spaced records -> Forall (fun r => 0 <= sr_duration_samples r) records -> reports records l ->
  (forall r, head records = Some r -> h <= sr_send_started_at r) -> sends_paced h l.
Proof.
  unfold reports. revert records h. induction l as [|[m now] l IH]; intros records h Hs Hf Hr Hh; [done|].
  destruct m; cbn in Hr |- *; try by apply (IH records).
  destruct records as [|r records]; [done|]. injection Hr as E1 E2 Hr. rewrite E1, E2.
  inversion_clear Hf as [|? ? Hr0 Hf']. split; [by apply Hh|]. split; [done|].
  apply (IH records); [by destruct records as [|r' rs]; [|apply Hs]|done|done|].
  intros r' Hr'. destruct records as [|r'' rs]; [done|]. injection Hr' as ->.
  destruct Hs as [Hs _]. exact Hs.
Qed.

(** C18. A playback that goes out through the deadline sender is never reported
    as too fast: whatever else the pipeline reports in between, no interval
    between track packets is shorter than the packet before it, no window of
    packets carries more media than the wall clock it took, and neither does
    the whole playback. *)
Theorem paced_playback_never_fast {K : Type} `{!PreparedUdpSink K} `{!UnstableSort} (s s' : @DeadlineSender K) clock envs l
    epoch video itag depth source t1 t2 t3 t4 base g d r ended :
  run_ordered s clock envs -> 0 <= ds_tick s -> ds_sent s = [] -> run s envs = (s', Ok tt) ->
  Forall (fun r => 0 <= sr_duration_samples r) (ds_sent s') -> reports (ds_sent s') l ->
  let sn := snapshot g d r ended (record_all l (Collector_new epoch video itag depth source t1 t2 t3 t4 base)) in
  sn_track_fast_interval_count sn = 0 /\ sn_track_tempo_window_fast_count sn = 0 /\
  sn_track_tempo_window_max_ratio_ppm sn <= 1000000 /\ sn_track_media_to_wall_clock_ratio_ppm sn <= 1000000.
Proof.
  intros Ho Ht Hn Hrun Hf Hr sn.
  assert (Hs : spaced (ds_sent s')).
  { apply (run_spaced s clock envs); [done|done|by rewrite Hn| |done]. intros r0. by rewrite Hn. }
  set (c0 := Collector_new _ _ _ _ _ _ _ _ _ _) in sn.
  set (h := match head (ds_sent s') with Some r => sr_send_started_at r | None => 0 end).
  destruct (paced_all l h c0) as [h' [_ _ H3 [H4 _] H5 H6]].
  - apply fresh_paced, fresh_new.
  - apply (spaced_reports (ds_sent s')); [done..|]. intros r0 E. unfold h. rewrite E. lia.
  - split; [exact H4|]. split; [unfold sn; cbn; by rewrite H5|]. split; [apply H6|]. by apply ratio_at_most_one.
Qed.

(** *** Order statistics *)

Lemma percentile_index_bound len p : (p <= 100)%nat -> (percentile_index (S len) p <= len)%nat.
Proof.
  intros H. unfold percentile_index. rewrite Nat.sub_succ, Nat.sub_0_r.
  apply Nat.lt_succ_r, Nat.Div0.div_lt_upper_bound. nia.
Qed.

(** At least so many elements of a sorted list are below its [i]th. *)
Lemma sorted_rank (l : list Z) i x :
  StronglySorted Z.le l -> l !! i = Some x -> (S i <= length (filter (fun y => (y <= x)%Z) l))%nat.
Proof.
  intros Hs. revert i. induction Hs as [|a l Hs IH Ha]; intros i Hi; [done|].
  destruct i as [|i]; cbn in Hi.
  - injection Hi as ->. rewrite filter_cons_True by lia. cbn. lia.
  - rewrite filter_cons_True; [cbn; specialize (IH i Hi); lia|].
    eapply Forall_lookup_1 in Ha; [|exact Hi]. done.
Qed.

Lemma sorted_lookup_le (l : list Z) i j x y :
  StronglySorted Z.le l -> (i <= j)%nat -> l !! i = Some x -> l !! j = Some y -> x <= y.
Proof.
  intros Hs. revert i j. induction Hs as [|a l Hs IH Ha]; intros i j Hij Hi Hj; [done|].
  destruct i as [|i], j as [|j]; cbn in Hi, Hj; try lia.
  - injection Hi as ->. injection Hj as ->. lia.
  - injection Hi as ->. eapply Forall_lookup_1 in Ha; [|exact Hj]. done.
  - by apply (IH i j); [lia|..].
Qed.

Lemma sort_durations_perm l : sort_durations l ≡ₚ l.
Proof. apply merge_sort_Permutation. Qed.
Lemma sort_durations_sorted l : StronglySorted Z.le (sort_durations l).
Proof. apply StronglySorted_merge_sort; [intros ???; lia|intros x y; lia]. Qed.

(** A percentile of recorded durations is one of them, and no fewer of them
    are at most as long than its rank says. *)
Definition is_percentile (samples : list Z) (p : nat) (x : Z) : Prop :=
  x ∈ samples /\ ((length samples - 1) * p < 100 * length (filter (fun y => (y <= x)%Z) samples))%nat.

Lemma percentile_spec samples p :
  samples <> [] -> (p <= 100)%nat ->
  sort_durations samples !! percentile_index (length samples) p
    = Some (percentile_duration (sort_durations samples) p) /\
  is_percentile samples p (percentile_duration (sort_durations samples) p).
Proof.
  intros Hne Hp. unfold percentile_duration. pose proof (sort_durations_perm samples) as Hperm.
  rewrite (Permutation_length Hperm).
  destruct (lookup_lt_is_Some_2 (sort_durations samples) (percentile_index (length samples) p)) as [x Hx].
  { rewrite (Permutation_length Hperm). destruct samples as [|a samples]; [done|]. cbn [length].
    pose proof (percentile_index_bound (length samples) p Hp). lia. }
  rewrite Hx. split; [done|]. cbn. split.
  - rewrite <- Hperm. by eapply list_elem_of_lookup_2.
  - apply sorted_rank in Hx; [|apply sort_durations_sorted].
    rewrite (Permutation_length (filter_Permutation _ _ _ Hperm)) in Hx.
    pose proof (Nat.Div0.mod_le ((length samples - 1) * p + 99) 100).
    pose proof (Nat.div_mod ((length samples - 1) * p + 99) 100 ltac:(done)).
    pose proof (Nat.mod_upper_bound ((length samples - 1) * p + 99) 100 ltac:(done)).
    unfold percentile_index in Hx. lia.
Qed.

Lemma duration_millis_mono x y : x <= y -> duration_millis x <= duration_millis y.
Proof. intros H. unfold duration_millis. pose proof (Z.div_le_mono x y 1000000 ltac:(done) H). lia. Qed.

Lemma percentile_index_mono len p q : (p <= q)%nat -> (percentile_index len p <= percentile_index len q)%nat.
Proof. intros H. unfold percentile_index. apply Nat.Div0.div_le_mono. nia. Qed.

Lemma sorted_index_le samples i j x y :
  (i <= j)%nat -> sort_durations samples !! i = Some x -> sort_durations samples !! j = Some y ->
  duration_millis x <= duration_millis y.
Proof. intros. apply duration_millis_mono. by eapply sorted_lookup_le; [apply sort_durations_sorted|..]. Qed.

(** The statistics of recorded durations are order statistics: each
    published percentile is one of the recorded durations, with the share of
    the recording at most as long that its rank demands, and minimum, median,
    95th, 99th percentile and maximum are ordered. *)
Theorem duration_stats_are_order_statistics samples :
  samples <> [] ->
  let st := duration_stats samples in
  st_samples st = Z.of_nat (length samples) /\
  (exists p50 p95 p99, is_percentile samples 50 p50 /\ is_percentile samples 95 p95 /\ is_percentile samples 99 p99 /\
     st_p50_ms st = duration_millis p50 /\ st_p95_ms st = duration_millis p95 /\ st_p99_ms st = duration_millis p99) /\
  (forall x, x ∈ samples -> st_min_ms st <= duration_millis x <= st_max_ms st) /\
  st_min_ms st <= st_p50_ms st <= st_p95_ms st /\ st_p95_ms st <= st_p99_ms st <= st_max_ms st.
Proof.
  intros Hne st. unfold st, duration_stats. rewrite bool_decide_false by done. cbn.
  pose proof (sort_durations_perm samples) as Hp. pose proof (Permutation_length Hp) as Hlen.
  destruct (percentile_spec samples 50 Hne ltac:(lia)) as [L50 P50].
  destruct (percentile_spec samples 95 Hne ltac:(lia)) as [L95 P95].
  destruct (percentile_spec samples 99 Hne ltac:(lia)) as [L99 P99].
  assert (0 < length samples)%nat by (destruct samples; [done|cbn; lia]).
  destruct (lookup_lt_is_Some_2 (sort_durations samples) 0) as [lo Elo]; [lia|].
  destruct (lookup_lt_is_Some_2 (sort_durations samples) (length samples - 1)) as [hi Ehi]; [lia|].
  rewrite Hlen, Elo, Ehi. cbn. pose proof (lookup_lt_Some _ _ _ L99) as B99. rewrite Hlen in B99.
  pose proof (percentile_index_mono (length samples)) as Hmono.
  split; [done|]. split; [by do 3 eexists; split_and!|]. split; [intros x Hx|split_and!].
  - rewrite <- Hp in Hx. apply list_elem_of_lookup_1 in Hx as [i Hi]. pose proof (lookup_lt_Some _ _ _ Hi).
    split; [apply (sorted_index_le samples 0 i)|apply (sorted_index_le samples i (length samples - 1))]; done || lia.
  - eapply (sorted_index_le samples 0); [lia|done|exact L50].
  - eapply sorted_index_le; [|exact L50|exact L95]. apply Hmono. lia.
  - eapply sorted_index_le; [|exact L95|exact L99]. apply Hmono. lia.
  - eapply sorted_index_le; [|exact L99|exact Ehi]. lia.
Qed.

(** *** Streaks of late packets *)

Definition is_late (lateness : Z) : Prop := LATE_PACKET_THRESHOLD < lateness.

(** How late the reported track packets were. *)
Definition track_lateness (m : message) : option Z :=
  s ← sent_of m;
  if sm_is_track s then Some (sat_sub (sm_send_started_at s) (sm_expected_deadline s)) else None.

(** [n] is the length of the longest part of [l] of late packets only; of the
    longest such part that ends with [l]. *)
Definition longest_run (l : list Z) (n : Z) : Prop :=
  (exists a b c, l = a ++ b ++ c /\ Forall is_late b /\ Z.of_nat (length b) = n) /\
  (forall a b c, l = a ++ b ++ c -> Forall is_late b -> Z.of_nat (length b) <= n).
Definition running_streak (l : list Z) (n : Z) : Prop :=
  (exists a b, l = a ++ b /\ Forall is_late b /\ Z.of_nat (length b) = n) /\
  (forall a b, l = a ++ b -> Forall is_late b -> Z.of_nat (length b) <= n).

Lemma app_snoc_inv (a b l : list Z) x :
  l ++ [x] = a ++ b -> (b = [] /\ a = l ++ [x]) \/ (exists b', b = b' ++ [x] /\ l = a ++ b').
Proof.
  induction b as [|y b _] using rev_ind; intros H.
  - left. by rewrite app_nil_r in H.
  - right. rewrite app_assoc in H. apply app_inj_tail in H as [-> ->]. by exists b.
Qed.

Lemma streak_late l n x : is_late x -> running_streak l n -> running_streak (l ++ [x]) (n + 1).
Proof.
  intros Hx [(a & b & -> & Hb & <-) Hmax]. split.
  - exists a, (b ++ [x]). rewrite app_assoc, length_app. split; [done|]. split; [apply Forall_app_2; [done|by constructor]|]. cbn. lia.
  - intros a' b' E Hb'. apply app_snoc_inv in E as [[-> _]|(b0 & -> & E)]; [cbn; lia|].
    apply Forall_app in Hb' as [Hb' _]. specialize (Hmax _ _ E Hb'). rewrite length_app. cbn. lia.
Qed.
Lemma streak_on_time l x : ~ is_late x -> running_streak (l ++ [x]) 0.
Proof.
  intros Hx. split; [exists (l ++ [x]), []; by rewrite app_nil_r|].
  intros a b E Hb. apply app_snoc_inv in E as [[-> _]|(b0 & -> & _)]; [done|].
  apply Forall_app in Hb as [_ Hb]. by inversion Hb.
Qed.

(** A run of the longer list ends with it or is a run of the shorter. *)
Lemma longest_run_snoc l n k x :
  longest_run l n -> running_streak (l ++ [x]) k -> longest_run (l ++ [x]) (Z.max n k).
Proof.
  intros [(a & b & c & -> & Hb & <-) Hmax] [(a' & b' & E & Hb' & <-) Hstreak]. split.
  - destruct (Z.max_spec (Z.of_nat (length b)) (Z.of_nat (length b'))) as [[_ ->]|[_ ->]].
    + exists a', b', []. by rewrite app_nil_r.
    + exists a, b, (c ++ [x]). by rewrite <- !app_assoc.
  - intros a0 b0 c0 E0 Hb0. rewrite (app_assoc a0) in E0.
    apply app_snoc_inv in E0 as [[-> E0]|(c1 & -> & E0)].
    + specialize (Hstreak a0 b0 (eq_sym E0) Hb0). lia.
    + rewrite <- (app_assoc a0) in E0. specialize (Hmax _ _ _ E0 Hb0). lia.
Qed.

(** What the collector holds after lateness [l]. *)
Record lateness_exact (l : list Z) (t : Lateness) : Prop := {
  le_recorded : lt_sender_lateness t = l;
  le_count : lt_late_frame_count t = Z.of_nat (length (filter is_late l));
  le_longest : longest_run l (lt_max_consecutive_late_packets t);
  le_current : running_streak l (lt_current_consecutive_late_packets t);
}.

Lemma streak_bound l n : running_streak l n -> 0 <= n <= Z.of_nat (length l).
Proof. intros [(a & b & -> & _ & <-) _]. rewrite length_app. lia. Qed.

Lemma lateness_exact_note l t x :
  Z.of_nat (length l) < usize_max -> lateness_exact l t -> lateness_exact (l ++ [x]) (note_lateness x t).
Proof.
  intros Hb [H1 H2 H3 H4]. pose proof (streak_bound _ _ H4). pose proof (length_filter is_late l).
  assert (usize_max <= u64_max) by done. unfold note_lateness. zcase.
  - pose proof (streak_late l _ x ltac:(unfold is_late; lia) H4) as Hs.
    split; cbn; rewrite ?H1, ?filter_app, ?length_app; unfold sat_add.
    + done.
    + rewrite filter_cons_True, filter_nil by done. cbn. lia.
    + rewrite Z.min_r by lia. by apply longest_run_snoc.
    + by rewrite Z.min_r by lia.
  - assert (Hx : ~ is_late x) by (unfold is_late; lia). pose proof (streak_on_time l x Hx) as Hs.
    split; cbn; rewrite ?H1, ?filter_app, ?length_app; [done| | |done].
    + rewrite filter_cons_False, filter_nil by done. cbn. lia.
    + pose proof (longest_run_snoc l _ _ x H3 Hs) as Hl.
      destruct H3 as [(? & b & ? & _ & _ & E) _]. rewrite Z.max_l in Hl by lia. exact Hl.
Qed.

Lemma lateness_other m now c :
  track_lateness (m, now) = None -> mc_lateness (record_metric m now c) = mc_lateness c.
Proof.
  unfold track_lateness. destruct m; cbn; untouched.
Qed.
Lemma lateness_track m now c x :
  track_lateness (m, now) = Some x -> mc_lateness (record_metric m now c) = note_lateness x (mc_lateness c).
Proof.
  unfold track_lateness. destruct m; cbn; try done.
  destruct (sm_is_track _) eqn:E; [|done]. intros [= <-]. unfold record_sent. rewrite E. untouched.
Qed.

Lemma omap_length_le {A B} (f : A -> option B) l : (length (omap f l) <= length l)%nat.
Proof. induction l as [|x l IH]; cbn; [done|]. destruct (f x); cbn; lia. Qed.

Lemma lateness_exact_all l c :
  Z.of_nat (length l) <= usize_max -> lateness_exact [] (mc_lateness c) ->
  lateness_exact (omap track_lateness l) (mc_lateness (record_all l c)).
Proof.
  intros Hl H0. induction l as [|[m now] l IH] using rev_ind; [done|].
  rewrite length_app in Hl. cbn in Hl. rewrite record_all_app, omap_app. cbn.
  specialize (IH ltac:(lia)). destruct (track_lateness (m, now)) as [x|] eqn:E.
  - rewrite (lateness_track m now _ x E). apply lateness_exact_note; [|done].
    pose proof (omap_length_le track_lateness l). lia.
  - by rewrite (lateness_other m now _ E), app_nil_r.
Qed.

(** Late packets are counted exactly: after any messages of the pipeline
    the late count is the number of track packets whose send started more than
    the threshold after its deadline, the longest streak is the length of the
    longest run of such packets among the reported ones, and the current streak
    the length of the run that is still going on. *)
Theorem late_streaks_are_longest_runs `{UnstableSort} l epoch video itag depth source t1 t2 t3 t4 base g d r ended :
  Z.of_nat (length l) <= usize_max ->
  let sn := snapshot g d r ended (record_all l (Collector_new epoch video itag depth source t1 t2 t3 t4 base)) in
  let lateness := omap track_lateness l in
  sn_late_frame_count sn = Z.of_nat (length (filter is_late lateness)) /\
  longest_run lateness (sn_max_consecutive_late_packets sn) /\
  running_streak lateness (sn_current_consecutive_late_packets sn) /\
  sn_sender_lateness sn = duration_stats lateness.
Proof.
  intros Hl sn lateness. set (c0 := Collector_new _ _ _ _ _ _ _ _ _ _) in sn.
  assert (H0 : lateness_exact [] (mc_lateness c0)).
  { split; [done|done|split|split]; [by exists [], [], []| |by exists [], []|].
    - intros a b c E _. symmetry in E. apply app_nil in E as [_ E]. apply app_nil in E as [-> _]. done.
    - intros a b E _. symmetry in E. by apply app_nil in E as [_ ->]. }
  destruct (lateness_exact_all l c0 Hl H0) as [H1 H2 H3 H4]. split_and!; [exact H2|exact H3|exact H4|].
  unfold lateness. rewrite <- H1. reflexivity.
Qed.

(** *** Measures that never move *)

(** The depth of the egress buffer starts at zero and the smallest depth seen is
    published: it is zero whatever the buffer does. *)
Definition depths_nonneg (m : message) : Prop :=
  match m.1 with
  | EgressDepth d | SenderEgressUnderrun d => 0 <= bd_duration_samples d
  | SenderSent s => 0 <= bd_duration_samples (sm_egress_depth s)
  | _ => True
  end.

Lemma min_playout_depth_message m now c :
  depths_nonneg (m, now) -> rg_min (dp_playout (mc_depths c)) = OpusBufferDepth_default ->
  rg_min (dp_playout (mc_depths (record_metric m now c))) = OpusBufferDepth_default.
Proof.
  unfold depths_nonneg. cbn [fst]. intros Hm H.
  assert (Hd : forall d, 0 <= bd_duration_samples d -> min_depth OpusBufferDepth_default d = OpusBufferDepth_default)
    by (intros d Hd; unfold min_depth; by rewrite (proj2 (Z.ltb_ge _ _))).
  destruct m; try (etransitivity; [|exact H]; untouched); cbn in Hm |- *;
    unfold record_sent, record_media_clock_reset; repeat case_match; cbn; rewrite H; by apply Hd.
Qed.

Lemma starved_message m now c :
  sv_buffer_low_watermark_count (mc_starved (record_metric m now c)) = sv_buffer_low_watermark_count (mc_starved c) /\
  sv_buffer_underrun_count (mc_starved (record_metric m now c)) = sv_buffer_underrun_count (mc_starved c).
Proof. split; destruct m; untouched. Qed.

(** Fields that no message changes. *)
Definition frozen (c : Collector) : Prop :=
  rg_min (dp_playout (mc_depths c)) = OpusBufferDepth_default /\
  sv_buffer_low_watermark_count (mc_starved c) = 0 /\ sv_buffer_underrun_count (mc_starved c) = 0.

(** The smallest egress depth, the low-watermark count and the underrun count
    of the undivided buffer are published but stay zero. *)
Lemma frozen_measures `{UnstableSort} l epoch video itag depth source t1 t2 t3 t4 base g d r ended :
  Forall depths_nonneg l ->
  let sn := snapshot g d r ended (record_all l (Collector_new epoch video itag depth source t1 t2 t3 t4 base)) in
  sn_min_playout_buffer_depth sn = OpusBufferDepth_default /\
  sn_buffer_low_watermark_count sn = 0 /\ sn_buffer_underrun_count sn = 0.
Proof.
  intros Hl sn. set (c0 := Collector_new _ _ _ _ _ _ _ _ _ _) in sn. change (frozen (record_all l c0)).
  induction l as [|[m now] l IH] using rev_ind; [done|].
  apply Forall_app in Hl as [Hl Hm]. inversion_clear Hm as [|? ? Hm' _]. specialize (IH Hl) as (H1 & H2 & H3).
  rewrite record_all_app. cbn. split; [by apply min_playout_depth_message|].
  destruct (starved_message m now (record_all l c0)) as [-> ->]. done.
Qed.

(** ** A short playback *)

Module Sample.

Definition by_samples (a b : OpusBufferDepth) : Prop := bd_duration_samples a <= bd_duration_samples b.
#[local] Instance by_samples_dec : RelDecision by_samples.
Proof. intros a b. unfold by_samples. apply _. Defined.
#[local] Instance by_samples_total : Total by_samples.
Proof. intros a b. unfold by_samples. lia. Qed.
#[local] Instance by_samples_trans : Transitive by_samples.
Proof. intros a b c. unfold by_samples. lia. Qed.

#[export, refine] Instance merge_sorted : UnstableSort := {| sort_by_samples := merge_sort by_samples |}.
Proof.
  - intros l. apply merge_sort_Permutation.
  - intros l. apply (StronglySorted_merge_sort by_samples).
Defined.

Definition depth : OpusBufferDepth := mkOpusBufferDepth 5 500 100 4800.
Definition fresh_collector : Collector :=
  Collector_new 1 "v" 251 depth depth 1000 1000 100 2000 (mkPlaybackRecoveryMetrics 0 0).

(** A send of the deadline sender as it is reported. *)
Definition report (r : DeadlineSendRecord) : message :=
  (SenderSent (mkSenderSent 0 KTrack (sr_duration_ms r) (sr_duration_samples r) true (sr_expected_deadline r)
     (sr_send_started_at r) (sr_sent_at r) (sr_sent_at r - sr_send_started_at r) (sr_rtp_sequence r)
     (sr_rtp_timestamp r) (sr_protection_nonce r) (sr_media_frame r) 0 (mkDrain 0 0 0) false false depth depth), 0).

(** The two packets of the sample run, with a depth in between. *)
Definition paced_messages : list message :=
  (SenderStarted depth, 0) :: flat_map (fun r => [report r; (EgressDepth depth, 0)]) (ds_sent sample_ticked).

(** Two drops of the same frame position at a DAVE transition, one rebuilt. *)
Definition queue_event (kind : PreparedPlayoutQueueEventKind) (index position : Z) : message :=
  (PreparedPlayoutQueueEvent (mkPlayoutEvent index kind DaveTransitionRecovery CTrack 20 960 1 960 None
     (Some 1) (Some (position / 48)) (Some position) None depth), 0).
Definition drop_messages : list message :=
  [queue_event DroppedBeforeSend 0 960; queue_event DroppedBeforeSend 1 1920; queue_event Rebuilt 2 960;
   queue_event Rebuilt 3 960].


Lemma paced_playback_never_fast_witness :
  let sn := snapshot 0 0 0 false (record_all paced_messages fresh_collector) in
  sn_track_packet_count sn = 2 /\ sn_track_fast_interval_count sn = 0 /\
  sn_track_media_to_wall_clock_ratio_ppm sn <= 1000000.
Proof.
  split; [vm_compute; reflexivity|].
  destruct (paced_playback_never_fast sample_sender sample_ticked 0 sample_ticks paced_messages 1 "v" 251 depth depth
    1000 1000 100 2000 (mkPlaybackRecoveryMetrics 0 0) 0 0 0 false) as (H1 & _ & _ & H4).
  - exact sample_ticks_ordered.
  - vm_compute. discriminate.
  - reflexivity.
  - exact sample_run_ok.
  - vm_compute. repeat constructor; discriminate.
  - vm_compute. reflexivity.
  - split; [exact H1|exact H4].
Defined.

Lemma duration_stats_are_order_statistics_witness :
  duration_stats [40000000; 20000000; 21000000] = mkDurationStats 3 21 40 40 20 40 /\
  st_p50_ms (duration_stats [40000000; 20000000; 21000000]) <= st_p95_ms (duration_stats [40000000; 20000000; 21000000]).
Proof.
  split; [vm_compute; reflexivity|].
  apply (duration_stats_are_order_statistics [40000000; 20000000; 21000000]). discriminate.
Defined.

(** Late by 6, 7, 0 and 9 ms. *)
Definition late_messages : list message :=
  map (fun '(deadline, late) => report (mkDeadlineSendRecord deadline (deadline + late) (deadline + late) KTrack 20 960
    1 960 None None)) [(20000000, 6000000); (46000000, 7000000); (73000000, 0); (93000000, 9000000)].

Lemma late_streaks_are_longest_runs_witness :
  let sn := snapshot 0 0 0 false (record_all late_messages fresh_collector) in
  sn_late_frame_count sn = 3 /\ sn_max_consecutive_late_packets sn = 2 /\
  longest_run (omap track_lateness late_messages) 2 /\ running_streak (omap track_lateness late_messages) 1.
Proof.
  destruct (late_streaks_are_longest_runs late_messages 1 "v" 251 depth depth 1000 1000 100 2000
    (mkPlaybackRecoveryMetrics 0 0) 0 0 0 false) as (H1 & H2 & H3 & _).
  - vm_compute. discriminate.
  - split; [etransitivity; [exact H1|vm_compute; reflexivity]|]. split; [vm_compute; reflexivity|].
    split; [exact H2|exact H3].
Defined.

End Sample.
