(* ===== verification/MediaDriver.v ===== *)
(** * The live media driver

    crates/discord-voice-service-runtime/src/session/runtime.rs,
    [LiveMediaDriver] and [LiveDeadlineSender]: the thread that owns the voice
    session during a playback. A turn of its loop reads what the deadline
    sender did, obeys media commands, prepares the session for the next slot,
    refills its stages from the source buffer, turns frames into packets, hands
    packets to the deadline sender and waits for it.

    The operations are tasks of Task.v over the state [Loop]: the stages of
    Egress.v, the deadline sender of DeadlineSender.v and the local variables
    of the loop. Three others run meanwhile: the deadline sender's thread,
    which ticks any number of times before each access to its channels; the
    producer, which feeds the source buffer before each access to it; the
    session runtime, whose commands and whose playback epoch are questions. The
    voice session and the clock are questions too, with arbitrary answers. An
    await that the answers do not end blocks the task. *)

From S2P Require Import Prelude VoiceErrors Text OpusQueue Udp Pacer DeadlineSender Egress Task.
From stdpp Require Import prelude strings pretty.
Open Scope Z_scope.
Open Scope task_scope.

Definition STOP_AUDIO_BOUNDARY_SILENCE_PACKETS : nat := 5.
Definition LIVE_DEADLINE_COMMAND_CHANNEL_CAPACITY : nat := 25.
Definition LIVE_DEADLINE_RECORD_CHANNEL_CAPACITY : nat := 64.
Definition SOURCE_UNDERRUN_DEADLINE_AHEAD_PACKETS : nat := 3.

Inductive MediaCommand : Type :=
| CommandPause
| CommandResume
| CommandStop (account_popped_frame_as_skipped : bool).

(** [err.to_string()]. *)
Definition voice_error_to_string (e : VoiceError) : string :=
  match e with
  | UnsupportedEncryptionMode => "unsupported encryption mode"
  | UnsupportedGatewayOp op => "voice gateway op unsupported: " +:+ pretty op
  | UnsupportedBinaryGatewayOp op => "voice gateway binary opcode unsupported: " +:+ pretty op
  | InvalidState reason => "invalid state: " +:+ reason
  | Io message | InvalidUri message | WebSocket message => message
  end.
Definition mentions_dave (e : VoiceError) : bool := Text.contains (voice_error_to_string e) "dave".

Definition frame_duration_from_samples (duration_samples : Z) : Z :=
  sat_mul u64_max duration_samples 1000000000 / 48000.

Definition no_drain : DrainReport := mkDrain 0 0 0.

(** What the producer put into the source buffer since the last look: frames,
    and then perhaps the end of the stream or an error, after which it has
    returned. *)
Inductive FeedEnd : Type := FeedMore | FeedDone | FeedFailed (e : PlaybackError).
Record Feed : Type := mkFeed {
  fe_frames : list OpusFrame;
  fe_end : FeedEnd;
}.

(** What ends the wait for the deadline sender, and the wait of a pause;
    [None] is a closed command channel. *)
Inductive Selected : Type := OutcomeReady | CommandReady (command : option MediaCommand).
Inductive Woken : Type := PauseTimer | PauseCommand (command : option MediaCommand).

Section driver.
Context {K : Type} `{!PreparedUdpSink K}.

Record Loop : Type := mkLoop {
  lo_driver : Driver;
  lo_generation : Z;
  lo_sender : @DeadlineSender K;
  lo_running : bool;
  lo_pending : list PendingDeadlineCommand;
  lo_pacer : AudioPacer;
  lo_packet_index : Z;
  lo_paused : bool;
  lo_source_ended : bool;
  lo_source_underrun_active : bool;
  lo_producing : bool;
  lo_fed : list OpusFrame;
}.
(** [lo_running]: the sender's thread has not returned. [lo_producing]: the
    producer has not returned. [lo_fed] is a history: every frame the producer
    has put into the source buffer. *)

Definition set_driver (d : Driver) (l : Loop) : Loop :=
  mkLoop d (lo_generation l) (lo_sender l) (lo_running l) (lo_pending l) (lo_pacer l) (lo_packet_index l)
    (lo_paused l) (lo_source_ended l) (lo_source_underrun_active l) (lo_producing l) (lo_fed l).
Definition set_generation (g : Z) (l : Loop) : Loop :=
  mkLoop (lo_driver l) g (lo_sender l) (lo_running l) (lo_pending l) (lo_pacer l) (lo_packet_index l)
    (lo_paused l) (lo_source_ended l) (lo_source_underrun_active l) (lo_producing l) (lo_fed l).
Definition set_sender (s : @DeadlineSender K) (running : bool) (l : Loop) : Loop :=
  mkLoop (lo_driver l) (lo_generation l) s running (lo_pending l) (lo_pacer l) (lo_packet_index l)
    (lo_paused l) (lo_source_ended l) (lo_source_underrun_active l) (lo_producing l) (lo_fed l).
Definition set_pending (p : list PendingDeadlineCommand) (l : Loop) : Loop :=
  mkLoop (lo_driver l) (lo_generation l) (lo_sender l) (lo_running l) p (lo_pacer l) (lo_packet_index l)
    (lo_paused l) (lo_source_ended l) (lo_source_underrun_active l) (lo_producing l) (lo_fed l).
Definition set_pacer (p : AudioPacer) (l : Loop) : Loop :=
  mkLoop (lo_driver l) (lo_generation l) (lo_sender l) (lo_running l) (lo_pending l) p (lo_packet_index l)
    (lo_paused l) (lo_source_ended l) (lo_source_underrun_active l) (lo_producing l) (lo_fed l).
Definition set_packet_index (n : Z) (l : Loop) : Loop :=
  mkLoop (lo_driver l) (lo_generation l) (lo_sender l) (lo_running l) (lo_pending l) (lo_pacer l) n
    (lo_paused l) (lo_source_ended l) (lo_source_underrun_active l) (lo_producing l) (lo_fed l).
Definition set_paused (b : bool) (l : Loop) : Loop :=
  mkLoop (lo_driver l) (lo_generation l) (lo_sender l) (lo_running l) (lo_pending l) (lo_pacer l)
    (lo_packet_index l) b (lo_source_ended l) (lo_source_underrun_active l) (lo_producing l) (lo_fed l).
Definition set_source_flags (ended underrun : bool) (l : Loop) : Loop :=
  mkLoop (lo_driver l) (lo_generation l) (lo_sender l) (lo_running l) (lo_pending l) (lo_pacer l)
    (lo_packet_index l) (lo_paused l) ended underrun (lo_producing l) (lo_fed l).
Definition set_fed (d : Driver) (producing : bool) (frames : list OpusFrame) (l : Loop) : Loop :=
  mkLoop d (lo_generation l) (lo_sender l) (lo_running l) (lo_pending l) (lo_pacer l) (lo_packet_index l)
    (lo_paused l) (lo_source_ended l) (lo_source_underrun_active l) producing frames.
Definition upd_driver (f : Driver -> Driver) (l : Loop) : Loop := set_driver (f (lo_driver l)) l.

(** ** The producer *)

(** The frames pushed to the source queue; the second component is those that
    went in, the third whether all did. *)
Fixpoint feed_frames (frames : list OpusFrame) (q : OpusFrameQueue) : OpusFrameQueue * list OpusFrame * bool :=
  match frames with
  | [] => (q, [], true)
  | f :: rest =>
      match push q f with
      | (q', Ok _) => let '(q'', fed, ok) := feed_frames rest q' in (q'', f :: fed, ok)
      | (_, _) => (q, [], false)
      end
  end.

Definition feed (f : Feed) (l : Loop) : Loop :=
  if lo_producing l then
    let d := lo_driver l in
    let s := d_source d in
    let '(q, fed, ok) := feed_frames (fe_frames f) (sb_queue s) in
    let '(s', producing) :=
      if ok : bool then
        match fe_end f with
        | FeedMore => (mkSourceBufferState q (sb_end_of_stream s) (sb_error s), true)
        | FeedDone => (mkSourceBufferState q true (sb_error s), false)
        | FeedFailed e => (mkSourceBufferState q (sb_end_of_stream s) (Some e), false)
        end
      else (mkSourceBufferState q (sb_end_of_stream s) (Some BufferFull), false) in
    set_fed (set_source s' d) producing (lo_fed l ++ fed) l
  else l.

(** ** The deadline sender's thread *)

(** [DeadlineSender::new_with_next_deadline_records_and_generation]. *)
Definition new_sender (sink : K) (next_deadline : Z) : @DeadlineSender K :=
  mkDeadlineSender sink [] false true false [] [] 0 DEADLINE_TICK (Some next_deadline).

(** A tick reads the generation of the driver and finds its commands in the
    channel; an error ends the thread. A record that finds the channel full is
    not delivered. *)
Definition has_room {A} (records : list A) : bool :=
  (length records <? LIVE_DEADLINE_RECORD_CHANNEL_CAPACITY)%nat.
Definition thread_env (l : Loop) (e : TickEnv) : TickEnv :=
  let s := lo_sender l in
  let room :=
    match ds_commands s with
    | c :: _ => if pc_generation c =? lo_generation l then has_room (ds_sent s) else has_room (ds_dropped s)
    | [] => true
    end in
  mkTickEnv (te_now e) (te_sleep e) [] (lo_generation l) (te_started e) (te_sock e) (te_sent e) room.
Definition deliver_up_to_capacity (s : @DeadlineSender K) : @DeadlineSender K :=
  mkDeadlineSender (ds_sink s) (ds_commands s) (ds_disconnected s) (ds_checks_generation s) (ds_shutdown s)
    (take LIVE_DEADLINE_RECORD_CHANNEL_CAPACITY (ds_sent s))
    (take LIVE_DEADLINE_RECORD_CHANNEL_CAPACITY (ds_dropped s)) (ds_empty_tick_count s) (ds_tick s)
    (ds_next_deadline s).
Definition thread_tick (l : Loop) (e : TickEnv) : Loop :=
  if lo_running l then
    match tick_once (lo_sender l) (thread_env l e) with
    | None => l
    | Some (s, Ok _) => set_sender s (negb (ds_shutdown s)) l
    | Some (s, _) => set_sender (deliver_up_to_capacity s) false l
    end
  else l.
Definition thread_runs (envs : list TickEnv) (l : Loop) : Loop := fold_left thread_tick envs l.

(** The records leave their channels one at a time. *)
Definition with_records (sent : list DeadlineSendRecord) (dropped : list DeadlineDropRecord) (l : Loop) : Loop :=
  let s := lo_sender l in
  set_sender (mkDeadlineSender (ds_sink s) (ds_commands s) (ds_disconnected s) (ds_checks_generation s)
    (ds_shutdown s) sent dropped (ds_empty_tick_count s) (ds_tick s) (ds_next_deadline s)) (lo_running l) l.
Definition with_command (c : PreparedPlayoutCommand) (l : Loop) : Loop :=
  let s := lo_sender l in
  set_sender (mkDeadlineSender (ds_sink s) (ds_commands s ++ [c]) (ds_disconnected s) (ds_checks_generation s)
    (ds_shutdown s) (ds_sent s) (ds_dropped s) (ds_empty_tick_count s) (ds_tick s) (ds_next_deadline s))
    (lo_running l) l.

(** ** Questions *)

Inductive question : Type :=
| AskFeed
| AskTicks
| AskNow
| AskSink
| AskCurrent
| AskCommands
| AskSelect
| AskPaused
| AskSentFirst
| AskPrepareSlot (expected_deadline : Z)
| AskSettle
| AskSpeaking
| AskPacket (data : list Z) (duration_samples : Z)
| AskStopSpeaking
| AskDiscard
| AskThreadResult.

(** [AskSink]: a clone of the session's packet sender and a thread for it, or
    why there is none. [AskCommands]: what [try_recv] yields until the channel
    is empty. [AskDiscard] is [discard_unsent_prepared_packets], which returns
    nothing. *)
Definition answer (q : question) : Type :=
  match q with
  | AskFeed => Feed
  | AskTicks => list TickEnv
  | AskNow => Z
  | AskSink => rresult K
  | AskCurrent | AskSentFirst => bool
  | AskCommands => list MediaCommand
  | AskSelect => Selected
  | AskPaused => Woken
  | AskPrepareSlot _ | AskSettle => vresult DrainReport
  | AskSpeaking | AskStopSpeaking => vresult unit
  | AskPacket _ _ => vresult PreparedVoicePacket
  | AskDiscard => unit
  | AskThreadResult => rresult unit
  end.

Abbreviation ltask A := (prog Loop question answer Empty_set (rresult A)).
Abbreviation ltotal A := (prog Loop question answer Empty_set A).

Definition from_voice {A} (r : vresult A) : rresult A := map_err Voice r.
Definition asking_voice (q : question) {A} (f : answer q -> vresult A) : ltask A :=
  r ← ask q; mret (from_voice (f r)).

(** An access to the source buffer, after whatever the producer did. *)
Definition fed : ltotal unit := f ← ask AskFeed; writes (feed f).
Definition locked {A} (m : dstm A) : ltask A :=
  _ ← fed; act (fun l => let '(d, r) := m (lo_driver l) in Some (set_driver d l, r)).

(** An access to the sender's channels, after whatever its thread did. *)
Definition ticked : ltotal unit := envs ← ask AskTicks; writes (thread_runs envs).

Definition offers (m : PlaybackPipelineMetric) : ltotal unit := writes (upd_driver (offer m)).

(** ** The channels of the deadline sender *)

Definition spawn_sender (sink : K) (next_deadline : Z) : ltotal unit :=
  writes (set_sender (new_sender sink next_deadline) true).

Definition available_command_capacity (l : Loop) : nat :=
  LIVE_DEADLINE_COMMAND_CHANNEL_CAPACITY - length (ds_commands (lo_sender l)).

Definition try_send_command (c : PreparedPlayoutCommand) : ltask unit :=
  _ ← ticked;
  act (fun l => Some
    (if lo_running l then
       if (0 <? available_command_capacity l)%nat then (with_command c l, Ok tt)
       else (l, Err (RInvalidState "deadline sender command channel full"))
     else (l, Err (RInvalidState "deadline sender command channel closed")))).

(** [send_command] waits for room. *)
Definition send_command (c : PreparedPlayoutCommand) : ltask unit :=
  _ ← ticked;
  act (fun l =>
    if lo_running l then
      if (0 <? available_command_capacity l)%nat then Some (with_command c l, Ok tt) else None
    else Some (l, Err (RInvalidState "deadline sender command channel closed"))).

Definition SEND_RECORDS_CLOSED : RuntimeError := RInvalidState "deadline sender send record channel closed".
Definition DROP_RECORDS_CLOSED : RuntimeError := RInvalidState "deadline sender drop record channel closed".

(** [recv] on one record channel: [None] when there is nothing yet. *)
Definition next_sent (l : Loop) : option (Loop * rresult LiveDeadlineOutcome) :=
  match ds_sent (lo_sender l) with
  | r :: rest => Some (with_records rest (ds_dropped (lo_sender l)) l, Ok (Sent r))
  | [] => if lo_running l then None else Some (l, Err SEND_RECORDS_CLOSED)
  end.
Definition next_dropped (l : Loop) : option (Loop * rresult LiveDeadlineOutcome) :=
  match ds_dropped (lo_sender l) with
  | r :: rest => Some (with_records (ds_sent (lo_sender l)) rest l, Ok (Dropped r))
  | [] => if lo_running l then None else Some (l, Err DROP_RECORDS_CLOSED)
  end.

(** [try_recv]: [None] from a channel that is empty. *)
Definition polled (next : Loop -> option (Loop * rresult LiveDeadlineOutcome)) (l : Loop)
    : option (Loop * rresult (option LiveDeadlineOutcome)) :=
  Some match next l with
       | Some (l', Ok o) => (l', Ok (Some o))
       | Some (l', Err e) => (l', Err e)
       | Some (l', Panic) => (l', Panic)
       | None => (l, Ok None)
       end.

(** [try_next_outcome]: both channels are asked, the sent records first. *)
Definition try_next_outcome : ltask (option LiveDeadlineOutcome) :=
  _ ← ticked;
  sent ←? act (polled next_sent);
  match sent with
  | Some outcome => mret (Ok (Some outcome))
  | None => _ ← ticked; act (polled next_dropped)
  end.

(** [next_outcome]: when both are ready, [select!] takes either. *)
Definition next_outcome : ltask LiveDeadlineOutcome :=
  _ ← ticked;
  sent_first ← ask AskSentFirst;
  act (fun l => if sent_first : bool
                then match next_sent l with Some r => Some r | None => next_dropped l end
                else match next_dropped l with Some r => Some r | None => next_sent l end).

Definition shutdown : ltask unit := ask AskThreadResult.

(** ** Generations *)

Definition current_playout_generation : ltotal Z := reads lo_generation.
Definition invalidate_prepared_playout_generation : ltotal unit :=
  _ ← ticked; writes (fun l => set_generation (wrapping_add 64 (lo_generation l) 1) l).
Definition discard_unsent_prepared_packets : ltotal unit := ask AskDiscard.

(** ** Records and pending commands *)

Definition record_deadline_send_metric (r : DeadlineSendRecord) (non_send_work_duration : Z) (drain : DrainReport)
    (remaining_depth egress_depth : OpusBufferDepth) (l : Loop) : Loop :=
  let committed_is_track := bool_decide (is_Some (sr_media_frame r)) in
  let '(pacer, mark) :=
    mark_sent (lo_pacer l) (if committed_is_track then Track else NonTrack) (sr_expected_deadline r)
      (frame_duration_from_samples (sr_duration_samples r)) (sr_send_started_at r) in
  let sent :=
    mkSenderSent (lo_packet_index l) (sr_kind r) (sr_duration_ms r) (sr_duration_samples r) committed_is_track
      (sr_expected_deadline r) (sr_send_started_at r) (sr_sent_at r)
      (sat_sub (sr_sent_at r) (sr_send_started_at r)) (sr_rtp_sequence r) (sr_rtp_timestamp r)
      (sr_protection_nonce r) (sr_media_frame r) non_send_work_duration drain (pm_media_clock_reset mark)
      (pm_tempo_rebased mark) remaining_depth egress_depth in
  set_packet_index (sat_add u64_max (lo_packet_index l) 1)
    (set_pacer pacer (upd_driver (offer (SenderSent sent)) l)).

(** The depth published with a record: what is prepared or handed over. *)
Definition depth_with_pending (l : Loop) : OpusBufferDepth :=
  prepared_playout_depth_with_pending (lo_driver l) (lo_pending l).
Definition report_sent (drain : DrainReport) (remaining_depth : OpusBufferDepth) (r : DeadlineSendRecord)
    : ltotal unit :=
  writes (fun l => record_deadline_send_metric r 0 drain remaining_depth (depth_with_pending l) l).

(** [account_deadline_outcome] on the state of the loop. *)
Definition accounted (outcome : LiveDeadlineOutcome) (remaining_depth : OpusBufferDepth)
    : ltask (option DeadlineSendRecord) :=
  _ ← fed;
  act (fun l =>
    let '((pending, d), r) := account_deadline_outcome outcome remaining_depth (lo_pending l, lo_driver l) in
    Some (set_pending pending (set_driver d l), r)).

(** Each outcome takes a pending command or is an error, so that there are at
    most as many turns as pending commands, and one. *)
Fixpoint drain_outcomes (turns : nat) (remaining_depth : OpusBufferDepth) (sent : list DeadlineSendRecord)
    : ltask (list DeadlineSendRecord) :=
  match turns with
  | O => mret Panic
  | S turns =>
      outcome ←? try_next_outcome;
      match outcome with
      | None => mret (Ok sent)
      | Some outcome =>
          record ←? accounted outcome remaining_depth;
          drain_outcomes turns remaining_depth (match record with Some r => sent ++ [r] | None => sent end)
      end
  end.
Definition drain_ready_deadline_outcomes (remaining_depth : OpusBufferDepth) : ltask (list DeadlineSendRecord) :=
  pending ← reads lo_pending;
  drain_outcomes (S (length pending)) remaining_depth [].

Fixpoint report_all (drain : DrainReport) (remaining_depth : OpusBufferDepth) (records : list DeadlineSendRecord)
    : ltotal unit :=
  match records with
  | [] => mret tt
  | r :: records => _ ← report_sent drain remaining_depth r; report_all drain remaining_depth records
  end.

(** What the loop does at three places: ask the depth, read the outcomes,
    report what was sent. *)
Definition report_ready : ltask unit :=
  ready_source_depth ←? locked current_source_depth;
  sent ←? drain_ready_deadline_outcomes ready_source_depth;
  _ ← report_all no_drain ready_source_depth sent;
  mret (Ok tt).

(** ** Handing packets over *)

Fixpoint pump (turns : nat) : ltask unit :=
  match turns with
  | O => mret Panic
  | S turns =>
      _ ← ticked;
      prepared ← act (fun l =>
        if (0 <? available_command_capacity l)%nat then
          match prepared_pop (d_prepared (lo_driver l)) with
          | (_, None) => Some (l, None)
          | (q, Some prepared) =>
              Some (upd_driver (fun d => record_prepared_playout_event DequeuedToDeadlineSender SteadyPlayback
                                           (pt_command prepared) (prepared_depth q) (set_prepared q d)) l,
                    Some prepared)
          end
        else Some (l, None));
      match prepared with
      | None => mret (Ok tt)
      | Some prepared =>
          let command := pt_command prepared in
          _ ←? try_send_command command;
          _ ← writes (fun l => set_pending
                (lo_pending l ++ [PendingDeadlineCommand_new command (Some (pt_frame prepared))]) l);
          pump turns
      end
  end.
Definition pump_prepared_playout_to_deadline_sender : ltask unit :=
  turns ← reads (fun l => S (length (pq_queue (d_prepared (lo_driver l)))));
  pump turns.

Definition replace_deadline_sender_after_invalidation_at (reason : PreparedPlayoutQueueEventReason)
    (next_deadline : Z) : ltask (list OpusFrame) :=
  sink ←? ask AskSink;
  _ ← spawn_sender sink next_deadline;
  act (fun l =>
    let '(d, frames) := take_pending_frames reason (lo_pending l) (lo_driver l) in
    Some (set_pending [] (set_driver d l), Ok frames)).
Definition replace_deadline_sender_after_invalidation (reason : PreparedPlayoutQueueEventReason)
    : ltask (list OpusFrame) :=
  now ← ask AskNow;
  replace_deadline_sender_after_invalidation_at reason (now + FRAME_DURATION).

Definition flushed (reason : PreparedPlayoutQueueEventReason) (frames : list OpusFrame) : ltotal unit :=
  _ ← fed; writes (upd_driver (flush_egress_buffer_for_interruption reason frames)).

Definition rebuild_prepared_playout_for_dave_transition (next_deadline : Z) : ltask unit :=
  _ ← invalidate_prepared_playout_generation;
  _ ← discard_unsent_prepared_packets;
  frames ←? replace_deadline_sender_after_invalidation_at DaveTransitionRecovery next_deadline;
  _ ← flushed DaveTransitionRecovery frames;
  mret (Ok tt).

(** ** Silence *)

Definition silence_depth : OpusBufferDepth := mkOpusBufferDepth 1 (Z.of_nat (length SILENCE_FRAME)) 20 960.

Definition enqueue_scheduled_silence (reason : PreparedPlayoutQueueEventReason) : ltask unit :=
  packet ←? asking_voice (AskPacket SILENCE_FRAME 960) (fun r => r);
  generation ← current_playout_generation;
  let command := mkPreparedPlayoutCommand packet ScheduledSilence None generation in
  _ ← writes (upd_driver (record_prepared_playout_event Enqueued reason command
        (mkOpusBufferDepth 1 (Z.of_nat (length (pv_bytes packet))) (pv_duration_ms packet)
           (pv_duration_samples packet))));
  _ ←? try_send_command command;
  _ ← writes (fun l => set_pending (lo_pending l ++ [PendingDeadlineCommand_new command None]) l);
  _ ← offers (NonTrackPlayoutQueueDepth CScheduledSilence silence_depth);
  mret (Ok tt).
Definition enqueue_source_underrun_scheduled_silence : ltask unit := enqueue_scheduled_silence SourceUnderrun.

Definition is_pending_silence (p : PendingDeadlineCommand) : bool :=
  bool_decide (pd_kind p = ScheduledSilence) && bool_decide (pd_frame p = None).

(** At most as many as are missing, while the channel has room. *)
Fixpoint fill_silence (missing : nat) : ltask unit :=
  match missing with
  | O => mret (Ok tt)
  | S missing =>
      _ ← ticked;
      room ← reads (fun l => (0 <? available_command_capacity l)%nat);
      if room : bool then _ ←? enqueue_source_underrun_scheduled_silence; fill_silence missing
      else mret (Ok tt)
  end.
Definition fill_source_underrun_silence_deadline_queue : ltask unit :=
  pending ← reads lo_pending;
  let missing := (SOURCE_UNDERRUN_DEADLINE_AHEAD_PACKETS - length (List.filter is_pending_silence pending))%nat in
  _ ← ticked;
  room ← reads (fun l => (0 <? available_command_capacity l)%nat);
  _ ←? (if (0 <? missing)%nat && room then asking_voice AskSpeaking (fun r => r) else mret (Ok tt));
  fill_silence missing.

(** Five silence packets, each sent before the next is prepared, and the end of
    speaking. *)
Fixpoint boundary_packets (n : nat) (generation : Z) (sent : list DeadlineSendRecord)
    : ltask (list DeadlineSendRecord) :=
  match n with
  | O => mret (Ok sent)
  | S n =>
      packet ←? asking_voice (AskPacket SILENCE_FRAME 960) (fun r => r);
      _ ←? send_command (mkPreparedPlayoutCommand packet BoundarySilence None generation);
      outcome ←? next_outcome;
      match outcome with
      | Sent record =>
          if bool_decide (sr_kind record = BoundarySilence) then boundary_packets n generation (sent ++ [record])
          else mret (Err (RInvalidState "deadline sender committed a non-boundary command during stop boundary"))
      | Dropped _ => mret (Err (RInvalidState "deadline sender dropped stop boundary silence"))
      end
  end.
Definition send_stop_audio_boundary_through_deadline_sender (generation : Z) : ltask (list DeadlineSendRecord) :=
  _ ←? asking_voice AskSpeaking (fun r => r);
  sent ←? boundary_packets STOP_AUDIO_BOUNDARY_SILENCE_PACKETS generation [];
  if negb (length sent =? STOP_AUDIO_BOUNDARY_SILENCE_PACKETS)%nat
  then mret (Err (RInvalidState "deadline sender did not send the complete stop boundary"))
  else _ ←? asking_voice AskStopSpeaking (fun r => r); mret (Ok sent).

(** The boundary without a driver: a sender of its own, with generation 0. *)
Definition send_stop_audio_boundary_with_owned_deadline_sender (next_deadline : Z) : ltask unit :=
  sink ←? ask AskSink;
  _ ← spawn_sender sink next_deadline;
  _ ← writes (set_generation 0);
  _ ←? send_stop_audio_boundary_through_deadline_sender 0;
  shutdown.

(** ** Filling the stages *)

(** Both loops put a frame into a bounded stage at every turn but the last. *)
Definition STAGE_TURNS : nat := S (Z.to_nat PLAYBACK_QUEUE_CAPACITY).

Definition refill_state (latest : OpusBufferDepth) (l : Loop) : RefillState :=
  mkRefillState (lo_driver l) (lo_source_ended l) (lo_source_underrun_active l) latest.
Definition refill_once (latest : OpusBufferDepth) : ltask (bool * OpusBufferDepth) :=
  _ ← fed;
  act (fun l =>
    let '(s, r) := refill_turn (refill_state latest l) in
    Some (set_source_flags (rf_source_ended s) (rf_underrun_active s) (set_driver (rf_driver s) l),
          match r with Ok again => Ok (again, rf_latest_depth s) | Err e => Err e | Panic => Panic end)).
Fixpoint refill_turns (turns : nat) (target : Z) (latest : OpusBufferDepth) : ltask OpusBufferDepth :=
  wants ← reads (fun l => refill_wants target (refill_state latest l));
  if wants : bool then
    match turns with
    | O => mret Panic
    | S turns =>
        next ←? refill_once latest;
        if next.1 then refill_turns turns target next.2 else mret (Ok next.2)
    end
  else mret (Ok latest).

(** [refill_egress_buffer] of Egress.v with the producer running. *)
Definition refill_from_source (pending_samples : Z) : ltask OpusBufferDepth :=
  latest ←? locked current_source_depth;
  target ← reads (fun l => sat_sub (sat_sub (samples_from_duration_ms_u64 DISCORD_EGRESS_BUFFER_TARGET_MS)
                              pending_samples) (pq_duration_samples (d_prepared (lo_driver l))));
  latest ←? refill_turns STAGE_TURNS target latest;
  _ ← writes (fun l => upd_driver (offer (EgressDepth (prepared_depth (d_prepared (lo_driver l))))) l);
  mret (Ok latest).

Definition wants_prepared (pending_samples : Z) (l : Loop) : bool :=
  let d := lo_driver l in
  (negb (lo_source_ended l) || (0 <? bd_packets (depth (d_egress d)))) &&
  (sat_add u64_max pending_samples (pq_duration_samples (d_prepared d))
     <? samples_from_duration_ms_u64 DISCORD_EGRESS_BUFFER_TARGET_MS) &&
  negb (prepared_is_full (d_prepared d)).

(** The prepared packet is queued; a frame that was prepared before counts as
    rebuilt. *)
Definition queue_prepared (prepared : PreparedTrackPlayout) (l : Loop) : Loop * rresult unit :=
  let '(d, rebuild_reason) := take_rebuild_credit (pt_frame prepared) (lo_driver l) in
  match prepared_push (d_prepared d) prepared with
  | (q, Ok _) =>
      (set_driver
         (record_prepared_playout_event (match rebuild_reason with Some _ => Rebuilt | None => Enqueued end)
            (default SteadyPlayback rebuild_reason) (pt_command prepared) (prepared_depth q) (set_prepared q d)) l,
       Ok tt)
  | (_, Err _) => (set_driver d l, Err (RInvalidState "prepared playout queue exceeded high watermark"))
  | (_, Panic) => (set_driver d l, Panic)
  end.

Definition prepare_frame (frame : OpusFrame) : ltask unit :=
  prepare_started_at ← ask AskNow;
  _ ←? asking_voice AskSpeaking (fun r => r);
  packet ←? asking_voice (AskPacket (of_data frame) (of_duration_samples frame)) (fun r => r);
  prepared_at ← ask AskNow;
  generation ← current_playout_generation;
  let command := mkPreparedPlayoutCommand packet KTrack (Some (prepared_media_frame frame)) generation in
  _ ←? act (fun l => Some (queue_prepared (mkPreparedTrackPlayout command frame) l));
  _ ← offers (PlayoutBuilderPrepared (sat_sub prepared_at prepare_started_at));
  mret (Ok tt).

Definition pop_egress (l : Loop) : option (Loop * option OpusFrame) :=
  let '(q, frame) := pop (d_egress (lo_driver l)) in Some (upd_driver (set_egress q) l, frame).

Fixpoint prepare_frames (turns : nat) (pending_samples : Z) (latest : OpusBufferDepth) : ltask OpusBufferDepth :=
  wants ← reads (wants_prepared pending_samples);
  if wants : bool then
    match turns with
    | O => mret Panic
    | S turns =>
        empty ← reads (fun l => bd_packets (depth (d_egress (lo_driver l))) =? 0);
        latest ←? (if empty : bool then refill_from_source pending_samples else mret (Ok latest));
        frame ← act pop_egress;
        match frame with
        | None => mret (Ok latest)
        | Some frame =>
            _ ←? prepare_frame frame;
            latest ←? refill_from_source pending_samples;
            prepare_frames turns pending_samples latest
        end
    end
  else mret (Ok latest).

Definition fill_prepared_playout_queue (pending_samples : Z) : ltask OpusBufferDepth :=
  latest ←? refill_from_source pending_samples;
  latest ←? prepare_frames STAGE_TURNS pending_samples latest;
  _ ← writes (fun l => upd_driver (offer (EgressDepth (prepared_depth (d_prepared (lo_driver l))))) l);
  mret (Ok latest).

(** What follows at two places: fill, hand over, and silence while the source
    is empty. *)
Definition fill_and_pump : ltask OpusBufferDepth :=
  pending_samples ← reads (fun l => bd_duration_samples (pending_deadline_track_depth (lo_pending l)));
  latest ←? fill_prepared_playout_queue pending_samples;
  _ ←? pump_prepared_playout_to_deadline_sender;
  starving ← reads (fun l => lo_source_underrun_active l && negb (lo_source_ended l));
  _ ←? (if starving : bool then fill_source_underrun_silence_deadline_queue else mret (Ok tt));
  mret (Ok latest).

(** ** Commands *)

(** Everything handed over or prepared is taken back. *)
Definition take_back (reason : PreparedPlayoutQueueEventReason) : ltask unit :=
  frames ←? replace_deadline_sender_after_invalidation reason;
  _ ← flushed reason frames;
  mret (Ok tt).

Definition reset_pacer : ltotal unit :=
  now ← ask AskNow; writes (fun l => set_pacer (reset_deadline (lo_pacer l) now) l).

Definition apply_pause (selected : option PreparedTrackPlayout) (remaining_depth : OpusBufferDepth) : ltask unit :=
  _ ← invalidate_prepared_playout_generation;
  _ ← discard_unsent_prepared_packets;
  _ ← match selected with
      | Some prepared =>
          _ ← fed;
          writes (upd_driver (account_unsent_egress_frame (pt_frame prepared) remaining_depth Pause))
      | None => mret tt
      end;
  _ ←? take_back Pause;
  boundary_generation ← current_playout_generation;
  _ ← offers (ExplicitMediaBoundary Pause);
  _ ← offers (NonTrackPlayoutQueueDepth CBoundarySilence silence_depth);
  records ←? send_stop_audio_boundary_through_deadline_sender boundary_generation;
  _ ← report_all no_drain remaining_depth records;
  _ ← writes (set_paused true);
  _ ← reset_pacer;
  _ ← offers (SenderMediaClockReset PauseResume);
  mret (Ok tt).

Definition apply_resume : ltask unit :=
  _ ← writes (set_paused false);
  _ ←? asking_voice AskSpeaking (fun r => r);
  _ ← reset_pacer;
  _ ← offers (SenderMediaClockReset PauseResume);
  _ ← offers SenderResumedFromPause;
  mret (Ok tt).

Definition set_account_popped (b : bool) (d : Driver) : Driver :=
  mkDriver (d_source d) (d_egress d) (d_prepared d) (d_credits d) (d_playback_epoch d) b (d_metrics d).

(** Whether the command ends the playback. *)
Definition apply_command (command : MediaCommand) (selected : option PreparedTrackPlayout)
    (remaining_depth : OpusBufferDepth) : ltask bool :=
  match command with
  | CommandPause =>
      paused ← reads lo_paused;
      _ ←? (if paused : bool then mret (Ok tt) else apply_pause selected remaining_depth);
      mret (Ok false)
  | CommandResume =>
      paused ← reads lo_paused;
      _ ←? (if paused : bool then apply_resume else mret (Ok tt));
      mret (Ok false)
  | CommandStop account_popped_frame_as_skipped =>
      _ ← writes (upd_driver (set_account_popped account_popped_frame_as_skipped));
      _ ← invalidate_prepared_playout_generation;
      _ ← discard_unsent_prepared_packets;
      _ ←? take_back Stop;
      mret (Ok true)
  end.

Fixpoint apply_commands (commands : list MediaCommand) (remaining_depth : OpusBufferDepth)
    : ltask (option bool) :=
  match commands with
  | [] => mret (Ok None)
  | command :: commands =>
      ends ←? apply_command command None remaining_depth;
      if ends : bool then mret (Ok (Some false)) else apply_commands commands remaining_depth
  end.
Definition drain_commands (remaining_depth : OpusBufferDepth) : ltask (option bool) :=
  commands ← ask AskCommands; apply_commands commands remaining_depth.

(** [waits] bounds how often the pause is looked at; the task is blocked when
    it still lasts then. *)
Fixpoint wait_while_paused (waits : nat) : ltask (option bool) :=
  paused ← reads lo_paused;
  if paused : bool then
    match waits with
    | O => act (fun _ => None)
    | S waits =>
        current ← ask AskCurrent;
        if negb current then mret (Ok (Some false))
        else
          woken ← ask AskPaused;
          match woken with
          | PauseTimer => wait_while_paused waits
          | PauseCommand None => mret (Ok (Some false))
          | PauseCommand (Some command) =>
              ends ←? apply_command command None OpusBufferDepth_default;
              if ends : bool then mret (Ok (Some false)) else wait_while_paused waits
          end
    end
  else mret (Ok None).

(** ** The loop *)

(** The playback was superseded. *)
Definition leave_superseded : ltask (option bool) :=
  _ ← invalidate_prepared_playout_generation;
  _ ← discard_unsent_prepared_packets;
  _ ← writes (upd_driver (set_account_popped true));
  _ ←? take_back Interruption;
  mret (Ok (Some false)).

(** The slot could not be prepared because of DAVE: settle, rebuild, refill,
    and start the turn again. *)
Definition recover_dave_transition : ltask (option bool) :=
  gateway_drain ←? asking_voice AskSettle (fun r => r);
  _ ←? report_ready;
  _ ← offers (GatewayDrain gateway_drain);
  deadline ← reads (fun l => next_deadline (lo_pacer l));
  now ← ask AskNow;
  _ ←? rebuild_prepared_playout_for_dave_transition (Z.max deadline now);
  latest ←? fill_and_pump;
  _ ← writes (fun l => upd_driver (offer (PreparedTrackQueueDepth (depth_with_pending l))) l);
  _ ← offers (SourceDepth latest);
  mret (Ok None).

(** Nothing is handed over and the source has not ended. *)
Definition on_underrun (egress_depth latest : OpusBufferDepth) : ltask unit :=
  _ ← offers (SenderEgressUnderrun egress_depth);
  active ← reads lo_source_underrun_active;
  _ ← (if active : bool then mret tt
       else
         _ ← writes (fun l => set_source_flags (lo_source_ended l) true l);
         _ ← offers (SenderSourceUnderrun latest);
         _ ← offers (SenderMediaClockReset SourceUnderrunReset);
         _ ← offers (ExplicitMediaBoundary SourceUnderrun);
         offers SourceUnderrunReachedBuilder);
  _ ←? fill_source_underrun_silence_deadline_queue;
  _ ← offers SourceUnderrunReachedDeadlineSender;
  mret (Ok tt).

(** The wait for the deadline sender or a command. *)
Definition await_slot (gateway_drain : DrainReport) (latest : OpusBufferDepth) : ltask (option bool) :=
  selected ← ask AskSelect;
  match selected with
  | CommandReady None => mret (Ok (Some false))
  | CommandReady (Some command) =>
      ends ←? apply_command command None latest;
      mret (Ok (if ends : bool then Some false else None))
  | OutcomeReady =>
      outcome ←? next_outcome;
      record ←? accounted outcome latest;
      _ ← match record with Some r => report_sent gateway_drain latest r | None => mret tt end;
      mret (Ok None)
  end.

(** The second half of a turn, with the session ready for the slot. *)
Definition play_slot (waits : nat) (gateway_drain : DrainReport) : ltask (option bool) :=
  latest ←? fill_and_pump;
  egress_depth ← reads depth_with_pending;
  _ ← offers (EgressDepth egress_depth);
  ended ← reads lo_source_ended;
  _ ← (if ended : bool then mret tt else offers (PreparedTrackQueueDepth egress_depth));
  current ← ask AskCurrent;
  if negb current then leave_superseded
  else
    stopped ←? drain_commands latest;
    match stopped with
    | Some e =>
        _ ← invalidate_prepared_playout_generation;
        _ ← discard_unsent_prepared_packets;
        mret (Ok (Some e))
    | None =>
        paused ← reads lo_paused;
        if paused : bool then
          _ ← invalidate_prepared_playout_generation;
          _ ← discard_unsent_prepared_packets;
          wait_while_paused waits
        else
          nothing_pending ← reads (fun l => bool_decide (lo_pending l = []));
          ended ← reads lo_source_ended;
          if nothing_pending && ended then mret (Ok (Some true))
          else
            _ ←? (if nothing_pending : bool then on_underrun egress_depth latest else mret (Ok tt));
            await_slot gateway_drain latest
    end.

(** A turn of the loop: [Some] when the loop returns. *)
Definition turn (waits : nat) (source_depth : OpusBufferDepth) : ltask (option bool) :=
  current ← ask AskCurrent;
  if negb current then leave_superseded
  else
    _ ←? report_ready;
    stopped ←? drain_commands source_depth;
    match stopped with
    | Some e => mret (Ok (Some e))
    | None =>
        paused ← reads lo_paused;
        if paused : bool then wait_while_paused waits
        else
          ended ← reads lo_source_ended;
          _ ←? (if ended : bool then
                  now ←? locked current_source_depth;
                  _ ← writes (fun l => if 0 <? bd_packets now
                                       then set_source_flags false (lo_source_underrun_active l) l else l);
                  mret (Ok tt)
                else mret (Ok tt));
          expected_deadline ← reads (fun l => next_deadline (lo_pacer l));
          prepared ← ask (AskPrepareSlot expected_deadline);
          match prepared with
          | Ok gateway_drain =>
              _ ←? (if 0 <? gd_dave_transition_count gateway_drain then
                      _ ←? report_ready;
                      deadline ← reads (fun l => next_deadline (lo_pacer l));
                      now ← ask AskNow;
                      rebuild_prepared_playout_for_dave_transition (Z.max deadline now)
                    else mret (Ok tt));
              play_slot waits gateway_drain
          | Err err => if mentions_dave err then recover_dave_transition else mret (Err (Voice err))
          | Panic => mret Panic
          end
    end.

(** The loop for a number of turns; blocked when it goes on. *)
Fixpoint turns (n : nat) (source_depth : OpusBufferDepth) : ltask bool :=
  match n with
  | O => act (fun _ => None)
  | S m =>
      ended ←? turn n source_depth;
      match ended with Some e => mret (Ok e) | None => turns m source_depth end
  end.

(** [LiveMediaDriver::from] and the variables of [run_loop]. The sender is
    there once it is spawned. *)
Definition run_loop (n : nat) : ltask bool :=
  now ← ask AskNow;
  _ ← writes (set_pacer (starting_after now FRAME_DURATION));
  sink ←? ask AskSink;
  deadline ← reads (fun l => next_deadline (lo_pacer l));
  _ ← spawn_sender sink deadline;
  source_depth ←? locked current_source_depth;
  _ ← offers (SenderStarted source_depth);
  _ ← writes (fun l => upd_driver (offer (EgressDepth (prepared_depth (d_prepared (lo_driver l))))) l);
  turns n source_depth.

Record LiveMediaDriverExit : Type := mkExit {
  ex_ended_naturally : bool;
  ex_error : option RuntimeError;
}.
(** [run] and [into_exit]; the session goes back with it. *)
Definition driver_run (n : nat) : ltotal (option LiveMediaDriverExit) :=
  r ← run_loop n;
  mret match r with
       | Ok ended_naturally => Some (mkExit ended_naturally None)
       | Err e => Some (mkExit false (Some e))
       | Panic => None
       end.

Definition LiveMediaDriver_from (source : SourceBufferState) (playback_epoch : Z) : Driver :=
  mkDriver source DiscordEgressBuffer_new PreparedPlayoutQueue_new [] playback_epoch false [].

End driver.
