(* ===== verification/DriverSpecs.v ===== *)
(** * What the media driver guarantees

    Theorems on MediaDriver.v, for every producer of 20 ms frames, every
    schedule of the deadline sender's thread, every sequence of commands and
    every answer of the voice session: the frames that are reported as sent are
    the frames of the stream, in order, without a gap or a repetition; the
    driver reports a natural end only when all of them were sent; what it takes
    for an inconsistency of its own never happens. *)

From S2P Require Import Prelude VoiceErrors Text OpusQueue Udp Normalizer Worker Pacer DeadlineSender Egress Task MediaDriver.
From stdpp Require Import prelude strings.
Open Scope Z_scope.
Open Scope task_scope.

(** ** Frames reported as sent *)

Definition sent_media (m : PlaybackPipelineMetric) : option PreparedMediaFrame :=
  match m with SenderSent s => sm_media_frame s | _ => None end.
Definition heard (d : Driver) : list PreparedMediaFrame := omap sent_media (d_metrics d).

#[local] Arguments offer : simpl never.

Lemma heard_offer m d : heard (offer m d) = heard d ++ option_list (sent_media m).
Proof. unfold heard, offer. cbn. rewrite omap_app. cbn. by destruct (sent_media m). Qed.
Lemma heard_offer_other m d : sent_media m = None -> heard (offer m d) = heard d.
Proof. intros H. rewrite heard_offer, H. apply app_nil_r. Qed.

(** Everything an interruption does is reported by other messages. *)
Lemma heard_restore_frame f d : heard (fst (restore_live_source_frame f d)) = heard d.
Proof.
  unfold restore_live_source_frame. destruct (push_front _ _) as [q [[]| |]]; [|done..].
  cbn [fst]. by rewrite heard_offer_other.
Qed.
Lemma heard_depth d : heard (fst (current_source_depth d)) = heard d.
Proof. unfold current_source_depth. by destruct (sb_error _). Qed.
Lemma heard_take_pending reason l d : heard (fst (take_pending_frames reason l d)) = heard d.
Proof.
  revert d. induction l as [|p l IH]; intros d; [done|]. cbn.
  match goal with |- context [take_pending_frames reason l ?x] => specialize (IH x); destruct (take_pending_frames reason l x) end.
  cbn [fst] in *. rewrite IH. by rewrite heard_offer_other.
Qed.
Lemma heard_drain_prepared n reason d : heard (fst (drain_prepared n reason d)) = heard d.
Proof.
  revert d. induction n as [|n IH]; intros d; [done|]. cbn [drain_prepared].
  destruct (prepared_pop _) as [q [x|]]; [|done].
  match goal with |- context [drain_prepared n reason ?x] => specialize (IH x); destruct (drain_prepared n reason x) end.
  cbn [fst] in *. rewrite IH. unfold record_prepared_playout_event. by rewrite heard_offer_other.
Qed.
Lemma heard_restore_to_source reason l d t : heard (fst (restore_to_source reason l d t)) = heard d.
Proof.
  revert d t. induction l as [|f l IH]; intros d t; [done|]. cbn [restore_to_source].
  pose proof (heard_restore_frame f d) as Hr. destruct (restore_live_source_frame f d) as [d1 [dep|g|]]; cbn in Hr.
  - rewrite IH. exact Hr.
  - by rewrite IH.
  - exact Hr.
Qed.
Lemma heard_report reason t d : heard (report_interruption reason t d) = heard d.
Proof.
  unfold report_interruption. rewrite heard_offer_other by done.
  destruct (0 <? tl_discarded_count t), (0 <? tl_restored_count t), (0 <? tl_skipped_count t);
    rewrite ?heard_offer_other by done; done.
Qed.
Lemma heard_flush reason frames d : heard (flush_egress_buffer_for_interruption reason frames d) = heard d.
Proof.
  unfold flush_egress_buffer_for_interruption, drain_egress_frames.
  pose proof (heard_drain_prepared (length (pq_queue (d_prepared d))) reason d) as Hp.
  destruct (drain_prepared _ reason d) as [d1 pr]. cbn in Hp. destruct (drain_queue _ _) as [q eg].
  case_bool_decide; [by rewrite heard_offer_other|].
  set (r := restore_interrupted_frames_to_egress_buffer _ _ _ _). set (d2 := set_credits _ _).
  pose proof (heard_depth d2) as Hd. destruct (current_source_depth d2) as [d3 asked]. cbn in Hd.
  set (t0 := mkTally _ _ _ _ _ _ _).
  pose proof (heard_restore_to_source reason (rev (rs_source_frames r)) d3 t0) as Hs.
  destruct (restore_to_source _ _ d3 t0) as [d4 t]. cbn in Hs. by rewrite heard_report, Hs, Hd.
Qed.
Lemma heard_refill_turn s : heard (rf_driver (fst (refill_turn s))) = heard (rf_driver s).
Proof.
  unfold refill_turn, pop_live_source_frame. destruct (sb_error _); [done|].
  destruct (pop _) as [q [f|]]; cbn; [|by rewrite heard_offer_other].
  set (d1 := if rf_underrun_active s then _ else _).
  assert (H1 : heard d1 = heard (rf_driver s)) by (unfold d1; destruct (rf_underrun_active s); by rewrite !heard_offer_other).
  destruct (push _ _) as [q' [[]|g|]]; [exact H1| |exact H1].
  pose proof (heard_restore_frame g d1) as Hr.
  destruct (restore_live_source_frame g d1) as [d2 [dep|h|]]; cbn in *; rewrite ?heard_offer_other by done; congruence.
Qed.

(** ** The prepared queue as a stage *)

Section stages.
Context (B : Z).
Hypothesis HB : 0 <= B <= 4096.

Definition prepared_stage (p : PreparedPlayoutQueue) : Prop :=
  stage_ok B 25 (prepared_as_queue p) /\ pq_packets p = zlen (pq_queue p).

Lemma prepared_stage_pop p :
  prepared_stage p -> prepared_stage (fst (prepared_pop p)) /\
  snd (prepared_pop p) = head (pq_queue p) /\ pq_queue (fst (prepared_pop p)) = tail (pq_queue p).
Proof.
  intros [Hs Hp]. destruct (stage_pop B 25 _ Hs) as (H1 & _ & _). unfold prepared_pop.
  destruct (pq_queue p) as [|x rest] eqn:E; cbn; rewrite ?E; [split; [by split; [|rewrite Hp, E]|done]|].
  split; [|done].
  assert (Hq : prepared_as_queue (mkPreparedPlayoutQueue rest (sat_sub (pq_packets p) 1)
    (sat_sub (pq_bytes p) (byte_len (pt_frame x))) (sat_sub (pq_duration_samples p) (of_duration_samples (pt_frame x))))
    = fst (pop (prepared_as_queue p))) by (unfold pop, prepared_as_queue; cbn; by rewrite E).
  split; [by rewrite Hq|]. cbn. rewrite Hp, ?E, zlen_cons. unfold sat_sub. pose proof (zlen_nonneg rest). lia.
Qed.

Lemma prepared_stage_len p : prepared_stage p ->
  pq_duration_samples p = 960 * zlen (pq_queue p) /\ 0 <= zlen (pq_queue p) <= 25.
Proof. intros [Hs _]. destruct (stage_len B HB 25 _ Hs) as [H1 H2]. cbn in H1, H2. by rewrite zlen_map in H1, H2. Qed.

Lemma prepared_stage_push p x :
  prepared_stage p -> small_frame B (pt_frame x) -> zlen (pq_queue p) < 25 ->
  exists q, prepared_push p x = (q, Ok tt) /\ prepared_stage q /\ pq_queue q = pq_queue p ++ [x].
Proof.
  intros [Hs Hp] Hx Hl. rewrite prepared_push_cases by done.
  rewrite (stage_fits B HB 25) by done. cbn. rewrite zlen_map, (proj2 (Z.ltb_lt _ _) Hl).
  eexists. split; [done|]. split; [|done]. split.
  - pose proof (stage_account B HB 25 _ (pt_frame x) (map pt_frame (pq_queue p ++ [x])) Hs Hx) as Ha.
    apply Ha; [cbn; by rewrite zlen_map|]. cbn. rewrite map_app. apply Permutation_app_comm.
  - cbn. unfold zlen in *. rewrite length_app. cbn. lia.
Qed.

Lemma drain_prepared_stage n reason d :
  prepared_stage (d_prepared d) -> prepared_stage (d_prepared (fst (drain_prepared n reason d))).
Proof.
  revert d. induction n as [|n IH]; intros d Hd; [done|]. cbn [drain_prepared].
  destruct (prepared_stage_pop _ Hd) as (H1 & _ & _). destruct (prepared_pop _) as [q [x|]]; [|done].
  match goal with |- context [drain_prepared n reason ?y] => specialize (IH y); destruct (drain_prepared n reason y) end.
  by apply IH.
Qed.

Lemma restore_to_source_prepared reason l d t :
  d_prepared (fst (restore_to_source reason l d t)) = d_prepared d.
Proof.
  revert d t. induction l as [|f l IH]; intros d t; [done|]. cbn [restore_to_source].
  unfold restore_live_source_frame. destruct (push_front _ _) as [q [[]| |]]; rewrite ?IH; done.
Qed.

Lemma flush_prepared_stage reason frames d :
  prepared_stage (d_prepared d) ->
  prepared_stage (d_prepared (flush_egress_buffer_for_interruption reason frames d)).
Proof.
  intros Hd. unfold flush_egress_buffer_for_interruption, drain_egress_frames.
  pose proof (drain_prepared_stage (length (pq_queue (d_prepared d))) reason d Hd) as Hp.
  destruct (drain_prepared _ reason d) as [d1 pr]. cbn in Hp. destruct (drain_queue _ _) as [q eg].
  case_bool_decide; [done|].
  set (r := restore_interrupted_frames_to_egress_buffer _ _ _ _). set (d2 := set_credits _ _).
  destruct (current_source_depth_spec d2) as [asked E]. rewrite E. set (t0 := mkTally _ _ _ _ _ _ _).
  match goal with |- context [restore_to_source reason ?l ?x t0] =>
    pose proof (restore_to_source_prepared reason l x t0) as Hs; destruct (restore_to_source reason l x t0) as [d4 t] end.
  destruct (report_interruption_spec reason t d4) as [ms ->]. cbn in *. by rewrite Hs.
Qed.

End stages.

(** ** The invariant *)

Section invariant.
Context {K : Type} `{!PreparedUdpSink K}.
Context (B : Z) (HB : 0 <= B <= 4096).
(** Whether several commands may arrive at once. *)
Context (hurried : Prop).
Abbreviation state := (@Loop K).

(** A frame as it is sent in this playback. *)
Definition tagged (l : state) (f : OpusFrame) : PreparedMediaFrame :=
  prepared_media_frame (with_epoch f (d_playback_epoch (lo_driver l))).
Definition source_frames (l : state) : list OpusFrame := q_inner (sb_queue (d_source (lo_driver l))).
Definition stream (l : state) : list PreparedMediaFrame := map (tagged l) (lo_fed l).

(** The frames the driver has taken from the source buffer and not yet seen
    sent, next to play first; [x] are those a local variable holds. *)
Definition in_flight (x : list OpusFrame) (l : state) : list OpusFrame :=
  omap pd_frame (lo_pending l) ++ x ++ staged (lo_driver l).

(** The frames of the loop: what was reported, [t] which is about to be, what
    is in flight and what the source buffer holds make up the stream. At most
    400 ms are in flight. *)
Record stages (t : list PreparedMediaFrame) (x : list OpusFrame) (l : state) : Prop := {
  sg_driver : driver_ok B (lo_driver l);
  sg_prepared : prepared_stage B (d_prepared (lo_driver l));
  sg_flight : Forall (fun f => small_frame B f /\ of_epoch f = d_playback_epoch (lo_driver l)) (in_flight x l);
  sg_pending : Forall (fun p => pd_media_frame p = prepared_media_frame <$> pd_frame p) (lo_pending l);
  sg_commands : Forall (fun p => pc_media_frame (pt_command p) = Some (prepared_media_frame (pt_frame p)))
                  (pq_queue (d_prepared (lo_driver l)));
  sg_bound : zlen (in_flight x l) <= 20;
  sg_stream : heard (lo_driver l) ++ t ++ map (tagged l) (in_flight x l ++ source_frames l) = stream l;
  sg_ended : lo_source_ended l = true -> source_frames l = [] /\ sb_end_of_stream (d_source (lo_driver l)) = true;
  sg_producing : lo_producing l = true -> sb_end_of_stream (d_source (lo_driver l)) = false;
}.

(** A pending command and what the sender holds for it. *)
Definition queued_for (p : PendingDeadlineCommand) (c : PreparedPlayoutCommand) : Prop :=
  p = PendingDeadlineCommand_new c (pd_frame p).
Definition sent_for (p : PendingDeadlineCommand) (r : DeadlineSendRecord) : Prop := matches_sent_record p r = true.

(** The pending commands are those whose records wait to be read and those in
    the command channel, in order; a thread that failed may have lost some. *)
Definition tracked (pending : list PendingDeadlineCommand) (sent : list DeadlineSendRecord)
    (commands : list PreparedPlayoutCommand) (running : bool) : Prop :=
  exists read lost queued, pending = read ++ lost ++ queued /\ Forall2 sent_for read sent /\
    Forall2 queued_for queued commands /\ (running = true -> lost = []).

Definition idle_sender (s : @DeadlineSender K) : Prop := ds_commands s = [] /\ ds_sent s = [].

(** The deadline sender is the driver's: its commands are of the generation,
    nothing was dropped, and every pending command is in its hands. *)
Record wired (l : state) : Prop := {
  wd_checks : ds_checks_generation (lo_sender l) = true;
  wd_connected : ds_disconnected (lo_sender l) = false /\ ds_shutdown (lo_sender l) = false;
  wd_dropped : ds_dropped (lo_sender l) = [];
  wd_current : Forall (fun c => pc_generation c = lo_generation l) (ds_commands (lo_sender l));
  wd_prepared : Forall (fun p => pc_generation (pt_command p) = lo_generation l) (pq_queue (d_prepared (lo_driver l)));
  wd_tracked : tracked (lo_pending l) (ds_sent (lo_sender l)) (ds_commands (lo_sender l)) (lo_running l);
  wd_paused : lo_paused l = true ->
    lo_pending l = [] /\ idle_sender (lo_sender l) /\ pq_queue (d_prepared (lo_driver l)) = [];
}.

Definition inv (t : list PreparedMediaFrame) (l : state) : Prop := stages t [] l /\ wired l.

(** ** What answers are assumed *)

(** Errors that come from outside the driver: from the session, from the
    producer, from a deadline sender that failed or could not be started. *)
Definition outside (e : RuntimeError) : Prop :=
  match e with
  | Voice _ | Playback _ => True
  | RInvalidState reason =>
      reason ∈ ["deadline sender send record channel closed"; "deadline sender drop record channel closed";
                "deadline sender command channel closed"; "deadline sender thread failed to start"]%string
  end.

Lemma outside_closed :
  outside SEND_RECORDS_CLOSED /\ outside DROP_RECORDS_CLOSED /\
  outside (RInvalidState "deadline sender command channel closed").
Proof. split_and!; apply (bool_decide_unpack _); vm_compute; exact I. Qed.

(** The producer makes 20 ms frames; nothing panics. *)
Definition valid (q : question) : answer (K := K) q -> Prop :=
  match q with
  | AskFeed => fun f => Forall (small_frame B) (fe_frames f)
  | AskSink => fun r => match r with Ok _ => True | Err e => outside e | Panic => False end
  | AskPrepareSlot _ | AskSettle => fun r => r <> Panic
  | AskSpeaking | AskStopSpeaking => fun r => r <> Panic
  | AskPacket _ _ => fun r => r <> Panic
  | AskThreadResult => fun r => r <> Panic
  | AskCommands => fun commands => hurried \/ (length commands <= 1)%nat
  | _ => fun _ => True
  end.

(** ** Hoare triples *)

Abbreviation ltask A := (prog state question (answer (K := K)) Empty_set (rresult A)).
Abbreviation ltotal A := (prog state question (answer (K := K)) Empty_set A).

Definition heard_in_order (l : state) : Prop := heard (lo_driver l) `prefix_of` stream l.
Definition outcome {A} (post : A -> state -> Prop) (r : rresult A) (l : state) : Prop :=
  match r with Ok a => post a l | Err e => outside e /\ heard_in_order l | Panic => False end.

Definition triple {A} (P : state -> Prop) (m : ltask A) (Q : A -> state -> Prop) : Prop :=
  forall l, P l -> wlp valid m (outcome Q) l.
Definition total_triple {A} (P : state -> Prop) (m : ltotal A) (Q : A -> state -> Prop) : Prop :=
  forall l, P l -> wlp valid m Q l.

Lemma triple_try {A C} P Q R (m : ltask A) (f : A -> ltask C) :
  triple P m Q -> (forall a, triple (Q a) (f a) R) -> triple P (try_ m f) R.
Proof.
  intros Hm Hf l Hl. apply wlp_bind. eapply wlp_mono; [|exact (Hm l Hl)].
  intros [a|e|] l' H; [by apply Hf|exact H|exact H].
Qed.
Lemma triple_bind {A C} P Q R (m : ltotal A) (f : A -> ltask C) :
  total_triple P m Q -> (forall a, triple (Q a) (f a) R) -> triple P (m ≫= f) R.
Proof.
  intros Hm Hf l Hl. apply wlp_bind. eapply wlp_mono; [|exact (Hm l Hl)]. intros a l' H. by apply Hf.
Qed.
Lemma total_bind {A C} P Q R (m : ltotal A) (f : A -> ltotal C) :
  total_triple P m Q -> (forall a, total_triple (Q a) (f a) R) -> total_triple P (m ≫= f) R.
Proof.
  intros Hm Hf l Hl. apply wlp_bind. eapply wlp_mono; [|exact (Hm l Hl)]. intros a l' H. by apply Hf.
Qed.
Lemma triple_ret {A} (P : state -> Prop) (Q : A -> state -> Prop) a :
  (forall l, P l -> Q a l) -> triple P (mret (Ok a)) Q.
Proof. intros H l Hl. by apply H. Qed.
Lemma triple_weaken {A} (P P' : state -> Prop) (m : ltask A) Q Q' :
  (forall l, P' l -> P l) -> (forall a l, Q a l -> Q' a l) -> triple P m Q -> triple P' m Q'.
Proof.
  intros HP HQ H l Hl. eapply wlp_mono; [|apply H, HP, Hl]. intros [a|e|] l'; [apply HQ|done|done].
Qed.
Lemma total_weaken {A} (P P' : state -> Prop) (m : ltotal A) (Q Q' : A -> state -> Prop) :
  (forall l, P' l -> P l) -> (forall a l, Q a l -> Q' a l) -> total_triple P m Q -> total_triple P' m Q'.
Proof. intros HP HQ H l Hl. eapply wlp_mono; [|apply H, HP, Hl]. intros a l'. apply HQ. Qed.

(** The state is read, changed, or left alone while a question is asked. *)
Lemma total_reads {A} (P : state -> Prop) (f : state -> A) :
  total_triple P (reads f) (fun a l => P l /\ a = f l).
Proof. intros l Hl. done. Qed.
Lemma total_writes (P : state -> Prop) (Q : unit -> state -> Prop) f :
  (forall l, P l -> Q tt (f l)) -> total_triple P (writes f) Q.
Proof. intros H l Hl. by apply H. Qed.
Lemma total_ask (P : state -> Prop) q : total_triple P (ask q) (fun a l => P l /\ valid q a).
Proof. intros l Hl a Ha. done. Qed.
Lemma triple_act {A} (P : state -> Prop) (op : state -> option (state * rresult A)) Q :
  (forall l l' r, P l -> op l = Some (l', r) -> outcome Q r l') -> triple P (act op) Q.
Proof. intros H l Hl. cbn. destruct (op l) as [[l' r]|] eqn:E; [by eapply H|done]. Qed.
Lemma triple_asking {A} (P : state -> Prop) q (f : answer q -> vresult A) :
  (forall l, P l -> heard_in_order l) -> (forall a, valid q a -> f a <> Panic) ->
  triple P (asking_voice q f) (fun _ => P).
Proof.
  intros HP Hf l Hl a Ha. specialize (Hf a Ha). cbn. destruct (f a); cbn; [done|by split; [|apply HP]|done].
Qed.

Lemma stages_heard t x l : stages t x l -> heard_in_order l.
Proof. intros H. eexists. symmetry. apply H. Qed.

(** ** The producer *)

Lemma feed_frames_spec frames q :
  stage_ok B 250 q -> Forall (small_frame B) frames ->
  let '(q', went_in, ok) := feed_frames frames q in
  stage_ok B 250 q' /\ q_inner q' = q_inner q ++ went_in.
Proof.
  revert q. induction frames as [|f frames IH]; intros q Hq Hf; cbn [feed_frames]; [by rewrite app_nil_r|].
  inversion_clear Hf as [|? ? Hf1 Hf2]. rewrite (stage_push B HB 250) by done. zcase; [|by rewrite app_nil_r].
  assert (Hq' : stage_ok B 250 (account q f (q_inner q ++ [f]))).
  { apply (stage_account B HB); [done|done|done|]. apply Permutation_app_comm. }
  specialize (IH _ Hq' Hf2). destruct (feed_frames frames _) as [[q' fed] ok]. destruct IH as [H1 H2].
  split; [done|]. rewrite H2. cbn. by rewrite <- app_assoc.
Qed.

Lemma feed_stages t x f l : Forall (small_frame B) (fe_frames f) -> stages t x l -> stages t x (feed f l).
Proof.
  intros Hf H. unfold feed. destruct (lo_producing l) eqn:Hp; [|done].
  destruct H as [H1 H2 H3 H4 H5 H6 H7 H8 H9]. specialize (H9 Hp).
  pose proof (feed_frames_spec (fe_frames f) (sb_queue (d_source (lo_driver l))) (do_source _ _ H1) Hf) as Hfed.
  destruct (feed_frames _ _) as [[q went_in] ok]. destruct Hfed as [Hq Ein].
  assert (Hstages : forall s' producing, sb_queue s' = q ->
    (producing = true -> sb_end_of_stream s' = false) ->
    stages t x (set_fed (set_source s' (lo_driver l)) producing (lo_fed l ++ went_in) l)).
  { intros s' producing Eq He. split; try done.
    - destruct H1 as [_ He' Hp' Hk']. split; cbn; [by rewrite Eq|done|done|done].
    - change (heard (lo_driver l) ++ t ++ map (tagged l) (in_flight x l ++ q_inner (sb_queue s'))
        = map (tagged l) (lo_fed l ++ went_in)).
      rewrite Eq, Ein, (map_app _ (lo_fed l)). fold (stream l). rewrite <- H7. unfold source_frames.
      by rewrite !map_app, <- !app_assoc.
    - intros Hs. destruct (H8 Hs) as [_ H]. rewrite H in H9. done. }
  destruct ok, (fe_end f); apply Hstages; done.
Qed.

Lemma feed_wired f l : wired (feed f l) <-> wired l.
Proof.
  unfold feed. destruct (lo_producing l); [|done]. destruct (feed_frames _ _) as [[q went_in] ok].
  destruct (if ok then _ else _) as [s' producing]. split; intros []; by split.
Qed.

Lemma fed_keeps t x : total_triple (stages t x) fed (fun _ => stages t x).
Proof. intros l Hl f Hf. cbn. by apply feed_stages. Qed.
Lemma fed_inv t : total_triple (inv t) fed (fun _ => inv t).
Proof. intros l [Hl Hw] f Hf. cbn. split; [by apply feed_stages|by apply feed_wired]. Qed.

(** ** The deadline sender's thread *)

Lemma thread_frame l e :
  exists s running, thread_tick l e = set_sender s running l.
Proof.
  unfold thread_tick. destruct (lo_running l); [|exists (lo_sender l), (lo_running l); by destruct l].
  destruct (tick_once _ _) as [[s [[]| |]]|]; [by do 2 eexists..|exists (lo_sender l), (lo_running l); by destruct l].
Qed.
Lemma threads_frame envs l : exists s running, thread_runs envs l = set_sender s running l.
Proof.
  unfold thread_runs. revert l. induction envs as [|e envs IH]; intros l; cbn.
  - exists (lo_sender l), (lo_running l). by destruct l.
  - destruct (thread_frame l e) as (s & r & ->). destruct (IH (set_sender s r l)) as (s' & r' & ->). by do 2 eexists.
Qed.

Lemma stages_sender t x s running l : stages t x l -> stages t x (set_sender s running l).
Proof. intros []. by split. Qed.

Lemma ticked_keeps (P : state -> Prop) :
  (forall l s running, P l -> P (set_sender s running l)) -> total_triple P ticked (fun _ => P).
Proof. intros HP l Hl envs _. cbn. destruct (threads_frame envs l) as (s & r & ->). by apply HP. Qed.
Lemma ticked_stages t x : total_triple (stages t x) ticked (fun _ => stages t x).
Proof. apply ticked_keeps. intros. by apply stages_sender. Qed.

Lemma sent_for_record p c deadline started sent :
  queued_for p c -> sent_for p (send_record deadline started sent c).
Proof.
  intros ->. unfold sent_for, matches_sent_record. cbn. by rewrite !bool_decide_true, !Z.eqb_refl by done.
Qed.

(** The first command of the channel is sent, or the thread fails. *)
Lemma tracked_sent pending sent c commands r :
  tracked pending sent (c :: commands) true -> (forall p, queued_for p c -> sent_for p r) ->
  tracked pending (sent ++ [r]) commands true.
Proof.
  intros (read & lost & queued & -> & Hr & Hq & Hl) Hc. rewrite (Hl eq_refl). inversion_clear Hq as [|p ? rest ? Hp Hq'].
  exists (read ++ [p]), [], rest. cbn. rewrite <- app_assoc. split; [done|]. split; [|done].
  apply Forall2_app; [done|]. constructor; [by apply Hc|constructor].
Qed.
Lemma tracked_lost pending sent c commands n :
  tracked pending sent (c :: commands) true -> tracked pending (take n sent) commands false.
Proof.
  intros (read & lost & queued & -> & Hr & Hq & Hl). rewrite (Hl eq_refl). inversion_clear Hq as [|p ? rest ? Hp Hq'].
  exists (take n read), (drop n read ++ [p]), rest. cbn. rewrite <- !app_assoc. cbn.
  rewrite app_assoc, take_drop. split; [done|]. split; [by apply Forall2_take|done].
Qed.

Lemma tracked_none sent commands running : tracked [] sent commands running -> sent = [] /\ commands = [].
Proof.
  intros (read & lost & queued & E & Hr & Hq & _). symmetry in E. apply app_nil in E as [-> E].
  apply app_nil in E as [-> ->]. by inversion Hr; inversion Hq.
Qed.

Lemma thread_tick_wired l e : wired l -> wired (thread_tick l e).
Proof.
  intros Hw. pose proof Hw as [H1 [H2 H2'] H3 H4 H5 H6 H7]. unfold thread_tick.
  destruct (lo_running l) eqn:Hrun; [|done].
  unfold tick_once. set (e' := thread_env l e). destruct (if _ <? _ then _ else _) as [woken|]; [|exact Hw].
  cbn [mbind option_bind]. change (te_arrived e') with (@nil PreparedPlayoutCommand). rewrite app_nil_r.
  change (te_generation e') with (lo_generation l). rewrite H1. cbn [andb].
  destruct (ds_commands (lo_sender l)) as [|c commands] eqn:Ec.
  { rewrite H2. cbn. rewrite H2'. split; try done; cbn.
    intros Hp. destruct (H7 Hp) as (? & [? ?] & ?). by split; [|split; [split|]]. }
  assert (Hpaused : lo_paused l = true -> False).
  { intros Hp. destruct (H7 Hp) as (_ & [E _] & _). rewrite Ec in E. done. }
  apply Forall_cons_1 in H4 as [H4 H4']. rewrite H4, Z.eqb_refl. cbn [negb].
  destruct (sink_send _ _ _) as [sink [[]|err|]].
  - destruct (te_room e').
    + split; cbn; rewrite ?H2'; try done. apply (tracked_sent _ _ c); [done|].
      intros p Hp. by apply sent_for_record.
    + split; cbn; rewrite ?H3; try done.
      apply (tracked_sent _ _ c) with (r := send_record (default (te_now e' + ds_tick (lo_sender l))
        (ds_next_deadline (lo_sender l))) (te_started e') (te_sent e') c) in H6 as (read & lost & queued & E & Hr & Hq & Hl);
        [|intros p Hp; by apply sent_for_record].
      exists (take 64 read), (drop 64 read ++ lost), queued. rewrite <- app_assoc, app_assoc, take_drop.
      split; [done|]. split; [by apply Forall2_take|done].
  - split; cbn; rewrite ?H3; try done. by eapply tracked_lost.
  - split; cbn; rewrite ?H3; try done. by eapply tracked_lost.
Qed.

Lemma threads_wired envs l : wired l -> wired (thread_runs envs l).
Proof.
  unfold thread_runs. revert l. induction envs as [|e envs IH]; intros l Hl; [done|]. by apply IH, thread_tick_wired.
Qed.

(** What does not concern the sender holds while its thread runs. *)
Definition senderless (P : state -> Prop) : Prop := forall l s running, P l -> P (set_sender s running l).
Lemma ticked_wired (P : state -> Prop) :
  senderless P -> total_triple (fun l => P l /\ wired l) ticked (fun _ l => P l /\ wired l).
Proof.
  intros HP l [Hl Hw] envs _. cbn. split; [|by apply threads_wired].
  destruct (threads_frame envs l) as (s & r & ->). by apply HP.
Qed.
Lemma stages_senderless t x : senderless (stages t x).
Proof. intros l s running. apply stages_sender. Qed.

(** ** Changes that leave the frames alone *)

(** A driver with the same frames in the same stages. *)
Definition same_frames (d d' : Driver) : Prop :=
  d_source d' = d_source d /\ d_egress d' = d_egress d /\ d_prepared d' = d_prepared d /\
  d_playback_epoch d' = d_playback_epoch d /\ heard d' = heard d.

Lemma stages_same t x d l : same_frames (lo_driver l) d -> stages t x l -> stages t x (set_driver d l).
Proof.
  intros (E1 & E2 & E3 & E4 & E5) [[D1 D2 D3 D4] H2 H3 H4 H5 H6 H7 H8 H9].
  assert (Ef : in_flight x (set_driver d l) = in_flight x l).
  { unfold in_flight, staged. cbn. by rewrite E2, E3. }
  assert (Et : tagged (set_driver d l) = tagged l) by (unfold tagged; cbn; by rewrite E4).
  split; unfold source_frames, stream in *; rewrite ?Ef, ?Et; cbn; rewrite ?E1, ?E3, ?E4, ?E5; try done.
  split; cbn; by rewrite ?E1, ?E2, ?E3.
Qed.
Lemma wired_same d l : d_prepared d = d_prepared (lo_driver l) -> wired l -> wired (set_driver d l).
Proof. intros E []. split; cbn; by rewrite ?E. Qed.
Lemma inv_same t d l : same_frames (lo_driver l) d -> inv t l -> inv t (set_driver d l).
Proof. intros E [H Hw]. split; [by apply stages_same|]. by apply wired_same; [apply E|]. Qed.

Lemma same_offer m d : sent_media m = None -> same_frames d (offer m d).
Proof. intros H. repeat split. by apply heard_offer_other. Qed.
Lemma inv_offer t m l : sent_media m = None -> inv t l -> inv t (upd_driver (offer m) l).
Proof. intros H. by apply inv_same, same_offer. Qed.

(** What is true of the loop whatever the metrics say. *)
Definition unmetered (P : state -> Prop) : Prop :=
  forall l m, sent_media m = None -> P l -> P (upd_driver (offer m) l).
Lemma inv_unmetered t : unmetered (inv t).
Proof. intros l m Hm. by apply inv_offer. Qed.
Lemma offers_keeps (P : state -> Prop) m :
  unmetered P -> sent_media m = None -> total_triple P (offers m) (fun _ => P).
Proof. intros HP Hm. apply total_writes. intros l. by apply HP. Qed.

(** ** The source buffer's depth *)

Lemma depth_same t l r :
  stages t [] l -> current_source_depth (lo_driver l) = r ->
  stages t [] (set_driver r.1 l) /\ heard r.1 = heard (lo_driver l) /\ d_prepared r.1 = d_prepared (lo_driver l).
Proof.
  intros H <-. destruct (current_source_depth_spec (lo_driver l)) as [a ->]. cbn. split; [|done].
  destruct H as [[D1 D2 D3 D4] H2 H3 H4 H5 H6 H7 H8 H9]. split; try done.
Qed.

Lemma depth_answer d : match snd (current_source_depth d) with
                       | Ok dep => dep = depth (sb_queue (d_source d))
                       | Err e => outside e
                       | Panic => False
                       end.
Proof. unfold current_source_depth. by destruct (sb_error (d_source d)). Qed.

(** [P] may say more, if it does not look at the error of the source buffer. *)
Lemma depth_triple t :
  triple (inv t) (locked current_source_depth) (fun dep l => inv t l /\ dep = depth (sb_queue (d_source (lo_driver l)))).
Proof.
  intros l Hl. apply wlp_bind. eapply wlp_mono; [|exact (fed_inv t l Hl)]. intros [] l' [H Hw]. cbn.
  pose proof (depth_answer (lo_driver l')) as Ha. destruct (depth_same t l' _ H eq_refl) as (H1 & _ & H3).
  assert (Hq : sb_queue (d_source (fst (current_source_depth (lo_driver l')))) = sb_queue (d_source (lo_driver l')))
    by (destruct (current_source_depth_spec (lo_driver l')) as [a ->]; done).
  destruct (current_source_depth (lo_driver l')) as [d [dep|e|]]; cbn in *; [|split; [done|by eapply stages_heard]|done].
  split; [|by rewrite Hq]. split; [done|]. by apply wired_same.
Qed.

(** ** Reading what the sender did *)

(** The record [r] was read, and the oldest pending command is not yet taken
    off. *)
Definition owed (r : DeadlineSendRecord) (l : state) : Prop :=
  exists p rest, lo_pending l = p :: rest /\ sent_for p r /\ wired (set_pending rest l).

Lemma next_sent_wired l l' r :
  wired l -> next_sent l = Some (l', r) ->
  match r with
  | Ok (Sent record) => exists s, l' = set_sender s (lo_running l) l /\ owed record l'
  | Ok (Dropped _) => False
  | Err e => l' = l /\ outside e
  | Panic => False
  end.
Proof.
  intros [H1 H2 H3 H4 H5 H6 H7]. unfold next_sent. destruct (ds_sent (lo_sender l)) as [|record sent] eqn:Es.
  - destruct (lo_running l); [done|]. intros [= <- <-]. split; [done|apply outside_closed].
  - intros [= <- <-]. eexists. split; [reflexivity|].
    destruct H6 as (read & lost & queued & E & Hr & Hq & Hl). apply Forall2_cons_inv_r in Hr as (p & read' & Hp & Hr' & ->).
    exists p, (read' ++ lost ++ queued). split; [exact E|]. split; [done|]. split; try done; cbn.
    + by exists read', lost, queued.
    + intros Hpause. destruct (H7 Hpause) as [Hnil _]. rewrite E in Hnil. done.
Qed.
Lemma next_dropped_wired l l' r :
  wired l -> next_dropped l = Some (l', r) -> l' = l /\ match r with Err e => outside e | _ => False end.
Proof.
  intros [_ _ H3 _ _ _ _]. unfold next_dropped. rewrite H3. destruct (lo_running l); [done|].
  intros [= <- <-]. split; [done|apply outside_closed].
Qed.

Definition outcome_read t (o : LiveDeadlineOutcome) (l : state) : Prop :=
  match o with Sent r => stages t [] l /\ owed r l | Dropped _ => False end.

Lemma try_next_outcome_triple t n :
  triple (fun l => (stages t [] l /\ length (lo_pending l) = n) /\ wired l) try_next_outcome
    (fun o l => length (lo_pending l) = n /\ match o with Some o => outcome_read t o l | None => inv t l end).
Proof.
  assert (Hs : senderless (fun l => stages t [] l /\ length (lo_pending l) = n)).
  { intros l s running [H ?]. split; [by apply stages_sender|done]. }
  eapply triple_bind; [by apply ticked_wired|]. intros [].
  eapply (triple_try _ (fun o l => match o with
    | Some o => outcome_read t o l /\ length (lo_pending l) = n
    | None => (stages t [] l /\ length (lo_pending l) = n) /\ wired l end)).
  - apply triple_act. intros l l' r [[Hl Hn] Hw]. unfold polled. destruct (next_sent l) as [[l1 o]|] eqn:E.
    + pose proof (next_sent_wired l l1 o Hw E) as Ho. destruct o as [[record|]|e|]; [| |..]; try done; intros [= <- <-].
      * destruct Ho as (s & -> & Ho). by split; [split; [apply stages_sender|]|].
      * destruct Ho as [-> Ho]. split; [done|by eapply stages_heard].
    + by intros [= <- <-].
  - intros [o|]; [apply triple_ret; tauto|]. eapply triple_bind; [by apply ticked_wired|]. intros [].
    apply triple_act. intros l l' r [[Hl Hn] Hw]. unfold polled. destruct (next_dropped l) as [[l1 o]|] eqn:E.
    + destruct (next_dropped_wired l l1 o Hw E) as [-> Ho]. destruct o as [|e|]; try done. intros [= <- <-].
      split; [done|by eapply stages_heard].
    + by intros [= <- <-].
Qed.

Lemma next_outcome_triple t :
  triple (fun l => stages t [] l /\ wired l) next_outcome (outcome_read t).
Proof.
  eapply triple_bind; [apply ticked_wired, stages_senderless|]. intros [].
  eapply triple_bind; [apply total_ask|]. intros b. apply triple_act. intros l l' r [[Hl Hw] _].
  assert (Hsent : next_sent l = Some (l', r) -> outcome (outcome_read t) r l').
  { intros E. pose proof (next_sent_wired l l' r Hw E) as Ho. destruct r as [[record|]|e|]; try done.
    - destruct Ho as (s & -> & Ho). split; [by apply stages_sender|done].
    - destruct Ho as [-> Ho]. split; [done|by eapply stages_heard]. }
  assert (Hdrop : next_dropped l = Some (l', r) -> outcome (outcome_read t) r l').
  { intros E. destruct (next_dropped_wired l l' r Hw E) as [-> Ho]. destruct r; try done.
    split; [done|by eapply stages_heard]. }
  destruct b, (next_sent l) as [[]|], (next_dropped l) as [[]|]; auto.
Qed.

(** ** Taking the command off and reporting it *)

Lemma sent_media_frame p r : sent_for p r -> sr_media_frame r = pd_media_frame p.
Proof.
  unfold sent_for, matches_sent_record. intros H. apply andb_true_iff in H as [_ H]. by apply bool_decide_eq_true in H.
Qed.

Lemma stages_account t x l p rest :
  lo_pending l = p :: rest -> stages t x l -> stages (t ++ option_list (pd_media_frame p)) x (set_pending rest l).
Proof.
  intros E [H1 H2 H3 H4 H5 H6 H7 H8 H9]. unfold in_flight in *. rewrite E in *.
  apply Forall_cons_1 in H4 as [Hp H4]. cbn in H3, H6, H7. destruct (pd_frame p) as [f|] eqn:Ef.
  - cbn in H3. apply Forall_cons_1 in H3 as [[Hf He] H3]. split; try done.
    + cbn in H6 |- *. rewrite zlen_cons in H6. unfold in_flight. cbn. lia.
    + change (heard (lo_driver l) ++ (t ++ option_list (pd_media_frame p)) ++
        map (tagged l) ((omap pd_frame rest ++ x ++ staged (lo_driver l)) ++ source_frames l) = stream l).
      rewrite Hp, <- H7, <- app_assoc. cbn. do 3 f_equal. unfold tagged. rewrite <- He. by destruct f.
  - split; try done. rewrite Hp. cbn. by rewrite app_nil_r.
Qed.

Lemma owed_feed r f l : owed r l -> owed r (feed f l).
Proof.
  intros (p & rest & E & Hs & Hw). exists p, rest.
  assert (Hc : set_pending rest (feed f l) = feed f (set_pending rest l)).
  { unfold feed. cbn. destruct (lo_producing l); [|done]. destruct (feed_frames _ _) as [[q fed] ok].
    by destruct ok, (fe_end f). }
  split; [|split; [done|rewrite Hc; by apply feed_wired]].
  unfold feed. destruct (lo_producing l); [|done]. destruct (feed_frames _ _) as [[q fed] ok].
  destruct (if ok then _ else _). exact E.
Qed.

Lemma accounted_triple t r dep n :
  triple (fun l => (stages t [] l /\ owed r l) /\ length (lo_pending l) = S n) (accounted (Sent r) dep)
    (fun o l => o = Some r /\ inv (t ++ option_list (sr_media_frame r)) l /\ length (lo_pending l) = n).
Proof.
  eapply (triple_bind _ (fun _ l => (stages t [] l /\ owed r l) /\ length (lo_pending l) = S n)).
  - intros l [[Hl Ho] Hn] f Hf. cbn. split; [split; [by apply feed_stages|by apply owed_feed]|].
    unfold feed. destruct (lo_producing l); [|done]. destruct (feed_frames _ _) as [[q fed] ok].
    destruct (if ok then _ else _). exact Hn.
  - intros []. apply triple_act. intros l l' o [[Hl (p & rest & E & Hs & Hw)] Hn].
    rewrite E. cbn. rewrite E in Hn. unfold sent_for in Hs. rewrite Hs. cbn. intros [= <- <-].
    split; [done|]. rewrite (sent_media_frame p r Hs).
    replace (set_driver (lo_driver l) l) with l by (by destruct l).
    split; [|by injection Hn]. split; [by apply stages_account|done].
Qed.

Lemma drain_outcomes_triple turns dep sent :
  triple (fun l => inv (omap sr_media_frame sent) l /\ (length (lo_pending l) < turns)%nat)
    (drain_outcomes turns dep sent) (fun sent' l => inv (omap sr_media_frame sent') l).
Proof.
  revert sent. induction turns as [|turns IH]; intros sent l [[Hl Hw] Hn]; [lia|]. cbn [drain_outcomes].
  eapply triple_try; [apply (try_next_outcome_triple (omap sr_media_frame sent) (length (lo_pending l)))| |done].
  intros [o|]; [|apply triple_ret; tauto]. destruct o as [r|r]; [|intros l' [_ []]].
  intros l' [Hn' [Hl' Ho]]. destruct (length (lo_pending l)) as [|n] eqn:En.
  { destruct Ho as (p & rest & E & _). rewrite E in Hn'. done. }
  eapply triple_try; [apply (accounted_triple (omap sr_media_frame sent) r dep n)| |done].
  intros o l2 (-> & Hinv & Hlen). apply IH. split; [|lia].
  rewrite omap_app. cbn. by destruct (sr_media_frame r).
Qed.

Lemma drain_ready_triple dep :
  triple (inv []) (drain_ready_deadline_outcomes dep) (fun sent l => inv (omap sr_media_frame sent) l).
Proof.
  eapply triple_bind; [apply total_reads|]. intros pending. eapply triple_weaken; [| |apply drain_outcomes_triple]; [|done].
  intros l [Hl ->]. by split; [|lia].
Qed.

Lemma inv_report t r work drain dep egress l :
  inv (option_list (sr_media_frame r) ++ t) l -> inv t (record_deadline_send_metric r work drain dep egress l).
Proof.
  intros [[H1 H2 H3 H4 H5 H6 H7 H8 H9] []]. unfold record_deadline_send_metric.
  destruct (mark_sent _ _ _ _ _) as [pacer mark]. set (m := SenderSent _).
  assert (Hm : sent_media m = sr_media_frame r) by done. clearbody m.
  split; [|by split]. split; try done; [by destruct H1|].
  change (heard (offer m (lo_driver l)) ++ t ++ map (tagged l) (in_flight [] l ++ source_frames l) = stream l).
  rewrite heard_offer, Hm, <- app_assoc, <- H7. by rewrite <- app_assoc.
Qed.

Lemma report_all_keeps t drain dep records :
  total_triple (inv (omap sr_media_frame records ++ t)) (report_all drain dep records) (fun _ => inv t).
Proof.
  induction records as [|r records IH]; [by intros l Hl|]. cbn [report_all].
  eapply (total_bind _ (fun _ => inv (omap sr_media_frame records ++ t))); [|intros []; exact IH].
  apply total_writes. intros l Hl. apply inv_report. cbn in Hl. by destruct (sr_media_frame r).
Qed.

Lemma report_ready_triple : triple (inv []) report_ready (fun _ => inv []).
Proof.
  eapply triple_try; [apply depth_triple|]. intros dep.
  eapply triple_try; [eapply triple_weaken; [| |apply drain_ready_triple]; [by intros l [Hl _]|done]|].
  intros sent. eapply (triple_bind _ (fun _ => inv [])); [|intros []; by apply triple_ret].
  eapply total_weaken; [| |apply (report_all_keeps [])]; [|done]. intros l. by rewrite app_nil_r.
Qed.

(** ** Taking everything back *)

Lemma flush_epoch reason frames d :
  d_playback_epoch (flush_egress_buffer_for_interruption reason frames d) = d_playback_epoch d.
Proof.
  assert (Hr : forall l d t, d_playback_epoch (fst (restore_to_source reason l d t)) = d_playback_epoch d).
  { induction l as [|f l IH]; intros d0 t; [done|]. cbn [restore_to_source]. unfold restore_live_source_frame.
    destruct (push_front _ _) as [q [[]| |]]; rewrite ?IH; done. }
  assert (Hd : forall n d, d_playback_epoch (fst (drain_prepared n reason d)) = d_playback_epoch d).
  { induction n as [|n IH]; intros d0; [done|]. cbn [drain_prepared]. destruct (prepared_pop _) as [q [x|]]; [|done].
    match goal with |- context [drain_prepared n reason ?y] => specialize (IH y); destruct (drain_prepared n reason y) end.
    exact IH. }
  unfold flush_egress_buffer_for_interruption, drain_egress_frames.
  specialize (Hd (length (pq_queue (d_prepared d))) d). destruct (drain_prepared _ reason d) as [d1 pr].
  destruct (drain_queue _ _) as [q eg]. case_bool_decide; [exact Hd|].
  set (r := restore_interrupted_frames_to_egress_buffer _ _ _ _). set (d2 := set_credits _ _).
  destruct (current_source_depth_spec d2) as [asked E]. rewrite E. set (t0 := mkTally _ _ _ _ _ _ _).
  match goal with |- context [restore_to_source reason ?l ?x t0] =>
    specialize (Hr l x t0); destruct (restore_to_source reason l x t0) as [d4 t] end.
  destruct (report_interruption_spec reason t d4) as [ms ->]. cbn in *. by rewrite Hr.
Qed.

(** At most 400 ms are in flight and the egress buffer takes 500 ms: nothing
    goes back to the source buffer and nothing is lost. *)
Lemma stages_flush t reason frames l :
  lo_pending l = [] -> stages t frames l ->
  stages t [] (upd_driver (flush_egress_buffer_for_interruption reason frames) l) /\
  pq_queue (d_prepared (flush_egress_buffer_for_interruption reason frames (lo_driver l))) = [].
Proof.
  intros Hp [H1 H2 H3 H4 H5 H6 H7 H8 H9]. unfold in_flight in *. rewrite Hp in H3, H6, H7. cbn in H3, H6, H7.
  destruct (flush_spec B HB reason frames (lo_driver l)) as (F1 & F2 & F3 & F4 & _ & F6 & _); [done| |].
  { apply Forall_app in H3 as [H3 _]. eapply Forall_impl; [exact H3|]. by intros f [? _]. }
  assert (Hlen : (length (frames ++ staged (lo_driver l)) <= 20)%nat) by (unfold zlen in H6; lia).
  rewrite take_ge in F2 by lia. unfold kept_at_source in F3.
  rewrite (drop_ge _ 25) in F3 by lia. rewrite drop_nil in F3. cbn in F3.
  set (d' := flush_egress_buffer_for_interruption reason frames (lo_driver l)) in *.
  assert (Ef : in_flight [] (set_driver d' l) = frames ++ staged (lo_driver l)).
  { unfold in_flight, staged. cbn. by rewrite Hp, F4, F2. }
  assert (Et : tagged (set_driver d' l) = tagged l) by (unfold tagged; cbn; unfold d'; by rewrite flush_epoch).
  split; [|done]. change (stages t [] (set_driver d' l)). split; rewrite ?Ef; try done.
  - by apply flush_prepared_stage.
  - eapply Forall_impl; [exact H3|]. intros f [? ?]. split; [done|]. cbn. unfold d'. by rewrite flush_epoch.
  - change (Forall (fun p => pc_media_frame (pt_command p) = Some (prepared_media_frame (pt_frame p)))
      (pq_queue (d_prepared d'))). by rewrite F4.
  - unfold stream, source_frames in *. rewrite Et.
    change (heard d' ++ t ++ map (tagged l) ((frames ++ staged (lo_driver l)) ++ q_inner (sb_queue (d_source d'))) = map (tagged l) (lo_fed l)).
    rewrite F3. unfold d'. rewrite heard_flush. done.
  - unfold source_frames in *. cbn. fold d'. rewrite F3, F6. done.
  - cbn. fold d'. rewrite F6. done.
Qed.

(** The sender is new and the driver has handed it nothing. *)
Definition rewired (l : state) : Prop :=
  wired l /\ lo_pending l = [] /\ idle_sender (lo_sender l) /\ pq_queue (d_prepared (lo_driver l)) = [].
Definition spawned (l : state) : Prop :=
  lo_pending l = [] /\ lo_running l = true /\ exists sink deadline, lo_sender l = new_sender sink deadline.

Lemma spawned_wired l : spawned l -> pq_queue (d_prepared (lo_driver l)) = [] -> rewired l.
Proof.
  intros (Hp & Hr & sink & deadline & Hs) Hq. split; [|by rewrite Hs].
  split; rewrite ?Hs, ?Hp, ?Hq; try done. by exists [], [], [].
Qed.

Lemma replace_triple t reason deadline :
  triple (stages t []) (replace_deadline_sender_after_invalidation_at reason deadline)
    (fun frames l => stages t frames l /\ spawned l).
Proof.
  eapply (triple_try _ (fun _ => stages t [])).
  { intros l Hl [sink|e|] Ha; [done|by split; [|eapply stages_heard]|done]. }
  intros sink. eapply (triple_bind _ (fun _ l => stages t [] l /\ lo_running l = true /\
    exists sink deadline, lo_sender l = new_sender sink deadline)).
  { apply total_writes. intros l Hl. split; [by apply stages_sender|]. split; [done|]. by exists sink, deadline. }
  intros []. apply triple_act. intros l l' r ([H1 H2 H3 H4 H5 H6 H7 H8 H9] & Hrun & Hs).
  pose proof (heard_take_pending reason (lo_pending l) (lo_driver l)) as Hh.
  destruct (take_pending_frames_spec reason (lo_pending l) (lo_driver l)) as [ms E]. rewrite E in Hh |- *.
  cbn [fst] in Hh. intros [= <- <-]. split; [|done]. split; try done.
  - by destruct H1.
  - change (heard (mkDriver (d_source (lo_driver l)) (d_egress (lo_driver l)) (d_prepared (lo_driver l))
      (d_credits (lo_driver l)) (d_playback_epoch (lo_driver l))
      (d_account_popped_frame_as_skipped_on_stop (lo_driver l)) ms) ++ t ++
      map (tagged l) (in_flight [] l ++ source_frames l) = stream l). by rewrite Hh.
Qed.

Lemma feed_spawned f l : spawned l -> spawned (feed f l).
Proof.
  unfold feed. destruct (lo_producing l); [|done]. destruct (feed_frames _ _) as [[q fed] ok].
  by destruct ok, (fe_end f).
Qed.

Lemma flushed_keeps t reason frames :
  total_triple (fun l => stages t frames l /\ spawned l) (flushed reason frames) (fun _ l => stages t [] l /\ rewired l).
Proof.
  eapply (total_bind _ (fun _ l => stages t frames l /\ spawned l)).
  { intros l [Hl Hs] f Hf. cbn. split; [by apply feed_stages|by apply feed_spawned]. }
  intros []. apply total_writes. intros l [Hl Hs]. destruct (stages_flush t reason frames l) as [H1 H2]; [apply Hs|done|].
  split; [done|]. by apply spawned_wired.
Qed.

Lemma take_back_triple t reason : triple (stages t []) (take_back reason) (fun _ l => stages t [] l /\ rewired l).
Proof.
  eapply triple_try.
  - eapply triple_bind; [apply total_ask|]. intros now. eapply triple_weaken; [| |apply (replace_triple t reason)]; [|done].
    by intros l [Hl _].
  - intros frames. eapply triple_bind; [apply flushed_keeps|]. intros []. by apply triple_ret.
Qed.

Lemma invalidate_keeps t x :
  total_triple (stages t x) invalidate_prepared_playout_generation (fun _ => stages t x).
Proof.
  eapply total_bind; [apply ticked_stages|]. intros []. apply total_writes. intros l []. by split.
Qed.
Lemma discard_keeps (P : state -> Prop) : total_triple P discard_unsent_prepared_packets (fun _ => P).
Proof. intros l Hl a _. done. Qed.

(** Everything prepared so far is void: the next packet is made anew. *)
Lemma rebuild_triple t deadline :
  triple (inv t) (rebuild_prepared_playout_for_dave_transition deadline) (fun _ l => stages t [] l /\ rewired l).
Proof.
  eapply triple_bind; [eapply total_weaken; [| |apply (invalidate_keeps t [])]; [by intros l [Hl _]|done]|]. intros [].
  eapply triple_bind; [apply discard_keeps|]. intros [].
  eapply triple_try; [apply replace_triple|]. intros frames.
  eapply triple_bind; [apply flushed_keeps|]. intros []. by apply triple_ret.
Qed.

(** ** Refilling *)

Definition pending_frames (l : state) : Z := zlen (omap pd_frame (lo_pending l)).
Definition prepared_frames (l : state) : Z := zlen (pq_queue (d_prepared (lo_driver l))).

(** The driver fills its stages, with [ps] samples handed over and [k] frames
    prepared. *)
Definition filling (ps k : Z) (l : state) : Prop :=
  inv [] l /\ (ps = 960 * pending_frames l /\ prepared_frames l = k) /\ lo_paused l = false.

Lemma in_flight_len l : zlen (in_flight [] l) =
  pending_frames l + prepared_frames l + zlen (q_inner (d_egress (lo_driver l))).
Proof.
  unfold in_flight, staged, pending_frames, prepared_frames, zlen. cbn. rewrite !length_app, length_map. lia.
Qed.

Lemma feed_driver f (l : state) :
  exists s producing fed, feed f l = set_fed (set_source s (lo_driver l)) producing fed l.
Proof.
  unfold feed. destruct (lo_producing l); [|exists (d_source (lo_driver l)), (lo_producing l), (lo_fed l); by destruct l as [[]]].
  destruct (feed_frames _ _) as [[q went_in] ok]. destruct (if ok then _ else _). by do 3 eexists.
Qed.

Lemma filling_len ps k l : filling ps k l ->
  0 <= pending_frames l /\ pq_duration_samples (d_prepared (lo_driver l)) = 960 * prepared_frames l /\
  0 <= prepared_frames l /\ 0 <= zlen (q_inner (d_egress (lo_driver l))) <= 25 /\
  q_duration_samples (d_egress (lo_driver l)) = 960 * zlen (q_inner (d_egress (lo_driver l))) /\
  zlen (in_flight [] l) <= 20.
Proof.
  intros [[[H1 H2 _ _ _ H6 _ _ _] _] _]. destruct (stage_len B HB 25 _ (do_egress _ _ H1)) as [E1 E2].
  destruct (prepared_stage_len B HB _ H2) as [E3 E4]. unfold pending_frames, prepared_frames in *.
  pose proof (zlen_nonneg (omap pd_frame (lo_pending l))). split_and!; done || lia.
Qed.

(** What a refill aims at: 400 ms less what is handed over or prepared. *)
Definition refill_target (ps : Z) (l : state) : Z :=
  sat_sub (sat_sub (samples_from_duration_ms_u64 DISCORD_EGRESS_BUFFER_TARGET_MS) ps)
    (pq_duration_samples (d_prepared (lo_driver l))).

(** The room left, the target and the end of the source before a turn. *)
Definition refillable (ps k n target : Z) (l : state) : Prop :=
  filling ps k l /\ lo_source_ended l = false /\ zlen (in_flight [] l) < 20 /\ 20 - zlen (in_flight [] l) <= n /\
  refill_target ps l = target.

(** A turn that moved at most one frame keeps everything in order. *)
Lemma filling_refilled ps k n target latest l s' moved again :
  refillable ps k n target l -> refill_turn (refill_state latest l) = (s', Ok again) ->
  refilled B (refill_state latest l) s' moved -> zlen moved <= 1 -> (again = true -> zlen moved = 1) ->
  (rf_source_ended s' = true -> source_frames l = [] /\ sb_end_of_stream (d_source (lo_driver l)) = true) ->
  let l'' := set_source_flags (rf_source_ended s') (rf_underrun_active s') (set_driver (rf_driver s') l) in
  filling ps k l'' /\ refill_target ps l'' = target /\ (again = true -> 20 - zlen (in_flight [] l'') <= n - 1).
Proof.
  intros (((Hl & Hw) & Hp & Hpa) & He & Hlen & Hn & Ht) E [R1 R2 R3 R4 R5 R6 R7] Hm Hag Hend l''.
  pose proof (heard_refill_turn (refill_state latest l)) as Hh. rewrite E in Hh. cbn in Hh, R2, R3, R4, R5, R6.
  pose proof Hl as [H1 H2 H3 H4 H5 H6 H7 H8 H9].
  assert (Ef : in_flight [] l'' = in_flight [] l ++ map (fun f => with_epoch f (d_playback_epoch (lo_driver l))) moved).
  { unfold in_flight, staged. cbn. by rewrite R4, R3, !app_assoc. }
  assert (Et : tagged l'' = tagged l) by (unfold tagged; cbn; by rewrite R5).
  assert (Hlen' : zlen (in_flight [] l'') = zlen (in_flight [] l) + zlen moved).
  { rewrite Ef. unfold zlen. rewrite length_app, length_map. lia. }
  split; [|split; [unfold refill_target in *; cbn; by rewrite R4|intros Ha; specialize (Hag Ha); lia]].
  split; [|split; [unfold prepared_frames; cbn; by rewrite R4|done]].
  split; [|split; try done; [apply Hw..| | |]; cbn; rewrite ?R4; apply Hw].
  split; rewrite ?Hlen'.
  - done.
  - cbn. by rewrite R4.
  - rewrite Ef. apply Forall_app. split; [cbn; by rewrite R5|]. apply Forall_map, Forall_forall.
    intros f Hf. cbn. rewrite R5. split; [|done]. apply with_epoch_small.
    pose proof (so_frames _ _ _ (do_source _ _ H1)) as Hs. rewrite R2 in Hs. apply Forall_app in Hs as [Hs _].
    rewrite Forall_forall in Hs. by apply Hs.
  - done.
  - cbn. by rewrite R4.
  - lia.
  - rewrite Ef, Et. unfold stream. rewrite Et. change (lo_fed l'') with (lo_fed l). fold (stream l). rewrite <- H7.
    change (heard (lo_driver l'')) with (heard (rf_driver s')). rewrite Hh. do 2 f_equal.
    unfold source_frames. cbn. rewrite R2, !map_app, <- !app_assoc, map_map. done.
  - intros Hse. destruct (Hend Hse) as [Hsrc Heos]. unfold source_frames in *. cbn. rewrite R6. split; [|done].
    rewrite Hsrc in R2. symmetry in R2. by apply app_nil in R2 as [_ ->].
  - cbn. by rewrite R6.
Qed.

Lemma refill_once_triple ps k n target latest :
  triple (refillable ps k n target) (refill_once latest)
    (fun r l => filling ps k l /\ refill_target ps l = target /\ (r.1 = true -> 20 - zlen (in_flight [] l) <= n - 1)).
Proof.
  eapply (triple_bind _ (fun _ => refillable ps k n target)).
  { intros l ((Hi & Hp & Hpa) & Hx) f Hf. cbn. split; [split; [by apply (fed_inv [] l Hi f Hf)|]|];
      destruct (feed_driver f l) as (s & producing & fed' & ->); done. }
  intros []. apply triple_act. intros l l' r Hl. pose proof Hl as (((Hst & Hw) & Hp & Hpa) & He & Hlen & Hn & Ht).
  destruct (sb_error (d_source (lo_driver l))) as [err|] eqn:Eerr.
  { unfold refill_turn, refill_state, pop_live_source_frame in *. cbn in *. rewrite Eerr in *. intros [= <- <-].
    split; [done|]. exact (stages_heard [] [] l Hst). }
  destruct (filling_len ps k l (proj1 Hl)) as (? & _ & ? & _ & _ & _). rewrite in_flight_len in Hlen.
  pose proof (refill_turn_spec B HB (refill_state latest l) (sg_driver _ _ _ Hst) Eerr ltac:(cbn; lia)) as Hturn.
  pose proof (filling_refilled ps k n target latest l) as Hmove.
  unfold source_frames in Hmove. cbn [rf_driver refill_state] in Hturn.
  destruct (q_inner (sb_queue (d_source (lo_driver l)))) as [|f rest] eqn:Esrc;
    destruct Hturn as (s' & E & Hr & Hen); rewrite E; intros [= <- <-].
  - apply (Hmove s' [] false); try done. rewrite Hen. cbn. rewrite He. done.
  - apply (Hmove s' [f] true); try done. rewrite Hen. cbn. rewrite He. done.
Qed.

Lemma target_room ps k l latest :
  filling ps k l -> refill_wants (refill_target ps l) (refill_state latest l) = true ->
  lo_source_ended l = false /\ zlen (in_flight [] l) < 20.
Proof.
  intros Hf. destruct (filling_len ps k l Hf) as (L1 & L2 & L3 & L4 & L5 & L6). destruct Hf as (_ & [Hps _] & _).
  unfold refill_wants, refill_target. cbn [refill_state rf_source_ended rf_driver]. destruct (lo_source_ended l); [done|].
  cbn [negb andb]. rewrite samples_exact by done. unfold buffered_samples, sat_sub, DISCORD_EGRESS_BUFFER_TARGET_MS.
  rewrite L5, L2, Hps, in_flight_len. intros H. apply andb_true_iff in H as [H _]. apply Z.ltb_lt in H. split; [done|lia].
Qed.

Lemma refill_turns_triple ps k turns target latest :
  triple (fun l => filling ps k l /\ refill_target ps l = target /\ 20 - zlen (in_flight [] l) < Z.of_nat turns)
    (refill_turns turns target latest) (fun _ => filling ps k).
Proof.
  revert latest. induction turns as [|turns IH]; intros latest.
  { intros l (Hf & Ht & Hn). destruct (filling_len ps k l Hf) as (_ & _ & _ & _ & _ & ?). lia. }
  cbn [refill_turns]. eapply triple_bind; [apply total_reads|].
  intros [|]; [|apply triple_ret; tauto]. intros l1 [(Hf1 & Ht1 & Hn1) Hw].
  rewrite <- Ht1 in Hw. destruct (target_room ps k l1 latest Hf1 (eq_sym Hw)) as [He Hr].
  eapply triple_try; [apply (refill_once_triple ps k (Z.of_nat turns) target)| |].
  - intros [[|] dep]; cbn; [|apply triple_ret; tauto]. eapply triple_weaken; [| |apply IH]; [|done].
    intros l2 (Hf2 & Ht2 & Hn2). split; [done|]. split; [done|]. specialize (Hn2 eq_refl). lia.
  - split; [done|]. split; [done|]. split; [done|]. split; [lia|done].
Qed.

Lemma refill_from_source_triple ps k : triple (filling ps k) (refill_from_source ps) (fun _ => filling ps k).
Proof.
  eapply (triple_try _ (fun _ => filling ps k)).
  { intros l ((Hi & Hw) & Hp & Hpa). intros f Hf. cbn.
    pose proof (feed_stages [] [] f l Hf Hi) as Hi'. assert (Hw' : wired (feed f l)) by (by apply feed_wired).
    assert (Hx : (ps = 960 * pending_frames (feed f l) /\ prepared_frames (feed f l) = k) /\ lo_paused (feed f l) = false).
    { destruct (feed_driver f l) as (s & producing & fed' & ->). done. }
    pose proof (depth_answer (lo_driver (feed f l))) as Ha.
    destruct (depth_same [] (feed f l) _ Hi' eq_refl) as (D1 & _ & D3).
    destruct (current_source_depth (lo_driver (feed f l))) as [d [dep|e|]]; cbn in *;
      [|split; [done|by eapply stages_heard]|done].
    split; [split; [done|by apply wired_same]|]. unfold prepared_frames in *. cbn. by rewrite D3. }
  intros latest. eapply triple_bind; [apply total_reads|]. intros target.
  eapply triple_try.
  { eapply triple_weaken; [| |apply (refill_turns_triple ps k STAGE_TURNS target)]; [|done].
    intros l [Hf ->]. destruct (filling_len ps k l Hf) as (? & _ & ? & ? & _ & _).
    split; [done|]. split; [done|]. rewrite in_flight_len. unfold STAGE_TURNS, PLAYBACK_QUEUE_CAPACITY. lia. }
  intros latest'. eapply (triple_bind _ (fun _ => filling ps k)); [|intros []; by apply triple_ret].
  apply total_writes. intros l (Hi & Hp & Hpa). split; [by apply inv_offer|done].
Qed.

(** ** Preparing *)

(** [frame] was taken off the egress buffer of a driver that fills. *)
Definition popped (ps k : Z) (frame : OpusFrame) (l : state) : Prop :=
  exists l0 rest q, filling ps k l0 /\ pending_frames l0 + k < 20 /\
    q_inner (d_egress (lo_driver l0)) = frame :: rest /\
    stage_ok B 25 q /\ q_inner q = rest /\ l = upd_driver (set_egress q) l0.

Lemma popped_heard ps k frame l : popped ps k frame l -> heard_in_order l.
Proof. intros (l0 & rest & q & [[H _] _] & _ & _ & _ & _ & ->). exact (stages_heard [] [] l0 H). Qed.

Lemma credit_same frame d :
  exists c o, take_rebuild_credit frame d = (set_credits c d, o).
Proof.
  unfold take_rebuild_credit. destruct (remove_credit _ _) as [[r c]|]; [by do 2 eexists|].
  exists (d_credits d), None. by destruct d.
Qed.

(** A prepared packet takes the place of its frame. *)
Lemma queue_prepared_fills ps k frame packet l :
  popped ps k frame l ->
  let command := mkPreparedPlayoutCommand packet KTrack (Some (prepared_media_frame frame)) (lo_generation l) in
  exists l', queue_prepared (mkPreparedTrackPlayout command frame) l = (l', Ok tt) /\ filling ps (k + 1) l'.
Proof.
  intros (l0 & rest & q & (Hi & [Hps Hk] & Hpa) & Hr & Eq & Hq & Eqi & ->) command.
  destruct Hi as [[H1 H2 H3 H4 H5 H6 H7 H8 H9] Hw]. unfold queue_prepared.
  set (x := mkPreparedTrackPlayout command frame).
  destruct (credit_same frame (lo_driver (upd_driver (set_egress q) l0))) as (credits & o & Ec).
  change (pt_frame x) with frame. rewrite Ec. cbn [set_credits d_prepared upd_driver set_driver lo_driver set_egress].
  assert (Hsm : small_frame B frame).
  { pose proof (so_frames _ _ _ (do_egress _ _ H1)) as Hf. rewrite Eq in Hf. by inversion Hf. }
  destruct (prepared_stage_push B HB (d_prepared (lo_driver l0)) x H2 Hsm) as (p & Ep & Hp & Epq).
  { rewrite <- Hk in Hr. unfold prepared_frames, pending_frames in Hr. pose proof (zlen_nonneg (omap pd_frame (lo_pending l0))). lia. }
  rewrite Ep. eexists. split; [reflexivity|]. unfold record_prepared_playout_event.
  match goal with |- context [offer ?m ?d] => set (metric := m); set (d1 := d) end.
  set (l' := set_driver (offer metric d1) (upd_driver (set_egress q) l0)).
  assert (Eflight : in_flight [] l' = in_flight [] l0).
  { unfold in_flight, staged. cbn. unfold offer. cbn. by rewrite Epq, Eqi, Eq, map_app, <- !app_assoc. }
  assert (Hh : heard (offer metric d1) = heard (lo_driver l0)) by (by rewrite heard_offer_other).
  assert (Hframes : prepared_frames l' = prepared_frames l0 + 1).
  { unfold prepared_frames, zlen. cbn. unfold offer. cbn. rewrite Epq, length_app. cbn. lia. }
  split; [|split; [split; [done|lia]|done]]. split.
  - split; rewrite ?Eflight; try done.
    + destruct H1 as [D1 D2 D3 D4]. split; cbn; unfold offer; cbn; [done|done| |].
      * rewrite Epq, map_app. apply Forall_app. split; [done|]. by constructor.
      * apply Hp.
    + cbn. unfold offer. cbn. rewrite Epq. apply Forall_app. split; [done|]. by constructor.
    + change (heard (offer metric d1) ++ [] ++ map (tagged l0) (in_flight [] l0 ++ source_frames l0) = stream l0).
      by rewrite Hh.
  - destruct Hw as [W1 W2 W3 W4 W5 W6 W7]. split; try done; cbn; rewrite ?Hpa; [|done].
    unfold offer. cbn. rewrite Epq. apply Forall_app. split; [done|]. by constructor.
Qed.

Lemma prepare_frame_triple ps k frame :
  triple (popped ps k frame) (prepare_frame frame) (fun _ => filling ps (k + 1)).
Proof.
  eapply triple_bind; [apply total_ask|]. intros started.
  eapply triple_try; [apply triple_asking; [intros l [Hl _]; by eapply popped_heard|done]|]. intros [].
  eapply triple_try; [apply triple_asking; [intros l [Hl _]; by eapply popped_heard|done]|]. intros packet.
  eapply triple_bind; [apply total_ask|]. intros finished. eapply triple_bind; [apply total_reads|]. intros generation.
  eapply (triple_try _ (fun _ => filling ps (k + 1))).
  - apply triple_act. intros l l' r [[[Hl _] _] ->].
    destruct (queue_prepared_fills ps k frame packet l Hl) as (l'' & E & H). rewrite E. by intros [= <- <-].
  - intros []. eapply (triple_bind _ (fun _ => filling ps (k + 1))); [|intros []; by apply triple_ret].
    apply total_writes. intros l (Hi & Hp). split; [by apply inv_offer|done].
Qed.

(** The stages are full or the egress buffer is empty. *)
Definition filled (x : list OpusFrame) (l : state) : Prop :=
  q_inner (d_egress (lo_driver l)) = [] \/ 20 <= pending_frames l + zlen x + prepared_frames l.

Lemma wants_prepared_spec ps k l :
  filling ps k l ->
  if wants_prepared ps l then pending_frames l + prepared_frames l < 20 else filled [] l.
Proof.
  intros Hf. destruct (filling_len ps k l Hf) as (L1 & L2 & L3 & L4 & L5 & L6). destruct Hf as [[[H1 H2 _ _ _ _ _ _ _] _] [[Hps _] _]].
  unfold wants_prepared, prepared_is_full, depth, filled. cbn [bd_packets].
  rewrite !samples_exact by done. rewrite L2, Hps. unfold sat_add, u64_max, DISCORD_EGRESS_BUFFER_TARGET_MS, DISCORD_EGRESS_BUFFER_HIGH_WATERMARK_MS.
  assert (Hb : pq_bytes (d_prepared (lo_driver l)) <= 4096 * prepared_frames l).
  { destruct H2 as [Hq _]. pose proof (so_queue _ _ _ Hq) as Hqo. pose proof (qo_bytes _ Hqo) as E. cbn in E. rewrite E.
    destruct (small_sums B HB _ (so_frames _ _ _ Hq)) as [_ Hs]. cbn in Hs. rewrite zlen_map in Hs. unfold prepared_frames. lia. }
  assert (Hk : pq_packets (d_prepared (lo_driver l)) = prepared_frames l) by apply H2.
  rewrite in_flight_len in L6.
  rewrite Hk, (proj2 (Z.leb_gt (500 * 48) _)), (proj2 (Z.leb_gt PLAYBACK_QUEUE_CAPACITY _)),
    (proj2 (Z.leb_gt PLAYBACK_BUFFER_MEMORY_CAP_BYTES _)) by (unfold PLAYBACK_QUEUE_CAPACITY, PLAYBACK_BUFFER_MEMORY_CAP_BYTES; lia).
  cbn [orb negb]. rewrite andb_true_r, Z.min_r by lia. unfold q_len.
  destruct (Z.ltb_spec (960 * pending_frames l + 960 * prepared_frames l) (400 * 48)); rewrite ?andb_true_r, ?andb_false_r;
    [|right; unfold zlen; cbn; lia].
  destruct (lo_source_ended l); cbn [negb orb]; [|lia]. zcase; [lia|left].
  by destruct (q_inner (d_egress (lo_driver l))).
Qed.

Lemma pop_egress_fills ps k l l' frame :
  filling ps k l -> pending_frames l + k < 20 -> pop_egress l = Some (l', frame) ->
  match frame with Some f => popped ps k f l' | None => l' = l /\ filled [] l end.
Proof.
  intros Hf Hr. unfold pop_egress.
  pose proof Hf as [[[H1 _ _ _ _ _ _ _ _] _] _]. destruct (stage_pop B 25 _ (do_egress _ _ H1)) as (P1 & P2 & P3).
  unfold filled. destruct (pop (d_egress (lo_driver l))) as [q o] eqn:E. cbn in P1, P2, P3. intros [= <- <-].
  destruct (q_inner (d_egress (lo_driver l))) as [|f rest] eqn:Eq; cbn in P2, P3; rewrite P2.
  - split; [|by left]. unfold pop in E. rewrite Eq in E. injection E as <- _. by destruct l as [[]].
  - by exists l, rest, q.
Qed.

Lemma prepare_frames_triple ps k turns latest :
  triple (fun l => filling ps k l /\ 20 - (pending_frames l + k) < Z.of_nat turns)
    (prepare_frames turns ps latest) (fun _ l => exists k', filling ps k' l /\ filled [] l).
Proof.
  revert k latest. induction turns as [|turns IH]; intros k latest.
  { intros l [Hf Hn]. destruct (filling_len ps k l Hf) as (L1 & _ & L3 & L4 & _ & L6). rewrite in_flight_len in L6.
    destruct Hf as (_ & [_ Hk] & _). lia. }
  assert (Hw : forall l, filling ps k l -> if wants_prepared ps l then pending_frames l + k < 20 else filled [] l).
  { intros l Hf. pose proof (wants_prepared_spec ps k l Hf) as Hs. by destruct Hf as (_ & [_ <-] & _). }
  cbn [prepare_frames]. eapply triple_bind; [apply total_reads|].
  intros [|]; [|apply triple_ret; intros l [[Hf _] E]; exists k; specialize (Hw l Hf); by rewrite <- E in Hw].
  eapply (triple_bind _ (fun _ l => filling ps k l /\ 960 * (20 - Z.of_nat turns) <= ps + 960 * k < 960 * 20)).
  { intros l [[Hf Hn] E]. specialize (Hw l Hf). rewrite <- E in Hw. split; [done|]. destruct Hf as (_ & [-> _] & _). lia. }
  intros empty. eapply (triple_try _ (fun _ l => filling ps k l /\ 960 * (20 - Z.of_nat turns) <= ps + 960 * k < 960 * 20)).
  { intros l [Hf Hb]. destruct empty; [|done]. eapply wlp_mono; [|exact (refill_from_source_triple ps k l Hf)].
    intros [a|e|] l'; done. }
  intros latest'. eapply (triple_bind _ (fun frame l => (match frame with Some f => popped ps k f l | None => filling ps k l /\ filled [] l end)
    /\ 960 * (20 - Z.of_nat turns) <= ps + 960 * k < 960 * 20)).
  { intros l [Hf Hb]. cbn. destruct (pop_egress l) as [[l' frame]|] eqn:E; [|done].
    assert (Hr : pending_frames l + k < 20) by (destruct Hf as (_ & [Hp _] & _); lia).
    pose proof (pop_egress_fills ps k l l' frame Hf Hr E) as H. split; [|done].
    destruct frame; [done|]. by destruct H as [-> H]. }
  intros [frame|]; [|apply triple_ret; intros l [[Hf Hx] _]; by exists k].
  intros l [Hp Hb]. revert l Hp. change (triple (popped ps k frame)
    (_ ←? prepare_frame frame; latest0 ←? refill_from_source ps; prepare_frames turns ps latest0)
    (fun _ l => exists k', filling ps k' l /\ filled [] l)).
  eapply triple_try; [apply prepare_frame_triple|]. intros []. eapply triple_try; [apply refill_from_source_triple|].
  intros latest''. eapply triple_weaken; [| |apply (IH (k + 1))]; [|done].
  intros l Hf. split; [done|]. destruct Hf as (_ & [-> _] & _). lia.
Qed.

Lemma fill_prepared_triple ps :
  triple (fun l => exists k, filling ps k l) (fill_prepared_playout_queue ps) (fun _ l => exists k, filling ps k l /\ filled [] l).
Proof.
  intros l [k Hl]. revert l Hl. change (triple (filling ps k) (fill_prepared_playout_queue ps)
    (fun _ l => exists k, filling ps k l /\ filled [] l)).
  eapply triple_try; [apply refill_from_source_triple|]. intros latest. eapply triple_try.
  - eapply triple_weaken; [| |apply (prepare_frames_triple ps k STAGE_TURNS)]; [|done].
    intros l Hf. split; [done|]. destruct (filling_len ps k l Hf) as (? & _ & ? & _). destruct Hf as (_ & [_ <-] & _).
    unfold STAGE_TURNS, PLAYBACK_QUEUE_CAPACITY. lia.
  - intros latest'. eapply (triple_bind _ (fun _ l => exists k, filling ps k l /\ filled [] l)); [|intros []; by apply triple_ret].
    apply total_writes. intros l (k' & (Hi & Hp) & Hx). exists k'. split; [split; [by apply inv_offer|done]|done].
Qed.

(** ** Handing packets over *)

(** Running the thread makes room in the command channel, never takes it. *)
Lemma thread_tick_commands l e :
  (length (ds_commands (lo_sender (thread_tick l e))) <= length (ds_commands (lo_sender l)))%nat.
Proof.
  unfold thread_tick. destruct (lo_running l); [|done]. unfold tick_once.
  destruct (if _ <? _ then _ else _); [|done]. cbn [mbind option_bind]. change (te_arrived (thread_env l e)) with (@nil PreparedPlayoutCommand).
  rewrite app_nil_r. destruct (ds_commands (lo_sender l)) as [|c rest] eqn:Ec.
  - destruct (ds_disconnected _); cbn; rewrite ?Ec; done.
  - destruct (_ && _); [destruct (negb _); cbn; lia|].
    destruct (sink_send _ _ _) as [sink [[]| |]]; [destruct (te_room _)|..]; cbn; lia.
Qed.
Lemma threads_commands envs l :
  (length (ds_commands (lo_sender (thread_runs envs l))) <= length (ds_commands (lo_sender l)))%nat.
Proof.
  unfold thread_runs. revert l. induction envs as [|e envs IH]; intros l; [done|]. cbn.
  etransitivity; [apply IH|apply thread_tick_commands].
Qed.

Definition has_capacity (l : state) : Prop := (0 < available_command_capacity l)%nat.

Lemma ticked_capacity (P : state -> Prop) :
  senderless P -> total_triple (fun l => (P l /\ wired l) /\ has_capacity l) ticked (fun _ l => (P l /\ wired l) /\ has_capacity l).
Proof.
  intros HP l [Hl Hc] envs Ha. split; [exact (ticked_wired P HP l Hl envs Ha)|].
  pose proof (threads_commands envs l). unfold has_capacity, available_command_capacity in *. lia.
Qed.

(** The command is in the channel and not yet among the pending ones. *)
Definition handing (c : PreparedPlayoutCommand) (P : state -> Prop) (l : state) : Prop :=
  exists l0, l = with_command c l0 /\ P l0 /\ wired l0.

Lemma try_send_triple c (P : state -> Prop) :
  senderless P -> (forall l, P l -> heard_in_order l) ->
  triple (fun l => (P l /\ wired l) /\ has_capacity l) (try_send_command c) (fun _ => handing c P).
Proof.
  intros HP Hh. eapply triple_bind; [by apply ticked_capacity|]. intros []. apply triple_act.
  intros l l' r [[Hl Hw] Hc]. unfold has_capacity in Hc. rewrite (proj2 (Nat.ltb_lt _ _) Hc).
  destruct (lo_running l); intros [= <- <-].
  - by exists l.
  - split; [apply outside_closed|by apply Hh].
Qed.

(** What the next pending command may be: of the current generation, with the
    frame it carries. *)
Definition carries (c : PreparedPlayoutCommand) (frame : option OpusFrame) (l : state) : Prop :=
  pc_generation c = lo_generation l /\ pc_media_frame c = prepared_media_frame <$> frame /\ lo_paused l = false.

Lemma handed_over c frame (l0 : state) :
  stages [] (option_list frame) l0 -> wired l0 -> carries c frame l0 ->
  inv [] (set_pending (lo_pending l0 ++ [PendingDeadlineCommand_new c frame]) (with_command c l0)).
Proof.
  intros [H1 H2 H3 H4 H5 H6 H7 H8 H9] [W1 W2 W3 W4 W5 W6 W7] (Hg & Hm & Hp).
  set (l := set_pending _ _).
  assert (Ef : in_flight [] l = in_flight (option_list frame) l0).
  { unfold in_flight. cbn. rewrite omap_app, <- app_assoc. cbn. by destruct frame. }
  split.
  - split; rewrite ?Ef; try done. cbn. apply Forall_app. split; [done|]. by constructor.
  - split; try done; cbn.
    + apply Forall_app. split; [done|]. by constructor.
    + destruct W6 as (read & lost & queued & E & Hr & Hq & Hl).
      exists read, lost, (queued ++ [PendingDeadlineCommand_new c frame]). rewrite E, <- !app_assoc. split; [done|].
      split; [done|]. split; [|done]. apply Forall2_app; [done|]. by repeat constructor.
    + by rewrite Hp.
Qed.

(** *** Pumping *)

(** The next packet was taken off the prepared queue. *)
Definition carrying (x : PreparedTrackPlayout) (n : nat) (l : state) : Prop :=
  stages [] [pt_frame x] l /\ carries (pt_command x) (Some (pt_frame x)) l /\ filled [pt_frame x] l /\
  (length (pq_queue (d_prepared (lo_driver l))) < n)%nat.

Definition pumping (n : nat) (l : state) : Prop :=
  (stages [] [] l /\ filled [] l /\ lo_paused l = false /\ (length (pq_queue (d_prepared (lo_driver l))) < n)%nat).

(** With nothing handed over, nothing is left to hand over. *)
Definition settled (l : state) : Prop := hurried \/ (lo_pending l = [] -> staged (lo_driver l) = []).

Lemma pump_pop n l q x :
  pumping (S n) l -> wired l -> prepared_pop (d_prepared (lo_driver l)) = (q, Some x) ->
  let l' := upd_driver (fun d => record_prepared_playout_event DequeuedToDeadlineSender SteadyPlayback (pt_command x)
                                   (prepared_depth q) (set_prepared q d)) l in
  carrying x n l' /\ wired l'.
Proof.
  intros ([H1 H2 H3 H4 H5 H6 H7 H8 H9] & Hf & Hpa & Hn) [W1 W2 W3 W4 W5 W6 W7] E l'.
  destruct (prepared_stage_pop B _ H2) as (P1 & P2 & P3). rewrite E in P1, P2, P3. cbn in P1, P2, P3.
  destruct (pq_queue (d_prepared (lo_driver l))) as [|x' rest] eqn:Eq; [done|]. injection P2 as <-. cbn in P3.
  inversion_clear H5 as [|? ? Hx Hrest]. inversion_clear W5 as [|? ? Gx Grest].
  assert (Hh : heard (lo_driver l') = heard (lo_driver l)).
  { unfold l'. cbn. unfold record_prepared_playout_event. by rewrite heard_offer_other. }
  assert (Ef : in_flight [pt_frame x] l' = in_flight [] l).
  { unfold in_flight, staged. cbn. unfold record_prepared_playout_event, offer. cbn. by rewrite P3, Eq. }
  split; [split|].
  - split; rewrite ?Ef; try done.
    + destruct H1 as [D1 D2 D3 D4]. split; cbn; unfold record_prepared_playout_event, offer; cbn; [done|done| |apply P1].
      rewrite P3. rewrite Eq in D3. by inversion D3.
    + cbn. unfold record_prepared_playout_event, offer. cbn. by rewrite P3.
    + rewrite Hh. exact H7.
  - split; [split; [done|split; done]|]. split; [|cbn; unfold record_prepared_playout_event, offer; cbn; rewrite P3; cbn in Hn; lia].
    unfold filled, prepared_frames, zlen in *. cbn. unfold record_prepared_playout_event, offer. cbn. rewrite Eq in Hf. rewrite P3. cbn in Hf.
    change (pending_frames l') with (pending_frames l). destruct Hf as [Hf|Hf]; [by left|right; cbn; lia].
  - split; try done; cbn; unfold record_prepared_playout_event, offer; cbn; rewrite ?P3; [done|by rewrite Hpa].
Qed.

Lemma pump_triple n :
  triple (fun l => pumping n l /\ wired l) (pump n) (fun _ l => inv [] l /\ lo_paused l = false /\ settled l).
Proof.
  induction n as [|n IH]; [intros l [(_ & _ & _ & ?) _]; lia|]. cbn [pump].
  assert (Hs : senderless (pumping (S n))). { intros l s r (? & ?). split; [by apply stages_sender|done]. }
  eapply triple_bind; [by apply ticked_wired|]. intros [].
  eapply (triple_bind _ (fun o l => match o with
    | Some x => (carrying x n l /\ wired l) /\ has_capacity l
    | None => inv [] l /\ lo_paused l = false /\ settled l end)).
  { intros l [Hl Hw]. cbn -[Nat.ltb available_command_capacity prepared_pop]. destruct (0 <? available_command_capacity l)%nat eqn:Ecap.
    - destruct (prepared_pop _) as [q [x|]] eqn:E; cbn -[available_command_capacity].
      + split; [by apply pump_pop|]. by apply Nat.ltb_lt in Ecap.
      + destruct Hl as (Hst & Hf & Hpa & _). split; [done|]. split; [done|]. right. intros Hp.
        unfold prepared_pop in E. destruct (pq_queue (d_prepared (lo_driver l))) eqn:Eq; [|done].
        destruct Hf as [Hf|Hf]; unfold staged; [by rewrite Eq, Hf|].
        unfold pending_frames, prepared_frames, zlen in Hf. rewrite Hp, Eq in Hf. cbn in Hf. lia.
    - destruct Hl as (Hst & Hf & Hpa & _). split; [done|]. split; [done|]. right. intros Hp. exfalso.
      pose proof (wd_tracked _ Hw) as Ht. rewrite Hp in Ht. apply tracked_none in Ht as [_ Ht].
      unfold available_command_capacity in Ecap. rewrite Ht in Ecap. done. }
  intros [x|]; [|by apply triple_ret].
  eapply triple_try; [apply (try_send_triple _ (carrying x n))|].
  - intros l s r (? & ?). split; [by apply stages_sender|done].
  - intros l [Hl _]. by eapply stages_heard.
  - intros []. eapply (triple_bind _ (fun _ l => pumping n l /\ wired l)); [|intros []; exact IH].
    apply total_writes. intros l (l0 & -> & (Hst & Hc & Hf & Hn) & Hw).
    destruct (handed_over (pt_command x) (Some (pt_frame x)) l0 Hst Hw Hc) as [I1 I2].
    split; [|done]. split; [done|]. split; [|split; [apply Hc|done]].
    unfold filled in *. cbn in *. destruct Hf as [Hf|Hf]; [by left|right].
    unfold pending_frames, prepared_frames, zlen in *. cbn in *. rewrite omap_app, length_app. cbn. lia.
Qed.

(** *** Silence *)

Definition playing (l : state) : Prop := stages [] [] l /\ lo_paused l = false.
Lemma playing_senderless : senderless playing.
Proof. intros l s r [? ?]. split; [by apply stages_sender|done]. Qed.
Lemma playing_heard l : playing l -> heard_in_order l.
Proof. intros [H _]. by eapply stages_heard. Qed.

Lemma enqueue_silence_triple reason :
  triple (fun l => (playing l /\ wired l) /\ has_capacity l) (enqueue_scheduled_silence reason)
    (fun _ l => inv [] l /\ lo_paused l = false /\ settled l).
Proof.
  eapply triple_try; [apply triple_asking; [intros l [[Hl _] _]; by apply playing_heard|done]|]. intros packet.
  eapply triple_bind; [apply total_reads|]. intros generation.
  set (command := mkPreparedPlayoutCommand packet ScheduledSilence None generation).
  eapply (triple_bind _ (fun _ l => ((playing l /\ carries command None l) /\ wired l) /\ has_capacity l)).
  { apply total_writes. intros l [[[[Hs Hp] Hw] Hc] ->]. unfold record_prepared_playout_event.
    match goal with |- context [offer ?m] => destruct (inv_offer [] m l) as [I1 I2]; [done|done|] end.
    split; [|done]. split; [|done]. split; [by split|]. by split. }
  intros []. eapply triple_try; [apply (try_send_triple command (fun l => playing l /\ carries command None l))|].
  { intros l s r [? ?]. split; [by apply playing_senderless|done]. }
  { intros l [Hl _]. by apply playing_heard. }
  intros []. eapply (triple_bind _ (fun _ l => inv [] l /\ lo_paused l = false /\ settled l)).
  { apply total_writes. intros l (l0 & -> & [[Hs Hp] Hc] & Hw). split; [exact (handed_over command None l0 Hs Hw Hc)|]. split; [done|].
    right. intros Hn. cbn in Hn. by apply app_nil in Hn as [_ ?]. }
  intros []. eapply (triple_bind _ (fun _ l => inv [] l /\ lo_paused l = false /\ settled l)); [|intros []; by apply triple_ret].
  apply total_writes. intros l (Hi & ? & ?). split; [by apply inv_offer|done].
Qed.

Definition steady (l : state) : Prop := inv [] l /\ lo_paused l = false /\ settled l.
Lemma ticked_steady : total_triple steady ticked (fun _ => steady).
Proof.
  eapply total_weaken; [| |apply (ticked_wired (fun l => playing l /\ settled l))].
  - intros l ([? ?] & ? & ?). done.
  - intros _ l [[[? ?] ?] ?]. by split.
  - intros l s r [? ?]. split; [by apply playing_senderless|done].
Qed.

Lemma fill_silence_triple missing : triple steady (fill_silence missing) (fun _ => steady).
Proof.
  induction missing as [|missing IH]; [by apply triple_ret|]. cbn [fill_silence].
  eapply triple_bind; [apply ticked_steady|]. intros []. eapply triple_bind; [apply total_reads|].
  intros [|]; [|apply triple_ret; tauto]. eapply (triple_try _ (fun _ => steady)); [|intros []; exact IH].
  eapply triple_weaken; [| |apply enqueue_silence_triple]; [|done].
  intros l [([Hs Hw] & Hp & _) E]. symmetry in E. apply Nat.ltb_lt in E. done.
Qed.

Lemma steady_heard l : steady l -> heard_in_order l.
Proof. intros [[H _] _]. by eapply stages_heard. Qed.

Lemma fill_underrun_silence_triple : triple steady fill_source_underrun_silence_deadline_queue (fun _ => steady).
Proof.
  eapply triple_bind; [apply total_reads|]. intros pending.
  eapply (triple_bind _ (fun _ => steady)).
  { eapply total_weaken; [| |apply ticked_steady]; [tauto|done]. }
  intros []. eapply triple_bind; [apply total_reads|]. intros room. eapply (triple_try _ (fun _ => steady)).
  - intros l [Hl _]. destruct (_ && room); [|done].
    exact (triple_asking steady AskSpeaking (fun r => r) steady_heard (fun a Ha => Ha) l Hl).
  - intros []. apply fill_silence_triple.
Qed.

Lemma pending_depth_frames (l : state) :
  stages [] [] l -> bd_duration_samples (pending_deadline_track_depth (lo_pending l)) = 960 * pending_frames l.
Proof.
  intros [_ _ H3 _ _ H6 _ _ _]. rewrite in_flight_len in H6. unfold in_flight in H3.
  pose proof (zlen_nonneg (pq_queue (d_prepared (lo_driver l)))). pose proof (zlen_nonneg (q_inner (d_egress (lo_driver l)))).
  apply Forall_app in H3 as [H3 _]. unfold pending_frames, prepared_frames in *.
  unfold pending_deadline_track_depth.
  assert (Hg : forall ps dep, Forall (fun f => small_frame B f /\ of_epoch f = d_playback_epoch (lo_driver l)) (omap pd_frame ps) ->
    0 <= bd_duration_samples dep -> bd_duration_samples dep + 960 * zlen (omap pd_frame ps) <= 19200 ->
    bd_duration_samples (fold_left (fun depth p => add_depth depth (track_depth p)) ps dep)
    = bd_duration_samples dep + 960 * zlen (omap pd_frame ps)).
  { induction ps as [|p ps IH]; intros dep Hf Hnn Hb; cbn -[u64_max] in *; [unfold zlen; cbn; lia|].
    unfold track_depth. destruct (pd_frame p) as [f|].
    - apply Forall_cons_1 in Hf as [[[Hd _] _] Hf]. rewrite zlen_cons in Hb |- *.
      assert (0 <= zlen (omap pd_frame ps)) by apply zlen_nonneg. assert (20000 <= u64_max) by done.
      unfold DISCORD_FRAME_SAMPLES in Hd. rewrite IH; cbn -[u64_max]; rewrite ?Hd; unfold sat_add; try done; lia.
    - rewrite IH; cbn -[u64_max]; unfold sat_add; try done; assert (20000 <= u64_max) by done;
        assert (0 <= zlen (omap pd_frame ps)) by apply zlen_nonneg; lia. }
  rewrite Hg; cbn; done || lia.
Qed.

Lemma fill_and_pump_triple : triple (fun l => inv [] l /\ lo_paused l = false) fill_and_pump (fun _ => steady).
Proof.
  eapply triple_bind; [apply total_reads|]. intros ps.
  eapply triple_try; [eapply triple_weaken; [| |apply (fill_prepared_triple ps)]; [|done]|].
  { intros l [[Hi Hp] ->]. exists (prepared_frames l). split; [done|]. split; [|done]. split; [|done].
    apply pending_depth_frames, Hi. }
  intros latest. eapply (triple_try _ (fun _ => steady)).
  - eapply triple_bind; [apply total_reads|]. intros n. eapply triple_weaken; [| |apply pump_triple]; [|done].
    intros l [(k & ([Hs Hw] & _ & Hp) & Hf) ->]. split; [|done]. split; [done|]. split; [done|]. split; [done|lia].
  - intros []. eapply triple_bind; [apply total_reads|]. intros starving.
    eapply (triple_try _ (fun _ => steady)); [|intros []; by apply triple_ret].
    intros l [Hl _]. destruct starving; [by apply fill_underrun_silence_triple|done].
Qed.

(** ** The stop boundary *)

(** The driver has taken everything back; [g] is the generation. *)
Definition quiet (t : list PreparedMediaFrame) (g : Z) (l : state) : Prop :=
  stages t [] l /\ lo_pending l = [] /\ pq_queue (d_prepared (lo_driver l)) = [] /\ lo_generation l = g /\
  lo_paused l = false.
Lemma quiet_senderless t g : senderless (quiet t g).
Proof. intros l s r [? ?]. split; [by apply stages_sender|done]. Qed.

(** The threads do not look at the pending commands. *)
Lemma thread_tick_pending p l e : thread_tick (set_pending p l) e = set_pending p (thread_tick l e).
Proof.
  unfold thread_tick. cbn. destruct (lo_running l); [|done].
  change (thread_env (set_pending p l) e) with (thread_env l e).
  destruct (tick_once (lo_sender l) (thread_env l e)) as [[s [[]| |]]|]; done.
Qed.
Lemma threads_pending p envs l : thread_runs envs (set_pending p l) = set_pending p (thread_runs envs l).
Proof.
  unfold thread_runs. revert l. induction envs as [|e envs IH]; intros l; [done|]. cbn. by rewrite thread_tick_pending, IH.
Qed.

(** A boundary packet is in the sender's hands: it is tracked as if it were
    pending. *)
Definition lent (c : PreparedPlayoutCommand) (l : state) : Prop :=
  wired (set_pending [PendingDeadlineCommand_new c None] l).

Lemma boundary_sent_triple t g c :
  pc_kind c = BoundarySilence -> pc_media_frame c = None ->
  triple (fun l => quiet t g l /\ lent c l) next_outcome
    (fun o l => match o with
                | Sent r => sr_kind r = BoundarySilence /\ sr_media_frame r = None /\ quiet t g l /\ wired l
                | Dropped _ => False
                end).
Proof.
  intros Hk Hm. eapply (triple_bind _ (fun _ l => quiet t g l /\ lent c l)).
  { intros l [Hq Hl] envs _. cbn. unfold lent in *. rewrite <- threads_pending. split; [|by apply threads_wired].
    destruct (threads_frame envs l) as (s & r & ->). by apply quiet_senderless. }
  intros []. eapply triple_bind; [apply total_ask|]. intros b. apply triple_act. intros l l' r [[Hq Hl] _].
  set (p := PendingDeadlineCommand_new c None) in *.
  assert (Hh : heard_in_order l) by (destruct Hq as [Hs _]; by eapply stages_heard).
  assert (Hsent : next_sent l = Some (l', r) -> outcome (fun o l => match o with
    | Sent r => sr_kind r = BoundarySilence /\ sr_media_frame r = None /\ quiet t g l /\ wired l | Dropped _ => False end) r l').
  { intros E. assert (E' : next_sent (set_pending [p] l) = Some (set_pending [p] l', r)).
    { revert E. unfold next_sent. cbn. destruct (ds_sent (lo_sender l)); [destruct (lo_running l)|]; try done;
        by intros [= <- <-]. }
    pose proof (next_sent_wired _ _ _ Hl E') as Ho.
    assert (Hl' : exists s, l' = set_sender s (lo_running l) l).
    { revert E. unfold next_sent. destruct (ds_sent (lo_sender l)); [destruct (lo_running l) eqn:Er|]; try done; intros [= <- <-];
        [exists (lo_sender l); rewrite <- Er; by destruct l|by eexists]. }
    destruct Hl' as [s ->]. destruct r as [[record|]|e|]; try done.
    - destruct Ho as (s' & _ & (p' & rest & E1 & Hs & Hw)). cbn in E1. injection E1 as <- <-.
      split; [|split; [by rewrite (sent_media_frame p record Hs)|split; [by apply quiet_senderless|]]].
      + unfold sent_for, matches_sent_record in Hs. repeat (apply andb_true_iff in Hs as [Hs _]).
        apply bool_decide_eq_true in Hs. by rewrite <- Hs.
      + destruct Hq as (_ & Hp & _). destruct Hw as [W1 W2 W3 W4 W5 W6 W7]. split; try done; cbn; by rewrite Hp.
    - by destruct Ho as [_ Ho]. }
  assert (Hdrop : next_dropped l = Some (l', r) -> False \/ (l' = l /\ exists e, r = Err e /\ outside e)).
  { unfold next_dropped. pose proof (wd_dropped _ Hl) as Ed. cbn in Ed. rewrite Ed. destruct (lo_running l); [done|].
    intros [= <- <-]. right. split; [done|]. eexists. split; [done|apply outside_closed]. }
  destruct b, (next_sent l) as [[]|], (next_dropped l) as [[]|]; auto;
    intros Hx; destruct (Hdrop Hx) as [[]|(-> & e & -> & ?)]; done.
Qed.

Lemma boundary_packets_triple t g n sent :
  omap sr_media_frame sent = [] ->
  triple (fun l => quiet t g l /\ wired l) (boundary_packets n g sent)
    (fun sent' l => length sent' = (length sent + n)%nat /\ omap sr_media_frame sent' = [] /\ quiet t g l /\ wired l).
Proof.
  revert sent. induction n as [|n IH]; intros sent Hsent; [apply triple_ret; rewrite Nat.add_0_r; tauto|].
  cbn [boundary_packets].
  eapply triple_try; [apply triple_asking; [intros l [[Hl _] _]; by eapply stages_heard|done]|]. intros packet.
  set (c := mkPreparedPlayoutCommand packet BoundarySilence None g).
  eapply (triple_try _ (fun _ l => quiet t g l /\ lent c l)).
  { eapply triple_bind; [apply (ticked_wired (quiet t g)), quiet_senderless|]. intros []. apply triple_act.
    intros l l' r [Hq Hw] E. destruct (lo_running l).
    - destruct (_ <? _)%nat; [|done]. injection E as <- <-. split; [by apply quiet_senderless|]. unfold lent.
      destruct Hq as (_ & Hp & _ & Hg & Hpa). destruct Hw as [W1 W2 W3 W4 W5 W6 W7]. rewrite Hp in W6.
      apply tracked_none in W6 as [Es Ec]. split; try done; cbn.
      + rewrite Ec. by constructor.
      + rewrite Es, Ec. exists [], [], [PendingDeadlineCommand_new c None]. by repeat constructor.
      + by rewrite Hpa.
    - injection E as <- <-. split; [apply outside_closed|]. destruct Hq as [Hs _]. by eapply stages_heard. }
  intros []. eapply triple_try; [by apply boundary_sent_triple|]. intros [r|]; [|by intros l []].
  intros l (Hk & Hm & Hq & Hw). rewrite bool_decide_true by done.
  eapply wlp_mono; [|apply (IH (sent ++ [r])); [rewrite omap_app, Hsent; cbn; by rewrite Hm|done]].
  intros [a|e|] l'; [|done|done]. intros (H1 & ?). split; [|done]. rewrite length_app in H1. cbn in H1. lia.
Qed.

Lemma stop_boundary_triple t g :
  triple (fun l => quiet t g l /\ wired l) (send_stop_audio_boundary_through_deadline_sender g)
    (fun sent l => length sent = STOP_AUDIO_BOUNDARY_SILENCE_PACKETS /\ omap sr_media_frame sent = [] /\ quiet t g l /\ wired l).
Proof.
  eapply triple_try; [apply triple_asking; [intros l [[Hl _] _]; by eapply stages_heard|done]|]. intros [].
  eapply triple_try; [by apply boundary_packets_triple|]. intros sent.
  intros l (Hlen & Hm & Hq & Hw). cbn in Hlen. rewrite Hlen. cbn.
  refine (triple_try _ _ _ (asking_voice AskStopSpeaking (fun r => r)) (fun _ => mret (Ok sent))
    (triple_asking (fun l => quiet t g l /\ wired l) AskStopSpeaking (fun r => r) _ _) _ l _); [|done| |done].
  - intros l1 [[Hs _] _]. by eapply stages_heard.
  - intros []. apply triple_ret. intros l1 [? ?]. done.
Qed.

(** ** Commands *)

Definition keeps_pause {A} (m : prog state question (answer (K := K)) Empty_set A) : Prop :=
  every valid (fun B => leaves_alone lo_paused B) m.

Lemma pause_bind {A C} (m : ltotal A) (f : A -> ltotal C) :
  keeps_pause m -> (forall a, keeps_pause (f a)) -> keeps_pause (m ≫= f).
Proof. apply every_bind. Qed.
Lemma pause_try {A C} (m : ltask A) (f : A -> ltask C) :
  keeps_pause m -> (forall a, keeps_pause (f a)) -> keeps_pause (try_ m f).
Proof. apply every_try. Qed.
Lemma pause_act {A} (op : state -> option (state * A)) :
  (forall l l' a, op l = Some (l', a) -> lo_paused l' = lo_paused l) -> keeps_pause (act op).
Proof. intros H. by split. Qed.
Lemma pause_fed : keeps_pause fed.
Proof.
  apply pause_bind; [done|]. intros f. apply pause_act. intros l l' [] [= <-].
  by destruct (feed_driver f l) as (s & producing & fed' & ->).
Qed.
Lemma pause_ticked : keeps_pause ticked.
Proof.
  apply pause_bind; [done|]. intros envs. apply pause_act. intros l l' [] [= <-].
  by destruct (threads_frame envs l) as (s & r & ->).
Qed.

Lemma pause_locked {A} (m : dstm A) : keeps_pause (locked m).
Proof. apply pause_bind; [apply pause_fed|]. intros _. apply pause_act. intros l l' a. destruct (m _). by intros [= <- _]. Qed.
Lemma pause_next (next : state -> option (state * rresult LiveDeadlineOutcome)) :
  (forall l l' r, next l = Some (l', r) -> lo_paused l' = lo_paused l) -> keeps_pause (act (polled next)).
Proof.
  intros H. apply pause_act. intros l l' a. unfold polled. destruct (next l) as [[l1 [o|e|]]|] eqn:E; intros [= <- _]; try done; by eapply H.
Qed.
Lemma next_sent_paused l l' r : next_sent l = Some (l', r) -> lo_paused (K := K) l' = lo_paused l.
Proof. unfold next_sent. destruct (ds_sent _), (lo_running l); intros [= <- _]; done. Qed.
Lemma next_dropped_paused l l' r : next_dropped l = Some (l', r) -> lo_paused (K := K) l' = lo_paused l.
Proof. unfold next_dropped. destruct (ds_dropped _), (lo_running l); intros [= <- _]; done. Qed.

Lemma pause_try_next : keeps_pause try_next_outcome.
Proof.
  apply pause_bind; [apply pause_ticked|]. intros []. apply pause_try; [apply pause_next, next_sent_paused|].
  intros [o|]; [done|]. apply pause_bind; [apply pause_ticked|]. intros []. apply pause_next, next_dropped_paused.
Qed.
Lemma pause_accounted o dep : keeps_pause (accounted o dep).
Proof.
  apply pause_bind; [apply pause_fed|]. intros []. apply pause_act. intros l l' a.
  destruct (account_deadline_outcome _ _ _) as [[pending d] r]. by intros [= <- _].
Qed.
Lemma pause_drain turns dep sent : keeps_pause (drain_outcomes turns dep sent).
Proof.
  revert sent. induction turns as [|turns IH]; intros sent; [done|]. cbn [drain_outcomes].
  apply pause_try; [apply pause_try_next|]. intros [o|]; [|done].
  apply pause_try; [apply pause_accounted|]. intros r. apply IH.
Qed.
Lemma pause_report_all drain dep records : keeps_pause (report_all drain dep records).
Proof.
  induction records as [|r records IH]; [done|]. cbn [report_all]. apply pause_bind; [|done].
  apply pause_act. intros l l' a [= <- _]. unfold record_deadline_send_metric. by destruct (mark_sent _ _ _ _ _).
Qed.
Lemma pause_report_ready : keeps_pause report_ready.
Proof.
  apply pause_try; [apply pause_locked|]. intros dep. apply pause_try; [|intros sent; apply pause_bind; [apply pause_report_all|done]].
  apply pause_bind; [apply pause_act; by intros l l' a [= <- _]|]. intros p. apply pause_drain.
Qed.
Lemma pause_replace reason deadline : keeps_pause (replace_deadline_sender_after_invalidation_at reason deadline).
Proof.
  apply pause_try; [done|]. intros sink. apply pause_bind; [apply pause_act; by intros l l' a [= <- _]|]. intros [].
  apply pause_act. intros l l' a. destruct (take_pending_frames _ _ _). by intros [= <- _].
Qed.
Lemma pause_flushed reason frames : keeps_pause (flushed reason frames).
Proof. apply pause_bind; [apply pause_fed|]. intros []. apply pause_act. by intros l l' a [= <- _]. Qed.
Lemma pause_invalidate : keeps_pause invalidate_prepared_playout_generation.
Proof. apply pause_bind; [apply pause_ticked|]. intros []. apply pause_act. by intros l l' a [= <- _]. Qed.
Lemma pause_take_back reason : keeps_pause (take_back reason).
Proof.
  apply pause_try; [apply pause_bind; [done|intros now; apply pause_replace]|]. intros frames.
  apply pause_bind; [apply pause_flushed|done].
Qed.
Lemma pause_rebuild deadline : keeps_pause (rebuild_prepared_playout_for_dave_transition deadline).
Proof.
  apply pause_bind; [apply pause_invalidate|]. intros []. apply pause_bind; [done|]. intros [].
  apply pause_try; [apply pause_replace|]. intros frames. apply pause_bind; [apply pause_flushed|done].
Qed.

(** A task that keeps the pause keeps it in its triple. *)
Lemma triple_pause {A} P (m : ltask A) Q b :
  keeps_pause m -> triple P m Q -> triple (fun l => P l /\ lo_paused l = b) m (fun a l => Q a l /\ lo_paused l = b).
Proof.
  intros Hk Hm l [Hl Hb]. eapply wlp_mono; [|apply wlp_and; [exact (Hm l Hl)|exact (every_wlp valid lo_paused m l Hk)]].
  intros [a|e|] l' [H E]; [|done|done]. cbn. by rewrite E.
Qed.
Lemma total_pause {A} P (m : ltotal A) Q b :
  keeps_pause m -> total_triple P m Q -> total_triple (fun l => P l /\ lo_paused l = b) m (fun a l => Q a l /\ lo_paused l = b).
Proof.
  intros Hk Hm l [Hl Hb]. eapply wlp_mono; [|apply wlp_and; [exact (Hm l Hl)|exact (every_wlp valid lo_paused m l Hk)]].
  intros a l' [H E]. by rewrite E.
Qed.

Lemma inv_pacer t p l : inv t l -> inv t (set_pacer p l).
Proof. intros [[] []]. split; by split. Qed.

Lemma reset_pacer_keeps t b : total_triple (fun l => inv t l /\ lo_paused l = b) reset_pacer (fun _ l => inv t l /\ lo_paused l = b).
Proof. intros l [Hl Hb] now _. cbn. split; [by apply inv_pacer|done]. Qed.
Lemma offers_inv t b m :
  sent_media m = None -> total_triple (fun l => inv t l /\ lo_paused l = b) (offers m) (fun _ l => inv t l /\ lo_paused l = b).
Proof. intros Hm. apply total_writes. intros l [Hl Hb]. split; [by apply inv_offer|done]. Qed.

Lemma rewired_quiet l : stages [] [] l -> rewired l -> lo_paused l = false -> quiet [] (lo_generation l) l /\ wired l.
Proof. intros Hs (Hw & Hp & _ & Hq) Hpa. done. Qed.

Lemma quiet_paused g l : quiet [] g l -> wired l -> inv [] (set_paused true l).
Proof.
  intros (Hs & Hp & Hq & _) [W1 W2 W3 W4 W5 W6 W7]. split; [by destruct Hs; split|].
  split; try done. intros _. cbn. split; [done|]. split; [|done]. rewrite Hp in W6. apply tracked_none in W6 as [? ?]. done.
Qed.

Lemma quiet_offer t g m l : sent_media m = None -> quiet t g l -> quiet t g (upd_driver (offer m) l).
Proof. intros Hm (Hs & ?). split; [by apply stages_same; [apply same_offer|]|done]. Qed.
Lemma wired_offer m (l : state) : wired l -> wired (upd_driver (offer m) l).
Proof. by apply wired_same. Qed.

Lemma report_all_quiet g drain dep records :
  omap sr_media_frame records = [] ->
  total_triple (fun l => quiet [] g l /\ wired l) (report_all drain dep records) (fun _ l => quiet [] g l /\ wired l).
Proof.
  induction records as [|r records IH]; intros Hm; [by intros l Hl|]. cbn in Hm.
  destruct (sr_media_frame r) eqn:Er; [done|]. cbn [report_all].
  eapply (total_bind _ (fun _ l => quiet [] g l /\ wired l)); [|intros []; by apply IH].
  apply total_writes. intros l [(Hs & Hq) Hw].
  destruct (inv_report [] r 0 drain dep (depth_with_pending l) l) as [I1 I2]; [by rewrite Er|].
  split; [|done]. split; [done|]. unfold record_deadline_send_metric. by destruct (mark_sent _ _ _ _ _).
Qed.

(** A pause takes everything back, sends the boundary and leaves the sender
    idle. *)
Lemma apply_pause_triple dep :
  triple (fun l => inv [] l /\ lo_paused l = false) (apply_pause None dep) (fun _ l => inv [] l /\ lo_paused l = true).
Proof.
  eapply triple_bind.
  { apply total_pause; [apply pause_invalidate|]. eapply total_weaken; [| |apply (invalidate_keeps [] [])]; [by intros l [? _]|done]. }
  intros []. eapply triple_bind; [apply discard_keeps|]. intros [].
  eapply (triple_bind _ (fun _ l => stages [] [] l /\ lo_paused l = false)); [by intros l Hl|]. intros [].
  eapply triple_try; [apply triple_pause; [apply pause_take_back|apply take_back_triple]|]. intros [].
  eapply triple_bind; [apply total_reads|]. intros g.
  eapply (triple_bind _ (fun _ l => quiet [] g l /\ wired l)).
  { apply total_writes. intros l [[[Hs Hr] Hp] ->]. destruct (rewired_quiet l Hs Hr Hp) as [Hq Hw].
    split; [by apply quiet_offer|by apply wired_offer]. }
  intros []. eapply (triple_bind _ (fun _ l => quiet [] g l /\ wired l)).
  { apply total_writes. intros l [Hq Hw]. split; [by apply quiet_offer|by apply wired_offer]. }
  intros []. eapply triple_try; [apply stop_boundary_triple|]. intros records.
  eapply (triple_bind _ (fun _ l => quiet [] g l /\ wired l)).
  { intros l (_ & Hm & Hq). by apply report_all_quiet. }
  intros []. eapply (triple_bind _ (fun _ l => inv [] l /\ lo_paused l = true)).
  { apply total_writes. intros l [Hq Hw]. split; [by eapply quiet_paused|done]. }
  intros []. eapply triple_bind; [apply reset_pacer_keeps|]. intros [].
  eapply triple_bind; [by apply offers_inv|]. intros []. by apply triple_ret.
Qed.

Lemma inv_unpaused l : inv [] l -> inv [] (set_paused false l).
Proof. intros [[] []]. split; by split. Qed.

Lemma apply_resume_triple : triple (inv []) apply_resume (fun _ l => inv [] l /\ lo_paused l = false).
Proof.
  eapply (triple_bind _ (fun _ l => inv [] l /\ lo_paused l = false)).
  { apply total_writes. intros l Hl. split; [by apply inv_unpaused|done]. }
  intros []. eapply triple_try; [apply triple_asking; [intros l [[Hl _] _]; by eapply stages_heard|done]|]. intros [].
  eapply triple_bind; [apply reset_pacer_keeps|]. intros [].
  eapply triple_bind; [by apply offers_inv|]. intros []. eapply triple_bind; [by apply offers_inv|].
  intros []. by apply triple_ret.
Qed.

Lemma stages_account_flag t x b l : stages t x l -> stages t x (upd_driver (set_account_popped b) l).
Proof. by apply stages_same. Qed.

Lemma apply_stop_triple b dep :
  triple (inv []) (apply_command (CommandStop b) None dep) (fun ends l => inv [] l /\ ends = true).
Proof.
  eapply (triple_bind _ (fun _ => stages [] [])).
  { apply total_writes. intros l [Hs _]. by apply stages_account_flag. }
  intros []. eapply triple_bind; [apply invalidate_keeps|]. intros [].
  eapply triple_bind; [apply discard_keeps|]. intros [].
  eapply triple_try; [apply take_back_triple|]. intros []. apply triple_ret. intros l [Hs [Hw _]]. done.
Qed.

Lemma apply_command_triple command dep :
  triple (inv []) (apply_command command None dep) (fun _ => inv []).
Proof.
  destruct command as [| |b].
  - eapply triple_bind; [apply total_reads|]. intros [|]; (eapply (triple_try _ (fun _ => inv [])); [|intros []; by apply triple_ret]).
    + apply triple_ret. tauto.
    + eapply triple_weaken; [| |apply apply_pause_triple]; [by intros l [? ->]|tauto].
  - eapply triple_bind; [apply total_reads|]. intros [|]; (eapply (triple_try _ (fun _ => inv [])); [|intros []; by apply triple_ret]).
    + eapply triple_weaken; [| |apply apply_resume_triple]; tauto.
    + apply triple_ret. tauto.
  - eapply triple_weaken; [| |apply apply_stop_triple]; [done|tauto].
Qed.
(** A steady driver is still so unless it is paused or stopped. *)
Lemma apply_command_steady command dep :
  triple steady (apply_command command None dep) (fun ends l => inv [] l /\ (ends = false -> lo_paused l = false -> steady l)).
Proof.
  destruct command as [| |b].
  - eapply triple_bind; [apply total_reads|]. intros paused.
    eapply (triple_try _ (fun _ l => inv [] l /\ lo_paused l = true)).
    + intros l [(Hi & Hp & Hs) ->]. rewrite Hp. by apply apply_pause_triple.
    + intros []. apply triple_ret. intros l [Hi ->]. done.
  - eapply triple_bind; [apply total_reads|]. intros paused.
    eapply (triple_try _ (fun _ => steady)).
    + intros l [(Hi & Hp & Hs) ->]. rewrite Hp. done.
    + intros []. apply triple_ret. intros l Hs. split; [apply Hs|done].
  - eapply triple_weaken; [| |apply apply_stop_triple]; [by intros l [? _]|]. by intros ends l [? ->].
Qed.

(** The commands end the playback or let it go on; they never end it naturally. *)
Definition obeyed (o : option bool) (l : state) : Prop := inv [] l /\ o <> Some true.

Lemma apply_commands_triple commands dep : triple (inv []) (apply_commands commands dep) obeyed.
Proof.
  induction commands as [|c commands IH]; [by apply triple_ret|]. cbn [apply_commands].
  eapply triple_try; [apply apply_command_triple|]. intros [|]; [by apply triple_ret|exact IH].
Qed.
Lemma drain_commands_triple dep : triple (inv []) (drain_commands dep) obeyed.
Proof.
  eapply triple_bind; [apply total_ask|]. intros commands. eapply triple_weaken; [| |apply apply_commands_triple]; [tauto|done].
Qed.
Lemma drain_commands_steady dep :
  triple steady (drain_commands dep) (fun o l => obeyed o l /\ (o = None -> lo_paused l = false -> steady l)).
Proof.
  eapply triple_bind; [apply total_ask|]. intros commands l [Hl Hv]. cbn in Hv. destruct Hv as [Hh|Hv].
  - eapply wlp_mono; [|exact (apply_commands_triple commands dep l (proj1 Hl))].
    intros [o|e|] l'; [|done|done]. intros Ho. split; [done|]. intros _ Hp. split; [apply Ho|]. split; [done|by left].
  - revert l Hl. destruct commands as [|c [|c' rest]]; [|cbn [apply_commands]|cbn in Hv; lia].
    { apply triple_ret. intros l Hl. split; [split; [apply Hl|done]|done]. }
    eapply triple_try; [apply apply_command_steady|]. intros [|]; apply triple_ret; intros l [Hi Hs].
    + by split.
    + split; [by split|]. auto.
Qed.

Lemma wait_while_paused_triple waits : triple (inv []) (wait_while_paused waits) obeyed.
Proof.
  induction waits as [|waits IH].
  - eapply triple_bind; [apply total_reads|]. intros [|]; [|apply triple_ret; unfold obeyed; by intros l [? _]]. apply triple_act. done.
  - cbn [wait_while_paused]. eapply (triple_bind _ (fun _ => inv [])); [by intros l Hl|]. intros [|]; [|by apply triple_ret].
    eapply triple_bind; [apply total_ask|]. intros [|]; [|apply triple_ret; by intros l [? _]]. cbn [negb].
    eapply triple_bind; [apply total_ask|]. intros [|[command|]].
    + eapply triple_weaken; [| |exact IH]; [tauto|done].
    + eapply triple_try; [eapply triple_weaken; [| |apply apply_command_triple]; [tauto|]; intros a l H; exact H|].
      intros [|]; [by apply triple_ret|exact IH].
    + apply triple_ret. by intros l [[? _] _].
Qed.

(** ** The loop *)

Lemma leave_superseded_triple : triple (inv []) leave_superseded (fun o l => o = Some false /\ inv [] l).
Proof.
  eapply triple_bind; [eapply total_weaken; [| |apply (invalidate_keeps [] [])]; [by intros l [? _]|done]|]. intros [].
  eapply triple_bind; [apply discard_keeps|]. intros [].
  eapply (triple_bind _ (fun _ => stages [] [])).
  { apply total_writes. intros l Hs. by apply stages_account_flag. }
  intros []. eapply triple_try; [apply take_back_triple|]. intros []. apply triple_ret. intros l [Hs [Hw _]]. done.
Qed.

(** While paused the generation may change: nothing carries the old one. *)
Lemma invalidate_paused :
  total_triple (fun l => inv [] l /\ lo_paused l = true) invalidate_prepared_playout_generation (fun _ => inv []).
Proof.
  eapply total_bind.
  { apply total_pause; [apply pause_ticked|]. apply (ticked_wired (stages [] [])), stages_senderless. }
  intros []. apply total_writes. intros l [[Hs [W1 W2 W3 W4 W5 W6 W7]] Hp]. destruct (W7 Hp) as (E1 & [E2 E3] & E4).
  split; [by destruct Hs; split|]. split; try done; cbn; rewrite ?E2, ?E4; done.
Qed.

(** Everything the producer made was reported as sent. *)
Definition finished (l : state) : Prop :=
  heard (lo_driver l) = stream l /\ sb_end_of_stream (d_source (lo_driver l)) = true.

Definition turned (o : option bool) (l : state) : Prop :=
  match o with
  | None => inv [] l
  | Some true => inv [] l /\ (hurried \/ finished l)
  | Some false => heard_in_order l
  end.

Lemma inv_heard t l : inv t l -> heard_in_order l.
Proof. intros [H _]. by eapply stages_heard. Qed.
Lemma obeyed_turned o l : obeyed o l -> turned o l.
Proof. intros [Hi Ho]. destruct o as [[|]|]; [done|by eapply inv_heard|done]. Qed.

Lemma steady_finished l : steady l -> lo_pending l = [] -> lo_source_ended l = true -> hurried \/ finished l.
Proof.
  intros ([[H1 H2 H3 H4 H5 H6 H7 H8 H9] _] & _ & [Hh|Hset]) Hp He; [by left|right]. destruct (H8 He) as [Hsrc Heos].
  split; [|done]. rewrite <- H7. unfold in_flight. rewrite Hp, (Hset Hp), Hsrc. cbn. by rewrite app_nil_r.
Qed.

Lemma steady_offer m l : sent_media m = None -> steady l -> steady (upd_driver (offer m) l).
Proof. intros Hm (Hi & ?). split; [by apply inv_offer|done]. Qed.
Lemma offers_steady m : sent_media m = None -> total_triple steady (offers m) (fun _ => steady).
Proof. intros Hm. apply offers_keeps; [|done]. intros l m'. apply steady_offer. Qed.

Lemma on_underrun_triple egress latest : triple steady (on_underrun egress latest) (fun _ => steady).
Proof.
  eapply triple_bind; [by apply offers_steady|]. intros []. eapply triple_bind; [apply total_reads|]. intros active.
  eapply (triple_bind _ (fun _ => steady)).
  { intros l [Hl _]. destruct active; [done|]. revert l Hl.
    eapply (total_bind _ (fun _ => steady)).
    - apply total_writes. intros l ([[] []] & ? & ?). split; [split; by split|done].
    - intros []. do 3 (eapply total_bind; [by apply offers_steady|]; intros []). by apply offers_steady. }
  intros []. eapply triple_try; [apply fill_underrun_silence_triple|]. intros [].
  eapply triple_bind; [by apply offers_steady|]. intros []. by apply triple_ret.
Qed.

Lemma await_slot_triple drain latest : triple (inv []) (await_slot drain latest) turned.
Proof.
  eapply triple_bind; [apply total_ask|]. intros [|[command|]].
  - eapply triple_try; [eapply triple_weaken; [| |apply (next_outcome_triple [])]; [by intros l [Hl _]|intros a l H; exact H]|].
    intros [r|r]; [|by intros l []]. intros l [Hs Ho].
    destruct (lo_pending l) as [|p rest] eqn:Ep; [destruct Ho as (p & rest & E & _); by rewrite Ep in E|].
    pose proof (accounted_triple [] r latest (length rest) l) as Ha.
    apply wlp_bind. eapply wlp_mono; [|apply Ha; rewrite Ep; done].
    intros [o|e|] l1 H; [|exact H|exact H]. destruct H as (-> & Hi & _). apply inv_report. by rewrite app_nil_r.
  - eapply triple_try; [eapply triple_weaken; [| |apply apply_command_triple]; [tauto|intros a l H; exact H]|].
    intros [|]; apply triple_ret; [intros l; apply inv_heard|done].
  - apply triple_ret. intros l [Hl _]. by eapply inv_heard.
Qed.

Lemma play_slot_triple waits drain : triple (fun l => inv [] l /\ lo_paused l = false) (play_slot waits drain) turned.
Proof.
  eapply triple_try; [apply fill_and_pump_triple|]. intros latest.
  eapply triple_bind; [apply total_reads|]. intros egress.
  eapply (triple_bind _ (fun _ => steady)); [eapply total_weaken; [| |by apply offers_steady]; [tauto|done]|]. intros [].
  eapply triple_bind; [apply total_reads|]. intros ended.
  eapply (triple_bind _ (fun _ => steady)).
  { intros l [Hl _]. destruct ended; [done|]. by apply steady_offer. }
  intros []. eapply triple_bind; [apply total_ask|]. intros [|]; cbn [negb].
  2: { eapply triple_weaken; [| |apply leave_superseded_triple]; [by intros l [[? _] _]|].
       intros o l [-> Hi]. by eapply inv_heard. }
  eapply triple_try; [eapply triple_weaken; [| |apply drain_commands_steady]; [tauto|intros o l H; exact H]|].
  intros [e|].
  - intros l [[[Hs _] He] _]. destruct e; [done|].
    refine (triple_bind (stages [] []) (fun _ => stages [] []) turned _ _ (invalidate_keeps [] []) _ l Hs).
    intros []. eapply triple_bind; [apply discard_keeps|]. intros []. apply triple_ret. intros l1 H. by eapply stages_heard.
  - eapply triple_bind; [apply total_reads|]. intros [|].
    + eapply triple_bind; [eapply total_weaken; [| |apply invalidate_paused]; [|done]|].
      { intros l [[[Hi _] _] ->]. done. }
      intros []. eapply triple_bind; [apply discard_keeps|]. intros [].
      eapply triple_weaken; [| |apply wait_while_paused_triple]; [done|apply obeyed_turned].
    + eapply (triple_bind _ (fun b l => steady l /\ b = bool_decide (lo_pending l = []))).
      { intros l [[[Hi _] Hs] Hp]. split; [|done]. by apply Hs. }
      intros nothing. eapply triple_bind; [apply total_reads|]. intros e.
      destruct (nothing && e) eqn:En.
      * apply triple_ret. apply andb_true_iff in En as [-> ->]. intros l [[Hs Hn] He]. split; [apply Hs|].
        apply steady_finished; [done| |done]. symmetry in Hn. by apply bool_decide_eq_true in Hn.
      * eapply (triple_try _ (fun _ => steady)).
        { intros l [[Hs _] _]. destruct nothing; [by apply on_underrun_triple|done]. }
        intros []. eapply triple_weaken; [| |apply await_slot_triple]; [by intros l [? _]|done].
Qed.

(** The source buffer has frames again: the source has not ended after all. *)
Lemma inv_reopened b l : inv [] l -> inv [] (set_source_flags false b l).
Proof. intros [[] []]. split; by split. Qed.

Definition unpaused (l : state) : Prop := inv [] l /\ lo_paused l = false.

Lemma reopen_triple (ended : bool) :
  triple unpaused
    (if ended then
       now ←? locked current_source_depth;
       _ ← writes (fun l => if 0 <? bd_packets now
                            then set_source_flags false (lo_source_underrun_active l) l else l);
       mret (Ok tt)
     else mret (Ok tt))
    (fun _ => unpaused).
Proof.
  destruct ended; [|by apply triple_ret].
  eapply triple_try; [apply triple_pause; [apply pause_locked|apply depth_triple]|]. intros now.
  eapply (triple_bind _ (fun _ => unpaused)); [|intros []; by apply triple_ret].
  apply total_writes. intros l [[Hi _] Hp]. destruct (0 <? bd_packets now); [|done]. split; [by apply inv_reopened|done].
Qed.

Lemma rebuild_unpaused deadline :
  triple unpaused (rebuild_prepared_playout_for_dave_transition deadline) (fun _ => unpaused).
Proof.
  eapply triple_weaken; [| |apply triple_pause; [apply pause_rebuild|apply rebuild_triple]].
  - intros l H. exact H.
  - intros [] l [[Hs [Hw _]] Hp]. done.
Qed.
Lemma report_unpaused : triple unpaused report_ready (fun _ => unpaused).
Proof. eapply triple_weaken; [| |apply triple_pause; [apply pause_report_ready|apply report_ready_triple]]; done. Qed.

Lemma rebuild_at_triple :
  triple unpaused
    (deadline ← reads (fun l => next_deadline (lo_pacer l));
     now ← ask AskNow;
     rebuild_prepared_playout_for_dave_transition (Z.max deadline now)) (fun _ => unpaused).
Proof.
  eapply triple_bind; [apply total_reads|]. intros deadline. eapply triple_bind; [apply total_ask|]. intros now.
  eapply triple_weaken; [| |apply rebuild_unpaused]; [tauto|done].
Qed.

Lemma recover_dave_transition_triple : triple unpaused recover_dave_transition turned.
Proof.
  eapply (triple_try _ (fun _ => unpaused)).
  { apply triple_asking; [intros l [Hi _]; by eapply inv_heard|done]. }
  intros drain. eapply triple_try; [apply report_unpaused|]. intros [].
  eapply (triple_bind _ (fun _ => unpaused)); [by apply offers_inv|]. intros [].
  assert (Hn : triple unpaused
    (_ ←? (deadline ← reads (fun l => next_deadline (lo_pacer l));
           now ← ask AskNow;
           rebuild_prepared_playout_for_dave_transition (Z.max deadline now));
     latest ←? fill_and_pump;
     _ ← writes (fun l => upd_driver (offer (PreparedTrackQueueDepth (depth_with_pending l))) l);
     _ ← offers (SourceDepth latest);
     mret (Ok None)) turned); [|exact Hn].
  eapply triple_try; [apply rebuild_at_triple|]. intros [].
  eapply triple_try; [apply fill_and_pump_triple|]. intros latest.
  eapply (triple_bind _ (fun _ => steady)); [apply total_writes; intros l; by apply steady_offer|]. intros [].
  eapply triple_bind; [by apply offers_steady|]. intros []. apply triple_ret. by intros l [? _].
Qed.

Lemma turn_triple waits source_depth : triple (inv []) (turn waits source_depth) turned.
Proof.
  eapply triple_bind; [apply total_ask|]. intros [|]; cbn [negb].
  2: { eapply triple_weaken; [| |apply leave_superseded_triple]; [by intros l [? _]|].
       intros o l [-> Hi]. by eapply inv_heard. }
  eapply triple_try; [eapply triple_weaken; [| |apply report_ready_triple]; [by intros l [? _]|]; intros a l H; exact H|].
  intros []. eapply triple_try; [apply drain_commands_triple|]. intros [e|].
  { apply triple_ret. intros l. apply obeyed_turned. }
  eapply triple_bind; [apply total_reads|]. intros [|].
  { eapply triple_weaken; [| |apply wait_while_paused_triple]; [by intros l [[? _] _]|apply obeyed_turned]. }
  eapply (triple_bind _ (fun _ => unpaused)); [by intros l [[Hi _] Hp]|]. intros ended.
  eapply triple_try; [apply reopen_triple|]. intros [].
  eapply triple_bind; [apply total_reads|]. intros deadline. eapply triple_bind; [apply total_ask|].
  intros [drain|err|]; [|destruct (mentions_dave err)|by intros l [_ Hv]].
  - eapply (triple_try _ (fun _ => unpaused)); [|intros []; apply play_slot_triple].
    eapply triple_weaken; [|intros a l H; exact H|]; [intros l [[H _] _]; exact H|].
    destruct (0 <? gd_dave_transition_count drain); [|by apply triple_ret].
    eapply triple_try; [apply report_unpaused|]. intros []. apply rebuild_at_triple.
  - eapply triple_weaken; [| |apply recover_dave_transition_triple]; [tauto|done].
  - intros l [[[Hi _] _] _]. split; [done|by eapply inv_heard].
Qed.

Definition ended_loop (naturally : bool) (l : state) : Prop :=
  heard_in_order l /\ (naturally = true -> hurried \/ finished l).

Lemma turns_triple n source_depth : triple (inv []) (turns n source_depth) ended_loop.
Proof.
  induction n as [|n IH]; [by apply triple_act|]. cbn [turns].
  eapply triple_try; [apply turn_triple|]. intros [[|]|]; [| |exact IH]; apply triple_ret; intros l Hl.
  - destruct Hl as [Hi Hf]. split; [by eapply inv_heard|done].
  - by split.
Qed.

(** A driver that has just been made from a source buffer, as [run_loop] finds
    it: nothing reported, nothing in flight. *)
Record just_started (l : state) : Prop := {
  fr_driver : exists source epoch, lo_driver l = LiveMediaDriver_from source epoch /\ stage_ok B 250 (sb_queue source);
  fr_locals : lo_pending l = [] /\ lo_paused l = false /\ lo_source_ended l = false;
  fr_fed : lo_fed l = source_frames l;
  fr_producing : lo_producing l = true -> sb_end_of_stream (d_source (lo_driver l)) = false;
}.

Lemma started_stages l : just_started l -> stages [] [] l.
Proof.
  intros [(source & epoch & Hd & Hs) (Hp & _ & He) Hf Hpr].
  split; unfold stream, in_flight; rewrite ?He, ?Hf; unfold source_frames; rewrite ?Hp, ?Hd; try done.
  intros H. rewrite <- Hd. auto.
Qed.

Lemma run_loop_triple n : triple just_started (run_loop n) ended_loop.
Proof.
  eapply (triple_bind _ (fun _ => just_started)); [by intros l Hl a _|]. intros now.
  eapply (triple_bind _ (fun _ => just_started)); [apply total_writes; intros l []; by split|]. intros [].
  eapply (triple_try _ (fun _ => just_started)).
  { intros l Hl [sink|e|] Ha; [done|by split; [|eapply stages_heard, started_stages]|done]. }
  intros sink. eapply (triple_bind _ (fun _ => just_started)); [by intros l Hl|]. intros deadline.
  eapply (triple_bind _ (fun _ => inv [])).
  { apply total_writes. intros l Hl. pose proof (started_stages l Hl) as Hs.
    split; [by apply stages_sender|]. destruct Hl as [(source & epoch & Hd & _) (Hp & _) _ _].
    apply spawned_wired; [split; [done|]; split; [done|by exists sink, deadline]|]. cbn. by rewrite Hd. }
  intros []. eapply triple_try; [apply depth_triple|]. intros dep.
  eapply (triple_bind _ (fun _ => inv [])).
  { eapply total_weaken; [| |apply offers_keeps; [apply (inv_unmetered [])|done]]; [by intros l [? _]|done]. }
  intros []. eapply (triple_bind _ (fun _ => inv [])); [apply total_writes; intros l; by apply inv_offer|].
  intros []. apply turns_triple.
Qed.
End invariant.
