(* ===== verification/DriverRuns.v ===== *)
(** * The media driver from start to end

    What the lemmas of DriverSpecs.v say about whole runs: frames are reported
    as sent in the order in which the producer made them, without a gap and
    without repetition; the driver fails only for reasons that come from
    outside; a natural end means that everything was sent. Concrete runs show
    a playback that ends, and what two commands at once do to it. *)

From S2P Require Import Prelude VoiceErrors OpusQueue Pacer Udp Normalizer Worker DeadlineSender Egress Task MediaDriver DriverSpecs.
From stdpp Require Import prelude strings.
#[local] Open Scope Z_scope.
#[local] Open Scope task_scope.

Section theorems.
Context {K : Type} `{!PreparedUdpSink K}.
#[local] Abbreviation state := (Loop (K := K)).

(** C6. Whatever the producer, the session, the clock, the sender's thread and
    the session's commands do, the driver does not panic; what it has reported
    as sent when it returns is a prefix of the frames the producer made,
    tagged with the playback's epoch, in their order, none skipped and none
    twice; and if it returns an error, the error is the session's, the
    producer's, or that of a deadline sender that failed or did not start,
    never one of the driver's own consistency checks. *)
Theorem driver_plays_in_order (B : Z) (n : nat) (l : state) :
  0 <= B <= 4096 -> just_started B l ->
  wlp (valid B True) (driver_run n)
    (fun exit l' => exists e, exit = Some e /\ heard (lo_driver l') `prefix_of` stream l' /\
       forall err, ex_error e = Some err -> outside err /\ ex_ended_naturally e = false) l.
Proof.
  intros HB Hl. apply wlp_bind. eapply wlp_mono; [|exact (run_loop_triple B HB True n l Hl)].
  intros [b|e|] l' H; [|destruct H as [Ho Hh]|done]; eexists; (split; [done|]).
  - split; [apply H|done].
  - split; [done|]. by intros err [= <-].
Qed.

(** C7. When the commands arrive one at a time, a playback that the driver
    says ended naturally was sent completely: the producer has ended and every
    frame it made was reported as sent. *)
Theorem natural_end_is_complete (B : Z) (n : nat) (l : state) :
  0 <= B <= 4096 -> just_started B l ->
  wlp (valid B False) (driver_run n)
    (fun exit l' => exit = Some (mkExit true None) ->
       heard (lo_driver l') = stream l' /\ sb_end_of_stream (d_source (lo_driver l')) = true) l.
Proof.
  intros HB Hl. apply wlp_bind. eapply wlp_mono; [|exact (run_loop_triple B HB False n l Hl)].
  intros [b|e|] l' H; [|done|done]. intros [= ->]. by destruct (proj2 H eq_refl).
Qed.
End theorems.

(** ** A playback of three frames *)

(** A sink that keeps what it is given, as the tests of the repository use. *)
Definition recorder : Type := list PreparedVoicePacket.
#[export] Instance recorder_sink : PreparedUdpSink recorder := {|
  sink_send s p sock := match sock with Ok _ => (s ++ [p], Ok tt) | Err e => (s, Err (Voice e)) | Panic => (s, Panic) end;
  sink_wire s := s;
|}.

(** Frames of one packet byte each, so that packets tell them apart. *)
Definition numbered (n : Z) : OpusFrame := mkOpusFrame [252; n] 20 960 (20 * n) (960 * n) None 1.

(** Two frames wait in the source buffer, the third is still to come. *)
Definition started_loop : Loop (K := recorder) :=
  let q := fst (push (fst (push source_queue_new (numbered 0))) (numbered 1)) in
  mkLoop (LiveMediaDriver_from (mkSourceBufferState q false None) 1) 7 (new_sender [] 0) false [] (starting_after 0 0) 0
    false false false true (q_inner q).

Lemma numbered_small n : small_frame 4096 (numbered n).
Proof. split; vm_compute; congruence. Qed.
Lemma push_numbered q n :
  stage_ok 4096 250 q -> zlen (q_inner q) < 250 -> stage_ok 4096 250 (fst (push q (numbered n))).
Proof.
  intros Hq Hlt. assert (HB : 0 <= 4096 <= 4096) by lia. pose proof (numbered_small n) as Hn.
  rewrite (stage_push 4096 HB 250) by done. rewrite (proj2 (Z.ltb_lt _ _) Hlt). cbn [fst].
  apply (stage_account 4096 HB); [done..|]. by rewrite Permutation_app_comm.
Qed.

Lemma started_loop_fresh : just_started 4096 started_loop.
Proof.
  split; try done. do 2 eexists. split; [done|]. cbn [sb_queue].
  pose proof (refill_queue_ok 4096 250 ltac:(lia)) as Hs. change (20 * 250) with PLAYBACK_SOURCE_BUFFER_HIGH_WATERMARK_MS in Hs.
  repeat apply push_numbered; done.
Qed.

(** One tick of the sender at its deadline. *)
Definition due_tick (l : Loop (K := recorder)) : TickEnv :=
  let due := default 0 (ds_next_deadline (lo_sender l)) in
  mkTickEnv due (mkSleepEnv due 0 [] 0) [] 0 due (Ok tt) due true.

(** A world that answers without trouble: the clone of the packet sender has
    the same socket, and a pause is followed by a resume; [ticks] says when the sender's
    thread runs, [commands] and [selected] what the session asks for. *)
Definition world (ticks : nat -> Loop (K := recorder) -> bool) (commands : nat -> Loop (K := recorder) -> list MediaCommand)
    (selected : nat -> Loop (K := recorder) -> Selected) (i : nat) (l : Loop (K := recorder)) (q : question)
    : answer (K := recorder) q :=
  match q with
  | AskFeed => mkFeed [numbered 2] FeedDone
  | AskTicks => if ticks i l then [due_tick l] else []
  | AskNow => 0
  | AskSink => Ok (ds_sink (lo_sender l))
  | AskCurrent | AskSentFirst => true
  | AskCommands => commands i l
  | AskSelect => selected i l
  | AskPaused => PauseCommand (Some CommandResume)
  | AskPrepareSlot _ | AskSettle => Ok no_drain
  | AskSpeaking | AskStopSpeaking => Ok tt
  | AskPacket data samples => Ok (mkPreparedVoicePacket data 20 samples true 0 0 None)
  | AskDiscard => tt
  | AskThreadResult => Ok tt
  end.
Definition easy_world := world (fun _ _ => true) (fun _ _ => []) (fun _ _ => OutcomeReady).

(** The state a run ends in. *)
Definition final (oracle : nat -> Loop -> forall q, answer (K := recorder) q) (n : nat) : Loop :=
  match follow oracle 0 (driver_run n) started_loop with Some (_, l) => l | None => started_loop end.

Lemma world_valid hurried ticks commands selected i l q :
  (forall i l, hurried \/ (length (commands i l) <= 1)%nat) ->
  valid 4096 hurried q (world ticks commands selected i l q).
Proof. intros Hc. destruct q; cbn; try done; first [apply Hc|constructor; [apply numbered_small|done]]. Qed.

Lemma easy_run : follow easy_world 0 (driver_run 10) started_loop = Some (Some (mkExit true None), final easy_world 10).
Proof. vm_compute. reflexivity. Qed.

Lemma driver_plays_in_order_witness :
  map mf_media_position_ms (heard (lo_driver (final easy_world 10))) = [0; 20; 40] /\
  heard (lo_driver (final easy_world 10)) `prefix_of` stream (final easy_world 10).
Proof.
  split; [vm_compute; reflexivity|].
  destruct (wlp_follow (valid 4096 True) easy_world _ _ 0 started_loop _ _ (fun i l q => world_valid True _ _ _ i l q (fun _ _ => or_introl I))
    (driver_plays_in_order 4096 10 started_loop ltac:(lia) started_loop_fresh) easy_run) as (e & _ & Hp & _).
  exact Hp.
Defined.

Lemma natural_end_is_complete_witness :
  length (lo_fed (final easy_world 10)) = 3%nat /\
  heard (lo_driver (final easy_world 10)) = stream (final easy_world 10).
Proof.
  split; [vm_compute; reflexivity|].
  apply (wlp_follow (valid 4096 False) easy_world _ _ 0 started_loop _ _
    (fun i l q => world_valid False _ (fun _ _ => []) _ i l q (fun _ _ => or_intror (le_S 0 0 (le_n 0))))
    (natural_end_is_complete 4096 10 started_loop ltac:(lia) started_loop_fresh) easy_run).
  reflexivity.
Defined.

(** ** Two commands at once *)

(** A pause and a resume that both wait when the driver looks for commands
    after it has filled its stages: the pause takes the three frames back, the
    resume lets the turn go on, and with nothing handed over and the source at
    its end the driver reports a natural end. Nothing was sent. *)
Definition hurried_world :=
  world (fun _ l => bool_decide (lo_pending l = []))
    (fun _ l => if bool_decide (lo_pending l = []) then [] else [CommandPause; CommandResume]) (fun _ _ => OutcomeReady).

Lemma hurried_resume_ends_playback :
  follow hurried_world 0 (driver_run 10) started_loop = Some (Some (mkExit true None), final hurried_world 10) /\
  heard (lo_driver (final hurried_world 10)) = [] /\ length (lo_fed (final hurried_world 10)) = 3%nat /\
  length (q_inner (d_egress (lo_driver (final hurried_world 10)))) = 3%nat.
Proof. vm_compute. done. Qed.

(** ** A packet sent just before a pause *)

(** The first packet is on the wire and its record waits when the driver takes
    a pause from its channel: the sender is replaced together with its records,
    the frame counts as dropped and is sent again after the resume. *)
Definition pausing_world :=
  world (fun _ l => bool_decide (ds_sent (lo_sender l) = [])) (fun _ _ => [])
    (fun _ l => if lo_generation l =? 7 then CommandReady (Some CommandPause) else OutcomeReady).

Definition track_wire (l : Loop (K := recorder)) : list (list Z) :=
  map pv_bytes (List.filter (fun p => negb (bool_decide (pv_bytes p = SILENCE_FRAME))) (ds_sink (lo_sender l))).

Lemma pause_repeats_sent_packet :
  follow pausing_world 0 (driver_run 10) started_loop = Some (Some (mkExit true None), final pausing_world 10) /\
  map mf_media_position_ms (heard (lo_driver (final pausing_world 10))) = [0; 20; 40] /\
  track_wire (final pausing_world 10) = [[252; 0]; [252; 0]; [252; 1]; [252; 2]].
Proof. vm_compute. done. Qed.
