(* ===== verification/ControlProto.v ===== *)
(** * The messages of the control API

    crates/discord-voice-service-proto/proto/discordvoice/v1/control.proto, the
    same file in the Twilight client: its enumerations and messages as the Rust
    code sees them. An enumeration travels as a number; a field of message type
    may be absent; an absent scalar or string is zero or empty. *)

From S2P Require Import Prelude.
From stdpp Require Import prelude strings.
Open Scope Z_scope.

Inductive ProtoPlaybackSendCommandKind : Type :=
| CK_Unspecified
| CK_Track
| CK_ScheduledSilence
| CK_BoundarySilence
| CK_OtherBoundary.
Definition CK_as_i32 (x : ProtoPlaybackSendCommandKind) : Z :=
  match x with
  | CK_Unspecified => 0
  | CK_Track => 1
  | CK_ScheduledSilence => 2
  | CK_BoundarySilence => 3
  | CK_OtherBoundary => 4
  end.
Definition CK_try_from (value : Z) : option ProtoPlaybackSendCommandKind :=
  match value with
  | 0 => Some CK_Unspecified
  | 1 => Some CK_Track
  | 2 => Some CK_ScheduledSilence
  | 3 => Some CK_BoundarySilence
  | 4 => Some CK_OtherBoundary
  | _ => None
  end.

Inductive ProtoPreparedTrackQueueSamplePhase : Type :=
| PH_Unspecified
| PH_ActivePrePause
| PH_ActivePostResume.
Definition PH_as_i32 (x : ProtoPreparedTrackQueueSamplePhase) : Z :=
  match x with
  | PH_Unspecified => 0
  | PH_ActivePrePause => 1
  | PH_ActivePostResume => 2
  end.
Definition PH_try_from (value : Z) : option ProtoPreparedTrackQueueSamplePhase :=
  match value with
  | 0 => Some PH_Unspecified
  | 1 => Some PH_ActivePrePause
  | 2 => Some PH_ActivePostResume
  | _ => None
  end.

Inductive ProtoPreparedPlayoutQueueEventKind : Type :=
| QK_Unspecified
| QK_Enqueued
| QK_DequeuedToDeadlineSender
| QK_DroppedBeforeSend
| QK_Rebuilt.
Definition QK_as_i32 (x : ProtoPreparedPlayoutQueueEventKind) : Z :=
  match x with
  | QK_Unspecified => 0
  | QK_Enqueued => 1
  | QK_DequeuedToDeadlineSender => 2
  | QK_DroppedBeforeSend => 3
  | QK_Rebuilt => 4
  end.
Definition QK_try_from (value : Z) : option ProtoPreparedPlayoutQueueEventKind :=
  match value with
  | 0 => Some QK_Unspecified
  | 1 => Some QK_Enqueued
  | 2 => Some QK_DequeuedToDeadlineSender
  | 3 => Some QK_DroppedBeforeSend
  | 4 => Some QK_Rebuilt
  | _ => None
  end.

Inductive ProtoPreparedPlayoutQueueEventReason : Type :=
| QR_Unspecified
| QR_SteadyPlayback
| QR_Pause
| QR_Stop
| QR_DaveTransitionRecovery
| QR_Reconnect
| QR_SourceUnderrun
| QR_NaturalEnd
| QR_Interruption.
Definition QR_as_i32 (x : ProtoPreparedPlayoutQueueEventReason) : Z :=
  match x with
  | QR_Unspecified => 0
  | QR_SteadyPlayback => 1
  | QR_Pause => 2
  | QR_Stop => 3
  | QR_DaveTransitionRecovery => 4
  | QR_Reconnect => 5
  | QR_SourceUnderrun => 6
  | QR_NaturalEnd => 7
  | QR_Interruption => 8
  end.
Definition QR_try_from (value : Z) : option ProtoPreparedPlayoutQueueEventReason :=
  match value with
  | 0 => Some QR_Unspecified
  | 1 => Some QR_SteadyPlayback
  | 2 => Some QR_Pause
  | 3 => Some QR_Stop
  | 4 => Some QR_DaveTransitionRecovery
  | 5 => Some QR_Reconnect
  | 6 => Some QR_SourceUnderrun
  | 7 => Some QR_NaturalEnd
  | 8 => Some QR_Interruption
  | _ => None
  end.

Inductive ProtoSessionEventKind : Type :=
| EK_Unspecified
| EK_VoiceConnecting
| EK_VoiceReady
| EK_TrackResolving
| EK_Buffering
| EK_Playing
| EK_Paused
| EK_Stopped
| EK_TrackEnded
| EK_PlaybackInterrupted
| EK_RecoverableWarning
| EK_FatalError
| EK_VoiceReconnecting.
Definition EK_as_i32 (x : ProtoSessionEventKind) : Z :=
  match x with
  | EK_Unspecified => 0
  | EK_VoiceConnecting => 1
  | EK_VoiceReady => 2
  | EK_TrackResolving => 3
  | EK_Buffering => 4
  | EK_Playing => 5
  | EK_Paused => 6
  | EK_Stopped => 7
  | EK_TrackEnded => 8
  | EK_PlaybackInterrupted => 9
  | EK_RecoverableWarning => 10
  | EK_FatalError => 11
  | EK_VoiceReconnecting => 12
  end.
Definition EK_try_from (value : Z) : option ProtoSessionEventKind :=
  match value with
  | 0 => Some EK_Unspecified
  | 1 => Some EK_VoiceConnecting
  | 2 => Some EK_VoiceReady
  | 3 => Some EK_TrackResolving
  | 4 => Some EK_Buffering
  | 5 => Some EK_Playing
  | 6 => Some EK_Paused
  | 7 => Some EK_Stopped
  | 8 => Some EK_TrackEnded
  | 9 => Some EK_PlaybackInterrupted
  | 10 => Some EK_RecoverableWarning
  | 11 => Some EK_FatalError
  | 12 => Some EK_VoiceReconnecting
  | _ => None
  end.

Inductive ProtoSessionEventReason : Type :=
| ER_Unspecified
| ER_JoinTimeout
| ER_JoinFailed
| ER_InvalidVoiceToken
| ER_VoiceResumeFailed
| ER_DaveTransitionFailed
| ER_UnsupportedEncryptionMode
| ER_UdpDiscoveryFailed
| ER_UpstreamUrlStale
| ER_PlaybackSourceUnsupported.
Definition ER_as_i32 (x : ProtoSessionEventReason) : Z :=
  match x with
  | ER_Unspecified => 0
  | ER_JoinTimeout => 1
  | ER_JoinFailed => 2
  | ER_InvalidVoiceToken => 3
  | ER_VoiceResumeFailed => 4
  | ER_DaveTransitionFailed => 5
  | ER_UnsupportedEncryptionMode => 6
  | ER_UdpDiscoveryFailed => 7
  | ER_UpstreamUrlStale => 8
  | ER_PlaybackSourceUnsupported => 9
  end.
Definition ER_try_from (value : Z) : option ProtoSessionEventReason :=
  match value with
  | 0 => Some ER_Unspecified
  | 1 => Some ER_JoinTimeout
  | 2 => Some ER_JoinFailed
  | 3 => Some ER_InvalidVoiceToken
  | 4 => Some ER_VoiceResumeFailed
  | 5 => Some ER_DaveTransitionFailed
  | 6 => Some ER_UnsupportedEncryptionMode
  | 7 => Some ER_UdpDiscoveryFailed
  | 8 => Some ER_UpstreamUrlStale
  | 9 => Some ER_PlaybackSourceUnsupported
  | _ => None
  end.

Inductive ProtoSessionState : Type :=
| SS_Unspecified
| SS_Idle
| SS_ConnectingVoice
| SS_VoiceReadyState
| SS_ResolvingTrack
| SS_BufferingState
| SS_PlayingState
| SS_PausedState
| SS_Stopping
| SS_ErrorState.
Definition SS_as_i32 (x : ProtoSessionState) : Z :=
  match x with
  | SS_Unspecified => 0
  | SS_Idle => 1
  | SS_ConnectingVoice => 2
  | SS_VoiceReadyState => 3
  | SS_ResolvingTrack => 4
  | SS_BufferingState => 5
  | SS_PlayingState => 6
  | SS_PausedState => 7
  | SS_Stopping => 8
  | SS_ErrorState => 9
  end.
Definition SS_try_from (value : Z) : option ProtoSessionState :=
  match value with
  | 0 => Some SS_Unspecified
  | 1 => Some SS_Idle
  | 2 => Some SS_ConnectingVoice
  | 3 => Some SS_VoiceReadyState
  | 4 => Some SS_ResolvingTrack
  | 5 => Some SS_BufferingState
  | 6 => Some SS_PlayingState
  | 7 => Some SS_PausedState
  | 8 => Some SS_Stopping
  | 9 => Some SS_ErrorState
  | _ => None
  end.

Record ProtoDurationStatsSnapshot : Type := mkProtoDurationStatsSnapshot {
  pbd_samples : Z;
  pbd_p50_ms : Z;
  pbd_p95_ms : Z;
  pbd_p99_ms : Z;
  pbd_min_ms : Z;
  pbd_max_ms : Z;
}.
Definition ProtoDurationStatsSnapshot_default : ProtoDurationStatsSnapshot :=
  mkProtoDurationStatsSnapshot 0 0 0 0 0 0.

Record ProtoPlaybackBufferDepthSnapshot : Type := mkProtoPlaybackBufferDepthSnapshot {
  pbb_packets : Z;
  pbb_bytes : Z;
  pbb_duration_ms : Z;
  pbb_duration_samples : Z;
}.
Definition ProtoPlaybackBufferDepthSnapshot_default : ProtoPlaybackBufferDepthSnapshot :=
  mkProtoPlaybackBufferDepthSnapshot 0 0 0 0.

Record ProtoPlaybackQueueDepthStatsSnapshot : Type := mkProtoPlaybackQueueDepthStatsSnapshot {
  pbq_sample_count : Z;
  pbq_empty_count : Z;
  pbq_current_depth : option ProtoPlaybackBufferDepthSnapshot;
  pbq_min_depth : option ProtoPlaybackBufferDepthSnapshot;
  pbq_p5_depth : option ProtoPlaybackBufferDepthSnapshot;
  pbq_p50_depth : option ProtoPlaybackBufferDepthSnapshot;
  pbq_p95_depth : option ProtoPlaybackBufferDepthSnapshot;
  pbq_max_depth : option ProtoPlaybackBufferDepthSnapshot;
}.
Definition ProtoPlaybackQueueDepthStatsSnapshot_default : ProtoPlaybackQueueDepthStatsSnapshot :=
  mkProtoPlaybackQueueDepthStatsSnapshot 0 0 None None None None None None.

Record ProtoPlaybackSendEventSnapshot : Type := mkProtoPlaybackSendEventSnapshot {
  pbe_packet_index : Z;
  pbe_command_kind : Z;
  pbe_expected_deadline_offset_us : Z;
  pbe_send_started_offset_us : Z;
  pbe_sent_offset_us : Z;
  pbe_media_duration_ms : Z;
  pbe_media_duration_samples : Z;
  pbe_rtp_sequence : Z;
  pbe_rtp_timestamp : Z;
  pbe_protection_nonce : option Z;
  pbe_source_frame_epoch : option Z;
  pbe_source_media_position_ms : option Z;
  pbe_source_media_byte_position : option Z;
  pbe_committed_heard_media : bool;
  pbe_source_media_position_samples : option Z;
}.

Record ProtoPreparedTrackQueueDepthSampleSnapshot : Type := mkProtoPreparedTrackQueueDepthSampleSnapshot {
  pbs_sample_index : Z;
  pbs_phase : Z;
  pbs_depth : option ProtoPlaybackBufferDepthSnapshot;
}.

Record ProtoPreparedPlayoutQueueEventSnapshot : Type := mkProtoPreparedPlayoutQueueEventSnapshot {
  pbp_event_index : Z;
  pbp_event_kind : Z;
  pbp_reason : Z;
  pbp_command_kind : Z;
  pbp_media_duration_ms : Z;
  pbp_media_duration_samples : Z;
  pbp_rtp_sequence : Z;
  pbp_rtp_timestamp : Z;
  pbp_protection_nonce : option Z;
  pbp_source_frame_epoch : option Z;
  pbp_source_media_position_ms : option Z;
  pbp_source_media_byte_position : option Z;
  pbp_queue_depth_after : option ProtoPlaybackBufferDepthSnapshot;
  pbp_source_media_position_samples : option Z;
}.

Record ProtoPlaybackStabilitySnapshot : Type := mkProtoPlaybackStabilitySnapshot {
  pbm_available : bool;
  pbm_playback_epoch : Z;
  pbm_video_id : string;
  pbm_selected_itag : Z;
  pbm_track_packet_count : Z;
  pbm_continuity_silence_packet_count : Z;
  pbm_inserted_silence_duration_ms : Z;
  pbm_track_interval : option ProtoDurationStatsSnapshot;
  pbm_all_packet_interval : option ProtoDurationStatsSnapshot;
  pbm_sender_lateness : option ProtoDurationStatsSnapshot;
  pbm_max_consecutive_late_packets : Z;
  pbm_current_consecutive_late_packets : Z;
  pbm_current_buffer_depth : option ProtoPlaybackBufferDepthSnapshot;
  pbm_min_buffer_depth : option ProtoPlaybackBufferDepthSnapshot;
  pbm_max_buffer_depth : option ProtoPlaybackBufferDepthSnapshot;
  pbm_buffer_low_watermark_count : Z;
  pbm_buffer_underrun_count : Z;
  pbm_refill_duration : option ProtoDurationStatsSnapshot;
  pbm_producer_stall_duration : option ProtoDurationStatsSnapshot;
  pbm_max_producer_lag_ms : Z;
  pbm_http_retry_count : Z;
  pbm_response_open_count : Z;
  pbm_range_reopen_count : Z;
  pbm_read_error_reopen_count : Z;
  pbm_url_reresolve_count : Z;
  pbm_pause_resume_first_intervals_ms : list Z;
  pbm_post_stall_first_intervals_ms : list Z;
  pbm_gateway_interruptions : Z;
  pbm_dave_interruptions : Z;
  pbm_reconnect_interruptions : Z;
  pbm_ended : bool;
  pbm_adaptive_buffer_target_ms : Z;
  pbm_max_adaptive_buffer_target_ms : Z;
  pbm_current_source_buffer_depth : option ProtoPlaybackBufferDepthSnapshot;
  pbm_min_source_buffer_depth : option ProtoPlaybackBufferDepthSnapshot;
  pbm_max_source_buffer_depth : option ProtoPlaybackBufferDepthSnapshot;
  pbm_source_buffer_target_ms : Z;
  pbm_source_buffer_low_watermark_count : Z;
  pbm_rebuffer_count : Z;
  pbm_current_playout_buffer_depth : option ProtoPlaybackBufferDepthSnapshot;
  pbm_min_playout_buffer_depth : option ProtoPlaybackBufferDepthSnapshot;
  pbm_max_playout_buffer_depth : option ProtoPlaybackBufferDepthSnapshot;
  pbm_playout_buffer_low_watermark_count : Z;
  pbm_playout_underrun_count : Z;
  pbm_playout_sender_lateness : option ProtoDurationStatsSnapshot;
  pbm_max_consecutive_playout_late_packets : Z;
  pbm_speaking_prepare_duration : option ProtoDurationStatsSnapshot;
  pbm_post_rebuffer_first_intervals_ms : list Z;
  pbm_source_underrun_count : Z;
  pbm_source_producer_fill_duration : option ProtoDurationStatsSnapshot;
  pbm_playout_builder_prepare_duration : option ProtoDurationStatsSnapshot;
  pbm_sender_send_duration : option ProtoDurationStatsSnapshot;
  pbm_sender_loop_non_send_work_duration : option ProtoDurationStatsSnapshot;
  pbm_sender_forbidden_work_count : Z;
  pbm_prepared_rtp_queue_depth_ms : Z;
  pbm_gateway_event_drain_duration : option ProtoDurationStatsSnapshot;
  pbm_gateway_event_drain_count : Z;
  pbm_dave_transition_count : Z;
  pbm_dave_transition_count_during_playback : Z;
  pbm_stale_dave_send_prevented_count : Z;
  pbm_controlled_media_interruption_count : Z;
  pbm_media_clock_reset_count : Z;
  pbm_scheduler_late_reset_count : Z;
  pbm_source_underrun_reset_count : Z;
  pbm_pause_resume_reset_count : Z;
  pbm_dave_transition_recovery_reset_count : Z;
  pbm_track_media_duration_sent_ms : Z;
  pbm_track_wall_clock_elapsed_ms : Z;
  pbm_track_media_to_wall_clock_ratio_ppm : Z;
  pbm_track_fast_interval_count : Z;
  pbm_track_fast_interval_min_ms : Z;
  pbm_skipped_source_frame_count : Z;
  pbm_skipped_source_duration_ms : Z;
  pbm_tempo_rebase_count : Z;
  pbm_track_fast_interval_min_us : Z;
  pbm_track_tempo_window_count : Z;
  pbm_track_tempo_window_post_source_buffer_count : Z;
  pbm_track_tempo_window_fast_count : Z;
  pbm_track_tempo_window_fastest_ratio_ppm : Z;
  pbm_track_tempo_window_fastest_media_ms : Z;
  pbm_track_tempo_window_fastest_wall_clock_us : Z;
  pbm_track_tempo_window_min_ratio_ppm : Z;
  pbm_track_tempo_window_max_ratio_ppm : Z;
  pbm_track_tempo_window_slow_count : Z;
  pbm_track_tempo_window_slowest_ratio_ppm : Z;
  pbm_track_tempo_window_slowest_media_ms : Z;
  pbm_track_tempo_window_slowest_wall_clock_us : Z;
  pbm_egress_buffer_target_ms : Z;
  pbm_current_egress_buffer_depth : option ProtoPlaybackBufferDepthSnapshot;
  pbm_min_egress_buffer_depth : option ProtoPlaybackBufferDepthSnapshot;
  pbm_max_egress_buffer_depth : option ProtoPlaybackBufferDepthSnapshot;
  pbm_egress_underrun_count : Z;
  pbm_egress_inserted_silence_duration_ms : Z;
  pbm_egress_dropped_music_frame_count : Z;
  pbm_egress_dropped_music_duration_ms : Z;
  pbm_max_consecutive_late_egress_ticks : Z;
  pbm_egress_clock_reset_count : Z;
  pbm_prepared_track_queue_target_ms : Z;
  pbm_prepared_track_queue_low_watermark_ms : Z;
  pbm_prepared_track_queue_high_watermark_ms : Z;
  pbm_active_pre_pause_prepared_track_queue_depth : option ProtoPlaybackQueueDepthStatsSnapshot;
  pbm_active_post_resume_prepared_track_queue_depth : option ProtoPlaybackQueueDepthStatsSnapshot;
  pbm_prepared_track_queue_depth_sample_count : Z;
  pbm_prepared_track_queue_empty_count : Z;
  pbm_raw_send_events : list ProtoPlaybackSendEventSnapshot;
  pbm_raw_prepared_track_queue_samples : list ProtoPreparedTrackQueueDepthSampleSnapshot;
  pbm_raw_prepared_playout_queue_events : list ProtoPreparedPlayoutQueueEventSnapshot;
  pbm_current_scheduled_silence_queue_depth : option ProtoPlaybackBufferDepthSnapshot;
  pbm_max_scheduled_silence_queue_depth : option ProtoPlaybackBufferDepthSnapshot;
  pbm_current_boundary_queue_depth : option ProtoPlaybackBufferDepthSnapshot;
  pbm_max_boundary_queue_depth : option ProtoPlaybackBufferDepthSnapshot;
  pbm_prepared_track_packet_drop_count : Z;
  pbm_prepared_silence_packet_drop_count : Z;
  pbm_prepared_packet_rebuild_count : Z;
  pbm_scheduled_silence_packet_count : Z;
  pbm_pause_media_boundary_count : Z;
  pbm_stop_media_boundary_count : Z;
  pbm_recovery_media_boundary_count : Z;
  pbm_natural_end_media_boundary_count : Z;
  pbm_dave_transition_recovery_reached_builder_count : Z;
  pbm_dave_transition_recovery_reached_deadline_sender_count : Z;
  pbm_source_underrun_reached_builder_count : Z;
  pbm_source_underrun_reached_deadline_sender_count : Z;
  pbm_discarded_source_frame_count : Z;
  pbm_discarded_source_duration_ms : Z;
  pbm_stop_discarded_source_frame_count : Z;
  pbm_stop_discarded_source_duration_ms : Z;
  pbm_interruption_discarded_source_frame_count : Z;
  pbm_interruption_discarded_source_duration_ms : Z;
  pbm_restored_source_frame_count : Z;
  pbm_restored_source_duration_ms : Z;
  pbm_source_buffer_depth : option ProtoPlaybackQueueDepthStatsSnapshot;
  pbm_expected_track_frame_count : Z;
  pbm_sent_track_frame_count : Z;
  pbm_silence_frame_count : Z;
  pbm_frame_deficit_count : Z;
  pbm_dropped_frame_count : Z;
  pbm_late_frame_count : Z;
  pbm_skipped_source_duration_samples : Z;
  pbm_egress_dropped_music_duration_samples : Z;
  pbm_discarded_source_duration_samples : Z;
  pbm_stop_discarded_source_duration_samples : Z;
  pbm_interruption_discarded_source_duration_samples : Z;
  pbm_restored_source_duration_samples : Z;
}.
Definition ProtoPlaybackStabilitySnapshot_default : ProtoPlaybackStabilitySnapshot :=
  mkProtoPlaybackStabilitySnapshot false 0 EmptyString 0 0 0 0 None None None 0 0 None None None 0 0
    None None 0 0 0 0 0 0 [] [] 0 0 0 false 0 0 None None None 0 0 0 None None None 0 0 None 0 None
    [] 0 None None None None 0 0 None 0 0 0 0 0 0 0 0 0 0 0 0 0 0 0 0 0 0 0 0 0 0 0 0 0 0 0 0 0 0 0
    0 None None None 0 0 0 0 0 0 0 0 0 None None 0 0 [] [] [] None None None None 0 0 0 0 0 0 0 0 0
    0 0 0 0 0 0 0 0 0 0 0 None 0 0 0 0 0 0 0 0 0 0 0 0.

Record ProtoSessionStateSnapshot : Type := mkProtoSessionStateSnapshot {
  pbt_state : Z;
  pbt_guild_id : string;
  pbt_channel_id : string;
  pbt_current_video_id : string;
  pbt_queue_depth : Z;
  pbt_selected_itag : Z;
  pbt_message : string;
}.

Record ProtoSessionEvent : Type := mkProtoSessionEvent {
  pbv_kind : Z;
  pbv_guild_id : string;
  pbv_channel_id : string;
  pbv_current_video_id : string;
  pbv_selected_itag : Z;
  pbv_message : string;
  pbv_error_code : string;
  pbv_reason : Z;
}.

Record ProtoVoiceContext : Type := mkProtoVoiceContext {
  pbc_guild_id : string;
  pbc_channel_id : string;
  pbc_session_id : string;
  pbc_endpoint : string;
  pbc_token : string;
  pbc_user_id : string;
}.

Record ProtoJoinVoiceRequest : Type := mkProtoJoinVoiceRequest {
  pbj_voice : option ProtoVoiceContext;
}.

Record ProtoUpdateVoiceContextRequest : Type := mkProtoUpdateVoiceContextRequest {
  pbu_voice : option ProtoVoiceContext;
}.

Record ProtoPlayRequest : Type := mkProtoPlayRequest {
  pbl_video_id : string;
}.

(** A number read back is the value it stands for. *)
Lemma CK_try_from_as x : CK_try_from (CK_as_i32 x) = Some x.
Proof. by destruct x. Qed.
Lemma PH_try_from_as x : PH_try_from (PH_as_i32 x) = Some x.
Proof. by destruct x. Qed.
Lemma QK_try_from_as x : QK_try_from (QK_as_i32 x) = Some x.
Proof. by destruct x. Qed.
Lemma QR_try_from_as x : QR_try_from (QR_as_i32 x) = Some x.
Proof. by destruct x. Qed.
Lemma EK_try_from_as x : EK_try_from (EK_as_i32 x) = Some x.
Proof. by destruct x. Qed.
Lemma ER_try_from_as x : ER_try_from (ER_as_i32 x) = Some x.
Proof. by destruct x. Qed.
Lemma SS_try_from_as x : SS_try_from (SS_as_i32 x) = Some x.
Proof. by destruct x. Qed.
