(* ===== verification/MetricsTransport.v ===== *)
(** * Playback metrics from the runtime to the client

    The metrics snapshot leaves the service as a message
    (crates/discord-voice-service-runtime/src/api/service.rs) and becomes the
    client's own snapshot (crates/discord-voice-service-twilight/src/lib.rs).
    [u32::from] and [usize] to [u64] are the identity on the values of their
    types. [published] reads the client's snapshot back, field by field. *)

From S2P Require Import Prelude OpusQueue Egress Metrics MetricsSpecs ControlProto.
From stdpp Require Import prelude strings.
Open Scope Z_scope.

(** ** The service *)

Definition usize_to_u64 (value : Z) : Z := default u64_max (try_uint u64_max value).

Definition map_send_command_kind (x : PlaybackSendCommandKind) : ProtoPlaybackSendCommandKind :=
  match x with
  | CTrack => CK_Track
  | CScheduledSilence => CK_ScheduledSilence
  | CBoundarySilence => CK_BoundarySilence
  | COtherBoundary => CK_OtherBoundary
  end.
Definition map_prepared_track_queue_sample_phase (x : PreparedTrackQueueSamplePhase) : ProtoPreparedTrackQueueSamplePhase :=
  match x with
  | ActivePrePause => PH_ActivePrePause
  | ActivePostResume => PH_ActivePostResume
  end.
Definition map_prepared_playout_queue_event_kind (x : PreparedPlayoutQueueEventKind) : ProtoPreparedPlayoutQueueEventKind :=
  match x with
  | Unknown => QK_Unspecified
  | Enqueued => QK_Enqueued
  | DequeuedToDeadlineSender => QK_DequeuedToDeadlineSender
  | DroppedBeforeSend => QK_DroppedBeforeSend
  | Rebuilt => QK_Rebuilt
  end.
Definition map_prepared_playout_queue_event_reason (x : PreparedPlayoutQueueEventReason) : ProtoPreparedPlayoutQueueEventReason :=
  match x with
  | Unspecified => QR_Unspecified
  | SteadyPlayback => QR_SteadyPlayback
  | Pause => QR_Pause
  | Stop => QR_Stop
  | DaveTransitionRecovery => QR_DaveTransitionRecovery
  | Reconnect => QR_Reconnect
  | SourceUnderrun => QR_SourceUnderrun
  | NaturalEnd => QR_NaturalEnd
  | Interruption => QR_Interruption
  end.

Definition map_duration_stats (snapshot : DurationStatsSnapshot) : ProtoDurationStatsSnapshot := {|
  pbd_samples := usize_to_u64 (st_samples snapshot);
  pbd_p50_ms := st_p50_ms snapshot;
  pbd_p95_ms := st_p95_ms snapshot;
  pbd_p99_ms := st_p99_ms snapshot;
  pbd_min_ms := st_min_ms snapshot;
  pbd_max_ms := st_max_ms snapshot;
|}.
Definition map_buffer_depth (snapshot : OpusBufferDepth) : ProtoPlaybackBufferDepthSnapshot := {|
  pbb_packets := usize_to_u64 (bd_packets snapshot);
  pbb_bytes := usize_to_u64 (bd_bytes snapshot);
  pbb_duration_ms := bd_duration_ms snapshot;
  pbb_duration_samples := bd_duration_samples snapshot;
|}.
Definition map_queue_depth_stats (snapshot : PlaybackQueueDepthStatsSnapshot) : ProtoPlaybackQueueDepthStatsSnapshot := {|
  pbq_sample_count := usize_to_u64 (qs_sample_count snapshot);
  pbq_empty_count := qs_empty_count snapshot;
  pbq_current_depth := Some (map_buffer_depth (qs_current_depth snapshot));
  pbq_min_depth := Some (map_buffer_depth (qs_min_depth snapshot));
  pbq_p5_depth := Some (map_buffer_depth (qs_p5_depth snapshot));
  pbq_p50_depth := Some (map_buffer_depth (qs_p50_depth snapshot));
  pbq_p95_depth := Some (map_buffer_depth (qs_p95_depth snapshot));
  pbq_max_depth := Some (map_buffer_depth (qs_max_depth snapshot));
|}.
Definition map_raw_send_event (event : PlaybackSendEventSnapshot) : ProtoPlaybackSendEventSnapshot := {|
  pbe_packet_index := se_packet_index event;
  pbe_command_kind := CK_as_i32 (map_send_command_kind (se_command_kind event));
  pbe_expected_deadline_offset_us := se_expected_deadline_offset_us event;
  pbe_send_started_offset_us := se_send_started_offset_us event;
  pbe_sent_offset_us := se_sent_offset_us event;
  pbe_media_duration_ms := se_media_duration_ms event;
  pbe_media_duration_samples := se_media_duration_samples event;
  pbe_rtp_sequence := se_rtp_sequence event;
  pbe_rtp_timestamp := se_rtp_timestamp event;
  pbe_protection_nonce := se_protection_nonce event;
  pbe_source_frame_epoch := se_source_frame_epoch event;
  pbe_source_media_position_ms := se_source_media_position_ms event;
  pbe_source_media_position_samples := se_source_media_position_samples event;
  pbe_source_media_byte_position := se_source_media_byte_position event;
  pbe_committed_heard_media := se_committed_heard_media event;
|}.
Definition map_raw_prepared_track_queue_sample (sample : PreparedTrackQueueDepthSampleSnapshot) : ProtoPreparedTrackQueueDepthSampleSnapshot := {|
  pbs_sample_index := qd_sample_index sample;
  pbs_phase := PH_as_i32 (map_prepared_track_queue_sample_phase (qd_phase sample));
  pbs_depth := Some (map_buffer_depth (qd_depth sample));
|}.
Definition map_raw_prepared_playout_queue_event (event : PreparedPlayoutQueueEventSnapshot) : ProtoPreparedPlayoutQueueEventSnapshot := {|
  pbp_event_index := ev_event_index event;
  pbp_event_kind := QK_as_i32 (map_prepared_playout_queue_event_kind (ev_event_kind event));
  pbp_reason := QR_as_i32 (map_prepared_playout_queue_event_reason (ev_reason event));
  pbp_command_kind := CK_as_i32 (map_send_command_kind (ev_command_kind event));
  pbp_media_duration_ms := ev_media_duration_ms event;
  pbp_media_duration_samples := ev_media_duration_samples event;
  pbp_rtp_sequence := ev_rtp_sequence event;
  pbp_rtp_timestamp := ev_rtp_timestamp event;
  pbp_protection_nonce := ev_protection_nonce event;
  pbp_source_frame_epoch := ev_source_frame_epoch event;
  pbp_source_media_position_ms := ev_source_media_position_ms event;
  pbp_source_media_position_samples := ev_source_media_position_samples event;
  pbp_source_media_byte_position := ev_source_media_byte_position event;
  pbp_queue_depth_after := Some (map_buffer_depth (ev_queue_depth_after event));
|}.
Definition map_published_snapshot (snapshot : PlaybackStabilitySnapshot) : ProtoPlaybackStabilitySnapshot := {|
  pbm_available := true;
  pbm_playback_epoch := sn_playback_epoch snapshot;
  pbm_video_id := default EmptyString (sn_video_id snapshot);
  pbm_selected_itag := default 0 (sn_selected_itag snapshot);
  pbm_track_packet_count := usize_to_u64 (sn_track_packet_count snapshot);
  pbm_continuity_silence_packet_count := usize_to_u64 (sn_continuity_silence_packet_count snapshot);
  pbm_inserted_silence_duration_ms := sn_inserted_silence_duration_ms snapshot;
  pbm_track_interval := Some (map_duration_stats (sn_track_interval snapshot));
  pbm_track_media_duration_sent_ms := sn_track_media_duration_sent_ms snapshot;
  pbm_track_wall_clock_elapsed_ms := sn_track_wall_clock_elapsed_ms snapshot;
  pbm_track_media_to_wall_clock_ratio_ppm := sn_track_media_to_wall_clock_ratio_ppm snapshot;
  pbm_track_fast_interval_count := sn_track_fast_interval_count snapshot;
  pbm_track_fast_interval_min_ms := sn_track_fast_interval_min_ms snapshot;
  pbm_track_fast_interval_min_us := sn_track_fast_interval_min_us snapshot;
  pbm_track_tempo_window_count := sn_track_tempo_window_count snapshot;
  pbm_track_tempo_window_post_source_buffer_count := sn_track_tempo_window_post_source_buffer_count snapshot;
  pbm_track_tempo_window_min_ratio_ppm := sn_track_tempo_window_min_ratio_ppm snapshot;
  pbm_track_tempo_window_max_ratio_ppm := sn_track_tempo_window_max_ratio_ppm snapshot;
  pbm_track_tempo_window_fast_count := sn_track_tempo_window_fast_count snapshot;
  pbm_track_tempo_window_fastest_ratio_ppm := sn_track_tempo_window_fastest_ratio_ppm snapshot;
  pbm_track_tempo_window_fastest_media_ms := sn_track_tempo_window_fastest_media_ms snapshot;
  pbm_track_tempo_window_fastest_wall_clock_us := sn_track_tempo_window_fastest_wall_clock_us snapshot;
  pbm_track_tempo_window_slow_count := sn_track_tempo_window_slow_count snapshot;
  pbm_track_tempo_window_slowest_ratio_ppm := sn_track_tempo_window_slowest_ratio_ppm snapshot;
  pbm_track_tempo_window_slowest_media_ms := sn_track_tempo_window_slowest_media_ms snapshot;
  pbm_track_tempo_window_slowest_wall_clock_us := sn_track_tempo_window_slowest_wall_clock_us snapshot;
  pbm_skipped_source_frame_count := sn_skipped_source_frame_count snapshot;
  pbm_skipped_source_duration_ms := sn_skipped_source_duration_ms snapshot;
  pbm_skipped_source_duration_samples := sn_skipped_source_duration_samples snapshot;
  pbm_tempo_rebase_count := sn_tempo_rebase_count snapshot;
  pbm_expected_track_frame_count := sn_expected_track_frame_count snapshot;
  pbm_sent_track_frame_count := sn_sent_track_frame_count snapshot;
  pbm_silence_frame_count := sn_silence_frame_count snapshot;
  pbm_frame_deficit_count := sn_frame_deficit_count snapshot;
  pbm_dropped_frame_count := sn_dropped_frame_count snapshot;
  pbm_late_frame_count := sn_late_frame_count snapshot;
  pbm_all_packet_interval := Some (map_duration_stats (sn_all_packet_interval snapshot));
  pbm_sender_lateness := Some (map_duration_stats (sn_sender_lateness snapshot));
  pbm_max_consecutive_late_packets := usize_to_u64 (sn_max_consecutive_late_packets snapshot);
  pbm_current_consecutive_late_packets := usize_to_u64 (sn_current_consecutive_late_packets snapshot);
  pbm_current_buffer_depth := Some (map_buffer_depth (sn_current_buffer_depth snapshot));
  pbm_min_buffer_depth := Some (map_buffer_depth (sn_min_buffer_depth snapshot));
  pbm_max_buffer_depth := Some (map_buffer_depth (sn_max_buffer_depth snapshot));
  pbm_current_source_buffer_depth := Some (map_buffer_depth (sn_current_source_buffer_depth snapshot));
  pbm_min_source_buffer_depth := Some (map_buffer_depth (sn_min_source_buffer_depth snapshot));
  pbm_max_source_buffer_depth := Some (map_buffer_depth (sn_max_source_buffer_depth snapshot));
  pbm_source_buffer_depth := Some (map_queue_depth_stats (sn_source_buffer_depth snapshot));
  pbm_current_playout_buffer_depth := Some (map_buffer_depth (sn_current_playout_buffer_depth snapshot));
  pbm_min_playout_buffer_depth := Some (map_buffer_depth (sn_min_playout_buffer_depth snapshot));
  pbm_max_playout_buffer_depth := Some (map_buffer_depth (sn_max_playout_buffer_depth snapshot));
  pbm_egress_buffer_target_ms := sn_egress_buffer_target_ms snapshot;
  pbm_current_egress_buffer_depth := Some (map_buffer_depth (sn_current_egress_buffer_depth snapshot));
  pbm_min_egress_buffer_depth := Some (map_buffer_depth (sn_min_egress_buffer_depth snapshot));
  pbm_max_egress_buffer_depth := Some (map_buffer_depth (sn_max_egress_buffer_depth snapshot));
  pbm_prepared_rtp_queue_depth_ms := sn_prepared_rtp_queue_depth_ms snapshot;
  pbm_prepared_track_queue_target_ms := sn_prepared_track_queue_target_ms snapshot;
  pbm_prepared_track_queue_low_watermark_ms := sn_prepared_track_queue_low_watermark_ms snapshot;
  pbm_prepared_track_queue_high_watermark_ms := sn_prepared_track_queue_high_watermark_ms snapshot;
  pbm_active_pre_pause_prepared_track_queue_depth := Some (map_queue_depth_stats (sn_active_pre_pause_prepared_track_queue_depth snapshot));
  pbm_active_post_resume_prepared_track_queue_depth := Some (map_queue_depth_stats (sn_active_post_resume_prepared_track_queue_depth snapshot));
  pbm_prepared_track_queue_depth_sample_count := usize_to_u64 (sn_prepared_track_queue_depth_sample_count snapshot);
  pbm_prepared_track_queue_empty_count := sn_prepared_track_queue_empty_count snapshot;
  pbm_raw_send_events := map map_raw_send_event (sn_raw_send_events snapshot);
  pbm_raw_prepared_track_queue_samples := map map_raw_prepared_track_queue_sample (sn_raw_prepared_track_queue_samples snapshot);
  pbm_raw_prepared_playout_queue_events := map map_raw_prepared_playout_queue_event (sn_raw_prepared_playout_queue_events snapshot);
  pbm_current_scheduled_silence_queue_depth := Some (map_buffer_depth (sn_current_scheduled_silence_queue_depth snapshot));
  pbm_max_scheduled_silence_queue_depth := Some (map_buffer_depth (sn_max_scheduled_silence_queue_depth snapshot));
  pbm_current_boundary_queue_depth := Some (map_buffer_depth (sn_current_boundary_queue_depth snapshot));
  pbm_max_boundary_queue_depth := Some (map_buffer_depth (sn_max_boundary_queue_depth snapshot));
  pbm_prepared_track_packet_drop_count := sn_prepared_track_packet_drop_count snapshot;
  pbm_prepared_silence_packet_drop_count := sn_prepared_silence_packet_drop_count snapshot;
  pbm_prepared_packet_rebuild_count := sn_prepared_packet_rebuild_count snapshot;
  pbm_scheduled_silence_packet_count := sn_scheduled_silence_packet_count snapshot;
  pbm_pause_media_boundary_count := sn_pause_media_boundary_count snapshot;
  pbm_stop_media_boundary_count := sn_stop_media_boundary_count snapshot;
  pbm_recovery_media_boundary_count := sn_recovery_media_boundary_count snapshot;
  pbm_natural_end_media_boundary_count := sn_natural_end_media_boundary_count snapshot;
  pbm_dave_transition_recovery_reached_builder_count := sn_dave_transition_recovery_reached_builder_count snapshot;
  pbm_dave_transition_recovery_reached_deadline_sender_count := sn_dave_transition_recovery_reached_deadline_sender_count snapshot;
  pbm_source_underrun_reached_builder_count := sn_source_underrun_reached_builder_count snapshot;
  pbm_source_underrun_reached_deadline_sender_count := sn_source_underrun_reached_deadline_sender_count snapshot;
  pbm_discarded_source_frame_count := sn_discarded_source_frame_count snapshot;
  pbm_discarded_source_duration_ms := sn_discarded_source_duration_ms snapshot;
  pbm_discarded_source_duration_samples := sn_discarded_source_duration_samples snapshot;
  pbm_stop_discarded_source_frame_count := sn_stop_discarded_source_frame_count snapshot;
  pbm_stop_discarded_source_duration_ms := sn_stop_discarded_source_duration_ms snapshot;
  pbm_stop_discarded_source_duration_samples := sn_stop_discarded_source_duration_samples snapshot;
  pbm_interruption_discarded_source_frame_count := sn_interruption_discarded_source_frame_count snapshot;
  pbm_interruption_discarded_source_duration_ms := sn_interruption_discarded_source_duration_ms snapshot;
  pbm_interruption_discarded_source_duration_samples := sn_interruption_discarded_source_duration_samples snapshot;
  pbm_restored_source_frame_count := sn_restored_source_frame_count snapshot;
  pbm_restored_source_duration_ms := sn_restored_source_duration_ms snapshot;
  pbm_restored_source_duration_samples := sn_restored_source_duration_samples snapshot;
  pbm_source_buffer_target_ms := sn_source_buffer_target_ms snapshot;
  pbm_adaptive_buffer_target_ms := sn_adaptive_buffer_target_ms snapshot;
  pbm_max_adaptive_buffer_target_ms := sn_max_adaptive_buffer_target_ms snapshot;
  pbm_buffer_low_watermark_count := sn_buffer_low_watermark_count snapshot;
  pbm_source_buffer_low_watermark_count := sn_source_buffer_low_watermark_count snapshot;
  pbm_playout_buffer_low_watermark_count := sn_playout_buffer_low_watermark_count snapshot;
  pbm_buffer_underrun_count := sn_buffer_underrun_count snapshot;
  pbm_playout_underrun_count := sn_playout_underrun_count snapshot;
  pbm_egress_underrun_count := sn_egress_underrun_count snapshot;
  pbm_egress_inserted_silence_duration_ms := sn_egress_inserted_silence_duration_ms snapshot;
  pbm_egress_dropped_music_frame_count := sn_egress_dropped_music_frame_count snapshot;
  pbm_egress_dropped_music_duration_ms := sn_egress_dropped_music_duration_ms snapshot;
  pbm_egress_dropped_music_duration_samples := sn_egress_dropped_music_duration_samples snapshot;
  pbm_rebuffer_count := sn_rebuffer_count snapshot;
  pbm_refill_duration := Some (map_duration_stats (sn_refill_duration snapshot));
  pbm_producer_stall_duration := Some (map_duration_stats (sn_producer_stall_duration snapshot));
  pbm_max_producer_lag_ms := sn_max_producer_lag_ms snapshot;
  pbm_http_retry_count := sn_http_retry_count snapshot;
  pbm_response_open_count := sn_response_open_count snapshot;
  pbm_range_reopen_count := sn_range_reopen_count snapshot;
  pbm_read_error_reopen_count := sn_read_error_reopen_count snapshot;
  pbm_url_reresolve_count := sn_url_reresolve_count snapshot;
  pbm_pause_resume_first_intervals_ms := sn_pause_resume_first_intervals_ms snapshot;
  pbm_post_stall_first_intervals_ms := sn_post_stall_first_intervals_ms snapshot;
  pbm_post_rebuffer_first_intervals_ms := sn_post_rebuffer_first_intervals_ms snapshot;
  pbm_playout_sender_lateness := Some (map_duration_stats (sn_playout_sender_lateness snapshot));
  pbm_max_consecutive_playout_late_packets := usize_to_u64 (sn_max_consecutive_playout_late_packets snapshot);
  pbm_max_consecutive_late_egress_ticks := usize_to_u64 (sn_max_consecutive_late_egress_ticks snapshot);
  pbm_speaking_prepare_duration := Some (map_duration_stats (sn_speaking_prepare_duration snapshot));
  pbm_source_underrun_count := sn_source_underrun_count snapshot;
  pbm_source_producer_fill_duration := Some (map_duration_stats (sn_source_producer_fill_duration snapshot));
  pbm_playout_builder_prepare_duration := Some (map_duration_stats (sn_playout_builder_prepare_duration snapshot));
  pbm_sender_send_duration := Some (map_duration_stats (sn_sender_send_duration snapshot));
  pbm_sender_loop_non_send_work_duration := Some (map_duration_stats (sn_sender_loop_non_send_work_duration snapshot));
  pbm_sender_forbidden_work_count := sn_sender_forbidden_work_count snapshot;
  pbm_gateway_event_drain_duration := Some (map_duration_stats (sn_gateway_event_drain_duration snapshot));
  pbm_gateway_event_drain_count := sn_gateway_event_drain_count snapshot;
  pbm_dave_transition_count := sn_dave_transition_count snapshot;
  pbm_dave_transition_count_during_playback := sn_dave_transition_count_during_playback snapshot;
  pbm_stale_dave_send_prevented_count := sn_stale_dave_send_prevented_count snapshot;
  pbm_controlled_media_interruption_count := sn_controlled_media_interruption_count snapshot;
  pbm_media_clock_reset_count := sn_media_clock_reset_count snapshot;
  pbm_egress_clock_reset_count := sn_egress_clock_reset_count snapshot;
  pbm_scheduler_late_reset_count := sn_scheduler_late_reset_count snapshot;
  pbm_source_underrun_reset_count := sn_source_underrun_reset_count snapshot;
  pbm_pause_resume_reset_count := sn_pause_resume_reset_count snapshot;
  pbm_dave_transition_recovery_reset_count := sn_dave_transition_recovery_reset_count snapshot;
  pbm_gateway_interruptions := sn_gateway_interruptions snapshot;
  pbm_dave_interruptions := sn_dave_interruptions snapshot;
  pbm_reconnect_interruptions := sn_reconnect_interruptions snapshot;
  pbm_ended := sn_ended snapshot;
|}.
Definition map_playback_stability_snapshot (snapshot : option PlaybackStabilitySnapshot)
    : ProtoPlaybackStabilitySnapshot :=
  match snapshot with
  | None => ProtoPlaybackStabilitySnapshot_default
  | Some snapshot => map_published_snapshot snapshot
  end.

(** ** The client *)

Definition non_empty (value : string) : option string :=
  if bool_decide (value = EmptyString) then None else Some value.
Definition non_zero (value : Z) : option Z := if value =? 0 then None else Some value.

Inductive TwPlaybackSendCommandKind : Type :=
| TC_Track | TC_ScheduledSilence | TC_BoundarySilence | TC_OtherBoundary | TC_Unspecified.
Definition TC_from_raw (value : Z) : TwPlaybackSendCommandKind :=
  match CK_try_from value with
  | Some CK_Track => TC_Track
  | Some CK_ScheduledSilence => TC_ScheduledSilence
  | Some CK_BoundarySilence => TC_BoundarySilence
  | Some CK_OtherBoundary => TC_OtherBoundary
  | Some CK_Unspecified | None => TC_Unspecified
  end.
Inductive TwPreparedTrackQueueSamplePhase : Type :=
| TP_ActivePrePause | TP_ActivePostResume | TP_Unspecified.
Definition TP_from_raw (value : Z) : TwPreparedTrackQueueSamplePhase :=
  match PH_try_from value with
  | Some PH_ActivePrePause => TP_ActivePrePause
  | Some PH_ActivePostResume => TP_ActivePostResume
  | Some PH_Unspecified | None => TP_Unspecified
  end.
Inductive TwPreparedPlayoutQueueEventKind : Type :=
| TQK_Enqueued | TQK_DequeuedToDeadlineSender | TQK_DroppedBeforeSend | TQK_Rebuilt | TQK_Unspecified.
Definition TQK_from_raw (value : Z) : TwPreparedPlayoutQueueEventKind :=
  match QK_try_from value with
  | Some QK_Enqueued => TQK_Enqueued
  | Some QK_DequeuedToDeadlineSender => TQK_DequeuedToDeadlineSender
  | Some QK_DroppedBeforeSend => TQK_DroppedBeforeSend
  | Some QK_Rebuilt => TQK_Rebuilt
  | Some QK_Unspecified | None => TQK_Unspecified
  end.
Inductive TwPreparedPlayoutQueueEventReason : Type :=
| TQR_SteadyPlayback | TQR_Pause | TQR_Stop | TQR_DaveTransitionRecovery | TQR_Reconnect | TQR_SourceUnderrun | TQR_NaturalEnd | TQR_Interruption | TQR_Unspecified.
Definition TQR_from_raw (value : Z) : TwPreparedPlayoutQueueEventReason :=
  match QR_try_from value with
  | Some QR_SteadyPlayback => TQR_SteadyPlayback
  | Some QR_Pause => TQR_Pause
  | Some QR_Stop => TQR_Stop
  | Some QR_DaveTransitionRecovery => TQR_DaveTransitionRecovery
  | Some QR_Reconnect => TQR_Reconnect
  | Some QR_SourceUnderrun => TQR_SourceUnderrun
  | Some QR_NaturalEnd => TQR_NaturalEnd
  | Some QR_Interruption => TQR_Interruption
  | Some QR_Unspecified | None => TQR_Unspecified
  end.

Record TwDurationStatsSnapshot : Type := mkTwDurationStatsSnapshot {
  twd_samples : Z;
  twd_p50_ms : Z;
  twd_p95_ms : Z;
  twd_p99_ms : Z;
  twd_min_ms : Z;
  twd_max_ms : Z;
}.
Definition TwDurationStatsSnapshot_from (value : ProtoDurationStatsSnapshot) : TwDurationStatsSnapshot := {|
  twd_samples := pbd_samples value;
  twd_p50_ms := pbd_p50_ms value;
  twd_p95_ms := pbd_p95_ms value;
  twd_p99_ms := pbd_p99_ms value;
  twd_min_ms := pbd_min_ms value;
  twd_max_ms := pbd_max_ms value;
|}.
Record TwPlaybackBufferDepthSnapshot : Type := mkTwPlaybackBufferDepthSnapshot {
  twb_packets : Z;
  twb_bytes : Z;
  twb_duration_ms : Z;
  twb_duration_samples : Z;
}.
Definition TwPlaybackBufferDepthSnapshot_from (value : ProtoPlaybackBufferDepthSnapshot) : TwPlaybackBufferDepthSnapshot := {|
  twb_packets := pbb_packets value;
  twb_bytes := pbb_bytes value;
  twb_duration_ms := pbb_duration_ms value;
  twb_duration_samples := pbb_duration_samples value;
|}.
Record TwPlaybackQueueDepthStatsSnapshot : Type := mkTwPlaybackQueueDepthStatsSnapshot {
  twq_sample_count : Z;
  twq_empty_count : Z;
  twq_current_depth : TwPlaybackBufferDepthSnapshot;
  twq_min_depth : TwPlaybackBufferDepthSnapshot;
  twq_p5_depth : TwPlaybackBufferDepthSnapshot;
  twq_p50_depth : TwPlaybackBufferDepthSnapshot;
  twq_p95_depth : TwPlaybackBufferDepthSnapshot;
  twq_max_depth : TwPlaybackBufferDepthSnapshot;
}.
Definition TwPlaybackQueueDepthStatsSnapshot_from (value : ProtoPlaybackQueueDepthStatsSnapshot) : TwPlaybackQueueDepthStatsSnapshot := {|
  twq_sample_count := pbq_sample_count value;
  twq_empty_count := pbq_empty_count value;
  twq_current_depth := TwPlaybackBufferDepthSnapshot_from (default ProtoPlaybackBufferDepthSnapshot_default (pbq_current_depth value));
  twq_min_depth := TwPlaybackBufferDepthSnapshot_from (default ProtoPlaybackBufferDepthSnapshot_default (pbq_min_depth value));
  twq_p5_depth := TwPlaybackBufferDepthSnapshot_from (default ProtoPlaybackBufferDepthSnapshot_default (pbq_p5_depth value));
  twq_p50_depth := TwPlaybackBufferDepthSnapshot_from (default ProtoPlaybackBufferDepthSnapshot_default (pbq_p50_depth value));
  twq_p95_depth := TwPlaybackBufferDepthSnapshot_from (default ProtoPlaybackBufferDepthSnapshot_default (pbq_p95_depth value));
  twq_max_depth := TwPlaybackBufferDepthSnapshot_from (default ProtoPlaybackBufferDepthSnapshot_default (pbq_max_depth value));
|}.
Record TwPlaybackSendEventSnapshot : Type := mkTwPlaybackSendEventSnapshot {
  twe_packet_index : Z;
  twe_command_kind : TwPlaybackSendCommandKind;
  twe_expected_deadline_offset_us : Z;
  twe_send_started_offset_us : Z;
  twe_sent_offset_us : Z;
  twe_media_duration_ms : Z;
  twe_media_duration_samples : Z;
  twe_rtp_sequence : Z;
  twe_rtp_timestamp : Z;
  twe_protection_nonce : option Z;
  twe_source_frame_epoch : option Z;
  twe_source_media_position_ms : option Z;
  twe_source_media_position_samples : option Z;
  twe_source_media_byte_position : option Z;
  twe_committed_heard_media : bool;
}.
Definition TwPlaybackSendEventSnapshot_from (value : ProtoPlaybackSendEventSnapshot) : TwPlaybackSendEventSnapshot := {|
  twe_packet_index := pbe_packet_index value;
  twe_command_kind := TC_from_raw (pbe_command_kind value);
  twe_expected_deadline_offset_us := pbe_expected_deadline_offset_us value;
  twe_send_started_offset_us := pbe_send_started_offset_us value;
  twe_sent_offset_us := pbe_sent_offset_us value;
  twe_media_duration_ms := pbe_media_duration_ms value;
  twe_media_duration_samples := pbe_media_duration_samples value;
  twe_rtp_sequence := pbe_rtp_sequence value;
  twe_rtp_timestamp := pbe_rtp_timestamp value;
  twe_protection_nonce := pbe_protection_nonce value;
  twe_source_frame_epoch := pbe_source_frame_epoch value;
  twe_source_media_position_ms := pbe_source_media_position_ms value;
  twe_source_media_position_samples := pbe_source_media_position_samples value;
  twe_source_media_byte_position := pbe_source_media_byte_position value;
  twe_committed_heard_media := pbe_committed_heard_media value;
|}.
Record TwPreparedTrackQueueDepthSampleSnapshot : Type := mkTwPreparedTrackQueueDepthSampleSnapshot {
  tws_sample_index : Z;
  tws_phase : TwPreparedTrackQueueSamplePhase;
  tws_depth : TwPlaybackBufferDepthSnapshot;
}.
Definition TwPreparedTrackQueueDepthSampleSnapshot_from (value : ProtoPreparedTrackQueueDepthSampleSnapshot) : TwPreparedTrackQueueDepthSampleSnapshot := {|
  tws_sample_index := pbs_sample_index value;
  tws_phase := TP_from_raw (pbs_phase value);
  tws_depth := TwPlaybackBufferDepthSnapshot_from (default ProtoPlaybackBufferDepthSnapshot_default (pbs_depth value));
|}.
Record TwPreparedPlayoutQueueEventSnapshot : Type := mkTwPreparedPlayoutQueueEventSnapshot {
  twp_event_index : Z;
  twp_event_kind : TwPreparedPlayoutQueueEventKind;
  twp_reason : TwPreparedPlayoutQueueEventReason;
  twp_command_kind : TwPlaybackSendCommandKind;
  twp_media_duration_ms : Z;
  twp_media_duration_samples : Z;
  twp_rtp_sequence : Z;
  twp_rtp_timestamp : Z;
  twp_protection_nonce : option Z;
  twp_source_frame_epoch : option Z;
  twp_source_media_position_ms : option Z;
  twp_source_media_position_samples : option Z;
  twp_source_media_byte_position : option Z;
  twp_queue_depth_after : TwPlaybackBufferDepthSnapshot;
}.
Definition TwPreparedPlayoutQueueEventSnapshot_from (value : ProtoPreparedPlayoutQueueEventSnapshot) : TwPreparedPlayoutQueueEventSnapshot := {|
  twp_event_index := pbp_event_index value;
  twp_event_kind := TQK_from_raw (pbp_event_kind value);
  twp_reason := TQR_from_raw (pbp_reason value);
  twp_command_kind := TC_from_raw (pbp_command_kind value);
  twp_media_duration_ms := pbp_media_duration_ms value;
  twp_media_duration_samples := pbp_media_duration_samples value;
  twp_rtp_sequence := pbp_rtp_sequence value;
  twp_rtp_timestamp := pbp_rtp_timestamp value;
  twp_protection_nonce := pbp_protection_nonce value;
  twp_source_frame_epoch := pbp_source_frame_epoch value;
  twp_source_media_position_ms := pbp_source_media_position_ms value;
  twp_source_media_position_samples := pbp_source_media_position_samples value;
  twp_source_media_byte_position := pbp_source_media_byte_position value;
  twp_queue_depth_after := TwPlaybackBufferDepthSnapshot_from (default ProtoPlaybackBufferDepthSnapshot_default (pbp_queue_depth_after value));
|}.
Record TwPlaybackStabilitySnapshot : Type := mkTwPlaybackStabilitySnapshot {
  twm_available : bool;
  twm_playback_epoch : Z;
  twm_video_id : option string;
  twm_selected_itag : option Z;
  twm_track_packet_count : Z;
  twm_continuity_silence_packet_count : Z;
  twm_inserted_silence_duration_ms : Z;
  twm_track_interval : TwDurationStatsSnapshot;
  twm_track_media_duration_sent_ms : Z;
  twm_track_wall_clock_elapsed_ms : Z;
  twm_track_media_to_wall_clock_ratio_ppm : Z;
  twm_track_fast_interval_count : Z;
  twm_track_fast_interval_min_ms : Z;
  twm_track_fast_interval_min_us : Z;
  twm_track_tempo_window_count : Z;
  twm_track_tempo_window_post_source_buffer_count : Z;
  twm_track_tempo_window_min_ratio_ppm : Z;
  twm_track_tempo_window_max_ratio_ppm : Z;
  twm_track_tempo_window_fast_count : Z;
  twm_track_tempo_window_fastest_ratio_ppm : Z;
  twm_track_tempo_window_fastest_media_ms : Z;
  twm_track_tempo_window_fastest_wall_clock_us : Z;
  twm_track_tempo_window_slow_count : Z;
  twm_track_tempo_window_slowest_ratio_ppm : Z;
  twm_track_tempo_window_slowest_media_ms : Z;
  twm_track_tempo_window_slowest_wall_clock_us : Z;
  twm_skipped_source_frame_count : Z;
  twm_skipped_source_duration_ms : Z;
  twm_skipped_source_duration_samples : Z;
  twm_tempo_rebase_count : Z;
  twm_expected_track_frame_count : Z;
  twm_sent_track_frame_count : Z;
  twm_silence_frame_count : Z;
  twm_frame_deficit_count : Z;
  twm_dropped_frame_count : Z;
  twm_late_frame_count : Z;
  twm_all_packet_interval : TwDurationStatsSnapshot;
  twm_sender_lateness : TwDurationStatsSnapshot;
  twm_max_consecutive_late_packets : Z;
  twm_current_consecutive_late_packets : Z;
  twm_current_buffer_depth : TwPlaybackBufferDepthSnapshot;
  twm_min_buffer_depth : TwPlaybackBufferDepthSnapshot;
  twm_max_buffer_depth : TwPlaybackBufferDepthSnapshot;
  twm_current_source_buffer_depth : TwPlaybackBufferDepthSnapshot;
  twm_min_source_buffer_depth : TwPlaybackBufferDepthSnapshot;
  twm_max_source_buffer_depth : TwPlaybackBufferDepthSnapshot;
  twm_source_buffer_depth : option TwPlaybackQueueDepthStatsSnapshot;
  twm_current_playout_buffer_depth : TwPlaybackBufferDepthSnapshot;
  twm_min_playout_buffer_depth : TwPlaybackBufferDepthSnapshot;
  twm_max_playout_buffer_depth : TwPlaybackBufferDepthSnapshot;
  twm_egress_buffer_target_ms : Z;
  twm_current_egress_buffer_depth : TwPlaybackBufferDepthSnapshot;
  twm_min_egress_buffer_depth : TwPlaybackBufferDepthSnapshot;
  twm_max_egress_buffer_depth : TwPlaybackBufferDepthSnapshot;
  twm_prepared_rtp_queue_depth_ms : Z;
  twm_prepared_track_queue_target_ms : Z;
  twm_prepared_track_queue_low_watermark_ms : Z;
  twm_prepared_track_queue_high_watermark_ms : Z;
  twm_active_pre_pause_prepared_track_queue_depth : option TwPlaybackQueueDepthStatsSnapshot;
  twm_active_post_resume_prepared_track_queue_depth : option TwPlaybackQueueDepthStatsSnapshot;
  twm_prepared_track_queue_depth_sample_count : Z;
  twm_prepared_track_queue_empty_count : Z;
  twm_raw_send_events : list TwPlaybackSendEventSnapshot;
  twm_raw_prepared_track_queue_samples : list TwPreparedTrackQueueDepthSampleSnapshot;
  twm_raw_prepared_playout_queue_events : list TwPreparedPlayoutQueueEventSnapshot;
  twm_current_scheduled_silence_queue_depth : TwPlaybackBufferDepthSnapshot;
  twm_max_scheduled_silence_queue_depth : TwPlaybackBufferDepthSnapshot;
  twm_current_boundary_queue_depth : TwPlaybackBufferDepthSnapshot;
  twm_max_boundary_queue_depth : TwPlaybackBufferDepthSnapshot;
  twm_prepared_track_packet_drop_count : Z;
  twm_prepared_silence_packet_drop_count : Z;
  twm_prepared_packet_rebuild_count : Z;
  twm_scheduled_silence_packet_count : Z;
  twm_pause_media_boundary_count : Z;
  twm_stop_media_boundary_count : Z;
  twm_recovery_media_boundary_count : Z;
  twm_natural_end_media_boundary_count : Z;
  twm_dave_transition_recovery_reached_builder_count : Z;
  twm_dave_transition_recovery_reached_deadline_sender_count : Z;
  twm_source_underrun_reached_builder_count : Z;
  twm_source_underrun_reached_deadline_sender_count : Z;
  twm_discarded_source_frame_count : Z;
  twm_discarded_source_duration_ms : Z;
  twm_discarded_source_duration_samples : Z;
  twm_stop_discarded_source_frame_count : Z;
  twm_stop_discarded_source_duration_ms : Z;
  twm_stop_discarded_source_duration_samples : Z;
  twm_interruption_discarded_source_frame_count : Z;
  twm_interruption_discarded_source_duration_ms : Z;
  twm_interruption_discarded_source_duration_samples : Z;
  twm_restored_source_frame_count : Z;
  twm_restored_source_duration_ms : Z;
  twm_restored_source_duration_samples : Z;
  twm_source_buffer_target_ms : Z;
  twm_adaptive_buffer_target_ms : Z;
  twm_max_adaptive_buffer_target_ms : Z;
  twm_buffer_low_watermark_count : Z;
  twm_source_buffer_low_watermark_count : Z;
  twm_playout_buffer_low_watermark_count : Z;
  twm_buffer_underrun_count : Z;
  twm_playout_underrun_count : Z;
  twm_egress_underrun_count : Z;
  twm_egress_inserted_silence_duration_ms : Z;
  twm_egress_dropped_music_frame_count : Z;
  twm_egress_dropped_music_duration_ms : Z;
  twm_egress_dropped_music_duration_samples : Z;
  twm_source_underrun_count : Z;
  twm_rebuffer_count : Z;
  twm_refill_duration : TwDurationStatsSnapshot;
  twm_source_producer_fill_duration : TwDurationStatsSnapshot;
  twm_producer_stall_duration : TwDurationStatsSnapshot;
  twm_max_producer_lag_ms : Z;
  twm_http_retry_count : Z;
  twm_response_open_count : Z;
  twm_range_reopen_count : Z;
  twm_read_error_reopen_count : Z;
  twm_url_reresolve_count : Z;
  twm_pause_resume_first_intervals_ms : list Z;
  twm_post_stall_first_intervals_ms : list Z;
  twm_post_rebuffer_first_intervals_ms : list Z;
  twm_playout_sender_lateness : TwDurationStatsSnapshot;
  twm_playout_builder_prepare_duration : TwDurationStatsSnapshot;
  twm_sender_send_duration : TwDurationStatsSnapshot;
  twm_sender_loop_non_send_work_duration : TwDurationStatsSnapshot;
  twm_max_consecutive_playout_late_packets : Z;
  twm_max_consecutive_late_egress_ticks : Z;
  twm_speaking_prepare_duration : TwDurationStatsSnapshot;
  twm_sender_forbidden_work_count : Z;
  twm_gateway_event_drain_duration : TwDurationStatsSnapshot;
  twm_gateway_event_drain_count : Z;
  twm_dave_transition_count : Z;
  twm_dave_transition_count_during_playback : Z;
  twm_stale_dave_send_prevented_count : Z;
  twm_controlled_media_interruption_count : Z;
  twm_media_clock_reset_count : Z;
  twm_egress_clock_reset_count : Z;
  twm_scheduler_late_reset_count : Z;
  twm_source_underrun_reset_count : Z;
  twm_pause_resume_reset_count : Z;
  twm_dave_transition_recovery_reset_count : Z;
  twm_gateway_interruptions : Z;
  twm_dave_interruptions : Z;
  twm_reconnect_interruptions : Z;
  twm_ended : bool;
}.
Definition TwPlaybackStabilitySnapshot_from (value : ProtoPlaybackStabilitySnapshot) : TwPlaybackStabilitySnapshot := {|
  twm_available := pbm_available value;
  twm_playback_epoch := pbm_playback_epoch value;
  twm_video_id := non_empty (pbm_video_id value);
  twm_selected_itag := non_zero (pbm_selected_itag value);
  twm_track_packet_count := pbm_track_packet_count value;
  twm_continuity_silence_packet_count := pbm_continuity_silence_packet_count value;
  twm_inserted_silence_duration_ms := pbm_inserted_silence_duration_ms value;
  twm_track_interval := TwDurationStatsSnapshot_from (default ProtoDurationStatsSnapshot_default (pbm_track_interval value));
  twm_track_media_duration_sent_ms := pbm_track_media_duration_sent_ms value;
  twm_track_wall_clock_elapsed_ms := pbm_track_wall_clock_elapsed_ms value;
  twm_track_media_to_wall_clock_ratio_ppm := pbm_track_media_to_wall_clock_ratio_ppm value;
  twm_track_fast_interval_count := pbm_track_fast_interval_count value;
  twm_track_fast_interval_min_ms := pbm_track_fast_interval_min_ms value;
  twm_track_fast_interval_min_us := pbm_track_fast_interval_min_us value;
  twm_track_tempo_window_count := pbm_track_tempo_window_count value;
  twm_track_tempo_window_post_source_buffer_count := pbm_track_tempo_window_post_source_buffer_count value;
  twm_track_tempo_window_min_ratio_ppm := pbm_track_tempo_window_min_ratio_ppm value;
  twm_track_tempo_window_max_ratio_ppm := pbm_track_tempo_window_max_ratio_ppm value;
  twm_track_tempo_window_fast_count := pbm_track_tempo_window_fast_count value;
  twm_track_tempo_window_fastest_ratio_ppm := pbm_track_tempo_window_fastest_ratio_ppm value;
  twm_track_tempo_window_fastest_media_ms := pbm_track_tempo_window_fastest_media_ms value;
  twm_track_tempo_window_fastest_wall_clock_us := pbm_track_tempo_window_fastest_wall_clock_us value;
  twm_track_tempo_window_slow_count := pbm_track_tempo_window_slow_count value;
  twm_track_tempo_window_slowest_ratio_ppm := pbm_track_tempo_window_slowest_ratio_ppm value;
  twm_track_tempo_window_slowest_media_ms := pbm_track_tempo_window_slowest_media_ms value;
  twm_track_tempo_window_slowest_wall_clock_us := pbm_track_tempo_window_slowest_wall_clock_us value;
  twm_skipped_source_frame_count := pbm_skipped_source_frame_count value;
  twm_skipped_source_duration_ms := pbm_skipped_source_duration_ms value;
  twm_skipped_source_duration_samples := pbm_skipped_source_duration_samples value;
  twm_tempo_rebase_count := pbm_tempo_rebase_count value;
  twm_expected_track_frame_count := pbm_expected_track_frame_count value;
  twm_sent_track_frame_count := pbm_sent_track_frame_count value;
  twm_silence_frame_count := pbm_silence_frame_count value;
  twm_frame_deficit_count := pbm_frame_deficit_count value;
  twm_dropped_frame_count := pbm_dropped_frame_count value;
  twm_late_frame_count := pbm_late_frame_count value;
  twm_all_packet_interval := TwDurationStatsSnapshot_from (default ProtoDurationStatsSnapshot_default (pbm_all_packet_interval value));
  twm_sender_lateness := TwDurationStatsSnapshot_from (default ProtoDurationStatsSnapshot_default (pbm_sender_lateness value));
  twm_max_consecutive_late_packets := pbm_max_consecutive_late_packets value;
  twm_current_consecutive_late_packets := pbm_current_consecutive_late_packets value;
  twm_current_buffer_depth := TwPlaybackBufferDepthSnapshot_from (default ProtoPlaybackBufferDepthSnapshot_default (pbm_current_buffer_depth value));
  twm_min_buffer_depth := TwPlaybackBufferDepthSnapshot_from (default ProtoPlaybackBufferDepthSnapshot_default (pbm_min_buffer_depth value));
  twm_max_buffer_depth := TwPlaybackBufferDepthSnapshot_from (default ProtoPlaybackBufferDepthSnapshot_default (pbm_max_buffer_depth value));
  twm_current_source_buffer_depth := TwPlaybackBufferDepthSnapshot_from (default ProtoPlaybackBufferDepthSnapshot_default (pbm_current_source_buffer_depth value));
  twm_min_source_buffer_depth := TwPlaybackBufferDepthSnapshot_from (default ProtoPlaybackBufferDepthSnapshot_default (pbm_min_source_buffer_depth value));
  twm_max_source_buffer_depth := TwPlaybackBufferDepthSnapshot_from (default ProtoPlaybackBufferDepthSnapshot_default (pbm_max_source_buffer_depth value));
  twm_source_buffer_depth := TwPlaybackQueueDepthStatsSnapshot_from <$> pbm_source_buffer_depth value;
  twm_current_playout_buffer_depth := TwPlaybackBufferDepthSnapshot_from (default ProtoPlaybackBufferDepthSnapshot_default (pbm_current_playout_buffer_depth value));
  twm_min_playout_buffer_depth := TwPlaybackBufferDepthSnapshot_from (default ProtoPlaybackBufferDepthSnapshot_default (pbm_min_playout_buffer_depth value));
  twm_max_playout_buffer_depth := TwPlaybackBufferDepthSnapshot_from (default ProtoPlaybackBufferDepthSnapshot_default (pbm_max_playout_buffer_depth value));
  twm_egress_buffer_target_ms := pbm_egress_buffer_target_ms value;
  twm_current_egress_buffer_depth := TwPlaybackBufferDepthSnapshot_from (default ProtoPlaybackBufferDepthSnapshot_default (pbm_current_egress_buffer_depth value));
  twm_min_egress_buffer_depth := TwPlaybackBufferDepthSnapshot_from (default ProtoPlaybackBufferDepthSnapshot_default (pbm_min_egress_buffer_depth value));
  twm_max_egress_buffer_depth := TwPlaybackBufferDepthSnapshot_from (default ProtoPlaybackBufferDepthSnapshot_default (pbm_max_egress_buffer_depth value));
  twm_prepared_rtp_queue_depth_ms := pbm_prepared_rtp_queue_depth_ms value;
  twm_prepared_track_queue_target_ms := pbm_prepared_track_queue_target_ms value;
  twm_prepared_track_queue_low_watermark_ms := pbm_prepared_track_queue_low_watermark_ms value;
  twm_prepared_track_queue_high_watermark_ms := pbm_prepared_track_queue_high_watermark_ms value;
  twm_active_pre_pause_prepared_track_queue_depth := TwPlaybackQueueDepthStatsSnapshot_from <$> pbm_active_pre_pause_prepared_track_queue_depth value;
  twm_active_post_resume_prepared_track_queue_depth := TwPlaybackQueueDepthStatsSnapshot_from <$> pbm_active_post_resume_prepared_track_queue_depth value;
  twm_prepared_track_queue_depth_sample_count := pbm_prepared_track_queue_depth_sample_count value;
  twm_prepared_track_queue_empty_count := pbm_prepared_track_queue_empty_count value;
  twm_raw_send_events := map TwPlaybackSendEventSnapshot_from (pbm_raw_send_events value);
  twm_raw_prepared_track_queue_samples := map TwPreparedTrackQueueDepthSampleSnapshot_from (pbm_raw_prepared_track_queue_samples value);
  twm_raw_prepared_playout_queue_events := map TwPreparedPlayoutQueueEventSnapshot_from (pbm_raw_prepared_playout_queue_events value);
  twm_current_scheduled_silence_queue_depth := TwPlaybackBufferDepthSnapshot_from (default ProtoPlaybackBufferDepthSnapshot_default (pbm_current_scheduled_silence_queue_depth value));
  twm_max_scheduled_silence_queue_depth := TwPlaybackBufferDepthSnapshot_from (default ProtoPlaybackBufferDepthSnapshot_default (pbm_max_scheduled_silence_queue_depth value));
  twm_current_boundary_queue_depth := TwPlaybackBufferDepthSnapshot_from (default ProtoPlaybackBufferDepthSnapshot_default (pbm_current_boundary_queue_depth value));
  twm_max_boundary_queue_depth := TwPlaybackBufferDepthSnapshot_from (default ProtoPlaybackBufferDepthSnapshot_default (pbm_max_boundary_queue_depth value));
  twm_prepared_track_packet_drop_count := pbm_prepared_track_packet_drop_count value;
  twm_prepared_silence_packet_drop_count := pbm_prepared_silence_packet_drop_count value;
  twm_prepared_packet_rebuild_count := pbm_prepared_packet_rebuild_count value;
  twm_scheduled_silence_packet_count := pbm_scheduled_silence_packet_count value;
  twm_pause_media_boundary_count := pbm_pause_media_boundary_count value;
  twm_stop_media_boundary_count := pbm_stop_media_boundary_count value;
  twm_recovery_media_boundary_count := pbm_recovery_media_boundary_count value;
  twm_natural_end_media_boundary_count := pbm_natural_end_media_boundary_count value;
  twm_dave_transition_recovery_reached_builder_count := pbm_dave_transition_recovery_reached_builder_count value;
  twm_dave_transition_recovery_reached_deadline_sender_count := pbm_dave_transition_recovery_reached_deadline_sender_count value;
  twm_source_underrun_reached_builder_count := pbm_source_underrun_reached_builder_count value;
  twm_source_underrun_reached_deadline_sender_count := pbm_source_underrun_reached_deadline_sender_count value;
  twm_discarded_source_frame_count := pbm_discarded_source_frame_count value;
  twm_discarded_source_duration_ms := pbm_discarded_source_duration_ms value;
  twm_discarded_source_duration_samples := pbm_discarded_source_duration_samples value;
  twm_stop_discarded_source_frame_count := pbm_stop_discarded_source_frame_count value;
  twm_stop_discarded_source_duration_ms := pbm_stop_discarded_source_duration_ms value;
  twm_stop_discarded_source_duration_samples := pbm_stop_discarded_source_duration_samples value;
  twm_interruption_discarded_source_frame_count := pbm_interruption_discarded_source_frame_count value;
  twm_interruption_discarded_source_duration_ms := pbm_interruption_discarded_source_duration_ms value;
  twm_interruption_discarded_source_duration_samples := pbm_interruption_discarded_source_duration_samples value;
  twm_restored_source_frame_count := pbm_restored_source_frame_count value;
  twm_restored_source_duration_ms := pbm_restored_source_duration_ms value;
  twm_restored_source_duration_samples := pbm_restored_source_duration_samples value;
  twm_source_buffer_target_ms := pbm_source_buffer_target_ms value;
  twm_adaptive_buffer_target_ms := pbm_adaptive_buffer_target_ms value;
  twm_max_adaptive_buffer_target_ms := pbm_max_adaptive_buffer_target_ms value;
  twm_buffer_low_watermark_count := pbm_buffer_low_watermark_count value;
  twm_source_buffer_low_watermark_count := pbm_source_buffer_low_watermark_count value;
  twm_playout_buffer_low_watermark_count := pbm_playout_buffer_low_watermark_count value;
  twm_buffer_underrun_count := pbm_buffer_underrun_count value;
  twm_playout_underrun_count := pbm_playout_underrun_count value;
  twm_egress_underrun_count := pbm_egress_underrun_count value;
  twm_egress_inserted_silence_duration_ms := pbm_egress_inserted_silence_duration_ms value;
  twm_egress_dropped_music_frame_count := pbm_egress_dropped_music_frame_count value;
  twm_egress_dropped_music_duration_ms := pbm_egress_dropped_music_duration_ms value;
  twm_egress_dropped_music_duration_samples := pbm_egress_dropped_music_duration_samples value;
  twm_source_underrun_count := pbm_source_underrun_count value;
  twm_rebuffer_count := pbm_rebuffer_count value;
  twm_refill_duration := TwDurationStatsSnapshot_from (default ProtoDurationStatsSnapshot_default (pbm_refill_duration value));
  twm_source_producer_fill_duration := TwDurationStatsSnapshot_from (default ProtoDurationStatsSnapshot_default (pbm_source_producer_fill_duration value));
  twm_producer_stall_duration := TwDurationStatsSnapshot_from (default ProtoDurationStatsSnapshot_default (pbm_producer_stall_duration value));
  twm_max_producer_lag_ms := pbm_max_producer_lag_ms value;
  twm_http_retry_count := pbm_http_retry_count value;
  twm_response_open_count := pbm_response_open_count value;
  twm_range_reopen_count := pbm_range_reopen_count value;
  twm_read_error_reopen_count := pbm_read_error_reopen_count value;
  twm_url_reresolve_count := pbm_url_reresolve_count value;
  twm_pause_resume_first_intervals_ms := pbm_pause_resume_first_intervals_ms value;
  twm_post_stall_first_intervals_ms := pbm_post_stall_first_intervals_ms value;
  twm_post_rebuffer_first_intervals_ms := pbm_post_rebuffer_first_intervals_ms value;
  twm_playout_sender_lateness := TwDurationStatsSnapshot_from (default ProtoDurationStatsSnapshot_default (pbm_playout_sender_lateness value));
  twm_playout_builder_prepare_duration := TwDurationStatsSnapshot_from (default ProtoDurationStatsSnapshot_default (pbm_playout_builder_prepare_duration value));
  twm_sender_send_duration := TwDurationStatsSnapshot_from (default ProtoDurationStatsSnapshot_default (pbm_sender_send_duration value));
  twm_sender_loop_non_send_work_duration := TwDurationStatsSnapshot_from (default ProtoDurationStatsSnapshot_default (pbm_sender_loop_non_send_work_duration value));
  twm_max_consecutive_playout_late_packets := pbm_max_consecutive_playout_late_packets value;
  twm_max_consecutive_late_egress_ticks := pbm_max_consecutive_late_egress_ticks value;
  twm_speaking_prepare_duration := TwDurationStatsSnapshot_from (default ProtoDurationStatsSnapshot_default (pbm_speaking_prepare_duration value));
  twm_sender_forbidden_work_count := pbm_sender_forbidden_work_count value;
  twm_gateway_event_drain_duration := TwDurationStatsSnapshot_from (default ProtoDurationStatsSnapshot_default (pbm_gateway_event_drain_duration value));
  twm_gateway_event_drain_count := pbm_gateway_event_drain_count value;
  twm_dave_transition_count := pbm_dave_transition_count value;
  twm_dave_transition_count_during_playback := pbm_dave_transition_count_during_playback value;
  twm_stale_dave_send_prevented_count := pbm_stale_dave_send_prevented_count value;
  twm_controlled_media_interruption_count := pbm_controlled_media_interruption_count value;
  twm_media_clock_reset_count := pbm_media_clock_reset_count value;
  twm_egress_clock_reset_count := pbm_egress_clock_reset_count value;
  twm_scheduler_late_reset_count := pbm_scheduler_late_reset_count value;
  twm_source_underrun_reset_count := pbm_source_underrun_reset_count value;
  twm_pause_resume_reset_count := pbm_pause_resume_reset_count value;
  twm_dave_transition_recovery_reset_count := pbm_dave_transition_recovery_reset_count value;
  twm_gateway_interruptions := pbm_gateway_interruptions value;
  twm_dave_interruptions := pbm_dave_interruptions value;
  twm_reconnect_interruptions := pbm_reconnect_interruptions value;
  twm_ended := pbm_ended value;
|}.

(** ** Reading the client's snapshot back *)

(** What the service never sends is read as an arbitrary value. *)
Definition read_command_kind (x : TwPlaybackSendCommandKind) : PlaybackSendCommandKind :=
  match x with
  | TC_Track => CTrack
  | TC_ScheduledSilence => CScheduledSilence
  | TC_BoundarySilence => CBoundarySilence
  | TC_OtherBoundary => COtherBoundary
  | TC_Unspecified => COtherBoundary
  end.
Definition read_phase (x : TwPreparedTrackQueueSamplePhase) : PreparedTrackQueueSamplePhase :=
  match x with
  | TP_ActivePrePause => ActivePrePause
  | TP_ActivePostResume => ActivePostResume
  | TP_Unspecified => ActivePrePause
  end.
Definition read_event_kind (x : TwPreparedPlayoutQueueEventKind) : PreparedPlayoutQueueEventKind :=
  match x with
  | TQK_Enqueued => Enqueued
  | TQK_DequeuedToDeadlineSender => DequeuedToDeadlineSender
  | TQK_DroppedBeforeSend => DroppedBeforeSend
  | TQK_Rebuilt => Rebuilt
  | TQK_Unspecified => Unknown
  end.
Definition read_event_reason (x : TwPreparedPlayoutQueueEventReason) : PreparedPlayoutQueueEventReason :=
  match x with
  | TQR_SteadyPlayback => SteadyPlayback
  | TQR_Pause => Pause
  | TQR_Stop => Stop
  | TQR_DaveTransitionRecovery => DaveTransitionRecovery
  | TQR_Reconnect => Reconnect
  | TQR_SourceUnderrun => SourceUnderrun
  | TQR_NaturalEnd => NaturalEnd
  | TQR_Interruption => Interruption
  | TQR_Unspecified => Unspecified
  end.

Definition read_duration_stats (x : TwDurationStatsSnapshot) : DurationStatsSnapshot := {|
  st_samples := twd_samples x;
  st_p50_ms := twd_p50_ms x;
  st_p95_ms := twd_p95_ms x;
  st_p99_ms := twd_p99_ms x;
  st_min_ms := twd_min_ms x;
  st_max_ms := twd_max_ms x;
|}.
Definition read_depth (x : TwPlaybackBufferDepthSnapshot) : OpusBufferDepth := {|
  bd_packets := twb_packets x;
  bd_bytes := twb_bytes x;
  bd_duration_ms := twb_duration_ms x;
  bd_duration_samples := twb_duration_samples x;
|}.
Definition read_queue_stats (x : TwPlaybackQueueDepthStatsSnapshot) : PlaybackQueueDepthStatsSnapshot := {|
  qs_sample_count := twq_sample_count x;
  qs_empty_count := twq_empty_count x;
  qs_current_depth := read_depth (twq_current_depth x);
  qs_min_depth := read_depth (twq_min_depth x);
  qs_p5_depth := read_depth (twq_p5_depth x);
  qs_p50_depth := read_depth (twq_p50_depth x);
  qs_p95_depth := read_depth (twq_p95_depth x);
  qs_max_depth := read_depth (twq_max_depth x);
|}.
Definition read_send_event (x : TwPlaybackSendEventSnapshot) : PlaybackSendEventSnapshot := {|
  se_packet_index := twe_packet_index x;
  se_command_kind := read_command_kind (twe_command_kind x);
  se_expected_deadline_offset_us := twe_expected_deadline_offset_us x;
  se_send_started_offset_us := twe_send_started_offset_us x;
  se_sent_offset_us := twe_sent_offset_us x;
  se_media_duration_ms := twe_media_duration_ms x;
  se_media_duration_samples := twe_media_duration_samples x;
  se_rtp_sequence := twe_rtp_sequence x;
  se_rtp_timestamp := twe_rtp_timestamp x;
  se_protection_nonce := twe_protection_nonce x;
  se_source_frame_epoch := twe_source_frame_epoch x;
  se_source_media_position_ms := twe_source_media_position_ms x;
  se_source_media_position_samples := twe_source_media_position_samples x;
  se_source_media_byte_position := twe_source_media_byte_position x;
  se_committed_heard_media := twe_committed_heard_media x;
|}.
Definition read_queue_sample (x : TwPreparedTrackQueueDepthSampleSnapshot) : PreparedTrackQueueDepthSampleSnapshot := {|
  qd_sample_index := tws_sample_index x;
  qd_phase := read_phase (tws_phase x);
  qd_depth := read_depth (tws_depth x);
|}.
Definition read_playout_event (x : TwPreparedPlayoutQueueEventSnapshot) : PreparedPlayoutQueueEventSnapshot := {|
  ev_event_index := twp_event_index x;
  ev_event_kind := read_event_kind (twp_event_kind x);
  ev_reason := read_event_reason (twp_reason x);
  ev_command_kind := read_command_kind (twp_command_kind x);
  ev_media_duration_ms := twp_media_duration_ms x;
  ev_media_duration_samples := twp_media_duration_samples x;
  ev_rtp_sequence := twp_rtp_sequence x;
  ev_rtp_timestamp := twp_rtp_timestamp x;
  ev_protection_nonce := twp_protection_nonce x;
  ev_source_frame_epoch := twp_source_frame_epoch x;
  ev_source_media_position_ms := twp_source_media_position_ms x;
  ev_source_media_position_samples := twp_source_media_position_samples x;
  ev_source_media_byte_position := twp_source_media_byte_position x;
  ev_queue_depth_after := read_depth (twp_queue_depth_after x);
|}.
Definition read_snapshot (x : TwPlaybackStabilitySnapshot) : PlaybackStabilitySnapshot := {|
  sn_playback_epoch := twm_playback_epoch x;
  sn_video_id := twm_video_id x;
  sn_selected_itag := twm_selected_itag x;
  sn_track_packet_count := twm_track_packet_count x;
  sn_continuity_silence_packet_count := twm_continuity_silence_packet_count x;
  sn_inserted_silence_duration_ms := twm_inserted_silence_duration_ms x;
  sn_track_interval := read_duration_stats (twm_track_interval x);
  sn_track_media_duration_sent_ms := twm_track_media_duration_sent_ms x;
  sn_track_wall_clock_elapsed_ms := twm_track_wall_clock_elapsed_ms x;
  sn_track_media_to_wall_clock_ratio_ppm := twm_track_media_to_wall_clock_ratio_ppm x;
  sn_track_fast_interval_count := twm_track_fast_interval_count x;
  sn_track_fast_interval_min_ms := twm_track_fast_interval_min_ms x;
  sn_track_fast_interval_min_us := twm_track_fast_interval_min_us x;
  sn_track_tempo_window_count := twm_track_tempo_window_count x;
  sn_track_tempo_window_post_source_buffer_count := twm_track_tempo_window_post_source_buffer_count x;
  sn_track_tempo_window_min_ratio_ppm := twm_track_tempo_window_min_ratio_ppm x;
  sn_track_tempo_window_max_ratio_ppm := twm_track_tempo_window_max_ratio_ppm x;
  sn_track_tempo_window_fast_count := twm_track_tempo_window_fast_count x;
  sn_track_tempo_window_fastest_ratio_ppm := twm_track_tempo_window_fastest_ratio_ppm x;
  sn_track_tempo_window_fastest_media_ms := twm_track_tempo_window_fastest_media_ms x;
  sn_track_tempo_window_fastest_wall_clock_us := twm_track_tempo_window_fastest_wall_clock_us x;
  sn_track_tempo_window_slow_count := twm_track_tempo_window_slow_count x;
  sn_track_tempo_window_slowest_ratio_ppm := twm_track_tempo_window_slowest_ratio_ppm x;
  sn_track_tempo_window_slowest_media_ms := twm_track_tempo_window_slowest_media_ms x;
  sn_track_tempo_window_slowest_wall_clock_us := twm_track_tempo_window_slowest_wall_clock_us x;
  sn_skipped_source_frame_count := twm_skipped_source_frame_count x;
  sn_skipped_source_duration_ms := twm_skipped_source_duration_ms x;
  sn_skipped_source_duration_samples := twm_skipped_source_duration_samples x;
  sn_tempo_rebase_count := twm_tempo_rebase_count x;
  sn_expected_track_frame_count := twm_expected_track_frame_count x;
  sn_sent_track_frame_count := twm_sent_track_frame_count x;
  sn_silence_frame_count := twm_silence_frame_count x;
  sn_frame_deficit_count := twm_frame_deficit_count x;
  sn_dropped_frame_count := twm_dropped_frame_count x;
  sn_late_frame_count := twm_late_frame_count x;
  sn_all_packet_interval := read_duration_stats (twm_all_packet_interval x);
  sn_sender_lateness := read_duration_stats (twm_sender_lateness x);
  sn_max_consecutive_late_packets := twm_max_consecutive_late_packets x;
  sn_current_consecutive_late_packets := twm_current_consecutive_late_packets x;
  sn_current_buffer_depth := read_depth (twm_current_buffer_depth x);
  sn_min_buffer_depth := read_depth (twm_min_buffer_depth x);
  sn_max_buffer_depth := read_depth (twm_max_buffer_depth x);
  sn_current_source_buffer_depth := read_depth (twm_current_source_buffer_depth x);
  sn_min_source_buffer_depth := read_depth (twm_min_source_buffer_depth x);
  sn_max_source_buffer_depth := read_depth (twm_max_source_buffer_depth x);
  sn_source_buffer_depth := default queue_depth_stats_default (read_queue_stats <$> twm_source_buffer_depth x);
  sn_current_playout_buffer_depth := read_depth (twm_current_playout_buffer_depth x);
  sn_min_playout_buffer_depth := read_depth (twm_min_playout_buffer_depth x);
  sn_max_playout_buffer_depth := read_depth (twm_max_playout_buffer_depth x);
  sn_egress_buffer_target_ms := twm_egress_buffer_target_ms x;
  sn_current_egress_buffer_depth := read_depth (twm_current_egress_buffer_depth x);
  sn_min_egress_buffer_depth := read_depth (twm_min_egress_buffer_depth x);
  sn_max_egress_buffer_depth := read_depth (twm_max_egress_buffer_depth x);
  sn_prepared_rtp_queue_depth_ms := twm_prepared_rtp_queue_depth_ms x;
  sn_prepared_track_queue_target_ms := twm_prepared_track_queue_target_ms x;
  sn_prepared_track_queue_low_watermark_ms := twm_prepared_track_queue_low_watermark_ms x;
  sn_prepared_track_queue_high_watermark_ms := twm_prepared_track_queue_high_watermark_ms x;
  sn_active_pre_pause_prepared_track_queue_depth := default queue_depth_stats_default (read_queue_stats <$> twm_active_pre_pause_prepared_track_queue_depth x);
  sn_active_post_resume_prepared_track_queue_depth := default queue_depth_stats_default (read_queue_stats <$> twm_active_post_resume_prepared_track_queue_depth x);
  sn_prepared_track_queue_depth_sample_count := twm_prepared_track_queue_depth_sample_count x;
  sn_prepared_track_queue_empty_count := twm_prepared_track_queue_empty_count x;
  sn_raw_send_events := map read_send_event (twm_raw_send_events x);
  sn_raw_prepared_track_queue_samples := map read_queue_sample (twm_raw_prepared_track_queue_samples x);
  sn_raw_prepared_playout_queue_events := map read_playout_event (twm_raw_prepared_playout_queue_events x);
  sn_current_scheduled_silence_queue_depth := read_depth (twm_current_scheduled_silence_queue_depth x);
  sn_max_scheduled_silence_queue_depth := read_depth (twm_max_scheduled_silence_queue_depth x);
  sn_current_boundary_queue_depth := read_depth (twm_current_boundary_queue_depth x);
  sn_max_boundary_queue_depth := read_depth (twm_max_boundary_queue_depth x);
  sn_prepared_track_packet_drop_count := twm_prepared_track_packet_drop_count x;
  sn_prepared_silence_packet_drop_count := twm_prepared_silence_packet_drop_count x;
  sn_prepared_packet_rebuild_count := twm_prepared_packet_rebuild_count x;
  sn_scheduled_silence_packet_count := twm_scheduled_silence_packet_count x;
  sn_pause_media_boundary_count := twm_pause_media_boundary_count x;
  sn_stop_media_boundary_count := twm_stop_media_boundary_count x;
  sn_recovery_media_boundary_count := twm_recovery_media_boundary_count x;
  sn_natural_end_media_boundary_count := twm_natural_end_media_boundary_count x;
  sn_dave_transition_recovery_reached_builder_count := twm_dave_transition_recovery_reached_builder_count x;
  sn_dave_transition_recovery_reached_deadline_sender_count := twm_dave_transition_recovery_reached_deadline_sender_count x;
  sn_source_underrun_reached_builder_count := twm_source_underrun_reached_builder_count x;
  sn_source_underrun_reached_deadline_sender_count := twm_source_underrun_reached_deadline_sender_count x;
  sn_discarded_source_frame_count := twm_discarded_source_frame_count x;
  sn_discarded_source_duration_ms := twm_discarded_source_duration_ms x;
  sn_discarded_source_duration_samples := twm_discarded_source_duration_samples x;
  sn_stop_discarded_source_frame_count := twm_stop_discarded_source_frame_count x;
  sn_stop_discarded_source_duration_ms := twm_stop_discarded_source_duration_ms x;
  sn_stop_discarded_source_duration_samples := twm_stop_discarded_source_duration_samples x;
  sn_interruption_discarded_source_frame_count := twm_interruption_discarded_source_frame_count x;
  sn_interruption_discarded_source_duration_ms := twm_interruption_discarded_source_duration_ms x;
  sn_interruption_discarded_source_duration_samples := twm_interruption_discarded_source_duration_samples x;
  sn_restored_source_frame_count := twm_restored_source_frame_count x;
  sn_restored_source_duration_ms := twm_restored_source_duration_ms x;
  sn_restored_source_duration_samples := twm_restored_source_duration_samples x;
  sn_source_buffer_target_ms := twm_source_buffer_target_ms x;
  sn_adaptive_buffer_target_ms := twm_adaptive_buffer_target_ms x;
  sn_max_adaptive_buffer_target_ms := twm_max_adaptive_buffer_target_ms x;
  sn_buffer_low_watermark_count := twm_buffer_low_watermark_count x;
  sn_source_buffer_low_watermark_count := twm_source_buffer_low_watermark_count x;
  sn_playout_buffer_low_watermark_count := twm_playout_buffer_low_watermark_count x;
  sn_buffer_underrun_count := twm_buffer_underrun_count x;
  sn_playout_underrun_count := twm_playout_underrun_count x;
  sn_egress_underrun_count := twm_egress_underrun_count x;
  sn_egress_inserted_silence_duration_ms := twm_egress_inserted_silence_duration_ms x;
  sn_egress_dropped_music_frame_count := twm_egress_dropped_music_frame_count x;
  sn_egress_dropped_music_duration_ms := twm_egress_dropped_music_duration_ms x;
  sn_egress_dropped_music_duration_samples := twm_egress_dropped_music_duration_samples x;
  sn_source_underrun_count := twm_source_underrun_count x;
  sn_rebuffer_count := twm_rebuffer_count x;
  sn_refill_duration := read_duration_stats (twm_refill_duration x);
  sn_source_producer_fill_duration := read_duration_stats (twm_source_producer_fill_duration x);
  sn_producer_stall_duration := read_duration_stats (twm_producer_stall_duration x);
  sn_max_producer_lag_ms := twm_max_producer_lag_ms x;
  sn_http_retry_count := twm_http_retry_count x;
  sn_response_open_count := twm_response_open_count x;
  sn_range_reopen_count := twm_range_reopen_count x;
  sn_read_error_reopen_count := twm_read_error_reopen_count x;
  sn_url_reresolve_count := twm_url_reresolve_count x;
  sn_pause_resume_first_intervals_ms := twm_pause_resume_first_intervals_ms x;
  sn_post_stall_first_intervals_ms := twm_post_stall_first_intervals_ms x;
  sn_post_rebuffer_first_intervals_ms := twm_post_rebuffer_first_intervals_ms x;
  sn_playout_sender_lateness := read_duration_stats (twm_playout_sender_lateness x);
  sn_playout_builder_prepare_duration := read_duration_stats (twm_playout_builder_prepare_duration x);
  sn_sender_send_duration := read_duration_stats (twm_sender_send_duration x);
  sn_sender_loop_non_send_work_duration := read_duration_stats (twm_sender_loop_non_send_work_duration x);
  sn_max_consecutive_playout_late_packets := twm_max_consecutive_playout_late_packets x;
  sn_max_consecutive_late_egress_ticks := twm_max_consecutive_late_egress_ticks x;
  sn_speaking_prepare_duration := read_duration_stats (twm_speaking_prepare_duration x);
  sn_sender_forbidden_work_count := twm_sender_forbidden_work_count x;
  sn_gateway_event_drain_duration := read_duration_stats (twm_gateway_event_drain_duration x);
  sn_gateway_event_drain_count := twm_gateway_event_drain_count x;
  sn_dave_transition_count := twm_dave_transition_count x;
  sn_dave_transition_count_during_playback := twm_dave_transition_count_during_playback x;
  sn_stale_dave_send_prevented_count := twm_stale_dave_send_prevented_count x;
  sn_controlled_media_interruption_count := twm_controlled_media_interruption_count x;
  sn_media_clock_reset_count := twm_media_clock_reset_count x;
  sn_egress_clock_reset_count := twm_egress_clock_reset_count x;
  sn_scheduler_late_reset_count := twm_scheduler_late_reset_count x;
  sn_source_underrun_reset_count := twm_source_underrun_reset_count x;
  sn_pause_resume_reset_count := twm_pause_resume_reset_count x;
  sn_dave_transition_recovery_reset_count := twm_dave_transition_recovery_reset_count x;
  sn_gateway_interruptions := twm_gateway_interruptions x;
  sn_dave_interruptions := twm_dave_interruptions x;
  sn_reconnect_interruptions := twm_reconnect_interruptions x;
  sn_ended := twm_ended x;
|}.
Definition published (x : TwPlaybackStabilitySnapshot) : option PlaybackStabilitySnapshot :=
  if twm_available x then Some (read_snapshot x) else None.

(** The counts are of type [usize]; a video id that is there is not empty and an
    itag that is there is not zero. *)
Definition stats_sized (x : DurationStatsSnapshot) : Prop := in_uint usize_max (st_samples x).
Definition depth_sized (x : OpusBufferDepth) : Prop := in_uint usize_max (bd_packets x) /\ in_uint usize_max
    (bd_bytes x).
Definition queue_stats_sized (x : PlaybackQueueDepthStatsSnapshot) : Prop := in_uint usize_max
    (qs_sample_count x) /\ Forall depth_sized [qs_current_depth x; qs_min_depth x; qs_p5_depth x; qs_p50_depth
    x; qs_p95_depth x; qs_max_depth x].
Definition sample_sized (x : PreparedTrackQueueDepthSampleSnapshot) : Prop := depth_sized (qd_depth x).
Definition event_sized (x : PreparedPlayoutQueueEventSnapshot) : Prop := depth_sized (ev_queue_depth_after x).
Record snapshot_sized (x : PlaybackStabilitySnapshot) : Prop := {
  sz_counts : Forall (in_uint usize_max) [sn_track_packet_count x; sn_continuity_silence_packet_count x;
    sn_max_consecutive_late_packets x; sn_current_consecutive_late_packets x;
    sn_prepared_track_queue_depth_sample_count x; sn_max_consecutive_playout_late_packets x;
    sn_max_consecutive_late_egress_ticks x];
  sz_stats : Forall stats_sized [sn_track_interval x; sn_all_packet_interval x; sn_sender_lateness x;
    sn_refill_duration x; sn_producer_stall_duration x; sn_playout_sender_lateness x;
    sn_speaking_prepare_duration x; sn_source_producer_fill_duration x; sn_playout_builder_prepare_duration x;
    sn_sender_send_duration x; sn_sender_loop_non_send_work_duration x; sn_gateway_event_drain_duration x];
  sz_depths : Forall depth_sized [sn_current_buffer_depth x; sn_min_buffer_depth x; sn_max_buffer_depth x;
    sn_current_source_buffer_depth x; sn_min_source_buffer_depth x; sn_max_source_buffer_depth x;
    sn_current_playout_buffer_depth x; sn_min_playout_buffer_depth x; sn_max_playout_buffer_depth x;
    sn_current_egress_buffer_depth x; sn_min_egress_buffer_depth x; sn_max_egress_buffer_depth x;
    sn_current_scheduled_silence_queue_depth x; sn_max_scheduled_silence_queue_depth x;
    sn_current_boundary_queue_depth x; sn_max_boundary_queue_depth x];
  sz_queues : Forall queue_stats_sized [sn_source_buffer_depth x;
    sn_active_pre_pause_prepared_track_queue_depth x; sn_active_post_resume_prepared_track_queue_depth x];
  sz_samples : Forall sample_sized (sn_raw_prepared_track_queue_samples x);
  sz_events : Forall event_sized (sn_raw_prepared_playout_queue_events x);
  sz_video : sn_video_id x <> Some EmptyString;
  sz_itag : sn_selected_itag x <> Some 0;
}.

(** ** Nothing is lost on the way *)

Lemma usize_roundtrip v : in_uint usize_max v -> usize_to_u64 v = v.
Proof. intros [_ H]. unfold usize_to_u64, try_uint. by rewrite (proj2 (Z.leb_le v u64_max) H). Qed.

Lemma command_kind_roundtrip x : read_command_kind (TC_from_raw (CK_as_i32 (map_send_command_kind x))) = x.
Proof. by destruct x. Qed.
Lemma phase_roundtrip x : read_phase (TP_from_raw (PH_as_i32 (map_prepared_track_queue_sample_phase x))) = x.
Proof. by destruct x. Qed.
Lemma event_kind_roundtrip x : read_event_kind (TQK_from_raw (QK_as_i32 (map_prepared_playout_queue_event_kind x))) = x.
Proof. by destruct x. Qed.
Lemma event_reason_roundtrip x :
  read_event_reason (TQR_from_raw (QR_as_i32 (map_prepared_playout_queue_event_reason x))) = x.
Proof. by destruct x. Qed.

Lemma stats_roundtrip x :
  stats_sized x -> read_duration_stats (TwDurationStatsSnapshot_from (map_duration_stats x)) = x.
Proof. intros H. destruct x. cbn in *. unfold read_duration_stats. cbn. by rewrite usize_roundtrip. Qed.
Lemma depth_roundtrip x :
  depth_sized x -> read_depth (TwPlaybackBufferDepthSnapshot_from (map_buffer_depth x)) = x.
Proof. intros [H1 H2]. destruct x. cbn in *. unfold read_depth. cbn. by rewrite !usize_roundtrip. Qed.
Lemma queue_stats_roundtrip x :
  queue_stats_sized x -> read_queue_stats (TwPlaybackQueueDepthStatsSnapshot_from (map_queue_depth_stats x)) = x.
Proof.
  intros [H1 H2]. rewrite !Forall_cons in H2. destruct_and!. destruct x. cbn in *. unfold read_queue_stats. cbn.
  by rewrite usize_roundtrip, !depth_roundtrip.
Qed.
Lemma send_event_roundtrip x : read_send_event (TwPlaybackSendEventSnapshot_from (map_raw_send_event x)) = x.
Proof. destruct x. unfold read_send_event. cbn. by rewrite command_kind_roundtrip. Qed.
Lemma sample_roundtrip x :
  sample_sized x ->
  read_queue_sample (TwPreparedTrackQueueDepthSampleSnapshot_from (map_raw_prepared_track_queue_sample x)) = x.
Proof.
  intros H. destruct x. cbn in *. unfold read_queue_sample. cbn. by rewrite phase_roundtrip, depth_roundtrip.
Qed.
Lemma event_roundtrip x :
  event_sized x ->
  read_playout_event (TwPreparedPlayoutQueueEventSnapshot_from (map_raw_prepared_playout_queue_event x)) = x.
Proof.
  intros H. destruct x. cbn in *. unfold read_playout_event. cbn.
  by rewrite event_kind_roundtrip, event_reason_roundtrip, command_kind_roundtrip, depth_roundtrip.
Qed.

Lemma map_roundtrip {A B C} (P : A -> Prop) (there : A -> B) (onward : B -> C) (back : C -> A) l :
  (forall x, P x -> back (onward (there x)) = x) -> Forall P l -> map back (map onward (map there l)) = l.
Proof. intros H. induction 1 as [|x l Hx _ IH]; [done|]. cbn. by rewrite H, IH. Qed.

Lemma non_empty_default x : x <> Some EmptyString -> non_empty (default EmptyString x) = x.
Proof. destruct x as [x|]; [|done]. intros H. unfold non_empty. cbn. rewrite bool_decide_eq_false_2; congruence. Qed.
Lemma non_zero_default x : x <> Some 0 -> non_zero (default 0 x) = x.
Proof. destruct x as [x|]; [|done]. intros H. unfold non_zero. cbn. by rewrite (proj2 (Z.eqb_neq _ _)) by congruence. Qed.

Create HintDb transport.
#[export] Hint Resolve usize_roundtrip stats_roundtrip depth_roundtrip queue_stats_roundtrip sample_roundtrip
  event_roundtrip non_empty_default non_zero_default : transport.

Lemma snapshot_roundtrip s :
  snapshot_sized s -> read_snapshot (TwPlaybackStabilitySnapshot_from (map_published_snapshot s)) = s.
Proof.
  intros [H1 H2 H3 H4 H5 H6 H7 H8]. rewrite !Forall_cons in H1. rewrite !Forall_cons in H2. rewrite !Forall_cons in H3.
  rewrite !Forall_cons in H4. destruct_and!. destruct s. cbn in *.
  unfold read_snapshot. cbn. f_equal; auto with transport.
  - apply (map_roundtrip (fun _ => True)); [intros x _; apply send_event_roundtrip|by apply Forall_true].
  - by eapply map_roundtrip; [apply sample_roundtrip|].
  - by eapply map_roundtrip; [apply event_roundtrip|].
Qed.

(** C28. The metrics that the runtime publishes arrive at the client unchanged,
    field by field: from the client's snapshot the published one can be read
    back, and that there is none as well. *)
Theorem metrics_reach_client (s : option PlaybackStabilitySnapshot) :
  (forall x, s = Some x -> snapshot_sized x) ->
  published (TwPlaybackStabilitySnapshot_from (map_playback_stability_snapshot s)) = s.
Proof.
  intros Hs. destruct s as [x|]; [|done]. unfold published. cbn [map_playback_stability_snapshot].
  change (twm_available _) with true. cbn [orb]. by rewrite (snapshot_roundtrip x (Hs x eq_refl)).
Qed.

Import MetricsSpecs.Sample.

(** The metrics of the sample playback of MetricsSpecs.v. *)
Definition sample_snapshot : PlaybackStabilitySnapshot :=
  Eval vm_compute in snapshot 0 0 0 false (record_all paced_messages fresh_collector).
Lemma sample_snapshot_sized : snapshot_sized sample_snapshot.
Proof.
  split; try discriminate; unfold stats_sized, depth_sized, queue_stats_sized, sample_sized, event_sized, in_uint;
    cbn; repeat first [apply Forall_nil_2|apply Forall_cons_2|apply conj|vm_compute; discriminate].
Qed.
Lemma metrics_reach_client_witness :
  sn_track_packet_count sample_snapshot = 2 /\
  published (TwPlaybackStabilitySnapshot_from (map_playback_stability_snapshot (Some sample_snapshot)))
    = Some sample_snapshot.
Proof.
  split; [vm_compute; reflexivity|]. apply (metrics_reach_client (Some sample_snapshot)).
  intros x [= <-]. exact sample_snapshot_sized.
Defined.
