(* ===== verification/ControlService.v ===== *)
(** * The control service

    crates/discord-voice-service-runtime/src/api/service.rs: the requests, how
    they become commands of the session runtime, and how state and events
    become messages; observability.rs, its counters and texts. The metrics are
    in MetricsTransport.v.

    A handler is a task of the session runtime (Commands.v) that returns its
    reply and what it records for observability: the counters are global atomics
    that no handler reads. *)

From S2P Require Import Prelude Text VoiceErrors Protocol DeadlineSender Task SessionState Commands ControlProto.
From stdpp Require Import prelude strings pretty.
Open Scope Z_scope.
Open Scope task_scope.

(** ** Status codes *)

Inductive Code : Type := CodeOk | InvalidArgument | FailedPrecondition | Internal.
Record Status : Type := mkStatus {
  st_code : Code;
  st_message : string;
}.
Abbreviation sresult := (result Status).

#[global] Instance Code_eq_dec : EqDecision Code.
Proof. solve_decision. Defined.

(** ** observability.rs *)

Record Observability : Type := mkObservability {
  ob_rpc_requests_total : Z;
  ob_state_queries_total : Z;
  ob_readiness_transitions_total : Z;
  ob_ytmusic_probe_total : Z;
  ob_last_ready : bool;
}.
Definition Observability_default : Observability := mkObservability 0 0 0 0 false.

Definition record_rpc (o : Observability) : Observability :=
  mkObservability (wrapping_add 64 (ob_rpc_requests_total o) 1) (ob_state_queries_total o)
    (ob_readiness_transitions_total o) (ob_ytmusic_probe_total o) (ob_last_ready o).
Definition record_state_query (o : Observability) : Observability :=
  mkObservability (ob_rpc_requests_total o) (wrapping_add 64 (ob_state_queries_total o) 1)
    (ob_readiness_transitions_total o) (ob_ytmusic_probe_total o) (ob_last_ready o).
Definition record_readiness (readiness : ReadinessSnapshot) (o : Observability) : Observability :=
  let ready := is_ready readiness in
  mkObservability (ob_rpc_requests_total o) (ob_state_queries_total o)
    (if eqb (ob_last_ready o) ready then ob_readiness_transitions_total o
     else wrapping_add 64 (ob_readiness_transitions_total o) 1)
    (ob_ytmusic_probe_total o) ready.
Definition record_ytmusic_probe (o : Observability) : Observability :=
  mkObservability (ob_rpc_requests_total o) (ob_state_queries_total o) (ob_readiness_transitions_total o)
    (wrapping_add 64 (ob_ytmusic_probe_total o) 1) (ob_last_ready o).

Definition bool_to_string (b : bool) : string := if b then "true" else "false".
Definition render_snapshot_message (s : Snapshot) (r : ReadinessSnapshot) : string :=
  let flags :=
    "ready=" +:+ bool_to_string (is_ready r) +:+ " runtime_booted=" +:+ bool_to_string (runtime_booted r) +:+
    " ytmusic_healthy=" +:+ bool_to_string (ytmusic_healthy r) +:+ " recovering=" +:+ bool_to_string (s_recovering s) +:+
    " voice_reconnecting=" +:+ bool_to_string (s_voice_reconnecting s) +:+
    " position_ms=" +:+ u64_to_string (position_ms s) in
  match last_reason s with
  | Some reason => if bool_decide (reason = EmptyString) then flags else reason +:+ " | " +:+ flags
  | None => flags
  end.

(** What a handler records: the method and the code of the reply. *)
Definition RpcRecord : Type := string * Code.
Definition code_of {A} (r : sresult A) : Code := match r with Err s => st_code s | _ => CodeOk end.
Definition record_rpc_result {A} (method : string) (r : sresult A) : list RpcRecord := [(method, code_of r)].

(** ** Checks *)

(** [value.trim().is_empty()]: the UTF-8 string is made of white space only. *)
Fixpoint blank_bytes (l : list Z) : bool :=
  match l with
  | [] => true
  | (9 | 10 | 11 | 12 | 13 | 32) :: rest => blank_bytes rest
  | 0xC2 :: (0x85 | 0xA0) :: rest => blank_bytes rest
  | 0xE1 :: 0x9A :: 0x80 :: rest => blank_bytes rest
  | 0xE2 :: 0x80 :: b :: rest =>
      ((0x80 <=? b) && (b <=? 0x8A) || (b =? 0xA8) || (b =? 0xA9) || (b =? 0xAF)) && blank_bytes rest
  | 0xE2 :: 0x81 :: 0x9F :: rest => blank_bytes rest
  | 0xE3 :: 0x80 :: 0x80 :: rest => blank_bytes rest
  | _ => false
  end.
Definition string_bytes (s : string) : list Z := map (fun c => Z.of_N (Ascii.N_of_ascii c)) (String.list_ascii_of_string s).
Definition blank (s : string) : bool := blank_bytes (string_bytes s).

Definition invalid_argument (message : string) : Status := mkStatus InvalidArgument message.
Definition validate_non_empty (field value : string) : sresult unit :=
  if blank value then Err (invalid_argument (field +:+ " is required")) else Ok tt.

Definition map_voice_context (voice : ProtoVoiceContext) : sresult VoiceContext :=
  _ ← validate_non_empty "guild_id" (pbc_guild_id voice);
  _ ← validate_non_empty "channel_id" (pbc_channel_id voice);
  _ ← validate_non_empty "user_id" (pbc_user_id voice);
  _ ← validate_non_empty "session_id" (pbc_session_id voice);
  _ ← validate_non_empty "endpoint" (pbc_endpoint voice);
  _ ← validate_non_empty "token" (pbc_token voice);
  Ok (mkVoiceContext (pbc_guild_id voice) (pbc_channel_id voice) (pbc_user_id voice) (pbc_session_id voice)
        (pbc_endpoint voice) (pbc_token voice)).

Definition requested_voice (voice : option ProtoVoiceContext) : sresult VoiceContext :=
  match voice with
  | None => Err (invalid_argument "missing voice context")
  | Some voice => map_voice_context voice
  end.

(** ** State and events as messages *)

Definition map_session_state (state : SessionState) : ProtoSessionState :=
  match state with
  | Idle => SS_Idle
  | ConnectingVoice => SS_ConnectingVoice
  | VoiceReady => SS_VoiceReadyState
  | ResolvingTrack => SS_ResolvingTrack
  | Buffering => SS_BufferingState
  | Playing => SS_PlayingState
  | Paused => SS_PausedState
  | Stopping => SS_Stopping
  | SError => SS_ErrorState
  end.
Definition map_session_event_kind (kind : SessionEventKind) : ProtoSessionEventKind :=
  match kind with
  | EVoiceConnecting => EK_VoiceConnecting
  | EVoiceReady => EK_VoiceReady
  | ETrackResolving => EK_TrackResolving
  | EBuffering => EK_Buffering
  | EPlaying => EK_Playing
  | EPaused => EK_Paused
  | EStopped => EK_Stopped
  | ETrackEnded => EK_TrackEnded
  | EPlaybackInterrupted => EK_PlaybackInterrupted
  | ERecoverableWarning => EK_RecoverableWarning
  | EFatalError => EK_FatalError
  | EVoiceReconnecting => EK_VoiceReconnecting
  end.

Definition state_reply (snapshot : Snapshot) : ProtoSessionStateSnapshot := {|
  pbt_state := SS_as_i32 (map_session_state (s_state snapshot));
  pbt_guild_id := default EmptyString (guild_id snapshot);
  pbt_channel_id := default EmptyString (channel_id snapshot);
  pbt_current_video_id := default EmptyString (current_video_id snapshot);
  pbt_queue_depth := default u32_max (try_uint u32_max (queue_depth snapshot));
  pbt_selected_itag := default 0 (selected_itag snapshot);
  pbt_message := default EmptyString (last_reason snapshot);
|}.
Definition map_session_event (event : SessionEventRecord) : ProtoSessionEvent := {|
  pbv_kind := EK_as_i32 (map_session_event_kind (ev_kind event));
  pbv_guild_id := default EmptyString (ev_guild_id event);
  pbv_channel_id := default EmptyString (ev_channel_id event);
  pbv_current_video_id := default EmptyString (ev_current_video_id event);
  pbv_selected_itag := default 0 (ev_selected_itag event);
  pbv_message := default EmptyString (ev_message event);
  pbv_error_code := EmptyString;
  pbv_reason := ER_as_i32 ER_Unspecified;
|}.

(** What a subscriber's receiver yields. *)
Inductive Received : Type := ReceivedEvent (event : SessionEventRecord) | Lagged (missed : Z) | Closed.

(** [subscribe_events]: the stream until the bus is closed. *)
Fixpoint event_stream (items : list Received) : list ProtoSessionEvent :=
  match items with
  | ReceivedEvent event :: items => map_session_event event :: event_stream items
  | Lagged _ :: items => event_stream items
  | Closed :: _ | [] => []
  end.

(** ** Handlers *)

Section service.
Context `{V : VoiceSession} `{T : ErrorText}.

Definition map_app_error (e : RuntimeError) : Status := mkStatus FailedPrecondition (runtime_error_text e).

Abbreviation rpc A := (prog Runtime question answer ResumeTask (list RpcRecord * sresult A)).

(** A request that is refused before it becomes a command. *)
Definition observe_early_status {A B} (method : string) (r : sresult A) (k : A -> rpc B) : rpc B :=
  match r with
  | Ok a => k a
  | Err status => mret ([(method, st_code status)], Err status)
  | Panic => mret ([], Panic)
  end.

Definition supervised (method : string) (command : Command) : rpc unit :=
  r ← handle_command command;
  let result := map_err map_app_error r in
  mret (record_rpc_result method result, result).

Definition rpc_join_voice (request : ProtoJoinVoiceRequest) : rpc unit :=
  observe_early_status "join_voice" (requested_voice (pbj_voice request)) (fun voice =>
    supervised "join_voice" (JoinVoice voice)).
Definition rpc_update_voice_context (request : ProtoUpdateVoiceContextRequest) : rpc unit :=
  observe_early_status "update_voice_context" (requested_voice (pbu_voice request)) (fun voice =>
    supervised "update_voice_context" (UpdateVoiceContext voice)).
Definition rpc_play (request : ProtoPlayRequest) : rpc unit :=
  observe_early_status "play" (validate_non_empty "video_id" (pbl_video_id request)) (fun _ =>
    supervised "play" (Play (pbl_video_id request))).
Definition rpc_pause : rpc unit := supervised "pause" Pause.
Definition rpc_resume : rpc unit := supervised "resume" Resume.
Definition rpc_stop : rpc unit := supervised "stop" Stop.
Definition rpc_leave_voice : rpc unit := supervised "leave_voice" LeaveVoice.
Definition rpc_get_state : rpc ProtoSessionStateSnapshot :=
  snapshot ← read_state (fun s => s);
  mret ([("get_state"%string, CodeOk)], Ok (state_reply snapshot)).
End service.
