(* ===== verification/Twilight.v ===== *)
(** * The Twilight client

    crates/discord-voice-service-twilight/src/lib.rs without the metrics, which
    are in MetricsTransport.v: the client's view of the session state and of
    events, the client's calls, and the tracker that collects a voice context
    from gateway events.

    Ids, the gateway's messages and the shard's sender are Twilight's. The class
    [TwilightModel] says what is used of ids; the class [ControlApi] is the
    generated client, whatever answers its calls. *)

From S2P Require Import Prelude Text Task ControlProto MetricsTransport ControlService.
From stdpp Require Import prelude strings.
Open Scope Z_scope.
Open Scope task_scope.

(** ** Ids *)

Class TwilightModel : Type := {
  Id : Type;
  #[global] Id_eq_dec :: EqDecision Id;
  id_to_string : Id -> string;
  id_parse : string -> option Id;
}.
(** Printing an id gives digits that parse to it. *)
Class TwilightModelLaws `{TwilightModel} : Prop := {
  id_roundtrip i : id_parse (id_to_string i) = Some i;
  id_digits i c : digit_value c = None -> free_of c (id_to_string i);
  id_not_empty i : id_to_string i <> EmptyString;
}.

(** A u64 that is not zero, as in twilight_model. *)
Definition Snowflake : Type := { n : Z | bool_decide (0 < n <= u64_max) }.
Definition snowflake_parse (s : string) : option Snowflake :=
  match parse_u64 s with
  | Some n => match decide (bool_decide (0 < n <= u64_max)) with left H => Some (n ↾ H) | right _ => None end
  | None => None
  end.
#[export] Instance snowflakes : TwilightModel := {|
  Id := Snowflake;
  id_to_string i := u64_to_string (proj1_sig i);
  id_parse := snowflake_parse;
|}.

Section client.
Context `{TM : TwilightModel}.

(** The text of a string as [{:?}] prints it. *)
Context (debug : string -> string).

Record InvalidId : Type := mkInvalidId {
  ii_field : string;
  ii_value : string;
}.
Definition InvalidId_to_string (e : InvalidId) : string :=
  "invalid Discord snowflake in " +:+ ii_field e +:+ ": " +:+ debug (ii_value e).
Definition Status_from_InvalidId (e : InvalidId) : Status := mkStatus Internal (InvalidId_to_string e).

Definition parse_optional_id (field value : string) : result InvalidId (option Id) :=
  if bool_decide (value = EmptyString) then Ok None
  else match id_parse value with Some i => Ok (Some i) | None => Err (mkInvalidId field value) end.

(** ** The session state and events *)

Inductive TwSessionState : Type :=
| TS_Unspecified | TS_Idle | TS_ConnectingVoice | TS_VoiceReady | TS_ResolvingTrack | TS_Buffering | TS_Playing
| TS_Paused | TS_Stopping | TS_Error | TS_Unknown (value : Z).
Definition TS_from_raw (value : Z) : TwSessionState :=
  match SS_try_from value with
  | Some SS_Unspecified => TS_Unspecified
  | Some SS_Idle => TS_Idle
  | Some SS_ConnectingVoice => TS_ConnectingVoice
  | Some SS_VoiceReadyState => TS_VoiceReady
  | Some SS_ResolvingTrack => TS_ResolvingTrack
  | Some SS_BufferingState => TS_Buffering
  | Some SS_PlayingState => TS_Playing
  | Some SS_PausedState => TS_Paused
  | Some SS_Stopping => TS_Stopping
  | Some SS_ErrorState => TS_Error
  | None => TS_Unknown value
  end.

Inductive TwSessionEventKind : Type :=
| TK_Unspecified | TK_VoiceConnecting | TK_VoiceReady | TK_TrackResolving | TK_Buffering | TK_Playing | TK_Paused
| TK_Stopped | TK_TrackEnded | TK_PlaybackInterrupted | TK_RecoverableWarning | TK_FatalError
| TK_VoiceReconnecting | TK_Unknown (value : Z).
Definition TK_from_raw (value : Z) : TwSessionEventKind :=
  match EK_try_from value with
  | Some EK_Unspecified => TK_Unspecified
  | Some EK_VoiceConnecting => TK_VoiceConnecting
  | Some EK_VoiceReady => TK_VoiceReady
  | Some EK_TrackResolving => TK_TrackResolving
  | Some EK_Buffering => TK_Buffering
  | Some EK_Playing => TK_Playing
  | Some EK_Paused => TK_Paused
  | Some EK_Stopped => TK_Stopped
  | Some EK_TrackEnded => TK_TrackEnded
  | Some EK_PlaybackInterrupted => TK_PlaybackInterrupted
  | Some EK_RecoverableWarning => TK_RecoverableWarning
  | Some EK_FatalError => TK_FatalError
  | Some EK_VoiceReconnecting => TK_VoiceReconnecting
  | None => TK_Unknown value
  end.
Definition as_str_name (kind : TwSessionEventKind) : string :=
  match kind with
  | TK_Unspecified => "SESSION_EVENT_KIND_UNSPECIFIED"
  | TK_VoiceConnecting => "VOICE_CONNECTING"
  | TK_VoiceReady => "VOICE_READY"
  | TK_TrackResolving => "TRACK_RESOLVING"
  | TK_Buffering => "BUFFERING"
  | TK_Playing => "PLAYING"
  | TK_Paused => "PAUSED"
  | TK_Stopped => "STOPPED"
  | TK_TrackEnded => "TRACK_ENDED"
  | TK_PlaybackInterrupted => "PLAYBACK_INTERRUPTED"
  | TK_RecoverableWarning => "RECOVERABLE_WARNING"
  | TK_FatalError => "FATAL_ERROR"
  | TK_VoiceReconnecting => "VOICE_RECONNECTING"
  | TK_Unknown _ => "UNKNOWN"
  end.

Inductive TwSessionEventReason : Type :=
| TR_Unspecified | TR_JoinTimeout | TR_JoinFailed | TR_InvalidVoiceToken | TR_VoiceResumeFailed
| TR_DaveTransitionFailed | TR_UnsupportedEncryptionMode | TR_UdpDiscoveryFailed | TR_UpstreamUrlStale
| TR_PlaybackSourceUnsupported | TR_Unknown (value : Z).
Definition TR_from_raw (value : Z) : TwSessionEventReason :=
  match ER_try_from value with
  | Some ER_Unspecified => TR_Unspecified
  | Some ER_JoinTimeout => TR_JoinTimeout
  | Some ER_JoinFailed => TR_JoinFailed
  | Some ER_InvalidVoiceToken => TR_InvalidVoiceToken
  | Some ER_VoiceResumeFailed => TR_VoiceResumeFailed
  | Some ER_DaveTransitionFailed => TR_DaveTransitionFailed
  | Some ER_UnsupportedEncryptionMode => TR_UnsupportedEncryptionMode
  | Some ER_UdpDiscoveryFailed => TR_UdpDiscoveryFailed
  | Some ER_UpstreamUrlStale => TR_UpstreamUrlStale
  | Some ER_PlaybackSourceUnsupported => TR_PlaybackSourceUnsupported
  | None => TR_Unknown value
  end.

Record StateSnapshot : Type := mkStateSnapshot {
  ts_state : TwSessionState;
  ts_guild_id : option Id;
  ts_channel_id : option Id;
  ts_current_video_id : option string;
  ts_queue_depth : Z;
  ts_selected_itag : option Z;
  ts_message : option string;
}.
Definition StateSnapshot_try_from (value : ProtoSessionStateSnapshot) : result InvalidId StateSnapshot :=
  guild ← parse_optional_id "guild_id" (pbt_guild_id value);
  channel ← parse_optional_id "channel_id" (pbt_channel_id value);
  Ok (mkStateSnapshot (TS_from_raw (pbt_state value)) guild channel (non_empty (pbt_current_video_id value))
        (pbt_queue_depth value) (non_zero (pbt_selected_itag value)) (non_empty (pbt_message value))).

Record TwSessionEvent : Type := mkTwSessionEvent {
  te_kind : TwSessionEventKind;
  te_guild_id : option Id;
  te_channel_id : option Id;
  te_current_video_id : option string;
  te_selected_itag : option Z;
  te_message : option string;
  te_error_code : option string;
  te_reason : TwSessionEventReason;
}.
Definition TwSessionEvent_default : TwSessionEvent :=
  mkTwSessionEvent TK_Unspecified None None None None None None TR_Unspecified.
Definition SessionEvent_try_from (value : ProtoSessionEvent) : result InvalidId TwSessionEvent :=
  guild ← parse_optional_id "guild_id" (pbv_guild_id value);
  channel ← parse_optional_id "channel_id" (pbv_channel_id value);
  Ok (mkTwSessionEvent (TK_from_raw (pbv_kind value)) guild channel (non_empty (pbv_current_video_id value))
        (non_zero (pbv_selected_itag value)) (non_empty (pbv_message value)) (non_empty (pbv_error_code value))
        (TR_from_raw (pbv_reason value))).

(** What [message] and [poll_next] make of an item of the stream. *)
Definition stream_item (item : sresult ProtoSessionEvent) : sresult TwSessionEvent :=
  match item with
  | Ok event => map_err Status_from_InvalidId (SessionEvent_try_from event)
  | Err status => Err status
  | Panic => Panic
  end.

(** ** Voice contexts and gateway commands *)

Record TwVoiceContext : Type := mkTwVoiceContext {
  tv_guild_id : Id;
  tv_channel_id : Id;
  tv_user_id : Id;
  tv_session_id : string;
  tv_endpoint : string;
  tv_token : string;
}.
#[global] Instance TwVoiceContext_eq_dec : EqDecision TwVoiceContext.
Proof. solve_decision. Defined.

Definition into_proto (v : TwVoiceContext) : ProtoVoiceContext := {|
  pbc_guild_id := id_to_string (tv_guild_id v);
  pbc_channel_id := id_to_string (tv_channel_id v);
  pbc_session_id := tv_session_id v;
  pbc_endpoint := tv_endpoint v;
  pbc_token := tv_token v;
  pbc_user_id := id_to_string (tv_user_id v);
|}.

(** [UpdateVoiceState] of twilight_model: no channel is a leave. *)
Record UpdateVoiceState : Type := mkUpdateVoiceState {
  uv_guild_id : Id;
  uv_channel_id : option Id;
  uv_self_deaf : bool;
  uv_self_mute : bool;
}.
Definition join_voice_channel (guild_id channel_id : Id) (self_deaf self_mute : bool) : UpdateVoiceState :=
  mkUpdateVoiceState guild_id (Some channel_id) self_deaf self_mute.
Definition join_command (v : TwVoiceContext) (self_deaf self_mute : bool) : UpdateVoiceState :=
  join_voice_channel (tv_guild_id v) (tv_channel_id v) self_deaf self_mute.
Definition leave_voice_channel (guild_id : Id) : UpdateVoiceState := mkUpdateVoiceState guild_id None false false.

(** ** The tracker *)

(** Of the gateway's events, the two kinds the tracker looks at. *)
Inductive Event : Type :=
| VoiceStateUpdate (user_id : Id) (guild_id channel_id : option Id) (session_id : string)
| VoiceServerUpdate (guild_id : Id) (endpoint : option string) (token : string)
| OtherEvent.

Record VoiceContextTracker : Type := mkTracker {
  tr_guild_id : Id;
  tr_channel_id : Id;
  tr_user_id : Id;
  tr_session_id : option string;
  tr_endpoint : option string;
  tr_token : option string;
  tr_current : option TwVoiceContext;
}.
Definition Tracker_new (guild_id channel_id user_id : Id) : VoiceContextTracker :=
  mkTracker guild_id channel_id user_id None None None None.
Definition from_context (v : TwVoiceContext) : VoiceContextTracker :=
  mkTracker (tv_guild_id v) (tv_channel_id v) (tv_user_id v) (Some (tv_session_id v)) (Some (tv_endpoint v))
    (Some (tv_token v)) (Some v).
Definition reset (t : VoiceContextTracker) : VoiceContextTracker :=
  mkTracker (tr_guild_id t) (tr_channel_id t) (tr_user_id t) None None None None.

(** The first part of [observe]: what the event says. *)
Definition absorb (t : VoiceContextTracker) (e : Event) : VoiceContextTracker :=
  match e with
  | VoiceStateUpdate user guild channel session =>
      if bool_decide (user = tr_user_id t) && bool_decide (guild = Some (tr_guild_id t)) then
        if bool_decide (channel = None) then reset t
        else if bool_decide (channel = Some (tr_channel_id t)) then
          mkTracker (tr_guild_id t) (tr_channel_id t) (tr_user_id t) (Some session) (tr_endpoint t) (tr_token t)
            (tr_current t)
        else t
      else t
  | VoiceServerUpdate guild endpoint token =>
      if bool_decide (guild = tr_guild_id t) then
        mkTracker (tr_guild_id t) (tr_channel_id t) (tr_user_id t) (tr_session_id t)
          (match endpoint with
           | Some value => if bool_decide (value = EmptyString) then tr_endpoint t else Some value
           | None => tr_endpoint t
           end)
          (if bool_decide (token = EmptyString) then tr_token t else Some token) (tr_current t)
      else t
  | OtherEvent => t
  end.
Definition tracked_context (t : VoiceContextTracker) : option TwVoiceContext :=
  session ← tr_session_id t;
  endpoint ← tr_endpoint t;
  token ← tr_token t;
  Some (mkTwVoiceContext (tr_guild_id t) (tr_channel_id t) (tr_user_id t) session endpoint token).
Definition observe (t : VoiceContextTracker) (e : Event) : VoiceContextTracker * option TwVoiceContext :=
  let t := absorb t e in
  match tracked_context t with
  | None => (t, None)
  | Some context =>
      if bool_decide (tr_current t = Some context) then (t, None)
      else (mkTracker (tr_guild_id t) (tr_channel_id t) (tr_user_id t) (tr_session_id t) (tr_endpoint t) (tr_token t)
              (Some context), Some context)
  end.

(** ** The client's calls *)

Section calls.
Context {St Q : Type} {answer : Q -> Type} {Sp : Type}.
Abbreviation task := (prog St Q answer Sp).

(** The generated client. *)
Class ControlApi : Type := {
  api_join_voice : ProtoJoinVoiceRequest -> task (sresult unit);
  api_update_voice_context : ProtoUpdateVoiceContextRequest -> task (sresult unit);
  api_play : ProtoPlayRequest -> task (sresult unit);
  api_pause : task (sresult unit);
  api_resume : task (sresult unit);
  api_stop : task (sresult unit);
  api_leave_voice : task (sresult unit);
  api_get_state : task (sresult ProtoSessionStateSnapshot);
  api_get_playback_metrics : task (sresult ProtoPlaybackStabilitySnapshot);
}.
(** The shard's sender: a command is queued, or the shard is gone. *)
Class MessageSender : Type := {
  ChannelError : Type;
  sender_command : UpdateVoiceState -> task (result ChannelError unit);
}.
Context `{API : ControlApi} `{MS : MessageSender}.

Inductive GatewayVoiceControlError : Type :=
| Control (status : Status)
| Gateway (error : ChannelError).

Definition Client_join_voice (v : TwVoiceContext) : task (sresult unit) :=
  api_join_voice (mkProtoJoinVoiceRequest (Some (into_proto v))).
Definition Client_update_voice_context (v : TwVoiceContext) : task (sresult unit) :=
  api_update_voice_context (mkProtoUpdateVoiceContextRequest (Some (into_proto v))).
Definition Client_play (video_id : string) : task (sresult unit) := api_play (mkProtoPlayRequest video_id).
Definition Client_pause : task (sresult unit) := api_pause.
Definition Client_resume : task (sresult unit) := api_resume.
Definition Client_stop : task (sresult unit) := api_stop.
Definition Client_leave_voice : task (sresult unit) := api_leave_voice.
Definition Client_state : task (sresult StateSnapshot) :=
  snapshot ←? api_get_state;
  mret (map_err Status_from_InvalidId (StateSnapshot_try_from snapshot)).
Definition Client_playback_metrics : task (sresult TwPlaybackStabilitySnapshot) :=
  snapshot ←? api_get_playback_metrics;
  mret (Ok (TwPlaybackStabilitySnapshot_from snapshot)).

Definition controlling {A} (m : task (sresult A)) : task (result GatewayVoiceControlError A) :=
  r ← m; mret (map_err Control r).
Definition queueing (command : UpdateVoiceState) : task (result GatewayVoiceControlError unit) :=
  r ← sender_command command; mret (map_err Gateway r).

Definition set_voice_self_mute (v : TwVoiceContext) (self_deaf self_mute : bool)
    : task (result GatewayVoiceControlError unit) :=
  queueing (join_command v self_deaf self_mute).
Definition pause_and_self_mute (v : TwVoiceContext) (self_deaf : bool) : task (result GatewayVoiceControlError unit) :=
  _ ←? controlling Client_pause; set_voice_self_mute v self_deaf true.
Definition pause_and_leave (v : TwVoiceContext) : task (result GatewayVoiceControlError unit) :=
  _ ←? controlling Client_pause; queueing (leave_voice_channel (tv_guild_id v)).
Definition resume_and_self_unmute (v : TwVoiceContext) (self_deaf : bool)
    : task (result GatewayVoiceControlError unit) :=
  _ ←? set_voice_self_mute v self_deaf false; controlling Client_resume.
End calls.
End client.

#[export] Instance snowflakes_laws : TwilightModelLaws.
Proof.
  assert (Hp : forall n, bool_decide (0 < n <= u64_max) -> parse_u64 (u64_to_string n) = Some n).
  { intros n H%bool_decide_unpack. apply parse_u64_to_string. unfold in_uint. lia. }
  split; cbn [Id id_to_string id_parse snowflakes].
  - intros [n H]. cbn [proj1_sig]. unfold snowflake_parse. rewrite (Hp n H).
    destruct (decide _) as [H'|H']; [|done]. f_equal. by apply (sig_eq_pi _).
  - intros [n H] c Hc. cbn [proj1_sig]. apply bool_decide_unpack in H. apply u64_to_string_free; [lia|done].
  - intros [n H] E. cbn [proj1_sig] in E. specialize (Hp n H). by rewrite E in Hp.
Qed.
