(* ===== verification/ControlSpecs.v ===== *)
(** * From the client to the session and back

    Theorems on ControlService.v and Twilight.v: which requests reach the
    session and as what, what the client sees of the session, and what the
    tracker makes of the gateway's events. *)

From S2P Require Import Prelude Text VoiceErrors Protocol DeadlineSender Task SessionState Commands Interleaving CommandSpecs.
From S2P Require Import ControlProto MetricsTransport ControlService Twilight.
From stdpp Require Import prelude strings.
#[local] Open Scope Z_scope.
#[local] Open Scope task_scope.

(** ** The tracker *)

Section tracker.
Context `{TM : TwilightModel}.
Context (guild channel user : Id).

(** The bot left the guild's voice channels. *)
Definition is_leave (e : Event) : bool :=
  match e with
  | VoiceStateUpdate u g c _ =>
      bool_decide (u = user) && bool_decide (g = Some guild) && bool_decide (c = None)
  | _ => false
  end.
(** The events after the last time it left. *)
Fixpoint since_leave (es : list Event) : list Event :=
  match es with
  | [] => []
  | e :: rest =>
      if existsb is_leave rest then since_leave rest else if is_leave e then rest else e :: rest
  end.

(** What an event says of the session id, the endpoint and the token. *)
Definition session_said (e : Event) : option string :=
  match e with
  | VoiceStateUpdate u g c session =>
      if bool_decide (u = user) && bool_decide (g = Some guild) && bool_decide (c = Some channel)
      then Some session else None
  | _ => None
  end.
Definition endpoint_said (e : Event) : option string :=
  match e with
  | VoiceServerUpdate g endpoint _ => if bool_decide (g = guild) then endpoint ≫= non_empty else None
  | _ => None
  end.
Definition token_said (e : Event) : option string :=
  match e with
  | VoiceServerUpdate g _ token => if bool_decide (g = guild) then non_empty token else None
  | _ => None
  end.
Definition latest (said : Event -> option string) (es : list Event) : option string :=
  last (omap said (since_leave es)).
Definition history_context (es : list Event) : option TwVoiceContext :=
  session ← latest session_said es;
  endpoint ← latest endpoint_said es;
  token ← latest token_said es;
  Some (mkTwVoiceContext guild channel user session endpoint token).

(** The tracker after some events. *)
Definition observed (es : list Event) : VoiceContextTracker :=
  fold_left (fun t e => fst (observe t e)) es (Tracker_new guild channel user).

Lemma since_leave_snoc es e : since_leave (es ++ [e]) = if is_leave e then [] else since_leave es ++ [e].
Proof.
  induction es as [|x es IH]; cbn.
  - by destruct (is_leave e).
  - rewrite existsb_app, IH. cbn. destruct (is_leave e), (existsb is_leave es), (is_leave x); done.
Qed.
Lemma latest_snoc said es e :
  latest said (es ++ [e]) =
    if is_leave e then None else match said e with Some s => Some s | None => latest said es end.
Proof.
  unfold latest. rewrite since_leave_snoc. destruct (is_leave e); [done|]. rewrite omap_app. cbn.
  destruct (said e); [by rewrite last_snoc|by rewrite app_nil_r].
Qed.

(** What the tracker holds. *)
Record holds (es : list Event) (t : VoiceContextTracker) : Prop := {
  ho_ids : tr_guild_id t = guild /\ tr_channel_id t = channel /\ tr_user_id t = user;
  ho_session : tr_session_id t = latest session_said es;
  ho_endpoint : tr_endpoint t = latest endpoint_said es;
  ho_token : tr_token t = latest token_said es;
}.
Lemma holds_context es t : holds es t -> tracked_context t = history_context es.
Proof.
  intros [(E1 & E2 & E3) E4 E5 E6]. unfold tracked_context, history_context. by rewrite E1, E2, E3, E4, E5, E6.
Qed.

Lemma absorb_holds es t e : holds es t -> holds (es ++ [e]) (absorb t e).
Proof.
  intros [(E1 & E2 & E3) E4 E5 E6].
  split; rewrite ?latest_snoc; destruct e as [u g c session|g endpoint token|]; cbn;
    rewrite ?E1, ?E2, ?E3; try done; unfold non_empty;
    repeat (case_bool_decide; cbn; try congruence); try done; try (by destruct endpoint as [x|]; cbn; repeat case_bool_decide).
Qed.
Lemma absorb_current es t e : holds es t -> tr_current (absorb t e) = if is_leave e then None else tr_current t.
Proof.
  intros [(E1 & E2 & E3) _ _ _]. destruct e as [u g c session|g endpoint token|]; cbn; rewrite ?E1, ?E2, ?E3; try done;
    repeat (case_bool_decide; cbn); done.
Qed.

Lemma context_left es e : is_leave e = true -> history_context (es ++ [e]) = None.
Proof. intros H. unfold history_context. rewrite (latest_snoc session_said), H. reflexivity. Qed.
(** Until the bot leaves, a context stays known. *)
Lemma context_grows es e : is_leave e = false -> is_Some (history_context es) -> is_Some (history_context (es ++ [e])).
Proof.
  intros H [c Hc]. unfold history_context in *. rewrite !latest_snoc, H.
  destruct (latest session_said es), (latest endpoint_said es), (latest token_said es); try done.
  destruct (session_said e), (endpoint_said e), (token_said e); done.
Qed.

Lemma observe_holds es t e :
  holds es t -> tr_current t = history_context es ->
  let '(t', out) := observe t e in
  holds (es ++ [e]) t' /\ tr_current t' = history_context (es ++ [e]) /\
  out = if bool_decide (history_context (es ++ [e]) = history_context es) then None else history_context (es ++ [e]).
Proof.
  intros Hh Hc. pose proof (absorb_holds es t e Hh) as Ha. pose proof (absorb_current es t e Hh) as Hcur.
  unfold observe. rewrite (holds_context _ _ Ha). destruct (is_leave e) eqn:El.
  - rewrite (context_left es e El). split; [done|]. split; [done|]. by case_bool_decide.
  - rewrite Hcur, Hc. destruct (history_context (es ++ [e])) as [c|] eqn:Ec.
    + rewrite (bool_decide_ext (Some c = _) (history_context es = Some c)) by done.
      case_bool_decide as Eq; [by rewrite Hcur, Hc|]. split; [|done]. by destruct Ha.
    + assert (history_context es = None) as Hn.
      { destruct (history_context es) eqn:E; [|done]. destruct (context_grows es e El) as [? H]; [by rewrite E|congruence]. }
      rewrite Hcur, Hc, Hn. done.
Qed.

Lemma observed_holds es : holds es (observed es) /\ tr_current (observed es) = history_context es.
Proof.
  induction es as [|e es [IH1 IH2]] using rev_ind; [done|].
  unfold observed. rewrite fold_left_app. cbn. fold (observed es).
  pose proof (observe_holds es (observed es) e IH1 IH2) as H. destruct (observe (observed es) e). tauto.
Qed.

(** C29. The tracker refines the history of the gateway's events: its current
    context is made of the last session id, endpoint and token heard for its
    bot, guild and channel since the bot last left, and it reports a context
    exactly when an event completes or changes it. *)
Theorem tracker_refines_history es e :
  tr_current (observed es) = history_context es /\
  snd (observe (observed es) e) =
    if bool_decide (history_context (es ++ [e]) = history_context es) then None else history_context (es ++ [e]).
Proof.
  destruct (observed_holds es) as [H1 H2]. split; [done|].
  pose proof (observe_holds es (observed es) e H1 H2) as H. destruct (observe (observed es) e). tauto.
Qed.
End tracker.

(** ** Requests *)

#[local] Arguments blank : simpl never.

Section requests.
Context `{V : VoiceSession} `{T : ErrorText}.

(** The requests that carry something. *)
Inductive Request : Type :=
| RequestJoin (request : ProtoJoinVoiceRequest)
| RequestUpdate (request : ProtoUpdateVoiceContextRequest)
| RequestPlay (request : ProtoPlayRequest)
| RequestPause
| RequestResume
| RequestStop
| RequestLeave.
Definition method (r : Request) : string :=
  match r with
  | RequestJoin _ => "join_voice"
  | RequestUpdate _ => "update_voice_context"
  | RequestPlay _ => "play"
  | RequestPause => "pause"
  | RequestResume => "resume"
  | RequestStop => "stop"
  | RequestLeave => "leave_voice"
  end.
Definition serve (r : Request) : prog Runtime question answer ResumeTask (list RpcRecord * sresult unit) :=
  match r with
  | RequestJoin request => rpc_join_voice request
  | RequestUpdate request => rpc_update_voice_context request
  | RequestPlay request => rpc_play request
  | RequestPause => rpc_pause
  | RequestResume => rpc_resume
  | RequestStop => rpc_stop
  | RequestLeave => rpc_leave_voice
  end.

(** The command a request stands for, if every field it needs says something. *)
Definition complete_context (v : ProtoVoiceContext) : option VoiceContext :=
  if existsb blank [pbc_guild_id v; pbc_channel_id v; pbc_user_id v; pbc_session_id v; pbc_endpoint v; pbc_token v]
  then None
  else Some (mkVoiceContext (pbc_guild_id v) (pbc_channel_id v) (pbc_user_id v) (pbc_session_id v) (pbc_endpoint v)
               (pbc_token v)).
Definition requested (r : Request) : option Command :=
  match r with
  | RequestJoin request => JoinVoice <$> (pbj_voice request ≫= complete_context)
  | RequestUpdate request => UpdateVoiceContext <$> (pbu_voice request ≫= complete_context)
  | RequestPlay request => if blank (pbl_video_id request) then None else Some (Play (pbl_video_id request))
  | RequestPause => Some Pause
  | RequestResume => Some Resume
  | RequestStop => Some Stop
  | RequestLeave => Some LeaveVoice
  end.

Definition refused {A} (r : sresult A) : Prop := exists message, r = Err (invalid_argument message).

Lemma map_voice_context_spec v :
  match complete_context v with
  | Some voice => map_voice_context v = Ok voice
  | None => refused (map_voice_context v)
  end.
Proof.
  unfold complete_context, map_voice_context, validate_non_empty. cbn.
  repeat (destruct (blank _); cbn; [by eexists|]). done.
Qed.
Lemma requested_voice_spec v :
  match v ≫= complete_context with
  | Some voice => requested_voice v = Ok voice
  | None => refused (requested_voice v)
  end.
Proof. destruct v as [v|]; cbn; [apply map_voice_context_spec|by eexists]. Qed.

Lemma early_spec {A B} name (r : sresult A) (k : A -> prog Runtime question answer ResumeTask (list RpcRecord * sresult B)) :
  refused r -> exists message,
    observe_early_status name r k = mret ([(name, InvalidArgument)], Err (invalid_argument message)).
Proof. intros [message ->]. by exists message. Qed.

(** A request that lacks a field is refused as an invalid argument before the
    session is touched; any other becomes exactly its command, and an error of
    the command is a failed precondition with the error's text. Either way one
    call is recorded, with the code of the reply. *)
Lemma serve_spec r :
  match requested r with
  | None => exists message, serve r = mret ([(method r, InvalidArgument)], Err (invalid_argument message))
  | Some command => serve r = (reply ← handle_command command;
      mret ([(method r, code_of (map_err map_app_error reply))], map_err map_app_error reply))
  end.
Proof.
  destruct r as [request|request|request| | | |]; cbn [requested serve]; try done.
  - unfold rpc_join_voice. pose proof (requested_voice_spec (pbj_voice request)) as H.
    destruct (pbj_voice request ≫= complete_context); cbn; [by rewrite H|by apply early_spec].
  - unfold rpc_update_voice_context. pose proof (requested_voice_spec (pbu_voice request)) as H.
    destruct (pbu_voice request ≫= complete_context); cbn; [by rewrite H|by apply early_spec].
  - unfold rpc_play, validate_non_empty. destruct (blank _); cbn; [by eexists|done].
Qed.

(** ** The client on the service *)

(** What the runtime has published of its metrics. *)
Context (metrics : option Metrics.PlaybackStabilitySnapshot).

(** The generated client with the service at its other end. *)
#[local] Instance service_api : ControlApi (St := Runtime) (Q := question) (answer := answer) (Sp := ResumeTask) := {|
  api_join_voice request := r ← rpc_join_voice request; mret r.2;
  api_update_voice_context request := r ← rpc_update_voice_context request; mret r.2;
  api_play request := r ← rpc_play request; mret r.2;
  api_pause := r ← rpc_pause; mret r.2;
  api_resume := r ← rpc_resume; mret r.2;
  api_stop := r ← rpc_stop; mret r.2;
  api_leave_voice := r ← rpc_leave_voice; mret r.2;
  api_get_state := r ← rpc_get_state; mret r.2;
  api_get_playback_metrics := mret (Ok (map_playback_stability_snapshot metrics));
|}.
Context `{TM : TwilightModel} `{TL : !TwilightModelLaws} (debug : string -> string).

(** *** Ids *)

Lemma digits_not_blank (s : string) :
  s <> EmptyString -> (forall c, digit_value c = None -> free_of c s) -> blank s = false.
Proof.
  destruct s as [|c s]; [done|]. intros _ H.
  assert (digit_value c <> None) as Hd by (intros E; by destruct (H c E)).
  unfold digit_value in Hd. unfold blank, string_bytes. cbn [String.list_ascii_of_string map].
  set (n := Z.of_N (Ascii.N_of_ascii c)) in *. set (rest := map _ _). clearbody n rest.
  destruct ((48 <=? n) && (n <=? 57)) eqn:E; [|done]. apply andb_true_iff in E as [E1%Z.leb_le E2%Z.leb_le].
  assert (n = 48 \/ n = 49 \/ n = 50 \/ n = 51 \/ n = 52 \/ n = 53 \/ n = 54 \/ n = 55 \/ n = 56 \/ n = 57) as Hn by lia.
  by destruct_or! Hn; subst n.
Qed.
Lemma id_not_blank i : blank (id_to_string i) = false.
Proof. apply digits_not_blank; [apply id_not_empty|apply id_digits]. Qed.

Lemma parse_printed_id field i : parse_optional_id field (id_to_string i) = Ok (Some i).
Proof. unfold parse_optional_id. by rewrite bool_decide_eq_false_2, id_roundtrip by apply id_not_empty. Qed.
Lemma parse_sent_id field (i : option Id) : parse_optional_id field (default EmptyString (id_to_string <$> i)) = Ok i.
Proof. destruct i; [apply parse_printed_id|done]. Qed.

(** *** State and events *)

(** The client's name of a state, and of an event. *)
Definition client_state (s : SessionState) : TwSessionState :=
  match s with
  | Idle => TS_Idle | ConnectingVoice => TS_ConnectingVoice | VoiceReady => TS_VoiceReady
  | ResolvingTrack => TS_ResolvingTrack | Buffering => TS_Buffering | Playing => TS_Playing | Paused => TS_Paused
  | Stopping => TS_Stopping | SError => TS_Error
  end.
Definition client_kind (k : SessionEventKind) : TwSessionEventKind :=
  match k with
  | EVoiceConnecting => TK_VoiceConnecting | EVoiceReady => TK_VoiceReady | ETrackResolving => TK_TrackResolving
  | EBuffering => TK_Buffering | EPlaying => TK_Playing | EPaused => TK_Paused | EStopped => TK_Stopped
  | ETrackEnded => TK_TrackEnded | EPlaybackInterrupted => TK_PlaybackInterrupted
  | ERecoverableWarning => TK_RecoverableWarning | EFatalError => TK_FatalError
  | EVoiceReconnecting => TK_VoiceReconnecting
  end.

(** A snapshot whose place was set through the client. *)
Record placed (g c : option Id) (s : Snapshot) : Prop := {
  pl_guild : guild_id s = id_to_string <$> g;
  pl_channel : channel_id s = id_to_string <$> c;
  pl_video : current_video_id s <> Some EmptyString;
  pl_itag : selected_itag s <> Some 0;
  pl_reason : last_reason s <> Some EmptyString;
  pl_depth : queue_depth s <= u32_max;
}.
Definition client_view (g c : option Id) (s : Snapshot) : StateSnapshot :=
  mkStateSnapshot (client_state (s_state s)) g c (current_video_id s) (queue_depth s) (selected_itag s) (last_reason s).

Lemma state_reaches_client g c s :
  placed g c s -> StateSnapshot_try_from (state_reply s) = Ok (client_view g c s).
Proof.
  intros [Hg Hc Hv Hi Hr Hq]. unfold StateSnapshot_try_from, state_reply. cbn. rewrite Hg, Hc, !parse_sent_id. cbn.
  unfold client_view, try_uint. rewrite (proj2 (Z.leb_le _ _) Hq), !non_empty_default, non_zero_default by done.
  by destruct (s_state s).
Qed.
Lemma event_reaches_client g c k s :
  placed g c s ->
  SessionEvent_try_from (map_session_event (from_snapshot k s)) =
    Ok (mkTwSessionEvent (client_kind k) g c (current_video_id s) (selected_itag s) (last_reason s) None TR_Unspecified).
Proof.
  intros [Hg Hc Hv Hi Hr Hq]. unfold SessionEvent_try_from, map_session_event. cbn. rewrite Hg, Hc, !parse_sent_id. cbn.
  rewrite !non_empty_default, non_zero_default by done. by destruct k.
Qed.

(** *** Joining *)

(** A join leaves no track, no reason and nothing queued behind. *)
Lemma wp_join_clears voice r :
  CommandSpecs.quiet r -> ensure_joinable_session (rt_state r) = Ok tt ->
  wp Valid (join_voice voice) (fun _ r' =>
    set_reason None (clear_track (rt_state r')) = rt_state r') r.
Proof.
  intros [Hs Hl] Hj. destruct r as [s]. cbn in *; subst. rewrite Hj. cbn.
  intros [session|e|] Hc; cbn; [|done..].
  intros [[[]|e|] session'] [Hp Hk]; cbn in *; [|done..].
  unfold joined. by destruct (is_connected session'); cbn.
Qed.

Definition sayable (v : TwVoiceContext) : Prop :=
  blank (tv_session_id v) = false /\ blank (tv_endpoint v) = false /\ blank (tv_token v) = false.
Definition voice_of (v : TwVoiceContext) : VoiceContext :=
  mkVoiceContext (id_to_string (tv_guild_id v)) (id_to_string (tv_channel_id v)) (id_to_string (tv_user_id v))
    (tv_session_id v) (tv_endpoint v) (tv_token v).

Lemma complete_sayable v : sayable v -> complete_context (into_proto v) = Some (voice_of v).
Proof. intros (H1 & H2 & H3). unfold complete_context. cbn. by rewrite !id_not_blank, H1, H2, H3. Qed.

(** A client's join is the command, with the error as a status. *)
Lemma wp_client_join v post r :
  sayable v ->
  wp Valid (handle_command (JoinVoice (voice_of v))) (fun reply => post (map_err map_app_error reply)) r ->
  wp Valid (Client_join_voice v) post r.
Proof.
  intros Hv Hw. apply wp_bind. pose proof (serve_spec (RequestJoin (mkProtoJoinVoiceRequest (Some (into_proto v))))) as E.
  cbn [requested serve pbj_voice] in E. cbn [mbind option_bind] in E. rewrite (complete_sayable v Hv) in E.
  cbn [fmap option_fmap option_map] in E. rewrite E. apply wp_bind. eapply wp_mono; [|exact Hw]. done.
Qed.
Lemma wp_client_state g c r post :
  CommandSpecs.quiet r -> placed g c (rt_state r) -> post (Ok (client_view g c (rt_state r))) r ->
  wp Valid (Client_state debug) post r.
Proof. intros [Hs _] Hp H. cbn. rewrite Hs. cbn. by rewrite (state_reaches_client g c). Qed.

(** A bot that joins through the client sees itself in the channel it asked
    for, by the same ids, and nothing playing; if the join is refused by the
    session the client gets a failed precondition, and the session says that it
    is still connecting. *)
Theorem joined_client_sees_channel v r :
  CommandSpecs.quiet r -> ensure_joinable_session (rt_state r) = Ok tt -> sayable v ->
  wp Valid (joined ← Client_join_voice v; seen ← Client_state debug; mret (joined, seen))
    (fun '(joined, seen) _ => exists sn, seen = Ok sn /\
       ts_guild_id sn = Some (tv_guild_id v) /\ ts_channel_id sn = Some (tv_channel_id v) /\
       ts_current_video_id sn = None /\ ts_queue_depth sn = 0 /\
       match joined with
       | Ok _ => ts_state sn = TS_VoiceReady \/ ts_state sn = TS_ConnectingVoice
       | Err status => st_code status = FailedPrecondition /\ ts_state sn = TS_ConnectingVoice
       | Panic => False
       end) r.
Proof.
  intros Hq Hj Hv. apply wp_bind, wp_client_join; [done|].
  eapply wp_mono; [|apply wp_and; [exact (wp_join (voice_of v) r Hq Hj)|exact (wp_join_clears (voice_of v) r Hq Hj)]].
  intros reply r' [(Hq' & _ & Hg & Hc & Hr) Hclear]. apply wp_bind.
  apply (wp_client_state (Some (tv_guild_id v)) (Some (tv_channel_id v))); [done| |].
  { split; [done|done|rewrite <- Hclear; done..]. }
  cbn. eexists. split; [done|]. unfold client_view. rewrite <- Hclear. cbn. split_and!; try done.
  destruct reply as [[]|e|]; cbn; [|destruct Hr as [Hr _]|done].
  - destruct Hr as (session & _ & _ & -> & _). destruct (is_connected session); [by left|by right].
  - by rewrite Hr.
Qed.
End requests.

(** ** A bot *)

Module Sample.
Import Concrete.

Definition id (n : Z) (H : bool_decide (0 < n <= u64_max)) : Id := n ↾ H.
Definition bot : TwVoiceContext := mkTwVoiceContext (id 11 I) (id 22 I) (id 33 I) "s" "voice.example" "t".

(** The bot hears its state and a server, then the same server again, then a
    new token; then it leaves. *)
Definition heard : list Event :=
  [VoiceStateUpdate (id 33 I) (Some (id 11 I)) (Some (id 22 I)) "s";
   VoiceServerUpdate (id 11 I) (Some "voice.example"%string) "t";
   VoiceServerUpdate (id 11 I) (Some "voice.example"%string) "t"].
Definition at_home : list Event -> VoiceContextTracker := observed (id 11 I) (id 22 I) (id 33 I).

Lemma tracker_refines_history_witness :
  tv_token <$> tr_current (at_home heard) = Some "t"%string /\
  tv_token <$> snd (observe (at_home heard) (VoiceServerUpdate (id 11 I) None "u")) = Some "u"%string /\
  tv_token <$> snd (observe (at_home heard) (VoiceStateUpdate (id 33 I) (Some (id 11 I)) None "s")) = None.
Proof.
  destruct (tracker_refines_history (id 11 I) (id 22 I) (id 33 I) heard (VoiceServerUpdate (id 11 I) None "u")) as [H1 H2].
  destruct (tracker_refines_history (id 11 I) (id 22 I) (id 33 I) heard
    (VoiceStateUpdate (id 33 I) (Some (id 11 I)) None "s")) as [_ H3].
  unfold at_home. rewrite H1, H2, H3. split; [|split]; vm_compute; reflexivity.
Defined.

Lemma joined_client_sees_channel_witness :
  wp Valid (joined ← Client_join_voice (API := service_api None) bot;
            seen ← Client_state (API := service_api None) (fun s => s); mret (joined, seen))
    (fun '(_, seen) _ => exists sn, seen = Ok sn /\ ts_guild_id sn = Some (id 11 I)) (new_runtime true).
Proof.
  eapply wp_mono; [|exact (joined_client_sees_channel None (fun s => s) bot (new_runtime true) (conj eq_refl eq_refl) eq_refl
    (conj eq_refl (conj eq_refl eq_refl)))].
  intros [joined seen] r' (sn & H1 & H2 & _). by exists sn.
Defined.
End Sample.
