(* ===== verification/Service.v ===== *)
(** * The service binary

    crates/discord-voice-service/src: the settings (config.rs), and what the
    binary does with them (lib.rs): it boots, and probes the music service in a
    loop that keeps the readiness of the process and the status of the health
    service. Starting the server, connecting to the music service and the
    probe's connection are asked of the outside. *)

From S2P Require Import Prelude Text VoiceErrors DeadlineSender SessionState Endpoint Gateway ControlService.
From stdpp Require Import prelude strings.
From Stdlib Require Import Ascii.
Open Scope Z_scope.

(** ** [SocketAddr::from_str] *)

Record SocketAddr : Type := mkSocketAddr {
  sa_ip : IpAddr;
  sa_scope_id : Z;
  sa_port : Z;
}.
Definition read_decimal (max : Z) : parser Z := fun s => read_number 10 max (Z.of_nat (String.length s)) true s.
Definition read_port : parser Z := fun s => '(_, s) ← read_given_char ":"%char s; read_decimal u16_max s.
Definition read_scope_id : parser Z := fun s => '(_, s) ← read_given_char "%"%char s; read_decimal u32_max s.
Definition read_socket_addr_v4 : parser SocketAddr := fun s =>
  '(octets, s) ← read_ipv4_addr s;
  '(port, s) ← read_port s;
  Some (mkSocketAddr (V4 octets) 0 port, s).
Definition read_socket_addr_v6 : parser SocketAddr := fun s =>
  '(_, s) ← read_given_char "["%char s;
  '(segments, s) ← read_ipv6_addr s;
  let '(scope, s) := default (0, s) (read_scope_id s) in
  '(_, s) ← read_given_char "]"%char s;
  '(port, s) ← read_port s;
  Some (mkSocketAddr (V6 segments) scope port, s).
Definition socket_addr_from_str (s : string) : option SocketAddr :=
  match (match read_socket_addr_v4 s with Some r => Some r | None => read_socket_addr_v6 s end) with
  | Some (addr, EmptyString) => Some addr
  | _ => None
  end.

(** ** config.rs *)

Definition MISSING_BIND_ADDR : string := "missing DISCORD_VOICE_SERVICE_BIND_ADDR".
Definition INVALID_BIND_ADDR : string := "invalid DISCORD_VOICE_SERVICE_BIND_ADDR".
Definition MISSING_YTMUSIC_ADDR : string := "missing DISCORD_VOICE_SERVICE_YTMUSIC_ADDR".
Definition INVALID_YTMUSIC_ADDR : string := "invalid DISCORD_VOICE_SERVICE_YTMUSIC_ADDR".

Record Settings : Type := mkSettings {
  bind_addr : SocketAddr;
  ytmusic_addr : string;
}.

Section config.
Context `{HttpUri}.

Definition validate_ytmusic_addr (value : string) : rresult unit :=
  match uri_parse value with
  | Ok uri =>
      match up_scheme uri, up_authority uri with
      | Some scheme, Some _ =>
          if bool_decide (scheme = "http"%string) || bool_decide (scheme = "https"%string)
          then Ok tt else Err (RInvalidState INVALID_YTMUSIC_ADDR)
      | _, _ => Err (RInvalidState INVALID_YTMUSIC_ADDR)
      end
  | Err _ => Err (RInvalidState INVALID_YTMUSIC_ADDR)
  | Panic => Panic
  end.

Definition from_values (bind ytmusic : string) : rresult Settings :=
  addr ← ok_or (socket_addr_from_str bind) (RInvalidState INVALID_BIND_ADDR);
  _ ← validate_ytmusic_addr ytmusic;
  Ok (mkSettings addr ytmusic).

(** The variables of the process: absent, not UTF-8, or a value. *)
Inductive EnvVar : Type := NotPresent | NotUnicode | Present (value : string).
Definition missing_env_error (key : string) : string :=
  if bool_decide (key = "DISCORD_VOICE_SERVICE_BIND_ADDR"%string) then MISSING_BIND_ADDR
  else if bool_decide (key = "DISCORD_VOICE_SERVICE_YTMUSIC_ADDR"%string) then MISSING_YTMUSIC_ADDR
  else "missing required environment variable".
Definition invalid_env_error (key : string) : string :=
  if bool_decide (key = "DISCORD_VOICE_SERVICE_BIND_ADDR"%string) then INVALID_BIND_ADDR
  else if bool_decide (key = "DISCORD_VOICE_SERVICE_YTMUSIC_ADDR"%string) then INVALID_YTMUSIC_ADDR
  else "invalid environment variable".
Definition read_env (env : string -> EnvVar) (key : string) : rresult string :=
  match env key with
  | Present value => Ok value
  | NotPresent => Err (RInvalidState (missing_env_error key))
  | NotUnicode => Err (RInvalidState (invalid_env_error key))
  end.
Definition from_env (env : string -> EnvVar) : rresult Settings :=
  bind ← read_env env "DISCORD_VOICE_SERVICE_BIND_ADDR";
  ytmusic ← read_env env "DISCORD_VOICE_SERVICE_YTMUSIC_ADDR";
  from_values bind ytmusic.

(** [from_pairs]: in a map made of pairs, the last of a key counts. *)
Definition pair_value (pairs : list (string * string)) (key : string) : option string :=
  last (omap (fun p => if bool_decide (p.1 = key) then Some p.2 else None) pairs).
Definition from_pairs (pairs : list (string * string)) : rresult Settings :=
  bind ← ok_or (pair_value pairs "DISCORD_VOICE_SERVICE_BIND_ADDR") (RInvalidState MISSING_BIND_ADDR);
  ytmusic ← ok_or (pair_value pairs "DISCORD_VOICE_SERVICE_YTMUSIC_ADDR") (RInvalidState MISSING_YTMUSIC_ADDR);
  from_values bind ytmusic.
End config.

(** ** lib.rs *)

(** Readiness, the counters and the status the health service reports. *)
Record Process : Type := mkProcess {
  ps_readiness : ReadinessSnapshot;
  ps_observability : Observability;
  ps_serving : bool;
}.

(** [mark_...] of readiness.rs: the flag, then what observability makes of it. *)
Definition mark (f : ReadinessSnapshot -> ReadinessSnapshot) (p : Process) : Process :=
  let readiness := f (ps_readiness p) in
  mkProcess readiness (record_readiness readiness (ps_observability p)) (ps_serving p).
Definition set_serving_status (serving : bool) (p : Process) : Process :=
  mkProcess (ps_readiness p) (ps_observability p) serving.

(** [run] up to the server. *)
Definition boot (p : Process) : Process := set_serving_status false (mark mark_runtime_booted p).

(** A turn of [run_ytmusic_probe_loop]; [healthy] is what the probe found. *)
Definition probed (p : Process) (healthy : bool) : Process :=
  let p := mkProcess (ps_readiness p) (record_ytmusic_probe (ps_observability p)) (ps_serving p) in
  if healthy then set_serving_status true (mark mark_ytmusic_healthy p)
  else set_serving_status false (mark mark_ytmusic_unhealthy p).
Definition probe_loop (results : list bool) (p : Process) : Process := fold_left probed results p.

(** ** Theorems *)

(** The last probe decides: the health status, the readiness that callers see
    and what observability remembers are the same. *)
Definition consistent (healthy : bool) (p : Process) : Prop :=
  ps_serving p = healthy /\ ps_readiness p = mkReadiness true healthy /\ ob_last_ready (ps_observability p) = healthy.

Lemma probed_consistent b healthy p : consistent b p -> consistent healthy (probed p healthy).
Proof. intros (H1 & H2 & H3). destruct healthy; unfold probed, mark; cbn; rewrite H2; done. Qed.

(** How often the answers change, from [b] on. *)
Fixpoint changes (b : bool) (results : list bool) : Z :=
  match results with [] => 0 | x :: rest => (if Bool.eqb b x then 0 else 1) + changes x rest end.

Lemma changes_bound b results : 0 <= changes b results <= zlen results.
Proof.
  revert b. induction results as [|x rest IH]; intros b; cbn [changes]; [unfold zlen; cbn; lia|].
  rewrite zlen_cons. specialize (IH x). destruct (Bool.eqb b x); lia.
Qed.

Lemma probe_loop_spec results b p :
  consistent b p ->
  0 <= ob_ytmusic_probe_total (ps_observability p) -> 0 <= ob_readiness_transitions_total (ps_observability p) ->
  ob_ytmusic_probe_total (ps_observability p) + zlen results <= u64_max ->
  ob_readiness_transitions_total (ps_observability p) + zlen results <= u64_max ->
  let p' := probe_loop results p in
  consistent (default b (last results)) p' /\
  ob_ytmusic_probe_total (ps_observability p') = ob_ytmusic_probe_total (ps_observability p) + zlen results /\
  ob_readiness_transitions_total (ps_observability p') =
    ob_readiness_transitions_total (ps_observability p) + changes b results.
Proof.
  revert b p. induction results as [|x rest IH]; intros b p Hc Hp Ht Bp Bt; cbn zeta.
  - change (zlen []) with 0. cbn. split; [done|lia].
  - assert (Hw : forall n, 0 <= n -> n + 1 <= u64_max -> wrapping_add 64 n 1 = n + 1).
    { intros n H0 H1. unfold wrapping_add, wrap. apply Z.mod_small. unfold u64_max in H1. lia. }
    rewrite zlen_cons in *. pose proof (zlen_nonneg rest) as Hl.
    destruct (IH x (probed p x) (probed_consistent b x p Hc)) as (H1 & H2 & H3); destruct Hc as (C1 & C2 & C3);
      try (destruct x; unfold probed, mark; cbn; rewrite ?C2, ?C3; destruct b; cbn; rewrite ?Hw; lia).
    change (probe_loop (x :: rest) p) with (probe_loop rest (probed p x)). rewrite H2, H3. split; [|split].
    + rewrite last_cons. by destruct (last rest).
    + destruct x; unfold probed, mark; cbn; rewrite Hw; lia.
    + cbn [changes]. destruct x; unfold probed, mark; cbn; rewrite ?C2, ?C3; destruct b; cbn; rewrite ?Hw; lia.
Qed.

(** A process that has booted is consistent with an unhealthy music service,
    and not ready before the first probe. *)
Lemma boot_consistent : consistent false (boot (mkProcess Readiness_default Observability_default false)).
Proof. done. Qed.

Example bind_v4 : socket_addr_from_str "0.0.0.0:50051" = Some (mkSocketAddr (V4 [0; 0; 0; 0]) 0 50051).
Proof. reflexivity. Qed.
Example bind_v6 : socket_addr_from_str "[::1]:8080" = Some (mkSocketAddr (V6 [0; 0; 0; 0; 0; 0; 0; 1]) 0 8080).
Proof. reflexivity. Qed.
Example bind_name : socket_addr_from_str "localhost:8080" = None.
Proof. reflexivity. Qed.
