(* ===== verification/Anyhow.v ===== *)
(** * Errors of the live-validation tool

    The tool reports failures with the anyhow crate: [bail!] makes an error
    from a format string and its arguments, [context] puts a message in front
    of an error. An error is the chain of its messages, the outermost first;
    a message is kept as its format string and arguments. *)

From S2P Require Import Prelude.
From stdpp Require Import prelude strings.
Open Scope Z_scope.

(** [Fields] holds the numbers of a value printed with [{:?}]. *)
Inductive Arg : Type :=
| Num (n : Z)
| Text (s : string)
| MaybeNum (n : option Z)
| MaybeText (s : option string)
| Fields (ns : list Z).

Record Message : Type := mkMessage {
  msg_format : string;
  msg_args : list Arg;
}.

Definition AnyError : Type := list Message.
Abbreviation anyhow := (result AnyError).

Definition bail {A} (format : string) (args : list Arg) : anyhow A := Err [mkMessage format args].
(** [if b { bail!(...) }] *)
Definition bail_if (b : bool) (format : string) (args : list Arg) : anyhow unit :=
  if b then bail format args else Ok tt.
(** [ok_or_else(|| anyhow!(...))], and [context] on an [Option]. *)
Definition ok_or_bail {A} (o : option A) (format : string) (args : list Arg) : anyhow A :=
  match o with Some a => Ok a | None => bail format args end.
Definition context {A} (format : string) (args : list Arg) (r : anyhow A) : anyhow A :=
  map_err (cons (mkMessage format args)) r.
(** [map_err(anyhow::Error::msg)] on a [Result] whose error is a string. *)
Definition error_msg {A} (r : result string A) : anyhow A :=
  map_err (fun s => [mkMessage "{}" [Text s]]) r.
(** [catch_unwind(...).map_err(...)]: a panic becomes an error. *)
Definition catch_unwind {A} (format : string) (args : list Arg) (r : anyhow A) : anyhow A :=
  match r with Panic => bail format args | _ => r end.

(** ** Chains of checks *)

Lemma bail_if_Ok b format args u : bail_if b format args = Ok u <-> b = false.
Proof. destruct b, u; simpl; split; intros H; try discriminate H; reflexivity. Qed.
Lemma bail_if_then {A} b format args (k : unit -> anyhow A) a :
  (bail_if b format args ≫= k) = Ok a <-> b = false /\ k tt = Ok a.
Proof. destruct b; simpl; split; [discriminate|intros [? _]; discriminate|intros H; split; [reflexivity|exact H]|intros [_ H]; exact H]. Qed.
Lemma ok_or_bail_Ok {A} (o : option A) format args a : ok_or_bail o format args = Ok a <-> o = Some a.
Proof. unfold bail. destruct o; simpl; split; intros H; by simplify_eq/=. Qed.
Lemma context_Ok {A} format args (r : anyhow A) a : context format args r = Ok a <-> r = Ok a.
Proof. unfold context, catch_unwind, bail. destruct r; simpl; split; intros H; by simplify_eq/=. Qed.
Lemma catch_unwind_Ok {A} format args (r : anyhow A) a : catch_unwind format args r = Ok a <-> r = Ok a.
Proof. unfold context, catch_unwind, bail. destruct r; simpl; split; intros H; by simplify_eq/=. Qed.
Lemma bail_if_no_panic b format args : no_panic (bail_if b format args).
Proof. destruct b; exact I. Qed.
