(* ===== verification/Timeline.v ===== *)
(** * Timed packets

    Both ends of a playback measure it the same way: the sender's metrics
    (Metrics.v), the observer of a live run (AudioObserver.v) and the validator
    that recomputes the metrics (PlaybackValidator.v) each keep the instants and
    durations of packets, cut into stretches by pauses, and derive the time on
    air, the intervals and rolling tempo windows. This file states what those
    measures are for a list of stretches, independently of any of the three. *)

From S2P Require Import Prelude Metrics.
From stdpp Require Import prelude.
Open Scope Z_scope.

(** [slice::windows] *)
Fixpoint windows {A} (n : nat) (l : list A) : list (list A) :=
  match l with
  | [] => []
  | _ :: l' => if (length l <? n)%nat then [] else take n l :: windows n l'
  end.

Lemma windows_short {A} n (l : list A) : (length l < n)%nat -> windows n l = [].
Proof. destruct l; [done|]. intros Hl. unfold windows. by rewrite (proj2 (Nat.ltb_lt _ _) Hl). Qed.
Lemma windows_snoc {A} n (l : list A) x :
  (0 < n)%nat ->
  windows n (l ++ [x]) =
    windows n l ++ (if (length (l ++ [x]) <? n)%nat then [] else [drop (length (l ++ [x]) - n) (l ++ [x])]).
Proof.
  intros Hn. induction l as [|y l IH].
  - simpl. destruct n as [|[|n]]; [lia|done|done].
  - simpl app. simpl windows. rewrite IH. simpl length. rewrite length_app. simpl length.
    destruct (Nat.ltb_spec (S (length l)) n), (Nat.ltb_spec (length l + 1) n), (Nat.ltb_spec (S (length l + 1)) n);
      try lia; try done.
    + rewrite windows_short by lia. simpl. replace (S (length l + 1) - n)%nat with 0%nat by lia.
      rewrite take_ge; [done|]. simpl. rewrite length_app. simpl. lia.
    + replace (S (length l + 1) - n)%nat with (S (length l + 1 - n))%nat by lia.
      change (y :: l ++ [x]) with ((y :: l) ++ [x]). rewrite (take_app_le (y :: l)) by (simpl; lia). done.
Qed.
Lemma windows_length {A} n (l : list A) w : w ∈ windows n l -> length w = n.
Proof.
  induction l as [|y l IH]; [by intros ?%elem_of_nil|].
  simpl windows. destruct (Nat.ltb_spec (S (length l)) n); [by intros ?%elem_of_nil|].
  intros [->|Hw]%elem_of_cons; [|by apply IH]. rewrite length_take. simpl in *. lia.
Qed.

(** ** Stretches *)

Record Tick : Type := mkTick {
  tk_at : Z;
  tk_duration : Z;
}.

(** From the first packet to the end of the last. *)
Definition span (l : list Tick) : Z :=
  match head l, last l with
  | Some first, Some last => tk_at last - tk_at first + tk_duration last
  | _, _ => 0
  end.
Definition media (l : list Tick) : Z := sum_by tk_duration l.
Fixpoint intervals (l : list Tick) : list Z :=
  match l with
  | a :: ((b :: _) as l') => tk_at b - tk_at a :: intervals l'
  | _ => []
  end.
Definition window_ratio (w : list Tick) : Z := media_to_wall_clock_ratio_ppm_duration (media w) (span w).

(** Packets in the order of their instants, with durations. *)
Definition in_order (l : list Tick) : Prop :=
  Forall (fun t => 0 <= tk_duration t) l /\ Forall (fun d => 0 <= d) (intervals l).

Lemma intervals_snoc l a b : intervals ((l ++ [a]) ++ [b]) = intervals (l ++ [a]) ++ [tk_at b - tk_at a].
Proof.
  induction l as [|x l IH]; [done|]. destruct l as [|y l]; [done|].
  change (((x :: y :: l) ++ [a]) ++ [b]) with (x :: y :: (l ++ [a]) ++ [b]).
  change ((x :: y :: l) ++ [a]) with (x :: y :: l ++ [a]). simpl intervals in *. simpl. f_equal. apply IH.
Qed.
Lemma in_order_snoc l a b : in_order ((l ++ [a]) ++ [b]) -> in_order (l ++ [a]) /\ tk_at a <= tk_at b /\ 0 <= tk_duration b.
Proof.
  intros [Hd Hi]. rewrite intervals_snoc in Hi. apply Forall_app in Hd as [Hd Hb], Hi as [Hi Hab].
  apply Forall_inv in Hb, Hab. split_and!; [by split|lia|done].
Qed.
Lemma in_order_last l a : in_order (l ++ [a]) -> 0 <= tk_duration a.
Proof. intros [Hd _]. by apply Forall_app in Hd as [_ Hd%Forall_inv]. Qed.

Lemma span_snoc l a b :
  span ((l ++ [a]) ++ [b]) = span (l ++ [a]) - tk_duration a + (tk_at b - tk_at a) + tk_duration b.
Proof.
  unfold span. rewrite !last_snoc. destruct l as [|x l]; simpl; lia.
Qed.
(** The last packet lies within its stretch. *)
Lemma span_last l a : in_order (l ++ [a]) -> tk_duration a <= span (l ++ [a]).
Proof.
  induction l as [|x l IH] using rev_ind in a |- *; [unfold span; simpl; lia|].
  intros (Hx & Hxa & Ha)%in_order_snoc. pose proof (IH _ Hx). rewrite span_snoc. lia.
Qed.
Lemma span_nonneg l : in_order l -> 0 <= span l.
Proof.
  destruct l as [|a l _] using rev_ind; [done|]. intros H.
  pose proof (span_last _ _ H). pose proof (in_order_last _ _ H). lia.
Qed.

(** ** The clock of a recorder *)

(** The time on air after a packet: the previous packet, counted with its
    duration, lasts until this one. *)
Definition clock_step (last_at last_duration : option Z) (elapsed at_ duration : Z) : Z :=
  match last_at with
  | None => elapsed + duration
  | Some previous =>
      match last_duration with
      | Some previous_duration => sat_sub elapsed previous_duration + sat_sub at_ previous + duration
      | None => elapsed
      end
  end.
Lemma clock_step_span before l t :
  in_order (l ++ [t]) -> 0 <= before ->
  clock_step (tk_at <$> last l) (tk_duration <$> last l) (before + span l) (tk_at t) (tk_duration t)
    = before + span (l ++ [t]).
Proof.
  destruct l as [|a l _] using rev_ind.
  - intros _ _. unfold span. simpl. lia.
  - intros (Hl & Hat & Ht)%in_order_snoc Hb. rewrite last_snoc, span_snoc. simpl.
    pose proof (span_last _ _ Hl). rewrite !sat_sub_exact by lia. lia.
Qed.

(** *** Counting windows *)

Definition count (P : list Tick -> bool) (ws : list (list Tick)) : Z := zlen (List.filter P ws).
Lemma count_snoc P ws w : count P (ws ++ [w]) = count P ws + (if P w then 1 else 0).
Proof. unfold count. rewrite List.filter_app, zlen_app. simpl. destruct (P w); reflexivity. Qed.
Lemma count_le P ws : 0 <= count P ws <= zlen ws.
Proof. unfold count, zlen. pose proof (List.filter_length_le P ws). lia. Qed.
Lemma windows_le {A} n (l : list A) : (length (windows n l) <= length l)%nat.
Proof. induction l as [|x l IH]; [done|]. simpl windows. destruct (_ <? _)%nat; simpl; lia. Qed.

(** All tempo windows of a list of stretches; none spans two of them. *)
Definition tempo_windows (n : nat) (stretches : list (list Tick)) : list (list Tick) :=
  concat (map (windows n) stretches).
Lemma tempo_windows_le n stretches : zlen (tempo_windows n stretches) <= zlen (concat stretches).
Proof.
  induction stretches as [|l stretches IH]; [done|]. unfold tempo_windows in *. simpl. rewrite !zlen_app.
  pose proof (windows_le n l). unfold zlen in *. lia.
Qed.

(** *** Windows in order *)

Lemma in_order_tail t l : in_order (t :: l) -> in_order l.
Proof.
  intros [Hd Hi]. apply Forall_cons in Hd as [_ Hd]. split; [done|].
  destruct l as [|u l]; [done|]. simpl intervals in *. by apply Forall_cons in Hi as [_ Hi].
Qed.
Lemma in_order_drop n l : in_order l -> in_order (drop n l).
Proof. induction l as [|t l IH] in n |- *; destruct n; try done. intros H%in_order_tail. by apply IH. Qed.
Lemma in_order_head_last l first last_ :
  in_order l -> head l = Some first -> last l = Some last_ -> tk_at first <= tk_at last_.
Proof.
  destruct l as [|a l]; [done|]. intros H [= <-]. revert a H.
  induction l as [|b l IH]; intros a H; [by intros [= <-]|]. intros Hl.
  pose proof H as [_ Hi]. simpl in Hi. apply Forall_cons in Hi as [Hab _].
  pose proof (IH b (in_order_tail _ _ H) Hl). lia.
Qed.
Lemma span_sat l first last_ :
  in_order l -> head l = Some first -> last l = Some last_ ->
  sat_sub (tk_at last_) (tk_at first) + tk_duration last_ = span l.
Proof.
  intros H Hf Hl. pose proof (in_order_head_last _ _ _ H Hf Hl). unfold span. rewrite Hf, Hl, sat_sub_exact; lia.
Qed.

(** The window a packet completes. *)
Definition latest {A} (n : nat) (l : list A) : list (list A) :=
  if (length l <? n)%nat then [] else [drop (length l - n) l].
Lemma tempo_windows_snoc n before l t :
  (0 < n)%nat -> tempo_windows n (before ++ [l ++ [t]]) = tempo_windows n (before ++ [l]) ++ latest n (l ++ [t]).
Proof.
  intros Hn. unfold tempo_windows, latest. rewrite !map_app, !concat_app. simpl.
  by rewrite !app_nil_r, windows_snoc, app_assoc by done.
Qed.
Lemma tempo_windows_nil n before : tempo_windows n (before ++ [[]]) = tempo_windows n before.
Proof. unfold tempo_windows. rewrite map_app, concat_app. simpl. by rewrite app_nil_r. Qed.
Lemma latest_map {A B} (f : A -> B) n l : latest n (map f l) = map (map f) (latest n l).
Proof. unfold latest. rewrite length_map. destruct (_ <? _)%nat; [done|]. simpl. by rewrite skipn_map. Qed.
Lemma latest_in_order n l w : in_order l -> w ∈ latest n l -> in_order w.
Proof.
  unfold latest. destruct (_ <? _)%nat; [by intros _ ?%elem_of_nil|].
  intros H ->%list_elem_of_singleton. by apply in_order_drop.
Qed.
Lemma latest_nonempty {A} n (l : list A) w : (0 < n)%nat -> w ∈ latest n l -> w <> [].
Proof.
  unfold latest. destruct (Nat.ltb_spec (length l) n); [by intros _ ?%elem_of_nil|].
  intros Hn ->%list_elem_of_singleton Hd. apply (f_equal length) in Hd. rewrite length_drop in Hd. simpl in Hd. lia.
Qed.
