(* ===== verification/AudioObserver.v ===== *)
(** * The audio observer of the live validation

    crates/discord-voice-service-live-validation/src/audio.rs: the accumulator
    that decodes the packets a second client receives, checks that they form
    one RTP stream, and measures their arrival and tempo.

    Times and durations are nanoseconds; the clock readings of a run lie within
    the range of [Instant], so that sums of durations are exact. [f32] and
    [f64] are the binary floating-point numbers of the Standard Library. The
    fields of the statistics are grouped into records by the method that writes
    them. The decoder of the opus_rs crate is a class. *)

From S2P Require Import Prelude Anyhow OpusQueue Normalizer Metrics.
From stdpp Require Import prelude strings sorting.
From Stdlib Require Import SpecFloat.
Open Scope Z_scope.

Definition SAMPLE_RATE_HZ : Z := 48000.
Definition DISCORD_OPUS_PACKET_DURATION_SAMPLES : Z := 960.
Definition OBSERVER_GAP_THRESHOLD : Z := 100 * 1000000.
Definition OBSERVER_TEMPO_WINDOW_PACKETS : nat := 250.
Definition OBSERVER_SHORT_TEMPO_WINDOW_PACKETS : list nat := [25; 50]%nat.
Definition OBSERVER_POST_SOURCE_BUFFER_AUDIO_MS : Z := 5000.
Definition OBSERVER_MIN_RATIO_PPM : Z := 980000.
Definition OBSERVER_MAX_RATIO_PPM : Z := 1020000.
Definition LOCAL_OBSERVER_JITTER_ALLOWANCE : Z := 750 * 1000.

(** ** Floating point *)

Definition f32 : Type := spec_float.
Definition f64 : Type := spec_float.
Definition f32_zero : f32 := S754_zero false.
(** 0.001 rounded to the nearest [f32]. *)
Definition NON_SILENCE_PEAK_THRESHOLD : f32 := S754_finite false 8589935 (-33).

(** [f32::max]: the other operand when one is not a number. *)
Definition f32_max (a b : f32) : f32 :=
  match a, b with
  | S754_nan, _ => b
  | _, S754_nan => a
  | _, _ => if SFltb a b then b else a
  end.
Definition round_finite (prec emax : Z) (x : spec_float) : spec_float :=
  match x with
  | S754_finite s m e => binary_normalize prec emax (cond_Zopp s (Z.pos m)) e s
  | _ => x
  end.
Definition f64_from_f32 : f32 -> f64 := round_finite 53 1024.
Definition f64_as_f32 : f64 -> f32 := round_finite 24 128.
Definition f64_from_usize (n : Z) : f64 := binary_normalize 53 1024 n 0 false.
Definition f64_add : f64 -> f64 -> f64 := SFadd 53 1024.
Definition f64_mul : f64 -> f64 -> f64 := SFmul 53 1024.

(** The largest magnitude of a packet and the sum of its squares. *)
Definition pcm_peak (pcm : list f32) : f32 := foldl (fun peak sample => f32_max peak (SFabs sample)) f32_zero pcm.
Definition pcm_square_sum (pcm : list f32) : f64 :=
  foldl f64_add f32_zero (map (fun sample => f64_mul (f64_from_f32 sample) (f64_from_f32 sample)) pcm).
Definition rms (total_squared_amplitude : f64) (total_samples : Z) : f32 :=
  if total_samples =? 0 then f32_zero
  else f64_as_f32 (SFsqrt 53 1024 (SFdiv 53 1024 total_squared_amplitude (f64_from_usize total_samples))).

(** ** Data *)

Record ObservedOpusPacket : Type := mkObservedPacket {
  op_sequence : Z;
  op_timestamp : Z;
  op_payload : list Z;
}.

Inductive ObserverPlaybackSegment : Type := PrePauseSteady | ControlledPause | PostResumeSteady | NaturalEndDrain.
#[export] Instance ObserverPlaybackSegment_eq_dec : EqDecision ObserverPlaybackSegment.
Proof. solve_decision. Defined.
Definition segment_label (s : ObserverPlaybackSegment) : string :=
  match s with
  | PrePauseSteady => "pre_pause_steady_playback"
  | ControlledPause => "controlled_pause"
  | PostResumeSteady => "post_resume_steady_playback"
  | NaturalEndDrain => "natural_end_drain"
  end.
Definition is_steady_playback (s : ObserverPlaybackSegment) : bool :=
  match s with PrePauseSteady | PostResumeSteady => true | _ => false end.

Record AudioObserverAnomaly : Type := mkAnomaly {
  an_kind : string;
  an_classification : string;
  an_sequence : option Z;
  an_previous_sequence : option Z;
  an_interval_ms : Z;
  an_interval_us : Z;
  an_expected_duration_ms : Z;
  an_expected_duration_us : Z;
}.

Record AudioTempoWindowEvidence : Type := mkTempoWindow {
  tw_classification : string;
  tw_window_packet_count : Z;
  tw_media_ms : Z;
  tw_wall_clock_us : Z;
  tw_ratio_ppm : Z;
  tw_first_sequence : Z;
  tw_last_sequence : Z;
}.

(** [AudioIntervalStats] has the fields of [DurationStatsSnapshot]. *)
Definition AudioIntervalStats : Type := DurationStatsSnapshot.

Record OpusDurations : Type := mkOpusDurations {
  du_packet_count : Z;
  du_min_samples : Z;
  du_max_samples : Z;
}.
Record Arrivals : Type := mkArrivals {
  ar_rtp_inter_arrival : AudioIntervalStats;
  ar_gap_count_gte_100ms : Z;
  ar_fast_interval_count : Z;
  ar_fast_interval_min_ms : Z;
  ar_fast_interval_min_us : Z;
  ar_buffering_event_count : Z;
  ar_buffering_total_us : Z;
  ar_buffering_max_us : Z;
  ar_speed_change_total_abs_us : Z;
  ar_speed_change_total_fast_us : Z;
  ar_speed_change_total_slow_us : Z;
  ar_observer_anomalies : list AudioObserverAnomaly;
}.
(** Count, ratio, media and wall clock of the fastest or slowest window. *)
Record WindowExtreme : Type := mkWindowExtreme {
  we_count : Z;
  we_ratio_ppm : Z;
  we_media_ms : Z;
  we_wall_clock_us : Z;
}.
Record LongWindows : Type := mkLongWindows {
  lw_count : Z;
  lw_post_source_buffer_count : Z;
  lw_min_ratio_ppm : Z;
  lw_max_ratio_ppm : Z;
  lw_fast : WindowExtreme;
  lw_slow : WindowExtreme;
}.
Record ShortWindows : Type := mkShortWindows {
  sw_count : Z;
  sw_fast_count : Z;
  sw_slow_count : Z;
  sw_fastest : option AudioTempoWindowEvidence;
  sw_slowest : option AudioTempoWindowEvidence;
}.
Record AudioValidationStats : Type := mkAudioStats {
  as_observed_packet_count : Z;
  as_non_discord_opus : OpusDurations;
  as_decoded_audio_ms : Z;
  as_wall_clock_elapsed_ms : Z;
  as_decoded_audio_to_wall_clock_ratio_ppm : Z;
  as_non_silent_audio_ms : Z;
  as_arrivals : Arrivals;
  as_long_windows : LongWindows;
  as_short_windows : ShortWindows;
  as_max_peak_amplitude : f32;
  as_rms_amplitude : f32;
  as_first_sequence : option Z;
  as_last_sequence : option Z;
}.

Definition OpusDurations_default : OpusDurations := mkOpusDurations 0 0 0.
Definition Arrivals_default : Arrivals := mkArrivals duration_stats_empty 0 0 0 0 0 0 0 0 0 0 [].
Definition LongWindows_default : LongWindows :=
  mkLongWindows 0 0 0 0 (mkWindowExtreme 0 0 0 0) (mkWindowExtreme 0 0 0 0).
Definition ShortWindows_default : ShortWindows := mkShortWindows 0 0 0 None None.
Definition AudioValidationStats_default : AudioValidationStats :=
  mkAudioStats 0 OpusDurations_default 0 0 0 0 Arrivals_default LongWindows_default ShortWindows_default
    f32_zero f32_zero None None.

Record ObservedPacketTiming : Type := mkObservedTiming {
  ot_observed_at : Z;
  ot_duration : Z;
  ot_decoded_audio_start_ms : Z;
  ot_sequence : Z;
}.

(** What the accumulator remembers of the last packets. *)
Record Baseline : Type := mkBaseline {
  bl_last_observed_at : option Z;
  bl_last_packet_duration : option Z;
  bl_last_packet_duration_samples : option Z;
  bl_last_packet_timestamp : option Z;
  bl_last_packet_sequence : option Z;
  bl_observed_packet_timings : list ObservedPacketTiming;
}.
(** What it has added up. *)
Record Totals : Type := mkTotals {
  to_decoded_audio_duration : Z;
  to_non_silent_audio_duration : Z;
  to_total_squared_amplitude : f64;
  to_total_samples : Z;
  to_active_wall_clock_elapsed : Z;
  to_inter_arrivals : list Z;
}.

(** ** Durations *)

Definition interval_stats (intervals : list Z) : AudioIntervalStats :=
  let sorted := sort_durations intervals in
  mkDurationStats (Z.of_nat (length sorted))
    (duration_millis (percentile_duration sorted 50)) (duration_millis (percentile_duration sorted 95))
    (duration_millis (percentile_duration sorted 99)) (duration_millis (default 0 (sorted !! 0%nat)))
    (duration_millis (default 0 (sorted !! (length sorted - 1)%nat))).
(** The nanoseconds of a packet are [duration_from_samples] of OpusQueue.v. *)

(** ** Arrivals *)

Definition record_opus_duration_evidence (duration_samples : Z) (d : OpusDurations) : OpusDurations :=
  if duration_samples =? DISCORD_OPUS_PACKET_DURATION_SAMPLES then d else
  let previous_count := du_packet_count d in
  let count := sat_add u64_max previous_count 1 in
  if previous_count =? 0 then mkOpusDurations count duration_samples duration_samples
  else mkOpusDurations count (Z.min (du_min_samples d) duration_samples) (Z.max (du_max_samples d) duration_samples).

Definition set_inter_arrival (s : AudioIntervalStats) (a : Arrivals) : Arrivals :=
  mkArrivals s (ar_gap_count_gte_100ms a) (ar_fast_interval_count a)
    (ar_fast_interval_min_ms a) (ar_fast_interval_min_us a) (ar_buffering_event_count a) (ar_buffering_total_us a)
    (ar_buffering_max_us a) (ar_speed_change_total_abs_us a) (ar_speed_change_total_fast_us a)
    (ar_speed_change_total_slow_us a) (ar_observer_anomalies a).

(** A gap of 100 ms or more. *)
Definition note_gap (segment : ObserverPlaybackSegment) (interval : Z) (last_packet_duration : option Z)
    (sequence : Z) (previous_sequence : option Z) (a : Arrivals) : Arrivals :=
  if OBSERVER_GAP_THRESHOLD <=? interval then
    mkArrivals (ar_rtp_inter_arrival a) (ar_gap_count_gte_100ms a + 1) (ar_fast_interval_count a)
      (ar_fast_interval_min_ms a) (ar_fast_interval_min_us a) (ar_buffering_event_count a)
      (ar_buffering_total_us a) (ar_buffering_max_us a) (ar_speed_change_total_abs_us a)
      (ar_speed_change_total_fast_us a) (ar_speed_change_total_slow_us a)
      (ar_observer_anomalies a ++
        [mkAnomaly "rtp_gap_gte_100ms" (segment_label segment) (Some sequence) previous_sequence
           (duration_millis interval) (duration_micros interval)
           (map_or_0 duration_millis last_packet_duration) (map_or_0 duration_micros last_packet_duration)])
  else a.

(** A packet that arrived before the previous one had been played. *)
Definition note_fast_interval (segment : ObserverPlaybackSegment) (interval previous_duration : Z)
    (sequence : Z) (previous_sequence : option Z) (a : Arrivals) : Arrivals :=
  if interval + LOCAL_OBSERVER_JITTER_ALLOWANCE <? previous_duration then
    let interval_ms := duration_millis interval in
    let interval_us := duration_micros interval in
    mkArrivals (ar_rtp_inter_arrival a) (ar_gap_count_gte_100ms a) (sat_add u64_max (ar_fast_interval_count a) 1)
      (if ar_fast_interval_min_ms a =? 0 then interval_ms else Z.min (ar_fast_interval_min_ms a) interval_ms)
      (if ar_fast_interval_min_us a =? 0 then interval_us else Z.min (ar_fast_interval_min_us a) interval_us)
      (ar_buffering_event_count a) (ar_buffering_total_us a) (ar_buffering_max_us a)
      (ar_speed_change_total_abs_us a) (ar_speed_change_total_fast_us a) (ar_speed_change_total_slow_us a)
      (ar_observer_anomalies a ++
        [mkAnomaly "rtp_fast_interval" (segment_label segment) (Some sequence) previous_sequence interval_ms
           interval_us (duration_millis previous_duration) (duration_micros previous_duration)])
  else a.

Definition note_buffering (interval previous_duration : Z) (a : Arrivals) : Arrivals :=
  if OBSERVER_GAP_THRESHOLD <=? interval then
    let buffering_us := sat_sub (duration_micros interval) (duration_micros previous_duration) in
    mkArrivals (ar_rtp_inter_arrival a) (ar_gap_count_gte_100ms a) (ar_fast_interval_count a)
      (ar_fast_interval_min_ms a) (ar_fast_interval_min_us a) (sat_add u64_max (ar_buffering_event_count a) 1)
      (sat_add u64_max (ar_buffering_total_us a) buffering_us) (Z.max (ar_buffering_max_us a) buffering_us)
      (ar_speed_change_total_abs_us a) (ar_speed_change_total_fast_us a) (ar_speed_change_total_slow_us a)
      (ar_observer_anomalies a)
  else a.

(** What an interval differs from the duration it should have had, beyond the
    allowance. *)
Definition set_speed_change (total_abs total_fast total_slow : Z) (a : Arrivals) : Arrivals :=
  mkArrivals (ar_rtp_inter_arrival a) (ar_gap_count_gte_100ms a) (ar_fast_interval_count a)
    (ar_fast_interval_min_ms a) (ar_fast_interval_min_us a) (ar_buffering_event_count a)
    (ar_buffering_total_us a) (ar_buffering_max_us a) total_abs total_fast total_slow (ar_observer_anomalies a).
Definition note_speed_change (interval previous_duration : Z) (a : Arrivals) : Arrivals :=
  let interval_us := duration_micros interval in
  let previous_duration_us := duration_micros previous_duration in
  let jitter_allowance_us := duration_micros LOCAL_OBSERVER_JITTER_ALLOWANCE in
  if interval_us + jitter_allowance_us <? previous_duration_us
  then
    let fast_us := sat_sub (sat_sub previous_duration_us interval_us) jitter_allowance_us in
    set_speed_change (sat_add u64_max (ar_speed_change_total_abs_us a) fast_us)
      (sat_add u64_max (ar_speed_change_total_fast_us a) fast_us) (ar_speed_change_total_slow_us a) a
  else if previous_duration_us + jitter_allowance_us <? interval_us
  then
    let slow_us := sat_sub (sat_sub interval_us previous_duration_us) jitter_allowance_us in
    set_speed_change (sat_add u64_max (ar_speed_change_total_abs_us a) slow_us)
      (ar_speed_change_total_fast_us a) (sat_add u64_max (ar_speed_change_total_slow_us a) slow_us) a
  else a.

(** Everything an interval adds to the statistics. *)
Definition note_arrival (segment : ObserverPlaybackSegment) (interval : Z) (last_packet_duration : option Z)
    (sequence : Z) (previous_sequence : option Z) (a : Arrivals) : Arrivals :=
  let a := note_gap segment interval last_packet_duration sequence previous_sequence a in
  match last_packet_duration with
  | Some previous_duration =>
      let a := note_fast_interval segment interval previous_duration sequence previous_sequence a in
      if is_steady_playback segment
      then note_speed_change interval previous_duration (note_buffering interval previous_duration a)
      else a
  | None => a
  end.

(** ** The accumulator *)

Class OpusDecoderApi : Type := {
  OpusDecoder : Type;
  OpusDecoder_new : Z -> Z -> result string OpusDecoder;
  OpusDecoder_decode : OpusDecoder -> list Z -> Z -> list f32 -> OpusDecoder * list f32 * result string Z;
}.

Section Accumulator.
Context `{OpusDecoderApi}.

Record AudioValidationAccumulator : Type := mkAccumulator {
  ac_mono_decoder : option OpusDecoder;
  ac_stereo_decoder : option OpusDecoder;
  ac_stats : AudioValidationStats;
  ac_totals : Totals;
  ac_baseline : Baseline;
  ac_segment : ObserverPlaybackSegment;
}.
Definition Totals_zero : Totals := mkTotals 0 0 f32_zero 0 0 [].
Definition Baseline_none : Baseline := mkBaseline None None None None None [].
Definition Accumulator_new : AudioValidationAccumulator :=
  mkAccumulator None None AudioValidationStats_default Totals_zero Baseline_none PrePauseSteady.

Abbreviation astm := (stm AudioValidationAccumulator AnyError).

Definition set_decoder_for (channels : Z) (d : OpusDecoder) (a : AudioValidationAccumulator) :=
  if channels =? 1
  then mkAccumulator (Some d) (ac_stereo_decoder a) (ac_stats a) (ac_totals a) (ac_baseline a) (ac_segment a)
  else mkAccumulator (ac_mono_decoder a) (Some d) (ac_stats a) (ac_totals a) (ac_baseline a) (ac_segment a).
Definition upd_stats (f : AudioValidationStats -> AudioValidationStats) (a : AudioValidationAccumulator) :=
  mkAccumulator (ac_mono_decoder a) (ac_stereo_decoder a) (f (ac_stats a)) (ac_totals a) (ac_baseline a) (ac_segment a).
Definition upd_totals (f : Totals -> Totals) (a : AudioValidationAccumulator) :=
  mkAccumulator (ac_mono_decoder a) (ac_stereo_decoder a) (ac_stats a) (f (ac_totals a)) (ac_baseline a) (ac_segment a).
Definition upd_baseline (f : Baseline -> Baseline) (a : AudioValidationAccumulator) :=
  mkAccumulator (ac_mono_decoder a) (ac_stereo_decoder a) (ac_stats a) (ac_totals a) (f (ac_baseline a)) (ac_segment a).
Definition set_segment (s : ObserverPlaybackSegment) (a : AudioValidationAccumulator) :=
  mkAccumulator (ac_mono_decoder a) (ac_stereo_decoder a) (ac_stats a) (ac_totals a) (ac_baseline a) s.

Definition upd_arrivals (f : Arrivals -> Arrivals) : AudioValidationAccumulator -> AudioValidationAccumulator :=
  upd_stats (fun s => mkAudioStats (as_observed_packet_count s) (as_non_discord_opus s) (as_decoded_audio_ms s)
    (as_wall_clock_elapsed_ms s) (as_decoded_audio_to_wall_clock_ratio_ppm s) (as_non_silent_audio_ms s)
    (f (as_arrivals s)) (as_long_windows s) (as_short_windows s) (as_max_peak_amplitude s)
    (as_rms_amplitude s) (as_first_sequence s) (as_last_sequence s)).
Definition upd_opus_durations (f : OpusDurations -> OpusDurations)
    : AudioValidationAccumulator -> AudioValidationAccumulator :=
  upd_stats (fun s => mkAudioStats (as_observed_packet_count s) (f (as_non_discord_opus s)) (as_decoded_audio_ms s)
    (as_wall_clock_elapsed_ms s) (as_decoded_audio_to_wall_clock_ratio_ppm s) (as_non_silent_audio_ms s)
    (as_arrivals s) (as_long_windows s) (as_short_windows s) (as_max_peak_amplitude s)
    (as_rms_amplitude s) (as_first_sequence s) (as_last_sequence s)).
Definition upd_windows (f : LongWindows -> LongWindows) (g : ShortWindows -> ShortWindows)
    : AudioValidationAccumulator -> AudioValidationAccumulator :=
  upd_stats (fun s => mkAudioStats (as_observed_packet_count s) (as_non_discord_opus s) (as_decoded_audio_ms s)
    (as_wall_clock_elapsed_ms s) (as_decoded_audio_to_wall_clock_ratio_ppm s) (as_non_silent_audio_ms s)
    (as_arrivals s) (f (as_long_windows s)) (g (as_short_windows s)) (as_max_peak_amplitude s)
    (as_rms_amplitude s) (as_first_sequence s) (as_last_sequence s)).

(** The time on air: each packet lasts until the next one arrives. *)
Definition advance_wall_clock (b : Baseline) (observed_at current_packet_duration elapsed : Z) : Z :=
  match bl_last_observed_at b with
  | None => elapsed + current_packet_duration
  | Some previous =>
      match bl_last_packet_duration b with
      | Some previous_duration =>
          sat_sub elapsed previous_duration + sat_sub observed_at previous + current_packet_duration
      | None => elapsed
      end
  end.

Definition record_inter_arrival (observed_at current_packet_duration sequence : Z) (a : AudioValidationAccumulator)
    : AudioValidationAccumulator :=
  let b := ac_baseline a in
  let intervals := match bl_last_observed_at b with
                   | Some previous => to_inter_arrivals (ac_totals a) ++ [sat_sub observed_at previous]
                   | None => to_inter_arrivals (ac_totals a)
                   end in
  let a := match bl_last_observed_at b with
           | Some previous =>
               upd_arrivals (fun r =>
                 set_inter_arrival (interval_stats intervals)
                   (note_arrival (ac_segment a) (sat_sub observed_at previous) (bl_last_packet_duration b)
                      sequence (bl_last_packet_sequence b) r)) a
           | None => a
           end in
  let a := upd_totals (fun t => mkTotals (to_decoded_audio_duration t) (to_non_silent_audio_duration t)
             (to_total_squared_amplitude t) (to_total_samples t)
             (advance_wall_clock b observed_at current_packet_duration (to_active_wall_clock_elapsed t)) intervals) a in
  upd_baseline (fun b => mkBaseline (Some observed_at) (bl_last_packet_duration b) (bl_last_packet_duration_samples b)
    (bl_last_packet_timestamp b) (bl_last_packet_sequence b) (bl_observed_packet_timings b)) a.

Definition validate_rtp_continuity (b : Baseline) (sequence timestamp : Z) : anyhow unit :=
  _ ← match bl_last_packet_sequence b with
      | Some previous_sequence =>
          let expected_sequence := wrapping_add 16 previous_sequence 1 in
          bail_if (negb (sequence =? expected_sequence)) "rtp sequence jumped from {} to {}; expected {}"
            [Num previous_sequence; Num sequence; Num expected_sequence]
      | None => Ok tt
      end;
  match bl_last_packet_timestamp b, bl_last_packet_duration_samples b, bl_last_packet_sequence b with
  | Some previous_timestamp, Some previous_samples, Some previous_sequence =>
      let delta := wrap 32 (timestamp - previous_timestamp) in
      bail_if (negb (delta =? previous_samples))
        "rtp timestamp delta was {} samples after sequence {}; expected previous opus duration {} samples"
        [Num delta; Num previous_sequence; Num previous_samples]
  | _, _, _ => Ok tt
  end.

(** *** Tempo windows *)

Definition latest_packets (n : nat) (timings : list ObservedPacketTiming) : option (list ObservedPacketTiming) :=
  if (length timings <? n)%nat then None else Some (drop (length timings - n) timings).
Definition observed_media (window : list ObservedPacketTiming) : Z := sum_by ot_duration window.
Definition observed_wall_clock (first last : ObservedPacketTiming) : Z :=
  sat_sub (ot_observed_at last) (ot_observed_at first) + ot_duration last.

Definition note_long_window (window : list ObservedPacketTiming) (w : LongWindows) : LongWindows :=
  match head window, last window with
  | Some first, Some last =>
      let media := observed_media window in
      let wall := observed_wall_clock first last in
      let ratio := media_to_wall_clock_ratio_ppm_duration media wall in
      let fast := lw_fast w in
      let slow := lw_slow w in
      mkLongWindows (sat_add u64_max (lw_count w) 1)
        (if OBSERVER_POST_SOURCE_BUFFER_AUDIO_MS <=? ot_decoded_audio_start_ms first
         then sat_add u64_max (lw_post_source_buffer_count w) 1 else lw_post_source_buffer_count w)
        (if lw_min_ratio_ppm w =? 0 then ratio else Z.min (lw_min_ratio_ppm w) ratio)
        (Z.max (lw_max_ratio_ppm w) ratio)
        (if OBSERVER_MAX_RATIO_PPM <? ratio then
           if we_ratio_ppm fast <? ratio
           then mkWindowExtreme (sat_add u64_max (we_count fast) 1) ratio (duration_millis media) (duration_micros wall)
           else mkWindowExtreme (sat_add u64_max (we_count fast) 1) (we_ratio_ppm fast) (we_media_ms fast)
                  (we_wall_clock_us fast)
         else fast)
        (if ratio <? OBSERVER_MIN_RATIO_PPM then
           if (we_ratio_ppm slow =? 0) || (ratio <? we_ratio_ppm slow)
           then mkWindowExtreme (sat_add u64_max (we_count slow) 1) ratio (duration_millis media) (duration_micros wall)
           else mkWindowExtreme (sat_add u64_max (we_count slow) 1) (we_ratio_ppm slow) (we_media_ms slow)
                  (we_wall_clock_us slow)
         else slow)
  | _, _ => w
  end.

Definition note_short_window (segment : ObserverPlaybackSegment) (window_packet_count : nat)
    (window : list ObservedPacketTiming) (w : ShortWindows) : ShortWindows :=
  match head window, last window with
  | Some first, Some last =>
      let media := observed_media window in
      let wall := observed_wall_clock first last in
      let ratio := media_to_wall_clock_ratio_ppm_duration media wall in
      let evidence := mkTempoWindow (segment_label segment) (Z.of_nat window_packet_count) (duration_millis media)
                        (duration_micros wall) ratio (ot_sequence first) (ot_sequence last) in
      mkShortWindows (sat_add u64_max (sw_count w) 1)
        (if OBSERVER_MAX_RATIO_PPM <? ratio then sat_add u64_max (sw_fast_count w) 1 else sw_fast_count w)
        (if ratio <? OBSERVER_MIN_RATIO_PPM then sat_add u64_max (sw_slow_count w) 1 else sw_slow_count w)
        (match sw_fastest w with
         | Some current => if tw_ratio_ppm current <? ratio then Some evidence else Some current
         | None => Some evidence
         end)
        (match sw_slowest w with
         | Some current => if ratio <? tw_ratio_ppm current then Some evidence else Some current
         | None => Some evidence
         end)
  | _, _ => w
  end.

Definition record_latest_short_window (timings : list ObservedPacketTiming) (segment : ObserverPlaybackSegment)
    (w : ShortWindows) (window_packet_count : nat) : ShortWindows :=
  match latest_packets window_packet_count timings with
  | Some window => note_short_window segment window_packet_count window w
  | None => w
  end.
Definition record_latest_long_window (timings : list ObservedPacketTiming) (w : LongWindows) : LongWindows :=
  match latest_packets OBSERVER_TEMPO_WINDOW_PACKETS timings with
  | Some window => note_long_window window w
  | None => w
  end.
Definition record_latest_decoded_audio_tempo_windows (a : AudioValidationAccumulator) : AudioValidationAccumulator :=
  let timings := bl_observed_packet_timings (ac_baseline a) in
  upd_windows (record_latest_long_window timings)
    (fun w => foldl (record_latest_short_window timings (ac_segment a)) w OBSERVER_SHORT_TEMPO_WINDOW_PACKETS) a.

(** *** Packets *)

(** [get_or_insert] evaluates its argument: a decoder is created for every
    packet, and dropped when there is one. *)
Definition decoder_of (channels : Z) : astm OpusDecoder :=
  created ← lift (context (if channels =? 1 then "create mono opus decoder" else "create stereo opus decoder") []
                    (error_msg (OpusDecoder_new SAMPLE_RATE_HZ channels)));
  present ← gets (if channels =? 1 then ac_mono_decoder else ac_stereo_decoder);
  let decoder := default created present in
  _ ← modify (set_decoder_for channels decoder);
  mret decoder.

(** The declared samples of a packet and its PCM. *)
Definition decode_observed (packet : ObservedOpusPacket) : astm (Z * list f32) :=
  let sequence := op_sequence packet in
  _ ← lift (bail_if (bool_decide (op_payload packet = [])) "observed opus payload must not be empty" []);
  declared ← lift (ok_or_bail (opus_packet_duration (op_payload packet))
                     "unsupported opus packet header at sequence {}" [Num sequence]);
  let frame_samples := od_samples declared in
  channels ← lift (ok_or_bail (opus_packet_channels (op_payload packet))
                     "unsupported opus packet channel layout at sequence {}" [Num sequence]);
  decoder ← decoder_of channels;
  let '(decoder', pcm, answer) :=
    OpusDecoder_decode decoder (op_payload packet) frame_samples
      (repeat f32_zero (Z.to_nat (frame_samples * channels))) in
  _ ← modify (set_decoder_for channels decoder');
  decoded_samples ← lift match answer with
                         | Panic => bail "decode opus packet panicked at sequence {}" [Num sequence]
                         | _ => context "decode opus packet at sequence {}" [Num sequence] (error_msg answer)
                         end;
  _ ← lift (bail_if (negb (decoded_samples =? frame_samples))
       "decoded opus packet at sequence {} returned {} samples; declared duration was {} samples"
       [Num sequence; Num decoded_samples; Num frame_samples]);
  mret (frame_samples, pcm).

(** The statistics with the totals worked in. *)
Definition stats (a : AudioValidationAccumulator) : AudioValidationStats :=
  let s := ac_stats a in
  let t := ac_totals a in
  let observed := 0 <? as_observed_packet_count s in
  mkAudioStats (as_observed_packet_count s) (as_non_discord_opus s)
    (if observed then duration_millis (to_decoded_audio_duration t) else as_decoded_audio_ms s)
    (if observed then duration_millis (to_active_wall_clock_elapsed t) else as_wall_clock_elapsed_ms s)
    (if observed
     then media_to_wall_clock_ratio_ppm_duration (to_decoded_audio_duration t) (to_active_wall_clock_elapsed t)
     else as_decoded_audio_to_wall_clock_ratio_ppm s)
    (if observed then duration_millis (to_non_silent_audio_duration t) else as_non_silent_audio_ms s)
    (as_arrivals s) (as_long_windows s) (as_short_windows s) (as_max_peak_amplitude s)
    (rms (to_total_squared_amplitude t) (to_total_samples t)) (as_first_sequence s) (as_last_sequence s).

(** The packet is counted and its audio added up. *)
Definition count_packet (sequence : Z) (peak : f32) (s : AudioValidationStats) : AudioValidationStats :=
  mkAudioStats (as_observed_packet_count s + 1) (as_non_discord_opus s) (as_decoded_audio_ms s)
    (as_wall_clock_elapsed_ms s) (as_decoded_audio_to_wall_clock_ratio_ppm s) (as_non_silent_audio_ms s)
    (as_arrivals s) (as_long_windows s) (as_short_windows s) (f32_max (as_max_peak_amplitude s) peak)
    (as_rms_amplitude s) (Some (default sequence (as_first_sequence s))) (Some sequence).
Definition add_audio (packet_duration : Z) (peak : f32) (t : Totals) : Totals :=
  mkTotals (to_decoded_audio_duration t + packet_duration)
    (if SFltb NON_SILENCE_PEAK_THRESHOLD peak then to_non_silent_audio_duration t + packet_duration
     else to_non_silent_audio_duration t)
    (to_total_squared_amplitude t) (to_total_samples t) (to_active_wall_clock_elapsed t) (to_inter_arrivals t).
Definition add_squares (pcm : list f32) (t : Totals) : Totals :=
  mkTotals (to_decoded_audio_duration t) (to_non_silent_audio_duration t)
    (f64_add (to_total_squared_amplitude t) (pcm_square_sum pcm)) (to_total_samples t + zlen pcm)
    (to_active_wall_clock_elapsed t) (to_inter_arrivals t).
Definition remember_packet (timing : ObservedPacketTiming) (samples timestamp : Z) (b : Baseline) : Baseline :=
  mkBaseline (bl_last_observed_at b) (Some (ot_duration timing)) (Some samples) (Some timestamp)
    (Some (ot_sequence timing)) (bl_observed_packet_timings b ++ [timing]).

(** What an accepted packet changes. *)
Definition record_packet (packet : ObservedOpusPacket) (samples : Z) (pcm : list f32) (observed_at : Z)
    (a : AudioValidationAccumulator) : AudioValidationAccumulator :=
  let sequence := op_sequence packet in
  let packet_duration := duration_from_samples samples in
  let peak := pcm_peak pcm in
  let decoded_audio_start_ms := duration_millis (to_decoded_audio_duration (ac_totals a)) in
  let a := upd_opus_durations (record_opus_duration_evidence samples) a in
  let a := upd_stats (count_packet sequence peak) (upd_totals (add_audio packet_duration peak) a) in
  let a := record_inter_arrival observed_at packet_duration sequence a in
  let a := upd_baseline (remember_packet
             (mkObservedTiming observed_at packet_duration decoded_audio_start_ms sequence) samples
             (op_timestamp packet)) a in
  upd_totals (add_squares pcm) (record_latest_decoded_audio_tempo_windows a).

Definition observe_packet_at (packet : ObservedOpusPacket) (observed_at : Z) : astm AudioValidationStats :=
  decoded ← decode_observed packet;
  let '(samples, pcm) := decoded in
  baseline ← gets ac_baseline;
  _ ← lift (validate_rtp_continuity baseline (op_sequence packet) (op_timestamp packet));
  _ ← modify (record_packet packet samples pcm observed_at);
  gets stats.

(** *** Segments *)

Definition reset_inter_arrival_baseline : AudioValidationAccumulator -> AudioValidationAccumulator :=
  upd_baseline (fun b => mkBaseline None None None None (bl_last_packet_sequence b) []).
Definition start_controlled_pause : AudioValidationAccumulator -> AudioValidationAccumulator :=
  set_segment ControlledPause.
Definition reset_wall_clock_baseline_after_controlled_pause (a : AudioValidationAccumulator)
    : AudioValidationAccumulator :=
  set_segment PostResumeSteady
    (upd_baseline (fun b => mkBaseline None None (bl_last_packet_duration_samples b) (bl_last_packet_timestamp b)
       (bl_last_packet_sequence b) []) a).
Definition start_natural_end_drain : AudioValidationAccumulator -> AudioValidationAccumulator :=
  set_segment NaturalEndDrain.
Definition into_stats (a : AudioValidationAccumulator) : anyhow AudioValidationStats :=
  let s := stats a in
  _ ← bail_if (as_observed_packet_count s =? 0) "expected at least one observed opus packet" [];
  Ok s.

(** [Instant::now] of each packet comes with it. *)
Fixpoint observe_packets (packets : list (ObservedOpusPacket * Z)) (a : AudioValidationAccumulator)
    : anyhow AudioValidationAccumulator :=
  match packets with
  | [] => Ok a
  | (packet, now) :: packets =>
      let '(a', r) := observe_packet_at packet now a in
      _ ← r;
      observe_packets packets a'
  end.
Definition analyze_opus_packets (packets : list (ObservedOpusPacket * Z)) : anyhow AudioValidationStats :=
  a ← observe_packets packets Accumulator_new;
  into_stats a.

End Accumulator.
