(* ===== verification/AudioSpecs.v ===== *)
(** * What the audio observer measures

    The accumulator of AudioObserver.v works packet by packet. Here its
    statistics are compared with the history of the run: the packets it
    accepted, cut into stretches by the resets of its baseline, and measured as
    in Timeline.v. *)

From S2P Require Import Prelude Anyhow OpusQueue Normalizer Metrics Timeline AudioObserver Rtp Protection Udp.
From stdpp Require Import prelude strings.
Open Scope Z_scope.

(** ** Histories *)

Inductive ObserverStep : Type :=
| Observe (packet : ObservedOpusPacket) (observed_at : Z)
| ResetBaseline
| StartPause
| ResumeAfterPause
| StartDrain.

Definition Heard : Type := ObservedOpusPacket * Z.
Definition heard_samples (h : Heard) : Z :=
  match opus_packet_duration (op_payload h.1) with Some d => od_samples d | None => 0 end.
Definition heard_tick (h : Heard) : Tick := mkTick h.2 (duration_from_samples (heard_samples h)).

(** The finished stretches and the current one. *)
Record History : Type := mkHistory {
  hi_done : list (list Heard);
  hi_current : list Heard;
}.
Definition stretches (h : History) : list (list Heard) := hi_done h ++ [hi_current h].
Definition packets (h : History) : list Heard := concat (stretches h).
Definition ticks (h : History) : list (list Tick) := map (map heard_tick) (stretches h).

Definition history_step (h : History) (x : ObserverStep) : History :=
  match x with
  | Observe packet observed_at => mkHistory (hi_done h) (hi_current h ++ [(packet, observed_at)])
  | ResetBaseline | ResumeAfterPause => mkHistory (stretches h) []
  | StartPause | StartDrain => h
  end.
Definition history (steps : list ObserverStep) : History := foldl history_step (mkHistory [] []) steps.

(** The clock of the observer does not run backwards within a stretch, and
    counters do not saturate. *)
Definition sane (h : History) : Prop := Forall in_order (ticks h) /\ 2 * zlen (packets h) <= u64_max.

(** One RTP stream: sequence numbers throughout, timestamps in a stretch. *)
Fixpoint linked (R : Heard -> Heard -> Prop) (l : list Heard) : Prop :=
  match l with
  | a :: ((b :: _) as l') => R a b /\ linked R l'
  | _ => True
  end.
Definition next_sequence (a b : Heard) : Prop := op_sequence b.1 = wrapping_add 16 (op_sequence a.1) 1.
Definition next_timestamp (a b : Heard) : Prop := wrap 32 (op_timestamp b.1 - op_timestamp a.1) = heard_samples a.
Definition one_stream (h : History) : Prop :=
  linked next_sequence (packets h) /\ Forall (linked next_timestamp) (stretches h).

Lemma linked_snoc R l a b : linked R ((l ++ [a]) ++ [b]) <-> linked R (l ++ [a]) /\ R a b.
Proof.
  induction l as [|x l IH]; [simpl; tauto|]. destruct l as [|y l]; [simpl; tauto|].
  change (((x :: y :: l) ++ [a]) ++ [b]) with (x :: y :: (l ++ [a]) ++ [b]).
  change ((x :: y :: l) ++ [a]) with (x :: y :: l ++ [a]). simpl linked in *. simpl app in IH. tauto.
Qed.
Lemma linked_extend R l x : linked R l -> (forall a, last l = Some a -> R a x) -> linked R (l ++ [x]).
Proof.
  destruct l as [|a l _] using rev_ind; [done|]. intros Hl Ha. apply linked_snoc. split; [done|].
  apply Ha. apply last_snoc.
Qed.

Lemma packets_observe h x : packets (mkHistory (hi_done h) (hi_current h ++ [x])) = packets h ++ [x].
Proof. unfold packets, stretches. simpl. rewrite !concat_app. simpl. by rewrite !app_nil_r, app_assoc. Qed.
Lemma packets_reset h : packets (mkHistory (stretches h) []) = packets h.
Proof. unfold packets, stretches. simpl. rewrite (concat_app (_ ++ _)). simpl. by rewrite app_nil_r. Qed.
Lemma ticks_split h : ticks h = map (map heard_tick) (hi_done h) ++ [map heard_tick (hi_current h)].
Proof. unfold ticks, stretches. by rewrite map_app. Qed.
Lemma ticks_reset h : ticks (mkHistory (stretches h) []) = ticks h ++ [[]].
Proof. unfold ticks, stretches at 1. simpl. by rewrite map_app. Qed.

Lemma in_order_prefix l t : in_order (l ++ [t]) -> in_order l.
Proof. destruct l as [|a l _] using rev_ind; [done|]. by intros (? & _)%in_order_snoc. Qed.
Lemma sane_step h x : sane (history_step h x) -> sane h.
Proof.
  destruct x as [p t| | | |]; simpl; [|unfold sane; rewrite ticks_reset, packets_reset, Forall_app; tauto
    |done|unfold sane; rewrite ticks_reset, packets_reset, Forall_app; tauto|done].
  unfold sane. rewrite packets_observe, !ticks_split, zlen_app. simpl. rewrite map_app.
  intros [Ho Hn]. apply Forall_app in Ho as [Hd Hc%Forall_inv]. split; [|change (zlen [(p, t)]) with 1 in Hn; lia].
  apply Forall_app. split; [done|]. constructor; [|done]. by eapply in_order_prefix.
Qed.

(** ** The measures *)

Definition fast_window (w : list Tick) : bool := OBSERVER_MAX_RATIO_PPM <? window_ratio w.
Definition slow_window (w : list Tick) : bool := window_ratio w <? OBSERVER_MIN_RATIO_PPM.
Definition long_windows (h : History) : list (list Tick) := tempo_windows OBSERVER_TEMPO_WINDOW_PACKETS (ticks h).
Definition short_windows (h : History) : list (list Tick) :=
  concat (map (fun n => tempo_windows n (ticks h)) OBSERVER_SHORT_TEMPO_WINDOW_PACKETS).
Definition gaps (h : History) : list Z :=
  List.filter (fun interval => OBSERVER_GAP_THRESHOLD <=? interval) (concat (map intervals (ticks h))).

Definition timing_tick (t : ObservedPacketTiming) : Tick := mkTick (ot_observed_at t) (ot_duration t).
Lemma observed_media_ticks w : observed_media w = media (map timing_tick w).
Proof. unfold observed_media, media. symmetry. induction w as [|t w IH]; [done|]. simpl map. by rewrite !sum_by_cons, IH. Qed.
Lemma observed_window w :
  w <> [] -> in_order (map timing_tick w) ->
  exists first last_, head w = Some first /\ last w = Some last_ /\
    media_to_wall_clock_ratio_ppm_duration (observed_media w) (observed_wall_clock first last_)
      = window_ratio (map timing_tick w).
Proof.
  intros Hw Ho. destruct w as [|first w]; [done|]. destruct (last (first :: w)) as [last_|] eqn:Hl;
    [|by apply last_None in Hl].
  exists first, last_. split_and!; [done..|]. unfold window_ratio. rewrite observed_media_ticks. f_equal.
  unfold observed_wall_clock. apply (span_sat _ (timing_tick first) (timing_tick last_)); [done|done|].
  by rewrite fmap_last, Hl.
Qed.

Lemma latest_observed n timings :
  (0 < n)%nat -> in_order (map timing_tick timings) -> (length timings <? n)%nat = false ->
  let w := drop (length timings - n) timings in
  exists first last_, head w = Some first /\ last w = Some last_ /\
    media_to_wall_clock_ratio_ppm_duration (observed_media w) (observed_wall_clock first last_)
      = window_ratio (map timing_tick w).
Proof.
  intros Hn Ho En w. apply observed_window.
  - intros Hd. apply (latest_nonempty n timings w); [lia| |done]. unfold latest. rewrite En. set_solver.
  - subst w. rewrite <- skipn_map. by apply in_order_drop.
Qed.

(** What a packet adds to the long and to the short windows. *)
Lemma long_window_counts timings w :
  in_order (map timing_tick timings) ->
  let ws := latest OBSERVER_TEMPO_WINDOW_PACKETS (map timing_tick timings) in
  let w' := record_latest_long_window timings w in
  lw_count w + 1 <= u64_max -> we_count (lw_fast w) + 1 <= u64_max -> we_count (lw_slow w) + 1 <= u64_max ->
  lw_count w' = lw_count w + zlen ws /\ we_count (lw_fast w') = we_count (lw_fast w) + count fast_window ws /\
  we_count (lw_slow w') = we_count (lw_slow w) + count slow_window ws.
Proof.
  intros Ho ws w' H1 H2 H3. subst ws w'. unfold record_latest_long_window, latest_packets. rewrite latest_map.
  unfold latest. destruct (_ <? _)%nat eqn:En; [unfold count, zlen; simpl; lia|].
  set (win := drop _ timings).
  destruct (latest_observed OBSERVER_TEMPO_WINDOW_PACKETS timings) as (first & last_ & Hf & Hl & Hr);
    [unfold OBSERVER_TEMPO_WINDOW_PACKETS; lia|done|done|]. fold win in Hf, Hl, Hr.
  unfold note_long_window. rewrite Hf, Hl. cbv zeta. rewrite Hr. simpl.
  unfold count, fast_window, slow_window. simpl. rewrite sat_add_exact by done.
  set (r := window_ratio (map timing_tick win)).
  destruct (OBSERVER_MAX_RATIO_PPM <? r), (r <? OBSERVER_MIN_RATIO_PPM), (we_ratio_ppm (lw_fast w) <? r),
    ((we_ratio_ppm (lw_slow w) =? 0) || (r <? we_ratio_ppm (lw_slow w))); simpl; rewrite ?sat_add_exact by done;
    split_and!; unfold zlen; simpl; lia.
Qed.
Lemma short_window_counts segment timings n w :
  (0 < n)%nat -> in_order (map timing_tick timings) ->
  let ws := latest n (map timing_tick timings) in
  let w' := record_latest_short_window timings segment w n in
  sw_count w + 1 <= u64_max -> sw_fast_count w + 1 <= u64_max -> sw_slow_count w + 1 <= u64_max ->
  sw_count w' = sw_count w + zlen ws /\ sw_fast_count w' = sw_fast_count w + count fast_window ws /\
  sw_slow_count w' = sw_slow_count w + count slow_window ws.
Proof.
  intros Hn Ho ws w' H1 H2 H3. subst ws w'. unfold record_latest_short_window, latest_packets. rewrite latest_map.
  unfold latest. destruct (_ <? _)%nat eqn:En; [unfold count, zlen; simpl; lia|].
  set (win := drop _ timings).
  destruct (latest_observed n timings) as (first & last_ & Hf & Hl & Hr); [done..|]. fold win in Hf, Hl, Hr.
  unfold note_short_window. rewrite Hf, Hl. cbv zeta. rewrite Hr. simpl.
  unfold count, fast_window, slow_window. simpl. rewrite sat_add_exact by done.
  set (r := window_ratio (map timing_tick win)).
  destruct (OBSERVER_MAX_RATIO_PPM <? r), (r <? OBSERVER_MIN_RATIO_PPM); simpl; rewrite ?sat_add_exact by done;
    split_and!; unfold zlen; simpl; lia.
Qed.

Lemma note_arrival_gaps segment interval duration sequence previous a :
  ar_gap_count_gte_100ms (note_arrival segment interval duration sequence previous a)
    = ar_gap_count_gte_100ms a + (if OBSERVER_GAP_THRESHOLD <=? interval then 1 else 0).
Proof.
  unfold note_arrival, note_gap. cbv zeta.
  set (a' := if OBSERVER_GAP_THRESHOLD <=? interval then _ else a).
  assert (Ha : ar_gap_count_gte_100ms a' = ar_gap_count_gte_100ms a + (if OBSERVER_GAP_THRESHOLD <=? interval then 1 else 0))
    by (subst a'; destruct (_ <=? _); simpl; lia).
  rewrite <- Ha. destruct duration as [d|]; [|done].
  unfold note_speed_change, note_buffering, note_fast_interval. destruct (is_steady_playback segment);
    repeat (simpl; case_match); done.
Qed.

Section Observer.
Context `{OpusDecoderApi}.

Definition observer_step (a : AudioValidationAccumulator) (x : ObserverStep) : anyhow AudioValidationAccumulator :=
  match x with
  | Observe packet observed_at =>
      let '(a', r) := observe_packet_at packet observed_at a in
      _ ← r; Ok a'
  | ResetBaseline => Ok (reset_inter_arrival_baseline a)
  | StartPause => Ok (start_controlled_pause a)
  | ResumeAfterPause => Ok (reset_wall_clock_baseline_after_controlled_pause a)
  | StartDrain => Ok (start_natural_end_drain a)
  end.
Fixpoint run_observer (steps : list ObserverStep) (a : AudioValidationAccumulator)
    : anyhow AudioValidationAccumulator :=
  match steps with
  | [] => Ok a
  | x :: steps => a' ← observer_step a x; run_observer steps a'
  end.

(** Everything but the decoders. *)
Definition observed_part (a : AudioValidationAccumulator) :=
  (ac_stats a, ac_totals a, ac_baseline a, ac_segment a).
Lemma observed_part_decoder channels d a : observed_part (set_decoder_for channels d a) = observed_part a.
Proof. unfold set_decoder_for. by destruct (channels =? 1). Qed.
Lemma decode_observed_Ok packet a a1 samples pcm :
  decode_observed packet a = (a1, Ok (samples, pcm)) ->
  observed_part a1 = observed_part a /\ exists d, opus_packet_duration (op_payload packet) = Some d /\ samples = od_samples d.
Proof.
  unfold decode_observed, decoder_of. intros E.
  apply stm_bind_Ok in E as (s1 & [] & E1 & E). unfold lift in E1. injection E1 as <- _.
  apply stm_bind_Ok in E as (s1 & declared & E1 & E). unfold lift in E1. injection E1 as <- Hd%ok_or_bail_Ok.
  apply stm_bind_Ok in E as (s1 & channels & E1 & E). unfold lift in E1. injection E1 as <- _.
  apply stm_bind_Ok in E as (s1 & decoder & E1 & E).
  inv_stm. destruct (OpusDecoder_decode _ _ _ _) as [[decoder' pcm'] answer]. inv_stm.
  split; [by rewrite !observed_part_decoder|]. by exists declared.
Qed.

(** An accepted packet passed every check, and is then recorded. *)
Lemma observe_accepted packet at_ a a' :
  observer_step a (Observe packet at_) = Ok a' ->
  exists d pcm a1, opus_packet_duration (op_payload packet) = Some d /\ observed_part a1 = observed_part a /\
    validate_rtp_continuity (ac_baseline a) (op_sequence packet) (op_timestamp packet) = Ok tt /\
    a' = record_packet packet (od_samples d) pcm at_ a1.
Proof.
  simpl. destruct (observe_packet_at packet at_ a) as [a2 r] eqn:E. intros Hr. inv_ok.
  unfold observe_packet_at in E. apply stm_bind_Ok in E as (a1 & [samples pcm] & Hd & E).
  apply decode_observed_Ok in Hd as (Hp & d & Hd & ->). unfold observed_part in Hp.
  apply stm_bind_Ok in E as (s1 & b & E1 & E). injection E1 as <- <-.
  apply stm_bind_Ok in E as (s1 & [] & E1 & E). injection E1 as <- Hv.
  apply stm_bind_Ok in E as (s1 & [] & E1 & E). injection E1 as <-. injection E as <- _.
  exists d, pcm, a1. split_and!; [done|done| |done]. by injection Hp as _ _ <- _.
Qed.

(** *** The invariant *)

Record measures (a : AudioValidationAccumulator) (h : History) : Prop := {
  me_count : as_observed_packet_count (ac_stats a) = zlen (packets h);
  me_decoded : to_decoded_audio_duration (ac_totals a) = sum_by media (ticks h);
  me_wall : to_active_wall_clock_elapsed (ac_totals a) = sum_by span (ticks h);
  me_intervals : to_inter_arrivals (ac_totals a) = concat (map intervals (ticks h));
  me_last_at : bl_last_observed_at (ac_baseline a) = tk_at <$> last (map heard_tick (hi_current h));
  me_last_duration : bl_last_packet_duration (ac_baseline a) = tk_duration <$> last (map heard_tick (hi_current h));
  me_timings : map timing_tick (bl_observed_packet_timings (ac_baseline a)) = map heard_tick (hi_current h);
  me_gaps : ar_gap_count_gte_100ms (as_arrivals (ac_stats a)) = zlen (gaps h);
  me_long : lw_count (as_long_windows (ac_stats a)) = zlen (long_windows h);
  me_long_fast : we_count (lw_fast (as_long_windows (ac_stats a))) = count fast_window (long_windows h);
  me_long_slow : we_count (lw_slow (as_long_windows (ac_stats a))) = count slow_window (long_windows h);
  me_short : sw_count (as_short_windows (ac_stats a)) = zlen (short_windows h);
  me_short_fast : sw_fast_count (as_short_windows (ac_stats a)) = count fast_window (short_windows h);
  me_short_slow : sw_slow_count (as_short_windows (ac_stats a)) = count slow_window (short_windows h);
}.
(** What continuity is checked against. *)
Record follows (a : AudioValidationAccumulator) (h : History) : Prop := {
  fo_sequence : bl_last_packet_sequence (ac_baseline a) = (fun x => op_sequence x.1) <$> last (packets h);
  fo_timestamp : forall x, last (hi_current h) = Some x ->
    bl_last_packet_timestamp (ac_baseline a) = Some (op_timestamp x.1) /\
    bl_last_packet_duration_samples (ac_baseline a) = Some (heard_samples x);
  fo_stream : one_stream h;
}.

Lemma follows_new : follows Accumulator_new (mkHistory [] []).
Proof. split; [done|done|]. split; [done|]. by repeat constructor. Qed.
Lemma follows_step a a' h x : follows a h -> observer_step a x = Ok a' -> follows a' (history_step h x).
Proof.
  intros [Hs Ht [Hq Hst]] Hx. destruct x as [p t| | | |].
  - apply observe_accepted in Hx as (d & pcm & a1 & Hd & Hp & Hv & ->).
    unfold validate_rtp_continuity in Hv. apply bind_Ok in Hv as ([] & Hv1 & Hv2).
    assert (Hsam : heard_samples (p, t) = od_samples d) by (unfold heard_samples; simpl; by rewrite Hd).
    split; simpl.
    + rewrite packets_observe, last_snoc. done.
    + rewrite last_snoc. intros y [= <-]. by rewrite Hsam.
    + split.
      * rewrite packets_observe. apply linked_extend; [done|]. intros y Hy. rewrite Hs, Hy in Hv1.
        simpl in Hv1. apply bail_if_Ok, negb_false_iff, Z.eqb_eq in Hv1. done.
      * unfold stretches. simpl. apply Forall_app in Hst as [Hst Hc%Forall_inv]. apply Forall_app. split; [done|].
        constructor; [|done]. apply linked_extend; [done|]. intros y Hy. destruct (Ht _ Hy) as [Hy1 Hy2].
        assert (Hl : last (packets h) = Some y).
        { unfold packets, stretches. rewrite concat_app. simpl. rewrite app_nil_r, last_app, Hy. done. }
        rewrite Hy1, Hy2, Hs, Hl in Hv2. simpl in Hv2. apply bail_if_Ok, negb_false_iff, Z.eqb_eq in Hv2. done.
  - injection Hx as <-. split; simpl; [by rewrite packets_reset|done|]. split; [by rewrite packets_reset|].
    unfold stretches at 1. simpl. apply Forall_app. split; [done|by repeat constructor].
  - injection Hx as <-. by split.
  - injection Hx as <-. split; simpl; [by rewrite packets_reset|done|]. split; [by rewrite packets_reset|].
    unfold stretches at 1. simpl. apply Forall_app. split; [done|by repeat constructor].
  - injection Hx as <-. by split.
Qed.

(** The parts of [record_packet]. *)
Section Recorded.
Context (packet : ObservedOpusPacket) (samples : Z) (pcm : list f32) (at_ : Z) (a : AudioValidationAccumulator).
Let b := ac_baseline a.
Let a' := record_packet packet samples pcm at_ a.
Let timing := mkObservedTiming at_ (duration_from_samples samples)
  (duration_millis (to_decoded_audio_duration (ac_totals a))) (op_sequence packet).
Let timings := bl_observed_packet_timings b ++ [timing].

Lemma recorded_count : as_observed_packet_count (ac_stats a') = as_observed_packet_count (ac_stats a) + 1.
Proof. subst a'. unfold record_packet, record_inter_arrival. simpl. by destruct (bl_last_observed_at _). Qed.
Lemma recorded_decoded :
  to_decoded_audio_duration (ac_totals a') = to_decoded_audio_duration (ac_totals a) + duration_from_samples samples.
Proof. subst a'. unfold record_packet, record_inter_arrival. simpl. by destruct (bl_last_observed_at _). Qed.
Lemma recorded_wall :
  to_active_wall_clock_elapsed (ac_totals a') =
    clock_step (bl_last_observed_at b) (bl_last_packet_duration b) (to_active_wall_clock_elapsed (ac_totals a)) at_
      (duration_from_samples samples).
Proof. subst a' b. unfold record_packet, record_inter_arrival, advance_wall_clock, clock_step. simpl. by destruct (bl_last_observed_at _). Qed.
Lemma recorded_intervals :
  to_inter_arrivals (ac_totals a') =
    to_inter_arrivals (ac_totals a) ++
    match bl_last_observed_at b with Some previous => [sat_sub at_ previous] | None => [] end.
Proof. subst a' b. unfold record_packet, record_inter_arrival. simpl. destruct (bl_last_observed_at _); [done|]. by rewrite app_nil_r. Qed.
Lemma recorded_gaps :
  ar_gap_count_gte_100ms (as_arrivals (ac_stats a')) =
    ar_gap_count_gte_100ms (as_arrivals (ac_stats a)) +
    match bl_last_observed_at b with
    | Some previous => if OBSERVER_GAP_THRESHOLD <=? sat_sub at_ previous then 1 else 0
    | None => 0
    end.
Proof.
  subst a' b. unfold record_packet, record_inter_arrival. simpl. destruct (bl_last_observed_at _); [|simpl; lia].
  simpl. apply note_arrival_gaps.
Qed.
Lemma recorded_baseline :
  ac_baseline a' = mkBaseline (Some at_) (Some (duration_from_samples samples)) (Some samples)
    (Some (op_timestamp packet)) (Some (op_sequence packet)) timings.
Proof. subst a' b timings. unfold record_packet, record_inter_arrival. simpl. by destruct (bl_last_observed_at _). Qed.
Lemma recorded_long : as_long_windows (ac_stats a') = record_latest_long_window timings (as_long_windows (ac_stats a)).
Proof. subst a' b timings. unfold record_packet, record_inter_arrival. simpl. by destruct (bl_last_observed_at _). Qed.
Lemma recorded_short :
  as_short_windows (ac_stats a') =
    foldl (record_latest_short_window timings (ac_segment a)) (as_short_windows (ac_stats a))
      OBSERVER_SHORT_TEMPO_WINDOW_PACKETS.
Proof. subst a' b timings. unfold record_packet, record_inter_arrival. simpl. by destruct (bl_last_observed_at _). Qed.
End Recorded.

Lemma measures_new : measures Accumulator_new (mkHistory [] []).
Proof. by split. Qed.
Lemma measures_segment s a h : measures a h -> measures (set_segment s a) h.
Proof. intros []. by split. Qed.
Lemma measures_reset f a h :
  (forall b, bl_last_observed_at (f b) = None /\ bl_last_packet_duration (f b) = None /\
     bl_observed_packet_timings (f b) = []) ->
  measures a h -> measures (upd_baseline f a) (mkHistory (stretches h) []).
Proof.
  intros Hf []. destruct (Hf (ac_baseline a)) as (Hat & Hdu & Hti).
  assert (Hw : forall n, tempo_windows n (ticks (mkHistory (stretches h) [])) = tempo_windows n (ticks h))
    by (intros; by rewrite ticks_reset, tempo_windows_nil).
  split; simpl; unfold gaps, long_windows, short_windows; simpl; rewrite ?packets_reset, ?Hw, ?Hat, ?Hdu, ?Hti; try done.
  all: rewrite ticks_reset, ?sum_by_app, ?map_app, ?concat_app; simpl; rewrite ?app_nil_r; try done.
  all: unfold sum_by at 2; simpl; unfold span, media, sum_by; simpl; rewrite ?Z.add_0_r; done.
Qed.

Lemma concat_ticks h : zlen (concat (ticks h)) = zlen (packets h).
Proof. unfold ticks, packets. rewrite <- concat_map. unfold zlen. by rewrite length_map. Qed.
Lemma windows_bound n h : zlen (tempo_windows n (ticks h)) <= zlen (packets h).
Proof. rewrite <- concat_ticks. apply tempo_windows_le. Qed.
Lemma count_app P ws ws' : count P (ws ++ ws') = count P ws + count P ws'.
Proof. unfold count. by rewrite List.filter_app, zlen_app. Qed.
Lemma short_windows_two h : short_windows h = tempo_windows 25 (ticks h) ++ tempo_windows 50 (ticks h).
Proof. unfold short_windows. simpl. by rewrite app_nil_r. Qed.

Section Observed.
Context (a a1 : AudioValidationAccumulator) (h : History) (p : ObservedOpusPacket) (t : Z).
Context (d : OpusPacketDuration) (pcm : list f32).
Context (Hd : opus_packet_duration (op_payload p) = Some d) (Hp : observed_part a1 = observed_part a).
Context (Hm : measures a h).
Let h' := history_step h (Observe p t).
Let a' := record_packet p (od_samples d) pcm t a1.
Let l := map heard_tick (hi_current h).
Let tick := mkTick t (duration_from_samples (od_samples d)).
Let before := map (map heard_tick) (hi_done h).
Context (Hsane : sane h').

Lemma observed_tick : heard_tick (p, t) = tick.
Proof. unfold heard_tick, heard_samples. simpl. by rewrite Hd. Qed.
Lemma ticks_before : ticks h = before ++ [l].
Proof. apply ticks_split. Qed.
Lemma ticks_after : ticks h' = before ++ [l ++ [tick]].
Proof. subst h' l. rewrite ticks_split. simpl. by rewrite map_app, <- observed_tick. Qed.
Lemma observed_in_order : in_order (l ++ [tick]) /\ Forall in_order before /\ 2 * (zlen (packets h) + 1) <= u64_max.
Proof.
  destruct Hsane as [Ho Hn]. rewrite ticks_after in Ho. apply Forall_app in Ho as [Hb Hl%Forall_inv].
  split_and!; [done..|]. subst h'. simpl in Hn. by rewrite packets_observe, zlen_app in Hn.
Qed.
Lemma same_parts :
  ac_stats a1 = ac_stats a /\ ac_totals a1 = ac_totals a /\ ac_baseline a1 = ac_baseline a /\ ac_segment a1 = ac_segment a.
Proof. by injection Hp as -> -> -> ->. Qed.
Lemma observed_timings :
  map timing_tick (bl_observed_packet_timings (ac_baseline a1) ++
    [mkObservedTiming t (duration_from_samples (od_samples d))
       (duration_millis (to_decoded_audio_duration (ac_totals a1))) (op_sequence p)]) = l ++ [tick].
Proof. destruct same_parts as (_ & _ & -> & _). rewrite map_app, (me_timings _ _ Hm). done. Qed.
Lemma observed_intervals :
  intervals (l ++ [tick]) =
    intervals l ++ match bl_last_observed_at (ac_baseline a1) with Some previous => [sat_sub t previous] | None => [] end.
Proof.
  destruct same_parts as (_ & _ & -> & _). rewrite (me_last_at _ _ Hm). fold l.
  destruct observed_in_order as (Ho & _). clear -Ho. destruct l as [|x l' _] using rev_ind; [done|].
  rewrite last_snoc, intervals_snoc. simpl. apply in_order_snoc in Ho as (_ & Hx & _).
  simpl in Hx. by rewrite sat_sub_exact.
Qed.

Lemma observed_totals :
  to_decoded_audio_duration (ac_totals a') = sum_by media (ticks h') /\
  to_active_wall_clock_elapsed (ac_totals a') = sum_by span (ticks h') /\
  to_inter_arrivals (ac_totals a') = concat (map intervals (ticks h')).
Proof.
  destruct observed_in_order as (Ho & Hb & _). destruct same_parts as (_ & Ht & Hba & _).
  subst a'. rewrite recorded_decoded, recorded_wall, recorded_intervals, ticks_after, Ht.
  rewrite (me_decoded _ _ Hm), (me_wall _ _ Hm), (me_intervals _ _ Hm), ticks_before.
  rewrite !sum_by_app, !sum_by_cons, !sum_by_nil, !Z.add_0_r, !map_app, !concat_app. simpl. rewrite !app_nil_r.
  split_and!.
  - unfold media. rewrite sum_by_app, sum_by_cons, sum_by_nil. simpl. lia.
  - rewrite Hba, (me_last_at _ _ Hm), (me_last_duration _ _ Hm). fold l.
    apply (clock_step_span _ l tick); [done|]. apply sum_by_nonneg.
    intros s Hs. apply span_nonneg. by eapply Forall_forall in Hb.
  - by rewrite observed_intervals, app_assoc.
Qed.
Lemma observed_gaps : ar_gap_count_gte_100ms (as_arrivals (ac_stats a')) = zlen (gaps h').
Proof.
  destruct same_parts as (Hs & _). subst a'. rewrite recorded_gaps, Hs, (me_gaps _ _ Hm).
  unfold gaps. rewrite ticks_after, ticks_before, !map_app, !concat_app, !List.filter_app, !zlen_app. simpl.
  rewrite !app_nil_r, observed_intervals, List.filter_app, zlen_app.
  destruct (bl_last_observed_at _) as [x|]; simpl; [destruct (_ <=? _)|]; unfold zlen; simpl; lia.
Qed.
Lemma observed_long :
  lw_count (as_long_windows (ac_stats a')) = zlen (long_windows h') /\
  we_count (lw_fast (as_long_windows (ac_stats a'))) = count fast_window (long_windows h') /\
  we_count (lw_slow (as_long_windows (ac_stats a'))) = count slow_window (long_windows h').
Proof.
  destruct same_parts as (Hs & _). destruct observed_in_order as (Ho & _ & Hn).
  pose proof (windows_bound OBSERVER_TEMPO_WINDOW_PACKETS h) as Hwb. fold (long_windows h) in Hwb.
  pose proof (count_le fast_window (long_windows h)). pose proof (count_le slow_window (long_windows h)).
  subst a'. rewrite recorded_long, Hs.
  edestruct (long_window_counts) as (-> & -> & ->); [by rewrite observed_timings|..].
  - rewrite (me_long _ _ Hm). lia.
  - rewrite (me_long_fast _ _ Hm). lia.
  - rewrite (me_long_slow _ _ Hm). lia.
  - rewrite observed_timings, (me_long _ _ Hm), (me_long_fast _ _ Hm), (me_long_slow _ _ Hm).
    unfold long_windows. rewrite ticks_after, ticks_before, tempo_windows_snoc by (unfold OBSERVER_TEMPO_WINDOW_PACKETS; lia).
    by rewrite zlen_app, !count_app.
Qed.
Lemma observed_short :
  sw_count (as_short_windows (ac_stats a')) = zlen (short_windows h') /\
  sw_fast_count (as_short_windows (ac_stats a')) = count fast_window (short_windows h') /\
  sw_slow_count (as_short_windows (ac_stats a')) = count slow_window (short_windows h').
Proof.
  destruct same_parts as (Hs & _). destruct observed_in_order as (Ho & _ & Hn).
  pose proof (windows_bound 25 h). pose proof (windows_bound 50 h).
  assert (Hz : zlen (short_windows h) <= 2 * zlen (packets h)) by (rewrite short_windows_two, zlen_app; lia).
  pose proof (count_le fast_window (short_windows h)). pose proof (count_le slow_window (short_windows h)).
  assert (Hone : forall n, zlen (latest n (l ++ [tick])) <= 1) by (intros n; unfold latest; by destruct (_ <? _)%nat).
  pose proof (Hone 25%nat). pose proof (count_le fast_window (latest 25 (l ++ [tick]))).
  pose proof (count_le slow_window (latest 25 (l ++ [tick]))).
  subst a'. rewrite recorded_short, Hs. unfold OBSERVER_SHORT_TEMPO_WINDOW_PACKETS. simpl foldl.
  set (w1 := record_latest_short_window _ _ _ 25).
  assert (Hw1 : sw_count w1 = zlen (short_windows h) + zlen (latest 25 (l ++ [tick])) /\
    sw_fast_count w1 = count fast_window (short_windows h) + count fast_window (latest 25 (l ++ [tick])) /\
    sw_slow_count w1 = count slow_window (short_windows h) + count slow_window (latest 25 (l ++ [tick]))).
  { subst w1. edestruct short_window_counts as (-> & -> & ->); [| |..];
      rewrite ?observed_timings, ?(me_short _ _ Hm), ?(me_short_fast _ _ Hm), ?(me_short_slow _ _ Hm); try done; lia. }
  destruct Hw1 as (Hc & Hf & Hl).
  edestruct (short_window_counts) as (-> & -> & ->); [| |..]; rewrite ?observed_timings; [lia|done|lia..|].
  rewrite Hc, Hf, Hl, !short_windows_two, ticks_after, ticks_before, !tempo_windows_snoc by lia.
  rewrite !zlen_app, !count_app. lia.
Qed.
Lemma measures_observe : measures a' h'.
Proof.
  destruct observed_totals as (Ht1 & Ht2 & Ht3). destruct observed_long as (Hl1 & Hl2 & Hl3).
  destruct observed_short as (Hs1 & Hs2 & Hs3). pose proof observed_gaps as Hg. destruct same_parts as (Hs & _).
  split; try done.
  - subst a'. rewrite recorded_count, Hs, (me_count _ _ Hm). subst h'. simpl. by rewrite packets_observe, zlen_app.
  - subst a' h'. rewrite recorded_baseline. simpl. rewrite map_app. simpl. by rewrite last_snoc, observed_tick.
  - subst a' h'. rewrite recorded_baseline. simpl. rewrite map_app. simpl. by rewrite last_snoc, observed_tick.
  - subst a' h'. rewrite recorded_baseline. simpl. rewrite observed_timings, map_app. simpl. by rewrite observed_tick.
Qed.
End Observed.

Lemma measures_step a a' h x :
  measures a h -> sane (history_step h x) -> observer_step a x = Ok a' -> measures a' (history_step h x).
Proof.
  intros Hm Hs Hx. destruct x as [p t| | | |]; simpl in Hx.
  - apply observe_accepted in Hx as (d & pcm & a1 & Hd & Hp & _ & ->). by apply (measures_observe a a1).
  - injection Hx as <-. by apply measures_reset.
  - injection Hx as <-. by apply measures_segment.
  - injection Hx as <-. by apply measures_segment, measures_reset.
  - injection Hx as <-. by apply measures_segment.
Qed.

Lemma run_observer_snoc steps x a a' :
  run_observer (steps ++ [x]) a = Ok a' <-> exists a1, run_observer steps a = Ok a1 /\ observer_step a1 x = Ok a'.
Proof.
  induction steps as [|y steps IH] in a |- *; simpl.
  - split; [intros (a1 & Hx & Hr)%bind_Ok; injection Hr as <-; by exists a|].
    intros (a1 & [= <-] & Hx). rewrite Hx. done.
  - destruct (observer_step a y) as [a2| |]; simpl; [apply IH| |]; split; [done|by intros (? & ? & _)|done|by intros (? & ? & _)].
Qed.
Lemma observer_history steps a :
  run_observer steps Accumulator_new = Ok a ->
  follows a (history steps) /\ (sane (history steps) -> measures a (history steps)).
Proof.
  revert a. induction steps as [|x steps IH] using rev_ind; intros a.
  - intros [= <-]. split; [apply follows_new|intros _; apply measures_new].
  - intros (a1 & Hr & Hx)%run_observer_snoc. destruct (IH _ Hr) as [Hf Hm].
    unfold history in *. rewrite foldl_snoc. split; [by eapply follows_step|].
    intros Hs. eapply measures_step; [|done|done]. apply Hm. by eapply sane_step.
Qed.

(** *** Acceptance *)

(** Decoders can be created and decode the packet in full. *)
Definition decoders_created : Prop :=
  forall channels, channels = 1 \/ channels = 2 -> exists d, OpusDecoder_new SAMPLE_RATE_HZ channels = Ok d.
Definition decodable (x : Heard) : Prop :=
  is_Some (opus_packet_duration (op_payload x.1)) /\
  forall d pcm, snd (OpusDecoder_decode d (op_payload x.1) (heard_samples x) pcm) = Ok (heard_samples x).

Lemma bind_known {S E A B} (m : stm S E A) (k : A -> stm S E B) s s1 a : m s = (s1, Ok a) -> (m ≫= k) s = k a s1.
Proof. unfold mbind, stm_bind. by intros ->. Qed.

Lemma decode_succeeds x a :
  decoders_created -> decodable x -> exists a1 pcm, decode_observed x.1 a = (a1, Ok (heard_samples x, pcm)).
Proof.
  intros Hnew [[d Hd] Hdec]. assert (Hs : heard_samples x = od_samples d) by (unfold heard_samples; by rewrite Hd).
  assert (Hne : exists toc rest, op_payload x.1 = toc :: rest).
  { destruct (op_payload x.1) as [|toc rest]; [done|by eexists _, _]. }
  destruct Hne as (toc & rest & Hne).
  assert (Hch : exists channels, opus_packet_channels (op_payload x.1) = Some channels /\ (channels = 1 \/ channels = 2)).
  { rewrite Hne. unfold opus_packet_channels. simpl. eexists. split; [done|]. destruct (negb _); auto. }
  destruct Hch as (channels & Hch & Hch12). destruct (Hnew _ Hch12) as [created Hcr].
  unfold decode_observed. erewrite bind_known; [|unfold lift; rewrite Hne; reflexivity].
  erewrite bind_known; [|unfold lift; rewrite Hd; reflexivity].
  erewrite bind_known; [|unfold lift; rewrite Hch; reflexivity].
  erewrite bind_known; [|unfold decoder_of; erewrite bind_known; [|unfold lift; rewrite Hcr; reflexivity];
    erewrite bind_known; [|reflexivity]; cbv zeta; erewrite bind_known; [|reflexivity]; reflexivity].
  cbv beta. pose proof (Hdec (default created ((if channels =? 1 then ac_mono_decoder else ac_stereo_decoder) a))
    (repeat f32_zero (Z.to_nat (heard_samples x * channels)))) as Hans. rewrite Hs in *.
  destruct (OpusDecoder_decode _ _ _ _) as [[d' pcm] answer]. simpl in Hans. subst answer.
  erewrite bind_known; [|reflexivity]. erewrite bind_known; [|reflexivity].
  erewrite bind_known; [|unfold lift; rewrite Z.eqb_refl; reflexivity]. by eexists _, _.
Qed.

Lemma observe_succeeds x a :
  decoders_created -> decodable x ->
  validate_rtp_continuity (ac_baseline a) (op_sequence x.1) (op_timestamp x.1) = Ok tt ->
  exists a', observer_step a (Observe x.1 x.2) = Ok a' /\
    bl_last_packet_sequence (ac_baseline a') = Some (op_sequence x.1) /\
    bl_last_packet_timestamp (ac_baseline a') = Some (op_timestamp x.1) /\
    bl_last_packet_duration_samples (ac_baseline a') = Some (heard_samples x).
Proof.
  intros Hnew Hdec Hv. destruct (decode_succeeds x a Hnew Hdec) as (a1 & pcm & Hd).
  pose proof (decode_observed_Ok _ _ _ _ _ Hd) as (Hp & _). unfold observed_part in Hp.
  assert (Hb : ac_baseline a1 = ac_baseline a) by (by injection Hp).
  exists (record_packet x.1 (heard_samples x) pcm x.2 a1). rewrite recorded_baseline. split; [|done].
  simpl. unfold observe_packet_at. erewrite bind_known; [|exact Hd]. cbv iota beta.
  erewrite bind_known; [|reflexivity]. erewrite bind_known; [|unfold lift; rewrite Hb, Hv; reflexivity].
  erewrite bind_known; [|reflexivity]. done.
Qed.

Definition next_packet (a b : Heard) : Prop := next_sequence a b /\ next_timestamp a b.
Definition observe_all (l : list Heard) : list ObserverStep := map (fun x => Observe x.1 x.2) l.

Lemma stream_accepted l a :
  decoders_created -> Forall decodable l -> linked next_packet l ->
  (forall x, head l = Some x ->
     validate_rtp_continuity (ac_baseline a) (op_sequence x.1) (op_timestamp x.1) = Ok tt) ->
  exists a', run_observer (observe_all l) a = Ok a'.
Proof.
  intros Hnew. induction l as [|x l IH] in a |- *; [by exists a|]. intros Hdec Hl Hv.
  apply Forall_cons in Hdec as [Hx Hdec].
  destruct (observe_succeeds x a Hnew Hx (Hv x eq_refl)) as (a1 & Ha1 & Hq & Ht & Hs).
  destruct (IH a1 Hdec) as [a' Ha'].
  - by destruct l as [|y l]; [|destruct Hl].
  - intros y Hy. destruct l as [|z l]; [done|]. injection Hy as ->. destruct Hl as [[Hyq Hyt] _].
    unfold validate_rtp_continuity. rewrite Hq, Ht, Hs. unfold next_sequence in Hyq. rewrite Hyq, Z.eqb_refl.
    unfold next_timestamp in Hyt. simpl. by rewrite Hyt, Z.eqb_refl.
  - exists a'. unfold observe_all in *. simpl map. simpl run_observer. simpl observer_step in Ha1. rewrite Ha1. done.
Qed.

(** ** Theorems *)

(** The packet [x] of a stream is the prepared packet [w] as the observer gets
    it: its cursor, and a frame that lasts as long as the packet says. *)
Definition carries (x : Heard) (w : PreparedVoicePacket) : Prop :=
  (op_sequence x.1, op_timestamp x.1) = packet_cursor w /\ heard_samples x = pv_duration_samples w /\
  in_uint u32_max (pv_duration_samples w).

Lemma cursors_linked l ws s :
  Forall2 carries l ws -> map packet_cursor ws = advance_cursors s (durations ws) -> linked next_packet l.
Proof.
  intros Hlw. revert s. induction Hlw as [|x w l ws (Hc & Hs & Hd) Hl IH]; intros s Hcur; [done|].
  cbn [map durations advance_cursors advance_by_samples] in Hcur. apply (inj2 cons) in Hcur as [Hw Hcur].
  destruct Hl as [|y v l ws Hy Hl]; [done|]. split; [|by eapply IH].
  cbn [map advance_cursors advance_by_samples] in Hcur. apply (inj2 cons) in Hcur as [Hv _].
  destruct Hy as (Hcy & _). rewrite Hw in Hc. rewrite Hv in Hcy. unfold current in *. simpl in Hcy.
  injection Hc as Hc1 Hc2. injection Hcy as Hy1 Hy2. split.
  - unfold next_sequence. by rewrite Hy1, Hc1.
  - unfold next_timestamp. rewrite Hy2, Hc2, Hs. unfold wrapping_add, wrap. rewrite Zminus_mod_idemp_l.
    replace (rs_timestamp s + _ - rs_timestamp s) with (pv_duration_samples w) by lia.
    apply Z.mod_small. unfold in_uint, u32_max in Hd. lia.
Qed.

(** C22. The observer accepts whatever the service puts on the wire: the packets
    a fresh transport has sent, in whatever mix of sending, failing, discarding
    and rebuilding, are all accepted when they arrive in order and decode, so
    that a rejected stream means loss, reordering or a broken frame. *)
Theorem observer_accepts_wire `{A : Aead} ssrc t l :
  reachable (VoiceUdpTransport_new ssrc) t -> Forall2 carries l (ps_wire (tr_sender t)) ->
  decoders_created -> Forall decodable l ->
  exists a, run_observer (observe_all l) Accumulator_new = Ok a.
Proof.
  intros Ht Hl Hnew Hdec. destruct (reachable_sender_ok _ _ Ht sender_ok_new) as [_ Hcur].
  apply stream_accepted; [done|done| |done]. by eapply cursors_linked.
Qed.

(** C21. The statistics of the observer are the measures of the packets it
    accepted: whatever steps a run takes, the packets form one RTP stream, and
    their number, their audio, the time on air (pauses cut out), the gaps and
    the fast and slow rolling tempo windows, none of which spans a pause, are
    those of the history of the run. *)
Theorem observer_measures_history steps a :
  run_observer steps Accumulator_new = Ok a -> sane (history steps) ->
  let h := history steps in
  let s := stats a in
  one_stream h /\ as_observed_packet_count s = zlen (packets h) /\
  (packets h <> [] ->
     as_decoded_audio_ms s = duration_millis (sum_by media (ticks h)) /\
     as_wall_clock_elapsed_ms s = duration_millis (sum_by span (ticks h)) /\
     as_decoded_audio_to_wall_clock_ratio_ppm s =
       media_to_wall_clock_ratio_ppm_duration (sum_by media (ticks h)) (sum_by span (ticks h))) /\
  ar_gap_count_gte_100ms (as_arrivals s) = zlen (gaps h) /\
  lw_count (as_long_windows s) = zlen (long_windows h) /\
  we_count (lw_fast (as_long_windows s)) = count fast_window (long_windows h) /\
  we_count (lw_slow (as_long_windows s)) = count slow_window (long_windows h) /\
  sw_count (as_short_windows s) = zlen (short_windows h) /\
  sw_fast_count (as_short_windows s) = count fast_window (short_windows h) /\
  sw_slow_count (as_short_windows s) = count slow_window (short_windows h).
Proof.
  intros Hr Hs h s. destruct (observer_history _ _ Hr) as [[_ _ Ho] Hm]. destruct (Hm Hs).
  subst h s. unfold stats. simpl. split_and!; try done.
  intros Hne. rewrite me_count0, me_decoded0, me_wall0.
  assert (Hpos : 0 < zlen (packets (history steps))) by (unfold zlen; destruct (packets (history steps)); [done|simpl; lia]).
  by rewrite (proj2 (Z.ltb_lt _ _) Hpos).
Qed.

End Observer.

(** ** Witnesses *)

(** A decoder that plays silence. *)
#[export] Instance silent_decoder : OpusDecoderApi := {|
  OpusDecoder := unit;
  OpusDecoder_new _ _ := Ok tt;
  OpusDecoder_decode d _ n pcm := (d, pcm, Ok n);
|}.
(** 20 ms of stereo; [frame n t]: packet [n] at [t] ms. *)
Definition frame (n t : Z) : Heard := (mkObservedPacket n (n * 960) [0xfc; 0], t * 1000000).
Definition observed_run : list ObserverStep :=
  observe_all [frame 0 0; frame 1 20; frame 2 40] ++ [StartPause; ResumeAfterPause] ++
  observe_all [frame 3 3040; frame 4 3160; frame 5 3180] ++ [StartDrain].

Lemma observer_accepts_wire_witness :
  exists a, run_observer (observe_all [frame 0 5]) Accumulator_new = Ok a.
Proof.
  apply (@observer_accepts_wire silent_decoder checksum_aead 7 sample_sent [frame 0 5]).
  - apply rtc_once, step_send. by repeat split.
  - repeat constructor; vm_compute; intuition discriminate.
  - intros channels _. by exists tt.
  - repeat constructor. by eexists.
Defined.
Lemma observer_measures_history_witness :
  exists a, run_observer observed_run Accumulator_new = Ok a /\
    as_observed_packet_count (stats a) = 6 /\ as_decoded_audio_ms (stats a) = 120 /\
    as_wall_clock_elapsed_ms (stats a) = 220 /\ ar_gap_count_gte_100ms (as_arrivals (stats a)) = 1.
Proof.
  eexists. split; [vm_compute; reflexivity|].
  edestruct (observer_measures_history observed_run) as (_ & Hn & Hd & Hg & _).
  - vm_compute. reflexivity.
  - split; [|vm_compute; intuition discriminate].
    repeat (apply Forall_cons; split; [split; vm_compute; repeat constructor; intuition discriminate|]). constructor.
  - destruct Hd as (Hd & Hw & _); [vm_compute; discriminate|].
    split_and!; [by rewrite Hn|by rewrite Hd|by rewrite Hw|by rewrite Hg].
Defined.
