(* ===== verification/LiveContract.v ===== *)
(** * The contract of a live validation run

    crates/discord-voice-service-live-validation/src/contract.rs: what a run
    must have exercised ([LiveContractState]), the order in which the events of
    a playback may come ([observe_event]), and how the results of a run and of
    its cleanup are put together. The flags are two records: what was
    validated, and what was seen of the events. *)

From S2P Require Import Prelude Text Anyhow Endpoint Twilight.
From stdpp Require Import prelude strings.
Open Scope Z_scope.

Record Validated : Type := mkValidated {
  va_join_voice : bool;
  va_update_voice_context : bool;
  va_play : bool;
  va_pause : bool;
  va_resume : bool;
  va_invalid_resume_ignored : bool;
  va_redundant_pause_ignored : bool;
  va_observer_proved_pause : bool;
  va_observer_proved_resume : bool;
  va_reconnect_rollover_during_playback : bool;
  va_stop : bool;
  va_stop_during_playback : bool;
  va_leave_voice : bool;
  va_leave_voice_during_playback : bool;
  va_get_state : bool;
  va_get_playback_metrics : bool;
  va_subscribe_events : bool;
}.
Record Seen : Type := mkSeen {
  seen_voice_connecting : bool;
  seen_voice_ready : bool;
  seen_track_resolving : bool;
  seen_buffering : bool;
  seen_playing : bool;
  seen_paused : bool;
  seen_resumed_playing : bool;
  seen_track_ended : bool;
}.
Record LiveContractState : Type := mkContract {
  lc_validated : Validated;
  lc_seen : Seen;
}.
Definition Validated_default : Validated := mkValidated false false false false false false false false false false false false false false false false false.
Definition Seen_default : Seen := mkSeen false false false false false false false false.
Definition LiveContractState_default : LiveContractState := mkContract Validated_default Seen_default.

Definition upd_validated (f : Validated -> Validated) (s : LiveContractState) : LiveContractState :=
  mkContract (f (lc_validated s)) (lc_seen s).
Definition upd_seen (f : Seen -> Seen) (s : LiveContractState) : LiveContractState :=
  mkContract (lc_validated s) (f (lc_seen s)).

(** ** Coverage *)

Definition mark_join_voice : LiveContractState -> LiveContractState := upd_validated (fun s =>
  mkValidated true (va_update_voice_context s) (va_play s) (va_pause s) (va_resume s) (va_invalid_resume_ignored s)
    (va_redundant_pause_ignored s) (va_observer_proved_pause s) (va_observer_proved_resume s)
    (va_reconnect_rollover_during_playback s) (va_stop s) (va_stop_during_playback s) (va_leave_voice s)
    (va_leave_voice_during_playback s) (va_get_state s) (va_get_playback_metrics s) (va_subscribe_events s)).
Definition mark_update_voice_context : LiveContractState -> LiveContractState := upd_validated (fun s =>
  mkValidated (va_join_voice s) true (va_play s) (va_pause s) (va_resume s) (va_invalid_resume_ignored s)
    (va_redundant_pause_ignored s) (va_observer_proved_pause s) (va_observer_proved_resume s)
    (va_reconnect_rollover_during_playback s) (va_stop s) (va_stop_during_playback s) (va_leave_voice s)
    (va_leave_voice_during_playback s) (va_get_state s) (va_get_playback_metrics s) (va_subscribe_events s)).
Definition mark_play : LiveContractState -> LiveContractState := upd_validated (fun s =>
  mkValidated (va_join_voice s) (va_update_voice_context s) true (va_pause s) (va_resume s)
    (va_invalid_resume_ignored s) (va_redundant_pause_ignored s) (va_observer_proved_pause s)
    (va_observer_proved_resume s) (va_reconnect_rollover_during_playback s) (va_stop s) (va_stop_during_playback s)
    (va_leave_voice s) (va_leave_voice_during_playback s) (va_get_state s) (va_get_playback_metrics s)
    (va_subscribe_events s)).
Definition mark_pause : LiveContractState -> LiveContractState := upd_validated (fun s =>
  mkValidated (va_join_voice s) (va_update_voice_context s) (va_play s) true (va_resume s)
    (va_invalid_resume_ignored s) (va_redundant_pause_ignored s) true (va_observer_proved_resume s)
    (va_reconnect_rollover_during_playback s) (va_stop s) (va_stop_during_playback s) (va_leave_voice s)
    (va_leave_voice_during_playback s) (va_get_state s) (va_get_playback_metrics s) (va_subscribe_events s)).
Definition mark_resume : LiveContractState -> LiveContractState := upd_validated (fun s =>
  mkValidated (va_join_voice s) (va_update_voice_context s) (va_play s) (va_pause s) true
    (va_invalid_resume_ignored s) (va_redundant_pause_ignored s) (va_observer_proved_pause s) true
    (va_reconnect_rollover_during_playback s) (va_stop s) (va_stop_during_playback s) (va_leave_voice s)
    (va_leave_voice_during_playback s) (va_get_state s) (va_get_playback_metrics s) (va_subscribe_events s)).
Definition mark_invalid_resume_ignored : LiveContractState -> LiveContractState := upd_validated (fun s =>
  mkValidated (va_join_voice s) (va_update_voice_context s) (va_play s) (va_pause s) (va_resume s) true
    (va_redundant_pause_ignored s) (va_observer_proved_pause s) (va_observer_proved_resume s)
    (va_reconnect_rollover_during_playback s) (va_stop s) (va_stop_during_playback s) (va_leave_voice s)
    (va_leave_voice_during_playback s) (va_get_state s) (va_get_playback_metrics s) (va_subscribe_events s)).
Definition mark_redundant_pause_ignored : LiveContractState -> LiveContractState := upd_validated (fun s =>
  mkValidated (va_join_voice s) (va_update_voice_context s) (va_play s) (va_pause s) (va_resume s)
    (va_invalid_resume_ignored s) true (va_observer_proved_pause s) (va_observer_proved_resume s)
    (va_reconnect_rollover_during_playback s) (va_stop s) (va_stop_during_playback s) (va_leave_voice s)
    (va_leave_voice_during_playback s) (va_get_state s) (va_get_playback_metrics s) (va_subscribe_events s)).
Definition mark_reconnect_rollover_during_playback : LiveContractState -> LiveContractState := upd_validated (fun s =>
  mkValidated (va_join_voice s) (va_update_voice_context s) (va_play s) (va_pause s) (va_resume s)
    (va_invalid_resume_ignored s) (va_redundant_pause_ignored s) (va_observer_proved_pause s)
    (va_observer_proved_resume s) true (va_stop s) (va_stop_during_playback s) (va_leave_voice s)
    (va_leave_voice_during_playback s) (va_get_state s) (va_get_playback_metrics s) (va_subscribe_events s)).
Definition mark_stop : LiveContractState -> LiveContractState := upd_validated (fun s =>
  mkValidated (va_join_voice s) (va_update_voice_context s) (va_play s) (va_pause s) (va_resume s)
    (va_invalid_resume_ignored s) (va_redundant_pause_ignored s) (va_observer_proved_pause s)
    (va_observer_proved_resume s) (va_reconnect_rollover_during_playback s) true (va_stop_during_playback s)
    (va_leave_voice s) (va_leave_voice_during_playback s) (va_get_state s) (va_get_playback_metrics s)
    (va_subscribe_events s)).
Definition mark_stop_during_playback : LiveContractState -> LiveContractState := upd_validated (fun s =>
  mkValidated (va_join_voice s) (va_update_voice_context s) (va_play s) (va_pause s) (va_resume s)
    (va_invalid_resume_ignored s) (va_redundant_pause_ignored s) (va_observer_proved_pause s)
    (va_observer_proved_resume s) (va_reconnect_rollover_during_playback s) true true (va_leave_voice s)
    (va_leave_voice_during_playback s) (va_get_state s) (va_get_playback_metrics s) (va_subscribe_events s)).
Definition mark_leave_voice : LiveContractState -> LiveContractState := upd_validated (fun s =>
  mkValidated (va_join_voice s) (va_update_voice_context s) (va_play s) (va_pause s) (va_resume s)
    (va_invalid_resume_ignored s) (va_redundant_pause_ignored s) (va_observer_proved_pause s)
    (va_observer_proved_resume s) (va_reconnect_rollover_during_playback s) (va_stop s) (va_stop_during_playback s)
    true (va_leave_voice_during_playback s) (va_get_state s) (va_get_playback_metrics s) (va_subscribe_events s)).
Definition mark_leave_voice_during_playback : LiveContractState -> LiveContractState := upd_validated (fun s =>
  mkValidated (va_join_voice s) (va_update_voice_context s) (va_play s) (va_pause s) (va_resume s)
    (va_invalid_resume_ignored s) (va_redundant_pause_ignored s) (va_observer_proved_pause s)
    (va_observer_proved_resume s) (va_reconnect_rollover_during_playback s) (va_stop s) (va_stop_during_playback s)
    true true (va_get_state s) (va_get_playback_metrics s) (va_subscribe_events s)).
Definition mark_get_state : LiveContractState -> LiveContractState := upd_validated (fun s =>
  mkValidated (va_join_voice s) (va_update_voice_context s) (va_play s) (va_pause s) (va_resume s)
    (va_invalid_resume_ignored s) (va_redundant_pause_ignored s) (va_observer_proved_pause s)
    (va_observer_proved_resume s) (va_reconnect_rollover_during_playback s) (va_stop s) (va_stop_during_playback s)
    (va_leave_voice s) (va_leave_voice_during_playback s) true (va_get_playback_metrics s) (va_subscribe_events s)
   ).
Definition mark_get_playback_metrics : LiveContractState -> LiveContractState := upd_validated (fun s =>
  mkValidated (va_join_voice s) (va_update_voice_context s) (va_play s) (va_pause s) (va_resume s)
    (va_invalid_resume_ignored s) (va_redundant_pause_ignored s) (va_observer_proved_pause s)
    (va_observer_proved_resume s) (va_reconnect_rollover_during_playback s) (va_stop s) (va_stop_during_playback s)
    (va_leave_voice s) (va_leave_voice_during_playback s) (va_get_state s) true (va_subscribe_events s)).
Definition mark_subscribe_events : LiveContractState -> LiveContractState := upd_validated (fun s =>
  mkValidated (va_join_voice s) (va_update_voice_context s) (va_play s) (va_pause s) (va_resume s)
    (va_invalid_resume_ignored s) (va_redundant_pause_ignored s) (va_observer_proved_pause s)
    (va_observer_proved_resume s) (va_reconnect_rollover_during_playback s) (va_stop s) (va_stop_during_playback s)
    (va_leave_voice s) (va_leave_voice_during_playback s) (va_get_state s) (va_get_playback_metrics s) true).

(** [missing_required_coverage]: the flags in the order of the code, with their names. *)
Definition required_coverage (s : LiveContractState) : list (bool * string) :=
  let v := lc_validated s in
  let e := lc_seen s in
  [ (va_join_voice v, "JoinVoice");
    (va_update_voice_context v, "UpdateVoiceContext");
    (va_play v, "Play");
    (va_pause v, "Pause");
    (va_resume v, "Resume");
    (va_invalid_resume_ignored v, "ignored invalid Resume");
    (va_redundant_pause_ignored v, "ignored redundant Pause");
    (va_observer_proved_pause v, "Pause observer proof");
    (va_observer_proved_resume v, "Resume observer proof");
    (va_reconnect_rollover_during_playback v, "reconnect rollover during playback");
    (va_stop v, "Stop");
    (va_stop_during_playback v, "Stop during playback");
    (va_leave_voice v, "LeaveVoice");
    (va_leave_voice_during_playback v, "LeaveVoice during playback");
    (va_get_state v, "GetState");
    (va_get_playback_metrics v, "GetPlaybackMetrics");
    (va_subscribe_events v, "SubscribeEvents");
    (seen_voice_connecting e, "VoiceConnecting");
    (seen_voice_ready e, "VoiceReady");
    (seen_track_resolving e, "TrackResolving");
    (seen_buffering e, "Buffering");
    (seen_playing e, "Playing");
    (seen_paused e, "Paused");
    (seen_resumed_playing e, "Playing after Resume");
    (seen_track_ended e, "TrackEnded") ].
Definition missing_required_coverage (s : LiveContractState) : list string :=
  snd <$> filter (fun r => fst r = false) (required_coverage s).
Definition ensure_complete (s : LiveContractState) : anyhow unit :=
  let missing := missing_required_coverage s in
  if bool_decide (missing = []) then Ok tt
  else bail "live validation missing required coverage: {}" [Text (Text.join ", " missing)].

(** ** Events *)

Definition saw_voice_connecting : LiveContractState -> LiveContractState := upd_seen (fun s =>
  mkSeen true (seen_voice_ready s) (seen_track_resolving s) (seen_buffering s) (seen_playing s) (seen_paused s)
    (seen_resumed_playing s) (seen_track_ended s)).
Definition saw_voice_ready : LiveContractState -> LiveContractState := upd_seen (fun s =>
  mkSeen (seen_voice_connecting s) true (seen_track_resolving s) (seen_buffering s) (seen_playing s) (seen_paused s)
    (seen_resumed_playing s) (seen_track_ended s)).
Definition saw_track_resolving : LiveContractState -> LiveContractState := upd_seen (fun s =>
  mkSeen (seen_voice_connecting s) (seen_voice_ready s) true (seen_buffering s) (seen_playing s) (seen_paused s)
    (seen_resumed_playing s) (seen_track_ended s)).
Definition saw_buffering : LiveContractState -> LiveContractState := upd_seen (fun s =>
  mkSeen (seen_voice_connecting s) (seen_voice_ready s) (seen_track_resolving s) true (seen_playing s) (seen_paused s)
    (seen_resumed_playing s) (seen_track_ended s)).
Definition saw_playing : LiveContractState -> LiveContractState := upd_seen (fun s =>
  mkSeen (seen_voice_connecting s) (seen_voice_ready s) (seen_track_resolving s) (seen_buffering s) true
    (seen_paused s) (seen_resumed_playing s) (seen_track_ended s)).
Definition saw_paused : LiveContractState -> LiveContractState := upd_seen (fun s =>
  mkSeen (seen_voice_connecting s) (seen_voice_ready s) (seen_track_resolving s) (seen_buffering s) (seen_playing s)
    true (seen_resumed_playing s) (seen_track_ended s)).
Definition saw_resumed_playing : LiveContractState -> LiveContractState := upd_seen (fun s =>
  mkSeen (seen_voice_connecting s) (seen_voice_ready s) (seen_track_resolving s) (seen_buffering s) (seen_playing s)
    (seen_paused s) true (seen_track_ended s)).
Definition saw_track_ended : LiveContractState -> LiveContractState := upd_seen (fun s =>
  mkSeen (seen_voice_connecting s) (seen_voice_ready s) (seen_track_resolving s) (seen_buffering s) (seen_playing s)
    (seen_paused s) (seen_resumed_playing s) true).

(** ** Results *)

(** [{error}] prints the outermost message. *)
Definition outermost (e : AnyError) : list Arg :=
  match e with
  | m :: _ => Text (msg_format m) :: msg_args m
  | [] => []
  end.
(** [tracing::warn!] of a failed cleanup is left out. *)
Definition finalize_success_evidence {State Evidence} (flow_result : anyhow State) (cleanup : anyhow unit)
    (build_evidence : State -> Evidence) (emit_evidence : Evidence -> anyhow unit) : anyhow unit :=
  match flow_result, cleanup with
  | Ok state, Ok _ | Ok state, Err _ => emit_evidence (build_evidence state)
  | Err primary, Ok _ => Err primary
  | Err primary, Err cleanup_error => Err (mkMessage "cleanup also failed: {}" (outermost cleanup_error) :: primary)
  | Panic, _ | _, Panic => Panic
  end.
(** [{error:#}] prints the whole chain. *)
Definition combine_results (primary cleanup : anyhow unit) : anyhow unit :=
  match primary, cleanup with
  | Ok _, Ok _ => Ok tt
  | Err primary, Ok _ => Err primary
  | Ok _, Err cleanup => Err cleanup
  | Err primary, Err cleanup =>
      bail "{}; cleanup also failed: {}" (concat (map (fun m => outermost [m]) (primary ++ cleanup)))
  | Panic, _ | _, Panic => Panic
  end.

Definition i32_to_string (n : Z) : string := if n <? 0 then "-" +:+ u64_to_string (- n) else u64_to_string n.

Section Contract.
Context `{TM : TwilightModel}.

Definition validate_expected_video_id (event : TwSessionEvent) (expected_video_id : string) (kind : TwSessionEventKind)
    : anyhow unit :=
  let current_video_id := trim (default EmptyString (te_current_video_id event)) in
  if bool_decide (current_video_id = expected_video_id) then Ok tt else
  let observed := if bool_decide (current_video_id = EmptyString) then "none" else current_video_id in
  bail "{} observed wrong current_video_id: expected video `{}`, got `{}`"
    [Text (as_str_name kind); Text expected_video_id; Text observed].
Definition validate_expected_video_id_if_present (event : TwSessionEvent) (expected_video_id : string)
    (kind : TwSessionEventKind) : anyhow unit :=
  match te_current_video_id event with
  | None => Ok tt
  | Some id =>
      let current_video_id := trim id in
      if bool_decide (current_video_id = EmptyString) || bool_decide (current_video_id = expected_video_id) then Ok tt
      else bail "{} observed wrong current_video_id: expected video `{}`, got `{}`"
             [Text (as_str_name kind); Text expected_video_id; Text current_video_id]
  end.
Definition display_event_message (event : TwSessionEvent) : string :=
  if bool_decide (trim (default EmptyString (te_message event)) = EmptyString) then "no message"
  else default EmptyString (te_message event).

(** The events that may not come between Playing and TrackEnded. *)
Definition leaves_playback (kind : TwSessionEventKind) : bool :=
  match kind with
  | TK_VoiceConnecting | TK_VoiceReady | TK_TrackResolving | TK_Buffering | TK_Stopped => true
  | _ => false
  end.

Abbreviation cstm := (stm LiveContractState AnyError).

(** Whether the playback is complete. *)
Definition observe_event (event : TwSessionEvent) (expected_video_id : string) : cstm bool :=
  let kind := te_kind event in
  let expect := lift (validate_expected_video_id event expected_video_id kind) in
  let expect_if_present := lift (validate_expected_video_id_if_present event expected_video_id kind) in
  let bail_when (b : bool) (text : string) : cstm unit := lift (bail_if b text []) in
  seen ← gets lc_seen;
  let active := seen_playing seen && negb (seen_track_ended seen) in
  if leaves_playback kind && active
  then lift (bail "playback left steady Playing state after start: {}" [Text (as_str_name kind)])
  else match kind with
  | TK_VoiceConnecting => _ ← expect_if_present; _ ← modify saw_voice_connecting; mret false
  | TK_VoiceReady => _ ← expect_if_present; _ ← modify saw_voice_ready; mret false
  | TK_TrackResolving => _ ← expect; _ ← modify saw_track_resolving; mret false
  | TK_Buffering =>
      _ ← bail_when (negb (seen_track_resolving seen)) "Buffering observed before TrackResolving";
      _ ← expect; _ ← modify saw_buffering; mret false
  | TK_Playing =>
      if negb (seen_playing seen) then
        _ ← bail_when (negb (seen_track_resolving seen)) "Playing observed before TrackResolving";
        _ ← bail_when (negb (seen_buffering seen)) "Playing observed before Buffering";
        _ ← expect; _ ← modify saw_playing; mret false
      else
        _ ← expect;
        _ ← modify (if seen_paused seen then saw_resumed_playing else id);
        mret false
  | TK_Paused =>
      _ ← bail_when (negb (seen_playing seen)) "Paused observed before Playing";
      _ ← bail_when (seen_track_ended seen) "Paused observed after TrackEnded";
      _ ← expect; _ ← modify saw_paused; mret false
  | TK_TrackEnded =>
      _ ← bail_when (negb (seen_voice_ready seen)) "TrackEnded observed before VoiceReady";
      _ ← bail_when (negb (seen_track_resolving seen)) "TrackEnded observed before TrackResolving";
      _ ← bail_when (negb (seen_buffering seen)) "TrackEnded observed before Buffering";
      _ ← bail_when (negb (seen_playing seen)) "TrackEnded observed before Playing";
      _ ← bail_when (negb (seen_paused seen)) "TrackEnded observed before Paused";
      _ ← bail_when (negb (seen_resumed_playing seen)) "TrackEnded observed before Playing after Resume";
      _ ← expect; _ ← modify saw_track_ended; mret true
  | TK_FatalError => lift (bail "FatalError observed: {}" [Text (display_event_message event)])
  | TK_PlaybackInterrupted => lift (bail "PlaybackInterrupted observed: {}" [Text (display_event_message event)])
  | TK_VoiceReconnecting =>
      if active then
        _ ← expect;
        lift (bail "VoiceReconnecting observed: {}" [Text (display_event_message event)])
      else mret false
  | _ => mret false
  end.

(** What the controller starts a playback with (controller.rs). *)
Definition post_play_live_contract_state (initial : LiveContractState) : LiveContractState :=
  upd_seen (fun s => mkSeen (seen_voice_connecting s) (seen_voice_ready s) false false false false false false) initial.

(** ** The probes that interrupt a playback *)

Definition session_state_debug (s : TwSessionState) : string :=
  match s with
  | TS_Unspecified => "Unspecified" | TS_Idle => "Idle" | TS_ConnectingVoice => "ConnectingVoice"
  | TS_VoiceReady => "VoiceReady" | TS_ResolvingTrack => "ResolvingTrack" | TS_Buffering => "Buffering"
  | TS_Playing => "Playing" | TS_Paused => "Paused" | TS_Stopping => "Stopping" | TS_Error => "Error"
  | TS_Unknown value => "Unknown(" +:+ i32_to_string value +:+ ")"
  end.
Definition display_probe_event_message (event : TwSessionEvent) : string :=
  match te_message event with
  | Some message => if bool_decide (trim message = EmptyString) then "no message" else message
  | None => "no message"
  end.
Definition validate_interrupt_probe_video_id (event : TwSessionEvent) (expected_video_id label : string) : anyhow unit :=
  bail_if (negb (bool_decide (te_current_video_id event = Some expected_video_id)))
    "active {} probe observed {} for current_video_id {:?}; expected `{}`"
    [Text label; Text (as_str_name (te_kind event)); MaybeText (te_current_video_id event); Text expected_video_id].
(** Whether the probe's track plays. *)
Definition validate_interrupt_probe_playing_event (event : TwSessionEvent) (expected_video_id label : string)
    : anyhow bool :=
  match te_kind event with
  | TK_TrackResolving | TK_Buffering | TK_Playing =>
      _ ← validate_interrupt_probe_video_id event expected_video_id label;
      Ok match te_kind event with TK_Playing => true | _ => false end
  | TK_TrackEnded => bail "active {} probe reached TrackEnded before interruption" [Text label]
  | TK_Stopped => bail "active {} probe observed Stopped before issuing the interrupt command" [Text label]
  | TK_PlaybackInterrupted =>
      bail "active {} probe observed PlaybackInterrupted before issuing the interrupt command: {}"
        [Text label; Text (display_probe_event_message event)]
  | TK_FatalError =>
      bail "active {} probe observed FatalError before issuing the interrupt command: {}"
        [Text label; Text (display_probe_event_message event)]
  | TK_VoiceReconnecting =>
      bail "active {} probe observed VoiceReconnecting before issuing the interrupt command: {}"
        [Text label; Text (display_probe_event_message event)]
  | _ => Ok false
  end.
Definition is_some {A} (o : option A) : bool := match o with Some _ => true | None => false end.
Definition ensure_state_after_active_stop (snapshot : StateSnapshot) : anyhow unit :=
  _ ← bail_if (negb (match ts_state snapshot with TS_VoiceReady => true | _ => false end))
       "active Stop probe left service in {:?}; expected VoiceReady" [Text (session_state_debug (ts_state snapshot))];
  bail_if (is_some (ts_current_video_id snapshot) || is_some (ts_selected_itag snapshot))
    "active Stop probe left track metadata in state: current_video_id={:?} selected_itag={:?}"
    [MaybeText (ts_current_video_id snapshot); MaybeNum (ts_selected_itag snapshot)].
Definition ensure_state_after_active_leave_voice (snapshot : StateSnapshot) : anyhow unit :=
  _ ← bail_if (negb (match ts_state snapshot with TS_Idle => true | _ => false end))
       "active LeaveVoice probe left service in {:?}; expected Idle" [Text (session_state_debug (ts_state snapshot))];
  bail_if (is_some (ts_guild_id snapshot) || is_some (ts_channel_id snapshot) ||
           is_some (ts_current_video_id snapshot) || is_some (ts_selected_itag snapshot))
    "active LeaveVoice probe left voice or track metadata in state: guild_id={:?} channel_id={:?} current_video_id={:?} selected_itag={:?}"
    [MaybeText (id_to_string <$> ts_guild_id snapshot); MaybeText (id_to_string <$> ts_channel_id snapshot);
     MaybeText (ts_current_video_id snapshot); MaybeNum (ts_selected_itag snapshot)].

(** ** Runs *)

(** The events that name the expected track. *)
Definition names_track (expected_video_id : string) (event : TwSessionEvent) : Prop :=
  trim (default EmptyString (te_current_video_id event)) = expected_video_id.
#[local] Instance names_track_dec v e : Decision (names_track v e).
Proof. unfold names_track. apply _. Defined.
Definition track_kinds (expected_video_id : string) (events : list TwSessionEvent) : list TwSessionEventKind :=
  te_kind <$> filter (names_track expected_video_id) events.
(** What may come while a track plays. *)
Definition undisturbed (kind : TwSessionEventKind) : Prop :=
  match kind with
  | TK_Playing | TK_Paused | TK_RecoverableWarning | TK_Unspecified | TK_Unknown _ => True
  | _ => False
  end.
Definition harmless (kind : TwSessionEventKind) : Prop := kind <> TK_FatalError /\ kind <> TK_PlaybackInterrupted.

(** The milestones a state has passed, in order. *)
Definition milestones (s : Seen) : list TwSessionEventKind :=
  (if seen_track_resolving s then [TK_TrackResolving] else []) ++ (if seen_buffering s then [TK_Buffering] else []) ++
  (if seen_playing s then [TK_Playing] else []) ++ (if seen_paused s then [TK_Paused] else []) ++
  (if seen_resumed_playing s then [TK_Playing] else []) ++ (if seen_track_ended s then [TK_TrackEnded] else []).

(** The events [h] observed so far explain the state. *)
Record explains (v : string) (h : list TwSessionEvent) (s : Seen) : Prop := {
  ex_milestones : milestones s `sublist_of` track_kinds v h;
  ex_buffering : seen_buffering s = true -> seen_track_resolving s = true;
  ex_playing : seen_playing s = true -> seen_buffering s = true;
  ex_paused : seen_paused s = true -> seen_playing s = true;
  ex_resumed : seen_resumed_playing s = true -> seen_paused s = true;
  ex_ended : seen_track_ended s = true -> seen_resumed_playing s = true;
  ex_harmless : Forall (fun e => harmless (te_kind e)) h;
  ex_started : seen_playing s = true -> exists h1 p h2, h = h1 ++ p :: h2 /\ te_kind p = TK_Playing /\
    Forall (fun e => te_kind e <> TK_Playing) h1 /\
    Forall (fun e => undisturbed (te_kind e)) (if seen_track_ended s then removelast h2 else h2);
  ex_not_started : seen_playing s = false -> Forall (fun e => te_kind e <> TK_Playing) h;
}.

Lemma track_kinds_snoc v h e :
  track_kinds v (h ++ [e]) = track_kinds v h ++ (if decide (names_track v e) then [te_kind e] else []).
Proof. unfold track_kinds. rewrite filter_app, fmap_app. f_equal. rewrite filter_cons. by destruct (decide _). Qed.
Lemma expected_id event v kind u : validate_expected_video_id event v kind = Ok u -> names_track v event.
Proof. unfold validate_expected_video_id, names_track. cbv zeta. by case_bool_decide. Qed.

(** The contract as a transition system, before the end of the track. *)
Inductive contract_step (v : string) (st : LiveContractState) (e : TwSessionEvent) : LiveContractState -> Prop :=
| step_connecting :
    te_kind e = TK_VoiceConnecting -> seen_playing (lc_seen st) = false ->
    contract_step v st e (saw_voice_connecting st)
| step_ready :
    te_kind e = TK_VoiceReady -> seen_playing (lc_seen st) = false -> contract_step v st e (saw_voice_ready st)
| step_resolving :
    te_kind e = TK_TrackResolving -> names_track v e -> seen_playing (lc_seen st) = false ->
    contract_step v st e (saw_track_resolving st)
| step_buffering :
    te_kind e = TK_Buffering -> names_track v e -> seen_playing (lc_seen st) = false ->
    seen_track_resolving (lc_seen st) = true -> contract_step v st e (saw_buffering st)
| step_start :
    te_kind e = TK_Playing -> names_track v e -> seen_playing (lc_seen st) = false ->
    seen_track_resolving (lc_seen st) = true -> seen_buffering (lc_seen st) = true ->
    contract_step v st e (saw_playing st)
| step_playing :
    te_kind e = TK_Playing -> names_track v e -> seen_playing (lc_seen st) = true ->
    contract_step v st e (if seen_paused (lc_seen st) then saw_resumed_playing st else st)
| step_paused :
    te_kind e = TK_Paused -> names_track v e -> seen_playing (lc_seen st) = true -> contract_step v st e (saw_paused st)
| step_ended :
    te_kind e = TK_TrackEnded -> names_track v e -> seen_voice_ready (lc_seen st) = true ->
    seen_resumed_playing (lc_seen st) = true -> seen_playing (lc_seen st) = true ->
    contract_step v st e (saw_track_ended st)
| step_ignored :
    harmless (te_kind e) -> te_kind e <> TK_Playing -> (seen_playing (lc_seen st) = true -> undisturbed (te_kind e)) ->
    contract_step v st e st.

Lemma observe_event_step e v st st' b :
  seen_track_ended (lc_seen st) = false -> observe_event e v st = (st', Ok b) -> contract_step v st e st'.
Proof.
  intros Hend. unfold observe_event. intros (s1 & seen & [= <- <-] & E)%stm_bind_Ok. cbv zeta in E.
  rewrite Hend, andb_true_r in E.
  destruct (te_kind e) eqn:Hk; destruct (seen_playing (lc_seen st)) eqn:Hp;
    cbn [leaves_playback andb negb] in E; inv_stm;
    repeat match goal with
    | H : validate_expected_video_id _ _ _ = Ok _ |- _ => apply expected_id in H
    | H : bail_if (negb _) _ _ = Ok _ |- _ => apply bail_if_Ok, negb_false_iff in H
    end; subst; try discriminate;
    try solve [eauto using contract_step];
    try (apply step_ignored; rewrite Hk; [by split|done|by try rewrite Hp]).
  rename select (names_track v e) into Hn. rename select (seen_playing _ = true) into Hp.
  pose proof (step_playing v _ e Hk Hn Hp) as Hs. by destruct (seen_paused _).
Qed.

(** A milestone is passed when its event comes. *)
Lemma milestones_grow v st e st' h :
  explains v h (lc_seen st) -> seen_track_ended (lc_seen st) = false -> contract_step v st e st' ->
  milestones (lc_seen st') = milestones (lc_seen st) \/
  (names_track v e /\ milestones (lc_seen st') = milestones (lc_seen st) ++ [te_kind e]).
Proof.
  intros [_ Hb Hp Ha Hr _ _ _ _] He [Hk H1|Hk H1|Hk Hn H1|Hk Hn H1 H2|Hk Hn H1 H2 H3|Hk Hn H1|Hk Hn H1|Hk Hn H1 H2 H3|];
    destruct st as [va [a1 a2 a3 a4 a5 a6 a7 a8]]; simpl in *; [by left..| | | | | | |by left]; rewrite Hk;
    destruct a3, a4, a5, a6, a7, a8; try discriminate; try discriminate (Hb eq_refl); try discriminate (Hp eq_refl);
    try discriminate (Ha eq_refl); try discriminate (Hr eq_refl); auto.
Qed.

(** The order of the flags survives a step. *)
Definition flags_ordered (s : Seen) : Prop :=
  (seen_buffering s = true -> seen_track_resolving s = true) /\ (seen_playing s = true -> seen_buffering s = true) /\
  (seen_paused s = true -> seen_playing s = true) /\ (seen_resumed_playing s = true -> seen_paused s = true) /\
  (seen_track_ended s = true -> seen_resumed_playing s = true).
Lemma flags_step v st e st' :
  flags_ordered (lc_seen st) -> contract_step v st e st' -> flags_ordered (lc_seen st').
Proof.
  intros H Hst. destruct Hst; destruct st as [va [a1 a2 a3 a4 a5 a6 a7 a8]]; unfold flags_ordered in *; simpl in *;
    try (destruct a6; simpl); intuition congruence.
Qed.
(** What an event tells of the time since the track started. *)
Lemma playing_step v st e st' :
  seen_track_ended (lc_seen st) = false -> contract_step v st e st' ->
  harmless (te_kind e) /\
  (seen_playing (lc_seen st) = true -> seen_playing (lc_seen st') = true /\
     (seen_track_ended (lc_seen st') = false -> undisturbed (te_kind e))) /\
  (seen_playing (lc_seen st) = false ->
     (seen_playing (lc_seen st') = true /\ te_kind e = TK_Playing /\ seen_track_ended (lc_seen st') = false) \/
     (seen_playing (lc_seen st') = false /\ te_kind e <> TK_Playing)).
Proof.
  intros He Hst. unfold harmless, undisturbed in *. destruct Hst as [Hk|Hk|Hk|Hk|Hk|Hk|Hk|Hk|Hk Hn Hu];
    try (rewrite Hk; destruct st as [va [a1 a2 a3 a4 a5 a6 a7 a8]]; simpl in *; try (destruct a6; simpl);
         split_and!; try done; intros; intuition congruence).
  split_and!; [apply Hk|apply Hk|intros Hp; split; [done|intros _; by apply Hu]|intros Hp; by right].
Qed.

Lemma removelast_snoc {A} (l : list A) x : removelast (l ++ [x]) = l.
Proof. apply removelast_last. Qed.
Lemma explains_step v h st e st' :
  explains v h (lc_seen st) -> seen_track_ended (lc_seen st) = false -> contract_step v st e st' ->
  explains v (h ++ [e]) (lc_seen st').
Proof.
  intros Hex He Hst. pose proof (milestones_grow _ _ _ _ _ Hex He Hst) as Hgrow.
  destruct (playing_step _ _ _ _ He Hst) as (Hh & Hon & Hoff).
  destruct Hex as [Hm Hb Hp Ha Hr Hd Hhs Hs Hn].
  destruct (flags_step v st e st') as (Hb' & Hp' & Ha' & Hr' & Hd'); [by split_and!|done|].
  split; try done.
  - rewrite track_kinds_snoc. destruct Hgrow as [->|[Hnamed ->]].
    + by apply sublist_inserts_r.
    + rewrite decide_True by done. by apply sublist_app.
  - apply Forall_app. split; [done|by constructor].
  - intros Hplay. destruct (seen_playing (lc_seen st)) eqn:Eplay.
    + destruct (Hs eq_refl) as (h1 & p & h2 & -> & Hk & Hh1 & Hh2). rewrite He in Hh2.
      exists h1, p, (h2 ++ [e]). rewrite <- app_assoc. split_and!; [done..|].
      destruct (seen_track_ended (lc_seen st')) eqn:Ee; [by rewrite removelast_snoc|].
      apply Forall_app. split; [done|]. constructor; [|done]. by apply Hon.
    + destruct (Hoff eq_refl) as [(_ & Hk & ->)|[? _]]; [|congruence].
      exists h, e, []. by split_and!; auto.
  - intros Hplay. destruct (seen_playing (lc_seen st)) eqn:Eplay; [destruct (Hon eq_refl); congruence|].
    destruct (Hoff eq_refl) as [(? & _)|[_ Hk]]; [congruence|]. apply Forall_app. auto.
Qed.
Lemma explains_start v s : explains v [] (lc_seen (post_play_live_contract_state s)).
Proof. by split. Qed.

(** The order of the events that explain the end of a track. *)
Lemma explained_order v h s :
  explains v h s -> seen_track_ended s = true ->
  exists before p during, h = before ++ p :: during /\
    [TK_TrackResolving; TK_Buffering; TK_Playing; TK_Paused; TK_Playing; TK_TrackEnded] `sublist_of` track_kinds v h /\
    Forall (fun e => harmless (te_kind e)) h /\
    te_kind p = TK_Playing /\ Forall (fun e => te_kind e <> TK_Playing) before /\
    Forall (fun e => undisturbed (te_kind e)) (removelast during).
Proof.
  intros [Hm Hb Hp Ha Hr Hd Hh Hs _] He.
  pose proof (Hd He) as Er. pose proof (Hr Er) as Ea. pose proof (Ha Ea) as Ep. pose proof (Hp Ep) as Eb.
  pose proof (Hb Eb) as Es. destruct (Hs Ep) as (h1 & p & h2 & Heq & Hk & Hh1 & Hh2). rewrite He in Hh2.
  exists h1, p, h2. unfold milestones in Hm. rewrite He, Er, Ea, Ep, Eb, Es in Hm. by split_and!.
Qed.

End Contract.
