(* ===== verification/PlaybackValidator.v ===== *)
(** * The validator of playback evidence

    crates/discord-voice-service-live-validation/src/controller.rs: the checks
    that decide whether a playback was good, over the statistics of the audio
    observer (AudioObserver.v) and over the metrics the service published
    (TwPlaybackStabilitySnapshot of MetricsTransport.v). The validator does not
    take the published aggregates at their word: it recomputes them from the
    raw send events, queue samples and lifecycle events.

    Counters are [u64]; the three sums that are not saturating in the code add
    counters of one playback. *)

From S2P Require Import Prelude Anyhow MetricsTransport AudioObserver Twilight Timeline.
From S2P Require Metrics.
From stdpp Require Import prelude strings sorting.
Open Scope Z_scope.

Definition MIN_LIVE_TEST_VIDEO_DURATION_MS : Z := 90000.
Definition MIN_STABILITY_METRIC_PACKET_COUNT : Z := 50.
Definition SOURCE_PLAYBACK_BUFFER_TARGET_MS : Z := 5000.
Definition DISCORD_EGRESS_BUFFER_TARGET_MS : Z := 400.
Definition DISCORD_EGRESS_BUFFER_LOW_WATERMARK_MS : Z := 300.
Definition DISCORD_EGRESS_BUFFER_HIGH_WATERMARK_MS : Z := 500.
Definition PREPARED_TRACK_QUEUE_MIN_DEPTH_MS : Z := 200.
Definition PREPARED_TRACK_QUEUE_P5_MIN_DEPTH_MS : Z := 300.
Definition PREPARED_TRACK_QUEUE_P50_MIN_DEPTH_MS : Z := 340.
Definition PREPARED_TRACK_QUEUE_P50_MAX_DEPTH_MS : Z := 460.
Definition TRACK_TEMPO_WINDOW_PACKETS : nat := 50.
Definition DISCORD_OPUS_RTP_PACKET_DURATION_SAMPLES : Z := 960.
Definition MIN_LIVE_POST_SOURCE_TEMPO_WINDOWS : Z := 500.
Definition SOURCE_POSITION_CONTINUITY_TOLERANCE_MS : Z := 1.
Definition RAW_RATIO_RECOMPUTE_TOLERANCE_PPM : Z := 2.
Definition RTP_INTERVAL_P95_BUDGET_MS : Z := 45.
Definition RTP_INTERVAL_P99_BUDGET_MS : Z := 70.
Definition RTP_INTERVAL_MAX_BUDGET_MS : Z := 200.
Definition MEDIA_TO_WALL_CLOCK_MIN_RATIO_PPM : Z := 980000.
Definition MEDIA_TO_WALL_CLOCK_MAX_RATIO_PPM : Z := 1020000.
Definition OBSERVER_SHORT_WINDOW_MIN_RATIO_PPM : Z := 940000.
Definition OBSERVER_SHORT_WINDOW_MAX_RATIO_PPM : Z := 1060000.
Definition OBSERVER_STRICT_SHORT_WINDOW_MIN_PACKETS : Z := 50.
Definition OBSERVER_MICRO_WINDOW_MIN_RATIO_PPM : Z := 920000.
Definition OBSERVER_MICRO_WINDOW_MAX_RATIO_PPM : Z := 1080000.
Definition OBSERVER_SPEED_CHANGE_TOTAL_ABS_MIN_BUDGET_US : Z := 250000.
Definition OBSERVER_SPEED_CHANGE_TOTAL_ABS_MAX_BUDGET_US : Z := 1000000.
Definition OBSERVER_SPEED_CHANGE_TOTAL_ABS_RATIO_DENOMINATOR : Z := 200.
Definition SENDER_LATENESS_P99_BUDGET_MS : Z := 10.
Definition SENDER_LOOP_NON_SEND_WORK_P99_BUDGET_MS : Z := 15.
Definition MAX_CONSECUTIVE_PLAYOUT_LATE_PACKETS : Z := 2.
Definition MIN_OBSERVED_PACKET_COUNT : Z := 120.
Definition MIN_DECODED_AUDIO_MS : Z := 6000.
Definition MIN_NON_SILENT_AUDIO_MS : Z := 1000.
Definition OBSERVER_AUDIO_DURATION_TOLERANCE_MS : Z := 2000.
Definition OBSERVER_AUDIO_DURATION_MIN_RATIO_PERCENT : Z := 90.
Definition PAUSE_STOP_SILENCE_FRAME_COUNT : nat := 5.
Definition PAUSE_BOUNDARY_MIN_SPACING_MS : Z := 15.
Definition PAUSE_BOUNDARY_MAX_SPACING_MS : Z := 45.

#[global] Instance TwPlaybackBufferDepthSnapshot_eq_dec : EqDecision TwPlaybackBufferDepthSnapshot.
Proof. solve_decision. Defined.
#[global] Instance TwPlaybackQueueDepthStatsSnapshot_eq_dec : EqDecision TwPlaybackQueueDepthStatsSnapshot.
Proof. solve_decision. Defined.
#[global] Instance TwPlaybackSendCommandKind_eq_dec : EqDecision TwPlaybackSendCommandKind.
Proof. solve_decision. Defined.
#[global] Instance TwPreparedPlayoutQueueEventKind_eq_dec : EqDecision TwPreparedPlayoutQueueEventKind.
Proof. solve_decision. Defined.
#[global] Instance TwPreparedPlayoutQueueEventReason_eq_dec : EqDecision TwPreparedPlayoutQueueEventReason.
Proof. solve_decision. Defined.

Definition depth_numbers (d : TwPlaybackBufferDepthSnapshot) : list Z :=
  [twb_packets d; twb_bytes d; twb_duration_ms d; twb_duration_samples d].
Definition depth_fields (d : TwPlaybackBufferDepthSnapshot) : Arg := Fields (depth_numbers d).
Definition queue_stats_fields (q : TwPlaybackQueueDepthStatsSnapshot) : Arg :=
  Fields ([twq_sample_count q; twq_empty_count q] ++ depth_numbers (twq_current_depth q) ++
    depth_numbers (twq_min_depth q) ++ depth_numbers (twq_p5_depth q) ++ depth_numbers (twq_p50_depth q) ++
    depth_numbers (twq_p95_depth q) ++ depth_numbers (twq_max_depth q)).

(** ** The thresholds of the observer *)

Definition is_some_and {A} (o : option A) (f : A -> bool) : bool := match o with Some a => f a | None => false end.

Definition observer_tempo_window_ratio_bounds (window : AudioTempoWindowEvidence) : Z * Z :=
  if OBSERVER_STRICT_SHORT_WINDOW_MIN_PACKETS <=? tw_window_packet_count window
  then (OBSERVER_SHORT_WINDOW_MIN_RATIO_PPM, OBSERVER_SHORT_WINDOW_MAX_RATIO_PPM)
  else (OBSERVER_MICRO_WINDOW_MIN_RATIO_PPM, OBSERVER_MICRO_WINDOW_MAX_RATIO_PPM).
Definition observer_tempo_window_within_jitter_budget (window : AudioTempoWindowEvidence) : bool :=
  let '(min_ratio_ppm, max_ratio_ppm) := observer_tempo_window_ratio_bounds window in
  (min_ratio_ppm <=? tw_ratio_ppm window) && (tw_ratio_ppm window <=? max_ratio_ppm).
Definition observer_tempo_window_failure_reason (window : AudioTempoWindowEvidence) : string :=
  let '(min_ratio_ppm, max_ratio_ppm) := observer_tempo_window_ratio_bounds window in
  if max_ratio_ppm <? tw_ratio_ppm window then "observer_audio_short_tempo_fast"
  else if tw_ratio_ppm window <? min_ratio_ppm then "observer_audio_short_tempo_slow"
  else "observer_audio_short_tempo_inconsistent".
Definition observer_short_tempo_windows_within_jitter_budget (stats : AudioValidationStats) : bool :=
  is_some_and (sw_fastest (as_short_windows stats)) observer_tempo_window_within_jitter_budget &&
  is_some_and (sw_slowest (as_short_windows stats)) observer_tempo_window_within_jitter_budget.
Definition unclassified_observer_anomaly_count (stats : AudioValidationStats) (kind : string) (total_count : Z) : Z :=
  let controlled_count := zlen (filter (fun anomaly =>
        an_kind anomaly = kind /\ an_classification anomaly = "controlled_pause")
      (ar_observer_anomalies (as_arrivals stats))) in
  sat_sub total_count controlled_count.
Definition observer_post_source_buffer_window_required (expected_duration_ms : Z) : bool :=
  sat_add u64_max SOURCE_PLAYBACK_BUFFER_TARGET_MS 1000 <=? expected_duration_ms.
Definition required_observer_decoded_audio_ms (expected_duration_ms : Z) : Z :=
  let ratio_floor := sat_mul u64_max expected_duration_ms OBSERVER_AUDIO_DURATION_MIN_RATIO_PERCENT / 100 in
  let tolerance_floor := sat_sub expected_duration_ms OBSERVER_AUDIO_DURATION_TOLERANCE_MS in
  Z.min (Z.max (Z.max ratio_floor tolerance_floor) (Z.min MIN_DECODED_AUDIO_MS expected_duration_ms))
    expected_duration_ms.
Definition observer_speed_change_total_abs_budget_us (expected_duration_ms : Z) : Z :=
  Z.min (Z.max (sat_mul u64_max expected_duration_ms 1000 / OBSERVER_SPEED_CHANGE_TOTAL_ABS_RATIO_DENOMINATOR)
           OBSERVER_SPEED_CHANGE_TOTAL_ABS_MIN_BUDGET_US)
    OBSERVER_SPEED_CHANGE_TOTAL_ABS_MAX_BUDGET_US.

Definition unclassified_gaps (stats : AudioValidationStats) : Z :=
  unclassified_observer_anomaly_count stats "rtp_gap_gte_100ms" (ar_gap_count_gte_100ms (as_arrivals stats)).

Definition observer_thresholds_satisfied (stats : AudioValidationStats) (expected_duration_ms : Z) : bool :=
  let arrivals := as_arrivals stats in
  let intervals := ar_rtp_inter_arrival arrivals in
  let windows := as_long_windows stats in
  let ratio := as_decoded_audio_to_wall_clock_ratio_ppm stats in
  (MIN_OBSERVED_PACKET_COUNT <=? as_observed_packet_count stats) &&
  (du_packet_count (as_non_discord_opus stats) =? 0) &&
  (required_observer_decoded_audio_ms expected_duration_ms <=? as_decoded_audio_ms stats) &&
  (0 <? as_wall_clock_elapsed_ms stats) && (0 <? ratio) &&
  (MEDIA_TO_WALL_CLOCK_MIN_RATIO_PPM <=? ratio) && (ratio <=? MEDIA_TO_WALL_CLOCK_MAX_RATIO_PPM) &&
  (MIN_NON_SILENT_AUDIO_MS <=? as_non_silent_audio_ms stats) && (0 <? Metrics.st_samples intervals) &&
  (unclassified_gaps stats =? 0) && (ar_buffering_event_count arrivals =? 0) &&
  (0 <? lw_count windows) && (we_count (lw_fast windows) =? 0) && (we_count (lw_slow windows) =? 0) &&
  (0 <? sw_count (as_short_windows stats)) && observer_short_tempo_windows_within_jitter_budget stats &&
  (negb (observer_post_source_buffer_window_required expected_duration_ms) ||
   (MIN_LIVE_POST_SOURCE_TEMPO_WINDOWS <=? lw_post_source_buffer_count windows)) &&
  (Metrics.st_p95_ms intervals <=? RTP_INTERVAL_P95_BUDGET_MS) &&
  (Metrics.st_p99_ms intervals <=? RTP_INTERVAL_P99_BUDGET_MS) &&
  (Metrics.st_max_ms intervals <? RTP_INTERVAL_MAX_BUDGET_MS).

(** The first reason of a list of tests that fails. *)
Definition window_reason (o : option AudioTempoWindowEvidence) : option string :=
  match o with
  | Some window =>
      if observer_tempo_window_within_jitter_budget window then None
      else Some (observer_tempo_window_failure_reason window)
  | None => Some "observer_audio_missing_short_tempo_windows"
  end.
Definition observer_threshold_failure_reason (stats : AudioValidationStats) (expected_duration_ms : Z) : string :=
  let arrivals := as_arrivals stats in
  let intervals := ar_rtp_inter_arrival arrivals in
  let windows := as_long_windows stats in
  let ratio := as_decoded_audio_to_wall_clock_ratio_ppm stats in
  if negb (du_packet_count (as_non_discord_opus stats) =? 0) then "observer_audio_non_discord_opus_duration"
  else if as_observed_packet_count stats <? MIN_OBSERVED_PACKET_COUNT then "observer_audio_missing_packets"
  else if as_decoded_audio_ms stats <? required_observer_decoded_audio_ms expected_duration_ms
  then "observer_audio_incomplete"
  else if (as_wall_clock_elapsed_ms stats =? 0) || (ratio =? 0) then "observer_audio_missing_timing"
  else if MEDIA_TO_WALL_CLOCK_MAX_RATIO_PPM <? ratio then "observer_audio_tempo_fast"
  else if ratio <? MEDIA_TO_WALL_CLOCK_MIN_RATIO_PPM then "observer_audio_tempo_slow"
  else if as_non_silent_audio_ms stats <? MIN_NON_SILENT_AUDIO_MS then "observer_audio_silent"
  else if Metrics.st_samples intervals =? 0 then "observer_audio_missing_rtp_intervals"
  else if negb (unclassified_gaps stats =? 0) then "observer_audio_rtp_gap"
  else if negb (ar_buffering_event_count arrivals =? 0) then "observer_audio_buffered"
  else if lw_count windows =? 0 then "observer_audio_missing_tempo_windows"
  else if negb (we_count (lw_fast windows) =? 0) then "observer_audio_tempo_fast"
  else if negb (we_count (lw_slow windows) =? 0) then "observer_audio_tempo_slow"
  else if sw_count (as_short_windows stats) =? 0 then "observer_audio_missing_short_tempo_windows"
  else match window_reason (sw_fastest (as_short_windows stats)) with
  | Some reason => reason
  | None =>
  match window_reason (sw_slowest (as_short_windows stats)) with
  | Some reason => reason
  | None =>
  if observer_post_source_buffer_window_required expected_duration_ms &&
     (lw_post_source_buffer_count windows <? MIN_LIVE_POST_SOURCE_TEMPO_WINDOWS)
  then "observer_audio_insufficient_post_source_tempo_windows"
  else if (RTP_INTERVAL_P95_BUDGET_MS <? Metrics.st_p95_ms intervals) ||
          (RTP_INTERVAL_P99_BUDGET_MS <? Metrics.st_p99_ms intervals) ||
          (RTP_INTERVAL_MAX_BUDGET_MS <=? Metrics.st_max_ms intervals)
  then "observer_audio_rtp_jitter"
  else "observer_audio_incomplete"
  end end.

(** ** Queue depths *)

Definition validate_live_runtime_post_source_window_count (metrics : TwPlaybackStabilitySnapshot) (label : string)
    : anyhow unit :=
  _ ← bail_if (twm_track_tempo_window_post_source_buffer_count metrics <? MIN_LIVE_POST_SOURCE_TEMPO_WINDOWS)
       "{} returned {} runtime post-source tempo windows; expected at least {}"
       [Text label; Num (twm_track_tempo_window_post_source_buffer_count metrics); Num
         MIN_LIVE_POST_SOURCE_TEMPO_WINDOWS];
  Ok tt.

Definition validate_source_buffer_depth_metrics (metrics : TwPlaybackStabilitySnapshot) (label : string)
    : anyhow unit :=
  source_depth ← ok_or_bail (twm_source_buffer_depth metrics)
       "{} omitted source reservoir depth percentile metrics" [Text label];
  _ ← bail_if (twq_sample_count source_depth =? 0)
       "{} returned no source reservoir depth samples"
       [Text label];
  _ ← bail_if (twb_duration_ms (twq_max_depth source_depth) =? 0)
       "{} source reservoir depth never rose above 0ms"
       [Text label];
  _ ← bail_if (twb_duration_ms (twq_max_depth source_depth) <? SOURCE_PLAYBACK_BUFFER_TARGET_MS)
       "{} max source reservoir depth was {}ms; expected at least {}ms"
       [Text label; Num (twb_duration_ms (twq_max_depth source_depth)); Num SOURCE_PLAYBACK_BUFFER_TARGET_MS];
  _ ← bail_if ((twb_duration_ms (twq_p50_depth source_depth) =? 0) || (twb_duration_ms (twq_p95_depth source_depth)
    =? 0))
       "{} source reservoir percentile depths were incomplete (p50={}ms p95={}ms)"
       [Text label; Num (twb_duration_ms (twq_p50_depth source_depth)); Num (twb_duration_ms (twq_p95_depth
         source_depth))];
  Ok tt.
Definition validate_source_buffer_target (metrics : TwPlaybackStabilitySnapshot) (label : string) : anyhow unit :=
  _ ← bail_if (negb (twm_source_buffer_target_ms metrics =? SOURCE_PLAYBACK_BUFFER_TARGET_MS))
       "{} returned source_buffer_target_ms {}; expected source buffer target {}"
       [Text label; Num (twm_source_buffer_target_ms metrics); Num SOURCE_PLAYBACK_BUFFER_TARGET_MS];
  _ ← bail_if (negb (twm_adaptive_buffer_target_ms metrics =? SOURCE_PLAYBACK_BUFFER_TARGET_MS))
       "{} returned adaptive_buffer_target_ms {}; expected source buffer target {}"
       [Text label; Num (twm_adaptive_buffer_target_ms metrics); Num SOURCE_PLAYBACK_BUFFER_TARGET_MS];
  _ ← bail_if (negb (twm_max_adaptive_buffer_target_ms metrics =? SOURCE_PLAYBACK_BUFFER_TARGET_MS))
       "{} returned max_adaptive_buffer_target_ms {}; expected source buffer target {}"
       [Text label; Num (twm_max_adaptive_buffer_target_ms metrics); Num SOURCE_PLAYBACK_BUFFER_TARGET_MS];
  validate_source_buffer_depth_metrics metrics label.

Definition validate_prepared_track_queue_depth (depth : TwPlaybackQueueDepthStatsSnapshot) (label phase : string)
    : anyhow unit :=
  _ ← bail_if (twq_sample_count depth =? 0)
       "{} reported no {} prepared track queue depth samples"
       [Text label; Text phase];
  _ ← bail_if (negb (twq_empty_count depth =? 0))
       "{} reported {} empty {} prepared track queue samples; expected 0"
       [Text label; Num (twq_empty_count depth); Text phase];
  _ ← bail_if (twb_duration_ms (twq_min_depth depth) <? PREPARED_TRACK_QUEUE_MIN_DEPTH_MS)
       "{} {} prepared_track_queue_depth_min_ms was {}; expected >= {}"
       [Text label; Text phase; Num (twb_duration_ms (twq_min_depth depth)); Num PREPARED_TRACK_QUEUE_MIN_DEPTH_MS];
  _ ← bail_if (twb_duration_ms (twq_p5_depth depth) <? PREPARED_TRACK_QUEUE_P5_MIN_DEPTH_MS)
       "{} {} prepared_track_queue_depth_p5_ms was {}; expected >= {}"
       [Text label; Text phase; Num (twb_duration_ms (twq_p5_depth depth)); Num
         PREPARED_TRACK_QUEUE_P5_MIN_DEPTH_MS];
  _ ← bail_if ((twb_duration_ms (twq_p50_depth depth) <? PREPARED_TRACK_QUEUE_P50_MIN_DEPTH_MS) ||
    (PREPARED_TRACK_QUEUE_P50_MAX_DEPTH_MS <? twb_duration_ms (twq_p50_depth depth)))
       "{} {} prepared_track_queue_depth_p50_ms was {}; expected between {} and {}"
       [Text label; Text phase; Num (twb_duration_ms (twq_p50_depth depth)); Num
         PREPARED_TRACK_QUEUE_P50_MIN_DEPTH_MS; Num PREPARED_TRACK_QUEUE_P50_MAX_DEPTH_MS];
  _ ← bail_if (DISCORD_EGRESS_BUFFER_HIGH_WATERMARK_MS <? twb_duration_ms (twq_p95_depth depth))
       "{} {} prepared_track_queue_depth_p95_ms was {}; expected <= {}"
       [Text label; Text phase; Num (twb_duration_ms (twq_p95_depth depth)); Num
         DISCORD_EGRESS_BUFFER_HIGH_WATERMARK_MS];
  _ ← bail_if (DISCORD_EGRESS_BUFFER_HIGH_WATERMARK_MS <? twb_duration_ms (twq_max_depth depth))
       "{} {} prepared_track_queue_depth_max_ms was {}; expected <= {}"
       [Text label; Text phase; Num (twb_duration_ms (twq_max_depth depth)); Num
         DISCORD_EGRESS_BUFFER_HIGH_WATERMARK_MS];
  Ok tt.
Definition validate_prepared_track_queue_metrics (metrics : TwPlaybackStabilitySnapshot) (label : string)
    (require_post_resume_phase : bool) : anyhow unit :=
  _ ← bail_if (negb (twm_prepared_track_queue_target_ms metrics =? DISCORD_EGRESS_BUFFER_TARGET_MS))
       "{} returned prepared_track_queue_target_ms {}; expected {}"
       [Text label; Num (twm_prepared_track_queue_target_ms metrics); Num DISCORD_EGRESS_BUFFER_TARGET_MS];
  _ ← bail_if (twm_prepared_track_queue_low_watermark_ms metrics <? DISCORD_EGRESS_BUFFER_LOW_WATERMARK_MS)
       "{} returned prepared_track_queue_low_watermark_ms {}; expected >= {}"
       [Text label; Num (twm_prepared_track_queue_low_watermark_ms metrics); Num
         DISCORD_EGRESS_BUFFER_LOW_WATERMARK_MS];
  _ ← bail_if (DISCORD_EGRESS_BUFFER_HIGH_WATERMARK_MS <? twm_prepared_track_queue_high_watermark_ms metrics)
       "{} returned prepared_track_queue_high_watermark_ms {}; expected <= {}"
       [Text label; Num (twm_prepared_track_queue_high_watermark_ms metrics); Num
         DISCORD_EGRESS_BUFFER_HIGH_WATERMARK_MS];
  pre_pause ← ok_or_bail (twm_active_pre_pause_prepared_track_queue_depth metrics)
       "{} was missing active pre-pause prepared track queue depth metrics" [Text label];
  _ ← validate_prepared_track_queue_depth pre_pause label "active pre-pause";
  recomputed ← match twm_active_post_resume_prepared_track_queue_depth metrics with
    | Some post_resume =>
        _ ← (if require_post_resume_phase || negb (twq_sample_count post_resume =? 0)
             then validate_prepared_track_queue_depth post_resume label "active post-resume" else Ok tt);
        Ok (sat_add u64_max (twq_sample_count pre_pause) (twq_sample_count post_resume),
            sat_add u64_max (twq_empty_count pre_pause) (twq_empty_count post_resume))
    | None =>
        if require_post_resume_phase
        then bail "{} was missing active post-resume prepared track queue depth metrics" [Text label]
        else Ok (twq_sample_count pre_pause, twq_empty_count pre_pause)
    end;
  let '(recomputed_sample_count, recomputed_empty_count) := recomputed in
  _ ← bail_if (negb (twm_prepared_track_queue_depth_sample_count metrics =? recomputed_sample_count))
       "{} prepared_track_queue_depth_sample_count was {}; expected recomputed active pre/post sample count {}"
       [Text label; Num (twm_prepared_track_queue_depth_sample_count metrics); Num recomputed_sample_count];
  _ ← bail_if (negb (twm_prepared_track_queue_empty_count metrics =? recomputed_empty_count))
       "{} prepared_track_queue_empty_count was {}; expected recomputed active pre/post empty count {}"
       [Text label; Num (twm_prepared_track_queue_empty_count metrics); Num recomputed_empty_count];
  Ok tt.

(** ** Raw send events *)

Record RawTrackSend : Type := mkRawTrackSend {
  rs_packet_index : Z;
  rs_send_started_offset_us : Z;
  rs_duration_us : Z;
  rs_duration_ms : Z;
  rs_duration_samples : Z;
  rs_media_position_ms : Z;
  rs_media_position_samples : Z;
}.
(** The rolling tempo windows and the short intervals of a recomputation. *)
Record RecomputedTempo : Type := mkRecomputedTempo {
  rt_window_count : Z;
  rt_post_source_buffer_count : Z;
  rt_min_ratio_ppm : Z;
  rt_max_ratio_ppm : Z;
  rt_fast_count : Z;
  rt_slow_count : Z;
}.
Record RecomputedIntervals : Type := mkRecomputedIntervals {
  ri_fast_interval_count : Z;
  ri_fast_interval_min_us : Z;
}.
Record RecomputedRawPlayback : Type := mkRecomputed {
  rr_track_segment_count : Z;
  rr_track_packet_count : Z;
  rr_track_media_duration_sent_us : Z;
  rr_track_media_duration_sent_ms : Z;
  rr_track_wall_clock_elapsed_ms : Z;
  rr_track_media_to_wall_clock_ratio_ppm : Z;
  rr_intervals : RecomputedIntervals;
  rr_tempo : RecomputedTempo;
  rr_skipped_source_frame_count : Z;
  rr_skipped_source_duration_ms : Z;
  rr_skipped_source_duration_samples : Z;
  rr_pause_boundary_silence_packet_count : Z;
}.
Definition RecomputedTempo_default : RecomputedTempo := mkRecomputedTempo 0 0 0 0 0 0.
Definition RecomputedIntervals_default : RecomputedIntervals := mkRecomputedIntervals 0 0.

Definition ratio_ppm_us (media_duration_us wall_clock_duration_us : Z) : Z :=
  if (media_duration_us =? 0) || (wall_clock_duration_us =? 0) then 0
  else Z.min u64_max (media_duration_us * 1000000 / wall_clock_duration_us).
Definition duration_us_from_samples (duration_samples : Z) : Z := sat_mul u64_max duration_samples 1000000 / 48000.
Definition duration_ms_from_samples (duration_samples : Z) : Z := sat_mul u64_max duration_samples 1000 / 48000.
Definition samples_from_duration_ms (duration_ms : Z) : Z := sat_mul u64_max duration_ms 48.
Definition ppm_matches_with_tolerance (left right : Z) : bool :=
  Z.abs (left - right) <=? RAW_RATIO_RECOMPUTE_TOLERANCE_PPM.

Definition finish_track_segment (segments : list (list RawTrackSend)) (current_segment : list RawTrackSend)
    : list (list RawTrackSend) :=
  if bool_decide (current_segment = []) then segments else segments ++ [current_segment].

Definition recompute_tempo_window (recomputed : RecomputedTempo) (window : list RawTrackSend) : RecomputedTempo :=
  match head window, last window with
  | Some first, Some last =>
      let media_duration_us := foldl (fun total packet => sat_add u64_max total (rs_duration_us packet)) 0 window in
      let wall_clock_duration_us :=
        sat_add u64_max (sat_sub (rs_send_started_offset_us last) (rs_send_started_offset_us first))
          (rs_duration_us last) in
      let ratio := ratio_ppm_us media_duration_us wall_clock_duration_us in
      mkRecomputedTempo (sat_add u64_max (rt_window_count recomputed) 1)
        (if samples_from_duration_ms SOURCE_PLAYBACK_BUFFER_TARGET_MS <=? rs_media_position_samples first
         then sat_add u64_max (rt_post_source_buffer_count recomputed) 1 else rt_post_source_buffer_count recomputed)
        (if rt_min_ratio_ppm recomputed =? 0 then ratio else Z.min (rt_min_ratio_ppm recomputed) ratio)
        (Z.max (rt_max_ratio_ppm recomputed) ratio)
        (if MEDIA_TO_WALL_CLOCK_MAX_RATIO_PPM <? ratio then sat_add u64_max (rt_fast_count recomputed) 1
         else rt_fast_count recomputed)
        (if ratio <? MEDIA_TO_WALL_CLOCK_MIN_RATIO_PPM then sat_add u64_max (rt_slow_count recomputed) 1
         else rt_slow_count recomputed)
  | _, _ => recomputed
  end.

Definition recompute_interval (recomputed : RecomputedIntervals) (pair : list RawTrackSend) : RecomputedIntervals :=
  match pair with
  | [previous; current] =>
      let interval_us := sat_sub (rs_send_started_offset_us current) (rs_send_started_offset_us previous) in
      if interval_us <? rs_duration_us previous then
        mkRecomputedIntervals (sat_add u64_max (ri_fast_interval_count recomputed) 1)
          (if ri_fast_interval_min_us recomputed =? 0 then interval_us
           else Z.min (ri_fast_interval_min_us recomputed) interval_us)
      else recomputed
  | _ => recomputed
  end.

Definition segment_wall_clock (wall_clock_elapsed_us : Z) (segment : list RawTrackSend) : Z :=
  match head segment, last segment with
  | Some first, Some last =>
      sat_add u64_max (sat_add u64_max wall_clock_elapsed_us
        (sat_sub (rs_send_started_offset_us last) (rs_send_started_offset_us first))) (rs_duration_us last)
  | _, _ => wall_clock_elapsed_us
  end.

(** The loop over the send events: the finished segments, the open one, all
    track packets, their media and the boundary silence. *)
Record RawLoop : Type := mkRawLoop {
  rl_segments : list (list RawTrackSend);
  rl_current_segment : list RawTrackSend;
  rl_all_tracks : list RawTrackSend;
  rl_track_packet_count : Z;
  rl_track_media_duration_sent_us : Z;
  rl_boundary_silence : Z;
}.
Definition RawLoop_start : RawLoop := mkRawLoop [] [] [] 0 0 0.

Definition track_of (event : TwPlaybackSendEventSnapshot) (label : string) : anyhow RawTrackSend :=
  media_position_ms ← ok_or_bail (twe_source_media_position_ms event)
       "{} raw track send lacked source_media_position_ms" [Text label];
  media_position_samples ← ok_or_bail (twe_source_media_position_samples event)
       "{} raw track send lacked source_media_position_samples" [Text label];
  Ok (mkRawTrackSend (twe_packet_index event) (twe_send_started_offset_us event)
        (duration_us_from_samples (twe_media_duration_samples event)) (twe_media_duration_ms event)
        (twe_media_duration_samples event) media_position_ms media_position_samples).

Definition raw_event (label : string) (s : RawLoop) (event : TwPlaybackSendEventSnapshot) : anyhow RawLoop :=
  match twe_command_kind event with
  | TC_Track =>
      track ← track_of event label;
      Ok (mkRawLoop (rl_segments s) (rl_current_segment s ++ [track]) (rl_all_tracks s ++ [track])
            (sat_add u64_max (rl_track_packet_count s) 1)
            (sat_add u64_max (rl_track_media_duration_sent_us s) (rs_duration_us track)) (rl_boundary_silence s))
  | TC_BoundarySilence =>
      Ok (mkRawLoop (finish_track_segment (rl_segments s) (rl_current_segment s)) [] (rl_all_tracks s)
            (rl_track_packet_count s) (rl_track_media_duration_sent_us s)
            (sat_add u64_max (rl_boundary_silence s) 1))
  | TC_ScheduledSilence | TC_OtherBoundary | TC_Unspecified =>
      Ok (mkRawLoop (finish_track_segment (rl_segments s) (rl_current_segment s)) [] (rl_all_tracks s)
            (rl_track_packet_count s) (rl_track_media_duration_sent_us s) (rl_boundary_silence s))
  end.
Fixpoint raw_events (label : string) (s : RawLoop) (events : list TwPlaybackSendEventSnapshot) : anyhow RawLoop :=
  match events with
  | [] => Ok s
  | event :: events => s' ← raw_event label s event; raw_events label s' events
  end.

(** Consecutive track packets carry consecutive media. *)
Definition check_source_position (label : string) (pair : list RawTrackSend) : anyhow unit :=
  match pair with
  | [previous; current] =>
      let expected_next_position_samples :=
        sat_add u64_max (rs_media_position_samples previous) (rs_duration_samples previous) in
      let tolerance := samples_from_duration_ms SOURCE_POSITION_CONTINUITY_TOLERANCE_MS in
      _ ← bail_if (rs_media_position_samples current <? expected_next_position_samples)
           "{} raw source position moved backward or replayed: previous_position_samples={} previous_duration_samples={} expected_next_position_samples={} current_position_samples={}"
           [Text label; Num (rs_media_position_samples previous); Num (rs_duration_samples previous);
            Num expected_next_position_samples; Num (rs_media_position_samples current)];
      let skipped_samples := sat_sub (rs_media_position_samples current) expected_next_position_samples in
      bail_if (sat_add u64_max expected_next_position_samples tolerance <? rs_media_position_samples current)
        "{} sender_source_skipped_ahead: raw source position jumped forward during playback (previous_packet_index={} current_packet_index={} previous_position_ms={} previous_position_samples={} previous_duration_ms={} previous_duration_samples={} expected_next_position_ms={} expected_next_position_samples={} current_position_ms={} current_position_samples={} skipped_source_duration_ms={} skipped_source_duration_samples={} tolerance_ms={} tolerance_samples={})"
        [Text label; Num (rs_packet_index previous); Num (rs_packet_index current); Num (rs_media_position_ms previous);
         Num (rs_media_position_samples previous); Num (rs_duration_ms previous); Num (rs_duration_samples previous);
         Num (duration_ms_from_samples expected_next_position_samples); Num expected_next_position_samples;
         Num (rs_media_position_ms current); Num (rs_media_position_samples current);
         Num (duration_ms_from_samples skipped_samples); Num skipped_samples;
         Num SOURCE_POSITION_CONTINUITY_TOLERANCE_MS; Num tolerance]
  | _ => Ok tt
  end.
(** [for x in l { f(x)?; }] *)
Fixpoint for_each {A} (f : A -> anyhow unit) (l : list A) : anyhow unit :=
  match l with
  | [] => Ok tt
  | a :: l => _ ← f a; for_each f l
  end.

Definition recompute_raw_playback (metrics : TwPlaybackStabilitySnapshot) (label : string)
    : anyhow RecomputedRawPlayback :=
  s ← raw_events label RawLoop_start (twm_raw_send_events metrics);
  let segments := finish_track_segment (rl_segments s) (rl_current_segment s) in
  let wall_clock_elapsed_us := foldl segment_wall_clock 0 segments in
  let intervals := foldl (fun r segment => foldl recompute_interval r (windows 2 segment))
                     RecomputedIntervals_default segments in
  let tempo := foldl (fun r segment => foldl recompute_tempo_window r (windows TRACK_TEMPO_WINDOW_PACKETS segment))
                 RecomputedTempo_default segments in
  let media_us := rl_track_media_duration_sent_us s in
  _ ← for_each (check_source_position label) (windows 2 (rl_all_tracks s));
  Ok (mkRecomputed (zlen segments) (rl_track_packet_count s) media_us (media_us / 1000)
        (wall_clock_elapsed_us / 1000) (ratio_ppm_us media_us wall_clock_elapsed_us) intervals tempo 0 0 0
        (rl_boundary_silence s)).

Record SendOrder : Type := mkSendOrder {
  so_previous_sent_offset : option Z;
  so_previous_rtp : option (Z * Z * Z);
  so_previous_nonce : option Z;
}.
Definition SendOrder_start : SendOrder := mkSendOrder None None None.

(** The event against the RTP sequence, timestamp and duration of the previous
    one, which are remembered together. *)
Definition check_rtp (label : string) (index : Z) (previous : option (Z * Z * Z)) (event : TwPlaybackSendEventSnapshot)
    : anyhow unit :=
  match previous with
  | Some (sequence, timestamp, duration_samples) =>
      let expected_sequence := Z.land (sequence + 1) 0xffff in
      let expected_timestamp := wrapping_add 32 timestamp duration_samples in
      _ ← bail_if (negb (twe_rtp_sequence event =? expected_sequence))
           "{} raw send event {} RTP sequence was {}; expected {}"
           [Text label; Num index; Num (twe_rtp_sequence event); Num expected_sequence];
      bail_if (negb (twe_rtp_timestamp event =? expected_timestamp))
        "{} raw send event {} RTP timestamp was {}; expected {}"
        [Text label; Num index; Num (twe_rtp_timestamp event); Num expected_timestamp]
  | None => Ok tt
  end.
Definition check_nonce (label : string) (index : Z) (previous : option Z) (event : TwPlaybackSendEventSnapshot)
    : anyhow unit :=
  match twe_protection_nonce event, previous with
  | Some nonce, Some previous =>
      bail_if (nonce <=? previous)
        "{} raw send event {} protection nonce was {}; expected monotonic increase after {}"
        [Text label; Num index; Num nonce; Num previous]
  | _, _ => Ok tt
  end.
Definition check_heard (label : string) (index : Z) (event : TwPlaybackSendEventSnapshot) : anyhow unit :=
  if bool_decide (twe_command_kind event = TC_Track) then
    _ ← bail_if (negb (twe_committed_heard_media event))
         "{} raw track send event {} did not mark heard-media commit" [Text label; Num index];
    _ ← bail_if (bool_decide (twe_source_frame_epoch event = None) ||
                 bool_decide (twe_source_media_position_ms event = None) ||
                 bool_decide (twe_source_media_position_samples event = None))
         "{} raw track send event {} lacked source-frame identity" [Text label; Num index];
    bail_if (twe_media_duration_samples event =? 0)
      "{} raw track send event {} had zero media duration samples" [Text label; Num index]
  else
    bail_if (twe_committed_heard_media event)
      "{} raw non-track send event {} committed heard media" [Text label; Num index].

Definition check_send_event (label : string) (index : Z) (s : SendOrder) (event : TwPlaybackSendEventSnapshot)
    : anyhow SendOrder :=
  _ ← bail_if (negb (twe_packet_index event =? index))
       "{} raw send event packet_index {} was not sequential at index {}"
       [Text label; Num (twe_packet_index event); Num index];
  _ ← bail_if (bool_decide (twe_command_kind event = TC_Unspecified))
       "{} raw send event {} had unspecified command kind" [Text label; Num index];
  _ ← bail_if (twe_sent_offset_us event <? twe_send_started_offset_us event)
       "{} raw send event {} completed before send start" [Text label; Num index];
  _ ← bail_if (is_some_and (so_previous_sent_offset s) (fun previous => twe_sent_offset_us event <? previous))
       "{} raw send event {} moved backward in send-completion time" [Text label; Num index];
  _ ← check_rtp label index (so_previous_rtp s) event;
  _ ← check_nonce label index (so_previous_nonce s) event;
  _ ← check_heard label index event;
  Ok (mkSendOrder (Some (twe_sent_offset_us event))
        (Some (twe_rtp_sequence event, twe_rtp_timestamp event, twe_media_duration_samples event))
        (match twe_protection_nonce event with Some nonce => Some nonce | None => so_previous_nonce s end)).
Fixpoint check_send_events (label : string) (index : Z) (s : SendOrder) (events : list TwPlaybackSendEventSnapshot)
    : anyhow unit :=
  match events with
  | [] => Ok tt
  | event :: events => s' ← check_send_event label index s event; check_send_events label (index + 1) s' events
  end.
Definition validate_raw_send_event_order (metrics : TwPlaybackStabilitySnapshot) (label : string) : anyhow unit :=
  check_send_events label 0 SendOrder_start (twm_raw_send_events metrics).

(** *** The silence of a pause *)

Fixpoint check_spacing (label : string) (index : Z) (pairs : list (list Z)) : anyhow unit :=
  match pairs with
  | [earlier; later] :: pairs =>
      let spacing_ms := sat_sub later earlier / 1000 in
      _ ← bail_if (negb ((PAUSE_BOUNDARY_MIN_SPACING_MS <=? spacing_ms) && (spacing_ms <=? PAUSE_BOUNDARY_MAX_SPACING_MS)))
           "{} Pause boundary silence spacing at interval {} was {}ms; expected {}..={}ms"
           [Text label; Num index; Num spacing_ms; Num PAUSE_BOUNDARY_MIN_SPACING_MS; Num PAUSE_BOUNDARY_MAX_SPACING_MS];
      check_spacing label (index + 1) pairs
  | _ => Ok tt
  end.
Definition validate_pause_boundary_run_spacing (sent_offsets_us : list Z) (label : string) : anyhow unit :=
  check_spacing label 0 (take (PAUSE_STOP_SILENCE_FRAME_COUNT - 1) (windows 2 sent_offsets_us)).
Fixpoint pause_boundary_run (label : string) (current_run : list Z) (events : list TwPlaybackSendEventSnapshot)
    : anyhow unit :=
  match events with
  | [] =>
      bail "{} raw send events did not contain a consecutive five-packet Pause boundary-silence run" [Text label]
  | event :: events =>
      if bool_decide (twe_command_kind event = TC_BoundarySilence) then
        let current_run := current_run ++ [twe_sent_offset_us event] in
        if (PAUSE_STOP_SILENCE_FRAME_COUNT <=? length current_run)%nat
        then validate_pause_boundary_run_spacing current_run label
        else pause_boundary_run label current_run events
      else pause_boundary_run label [] events
  end.
Definition validate_pause_boundary_spacing (metrics : TwPlaybackStabilitySnapshot) (label : string) : anyhow unit :=
  pause_boundary_run label [] (twm_raw_send_events metrics).

(** ** Raw queue samples *)

(** [sort_unstable_by_key]: depths of the same duration come in any order. *)
Class DepthSort : Type := {
  sort_depths : list TwPlaybackBufferDepthSnapshot -> list TwPlaybackBufferDepthSnapshot;
  sort_depths_perm l : sort_depths l ≡ₚ l;
  sort_depths_sorted l : StronglySorted (fun a b => twb_duration_samples a <= twb_duration_samples b) (sort_depths l);
}.
Definition depth_default : TwPlaybackBufferDepthSnapshot := mkTwPlaybackBufferDepthSnapshot 0 0 0 0.
Definition queue_stats_default : TwPlaybackQueueDepthStatsSnapshot :=
  mkTwPlaybackQueueDepthStatsSnapshot 0 0 depth_default depth_default depth_default depth_default depth_default
    depth_default.
Definition percentile_depth (sorted : list TwPlaybackBufferDepthSnapshot) (percentile : nat)
    : TwPlaybackBufferDepthSnapshot :=
  default depth_default (sorted !! (((length sorted - 1) * percentile + 99) / 100)%nat).

Section Samples.
Context `{DepthSort}.

Definition queue_depth_stats_from_samples (samples : list TwPlaybackBufferDepthSnapshot)
    : TwPlaybackQueueDepthStatsSnapshot :=
  if bool_decide (samples = []) then queue_stats_default else
  let sorted := sort_depths samples in
  mkTwPlaybackQueueDepthStatsSnapshot (zlen samples)
    (zlen (filter (fun depth => twb_duration_samples depth = 0) samples))
    (default depth_default (samples !! (length samples - 1)%nat)) (default depth_default (sorted !! 0%nat))
    (percentile_depth sorted 5) (percentile_depth sorted 50) (percentile_depth sorted 95)
    (default depth_default (sorted !! (length sorted - 1)%nat)).

Definition ensure_queue_depth_stats_match (reported recomputed : TwPlaybackQueueDepthStatsSnapshot)
    (label phase : string) : anyhow unit :=
  bail_if (negb (bool_decide (reported = recomputed)))
    "{} {} prepared queue aggregate disagreed with raw samples: reported {:?}, recomputed {:?}"
    [Text label; Text phase; queue_stats_fields reported; queue_stats_fields recomputed].

(** The depths of the two phases, in order. *)
Fixpoint split_samples (label : string) (index : Z) (samples : list TwPreparedTrackQueueDepthSampleSnapshot)
    : anyhow (list TwPlaybackBufferDepthSnapshot * list TwPlaybackBufferDepthSnapshot) :=
  match samples with
  | [] => Ok ([], [])
  | sample :: samples =>
      _ ← bail_if (negb (tws_sample_index sample =? index))
           "{} raw prepared queue sample_index {} was not sequential at index {}"
           [Text label; Num (tws_sample_index sample); Num index];
      match tws_phase sample with
      | TP_ActivePrePause =>
          rest ← split_samples label (index + 1) samples; Ok (tws_depth sample :: rest.1, rest.2)
      | TP_ActivePostResume =>
          rest ← split_samples label (index + 1) samples; Ok (rest.1, tws_depth sample :: rest.2)
      | TP_Unspecified =>
          bail "{} raw prepared queue sample {} had unspecified phase" [Text label; Num index]
      end
  end.

Definition validate_raw_prepared_track_queue_samples (metrics : TwPlaybackStabilitySnapshot) (label : string)
    (require_post_resume_phase : bool) : anyhow unit :=
  phases ← split_samples label 0 (twm_raw_prepared_track_queue_samples metrics);
  let recomputed_pre := queue_depth_stats_from_samples phases.1 in
  let recomputed_post := queue_depth_stats_from_samples phases.2 in
  pre_reported ← ok_or_bail (twm_active_pre_pause_prepared_track_queue_depth metrics)
       "{} was missing active pre-pause prepared queue metrics" [Text label];
  _ ← ensure_queue_depth_stats_match pre_reported recomputed_pre label "active pre-pause";
  _ ← match twm_active_post_resume_prepared_track_queue_depth metrics with
      | Some post_reported =>
          ensure_queue_depth_stats_match post_reported recomputed_post label "active post-resume"
      | None =>
          bail_if (require_post_resume_phase || negb (twq_sample_count recomputed_post =? 0))
            "{} was missing active post-resume prepared queue metrics" [Text label]
      end;
  let recomputed_sample_count :=
    sat_add u64_max (twq_sample_count recomputed_pre) (twq_sample_count recomputed_post) in
  _ ← bail_if (negb (twm_prepared_track_queue_depth_sample_count metrics =? recomputed_sample_count))
       "{} prepared_track_queue_depth_sample_count was {}; raw samples recomputed {}"
       [Text label; Num (twm_prepared_track_queue_depth_sample_count metrics); Num recomputed_sample_count];
  let recomputed_empty_count := sat_add u64_max (twq_empty_count recomputed_pre) (twq_empty_count recomputed_post) in
  bail_if (negb (twm_prepared_track_queue_empty_count metrics =? recomputed_empty_count))
    "{} prepared_track_queue_empty_count was {}; raw samples recomputed {}"
    [Text label; Num (twm_prepared_track_queue_empty_count metrics); Num recomputed_empty_count].

(** ** Raw lifecycle events *)

Record PreparedPlayoutTrackDropIdentity : Type := mkDropIdentity {
  di_reason : TwPreparedPlayoutQueueEventReason;
  di_media_duration_samples : Z;
  di_source_frame_epoch : Z;
  di_source_media_position_samples : Z;
  di_source_media_byte_position : option Z;
}.
#[global] Instance PreparedPlayoutTrackDropIdentity_eq_dec : EqDecision PreparedPlayoutTrackDropIdentity.
Proof. solve_decision. Defined.

Definition prepared_track_drop_counts_as_unrecovered (event : TwPreparedPlayoutQueueEventSnapshot) : bool :=
  match twp_reason event with TQR_Stop | TQR_Reconnect => false | _ => true end.
Definition prepared_playout_track_drop_identity (event : TwPreparedPlayoutQueueEventSnapshot)
    : option PreparedPlayoutTrackDropIdentity :=
  if bool_decide (twp_command_kind event = TC_Track) then
    source_frame_epoch ← twp_source_frame_epoch event;
    source_media_position_samples ← twp_source_media_position_samples event;
    Some (mkDropIdentity (twp_reason event) (twp_media_duration_samples event) source_frame_epoch
            source_media_position_samples (twp_source_media_byte_position event))
  else None.

(** [position] and [remove]: the list without the first equal element. *)
Fixpoint remove_first {A} `{EqDecision A} (x : A) (l : list A) : option (list A) :=
  match l with
  | [] => None
  | y :: l => if decide (y = x) then Some l else cons y <$> remove_first x l
  end.

Record Lifecycle : Type := mkLifecycle {
  lc_unrecovered_track_drop_count : Z;
  lc_unrecovered_track_drops : list PreparedPlayoutTrackDropIdentity;
  lc_silence_drop_count : Z;
  lc_rebuild_count : Z;
  lc_track_enqueue_count : Z;
  lc_track_dequeue_count : Z;
}.
Definition Lifecycle_start : Lifecycle := mkLifecycle 0 [] 0 0 0 0.

Definition track_dropped (event : TwPreparedPlayoutQueueEventSnapshot) (s : Lifecycle) : Lifecycle :=
  if prepared_track_drop_counts_as_unrecovered event then
    mkLifecycle (sat_add u64_max (lc_unrecovered_track_drop_count s) 1)
      (lc_unrecovered_track_drops s ++ option_list (prepared_playout_track_drop_identity event))
      (lc_silence_drop_count s) (lc_rebuild_count s) (lc_track_enqueue_count s) (lc_track_dequeue_count s)
  else s.
Definition packet_rebuilt (event : TwPreparedPlayoutQueueEventSnapshot) (s : Lifecycle) : Lifecycle :=
  let rebuilt := sat_add u64_max (lc_rebuild_count s) 1 in
  match prepared_playout_track_drop_identity event ≫= fun i => remove_first i (lc_unrecovered_track_drops s) with
  | Some drops =>
      mkLifecycle (sat_sub (lc_unrecovered_track_drop_count s) 1) drops (lc_silence_drop_count s) rebuilt
        (lc_track_enqueue_count s) (lc_track_dequeue_count s)
  | None =>
      mkLifecycle (lc_unrecovered_track_drop_count s) (lc_unrecovered_track_drops s) (lc_silence_drop_count s) rebuilt
        (lc_track_enqueue_count s) (lc_track_dequeue_count s)
  end.
Definition lifecycle_event (s : Lifecycle) (event : TwPreparedPlayoutQueueEventSnapshot) : Lifecycle :=
  match twp_event_kind event, twp_command_kind event with
  | TQK_Enqueued, TC_Track =>
      mkLifecycle (lc_unrecovered_track_drop_count s) (lc_unrecovered_track_drops s) (lc_silence_drop_count s)
        (lc_rebuild_count s) (sat_add u64_max (lc_track_enqueue_count s) 1) (lc_track_dequeue_count s)
  | TQK_DequeuedToDeadlineSender, TC_Track =>
      mkLifecycle (lc_unrecovered_track_drop_count s) (lc_unrecovered_track_drops s) (lc_silence_drop_count s)
        (lc_rebuild_count s) (lc_track_enqueue_count s) (sat_add u64_max (lc_track_dequeue_count s) 1)
  | TQK_DroppedBeforeSend, TC_Track => track_dropped event s
  | TQK_DroppedBeforeSend, (TC_ScheduledSilence | TC_BoundarySilence | TC_OtherBoundary) =>
      mkLifecycle (lc_unrecovered_track_drop_count s) (lc_unrecovered_track_drops s)
        (sat_add u64_max (lc_silence_drop_count s) 1) (lc_rebuild_count s) (lc_track_enqueue_count s)
        (lc_track_dequeue_count s)
  | TQK_Rebuilt, _ => packet_rebuilt event s
  | _, _ => s
  end.
Fixpoint lifecycle_events (label : string) (index : Z) (s : Lifecycle)
    (events : list TwPreparedPlayoutQueueEventSnapshot) : anyhow Lifecycle :=
  match events with
  | [] => Ok s
  | event :: events =>
      _ ← bail_if (negb (twp_event_index event =? index))
           "{} raw prepared playout event_index {} was not sequential at index {}"
           [Text label; Num (twp_event_index event); Num index];
      _ ← bail_if (bool_decide (twp_event_kind event = TQK_Unspecified))
           "{} raw prepared playout event {} had unspecified event kind" [Text label; Num index];
      _ ← bail_if (bool_decide (twp_command_kind event = TC_Unspecified))
           "{} raw prepared playout event {} had unspecified command kind" [Text label; Num index];
      _ ← bail_if (bool_decide (twp_command_kind event = TC_Track) &&
                   (DISCORD_EGRESS_BUFFER_HIGH_WATERMARK_MS <? twb_duration_ms (twp_queue_depth_after event)))
           "{} raw prepared playout event {} reported track queue depth {}ms above {}ms high watermark"
           [Text label; Num index; Num (twb_duration_ms (twp_queue_depth_after event));
            Num DISCORD_EGRESS_BUFFER_HIGH_WATERMARK_MS];
      lifecycle_events label (index + 1) (lifecycle_event s event) events
  end.
Definition validate_raw_prepared_playout_queue_events (metrics : TwPlaybackStabilitySnapshot) (label : string)
    : anyhow unit :=
  s ← lifecycle_events label 0 Lifecycle_start (twm_raw_prepared_playout_queue_events metrics);
  _ ← bail_if (lc_track_enqueue_count s =? 0) "{} returned no raw prepared track enqueue events" [Text label];
  _ ← bail_if (lc_track_dequeue_count s =? 0)
       "{} returned no raw prepared track dequeue-to-deadline events" [Text label];
  _ ← bail_if (negb (lc_unrecovered_track_drop_count s =? twm_prepared_track_packet_drop_count metrics))
       "{} prepared_track_packet_drop_count was {}; raw lifecycle events recomputed {} unrecovered drops"
       [Text label; Num (twm_prepared_track_packet_drop_count metrics); Num (lc_unrecovered_track_drop_count s)];
  _ ← bail_if (negb (lc_silence_drop_count s =? twm_prepared_silence_packet_drop_count metrics))
       "{} prepared_silence_packet_drop_count was {}; raw lifecycle events recomputed {}"
       [Text label; Num (twm_prepared_silence_packet_drop_count metrics); Num (lc_silence_drop_count s)];
  bail_if (negb (lc_rebuild_count s =? twm_prepared_packet_rebuild_count metrics))
    "{} prepared_packet_rebuild_count was {}; raw lifecycle events recomputed {}"
    [Text label; Num (twm_prepared_packet_rebuild_count metrics); Num (lc_rebuild_count s)].

(** ** The published aggregates against the raw evidence *)

Definition tempo_disagrees (t : RecomputedTempo) (metrics : TwPlaybackStabilitySnapshot) : bool :=
  negb (rt_window_count t =? twm_track_tempo_window_count metrics) ||
  negb (rt_post_source_buffer_count t =? twm_track_tempo_window_post_source_buffer_count metrics) ||
  negb (rt_fast_count t =? twm_track_tempo_window_fast_count metrics) ||
  negb (rt_slow_count t =? twm_track_tempo_window_slow_count metrics) ||
  negb (ppm_matches_with_tolerance (rt_min_ratio_ppm t) (twm_track_tempo_window_min_ratio_ppm metrics)) ||
  negb (ppm_matches_with_tolerance (rt_max_ratio_ppm t) (twm_track_tempo_window_max_ratio_ppm metrics)).

Definition compare_recomputed (recomputed : RecomputedRawPlayback) (metrics : TwPlaybackStabilitySnapshot)
    (label : string) : anyhow unit :=
  _ ← bail_if (negb (rr_track_packet_count recomputed =? twm_track_packet_count metrics))
       "{} track_packet_count was {}; raw send events recomputed {}"
       [Text label; Num (twm_track_packet_count metrics); Num (rr_track_packet_count recomputed)];
  _ ← bail_if (negb (rr_track_media_duration_sent_ms recomputed =? twm_track_media_duration_sent_ms metrics))
       "{} track_media_duration_sent_ms was {}; raw send events recomputed {}"
       [Text label; Num (twm_track_media_duration_sent_ms metrics); Num (rr_track_media_duration_sent_ms recomputed)];
  _ ← bail_if (negb (rr_track_wall_clock_elapsed_ms recomputed =? twm_track_wall_clock_elapsed_ms metrics))
       "{} track_wall_clock_elapsed_ms was {}; raw send events recomputed {}"
       [Text label; Num (twm_track_wall_clock_elapsed_ms metrics); Num (rr_track_wall_clock_elapsed_ms recomputed)];
  _ ← bail_if (negb (ppm_matches_with_tolerance (rr_track_media_to_wall_clock_ratio_ppm recomputed)
                (twm_track_media_to_wall_clock_ratio_ppm metrics)))
       "{} track_media_to_wall_clock_ratio_ppm was {}; raw send events recomputed {} outside ±{}ppm tolerance"
       [Text label; Num (twm_track_media_to_wall_clock_ratio_ppm metrics);
        Num (rr_track_media_to_wall_clock_ratio_ppm recomputed); Num RAW_RATIO_RECOMPUTE_TOLERANCE_PPM];
  let intervals := rr_intervals recomputed in
  let tempo := rr_tempo recomputed in
  _ ← bail_if (negb (ri_fast_interval_count intervals =? twm_track_fast_interval_count metrics))
       "{} track_fast_interval_count was {}; raw send events recomputed {}"
       [Text label; Num (twm_track_fast_interval_count metrics); Num (ri_fast_interval_count intervals)];
  _ ← bail_if (negb (ri_fast_interval_min_us intervals =? twm_track_fast_interval_min_us metrics))
       "{} track_fast_interval_min_us was {}; raw send events recomputed {}"
       [Text label; Num (twm_track_fast_interval_min_us metrics); Num (ri_fast_interval_min_us intervals)];
  _ ← bail_if (tempo_disagrees tempo metrics)
       "{} rolling tempo aggregate disagreed with raw send events outside ±{}ppm tolerance: reported windows={} post_source={} min={} max={} fast={} slow={}, recomputed windows={} post_source={} min={} max={} fast={} slow={}"
       [Text label; Num RAW_RATIO_RECOMPUTE_TOLERANCE_PPM; Num (twm_track_tempo_window_count metrics);
        Num (twm_track_tempo_window_post_source_buffer_count metrics);
        Num (twm_track_tempo_window_min_ratio_ppm metrics); Num (twm_track_tempo_window_max_ratio_ppm metrics);
        Num (twm_track_tempo_window_fast_count metrics); Num (twm_track_tempo_window_slow_count metrics);
        Num (rt_window_count tempo); Num (rt_post_source_buffer_count tempo); Num (rt_min_ratio_ppm tempo);
        Num (rt_max_ratio_ppm tempo); Num (rt_fast_count tempo); Num (rt_slow_count tempo)];
  bail_if (negb (rr_skipped_source_frame_count recomputed =? twm_skipped_source_frame_count metrics) ||
           negb (rr_skipped_source_duration_ms recomputed =? twm_skipped_source_duration_ms metrics) ||
           negb (rr_skipped_source_duration_samples recomputed =? twm_skipped_source_duration_samples metrics))
    "{} skipped-source aggregates disagreed with raw source-frame identity: reported frames={} duration_ms={} duration_samples={}, recomputed frames={} duration_ms={} duration_samples={}"
    [Text label; Num (twm_skipped_source_frame_count metrics); Num (twm_skipped_source_duration_ms metrics);
     Num (twm_skipped_source_duration_samples metrics); Num (rr_skipped_source_frame_count recomputed);
     Num (rr_skipped_source_duration_ms recomputed); Num (rr_skipped_source_duration_samples recomputed)].

Definition require_pause_evidence (recomputed : RecomputedRawPlayback) (metrics : TwPlaybackStabilitySnapshot)
    (label : string) : anyhow unit :=
  _ ← bail_if (rr_pause_boundary_silence_packet_count recomputed <? Z.of_nat PAUSE_STOP_SILENCE_FRAME_COUNT)
       "{} raw send events contained only {} boundary-silence packets; expected at least {} for Pause"
       [Text label; Num (rr_pause_boundary_silence_packet_count recomputed);
        Num (Z.of_nat PAUSE_STOP_SILENCE_FRAME_COUNT)];
  _ ← bail_if (rr_track_segment_count recomputed <? 2)
       "{} raw send events did not resume track media after Pause boundary silence (track_segment_count={} boundary_silence_packets={}); expected track packets before and after Pause"
       [Text label; Num (rr_track_segment_count recomputed);
        Num (rr_pause_boundary_silence_packet_count recomputed)];
  validate_pause_boundary_spacing metrics label.

Definition validate_raw_playback_evidence (metrics : TwPlaybackStabilitySnapshot) (label : string)
    (require_pause_resume_evidence : bool) : anyhow unit :=
  _ ← bail_if (bool_decide (twm_raw_send_events metrics = [])) "{} returned no raw send-event evidence" [Text label];
  _ ← bail_if (bool_decide (twm_raw_prepared_track_queue_samples metrics = []))
       "{} returned no raw prepared-track queue sample evidence" [Text label];
  _ ← bail_if (bool_decide (twm_raw_prepared_playout_queue_events metrics = []))
       "{} returned no raw prepared playout lifecycle evidence" [Text label];
  _ ← validate_raw_send_event_order metrics label;
  _ ← validate_raw_prepared_track_queue_samples metrics label require_pause_resume_evidence;
  _ ← validate_raw_prepared_playout_queue_events metrics label;
  recomputed ← recompute_raw_playback metrics label;
  _ ← compare_recomputed recomputed metrics label;
  _ ← (if require_pause_resume_evidence then require_pause_evidence recomputed metrics label else Ok tt);
  let recomputed_scheduled_silence_packet_count :=
    zlen (filter (fun event => twe_command_kind event = TC_ScheduledSilence) (twm_raw_send_events metrics)) in
  bail_if (negb (twm_scheduled_silence_packet_count metrics =? recomputed_scheduled_silence_packet_count))
    "{} scheduled_silence_packet_count was {}; raw send events recomputed {}"
    [Text label; Num (twm_scheduled_silence_packet_count metrics); Num recomputed_scheduled_silence_packet_count].

(** ** The budget of a playback *)

(** Frames: as many as expected, none dropped, none late. *)
Definition check_frame_accounting (metrics : TwPlaybackStabilitySnapshot) (label : string) : anyhow unit :=
  _ ← bail_if (twd_samples (twm_track_interval metrics) =? 0)
       "{} returned no track RTP interval samples"
       [Text label];
  _ ← bail_if (twd_samples (twm_sender_lateness metrics) =? 0)
       "{} returned no sender lateness samples"
       [Text label];
  _ ← bail_if (twd_samples (twm_playout_sender_lateness metrics) =? 0)
       "{} returned no playout sender lateness samples"
       [Text label];
  _ ← bail_if (twm_track_media_duration_sent_ms metrics =? 0)
       "{} returned zero sent track media duration"
       [Text label];
  _ ← bail_if (twm_track_wall_clock_elapsed_ms metrics =? 0)
       "{} returned zero track wall-clock elapsed duration"
       [Text label];
  _ ← bail_if (twm_track_media_to_wall_clock_ratio_ppm metrics =? 0)
       "{} returned zero track media-to-wall-clock ratio"
       [Text label];
  _ ← bail_if (twm_expected_track_frame_count metrics =? 0)
       "{} returned zero expected sender frame count"
       [Text label];
  _ ← bail_if (negb (twm_sent_track_frame_count metrics =? twm_track_packet_count metrics))
       "{} sent_track_frame_count was {}; expected track_packet_count {}"
       [Text label; Num (twm_sent_track_frame_count metrics); Num (twm_track_packet_count metrics)];
  let expected_silence_frame_count :=
    Z.max (twm_continuity_silence_packet_count metrics) (twm_scheduled_silence_packet_count metrics) in
  _ ← bail_if (negb (twm_silence_frame_count metrics =? expected_silence_frame_count))
       "{} silence_frame_count was {}; expected max(continuity_silence_packet_count={}, scheduled_silence_packet_count={}) = {}"
       [Text label; Num (twm_silence_frame_count metrics); Num (twm_continuity_silence_packet_count metrics); Num
         (twm_scheduled_silence_packet_count metrics); Num expected_silence_frame_count];
  let expected_deficit := sat_sub (twm_expected_track_frame_count metrics)
    (twm_sent_track_frame_count metrics + twm_silence_frame_count metrics) in
  _ ← bail_if (negb (twm_frame_deficit_count metrics =? expected_deficit))
       "{} frame_deficit_count was {}; expected recomputed deficit {} from expected_frames={} sent_track_frames={} silence_frames={}"
       [Text label; Num (twm_frame_deficit_count metrics); Num expected_deficit; Num (twm_expected_track_frame_count
         metrics); Num (twm_sent_track_frame_count metrics); Num (twm_silence_frame_count metrics)];
  _ ← bail_if (negb (twm_frame_deficit_count metrics =? 0))
       "{} reported {} sender frame deficits (expected_frames={} sent_track_frames={} silence_frames={} dropped_frames={} late_frames={}); expected 0"
       [Text label; Num (twm_frame_deficit_count metrics); Num (twm_expected_track_frame_count metrics); Num
         (twm_sent_track_frame_count metrics); Num (twm_silence_frame_count metrics); Num (twm_dropped_frame_count
         metrics); Num (twm_late_frame_count metrics)];
  let expected_dropped_frame_count := sat_add u64_max
    (sat_add u64_max (twm_prepared_track_packet_drop_count metrics) (twm_prepared_silence_packet_drop_count metrics))
    (twm_egress_dropped_music_frame_count metrics) in
  _ ← bail_if (negb (twm_dropped_frame_count metrics =? expected_dropped_frame_count))
       "{} dropped_frame_count was {}; expected recomputed dropped frames {}"
       [Text label; Num (twm_dropped_frame_count metrics); Num expected_dropped_frame_count];
  _ ← bail_if (negb (twm_dropped_frame_count metrics =? 0))
       "{} reported {} dropped sender frames; expected 0"
       [Text label; Num (twm_dropped_frame_count metrics)];
  _ ← bail_if (negb (twm_late_frame_count metrics =? 0))
       "{} reported {} late sender frames; expected 0"
       [Text label; Num (twm_late_frame_count metrics)];
  Ok tt.

(** Tempo: neither the whole nor any window is fast or slow. *)
Definition check_tempo (metrics : TwPlaybackStabilitySnapshot) (label : string) (require_rolling_tempo_windows : bool)
    : anyhow unit :=
  _ ← bail_if (twm_track_media_to_wall_clock_ratio_ppm metrics <? MEDIA_TO_WALL_CLOCK_MIN_RATIO_PPM)
       "{} track media-to-wall-clock ratio was {}ppm; expected >= {}ppm"
       [Text label; Num (twm_track_media_to_wall_clock_ratio_ppm metrics); Num MEDIA_TO_WALL_CLOCK_MIN_RATIO_PPM];
  _ ← bail_if (MEDIA_TO_WALL_CLOCK_MAX_RATIO_PPM <? twm_track_media_to_wall_clock_ratio_ppm metrics)
       "{} track media-to-wall-clock ratio was {}ppm; expected <= {}ppm"
       [Text label; Num (twm_track_media_to_wall_clock_ratio_ppm metrics); Num MEDIA_TO_WALL_CLOCK_MAX_RATIO_PPM];
  _ ← (if twm_track_tempo_window_count metrics =? 0 then
         _ ← bail_if require_rolling_tempo_windows "{} returned no rolling track tempo windows" [Text label];
         bail_if (Z.of_nat TRACK_TEMPO_WINDOW_PACKETS <=? twm_track_packet_count metrics)
           "{} returned no rolling track tempo windows despite {} track packets; expected at least one {}-packet window"
           [Text label; Num (twm_track_packet_count metrics); Num (Z.of_nat TRACK_TEMPO_WINDOW_PACKETS)]
       else
         bail_if ((twm_track_tempo_window_min_ratio_ppm metrics =? 0) || (twm_track_tempo_window_max_ratio_ppm metrics =? 0))
           "{} returned incomplete rolling tempo ratio bounds (min={} max={})"
           [Text label; Num (twm_track_tempo_window_min_ratio_ppm metrics);
            Num (twm_track_tempo_window_max_ratio_ppm metrics)]);
  _ ← bail_if (((sat_add u64_max (SOURCE_PLAYBACK_BUFFER_TARGET_MS) (1000)) <=? twm_track_media_duration_sent_ms
    metrics) && (twm_track_tempo_window_post_source_buffer_count metrics =? 0))
       "{} returned no rolling tempo windows starting after the {}ms source reservoir"
       [Text label; Num SOURCE_PLAYBACK_BUFFER_TARGET_MS];
  _ ← bail_if (negb (twm_track_tempo_window_fast_count metrics =? 0))
       "{} reported {} faster-than-real-time rolling tempo windows (fastest_ratio_ppm={} media_ms={} wall_us={}); expected 0"
       [Text label; Num (twm_track_tempo_window_fast_count metrics); Num (twm_track_tempo_window_fastest_ratio_ppm
         metrics); Num (twm_track_tempo_window_fastest_media_ms metrics); Num
         (twm_track_tempo_window_fastest_wall_clock_us metrics)];
  _ ← bail_if (negb (twm_track_tempo_window_slow_count metrics =? 0))
       "{} reported {} slower-than-real-time rolling tempo windows (slowest_ratio_ppm={} media_ms={} wall_us={}); expected 0"
       [Text label; Num (twm_track_tempo_window_slow_count metrics); Num (twm_track_tempo_window_slowest_ratio_ppm
         metrics); Num (twm_track_tempo_window_slowest_media_ms metrics); Num
         (twm_track_tempo_window_slowest_wall_clock_us metrics)];
  _ ← bail_if (negb (twm_track_fast_interval_count metrics =? 0))
       "{} reported {} shortened local track intervals (min_us={}); expected 0"
       [Text label; Num (twm_track_fast_interval_count metrics); Num (twm_track_fast_interval_min_us metrics)];
  _ ← bail_if (negb (twm_skipped_source_frame_count metrics =? 0))
       "{} reported {} skipped source frames; expected 0 for steady playback"
       [Text label; Num (twm_skipped_source_frame_count metrics)];
  _ ← bail_if (negb (twm_skipped_source_duration_ms metrics =? 0))
       "{} reported {}ms skipped source duration; expected 0 for steady playback"
       [Text label; Num (twm_skipped_source_duration_ms metrics)];
  _ ← bail_if (negb (twm_skipped_source_duration_samples metrics =? 0))
       "{} reported {} skipped source samples; expected 0 for steady playback"
       [Text label; Num (twm_skipped_source_duration_samples metrics)];
  _ ← bail_if (negb (twm_tempo_rebase_count metrics =? 0))
       "{} reported {} track tempo rebases; expected 0"
       [Text label; Num (twm_tempo_rebase_count metrics)];
  Ok tt.

(** Sender: its work, its lateness and the depth of its queue. *)
Definition check_sender_work (metrics : TwPlaybackStabilitySnapshot) (label : string) : anyhow unit :=
  _ ← bail_if (twd_samples (twm_playout_builder_prepare_duration metrics) =? 0)
       "{} returned no playout builder preparation samples; expected RTP packets to be prepared before the live media tick"
       [Text label];
  _ ← bail_if (twd_samples (twm_sender_send_duration metrics) =? 0)
       "{} returned no sender UDP send duration samples"
       [Text label];
  _ ← bail_if (twd_samples (twm_sender_loop_non_send_work_duration metrics) =? 0)
       "{} returned no sender non-send work duration samples"
       [Text label];
  _ ← bail_if (twd_samples (twm_gateway_event_drain_duration metrics) =? 0)
       "{} returned no gateway event drain duration samples"
       [Text label];
  _ ← bail_if (SENDER_LOOP_NON_SEND_WORK_P99_BUDGET_MS <? twd_p99_ms (twm_sender_loop_non_send_work_duration
    metrics))
       "{} sender non-send work p99 was {}ms; expected <= {}ms"
       [Text label; Num (twd_p99_ms (twm_sender_loop_non_send_work_duration metrics)); Num
         SENDER_LOOP_NON_SEND_WORK_P99_BUDGET_MS];
  _ ← bail_if ((SENDER_LOOP_NON_SEND_WORK_P99_BUDGET_MS <? twd_max_ms (twm_sender_loop_non_send_work_duration
    metrics)) && (SENDER_LATENESS_P99_BUDGET_MS <? twd_max_ms (twm_sender_lateness metrics)))
       "{} sender non-send work max was {}ms and sender lateness max was {}ms; expected outlier work to preserve <= {}ms sender lateness"
       [Text label; Num (twd_max_ms (twm_sender_loop_non_send_work_duration metrics)); Num (twd_max_ms
         (twm_sender_lateness metrics)); Num SENDER_LATENESS_P99_BUDGET_MS];
  _ ← bail_if (DISCORD_EGRESS_BUFFER_HIGH_WATERMARK_MS <? twm_prepared_rtp_queue_depth_ms metrics)
       "{} prepared_rtp_queue_depth_ms was {}; expected <= {}"
       [Text label; Num (twm_prepared_rtp_queue_depth_ms metrics); Num DISCORD_EGRESS_BUFFER_HIGH_WATERMARK_MS];
  _ ← bail_if (negb (twm_egress_buffer_target_ms metrics =? DISCORD_EGRESS_BUFFER_TARGET_MS))
       "{} returned egress_buffer_target_ms {}; expected {}"
       [Text label; Num (twm_egress_buffer_target_ms metrics); Num DISCORD_EGRESS_BUFFER_TARGET_MS];
  Ok tt.
Definition check_egress (metrics : TwPlaybackStabilitySnapshot) (label : string) : anyhow unit :=
  _ ← bail_if (twb_duration_ms (twm_max_egress_buffer_depth metrics) =? 0)
       "{} reported no Discord egress buffering; expected bounded raw Opus egress depth"
       [Text label];
  _ ← bail_if (DISCORD_EGRESS_BUFFER_HIGH_WATERMARK_MS <? twb_duration_ms (twm_max_egress_buffer_depth metrics))
       "{} max Discord egress depth was {}ms; expected <= {}ms"
       [Text label; Num (twb_duration_ms (twm_max_egress_buffer_depth metrics)); Num
         DISCORD_EGRESS_BUFFER_HIGH_WATERMARK_MS];
  _ ← bail_if (negb (bool_decide (twm_max_playout_buffer_depth metrics = twm_max_egress_buffer_depth metrics)))
       "{} playout depth {:?} did not match egress depth {:?}"
       [Text label; depth_fields (twm_max_playout_buffer_depth metrics); depth_fields (twm_max_egress_buffer_depth
         metrics)];
  _ ← bail_if (RTP_INTERVAL_P95_BUDGET_MS <? twd_p95_ms (twm_track_interval metrics))
       "{} RTP interval p95 was {}ms; expected <= {}ms"
       [Text label; Num (twd_p95_ms (twm_track_interval metrics)); Num RTP_INTERVAL_P95_BUDGET_MS];
  _ ← bail_if (RTP_INTERVAL_P99_BUDGET_MS <? twd_p99_ms (twm_track_interval metrics))
       "{} RTP interval p99 was {}ms; expected <= {}ms"
       [Text label; Num (twd_p99_ms (twm_track_interval metrics)); Num RTP_INTERVAL_P99_BUDGET_MS];
  _ ← bail_if (RTP_INTERVAL_MAX_BUDGET_MS <=? twd_max_ms (twm_track_interval metrics))
       "{} RTP interval max was {}ms; expected < {}ms"
       [Text label; Num (twd_max_ms (twm_track_interval metrics)); Num RTP_INTERVAL_MAX_BUDGET_MS];
  _ ← bail_if (SENDER_LATENESS_P99_BUDGET_MS <? twd_p99_ms (twm_sender_lateness metrics))
       "{} sender lateness p99 was {}ms; expected <= {}ms"
       [Text label; Num (twd_p99_ms (twm_sender_lateness metrics)); Num SENDER_LATENESS_P99_BUDGET_MS];
  _ ← bail_if (SENDER_LATENESS_P99_BUDGET_MS <? twd_p99_ms (twm_playout_sender_lateness metrics))
       "{} playout sender lateness p99 was {}ms; expected <= {}ms"
       [Text label; Num (twd_p99_ms (twm_playout_sender_lateness metrics)); Num SENDER_LATENESS_P99_BUDGET_MS];
  Ok tt.

(** Anomalies: none of the counters of things that should not happen. *)
Definition check_anomalies (metrics : TwPlaybackStabilitySnapshot) (label : string) : anyhow unit :=
  _ ← bail_if (negb (twm_buffer_underrun_count metrics =? 0))
       "{} reported {} buffer underruns; expected 0"
       [Text label; Num (twm_buffer_underrun_count metrics)];
  _ ← bail_if (negb (twm_rebuffer_count metrics =? 0))
       "{} reported {} rebuffers; expected 0"
       [Text label; Num (twm_rebuffer_count metrics)];
  _ ← bail_if (negb (twm_playout_underrun_count metrics =? 0))
       "{} reported {} playout underruns; expected 0"
       [Text label; Num (twm_playout_underrun_count metrics)];
  _ ← bail_if (negb (twm_egress_underrun_count metrics =? 0))
       "{} reported {} egress underruns; expected 0"
       [Text label; Num (twm_egress_underrun_count metrics)];
  _ ← bail_if (negb (twm_source_underrun_count metrics =? 0))
       "{} reported {} source underruns; expected 0"
       [Text label; Num (twm_source_underrun_count metrics)];
  _ ← bail_if (negb (twm_source_underrun_reached_builder_count metrics =? 0))
       "{} reported {} source underruns reaching the playout builder; expected 0"
       [Text label; Num (twm_source_underrun_reached_builder_count metrics)];
  _ ← bail_if (negb (twm_source_underrun_reached_deadline_sender_count metrics =? 0))
       "{} reported {} source underruns reaching the deadline sender; expected 0"
       [Text label; Num (twm_source_underrun_reached_deadline_sender_count metrics)];
  _ ← bail_if (negb (twm_dave_transition_recovery_reached_deadline_sender_count metrics =? 0))
       "{} reported {} DAVE recoveries reaching the deadline sender; expected 0"
       [Text label; Num (twm_dave_transition_recovery_reached_deadline_sender_count metrics)];
  _ ← bail_if (negb (twm_sender_forbidden_work_count metrics =? 0))
       "{} reported {} forbidden sender work samples; expected 0"
       [Text label; Num (twm_sender_forbidden_work_count metrics)];
  _ ← bail_if (negb (twm_stale_dave_send_prevented_count metrics =? 0))
       "{} reported {} stale DAVE sends prevented; expected 0 for steady playback"
       [Text label; Num (twm_stale_dave_send_prevented_count metrics)];
  _ ← bail_if (negb (twm_controlled_media_interruption_count metrics =? 0))
       "{} reported {} controlled media interruptions; expected 0 for steady playback"
       [Text label; Num (twm_controlled_media_interruption_count metrics)];
  _ ← bail_if (negb (twm_scheduler_late_reset_count metrics =? 0))
       "{} reported {} scheduler-late media clock resets; expected 0"
       [Text label; Num (twm_scheduler_late_reset_count metrics)];
  _ ← bail_if (negb (twm_source_underrun_reset_count metrics =? 0))
       "{} reported {} source-underrun media clock resets; expected 0"
       [Text label; Num (twm_source_underrun_reset_count metrics)];
  _ ← bail_if (negb (twm_dave_transition_recovery_reset_count metrics =? 0))
       "{} reported {} DAVE transition recovery resets; expected 0 for steady playback"
       [Text label; Num (twm_dave_transition_recovery_reset_count metrics)];
  _ ← bail_if (MAX_CONSECUTIVE_PLAYOUT_LATE_PACKETS <? twm_max_consecutive_playout_late_packets metrics)
       "{} reported {} consecutive playout-late packets; expected <= {}"
       [Text label; Num (twm_max_consecutive_playout_late_packets metrics); Num
         MAX_CONSECUTIVE_PLAYOUT_LATE_PACKETS];
  Ok tt.
Definition check_silence_and_discards (metrics : TwPlaybackStabilitySnapshot) (label : string) : anyhow unit :=
  _ ← bail_if (MAX_CONSECUTIVE_PLAYOUT_LATE_PACKETS <? twm_max_consecutive_late_egress_ticks metrics)
       "{} reported {} consecutive late egress ticks; expected <= {}"
       [Text label; Num (twm_max_consecutive_late_egress_ticks metrics); Num MAX_CONSECUTIVE_PLAYOUT_LATE_PACKETS];
  _ ← bail_if (negb (twm_continuity_silence_packet_count metrics =? 0))
       "{} reported {} continuity silence packets during playback; expected 0"
       [Text label; Num (twm_continuity_silence_packet_count metrics)];
  _ ← bail_if (negb (twm_inserted_silence_duration_ms metrics =? 0))
       "{} reported {}ms of inserted silence during playback; expected 0"
       [Text label; Num (twm_inserted_silence_duration_ms metrics)];
  _ ← bail_if (negb (twm_egress_inserted_silence_duration_ms metrics =? 0))
       "{} reported {}ms of egress inserted silence during playback; expected 0"
       [Text label; Num (twm_egress_inserted_silence_duration_ms metrics)];
  _ ← bail_if (negb (twm_scheduled_silence_packet_count metrics =? 0))
       "{} reported {} scheduled silence packets during steady playback; expected 0"
       [Text label; Num (twm_scheduled_silence_packet_count metrics)];
  _ ← bail_if (negb (twm_prepared_silence_packet_drop_count metrics =? 0))
       "{} reported {} dropped prepared silence packets; expected 0"
       [Text label; Num (twm_prepared_silence_packet_drop_count metrics)];
  _ ← bail_if ((negb (twm_discarded_source_frame_count metrics =? 0)) || (negb (twm_discarded_source_duration_ms
    metrics =? 0)) || (negb (twm_discarded_source_duration_samples metrics =? 0)))
       "{} reported discarded source frames={} duration_ms={} duration_samples={}; expected 0 for steady playback"
       [Text label; Num (twm_discarded_source_frame_count metrics); Num (twm_discarded_source_duration_ms metrics);
         Num (twm_discarded_source_duration_samples metrics)];
  _ ← bail_if ((negb (twm_egress_dropped_music_frame_count metrics =? 0)) || (negb
    (twm_egress_dropped_music_duration_ms metrics =? 0)) || (negb (twm_egress_dropped_music_duration_samples metrics
    =? 0)))
       "{} reported dropped egress music frames={} duration_ms={} duration_samples={}; expected 0 for steady playback"
       [Text label; Num (twm_egress_dropped_music_frame_count metrics); Num (twm_egress_dropped_music_duration_ms
         metrics); Num (twm_egress_dropped_music_duration_samples metrics)];
  Ok tt.

Definition validate_playback_timing_budget_with_active_probe_options (metrics : TwPlaybackStabilitySnapshot)
    (label : string) (require_rolling_tempo_windows require_pause_resume_evidence : bool) : anyhow unit :=
  _ ← validate_source_buffer_target metrics label;
  _ ← check_frame_accounting metrics label;
  _ ← check_tempo metrics label require_rolling_tempo_windows;
  _ ← check_sender_work metrics label;
  _ ← validate_prepared_track_queue_metrics metrics label require_pause_resume_evidence;
  _ ← validate_raw_playback_evidence metrics label require_pause_resume_evidence;
  _ ← check_egress metrics label;
  _ ← check_anomalies metrics label;
  check_silence_and_discards metrics label.
Definition validate_playback_timing_budget (metrics : TwPlaybackStabilitySnapshot) (label : string) : anyhow unit :=
  validate_playback_timing_budget_with_active_probe_options metrics label true true.
Definition validate_active_probe_playback_timing_budget (metrics : TwPlaybackStabilitySnapshot) (label : string)
    : anyhow unit :=
  validate_playback_timing_budget_with_active_probe_options metrics label false false.

Definition validate_finished_playback_metrics (metrics : TwPlaybackStabilitySnapshot) (expected_video_id : string)
    : anyhow unit :=
  _ ← bail_if (negb (twm_available metrics))
       "GetPlaybackMetrics returned unavailable metrics after TrackEnded"
       [];
  _ ← bail_if (negb (bool_decide (twm_video_id metrics = Some expected_video_id)))
       "GetPlaybackMetrics returned video_id {:?}; expected `{}`"
       [MaybeText (twm_video_id metrics); Text expected_video_id];
  _ ← bail_if (negb (twm_ended metrics))
       "GetPlaybackMetrics returned a snapshot that was not marked ended"
       [];
  _ ← bail_if (twm_track_packet_count metrics <? MIN_STABILITY_METRIC_PACKET_COUNT)
       "GetPlaybackMetrics reported only {} track packets; expected at least {}"
       [Num (twm_track_packet_count metrics); Num MIN_STABILITY_METRIC_PACKET_COUNT];
  _ ← bail_if (twd_samples (twm_track_interval metrics) =? 0)
       "GetPlaybackMetrics returned no track RTP interval samples"
       [];
  _ ← bail_if (twd_samples (twm_sender_lateness metrics) =? 0)
       "GetPlaybackMetrics returned no sender lateness samples"
       [];
  _ ← bail_if (twd_samples (twm_refill_duration metrics) =? 0)
       "GetPlaybackMetrics returned no refill duration samples"
       [];
  _ ← validate_playback_timing_budget metrics "finished playback";
  validate_live_runtime_post_source_window_count metrics "finished playback".
Definition validate_reconnect_probe_metrics (metrics : TwPlaybackStabilitySnapshot) (expected_video_id : string)
    : anyhow unit :=
  _ ← bail_if (negb (twm_available metrics))
       "Reconnect rollover probe metrics were unavailable"
       [];
  _ ← bail_if (negb (bool_decide (twm_video_id metrics = Some expected_video_id)))
       "Reconnect rollover probe metrics returned video_id {:?}; expected `{}`"
       [MaybeText (twm_video_id metrics); Text expected_video_id];
  _ ← bail_if (twm_ended metrics)
       "Reconnect rollover probe metrics unexpectedly reported ended=true"
       [];
  _ ← bail_if (twm_reconnect_interruptions metrics =? 0)
       "Reconnect rollover probe metrics did not count a reconnect interruption"
       [];
  _ ← bail_if (twm_track_packet_count metrics =? 0)
       "Reconnect rollover probe metrics did not observe any track packets before rollover"
       [];
  _ ← bail_if (twd_samples (twm_sender_lateness metrics) =? 0)
       "Reconnect rollover probe metrics returned no sender lateness samples"
       [];
  validate_active_probe_playback_timing_budget metrics "Reconnect rollover probe playback".

End Samples.
