(* ===== verification/ValidatorSpecs.v ===== *)
(** * What the validator of a live run decides

    The validator recomputes the published aggregates from the raw send events.
    Here its recomputation is compared with the collector of the service
    (Metrics.v), which computed them packet by packet, and its verdict is
    compared with what the events say. *)

From S2P Require Import Prelude Anyhow OpusQueue HttpStream Recovery DeadlineSender Egress Metrics MetricsSpecs.
From S2P Require Import ControlProto MetricsTransport Timeline AudioObserver.
From S2P Require PlaybackValidator.
From stdpp Require Import prelude strings sorting.
Open Scope Z_scope.

Module V := PlaybackValidator.

(** ** Exact sends *)

(** A track packet whose times fall on microseconds after [base] and whose
    duration and position are whole milliseconds. *)
Record exact_send (base : Z) (s : SenderSentMetric) (offset_us ms position_ms : Z) : Prop := {
  xs_start : sm_send_started_at s = base + 1000 * offset_us;
  xs_samples : sm_duration_samples s = 48 * ms;
  xs_position : exists mf, sm_media_frame s = Some mf /\ mf_media_position_samples mf = 48 * position_ms;
  xs_bounds : 0 <= offset_us <= 2 ^ 50 /\ 0 < ms <= 2 ^ 20 /\ 0 <= position_ms /\ position_ms + ms <= 2 ^ 40;
}.

Definition position_of (s : SenderSentMetric) : Z := default 0 (mf_media_position_samples <$> sm_media_frame s).
Definition sent_timing (s : SenderSentMetric) : TrackPacketTiming :=
  mkTiming (sm_send_started_at s) (duration_from_samples (sm_duration_samples s)) (position_of s * 1000000 / 48).
Definition sent_tick (s : SenderSentMetric) : Tick :=
  mkTick (sm_send_started_at s) (duration_from_samples (sm_duration_samples s)).
Definition raw_of (base : Z) (s : SenderSentMetric) : V.RawTrackSend :=
  V.mkRawTrackSend (sm_packet_index s) (instant_offset_micros base (sm_send_started_at s))
    (V.duration_us_from_samples (sm_duration_samples s)) (sm_duration_ms s) (sm_duration_samples s)
    (default 0 (mf_media_position_ms <$> sm_media_frame s)) (position_of s).

Definition exact (base : Z) (s : SenderSentMetric) : Prop := exists offset_us ms position_ms, exact_send base s offset_us ms position_ms.

Lemma exact_values base s o ms p :
  exact_send base s o ms p ->
  sent_timing s = mkTiming (base + 1000 * o) (ms * 1000000) (p * 1000000) /\
  sent_tick s = mkTick (base + 1000 * o) (ms * 1000000) /\
  V.rs_send_started_offset_us (raw_of base s) = o /\ V.rs_duration_us (raw_of base s) = ms * 1000 /\
  V.rs_media_position_samples (raw_of base s) = 48 * p /\ V.rs_duration_samples (raw_of base s) = 48 * ms.
Proof.
  intros [Hs Hd (mf & Hmf & Hp) (Ho & Hm & Hpos & Hb)]. unfold sent_timing, sent_tick, raw_of, position_of. rewrite Hmf. simpl.
  rewrite Hs, Hd, Hp.
  assert (E1 : duration_from_samples (48 * ms) = ms * 1000000).
  { unfold duration_from_samples, OPUS_SAMPLE_RATE_HZ. rewrite sat_mul_exact by (unfold u64_max; lia).
    replace (48 * ms * 1000000000) with (ms * 1000000 * 48000) by lia. apply Z.div_mul. lia. }
  assert (E2 : V.duration_us_from_samples (48 * ms) = ms * 1000).
  { unfold V.duration_us_from_samples. rewrite sat_mul_exact by (unfold u64_max; lia).
    replace (48 * ms * 1000000) with (ms * 1000 * 48000) by lia. apply Z.div_mul. lia. }
  assert (E3 : instant_offset_micros base (base + 1000 * o) = o).
  { unfold instant_offset_micros, duration_micros. rewrite sat_sub_exact by lia.
    replace (base + 1000 * o - base) with (o * 1000) by lia. rewrite Z.div_mul by lia. unfold u64_max. lia. }
  replace (48 * p * 1000000) with (p * 1000000 * 48) by lia. rewrite Z.div_mul by lia. rewrite E1, E2, E3. done.
Qed.

(** ** One window *)

(** What the recomputation keeps of the tempo. *)
Definition tempo_of (t : Tempo) : V.RecomputedTempo :=
  V.mkRecomputedTempo (tp_track_tempo_window_count t) (tp_track_tempo_window_post_source_buffer_count t)
    (tp_track_tempo_window_min_ratio_ppm t) (tp_track_tempo_window_max_ratio_ppm t) (ex_count (tp_fast t))
    (ex_count (tp_slow t)).

Definition media_ms (l : list SenderSentMetric) : Z := sum_by (fun s => sm_duration_samples s / 48) l.

Lemma ratio_same media_us wall_us :
  V.ratio_ppm_us media_us wall_us = media_to_wall_clock_ratio_ppm_duration (media_us * 1000) (wall_us * 1000).
Proof. unfold V.ratio_ppm_us, media_to_wall_clock_ratio_ppm_duration. cbv zeta. by rewrite !Z.div_mul by lia. Qed.

Lemma exact_ms base s o ms p : exact_send base s o ms p -> sm_duration_samples s / 48 = ms.
Proof. intros [_ Hd _ _]. rewrite Hd, Z.mul_comm. apply Z.div_mul. lia. Qed.
Lemma media_ms_cons base s o ms p l : exact_send base s o ms p -> media_ms (s :: l) = ms + media_ms l.
Proof. intros H. unfold media_ms. by rewrite sum_by_cons, (exact_ms _ _ _ _ _ H). Qed.
Lemma media_ms_nonneg base l : Forall (exact base) l -> 0 <= media_ms l.
Proof.
  intros H. apply sum_by_nonneg. intros s Hs. eapply Forall_forall in H as (o & ms & p & Hx); [|done].
  rewrite (exact_ms _ _ _ _ _ Hx). destruct Hx as [_ _ _ Hb]. lia.
Qed.
Lemma raw_media base l acc :
  Forall (exact base) l -> 0 <= acc -> acc + 1000 * media_ms l <= u64_max ->
  foldl (fun total packet => sat_add u64_max total (V.rs_duration_us packet)) acc (map (raw_of base) l)
    = acc + 1000 * media_ms l.
Proof.
  intros H. induction H as [|s l (o & ms & p & Hs) Hl IH] in acc |- *; intros Ha Hb; [unfold media_ms; rewrite sum_by_nil; simpl; lia|].
  destruct (exact_values _ _ _ _ _ Hs) as (_ & _ & _ & Hd & _). pose proof Hs as Hs0.
  pose proof (media_ms_nonneg _ _ Hl). destruct Hs as [_ _ _ (_ & Hms & _)].
  rewrite (media_ms_cons _ _ _ _ _ l Hs0) in *. cbn [map foldl]. rewrite Hd, sat_add_exact by lia. rewrite IH; lia.
Qed.
Lemma timing_media base l : Forall (exact base) l -> window_media (map sent_timing l) = 1000000 * media_ms l.
Proof.
  intros H. induction H as [|s l (o & ms & p & Hs) Hl IH]; [done|]. unfold window_media in *.
  simpl map. rewrite sum_by_cons, IH, (media_ms_cons _ _ _ _ _ l Hs).
  destruct (exact_values _ _ _ _ _ Hs) as (-> & _). simpl. lia.
Qed.

Lemma window_agrees base w t :
  Forall (exact base) w -> in_order (map sent_tick w) -> 1000 * media_ms w <= u64_max ->
  tempo_of (note_window (map sent_timing w) t) = V.recompute_tempo_window (tempo_of t) (map (raw_of base) w).
Proof.
  intros Hw Ho Hm. destruct w as [|f w]; [done|].
  destruct (last (f :: w)) as [l|] eqn:El; [|by apply last_None in El].
  assert (Hl : l ∈ f :: w) by by apply last_Some_elem_of.
  pose proof (proj1 (Forall_forall _ _) Hw f ltac:(left)) as (o1 & m1 & p1 & H1).
  pose proof (proj1 (Forall_forall _ _) Hw l Hl) as (o2 & m2 & p2 & H2).
  assert (Hle : sm_send_started_at f <= sm_send_started_at l).
  { apply (in_order_head_last _ (sent_tick f) (sent_tick l) Ho); [done|]. by rewrite fmap_last, El. }
  pose proof (timing_media _ _ Hw) as Hmt. pose proof (raw_media base _ 0 Hw ltac:(lia) ltac:(lia)) as Hmr.
  unfold note_window, V.recompute_tempo_window. rewrite !fmap_last, El. cbn [head map fmap option_fmap option_map].
  change (sent_timing f :: map sent_timing w) with (map sent_timing (f :: w)) in *.
  change (raw_of base f :: map (raw_of base) w) with (map (raw_of base) (f :: w)) in *.
  rewrite Hmt, Hmr. unfold window_wall_clock.
  destruct (exact_values _ _ _ _ _ H1) as (T1 & _ & O1 & _ & P1 & _).
  destruct (exact_values _ _ _ _ _ H2) as (T2 & _ & O2 & D2 & _ & _). rewrite T1, T2, O1, O2, D2, P1. simpl.
  destruct H1 as [S1 _ _ (B1 & _ & _ & _)], H2 as [S2 _ _ (B2 & M2 & _)]. rewrite S1, S2 in Hle.
  rewrite !sat_sub_exact by lia. rewrite (sat_add_exact _ (o2 - o1)) by (unfold u64_max; lia). rewrite ratio_same.
  replace ((o2 - o1 + m2 * 1000) * 1000) with (base + 1000 * o2 - (base + 1000 * o1) + m2 * 1000000) by lia.
  replace ((0 + 1000 * media_ms (f :: w)) * 1000) with (1000000 * media_ms (f :: w)) by lia.
  set (ratio := media_to_wall_clock_ratio_ppm_duration _ _). unfold tempo_of, note_fast, note_slow. simpl. f_equal.
  - change (V.samples_from_duration_ms V.SOURCE_PLAYBACK_BUFFER_TARGET_MS) with (48 * 5000).
    unfold TRACK_POST_SOURCE_BUFFER_MEDIA_MS. repeat zcase; done || lia.
  - change V.MEDIA_TO_WALL_CLOCK_MAX_RATIO_PPM with MAX_MEDIA_TO_WALL_CLOCK_RATIO_PPM. by repeat zcase.
  - change V.MEDIA_TO_WALL_CLOCK_MIN_RATIO_PPM with MIN_MEDIA_TO_WALL_CLOCK_RATIO_PPM.
    destruct (ratio <? MIN_MEDIA_TO_WALL_CLOCK_RATIO_PPM); [|done]. by destruct (_ || _).
Qed.

(** ** One interval *)

(** The recomputed minimum is the published one: intervals are positive, so
    that the 0 of no interval is not mistaken for one. *)
Definition fast_of (i : Intervals) : V.RecomputedIntervals :=
  V.mkRecomputedIntervals (iv_track_fast_interval_count i) (map_or_0 duration_micros (iv_track_fast_interval_min i)).
Definition fast_positive (i : Intervals) : Prop :=
  match iv_track_fast_interval_min i with Some d => exists us, d = us * 1000 /\ 0 < us <= u64_max | None => True end.

Lemma interval_agrees base a b i oa ma pa ob mb pb :
  exact_send base a oa ma pa -> exact_send base b ob mb pb -> oa < ob -> fast_positive i ->
  let i' := note_interval (sat_sub (sm_send_started_at b) (sm_send_started_at a))
              (Some (duration_from_samples (sm_duration_samples a))) i in
  fast_of i' = V.recompute_interval (fast_of i) [raw_of base a; raw_of base b] /\ fast_positive i'.
Proof.
  intros Ha Hb Hab Hp. destruct (exact_values _ _ _ _ _ Ha) as (Ta & _ & Oa & Da & _).
  destruct (exact_values _ _ _ _ _ Hb) as (Tb & _ & Ob & _). unfold sent_timing in Ta, Tb.
  injection Ta as Sa Ea _. injection Tb as Sb _ _. destruct Ha as [_ _ _ (Ba & _)], Hb as [_ _ _ (Bb & _)].
  cbv zeta. rewrite Sa, Sb, Ea, sat_sub_exact by lia.
  unfold V.recompute_interval. rewrite Oa, Ob, Da, sat_sub_exact by lia.
  unfold fast_of, fast_positive, note_interval. cbn [iv_track_fast_interval_count iv_track_fast_interval_min].
  replace (base + 1000 * ob - (base + 1000 * oa)) with ((ob - oa) * 1000) by lia.
  assert (Emicros : forall us, 0 < us <= u64_max -> duration_micros (us * 1000) = us).
  { intros us Hus. unfold duration_micros. rewrite Z.div_mul by lia. lia. }
  assert (Hus : 0 < ob - oa <= u64_max) by (unfold u64_max; lia).
  destruct (Z.ltb_spec ((ob - oa) * 1000) (ma * 1000000)), (Z.ltb_spec (ob - oa) (ma * 1000)); try lia; [|done].
  unfold fast_positive in Hp. cbn [map_or_0 V.ri_fast_interval_count V.ri_fast_interval_min_us].
  destruct (iv_track_fast_interval_min i) as [d|].
  - destruct Hp as (us & -> & Hu). cbn [map_or_0]. rewrite (Emicros us) by done.
    rewrite (proj2 (Z.eqb_neq us 0)) by lia. rewrite Z.mul_min_distr_nonneg_r by lia.
    rewrite (Emicros (us `min` (ob - oa))) by lia. split; [done|]. exists (us `min` (ob - oa)). lia.
  - cbn [map_or_0]. rewrite Emicros by done. split; [done|]. by exists (ob - oa).
Qed.

(** ** Playbacks *)

(** The track packets of a playback in stretches, and what has come since the
    last one: a reset of the media clock, a packet that is not of the track. *)
Record Playback : Type := mkPlayback {
  pb_done : list (list SenderSentMetric);
  pb_current : list SenderSentMetric;
  pb_reset : bool;
  pb_silence : bool;
}.
Definition playback_start : Playback := mkPlayback [] [] false false.
Definition closed (r : Playback) : list (list SenderSentMetric) :=
  if bool_decide (pb_current r = []) then pb_done r else pb_done r ++ [pb_current r].
Definition tracks_of (r : Playback) : list SenderSentMetric := concat (pb_done r) ++ pb_current r.
(** A reset takes effect at the next track packet. *)
Definition cut (r : Playback) : Playback :=
  if pb_reset r then mkPlayback (closed r) [] false false else mkPlayback (pb_done r) (pb_current r) false false.
Definition playback_step (r : Playback) (m : message) : Playback :=
  match m.1 with
  | SenderSent s =>
      if sm_is_track s then mkPlayback (pb_done (cut r)) (pb_current (cut r) ++ [s]) false false
      else mkPlayback (pb_done r) (pb_current r) (pb_reset r) true
  | SenderResumedFromPause | SenderMediaClockReset SourceUnderrunReset =>
      mkPlayback (pb_done r) (pb_current r) true (pb_silence r)
  | _ => r
  end.
Definition playback (l : list message) : Playback := foldl playback_step playback_start l.

(** What a truthful sender reports: track packets with exact times, in order,
    that carry the stream without gaps; the media clock is reset exactly where
    other packets come between them; no source frame is skipped. *)
Definition admissible (base : Z) (r : Playback) (m : message) : Prop :=
  match m.1 with
  | SenderSent s =>
      if sm_is_track s then
        sm_kind s = KTrack /\ (pb_current r = [] \/ pb_reset r = pb_silence r) /\
        (exists offset_us ms, exact_send base s offset_us ms (media_ms (tracks_of r))) /\
        (forall t, last (pb_current r) = Some t ->
           sm_send_started_at t < sm_send_started_at s)
      else sm_kind s <> KTrack
  | SenderSkippedSourceFrames _ _ _ => False
  | _ => True
  end.
Fixpoint admissible_from (base : Z) (r : Playback) (l : list message) : Prop :=
  match l with
  | [] => True
  | m :: l => admissible base r m /\ admissible_from base (playback_step r m) l
  end.
Definition truthful (base : Z) (l : list message) : Prop := admissible_from base playback_start l.

Lemma truthful_snoc base l m : truthful base (l ++ [m]) <-> truthful base l /\ admissible base (playback l) m.
Proof.
  unfold truthful, playback. generalize playback_start. induction l as [|x l IH]; intros r; simpl; [tauto|].
  rewrite IH. tauto.
Qed.
Lemma playback_snoc l m : playback (l ++ [m]) = playback_step (playback l) m.
Proof. apply foldl_snoc. Qed.
Lemma tracks_cut r : tracks_of (cut r) = tracks_of r.
Proof.
  unfold cut, tracks_of, closed. destruct (pb_reset r); [|done]. cbn. case_bool_decide as E.
  - by rewrite E.
  - rewrite concat_app. simpl. by rewrite !app_nil_r.
Qed.

(** *** The measures of stretches *)

Definition sent_ticks (st : list (list SenderSentMetric)) : list (list Tick) := map (map sent_tick) st.
Definition raws (base : Z) (st : list (list SenderSentMetric)) : list (list V.RawTrackSend) := map (map (raw_of base)) st.
Definition tempo_fold (segments : list (list V.RawTrackSend)) : V.RecomputedTempo :=
  foldl (fun r segment => foldl V.recompute_tempo_window r (windows V.TRACK_TEMPO_WINDOW_PACKETS segment))
    V.RecomputedTempo_default segments.
Definition fast_fold (segments : list (list V.RawTrackSend)) : V.RecomputedIntervals :=
  foldl (fun r segment => foldl V.recompute_interval r (windows 2 segment)) V.RecomputedIntervals_default segments.

Lemma tempo_fold_snoc before l t :
  tempo_fold (before ++ [l ++ [t]]) =
    foldl V.recompute_tempo_window (tempo_fold (before ++ [l])) (latest V.TRACK_TEMPO_WINDOW_PACKETS (l ++ [t])).
Proof.
  unfold tempo_fold. rewrite !foldl_app. simpl.
  rewrite windows_snoc by (unfold V.TRACK_TEMPO_WINDOW_PACKETS; lia). by rewrite foldl_app.
Qed.
Lemma fast_fold_snoc before l t :
  fast_fold (before ++ [l ++ [t]]) =
    match last l with
    | Some a => V.recompute_interval (fast_fold (before ++ [l])) [a; t]
    | None => fast_fold (before ++ [l])
    end.
Proof.
  unfold fast_fold. rewrite !foldl_app. simpl. rewrite windows_snoc, foldl_app by lia.
  destruct l as [|a l _] using rev_ind; [done|]. rewrite last_snoc, !length_app. simpl.
  replace (length l + 1 + 1 <? 2)%nat with false by (symmetry; apply Nat.ltb_ge; lia). simpl. f_equal.
  rewrite <- app_assoc. simpl. replace (length l + 1 + 1 - 2)%nat with (length l) by lia.
  by rewrite drop_app_length.
Qed.
Lemma folds_nil before : tempo_fold (before ++ [[]]) = tempo_fold before /\ fast_fold (before ++ [[]]) = fast_fold before.
Proof. unfold tempo_fold, fast_fold. by rewrite !foldl_app. Qed.

(** *** Well-formed playbacks *)

Definition stretches_of (r : Playback) : list (list SenderSentMetric) := pb_done r ++ [pb_current r].
Definition since (base : Z) (o : option SenderSentMetric) : Z :=
  match o with Some s => sm_send_started_at s - base | None => 0 end.
Record sound (base : Z) (r : Playback) : Prop := {
  so_exact : Forall (exact base) (tracks_of r);
  so_order : Forall in_order (sent_ticks (stretches_of r));
  so_media : media_ms (tracks_of r) <= 2 ^ 40;
  so_span : sum_by span (sent_ticks (stretches_of r)) <= 1000000 * media_ms (tracks_of r) + since base (last (tracks_of r));
  so_started : pb_current r = [] -> pb_done r = [];
}.

(** A measure that ignores empty stretches does not see a cut. *)
Lemma measure_cut {X} (f : list (list SenderSentMetric) -> X) r :
  (forall st, f (st ++ [[]]) = f st) -> f (stretches_of (cut r)) = f (stretches_of r).
Proof.
  intros Hf. unfold stretches_of, cut, closed. destruct (pb_reset r); [|done]. cbn. case_bool_decide as E.
  - by rewrite E.
  - apply Hf.
Qed.
Lemma ticks_snoc st l : sent_ticks (st ++ [l]) = sent_ticks st ++ [map sent_tick l].
Proof. unfold sent_ticks. by rewrite map_app. Qed.
Lemma raws_snoc base st l : raws base (st ++ [l]) = raws base st ++ [map (raw_of base) l].
Proof. unfold raws. by rewrite map_app. Qed.
Lemma span_cut r : sum_by span (sent_ticks (stretches_of (cut r))) = sum_by span (sent_ticks (stretches_of r)).
Proof.
  apply (measure_cut (fun st => sum_by span (sent_ticks st))). intros st.
  rewrite ticks_snoc, sum_by_app, sum_by_cons, sum_by_nil. unfold span. simpl. lia.
Qed.
Lemma order_cut r : Forall in_order (sent_ticks (stretches_of r)) -> Forall in_order (sent_ticks (stretches_of (cut r))).
Proof.
  intros H. unfold stretches_of, cut, closed. destruct (pb_reset r); [|done]. cbn. case_bool_decide as E.
  - unfold stretches_of in H. by rewrite E in H.
  - rewrite ticks_snoc. apply Forall_app. by repeat constructor.
Qed.
Lemma tempo_cut base r : tempo_fold (raws base (stretches_of (cut r))) = tempo_fold (raws base (stretches_of r)).
Proof. apply (measure_cut (fun st => tempo_fold (raws base st))). intros st. rewrite raws_snoc. apply folds_nil. Qed.
Lemma fast_cut base r : fast_fold (raws base (stretches_of (cut r))) = fast_fold (raws base (stretches_of r)).
Proof. apply (measure_cut (fun st => fast_fold (raws base st))). intros st. rewrite raws_snoc. apply folds_nil. Qed.

Lemma media_ms_snoc l s : media_ms (l ++ [s]) = media_ms l + sm_duration_samples s / 48.
Proof. unfold media_ms. rewrite sum_by_app, sum_by_cons, sum_by_nil. lia. Qed.
Lemma last_current_cut r x : last (pb_current (cut r)) = Some x -> last (pb_current r) = Some x.
Proof. unfold cut. by destruct (pb_reset r). Qed.
Lemma last_tracks r x : last (pb_current r) = Some x -> last (tracks_of r) = Some x.
Proof. intros H. unfold tracks_of. by rewrite last_app, H. Qed.

(** What the next track packet finds. *)
Lemma in_order_extend l t :
  in_order l -> (forall a, last l = Some a -> tk_at a <= tk_at t) -> 0 <= tk_duration t -> in_order (l ++ [t]).
Proof.
  intros [Hd Hi] Ha Ht. split; [apply Forall_app; by repeat constructor|].
  destruct l as [|a l _] using rev_ind; [done|]. rewrite intervals_snoc. apply Forall_app. split; [done|].
  repeat constructor. specialize (Ha a). rewrite last_snoc in Ha. specialize (Ha eq_refl). lia.
Qed.
Lemma track_in_order base r s o ms p :
  sound base r -> exact_send base s o ms p ->
  (forall t, last (pb_current r) = Some t -> sm_send_started_at t < sm_send_started_at s) ->
  in_order (map sent_tick (pb_current (cut r)) ++ [sent_tick s]).
Proof.
  intros [_ Ho _ _ _] Hx Hlt. apply in_order_extend.
  - apply order_cut in Ho. unfold stretches_of in Ho. rewrite ticks_snoc in Ho. by apply Forall_app in Ho as [_ Ho%Forall_inv].
  - intros a. rewrite fmap_last. destruct (last (pb_current (cut r))) as [t|] eqn:E; [|done]. intros [= <-].
    apply last_current_cut, Hlt in E. simpl. lia.
  - destruct (exact_values _ _ _ _ _ Hx) as (_ & -> & _). destruct Hx as [_ _ _ Hb]. simpl. lia.
Qed.
Lemma sound_step base r m : sound base r -> admissible base r m -> sound base (playback_step r m).
Proof.
  intros Hs Hm. unfold admissible in Hm. unfold playback_step.
  destruct m as [[ | | | | | | | | | | | | | |s| | | | | | |[]] now]; cbn in *; try done; try (destruct Hs; by split).
  destruct (sm_is_track s); [|destruct Hs; by split].
  destruct Hm as (_ & _ & (o & ms & Hx) & Hlt). pose proof (track_in_order _ _ _ _ _ _ Hs Hx Hlt) as Hord.
  set (r' := mkPlayback _ _ _ _).
  assert (Ht : tracks_of r' = tracks_of r ++ [s]) by (rewrite <- (tracks_cut r); unfold tracks_of; cbn; by rewrite app_assoc).
  assert (Hst : sent_ticks (stretches_of r') = sent_ticks (pb_done (cut r)) ++ [map sent_tick (pb_current (cut r)) ++ [sent_tick s]]).
  { unfold stretches_of, r'. cbn [pb_done pb_current]. rewrite ticks_snoc, map_app. reflexivity. }
  destruct Hs as [H1 H2 H3 H4 H5]. pose proof (order_cut _ H2) as H2'. rewrite <- span_cut in H4.
  unfold stretches_of in H2', H4. rewrite ticks_snoc in H2', H4. apply Forall_app in H2' as [Hd _].
  rewrite sum_by_app, sum_by_cons, sum_by_nil in H4.
  pose proof (exact_ms _ _ _ _ _ Hx) as Hms. destruct (exact_values _ _ _ _ _ Hx) as (_ & Htk & _).
  assert (Hb := xs_bounds _ _ _ _ _ Hx). assert (Hat := xs_start _ _ _ _ _ Hx).
  assert (Hsince : since base (last (tracks_of r)) <= sm_send_started_at s - base).
  { destruct (last (pb_current r)) as [t|] eqn:E.
    - rewrite (last_tracks _ _ E). specialize (Hlt t eq_refl). simpl. lia.
    - apply last_None in E. unfold tracks_of. rewrite E, (H5 E). simpl. lia. }
  split; rewrite ?Ht, ?Hst, ?media_ms_snoc, ?Hms.
  - apply Forall_app. split; [done|]. constructor; [|done]. by exists o, ms, (media_ms (tracks_of r)).
  - apply Forall_app. split; [done|]. constructor; [exact Hord|constructor].
  - lia.
  - rewrite sum_by_app, sum_by_cons, sum_by_nil, last_snoc. simpl since.
    remember (pb_current (cut r)) as cur eqn:E. destruct cur as [|a l _] using rev_ind.
    + rewrite Htk. unfold span in *. simpl in *. lia.
    + rewrite map_app in *. simpl map in *. rewrite span_snoc. apply in_order_snoc in Hord as (Hord%in_order_last & _).
      assert (Hl : last (pb_current r) = Some a) by (apply last_current_cut; rewrite <- E; apply last_snoc).
      rewrite (last_tracks _ _ Hl) in H4. simpl since in H4. rewrite Htk, Hat. simpl in *. lia.
  - cbn. by destruct (pb_current (cut r)).
Qed.

Lemma sound_all base l : truthful base l -> sound base (playback l).
Proof.
  induction l as [|m l IH] using rev_ind.
  - intros _. split; try done. constructor; [split; constructor|constructor].
  - rewrite truthful_snoc, playback_snoc. intros [Hl Hm]. apply sound_step; [by apply IH|done].
Qed.

(** ** What the collector holds *)

(** The stretch the next track packet extends. *)
Definition live (r : Playback) : list SenderSentMetric := pb_current (cut r).

Record collected (base : Z) (r : Playback) (c : Collector) : Prop := {
  cl_timings : tc_track_packet_timings (mc_clock c) = map sent_timing (live r);
  cl_last_at : tc_last_track_send_started_at (mc_clock c) = tk_at <$> last (map sent_tick (live r));
  cl_last_duration : tc_last_track_duration (mc_clock c) = tk_duration <$> last (map sent_tick (live r));
  cl_elapsed : tc_active_track_wall_clock_elapsed (mc_clock c) = sum_by span (sent_ticks (stretches_of r));
  cl_media : tc_track_media_duration_sent (mc_clock c) = 1000000 * media_ms (tracks_of r);
  cl_tempo : tempo_of (mc_tempo c) = tempo_fold (raws base (stretches_of r));
  cl_fast : fast_of (mc_intervals c) = fast_fold (raws base (stretches_of r));
  cl_positive : fast_positive (mc_intervals c);
}.

Lemma collected_view base r c c' : tempo_view c' = tempo_view c -> collected base r c -> collected base r c'.
Proof.
  intros [= E1 E2 E3 E4 E5 E6 E7 E8] [H1 H2 H3 H4 H5 H6 H7 H8].
  split; unfold fast_of, fast_positive in *; by rewrite ?E1, ?E2, ?E3, ?E4, ?E5, ?E6, ?E7, ?E8.
Qed.
(** A playback is the same to the collector when its track packets and the
    stretch to extend are. *)
Lemma collected_same base r r' c :
  stretches_of r' = stretches_of r -> live r' = live r -> collected base r c -> collected base r' c.
Proof.
  intros E1 E2 [H1 H2 H3 H4 H5 H6 H7 H8].
  assert (E3 : tracks_of r' = tracks_of r).
  { unfold tracks_of. apply (f_equal (@concat _)) in E1. unfold stretches_of in E1. rewrite !concat_app in E1. simpl in E1.
    by rewrite !app_nil_r in E1. }
  split; by rewrite ?E1, ?E2, ?E3.
Qed.
(** A reset. *)
Lemma collected_reset base r c :
  collected base r c ->
  collected base (mkPlayback (pb_done r) (pb_current r) true (pb_silence r)) (reset_active_track_tempo_window c).
Proof. intros [H1 H2 H3 H4 H5 H6 H7 H8]. by split. Qed.

(** *** A track packet *)

Definition extended (r : Playback) (s : SenderSentMetric) : Playback := mkPlayback (pb_done (cut r)) (live r ++ [s]) false false.
Lemma extended_live r s : live (extended r s) = live r ++ [s].
Proof. done. Qed.
Lemma extended_tracks r s : tracks_of (extended r s) = tracks_of r ++ [s].
Proof. rewrite <- (tracks_cut r). unfold tracks_of, extended, live. cbn [pb_done pb_current]. by rewrite app_assoc. Qed.
Lemma extended_raws base r s :
  raws base (stretches_of (extended r s)) = raws base (pb_done (cut r)) ++ [map (raw_of base) (live r) ++ [raw_of base s]].
Proof. unfold stretches_of, extended. cbn [pb_done pb_current]. by rewrite raws_snoc, map_app. Qed.
Lemma raws_live base r : raws base (stretches_of (cut r)) = raws base (pb_done (cut r)) ++ [map (raw_of base) (live r)].
Proof. unfold stretches_of. by rewrite raws_snoc. Qed.
Lemma media_ms_suffix base a b : Forall (exact base) (a ++ b) -> media_ms b <= media_ms (a ++ b).
Proof. intros [H _]%Forall_app. unfold media_ms at 2. rewrite sum_by_app. apply media_ms_nonneg in H. fold (media_ms b) (media_ms a). lia. Qed.

Section Track.
Context (base : Z) (r : Playback) (s : SenderSentMetric) (c : Collector).
Context (Hc : collected base r c) (Hs : sound base r).
Context (offset_us ms : Z) (Hx : exact_send base s offset_us ms (media_ms (tracks_of r))).
Context (Hlt : forall t, last (pb_current r) = Some t -> sm_send_started_at t < sm_send_started_at s).

Lemma extended_in_order : in_order (map sent_tick (live r ++ [s])).
Proof. rewrite map_app. by apply (track_in_order base r s offset_us ms (media_ms (tracks_of r))). Qed.
Lemma extended_exact : Forall (exact base) (tracks_of (extended r s)).
Proof.
  rewrite extended_tracks. apply Forall_app. split; [apply Hs|]. constructor; [|constructor].
  by exists offset_us, ms, (media_ms (tracks_of r)).
Qed.
Lemma extended_media : media_ms (tracks_of (extended r s)) <= 2 ^ 40.
Proof.
  rewrite extended_tracks, media_ms_snoc, (exact_ms _ _ _ _ _ Hx). apply xs_bounds in Hx. lia.
Qed.

Lemma elapsed_extended :
  advance_elapsed (mc_clock c) (sm_send_started_at s) (duration_from_samples (sm_duration_samples s))
    = sum_by span (sent_ticks (stretches_of (extended r s))).
Proof.
  pose proof extended_in_order as Ho. rewrite map_app in Ho.
  assert (Hd : Forall in_order (sent_ticks (pb_done (cut r)))).
  { pose proof (order_cut _ (so_order _ _ Hs)) as H. unfold stretches_of in H. rewrite ticks_snoc in H.
    by apply Forall_app in H as [H _]. }
  pose proof (cl_elapsed _ _ _ Hc) as He. rewrite <- span_cut in He.
  unfold stretches_of in *. rewrite ticks_snoc, sum_by_app, sum_by_cons, sum_by_nil in *.
  cbn [extended pb_done pb_current]. rewrite map_app.
  pose proof (clock_step_span (sum_by span (sent_ticks (pb_done (cut r)))) _ _ Ho) as Hk.
  unfold advance_elapsed. rewrite (cl_last_at _ _ _ Hc), (cl_last_duration _ _ _ Hc), He.
  unfold clock_step in Hk. cbn [map sent_tick tk_at tk_duration] in *. rewrite !Z.add_0_r. apply Hk.
  apply sum_by_nonneg. intros l Hl. eapply Forall_forall in Hd; [|done]. by apply span_nonneg.
Qed.

Lemma timings_extended :
  map sent_timing (live r) ++ [mkTiming (sm_send_started_at s) (duration_from_samples (sm_duration_samples s))
    (tc_track_media_duration_sent (mc_clock c))] = map sent_timing (live r ++ [s]).
Proof.
  rewrite map_app. simpl. do 2 f_equal. destruct (exact_values _ _ _ _ _ Hx) as (Ht & _). unfold sent_timing in *.
  injection Ht as E1 E2 E3. rewrite E1, E2, E3, (cl_media _ _ _ Hc). f_equal. lia.
Qed.

Lemma tempo_extended t :
  tempo_of t = tempo_fold (raws base (stretches_of r)) ->
  tempo_of match latest_window (map sent_timing (live r ++ [s])) with Some w => note_window w t | None => t end
    = tempo_fold (raws base (stretches_of (extended r s))).
Proof.
  intros Ht. rewrite <- tempo_cut, raws_live in Ht. rewrite extended_raws, tempo_fold_snoc, <- Ht.
  unfold latest_window, latest. change TRACK_TEMPO_WINDOW_PACKETS with V.TRACK_TEMPO_WINDOW_PACKETS.
  replace (map (raw_of base) (live r) ++ [raw_of base s]) with (map (raw_of base) (live r ++ [s])) by by rewrite map_app.
  rewrite !length_map. destruct (_ <? _)%nat; [done|]. cbn [foldl]. rewrite !skipn_map.
  set (n := (_ - _)%nat). pose proof extended_exact as He.
  unfold tracks_of, extended in He. cbn [pb_done pb_current] in He. pose proof extended_media as Hm.
  unfold tracks_of, extended in Hm. cbn [pb_done pb_current] in Hm.
  rewrite <- (take_drop n (live r ++ [s])), app_assoc in He, Hm. pose proof (media_ms_suffix _ _ _ He).
  apply Forall_app in He as [_ He]. apply window_agrees; [done| |unfold u64_max; lia].
  rewrite <- skipn_map. apply in_order_drop, extended_in_order.
Qed.

Lemma fast_extended i :
  fast_of i = fast_fold (raws base (stretches_of r)) -> fast_positive i ->
  let i' := match tc_last_track_send_started_at (mc_clock c) with
            | Some previous => note_interval (sat_sub (sm_send_started_at s) previous) (tc_last_track_duration (mc_clock c)) i
            | None => i
            end in
  fast_of i' = fast_fold (raws base (stretches_of (extended r s))) /\ fast_positive i'.
Proof.
  intros Hi Hp. rewrite <- fast_cut, raws_live in Hi. rewrite extended_raws, fast_fold_snoc, <- Hi.
  rewrite (cl_last_at _ _ _ Hc), (cl_last_duration _ _ _ Hc), !fmap_last.
  destruct (last (live r)) as [a|] eqn:E; [|done]. cbn [fmap option_fmap option_map sent_tick tk_at tk_duration].
  assert (Ha : exact base a).
  { apply last_current_cut, last_tracks, last_Some_elem_of in E. eapply Forall_forall in E; [exact E|]. apply Hs. }
  destruct Ha as (oa & ma & pa & Ha). apply (interval_agrees base a s i oa ma pa _ _ _ Ha Hx); [|done].
  apply last_current_cut, Hlt in E. rewrite (xs_start _ _ _ _ _ Ha), (xs_start _ _ _ _ _ Hx) in E. lia.
Qed.

Lemma collected_track_step :
  collected base (extended r s) (track_step (sm_send_started_at s) (duration_from_samples (sm_duration_samples s)) c).
Proof.
  destruct (fast_extended (mc_intervals c)) as [F1 F2]; [apply Hc|apply Hc|].
  split; rewrite ?extended_live; unfold track_step.
  - cbn. rewrite (cl_timings _ _ _ Hc). apply timings_extended.
  - rewrite map_app. by setoid_rewrite last_snoc.
  - rewrite map_app. by setoid_rewrite last_snoc.
  - cbn. apply elapsed_extended.
  - rewrite extended_tracks, media_ms_snoc, (exact_ms _ _ _ _ _ Hx). cbn. rewrite (cl_media _ _ _ Hc).
    destruct (exact_values _ _ _ _ _ Hx) as (Ht & _). unfold sent_timing in Ht. injection Ht as _ -> _. lia.
  - cbn. rewrite (cl_timings _ _ _ Hc), timings_extended. apply tempo_extended, Hc.
  - exact F1.
  - exact F2.
Qed.
End Track.

(** *** Every message *)

Lemma collected_track_packet base r s c deadline rebased offset_us ms :
  collected base r c -> sound base r -> exact_send base s offset_us ms (media_ms (tracks_of r)) ->
  (forall t, last (pb_current r) = Some t -> sm_send_started_at t < sm_send_started_at s) ->
  collected base (extended r s) (record_track_packet deadline (sm_send_started_at s) (sm_duration_samples s) rebased c).
Proof.
  intros Hc Hs Hx Hlt. unfold record_track_packet. set (c0 := upd_lateness _ (upd_tempo _ c)).
  assert (H0 : collected base r c0) by (destruct Hc, rebased; by split).
  apply (collected_track_step base r s c0 H0 Hs offset_us ms Hx) in Hlt.
  eapply collected_view; [|exact Hlt]. clear. unfold tempo_view. cbn. repeat case_match; done.
Qed.
Lemma collected_message base r m c :
  collected base r c -> sound base r -> admissible base r m -> collected base (playback_step r m) (record_metric m.1 m.2 c).
Proof.
  intros Hc Hs Hm. destruct m as [m now]. unfold admissible, playback_step in *. cbn [fst snd] in *.
  destruct m as [ | | | | | | | | | | | | | |s| | | | | | |reason];
    try (eapply collected_view; [by apply view_other|done]); cbn [record_metric].
  - destruct (sm_is_track s) eqn:E.
    + destruct Hm as (_ & _ & (o & ms & Hx) & Hlt). destruct (view_sent_before s c E) as (c' & Hv & ->).
      apply (collected_view _ _ _ _ Hv) in Hc. eapply collected_view; [apply view_adaptive|].
      by apply (collected_track_packet base r s c' _ _ o ms).
    + eapply collected_view; [by apply view_sent_other|]. by apply (collected_same base r).
  - apply (collected_view _ _ (reset_active_track_tempo_window c)); [done|]. by apply collected_reset.
  - destruct reason; [by apply (collected_view _ _ c)|by apply (collected_view _ _ c)|].
    apply (collected_view _ _ (reset_active_track_tempo_window c)); [done|]. by apply collected_reset.
Qed.
Lemma collected_all base l c :
  collected base playback_start c -> truthful base l -> collected base (playback l) (record_all l c).
Proof.
  intros Hc. induction l as [|m l IH] using rev_ind; [done|].
  rewrite truthful_snoc, playback_snoc, record_all_app. intros [Hl Hm].
  apply collected_message; [by apply IH|by apply sound_all|done].
Qed.

(** What is counted beside the tempo. *)
Lemma packets_message m c :
  pk_track_packet_count (mc_packets (record_metric m.1 m.2 c)) =
    match m.1 with
    | SenderSent s => if sm_is_track s then sat_add usize_max (pk_track_packet_count (mc_packets c)) 1
                      else pk_track_packet_count (mc_packets c)
    | _ => pk_track_packet_count (mc_packets c)
    end.
Proof. destruct m as [m now]. cbn [fst snd]. destruct m; untouched. Qed.
Lemma queue_event_keeps_sends e now c :
  pe_raw_send_events (mc_events (record_metric (PreparedPlayoutQueueEvent e) now c)) = pe_raw_send_events (mc_events c).
Proof. cbn. unfold note_drop, note_rebuild. repeat case_match; done. Qed.
Lemma events_message m c :
  pe_raw_send_events (mc_events (record_metric m.1 m.2 c)) =
    pe_raw_send_events (mc_events c) ++ match sent_of m with Some s => [send_event_of s] | None => [] end.
Proof.
  destruct m as [m now]. cbn [fst snd]. destruct m; cbn [sent_of fst]; rewrite ?app_nil_r;
    first [apply queue_event_keeps_sends|untouched].
Qed.
Lemma skipped_message base r m c :
  admissible base r m -> fa_skipped (mc_frames (record_metric m.1 m.2 c)) = fa_skipped (mc_frames c).
Proof. destruct m as [m now]. unfold admissible. cbn [fst snd]. destruct m; untouched. Qed.

Lemma events_all l c :
  pe_raw_send_events (mc_events (record_all l c)) = pe_raw_send_events (mc_events c) ++ map send_event_of (omap sent_of l).
Proof.
  apply (record_all_ind (fun l c' => pe_raw_send_events (mc_events c') = _ ++ map send_event_of (omap sent_of l))).
  - by rewrite app_nil_r.
  - intros l' m c' IH. rewrite events_message, IH, omap_app, map_app, app_assoc. simpl. by destruct (sent_of m).
Qed.
Lemma skipped_all base l c : truthful base l -> fa_skipped (mc_frames (record_all l c)) = fa_skipped (mc_frames c).
Proof.
  induction l as [|m l IH] using rev_ind; [done|]. rewrite truthful_snoc, record_all_app. intros [Hl Hm].
  cbn [record_all foldl]. by rewrite (skipped_message _ _ _ _ Hm), (IH Hl).
Qed.
(** Every track packet carries a millisecond, so that counting them does not
    saturate. *)
Lemma tracks_few base l : Forall (exact base) l -> zlen l <= media_ms l.
Proof.
  intros H. induction H as [|s l (o & ms & p & Hx) Hl IH]; [done|].
  rewrite (media_ms_cons _ _ _ _ _ _ Hx). apply xs_bounds in Hx. unfold zlen in *. simpl length. lia.
Qed.
Lemma packets_all base l c :
  truthful base l -> pk_track_packet_count (mc_packets c) = 0 ->
  pk_track_packet_count (mc_packets (record_all l c)) = zlen (tracks_of (playback l)).
Proof.
  intros Ht H0. induction l as [|m l IH] using rev_ind; [done|]. pose proof (sound_all _ _ Ht) as [Hx _ Hm _ _].
  apply truthful_snoc in Ht as [Hl Hm']. specialize (IH Hl). apply tracks_few in Hx.
  rewrite record_all_app, playback_snoc in *. cbn [record_all foldl]. rewrite packets_message, IH.
  unfold playback_step in *. destruct m as [[ | | | | | | | | | | | | | |s| | | | | | |[]] now]; cbn [fst snd] in *; try done.
  destruct (sm_is_track s); [|done]. change (mkPlayback _ _ _ _) with (extended (playback l) s) in *.
  rewrite extended_tracks, zlen_app in *. change (zlen [s]) with 1 in *.
  apply sat_add_exact. unfold usize_max, u64_max. unfold zlen in *. lia.
Qed.

(** ** What the validator reads *)

(** A send event as the validator receives it. *)
Definition received (base : Z) (s : SenderSentMetric) : TwPlaybackSendEventSnapshot :=
  TwPlaybackSendEventSnapshot_from (map_raw_send_event (send_event_snapshot base (send_event_of s))).

(** The state of the validator's loop after the events of a playback. *)
Record looped (base : Z) (label : string) (r : Playback) (s : V.RawLoop) : Prop := {
  lo_segments : (V.rl_segments s, V.rl_current_segment s) =
    if pb_silence r then (raws base (closed r), []) else (raws base (pb_done r), map (raw_of base) (pb_current r));
  lo_tracks : V.rl_all_tracks s = map (raw_of base) (tracks_of r);
  lo_count : V.rl_track_packet_count s = zlen (tracks_of r);
  lo_media : V.rl_track_media_duration_sent_us s = 1000 * media_ms (tracks_of r);
  lo_reaches : forall t, last (tracks_of r) = Some t -> position_of t + sm_duration_samples t = 48 * media_ms (tracks_of r);
  lo_positions : V.for_each (V.check_source_position label) (windows 2 (map (raw_of base) (tracks_of r))) = Ok tt;
}.

Lemma raws_closed base r : raws base (closed r) = V.finish_track_segment (raws base (pb_done r)) (map (raw_of base) (pb_current r)).
Proof.
  unfold closed, V.finish_track_segment. destruct (pb_current r) as [|s l]; [done|].
  rewrite !bool_decide_false by done. by rewrite raws_snoc.
Qed.
(** Where the collector and the validator extend the same stretch. *)
Lemma looped_extends base label r s :
  looped base label r s -> pb_current r = [] \/ pb_reset r = pb_silence r ->
  V.rl_segments s = raws base (pb_done (cut r)) /\ V.rl_current_segment s = map (raw_of base) (live r).
Proof.
  intros [H _ _ _ _ _] Hr. unfold live, cut, closed in *. destruct (pb_silence r), (pb_reset r); cbn in *;
    injection H as H1 H2; destruct Hr as [E|E]; try done; rewrite ?E in *; split; done.
Qed.
(** Packets that are not of the track end the stretch. *)
Lemma looped_silence base label r s n :
  looped base label r s ->
  looped base label (mkPlayback (pb_done r) (pb_current r) (pb_reset r) true)
    (V.mkRawLoop (V.finish_track_segment (V.rl_segments s) (V.rl_current_segment s)) [] (V.rl_all_tracks s)
       (V.rl_track_packet_count s) (V.rl_track_media_duration_sent_us s) n).
Proof.
  intros [H1 H2 H3 H4 H5 H6]. split; try done. cbn [V.rl_segments V.rl_current_segment pb_silence pb_done pb_current].
  f_equal. change (closed (mkPlayback _ _ _ _)) with (closed r). rewrite raws_closed.
  destruct (pb_silence r); injection H1 as -> ->; [|done]. by rewrite raws_closed.
Qed.
(** A reset is not a send. *)
Lemma looped_reset base label r s reset :
  looped base label r s -> looped base label (mkPlayback (pb_done r) (pb_current r) reset (pb_silence r)) s.
Proof. by intros []. Qed.

Lemma for_each_app {A} (f : A -> anyhow unit) l l' :
  V.for_each f l = Ok tt -> V.for_each f (l ++ l') = V.for_each f l'.
Proof. induction l as [|a l IH]; [done|]. simpl. destruct (f a) as [[]| |]; [by apply IH|done|done]. Qed.
Lemma received_track base s label :
  is_Some (sm_media_frame s) -> V.track_of (received base s) label = Ok (raw_of base s).
Proof. intros [mf Hmf]. unfold V.track_of, received, raw_of, position_of. cbn. by rewrite Hmf. Qed.

Lemma positions_extended base label r s o ms :
  (forall t, last (tracks_of r) = Some t -> position_of t + sm_duration_samples t = 48 * media_ms (tracks_of r)) ->
  media_ms (tracks_of r) <= 2 ^ 40 -> 0 <= media_ms (tracks_of r) ->
  V.for_each (V.check_source_position label) (windows 2 (map (raw_of base) (tracks_of r))) = Ok tt ->
  exact_send base s o ms (media_ms (tracks_of r)) ->
  V.for_each (V.check_source_position label) (windows 2 (map (raw_of base) (tracks_of r ++ [s]))) = Ok tt.
Proof.
  intros Hr Hm H0 Hp Hx. rewrite map_app. cbn [map]. rewrite windows_snoc by lia. rewrite (for_each_app _ _ _ Hp).
  destruct (tracks_of r) as [|t l _] using rev_ind; [done|]. rewrite map_app, !length_app. simpl length.
  replace (_ <? 2)%nat with false by (symmetry; apply Nat.ltb_ge; lia).
  rewrite <- app_assoc. replace (_ - 2)%nat with (length (map (raw_of base) l)) by lia.
  rewrite drop_app_length. cbn [V.for_each app map]. specialize (Hr t (last_snoc _ _)).
  destruct (exact_values _ _ _ _ _ Hx) as (_ & _ & _ & _ & Hpos & _). unfold V.check_source_position.
  change (V.rs_media_position_samples (raw_of base t)) with (position_of t) in *.
  change (V.rs_duration_samples (raw_of base t)) with (sm_duration_samples t) in *. rewrite Hpos.
  unfold sat_add. rewrite Hr. change (V.samples_from_duration_ms _) with 48. cbv zeta.
  assert (E : Z.min u64_max (48 * media_ms (l ++ [t])) = 48 * media_ms (l ++ [t])) by (unfold u64_max; lia). rewrite E.
  rewrite (proj2 (Z.ltb_ge _ _)) by lia. cbn [bail_if mbind result_bind].
  rewrite (proj2 (Z.ltb_ge _ _)) by (unfold u64_max; lia). done.
Qed.

Lemma looped_track base label r s st o ms :
  looped base label r st -> sound base r -> sm_kind s = KTrack ->
  pb_current r = [] \/ pb_reset r = pb_silence r -> exact_send base s o ms (media_ms (tracks_of r)) ->
  exists st', V.raw_event label st (received base s) = Ok st' /\ looped base label (extended r s) st'.
Proof.
  intros Hl Hs Hk Hr Hx. destruct (looped_extends _ _ _ _ Hl Hr) as [E1 E2]. destruct Hl as [_ L1 L2 L3 L4 L5].
  pose proof (so_media _ _ Hs). pose proof (tracks_few _ _ (so_exact _ _ Hs)) as Hf.
  pose proof (media_ms_nonneg _ _ (so_exact _ _ Hs)).
  pose proof (xs_position _ _ _ _ _ Hx) as (mf & Hmf & Hpos). pose proof (xs_bounds _ _ _ _ _ Hx) as Hb.
  destruct (exact_values _ _ _ _ _ Hx) as (_ & _ & _ & Hd & _).
  eexists. split.
  - unfold V.raw_event. replace (twe_command_kind (received base s)) with TC_Track by (unfold received; cbn; by rewrite Hk).
    rewrite (received_track _ _ _ (mk_is_Some _ _ Hmf)). reflexivity.
  - split; cbn [V.rl_segments V.rl_current_segment V.rl_all_tracks V.rl_track_packet_count
      V.rl_track_media_duration_sent_us]; rewrite ?extended_tracks.
    + cbn [extended pb_silence pb_done pb_current]. by rewrite E1, E2, map_app.
    + by rewrite L1, map_app.
    + rewrite L2, zlen_app. apply sat_add_exact. unfold zlen, u64_max in *. simpl length. lia.
    + rewrite L3, Hd, media_ms_snoc, (exact_ms _ _ _ _ _ Hx), sat_add_exact; [lia|]. unfold u64_max. lia.
    + intros t. rewrite last_snoc. intros [= <-]. rewrite media_ms_snoc, (exact_ms _ _ _ _ _ Hx).
      unfold position_of. rewrite Hmf, (xs_samples _ _ _ _ _ Hx). simpl. rewrite Hpos. lia.
    + by apply (positions_extended base label r s o ms).
Qed.
Lemma looped_message base label r m st :
  looped base label r st -> sound base r -> admissible base r m ->
  exists st', V.raw_events label st (match sent_of m with Some s => [received base s] | None => [] end) = Ok st' /\
    looped base label (playback_step r m) st'.
Proof.
  intros Hl Hs Hm. unfold admissible, playback_step in *.
  destruct m as [[ | | | | | | | | | | | | | |s| | | | | | |[]] now]; cbn [sent_of fst] in *;
    try (exists st; split; [done|first [exact Hl|by apply looped_reset]]).
  destruct (sm_is_track s).
  - destruct Hm as (Hk & Hr & (o & ms & Hx) & _).
    destruct (looped_track _ _ _ _ _ _ _ Hl Hs Hk Hr Hx) as (st' & E & Hl'). exists st'. simpl. by rewrite E.
  - unfold V.raw_events, V.raw_event, received. cbn. destruct (sm_kind s); [done| |];
      (eexists; split; [reflexivity|by apply looped_silence]).
Qed.
Lemma raw_events_app label st a b : V.raw_events label st (a ++ b) = (st' ← V.raw_events label st a; V.raw_events label st' b).
Proof.
  induction a as [|e a IH] in st |- *; [done|]. simpl. destruct (V.raw_event label st e) as [st'| |]; [|done|done]. apply IH.
Qed.
Lemma looped_all base label l :
  truthful base l ->
  exists st, V.raw_events label V.RawLoop_start (map (received base) (omap sent_of l)) = Ok st /\ looped base label (playback l) st.
Proof.
  induction l as [|m l IH] using rev_ind.
  - intros _. exists V.RawLoop_start. split; [done|]. by split.
  - intros [Hl Hm]%truthful_snoc. destruct (IH Hl) as (st & E & Hst).
    destruct (looped_message base label (playback l) m st) as (st' & E' & Hst'); [done|by apply sound_all|done|].
    exists st'. rewrite playback_snoc. split; [|done]. rewrite omap_app, map_app, raw_events_app, E. simpl.
    by destruct (sent_of m).
Qed.

(** *** The wall clock *)

Lemma segment_wall base l acc :
  Forall (exact base) l -> in_order (map sent_tick l) -> 0 <= acc -> 1000 * acc + span (map sent_tick l) <= 1000 * u64_max ->
  1000 * V.segment_wall_clock acc (map (raw_of base) l) = 1000 * acc + span (map sent_tick l).
Proof.
  intros Hx Ho Ha Hb. unfold V.segment_wall_clock. destruct l as [|f l]; [unfold span; simpl; lia|].
  destruct (last (f :: l)) as [t|] eqn:E; [|by apply last_None in E].
  assert (Ht : t ∈ f :: l) by by apply last_Some_elem_of.
  pose proof (proj1 (Forall_forall _ _) Hx f ltac:(left)) as (o1 & m1 & p1 & H1).
  pose proof (proj1 (Forall_forall _ _) Hx t Ht) as (o2 & m2 & p2 & H2).
  pose proof (span_sat _ (sent_tick f) (sent_tick t) Ho eq_refl ltac:(by rewrite fmap_last, E)) as Hsp.
  pose proof (in_order_head_last _ (sent_tick f) (sent_tick t) Ho eq_refl ltac:(by rewrite fmap_last, E)) as Hle.
  destruct (exact_values _ _ _ _ _ H1) as (_ & T1 & O1 & _). destruct (exact_values _ _ _ _ _ H2) as (_ & T2 & O2 & D2 & _).
  set (elapsed := span (map sent_tick (f :: l))) in *. clearbody elapsed.
  rewrite !fmap_last, E. cbn [head map fmap option_fmap option_map]. rewrite T1, T2 in Hsp, Hle. cbn [tk_at tk_duration] in *. apply xs_bounds in H1, H2.
  rewrite O1, O2, D2. rewrite sat_sub_exact in Hsp by lia. rewrite (sat_sub_exact o2) by lia.
  rewrite (sat_add_exact _ acc) by lia. rewrite sat_add_exact by lia. lia.
Qed.
Lemma segments_wall base st acc :
  Forall (Forall (exact base)) st -> Forall in_order (sent_ticks st) -> 0 <= acc ->
  1000 * acc + sum_by span (sent_ticks st) <= 1000 * u64_max ->
  1000 * foldl V.segment_wall_clock acc (raws base st) = 1000 * acc + sum_by span (sent_ticks st).
Proof.
  intros Hx. induction Hx as [|l st Hl Hx IH] in acc |- *; intros Ho Ha Hb; [change (sent_ticks []) with (@nil (list Tick)); rewrite sum_by_nil; simpl; lia|].
  unfold sent_ticks, raws in *. cbn [map foldl] in *. apply Forall_cons in Ho as [Hol Ho].
  rewrite sum_by_cons in *. pose proof (span_nonneg _ Hol).
  assert (0 <= sum_by span (map (map sent_tick) st)).
  { apply sum_by_nonneg. intros w Hw. eapply Forall_forall in Ho; [|done]. by apply span_nonneg. }
  pose proof (segment_wall base l acc Hl Hol Ha ltac:(lia)) as Hw.
  rewrite IH; lia || done.
Qed.
Lemma stretches_exact base r : sound base r -> Forall (Forall (exact base)) (stretches_of r).
Proof.
  intros [Hx _ _ _ _]. unfold stretches_of, tracks_of in *. apply Forall_app in Hx as [Hd Hc].
  apply Forall_app. split; [by apply Forall_concat|]. by repeat constructor.
Qed.
(** An empty last stretch does not count. *)
Lemma closed_stretches base r :
  foldl V.segment_wall_clock 0 (raws base (closed r)) = foldl V.segment_wall_clock 0 (raws base (stretches_of r)) /\
  tempo_fold (raws base (closed r)) = tempo_fold (raws base (stretches_of r)) /\
  fast_fold (raws base (closed r)) = fast_fold (raws base (stretches_of r)).
Proof.
  unfold closed, stretches_of. case_bool_decide as E; [|done]. rewrite E, raws_snoc. cbn [map].
  destruct (folds_nil (raws base (pb_done r))) as [-> ->]. by rewrite foldl_snoc.
Qed.

(** ** Agreement *)

(** The published metrics of a collector as the validator receives them. *)
Definition published `{UnstableSort} (g d r : Z) (ended : bool) (c : Collector) : TwPlaybackStabilitySnapshot :=
  TwPlaybackStabilitySnapshot_from (map_published_snapshot (snapshot g d r ended c)).

Lemma ppm_same x : V.ppm_matches_with_tolerance x x = true.
Proof. unfold V.ppm_matches_with_tolerance. by rewrite Z.sub_diag. Qed.
(** Equal aggregates pass the comparison. *)
Lemma compare_equal re m label :
  V.rr_track_packet_count re = twm_track_packet_count m ->
  V.rr_track_media_duration_sent_ms re = twm_track_media_duration_sent_ms m ->
  V.rr_track_wall_clock_elapsed_ms re = twm_track_wall_clock_elapsed_ms m ->
  V.rr_track_media_to_wall_clock_ratio_ppm re = twm_track_media_to_wall_clock_ratio_ppm m ->
  V.rr_intervals re = V.mkRecomputedIntervals (twm_track_fast_interval_count m) (twm_track_fast_interval_min_us m) ->
  V.rr_tempo re = V.mkRecomputedTempo (twm_track_tempo_window_count m) (twm_track_tempo_window_post_source_buffer_count m)
    (twm_track_tempo_window_min_ratio_ppm m) (twm_track_tempo_window_max_ratio_ppm m)
    (twm_track_tempo_window_fast_count m) (twm_track_tempo_window_slow_count m) ->
  V.rr_skipped_source_frame_count re = twm_skipped_source_frame_count m ->
  V.rr_skipped_source_duration_ms re = twm_skipped_source_duration_ms m ->
  V.rr_skipped_source_duration_samples re = twm_skipped_source_duration_samples m ->
  V.compare_recomputed re m label = Ok tt.
Proof.
  intros E1 E2 E3 E4 E5 E6 E7 E8 E9. unfold V.compare_recomputed, V.tempo_disagrees.
  rewrite E1, E2, E3, E4, E5, E6, E7, E8, E9.
  cbn [V.ri_fast_interval_count V.ri_fast_interval_min_us V.rt_window_count V.rt_post_source_buffer_count
    V.rt_min_ratio_ppm V.rt_max_ratio_ppm V.rt_fast_count V.rt_slow_count].
  rewrite !Z.eqb_refl, !ppm_same. done.
Qed.

Lemma received_events base l :
  (forall s, head (omap sent_of l) = Some s -> sm_expected_deadline s = base) ->
  map TwPlaybackSendEventSnapshot_from (map map_raw_send_event (playback_send_event_snapshots (map send_event_of (omap sent_of l))))
    = map (received base) (omap sent_of l).
Proof.
  intros Hb. destruct (omap sent_of l) as [|s k]; [done|]. specialize (Hb s eq_refl).
  unfold playback_send_event_snapshots. cbn [map]. change (er_expected_deadline (send_event_of s)) with (sm_expected_deadline s).
  rewrite Hb. rewrite !map_map. done.
Qed.

(** The time on air does not saturate. *)
Lemma air_bounded base r : sound base r -> sum_by span (sent_ticks (stretches_of r)) <= 1000 * u64_max.
Proof.
  intros Hs. pose proof (so_span _ _ Hs) as Hsp. pose proof (so_media _ _ Hs). unfold since in Hsp.
  destruct (last (tracks_of r)) as [s|] eqn:E; [|unfold u64_max; lia].
  apply last_Some_elem_of in E. pose proof (proj1 (Forall_forall _ _) (so_exact _ _ Hs) s E) as (o & ms & p & Hx).
  pose proof (xs_start _ _ _ _ _ Hx). apply xs_bounds in Hx. unfold u64_max. lia.
Qed.
(** What the validator recomputes from the events of a truthful sender. *)
Lemma recompute_truthful base label l m :
  truthful base l -> twm_raw_send_events m = map (received base) (omap sent_of l) ->
  let r := playback l in
  exists segments boundary wall,
    1000 * wall = sum_by span (sent_ticks (stretches_of r)) /\
    V.recompute_raw_playback m label =
      Ok (V.mkRecomputed segments (zlen (tracks_of r)) (1000 * media_ms (tracks_of r)) (media_ms (tracks_of r))
            (wall / 1000) (V.ratio_ppm_us (1000 * media_ms (tracks_of r)) wall) (fast_fold (raws base (stretches_of r)))
            (tempo_fold (raws base (stretches_of r))) 0 0 0 boundary).
Proof.
  intros Ht He r. pose proof (sound_all _ _ Ht) as Hs. fold r in Hs.
  destruct (looped_all base label l Ht) as (st & Hst & [L1 L2 L3 L4 _ L6]). fold r in L1, L2, L3, L4, L6.
  assert (Hseg : V.finish_track_segment (V.rl_segments st) (V.rl_current_segment st) = raws base (closed r)).
  { rewrite raws_closed. destruct (pb_silence r); injection L1 as -> ->; [|done]. by rewrite raws_closed. }
  pose proof (closed_stretches base r) as (W1 & W2 & W3). pose proof (air_bounded _ _ Hs).
  pose proof (segments_wall base _ 0 (stretches_exact _ _ Hs) (so_order _ _ Hs) ltac:(lia) ltac:(lia)) as Hwall.
  rewrite <- W1 in Hwall. rewrite <- W2, <- W3.
  exists (zlen (raws base (closed r))), (V.rl_boundary_silence st), (foldl V.segment_wall_clock 0 (raws base (closed r))).
  split; [exact Hwall|]. unfold V.recompute_raw_playback. rewrite He, Hst. cbn [mbind result_bind].
  rewrite L2, L6, Hseg, L3, L4. cbn [mbind result_bind]. rewrite (Z.mul_comm 1000), Z.div_mul by lia. done.
Qed.


(** ** Samples *)

Module Samples.

Import MetricsSpecs.Sample.

(** A packet sent [started] ns after the first deadline. *)
Definition sent (index : Z) (kind : PreparedPacketKind) (started position_ms : Z) : message :=
  let track := bool_decide (kind = KTrack) in
  (SenderSent (mkSenderSent index kind 20 960 track 5000 (5000 + started) (5000 + started) 0 index (960 * index)
     (Some index)
     (if track then Some (mkPreparedMediaFrame 20 960 position_ms (48 * position_ms) None 1) else None)
     0 (mkDrain 0 0 0) false false depth depth), 0).

(** Two packets 15 ms apart, a pause with a packet of silence, one more. *)
Definition paused_playback : list message :=
  [(SenderStarted depth, 0); sent 0 KTrack 0 0; sent 1 KTrack 15000000 20; sent 2 BoundarySilence 35000000 0;
   (SenderResumedFromPause, 0); sent 3 KTrack 95000000 40; (EgressDepth depth, 0)].

(** A track packet of the sample. *)
Lemma sample_track l index started position_ms offset_us :
  started = 1000 * offset_us -> 0 <= offset_us <= 2 ^ 50 -> 0 <= position_ms <= 2 ^ 30 ->
  media_ms (tracks_of (playback l)) = position_ms ->
  (pb_current (playback l) = [] \/ pb_reset (playback l) = pb_silence (playback l)) ->
  (forall t, last (pb_current (playback l)) = Some t -> sm_send_started_at t < 5000 + started) ->
  admissible 5000 (playback l) (sent index KTrack started position_ms).
Proof.
  intros -> Ho Hp Hm Hr Hlt. unfold admissible. cbn. split_and!; [done|done| |done].
  exists offset_us, 20. rewrite Hm. split; cbn; [done|done|by eexists|lia].
Qed.
Lemma paused_playback_truthful : truthful 5000 paused_playback.
Proof.
  unfold paused_playback.
  change [_; _; _; _; _; _; _] with
    ([] ++ [(SenderStarted depth, 0)] ++ [sent 0 KTrack 0 0] ++ [sent 1 KTrack 15000000 20] ++
     [sent 2 BoundarySilence 35000000 0] ++ [(SenderResumedFromPause, 0)] ++ [sent 3 KTrack 95000000 40] ++ [(EgressDepth depth, 0)]).
  rewrite !app_assoc. rewrite !truthful_snoc. split_and!; try done.
  - apply (sample_track _ 0 0 0 0); [lia|lia|lia|reflexivity|by left|done].
  - apply (sample_track _ 1 15000000 20 15000); [lia|lia|lia|reflexivity|by right|]. intros t [= <-]. reflexivity.
  - apply (sample_track _ 3 95000000 40 95000); [lia|lia|lia|reflexivity|by right|]. intros t [= <-]. reflexivity.
Qed.


(** The microseconds matter: two packets sent 999 ns and 21 ms after the
    deadline are on air for 40.999 ms, which the collector publishes as 40 ms,
    while the validator, which sees whole microseconds, recomputes 41 ms and
    rejects the playback, although each side is right to its precision. *)
Theorem rounding_rejects_healthy_playback label :
  let m := published 0 0 0 true (record_all [sent 0 KTrack 999 0; sent 1 KTrack 21000000 20] fresh_collector) in
  twm_track_wall_clock_elapsed_ms m = 40 /\
  exists re, V.recompute_raw_playback m label = Ok re /\ V.rr_track_wall_clock_elapsed_ms re = 41 /\
    V.compare_recomputed re m label =
      bail "{} track_wall_clock_elapsed_ms was {}; raw send events recomputed {}" [Text label; Num 40; Num 41].
Proof.
  cbv zeta. split; [vm_compute; reflexivity|]. eexists. split; [vm_compute; reflexivity|].
  split; [reflexivity|vm_compute; reflexivity].
Qed.

End Samples.
