(* ===== verification/EvidenceSpecs.v ===== *)
(** * What the evidence of an accepted playback says

    The validator of a live run checks the raw send events of a playback one by
    one, with what it remembers of the previous ones, and replays the events of
    the prepared playout queue. Here its checks are compared with what they say
    of the whole list, and its replay with the counters of the collector. *)

From S2P Require Import Prelude Anyhow OpusQueue HttpStream Recovery DeadlineSender Egress Metrics MetricsSpecs.
From S2P Require Import ControlProto MetricsTransport.
From S2P Require PlaybackValidator.
From stdpp Require Import prelude strings sorting.
Open Scope Z_scope.

Module E := PlaybackValidator.

(** ** Raw send events *)

(** One event by itself: its place, that it ends after it starts, and that
    exactly the packets of the track carry a source frame that was heard. *)
Record event_ok (index : Z) (e : TwPlaybackSendEventSnapshot) : Prop := {
  eo_index : twe_packet_index e = index;
  eo_kind : twe_command_kind e <> TC_Unspecified;
  eo_sent : twe_send_started_offset_us e <= twe_sent_offset_us e;
  eo_heard : twe_committed_heard_media e = true <-> twe_command_kind e = TC_Track;
  eo_source : twe_command_kind e = TC_Track ->
    is_Some (twe_source_frame_epoch e) /\ is_Some (twe_source_media_position_ms e) /\
    is_Some (twe_source_media_position_samples e) /\ twe_media_duration_samples e <> 0;
}.
(** One event after another: the RTP sequence is the next, the timestamp has
    advanced by the duration sent, and the time has not gone back. *)
Record event_follows (a b : TwPlaybackSendEventSnapshot) : Prop := {
  ef_time : twe_sent_offset_us a <= twe_sent_offset_us b;
  ef_sequence : twe_rtp_sequence b = (twe_rtp_sequence a + 1) mod 2 ^ 16;
  ef_timestamp : twe_rtp_timestamp b = (twe_rtp_timestamp a + twe_media_duration_samples a) mod 2 ^ 32;
}.
Record wire_ordered (events : list TwPlaybackSendEventSnapshot) : Prop := {
  wo_events : forall i e, events !! i = Some e -> event_ok (Z.of_nat i) e;
  wo_follows : forall i a b, events !! i = Some a -> events !! S i = Some b -> event_follows a b;
  wo_nonces : forall i j a b n n', (i < j)%nat -> events !! i = Some a -> events !! j = Some b ->
    twe_protection_nonce a = Some n -> twe_protection_nonce b = Some n' -> n < n';
}.

(** What is remembered after an event. *)
Definition remembered (s : E.SendOrder) (e : TwPlaybackSendEventSnapshot) : E.SendOrder :=
  E.mkSendOrder (Some (twe_sent_offset_us e))
    (Some (twe_rtp_sequence e, twe_rtp_timestamp e, twe_media_duration_samples e))
    (match twe_protection_nonce e with Some nonce => Some nonce | None => E.so_previous_nonce s end).
(** An event against what is remembered. *)
Definition after_memory (s : E.SendOrder) (e : TwPlaybackSendEventSnapshot) : Prop :=
  (forall t, E.so_previous_sent_offset s = Some t -> t <= twe_sent_offset_us e) /\
  (forall q t d, E.so_previous_rtp s = Some (q, t, d) ->
     twe_rtp_sequence e = (q + 1) mod 2 ^ 16 /\ twe_rtp_timestamp e = (t + d) mod 2 ^ 32) /\
  (forall n n', E.so_previous_nonce s = Some n -> twe_protection_nonce e = Some n' -> n < n').

Lemma none_or_some {A} `{!EqDecision A} (o : option A) : bool_decide (o = None) = false <-> is_Some o.
Proof. destruct o; case_bool_decide; split; try done; intros; by eexists. Qed.
Lemma check_heard_Ok label index e u :
  E.check_heard label index e = Ok u <->
  (twe_committed_heard_media e = true <-> twe_command_kind e = TC_Track) /\
  (twe_command_kind e = TC_Track ->
    is_Some (twe_source_frame_epoch e) /\ is_Some (twe_source_media_position_ms e) /\
    is_Some (twe_source_media_position_samples e) /\ twe_media_duration_samples e <> 0).
Proof.
  unfold E.check_heard. case_bool_decide as E.
  - rewrite !bail_if_then, bail_if_Ok, negb_false_iff, !orb_false_iff, !none_or_some, Z.eqb_neq. tauto.
  - rewrite bail_if_Ok. destruct (twe_committed_heard_media e); split; intros H; try done.
    by destruct H as [[H%E _] _].
Qed.
Lemma check_rtp_Ok label index previous e u :
  E.check_rtp label index previous e = Ok u <->
  (forall q t d, previous = Some (q, t, d) ->
     twe_rtp_sequence e = (q + 1) mod 2 ^ 16 /\ twe_rtp_timestamp e = (t + d) mod 2 ^ 32).
Proof.
  unfold E.check_rtp. destruct previous as [[[q t] d]|]; [|destruct u; by split; try done].
  rewrite bail_if_then, bail_if_Ok, !negb_false_iff, !Z.eqb_eq.
  change 0xffff with (Z.ones 16). rewrite Z.land_ones by lia. unfold wrapping_add, wrap.
  split; [by intros H q' t' d' [= <- <- <-]|]. intros H. by apply H.
Qed.
Lemma check_nonce_Ok label index previous e u :
  E.check_nonce label index previous e = Ok u <->
  (forall n n', previous = Some n -> twe_protection_nonce e = Some n' -> n < n').
Proof.
  unfold E.check_nonce. destruct (twe_protection_nonce e) as [n'|], previous as [n|];
    try (destruct u; split; [|done]; naive_solver).
  rewrite bail_if_Ok, Z.leb_gt. split; [by intros H ? ? [= <-] [= <-]|]. intros H. by apply H.
Qed.
Lemma is_some_and_false (o : option Z) t : E.is_some_and o (fun p => t <? p) = false <-> forall p, o = Some p -> p <= t.
Proof.
  destruct o as [p|]; simpl; [rewrite Z.ltb_ge|by split]. split; [by intros H ? [= <-]|]. intros H. by apply H.
Qed.
Lemma unit_bind {B} (m : anyhow unit) (f : anyhow B) b : (_ ← m; f) = Ok b <-> m = Ok tt /\ f = Ok b.
Proof. rewrite bind_Ok. split; [by intros ([] & H1 & H2)|]. intros [H1 H2]. by exists tt. Qed.
Lemma check_send_event_Ok label index s e s' :
  E.check_send_event label index s e = Ok s' <-> event_ok index e /\ after_memory s e /\ s' = remembered s e.
Proof.
  unfold E.check_send_event, after_memory. rewrite !bail_if_then, negb_false_iff, Z.eqb_eq, bool_decide_eq_false, Z.ltb_ge,
    is_some_and_false, !unit_bind, check_rtp_Ok, check_nonce_Ok, check_heard_Ok.
  split.
  - intros (H1 & H2 & H3 & H4 & H5 & H6 & [H7 H8] & [= <-]). split; [by split|]. by split_and!.
  - intros ([H1 H2 H3 H7 H8] & (H4 & H5 & H6) & ->). by split_and!.
Qed.

(** The whole list, from what is remembered. *)
Fixpoint chained (index : Z) (s : E.SendOrder) (events : list TwPlaybackSendEventSnapshot) : Prop :=
  match events with
  | [] => True
  | e :: events => event_ok index e /\ after_memory s e /\ chained (index + 1) (remembered s e) events
  end.
Lemma check_send_events_chained label events index s :
  E.check_send_events label index s events = Ok tt <-> chained index s events.
Proof.
  induction events as [|e events IH] in index, s |- *; [done|]. simpl. rewrite bind_Ok. split.
  - intros (s' & (H1 & H2 & ->)%check_send_event_Ok & H). rewrite <- IH. done.
  - intros (H1 & H2 & H). exists (remembered s e). split; [by apply check_send_event_Ok|by apply IH].
Qed.

(** What the memory of a start says of the events: the first one follows it,
    and every nonce is above the remembered one. *)
Definition starts_after (s : E.SendOrder) (events : list TwPlaybackSendEventSnapshot) : Prop :=
  (forall e, head events = Some e -> after_memory (E.mkSendOrder (E.so_previous_sent_offset s) (E.so_previous_rtp s) None) e) /\
  (forall n n' i e, E.so_previous_nonce s = Some n -> events !! i = Some e -> twe_protection_nonce e = Some n' -> n < n').
Record ordered_from (index : Z) (events : list TwPlaybackSendEventSnapshot) : Prop := {
  of_events : forall i e, events !! i = Some e -> event_ok (index + Z.of_nat i) e;
  of_follows : forall i a b, events !! i = Some a -> events !! S i = Some b -> event_follows a b;
  of_nonces : forall i j a b n n', (i < j)%nat -> events !! i = Some a -> events !! j = Some b ->
    twe_protection_nonce a = Some n -> twe_protection_nonce b = Some n' -> n < n';
}.
Lemma follows_remembered s a b :
  event_follows a b <-> after_memory (E.mkSendOrder (E.so_previous_sent_offset (remembered s a)) (E.so_previous_rtp (remembered s a)) None) b.
Proof.
  unfold after_memory. simpl. split.
  - intros [H1 H2 H3]. split_and!; [by intros t [= <-]|by intros q t d [= <- <- <-]|done].
  - intros (H1 & H2 & _). destruct (H2 _ _ _ eq_refl). split; [by apply H1|done|done].
Qed.
Lemma chained_ordered events index s :
  chained index s events <-> ordered_from index events /\ starts_after s events.
Proof.
  induction events as [|e events IH] in index, s |- *.
  - split; [|done]. intros _. split; [by split|]. by split.
  - simpl chained. rewrite IH. split.
    + intros (H1 & H2 & [O1 O2 O3] & S1 & S2). split.
      * split.
        -- intros [|i] x; simpl; [intros [= <-]; by rewrite Z.add_0_r|]. intros Hx.
           replace (index + Z.of_nat (S i)) with (index + 1 + Z.of_nat i) by lia. by apply O1.
        -- intros [|i] a b; simpl; [|apply O2]. intros [= <-] Hb. apply (follows_remembered s). apply S1. by rewrite head_lookup.
        -- intros [|i] [|j] a b n n' Hij; simpl; try lia; [|apply O3; lia]. intros [= <-] Hb Hn Hn'.
           apply (S2 n n' j b); [|done|done]. simpl. by rewrite Hn.
      * split; [intros x [= <-]; destruct H2 as (A1 & A2 & _); by split_and!|].
        intros n n' [|i] x Hn; simpl; [intros [= <-] Hn'; by apply (proj2 (proj2 H2) n n')|]. intros Hx Hn'.
        destruct (twe_protection_nonce e) as [k|] eqn:Ek.
        -- specialize (S2 k n' i x). simpl in S2. rewrite Ek in S2. pose proof (proj2 (proj2 H2) n k Hn Ek).
           specialize (S2 eq_refl Hx Hn'). lia.
        -- apply (S2 n n' i x); [|done|done]. simpl. by rewrite Ek.
    + intros ([O1 O2 O3] & S1 & S2). split_and!.
      * specialize (O1 0%nat e eq_refl). by rewrite Z.add_0_r in O1.
      * destruct (S1 e eq_refl) as (A1 & A2 & _). split_and!; [done|done|]. intros n n' Hn Hn'. by apply (S2 n n' 0%nat e).
      * split.
        -- intros i x Hx. replace (index + 1 + Z.of_nat i) with (index + Z.of_nat (S i)) by lia. by apply O1.
        -- intros i a b. apply (O2 (S i)).
        -- intros i j a b n n' Hij. apply (O3 (S i) (S j)). lia.
      * split; [intros x Hx; apply follows_remembered, (O2 0%nat); [done|by rewrite head_lookup in Hx]|].
        intros n n' i x. simpl. destruct (twe_protection_nonce e) as [k|] eqn:Ek.
        -- intros [= <-] Hx Hn'. by apply (O3 0%nat (S i) e x k n' ltac:(lia)).
        -- intros Hn Hx Hn'. by apply (S2 n n' (S i) x).
Qed.

(** C20. The order check is exact: the raw send events of a playback pass it if
    and only if they are numbered from 0, each is of a known kind, ends no
    earlier than it starts and marks heard media with a source frame exactly
    when it is a track packet; RTP sequence numbers are consecutive modulo
    2^16 and timestamps advance by the previous packet's samples modulo 2^32;
    completion times never go back; and protection nonces strictly increase
    over the whole playback, packets without one in between included. *)
Theorem accepted_iff_wire_ordered m label :
  E.validate_raw_send_event_order m label = Ok tt <-> wire_ordered (twm_raw_send_events m).
Proof.
  unfold E.validate_raw_send_event_order. rewrite check_send_events_chained, chained_ordered. split.
  - intros ([O1 O2 O3] & _). by split.
  - intros [O1 O2 O3]. split; [by split|]. split; [|done]. intros e _. by split_and!.
Qed.

(** ** The events of the prepared playout queue *)

(** An event as the validator receives it. *)
Definition received_event (e : PreparedPlayoutQueueEventSnapshot) : TwPreparedPlayoutQueueEventSnapshot :=
  TwPreparedPlayoutQueueEventSnapshot_from (map_raw_prepared_playout_queue_event e).
Definition received_identity (i : PreparedPlayoutTrackDropIdentity) : E.PreparedPlayoutTrackDropIdentity :=
  E.mkDropIdentity (TQR_from_raw (QR_as_i32 (map_prepared_playout_queue_event_reason (di_reason i))))
    (di_media_duration_samples i) (di_source_frame_epoch i) (di_source_media_position_samples i)
    (di_source_media_byte_position i).

#[local] Instance received_identity_inj : Inj eq eq received_identity.
Proof.
  intros [r1 ? ? ? ?] [r2 ? ? ? ?]. unfold received_identity. simpl. intros [= Hr -> -> -> ->]. f_equal.
  destruct r1, r2; done.
Qed.
Lemma received_remove i l :
  E.remove_first (received_identity i) (map received_identity l) = map received_identity <$> remove_first i l.
Proof.
  induction l as [|j l IH]; [done|]. simpl. rewrite IH.
  destruct (decide (received_identity j = received_identity i)) as [E|E].
  - apply (inj received_identity) in E. by rewrite bool_decide_true.
  - rewrite bool_decide_false; [|by intros ->]. by destruct (remove_first i l).
Qed.
Lemma received_drop_identity e :
  E.prepared_playout_track_drop_identity (received_event e) = received_identity <$> prepared_playout_track_drop_identity e.
Proof.
  unfold E.prepared_playout_track_drop_identity, prepared_playout_track_drop_identity, received_event. cbn.
  destruct (ev_command_kind e); [|done|done|done]. cbn.
  destruct (ev_source_frame_epoch e), (ev_source_media_position_samples e); done.
Qed.
Lemma received_unrecovered e :
  E.prepared_track_drop_counts_as_unrecovered (received_event e) = prepared_track_drop_counts_as_unrecovered e.
Proof. unfold E.prepared_track_drop_counts_as_unrecovered, prepared_track_drop_counts_as_unrecovered. cbn. by destruct (ev_reason e). Qed.

(** The replay of the validator and the counters of the collector. *)
Record mirrors (s : E.Lifecycle) (p : PlayoutEvents) : Prop := {
  mi_count : E.lc_unrecovered_track_drop_count s = pe_prepared_track_packet_drop_count p;
  mi_drops : E.lc_unrecovered_track_drops s = map received_identity (pe_unmatched_prepared_track_drops p);
  mi_silence : E.lc_silence_drop_count s = pe_prepared_silence_packet_drop_count p;
  mi_rebuilt : E.lc_rebuild_count s = pe_prepared_packet_rebuild_count p;
}.
Lemma mirrors_drop e s p :
  mirrors s p -> ev_event_kind e = DroppedBeforeSend -> mirrors (E.lifecycle_event s (received_event e)) (note_drop e p).
Proof.
  intros [H1 H2 H3 H4] Hk. unfold E.lifecycle_event, note_drop.
  replace (twp_event_kind (received_event e)) with TQK_DroppedBeforeSend by (cbn; by rewrite Hk).
  destruct (ev_command_kind e) eqn:Ec; (replace (twp_command_kind (received_event e)) with
    (TC_from_raw (CK_as_i32 (map_send_command_kind (ev_command_kind e)))) by done); rewrite Ec; cbn.
  - unfold E.track_dropped. rewrite received_unrecovered, received_drop_identity.
    destruct (prepared_track_drop_counts_as_unrecovered e); [|by split].
    split; cbn; [by rewrite H1| |done|done]. rewrite H2, map_app. by destruct (prepared_playout_track_drop_identity e).
  - split; cbn; [done|done|by rewrite H3|done].
  - split; cbn; [done|done|by rewrite H3|done].
  - split; cbn; [done|done|by rewrite H3|done].
Qed.
Lemma mirrors_rebuild e s p :
  mirrors s p -> ev_event_kind e = Rebuilt -> mirrors (E.lifecycle_event s (received_event e)) (note_rebuild e p).
Proof.
  intros [H1 H2 H3 H4] Hk. unfold E.lifecycle_event, note_rebuild.
  replace (twp_event_kind (received_event e)) with TQK_Rebuilt by (cbn; by rewrite Hk).
  unfold E.packet_rebuilt. rewrite received_drop_identity, H2.
  destruct (prepared_playout_track_drop_identity e) as [i|]; cbn; [|split; cbn; by rewrite ?H4].
  rewrite received_remove. destruct (remove_first i _); split; cbn; by rewrite ?H1, ?H4.
Qed.
Lemma mirrors_other e s p :
  mirrors s p -> ev_event_kind e <> DroppedBeforeSend -> ev_event_kind e <> Rebuilt ->
  mirrors (E.lifecycle_event s (received_event e)) p.
Proof.
  intros [H1 H2 H3 H4] Hd Hr. unfold E.lifecycle_event, received_event. cbn.
  destruct (ev_event_kind e); try done; cbn; [by destruct (ev_command_kind e)|..];
    destruct (ev_command_kind e); cbn; by split.
Qed.

(** *** The collector's events *)

Definition queue_event_of (m : message) : option PreparedPlayoutQueueEventSnapshot :=
  match m.1 with PreparedPlayoutQueueEvent e => Some e | _ => None end.
(** The collector numbers the events. *)
Fixpoint numbered (index : Z) (l : list PreparedPlayoutQueueEventSnapshot) : list PreparedPlayoutQueueEventSnapshot :=
  match l with
  | [] => []
  | e :: l => with_event_index index e :: numbered (index + 1) l
  end.
Lemma numbered_snoc index l e :
  numbered index (l ++ [e]) = numbered index l ++ [with_event_index (index + Z.of_nat (length l)) e].
Proof.
  induction l as [|x l IH] in index |- *; simpl; [by rewrite Z.add_0_r|]. rewrite IH.
  by replace (index + 1 + Z.of_nat (length l)) with (index + Z.of_nat (S (length l))) by lia.
Qed.
Lemma numbered_length index l : length (numbered index l) = length l.
Proof. induction l as [|e l IH] in index |- *; simpl; [done|]. by rewrite IH. Qed.

(** What the events of the queue change. *)
Definition queue_view (c : Collector) :=
  let p := mc_events c in
  (pe_raw_queue_events p, pe_unmatched_prepared_track_drops p, pe_prepared_track_packet_drop_count p,
   pe_prepared_silence_packet_drop_count p, pe_prepared_packet_rebuild_count p).
Lemma queue_view_other m now c :
  match m with PreparedPlayoutQueueEvent _ => False | _ => True end ->
  queue_view (record_metric m now c) = queue_view c.
Proof. unfold queue_view. destruct m; untouched. Qed.
Record replayed (l : list message) (c : Collector) : Prop := {
  rp_events : pe_raw_queue_events (mc_events c) = numbered 0 (omap queue_event_of l);
  rp_mirrors : mirrors (foldl E.lifecycle_event E.Lifecycle_start (map received_event (numbered 0 (omap queue_event_of l))))
    (mc_events c);
}.
Lemma replayed_same l m c c' :
  queue_event_of m = None -> queue_view c' = queue_view c -> replayed l c -> replayed (l ++ [m]) c'.
Proof.
  intros Hm [= E1 E2 E3 E4 E5] [H1 [M1 M2 M3 M4]].
  assert (E : omap queue_event_of (l ++ [m]) = omap queue_event_of l) by (rewrite omap_app; simpl; by rewrite Hm, app_nil_r).
  split; [by rewrite E, E1|]. split; rewrite E; by rewrite ?E2, ?E3, ?E4, ?E5.
Qed.
Lemma replayed_event l e now c :
  replayed l c -> replayed (l ++ [(PreparedPlayoutQueueEvent e, now)]) (record_metric (PreparedPlayoutQueueEvent e) now c).
Proof.
  intros [H1 H2]. assert (Hn : omap queue_event_of (l ++ [(PreparedPlayoutQueueEvent e, now)]) = omap queue_event_of l ++ [e])
    by by rewrite omap_app.
  set (e' := with_event_index (Z.of_nat (length (pe_raw_queue_events (mc_events c)))) e).
  assert (He : numbered 0 (omap queue_event_of l ++ [e]) = numbered 0 (omap queue_event_of l) ++ [e']).
  { rewrite numbered_snoc. unfold e'. by rewrite H1, numbered_length. }
  split; rewrite Hn, He.
  - rewrite <- H1. cbn. fold e'. unfold note_drop, note_rebuild. repeat case_match; done.
  - rewrite map_app, foldl_app. cbn [map foldl]. set (s := foldl _ _ _) in *. clearbody s.
    set (p := match ev_event_kind e' with DroppedBeforeSend => note_drop e' (mc_events c)
              | Rebuilt => note_rebuild e' (mc_events c) | _ => mc_events c end).
    enough (Hp : mirrors (E.lifecycle_event s (received_event e')) p) by (destruct Hp; by split).
    unfold p. destruct (ev_event_kind e') eqn:Ek;
      first [by apply mirrors_drop|by apply mirrors_rebuild|apply mirrors_other; [done|by rewrite Ek|by rewrite Ek]].
Qed.
Lemma replayed_all l c :
  mc_events c = mkPlayoutEvents [] [] [] 0 0 0 -> replayed l (record_all l c).
Proof.
  intros Hc. apply record_all_ind; [split; rewrite Hc; [done|by split]|].
  intros l' [m now] c' IH. cbn [fst snd]. destruct m as [ | | | | | |e| | | | | | | | | | | | | | | ];
    try (eapply replayed_same; [done|by apply queue_view_other|exact IH]).
  by apply replayed_event.
Qed.

(** *** The replay accepts *)

(** An event the replay accepts at its place: of a known kind, and not above
    the high watermark when it is of the track. *)
Definition playable (e : PreparedPlayoutQueueEventSnapshot) : Prop :=
  ev_event_kind e <> Unknown /\ (ev_command_kind e = CTrack -> bd_duration_ms (ev_queue_depth_after e) <= 500).
Lemma received_playable e :
  playable e <->
  twp_event_kind (received_event e) <> TQK_Unspecified /\ twp_command_kind (received_event e) <> TC_Unspecified /\
  (twp_command_kind (received_event e) = TC_Track ->
     twb_duration_ms (twp_queue_depth_after (received_event e)) <= E.DISCORD_EGRESS_BUFFER_HIGH_WATERMARK_MS).
Proof.
  unfold playable, received_event, E.DISCORD_EGRESS_BUFFER_HIGH_WATERMARK_MS. cbn.
  destruct (ev_event_kind e), (ev_command_kind e); cbn;
    (split; intros H; destruct_and?; split_and!; try done; auto).
Qed.
Lemma lifecycle_events_Ok label l index s s' :
  E.lifecycle_events label index s (map received_event (numbered index l)) = Ok s' <->
  Forall playable l /\ s' = foldl E.lifecycle_event s (map received_event (numbered index l)).
Proof.
  induction l as [|e l IH] in index, s |- *; simpl; [split; [by intros [= <-]|by intros [_ ->]]|].
  rewrite !bail_if_then, IH, Forall_cons. replace (playable e) with (playable (with_event_index index e)) by done.
  rewrite received_playable, negb_false_iff, Z.eqb_eq, !bool_decide_eq_false, andb_false_iff, bool_decide_eq_false, Z.ltb_ge.
  change (twp_event_index (received_event (with_event_index index e))) with index.
  set (x := received_event (with_event_index index e)). destruct (decide (twp_command_kind x = TC_Track)); naive_solver.
Qed.

(** Whether any track packet was enqueued or dequeued. *)
Definition moved (kind : PreparedPlayoutQueueEventKind) (l : list PreparedPlayoutQueueEventSnapshot) : Prop :=
  exists e, e ∈ l /\ ev_event_kind e = kind /\ ev_command_kind e = CTrack.
Lemma moved_snoc kind l e :
  moved kind (l ++ [e]) <-> moved kind l \/ (ev_event_kind e = kind /\ ev_command_kind e = CTrack).
Proof.
  unfold moved. setoid_rewrite elem_of_app. setoid_rewrite list_elem_of_singleton. naive_solver.
Qed.
Lemma replay_moves index l :
  let s := foldl E.lifecycle_event E.Lifecycle_start (map received_event (numbered index l)) in
  (0 <= E.lc_track_enqueue_count s /\ (E.lc_track_enqueue_count s <> 0 <-> moved Enqueued l)) /\
  (0 <= E.lc_track_dequeue_count s /\ (E.lc_track_dequeue_count s <> 0 <-> moved DequeuedToDeadlineSender l)).
Proof.
  induction l as [|e l IH] using rev_ind.
  - cbn. split; (split; [lia|]); (split; [lia|]); intros (e & He & _); by apply not_elem_of_nil in He.
  - rewrite numbered_snoc, map_app, foldl_app. cbn [map foldl]. set (s := foldl _ _ _) in *. clearbody s.
    rewrite !moved_snoc. destruct IH as [[H1 H2] [H3 H4]].
    unfold E.lifecycle_event, E.track_dropped, E.packet_rebuilt, received_event. cbn.
    assert (Hp : forall x, 0 <= x -> 0 <= sat_add u64_max x 1 /\ sat_add u64_max x 1 <> 0) by (unfold sat_add, u64_max; lia).
    pose proof (Hp _ H1). pose proof (Hp _ H3). clear Hp.
    destruct (ev_event_kind e), (ev_command_kind e); cbn; repeat case_match; cbn; intuition discriminate.
Qed.

(** The replay of the prepared playout queue agrees with the collector: for
    every run of messages, the counters of unrecovered track drops, silence
    drops and rebuilds that the collector publishes are those the validator
    recomputes from the published events, so that the check passes exactly when
    every event is of a known kind, no track event left the queue deeper than
    500 ms, and some track packet was enqueued and some dequeued. *)
Theorem playout_replay_agrees `{UnstableSort} l epoch video itag depth source t1 t2 t3 t4 recovery g d r ended label :
  let c := record_all l (Collector_new epoch video itag depth source t1 t2 t3 t4 recovery) in
  let events := omap queue_event_of l in
  E.validate_raw_prepared_playout_queue_events
    (TwPlaybackStabilitySnapshot_from (map_published_snapshot (snapshot g d r ended c))) label = Ok tt <->
  Forall playable events /\ moved Enqueued events /\ moved DequeuedToDeadlineSender events.
Proof.
  intros c events. assert (Hr : replayed l c) by by apply replayed_all.
  unfold E.validate_raw_prepared_playout_queue_events. cbn [twm_raw_prepared_playout_queue_events
    twm_prepared_track_packet_drop_count twm_prepared_silence_packet_drop_count twm_prepared_packet_rebuild_count
    TwPlaybackStabilitySnapshot_from pbm_raw_prepared_playout_queue_events pbm_prepared_track_packet_drop_count
    pbm_prepared_silence_packet_drop_count pbm_prepared_packet_rebuild_count map_published_snapshot
    sn_raw_prepared_playout_queue_events sn_prepared_track_packet_drop_count sn_prepared_silence_packet_drop_count
    sn_prepared_packet_rebuild_count snapshot].
  clearbody c. destruct Hr as [-> [M1 _ M3 M4]]. fold events in M1, M3, M4 |- *. rewrite map_map. fold received_event.
  pose proof (replay_moves 0 events) as [[_ H1] [_ H2]]. rewrite bind_Ok.
  set (s := foldl _ _ _) in *.
  assert (Hs : forall s', E.lifecycle_events label 0 E.Lifecycle_start
    (map (fun x => TwPreparedPlayoutQueueEventSnapshot_from (map_raw_prepared_playout_queue_event x)) (numbered 0 events)) = Ok s' <->
    Forall playable events /\ s' = s) by (intros s'; apply (lifecycle_events_Ok label events 0)).
  rewrite <- H1, <- H2. split.
  - intros (s' & [Hp ->]%Hs & Hc). rewrite !bail_if_then, !Z.eqb_neq in Hc. by destruct Hc as (E1 & E2 & _).
  - intros (Hp & E1 & E2). exists s. rewrite Hs, !bail_if_then, bail_if_Ok, M1, M3, M4, !Z.eqb_refl, !Z.eqb_neq. done.
Qed.
