(* ===== verification/ObserverProofs.v ===== *)
(** * The proofs of the observer

    The observer task of a live run (controller.rs): it feeds the frames it
    hears into the accumulator of AudioObserver.v and proves, on request, that
    the service fell silent at a pause and was heard again after a resume. What
    the observed session hands over, the commands and the readings of the clock
    are arguments: a turn of a loop is one round of it with what it receives
    and when it looks at the clock. A loop that has seen all its turns without
    an end is still waiting ([None]). *)

From S2P Require Import Prelude Anyhow VoiceErrors AudioObserver Observer.
From S2P Require PlaybackValidator Commands.
From stdpp Require Import prelude strings.
Open Scope Z_scope.

Definition LIVE_CONTRACT_TIMEOUT : Z := 240 * 1000000000.
Definition OBSERVER_TRACK_ENDED_DRAIN_GRACE : Z := 750 * 1000000.
Definition PAUSE_OBSERVER_SILENCE_DURATION : Z := 600 * 1000000.
Definition OBSERVER_SPEAKING_STATE_TIMEOUT : Z := 10 * 1000000000.
Definition RESUME_OBSERVER_AUDIO_TIMEOUT : Z := 10 * 1000000000.
Definition RESUME_OBSERVER_PACKET_TARGET : Z := 4.
Definition SPEAKING_FLAG_MICROPHONE : Z := 1.
Definition OPUS_STOP_SILENCE_FRAME : list Z := [0xF8; 0xFF; 0xFE].

Record ObserverPauseProof : Type := mkPauseProof {
  pp_silence_ms : Z;
  pp_gateway_speaking_stopped : bool;
  pp_rtp_silence_observed : bool;
}.
Record ObserverResumeProof : Type := mkResumeProof {
  rp_observed_packet_count : Z;
  rp_speaking_started : bool;
  rp_resume_decoded_audio_start_ms : Z;
}.

(** [Err(error).context(...)] with an error of the voice crate. *)
Definition voice_failure {A} (format : string) (args : list Arg) (e : VoiceError) : anyhow A :=
  context format args (error_msg (Err (Commands.voice_error_text e))).
Definition is_voice_receive_timeout (e : VoiceError) : bool :=
  match e with InvalidState reason => String.eqb reason "voice receive timed out" | _ => false end.
Definition duration_ms (duration : Z) : Z := Z.min u64_max (duration / 1000000).

(** [{:?}] of a window, and of the list of anomalies, as their numbers. *)
Definition window_fields (w : option AudioTempoWindowEvidence) : Arg :=
  match w with
  | Some w => Fields [tw_window_packet_count w; tw_media_ms w; tw_wall_clock_us w; tw_ratio_ppm w; tw_first_sequence w; tw_last_sequence w]
  | None => Fields []
  end.
Definition anomaly_fields (l : list AudioObserverAnomaly) : Arg :=
  Fields (concat (map (fun a => [default 0 (an_sequence a); default 0 (an_previous_sequence a); an_interval_ms a;
    an_interval_us a; an_expected_duration_ms a; an_expected_duration_us a]) l)).

Definition observer_threshold_error (stats : option AudioValidationStats) (expected_duration_ms : Z) : AnyError :=
  let required := PlaybackValidator.required_observer_decoded_audio_ms expected_duration_ms in
  match stats with
  | Some s =>
      let a := as_arrivals s in let l := as_long_windows s in let w := as_short_windows s in
      [mkMessage "observer audio proof finished before thresholds (threshold_failure_reason={} observed_packet_count={} non_discord_opus_duration_packet_count={} non_discord_opus_duration_min_samples={} non_discord_opus_duration_max_samples={} expected_discord_opus_duration_samples={} decoded_audio_ms={} required_decoded_audio_ms={} expected_duration_ms={} observer_wall_clock_elapsed_ms={} decoded_audio_to_wall_clock_ratio_ppm={} min_ratio_ppm={} max_ratio_ppm={} non_silent_audio_ms={} required_non_silent_audio_ms={} rtp_gap_count_gte_100ms={} unclassified_rtp_gap_count_gte_100ms={} rtp_fast_interval_count={} unclassified_rtp_fast_interval_count={} rtp_fast_interval_min_ms={} rtp_fast_interval_min_us={} rtp_buffering_event_count={} rtp_buffering_total_us={} rtp_buffering_max_us={} rtp_speed_change_total_abs_us={} rtp_speed_change_total_abs_budget_us={} rtp_speed_change_total_fast_us={} rtp_speed_change_total_slow_us={} observer_anomalies={:?} decoded_audio_tempo_window_count={} decoded_audio_tempo_window_post_source_buffer_count={} decoded_audio_tempo_window_min_ratio_ppm={} decoded_audio_tempo_window_max_ratio_ppm={} decoded_audio_tempo_window_fast_count={} decoded_audio_tempo_window_fastest_ratio_ppm={} decoded_audio_tempo_window_slow_count={} decoded_audio_tempo_window_slowest_ratio_ppm={} decoded_audio_short_tempo_window_count={} decoded_audio_short_tempo_window_fast_count={} decoded_audio_short_tempo_window_slow_count={} decoded_audio_short_tempo_window_fastest={:?} decoded_audio_short_tempo_window_slowest={:?} rtp_p95_ms={} rtp_p99_ms={} rtp_max_ms={})"
         [Text (PlaybackValidator.observer_threshold_failure_reason s expected_duration_ms); Num (as_observed_packet_count s);
          Num (du_packet_count (as_non_discord_opus s)); Num (du_min_samples (as_non_discord_opus s));
          Num (du_max_samples (as_non_discord_opus s)); Num PlaybackValidator.DISCORD_OPUS_RTP_PACKET_DURATION_SAMPLES;
          Num (as_decoded_audio_ms s); Num required; Num expected_duration_ms; Num (as_wall_clock_elapsed_ms s);
          Num (as_decoded_audio_to_wall_clock_ratio_ppm s); Num PlaybackValidator.MEDIA_TO_WALL_CLOCK_MIN_RATIO_PPM;
          Num PlaybackValidator.MEDIA_TO_WALL_CLOCK_MAX_RATIO_PPM; Num (as_non_silent_audio_ms s);
          Num PlaybackValidator.MIN_NON_SILENT_AUDIO_MS; Num (ar_gap_count_gte_100ms a);
          Num (PlaybackValidator.unclassified_observer_anomaly_count s "rtp_gap_gte_100ms" (ar_gap_count_gte_100ms a));
          Num (ar_fast_interval_count a);
          Num (PlaybackValidator.unclassified_observer_anomaly_count s "rtp_fast_interval" (ar_fast_interval_count a));
          Num (ar_fast_interval_min_ms a); Num (ar_fast_interval_min_us a); Num (ar_buffering_event_count a);
          Num (ar_buffering_total_us a); Num (ar_buffering_max_us a); Num (ar_speed_change_total_abs_us a);
          Num (PlaybackValidator.observer_speed_change_total_abs_budget_us expected_duration_ms);
          Num (ar_speed_change_total_fast_us a); Num (ar_speed_change_total_slow_us a);
          anomaly_fields (ar_observer_anomalies a); Num (lw_count l); Num (lw_post_source_buffer_count l);
          Num (lw_min_ratio_ppm l); Num (lw_max_ratio_ppm l); Num (we_count (lw_fast l)); Num (we_ratio_ppm (lw_fast l));
          Num (we_count (lw_slow l)); Num (we_ratio_ppm (lw_slow l)); Num (sw_count w); Num (sw_fast_count w);
          Num (sw_slow_count w); window_fields (sw_fastest w); window_fields (sw_slowest w);
          Num (Metrics.st_p95_ms (ar_rtp_inter_arrival a)); Num (Metrics.st_p99_ms (ar_rtp_inter_arrival a));
          Num (Metrics.st_max_ms (ar_rtp_inter_arrival a))]]
  | None =>
      [mkMessage "observer audio proof timed out before any packets were received (expected_duration_ms={} required_decoded_audio_ms={})"
         [Num expected_duration_ms; Num required]]
  end.

(** One round of a loop with a deadline. *)
Record ReceiveTurn (R : Type) : Type := mkReceiveTurn {
  rt_checked_at : Z;
  rt_received : result VoiceError R;
}.
Arguments mkReceiveTurn {R}.
Arguments rt_checked_at {R}.
Arguments rt_received {R}.

Section Proofs.
Context `{OpusDecoderApi}.

(** What the task works on: the accumulator, the shared snapshot of its
    statistics, and the signal that audio has started, while it is unsent. *)
Record Observation : Type := mkObservation {
  on_accumulator : AudioValidationAccumulator;
  on_snapshot : option AudioValidationStats;
  on_audio_started : bool;
}.
Abbreviation ostm := (stm Observation AnyError).
Definition upd_accumulator (f : AudioValidationAccumulator -> AudioValidationAccumulator) (o : Observation) : Observation :=
  mkObservation (f (on_accumulator o)) (on_snapshot o) (on_audio_started o).
Definition set_snapshot (s : AudioValidationStats) (o : Observation) : Observation :=
  mkObservation (on_accumulator o) (Some s) (on_audio_started o).
Definition observed_stats (o : Observation) : AudioValidationStats := stats (on_accumulator o).

Definition frame_packet (frame : ObservedAudioFrame) : ObservedOpusPacket :=
  mkObservedPacket (of_sequence frame) (of_timestamp frame) (of_payload frame).
Definition record_observer_audio_frame (frame : ObservedAudioFrame) : ostm AudioValidationStats := fun o =>
  let '(a, r) := observe_packet_at (frame_packet frame) (of_received_at frame) (on_accumulator o) in
  match context "analyze observer audio packet sequence={} timestamp={} payload_len={}"
          [Num (of_sequence frame); Num (of_timestamp frame); Num (zlen (of_payload frame))] r with
  | Ok s => (mkObservation a (Some s) false, Ok s)
  | r => (mkObservation a (on_snapshot o) (on_audio_started o), r)
  end.

(** ** Pause *)

(** One round of the loop: when the deadline is checked, what is received then,
    and the readings of the clock the branches take. *)
Record PauseTurn : Type := mkPauseTurn {
  pt_checked_at : Z;
  pt_received : result VoiceError ObservedVoiceActivity;
  pt_noted_at : Z;
  pt_silent_at : Z;
  pt_elapsed_at : Z;
  pt_failed_at : Z;
}.
Record PauseState : Type := mkPauseState {
  ps_gateway_speaking_stopped : bool;
  ps_rtp_silence_observed : bool;
  ps_silence_deadline : option Z;
  ps_last_service_activity_at : Z;
  ps_consecutive_stop_silence_frames : Z;
}.
Definition PauseState_start (proof_started : Z) : PauseState := mkPauseState false false None proof_started 0.

Definition active_deadline (transition_deadline : Z) (observed : bool) (s : PauseState) : Z :=
  let deadline := default transition_deadline (ps_silence_deadline s) in
  if negb (ps_gateway_speaking_stopped s) && negb (ps_rtp_silence_observed s) && observed
  then let inferred := ps_last_service_activity_at s + PAUSE_OBSERVER_SILENCE_DURATION in
       if inferred <? deadline then inferred else deadline
  else deadline.
(** What is concluded when nothing more is received. *)
Definition pause_verdict (observed : bool) (elapsed_at : Z) (otherwise : anyhow ObserverPauseProof) (s : PauseState)
    : anyhow ObserverPauseProof :=
  let proof := mkPauseProof (duration_ms PAUSE_OBSERVER_SILENCE_DURATION) (ps_gateway_speaking_stopped s) in
  if ps_rtp_silence_observed s then Ok (proof true)
  else if observed && (PAUSE_OBSERVER_SILENCE_DURATION <=? sat_sub elapsed_at (ps_last_service_activity_at s))
  then Ok (proof false)
  else if ps_gateway_speaking_stopped s then Ok (proof false)
  else otherwise.
Definition elapsed_ms (started at_ : Z) : Z := sat_sub at_ started / 1000000.

(** A frame of audio. *)
Definition pause_audio (proof_started : Z) (t : PauseTurn) (frame : ObservedAudioFrame) (s : PauseState) : ostm PauseState :=
  st ← record_observer_audio_frame frame;
  let n := if bool_decide (of_payload frame = OPUS_STOP_SILENCE_FRAME)
           then sat_add u64_max (ps_consecutive_stop_silence_frames s) 1 else 0 in
  if negb (ps_rtp_silence_observed s) then
    mret (if Z.of_nat PlaybackValidator.PAUSE_STOP_SILENCE_FRAME_COUNT <=? n
          then mkPauseState (ps_gateway_speaking_stopped s) true
                 (Some (pt_silent_at t + PAUSE_OBSERVER_SILENCE_DURATION)) (pt_noted_at t) n
          else mkPauseState (ps_gateway_speaking_stopped s) false (ps_silence_deadline s) (pt_noted_at t) n)
  else
    lift (bail "observer received service audio during Pause proof after speaking disappearance (sequence={} observed_packet_count={} decoded_audio_ms={} proof_elapsed_ms={})"
            [Num (of_sequence frame); Num (as_observed_packet_count st); Num (as_decoded_audio_ms st);
             Num (elapsed_ms proof_started (pt_failed_at t))]).
Definition pause_rtp (proof_started : Z) (t : PauseTurn) (packet : ObservedRtpPacket) (s : PauseState) : anyhow PauseState :=
  if negb (ps_rtp_silence_observed s)
  then Ok (mkPauseState (ps_gateway_speaking_stopped s) false (ps_silence_deadline s) (pt_noted_at t) 0)
  else bail "observer received service voice RTP packet during Pause proof after speaking disappearance (sequence={} ssrc={} proof_elapsed_ms={})"
         [Num (Observer.op_sequence packet); Num (op_ssrc packet); Num (elapsed_ms proof_started (pt_failed_at t))].
Definition microphone (state : ObservedSpeakingState) : bool := negb (Z.land (os_speaking state) SPEAKING_FLAG_MICROPHONE =? 0).
Definition pause_speaking (t : PauseTurn) (state : ObservedSpeakingState) (s : PauseState) : anyhow PauseState :=
  if microphone state then
    _ ← bail_if (ps_gateway_speaking_stopped s)
         "observer saw service microphone Speaking {} after Pause speaking disappearance" [Num (os_speaking state)];
    Ok (mkPauseState false (ps_rtp_silence_observed s) (ps_silence_deadline s) (pt_noted_at t) 0)
  else
    Ok (mkPauseState true (ps_rtp_silence_observed s) (Some (pt_silent_at t + PAUSE_OBSERVER_SILENCE_DURATION))
          (pt_noted_at t) (ps_consecutive_stop_silence_frames s)).

Definition pause_turn (proof_started transition_deadline : Z) (t : PauseTurn) (s : PauseState)
    : ostm (PauseState + ObserverPauseProof) :=
  count ← gets (fun o => as_observed_packet_count (observed_stats o));
  let observed := 0 <? count in
  if active_deadline transition_deadline observed s <? pt_checked_at t then
    proof ← lift (pause_verdict observed (pt_elapsed_at t)
                    (bail "observer did not receive service speaking disappearance within {} seconds" [Num 10]) s);
    mret (inr proof)
  else
    match pt_received t with
    | Ok (ActivityAudio frame) => s' ← pause_audio proof_started t frame s; mret (inl s')
    | Ok (ActivityRtpPacket packet) => s' ← lift (pause_rtp proof_started t packet s); mret (inl s')
    | Ok (ActivitySpeaking state) => s' ← lift (pause_speaking t state s); mret (inl s')
    | Ok (ActivityDisconnect user_id) =>
        lift (bail "observer saw service voice client disconnect during Pause proof (user_id={})" [Text user_id])
    | Err error =>
        if is_voice_receive_timeout error then
          proof ← lift (pause_verdict observed (pt_elapsed_at t)
                          (bail "observer timed out waiting for service speaking disappearance during Pause proof" []) s);
          mret (inr proof)
        else lift (voice_failure "observer pause proof failed during silence window" [] error)
    | Panic => lift Panic
    end.
Fixpoint pause_loop (proof_started transition_deadline : Z) (turns : list PauseTurn) (s : PauseState)
    : ostm (option ObserverPauseProof) :=
  match turns with
  | [] => mret None
  | t :: turns =>
      r ← pause_turn proof_started transition_deadline t s;
      match r with
      | inl s' => pause_loop proof_started transition_deadline turns s'
      | inr proof => mret (Some proof)
      end
  end.
Definition prove_observer_pause_silence (proof_started deadline_from : Z) (turns : list PauseTurn)
    : ostm (option ObserverPauseProof) :=
  pause_loop proof_started (deadline_from + OBSERVER_SPEAKING_STATE_TIMEOUT) turns (PauseState_start proof_started).

(** ** Resume *)

(** What [receive_speaking_state_from] answers, with its context. *)
Definition prove_observer_speaking_started (received : result VoiceError unit) : anyhow unit :=
  match received with
  | Err error => voice_failure "observer pre-Pause proof did not observe service Speaking 1" [] error
  | Ok _ => Ok tt
  | Panic => Panic
  end.

Definition no_resumed_audio {A} (format : string) (seconds : list Arg) (speaking_started explicit : bool) (observed : Z) : anyhow A :=
  bail format (seconds ++ [Text (if speaking_started then "true" else "false"); Text (if explicit then "true" else "false");
                           Num observed; Num RESUME_OBSERVER_PACKET_TARGET]).
Fixpoint resume_loop (deadline start_count start_ms : Z) (explicit_pause_boundary_observed : bool)
    (turns : list (ReceiveTurn ObservedVoiceActivity)) (speaking_started : bool) : ostm (option ObserverResumeProof) :=
  match turns with
  | [] => mret None
  | t :: turns =>
      count ← gets (fun o => as_observed_packet_count (observed_stats o));
      let again := resume_loop deadline start_count start_ms explicit_pause_boundary_observed turns in
      let unheard := negb speaking_started && negb explicit_pause_boundary_observed in
      if deadline <? rt_checked_at t then
        lift (no_resumed_audio "observer did not receive resumed service audio within {} seconds (speaking_started={} explicit_pause_boundary_observed={} observed_after_resume={} required={})"
                [Num 10] speaking_started explicit_pause_boundary_observed (sat_sub count start_count))
      else
        match rt_received t with
        | Ok (ActivityAudio frame) =>
            _ ← lift (bail_if unheard "observer received resumed service audio before service Speaking 1" []);
            st ← record_observer_audio_frame frame;
            let observed_after_resume := sat_sub (as_observed_packet_count st) start_count in
            if RESUME_OBSERVER_PACKET_TARGET <=? observed_after_resume
            then mret (Some (mkResumeProof observed_after_resume speaking_started start_ms))
            else again speaking_started
        | Ok (ActivityRtpPacket packet) =>
            _ ← lift (bail_if unheard "observer received resumed service RTP before service Speaking 1 (sequence={} ssrc={})"
                        [Num (Observer.op_sequence packet); Num (op_ssrc packet)]);
            again speaking_started
        | Ok (ActivitySpeaking state) =>
            if microphone state then
              let observed_after_resume := sat_sub count start_count in
              if RESUME_OBSERVER_PACKET_TARGET <=? observed_after_resume
              then mret (Some (mkResumeProof observed_after_resume true start_ms))
              else again true
            else again speaking_started
        | Ok (ActivityDisconnect user_id) =>
            lift (bail "observer saw service disconnect during Resume proof (user_id={})" [Text user_id])
        | Err error =>
            if is_voice_receive_timeout error then
              lift (no_resumed_audio "observer timed out waiting for resumed service audio (speaking_started={} explicit_pause_boundary_observed={} observed_after_resume={} required={})"
                      [] speaking_started explicit_pause_boundary_observed (sat_sub count start_count))
            else lift (voice_failure "observer resume proof failed" [] error)
        | Panic => lift Panic
        end
  end.
Definition prove_observer_resume_audio (started_at : Z) (explicit_pause_boundary_observed : bool) (turns : list (ReceiveTurn ObservedVoiceActivity))
    : ostm (option ObserverResumeProof) :=
  st ← gets observed_stats;
  resume_loop (started_at + RESUME_OBSERVER_AUDIO_TIMEOUT) (as_observed_packet_count st) (as_decoded_audio_ms st)
    explicit_pause_boundary_observed turns false.

(** ** Waiting for a pause, and draining *)

(** Whether the controller has begun the pause. *)
Inductive BeginPoll : Type := Begun | NotYet | Dropped.
Record ArmedTurn : Type := mkArmedTurn {
  at_begin : BeginPoll;
  at_received : result VoiceError ObservedVoiceActivity;
}.
(** The last statistics it returns are not used. *)
Fixpoint wait_for_observer_pause_proof_begin (turns : list ArmedTurn) : ostm (option unit) :=
  match turns with
  | [] => mret None
  | t :: turns =>
      match at_begin t with
      | Begun => mret (Some tt)
      | Dropped => lift (bail "observer Pause proof begin signal was dropped before Pause started" [])
      | NotYet =>
          match at_received t with
          | Ok (ActivityAudio frame) => _ ← record_observer_audio_frame frame; wait_for_observer_pause_proof_begin turns
          | Ok (ActivityRtpPacket _) | Ok (ActivitySpeaking _) => wait_for_observer_pause_proof_begin turns
          | Ok (ActivityDisconnect user_id) =>
              lift (bail "observer saw service voice client disconnect while Pause proof was armed before Pause started (user_id={})"
                      [Text user_id])
          | Err error =>
              if is_voice_receive_timeout error then wait_for_observer_pause_proof_begin turns
              else lift (voice_failure "observer pause proof failed while armed before Pause" [] error)
          | Panic => lift Panic
          end
      end
  end.

Definition observer_accumulator_stats : ostm AudioValidationStats :=
  st ← gets observed_stats;
  _ ← lift (bail_if (as_observed_packet_count st =? 0) "observer audio proof completed without validated packets" []);
  mret st.
Fixpoint drain_loop (deadline : Z) (turns : list (ReceiveTurn ObservedAudioFrame)) : ostm (option AudioValidationStats) :=
  match turns with
  | [] => mret None
  | t :: turns =>
      if deadline <? rt_checked_at t then st ← observer_accumulator_stats; mret (Some st)
      else match rt_received t with
           | Ok frame => _ ← record_observer_audio_frame frame; drain_loop deadline turns
           | Err error =>
               if is_voice_receive_timeout error then st ← observer_accumulator_stats; mret (Some st)
               else lift (voice_failure "observer drain receive failed" [] error)
           | Panic => lift Panic
           end
  end.
Definition drain_observer_audio_after_track_ended (started_at : Z) (turns : list (ReceiveTurn ObservedAudioFrame))
    : ostm (option AudioValidationStats) :=
  _ ← modify (upd_accumulator start_natural_end_drain);
  drain_loop (started_at + OBSERVER_TRACK_ENDED_DRAIN_GRACE) turns.

(** ** The task *)

(** What a round selects: the end of the track, a command with what its proof
    receives, the end of the commands, or a frame. *)
Inductive Selected : Type :=
| SelTrackEnded (notified : bool) (started_at : Z) (drain : list (ReceiveTurn ObservedAudioFrame))
| SelSpeakingStarted (received : result VoiceError unit)
| SelPause (armed : list ArmedTurn) (proof_started deadline_from : Z) (turns : list PauseTurn)
| SelResume (started_at : Z) (turns : list (ReceiveTurn ObservedVoiceActivity))
| SelCommandsClosed
| SelFrame (frame : result VoiceError ObservedAudioFrame).
Record WatchTurn : Type := mkWatchTurn {
  wt_checked_at : Z;
  wt_selected : Selected;
}.
(** The locals of the task, and the answers it has sent. *)
Record Watch : Type := mkWatch {
  wa_last_stats : option AudioValidationStats;
  wa_commands_closed : bool;
  wa_explicit_pause_boundary_observed : bool;
  wa_speaking_answers : list (anyhow unit);
  wa_pause_answers : list (anyhow ObserverPauseProof);
  wa_resume_answers : list (anyhow ObserverResumeProof);
}.
Definition Watch_start : Watch := mkWatch None false false [] [] [].

(** The result of a proof, which is sent back whether it failed or not. *)
Definition attempt {A} (m : ostm A) : ostm (anyhow A) := fun o =>
  let '(o', r) := m o in
  match r with Panic => (o', Panic) | r => (o', Ok r) end.
Definition answer_of {A} (r : anyhow (option A)) : option (anyhow A) :=
  match r with
  | Ok (Some a) => Some (Ok a)
  | Ok None => None
  | Err e => Some (Err e)
  | Panic => Some Panic
  end.

Inductive Round : Type :=
| Again (w : Watch)
| Finished (s : AudioValidationStats)
| Waiting.

Definition pause_answered (answer : anyhow ObserverPauseProof) (explicit : bool) (last : option AudioValidationStats) (w : Watch) : Watch :=
  mkWatch last (wa_commands_closed w) explicit (wa_speaking_answers w) (wa_pause_answers w ++ [answer]) (wa_resume_answers w).
Definition answer_pause (armed : list ArmedTurn) (proof_started deadline_from : Z) (turns : list PauseTurn) (w : Watch) : ostm Round :=
  begun ← attempt (wait_for_observer_pause_proof_begin armed);
  match answer_of begun with
  | None => mret Waiting
  | Some (Ok _) =>
      _ ← modify (upd_accumulator start_controlled_pause);
      result ← attempt (prove_observer_pause_silence proof_started deadline_from turns);
      match answer_of result with
      | None => mret Waiting
      | Some (Ok proof) =>
          _ ← modify (upd_accumulator reset_wall_clock_baseline_after_controlled_pause);
          st ← gets observed_stats;
          mret (Again (pause_answered (Ok proof) (pp_rtp_silence_observed proof) (Some st) w))
      | Some failure =>
          st ← gets observed_stats;
          mret (Again (pause_answered failure false (Some st) w))
      end
  | Some (Err error) => mret (Again (pause_answered (Err error) false (wa_last_stats w) w))
  | Some Panic => lift Panic
  end.
Definition answer_resume (started_at : Z) (turns : list (ReceiveTurn ObservedVoiceActivity)) (w : Watch) : ostm Round :=
  result ← attempt (prove_observer_resume_audio started_at (wa_explicit_pause_boundary_observed w) turns);
  match answer_of result with
  | None => mret Waiting
  | Some answer =>
      st ← gets observed_stats;
      mret (Again (mkWatch (Some st) (wa_commands_closed w) (wa_explicit_pause_boundary_observed w)
                     (wa_speaking_answers w) (wa_pause_answers w) (wa_resume_answers w ++ [answer])))
  end.

Definition watch_turn (expected_duration_ms deadline : Z) (t : WatchTurn) (w : Watch) : ostm Round :=
  if deadline <? wt_checked_at t then fail (observer_threshold_error (wa_last_stats w) expected_duration_ms)
  else
    match wt_selected t with
    | SelTrackEnded notified started_at drain =>
        _ ← lift (context "service play-completion contract ended before TrackEnded notification" []
                    (bail_if (negb notified) "channel closed" []));
        drained ← (fun o => let '(o', r) := drain_observer_audio_after_track_ended started_at drain o in
                            (o', context "observer audio drain after TrackEnded failed" [] r));
        match drained with
        | None => mret Waiting
        | Some st =>
            _ ← modify (set_snapshot st);
            if PlaybackValidator.observer_thresholds_satisfied st expected_duration_ms then mret (Finished st)
            else fail (observer_threshold_error (Some st) expected_duration_ms)
        end
    | SelSpeakingStarted received =>
        if wa_commands_closed w then mret (Again w)
        else
          answer ← attempt (lift (prove_observer_speaking_started received));
          mret (Again (mkWatch (wa_last_stats w) (wa_commands_closed w) (wa_explicit_pause_boundary_observed w)
                         (wa_speaking_answers w ++ [answer]) (wa_pause_answers w) (wa_resume_answers w)))
    | SelPause armed proof_started deadline_from turns =>
        if wa_commands_closed w then mret (Again w) else answer_pause armed proof_started deadline_from turns w
    | SelResume started_at turns => if wa_commands_closed w then mret (Again w) else answer_resume started_at turns w
    | SelCommandsClosed =>
        mret (Again (mkWatch (wa_last_stats w) true (wa_explicit_pause_boundary_observed w) (wa_speaking_answers w)
                       (wa_pause_answers w) (wa_resume_answers w)))
    | SelFrame (Ok frame) =>
        st ← record_observer_audio_frame frame;
        mret (Again (mkWatch (Some st) (wa_commands_closed w) (wa_explicit_pause_boundary_observed w)
                       (wa_speaking_answers w) (wa_pause_answers w) (wa_resume_answers w)))
    | SelFrame (Err error) =>
        lift match wa_last_stats w with
             | Some s =>
                 voice_failure "observer audio proof failed after observed_packet_count={} decoded_audio_ms={} non_silent_audio_ms={} expected_duration_ms={} required_decoded_audio_ms={}"
                   [Num (as_observed_packet_count s); Num (as_decoded_audio_ms s); Num (as_non_silent_audio_ms s);
                    Num expected_duration_ms; Num (PlaybackValidator.required_observer_decoded_audio_ms expected_duration_ms)] error
             | None => voice_failure "observer audio proof failed before any packets were validated" [] error
             end
    | SelFrame Panic => lift Panic
    end.
Fixpoint watch_loop (expected_duration_ms deadline : Z) (turns : list WatchTurn) (w : Watch)
    : ostm (Watch * option AudioValidationStats) :=
  match turns with
  | [] => mret (w, None)
  | t :: turns =>
      r ← watch_turn expected_duration_ms deadline t w;
      match r with
      | Again w' => watch_loop expected_duration_ms deadline turns w'
      | Finished st => mret (w, Some st)
      | Waiting => mret (w, None)
      end
  end.
(** The watch is returned beside the statistics: it holds the answers sent. *)
Definition observe_audio_until_track_ended (expected_duration_ms started_at : Z) (turns : list WatchTurn)
    : ostm (Watch * option AudioValidationStats) :=
  watch_loop expected_duration_ms (started_at + LIVE_CONTRACT_TIMEOUT) turns Watch_start.

End Proofs.
