(* ===== verification/ProofSpecs.v ===== *)
(** * What the proofs of the observer prove

    Whatever the task of ObserverProofs.v is handed and however its proofs end,
    its accumulator is that of the frames it recorded: an accepted run was
    heard. A pause that is proved by its silence was silent. *)

From S2P Require Import Prelude Anyhow VoiceErrors OpusQueue Metrics Timeline AudioObserver AudioSpecs Observer ObserverProofs.
From S2P Require PlaybackValidator.
From Stdlib Require Import SpecFloat.
From stdpp Require Import prelude strings sorting.
Open Scope Z_scope.

Definition heard_of (frame : ObservedAudioFrame) : Heard := (frame_packet frame, of_received_at frame).

Section Proofs.
Context `{OpusDecoderApi}.

(** ** The accumulator *)

(** A failed packet leaves only its mark on the decoders. *)
Lemma decode_keeps packet : keeps observed_part (decode_observed packet).
Proof.
  unfold decode_observed, decoder_of. repeat (apply keeps_bind; [|intros ?]); try (intros s; reflexivity);
    try (intros s; apply observed_part_decoder).
  case_match. destruct p as [decoder' pcm].
  repeat (apply keeps_bind; [|intros ?]); try (intros s; reflexivity); intros s; apply observed_part_decoder.
Qed.
Lemma observe_failed packet at_ a a' r :
  observe_packet_at packet at_ a = (a', r) -> (forall s, r <> Ok s) -> observed_part a' = observed_part a.
Proof.
  unfold observe_packet_at. pose proof (decode_keeps packet a) as Hk. unfold mbind, stm_bind.
  destruct (decode_observed packet a) as [a1 [[samples pcm]|e|]]; simpl in *; [|by intros [= <- <-]..].
  destruct (validate_rtp_continuity _ _ _) as [[]| |]; simpl; [|by intros [= <- <-]..].
  intros [= <- <-] Hr. by destruct (Hr _ eq_refl).
Qed.

Definition tracked (a : AudioValidationAccumulator) (h : History) : Prop := follows a h /\ (sane h -> measures a h).
Lemma tracked_part a a' h : observed_part a' = observed_part a -> tracked a h -> tracked a' h.
Proof.
  intros [= E1 E2 E3 E4] [[F1 F2 F3] Hm]. split.
  - split; rewrite ?E3; done.
  - intros Hs. destruct (Hm Hs). split; rewrite ?E1, ?E2, ?E3; done.
Qed.
Lemma tracked_step a a' h x : observer_step a x = Ok a' -> tracked a h -> tracked a' (history_step h x).
Proof.
  intros Hx [Hf Hm]. split; [by eapply follows_step|]. intros Hs. eapply measures_step; [|done|done].
  apply Hm. by eapply sane_step.
Qed.

(** From one observation to another, some of the frames were recorded. *)
Definition hears (o o' : Observation) (frames : list ObservedAudioFrame) : Prop :=
  forall h, tracked (on_accumulator o) h ->
  exists h' l, tracked (on_accumulator o') h' /\ packets h' = packets h ++ map heard_of l /\ l `sublist_of` frames.
Definition hearing {A} (m : stm Observation AnyError A) (frames : list ObservedAudioFrame) : Prop :=
  forall o, hears o (fst (m o)) frames.

Lemma hears_step o o' x :
  (forall p t, x <> Observe p t) -> observer_step (on_accumulator o) x = Ok (on_accumulator o') -> hears o o' [].
Proof.
  intros Hx Hs h Ht. exists (history_step h x), []. split; [by eapply tracked_step|]. rewrite app_nil_r.
  split; [|done]. destruct x as [p t| | | |]; simpl; rewrite ?packets_reset; [|done..]. by destruct (Hx p t).
Qed.
Lemma hears_same o o' : on_accumulator o' = on_accumulator o -> hears o o' [].
Proof. intros E h Ht. exists h, []. rewrite E, app_nil_r. done. Qed.
Lemma hears_trans o1 o2 o3 f1 f2 : hears o1 o2 f1 -> hears o2 o3 f2 -> hears o1 o3 (f1 ++ f2).
Proof.
  intros H1 H2 h Ht. destruct (H1 h Ht) as (h1 & l1 & Ht1 & E1 & S1). destruct (H2 h1 Ht1) as (h2 & l2 & Ht2 & E2 & S2).
  exists h2, (l1 ++ l2). rewrite E2, E1, map_app, app_assoc. split; [done|]. split; [done|]. by apply sublist_app.
Qed.
Lemma hears_more o o' f g : hears o o' f -> f `sublist_of` g -> hears o o' g.
Proof. intros Hf Hs h Ht. destruct (Hf h Ht) as (h' & l & H1 & H2 & H3). exists h', l. split_and!; [done|done|]. by etrans. Qed.

Lemma hearing_pure {A} (m : stm Observation AnyError A) f :
  (forall o, on_accumulator (fst (m o)) = on_accumulator o) -> hearing m f.
Proof. intros Hm o. eapply hears_more; [by apply hears_same|]. apply sublist_nil_l. Qed.
Lemma hearing_bind {A B} (m : stm Observation AnyError A) (k : A -> stm Observation AnyError B) f g :
  hearing m f -> (forall a, hearing (k a) g) -> hearing (m ≫= k) (f ++ g).
Proof.
  intros Hm Hk o. specialize (Hm o). unfold mbind, stm_bind. destruct (m o) as [o1 [a|e|]]; simpl in *.
  - eapply hears_trans; [exact Hm|apply Hk].
  - eapply hears_more; [exact Hm|]. by apply sublist_inserts_r.
  - eapply hears_more; [exact Hm|]. by apply sublist_inserts_r.
Qed.
Lemma hearing_more {A} (m : stm Observation AnyError A) f g : hearing m f -> f `sublist_of` g -> hearing m g.
Proof. intros Hm Hs o. by eapply hears_more. Qed.
Lemma hearing_then {A B} (m : stm Observation AnyError A) (k : A -> stm Observation AnyError B) f :
  hearing m [] -> (forall a, hearing (k a) f) -> hearing (m ≫= k) f.
Proof. apply (hearing_bind m k []). Qed.

Lemma hearing_frame frame : hearing (record_observer_audio_frame frame) [frame].
Proof.
  intros o h Ht. unfold record_observer_audio_frame.
  destruct (observe_packet_at (frame_packet frame) (of_received_at frame) (on_accumulator o)) as [a r] eqn:E.
  destruct r as [s|e|]; simpl.
  - exists (history_step h (Observe (frame_packet frame) (of_received_at frame))), [frame].
    split; [eapply tracked_step; [|exact Ht]; simpl; by rewrite E|]. split; [apply packets_observe|done].
  - exists h, []. rewrite app_nil_r. split; [|split; [done|apply sublist_nil_l]].
    eapply tracked_part; [|exact Ht]. by eapply observe_failed.
  - exists h, []. rewrite app_nil_r. split; [|split; [done|apply sublist_nil_l]].
    eapply tracked_part; [|exact Ht]. by eapply observe_failed.
Qed.

(** ** What is handed over *)

Definition activity_frames (r : result VoiceError ObservedVoiceActivity) : list ObservedAudioFrame :=
  match r with Ok (ActivityAudio frame) => [frame] | _ => [] end.
Definition frame_received (r : result VoiceError ObservedAudioFrame) : list ObservedAudioFrame :=
  match r with Ok frame => [frame] | _ => [] end.
Definition pause_frames (turns : list PauseTurn) : list ObservedAudioFrame :=
  concat (map (fun t => activity_frames (pt_received t)) turns).
Definition armed_frames (turns : list ArmedTurn) : list ObservedAudioFrame :=
  concat (map (fun t => activity_frames (at_received t)) turns).
Definition resume_frames (turns : list (ReceiveTurn ObservedVoiceActivity)) : list ObservedAudioFrame :=
  concat (map (fun t => activity_frames (rt_received t)) turns).
Definition drain_frames (turns : list (ReceiveTurn ObservedAudioFrame)) : list ObservedAudioFrame :=
  concat (map (fun t => frame_received (rt_received t)) turns).
Definition selected_frames (s : Selected) : list ObservedAudioFrame :=
  match s with
  | SelTrackEnded _ _ drain => drain_frames drain
  | SelPause armed _ _ turns => armed_frames armed ++ pause_frames turns
  | SelResume _ turns => resume_frames turns
  | SelFrame frame => frame_received frame
  | SelSpeakingStarted _ | SelCommandsClosed => []
  end.
Definition watch_frames (turns : list WatchTurn) : list ObservedAudioFrame :=
  concat (map (fun t => selected_frames (wt_selected t)) turns).

(** Rules for programs that end early. *)
Lemma hearing_lift {A} (r : anyhow A) f : hearing (lift r) f.
Proof. by apply hearing_pure. Qed.
Lemma hearing_ret {A} (a : A) f : hearing (mret a) f.
Proof. by apply hearing_pure. Qed.
Lemma hearing_fail {A} e f : hearing (fail (A:=A) e) f.
Proof. by apply hearing_pure. Qed.
Lemma hearing_gets {A} (g : Observation -> A) f : hearing (gets g) f.
Proof. by apply hearing_pure. Qed.
Lemma hearing_snapshot s f : hearing (modify (set_snapshot s)) f.
Proof. by apply hearing_pure. Qed.
Lemma hearing_step g x :
  (forall p t, x <> Observe p t) -> (forall a, observer_step a x = Ok (g a)) -> hearing (modify (upd_accumulator g)) [].
Proof. intros Hx Hg o. by eapply hears_step; [apply Hx|simpl; apply Hg]. Qed.
Lemma hearing_attempt {A} (m : stm Observation AnyError A) f : hearing m f -> hearing (attempt m) f.
Proof. intros Hm o. specialize (Hm o). unfold attempt. destruct (m o) as [o' [a|e|]]; exact Hm. Qed.
Lemma hearing_wrap {A} (m : stm Observation AnyError A) g f :
  hearing m f -> hearing (fun o => let '(o', r) := m o in (o', g r) : Observation * anyhow A) f.
Proof. intros Hm o. specialize (Hm o). destruct (m o) as [o' r]; exact Hm. Qed.

End Proofs.

Create HintDb hearing discriminated.
#[export] Hint Resolve hearing_lift hearing_ret hearing_fail hearing_gets hearing_snapshot hearing_attempt : hearing.
(** Splits a program whose first command hears [f]. *)
Ltac hearing_then := apply hearing_then; [auto with hearing|intros ?].
Ltac hearing_first := apply hearing_bind; [auto with hearing|intros ?].

Section Tasks.
Context `{OpusDecoderApi}.

Lemma hearing_pause_turn started transition t s :
  hearing (pause_turn started transition t s) (activity_frames (pt_received t)).
Proof.
  unfold pause_turn. hearing_then. case_match; [hearing_then; auto with hearing|].
  destruct (pt_received t) as [[frame|packet|state|user]|e|]; simpl; try (hearing_then; auto with hearing; fail); auto with hearing.
  - apply (hearing_bind _ _ [frame] []); [|auto with hearing]. unfold pause_audio.
    apply (hearing_bind _ _ [frame] []); [apply hearing_frame|]. intros st. case_match; auto with hearing.
  - case_match; auto with hearing. hearing_then. auto with hearing.
Qed.
Lemma hearing_pause started transition turns s :
  hearing (pause_loop started transition turns s) (pause_frames turns).
Proof.
  induction turns as [|t turns IH] in s |- *; [apply hearing_ret|].
  apply hearing_bind; [apply hearing_pause_turn|]. intros [s'|proof]; [apply IH|auto with hearing].
Qed.
Lemma hearing_armed turns : hearing (wait_for_observer_pause_proof_begin turns) (armed_frames turns).
Proof.
  induction turns as [|t turns IH]; [apply hearing_ret|]. unfold armed_frames in *. simpl.
  destruct (at_begin t); auto with hearing.
  destruct (at_received t) as [[frame|packet|state|user]|e|]; simpl; auto with hearing.
  - apply (hearing_bind _ _ [frame]); [apply hearing_frame|done].
  - case_match; auto with hearing.
Qed.
Lemma hearing_resume deadline count ms explicit turns started :
  hearing (resume_loop deadline count ms explicit turns started) (resume_frames turns).
Proof.
  induction turns as [|t turns IH] in started |- *; [apply hearing_ret|]. unfold resume_frames in *. simpl.
  hearing_then. case_match; [auto with hearing|].
  destruct (rt_received t) as [[frame|packet|state|user]|e|]; simpl; auto with hearing.
  - hearing_then. apply (hearing_bind _ _ [frame]); [apply hearing_frame|]. intros st. case_match; auto with hearing.
  - hearing_then. done.
  - repeat case_match; auto with hearing.
  - case_match; auto with hearing.
Qed.
Lemma hearing_stats f : hearing observer_accumulator_stats f.
Proof. unfold observer_accumulator_stats. do 2 hearing_then. auto with hearing. Qed.
#[local] Hint Resolve hearing_stats : hearing.
Lemma hearing_drain deadline turns : hearing (drain_loop deadline turns) (drain_frames turns).
Proof.
  induction turns as [|t turns IH]; [apply hearing_ret|]. unfold drain_frames in *. simpl.
  case_match; [hearing_then; auto with hearing|].
  destruct (rt_received t) as [frame|e|]; simpl; auto with hearing.
  - apply (hearing_bind _ _ [frame]); [apply hearing_frame|done].
  - case_match; auto with hearing. hearing_then. auto with hearing.
Qed.

Lemma hearing_answer_pause armed started from turns w :
  hearing (answer_pause armed started from turns w) (armed_frames armed ++ pause_frames turns).
Proof.
  unfold answer_pause. apply hearing_bind; [apply hearing_attempt, hearing_armed|]. intros begun.
  destruct (answer_of begun) as [[[]| |]|]; auto with hearing.
  apply hearing_then; [by apply (hearing_step _ StartPause)|]. intros _.
  rewrite <- (app_nil_r (pause_frames turns)). apply hearing_bind; [apply hearing_attempt, hearing_pause|]. intros result.
  destruct (answer_of result) as [[proof| |]|]; auto with hearing; try (hearing_then; auto with hearing; fail).
  apply hearing_then; [by apply (hearing_step _ ResumeAfterPause)|]. intros _. hearing_then. auto with hearing.
Qed.
Lemma hearing_watch_turn expected deadline t w :
  hearing (watch_turn expected deadline t w) (selected_frames (wt_selected t)).
Proof.
  unfold watch_turn. case_match; [auto with hearing|].
  destruct (wt_selected t) as [notified at_ drain|received|armed started from turns|at_ turns| |[frame|e|]]; simpl;
    auto with hearing.
  - hearing_then. rewrite <- (app_nil_r (drain_frames drain)). apply hearing_bind.
    + apply hearing_wrap. unfold drain_observer_audio_after_track_ended.
      apply hearing_then; [by apply (hearing_step _ StartDrain)|intros _; apply hearing_drain].
    + intros [st|]; auto with hearing. hearing_then. case_match; auto with hearing.
  - case_match; auto with hearing. hearing_then. auto with hearing.
  - case_match; auto with hearing. apply hearing_answer_pause.
  - case_match; auto with hearing. unfold answer_resume. rewrite <- (app_nil_r (resume_frames turns)). apply hearing_bind.
    + apply hearing_attempt. unfold prove_observer_resume_audio. hearing_then. apply hearing_resume.
    + intros result. destruct (answer_of result); auto with hearing. hearing_then. auto with hearing.
  - apply (hearing_bind _ _ [frame] []); [apply hearing_frame|]. auto with hearing.
Qed.
Lemma hearing_watch expected deadline turns w : hearing (watch_loop expected deadline turns w) (watch_frames turns).
Proof.
  induction turns as [|t turns IH] in w |- *; [apply hearing_ret|].
  apply hearing_bind; [apply hearing_watch_turn|]. intros [w'|st|]; auto with hearing.
Qed.
End Tasks.

(** ** The run that is accepted *)

(** Frames as they come off the wire: bytes, stamped by a clock that does not
    run backwards, and fewer than a counter can hold. *)
Definition arriving (frames : list ObservedAudioFrame) : Prop :=
  Forall (fun f => bytes_ok (of_payload f)) frames /\
  StronglySorted Z.le (map of_received_at frames) /\ 2 * zlen frames <= u64_max.

Lemma heard_duration f : bytes_ok (of_payload f) -> 0 <= tk_duration (heard_tick (heard_of f)).
Proof.
  intros Hf. simpl. unfold duration_from_samples, heard_samples. simpl.
  destruct (opus_packet_duration _) as [d|] eqn:E; [|done]. apply opus_packet_duration_bound in E; [|done].
  apply Z.div_pos; [|done]. unfold sat_mul, u64_max. lia.
Qed.
Lemma intervals_sorted l : StronglySorted Z.le (map tk_at l) -> Forall (fun d => 0 <= d) (intervals l).
Proof.
  induction l as [|a [|b l] IH]; [constructor|constructor|]. intros [Hs Ha]%StronglySorted_inv.
  simpl in *. constructor; [apply Forall_inv in Ha; lia|by apply IH].
Qed.
Lemma Forall_sublist {A} (P : A -> Prop) (l k : list A) : l `sublist_of` k -> Forall P k -> Forall P l.
Proof. induction 1; intros Hk; inversion Hk; subst; eauto. Qed.
Lemma sorted_sublist {A} (R : relation A) (l k : list A) : l `sublist_of` k -> StronglySorted R k -> StronglySorted R l.
Proof.
  induction 1 as [|x l k Hs IH|x l k Hs IH]; intros Hk; [constructor| |]; apply StronglySorted_inv in Hk as [Hk Hx].
  - constructor; [by apply IH|]. by eapply Forall_sublist.
  - by apply IH.
Qed.
Lemma sublist_map {A B} (f : A -> B) (l k : list A) : l `sublist_of` k -> map f l `sublist_of` map f k.
Proof. induction 1; simpl; by constructor. Qed.
Lemma stretch_sublist h l : l ∈ stretches h -> l `sublist_of` packets h.
Proof.
  intros (a & b & E)%list_elem_of_split. unfold packets. rewrite E, concat_app. simpl.
  by apply sublist_inserts_l, sublist_inserts_r.
Qed.

Lemma arriving_sublist l k : l `sublist_of` k -> arriving k -> arriving l.
Proof.
  intros Hs (Hb & Hr & Hn). split_and!.
  - by eapply Forall_sublist.
  - eapply sorted_sublist; [|exact Hr]. by apply sublist_map.
  - apply sublist_length in Hs. unfold zlen in *. lia.
Qed.
(** The observer hears such frames in order. *)
Lemma arriving_sane h l : packets h = map heard_of l -> arriving l -> sane h.
Proof.
  intros E (Hb & Hr & Hn). split; [|unfold zlen in *; by rewrite E, length_map].
  unfold ticks. apply Forall_map, Forall_forall. intros st Hst%stretch_sublist. rewrite E in Hst.
  apply (sublist_map heard_tick) in Hst. split.
  - eapply Forall_sublist; [exact Hst|]. rewrite map_map. apply Forall_map.
    eapply Forall_impl; [exact Hb|]. intros f Hf. by apply heard_duration.
  - apply intervals_sorted. eapply sorted_sublist; [by apply sublist_map|]. by rewrite !map_map.
Qed.

Section Accepted.
Context `{OpusDecoderApi}.

Lemma stats_answer o o' (x : option AudioValidationStats) :
  (st ← observer_accumulator_stats; mret (Some st)) o = (o', Ok x) -> x = Some (observed_stats o').
Proof. unfold observer_accumulator_stats. intros E. by inv_stm. Qed.
Lemma drain_answers deadline turns o o' st : drain_loop deadline turns o = (o', Ok (Some st)) -> st = observed_stats o'.
Proof.
  induction turns as [|t turns IH] in o |- *; simpl; intros E; [by inv_stm|].
  case_match; [by apply stats_answer in E as [= ->]|].
  destruct (rt_received t) as [frame|e|]; [inv_stm; eauto| |by inv_stm].
  case_match; [by apply stats_answer in E as [= ->]|by inv_stm].
Qed.
Lemma answers_go_on armed started from turns at_ resumed w o o' st :
  answer_pause armed started from turns w o <> (o', Ok (Finished st)) /\
  answer_resume at_ resumed w o <> (o', Ok (Finished st)).
Proof.
  split; intros E.
  - unfold answer_pause in E. inv_stm. repeat (case_match; inv_stm); discriminate.
  - unfold answer_resume in E. inv_stm. repeat (case_match; inv_stm); discriminate.
Qed.
Lemma watch_finishes expected deadline t w o o' st :
  watch_turn expected deadline t w o = (o', Ok (Finished st)) ->
  st = observed_stats o' /\ PlaybackValidator.observer_thresholds_satisfied st expected = true.
Proof.
  unfold watch_turn. case_match; [by intros ?|].
  destruct (wt_selected t) as [notified at_ drain|received|armed started from turns|at_ turns| |[frame|e|]]; intros E.
  - inv_stm. repeat case_match; inv_stm; simplify_eq. unfold drain_observer_audio_after_track_ended in *.
    match goal with E : _ = Ok (Some _) |- _ => apply context_Ok in E as -> end.
    inv_stm. match goal with E : drain_loop _ _ _ = _ |- _ => apply drain_answers in E; by subst end.
  - case_match; inv_stm; discriminate.
  - case_match; [inv_stm; discriminate|]. by apply (answers_go_on _ _ _ _ 0 []) in E.
  - case_match; [inv_stm; discriminate|]. by apply (answers_go_on [] 0 0 []) in E.
  - inv_stm. discriminate.
  - inv_stm. discriminate.
  - inv_stm. by case_match.
  - by inv_stm.
Qed.
Lemma watch_accepts expected deadline turns w o o' w' st :
  watch_loop expected deadline turns w o = (o', Ok (w', Some st)) ->
  st = observed_stats o' /\ PlaybackValidator.observer_thresholds_satisfied st expected = true.
Proof.
  induction turns as [|t turns IH] in w, o |- *; simpl; intros E; [by inv_stm|].
  apply stm_bind_Ok in E as (o1 & r & Hr & E). destruct r as [w1|st1|]; [by eapply IH| |by inv_stm].
  inv_stm. by eapply watch_finishes.
Qed.
(** The measures of an accumulator as numbers of its statistics. *)
Lemma heard_measures a h :
  tracked a h -> sane h -> 0 < as_observed_packet_count (stats a) ->
  let s := stats a in
  as_observed_packet_count s = zlen (packets h) /\
  as_decoded_audio_ms s = duration_millis (sum_by media (ticks h)) /\
  as_decoded_audio_to_wall_clock_ratio_ppm s =
    media_to_wall_clock_ratio_ppm_duration (sum_by media (ticks h)) (sum_by span (ticks h)) /\
  we_count (lw_fast (as_long_windows s)) = count fast_window (long_windows h) /\
  we_count (lw_slow (as_long_windows s)) = count slow_window (long_windows h).
Proof.
  intros [_ Hm] Hs Hpos s. pose proof (Hm Hs) as M. subst s. unfold stats in *. simpl in *.
  rewrite (proj2 (Z.ltb_lt _ _) Hpos), (me_decoded _ _ M), (me_wall _ _ M). split_and!; try done; apply M.
Qed.
Lemma count_none P ws : count P ws = 0 -> Forall (fun w => P w = false) ws.
Proof.
  unfold count. intros Hc. apply Forall_forall. intros w Hw. destruct (P w) eqn:E; [|done].
  assert (Hin : w ∈ List.filter P ws) by (apply list_elem_of_In, List.filter_In; split; [by apply list_elem_of_In|done]).
  destruct (List.filter P ws) as [|x l]; [by apply elem_of_nil in Hin|]. unfold zlen in Hc. simpl in Hc. lia.
Qed.
Definition on_tempo (ratio : Z) : Prop :=
  PlaybackValidator.MEDIA_TO_WALL_CLOCK_MIN_RATIO_PPM <= ratio <= PlaybackValidator.MEDIA_TO_WALL_CLOCK_MAX_RATIO_PPM.

(** C23. A run the observer accepts was heard: however commands, proofs (failed
    ones included) and frames interleave, the statistics it returns are those
    of frames it was handed, in the order they came, which form one RTP stream
    of at least 120 packets with the audio the source promises, as fast as the
    clock within two percent, over the whole run and in every rolling window
    between two pauses. *)
Theorem accepted_run_was_heard expected started_at turns o' w st :
  observe_audio_until_track_ended expected started_at turns (mkObservation Accumulator_new None true)
    = (o', Ok (w, Some st)) ->
  arriving (watch_frames turns) ->
  exists h l, l `sublist_of` watch_frames turns /\ packets h = map heard_of l /\ one_stream h /\
    as_observed_packet_count st = zlen l /\ 120 <= zlen l /\
    PlaybackValidator.required_observer_decoded_audio_ms expected <= duration_millis (sum_by media (ticks h)) /\
    on_tempo (media_to_wall_clock_ratio_ppm_duration (sum_by media (ticks h)) (sum_by span (ticks h))) /\
    Forall (fun w => on_tempo (window_ratio w)) (long_windows h).
Proof.
  intros E Ha. pose proof (watch_accepts _ _ _ _ _ _ _ _ E) as [-> Hok].
  destruct (hearing_watch expected (started_at + LIVE_CONTRACT_TIMEOUT) turns Watch_start
    (mkObservation Accumulator_new None true) (mkHistory [] [])) as (h & l & Ht & Hp & Hs).
  { split; [apply follows_new|intros _; apply measures_new]. }
  unfold observe_audio_until_track_ended in E. rewrite E in Ht. simpl in Ht, Hp.
  assert (Hsane : sane h) by (eapply arriving_sane; [done|by eapply arriving_sublist]).
  unfold PlaybackValidator.observer_thresholds_satisfied in Hok. rewrite !andb_true_iff, ?Z.leb_le, ?Z.ltb_lt, ?Z.eqb_eq in Hok.
  unfold PlaybackValidator.MIN_OBSERVED_PACKET_COUNT in Hok. destruct_and? Hok.
  destruct (heard_measures _ _ Ht Hsane) as (Hn & Hd & Hr & Hf & Hsl); [unfold observed_stats in *; lia|].
  unfold observed_stats in *. rewrite Hp in Hn. unfold zlen in Hn. rewrite length_map in Hn. fold (zlen l) in Hn.
  exists h, l. split_and!; [done|done|by destruct Ht as [[]]|done|lia|lia|split; lia|].
  assert (Hfast : Forall (fun w => fast_window w = false) (long_windows h)) by (apply count_none; lia).
  assert (Hslow : Forall (fun w => slow_window w = false) (long_windows h)) by (apply count_none; lia).
  eapply Forall_impl; [apply Forall_and; exact (conj Hfast Hslow)|]. intros x [Hx1 Hx2].
  unfold fast_window, slow_window in *. apply Z.ltb_ge in Hx1, Hx2.
  split; [exact Hx2|exact Hx1].
Qed.
End Accepted.

(** ** A pause that is proved *)

Definition activity_of (t : PauseTurn) : option ObservedVoiceActivity :=
  match pt_received t with Ok a => Some a | _ => None end.
Definition stop_frame (t : PauseTurn) : bool :=
  match activity_of t with
  | Some (ActivityAudio frame) => bool_decide (of_payload frame = OPUS_STOP_SILENCE_FRAME)
  | _ => false
  end.
Definition speaking_state (t : PauseTurn) : bool :=
  match activity_of t with Some (ActivitySpeaking _) => true | _ => false end.
(** Nothing but stop-silence frames and states without the microphone. *)
Definition calm (t : PauseTurn) : bool :=
  stop_frame t || match activity_of t with Some (ActivitySpeaking state) => negb (microphone state) | _ => false end.
Definition stops (turns : list PauseTurn) : Z := zlen (List.filter stop_frame turns).
Definition timed_out (t : PauseTurn) : bool :=
  match pt_received t with Err e => is_voice_receive_timeout e | _ => false end.

Section Pause.
Context `{OpusDecoderApi}.

Lemma verdict_silence observed at_ format args s proof :
  pause_verdict observed at_ (bail format args) s = Ok proof -> pp_rtp_silence_observed proof = ps_rtp_silence_observed s.
Proof. unfold pause_verdict. intros E. repeat case_match; by simplify_eq/=. Qed.

(** A round that ends the proof ran out of time. *)
Lemma turn_ends started transition t s o o' proof :
  pause_turn started transition t s o = (o', Ok (inr proof)) ->
  pp_rtp_silence_observed proof = ps_rtp_silence_observed s /\
  (timed_out t = true \/ exists observed, active_deadline transition observed s < pt_checked_at t).
Proof.
  unfold pause_turn. intros E. apply stm_bind_Ok in E as (o1 & n & E1 & E). cbv beta zeta in E.
  destruct (Z.ltb_spec (active_deadline transition (0 <? n) s) (pt_checked_at t)).
  - inv_stm. split; [by eapply verdict_silence|]. right. by eexists.
  - unfold timed_out. destruct (pt_received t) as [[frame|packet|state|user]|e|]; [inv_stm; discriminate..| |by inv_stm].
    case_match; [|by inv_stm]. inv_stm. split; [by eapply verdict_silence|by left].
Qed.
(** A round that goes on: what it received and what it makes of the state. *)
Lemma turn_goes_on started transition t s s' o o' :
  pause_turn started transition t s o = (o', Ok (inl s')) ->
  exists activity, activity_of t = Some activity /\
    if ps_rtp_silence_observed s
    then ps_rtp_silence_observed s' = true /\ speaking_state t = true /\
         (ps_silence_deadline s' = ps_silence_deadline s \/
          ps_silence_deadline s' = Some (pt_silent_at t + PAUSE_OBSERVER_SILENCE_DURATION))
    else
      let n := if stop_frame t then sat_add u64_max (ps_consecutive_stop_silence_frames s) 1
               else if calm t then ps_consecutive_stop_silence_frames s else 0 in
      ps_consecutive_stop_silence_frames s' = n /\ ps_rtp_silence_observed s' = stop_frame t && (5 <=? n) /\
      (ps_rtp_silence_observed s' = true ->
       ps_silence_deadline s' = Some (pt_silent_at t + PAUSE_OBSERVER_SILENCE_DURATION)).
Proof.
  unfold pause_turn, calm, stop_frame, speaking_state, activity_of. intros E.
  apply stm_bind_Ok in E as (o1 & n & E1 & E). cbv beta zeta in E. case_match; [inv_stm; discriminate|].
  destruct (pt_received t) as [[frame|packet|state|user]|e|]; [| | |by inv_stm| |by inv_stm].
  - eexists. split; [done|]. apply stm_bind_Ok in E as (o2 & s2 & E2 & E). unfold pause_audio in E2. inv_stm. simplify_eq.
    destruct (ps_rtp_silence_observed s); simpl in *; [by inv_stm|]. inv_stm. simplify_eq.
    destruct (bool_decide _); simpl; [|done].
    change (Z.of_nat PlaybackValidator.PAUSE_STOP_SILENCE_FRAME_COUNT) with 5. by destruct (5 <=? _).
  - eexists. split; [done|]. inv_stm. simplify_eq. unfold pause_rtp in *.
    destruct (ps_rtp_silence_observed s); simpl in *; by simplify_eq.
  - eexists. split; [done|]. inv_stm. simplify_eq. unfold pause_speaking in *.
    destruct (microphone state); simpl; [apply bail_if_then in Heqr as [_ Heqr]|]; simplify_eq/=;
      destruct (ps_rtp_silence_observed s); simpl; split_and!; auto; discriminate.
  - case_match; inv_stm; discriminate.
Qed.

(** Once the tail was heard, speaking states may follow, and nothing else. *)
Lemma pause_stays_silent started transition turns s o o' proof base d :
  pause_loop started transition turns s o = (o', Ok (Some proof)) ->
  ps_rtp_silence_observed s = true -> ps_silence_deadline s = Some d -> base + PAUSE_OBSERVER_SILENCE_DURATION <= d ->
  Forall (fun t => base <= pt_silent_at t) turns ->
  exists window final rest, turns = window ++ final :: rest /\ Forall (fun t => speaking_state t = true) window /\
    (timed_out final = true \/ base + PAUSE_OBSERVER_SILENCE_DURATION < pt_checked_at final).
Proof.
  induction turns as [|t turns IH] in s, o, d |- *; intros E Hrtp Hd Hbase Hturns; [by inv_stm|].
  apply Forall_cons in Hturns as [Ht Hturns]. cbn [pause_loop] in E. apply stm_bind_Ok in E as (o1 & r & Er & E).
  destruct r as [s'|proof'].
  - apply turn_goes_on in Er as (a & _ & Er). rewrite Hrtp in Er. destruct Er as (Hrtp' & Hsp & Hd').
    assert (exists d', ps_silence_deadline s' = Some d' /\ base + PAUSE_OBSERVER_SILENCE_DURATION <= d') as (d' & E' & Hle).
    { destruct Hd' as [Hd'|Hd']; rewrite Hd'; [by exists d|]. eexists. split; [done|lia]. }
    destruct (IH _ _ _ E Hrtp' E' Hle Hturns) as (window & final & rest & -> & Hw & Hf).
    exists (t :: window), final, rest. split_and!; [done|by constructor|done].
  - inv_stm. apply turn_ends in Er as [_ Hend]. exists [], t, turns. split_and!; [done|done|].
    destruct Hend as [?|[observed Hlt]]; [by left|]. right. unfold active_deadline in Hlt. rewrite Hrtp, Hd, andb_false_r in Hlt.
    simpl in Hlt. lia.
Qed.

(** The tail: from a state that has counted [n] stop-silence frames. *)
Lemma pause_hears_tail started transition turns s o o' proof :
  pause_loop started transition turns s o = (o', Ok (Some proof)) ->
  pp_rtp_silence_observed proof = true -> ps_rtp_silence_observed s = false ->
  exists before tail stop turns' s' o1,
    turns = before ++ tail ++ stop :: turns' /\ Forall (fun t => calm t = true) tail /\ stop_frame stop = true /\
    (5 <= stops (tail ++ [stop]) \/ (before = [] /\ 5 <= ps_consecutive_stop_silence_frames s + stops (tail ++ [stop]))) /\
    pause_loop started transition turns' s' o1 = (o', Ok (Some proof)) /\
    ps_rtp_silence_observed s' = true /\
    ps_silence_deadline s' = Some (pt_silent_at stop + PAUSE_OBSERVER_SILENCE_DURATION).
Proof.
  induction turns as [|t turns IH] in s, o |- *; intros E Hp Hs; [by inv_stm|].
  cbn [pause_loop] in E. apply stm_bind_Ok in E as (o1 & r & Er & E). destruct r as [s1|proof'].
  2:{ inv_stm. apply turn_ends in Er as [Er _]. congruence. }
  apply turn_goes_on in Er as (a & _ & Er). rewrite Hs in Er. destruct Er as (Hn & Hr & Hd).
  destruct (ps_rtp_silence_observed s1) eqn:Hs1.
  - symmetry in Hr. apply andb_true_iff in Hr as [Hstop Hfive]. exists [], [], t, turns, s1, o1.
    rewrite Hstop in Hfive. split_and!; auto. right. split; [done|]. unfold stops. simpl. rewrite Hstop. unfold sat_add in Hfive.
    change (zlen [t]) with 1. lia.
  - destruct (IH _ _ E Hp Hs1) as (before & tail & stop & turns' & s' & o2 & -> & Hcalm & Hst & Hc & Hrest).
    destruct Hc as [Hc|[-> Hc]]; [by exists (t :: before), tail, stop, turns', s', o2; auto 10|].
    destruct (calm t) eqn:Ht.
    + exists [], (t :: tail), stop, turns', s', o2. split_and!; auto; [|by apply Hrest..]. right. split; [done|].
      rewrite Hn in Hc. unfold stops in *. simpl. destruct (stop_frame t); [|lia].
      unfold zlen, sat_add in *. simpl. lia.
    + exists [t], tail, stop, turns', s', o2. split_and!; auto; [|by apply Hrest..]. left.
      assert (stop_frame t = false) as Hf by (unfold calm in Ht; by apply orb_false_iff in Ht as [-> _]).
      rewrite Hn, Hf in Hc. lia.
Qed.

(** C24. A pause proved by its silence was silent: five stop-silence frames of
    the service came, with no other frame, packet or microphone state among
    them, and from the last of them on no frame, packet or disconnect until
    the receive timed out or 600 ms had passed. *)
Theorem proved_pause_was_silent started from turns o o' proof :
  prove_observer_pause_silence started from turns o = (o', Ok (Some proof)) ->
  pp_rtp_silence_observed proof = true ->
  StronglySorted Z.le (map pt_silent_at turns) ->
  exists before tail stop window final rest,
    turns = before ++ tail ++ stop :: window ++ final :: rest /\
    Forall (fun t => calm t = true) tail /\ stop_frame stop = true /\ 5 <= stops (tail ++ [stop]) /\
    Forall (fun t => speaking_state t = true) window /\
    (timed_out final = true \/ pt_silent_at stop + PAUSE_OBSERVER_SILENCE_DURATION < pt_checked_at final).
Proof.
  intros E Hp Hclock.
  destruct (pause_hears_tail _ _ _ _ _ _ _ E Hp eq_refl)
    as (before & tail & stop & turns' & s' & o1 & -> & Hcalm & Hstop & Hfive & E' & Hs' & Hd').
  assert (Hlate : Forall (fun t => pt_silent_at stop <= pt_silent_at t) turns').
  { rewrite app_assoc, map_app in Hclock. eapply sorted_sublist in Hclock; [|by apply sublist_inserts_l]. simpl in Hclock.
    apply StronglySorted_inv in Hclock as [_ Hl]. apply Forall_map. exact Hl. }
  destruct (pause_stays_silent _ _ _ _ _ _ _ _ _ E' Hs' Hd' (Z.le_refl _) Hlate) as (window & final & rest & -> & Hw & Hf).
  exists before, tail, stop, window, final, rest. split_and!; auto. destruct Hfive as [?|[_ ?]]; simpl in *; lia.
Qed.
End Pause.

(** ** A resume that is proved *)

Definition resumed_activity (t : ReceiveTurn ObservedVoiceActivity) : option ObservedVoiceActivity :=
  match rt_received t with Ok a => Some a | _ => None end.
Definition starts_speaking (t : ReceiveTurn ObservedVoiceActivity) : bool :=
  match resumed_activity t with Some (ActivitySpeaking state) => microphone state | _ => false end.
Definition carries_media (t : ReceiveTurn ObservedVoiceActivity) : bool :=
  match resumed_activity t with Some (ActivityAudio _) | Some (ActivityRtpPacket _) => true | _ => false end.
Definition disconnects (t : ReceiveTurn ObservedVoiceActivity) : bool :=
  match resumed_activity t with Some (ActivityDisconnect _) | None => true | _ => false end.
(** The microphone comes before any audio. *)
Fixpoint spoken_first (turns : list (ReceiveTurn ObservedVoiceActivity)) : Prop :=
  match turns with
  | [] => True
  | t :: turns => starts_speaking t = true \/ (carries_media t = false /\ spoken_first turns)
  end.

Section Resume.
Context `{OpusDecoderApi}.

Lemma frame_counted frame o o' st :
  record_observer_audio_frame frame o = (o', Ok st) ->
  st = observed_stats o' /\ as_observed_packet_count (observed_stats o') = as_observed_packet_count (observed_stats o) + 1.
Proof.
  unfold record_observer_audio_frame, observed_stats. intros E.
  destruct (observe_packet_at (frame_packet frame) (of_received_at frame) (on_accumulator o)) as [a r] eqn:Ea.
  destruct r as [s|e|]; simpl in E; simplify_eq. simpl.
  assert (Hs : observer_step (on_accumulator o) (Observe (frame_packet frame) (of_received_at frame)) = Ok a) by (simpl; by rewrite Ea).
  apply observe_accepted in Hs as (d & pcm & a1 & _ & Hp & _ & Ha). injection Hp as Hp _ _ _. split.
  - unfold observe_packet_at in Ea. apply stm_bind_Ok in Ea as (a2 & [samples pcm'] & _ & Ea). by inv_stm.
  - subst a. unfold stats. cbn [as_observed_packet_count on_accumulator]. rewrite <- Hp. apply recorded_count.
Qed.

(** What was heard, from a state that has counted [n] packets. *)
Definition resumes (deadline ms : Z) (explicit started : bool) (n : Z) (turns : list (ReceiveTurn ObservedVoiceActivity))
    (proof : ObserverResumeProof) : Prop :=
  RESUME_OBSERVER_PACKET_TARGET <= rp_observed_packet_count proof /\ rp_resume_decoded_audio_start_ms proof = ms /\
  exists heard rest, turns = heard ++ rest /\
    Forall (fun t => rt_checked_at t <= deadline /\ disconnects t = false) heard /\
    rp_observed_packet_count proof = n + zlen (resume_frames heard) /\
    rp_speaking_started proof = started || existsb starts_speaking heard /\
    (started = false -> explicit = false -> spoken_first heard).
Lemma resumes_now deadline ms explicit started n turns :
  (RESUME_OBSERVER_PACKET_TARGET <=? sat_sub n 0) = true ->
  resumes deadline ms explicit started n turns (mkResumeProof (sat_sub n 0) started ms).
Proof.
  intros Hn%Z.leb_le. split_and!; [done|done|]. exists [], turns. simpl. rewrite orb_false_r.
  split_and!; [done|constructor| |done|done]. unfold RESUME_OBSERVER_PACKET_TARGET, sat_sub in *. change (zlen _) with 0. lia.
Qed.
Lemma resumes_cons deadline ms explicit started n t turns proof :
  rt_checked_at t <= deadline -> disconnects t = false ->
  (started = false -> explicit = false -> starts_speaking t = true \/ carries_media t = false) ->
  resumes deadline ms explicit (started || starts_speaking t) (n + zlen (activity_frames (rt_received t))) turns proof ->
  resumes deadline ms explicit started n (t :: turns) proof.
Proof.
  intros Ht Hd Hs (H4 & Hms & heard & rest & -> & Hall & Hn & Hsp & Hf). split_and!; [done|done|].
  exists (t :: heard), rest. unfold resume_frames in *. simpl.
  rewrite zlen_app. split_and!; [done|by constructor|lia|by rewrite orb_assoc|].
  intros -> ->. destruct (Hs eq_refl eq_refl) as [?|?]; [by left|].
  destruct (starts_speaking t); [by left|]. right. auto.
Qed.

Lemma resume_hears deadline start ms explicit turns started o o' proof :
  resume_loop deadline start ms explicit turns started o = (o', Ok (Some proof)) ->
  resumes deadline ms explicit started (as_observed_packet_count (observed_stats o) - start) turns proof.
Proof.
  induction turns as [|t turns IH] in started, o |- *; cbn [resume_loop]; intros E; [by inv_stm|].
  apply stm_bind_Ok in E as (o0 & count & E0 & E). injection E0 as <- <-. cbv beta zeta in E.
  destruct (Z.ltb_spec deadline (rt_checked_at t)) as [|Htime]; [by inv_stm|].
  destruct t as [at_ r]; cbn [rt_checked_at rt_received] in *.
  assert (Hsub : forall n, sat_sub n start = sat_sub (n - start) 0) by (intros; unfold sat_sub; lia).
  destruct r as [[frame|packet|state|user]|e|]; [| | |by inv_stm|by case_match; inv_stm|by inv_stm].
  - apply stm_bind_Ok in E as (o1 & u & E1 & E). unfold lift in E1. injection E1 as -> Hu%bail_if_Ok.
    apply stm_bind_Ok in E as (o2 & st & E2 & E). cbv beta zeta in E. apply frame_counted in E2 as [-> Hn].
    apply resumes_cons; [done|done|by intros -> ->|]. cbn [rt_received activity_frames]. rewrite orb_false_r.
    replace (_ - start + zlen [frame]) with (as_observed_packet_count (observed_stats o2) - start)
      by (rewrite Hn; change (zlen [frame]) with 1; lia).
    rewrite Hsub in E. case_match; [|by apply IH]. inv_stm. simplify_eq. by apply resumes_now.
  - apply stm_bind_Ok in E as (o1 & u & E1 & E). unfold lift in E1. injection E1 as -> Hu%bail_if_Ok.
    apply resumes_cons; [done|done|by intros -> ->|]. rewrite Z.add_0_r, orb_false_r. by apply IH.
  - apply resumes_cons; [done|done|by intros; right|]. rewrite Z.add_0_r. unfold starts_speaking. cbn [resumed_activity rt_received].
    rewrite Hsub in E. destruct (microphone state); [rewrite orb_true_r|rewrite orb_false_r; by apply IH].
    case_match; [|by apply IH]. inv_stm. simplify_eq. by apply resumes_now.
Qed.

(** A resume that is proved was heard: within ten seconds and without a
    disconnect, the frames the proof counts were recorded, at least four, and
    unless the pause ended in an explicit boundary the microphone of the
    service was announced before any of its audio. *)
Theorem proved_resume_was_heard started_at explicit turns o o' proof :
  prove_observer_resume_audio started_at explicit turns o = (o', Ok (Some proof)) ->
  rp_resume_decoded_audio_start_ms proof = as_decoded_audio_ms (observed_stats o) /\
  exists heard rest, turns = heard ++ rest /\
    Forall (fun t => rt_checked_at t <= started_at + RESUME_OBSERVER_AUDIO_TIMEOUT /\ disconnects t = false) heard /\
    4 <= zlen (resume_frames heard) /\ rp_observed_packet_count proof = zlen (resume_frames heard) /\
    rp_speaking_started proof = existsb starts_speaking heard /\
    (explicit = false -> spoken_first heard).
Proof.
  unfold prove_observer_resume_audio. intros E. apply stm_bind_Ok in E as (o0 & st & E0 & E). injection E0 as <- <-.
  apply resume_hears in E as (H4 & Hms & heard & rest & -> & Hall & Hn & Hsp & Hf).
  split; [done|]. exists heard, rest. unfold RESUME_OBSERVER_PACKET_TARGET in *. split_and!; auto; lia.
Qed.
End Resume.

(** ** A run with a pause *)

Module Samples.
(** A decoder that plays a loud click at the start of each frame. *)
#[local] Instance click_decoder : OpusDecoderApi := {|
  OpusDecoder := unit;
  OpusDecoder_new _ _ := Ok tt;
  OpusDecoder_decode d _ n pcm := (d, match pcm with _ :: rest => S754_finite false 8388608 (-23) :: rest | [] => [] end, Ok n);
|}.
Definition sent (payload : list Z) (shift : Z) (n : nat) : ObservedAudioFrame :=
  let n := Z.of_nat n in mkObservedAudioFrame "42" 7 n (n * 960) ((n * 20 + shift) * 1000000) payload.
Definition music : Z -> nat -> ObservedAudioFrame := sent [0xfc; 0].
Definition heard_frame (f : ObservedAudioFrame) : WatchTurn := mkWatchTurn 0 (SelFrame (Ok f)).
Definition at_ms (ms : Z) (r : result VoiceError ObservedVoiceActivity) : PauseTurn :=
  mkPauseTurn (ms * 1000000) r (ms * 1000000) (ms * 1000000) (ms * 1000000) (ms * 1000000).
Definition stop_turns (first : nat) : list PauseTurn :=
  map (fun n => at_ms (Z.of_nat n * 20) (Ok (ActivityAudio (sent OPUS_STOP_SILENCE_FRAME 0 n)))) (seq first 5).
Definition played_run : list WatchTurn :=
  map (fun n => heard_frame (music 0 n)) (seq 0 280) ++
  [mkWatchTurn 0 (SelPause [mkArmedTurn Begun (Err (InvalidState "voice receive timed out"))] 5590000000 5590000000
     (stop_turns 280 ++ [at_ms 6300 (Err (InvalidState "voice receive timed out"))]));
   mkWatchTurn 0 (SelResume 0 (map (fun n => mkReceiveTurn 0 (Ok (ActivityAudio (music 3000 n)))) (seq 285 4)))] ++
  map (fun n => heard_frame (music 3000 n)) (seq 289 6) ++
  [mkWatchTurn 0 (SelTrackEnded true 0 [mkReceiveTurn 0 (Err (InvalidState "voice receive timed out"))])].


Fixpoint nondecreasing (l : list Z) : bool :=
  match l with a :: ((b :: _) as l') => (a <=? b) && nondecreasing l' | _ => true end.
Lemma nondecreasing_sorted l : nondecreasing l = true -> StronglySorted Z.le l.
Proof.
  intros Hl. apply Sorted_StronglySorted; [intros ???; lia|].
  induction l as [|a [|b l] IH]; [constructor|by repeat constructor|].
  cbn [nondecreasing] in Hl. apply andb_true_iff in Hl as [Hab Hl]. constructor; [by apply IH|]. constructor. lia.
Qed.
Lemma accepted_run_was_heard_witness :
  exists h l, l `sublist_of` watch_frames played_run /\ packets h = map heard_of l /\ one_stream h /\ 120 <= zlen l.
Proof.
  assert (Hok : match (observe_audio_until_track_ended 5500 0 played_run (mkObservation Accumulator_new None true)).2 with
                | Ok (_, Some _) => true | _ => false end = true) by (vm_compute; reflexivity).
  destruct (observe_audio_until_track_ended 5500 0 played_run (mkObservation Accumulator_new None true))
    as [o' [[w [st|]]|e|]] eqn:E; [|discriminate Hok..].
  destruct (accepted_run_was_heard _ _ _ _ _ _ E) as (h & l & Hl & Hp & Hs & _ & Hn & _).
  - split; [|split].
    + apply (bool_decide_unpack (Forall (fun f => Forall (fun b => 0 <= b < 256) (of_payload f)) (watch_frames played_run))).
      vm_compute. exact I.
    + apply nondecreasing_sorted. vm_compute. reflexivity.
    + vm_compute. discriminate.
  - exists h, l. split_and!; [exact Hl|exact Hp|exact Hs|exact Hn].
Defined.

(** Five stop-silence frames, the gateway's stop, and the time runs out. *)
Definition silent_turns : list PauseTurn :=
  stop_turns 0 ++ [at_ms 100 (Ok (ActivitySpeaking (mkObservedSpeakingState "42" 7 0)));
                   at_ms 720 (Err (InvalidState "voice receive timed out"))].
Definition fresh_observation : Observation := mkObservation Accumulator_new None true.
Lemma proved_pause_was_silent_witness :
  exists before tail stop window final rest, silent_turns = before ++ tail ++ stop :: window ++ final :: rest /\
    5 <= stops (tail ++ [stop]) /\ Forall (fun t => speaking_state t = true) window.
Proof.
  assert (Hok : (prove_observer_pause_silence 0 0 silent_turns fresh_observation).2 = Ok (Some (mkPauseProof 600 true true)))
    by (vm_compute; reflexivity).
  destruct (prove_observer_pause_silence 0 0 silent_turns fresh_observation) as [o' r] eqn:E. simpl in Hok. subst r.
  destruct (proved_pause_was_silent _ _ _ _ _ _ E eq_refl)
    as (before & tail & stop & window & final & rest & Ht & _ & _ & Hs & Hw & _).
  - apply nondecreasing_sorted. vm_compute. reflexivity.
  - exists before, tail, stop, window, final, rest. split_and!; [exact Ht|exact Hs|exact Hw].
Defined.

Definition resumed_turns : list (ReceiveTurn ObservedVoiceActivity) :=
  mkReceiveTurn 0 (Ok (ActivitySpeaking (mkObservedSpeakingState "42" 7 1))) ::
  map (fun n => mkReceiveTurn 0 (Ok (ActivityAudio (music 0 n)))) (seq 0 6).
Lemma proved_resume_was_heard_witness :
  exists heard rest, resumed_turns = heard ++ rest /\ 4 <= zlen (resume_frames heard) /\ spoken_first heard.
Proof.
  assert (Hok : (prove_observer_resume_audio 0 false resumed_turns fresh_observation).2 = Ok (Some (mkResumeProof 4 true 0)))
    by (vm_compute; reflexivity).
  destruct (prove_observer_resume_audio 0 false resumed_turns fresh_observation) as [o' r] eqn:E. simpl in Hok. subst r.
  destruct (proved_resume_was_heard _ _ _ _ _ _ E) as (_ & heard & rest & Ht & _ & Hn & _ & _ & Hf).
  exists heard, rest. split_and!; [exact Ht|exact Hn|exact (Hf eq_refl)].
Defined.
End Samples.
