(* ===== verification/HealthyRun.v ===== *)
(** * A healthy playback

    The metrics of playbacks that run on time, as the service would publish
    them: one with a pause, long enough for the windows the validator asks for,
    and a short probe. The validator of PlaybackValidator.v accepts both, so
    what is proved of accepted playbacks is proved of something. *)

From S2P Require Import Prelude MetricsTransport.
From S2P Require PlaybackValidator.
From stdpp Require Import prelude strings sorting.
Open Scope Z_scope.

(** Depths in the order of their durations. *)
Definition shallower (a b : TwPlaybackBufferDepthSnapshot) : Prop := twb_duration_samples a <= twb_duration_samples b.
#[export] Instance shallower_dec : RelDecision shallower.
Proof. intros a b. unfold shallower. apply _. Defined.
#[export] Instance shallower_total : Total shallower.
Proof. intros a b. unfold shallower. lia. Qed.
#[export] Instance shallower_trans : Transitive shallower.
Proof. intros a b c. unfold shallower. lia. Qed.
#[export] Instance merge_depths : PlaybackValidator.DepthSort := {|
  PlaybackValidator.sort_depths l := merge_sort shallower l;
  PlaybackValidator.sort_depths_perm l := merge_sort_Permutation shallower l;
  PlaybackValidator.sort_depths_sorted l := StronglySorted_merge_sort shallower l;
|}.

Definition stats : Z -> Z -> Z -> Z -> Z -> Z -> TwDurationStatsSnapshot := mkTwDurationStatsSnapshot.
Definition no_stats : TwDurationStatsSnapshot := stats 0 0 0 0 0 0.
Definition depth_of : Z -> Z -> Z -> Z -> TwPlaybackBufferDepthSnapshot := mkTwPlaybackBufferDepthSnapshot.
Definition steady_depth (samples ms : Z) : TwPlaybackQueueDepthStatsSnapshot :=
  let d := depth_of (ms / 20) 0 ms (ms * 48) in mkTwPlaybackQueueDepthStatsSnapshot samples 0 d d d d d d.

(** Packet [i], which carries frame [frame] of the track, or silence. *)
Definition sent_event (i : Z) (frame : option Z) : TwPlaybackSendEventSnapshot :=
  mkTwPlaybackSendEventSnapshot i (match frame with Some _ => TC_Track | None => TC_BoundarySilence end) (20000 * i) (20000 * i) (20000 * i) 20 960
    (i mod 65536) (960 * i) (Some i) (const 1 <$> frame) (Z.mul 20 <$> frame) (Z.mul 960 <$> frame) (Z.mul 100 <$> frame)
    (match frame with Some _ => true | None => false end).
Definition indices (n : nat) : list Z := map Z.of_nat (seq 0 n).
(** [before] packets, five of silence, and [after] more. *)
Definition paused_sends (before after : nat) : list TwPlaybackSendEventSnapshot :=
  map (fun i => sent_event i (Some i)) (indices before) ++
  map (fun i => sent_event (Z.of_nat before + i) None) (indices 5) ++
  map (fun i => sent_event (Z.of_nat before + 5 + i) (Some (Z.of_nat before + i))) (indices after).
Definition queue_samples (phase : TwPreparedTrackQueueSamplePhase) (first : Z) : list TwPreparedTrackQueueDepthSampleSnapshot :=
  map (fun i => mkTwPreparedTrackQueueDepthSampleSnapshot (first + i) phase (depth_of 20 0 400 19200)) (indices 96).
Definition prepared (n : Z) : list TwPreparedPlayoutQueueEventSnapshot :=
  concat (map (fun i =>
    let event index kind depth := mkTwPreparedPlayoutQueueEventSnapshot index kind TQR_SteadyPlayback TC_Track 20 960
      i (960 * i) (Some i) (Some 1) (Some (20 * i)) (Some (960 * i)) (Some (100 * i)) depth in
    [event (2 * i) TQK_Enqueued (depth_of 160 0 400 19200);
     event (2 * i + 1) TQK_DequeuedToDeadlineSender (depth_of 159 0 397 19080)]) (indices (Z.to_nat n))).

(** A snapshot of a playback of [n] packets on time. *)
Definition on_time (video : string) (n windows late_windows : Z) (resumed_depth : TwPlaybackQueueDepthStatsSnapshot)
    (sends : list TwPlaybackSendEventSnapshot) (samples : list TwPreparedTrackQueueDepthSampleSnapshot)
    (interruptions : Z) (ended : bool) : TwPlaybackStabilitySnapshot := {|
  twm_available := true;
  twm_playback_epoch := 1;
  twm_video_id := Some video;
  twm_selected_itag := Some 250;
  twm_track_packet_count := n;
  twm_continuity_silence_packet_count := 0;
  twm_inserted_silence_duration_ms := 0;
  twm_track_interval := stats (n - 1) 20 22 25 19 28;
  twm_track_media_duration_sent_ms := 20 * n;
  twm_track_wall_clock_elapsed_ms := 20 * n;
  twm_track_media_to_wall_clock_ratio_ppm := 1000000;
  twm_track_fast_interval_count := 0;
  twm_track_fast_interval_min_ms := 0;
  twm_track_fast_interval_min_us := 0;
  twm_track_tempo_window_count := windows;
  twm_track_tempo_window_post_source_buffer_count := late_windows;
  twm_track_tempo_window_min_ratio_ppm := 1000000;
  twm_track_tempo_window_max_ratio_ppm := 1000000;
  twm_track_tempo_window_fast_count := 0;
  twm_track_tempo_window_fastest_ratio_ppm := 0;
  twm_track_tempo_window_fastest_media_ms := 0;
  twm_track_tempo_window_fastest_wall_clock_us := 0;
  twm_track_tempo_window_slow_count := 0;
  twm_track_tempo_window_slowest_ratio_ppm := 0;
  twm_track_tempo_window_slowest_media_ms := 0;
  twm_track_tempo_window_slowest_wall_clock_us := 0;
  twm_skipped_source_frame_count := 0;
  twm_skipped_source_duration_ms := 0;
  twm_skipped_source_duration_samples := 0;
  twm_tempo_rebase_count := 0;
  twm_expected_track_frame_count := n;
  twm_sent_track_frame_count := n;
  twm_silence_frame_count := 0;
  twm_frame_deficit_count := 0;
  twm_dropped_frame_count := 0;
  twm_late_frame_count := 0;
  twm_all_packet_interval := no_stats;
  twm_sender_lateness := stats n 0 2 4 0 5;
  twm_max_consecutive_late_packets := 0;
  twm_current_consecutive_late_packets := 0;
  twm_current_buffer_depth := PlaybackValidator.depth_default;
  twm_min_buffer_depth := PlaybackValidator.depth_default;
  twm_max_buffer_depth := PlaybackValidator.depth_default;
  twm_current_source_buffer_depth := PlaybackValidator.depth_default;
  twm_min_source_buffer_depth := PlaybackValidator.depth_default;
  twm_max_source_buffer_depth := PlaybackValidator.depth_default;
  twm_source_buffer_depth := Some (steady_depth 96 5000);
  twm_current_playout_buffer_depth := PlaybackValidator.depth_default;
  twm_min_playout_buffer_depth := PlaybackValidator.depth_default;
  twm_max_playout_buffer_depth := depth_of 20 10240 400 19200;
  twm_egress_buffer_target_ms := 400;
  twm_current_egress_buffer_depth := PlaybackValidator.depth_default;
  twm_min_egress_buffer_depth := PlaybackValidator.depth_default;
  twm_max_egress_buffer_depth := depth_of 20 10240 400 19200;
  twm_prepared_rtp_queue_depth_ms := 380;
  twm_prepared_track_queue_target_ms := 400;
  twm_prepared_track_queue_low_watermark_ms := 300;
  twm_prepared_track_queue_high_watermark_ms := 500;
  twm_active_pre_pause_prepared_track_queue_depth := Some (steady_depth 96 400);
  twm_active_post_resume_prepared_track_queue_depth := Some resumed_depth;
  twm_prepared_track_queue_depth_sample_count := zlen samples;
  twm_prepared_track_queue_empty_count := 0;
  twm_raw_send_events := sends;
  twm_raw_prepared_track_queue_samples := samples;
  twm_raw_prepared_playout_queue_events := prepared n;
  twm_current_scheduled_silence_queue_depth := PlaybackValidator.depth_default;
  twm_max_scheduled_silence_queue_depth := PlaybackValidator.depth_default;
  twm_current_boundary_queue_depth := PlaybackValidator.depth_default;
  twm_max_boundary_queue_depth := PlaybackValidator.depth_default;
  twm_prepared_track_packet_drop_count := 0;
  twm_prepared_silence_packet_drop_count := 0;
  twm_prepared_packet_rebuild_count := 0;
  twm_scheduled_silence_packet_count := 0;
  twm_pause_media_boundary_count := if ended then 1 else 0;
  twm_stop_media_boundary_count := 0;
  twm_recovery_media_boundary_count := 0;
  twm_natural_end_media_boundary_count := 0;
  twm_dave_transition_recovery_reached_builder_count := 0;
  twm_dave_transition_recovery_reached_deadline_sender_count := 0;
  twm_source_underrun_reached_builder_count := 0;
  twm_source_underrun_reached_deadline_sender_count := 0;
  twm_discarded_source_frame_count := 0;
  twm_discarded_source_duration_ms := 0;
  twm_discarded_source_duration_samples := 0;
  twm_stop_discarded_source_frame_count := 0;
  twm_stop_discarded_source_duration_ms := 0;
  twm_stop_discarded_source_duration_samples := 0;
  twm_interruption_discarded_source_frame_count := 0;
  twm_interruption_discarded_source_duration_ms := 0;
  twm_interruption_discarded_source_duration_samples := 0;
  twm_restored_source_frame_count := 0;
  twm_restored_source_duration_ms := 0;
  twm_restored_source_duration_samples := 0;
  twm_source_buffer_target_ms := 5000;
  twm_adaptive_buffer_target_ms := 5000;
  twm_max_adaptive_buffer_target_ms := 5000;
  twm_buffer_low_watermark_count := 0;
  twm_source_buffer_low_watermark_count := 0;
  twm_playout_buffer_low_watermark_count := 0;
  twm_buffer_underrun_count := 0;
  twm_playout_underrun_count := 0;
  twm_egress_underrun_count := 0;
  twm_egress_inserted_silence_duration_ms := 0;
  twm_egress_dropped_music_frame_count := 0;
  twm_egress_dropped_music_duration_ms := 0;
  twm_egress_dropped_music_duration_samples := 0;
  twm_source_underrun_count := 0;
  twm_rebuffer_count := 0;
  twm_refill_duration := stats n 0 1 1 0 1;
  twm_source_producer_fill_duration := no_stats;
  twm_producer_stall_duration := no_stats;
  twm_max_producer_lag_ms := 0;
  twm_http_retry_count := 0;
  twm_response_open_count := 0;
  twm_range_reopen_count := 0;
  twm_read_error_reopen_count := 0;
  twm_url_reresolve_count := 0;
  twm_pause_resume_first_intervals_ms := [];
  twm_post_stall_first_intervals_ms := [];
  twm_post_rebuffer_first_intervals_ms := [];
  twm_playout_sender_lateness := stats n 0 2 4 0 5;
  twm_playout_builder_prepare_duration := stats n 0 1 1 0 1;
  twm_sender_send_duration := stats n 0 1 2 0 2;
  twm_sender_loop_non_send_work_duration := stats n 0 1 1 0 1;
  twm_max_consecutive_playout_late_packets := 0;
  twm_max_consecutive_late_egress_ticks := 0;
  twm_speaking_prepare_duration := no_stats;
  twm_sender_forbidden_work_count := 0;
  twm_gateway_event_drain_duration := stats n 0 1 2 0 2;
  twm_gateway_event_drain_count := 0;
  twm_dave_transition_count := 0;
  twm_dave_transition_count_during_playback := 0;
  twm_stale_dave_send_prevented_count := 0;
  twm_controlled_media_interruption_count := 0;
  twm_media_clock_reset_count := 0;
  twm_egress_clock_reset_count := 0;
  twm_scheduler_late_reset_count := 0;
  twm_source_underrun_reset_count := 0;
  twm_pause_resume_reset_count := 0;
  twm_dave_transition_recovery_reset_count := 0;
  twm_gateway_interruptions := 0;
  twm_dave_interruptions := 0;
  twm_reconnect_interruptions := interruptions;
  twm_ended := ended;
|}.
Definition healthy_playback : TwPlaybackStabilitySnapshot :=
  on_time "video" 1000 902 652 (steady_depth 96 400) (paused_sends 500 500)
    (queue_samples TP_ActivePrePause 0 ++ queue_samples TP_ActivePostResume 96) 0 true.
Definition healthy_probe : TwPlaybackStabilitySnapshot :=
  on_time "video" 60 11 0 PlaybackValidator.queue_stats_default (map (fun i => sent_event i (Some i)) (indices 60))
    (queue_samples TP_ActivePrePause 0) 1 false.

(** Both are accepted. *)
Lemma healthy_playback_accepted : PlaybackValidator.validate_finished_playback_metrics healthy_playback "video" = Ok tt.
Proof. vm_compute. reflexivity. Qed.
Lemma healthy_probe_accepted : PlaybackValidator.validate_reconnect_probe_metrics healthy_probe "video" = Ok tt.
Proof. vm_compute. reflexivity. Qed.
