(* ===== verification/LiveRun.v ===== *)
(** * The flow of a live run

    The controller's side of a live run (controller.rs): it waits for the
    playback to complete while it pauses and resumes it with the observer's
    proofs, then reads the metrics and interrupts three more playbacks with a
    reconnection, a Stop and a LeaveVoice. The service, the event stream, the
    observer's task, the clock and the tasks of the runtime are asked
    questions ([Call]), and what they answer is a parameter, which may depend
    on how much has happened before. A loop takes as many rounds as its fuel; when that
    runs out it is still [Waiting]. *)

From S2P Require Import Prelude Anyhow Twilight MetricsTransport LiveContract.
From S2P Require PlaybackValidator ObserverProofs.
From stdpp Require Import prelude strings.
Open Scope Z_scope.

Definition LIVE_INTERRUPT_PROBE_TIMEOUT : Z := 60 * 1000000000.
Definition INTERRUPT_PROBE_PLAY_TASK_POLL_INTERVAL : Z := 100 * 1000000.
Definition PLAYBACK_METRICS_TIMEOUT : Z := 5 * 1000000000.
Definition PLAYBACK_METRICS_POLL_INTERVAL : Z := 100 * 1000000.
Definition ACTIVE_INTERRUPT_PROBE_MEDIA_SETTLE_DURATION : Z := 500 * 1000000.
Definition PAUSE_AFTER_PLAYBACK_START : Z := 10 * 1000000000.
Definition PAUSE_HOLD_DURATION : Z := 3 * 1000000000.

Record ObserverPlaybackProof : Type := mkPlaybackProof {
  op_pause_silence_ms : Z;
  op_pause_self_mute_observed : bool;
  op_pause_speaking_stopped : bool;
  op_pause_rtp_silence_observed : bool;
  op_resume_speaking_started : bool;
  op_resume_observed_packet_count : Z;
  op_resume_decoded_audio_start_ms : Z;
}.
Definition ObserverPlaybackProof_default : ObserverPlaybackProof := mkPlaybackProof 0 false false false false 0 0.
Definition with_pause (proof : ObserverProofs.ObserverPauseProof) (p : ObserverPlaybackProof) : ObserverPlaybackProof :=
  mkPlaybackProof (ObserverProofs.pp_silence_ms proof) (op_pause_self_mute_observed p)
    (ObserverProofs.pp_gateway_speaking_stopped proof) (ObserverProofs.pp_rtp_silence_observed proof)
    (op_resume_speaking_started p) (op_resume_observed_packet_count p) (op_resume_decoded_audio_start_ms p).
Definition with_resume (proof : ObserverProofs.ObserverResumeProof) (p : ObserverPlaybackProof) : ObserverPlaybackProof :=
  mkPlaybackProof (op_pause_silence_ms p) (op_pause_self_mute_observed p) (op_pause_speaking_stopped p)
    (op_pause_rtp_silence_observed p) (ObserverProofs.rp_speaking_started proof)
    (ObserverProofs.rp_observed_packet_count proof) (ObserverProofs.rp_resume_decoded_audio_start_ms proof).

(** The evidence holds the snapshots it is made from. *)
Record PostPlayControlEvidence : Type := mkPostPlayEvidence {
  pe_playback_metrics : option TwPlaybackStabilitySnapshot;
  pe_reconnect_probe_metrics : option TwPlaybackStabilitySnapshot;
}.
Definition PostPlayControlEvidence_default : PostPlayControlEvidence := mkPostPlayEvidence None None.

(** ** Questions and answers *)

(** A oneshot answer awaited with a timeout. *)
Inductive Waited (A : Type) : Type :=
| Got (a : A)
| Closed
| Elapsed.
Arguments Got {A}.
Arguments Closed {A}.
Arguments Elapsed {A}.
(** What joining a task gives; the text is that of the [JoinError]. *)
Inductive Joined : Type :=
| Returned (r : anyhow unit)
| JoinFailed (error : string).

Section LiveRun.
Context `{TM : TwilightModel}.

(** The next of the stream: its end, an error, or an event. *)
Definition StreamItem : Type := option (result string TwSessionEvent).

(** The proofs the observer is asked for. *)
Inductive ProofRequest : Type := RequestSpeaking | RequestPause | RequestResume.
Inductive Call : Type :=
| NextEvent
| NextEventWithin (remaining : Z)
| Now
| SleepUntil (at_ : Z)
| Sleep (duration : Z)
| CallPause
| CallResume
| CallStop
| CallLeaveVoice
| CallUpdateVoiceContext
| CallState
| CallPlaybackMetrics
| AwaitAudioStarted
| SendProofRequest (request : ProofRequest)
| AwaitArmed (request : ProofRequest)
| AwaitSpeakingProof
| SendBegin
| AwaitPauseProof
| AwaitResumeProof
| ConnectProbeClient
| SpawnPlay (video_id : string)
| PlayIsFinished
| JoinPlay
| JoinPlayWithin (limit : Z)
| AbortPlay.
Definition reply (c : Call) : Type :=
  match c with
  | NextEvent => StreamItem
  | NextEventWithin _ => option StreamItem
  | Now => Z
  | SleepUntil _ | Sleep _ | SpawnPlay _ | AbortPlay => unit
  | CallPause | CallResume | CallStop | CallLeaveVoice | CallUpdateVoiceContext | ConnectProbeClient => anyhow unit
  | CallState => anyhow StateSnapshot
  | CallPlaybackMetrics => anyhow TwPlaybackStabilitySnapshot
  | AwaitAudioStarted | AwaitArmed _ => Waited unit
  | SendProofRequest _ | SendBegin | PlayIsFinished => bool
  | AwaitSpeakingProof => Waited (anyhow unit)
  | AwaitPauseProof => Waited (anyhow ObserverProofs.ObserverPauseProof)
  | AwaitResumeProof => Waited (anyhow ObserverProofs.ObserverResumeProof)
  | JoinPlay => Joined
  | JoinPlayWithin _ => option Joined
  end.

(** The handle of the task that plays for a probe: polling it again after it
    has returned panics, and dropping it leaves the task running. *)
Inductive PlayHandle : Type := NoPlay | Running | Consumed | Detached.

(** What was asked and which events were taken, in order. *)
Inductive Action : Type :=
| Asked (c : Call)
| Took (event : TwSessionEvent).
Record World : Type := mkWorld {
  wo_trace : list Action;
  wo_play : PlayHandle;
  wo_contract : LiveContractState;
  wo_snapshot : LiveContractState;
  wo_playback : ObserverPlaybackProof;
  wo_playback_snapshot : option ObserverPlaybackProof;
  wo_evidence : PostPlayControlEvidence;
}.
Inductive Stop : Type :=
| Failed (error : AnyError)
| Waiting.
Abbreviation live := (stm World Stop).

Definition log_action (a : Action) (w : World) : World :=
  mkWorld (wo_trace w ++ [a]) (wo_play w) (wo_contract w) (wo_snapshot w) (wo_playback w) (wo_playback_snapshot w)
    (wo_evidence w).
Definition set_play (p : PlayHandle) (w : World) : World :=
  mkWorld (wo_trace w) p (wo_contract w) (wo_snapshot w) (wo_playback w) (wo_playback_snapshot w)
    (wo_evidence w).
Definition upd_contract (f : LiveContractState -> LiveContractState) (w : World) : World :=
  mkWorld (wo_trace w) (wo_play w) (f (wo_contract w)) (wo_snapshot w) (wo_playback w)
    (wo_playback_snapshot w) (wo_evidence w).
Definition update_live_contract_snapshot (w : World) : World :=
  mkWorld (wo_trace w) (wo_play w) (wo_contract w) (wo_contract w) (wo_playback w)
    (wo_playback_snapshot w) (wo_evidence w).
(** The proof and its snapshot change together. *)
Definition upd_playback (f : ObserverPlaybackProof -> ObserverPlaybackProof) (w : World) : World :=
  mkWorld (wo_trace w) (wo_play w) (wo_contract w) (wo_snapshot w) (f (wo_playback w))
    (Some (f (wo_playback w))) (wo_evidence w).
Definition set_evidence (e : PostPlayControlEvidence) (w : World) : World :=
  mkWorld (wo_trace w) (wo_play w) (wo_contract w) (wo_snapshot w) (wo_playback w)
    (wo_playback_snapshot w) e.

Definition wait_result {A} (elapsed closed : string) (r : Waited A) : anyhow A :=
  match r with
  | Got a => Ok a
  | Closed => context closed [] (bail "channel closed" [])
  | Elapsed => context elapsed [] (bail "deadline has elapsed" [])
  end.
Definition join_result (r : Joined) : anyhow (anyhow unit) :=
  match r with
  | Returned r => Ok r
  | JoinFailed error => context "active interrupt probe Play task panicked" [] (error_msg (Err error))
  end.
Definition next_session_event (item : StreamItem) : anyhow TwSessionEvent :=
  match item with
  | Some (Ok event) => Ok event
  | Some (Err error) => bail "event stream failed: {}" [Text error]
  | Some Panic => Panic
  | None => bail "event stream ended before live contract completed" []
  end.

Context (answer : nat -> forall c : Call, reply c).

Definition ask (c : Call) : live (reply c) := fun w => (log_action (Asked c) w, Ok (answer (length (wo_trace w)) c)).
Definition try {A} (r : anyhow A) : live A := lift (map_err Failed r).
(** [if let Err(error) = m { cleanup; return Err(error); }] *)
Definition on_failure {A} (m : live A) (cleanup : live unit) : live A := fun w =>
  match m w with
  | (w', Err (Failed e)) => (_ ← cleanup; fail (Failed e)) w'
  | r => r
  end.
(** A call with its context. *)
Definition call (c : Call) (text : string) (result_of : reply c -> anyhow unit) : live unit :=
  r ← ask c; try (context text [] (result_of r)).
Definition call_state (text : string) : live StateSnapshot := r ← ask CallState; try (context text [] r).
Definition call_metrics (text : string) : live TwPlaybackStabilitySnapshot :=
  r ← ask CallPlaybackMetrics; try (context text [] r).

Definition take_event (item : StreamItem) : live TwSessionEvent :=
  event ← try (next_session_event item);
  _ ← modify (log_action (Took event));
  mret event.
(** [state.observe_event(event, expected_video_id)?] *)
Definition observe (event : TwSessionEvent) (expected_video_id : string) : live unit := fun w =>
  let '(s, r) := observe_event event expected_video_id (wo_contract w) in
  (upd_contract (fun _ => s) w, _ ← map_err Failed r; Ok tt).

(** ** Playback with a pause *)

Fixpoint wait_for_initial_voice_ready (fuel : nat) (expected_video_id : string) : live unit :=
  match fuel with
  | O => fail Waiting
  | S fuel =>
      item ← ask NextEvent;
      event ← take_event item;
      _ ← observe event expected_video_id;
      match te_kind event with
      | TK_VoiceReady => mret tt
      | _ => wait_for_initial_voice_ready fuel expected_video_id
      end
  end.
Definition validate_ready_state_rpc : live unit :=
  service_state ← call_state "call GetState through Twilight adapter before Play";
  _ ← try (bail_if (negb (match ts_state service_state with TS_VoiceReady => true | _ => false end))
             "GetState returned {:?} before Play; expected VoiceReady" [Text (session_state_debug (ts_state service_state))]);
  _ ← modify (upd_contract mark_get_state);
  modify update_live_contract_snapshot.

(** [pending]: whether the signal was not taken yet. *)
Definition wait_for_observer_audio_started (pending : bool) : live unit :=
  if negb pending then mret tt else
  r ← ask AwaitAudioStarted;
  try (wait_result "timed out waiting for observer to receive service audio before Pause"
         "observer audio task ended before proving pre-Pause audio" r).
Definition send_request (request : ProofRequest) (text : string) : live unit :=
  sent ← ask (SendProofRequest request);
  try (context text [] (bail_if (negb sent) "channel closed" [])).
Definition request_observer_speaking_started_proof : live unit :=
  _ ← send_request RequestSpeaking "request observer pre-Pause Speaking 1 proof";
  r ← ask AwaitSpeakingProof;
  proof ← try (wait_result "timed out waiting for observer pre-Pause Speaking 1 proof"
                 "observer audio task ended before pre-Pause Speaking 1 proof" r);
  try proof.
Definition start_observer_pause_proof : live unit :=
  _ ← send_request RequestPause "request observer Pause proof";
  r ← ask (AwaitArmed RequestPause);
  try (wait_result "timed out arming observer Pause proof" "observer Pause proof task ended before arming" r).
(** A proof is begun once, before it is awaited. *)
Definition begin_observer_pause_proof : live unit :=
  sent ← ask SendBegin;
  try (bail_if (negb sent) "observer audio task ended before Pause proof began" []).
Definition await_observer_pause_proof : live ObserverProofs.ObserverPauseProof :=
  r ← ask AwaitPauseProof;
  proof ← try (wait_result "timed out waiting for observer Pause proof" "observer audio task ended before Pause proof" r);
  try proof.
Definition start_observer_resume_proof : live unit :=
  _ ← send_request RequestResume "request observer Resume proof";
  r ← ask (AwaitArmed RequestResume);
  try (wait_result "timed out arming observer Resume proof" "observer audio task ended before Resume proof was armed" r).
Definition await_observer_resume_proof : live ObserverProofs.ObserverResumeProof :=
  r ← ask AwaitResumeProof;
  proof ← try (wait_result "timed out waiting for observer Resume proof" "observer audio task ended before Resume proof" r);
  try proof.

(** One pause and one resume, while the track plays. *)
Definition validate_pause_and_resume (audio_pending : bool) : live unit :=
  now ← ask Now;
  _ ← wait_for_observer_audio_started audio_pending;
  _ ← request_observer_speaking_started_proof;
  _ ← ask (SleepUntil (now + PAUSE_AFTER_PLAYBACK_START));
  _ ← call CallResume "call ignored Resume while live playback is already playing" id;
  playing ← call_state "fetch state after ignored Resume while already playing";
  _ ← try (bail_if (negb (match ts_state playing with TS_Playing => true | _ => false end))
             "ignored Resume changed state while playback was already playing: {:?}"
             [Text (session_state_debug (ts_state playing))]);
  _ ← modify (upd_contract mark_invalid_resume_ignored);
  _ ← modify update_live_contract_snapshot;
  _ ← start_observer_pause_proof;
  pause_started_at ← ask Now;
  _ ← begin_observer_pause_proof;
  _ ← call CallPause "call Pause while staying in the Discord voice channel" id;
  _ ← call CallPause "call ignored redundant Pause while live playback is already paused" id;
  paused ← call_state "fetch state after ignored redundant Pause";
  _ ← try (bail_if (negb (match ts_state paused with TS_Paused => true | _ => false end))
             "ignored redundant Pause changed state while playback was already paused: {:?}"
             [Text (session_state_debug (ts_state paused))]);
  pause_proof ← await_observer_pause_proof;
  _ ← modify (upd_playback (with_pause pause_proof));
  _ ← try (bail_if (negb (ObserverProofs.pp_rtp_silence_observed pause_proof))
             "observer pause proof did not observe the explicit RTP stop-silence boundary" []);
  _ ← modify (fun w => upd_contract mark_redundant_pause_ignored (upd_contract mark_pause w));
  _ ← modify update_live_contract_snapshot;
  _ ← ask (SleepUntil (pause_started_at + PAUSE_HOLD_DURATION));
  _ ← start_observer_resume_proof;
  _ ← call CallResume "call Resume from paused state without Discord voice rejoin" id;
  resume_proof ← await_observer_resume_proof;
  _ ← modify (upd_playback (with_resume resume_proof));
  _ ← modify (upd_contract mark_resume);
  modify update_live_contract_snapshot.

Definition is_playing (event : TwSessionEvent) : bool := match te_kind event with TK_Playing => true | _ => false end.
Definition saw_the_end : live bool := gets (fun w => seen_track_ended (lc_seen (wo_contract w))).
(** The signal of the audio is taken with the first check, after which
    [pause_resume_validated] holds. *)
Fixpoint play_completed_loop (fuel : nat) (expected_video_id : string) (pause_resume_validated : bool) : live unit :=
  match fuel with
  | O => fail Waiting
  | S fuel =>
      item ← ask NextEvent;
      event ← take_event item;
      _ ← observe event expected_video_id;
      _ ← modify update_live_contract_snapshot;
      let check := is_playing event && negb pause_resume_validated in
      _ ← (if check then validate_pause_and_resume true else mret tt);
      ended ← saw_the_end;
      if (ended : bool) then mret tt else play_completed_loop fuel expected_video_id (pause_resume_validated || check)
  end.
Definition wait_for_play_completed_contract_with_controls (fuel : nat) (expected_video_id : string)
    : live (LiveContractState * ObserverPlaybackProof) :=
  validated ← gets (fun w => lc_validated (wo_contract w));
  _ ← play_completed_loop fuel expected_video_id (va_pause validated && va_resume validated);
  gets (fun w => (wo_contract w, wo_playback w)).

(** ** The task that plays for a probe *)

Definition spawn_play (video_id : string) : live unit := _ ← ask (SpawnPlay video_id); modify (set_play Running).
Definition play_handle : live PlayHandle := gets wo_play.
(** [play_task.await] through the handle. *)
Definition join_play : live Joined :=
  handle ← play_handle;
  match handle with
  | Running => joined ← ask JoinPlay; _ ← modify (set_play Consumed); mret joined
  | _ => lift Panic
  end.
Definition cancel_interrupt_probe_play_task : live unit := _ ← ask AbortPlay; _ ← join_play; mret tt.
Definition fail_if_interrupt_probe_play_task_finished (label : string) : live unit :=
  finished ← ask PlayIsFinished;
  if negb finished then mret tt else
  joined ← join_play;
  play_result ← try (join_result joined);
  match play_result with
  | Ok _ => try (bail "active {} probe Play RPC returned before Playing" [Text label])
  | r => try (context "active {} probe Play RPC failed before Playing" [Text label] r)
  end.
Definition await_interrupt_probe_play_task (label : string) : live unit :=
  handle ← play_handle;
  match handle with
  | Running =>
      r ← ask (JoinPlayWithin LIVE_INTERRUPT_PROBE_TIMEOUT);
      match (r : option Joined) with
      | None =>
          _ ← modify (set_play Detached);
          try (context "timed out waiting for active {} probe Play RPC to return after interruption" [Text label]
                 (bail "deadline has elapsed" []))
      | Some joined =>
          _ ← modify (set_play Consumed);
          play_result ← try (join_result joined);
          try (context "active {} probe Play RPC failed after interruption" [Text label] play_result)
      end
  | _ => lift Panic
  end.

Definition probe_timed_out {A} (label : string) : anyhow A :=
  bail "timed out waiting for active {} probe service events after {} seconds" [Text label; Num 60].
Fixpoint probe_playing_loop (fuel : nat) (deadline : Z) (expected_video_id label : string) : live unit :=
  match fuel with
  | O => fail Waiting
  | S fuel =>
      _ ← fail_if_interrupt_probe_play_task_finished label;
      now ← ask Now;
      if deadline <? now then _ ← cancel_interrupt_probe_play_task; try (probe_timed_out label)
      else
        item ← ask (NextEventWithin (Z.min (deadline - now) INTERRUPT_PROBE_PLAY_TASK_POLL_INTERVAL));
        match (item : option StreamItem) with
        | None => probe_playing_loop fuel deadline expected_video_id label
        | Some item =>
            playing ← on_failure (event ← take_event item;
                                  try (validate_interrupt_probe_playing_event event expected_video_id label))
                        cancel_interrupt_probe_play_task;
            if (playing : bool) then mret tt else probe_playing_loop fuel deadline expected_video_id label
        end
  end.
Definition wait_for_interrupt_probe_playing_with_play_task (fuel : nat) (expected_video_id label : string) : live unit :=
  now ← ask Now;
  probe_playing_loop fuel (now + LIVE_INTERRUPT_PROBE_TIMEOUT) expected_video_id label.
Fixpoint settle_loop (fuel : nat) (deadline : Z) (label : string) : live unit :=
  match fuel with
  | O => fail Waiting
  | S fuel =>
      _ ← fail_if_interrupt_probe_play_task_finished label;
      now ← ask Now;
      if deadline <? now then mret tt
      else
        _ ← ask (Sleep (Z.min (deadline - now) INTERRUPT_PROBE_PLAY_TASK_POLL_INTERVAL));
        settle_loop fuel deadline label
  end.
Definition wait_for_active_interrupt_probe_media (fuel : nat) (label : string) : live unit :=
  now ← ask Now;
  settle_loop fuel (now + ACTIVE_INTERRUPT_PROBE_MEDIA_SETTLE_DURATION) label.

(** ** What the probes wait for *)

Definition next_session_event_before_deadline (deadline : Z) (label : string) : live TwSessionEvent :=
  now ← ask Now;
  if deadline <? now then try (probe_timed_out label)
  else
    item ← ask (NextEventWithin (deadline - now));
    match (item : option StreamItem) with
    | None => try (probe_timed_out label)
    | Some item => take_event item
    end.
Definition stopped_event (event : TwSessionEvent) (expected_video_id label : string) : anyhow bool :=
  match te_kind event with
  | TK_Stopped => Ok true
  | TK_TrackEnded => bail "active {} probe reached TrackEnded after Stop" [Text label]
  | TK_TrackResolving | TK_Buffering | TK_Playing =>
      _ ← validate_interrupt_probe_video_id event expected_video_id label; Ok false
  | TK_PlaybackInterrupted =>
      bail "active {} probe observed PlaybackInterrupted after Stop: {}" [Text label; Text (display_probe_event_message event)]
  | TK_FatalError =>
      bail "active {} probe observed FatalError after Stop: {}" [Text label; Text (display_probe_event_message event)]
  | _ => Ok false
  end.
Fixpoint stopped_loop (fuel : nat) (deadline : Z) (expected_video_id label : string) : live unit :=
  match fuel with
  | O => fail Waiting
  | S fuel =>
      event ← next_session_event_before_deadline deadline label;
      stopped ← try (stopped_event event expected_video_id label);
      if (stopped : bool) then mret tt else stopped_loop fuel deadline expected_video_id label
  end.
Definition wait_for_interrupt_probe_stopped (fuel : nat) (expected_video_id label : string) : live unit :=
  now ← ask Now;
  stopped_loop fuel (now + LIVE_INTERRUPT_PROBE_TIMEOUT) expected_video_id label.

(** What was seen of the rollover, or that playback has resumed. *)
Definition rollover_event (event : TwSessionEvent) (expected_video_id : string) (saw_reconnecting saw_voice_ready : bool)
    : anyhow (bool * bool + unit) :=
  let label := "ReconnectRollover" in
  let expect := validate_interrupt_probe_video_id event expected_video_id label in
  match te_kind event with
  | TK_VoiceReconnecting => _ ← expect; Ok (inl (true, saw_voice_ready))
  | TK_VoiceReady => _ ← expect; Ok (inl (saw_reconnecting, saw_reconnecting || saw_voice_ready))
  | TK_TrackResolving | TK_Buffering => _ ← expect; Ok (inl (saw_reconnecting, saw_voice_ready))
  | TK_Playing =>
      _ ← expect;
      Ok (if saw_reconnecting && saw_voice_ready then inr tt else inl (saw_reconnecting, saw_voice_ready))
  | TK_TrackEnded => bail "active ReconnectRollover probe reached TrackEnded before resumed playback" []
  | TK_Stopped => bail "active ReconnectRollover probe observed Stopped before resumed playback" []
  | TK_PlaybackInterrupted =>
      bail "active ReconnectRollover probe observed PlaybackInterrupted before resumed playback: {}"
        [Text (display_probe_event_message event)]
  | TK_FatalError =>
      bail "active ReconnectRollover probe observed FatalError before resumed playback: {}"
        [Text (display_probe_event_message event)]
  | _ => Ok (inl (saw_reconnecting, saw_voice_ready))
  end.
Fixpoint rollover_loop (fuel : nat) (deadline : Z) (expected_video_id : string) (saw_reconnecting saw_voice_ready : bool)
    : live unit :=
  match fuel with
  | O => fail Waiting
  | S fuel =>
      event ← next_session_event_before_deadline deadline "ReconnectRollover";
      seen ← try (rollover_event event expected_video_id saw_reconnecting saw_voice_ready);
      match seen with
      | inl (reconnecting, ready) => rollover_loop fuel deadline expected_video_id reconnecting ready
      | inr _ => mret tt
      end
  end.
Definition wait_for_reconnect_rollover_probe_resumed (fuel : nat) (expected_video_id : string) : live unit :=
  now ← ask Now;
  rollover_loop fuel (now + LIVE_INTERRUPT_PROBE_TIMEOUT) expected_video_id false false.

(** ** Metrics *)

Context `{Sort : PlaybackValidator.DepthSort}.

Fixpoint finished_metrics_loop (fuel : nat) (started_at : Z) (expected_video_id : string) : live TwPlaybackStabilitySnapshot :=
  match fuel with
  | O => fail Waiting
  | S fuel =>
      metrics ← call_metrics "call GetPlaybackMetrics through Twilight adapter after TrackEnded";
      if twm_available metrics && twm_ended metrics && bool_decide (twm_video_id metrics = Some expected_video_id)
      then mret metrics
      else
        now ← ask Now;
        if PLAYBACK_METRICS_TIMEOUT <=? sat_sub now started_at then
          try (bail "GetPlaybackMetrics did not return finished metrics for `{}` within {} seconds"
                 [Text expected_video_id; Num 5])
        else _ ← ask (Sleep PLAYBACK_METRICS_POLL_INTERVAL); finished_metrics_loop fuel started_at expected_video_id
  end.
Definition fetch_finished_playback_metrics (fuel : nat) (expected_video_id : string) : live TwPlaybackStabilitySnapshot :=
  started_at ← ask Now; finished_metrics_loop fuel started_at expected_video_id.
Fixpoint probe_metrics_loop (fuel : nat) (started_at : Z) (expected_video_id : string) : live TwPlaybackStabilitySnapshot :=
  match fuel with
  | O => fail Waiting
  | S fuel =>
      metrics ← call_metrics "call GetPlaybackMetrics after active reconnect rollover probe";
      if twm_available metrics && negb (twm_ended metrics) &&
         bool_decide (twm_video_id metrics = Some expected_video_id) && (0 <? twm_reconnect_interruptions metrics)
      then _ ← try (PlaybackValidator.validate_reconnect_probe_metrics metrics expected_video_id); mret metrics
      else
        now ← ask Now;
        if PLAYBACK_METRICS_TIMEOUT <=? sat_sub now started_at then
          try (bail "GetPlaybackMetrics did not return active reconnect rollover probe metrics for `{}` within {} seconds"
                 [Text expected_video_id; Num 5])
        else _ ← ask (Sleep PLAYBACK_METRICS_POLL_INTERVAL); probe_metrics_loop fuel started_at expected_video_id
  end.
Definition fetch_reconnect_probe_metrics (fuel : nat) (expected_video_id : string) : live TwPlaybackStabilitySnapshot :=
  started_at ← ask Now; probe_metrics_loop fuel started_at expected_video_id.

(** ** The probes *)

Definition connect_probe (text : string) : live unit := call ConnectProbeClient text id.
(** Up to the interruption: the probe plays and has been heard for a while. *)
Definition start_probe (fuel : nat) (expected_video_id label : string) : live unit :=
  _ ← spawn_play expected_video_id;
  _ ← wait_for_interrupt_probe_playing_with_play_task fuel expected_video_id label;
  on_failure (wait_for_active_interrupt_probe_media fuel label) cancel_interrupt_probe_play_task.

Definition validate_active_reconnect_rollover_during_playback (fuel : nat) (expected_video_id : string)
    : live TwPlaybackStabilitySnapshot :=
  _ ← connect_probe "connect active reconnect rollover probe play client";
  _ ← start_probe fuel expected_video_id "ReconnectRollover";
  _ ← on_failure (call CallUpdateVoiceContext "call UpdateVoiceContext while live validation probe playback is Playing" id)
        cancel_interrupt_probe_play_task;
  _ ← await_interrupt_probe_play_task "ReconnectRollover";
  _ ← wait_for_reconnect_rollover_probe_resumed fuel expected_video_id;
  metrics ← fetch_reconnect_probe_metrics fuel expected_video_id;
  _ ← call CallStop "call Stop after active reconnect rollover probe resumed" id;
  _ ← wait_for_interrupt_probe_stopped fuel expected_video_id "ReconnectRollover";
  stopped ← call_state "fetch service state after active reconnect rollover probe";
  _ ← try (ensure_state_after_active_stop stopped);
  _ ← modify (upd_contract mark_reconnect_rollover_during_playback);
  _ ← modify update_live_contract_snapshot;
  mret metrics.
Definition validate_active_stop_during_playback (fuel : nat) (expected_video_id : string) : live unit :=
  _ ← connect_probe "connect active Stop probe play client";
  _ ← start_probe fuel expected_video_id "Stop";
  _ ← on_failure (call CallStop "call Stop while live validation probe playback is Playing" id)
        cancel_interrupt_probe_play_task;
  _ ← on_failure (wait_for_interrupt_probe_stopped fuel expected_video_id "Stop") cancel_interrupt_probe_play_task;
  _ ← await_interrupt_probe_play_task "Stop";
  stopped ← call_state "fetch service state after active Stop probe";
  _ ← try (ensure_state_after_active_stop stopped);
  _ ← modify (upd_contract mark_stop_during_playback);
  modify update_live_contract_snapshot.
Definition validate_active_leave_voice_during_playback (fuel : nat) (expected_video_id : string) : live unit :=
  _ ← connect_probe "connect active LeaveVoice probe play client";
  _ ← start_probe fuel expected_video_id "LeaveVoice";
  _ ← on_failure (call CallLeaveVoice "call LeaveVoice while live validation probe playback is Playing" id)
        cancel_interrupt_probe_play_task;
  _ ← await_interrupt_probe_play_task "LeaveVoice";
  left ← call_state "fetch service state after active LeaveVoice probe";
  _ ← try (ensure_state_after_active_leave_voice left);
  _ ← modify (upd_contract mark_leave_voice_during_playback);
  modify update_live_contract_snapshot.

(** The metrics and then the probes; on a failure the evidence so far is left
    in the world. *)
Definition validate_post_play_control_rpcs (fuel : nat) (expected_video_id : string)
    : live (TwPlaybackStabilitySnapshot * TwPlaybackStabilitySnapshot) :=
  _ ← modify (set_evidence PostPlayControlEvidence_default);
  metrics ← fetch_finished_playback_metrics fuel expected_video_id;
  _ ← modify (set_evidence (mkPostPlayEvidence (Some metrics) None));
  _ ← try (PlaybackValidator.validate_finished_playback_metrics metrics expected_video_id);
  _ ← modify (upd_contract mark_get_playback_metrics);
  _ ← modify update_live_contract_snapshot;
  probe_metrics ← validate_active_reconnect_rollover_during_playback fuel expected_video_id;
  _ ← modify (set_evidence (mkPostPlayEvidence (Some metrics) (Some probe_metrics)));
  _ ← validate_active_stop_during_playback fuel expected_video_id;
  _ ← validate_active_leave_voice_during_playback fuel expected_video_id;
  state ← gets wo_contract;
  _ ← try (ensure_complete state);
  mret (metrics, probe_metrics).

End LiveRun.
