(* ===== verification/LiveRunSpecs.v ===== *)
(** * What an accepted live run shows

    The flow of LiveRun.v, whatever the service, the observer and the runtime
    answer: what happened when it accepts, and what becomes of the tasks that
    play for its probes when it does not. *)

From S2P Require Import Prelude Anyhow Twilight MetricsTransport LiveContract LiveRun.
From S2P Require PlaybackValidator ObserverProofs HealthyRun.
From stdpp Require Import prelude strings.
Open Scope Z_scope.

Section Specs.
Context `{TM : TwilightModel}.
Context (answer : nat -> forall c : Call, reply c).
Context `{Sort : PlaybackValidator.DepthSort}.

(** ** What was done and seen *)

Inductive Mark : Type :=
| Did (c : Call)
| Saw (kind : TwSessionEventKind).
Definition mark (a : Action) : Mark := match a with Asked c => Did c | Took e => Saw (te_kind e) end.
(** No end of the track, no interruption and no fatal error. *)
Definition unbroken (a : Action) : Prop :=
  match a with Took e => harmless (te_kind e) /\ te_kind e <> TK_TrackEnded | Asked _ => True end.

(** When [m] succeeds, its trace has these marks, in this order. *)
Definition yields {A} (m : stm World Stop A) (marks : list Mark) : Prop :=
  forall w w' a, m w = (w', Ok a) ->
  exists tr, wo_trace w' = wo_trace w ++ tr /\ marks `sublist_of` (mark <$> tr) /\ Forall unbroken tr.

Lemma yields_keeps {A} (m : stm World Stop A) : keeps wo_trace m -> yields m [].
Proof. intros Hm w w' a E. exists []. rewrite app_nil_r. specialize (Hm w). rewrite E in Hm. by repeat constructor. Qed.
Lemma yields_bind {A B} (m : stm World Stop A) (f : A -> stm World Stop B) k1 k2 :
  yields m k1 -> (forall a, yields (f a) k2) -> yields (m ≫= f) (k1 ++ k2).
Proof.
  intros Hm Hf w w' b (w1 & a & E1 & E2)%stm_bind_Ok.
  destruct (Hm _ _ _ E1) as (t1 & H1 & S1 & U1). destruct (Hf _ _ _ _ E2) as (t2 & H2 & S2 & U2).
  exists (t1 ++ t2). rewrite H2, H1, app_assoc, fmap_app. split_and!; [done|by apply sublist_app|by apply Forall_app].
Qed.
Lemma yields_less {A} (m : stm World Stop A) k k' : yields m k -> k' `sublist_of` k -> yields m k'.
Proof. intros Hm Hk w w' a E. destruct (Hm _ _ _ E) as (tr & H1 & H2 & H3). exists tr. split_and!; [done|by etrans|done]. Qed.
Lemma yields_then {A B} (m : stm World Stop A) (f : A -> stm World Stop B) k :
  yields m [] -> (forall a, yields (f a) k) -> yields (m ≫= f) k.
Proof. apply (yields_bind m f [] k). Qed.
Lemma yields_on_failure {A} (m : stm World Stop A) cleanup k : yields m k -> yields (on_failure m cleanup) k.
Proof.
  intros Hm w w' a. unfold on_failure. destruct (m w) as [w1 [b|[e|]|]] eqn:E; try done.
  - intros [= <- <-]. by eapply Hm.
  - intros (? & ? & _ & ?)%stm_bind_Ok. discriminate.
Qed.
Lemma yields_fail {A} e k : yields (fail (A:=A) e) k.
Proof. by intros w w' a E. Qed.
Lemma yields_bail {A} format args k : yields (try (bail (A:=A) format args)) k.
Proof. by intros w w' a E. Qed.
Lemma yields_asked c : yields (ask answer c) [Did c].
Proof. intros w w' a [= <- _]. exists [Asked c]. by repeat constructor. Qed.
Lemma yields_ask c : yields (ask answer c) [].
Proof. eapply yields_less; [apply yields_asked|apply sublist_nil_l]. Qed.
Lemma yields_try {A} (r : anyhow A) : yields (try r) [].
Proof. by apply yields_keeps. Qed.
Lemma yields_ret {A} (a : A) : yields (mret a) [].
Proof. by apply yields_keeps. Qed.
Lemma yields_modify f : (forall w, wo_trace (f w) = wo_trace w) -> yields (modify f) [].
Proof. intros Hf. by apply yields_keeps. Qed.

Lemma yields_play_handle : yields play_handle [].
Proof. by apply yields_keeps. Qed.
End Specs.

Create HintDb yields discriminated.
#[export] Hint Resolve yields_ask yields_try yields_ret yields_fail yields_bail yields_play_handle : yields.
#[export] Hint Extern 1 (yields (ask ?a ?c) _) => exact (yields_ask a c) : yields.
#[export] Hint Extern 1 (yields (try ?r) _) => exact (yields_try r) : yields.
#[export] Hint Extern 1 (yields (modify _) _) => apply yields_modify; reflexivity : yields.
Ltac yields_next := apply yields_then; [auto with yields|intros ?].

Section Probes.
Context `{TM : TwilightModel}.
Context (answer : nat -> forall c : Call, reply c).

Lemma yields_call c text f : yields (call answer c text f) [].
Proof. unfold call. yields_next. auto with yields. Qed.
Lemma yields_state text : yields (call_state answer text) [].
Proof. unfold call_state. yields_next. auto with yields. Qed.
Lemma yields_metrics text : yields (call_metrics answer text) [].
Proof. unfold call_metrics. yields_next. auto with yields. Qed.
Lemma yields_spawn v : yields (spawn_play answer v) [].
Proof. unfold spawn_play. yields_next. auto with yields. Qed.
Lemma yields_called c text f : yields (call answer c text f) [Did c].
Proof. apply (yields_bind _ _ [Did c] []); [apply yields_asked|auto with yields]. Qed.
Lemma yields_join : yields (join_play answer) [].
Proof. unfold join_play. yields_next. case_match; try by intros w w' x E. do 2 yields_next. auto with yields. Qed.
#[local] Hint Resolve yields_call yields_state yields_metrics yields_spawn yields_join : yields.
Lemma yields_unfinished label : yields (fail_if_interrupt_probe_play_task_finished answer label) [].
Proof.
  unfold fail_if_interrupt_probe_play_task_finished. yields_next. case_match; [auto with yields|].
  do 2 yields_next. case_match; auto with yields.
Qed.
Lemma yields_await label : yields (await_interrupt_probe_play_task answer label) [].
Proof.
  unfold await_interrupt_probe_play_task. yields_next. case_match; try by intros w w' x E.
  yields_next. case_match; [do 2 yields_next|yields_next]; auto with yields.
Qed.
Lemma yields_cancel : yields (cancel_interrupt_probe_play_task answer) [].
Proof. unfold cancel_interrupt_probe_play_task. do 2 yields_next. auto with yields. Qed.
#[local] Hint Resolve yields_unfinished yields_await yields_cancel : yields.

(** A wait that took one event, after other actions. *)
Definition took (w w' : World) (e : TwSessionEvent) : Prop :=
  exists cs, wo_trace w' = wo_trace w ++ map Asked cs ++ [Took e].
Lemma took_yields {B} (m : stm World Stop B) w w1 w' e k1 k2 b :
  took w w1 e -> unbroken (Took e) -> k1 `sublist_of` [Saw (te_kind e)] -> yields m k2 -> m w1 = (w', Ok b) ->
  exists tr, wo_trace w' = wo_trace w ++ tr /\ (k1 ++ k2) `sublist_of` (mark <$> tr) /\ Forall unbroken tr.
Proof.
  intros [cs Ht] Hu Hk Hm E. destruct (Hm _ _ _ E) as (tr & Htr & Hs & Hus).
  exists (map Asked cs ++ [Took e] ++ tr). rewrite Htr, Ht, <- !app_assoc. split_and!; [done| |].
  - rewrite !fmap_app. apply sublist_inserts_l. by apply sublist_app.
  - rewrite !Forall_app. split_and!; [|by constructor|done]. by apply Forall_map, Forall_true.
Qed.
Lemma take_event_Ok item w w' e : take_event item w = (w', Ok e) -> wo_trace w' = wo_trace w ++ [Took e].
Proof. unfold take_event, try. intros E. by inv_stm. Qed.
Lemma next_before_Ok deadline label w w' e :
  next_session_event_before_deadline answer deadline label w = (w', Ok e) -> took w w' e.
Proof.
  unfold next_session_event_before_deadline. intros (w1 & now & E1 & E)%stm_bind_Ok. injection E1 as <- <-. case_match; [discriminate|].
  apply stm_bind_Ok in E as (w2 & item & E2 & E). injection E2 as <- <-. case_match; [|discriminate].
  apply take_event_Ok in E. eexists [_; _]. rewrite E. simpl. by rewrite <- !app_assoc.
Qed.
Lemma try_Ok {A} (r : anyhow A) w w' a : try r w = (w', Ok a) -> r = Ok a /\ w' = w.
Proof. unfold try, lift. destruct r; simpl; intros E; by simplify_eq. Qed.

Lemma yields_checked {A B} deadline label (check : TwSessionEvent -> anyhow A) (f : A -> stm World Stop B) k :
  (forall e a, check e = Ok a ->
     unbroken (Took e) /\ exists k1 k2, k = k1 ++ k2 /\ k1 `sublist_of` [Saw (te_kind e)] /\ yields (f a) k2) ->
  yields (e ← next_session_event_before_deadline answer deadline label; a ← try (check e); f a) k.
Proof.
  intros Hc w w' b (w1 & e & E1%next_before_Ok & (w2 & a & [Ea ->]%try_Ok & E)%stm_bind_Ok)%stm_bind_Ok.
  destruct (Hc _ _ Ea) as (Hu & k1 & k2 & -> & Hk & Hf). by eapply took_yields.
Qed.

(** *** The waits *)

Lemma playing_event_ok e v label b :
  validate_interrupt_probe_playing_event e v label = Ok b -> unbroken (Took e) /\ (b = true -> te_kind e = TK_Playing).
Proof.
  unfold validate_interrupt_probe_playing_event, unbroken, harmless. intros E. destruct (te_kind e) eqn:Hk; try discriminate E;
    try (apply bind_Ok in E as (? & _ & E)); simplify_eq; by split_and!.
Qed.
Lemma stopped_event_ok e v label b :
  stopped_event e v label = Ok b -> unbroken (Took e) /\ (b = true -> te_kind e = TK_Stopped).
Proof.
  unfold stopped_event, unbroken, harmless. intros E. destruct (te_kind e) eqn:Hk; try discriminate E;
    try (apply bind_Ok in E as (? & _ & E)); simplify_eq; by split_and!.
Qed.

Lemma yields_probe_playing fuel deadline v label : yields (probe_playing_loop answer fuel deadline v label) [Saw TK_Playing].
Proof.
  induction fuel as [|fuel IH]; [apply yields_fail|]. cbn [probe_playing_loop]. do 2 yields_next.
  case_match; [yields_next; apply yields_bail|]. yields_next. case_match; [|done].
  intros w w' u (w1 & playing & E & E')%stm_bind_Ok. unfold on_failure in E.
  destruct ((e ← take_event _; try _) w) as [w2 [b'|[err|]|]] eqn:E2; [|by apply stm_bind_Ok in E as (? & ? & _ & ?)|done..].
  injection E as <- <-. apply stm_bind_Ok in E2 as (w3 & e & E3 & [Hc ->]%try_Ok). apply take_event_Ok in E3.
  destruct (playing_event_ok _ _ _ _ Hc) as [Hu Hb]. assert (took w w3 e) by (exists []; done). destruct b'.
  - eapply (took_yields _ _ _ _ _ [_] []); [done|done|by rewrite Hb|apply yields_ret|done].
  - eapply (took_yields _ _ _ _ _ [] [_]); [done|done|apply sublist_nil_l|exact IH|done].
Qed.
Lemma yields_stopped fuel deadline v label : yields (stopped_loop answer fuel deadline v label) [Saw TK_Stopped].
Proof.
  induction fuel as [|fuel IH]; [apply yields_fail|]. cbn [stopped_loop]. apply yields_checked. intros e b Hc.
  destruct (stopped_event_ok _ _ _ _ Hc) as [Hu Hb]. split; [done|]. destruct b.
  - exists [Saw TK_Stopped], []. rewrite Hb by done. auto with yields.
  - exists [], [Saw TK_Stopped]. split_and!; auto. apply sublist_nil_l.
Qed.
(** What the rollover still has to show. *)
Definition rollover_left (reconnecting ready : bool) : list Mark :=
  if reconnecting then (if ready then [] else [Saw TK_VoiceReady]) ++ [Saw TK_Playing]
  else [Saw TK_VoiceReconnecting; Saw TK_VoiceReady; Saw TK_Playing].
Lemma rollover_event_ok e v reconnecting ready r :
  rollover_event e v reconnecting ready = Ok r -> (ready = true -> reconnecting = true) ->
  unbroken (Took e) /\ exists k1 k2, rollover_left reconnecting ready = k1 ++ k2 /\ k1 `sublist_of` [Saw (te_kind e)] /\
    match r with
    | inl (reconnecting', ready') => k2 = rollover_left reconnecting' ready' /\ (ready' = true -> reconnecting' = true)
    | inr _ => k2 = []
    end.
Proof.
  unfold rollover_event, unbroken, harmless. intros E Hr.
  assert (Hnil : [] `sublist_of` [Saw (te_kind e)]) by apply sublist_nil_l.
  assert (Hone : [Saw (te_kind e)] `sublist_of` [Saw (te_kind e)]) by done.
  destruct (te_kind e) eqn:Hk; try discriminate E; try (apply bind_Ok in E as (? & _ & E)); simplify_eq;
    (split; [by split_and!|]); destruct reconnecting, ready; try discriminate (Hr eq_refl); simpl;
    first [by exists [], (rollover_left true true)|by exists [], (rollover_left true false)|by exists [], (rollover_left false false)
          |by eexists [_], _].
Qed.
Lemma yields_rollover fuel deadline v reconnecting ready :
  (ready = true -> reconnecting = true) ->
  yields (rollover_loop answer fuel deadline v reconnecting ready) (rollover_left reconnecting ready).
Proof.
  induction fuel as [|fuel IH] in reconnecting, ready |- *; intros Hr; [apply yields_fail|].
  cbn [rollover_loop]. apply yields_checked. intros e r Hc.
  destruct (rollover_event_ok _ _ _ _ _ Hc Hr) as (Hu & k1 & k2 & Hk & Hs & Hn). split; [done|]. exists k1, k2.
  split_and!; [done|done|]. destruct r as [[reconnecting' ready']|u]; [destruct Hn as [-> Hn]; by apply IH|subst; auto with yields].
Qed.
Lemma yields_settle fuel label : yields (wait_for_active_interrupt_probe_media answer fuel label) [].
Proof.
  unfold wait_for_active_interrupt_probe_media. yields_next.
  generalize (a + ACTIVE_INTERRUPT_PROBE_MEDIA_SETTLE_DURATION). intros deadline.
  induction fuel as [|fuel IH]; [apply yields_fail|]. cbn [settle_loop]. do 2 yields_next.
  case_match; [auto with yields|]. yields_next. exact IH.
Qed.
Lemma yields_start fuel v label : yields (start_probe answer fuel v label) [Saw TK_Playing].
Proof.
  unfold start_probe. yields_next. apply (yields_bind _ _ [Saw TK_Playing] []).
  - unfold wait_for_interrupt_probe_playing_with_play_task. yields_next. apply yields_probe_playing.
  - intros _. apply yields_on_failure, yields_settle.
Qed.
Lemma yields_wait_stopped fuel v label : yields (wait_for_interrupt_probe_stopped answer fuel v label) [Saw TK_Stopped].
Proof. unfold wait_for_interrupt_probe_stopped. yields_next. apply yields_stopped. Qed.
Lemma yields_wait_resumed fuel v :
  yields (wait_for_reconnect_rollover_probe_resumed answer fuel v) (rollover_left false false).
Proof. unfold wait_for_reconnect_rollover_probe_resumed. yields_next. by apply yields_rollover. Qed.

(** *** The metrics *)

Context `{Sort : PlaybackValidator.DepthSort}.

Lemma yields_finished_metrics fuel v : yields (fetch_finished_playback_metrics answer fuel v) [].
Proof.
  unfold fetch_finished_playback_metrics. yields_next. rename a into started_at.
  induction fuel as [|fuel IH]; [apply yields_fail|]. cbn [finished_metrics_loop]. yields_next.
  case_match; [auto with yields|]. yields_next. case_match; [auto with yields|]. yields_next. exact IH.
Qed.
Lemma yields_probe_metrics fuel v : yields (fetch_reconnect_probe_metrics answer fuel v) [].
Proof.
  unfold fetch_reconnect_probe_metrics. yields_next. rename a into started_at.
  induction fuel as [|fuel IH]; [apply yields_fail|]. cbn [probe_metrics_loop]. yields_next.
  case_match; [yields_next; auto with yields|]. yields_next. case_match; [auto with yields|]. yields_next. exact IH.
Qed.
Lemma probe_metrics_valid fuel v w w' m :
  fetch_reconnect_probe_metrics answer fuel v w = (w', Ok m) ->
  PlaybackValidator.validate_reconnect_probe_metrics m v = Ok tt /\ 0 < twm_reconnect_interruptions m.
Proof.
  unfold fetch_reconnect_probe_metrics. intros (w1 & started_at & _ & E)%stm_bind_Ok.
  induction fuel as [|fuel IH] in w1, E |- *; [done|]. cbn [probe_metrics_loop] in E.
  apply stm_bind_Ok in E as (w2 & metrics & _ & E). case_match eqn:Hm.
  - apply stm_bind_Ok in E as (w3 & [] & [Hv _]%try_Ok & E). injection E as _ <-.
    split; [done|]. rewrite !andb_true_iff, Z.ltb_lt in Hm. tauto.
  - apply stm_bind_Ok in E as (w3 & now & _ & E). case_match; [done|].
    apply stm_bind_Ok in E as (w4 & u & _ & E). by eapply IH.
Qed.

(** *** The probes *)

Lemma yields_guarded c text f cleanup : yields (on_failure (call answer c text f) cleanup) [Did c].
Proof. apply yields_on_failure, yields_called. Qed.

#[local] Hint Resolve yields_settle yields_finished_metrics yields_probe_metrics : yields.
Ltac yields_mark H := apply (yields_bind _ _ [_]); [apply H|intros ?].
Ltac yields_marks H := apply yields_bind; [apply H|intros ?].

Definition rollover_marks : list Mark :=
  [Saw TK_Playing; Did CallUpdateVoiceContext; Saw TK_VoiceReconnecting; Saw TK_VoiceReady; Saw TK_Playing; Did CallStop; Saw TK_Stopped].
Definition stop_marks : list Mark := [Saw TK_Playing; Did CallStop; Saw TK_Stopped].
Definition leave_marks : list Mark := [Saw TK_Playing; Did CallLeaveVoice].

Lemma yields_rollover_probe fuel v :
  yields (validate_active_reconnect_rollover_during_playback answer fuel v) rollover_marks.
Proof.
  unfold validate_active_reconnect_rollover_during_playback, connect_probe. yields_next.
  yields_mark yields_start. yields_mark yields_guarded. yields_next.
  apply (yields_bind _ _ (rollover_left false false) [_; _]); [apply yields_wait_resumed|intros _]. yields_next.
  yields_mark yields_called. rewrite <- (app_nil_r [Saw TK_Stopped]). yields_marks yields_wait_stopped.
  do 4 yields_next. auto with yields.
Qed.
Lemma yields_stop_probe fuel v : yields (validate_active_stop_during_playback answer fuel v) stop_marks.
Proof.
  unfold validate_active_stop_during_playback, connect_probe. yields_next. yields_mark yields_start.
  yields_mark yields_guarded. rewrite <- (app_nil_r [Saw TK_Stopped]).
  apply yields_bind; [apply yields_on_failure, yields_wait_stopped|intros _]. do 4 yields_next. auto with yields.
Qed.
Lemma yields_leave_probe fuel v : yields (validate_active_leave_voice_during_playback answer fuel v) leave_marks.
Proof.
  unfold validate_active_leave_voice_during_playback, connect_probe. yields_next. yields_mark yields_start.
  rewrite <- (app_nil_r [Did CallLeaveVoice]).
  yields_marks yields_guarded. do 4 yields_next. auto with yields.
Qed.
Lemma yields_post_play fuel v :
  yields (validate_post_play_control_rpcs answer fuel v) (rollover_marks ++ stop_marks ++ leave_marks).
Proof.
  unfold validate_post_play_control_rpcs. do 6 yields_next. yields_marks yields_rollover_probe. yields_next.
  yields_marks yields_stop_probe. rewrite <- (app_nil_r leave_marks). yields_marks yields_leave_probe.
  apply yields_then; [by apply yields_keeps|intros ?]. yields_next. auto with yields.
Qed.
Lemma rollover_metrics fuel v w w' m :
  validate_active_reconnect_rollover_during_playback answer fuel v w = (w', Ok m) ->
  PlaybackValidator.validate_reconnect_probe_metrics m v = Ok tt /\ 0 < twm_reconnect_interruptions m.
Proof.
  unfold validate_active_reconnect_rollover_during_playback. intros E.
  do 5 apply stm_bind_Ok in E as (? & ? & _ & E). apply stm_bind_Ok in E as (w1 & m' & Hm & E).
  do 6 apply stm_bind_Ok in E as (? & ? & _ & E). injection E as _ <-. by eapply probe_metrics_valid.
Qed.
Lemma ensure_complete_Ok s u : ensure_complete s = Ok u -> missing_required_coverage s = [].
Proof. unfold ensure_complete. cbv zeta. by case_bool_decide. Qed.

Lemma post_play_accepts fuel v w w' metrics probe_metrics :
  validate_post_play_control_rpcs answer fuel v w = (w', Ok (metrics, probe_metrics)) ->
  missing_required_coverage (wo_contract w') = [] /\
  PlaybackValidator.validate_finished_playback_metrics metrics v = Ok tt /\
  PlaybackValidator.validate_reconnect_probe_metrics probe_metrics v = Ok tt /\
  0 < twm_reconnect_interruptions probe_metrics.
Proof.
  intros E. unfold validate_post_play_control_rpcs in E.
  apply stm_bind_Ok in E as (w1 & u1 & _ & E). apply stm_bind_Ok in E as (w2 & m & _ & E).
  apply stm_bind_Ok in E as (w3 & u3 & _ & E). apply stm_bind_Ok in E as (w4 & [] & [Hm _]%try_Ok & E).
  apply stm_bind_Ok in E as (w5 & u5 & _ & E). apply stm_bind_Ok in E as (w6 & u6 & _ & E).
  apply stm_bind_Ok in E as (w7 & p & Hp & E). apply stm_bind_Ok in E as (w8 & u8 & _ & E).
  apply stm_bind_Ok in E as (w9 & u9 & _ & E). apply stm_bind_Ok in E as (w10 & u10 & _ & E).
  apply stm_bind_Ok in E as (w11 & st & Hs & E). injection Hs as <- <-.
  apply stm_bind_Ok in E as (w12 & [] & [Hc ->]%try_Ok & E). injection E as <- <- <-.
  apply rollover_metrics in Hp as [Hv Hn]. split_and!; [by eapply ensure_complete_Ok|done|done|done].
Qed.

(** C26. A run that passes its probes covered everything: every flag of the
    contract is set, the metrics of the finished playback and of the probe are
    valid and count a reconnection, and in the trace, in this order, a probe
    was playing when its voice context was replaced, reconnected, was ready and
    played again before it was stopped; a second was playing when it was
    stopped; a third was playing when the voice channel was left; and none of
    them came to its end, was interrupted or failed. *)
Theorem accepted_probes_were_playing fuel v w w' metrics probe_metrics :
  validate_post_play_control_rpcs answer fuel v w = (w', Ok (metrics, probe_metrics)) ->
  missing_required_coverage (wo_contract w') = [] /\
  PlaybackValidator.validate_finished_playback_metrics metrics v = Ok tt /\
  PlaybackValidator.validate_reconnect_probe_metrics probe_metrics v = Ok tt /\
  0 < twm_reconnect_interruptions probe_metrics /\
  exists tr, wo_trace w' = wo_trace w ++ tr /\ (rollover_marks ++ stop_marks ++ leave_marks) `sublist_of` (mark <$> tr) /\
    Forall unbroken tr.
Proof.
  intros E. destruct (post_play_accepts _ _ _ _ _ _ E) as (Hc & Hm & Hp & Hn). split_and!; try done.
  by eapply yields_post_play.
Qed.
End Probes.

(** ** The tasks that play *)

Section Handles.
Context `{TM : TwilightModel}.
Context (answer : nat -> forall c : Call, reply c).

(** From a handle in [P]: in [Q] when [m] succeeds, in [R] when it fails. *)
Definition handles {A} (m : stm World Stop A) (P Q R : PlayHandle -> Prop) : Prop :=
  forall w, P (wo_play w) ->
  match m w with
  | (w', Ok _) => Q (wo_play w')
  | (w', Err (Failed _)) => R (wo_play w')
  | _ => True
  end.
Definition running (h : PlayHandle) : Prop := h = Running.
Definition consumed (h : PlayHandle) : Prop := h = Consumed.
Definition let_go (h : PlayHandle) : Prop := h <> Running.

Lemma handles_bind {A B} (m : stm World Stop A) (f : A -> stm World Stop B) P Q Q' R :
  handles m P Q R -> (forall a, handles (f a) Q Q' R) -> handles (m ≫= f) P Q' R.
Proof.
  intros Hm Hf w Hw. specialize (Hm w Hw). unfold mbind, stm_bind. destruct (m w) as [w1 [a|e|]]; [|done..].
  exact (Hf a w1 Hm).
Qed.
Lemma handles_weaken {A} (m : stm World Stop A) (P P' Q Q' R R' : PlayHandle -> Prop) :
  handles m P' Q' R' -> (forall h, P h -> P' h) -> (forall h, Q' h -> Q h) -> (forall h, R' h -> R h) -> handles m P Q R.
Proof. intros Hm HP HQ HR w Hw. specialize (Hm w (HP _ Hw)). destruct (m w) as [w1 [a|[e|]|]]; auto. Qed.
Lemma handles_keeps {A} (m : stm World Stop A) (P R : PlayHandle -> Prop) :
  keeps wo_play m -> (forall h, P h -> R h) -> handles m P P R.
Proof. intros Hm HR w Hw. specialize (Hm w). destruct (m w) as [w1 [a|[e|]|]]; simpl in Hm; rewrite ?Hm; auto. Qed.
Lemma handles_on_failure {A} (m : stm World Stop A) cleanup P Q R R' :
  handles m P Q R -> handles cleanup R R' R' -> handles (on_failure m cleanup) P Q R'.
Proof.
  intros Hm Hc w Hw. specialize (Hm w Hw). unfold on_failure. destruct (m w) as [w1 [a|[e|]|]]; auto.
  specialize (Hc w1 Hm). unfold mbind, stm_bind. destruct (cleanup w1) as [w2 [u|[e'|]|]]; done.
Qed.

Lemma handles_step {A B} (m : stm World Stop A) (f : A -> stm World Stop B) (P Q R : PlayHandle -> Prop) :
  keeps wo_play m -> (forall h, P h -> R h) -> (forall a, handles (f a) P Q R) -> handles (m ≫= f) P Q R.
Proof. intros Hm HR Hf. eapply handles_bind; [by apply handles_keeps|exact Hf]. Qed.

(** Joining, which panics unless the task runs. *)
Lemma handles_join P R : handles (join_play answer) P consumed R.
Proof. intros w _. unfold join_play, play_handle, gets, mbind, stm_bind. by destruct (wo_play w). Qed.
Lemma handles_cancel P R : handles (cancel_interrupt_probe_play_task answer) P consumed R.
Proof.
  unfold cancel_interrupt_probe_play_task. eapply (handles_bind _ _ _ (fun _ => True)); [by intros w _|intros _].
  eapply handles_bind; [apply handles_join|intros _]. by intros w.
Qed.
Lemma handles_unfinished label :
  handles (fail_if_interrupt_probe_play_task_finished answer label) running running consumed.
Proof.
  intros w Hw. unfold fail_if_interrupt_probe_play_task_finished.
  unfold mbind, stm_bind, ask. cbv zeta. destruct (answer _ PlayIsFinished); [|exact Hw]. cbn [negb].
  unfold join_play, play_handle, gets, mbind, stm_bind, ask. cbn [wo_play log_action]. rewrite Hw. unfold modify, mret, stm_ret, try, lift.
  destruct (join_result _) as [[]| |]; done.
Qed.
Lemma handles_await label : handles (await_interrupt_probe_play_task answer label) running consumed let_go.
Proof.
  intros w Hw. unfold await_interrupt_probe_play_task, play_handle, gets, mbind, stm_bind, ask. rewrite Hw.
  destruct (answer _ (JoinPlayWithin _)) as [joined|]; unfold modify, try, lift; simpl; [|done].
  destruct (join_result joined) as [[]| |]; done.
Qed.

Lemma handles_probe_playing fuel deadline v label :
  handles (probe_playing_loop answer fuel deadline v label) running running consumed.
Proof.
  induction fuel as [|fuel IH]; [done|]. cbn [probe_playing_loop].
  eapply handles_bind; [apply handles_unfinished|intros _]. eapply (handles_bind _ _ _ running); [by intros w|intros now].
  case_match.
  - eapply handles_bind; [apply handles_cancel|intros _]. by intros w.
  - eapply (handles_bind _ _ _ running); [by intros w|intros item]. case_match; [|exact IH].
    eapply (handles_bind _ _ _ running); [|intros playing; case_match; [by intros w|exact IH]].
    eapply (handles_on_failure _ _ _ _ running); [|apply handles_cancel]. apply handles_keeps; [|done].
    apply keeps_bind; [|done]. unfold take_event. apply keeps_bind; [done|]. intros e. by apply keeps_bind.
Qed.
Lemma handles_settle fuel label :
  handles (wait_for_active_interrupt_probe_media answer fuel label) running running consumed.
Proof.
  unfold wait_for_active_interrupt_probe_media. eapply (handles_bind _ _ _ running); [by intros w|intros now].
  generalize (now + ACTIVE_INTERRUPT_PROBE_MEDIA_SETTLE_DURATION). intros deadline.
  induction fuel as [|fuel IH]; [done|]. cbn [settle_loop].
  eapply handles_bind; [apply handles_unfinished|intros _]. eapply (handles_bind _ _ _ running); [by intros w|intros now'].
  case_match; [by intros w|]. eapply (handles_bind _ _ _ running); [by intros w|intros _; exact IH].
Qed.
(** A probe that cannot start has let go of its task. *)
Lemma handles_start fuel v label P : handles (start_probe answer fuel v label) P running let_go.
Proof.
  unfold start_probe. eapply (handles_bind _ _ _ running); [by intros w|intros _].
  eapply (handles_bind _ _ _ running).
  - unfold wait_for_interrupt_probe_playing_with_play_task. eapply (handles_bind _ _ _ running); [by intros w|intros now].
    eapply handles_weaken; [apply handles_probe_playing|done|done|by intros h ->].
  - intros _. eapply handles_on_failure; [apply handles_settle|].
    eapply handles_weaken; [apply (handles_cancel consumed let_go)|done|by intros h ->|done].
Qed.

Context `{Sort : PlaybackValidator.DepthSort}.
Ltac keeps_play := repeat (apply keeps_bind; [try done|intros ?]); repeat case_match; try done.
Lemma keeps_next deadline label : keeps wo_play (next_session_event_before_deadline answer deadline label).
Proof.
  unfold next_session_event_before_deadline. apply keeps_bind; [done|intros ?]. case_match; [done|].
  apply keeps_bind; [done|intros ?]. case_match; [|done]. unfold take_event. by keeps_play.
Qed.
Lemma keeps_stopped fuel v label : keeps wo_play (wait_for_interrupt_probe_stopped answer fuel v label).
Proof.
  unfold wait_for_interrupt_probe_stopped. apply keeps_bind; [done|intros now].
  induction fuel as [|fuel IH]; [done|]. cbn [stopped_loop]. apply keeps_bind; [apply keeps_next|intros e]. by keeps_play.
Qed.
Lemma keeps_rollover fuel deadline v a b : keeps wo_play (rollover_loop answer fuel deadline v a b).
Proof.
  induction fuel as [|fuel IH] in a, b |- *; [done|]. cbn [rollover_loop]. apply keeps_bind; [apply keeps_next|intros e]. by keeps_play.
Qed.
Lemma keeps_resumed fuel v : keeps wo_play (wait_for_reconnect_rollover_probe_resumed answer fuel v).
Proof. apply keeps_bind; [done|intros now]. apply keeps_rollover. Qed.
Lemma keeps_finished_metrics fuel v : keeps wo_play (fetch_finished_playback_metrics answer fuel v).
Proof.
  unfold fetch_finished_playback_metrics. apply keeps_bind; [done|intros at_]. induction fuel as [|fuel IH]; [done|].
  cbn [finished_metrics_loop]. apply keeps_bind; [done|intros m]. case_match; [done|]. apply keeps_bind; [done|intros now].
  case_match; [done|]. by apply keeps_bind.
Qed.
Lemma keeps_probe_metrics fuel v : keeps wo_play (fetch_reconnect_probe_metrics answer fuel v).
Proof.
  unfold fetch_reconnect_probe_metrics. apply keeps_bind; [done|intros at_]. induction fuel as [|fuel IH]; [done|].
  cbn [probe_metrics_loop]. apply keeps_bind; [done|intros m]. case_match; [by apply keeps_bind|]. apply keeps_bind; [done|intros now].
  case_match; [done|]. by apply keeps_bind.
Qed.

(** A guarded step of a running probe: when it fails the task is cancelled. *)
Lemma handles_guarded {A} (m : stm World Stop A) :
  keeps wo_play m -> handles (on_failure m (cancel_interrupt_probe_play_task answer)) running running let_go.
Proof.
  intros Hm. eapply (handles_on_failure _ _ _ _ running); [by apply handles_keeps|].
  eapply handles_weaken; [apply (handles_cancel running let_go)|done|by intros h ->|done].
Qed.
(** A step after the task was joined. *)
Lemma consumed_let_go h : consumed h -> let_go h.
Proof. by intros ->. Qed.
Ltac handles_next := apply handles_step; [try done|exact consumed_let_go|intros ?].
Ltac handles_start_probe :=
  eapply (handles_bind _ _ _ let_go); [by apply handles_keeps|intros _];
  eapply handles_bind; [apply handles_start|intros _].

Lemma handles_rollover_probe fuel v :
  handles (validate_active_reconnect_rollover_during_playback answer fuel v) let_go consumed let_go.
Proof.
  unfold validate_active_reconnect_rollover_during_playback. handles_start_probe.
  eapply handles_bind; [by apply handles_guarded|intros _]. eapply handles_bind; [apply handles_await|intros _].
  handles_next; [apply keeps_resumed|]. handles_next; [apply keeps_probe_metrics|]. handles_next. handles_next; [apply keeps_stopped|].
  do 4 handles_next. by intros w.
Qed.
Lemma handles_stop_probe fuel v : handles (validate_active_stop_during_playback answer fuel v) let_go consumed let_go.
Proof.
  unfold validate_active_stop_during_playback. handles_start_probe.
  eapply handles_bind; [by apply handles_guarded|intros _]. eapply handles_bind; [apply handles_guarded, keeps_stopped|intros _].
  eapply handles_bind; [apply handles_await|intros _]. do 3 handles_next. by intros w.
Qed.
Lemma handles_leave_probe fuel v : handles (validate_active_leave_voice_during_playback answer fuel v) let_go consumed let_go.
Proof.
  unfold validate_active_leave_voice_during_playback. handles_start_probe.
  eapply handles_bind; [by apply handles_guarded|intros _].
  eapply handles_bind; [apply handles_await|intros _]. do 3 handles_next. by intros w.
Qed.

(** No probe leaves its playback running: when the probes end, with success
    or with an error on any path, the task that plays was joined, was aborted
    and joined, or was given up after the 60 seconds it had to return; with
    success, it was joined. *)
Theorem probes_leave_no_play_running fuel v w :
  wo_play w <> Running ->
  match validate_post_play_control_rpcs answer fuel v w with
  | (w', Ok _) => wo_play w' = Consumed
  | (w', Err (Failed _)) => wo_play w' <> Running
  | _ => True
  end.
Proof.
  revert w. change (handles (validate_post_play_control_rpcs answer fuel v) let_go consumed let_go).
  unfold validate_post_play_control_rpcs. apply handles_step; [done|done|intros _].
  apply handles_step; [apply keeps_finished_metrics|done|intros m]. do 4 (apply handles_step; [done|done|intros _]).
  eapply (handles_bind _ _ _ let_go); [eapply handles_weaken; [apply handles_rollover_probe|done|exact consumed_let_go|done]|intros p].
  apply handles_step; [done|done|intros _].
  eapply (handles_bind _ _ _ let_go); [eapply handles_weaken; [apply handles_stop_probe|done|exact consumed_let_go|done]|intros _].
  eapply handles_bind; [apply handles_leave_probe|intros _]. do 2 handles_next. by intros w.
Qed.

(** When the Play call of a probe ends while the probe waits for media to
    settle, the probe does not report it: the wait has consumed the handle of
    the task, the cleanup polls it once more, and that panics. *)
Theorem early_play_end_panics fuel v w w1 w2 e :
  (_ ← connect_probe answer "connect active Stop probe play client";
   _ ← spawn_play answer v;
   wait_for_interrupt_probe_playing_with_play_task answer fuel v "Stop") w = (w1, Ok tt) ->
  wait_for_active_interrupt_probe_media answer fuel "Stop" w1 = (w2, Err (Failed e)) ->
  snd (validate_active_stop_during_playback answer fuel v w) = Panic.
Proof.
  intros (wa & ua & Ea & (wb & ub & Eb & Ec)%stm_bind_Ok)%stm_bind_Ok Hm.
  assert (Hr : running (wo_play w1)).
  { assert (Hb : running (wo_play wb)) by (unfold spawn_play in Eb; by inv_stm).
    assert (Hh : handles (wait_for_interrupt_probe_playing_with_play_task answer fuel v "Stop") running running consumed)
      by (unfold wait_for_interrupt_probe_playing_with_play_task; apply (handles_bind _ _ _ running); [by intros x|intros now];
          apply handles_probe_playing).
    specialize (Hh wb Hb). by rewrite Ec in Hh. }
  pose proof (handles_settle fuel "Stop" w1 Hr) as Hc. rewrite Hm in Hc.
  unfold validate_active_stop_during_playback, start_probe. unfold mbind, stm_bind. rewrite Ea, Eb, Ec. unfold on_failure at 1. rewrite Hm.
  unfold cancel_interrupt_probe_play_task, join_play, play_handle, gets, mbind, stm_bind, ask. cbn [wo_play log_action].
  by rewrite Hc.
Qed.

End Handles.

(** ** The playback that completes *)

Section Completed.
Context `{TM : TwilightModel}.
Context (answer : nat -> forall c : Call, reply c).

Definition taken (tr : list Action) : list TwSessionEvent := omap (fun a => match a with Took e => Some e | Asked _ => None end) tr.
Definition events_of (w : World) : list TwSessionEvent := taken (wo_trace w).
Definition seen_of (w : World) : Seen := lc_seen (wo_contract w).

(** What the pause and the resume leave behind. *)
Definition pause_marks : list Mark :=
  [Did CallResume; Did (AwaitArmed RequestPause); Did SendBegin; Did CallPause; Did CallPause; Did AwaitPauseProof;
   Did (AwaitArmed RequestResume); Did CallResume; Did AwaitResumeProof].
Definition pause_validated (w : World) : Prop :=
  let v := lc_validated (wo_contract w) in
  op_pause_rtp_silence_observed (wo_playback w) = true /\
  va_pause v = true /\ va_observer_proved_pause v = true /\ va_resume v = true /\ va_observer_proved_resume v = true /\
  va_invalid_resume_ignored v = true /\ va_redundant_pause_ignored v = true.

Ltac inv_live :=
  repeat match goal with
  | H : mbind _ _ _ = (_, Ok _) |- _ => apply stm_bind_Ok in H as (? & ? & ? & H); cbv beta zeta in H
  | H : ask _ _ _ = (_, Ok _) |- _ => injection H as H; subst
  | H : try _ _ = (_, Ok _) |- _ => apply try_Ok in H as [? ->]
  | H : modify _ _ = (_, Ok _) |- _ => injection H as H; subst
  | H : mret _ _ = (_, Ok _) |- _ => injection H as H; subst
  end.

Lemma validated_pause w w' :
  validate_pause_and_resume answer true w = (w', Ok tt) ->
  pause_validated w' /\ seen_of w' = seen_of w /\ events_of w' = events_of w.
Proof.
  unfold validate_pause_and_resume, wait_for_observer_audio_started, request_observer_speaking_started_proof,
    start_observer_pause_proof, begin_observer_pause_proof, await_observer_pause_proof,
    start_observer_resume_proof, await_observer_resume_proof, send_request, call, call_state.
  cbn [negb]. intros E. inv_live.
  match goal with H : bail_if (negb (ObserverProofs.pp_rtp_silence_observed _)) _ _ = _ |- _ => apply bail_if_Ok, negb_false_iff in H end.
  unfold pause_validated, seen_of, events_of, taken. cbn -[mark_pause]. rewrite !omap_app. cbn. rewrite !app_nil_r. by split_and!.
Qed.
#[local] Hint Resolve yields_call yields_state : yields.
Lemma yields_request request text : yields (send_request answer request text) [].
Proof. unfold send_request. yields_next. auto with yields. Qed.
#[local] Hint Resolve yields_request : yields.
Lemma yields_audio : yields (wait_for_observer_audio_started answer true) [].
Proof. unfold wait_for_observer_audio_started. cbn [negb]. yields_next. auto with yields. Qed.
Lemma yields_speaking : yields (request_observer_speaking_started_proof answer) [].
Proof. unfold request_observer_speaking_started_proof. do 3 yields_next. auto with yields. Qed.
#[local] Hint Resolve yields_audio yields_speaking : yields.
Ltac yields_answer c := apply (yields_bind _ _ [Did c] []); [exact (yields_asked answer c)|intros ?; auto with yields].
Lemma yields_start_pause : yields (start_observer_pause_proof answer) [Did (AwaitArmed RequestPause)].
Proof. unfold start_observer_pause_proof. yields_next. yields_answer (AwaitArmed RequestPause). Qed.
Lemma yields_begin : yields (begin_observer_pause_proof answer) [Did SendBegin].
Proof. yields_answer SendBegin. Qed.
Lemma yields_pause_proof : yields (await_observer_pause_proof answer) [Did AwaitPauseProof].
Proof. yields_answer AwaitPauseProof. yields_next. auto with yields. Qed.
Lemma yields_start_resume : yields (start_observer_resume_proof answer) [Did (AwaitArmed RequestResume)].
Proof. unfold start_observer_resume_proof. yields_next. yields_answer (AwaitArmed RequestResume). Qed.
Lemma yields_resume_proof : yields (await_observer_resume_proof answer) [Did AwaitResumeProof].
Proof. yields_answer AwaitResumeProof. yields_next. auto with yields. Qed.

Ltac yields_mark H := apply (yields_bind _ _ [_]); [apply H|intros ?].
Lemma yields_validated_pause : yields (validate_pause_and_resume answer true) pause_marks.
Proof.
  unfold validate_pause_and_resume. do 4 yields_next. yields_mark yields_called. do 4 yields_next.
  yields_mark yields_start_pause. yields_next. yields_mark yields_begin. do 2 yields_mark yields_called. do 2 yields_next.
  yields_mark yields_pause_proof. do 5 yields_next. yields_mark yields_start_resume. yields_mark yields_called.
  rewrite <- (app_nil_r [Did AwaitResumeProof]). yields_mark yields_resume_proof. do 2 yields_next. auto with yields.
Qed.

Lemma taken_app tr tr' : taken (tr ++ tr') = taken tr ++ taken tr'.
Proof. apply omap_app. Qed.
Lemma step_validated v st e st' : contract_step v st e st' -> lc_validated st' = lc_validated st.
Proof. intros []; try done. by case_match. Qed.

Lemma observe_Ok e v w w' :
  observe e v w = (w', Ok tt) -> seen_track_ended (seen_of w) = false ->
  contract_step v (wo_contract w) e (wo_contract w') /\ wo_trace w' = wo_trace w /\ wo_playback w' = wo_playback w.
Proof.
  unfold observe. destruct (observe_event e v (wo_contract w)) as [s r] eqn:E. destruct r as [b| |]; simpl; intros [= <-] He.
  split_and!; [|done|done]. by eapply observe_event_step.
Qed.
(** What is known after the loop, by whether the pause was validated before it. *)
Definition paused_by (validated : bool) (w w' : World) (tr : list Action) : Prop :=
  if validated then lc_validated (wo_contract w') = lc_validated (wo_contract w) /\ wo_playback w' = wo_playback w
  else pause_validated w' /\ pause_marks `sublist_of` (mark <$> tr).
Lemma paused_later w w1 w' tr tr1 :
  pause_validated w1 -> pause_marks `sublist_of` (mark <$> tr1) -> paused_by true w1 w' tr -> paused_by false w w' (tr1 ++ tr).
Proof.
  intros Hp Hm [Hv Hpl]. split; [unfold pause_validated in *; by rewrite Hv, Hpl|]. rewrite fmap_app. by apply sublist_inserts_r.
Qed.
Lemma checked_pause w w' :
  validate_pause_and_resume answer true w = (w', Ok tt) ->
  exists tr, wo_trace w' = wo_trace w ++ tr /\ taken tr = [] /\ pause_marks `sublist_of` (mark <$> tr) /\ pause_validated w' /\
    seen_of w' = seen_of w.
Proof.
  intros E. destruct (validated_pause _ _ E) as (Hp & Hs & He). destruct (yields_validated_pause _ _ _ E) as (tr & Ht & Hm & _).
  exists tr. split_and!; try done. unfold events_of in He. rewrite Ht, taken_app in He.
  apply (app_inv_head (taken (wo_trace w))). by rewrite app_nil_r.
Qed.

Lemma paused_before validated w w1 w' tr tr1 :
  lc_validated (wo_contract w1) = lc_validated (wo_contract w) -> wo_playback w1 = wo_playback w ->
  paused_by validated w1 w' tr -> paused_by validated w w' (tr1 ++ tr).
Proof.
  intros Hv Hp. destruct validated; simpl; [by rewrite Hv, Hp|]. intros [? ?]. split; [done|].
  rewrite fmap_app. by apply sublist_inserts_l.
Qed.
Lemma ended_played v h s : explains v h s -> seen_track_ended s = true -> seen_playing s = true.
Proof. intros Hex He. apply (ex_paused _ _ _ Hex), (ex_resumed _ _ _ Hex), (ex_ended _ _ _ Hex), He. Qed.

(** What the loop shows from a world that has taken the events [h]. *)
Definition completes (loop : bool -> stm World Stop unit) (v : string) : Prop :=
  forall validated w w' h,
  loop validated w = (w', Ok tt) -> explains v h (seen_of w) ->
  seen_track_ended (seen_of w) = false -> (validated = false -> seen_playing (seen_of w) = false) ->
  exists tr, wo_trace w' = wo_trace w ++ tr /\ explains v (h ++ taken tr) (seen_of w') /\
    seen_track_ended (seen_of w') = true /\ paused_by validated w w' tr.
Lemma completes_tail loop v validated w w' h :
  completes loop v ->
  (ended ← saw_the_end; if (ended : bool) then mret tt else loop validated) w = (w', Ok tt) ->
  explains v h (seen_of w) -> (validated = false -> seen_playing (seen_of w) = false) ->
  exists tr, wo_trace w' = wo_trace w ++ tr /\ explains v (h ++ taken tr) (seen_of w') /\
    seen_track_ended (seen_of w') = true /\ paused_by validated w w' tr.
Proof.
  intros Hl (w1 & ended & [= <- <-] & E)%stm_bind_Ok Hex Hv.
  destruct (seen_track_ended (lc_seen (wo_contract w))) eqn:He; [|by eapply Hl].
  injection E as <-. exists []. rewrite !app_nil_r. split_and!; [done|done|done|].
  destruct validated; [done|]. pose proof (ended_played _ _ _ Hex He) as Hp. by rewrite Hv in Hp.
Qed.

Lemma completed_loop fuel v : completes (play_completed_loop answer fuel v) v.
Proof.
  induction fuel as [|fuel IH]; [done|]. cbn [play_completed_loop]. intros validated w w' h E Hex He Hv.
  apply stm_bind_Ok in E as (w1 & item & E1 & E). injection E1 as <- <-.
  apply stm_bind_Ok in E as (w2 & e & E2 & E). pose proof (take_event_Ok _ _ _ _ E2) as Ht.
  assert (wo_contract w2 = wo_contract w /\ wo_playback w2 = wo_playback w) as [Hc2 Hp2]
    by (unfold take_event, try in E2; by inv_stm).
  apply stm_bind_Ok in E as (w3 & [] & E3 & E).
  apply observe_Ok in E3 as (Hst & Ht3 & Hp3); [|unfold seen_of; by rewrite Hc2]. rewrite Hc2 in Hst.
  apply stm_bind_Ok in E as (w4 & [] & E4 & E). injection E4 as <-. cbv zeta in E.
  pose proof (explains_step _ _ _ _ _ Hex He Hst) as Hex'. pose proof (step_validated _ _ _ _ Hst) as Hval.
  destruct (playing_step _ _ _ _ He Hst) as (_ & _ & Hoff). rewrite Ht in Ht3. cbn [wo_trace log_action] in Ht3.
  rewrite <- app_assoc in Ht3. apply stm_bind_Ok in E as (w5 & [] & Echeck & E).
  destruct (is_playing e && negb validated) eqn:Hcheck.
  - apply andb_true_iff in Hcheck as [Hplay Hnot]. apply negb_true_iff in Hnot as ->.
    destruct (checked_pause _ _ Echeck) as (tr1 & Ht1 & Hn1 & Hm1 & Hp1 & Hs1). cbn [wo_trace update_live_contract_snapshot] in Ht1.
    destruct (completes_tail _ _ true w5 w' (h ++ [e]) IH E) as (tr & Htr & Hext & Hend & Hby);
      [by rewrite Hs1|done|].
    exists ((([Asked NextEvent] ++ [Took e]) ++ tr1) ++ tr). split_and!; [|by rewrite !taken_app, Hn1, app_nil_r, app_assoc|done|].
    + by rewrite Htr, Ht1, Ht3, !app_assoc.
    + eapply paused_later; [exact Hp1| |exact Hby]. rewrite fmap_app. by apply sublist_inserts_l.
  - injection Echeck as <-. rewrite orb_false_r in E.
    destruct (completes_tail _ _ validated _ w' (h ++ [e]) IH E) as (tr & Htr & Hext & Hend & Hby); [done| |].
    + intros Hnot. destruct (Hoff (Hv Hnot)) as [(_ & Hk & _)|[? _]]; [|done].
      unfold is_playing in Hcheck. by rewrite Hk, Hnot in Hcheck.
    + exists (([Asked NextEvent] ++ [Took e]) ++ tr). split_and!; [|by rewrite taken_app, app_assoc|done|].
      * rewrite Htr. cbn [wo_trace update_live_contract_snapshot]. by rewrite Ht3, <- !app_assoc.
      * eapply paused_before; [exact Hval|exact (eq_trans Hp3 Hp2)|exact Hby].
Qed.

(** C25. A playback that completes was played, paused and resumed in order: when
    the wait for the playback returns, whatever the service and the observer
    answered, its events contain, for the expected track and in this order,
    resolving, buffering, playing, paused, playing again and the end; none was
    an interruption or fatal, and nothing left playback in between; and the
    observer's proofs were armed before Pause and Resume were called, the pause
    ended in the stop-silence tail, and an ignored Resume and a redundant Pause
    were tried. *)
Theorem completed_run_in_order fuel v initial w w' state proof :
  wait_for_play_completed_contract_with_controls answer fuel v w = (w', Ok (state, proof)) ->
  wo_contract w = post_play_live_contract_state initial ->
  va_pause (lc_validated initial) && va_resume (lc_validated initial) = false ->
  exists tr, wo_trace w' = wo_trace w ++ tr /\ pause_marks `sublist_of` (mark <$> tr) /\
    op_pause_rtp_silence_observed proof = true /\ va_observer_proved_pause (lc_validated state) = true /\
    va_observer_proved_resume (lc_validated state) = true /\
    exists before p during, taken tr = before ++ p :: during /\
      [TK_TrackResolving; TK_Buffering; TK_Playing; TK_Paused; TK_Playing; TK_TrackEnded]
        `sublist_of` track_kinds v (taken tr) /\
      Forall (fun e => harmless (te_kind e)) (taken tr) /\
      te_kind p = TK_Playing /\ Forall (fun e => te_kind e <> TK_Playing) before /\
      Forall (fun e => undisturbed (te_kind e)) (removelast during).
Proof.
  unfold wait_for_play_completed_contract_with_controls. intros (w1 & validated & [= <- <-] & E)%stm_bind_Ok Hw Hv.
  apply stm_bind_Ok in E as (w2 & [] & E & [= <- <- <-]). rewrite Hw in E. simpl in E. rewrite Hv in E.
  destruct (completed_loop _ _ _ _ _ [] E) as (tr & Ht & Hex & He & Hp & Hm); [unfold seen_of; rewrite Hw; apply explains_start| | |].
  1-2: unfold seen_of; by rewrite Hw.
  destruct Hp as (Hrtp & _ & Hop & _ & Hor & _). exists tr. split_and!; try done.
  exact (explained_order _ _ _ Hex He).
Qed.
End Completed.

(** ** Witnesses *)

Module Samples.
Import HealthyRun.

Definition video_event (kind : TwSessionEventKind) : TwSessionEvent :=
  mkTwSessionEvent kind None None (Some "video") None None None TR_Unspecified.
Definition service_state (state : TwSessionState) : StateSnapshot := mkStateSnapshot state None None None 0 None None.
(** A service and a runtime that answer in time: the events that come at given
    points of the trace, the states, the metrics, and the point at which the
    task that plays is found finished. *)
Definition answers (events : list (nat * TwSessionEventKind)) (states : list (nat * TwSessionState)) (finished : nat) (n : nat) (c : Call)
    : reply c :=
  let at_ {A} (l : list (nat * A)) : option A := snd <$> List.find (fun x => Nat.eqb (fst x) n) l in
  match c with
  | NextEvent => Ok ∘ video_event <$> at_ events
  | NextEventWithin _ => (fun k => Some (Ok (video_event k))) <$> at_ events
  | Now => Z.of_nat n * 1000000000
  | SleepUntil _ | Sleep _ | SpawnPlay _ | AbortPlay => tt
  | CallPause | CallResume | CallStop | CallLeaveVoice | CallUpdateVoiceContext | ConnectProbeClient => Ok tt
  | CallState => Ok (service_state (default TS_Idle (at_ states)))
  | CallPlaybackMetrics => Ok (if (n <? 10)%nat then healthy_playback else healthy_probe)
  | AwaitAudioStarted | AwaitArmed _ => Got tt
  | SendProofRequest _ | SendBegin => true
  | PlayIsFinished => (n =? finished)%nat
  | AwaitSpeakingProof => Got (Ok tt)
  | AwaitPauseProof => Got (Ok (ObserverProofs.mkPauseProof 600 true true))
  | AwaitResumeProof => Got (Ok (ObserverProofs.mkResumeProof 4 true 10000))
  | JoinPlay => Returned (bail "resolve failed" [])
  | JoinPlayWithin _ => Some (Returned (Ok tt))
  end.
Definition world (contract : LiveContractState) : World :=
  mkWorld [] NoPlay contract contract ObserverPlaybackProof_default None PostPlayControlEvidence_default.

(** Three probes that go well. *)
Definition probe_answers : nat -> forall c : Call, reply c :=
  answers [(7, TK_Playing); (16, TK_VoiceReconnecting); (19, TK_VoiceReady); (22, TK_Playing); (29, TK_Stopped);
           (37, TK_Playing); (45, TK_Stopped); (54, TK_Playing)]%nat
    [(31, TS_VoiceReady); (48, TS_VoiceReady); (61, TS_Idle)]%nat 1000.
Definition played_contract : LiveContractState :=
  mkContract (mkValidated true true true true true true true true true false false false false false true false true)
    (mkSeen true true true true true true true true).
Lemma accepted_probes_were_playing_witness :
  exists w', validate_post_play_control_rpcs probe_answers 5 "video" (world played_contract) = (w', Ok (healthy_playback, healthy_probe)) /\
    missing_required_coverage (wo_contract w') = [].
Proof.
  assert (Hok : snd (validate_post_play_control_rpcs probe_answers 5 "video" (world played_contract)) = Ok (healthy_playback, healthy_probe))
    by (vm_compute; reflexivity).
  destruct (validate_post_play_control_rpcs probe_answers 5 "video" (world played_contract)) as [w' r] eqn:E. simpl in Hok. subst r.
  exists w'. split; [reflexivity|].
  destruct (accepted_probes_were_playing probe_answers _ _ _ _ _ _ E) as [Hc _]. exact Hc.
Defined.
Lemma probes_leave_no_play_running_witness :
  wo_play (world played_contract) <> Running /\
  wo_play (fst (validate_post_play_control_rpcs probe_answers 5 "video" (world played_contract))) = Consumed.
Proof.
  assert (Hw : wo_play (world played_contract) <> Running) by discriminate. split; [exact Hw|].
  pose proof (probes_leave_no_play_running probe_answers 5 "video" (world played_contract) Hw) as H.
  assert (Hok : snd (validate_post_play_control_rpcs probe_answers 5 "video" (world played_contract)) = Ok (healthy_playback, healthy_probe))
    by (vm_compute; reflexivity).
  destruct (validate_post_play_control_rpcs probe_answers 5 "video" (world played_contract)) as [w' r]. simpl in *. subst r. exact H.
Defined.

(** A probe whose Play call fails while it settles. *)
Definition failing_answers : nat -> forall c : Call, reply c := answers [(5, TK_Playing)]%nat [] 8.
Definition started : stm World Stop unit :=
  _ ← connect_probe failing_answers "connect active Stop probe play client";
  _ ← spawn_play failing_answers "video";
  wait_for_interrupt_probe_playing_with_play_task failing_answers 5 "video" "Stop".
Definition early_world : World := fst (started (world played_contract)).
Definition failed_world : World := fst (wait_for_active_interrupt_probe_media failing_answers 5 "Stop" early_world).
Definition early_error : AnyError :=
  [mkMessage "active {} probe Play RPC failed before Playing" [Text "Stop"]; mkMessage "resolve failed" []].
Lemma early_play_end_panics_witness :
  snd (validate_active_stop_during_playback failing_answers 5 "video" (world played_contract)) = Panic.
Proof.
  apply (early_play_end_panics failing_answers 5 "video" (world played_contract) early_world failed_world early_error).
  - assert (H : snd (started (world played_contract)) = Ok tt) by (vm_compute; reflexivity).
    rewrite <- H. apply surjective_pairing.
  - assert (H : snd (wait_for_active_interrupt_probe_media failing_answers 5 "Stop" early_world) = Err (Failed early_error))
      by (vm_compute; reflexivity).
    rewrite <- H. apply surjective_pairing.
Defined.

(** A playback with its pause. *)
Definition playback_answers : nat -> forall c : Call, reply c :=
  answers [(0, TK_TrackResolving); (2, TK_Buffering); (4, TK_Playing); (26, TK_Paused); (28, TK_Playing); (30, TK_TrackEnded)]%nat
    [(12, TS_Playing); (19, TS_Paused)]%nat 1000.
Definition joined_contract : LiveContractState :=
  mkContract Validated_default (mkSeen true true false false false false false false).
Lemma completed_run_in_order_witness :
  exists w' state proof,
    wait_for_play_completed_contract_with_controls playback_answers 10 "video" (world joined_contract) = (w', Ok (state, proof)) /\
    exists tr, wo_trace w' = tr /\ pause_marks `sublist_of` (mark <$> tr) /\ op_pause_rtp_silence_observed proof = true.
Proof.
  assert (Hok : match snd (wait_for_play_completed_contract_with_controls playback_answers 10 "video" (world joined_contract)) with
                | Ok _ => true | _ => false end = true) by (vm_compute; reflexivity).
  destruct (wait_for_play_completed_contract_with_controls playback_answers 10 "video" (world joined_contract))
    as [w' [[state proof]|e|]] eqn:E; [|discriminate Hok..].
  exists w', state, proof. split; [reflexivity|].
  destruct (completed_run_in_order playback_answers 10 "video" joined_contract _ _ _ _ E) as (tr & Ht & Hm & Hp & _); [reflexivity..|].
  exists tr. split; [exact Ht|]. split; [exact Hm|exact Hp].
Defined.
End Samples.
