(* ===== verification/Evidence.v ===== *)
(** * The evidence of a live run

    crates/discord-voice-service-live-validation/src/contract.rs: the records
    the tool writes down, and how the metrics a client received become the
    evidence. Kinds, phases and reasons are written as labels, and the raw
    histories are counted. The evidence loses nothing: the snapshot can be read
    back from it, so that a check of one is a check of the other. *)

From S2P Require Import Prelude MetricsTransport AudioObserver.
From S2P Require Metrics.
From stdpp Require Import prelude strings.
Open Scope Z_scope.

(** ** Labels *)

Definition playback_send_command_kind_label (x : TwPlaybackSendCommandKind) : string :=
  match x with
  | TC_Track => "track"
  | TC_ScheduledSilence => "scheduled_silence"
  | TC_BoundarySilence => "boundary_silence"
  | TC_OtherBoundary => "other_boundary"
  | TC_Unspecified => "unspecified"
  end.
Definition command_kind_of_label (label : string) : TwPlaybackSendCommandKind :=
  if bool_decide (label = "track"%string) then TC_Track else
  if bool_decide (label = "scheduled_silence"%string) then TC_ScheduledSilence else
  if bool_decide (label = "boundary_silence"%string) then TC_BoundarySilence else
  if bool_decide (label = "other_boundary"%string) then TC_OtherBoundary else
  TC_Unspecified.
Lemma command_kind_of_label_label x : command_kind_of_label (playback_send_command_kind_label x) = x.
Proof. by destruct x. Qed.
Definition prepared_track_queue_sample_phase_label (x : TwPreparedTrackQueueSamplePhase) : string :=
  match x with
  | TP_ActivePrePause => "active_pre_pause"
  | TP_ActivePostResume => "active_post_resume"
  | TP_Unspecified => "unspecified"
  end.
Definition phase_of_label (label : string) : TwPreparedTrackQueueSamplePhase :=
  if bool_decide (label = "active_pre_pause"%string) then TP_ActivePrePause else
  if bool_decide (label = "active_post_resume"%string) then TP_ActivePostResume else
  TP_Unspecified.
Lemma phase_of_label_label x : phase_of_label (prepared_track_queue_sample_phase_label x) = x.
Proof. by destruct x. Qed.
Definition prepared_playout_queue_event_kind_label (x : TwPreparedPlayoutQueueEventKind) : string :=
  match x with
  | TQK_Enqueued => "enqueued"
  | TQK_DequeuedToDeadlineSender => "dequeued_to_deadline_sender"
  | TQK_DroppedBeforeSend => "dropped_before_send"
  | TQK_Rebuilt => "rebuilt"
  | TQK_Unspecified => "unspecified"
  end.
Definition event_kind_of_label (label : string) : TwPreparedPlayoutQueueEventKind :=
  if bool_decide (label = "enqueued"%string) then TQK_Enqueued else
  if bool_decide (label = "dequeued_to_deadline_sender"%string) then TQK_DequeuedToDeadlineSender else
  if bool_decide (label = "dropped_before_send"%string) then TQK_DroppedBeforeSend else
  if bool_decide (label = "rebuilt"%string) then TQK_Rebuilt else
  TQK_Unspecified.
Lemma event_kind_of_label_label x : event_kind_of_label (prepared_playout_queue_event_kind_label x) = x.
Proof. by destruct x. Qed.
Definition prepared_playout_queue_event_reason_label (x : TwPreparedPlayoutQueueEventReason) : string :=
  match x with
  | TQR_SteadyPlayback => "steady_playback"
  | TQR_Pause => "pause"
  | TQR_Stop => "stop"
  | TQR_DaveTransitionRecovery => "dave_transition_recovery"
  | TQR_Reconnect => "reconnect"
  | TQR_SourceUnderrun => "source_underrun"
  | TQR_NaturalEnd => "natural_end"
  | TQR_Interruption => "interruption"
  | TQR_Unspecified => "unspecified"
  end.
Definition event_reason_of_label (label : string) : TwPreparedPlayoutQueueEventReason :=
  if bool_decide (label = "steady_playback"%string) then TQR_SteadyPlayback else
  if bool_decide (label = "pause"%string) then TQR_Pause else
  if bool_decide (label = "stop"%string) then TQR_Stop else
  if bool_decide (label = "dave_transition_recovery"%string) then TQR_DaveTransitionRecovery else
  if bool_decide (label = "reconnect"%string) then TQR_Reconnect else
  if bool_decide (label = "source_underrun"%string) then TQR_SourceUnderrun else
  if bool_decide (label = "natural_end"%string) then TQR_NaturalEnd else
  if bool_decide (label = "interruption"%string) then TQR_Interruption else
  TQR_Unspecified.
Lemma event_reason_of_label_label x : event_reason_of_label (prepared_playout_queue_event_reason_label x) = x.
Proof. by destruct x. Qed.

(** ** The records, and what they are made from *)

Record PlaybackDurationStatsEvidence : Type := mkPlaybackDurationStatsEvidence {
  eds_samples : Z;
  eds_p50_ms : Z;
  eds_p95_ms : Z;
  eds_p99_ms : Z;
  eds_min_ms : Z;
  eds_max_ms : Z;
}.
Definition PlaybackDurationStatsEvidence_from (value : TwDurationStatsSnapshot) : PlaybackDurationStatsEvidence := {|
  eds_samples := twd_samples value;
  eds_p50_ms := twd_p50_ms value;
  eds_p95_ms := twd_p95_ms value;
  eds_p99_ms := twd_p99_ms value;
  eds_min_ms := twd_min_ms value;
  eds_max_ms := twd_max_ms value;
|}.
Definition interval_stats_evidence (value : AudioIntervalStats) : PlaybackDurationStatsEvidence := {|
  eds_samples := Metrics.st_samples value;
  eds_p50_ms := Metrics.st_p50_ms value;
  eds_p95_ms := Metrics.st_p95_ms value;
  eds_p99_ms := Metrics.st_p99_ms value;
  eds_min_ms := Metrics.st_min_ms value;
  eds_max_ms := Metrics.st_max_ms value;
|}.
Record PlaybackBufferDepthEvidence : Type := mkPlaybackBufferDepthEvidence {
  ebd_packets : Z;
  ebd_bytes : Z;
  ebd_duration_ms : Z;
  ebd_duration_samples : Z;
}.
Definition PlaybackBufferDepthEvidence_from (value : TwPlaybackBufferDepthSnapshot) : PlaybackBufferDepthEvidence := {|
  ebd_packets := twb_packets value;
  ebd_bytes := twb_bytes value;
  ebd_duration_ms := twb_duration_ms value;
  ebd_duration_samples := twb_duration_samples value;
|}.
Record PlaybackQueueDepthStatsEvidence : Type := mkPlaybackQueueDepthStatsEvidence {
  eqd_sample_count : Z;
  eqd_empty_count : Z;
  eqd_current_depth : PlaybackBufferDepthEvidence;
  eqd_min_depth : PlaybackBufferDepthEvidence;
  eqd_p5_depth : PlaybackBufferDepthEvidence;
  eqd_p50_depth : PlaybackBufferDepthEvidence;
  eqd_p95_depth : PlaybackBufferDepthEvidence;
  eqd_max_depth : PlaybackBufferDepthEvidence;
}.
Definition PlaybackQueueDepthStatsEvidence_from (value : TwPlaybackQueueDepthStatsSnapshot) : PlaybackQueueDepthStatsEvidence := {|
  eqd_sample_count := twq_sample_count value;
  eqd_empty_count := twq_empty_count value;
  eqd_current_depth := PlaybackBufferDepthEvidence_from (twq_current_depth value);
  eqd_min_depth := PlaybackBufferDepthEvidence_from (twq_min_depth value);
  eqd_p5_depth := PlaybackBufferDepthEvidence_from (twq_p5_depth value);
  eqd_p50_depth := PlaybackBufferDepthEvidence_from (twq_p50_depth value);
  eqd_p95_depth := PlaybackBufferDepthEvidence_from (twq_p95_depth value);
  eqd_max_depth := PlaybackBufferDepthEvidence_from (twq_max_depth value);
|}.
Record PlaybackSendEventEvidence : Type := mkPlaybackSendEventEvidence {
  ese_packet_index : Z;
  ese_command_kind : string;
  ese_expected_deadline_offset_us : Z;
  ese_send_started_offset_us : Z;
  ese_sent_offset_us : Z;
  ese_media_duration_ms : Z;
  ese_media_duration_samples : Z;
  ese_rtp_sequence : Z;
  ese_rtp_timestamp : Z;
  ese_protection_nonce : option Z;
  ese_source_frame_epoch : option Z;
  ese_source_media_position_ms : option Z;
  ese_source_media_position_samples : option Z;
  ese_source_media_byte_position : option Z;
  ese_committed_heard_media : bool;
}.
Definition PlaybackSendEventEvidence_from (value : TwPlaybackSendEventSnapshot) : PlaybackSendEventEvidence := {|
  ese_packet_index := twe_packet_index value;
  ese_command_kind := playback_send_command_kind_label (twe_command_kind value);
  ese_expected_deadline_offset_us := twe_expected_deadline_offset_us value;
  ese_send_started_offset_us := twe_send_started_offset_us value;
  ese_sent_offset_us := twe_sent_offset_us value;
  ese_media_duration_ms := twe_media_duration_ms value;
  ese_media_duration_samples := twe_media_duration_samples value;
  ese_rtp_sequence := twe_rtp_sequence value;
  ese_rtp_timestamp := twe_rtp_timestamp value;
  ese_protection_nonce := twe_protection_nonce value;
  ese_source_frame_epoch := twe_source_frame_epoch value;
  ese_source_media_position_ms := twe_source_media_position_ms value;
  ese_source_media_position_samples := twe_source_media_position_samples value;
  ese_source_media_byte_position := twe_source_media_byte_position value;
  ese_committed_heard_media := twe_committed_heard_media value;
|}.
Record PreparedTrackQueueDepthSampleEvidence : Type := mkPreparedTrackQueueDepthSampleEvidence {
  eqs_sample_index : Z;
  eqs_phase : string;
  eqs_depth : PlaybackBufferDepthEvidence;
}.
Definition PreparedTrackQueueDepthSampleEvidence_from (value : TwPreparedTrackQueueDepthSampleSnapshot) : PreparedTrackQueueDepthSampleEvidence := {|
  eqs_sample_index := tws_sample_index value;
  eqs_phase := prepared_track_queue_sample_phase_label (tws_phase value);
  eqs_depth := PlaybackBufferDepthEvidence_from (tws_depth value);
|}.
Record PreparedPlayoutQueueEventEvidence : Type := mkPreparedPlayoutQueueEventEvidence {
  epq_event_index : Z;
  epq_event_kind : string;
  epq_reason : string;
  epq_command_kind : string;
  epq_media_duration_ms : Z;
  epq_media_duration_samples : Z;
  epq_rtp_sequence : Z;
  epq_rtp_timestamp : Z;
  epq_protection_nonce : option Z;
  epq_source_frame_epoch : option Z;
  epq_source_media_position_ms : option Z;
  epq_source_media_position_samples : option Z;
  epq_source_media_byte_position : option Z;
  epq_queue_depth_after : PlaybackBufferDepthEvidence;
}.
Definition PreparedPlayoutQueueEventEvidence_from (value : TwPreparedPlayoutQueueEventSnapshot) : PreparedPlayoutQueueEventEvidence := {|
  epq_event_index := twp_event_index value;
  epq_event_kind := prepared_playout_queue_event_kind_label (twp_event_kind value);
  epq_reason := prepared_playout_queue_event_reason_label (twp_reason value);
  epq_command_kind := playback_send_command_kind_label (twp_command_kind value);
  epq_media_duration_ms := twp_media_duration_ms value;
  epq_media_duration_samples := twp_media_duration_samples value;
  epq_rtp_sequence := twp_rtp_sequence value;
  epq_rtp_timestamp := twp_rtp_timestamp value;
  epq_protection_nonce := twp_protection_nonce value;
  epq_source_frame_epoch := twp_source_frame_epoch value;
  epq_source_media_position_ms := twp_source_media_position_ms value;
  epq_source_media_position_samples := twp_source_media_position_samples value;
  epq_source_media_byte_position := twp_source_media_byte_position value;
  epq_queue_depth_after := PlaybackBufferDepthEvidence_from (twp_queue_depth_after value);
|}.
Record PlaybackStabilityEvidence : Type := mkPlaybackStabilityEvidence {
  eps_playback_epoch : Z;
  eps_video_id : option string;
  eps_selected_itag : option Z;
  eps_track_packet_count : Z;
  eps_continuity_silence_packet_count : Z;
  eps_inserted_silence_duration_ms : Z;
  eps_track_interval : PlaybackDurationStatsEvidence;
  eps_track_media_duration_sent_ms : Z;
  eps_track_wall_clock_elapsed_ms : Z;
  eps_track_media_to_wall_clock_ratio_ppm : Z;
  eps_track_fast_interval_count : Z;
  eps_track_fast_interval_min_ms : Z;
  eps_track_fast_interval_min_us : Z;
  eps_track_tempo_window_count : Z;
  eps_track_tempo_window_post_source_buffer_count : Z;
  eps_track_tempo_window_min_ratio_ppm : Z;
  eps_track_tempo_window_max_ratio_ppm : Z;
  eps_track_tempo_window_fast_count : Z;
  eps_track_tempo_window_fastest_ratio_ppm : Z;
  eps_track_tempo_window_fastest_media_ms : Z;
  eps_track_tempo_window_fastest_wall_clock_us : Z;
  eps_track_tempo_window_slow_count : Z;
  eps_track_tempo_window_slowest_ratio_ppm : Z;
  eps_track_tempo_window_slowest_media_ms : Z;
  eps_track_tempo_window_slowest_wall_clock_us : Z;
  eps_skipped_source_frame_count : Z;
  eps_skipped_source_duration_ms : Z;
  eps_skipped_source_duration_samples : Z;
  eps_tempo_rebase_count : Z;
  eps_expected_track_frame_count : Z;
  eps_sent_track_frame_count : Z;
  eps_silence_frame_count : Z;
  eps_frame_deficit_count : Z;
  eps_dropped_frame_count : Z;
  eps_late_frame_count : Z;
  eps_all_packet_interval : PlaybackDurationStatsEvidence;
  eps_sender_lateness : PlaybackDurationStatsEvidence;
  eps_max_consecutive_late_packets : Z;
  eps_current_consecutive_late_packets : Z;
  eps_current_buffer_depth : PlaybackBufferDepthEvidence;
  eps_min_buffer_depth : PlaybackBufferDepthEvidence;
  eps_max_buffer_depth : PlaybackBufferDepthEvidence;
  eps_current_source_buffer_depth : PlaybackBufferDepthEvidence;
  eps_min_source_buffer_depth : PlaybackBufferDepthEvidence;
  eps_max_source_buffer_depth : PlaybackBufferDepthEvidence;
  eps_source_buffer_depth : option PlaybackQueueDepthStatsEvidence;
  eps_current_playout_buffer_depth : PlaybackBufferDepthEvidence;
  eps_min_playout_buffer_depth : PlaybackBufferDepthEvidence;
  eps_max_playout_buffer_depth : PlaybackBufferDepthEvidence;
  eps_egress_buffer_target_ms : Z;
  eps_current_egress_buffer_depth : PlaybackBufferDepthEvidence;
  eps_min_egress_buffer_depth : PlaybackBufferDepthEvidence;
  eps_max_egress_buffer_depth : PlaybackBufferDepthEvidence;
  eps_prepared_rtp_queue_depth_ms : Z;
  eps_prepared_track_queue_target_ms : Z;
  eps_prepared_track_queue_low_watermark_ms : Z;
  eps_prepared_track_queue_high_watermark_ms : Z;
  eps_active_pre_pause_prepared_track_queue_depth : option PlaybackQueueDepthStatsEvidence;
  eps_active_post_resume_prepared_track_queue_depth : option PlaybackQueueDepthStatsEvidence;
  eps_prepared_track_queue_depth_sample_count : Z;
  eps_prepared_track_queue_empty_count : Z;
  eps_raw_send_event_count : Z;
  eps_raw_prepared_track_queue_sample_count : Z;
  eps_raw_prepared_playout_queue_event_count : Z;
  eps_raw_send_events : list PlaybackSendEventEvidence;
  eps_raw_prepared_track_queue_samples : list PreparedTrackQueueDepthSampleEvidence;
  eps_raw_prepared_playout_queue_events : list PreparedPlayoutQueueEventEvidence;
  eps_current_scheduled_silence_queue_depth : PlaybackBufferDepthEvidence;
  eps_max_scheduled_silence_queue_depth : PlaybackBufferDepthEvidence;
  eps_current_boundary_queue_depth : PlaybackBufferDepthEvidence;
  eps_max_boundary_queue_depth : PlaybackBufferDepthEvidence;
  eps_prepared_track_packet_drop_count : Z;
  eps_prepared_silence_packet_drop_count : Z;
  eps_prepared_packet_rebuild_count : Z;
  eps_scheduled_silence_packet_count : Z;
  eps_pause_media_boundary_count : Z;
  eps_stop_media_boundary_count : Z;
  eps_recovery_media_boundary_count : Z;
  eps_natural_end_media_boundary_count : Z;
  eps_dave_transition_recovery_reached_builder_count : Z;
  eps_dave_transition_recovery_reached_deadline_sender_count : Z;
  eps_source_underrun_reached_builder_count : Z;
  eps_source_underrun_reached_deadline_sender_count : Z;
  eps_discarded_source_frame_count : Z;
  eps_discarded_source_duration_ms : Z;
  eps_discarded_source_duration_samples : Z;
  eps_stop_discarded_source_frame_count : Z;
  eps_stop_discarded_source_duration_ms : Z;
  eps_stop_discarded_source_duration_samples : Z;
  eps_interruption_discarded_source_frame_count : Z;
  eps_interruption_discarded_source_duration_ms : Z;
  eps_interruption_discarded_source_duration_samples : Z;
  eps_restored_source_frame_count : Z;
  eps_restored_source_duration_ms : Z;
  eps_restored_source_duration_samples : Z;
  eps_source_buffer_target_ms : Z;
  eps_adaptive_buffer_target_ms : Z;
  eps_max_adaptive_buffer_target_ms : Z;
  eps_buffer_low_watermark_count : Z;
  eps_source_buffer_low_watermark_count : Z;
  eps_playout_buffer_low_watermark_count : Z;
  eps_buffer_underrun_count : Z;
  eps_playout_underrun_count : Z;
  eps_egress_underrun_count : Z;
  eps_egress_inserted_silence_duration_ms : Z;
  eps_egress_dropped_music_frame_count : Z;
  eps_egress_dropped_music_duration_ms : Z;
  eps_egress_dropped_music_duration_samples : Z;
  eps_source_underrun_count : Z;
  eps_rebuffer_count : Z;
  eps_refill_duration : PlaybackDurationStatsEvidence;
  eps_source_producer_fill_duration : PlaybackDurationStatsEvidence;
  eps_producer_stall_duration : PlaybackDurationStatsEvidence;
  eps_max_producer_lag_ms : Z;
  eps_http_retry_count : Z;
  eps_response_open_count : Z;
  eps_range_reopen_count : Z;
  eps_read_error_reopen_count : Z;
  eps_url_reresolve_count : Z;
  eps_pause_resume_first_intervals_ms : list Z;
  eps_post_stall_first_intervals_ms : list Z;
  eps_post_rebuffer_first_intervals_ms : list Z;
  eps_playout_sender_lateness : PlaybackDurationStatsEvidence;
  eps_playout_builder_prepare_duration : PlaybackDurationStatsEvidence;
  eps_sender_send_duration : PlaybackDurationStatsEvidence;
  eps_sender_loop_non_send_work_duration : PlaybackDurationStatsEvidence;
  eps_max_consecutive_playout_late_packets : Z;
  eps_max_consecutive_late_egress_ticks : Z;
  eps_speaking_prepare_duration : PlaybackDurationStatsEvidence;
  eps_sender_forbidden_work_count : Z;
  eps_gateway_event_drain_duration : PlaybackDurationStatsEvidence;
  eps_gateway_event_drain_count : Z;
  eps_dave_transition_count : Z;
  eps_dave_transition_count_during_playback : Z;
  eps_stale_dave_send_prevented_count : Z;
  eps_controlled_media_interruption_count : Z;
  eps_media_clock_reset_count : Z;
  eps_egress_clock_reset_count : Z;
  eps_scheduler_late_reset_count : Z;
  eps_source_underrun_reset_count : Z;
  eps_pause_resume_reset_count : Z;
  eps_dave_transition_recovery_reset_count : Z;
  eps_gateway_interruptions : Z;
  eps_dave_interruptions : Z;
  eps_reconnect_interruptions : Z;
  eps_ended : bool;
}.
Definition PlaybackStabilityEvidence_from (value : TwPlaybackStabilitySnapshot) : PlaybackStabilityEvidence := {|
  eps_playback_epoch := twm_playback_epoch value;
  eps_video_id := twm_video_id value;
  eps_selected_itag := twm_selected_itag value;
  eps_track_packet_count := twm_track_packet_count value;
  eps_continuity_silence_packet_count := twm_continuity_silence_packet_count value;
  eps_inserted_silence_duration_ms := twm_inserted_silence_duration_ms value;
  eps_track_interval := PlaybackDurationStatsEvidence_from (twm_track_interval value);
  eps_track_media_duration_sent_ms := twm_track_media_duration_sent_ms value;
  eps_track_wall_clock_elapsed_ms := twm_track_wall_clock_elapsed_ms value;
  eps_track_media_to_wall_clock_ratio_ppm := twm_track_media_to_wall_clock_ratio_ppm value;
  eps_track_fast_interval_count := twm_track_fast_interval_count value;
  eps_track_fast_interval_min_ms := twm_track_fast_interval_min_ms value;
  eps_track_fast_interval_min_us := twm_track_fast_interval_min_us value;
  eps_track_tempo_window_count := twm_track_tempo_window_count value;
  eps_track_tempo_window_post_source_buffer_count := twm_track_tempo_window_post_source_buffer_count value;
  eps_track_tempo_window_min_ratio_ppm := twm_track_tempo_window_min_ratio_ppm value;
  eps_track_tempo_window_max_ratio_ppm := twm_track_tempo_window_max_ratio_ppm value;
  eps_track_tempo_window_fast_count := twm_track_tempo_window_fast_count value;
  eps_track_tempo_window_fastest_ratio_ppm := twm_track_tempo_window_fastest_ratio_ppm value;
  eps_track_tempo_window_fastest_media_ms := twm_track_tempo_window_fastest_media_ms value;
  eps_track_tempo_window_fastest_wall_clock_us := twm_track_tempo_window_fastest_wall_clock_us value;
  eps_track_tempo_window_slow_count := twm_track_tempo_window_slow_count value;
  eps_track_tempo_window_slowest_ratio_ppm := twm_track_tempo_window_slowest_ratio_ppm value;
  eps_track_tempo_window_slowest_media_ms := twm_track_tempo_window_slowest_media_ms value;
  eps_track_tempo_window_slowest_wall_clock_us := twm_track_tempo_window_slowest_wall_clock_us value;
  eps_skipped_source_frame_count := twm_skipped_source_frame_count value;
  eps_skipped_source_duration_ms := twm_skipped_source_duration_ms value;
  eps_skipped_source_duration_samples := twm_skipped_source_duration_samples value;
  eps_tempo_rebase_count := twm_tempo_rebase_count value;
  eps_expected_track_frame_count := twm_expected_track_frame_count value;
  eps_sent_track_frame_count := twm_sent_track_frame_count value;
  eps_silence_frame_count := twm_silence_frame_count value;
  eps_frame_deficit_count := twm_frame_deficit_count value;
  eps_dropped_frame_count := twm_dropped_frame_count value;
  eps_late_frame_count := twm_late_frame_count value;
  eps_all_packet_interval := PlaybackDurationStatsEvidence_from (twm_all_packet_interval value);
  eps_sender_lateness := PlaybackDurationStatsEvidence_from (twm_sender_lateness value);
  eps_max_consecutive_late_packets := twm_max_consecutive_late_packets value;
  eps_current_consecutive_late_packets := twm_current_consecutive_late_packets value;
  eps_current_buffer_depth := PlaybackBufferDepthEvidence_from (twm_current_buffer_depth value);
  eps_min_buffer_depth := PlaybackBufferDepthEvidence_from (twm_min_buffer_depth value);
  eps_max_buffer_depth := PlaybackBufferDepthEvidence_from (twm_max_buffer_depth value);
  eps_current_source_buffer_depth := PlaybackBufferDepthEvidence_from (twm_current_source_buffer_depth value);
  eps_min_source_buffer_depth := PlaybackBufferDepthEvidence_from (twm_min_source_buffer_depth value);
  eps_max_source_buffer_depth := PlaybackBufferDepthEvidence_from (twm_max_source_buffer_depth value);
  eps_source_buffer_depth := PlaybackQueueDepthStatsEvidence_from <$> twm_source_buffer_depth value;
  eps_current_playout_buffer_depth := PlaybackBufferDepthEvidence_from (twm_current_playout_buffer_depth value);
  eps_min_playout_buffer_depth := PlaybackBufferDepthEvidence_from (twm_min_playout_buffer_depth value);
  eps_max_playout_buffer_depth := PlaybackBufferDepthEvidence_from (twm_max_playout_buffer_depth value);
  eps_egress_buffer_target_ms := twm_egress_buffer_target_ms value;
  eps_current_egress_buffer_depth := PlaybackBufferDepthEvidence_from (twm_current_egress_buffer_depth value);
  eps_min_egress_buffer_depth := PlaybackBufferDepthEvidence_from (twm_min_egress_buffer_depth value);
  eps_max_egress_buffer_depth := PlaybackBufferDepthEvidence_from (twm_max_egress_buffer_depth value);
  eps_prepared_rtp_queue_depth_ms := twm_prepared_rtp_queue_depth_ms value;
  eps_prepared_track_queue_target_ms := twm_prepared_track_queue_target_ms value;
  eps_prepared_track_queue_low_watermark_ms := twm_prepared_track_queue_low_watermark_ms value;
  eps_prepared_track_queue_high_watermark_ms := twm_prepared_track_queue_high_watermark_ms value;
  eps_active_pre_pause_prepared_track_queue_depth := PlaybackQueueDepthStatsEvidence_from <$> twm_active_pre_pause_prepared_track_queue_depth value;
  eps_active_post_resume_prepared_track_queue_depth := PlaybackQueueDepthStatsEvidence_from <$> twm_active_post_resume_prepared_track_queue_depth value;
  eps_prepared_track_queue_depth_sample_count := twm_prepared_track_queue_depth_sample_count value;
  eps_prepared_track_queue_empty_count := twm_prepared_track_queue_empty_count value;
  eps_raw_send_event_count := zlen (twm_raw_send_events value);
  eps_raw_prepared_track_queue_sample_count := zlen (twm_raw_prepared_track_queue_samples value);
  eps_raw_prepared_playout_queue_event_count := zlen (twm_raw_prepared_playout_queue_events value);
  eps_raw_send_events := PlaybackSendEventEvidence_from <$> twm_raw_send_events value;
  eps_raw_prepared_track_queue_samples := PreparedTrackQueueDepthSampleEvidence_from <$> twm_raw_prepared_track_queue_samples value;
  eps_raw_prepared_playout_queue_events := PreparedPlayoutQueueEventEvidence_from <$> twm_raw_prepared_playout_queue_events value;
  eps_current_scheduled_silence_queue_depth := PlaybackBufferDepthEvidence_from (twm_current_scheduled_silence_queue_depth value);
  eps_max_scheduled_silence_queue_depth := PlaybackBufferDepthEvidence_from (twm_max_scheduled_silence_queue_depth value);
  eps_current_boundary_queue_depth := PlaybackBufferDepthEvidence_from (twm_current_boundary_queue_depth value);
  eps_max_boundary_queue_depth := PlaybackBufferDepthEvidence_from (twm_max_boundary_queue_depth value);
  eps_prepared_track_packet_drop_count := twm_prepared_track_packet_drop_count value;
  eps_prepared_silence_packet_drop_count := twm_prepared_silence_packet_drop_count value;
  eps_prepared_packet_rebuild_count := twm_prepared_packet_rebuild_count value;
  eps_scheduled_silence_packet_count := twm_scheduled_silence_packet_count value;
  eps_pause_media_boundary_count := twm_pause_media_boundary_count value;
  eps_stop_media_boundary_count := twm_stop_media_boundary_count value;
  eps_recovery_media_boundary_count := twm_recovery_media_boundary_count value;
  eps_natural_end_media_boundary_count := twm_natural_end_media_boundary_count value;
  eps_dave_transition_recovery_reached_builder_count := twm_dave_transition_recovery_reached_builder_count value;
  eps_dave_transition_recovery_reached_deadline_sender_count := twm_dave_transition_recovery_reached_deadline_sender_count value;
  eps_source_underrun_reached_builder_count := twm_source_underrun_reached_builder_count value;
  eps_source_underrun_reached_deadline_sender_count := twm_source_underrun_reached_deadline_sender_count value;
  eps_discarded_source_frame_count := twm_discarded_source_frame_count value;
  eps_discarded_source_duration_ms := twm_discarded_source_duration_ms value;
  eps_discarded_source_duration_samples := twm_discarded_source_duration_samples value;
  eps_stop_discarded_source_frame_count := twm_stop_discarded_source_frame_count value;
  eps_stop_discarded_source_duration_ms := twm_stop_discarded_source_duration_ms value;
  eps_stop_discarded_source_duration_samples := twm_stop_discarded_source_duration_samples value;
  eps_interruption_discarded_source_frame_count := twm_interruption_discarded_source_frame_count value;
  eps_interruption_discarded_source_duration_ms := twm_interruption_discarded_source_duration_ms value;
  eps_interruption_discarded_source_duration_samples := twm_interruption_discarded_source_duration_samples value;
  eps_restored_source_frame_count := twm_restored_source_frame_count value;
  eps_restored_source_duration_ms := twm_restored_source_duration_ms value;
  eps_restored_source_duration_samples := twm_restored_source_duration_samples value;
  eps_source_buffer_target_ms := twm_source_buffer_target_ms value;
  eps_adaptive_buffer_target_ms := twm_adaptive_buffer_target_ms value;
  eps_max_adaptive_buffer_target_ms := twm_max_adaptive_buffer_target_ms value;
  eps_buffer_low_watermark_count := twm_buffer_low_watermark_count value;
  eps_source_buffer_low_watermark_count := twm_source_buffer_low_watermark_count value;
  eps_playout_buffer_low_watermark_count := twm_playout_buffer_low_watermark_count value;
  eps_buffer_underrun_count := twm_buffer_underrun_count value;
  eps_playout_underrun_count := twm_playout_underrun_count value;
  eps_egress_underrun_count := twm_egress_underrun_count value;
  eps_egress_inserted_silence_duration_ms := twm_egress_inserted_silence_duration_ms value;
  eps_egress_dropped_music_frame_count := twm_egress_dropped_music_frame_count value;
  eps_egress_dropped_music_duration_ms := twm_egress_dropped_music_duration_ms value;
  eps_egress_dropped_music_duration_samples := twm_egress_dropped_music_duration_samples value;
  eps_source_underrun_count := twm_source_underrun_count value;
  eps_rebuffer_count := twm_rebuffer_count value;
  eps_refill_duration := PlaybackDurationStatsEvidence_from (twm_refill_duration value);
  eps_source_producer_fill_duration := PlaybackDurationStatsEvidence_from (twm_source_producer_fill_duration value);
  eps_producer_stall_duration := PlaybackDurationStatsEvidence_from (twm_producer_stall_duration value);
  eps_max_producer_lag_ms := twm_max_producer_lag_ms value;
  eps_http_retry_count := twm_http_retry_count value;
  eps_response_open_count := twm_response_open_count value;
  eps_range_reopen_count := twm_range_reopen_count value;
  eps_read_error_reopen_count := twm_read_error_reopen_count value;
  eps_url_reresolve_count := twm_url_reresolve_count value;
  eps_pause_resume_first_intervals_ms := twm_pause_resume_first_intervals_ms value;
  eps_post_stall_first_intervals_ms := twm_post_stall_first_intervals_ms value;
  eps_post_rebuffer_first_intervals_ms := twm_post_rebuffer_first_intervals_ms value;
  eps_playout_sender_lateness := PlaybackDurationStatsEvidence_from (twm_playout_sender_lateness value);
  eps_playout_builder_prepare_duration := PlaybackDurationStatsEvidence_from (twm_playout_builder_prepare_duration value);
  eps_sender_send_duration := PlaybackDurationStatsEvidence_from (twm_sender_send_duration value);
  eps_sender_loop_non_send_work_duration := PlaybackDurationStatsEvidence_from (twm_sender_loop_non_send_work_duration value);
  eps_max_consecutive_playout_late_packets := twm_max_consecutive_playout_late_packets value;
  eps_max_consecutive_late_egress_ticks := twm_max_consecutive_late_egress_ticks value;
  eps_speaking_prepare_duration := PlaybackDurationStatsEvidence_from (twm_speaking_prepare_duration value);
  eps_sender_forbidden_work_count := twm_sender_forbidden_work_count value;
  eps_gateway_event_drain_duration := PlaybackDurationStatsEvidence_from (twm_gateway_event_drain_duration value);
  eps_gateway_event_drain_count := twm_gateway_event_drain_count value;
  eps_dave_transition_count := twm_dave_transition_count value;
  eps_dave_transition_count_during_playback := twm_dave_transition_count_during_playback value;
  eps_stale_dave_send_prevented_count := twm_stale_dave_send_prevented_count value;
  eps_controlled_media_interruption_count := twm_controlled_media_interruption_count value;
  eps_media_clock_reset_count := twm_media_clock_reset_count value;
  eps_egress_clock_reset_count := twm_egress_clock_reset_count value;
  eps_scheduler_late_reset_count := twm_scheduler_late_reset_count value;
  eps_source_underrun_reset_count := twm_source_underrun_reset_count value;
  eps_pause_resume_reset_count := twm_pause_resume_reset_count value;
  eps_dave_transition_recovery_reset_count := twm_dave_transition_recovery_reset_count value;
  eps_gateway_interruptions := twm_gateway_interruptions value;
  eps_dave_interruptions := twm_dave_interruptions value;
  eps_reconnect_interruptions := twm_reconnect_interruptions value;
  eps_ended := twm_ended value;
|}.

(** What a run writes down. *)
Record LiveValidationEvidence : Type := mkLiveValidationEvidence {
  le_outcome : string;
  le_service_uri : string;
  le_ytmusic_addr : string;
  le_test_video_id : string;
  le_expected_track_duration_ms : Z;
  le_active_validation_duration_after_resume_ms : Z;
  le_pause_silence_packet_count : Z;
  le_pause_silence_spacing_ms : list Z;
  le_live_staging_profile : string;
  le_live_staging_service_cpus : string;
  le_live_staging_cpu_contention_workers : Z;
  le_live_staging_http_read_delay_ms : Z;
  le_live_staging_http_read_jitter_ms : Z;
  le_validated_join_voice : bool;
  le_validated_update_voice_context : bool;
  le_validated_play : bool;
  le_validated_pause : bool;
  le_validated_resume : bool;
  le_validated_invalid_resume_ignored : bool;
  le_validated_redundant_pause_ignored : bool;
  le_observer_proved_pause : bool;
  le_observer_proved_resume : bool;
  le_observer_pause_self_mute_observed : bool;
  le_observer_pause_speaking_stopped : bool;
  le_observer_pause_rtp_silence_observed : bool;
  le_observer_resume_speaking_started : bool;
  le_observer_pause_silence_ms : Z;
  le_observer_resume_packet_count : Z;
  le_validated_reconnect_rollover_during_playback : bool;
  le_validated_stop : bool;
  le_validated_stop_during_playback : bool;
  le_validated_leave_voice : bool;
  le_validated_leave_voice_during_playback : bool;
  le_validated_get_state : bool;
  le_validated_get_playback_metrics : bool;
  le_validated_subscribe_events : bool;
  le_saw_voice_connecting : bool;
  le_saw_voice_ready : bool;
  le_saw_track_resolving : bool;
  le_saw_buffering : bool;
  le_saw_playing : bool;
  le_saw_paused : bool;
  le_saw_resumed_playing : bool;
  le_saw_track_ended : bool;
  le_observed_packet_count : Z;
  le_decoded_audio_ms : Z;
  le_observer_wall_clock_elapsed_ms : Z;
  le_observer_decoded_audio_to_wall_clock_ratio_ppm : Z;
  le_non_silent_audio_ms : Z;
  le_observer_rtp_inter_arrival : PlaybackDurationStatsEvidence;
  le_observer_rtp_gap_count_gte_100ms : Z;
  le_observer_rtp_fast_interval_count : Z;
  le_observer_rtp_fast_interval_min_ms : Z;
  le_observer_rtp_fast_interval_min_us : Z;
  le_observer_rtp_buffering_event_count : Z;
  le_observer_rtp_buffering_total_us : Z;
  le_observer_rtp_buffering_max_us : Z;
  le_observer_rtp_speed_change_total_abs_us : Z;
  le_observer_rtp_speed_change_total_fast_us : Z;
  le_observer_rtp_speed_change_total_slow_us : Z;
  le_observer_anomaly_count : Z;
  le_observer_anomalies : list AudioObserverAnomaly;
  le_observer_decoded_audio_tempo_window_count : Z;
  le_observer_decoded_audio_tempo_window_post_source_buffer_count : Z;
  le_observer_decoded_audio_tempo_window_min_ratio_ppm : Z;
  le_observer_decoded_audio_tempo_window_max_ratio_ppm : Z;
  le_observer_decoded_audio_tempo_window_fast_count : Z;
  le_observer_decoded_audio_tempo_window_fastest_ratio_ppm : Z;
  le_observer_decoded_audio_tempo_window_fastest_media_ms : Z;
  le_observer_decoded_audio_tempo_window_fastest_wall_clock_us : Z;
  le_observer_decoded_audio_tempo_window_slow_count : Z;
  le_observer_decoded_audio_tempo_window_slowest_ratio_ppm : Z;
  le_observer_decoded_audio_tempo_window_slowest_media_ms : Z;
  le_observer_decoded_audio_tempo_window_slowest_wall_clock_us : Z;
  le_observer_decoded_audio_short_tempo_window_count : Z;
  le_observer_decoded_audio_short_tempo_window_fast_count : Z;
  le_observer_decoded_audio_short_tempo_window_slow_count : Z;
  le_observer_decoded_audio_short_tempo_window_fastest : option AudioTempoWindowEvidence;
  le_observer_decoded_audio_short_tempo_window_slowest : option AudioTempoWindowEvidence;
  le_dave_transition_count_during_playback : Z;
  le_playback_metrics : option PlaybackStabilityEvidence;
  le_reconnect_probe_metrics : option PlaybackStabilityEvidence;
  le_validated_constrained_profile : bool;
  le_validated_slow_jittery_http : bool;
  le_failure_reason : option string;
}.

(** ** Reading the evidence back *)

(** A snapshot that is made into evidence is available. *)

Definition PlaybackDurationStatsEvidence_read (evidence : PlaybackDurationStatsEvidence) : TwDurationStatsSnapshot := {|
  twd_samples := eds_samples evidence;
  twd_p50_ms := eds_p50_ms evidence;
  twd_p95_ms := eds_p95_ms evidence;
  twd_p99_ms := eds_p99_ms evidence;
  twd_min_ms := eds_min_ms evidence;
  twd_max_ms := eds_max_ms evidence;
|}.
Definition PlaybackBufferDepthEvidence_read (evidence : PlaybackBufferDepthEvidence) : TwPlaybackBufferDepthSnapshot := {|
  twb_packets := ebd_packets evidence;
  twb_bytes := ebd_bytes evidence;
  twb_duration_ms := ebd_duration_ms evidence;
  twb_duration_samples := ebd_duration_samples evidence;
|}.
Definition PlaybackQueueDepthStatsEvidence_read (evidence : PlaybackQueueDepthStatsEvidence) : TwPlaybackQueueDepthStatsSnapshot := {|
  twq_sample_count := eqd_sample_count evidence;
  twq_empty_count := eqd_empty_count evidence;
  twq_current_depth := PlaybackBufferDepthEvidence_read (eqd_current_depth evidence);
  twq_min_depth := PlaybackBufferDepthEvidence_read (eqd_min_depth evidence);
  twq_p5_depth := PlaybackBufferDepthEvidence_read (eqd_p5_depth evidence);
  twq_p50_depth := PlaybackBufferDepthEvidence_read (eqd_p50_depth evidence);
  twq_p95_depth := PlaybackBufferDepthEvidence_read (eqd_p95_depth evidence);
  twq_max_depth := PlaybackBufferDepthEvidence_read (eqd_max_depth evidence);
|}.
Definition PlaybackSendEventEvidence_read (evidence : PlaybackSendEventEvidence) : TwPlaybackSendEventSnapshot := {|
  twe_packet_index := ese_packet_index evidence;
  twe_command_kind := command_kind_of_label (ese_command_kind evidence);
  twe_expected_deadline_offset_us := ese_expected_deadline_offset_us evidence;
  twe_send_started_offset_us := ese_send_started_offset_us evidence;
  twe_sent_offset_us := ese_sent_offset_us evidence;
  twe_media_duration_ms := ese_media_duration_ms evidence;
  twe_media_duration_samples := ese_media_duration_samples evidence;
  twe_rtp_sequence := ese_rtp_sequence evidence;
  twe_rtp_timestamp := ese_rtp_timestamp evidence;
  twe_protection_nonce := ese_protection_nonce evidence;
  twe_source_frame_epoch := ese_source_frame_epoch evidence;
  twe_source_media_position_ms := ese_source_media_position_ms evidence;
  twe_source_media_position_samples := ese_source_media_position_samples evidence;
  twe_source_media_byte_position := ese_source_media_byte_position evidence;
  twe_committed_heard_media := ese_committed_heard_media evidence;
|}.
Definition PreparedTrackQueueDepthSampleEvidence_read (evidence : PreparedTrackQueueDepthSampleEvidence) : TwPreparedTrackQueueDepthSampleSnapshot := {|
  tws_sample_index := eqs_sample_index evidence;
  tws_phase := phase_of_label (eqs_phase evidence);
  tws_depth := PlaybackBufferDepthEvidence_read (eqs_depth evidence);
|}.
Definition PreparedPlayoutQueueEventEvidence_read (evidence : PreparedPlayoutQueueEventEvidence) : TwPreparedPlayoutQueueEventSnapshot := {|
  twp_event_index := epq_event_index evidence;
  twp_event_kind := event_kind_of_label (epq_event_kind evidence);
  twp_reason := event_reason_of_label (epq_reason evidence);
  twp_command_kind := command_kind_of_label (epq_command_kind evidence);
  twp_media_duration_ms := epq_media_duration_ms evidence;
  twp_media_duration_samples := epq_media_duration_samples evidence;
  twp_rtp_sequence := epq_rtp_sequence evidence;
  twp_rtp_timestamp := epq_rtp_timestamp evidence;
  twp_protection_nonce := epq_protection_nonce evidence;
  twp_source_frame_epoch := epq_source_frame_epoch evidence;
  twp_source_media_position_ms := epq_source_media_position_ms evidence;
  twp_source_media_position_samples := epq_source_media_position_samples evidence;
  twp_source_media_byte_position := epq_source_media_byte_position evidence;
  twp_queue_depth_after := PlaybackBufferDepthEvidence_read (epq_queue_depth_after evidence);
|}.
Definition PlaybackStabilityEvidence_read (evidence : PlaybackStabilityEvidence) : TwPlaybackStabilitySnapshot := {|
  twm_available := true;
  twm_playback_epoch := eps_playback_epoch evidence;
  twm_video_id := eps_video_id evidence;
  twm_selected_itag := eps_selected_itag evidence;
  twm_track_packet_count := eps_track_packet_count evidence;
  twm_continuity_silence_packet_count := eps_continuity_silence_packet_count evidence;
  twm_inserted_silence_duration_ms := eps_inserted_silence_duration_ms evidence;
  twm_track_interval := PlaybackDurationStatsEvidence_read (eps_track_interval evidence);
  twm_track_media_duration_sent_ms := eps_track_media_duration_sent_ms evidence;
  twm_track_wall_clock_elapsed_ms := eps_track_wall_clock_elapsed_ms evidence;
  twm_track_media_to_wall_clock_ratio_ppm := eps_track_media_to_wall_clock_ratio_ppm evidence;
  twm_track_fast_interval_count := eps_track_fast_interval_count evidence;
  twm_track_fast_interval_min_ms := eps_track_fast_interval_min_ms evidence;
  twm_track_fast_interval_min_us := eps_track_fast_interval_min_us evidence;
  twm_track_tempo_window_count := eps_track_tempo_window_count evidence;
  twm_track_tempo_window_post_source_buffer_count := eps_track_tempo_window_post_source_buffer_count evidence;
  twm_track_tempo_window_min_ratio_ppm := eps_track_tempo_window_min_ratio_ppm evidence;
  twm_track_tempo_window_max_ratio_ppm := eps_track_tempo_window_max_ratio_ppm evidence;
  twm_track_tempo_window_fast_count := eps_track_tempo_window_fast_count evidence;
  twm_track_tempo_window_fastest_ratio_ppm := eps_track_tempo_window_fastest_ratio_ppm evidence;
  twm_track_tempo_window_fastest_media_ms := eps_track_tempo_window_fastest_media_ms evidence;
  twm_track_tempo_window_fastest_wall_clock_us := eps_track_tempo_window_fastest_wall_clock_us evidence;
  twm_track_tempo_window_slow_count := eps_track_tempo_window_slow_count evidence;
  twm_track_tempo_window_slowest_ratio_ppm := eps_track_tempo_window_slowest_ratio_ppm evidence;
  twm_track_tempo_window_slowest_media_ms := eps_track_tempo_window_slowest_media_ms evidence;
  twm_track_tempo_window_slowest_wall_clock_us := eps_track_tempo_window_slowest_wall_clock_us evidence;
  twm_skipped_source_frame_count := eps_skipped_source_frame_count evidence;
  twm_skipped_source_duration_ms := eps_skipped_source_duration_ms evidence;
  twm_skipped_source_duration_samples := eps_skipped_source_duration_samples evidence;
  twm_tempo_rebase_count := eps_tempo_rebase_count evidence;
  twm_expected_track_frame_count := eps_expected_track_frame_count evidence;
  twm_sent_track_frame_count := eps_sent_track_frame_count evidence;
  twm_silence_frame_count := eps_silence_frame_count evidence;
  twm_frame_deficit_count := eps_frame_deficit_count evidence;
  twm_dropped_frame_count := eps_dropped_frame_count evidence;
  twm_late_frame_count := eps_late_frame_count evidence;
  twm_all_packet_interval := PlaybackDurationStatsEvidence_read (eps_all_packet_interval evidence);
  twm_sender_lateness := PlaybackDurationStatsEvidence_read (eps_sender_lateness evidence);
  twm_max_consecutive_late_packets := eps_max_consecutive_late_packets evidence;
  twm_current_consecutive_late_packets := eps_current_consecutive_late_packets evidence;
  twm_current_buffer_depth := PlaybackBufferDepthEvidence_read (eps_current_buffer_depth evidence);
  twm_min_buffer_depth := PlaybackBufferDepthEvidence_read (eps_min_buffer_depth evidence);
  twm_max_buffer_depth := PlaybackBufferDepthEvidence_read (eps_max_buffer_depth evidence);
  twm_current_source_buffer_depth := PlaybackBufferDepthEvidence_read (eps_current_source_buffer_depth evidence);
  twm_min_source_buffer_depth := PlaybackBufferDepthEvidence_read (eps_min_source_buffer_depth evidence);
  twm_max_source_buffer_depth := PlaybackBufferDepthEvidence_read (eps_max_source_buffer_depth evidence);
  twm_source_buffer_depth := PlaybackQueueDepthStatsEvidence_read <$> eps_source_buffer_depth evidence;
  twm_current_playout_buffer_depth := PlaybackBufferDepthEvidence_read (eps_current_playout_buffer_depth evidence);
  twm_min_playout_buffer_depth := PlaybackBufferDepthEvidence_read (eps_min_playout_buffer_depth evidence);
  twm_max_playout_buffer_depth := PlaybackBufferDepthEvidence_read (eps_max_playout_buffer_depth evidence);
  twm_egress_buffer_target_ms := eps_egress_buffer_target_ms evidence;
  twm_current_egress_buffer_depth := PlaybackBufferDepthEvidence_read (eps_current_egress_buffer_depth evidence);
  twm_min_egress_buffer_depth := PlaybackBufferDepthEvidence_read (eps_min_egress_buffer_depth evidence);
  twm_max_egress_buffer_depth := PlaybackBufferDepthEvidence_read (eps_max_egress_buffer_depth evidence);
  twm_prepared_rtp_queue_depth_ms := eps_prepared_rtp_queue_depth_ms evidence;
  twm_prepared_track_queue_target_ms := eps_prepared_track_queue_target_ms evidence;
  twm_prepared_track_queue_low_watermark_ms := eps_prepared_track_queue_low_watermark_ms evidence;
  twm_prepared_track_queue_high_watermark_ms := eps_prepared_track_queue_high_watermark_ms evidence;
  twm_active_pre_pause_prepared_track_queue_depth := PlaybackQueueDepthStatsEvidence_read <$> eps_active_pre_pause_prepared_track_queue_depth evidence;
  twm_active_post_resume_prepared_track_queue_depth := PlaybackQueueDepthStatsEvidence_read <$> eps_active_post_resume_prepared_track_queue_depth evidence;
  twm_prepared_track_queue_depth_sample_count := eps_prepared_track_queue_depth_sample_count evidence;
  twm_prepared_track_queue_empty_count := eps_prepared_track_queue_empty_count evidence;
  twm_raw_send_events := PlaybackSendEventEvidence_read <$> eps_raw_send_events evidence;
  twm_raw_prepared_track_queue_samples := PreparedTrackQueueDepthSampleEvidence_read <$> eps_raw_prepared_track_queue_samples evidence;
  twm_raw_prepared_playout_queue_events := PreparedPlayoutQueueEventEvidence_read <$> eps_raw_prepared_playout_queue_events evidence;
  twm_current_scheduled_silence_queue_depth := PlaybackBufferDepthEvidence_read (eps_current_scheduled_silence_queue_depth evidence);
  twm_max_scheduled_silence_queue_depth := PlaybackBufferDepthEvidence_read (eps_max_scheduled_silence_queue_depth evidence);
  twm_current_boundary_queue_depth := PlaybackBufferDepthEvidence_read (eps_current_boundary_queue_depth evidence);
  twm_max_boundary_queue_depth := PlaybackBufferDepthEvidence_read (eps_max_boundary_queue_depth evidence);
  twm_prepared_track_packet_drop_count := eps_prepared_track_packet_drop_count evidence;
  twm_prepared_silence_packet_drop_count := eps_prepared_silence_packet_drop_count evidence;
  twm_prepared_packet_rebuild_count := eps_prepared_packet_rebuild_count evidence;
  twm_scheduled_silence_packet_count := eps_scheduled_silence_packet_count evidence;
  twm_pause_media_boundary_count := eps_pause_media_boundary_count evidence;
  twm_stop_media_boundary_count := eps_stop_media_boundary_count evidence;
  twm_recovery_media_boundary_count := eps_recovery_media_boundary_count evidence;
  twm_natural_end_media_boundary_count := eps_natural_end_media_boundary_count evidence;
  twm_dave_transition_recovery_reached_builder_count := eps_dave_transition_recovery_reached_builder_count evidence;
  twm_dave_transition_recovery_reached_deadline_sender_count := eps_dave_transition_recovery_reached_deadline_sender_count evidence;
  twm_source_underrun_reached_builder_count := eps_source_underrun_reached_builder_count evidence;
  twm_source_underrun_reached_deadline_sender_count := eps_source_underrun_reached_deadline_sender_count evidence;
  twm_discarded_source_frame_count := eps_discarded_source_frame_count evidence;
  twm_discarded_source_duration_ms := eps_discarded_source_duration_ms evidence;
  twm_discarded_source_duration_samples := eps_discarded_source_duration_samples evidence;
  twm_stop_discarded_source_frame_count := eps_stop_discarded_source_frame_count evidence;
  twm_stop_discarded_source_duration_ms := eps_stop_discarded_source_duration_ms evidence;
  twm_stop_discarded_source_duration_samples := eps_stop_discarded_source_duration_samples evidence;
  twm_interruption_discarded_source_frame_count := eps_interruption_discarded_source_frame_count evidence;
  twm_interruption_discarded_source_duration_ms := eps_interruption_discarded_source_duration_ms evidence;
  twm_interruption_discarded_source_duration_samples := eps_interruption_discarded_source_duration_samples evidence;
  twm_restored_source_frame_count := eps_restored_source_frame_count evidence;
  twm_restored_source_duration_ms := eps_restored_source_duration_ms evidence;
  twm_restored_source_duration_samples := eps_restored_source_duration_samples evidence;
  twm_source_buffer_target_ms := eps_source_buffer_target_ms evidence;
  twm_adaptive_buffer_target_ms := eps_adaptive_buffer_target_ms evidence;
  twm_max_adaptive_buffer_target_ms := eps_max_adaptive_buffer_target_ms evidence;
  twm_buffer_low_watermark_count := eps_buffer_low_watermark_count evidence;
  twm_source_buffer_low_watermark_count := eps_source_buffer_low_watermark_count evidence;
  twm_playout_buffer_low_watermark_count := eps_playout_buffer_low_watermark_count evidence;
  twm_buffer_underrun_count := eps_buffer_underrun_count evidence;
  twm_playout_underrun_count := eps_playout_underrun_count evidence;
  twm_egress_underrun_count := eps_egress_underrun_count evidence;
  twm_egress_inserted_silence_duration_ms := eps_egress_inserted_silence_duration_ms evidence;
  twm_egress_dropped_music_frame_count := eps_egress_dropped_music_frame_count evidence;
  twm_egress_dropped_music_duration_ms := eps_egress_dropped_music_duration_ms evidence;
  twm_egress_dropped_music_duration_samples := eps_egress_dropped_music_duration_samples evidence;
  twm_source_underrun_count := eps_source_underrun_count evidence;
  twm_rebuffer_count := eps_rebuffer_count evidence;
  twm_refill_duration := PlaybackDurationStatsEvidence_read (eps_refill_duration evidence);
  twm_source_producer_fill_duration := PlaybackDurationStatsEvidence_read (eps_source_producer_fill_duration evidence);
  twm_producer_stall_duration := PlaybackDurationStatsEvidence_read (eps_producer_stall_duration evidence);
  twm_max_producer_lag_ms := eps_max_producer_lag_ms evidence;
  twm_http_retry_count := eps_http_retry_count evidence;
  twm_response_open_count := eps_response_open_count evidence;
  twm_range_reopen_count := eps_range_reopen_count evidence;
  twm_read_error_reopen_count := eps_read_error_reopen_count evidence;
  twm_url_reresolve_count := eps_url_reresolve_count evidence;
  twm_pause_resume_first_intervals_ms := eps_pause_resume_first_intervals_ms evidence;
  twm_post_stall_first_intervals_ms := eps_post_stall_first_intervals_ms evidence;
  twm_post_rebuffer_first_intervals_ms := eps_post_rebuffer_first_intervals_ms evidence;
  twm_playout_sender_lateness := PlaybackDurationStatsEvidence_read (eps_playout_sender_lateness evidence);
  twm_playout_builder_prepare_duration := PlaybackDurationStatsEvidence_read (eps_playout_builder_prepare_duration evidence);
  twm_sender_send_duration := PlaybackDurationStatsEvidence_read (eps_sender_send_duration evidence);
  twm_sender_loop_non_send_work_duration := PlaybackDurationStatsEvidence_read (eps_sender_loop_non_send_work_duration evidence);
  twm_max_consecutive_playout_late_packets := eps_max_consecutive_playout_late_packets evidence;
  twm_max_consecutive_late_egress_ticks := eps_max_consecutive_late_egress_ticks evidence;
  twm_speaking_prepare_duration := PlaybackDurationStatsEvidence_read (eps_speaking_prepare_duration evidence);
  twm_sender_forbidden_work_count := eps_sender_forbidden_work_count evidence;
  twm_gateway_event_drain_duration := PlaybackDurationStatsEvidence_read (eps_gateway_event_drain_duration evidence);
  twm_gateway_event_drain_count := eps_gateway_event_drain_count evidence;
  twm_dave_transition_count := eps_dave_transition_count evidence;
  twm_dave_transition_count_during_playback := eps_dave_transition_count_during_playback evidence;
  twm_stale_dave_send_prevented_count := eps_stale_dave_send_prevented_count evidence;
  twm_controlled_media_interruption_count := eps_controlled_media_interruption_count evidence;
  twm_media_clock_reset_count := eps_media_clock_reset_count evidence;
  twm_egress_clock_reset_count := eps_egress_clock_reset_count evidence;
  twm_scheduler_late_reset_count := eps_scheduler_late_reset_count evidence;
  twm_source_underrun_reset_count := eps_source_underrun_reset_count evidence;
  twm_pause_resume_reset_count := eps_pause_resume_reset_count evidence;
  twm_dave_transition_recovery_reset_count := eps_dave_transition_recovery_reset_count evidence;
  twm_gateway_interruptions := eps_gateway_interruptions evidence;
  twm_dave_interruptions := eps_dave_interruptions evidence;
  twm_reconnect_interruptions := eps_reconnect_interruptions evidence;
  twm_ended := eps_ended evidence;
|}.

Lemma fmap_read {A B} (from : A -> B) (read : B -> A) : (forall x, read (from x) = x) -> forall l : list A, read <$> (from <$> l) = l.
Proof. intros H l. induction l as [|x l IH]; [done|]. cbn. by rewrite H, IH. Qed.
Lemma option_read {A B} (from : A -> B) (read : B -> A) : (forall x, read (from x) = x) -> forall o : option A, read <$> (from <$> o) = o.
Proof. intros H [x|]; [|done]. cbn. by rewrite H. Qed.

Lemma duration_stats_read x : PlaybackDurationStatsEvidence_read (PlaybackDurationStatsEvidence_from x) = x.
Proof. by destruct x. Qed.
Lemma depth_read x : PlaybackBufferDepthEvidence_read (PlaybackBufferDepthEvidence_from x) = x.
Proof. by destruct x. Qed.
Lemma queue_stats_read x : PlaybackQueueDepthStatsEvidence_read (PlaybackQueueDepthStatsEvidence_from x) = x.
Proof. destruct x; unfold PlaybackQueueDepthStatsEvidence_read; cbn. by rewrite !depth_read. Qed.
Lemma send_event_read x : PlaybackSendEventEvidence_read (PlaybackSendEventEvidence_from x) = x.
Proof. destruct x; unfold PlaybackSendEventEvidence_read; cbn. by rewrite command_kind_of_label_label. Qed.
Lemma queue_sample_read x : PreparedTrackQueueDepthSampleEvidence_read (PreparedTrackQueueDepthSampleEvidence_from x) = x.
Proof. destruct x; unfold PreparedTrackQueueDepthSampleEvidence_read; cbn. by rewrite phase_of_label_label, depth_read. Qed.
Lemma playout_event_read x : PreparedPlayoutQueueEventEvidence_read (PreparedPlayoutQueueEventEvidence_from x) = x.
Proof.
  destruct x; unfold PreparedPlayoutQueueEventEvidence_read; cbn.
  by rewrite event_kind_of_label_label, event_reason_of_label_label, command_kind_of_label_label, depth_read.
Qed.

Create HintDb evidence.
#[export] Hint Resolve duration_stats_read depth_read queue_stats_read send_event_read queue_sample_read
  playout_event_read fmap_read option_read : evidence.

(** The evidence of a snapshot keeps every field of it, and counts its three
    histories. *)
Theorem evidence_keeps_snapshot s :
  twm_available s = true ->
  let evidence := PlaybackStabilityEvidence_from s in
  PlaybackStabilityEvidence_read evidence = s /\
  eps_raw_send_event_count evidence = zlen (eps_raw_send_events evidence) /\
  eps_raw_prepared_track_queue_sample_count evidence = zlen (eps_raw_prepared_track_queue_samples evidence) /\
  eps_raw_prepared_playout_queue_event_count evidence = zlen (eps_raw_prepared_playout_queue_events evidence).
Proof.
  intros Ha. split_and!; [|cbn; unfold zlen; by rewrite length_fmap..].
  destruct s. cbn in *. subst. unfold PlaybackStabilityEvidence_read. cbn. f_equal; auto with evidence.
Qed.
