(* ===== verification/Staging.v ===== *)
(** * The settings of a live run

    crates/discord-voice-service-live-validation/src/config.rs: the
    configuration read from the environment, the checks on it, and how it is
    printed. The number of CPUs is a binary64 number parsed as [f64::from_str]
    does: the decimal is rounded once, to the nearest. *)

From S2P Require Import Prelude Text Anyhow Endpoint Twilight AudioObserver.
From stdpp Require Import prelude strings gmap.
From Stdlib Require Import Ascii String.
From Stdlib Require Import Floats.SpecFloat.
Open Scope Z_scope.

Definition LIVE_STAGING_PROFILE_CONSTRAINED_GITHUB : string := "constrained-github-hosted".
Definition LIVE_STAGING_PROFILE_CONSTRAINED_LOCAL : string := "constrained-local".
Definition MAX_LIVE_STAGING_SERVICE_CPUS : f64 := f64_from_usize 1.
Definition MIN_LIVE_STAGING_CPU_CONTENTION_WORKERS : Z := 2.
Definition MIN_LIVE_STAGING_HTTP_READ_DELAY_MS : Z := 5.
Definition MIN_LIVE_STAGING_HTTP_READ_JITTER_MS : Z := 25.

(** ** Numbers *)

(** The nearest [f64] of a fraction, ties to even. *)
Definition f64_of_ratio (negative : bool) (numerator denominator : positive) : f64 :=
  let '(m, e, l) := SFdiv_core_binary 53 1024 (Z.pos numerator) 0 (Z.pos denominator) 0 in
  binary_round_aux 53 1024 negative m e l.
(** [digits * 10 ^ exponent] *)
Definition f64_of_decimal (negative : bool) (digits exponent : Z) : f64 :=
  match digits with
  | Zpos n =>
      match 10 ^ Z.abs exponent with
      | Zpos p => if 0 <=? exponent then f64_of_ratio negative (n * p) 1 else f64_of_ratio negative n p
      | _ => S754_nan
      end
  | _ => S754_zero negative
  end.

(** The leading digits of [s]: their value, how many, and the rest. *)
Fixpoint take_digits (acc count : Z) (s : string) : Z * Z * string :=
  match s with
  | EmptyString => (acc, count, s)
  | String c s' =>
      match digit_value c with
      | Some d => take_digits (acc * 10 + d) (count + 1) s'
      | None => (acc, count, s)
      end
  end.
Definition take_sign (s : string) : bool * string :=
  match s with
  | String c s' =>
      if bool_decide (c = "-"%char) then (true, s') else if bool_decide (c = "+"%char) then (false, s') else (false, s)
  | EmptyString => (false, s)
  end.
Definition take_exponent (s : string) : option Z :=
  match s with
  | EmptyString => Some 0
  | String c s' =>
      if bool_decide (c = "e"%char) || bool_decide (c = "E"%char) then
        let '(negative, s'') := take_sign s' in
        match take_digits 0 0 s'' with
        | (n, count, EmptyString) => if count =? 0 then None else Some (if negative then - n else n)
        | _ => None
        end
      else None
  end.
Definition lower_char (c : ascii) : ascii :=
  let n := N_of_ascii c in if (65 <=? n)%N && (n <=? 90)%N then ascii_of_N (n + 32) else c.
Fixpoint lower_ascii (s : string) : string :=
  match s with EmptyString => EmptyString | String c s => String (lower_char c) (lower_ascii s) end.
Definition f64_from_str (s : string) : result string f64 :=
  if bool_decide (s = EmptyString) then Err "cannot parse float from empty string" else
  let '(negative, body) := take_sign s in
  let word := lower_ascii body in
  if bool_decide (word = "inf"%string) || bool_decide (word = "infinity"%string) then Ok (S754_infinity negative)
  else if bool_decide (word = "nan"%string) then Ok S754_nan
  else
    let '(whole, n, rest) := take_digits 0 0 body in
    let '(digits, m, rest) :=
      match rest with
      | String "." rest' => take_digits whole 0 rest'
      | _ => (whole, 0, rest)
      end in
    if n + m =? 0 then Err "invalid float literal" else
    match take_exponent rest with
    | Some exponent => Ok (f64_of_decimal negative digits (exponent - m))
    | None => Err "invalid float literal"
    end.
Definition is_finite (x : f64) : bool :=
  match x with S754_zero _ | S754_finite _ _ _ => true | _ => false end.

(** [u64::from_str] with its errors. *)
Fixpoint u64_digits (acc : Z) (s : string) : result string Z :=
  match s with
  | EmptyString => Ok acc
  | String c s' =>
      match digit_value c with
      | Some d => if acc * 10 + d <=? u64_max then u64_digits (acc * 10 + d) s'
                  else Err "number too large to fit in target type"
      | None => Err "invalid digit found in string"
      end
  end.
Definition u64_from_str (s : string) : result string Z :=
  match s with
  | EmptyString => Err "cannot parse integer from empty string"
  | String c EmptyString => match digit_value c with Some d => Ok d | None => Err "invalid digit found in string" end
  | String c s' => if bool_decide (c = "+"%char) then u64_digits 0 s' else u64_digits 0 s
  end.

(** ** The configuration *)

Record StagingConfig : Type := mkStagingConfig {
  sc_application_id : string;
  sc_bot_token : string;
  sc_observer_bot_token : string;
  sc_test_guild_id : string;
  sc_test_voice_channel_id : string;
  sc_test_video_id : string;
  sc_discord_voice_service_uri : string;
  sc_discord_voice_service_ytmusic_addr : string;
  sc_live_staging_profile : string;
  sc_live_staging_service_cpus : string;
  sc_live_staging_cpu_contention_workers : Z;
  sc_live_staging_http_read_delay_ms : Z;
  sc_live_staging_http_read_jitter_ms : Z;
}.

Definition required_env (env : gmap string string) (key : string) : anyhow string :=
  match env !! key with
  | Some value =>
      if bool_decide (trim value = EmptyString) then bail "required env var {} must not be empty" [Text key]
      else Ok value
  | None => bail "missing required env var: {}" [Text key]
  end.
Definition required_u64_env (env : gmap string string) (key : string) : anyhow Z :=
  value ← required_env env key;
  context "env var {} must be an unsigned integer" [Text key] (error_msg (u64_from_str value)).

Definition constrained_profile (profile : string) : bool :=
  bool_decide (profile = LIVE_STAGING_PROFILE_CONSTRAINED_GITHUB) ||
  bool_decide (profile = LIVE_STAGING_PROFILE_CONSTRAINED_LOCAL).
Definition validate (self : StagingConfig) : anyhow unit :=
  _ ← bail_if (negb (constrained_profile (sc_live_staging_profile self)))
       "LIVE_STAGING_PROFILE must be `{}` or `{}`; got `{}`"
       [Text LIVE_STAGING_PROFILE_CONSTRAINED_GITHUB; Text LIVE_STAGING_PROFILE_CONSTRAINED_LOCAL;
        Text (sc_live_staging_profile self)];
  service_cpus ← context "LIVE_STAGING_SERVICE_CPUS must be a positive decimal no greater than {}" [Num 1]
                   (error_msg (f64_from_str (sc_live_staging_service_cpus self)));
  _ ← bail_if (negb (is_finite service_cpus) || SFleb service_cpus (S754_zero false) ||
               SFltb MAX_LIVE_STAGING_SERVICE_CPUS service_cpus)
       "LIVE_STAGING_SERVICE_CPUS must be > 0 and <= {}; got `{}`" [Num 1; Text (sc_live_staging_service_cpus self)];
  _ ← bail_if (sc_live_staging_cpu_contention_workers self <? MIN_LIVE_STAGING_CPU_CONTENTION_WORKERS)
       "LIVE_STAGING_CPU_CONTENTION_WORKERS must be at least {}; got {}"
       [Num MIN_LIVE_STAGING_CPU_CONTENTION_WORKERS; Num (sc_live_staging_cpu_contention_workers self)];
  _ ← bail_if (sc_live_staging_http_read_delay_ms self <? MIN_LIVE_STAGING_HTTP_READ_DELAY_MS)
       "LIVE_STAGING_HTTP_READ_DELAY_MS must be at least {}; got {}"
       [Num MIN_LIVE_STAGING_HTTP_READ_DELAY_MS; Num (sc_live_staging_http_read_delay_ms self)];
  bail_if (sc_live_staging_http_read_jitter_ms self <? MIN_LIVE_STAGING_HTTP_READ_JITTER_MS)
    "LIVE_STAGING_HTTP_READ_JITTER_MS must be at least {}; got {}"
    [Num MIN_LIVE_STAGING_HTTP_READ_JITTER_MS; Num (sc_live_staging_http_read_jitter_ms self)].

Definition from_env_map (env : gmap string string) : anyhow StagingConfig :=
  observer_bot_token ← required_env env "OBSERVER_BOT_TOKEN";
  bot_token ← required_env env "BOT_TOKEN";
  application_id ← required_env env "APPLICATION_ID";
  test_guild_id ← required_env env "TEST_GUILD_ID";
  test_voice_channel_id ← required_env env "TEST_VOICE_CHANNEL_ID";
  test_video_id ← required_env env "TEST_VIDEO_ID";
  discord_voice_service_uri ← required_env env "DISCORD_VOICE_SERVICE_URI";
  discord_voice_service_ytmusic_addr ← required_env env "DISCORD_VOICE_SERVICE_YTMUSIC_ADDR";
  live_staging_profile ← required_env env "LIVE_STAGING_PROFILE";
  live_staging_service_cpus ← required_env env "LIVE_STAGING_SERVICE_CPUS";
  live_staging_cpu_contention_workers ← required_u64_env env "LIVE_STAGING_CPU_CONTENTION_WORKERS";
  live_staging_http_read_delay_ms ← required_u64_env env "LIVE_STAGING_HTTP_READ_DELAY_MS";
  live_staging_http_read_jitter_ms ← required_u64_env env "LIVE_STAGING_HTTP_READ_JITTER_MS";
  let config := mkStagingConfig application_id bot_token observer_bot_token test_guild_id test_voice_channel_id
    test_video_id discord_voice_service_uri discord_voice_service_ytmusic_addr live_staging_profile
    live_staging_service_cpus live_staging_cpu_contention_workers live_staging_http_read_delay_ms
    live_staging_http_read_jitter_ms in
  _ ← validate config;
  Ok config.

Section Ids.
Context `{TM : TwilightModel}.
(** The text of the error of [Id::from_str]. *)
Context (id_error : string -> string).

Definition parse_id (value field : string) : anyhow Id :=
  context "invalid Discord snowflake in {}" [Text field]
    (error_msg (match id_parse value with Some id => Ok id | None => Err (id_error value) end)).
Definition guild_id (self : StagingConfig) : anyhow Id := parse_id (sc_test_guild_id self) "TEST_GUILD_ID".
Definition channel_id (self : StagingConfig) : anyhow Id :=
  parse_id (sc_test_voice_channel_id self) "TEST_VOICE_CHANNEL_ID".
End Ids.

(** [fmt]: the fields as [debug_struct] gets them. *)
Definition debug_fields (self : StagingConfig) : list (string * Arg) :=
  [ ("application_id", Text (sc_application_id self));
    ("bot_token", Text "[REDACTED]");
    ("observer_bot_token", Text "[REDACTED]");
    ("test_guild_id", Text (sc_test_guild_id self));
    ("test_voice_channel_id", Text (sc_test_voice_channel_id self));
    ("test_video_id", Text (sc_test_video_id self));
    ("discord_voice_service_uri", Text (sc_discord_voice_service_uri self));
    ("discord_voice_service_ytmusic_addr", Text (sc_discord_voice_service_ytmusic_addr self));
    ("live_staging_profile", Text (sc_live_staging_profile self));
    ("live_staging_service_cpus", Text (sc_live_staging_service_cpus self));
    ("live_staging_cpu_contention_workers", Num (sc_live_staging_cpu_contention_workers self));
    ("live_staging_http_read_delay_ms", Num (sc_live_staging_http_read_delay_ms self));
    ("live_staging_http_read_jitter_ms", Num (sc_live_staging_http_read_jitter_ms self)) ]%string.

(** ** Properties *)

Example half_cpu : f64_from_str "0.5" = Ok (S754_finite false 4503599627370496 (-53)).
Proof. vm_compute. reflexivity. Qed.
Example one_cpu : f64_from_str "1" = Ok MAX_LIVE_STAGING_SERVICE_CPUS.
Proof. vm_compute. reflexivity. Qed.
(** A decimal above 1 by less than half an ulp is 1. *)
Example barely_one_cpu : f64_from_str "1.0000000000000001" = Ok MAX_LIVE_STAGING_SERVICE_CPUS.
Proof. vm_compute. reflexivity. Qed.
Example bad_cpus :
  Forall (fun s => f64_from_str s = Err "invalid float literal"%string) ["."; "e5"; "1e"; "0x1"; "1 "; "-"; "1.2.3"]%string.
Proof. repeat constructor. Qed.

(** What is not a positive finite number is refused. *)
Lemma positive_finite x : is_finite x = true -> SFleb x (S754_zero false) = negb (SFltb (S754_zero false) x).
Proof. destruct x as [s| | |s m e]; try done; by destruct s. Qed.
Lemma finite_order x y : is_finite x = true -> is_finite y = true -> SFltb y x = negb (SFleb x y).
Proof.
  unfold SFltb, SFleb, SFcompare. destruct x as [[]| | |[] m e], y as [[]| | |[] m' e']; try done; intros _ _;
    rewrite (Z.compare_antisym e e'); destruct (e ?= e')%Z; cbn; try done;
    change (Pos.compare_cont Eq m' m) with (m' ?= m)%positive; change (Pos.compare_cont Eq m m') with (m ?= m')%positive;
    rewrite (Pos.compare_antisym m m'); by destruct (m ?= m')%positive.
Qed.
