(* ===== verification/Report.v ===== *)
(** * What a live run reports

    crates/discord-voice-service-live-validation/src/controller.rs: the
    evidence of a run that succeeded and of one that failed, the class of a
    failure, and what is written at the end of a run; and the check that the
    pipeline makes of the written evidence
    (scripts/ci/validate_live_staging_evidence.py).

    The text of an error is a parameter ([display]), and so is whether writing
    the evidence succeeds ([emit]). *)

From S2P Require Import Prelude Anyhow MetricsTransport AudioObserver Timeline LiveContract Evidence Staging LiveRun.
From S2P Require Metrics Text.
From S2P Require PlaybackValidator ObserverProofs.
From Stdlib Require Import Ascii String Floats.SpecFloat.
From stdpp Require Import prelude strings.
Open Scope Z_scope.

(** [a.zip(b).map_or(d, |(a, b)| f(a, b))] *)
Definition zip_map_or {A B C} (d : C) (f : A -> B -> C) (a : option A) (b : option B) : C :=
  match a, b with Some a, Some b => f a b | _, _ => d end.

(** ** Configuration *)

Definition constrained_profile_configured (config : StagingConfig) : bool :=
  constrained_profile (sc_live_staging_profile config) &&
  match f64_from_str (sc_live_staging_service_cpus config) with
  | Ok cpus => is_finite cpus && SFltb (S754_zero false) cpus && SFleb cpus MAX_LIVE_STAGING_SERVICE_CPUS
  | _ => false
  end &&
  (MIN_LIVE_STAGING_CPU_CONTENTION_WORKERS <=? sc_live_staging_cpu_contention_workers config).
Definition slow_jittery_http_configured (config : StagingConfig) : bool :=
  (MIN_LIVE_STAGING_HTTP_READ_DELAY_MS <=? sc_live_staging_http_read_delay_ms config) &&
  (MIN_LIVE_STAGING_HTTP_READ_JITTER_MS <=? sc_live_staging_http_read_jitter_ms config).
Definition validate_live_test_video_duration (duration_ms : Z) (video_id : string) : anyhow unit :=
  _ ← bail_if (duration_ms =? 0) "ytmusic-service returned zero expected duration for TEST_VIDEO_ID={}" [Text video_id];
  bail_if (duration_ms <? PlaybackValidator.MIN_LIVE_TEST_VIDEO_DURATION_MS)
    "TEST_VIDEO_ID={} is too short for live staging: expected_duration_ms={} but at least {}ms is required; choose a longer TEST_VIDEO_ID"
    [Text video_id; Num duration_ms; Num PlaybackValidator.MIN_LIVE_TEST_VIDEO_DURATION_MS].

(** ** What was measured *)

Record ValidatedLiveOutcome : Type := mkOutcome {
  vo_live_contract : LiveContractState;
  vo_audio_stats : AudioValidationStats;
  vo_observer_playback : ObserverPlaybackProof;
  vo_expected_duration_ms : Z;
  vo_playback_metrics : option PlaybackStabilityEvidence;
  vo_reconnect_probe_metrics : option PlaybackStabilityEvidence;
}.
Record FailureEvidenceSnapshot : Type := mkFailureSnapshot {
  fs_live_contract : option LiveContractState;
  fs_audio_stats : option AudioValidationStats;
  fs_observer_playback : option ObserverPlaybackProof;
  fs_playback_metrics : option PlaybackStabilityEvidence;
  fs_reconnect_probe_metrics : option PlaybackStabilityEvidence;
}.
Definition FailureEvidenceSnapshot_default : FailureEvidenceSnapshot := mkFailureSnapshot None None None None None.
(** The evidence of the flow holds snapshots; it is recorded as evidence. *)
Definition record_post_play_evidence (evidence : PostPlayControlEvidence) (self : FailureEvidenceSnapshot)
    : FailureEvidenceSnapshot :=
  mkFailureSnapshot (fs_live_contract self) (fs_audio_stats self) (fs_observer_playback self)
    (match pe_playback_metrics evidence with
     | Some metrics => Some (PlaybackStabilityEvidence_from metrics)
     | None => fs_playback_metrics self
     end)
    (match pe_reconnect_probe_metrics evidence with
     | Some metrics => Some (PlaybackStabilityEvidence_from metrics)
     | None => fs_reconnect_probe_metrics self
     end).

Record PauseSilenceEvidence : Type := mkPauseSilence {
  si_packet_count : Z;
  si_spacing_ms : list Z;
}.
Definition active_validation_duration_after_resume_ms (audio_stats : AudioValidationStats)
    (observer_playback : ObserverPlaybackProof) : Z :=
  sat_sub (as_decoded_audio_ms audio_stats) (op_resume_decoded_audio_start_ms observer_playback).

Definition longer (best_run current_run : list Z) : list Z :=
  if (length best_run <? length current_run)%nat then current_run else best_run.
Fixpoint longest_run (best_run current_run : list Z) (events : list PlaybackSendEventEvidence) : list Z :=
  match events with
  | [] => longer best_run current_run
  | event :: events =>
      if bool_decide (ese_command_kind event = "boundary_silence"%string)
      then longest_run best_run (current_run ++ [ese_sent_offset_us event]) events
      else longest_run (longer best_run current_run) [] events
  end.
Definition spacing_ms (window : list Z) : Z :=
  match window with [earlier; later] => sat_sub later earlier / 1000 | _ => 0 end.
Definition pause_silence_evidence (metrics : option PlaybackStabilityEvidence) : PauseSilenceEvidence :=
  match metrics with
  | None => mkPauseSilence 0 []
  | Some metrics =>
      let best_run := longest_run [] [] (eps_raw_send_events metrics) in
      mkPauseSilence (zlen best_run) (spacing_ms <$> windows 2 best_run)
  end.

(** ** The class of a failure *)

(** [to_lowercase]. Besides A to Z, the Kelvin sign and the capital I with a dot
    become letters that a needle may have; what other characters become is not
    ASCII, so that no needle finds it. *)
Fixpoint to_lowercase (s : string) : string :=
  match s with
  | EmptyString => EmptyString
  | String "226" (String "132" (String "170" s)) => String "k" (to_lowercase s)
  | String "196" (String "176" s) => String "i" (String "204" (String "135" (to_lowercase s)))
  | String c s => String (lower_char c) (to_lowercase s)
  end.

Definition OBSERVER_AUDIO_FAILURE_REASONS : list string :=
  [ "observer_audio_missing_packets";
    "observer_audio_non_discord_opus_duration";
    "observer_audio_incomplete";
    "observer_audio_missing_timing";
    "observer_audio_tempo_fast";
    "observer_audio_tempo_slow";
    "observer_audio_silent";
    "observer_audio_missing_rtp_intervals";
    "observer_audio_rtp_gap";
    "observer_audio_buffered";
    "observer_audio_missing_tempo_windows";
    "observer_audio_missing_short_tempo_windows";
    "observer_audio_short_tempo_fast";
    "observer_audio_short_tempo_slow";
    "observer_audio_short_tempo_inconsistent";
    "observer_audio_insufficient_post_source_tempo_windows";
    "observer_audio_rtp_jitter" ]%string.
Definition mentions (message : string) (needles : list string) : bool := existsb (Text.contains message) needles.
Definition classify_failure_reason (error : string) : string :=
  let message := to_lowercase error in
  if mentions message ["speaking 0"; "microphone speaking"; "speaking indicator"; "self_mute"; "pause silence proof"]
  then "observer_pause_failed"
  else if mentions message ["speaking 1"; "resume proof"; "resumed service audio"] then "observer_resume_failed"
  else match find (Text.contains message) OBSERVER_AUDIO_FAILURE_REASONS with
  | Some reason => reason
  | None =>
  if Text.contains message "observer" && Text.contains message "timed out" then "observer_timeout"
  else if mentions message ["sender_source_skipped_ahead"; "skipped source"; "skipped-source"]
  then "sender_source_skipped_ahead"
  else if Text.contains message "observer audio proof" && Text.contains message "thresholds"
  then "observer_audio_incomplete"
  else if mentions message ["decode opus packet"; "analyze observer audio"] then "observer_decode_failed"
  else if Text.contains message "speaker mapping" then "observer_speaker_mapping_missing"
  else if mentions message ["trackended"; "playing"; "paused"; "buffering"; "voiceready"; "event stream"]
  then "service_contract_failed"
  else if mentions message ["cleanup"; "leave"] then "cleanup_failed"
  else "live_validation_failed"
  end.

(** ** The evidence of a run *)

Section Report.
(** [error.to_string()] *)
Context (display : AnyError -> string).
(** [emit_validation_evidence]: the evidence is written to a file or printed. *)
Context (emit : LiveValidationEvidence -> anyhow unit).

Definition PlaybackDurationStatsEvidence_default : PlaybackDurationStatsEvidence :=
  mkPlaybackDurationStatsEvidence 0 0 0 0 0 0.
Definition build_success_evidence (config : StagingConfig) (validated : ValidatedLiveOutcome) : LiveValidationEvidence :=
  let pause_silence := pause_silence_evidence (vo_playback_metrics validated) in
  {|
    le_outcome := "success"%string;
    le_service_uri := sc_discord_voice_service_uri config;
    le_ytmusic_addr := sc_discord_voice_service_ytmusic_addr config;
    le_test_video_id := sc_test_video_id config;
    le_expected_track_duration_ms := vo_expected_duration_ms validated;
    le_active_validation_duration_after_resume_ms := active_validation_duration_after_resume_ms (vo_audio_stats validated) (vo_observer_playback validated);
    le_pause_silence_packet_count := si_packet_count pause_silence;
    le_pause_silence_spacing_ms := si_spacing_ms pause_silence;
    le_live_staging_profile := sc_live_staging_profile config;
    le_live_staging_service_cpus := sc_live_staging_service_cpus config;
    le_live_staging_cpu_contention_workers := sc_live_staging_cpu_contention_workers config;
    le_live_staging_http_read_delay_ms := sc_live_staging_http_read_delay_ms config;
    le_live_staging_http_read_jitter_ms := sc_live_staging_http_read_jitter_ms config;
    le_validated_join_voice := va_join_voice (lc_validated (vo_live_contract validated));
    le_validated_update_voice_context := va_update_voice_context (lc_validated (vo_live_contract validated));
    le_validated_play := va_play (lc_validated (vo_live_contract validated));
    le_validated_pause := va_pause (lc_validated (vo_live_contract validated));
    le_validated_resume := va_resume (lc_validated (vo_live_contract validated));
    le_validated_invalid_resume_ignored := va_invalid_resume_ignored (lc_validated (vo_live_contract validated));
    le_validated_redundant_pause_ignored := va_redundant_pause_ignored (lc_validated (vo_live_contract validated));
    le_observer_proved_pause := va_observer_proved_pause (lc_validated (vo_live_contract validated));
    le_observer_proved_resume := va_observer_proved_resume (lc_validated (vo_live_contract validated));
    le_observer_pause_self_mute_observed := op_pause_self_mute_observed (vo_observer_playback validated);
    le_observer_pause_speaking_stopped := op_pause_speaking_stopped (vo_observer_playback validated);
    le_observer_pause_rtp_silence_observed := op_pause_rtp_silence_observed (vo_observer_playback validated);
    le_observer_resume_speaking_started := op_resume_speaking_started (vo_observer_playback validated);
    le_observer_pause_silence_ms := op_pause_silence_ms (vo_observer_playback validated);
    le_observer_resume_packet_count := op_resume_observed_packet_count (vo_observer_playback validated);
    le_validated_reconnect_rollover_during_playback := va_reconnect_rollover_during_playback (lc_validated (vo_live_contract validated));
    le_validated_stop := va_stop (lc_validated (vo_live_contract validated));
    le_validated_stop_during_playback := va_stop_during_playback (lc_validated (vo_live_contract validated));
    le_validated_leave_voice := va_leave_voice (lc_validated (vo_live_contract validated));
    le_validated_leave_voice_during_playback := va_leave_voice_during_playback (lc_validated (vo_live_contract validated));
    le_validated_get_state := va_get_state (lc_validated (vo_live_contract validated));
    le_validated_get_playback_metrics := va_get_playback_metrics (lc_validated (vo_live_contract validated));
    le_validated_subscribe_events := va_subscribe_events (lc_validated (vo_live_contract validated));
    le_saw_voice_connecting := seen_voice_connecting (lc_seen (vo_live_contract validated));
    le_saw_voice_ready := seen_voice_ready (lc_seen (vo_live_contract validated));
    le_saw_track_resolving := seen_track_resolving (lc_seen (vo_live_contract validated));
    le_saw_buffering := seen_buffering (lc_seen (vo_live_contract validated));
    le_saw_playing := seen_playing (lc_seen (vo_live_contract validated));
    le_saw_paused := seen_paused (lc_seen (vo_live_contract validated));
    le_saw_resumed_playing := seen_resumed_playing (lc_seen (vo_live_contract validated));
    le_saw_track_ended := seen_track_ended (lc_seen (vo_live_contract validated));
    le_observed_packet_count := as_observed_packet_count (vo_audio_stats validated);
    le_decoded_audio_ms := as_decoded_audio_ms (vo_audio_stats validated);
    le_observer_wall_clock_elapsed_ms := as_wall_clock_elapsed_ms (vo_audio_stats validated);
    le_observer_decoded_audio_to_wall_clock_ratio_ppm := as_decoded_audio_to_wall_clock_ratio_ppm (vo_audio_stats validated);
    le_non_silent_audio_ms := as_non_silent_audio_ms (vo_audio_stats validated);
    le_observer_rtp_inter_arrival := interval_stats_evidence (ar_rtp_inter_arrival (as_arrivals (vo_audio_stats validated)));
    le_observer_rtp_gap_count_gte_100ms := ar_gap_count_gte_100ms (as_arrivals (vo_audio_stats validated));
    le_observer_rtp_fast_interval_count := ar_fast_interval_count (as_arrivals (vo_audio_stats validated));
    le_observer_rtp_fast_interval_min_ms := ar_fast_interval_min_ms (as_arrivals (vo_audio_stats validated));
    le_observer_rtp_fast_interval_min_us := ar_fast_interval_min_us (as_arrivals (vo_audio_stats validated));
    le_observer_rtp_buffering_event_count := ar_buffering_event_count (as_arrivals (vo_audio_stats validated));
    le_observer_rtp_buffering_total_us := ar_buffering_total_us (as_arrivals (vo_audio_stats validated));
    le_observer_rtp_buffering_max_us := ar_buffering_max_us (as_arrivals (vo_audio_stats validated));
    le_observer_rtp_speed_change_total_abs_us := ar_speed_change_total_abs_us (as_arrivals (vo_audio_stats validated));
    le_observer_rtp_speed_change_total_fast_us := ar_speed_change_total_fast_us (as_arrivals (vo_audio_stats validated));
    le_observer_rtp_speed_change_total_slow_us := ar_speed_change_total_slow_us (as_arrivals (vo_audio_stats validated));
    le_observer_anomaly_count := zlen (ar_observer_anomalies (as_arrivals (vo_audio_stats validated)));
    le_observer_anomalies := ar_observer_anomalies (as_arrivals (vo_audio_stats validated));
    le_observer_decoded_audio_tempo_window_count := lw_count (as_long_windows (vo_audio_stats validated));
    le_observer_decoded_audio_tempo_window_post_source_buffer_count := lw_post_source_buffer_count (as_long_windows (vo_audio_stats validated));
    le_observer_decoded_audio_tempo_window_min_ratio_ppm := lw_min_ratio_ppm (as_long_windows (vo_audio_stats validated));
    le_observer_decoded_audio_tempo_window_max_ratio_ppm := lw_max_ratio_ppm (as_long_windows (vo_audio_stats validated));
    le_observer_decoded_audio_tempo_window_fast_count := we_count (lw_fast (as_long_windows (vo_audio_stats validated)));
    le_observer_decoded_audio_tempo_window_fastest_ratio_ppm := we_ratio_ppm (lw_fast (as_long_windows (vo_audio_stats validated)));
    le_observer_decoded_audio_tempo_window_fastest_media_ms := we_media_ms (lw_fast (as_long_windows (vo_audio_stats validated)));
    le_observer_decoded_audio_tempo_window_fastest_wall_clock_us := we_wall_clock_us (lw_fast (as_long_windows (vo_audio_stats validated)));
    le_observer_decoded_audio_tempo_window_slow_count := we_count (lw_slow (as_long_windows (vo_audio_stats validated)));
    le_observer_decoded_audio_tempo_window_slowest_ratio_ppm := we_ratio_ppm (lw_slow (as_long_windows (vo_audio_stats validated)));
    le_observer_decoded_audio_tempo_window_slowest_media_ms := we_media_ms (lw_slow (as_long_windows (vo_audio_stats validated)));
    le_observer_decoded_audio_tempo_window_slowest_wall_clock_us := we_wall_clock_us (lw_slow (as_long_windows (vo_audio_stats validated)));
    le_observer_decoded_audio_short_tempo_window_count := sw_count (as_short_windows (vo_audio_stats validated));
    le_observer_decoded_audio_short_tempo_window_fast_count := sw_fast_count (as_short_windows (vo_audio_stats validated));
    le_observer_decoded_audio_short_tempo_window_slow_count := sw_slow_count (as_short_windows (vo_audio_stats validated));
    le_observer_decoded_audio_short_tempo_window_fastest := sw_fastest (as_short_windows (vo_audio_stats validated));
    le_observer_decoded_audio_short_tempo_window_slowest := sw_slowest (as_short_windows (vo_audio_stats validated));
    le_dave_transition_count_during_playback := from_option eps_dave_transition_count_during_playback 0 (vo_playback_metrics validated);
    le_playback_metrics := vo_playback_metrics validated;
    le_reconnect_probe_metrics := vo_reconnect_probe_metrics validated;
    le_validated_constrained_profile := constrained_profile_configured config && is_some (vo_playback_metrics validated);
    le_validated_slow_jittery_http := slow_jittery_http_configured config && is_some (vo_playback_metrics validated);
    le_failure_reason := None;
  |}.
Definition build_failure_evidence (config : StagingConfig) (error : AnyError) (snapshot : option FailureEvidenceSnapshot)
    : LiveValidationEvidence :=
  let live_contract := snapshot ≫= fs_live_contract in
  let audio_stats := snapshot ≫= fs_audio_stats in
  let observer_playback := snapshot ≫= fs_observer_playback in
  let reconnect_probe_metrics := snapshot ≫= fs_reconnect_probe_metrics in
  let playback_metrics := snapshot ≫= fs_playback_metrics in
  let pause_silence := pause_silence_evidence playback_metrics in
  {|
    le_outcome := "failure"%string;
    le_service_uri := sc_discord_voice_service_uri config;
    le_ytmusic_addr := sc_discord_voice_service_ytmusic_addr config;
    le_test_video_id := sc_test_video_id config;
    le_expected_track_duration_ms := 0;
    le_active_validation_duration_after_resume_ms := zip_map_or 0 active_validation_duration_after_resume_ms audio_stats observer_playback;
    le_pause_silence_packet_count := si_packet_count pause_silence;
    le_pause_silence_spacing_ms := si_spacing_ms pause_silence;
    le_live_staging_profile := sc_live_staging_profile config;
    le_live_staging_service_cpus := sc_live_staging_service_cpus config;
    le_live_staging_cpu_contention_workers := sc_live_staging_cpu_contention_workers config;
    le_live_staging_http_read_delay_ms := sc_live_staging_http_read_delay_ms config;
    le_live_staging_http_read_jitter_ms := sc_live_staging_http_read_jitter_ms config;
    le_validated_join_voice := PlaybackValidator.is_some_and live_contract (fun state => va_join_voice (lc_validated state));
    le_validated_update_voice_context := PlaybackValidator.is_some_and live_contract (fun state => va_update_voice_context (lc_validated state));
    le_validated_play := PlaybackValidator.is_some_and live_contract (fun state => va_play (lc_validated state));
    le_validated_pause := PlaybackValidator.is_some_and live_contract (fun state => va_pause (lc_validated state));
    le_validated_resume := PlaybackValidator.is_some_and live_contract (fun state => va_resume (lc_validated state));
    le_validated_invalid_resume_ignored := PlaybackValidator.is_some_and live_contract (fun state => va_invalid_resume_ignored (lc_validated state));
    le_validated_redundant_pause_ignored := PlaybackValidator.is_some_and live_contract (fun state => va_redundant_pause_ignored (lc_validated state));
    le_observer_proved_pause := PlaybackValidator.is_some_and live_contract (fun state => va_observer_proved_pause (lc_validated state));
    le_observer_proved_resume := PlaybackValidator.is_some_and live_contract (fun state => va_observer_proved_resume (lc_validated state));
    le_observer_pause_self_mute_observed := PlaybackValidator.is_some_and observer_playback op_pause_self_mute_observed;
    le_observer_pause_speaking_stopped := PlaybackValidator.is_some_and observer_playback op_pause_speaking_stopped;
    le_observer_pause_rtp_silence_observed := PlaybackValidator.is_some_and observer_playback op_pause_rtp_silence_observed;
    le_observer_resume_speaking_started := PlaybackValidator.is_some_and observer_playback op_resume_speaking_started;
    le_observer_pause_silence_ms := from_option op_pause_silence_ms 0 observer_playback;
    le_observer_resume_packet_count := from_option op_resume_observed_packet_count 0 observer_playback;
    le_validated_reconnect_rollover_during_playback := PlaybackValidator.is_some_and live_contract (fun state => va_reconnect_rollover_during_playback (lc_validated state));
    le_validated_stop := PlaybackValidator.is_some_and live_contract (fun state => va_stop (lc_validated state));
    le_validated_stop_during_playback := PlaybackValidator.is_some_and live_contract (fun state => va_stop_during_playback (lc_validated state));
    le_validated_leave_voice := PlaybackValidator.is_some_and live_contract (fun state => va_leave_voice (lc_validated state));
    le_validated_leave_voice_during_playback := PlaybackValidator.is_some_and live_contract (fun state => va_leave_voice_during_playback (lc_validated state));
    le_validated_get_state := PlaybackValidator.is_some_and live_contract (fun state => va_get_state (lc_validated state));
    le_validated_get_playback_metrics := PlaybackValidator.is_some_and live_contract (fun state => va_get_playback_metrics (lc_validated state));
    le_validated_subscribe_events := PlaybackValidator.is_some_and live_contract (fun state => va_subscribe_events (lc_validated state));
    le_saw_voice_connecting := PlaybackValidator.is_some_and live_contract (fun state => seen_voice_connecting (lc_seen state));
    le_saw_voice_ready := PlaybackValidator.is_some_and live_contract (fun state => seen_voice_ready (lc_seen state));
    le_saw_track_resolving := PlaybackValidator.is_some_and live_contract (fun state => seen_track_resolving (lc_seen state));
    le_saw_buffering := PlaybackValidator.is_some_and live_contract (fun state => seen_buffering (lc_seen state));
    le_saw_playing := PlaybackValidator.is_some_and live_contract (fun state => seen_playing (lc_seen state));
    le_saw_paused := PlaybackValidator.is_some_and live_contract (fun state => seen_paused (lc_seen state));
    le_saw_resumed_playing := PlaybackValidator.is_some_and live_contract (fun state => seen_resumed_playing (lc_seen state));
    le_saw_track_ended := PlaybackValidator.is_some_and live_contract (fun state => seen_track_ended (lc_seen state));
    le_observed_packet_count := from_option (fun stats => as_observed_packet_count stats) 0 audio_stats;
    le_decoded_audio_ms := from_option (fun stats => as_decoded_audio_ms stats) 0 audio_stats;
    le_observer_wall_clock_elapsed_ms := from_option (fun stats => as_wall_clock_elapsed_ms stats) 0 audio_stats;
    le_observer_decoded_audio_to_wall_clock_ratio_ppm := from_option (fun stats => as_decoded_audio_to_wall_clock_ratio_ppm stats) 0 audio_stats;
    le_non_silent_audio_ms := from_option (fun stats => as_non_silent_audio_ms stats) 0 audio_stats;
    le_observer_rtp_inter_arrival := from_option (fun stats => interval_stats_evidence (ar_rtp_inter_arrival (as_arrivals stats))) PlaybackDurationStatsEvidence_default audio_stats;
    le_observer_rtp_gap_count_gte_100ms := from_option (fun stats => ar_gap_count_gte_100ms (as_arrivals stats)) 0 audio_stats;
    le_observer_rtp_fast_interval_count := from_option (fun stats => ar_fast_interval_count (as_arrivals stats)) 0 audio_stats;
    le_observer_rtp_fast_interval_min_ms := from_option (fun stats => ar_fast_interval_min_ms (as_arrivals stats)) 0 audio_stats;
    le_observer_rtp_fast_interval_min_us := from_option (fun stats => ar_fast_interval_min_us (as_arrivals stats)) 0 audio_stats;
    le_observer_rtp_buffering_event_count := from_option (fun stats => ar_buffering_event_count (as_arrivals stats)) 0 audio_stats;
    le_observer_rtp_buffering_total_us := from_option (fun stats => ar_buffering_total_us (as_arrivals stats)) 0 audio_stats;
    le_observer_rtp_buffering_max_us := from_option (fun stats => ar_buffering_max_us (as_arrivals stats)) 0 audio_stats;
    le_observer_rtp_speed_change_total_abs_us := from_option (fun stats => ar_speed_change_total_abs_us (as_arrivals stats)) 0 audio_stats;
    le_observer_rtp_speed_change_total_fast_us := from_option (fun stats => ar_speed_change_total_fast_us (as_arrivals stats)) 0 audio_stats;
    le_observer_rtp_speed_change_total_slow_us := from_option (fun stats => ar_speed_change_total_slow_us (as_arrivals stats)) 0 audio_stats;
    le_observer_anomaly_count := from_option (fun stats => zlen (ar_observer_anomalies (as_arrivals stats))) 0 audio_stats;
    le_observer_anomalies := from_option (fun stats => ar_observer_anomalies (as_arrivals stats)) [] audio_stats;
    le_observer_decoded_audio_tempo_window_count := from_option (fun stats => lw_count (as_long_windows stats)) 0 audio_stats;
    le_observer_decoded_audio_tempo_window_post_source_buffer_count := from_option (fun stats => lw_post_source_buffer_count (as_long_windows stats)) 0 audio_stats;
    le_observer_decoded_audio_tempo_window_min_ratio_ppm := from_option (fun stats => lw_min_ratio_ppm (as_long_windows stats)) 0 audio_stats;
    le_observer_decoded_audio_tempo_window_max_ratio_ppm := from_option (fun stats => lw_max_ratio_ppm (as_long_windows stats)) 0 audio_stats;
    le_observer_decoded_audio_tempo_window_fast_count := from_option (fun stats => we_count (lw_fast (as_long_windows stats))) 0 audio_stats;
    le_observer_decoded_audio_tempo_window_fastest_ratio_ppm := from_option (fun stats => we_ratio_ppm (lw_fast (as_long_windows stats))) 0 audio_stats;
    le_observer_decoded_audio_tempo_window_fastest_media_ms := from_option (fun stats => we_media_ms (lw_fast (as_long_windows stats))) 0 audio_stats;
    le_observer_decoded_audio_tempo_window_fastest_wall_clock_us := from_option (fun stats => we_wall_clock_us (lw_fast (as_long_windows stats))) 0 audio_stats;
    le_observer_decoded_audio_tempo_window_slow_count := from_option (fun stats => we_count (lw_slow (as_long_windows stats))) 0 audio_stats;
    le_observer_decoded_audio_tempo_window_slowest_ratio_ppm := from_option (fun stats => we_ratio_ppm (lw_slow (as_long_windows stats))) 0 audio_stats;
    le_observer_decoded_audio_tempo_window_slowest_media_ms := from_option (fun stats => we_media_ms (lw_slow (as_long_windows stats))) 0 audio_stats;
    le_observer_decoded_audio_tempo_window_slowest_wall_clock_us := from_option (fun stats => we_wall_clock_us (lw_slow (as_long_windows stats))) 0 audio_stats;
    le_observer_decoded_audio_short_tempo_window_count := from_option (fun stats => sw_count (as_short_windows stats)) 0 audio_stats;
    le_observer_decoded_audio_short_tempo_window_fast_count := from_option (fun stats => sw_fast_count (as_short_windows stats)) 0 audio_stats;
    le_observer_decoded_audio_short_tempo_window_slow_count := from_option (fun stats => sw_slow_count (as_short_windows stats)) 0 audio_stats;
    le_observer_decoded_audio_short_tempo_window_fastest := audio_stats ≫= (fun stats => sw_fastest (as_short_windows stats));
    le_observer_decoded_audio_short_tempo_window_slowest := audio_stats ≫= (fun stats => sw_slowest (as_short_windows stats));
    le_dave_transition_count_during_playback := from_option eps_dave_transition_count_during_playback 0 (snapshot ≫= fs_playback_metrics);
    le_playback_metrics := playback_metrics;
    le_reconnect_probe_metrics := reconnect_probe_metrics;
    le_validated_constrained_profile := false;
    le_validated_slow_jittery_http := false;
    le_failure_reason := Some (classify_failure_reason (display error));
  |}.

(** ** The end of a run *)

(** The evidence handed to [emit], the oldest first. *)
Definition written : Type := list LiveValidationEvidence.

(** What [emit] returns is dropped. *)
Definition emit_failure_evidence (config : StagingConfig) (error : AnyError) (snapshot : option FailureEvidenceSnapshot)
    (out : written) : written := out ++ [build_failure_evidence config error snapshot].
Definition finish_with_failure (config : StagingConfig) (primary cleanup : anyhow unit)
    (snapshot : option FailureEvidenceSnapshot) (out : written) : written * anyhow unit :=
  let result := combine_results primary cleanup in
  (match result with Err error => emit_failure_evidence config error snapshot out | _ => out end, result).

(** The end of [run_live_validation]: the flow and its cleanup have returned. *)
Definition conclude (config : StagingConfig) (flow : anyhow ValidatedLiveOutcome) (cleanup : anyhow unit)
    (failure_snapshot : FailureEvidenceSnapshot) : written * anyhow unit :=
  match flow, cleanup with
  | Panic, _ | _, Panic => ([], Panic)
  | Ok validated, _ =>
      let out := [build_success_evidence config validated] in
      match finalize_success_evidence (Ok validated) cleanup (build_success_evidence config) emit with
      | Ok _ => (out, Ok tt)
      | Err error => (emit_failure_evidence config error (Some failure_snapshot) out, Err error)
      | Panic => (out, Panic)
      end
  | Err error, _ => finish_with_failure config (Err error) cleanup (Some failure_snapshot) []
  end.
End Report.

(** ** The check of the pipeline *)

(** A failure is the record and the field it is about. The fields of the written
    evidence have their types, so that the tests of types pass. *)
Module Ci.
Definition Failure : Type := string * string.
Definition REQUIRED_TOP_LEVEL_TRUE : list (string * (LiveValidationEvidence -> bool)) :=
  [ ("validated_join_voice", le_validated_join_voice);
    ("validated_update_voice_context", le_validated_update_voice_context);
    ("validated_play", le_validated_play);
    ("validated_pause", le_validated_pause);
    ("validated_resume", le_validated_resume);
    ("validated_invalid_resume_ignored", le_validated_invalid_resume_ignored);
    ("validated_redundant_pause_ignored", le_validated_redundant_pause_ignored);
    ("observer_proved_pause", le_observer_proved_pause);
    ("observer_proved_resume", le_observer_proved_resume);
    ("observer_pause_rtp_silence_observed", le_observer_pause_rtp_silence_observed);
    ("validated_reconnect_rollover_during_playback", le_validated_reconnect_rollover_during_playback);
    ("validated_stop", le_validated_stop);
    ("validated_stop_during_playback", le_validated_stop_during_playback);
    ("validated_leave_voice", le_validated_leave_voice);
    ("validated_leave_voice_during_playback", le_validated_leave_voice_during_playback);
    ("validated_get_state", le_validated_get_state);
    ("validated_get_playback_metrics", le_validated_get_playback_metrics);
    ("validated_subscribe_events", le_validated_subscribe_events);
    ("saw_voice_connecting", le_saw_voice_connecting);
    ("saw_voice_ready", le_saw_voice_ready);
    ("saw_track_resolving", le_saw_track_resolving);
    ("saw_buffering", le_saw_buffering);
    ("saw_playing", le_saw_playing);
    ("saw_paused", le_saw_paused);
    ("saw_resumed_playing", le_saw_resumed_playing);
    ("saw_track_ended", le_saw_track_ended);
    ("validated_constrained_profile", le_validated_constrained_profile);
    ("validated_slow_jittery_http", le_validated_slow_jittery_http) ]%string.
Definition PLAYBACK_ZERO_COUNTERS : list (string * (PlaybackStabilityEvidence -> Z)) :=
  [ ("track_fast_interval_count", eps_track_fast_interval_count);
    ("track_tempo_window_fast_count", eps_track_tempo_window_fast_count);
    ("track_tempo_window_slow_count", eps_track_tempo_window_slow_count);
    ("skipped_source_frame_count", eps_skipped_source_frame_count);
    ("skipped_source_duration_ms", eps_skipped_source_duration_ms);
    ("skipped_source_duration_samples", eps_skipped_source_duration_samples);
    ("tempo_rebase_count", eps_tempo_rebase_count);
    ("frame_deficit_count", eps_frame_deficit_count);
    ("dropped_frame_count", eps_dropped_frame_count);
    ("late_frame_count", eps_late_frame_count);
    ("buffer_underrun_count", eps_buffer_underrun_count);
    ("rebuffer_count", eps_rebuffer_count);
    ("playout_underrun_count", eps_playout_underrun_count);
    ("egress_underrun_count", eps_egress_underrun_count);
    ("source_underrun_count", eps_source_underrun_count);
    ("source_underrun_reached_builder_count", eps_source_underrun_reached_builder_count);
    ("source_underrun_reached_deadline_sender_count", eps_source_underrun_reached_deadline_sender_count);
    ("continuity_silence_packet_count", eps_continuity_silence_packet_count);
    ("inserted_silence_duration_ms", eps_inserted_silence_duration_ms);
    ("egress_inserted_silence_duration_ms", eps_egress_inserted_silence_duration_ms);
    ("scheduled_silence_packet_count", eps_scheduled_silence_packet_count);
    ("prepared_silence_packet_drop_count", eps_prepared_silence_packet_drop_count);
    ("discarded_source_frame_count", eps_discarded_source_frame_count);
    ("discarded_source_duration_ms", eps_discarded_source_duration_ms);
    ("discarded_source_duration_samples", eps_discarded_source_duration_samples);
    ("egress_dropped_music_frame_count", eps_egress_dropped_music_frame_count);
    ("egress_dropped_music_duration_ms", eps_egress_dropped_music_duration_ms);
    ("egress_dropped_music_duration_samples", eps_egress_dropped_music_duration_samples) ]%string.
Definition RECONNECT_ZERO_COUNTERS : list (string * (PlaybackStabilityEvidence -> Z)) :=
  [ ("frame_deficit_count", eps_frame_deficit_count);
    ("dropped_frame_count", eps_dropped_frame_count);
    ("late_frame_count", eps_late_frame_count);
    ("buffer_underrun_count", eps_buffer_underrun_count);
    ("rebuffer_count", eps_rebuffer_count);
    ("playout_underrun_count", eps_playout_underrun_count);
    ("egress_underrun_count", eps_egress_underrun_count);
    ("source_underrun_count", eps_source_underrun_count);
    ("inserted_silence_duration_ms", eps_inserted_silence_duration_ms);
    ("egress_inserted_silence_duration_ms", eps_egress_inserted_silence_duration_ms) ]%string.
Definition MEDIA_TO_WALL_CLOCK_MIN_RATIO_PPM : Z := 980000.
Definition MEDIA_TO_WALL_CLOCK_MAX_RATIO_PPM : Z := 1020000.
Definition MIN_OBSERVED_PACKET_COUNT : Z := 120.
Definition MIN_NON_SILENT_AUDIO_MS : Z := 1000.
Definition MIN_STABILITY_METRIC_PACKET_COUNT : Z := 50.
Definition PAUSE_STOP_SILENCE_FRAME_COUNT : Z := 5.
Definition RESUME_OBSERVER_PACKET_TARGET : Z := 4.

Definition require (ok : bool) (label key : string) : list Failure := if ok then [] else [(label, key)].
Definition require_zero (value : Z) (label key : string) : list Failure := require (value =? 0) label key.
Definition require_at_least (value minimum : Z) (label key : string) : list Failure := require (minimum <=? value) label key.
Definition require_ratio (value : Z) (label key : string) : list Failure :=
  require ((MEDIA_TO_WALL_CLOCK_MIN_RATIO_PPM <=? value) && (value <=? MEDIA_TO_WALL_CLOCK_MAX_RATIO_PPM)) label key.
Definition require_zeros {A} (record : A) (counters : list (string * (A -> Z))) (label : string) : list Failure :=
  concat (map (fun '(key, field) => require_zero (field record) label key) counters).

Definition validate_playback_metrics (metrics : PlaybackStabilityEvidence) : list Failure :=
  let label := "playback_metrics"%string in
  require (eps_ended metrics) label "ended" ++
  require_at_least (eps_track_packet_count metrics) MIN_STABILITY_METRIC_PACKET_COUNT label "track_packet_count" ++
  require_at_least (eps_pause_media_boundary_count metrics) 1 label "pause_media_boundary_count" ++
  require_ratio (eps_track_media_to_wall_clock_ratio_ppm metrics) label "track_media_to_wall_clock_ratio_ppm" ++
  require_zeros metrics PLAYBACK_ZERO_COUNTERS label.
Definition validate_reconnect_probe_metrics (metrics : PlaybackStabilityEvidence) : list Failure :=
  let label := "reconnect_probe_metrics"%string in
  require (negb (eps_ended metrics)) label "ended" ++
  require_at_least (eps_reconnect_interruptions metrics) 1 label "reconnect_interruptions" ++
  require_at_least (eps_track_packet_count metrics) 1 label "track_packet_count" ++
  require_ratio (eps_track_media_to_wall_clock_ratio_ppm metrics) label "track_media_to_wall_clock_ratio_ppm" ++
  require_zeros metrics RECONNECT_ZERO_COUNTERS label.

(** Python's integers do not overflow. *)
Definition required_decoded_audio_ms (expected_duration_ms : Z) : Z :=
  let tolerance_floor := Z.max 0 (expected_duration_ms - 2000) in
  let ratio_floor := expected_duration_ms * 90 / 100 in
  Z.min expected_duration_ms (Z.max (Z.max ratio_floor tolerance_floor) (Z.min 6000 expected_duration_ms)).
Definition require_decoded_audio_duration (evidence : LiveValidationEvidence) : list Failure :=
  let expected_duration_ms := le_expected_track_duration_ms evidence in
  if expected_duration_ms <=? 0 then [("evidence", "expected_track_duration_ms")]%string
  else require (required_decoded_audio_ms expected_duration_ms <=? le_decoded_audio_ms evidence) "evidence" "decoded_audio_ms".

Definition validate_evidence (evidence : LiveValidationEvidence) : list Failure :=
  let label := "evidence"%string in
  require (bool_decide (le_outcome evidence = "success"%string)) label "outcome" ++
  concat (map (fun '(key, field) => require (field evidence) label key) REQUIRED_TOP_LEVEL_TRUE) ++
  require_at_least (le_pause_silence_packet_count evidence) PAUSE_STOP_SILENCE_FRAME_COUNT label "pause_silence_packet_count" ++
  require_at_least (le_observer_resume_packet_count evidence) RESUME_OBSERVER_PACKET_TARGET label "observer_resume_packet_count" ++
  require_at_least (le_observed_packet_count evidence) MIN_OBSERVED_PACKET_COUNT label "observed_packet_count" ++
  require_at_least (le_non_silent_audio_ms evidence) MIN_NON_SILENT_AUDIO_MS label "non_silent_audio_ms" ++
  require_zero (le_observer_rtp_buffering_event_count evidence) label "observer_rtp_buffering_event_count" ++
  require_zero (le_observer_decoded_audio_tempo_window_fast_count evidence) label "observer_decoded_audio_tempo_window_fast_count" ++
  require_zero (le_observer_decoded_audio_tempo_window_slow_count evidence) label "observer_decoded_audio_tempo_window_slow_count" ++
  require_ratio (le_observer_decoded_audio_to_wall_clock_ratio_ppm evidence) label "observer_decoded_audio_to_wall_clock_ratio_ppm" ++
  require_decoded_audio_duration evidence ++
  require (negb (is_some (le_failure_reason evidence))) label "failure_reason" ++
  match le_playback_metrics evidence with
  | Some playback => validate_playback_metrics playback
  | None => [(label, "playback_metrics"%string)]
  end ++
  match le_reconnect_probe_metrics evidence with
  | Some reconnect => validate_reconnect_probe_metrics reconnect
  | None => [(label, "reconnect_probe_metrics"%string)]
  end.
End Ci.
