(* ===== verification/ReportSpecs.v ===== *)
(** * What a report shows

    Properties of Report.v: the evidence of a run that was accepted passes the
    check of the pipeline, the silence it reports is the longest that was sent,
    failure evidence says what success evidence would have, and the last
    evidence of a run tells how it ended. *)

From S2P Require Import Prelude Anyhow MetricsTransport AudioObserver Timeline Twilight LiveContract Evidence Staging LiveRun Report.
From S2P Require Metrics Text LiveRunSpecs HealthyRun.
From S2P Require PlaybackValidator ObserverProofs.
From Stdlib Require Import Ascii String Floats.SpecFloat.
From stdpp Require Import prelude strings gmap.
Open Scope Z_scope.

(** Takes a chain of checks apart. *)
Ltac unchain H :=
  repeat first
    [ apply bail_if_then in H as [? H]
    | apply bail_if_Ok in H
    | apply bind_Ok in H as (? & ? & H); cbv beta zeta in H ].

(** ** Configuration *)

Lemma error_msg_Ok {A} (r : result string A) a : error_msg r = Ok a <-> r = Ok a.
Proof. unfold error_msg. destruct r; simpl; split; intros H; by simplify_eq/=. Qed.

(** The checks on the environment are those that the evidence asks again. *)
Lemma accepted_config_is_constrained env config :
  from_env_map env = Ok config ->
  constrained_profile_configured config = true /\ slow_jittery_http_configured config = true.
Proof.
  unfold from_env_map. intros H. unchain H. injection H as <-.
  match goal with H : validate ?c = Ok _ |- _ => generalize dependent c end. intros config H. clear -H.
  unfold validate in H. unchain H.
  match goal with H : Anyhow.context _ _ _ = Ok _ |- _ => apply context_Ok, error_msg_Ok in H; rename H into Hcpus end.
  unfold constrained_profile_configured, slow_jittery_http_configured. rewrite Hcpus.
  repeat match goal with
  | H : negb _ = false |- _ => apply negb_false_iff in H
  | H : _ || _ = false |- _ => apply orb_false_iff in H as [? ?]
  | H : (_ <? _) = false |- _ => apply Z.ltb_ge, Z.leb_le in H
  end.
  match goal with Hf : is_finite ?x = true, H0 : SFleb ?x _ = false, H1 : SFltb _ ?x = false |- _ =>
    rewrite positive_finite in H0 by done; apply negb_false_iff in H0; rewrite finite_order in H1 by done;
    apply negb_false_iff in H1; rewrite Hf, H0, H1 end.
  split; repeat (apply andb_true_iff; split); done.
Qed.

(** ** The silence of a pause *)

Definition silent (event : PlaybackSendEventEvidence) : Prop := ese_command_kind event = "boundary_silence"%string.

Lemma longer_max best current : length (longer best current) = Nat.max (length best) (length current).
Proof. unfold longer. destruct (Nat.ltb_spec (length best) (length current)); lia. Qed.
Lemma longest_run_grows events : forall best current,
  (Nat.max (length best) (length current) <= length (longest_run best current events))%nat.
Proof.
  induction events as [|e events IH]; intros best current; simpl; [by rewrite longer_max|].
  case_bool_decide; [specialize (IH best (current ++ [ese_sent_offset_us e])); rewrite length_app in IH; simpl in IH; lia|].
  specialize (IH (longer best current) []). rewrite longer_max in IH. lia.
Qed.
Lemma longest_run_silence silence after : forall best current,
  Forall silent silence ->
  longest_run best current (silence ++ after) = longest_run best (current ++ (ese_sent_offset_us <$> silence)) after.
Proof.
  induction silence as [|e silence IH]; intros best current Hs; simpl; [by rewrite app_nil_r|].
  apply Forall_cons in Hs as [He Hs]. rewrite bool_decide_eq_true_2 by done. rewrite IH by done. by rewrite <- app_assoc.
Qed.
Lemma longest_run_later before rest : forall best current,
  exists best' current', longest_run best current (before ++ rest) = longest_run best' current' rest.
Proof.
  induction before as [|e before IH]; intros best current; simpl; [by eexists _, _|]. case_bool_decide; apply IH.
Qed.
Lemma longest_run_sent events : forall best current,
  longest_run best current events = best \/
  (exists silence after, events = silence ++ after /\ Forall silent silence /\
     longest_run best current events = current ++ (ese_sent_offset_us <$> silence)) \/
  (exists before silence after, events = before ++ silence ++ after /\ Forall silent silence /\
     longest_run best current events = ese_sent_offset_us <$> silence).
Proof.
  induction events as [|e events IH]; intros best current; simpl.
  - unfold longer. case_match; [|by left]. right; left. exists [], []. split_and!; [done|by constructor|by rewrite app_nil_r].
  - case_bool_decide as He.
    + destruct (IH best (current ++ [ese_sent_offset_us e]))
        as [H|[(s & a & -> & Hs & H)|(b & s & a & -> & Hs & H)]].
      * by left.
      * right; left. exists (e :: s), a. rewrite H, <- app_assoc. split_and!; [done|by constructor|done].
      * right; right. by exists (e :: b), s, a.
    + destruct (IH (longer best current) []) as [H|[(s & a & -> & Hs & H)|(b & s & a & -> & Hs & H)]].
      * rewrite H. unfold longer. case_match; [|by left]. right; left. exists [], (e :: events). split_and!; [done|by constructor|by rewrite app_nil_r].
      * right; right. by exists [e], s, a.
      * right; right. by exists (e :: b), s, a.
Qed.

(** The silence that the evidence reports was sent in a row, and no longer one was. *)
Theorem reported_silence_is_longest metrics :
  let events := eps_raw_send_events metrics in
  let reported := pause_silence_evidence (Some metrics) in
  (exists before silence after, events = before ++ silence ++ after /\ Forall silent silence /\
     si_packet_count reported = zlen silence /\
     si_spacing_ms reported = spacing_ms <$> windows 2 (ese_sent_offset_us <$> silence)) /\
  (forall before silence after, events = before ++ silence ++ after -> Forall silent silence ->
     zlen silence <= si_packet_count reported).
Proof.
  intros events reported. subst reported. simpl. fold events. split.
  - destruct (longest_run_sent events [] []) as [->|[(s & a & -> & Hs & ->)|(b & s & a & -> & Hs & ->)]].
    + by exists [], [], events.
    + exists [], s, a. rewrite !app_nil_l. unfold zlen. by rewrite length_fmap.
    + exists b, s, a. unfold zlen. by rewrite length_fmap.
  - intros before silence after -> Hs. destruct (longest_run_later before (silence ++ after) [] []) as (b & c & ->).
    rewrite longest_run_silence by done. unfold zlen.
    pose proof (longest_run_grows after b (c ++ (ese_sent_offset_us <$> silence))) as H.
    rewrite length_app, length_fmap in H. lia.
Qed.

Lemma silent_from e : silent (PlaybackSendEventEvidence_from e) <-> twe_command_kind e = TC_BoundarySilence.
Proof. unfold silent. destruct e as [? []]; cbn; split; by intros. Qed.
(** The run of five that the validator finds is reported. *)
Lemma validated_silence_reported label events : forall best current,
  PlaybackValidator.pause_boundary_run label current events = Ok tt ->
  (5 <= length (longest_run best current (PlaybackSendEventEvidence_from <$> events)))%nat.
Proof.
  induction events as [|e events IH]; intros best current; cbn [fmap list_fmap longest_run PlaybackValidator.pause_boundary_run]; [done|].
  cbv zeta. fold (fmap (M := list) PlaybackSendEventEvidence_from events).
  rewrite (bool_decide_ext _ _ (silent_from e)). case_bool_decide as He; [|by apply IH].
  cbn [ese_sent_offset_us PlaybackSendEventEvidence_from].
  destruct (Nat.leb_spec PlaybackValidator.PAUSE_STOP_SILENCE_FRAME_COUNT (length (current ++ [twe_sent_offset_us e])));
    [|by apply IH].
  intros _. pose proof (longest_run_grows (PlaybackSendEventEvidence_from <$> events) best (current ++ [twe_sent_offset_us e])).
  unfold PlaybackValidator.PAUSE_STOP_SILENCE_FRAME_COUNT in *. lia.
Qed.

(** ** The evidence of a failure *)

Section Reports.
Context (display : AnyError -> string).
Context (emit : LiveValidationEvidence -> anyhow unit).

(** What a failure leaves of the evidence of a success. *)
Definition as_failure (reason : string) (evidence : LiveValidationEvidence) : LiveValidationEvidence := {|
  le_outcome := "failure"%string;
  le_service_uri := le_service_uri evidence;
  le_ytmusic_addr := le_ytmusic_addr evidence;
  le_test_video_id := le_test_video_id evidence;
  le_expected_track_duration_ms := 0;
  le_active_validation_duration_after_resume_ms := le_active_validation_duration_after_resume_ms evidence;
  le_pause_silence_packet_count := le_pause_silence_packet_count evidence;
  le_pause_silence_spacing_ms := le_pause_silence_spacing_ms evidence;
  le_live_staging_profile := le_live_staging_profile evidence;
  le_live_staging_service_cpus := le_live_staging_service_cpus evidence;
  le_live_staging_cpu_contention_workers := le_live_staging_cpu_contention_workers evidence;
  le_live_staging_http_read_delay_ms := le_live_staging_http_read_delay_ms evidence;
  le_live_staging_http_read_jitter_ms := le_live_staging_http_read_jitter_ms evidence;
  le_validated_join_voice := le_validated_join_voice evidence;
  le_validated_update_voice_context := le_validated_update_voice_context evidence;
  le_validated_play := le_validated_play evidence;
  le_validated_pause := le_validated_pause evidence;
  le_validated_resume := le_validated_resume evidence;
  le_validated_invalid_resume_ignored := le_validated_invalid_resume_ignored evidence;
  le_validated_redundant_pause_ignored := le_validated_redundant_pause_ignored evidence;
  le_observer_proved_pause := le_observer_proved_pause evidence;
  le_observer_proved_resume := le_observer_proved_resume evidence;
  le_observer_pause_self_mute_observed := le_observer_pause_self_mute_observed evidence;
  le_observer_pause_speaking_stopped := le_observer_pause_speaking_stopped evidence;
  le_observer_pause_rtp_silence_observed := le_observer_pause_rtp_silence_observed evidence;
  le_observer_resume_speaking_started := le_observer_resume_speaking_started evidence;
  le_observer_pause_silence_ms := le_observer_pause_silence_ms evidence;
  le_observer_resume_packet_count := le_observer_resume_packet_count evidence;
  le_validated_reconnect_rollover_during_playback := le_validated_reconnect_rollover_during_playback evidence;
  le_validated_stop := le_validated_stop evidence;
  le_validated_stop_during_playback := le_validated_stop_during_playback evidence;
  le_validated_leave_voice := le_validated_leave_voice evidence;
  le_validated_leave_voice_during_playback := le_validated_leave_voice_during_playback evidence;
  le_validated_get_state := le_validated_get_state evidence;
  le_validated_get_playback_metrics := le_validated_get_playback_metrics evidence;
  le_validated_subscribe_events := le_validated_subscribe_events evidence;
  le_saw_voice_connecting := le_saw_voice_connecting evidence;
  le_saw_voice_ready := le_saw_voice_ready evidence;
  le_saw_track_resolving := le_saw_track_resolving evidence;
  le_saw_buffering := le_saw_buffering evidence;
  le_saw_playing := le_saw_playing evidence;
  le_saw_paused := le_saw_paused evidence;
  le_saw_resumed_playing := le_saw_resumed_playing evidence;
  le_saw_track_ended := le_saw_track_ended evidence;
  le_observed_packet_count := le_observed_packet_count evidence;
  le_decoded_audio_ms := le_decoded_audio_ms evidence;
  le_observer_wall_clock_elapsed_ms := le_observer_wall_clock_elapsed_ms evidence;
  le_observer_decoded_audio_to_wall_clock_ratio_ppm := le_observer_decoded_audio_to_wall_clock_ratio_ppm evidence;
  le_non_silent_audio_ms := le_non_silent_audio_ms evidence;
  le_observer_rtp_inter_arrival := le_observer_rtp_inter_arrival evidence;
  le_observer_rtp_gap_count_gte_100ms := le_observer_rtp_gap_count_gte_100ms evidence;
  le_observer_rtp_fast_interval_count := le_observer_rtp_fast_interval_count evidence;
  le_observer_rtp_fast_interval_min_ms := le_observer_rtp_fast_interval_min_ms evidence;
  le_observer_rtp_fast_interval_min_us := le_observer_rtp_fast_interval_min_us evidence;
  le_observer_rtp_buffering_event_count := le_observer_rtp_buffering_event_count evidence;
  le_observer_rtp_buffering_total_us := le_observer_rtp_buffering_total_us evidence;
  le_observer_rtp_buffering_max_us := le_observer_rtp_buffering_max_us evidence;
  le_observer_rtp_speed_change_total_abs_us := le_observer_rtp_speed_change_total_abs_us evidence;
  le_observer_rtp_speed_change_total_fast_us := le_observer_rtp_speed_change_total_fast_us evidence;
  le_observer_rtp_speed_change_total_slow_us := le_observer_rtp_speed_change_total_slow_us evidence;
  le_observer_anomaly_count := le_observer_anomaly_count evidence;
  le_observer_anomalies := le_observer_anomalies evidence;
  le_observer_decoded_audio_tempo_window_count := le_observer_decoded_audio_tempo_window_count evidence;
  le_observer_decoded_audio_tempo_window_post_source_buffer_count := le_observer_decoded_audio_tempo_window_post_source_buffer_count evidence;
  le_observer_decoded_audio_tempo_window_min_ratio_ppm := le_observer_decoded_audio_tempo_window_min_ratio_ppm evidence;
  le_observer_decoded_audio_tempo_window_max_ratio_ppm := le_observer_decoded_audio_tempo_window_max_ratio_ppm evidence;
  le_observer_decoded_audio_tempo_window_fast_count := le_observer_decoded_audio_tempo_window_fast_count evidence;
  le_observer_decoded_audio_tempo_window_fastest_ratio_ppm := le_observer_decoded_audio_tempo_window_fastest_ratio_ppm evidence;
  le_observer_decoded_audio_tempo_window_fastest_media_ms := le_observer_decoded_audio_tempo_window_fastest_media_ms evidence;
  le_observer_decoded_audio_tempo_window_fastest_wall_clock_us := le_observer_decoded_audio_tempo_window_fastest_wall_clock_us evidence;
  le_observer_decoded_audio_tempo_window_slow_count := le_observer_decoded_audio_tempo_window_slow_count evidence;
  le_observer_decoded_audio_tempo_window_slowest_ratio_ppm := le_observer_decoded_audio_tempo_window_slowest_ratio_ppm evidence;
  le_observer_decoded_audio_tempo_window_slowest_media_ms := le_observer_decoded_audio_tempo_window_slowest_media_ms evidence;
  le_observer_decoded_audio_tempo_window_slowest_wall_clock_us := le_observer_decoded_audio_tempo_window_slowest_wall_clock_us evidence;
  le_observer_decoded_audio_short_tempo_window_count := le_observer_decoded_audio_short_tempo_window_count evidence;
  le_observer_decoded_audio_short_tempo_window_fast_count := le_observer_decoded_audio_short_tempo_window_fast_count evidence;
  le_observer_decoded_audio_short_tempo_window_slow_count := le_observer_decoded_audio_short_tempo_window_slow_count evidence;
  le_observer_decoded_audio_short_tempo_window_fastest := le_observer_decoded_audio_short_tempo_window_fastest evidence;
  le_observer_decoded_audio_short_tempo_window_slowest := le_observer_decoded_audio_short_tempo_window_slowest evidence;
  le_dave_transition_count_during_playback := le_dave_transition_count_during_playback evidence;
  le_playback_metrics := le_playback_metrics evidence;
  le_reconnect_probe_metrics := le_reconnect_probe_metrics evidence;
  le_validated_constrained_profile := false;
  le_validated_slow_jittery_http := false;
  le_failure_reason := Some reason;
|}.
(** A failure that was measured like a success is reported like it. *)
Theorem failure_evidence_agrees config validated error :
  build_failure_evidence display config error
    (Some (mkFailureSnapshot (Some (vo_live_contract validated)) (Some (vo_audio_stats validated))
             (Some (vo_observer_playback validated)) (vo_playback_metrics validated) (vo_reconnect_probe_metrics validated)))
  = as_failure (classify_failure_reason (display error)) (build_success_evidence config validated).
Proof. by destruct validated. Qed.

(** The last evidence of a run tells how it ended: success evidence is written
    exactly when the run succeeds, whatever its cleanup did, and a run that
    fails ends with failure evidence for the error it returns, also when it was
    the success evidence that could not be written. *)
Theorem last_evidence_tells_outcome config flow cleanup snapshot :
  let '(out, result) := conclude display emit config flow cleanup snapshot in
  match result with
  | Ok _ => exists validated, flow = Ok validated /\ out = [build_success_evidence config validated] /\
              emit (build_success_evidence config validated) = Ok tt
  | Err error =>
      last out = Some (build_failure_evidence display config error (Some snapshot)) /\
      (forall validated, flow = Ok validated -> emit (build_success_evidence config validated) = Err error) /\
      (forall primary, flow = Err primary -> combine_results (Err primary) cleanup = Err error)
  | Panic => flow = Panic \/ cleanup = Panic \/
      exists validated, flow = Ok validated /\ emit (build_success_evidence config validated) = Panic
  end.
Proof.
  unfold conclude, finish_with_failure, emit_failure_evidence, finalize_success_evidence.
  destruct flow as [validated|error|], cleanup as [[]|cleanup|]; simpl; auto.
  all: try (destruct (emit (build_success_evidence config validated)) as [[]|e|] eqn:E); simpl; eauto 6.
  all: split_and!; try done; by intros ? [= <-].
Qed.
End Reports.

(** ** The class of a failure *)

(** Every reason the thresholds give is a class, and the class of itself. *)
Theorem threshold_reason_is_class stats expected_duration_ms :
  let reason := PlaybackValidator.observer_threshold_failure_reason stats expected_duration_ms in
  In reason OBSERVER_AUDIO_FAILURE_REASONS /\ classify_failure_reason reason = reason.
Proof.
  intros reason.
  assert (Hin : In reason OBSERVER_AUDIO_FAILURE_REASONS).
  { subst reason. unfold PlaybackValidator.observer_threshold_failure_reason, PlaybackValidator.window_reason,
      PlaybackValidator.observer_tempo_window_failure_reason, OBSERVER_AUDIO_FAILURE_REASONS.
    repeat case_match; simplify_eq; cbn [In]; tauto. }
  split; [done|]. generalize dependent reason.
  assert (H : forallb (fun r => bool_decide (classify_failure_reason r = r)) OBSERVER_AUDIO_FAILURE_REASONS = true) by (vm_compute; reflexivity).
  intros reason Hin. rewrite forallb_forall in H. exact (bool_decide_eq_true_1 _ (H _ Hin)).
Qed.

(** The text of a message, its arguments put in their places. *)
Definition arg_text (a : Arg) : string :=
  match a with Num n => i32_to_string n | Text s => s | _ => EmptyString end.
Fixpoint fill (format : string) (args : list Arg) : string :=
  match format with
  | EmptyString => EmptyString
  | String "{" (String "}" rest) =>
      match args with a :: args => arg_text a +:+ fill rest args | [] => EmptyString end
  | String c rest => String c (fill rest args)
  end.

(** The classes of the proofs of pause and resume miss messages of those proofs:
    a packet heard in the silence of a pause is no [observer_pause_failed], and
    that the speaking state was not seen before the pause is
    [observer_resume_failed]. *)
Theorem pause_failures_misclassified :
  (exists e, ObserverProofs.pause_rtp 0
      (ObserverProofs.mkPauseTurn 0 Panic 0 0 0 900000000) (Observer.mkObservedRtpPacket "42" 7 500 0 0)
      (ObserverProofs.mkPauseState true true None 0 5) = Err [e] /\
    classify_failure_reason (fill (msg_format e) (msg_args e)) = "live_validation_failed"%string) /\
  classify_failure_reason "observer pre-Pause proof did not observe service Speaking 1" = "observer_resume_failed"%string.
Proof. split; [eexists; split; [reflexivity|]|]; vm_compute; reflexivity. Qed.

(** ** The check of the pipeline *)

Section Pipeline.
Context `{TM : TwilightModel} `{Sort : PlaybackValidator.DepthSort}.

Lemma require_nil ok label key : ok = true -> Ci.require ok label key = [].
Proof. by intros ->. Qed.
Lemma require_at_least_nil value minimum label key : minimum <= value -> Ci.require_at_least value minimum label key = [].
Proof. intros H. by apply require_nil, Z.leb_le. Qed.
Lemma require_zero_nil value label key : value = 0 -> Ci.require_zero value label key = [].
Proof. by intros ->. Qed.
Lemma require_ratio_nil value label key : 980000 <= value <= 1020000 -> Ci.require_ratio value label key = [].
Proof. intros [H1 H2]. apply require_nil, andb_true_iff. by split; apply Z.leb_le. Qed.
Lemma require_zeros_nil {A} (record : A) counters label :
  Forall (fun c => snd c record = 0) counters -> Ci.require_zeros record counters label = [].
Proof. intros H. unfold Ci.require_zeros. induction H as [|[key field] l Hz H IH]; [done|]. simpl in *. by rewrite Hz, IH. Qed.

(** Every part of a report of failures is empty. *)
Ltac no_failures := repeat match goal with |- _ ++ _ = [] => apply app_nil; split end.
(** Reads the counters off the checks that passed. *)
Ltac counters H :=
  cbv zeta in H; unchain H;
  repeat match goal with
  | H : negb _ = false |- _ => apply negb_false_iff in H
  | H : _ || _ = false |- _ => apply orb_false_iff in H as [? ?]
  | H : (_ =? _) = true |- _ => apply Z.eqb_eq in H
  | H : (_ <? _) = false |- _ => apply Z.ltb_ge in H
  end.

(** The checks of a playback that the pipeline repeats. *)
Lemma accounted_frames metrics label :
  PlaybackValidator.check_frame_accounting metrics label = Ok tt ->
  twm_frame_deficit_count metrics = 0 /\ twm_dropped_frame_count metrics = 0 /\ twm_late_frame_count metrics = 0.
Proof. unfold PlaybackValidator.check_frame_accounting. intros H. counters H. done. Qed.
Lemma steady_tempo metrics label rolling :
  PlaybackValidator.check_tempo metrics label rolling = Ok tt ->
  980000 <= twm_track_media_to_wall_clock_ratio_ppm metrics <= 1020000 /\
  twm_track_fast_interval_count metrics = 0 /\ twm_track_tempo_window_fast_count metrics = 0 /\
  twm_track_tempo_window_slow_count metrics = 0 /\ twm_skipped_source_frame_count metrics = 0 /\
  twm_skipped_source_duration_ms metrics = 0 /\ twm_skipped_source_duration_samples metrics = 0 /\
  twm_tempo_rebase_count metrics = 0.
Proof. unfold PlaybackValidator.check_tempo. intros H. counters H. done. Qed.
Lemma no_anomalies metrics label :
  PlaybackValidator.check_anomalies metrics label = Ok tt ->
  twm_buffer_underrun_count metrics = 0 /\ twm_rebuffer_count metrics = 0 /\ twm_playout_underrun_count metrics = 0 /\
  twm_egress_underrun_count metrics = 0 /\ twm_source_underrun_count metrics = 0 /\
  twm_source_underrun_reached_builder_count metrics = 0 /\ twm_source_underrun_reached_deadline_sender_count metrics = 0.
Proof. unfold PlaybackValidator.check_anomalies. intros H. counters H. done. Qed.
Lemma no_silence_or_discards metrics label :
  PlaybackValidator.check_silence_and_discards metrics label = Ok tt ->
  twm_continuity_silence_packet_count metrics = 0 /\ twm_inserted_silence_duration_ms metrics = 0 /\
  twm_egress_inserted_silence_duration_ms metrics = 0 /\ twm_scheduled_silence_packet_count metrics = 0 /\
  twm_prepared_silence_packet_drop_count metrics = 0 /\ twm_discarded_source_frame_count metrics = 0 /\
  twm_discarded_source_duration_ms metrics = 0 /\ twm_discarded_source_duration_samples metrics = 0 /\
  twm_egress_dropped_music_frame_count metrics = 0 /\ twm_egress_dropped_music_duration_ms metrics = 0 /\
  twm_egress_dropped_music_duration_samples metrics = 0.
Proof. unfold PlaybackValidator.check_silence_and_discards. intros H. counters H. done. Qed.
Lemma pause_evidence metrics label :
  PlaybackValidator.validate_raw_playback_evidence metrics label true = Ok tt ->
  PlaybackValidator.validate_pause_boundary_spacing metrics label = Ok tt.
Proof.
  unfold PlaybackValidator.validate_raw_playback_evidence, PlaybackValidator.require_pause_evidence. intros H. unchain H.
  match goal with H : mbind _ _ = Ok ?u |- _ => unchain H; by destruct u end.
Qed.

Lemma budget_counters metrics label rolling pause :
  PlaybackValidator.validate_playback_timing_budget_with_active_probe_options metrics label rolling pause = Ok tt ->
  980000 <= twm_track_media_to_wall_clock_ratio_ppm metrics <= 1020000 /\
  Forall (fun c => snd c (PlaybackStabilityEvidence_from metrics) = 0) Ci.PLAYBACK_ZERO_COUNTERS /\
  (pause = true -> PlaybackValidator.validate_pause_boundary_spacing metrics label = Ok tt).
Proof.
  unfold PlaybackValidator.validate_playback_timing_budget_with_active_probe_options. intros H.
  do 8 (apply bind_Ok in H as ([] & ? & H)).
  repeat match goal with
  | H : PlaybackValidator.check_frame_accounting _ _ = _ |- _ => apply accounted_frames in H
  | H : PlaybackValidator.check_tempo _ _ _ = _ |- _ => apply steady_tempo in H
  | H : PlaybackValidator.check_anomalies _ _ = _ |- _ => apply no_anomalies in H
  | H : PlaybackValidator.check_silence_and_discards _ _ = _ |- _ => apply no_silence_or_discards in H
  end.
  destruct_and?. split_and!; [done|done| |by intros ->; eapply pause_evidence].
  unfold Ci.PLAYBACK_ZERO_COUNTERS. repeat constructor; assumption.
Qed.
Lemma reconnect_counters x :
  Forall (fun c => snd c x = 0) Ci.PLAYBACK_ZERO_COUNTERS -> Forall (fun c => snd c x = 0) Ci.RECONNECT_ZERO_COUNTERS.
Proof.
  unfold Ci.RECONNECT_ZERO_COUNTERS, Ci.PLAYBACK_ZERO_COUNTERS. rewrite !Forall_cons. cbn [snd]. intros H. destruct_and?.
  split_and!; assumption || apply Forall_nil_2.
Qed.

Lemma finished_metrics_pass metrics v :
  PlaybackValidator.validate_finished_playback_metrics metrics v = Ok tt ->
  1 <= twm_pause_media_boundary_count metrics ->
  Ci.validate_playback_metrics (PlaybackStabilityEvidence_from metrics) = [] /\
  5 <= si_packet_count (pause_silence_evidence (Some (PlaybackStabilityEvidence_from metrics))).
Proof.
  unfold PlaybackValidator.validate_finished_playback_metrics, PlaybackValidator.validate_playback_timing_budget.
  intros H Hpause. do 7 apply bail_if_then in H as [? H]. apply bind_Ok in H as ([] & H & _).
  apply budget_counters in H as (Hratio & Hzero & Hsilence). split.
  - unfold Ci.validate_playback_metrics. no_failures.
    + apply require_nil. by apply negb_false_iff.
    + apply require_at_least_nil. by apply Z.ltb_ge.
    + by apply require_at_least_nil.
    + by apply require_ratio_nil.
    + by apply require_zeros_nil.
  - specialize (Hsilence eq_refl). cbn [pause_silence_evidence si_packet_count].
    apply (validated_silence_reported _ _ []) in Hsilence. unfold zlen. cbn [eps_raw_send_events PlaybackStabilityEvidence_from]. lia.
Qed.
Lemma probe_metrics_pass metrics v :
  PlaybackValidator.validate_reconnect_probe_metrics metrics v = Ok tt ->
  0 <= twm_track_packet_count metrics -> 0 < twm_reconnect_interruptions metrics ->
  Ci.validate_reconnect_probe_metrics (PlaybackStabilityEvidence_from metrics) = [].
Proof.
  unfold PlaybackValidator.validate_reconnect_probe_metrics, PlaybackValidator.validate_active_probe_playback_timing_budget.
  intros H Hn Hr. do 6 apply bail_if_then in H as [? H]. apply budget_counters in H as (Hratio & Hzero & _).
  unfold Ci.validate_reconnect_probe_metrics. no_failures.
  - by apply require_nil, negb_true_iff.
  - apply require_at_least_nil. cbn. lia.
  - apply require_at_least_nil. cbn [eps_track_packet_count PlaybackStabilityEvidence_from].
    match goal with H : (twm_track_packet_count _ =? 0) = false |- _ => apply Z.eqb_neq in H; lia end.
  - by apply require_ratio_nil.
  - by apply require_zeros_nil, reconnect_counters.
Qed.

(** The two formulas agree, although one saturates. *)
Lemma same_required_audio duration :
  0 <= duration <= u64_max ->
  PlaybackValidator.required_observer_decoded_audio_ms duration = Ci.required_decoded_audio_ms duration.
Proof.
  intros H. unfold PlaybackValidator.required_observer_decoded_audio_ms, Ci.required_decoded_audio_ms,
    PlaybackValidator.OBSERVER_AUDIO_DURATION_MIN_RATIO_PERCENT, PlaybackValidator.OBSERVER_AUDIO_DURATION_TOLERANCE_MS,
    PlaybackValidator.MIN_DECODED_AUDIO_MS, sat_mul, sat_sub, u64_max in *.
  rewrite (Z.min_comm _ duration).
  destruct (Z.le_gt_cases (duration * 90) (2 ^ 64 - 1)) as [Hd|Hd]; [by rewrite (Z.min_r _ (duration * 90))|].
  rewrite (Z.min_l _ (duration * 90)) by lia.
  assert ((2 ^ 64 - 1) / 100 <= duration - 2000) by (vm_compute ((2 ^ 64 - 1) / 100); lia).
  assert (duration * 90 / 100 <= duration - 2000) by (apply Z.div_le_upper_bound; lia). lia.
Qed.
Lemma coverage_flags s : missing_required_coverage s = [] -> Forall (fun r => fst r = true) (required_coverage s).
Proof.
  unfold missing_required_coverage. intros H%fmap_nil_inv. induction (required_coverage s) as [|[b name] l IH]; [done|].
  rewrite filter_cons in H. case_decide as Hb; [done|]. constructor; [by destruct b|by apply IH].
Qed.

(** What the observer measured passes. *)
Lemma thresholds_pass stats duration :
  PlaybackValidator.observer_thresholds_satisfied stats duration = true ->
  120 <= as_observed_packet_count stats /\ 1000 <= as_non_silent_audio_ms stats /\
  ar_buffering_event_count (as_arrivals stats) = 0 /\ we_count (lw_fast (as_long_windows stats)) = 0 /\
  we_count (lw_slow (as_long_windows stats)) = 0 /\ 980000 <= as_decoded_audio_to_wall_clock_ratio_ppm stats <= 1020000 /\
  PlaybackValidator.required_observer_decoded_audio_ms duration <= as_decoded_audio_ms stats.
Proof.
  unfold PlaybackValidator.observer_thresholds_satisfied. cbv zeta. intros H. rewrite !andb_true_iff in H. destruct_and!.
  repeat match goal with
  | H : (_ =? _) = true |- _ => apply Z.eqb_eq in H
  | H : (_ <=? _) = true |- _ => apply Z.leb_le in H
  end. by split_and!.
Qed.

(** C27. The evidence of an accepted run passes the check of the pipeline: with
    settings the tool accepts, a track that is long enough, statistics over the
    thresholds of the observer, a pause proved by its silence, a resume proved
    by four packets and probes that pass, the success evidence has none of the
    failures that the pipeline looks for. One thing the pipeline asks and the
    tool does not: that the service counted a pause boundary. *)
Theorem accepted_run_passes_pipeline (answer : nat -> forall c : Call, reply c) env config fuel v w w' metrics probe_metrics
    stats playback duration :
  from_env_map env = Ok config ->
  validate_live_test_video_duration duration v = Ok tt -> 0 <= duration <= u64_max ->
  PlaybackValidator.observer_thresholds_satisfied stats duration = true ->
  op_pause_rtp_silence_observed playback = true -> 4 <= op_resume_observed_packet_count playback ->
  validate_post_play_control_rpcs answer fuel v w = (w', Ok (metrics, probe_metrics)) ->
  1 <= twm_pause_media_boundary_count metrics -> 0 <= twm_track_packet_count probe_metrics ->
  Ci.validate_evidence (build_success_evidence config (mkOutcome (wo_contract w') stats playback duration
    (Some (PlaybackStabilityEvidence_from metrics)) (Some (PlaybackStabilityEvidence_from probe_metrics)))) = [].
Proof.
  intros Hconfig Hduration Hd Hstats Hsilent Hresumed Hpost Hpause Hprobe.
  apply accepted_config_is_constrained in Hconfig as [Hcpu Hhttp].
  apply LiveRunSpecs.post_play_accepts in Hpost as (Hflags & Hm & Hp & Hn).
  destruct (finished_metrics_pass _ _ Hm Hpause) as [Hpass Hfive].
  apply coverage_flags in Hflags. unfold required_coverage in Hflags. cbv zeta in Hflags. rewrite !Forall_cons in Hflags. cbn [fst] in Hflags.
  apply thresholds_pass in Hstats. rewrite same_required_audio in Hstats by done.
  unfold validate_live_test_video_duration in Hduration. unchain Hduration. destruct_and!.
  unfold Ci.validate_evidence. cbv zeta. no_failures; cbn -[Ci.required_decoded_audio_ms Ci.validate_playback_metrics Ci.validate_reconnect_probe_metrics
    pause_silence_evidence constrained_profile_configured slow_jittery_http_configured PlaybackStabilityEvidence_from].
  - done.
  - repeat match goal with H : _ = true |- _ => rewrite H end. done.
  - by apply require_at_least_nil.
  - by apply require_at_least_nil.
  - by apply require_at_least_nil.
  - by apply require_at_least_nil.
  - by apply require_zero_nil.
  - by apply require_zero_nil.
  - by apply require_zero_nil.
  - by apply require_ratio_nil.
  - unfold Ci.require_decoded_audio_duration. cbn -[Ci.required_decoded_audio_ms].
    match goal with H : (duration =? 0) = false |- _ => apply Z.eqb_neq in H end.
    rewrite (proj2 (Z.leb_gt duration 0)) by lia. by apply require_nil, Z.leb_le.
  - done.
  - done.
  - by eapply probe_metrics_pass.
Qed.
End Pipeline.

Module Samples.
Import HealthyRun LiveRunSpecs.Samples.

Definition staging_env : gmap string string := list_to_map
  [("OBSERVER_BOT_TOKEN", "observer"); ("BOT_TOKEN", "token"); ("APPLICATION_ID", "1"); ("TEST_GUILD_ID", "2");
   ("TEST_VOICE_CHANNEL_ID", "3"); ("TEST_VIDEO_ID", "video"); ("DISCORD_VOICE_SERVICE_URI", "http://127.0.0.1:50051");
   ("DISCORD_VOICE_SERVICE_YTMUSIC_ADDR", "http://127.0.0.1:50052"); ("LIVE_STAGING_PROFILE", "constrained-local");
   ("LIVE_STAGING_SERVICE_CPUS", "0.5"); ("LIVE_STAGING_CPU_CONTENTION_WORKERS", "2");
   ("LIVE_STAGING_HTTP_READ_DELAY_MS", "5"); ("LIVE_STAGING_HTTP_READ_JITTER_MS", "25")]%string.
Definition staging_config : StagingConfig := mkStagingConfig "1" "token" "observer" "2" "3" "video"
  "http://127.0.0.1:50051" "http://127.0.0.1:50052" "constrained-local" "0.5" 2 5 25.
(** Ninety seconds at the pace of the clock. *)
Definition steady_window : AudioTempoWindowEvidence := mkTempoWindow "steady" 50 1000 1000000 1000000 1 50.
Definition steady_stats : AudioValidationStats :=
  mkAudioStats 4500 OpusDurations_default 90000 90000 1000000 80000
    (mkArrivals (Metrics.mkDurationStats 4499 20 20 20 20 20) 0 0 0 0 0 0 0 0 0 0 [])
    (mkLongWindows 4000 3900 1000000 1000000 (mkWindowExtreme 0 0 0 0) (mkWindowExtreme 0 0 0 0))
    (mkShortWindows 4400 0 0 (Some steady_window) (Some steady_window)) f32_zero f32_zero (Some 1) (Some 4500).
Definition paused_and_resumed : ObserverPlaybackProof := mkPlaybackProof 600 false true true true 4 10000.

Lemma accepted_run_passes_pipeline_witness :
  exists w', validate_post_play_control_rpcs probe_answers 5 "video" (world played_contract) = (w', Ok (healthy_playback, healthy_probe)) /\
    Ci.validate_evidence (build_success_evidence staging_config (mkOutcome (wo_contract w') steady_stats paused_and_resumed 90000
      (Some (PlaybackStabilityEvidence_from healthy_playback)) (Some (PlaybackStabilityEvidence_from healthy_probe)))) = [].
Proof.
  assert (Hok : snd (validate_post_play_control_rpcs probe_answers 5 "video" (world played_contract)) = Ok (healthy_playback, healthy_probe))
    by (vm_compute; reflexivity).
  destruct (validate_post_play_control_rpcs probe_answers 5 "video" (world played_contract)) as [w' r] eqn:E. simpl in Hok. subst r.
  exists w'. split; [reflexivity|].
  apply (accepted_run_passes_pipeline probe_answers staging_env staging_config 5 "video" (world played_contract));
    [vm_compute; reflexivity|reflexivity|unfold u64_max; lia|vm_compute; reflexivity|reflexivity|vm_compute; discriminate
    |exact E|vm_compute; discriminate|vm_compute; discriminate].
Defined.
End Samples.
